(* ===== verification/_CoqProject ===== *)
-Q . S2P
Prelude.v
Bytes.v
Memory.v
NetChecksum.v
Pci.v
PciSpec.v
PciInv.v
PciCfg.v
PciReset.v
PciGuest.v
PciIrq.v
PciAdd.v
PciHot.v
PciCap.v
PciPath.v
E1000Hw.v
AqSpec.v
E1000State.v
E1000Eeprom.v
E1000Tx.v
E1000Rx.v
E1000Ring.v
Process.v
Message.v
Panel.v
Options.v
OptionsSpec.v
Discovery.v
DiscoverySpec.v
Demo.v
SendRcv.v
Firmware.v
AdminQ.v
E1000Mmio.v
Driver.v
E1000Inv.v
E1000Pci.v
PciMachine.v
CardIrq.v
E1000TxRing.v
E1000TxSpec.v
E1000Tso.v
E1000TsoRing.v
E1000RxSpec.v
E1000MmioSpec.v
NetQueue.v
Net.v
SaveVm.v
VmDesc.v
PciVm.v
VmState.v
E1000Life.v
Snapshot.v
SnapshotSpec.v
SnapshotCards.v
Link.v
LinkErrors.v
DriverSpec.v
Examples.v
ExamplesDev.v
ExamplesSys.v
ExamplesDrv.v
ExamplesPci.v
ExamplesHot.v
ExamplesIrq.v
ExamplesSnap.v
