(* ===== verification/Prelude.v ===== *)
(** * Virtual Firmware: a verification of the e1000 admin queue and its firmware

    ** The program

    The project adds an admin queue to the e1000 network card that QEMU emulates.
    A guest driver ([patches/]) posts command descriptors in a ring and writes the
    tail register. The device ([qemu-kvm-0.14.1/hw/e1000.c]) sends the command at
    the head to a firmware process over a stream socket, or carries it out itself
    when there is no firmware, and writes the descriptor back. The firmware
    ([vf_tx/vf_tx.c]) is a ThreadX thread. Device and firmware find each other
    through multicast announcements and exchange framed messages
    ([vf_tx/message.c], [panel.c], [opt.c]; the directory [hw/msg/] of the QEMU
    tree holds the same files). The card's transmit and receive paths use the
    checksums ([net/checksum.c]), the packet queue ([net/queue.c]) and the network
    layer ([net.c]) of QEMU. It is a PCI device ([hw/pci.c], [hw/pci_bridge.c],
    [hw/pci_host.c]) whose registers the guest maps and whose interrupt pin reaches
    a line through bridges, and its state is saved with that of the machine by
    [savevm.c].

    ** How code is modelled

    A C integer is a [Z] that is wrapped to its width where the source can leave
    it; a C object is a list of bytes with bounded loads and stores. Effectful code
    is written in the monad [M] of this file: a state, and an outcome that is a
    result ([Ret]), a fault of C such as an access outside an object ([UB]), or
    exhausted fuel ([OutOfFuel]). Definitions have the names of the functions they
    translate. [wp] is the total-correctness predicate of the monad: it excludes
    faults and exhausted fuel.

    Code outside the repository is a class: the operating system ([Process.OS],
    with the laws of a stream socket in [Message.StreamOS]), the kernel's
    allocators ([Driver.KernelMem]), guest physical memory ([Memory.PhysMem] and
    [PhysMemLaws]), the backend of a migration file ([SaveVm.ByteStore]), what the
    processors do around a snapshot ([Snapshot.Processors]), the mapping functions
    of PCI devices ([Pci.MapFuncs]), and the receive functions and sent callbacks of
    the network clients ([Net.NetClients]). Two more classes
    are interfaces between components: [AdminQ.MsgLink] is what the device uses of
    the messaging library and [Link] implements it with that library;
    [DriverSpec.AtqServer] is what the device promises the driver, with one
    instance for a device whose firmware is connected and one for a device without.

    ** The files

    - [Prelude], [Bytes], [Memory]: integers, the monad and its rules, record
      updates, byte order ([bswap.h]), windows of objects, guest memory.
    - [NetChecksum]: [net/checksum.c], and that inserted checksums verify.
    - [E1000Hw], [E1000State], [E1000Tx], [E1000Rx], [AdminQ], [E1000Mmio]: the
      device of [hw/e1000.c]: constants and descriptors, state and register
      handlers, transmission, reception, the admin queue, register dispatch, reset
      and start-up. [AqSpec]: the format and meaning of commands, shared by
      device, firmware and driver.
    - [E1000Ring]: what the two descriptor rings have in common. [E1000Eeprom]: the
      EEPROM and PHY protocols as a driver sees them. [E1000Inv]: the invariant that
      every operation of the device keeps. [E1000TxRing], [E1000TxSpec], [E1000Tso],
      [E1000TsoRing], [E1000RxSpec], [E1000MmioSpec]: what the device transmits,
      segments, receives, stores and signals.
    - [Pci]: configuration space, regions, bridges, pins, host bridge ports.
      [PciSpec], [PciInv]: well-formed trees of buses and coherent mappings, and
      that operations keep them. [PciCfg], [PciGuest]: configuration writes and the
      guest's accesses. [PciReset], [PciIrq]: resets, and the counts of interrupt
      lines. [PciAdd], [PciHot]: adding and removing devices and bridges.
      [PciCap]: capabilities. [PciPath]: the paths of devices. [PciMachine]: all
      of it in any order.
    - [E1000Pci]: the card as a PCI device, with its option ROM. [CardIrq]: several
      cards on one PCI system, with resets, arrivals and departures, their pins and the
      lines they share. [E1000Life]: the same with states of cards that are loaded.
    - [Process], [Message], [Panel], [Options], [Discovery] with [OptionsSpec] and
      [DiscoverySpec]: the messaging library of [vf_tx/]. [Demo], [SendRcv]: the programs
      [demo.c] and [sendrcv.c].
    - [Firmware]: [vf_tx.c]. [Link]: device, library and firmware composed.
      [LinkErrors]: what they do with messages they do not expect.
    - [Driver], [DriverSpec]: the admin queue of the guest driver as the patches
      0001, 0002 and 0003 leave it, running on the device model.
    - [NetQueue], [Net]: [net/queue.c] and [net.c].
    - [SaveVm], [VmDesc]: the buffered files and the interpreter of state
      descriptions of [savevm.c]. [PciVm], [VmState]: the saved state of a PCI
      device and of the card. [Snapshot]: the list of what a machine saves and the
      sections of a file. [SnapshotSpec], [SnapshotCards]: what a snapshot
      restores, and that of a machine with cards.
    - [Examples], [ExamplesDev], [ExamplesSys], [ExamplesDrv], [ExamplesPci],
      [ExamplesHot], [ExamplesIrq], [ExamplesSnap]: every property that has
      hypotheses, applied to a concrete state.

    ** What is shown

    - The path of a command: [Message.message_sequence_roundtrip] (framing),
      [Firmware.firmware_serves_commands], [Link.atq_ring_served] (device, library
      and firmware together), [AdminQ.atq_fallback_completes] and
      [Link.fallback_agrees_with_firmware] (no firmware), and on the driver's side
      [DriverSpec.init_adminq_works], [asq_commands_served], [watchdog_echo_passes].
    - The device: [E1000Life.device_invariant] for all runs, resets and loaded states
      included;
      [start_xmit_legacy], [start_xmit_tso], [tso_header_fields],
      [xmit_seg_in_bounds] for transmission; [e1000_receive_delivers],
      [e1000_receive_overrun], [e1000_receive_returns] for reception; registers,
      interrupts, filter, EEPROM and PHY in [E1000MmioSpec] and [E1000Eeprom].
    - The card in its machine: [PciMachine.machine_never_fails] for all runs of the
      PCI system, [card_started] for the guest's way to the registers,
      [config_write_read], [pin_change_or], [device_removed], [capability_added],
      [rom_patched]; [CardIrq.shared_line_level] joins the card's interrupt causes
      to the line the processor sees, for all runs in which no card with a raised pin
      is reset, removed or written in the ways that lose count.
    - Snapshots: [VmState.vmstate_e1000_roundtrip] for one card,
      [SnapshotCards.snapshot_restores_cards] for a whole machine through the
      section format, [loadvm_rejects_section] for files that do not fit.
    - Around the device: checksums, packet queue and VLAN delivery, options and
      discovery.
    - Faults of the code as it is: buffers that overflow ([process_tx_desc_overflow],
      [firmware_data_overflow], [aq_answer_overflow], [ReadOptions_overflow],
      [net_checksum_calculate_overread]), loops that do not end
      ([tso_zero_mss_diverges], [start_xmit_outside_ring_diverges],
      [e1000_receive_outside_ring_diverges], [firmware_stuck_on_long_message]), and
      the driver's ([init_queue_full], [clean_asq_leaves_ring],
      [oversized_buffer_unlocks], [watchdog_version_swapped]); interrupt lines that
      lose count ([device_reset_stuck], [intx_byte_write_stuck], [unplug_stuck]), and
      sections given to the wrong entry ([old_style_takes_instance_0]).

    ** Fuel

    The loops of [start_xmit] and [e1000_receive] take fuel because a guest can
    make them endless; the theorems ask for one unit per descriptor of the ring.
    The segmentation loop takes at most one round per byte of a descriptor when
    the segment size is not zero. A flush of the packet queue ends when the clients
    answer with a bounded number of packets, which [net_queue_flush_fifo] shows, and
    [flush_echo_diverges] that it need not end otherwise. The waiting loops of
    [announce], [locate] and of the firmware thread depend on the network and
    the theorems speak about their iterations. The driver's waiting loop is
    bounded by its time-out. Walks up the tree of PCI buses take one unit per bus,
    which is enough because a bus has a higher number than the one above it; walks
    along the capability list take 256, the size of the space they are in. Loading
    a snapshot takes one unit more than it has sections.

    ** Not modelled

    The command line and the monitor, the network and migration backends, the
    snapshots inside disk images: they are input and output with the host. Hot-plug
    requests of the guest (ACPI) and subsections of state descriptions: no device
    modelled here has any. The Windows branches, and the rest of QEMU, which the
    project does not change. Virtual processors do not run during the
    operations of devices, so nothing interleaves with them. Time passes only
    through the answers of the operating system. Of the driver, only the files and
    hooks that the patches contain. *)

From stdpp Require Export base gmap list strings numbers.
From Stdlib Require Export ZArith Lia.

Set Default Goal Selector "!".
Open Scope Z_scope.

(** ** Machine integers

    A C integer of [w] bits is a [Z]; arithmetic that may leave the width is
    followed by an explicit wrap-around. *)

Definition wrap (w z : Z) : Z := z `mod` 2 ^ w.
Definition u8 : Z → Z := wrap 8.
Definition u16 : Z → Z := wrap 16.
Definition u32 : Z → Z := wrap 32.
Definition u64 : Z → Z := wrap 64.

(** Conversion to a 32-bit two's complement [int]. *)
Definition s32 (z : Z) : Z := (z + 2 ^ 31) `mod` 2 ^ 32 - 2 ^ 31.

(** [v & mask] used as a C truth value. *)
Definition has_bits (v mask : Z) : bool := negb (Z.land v mask =? 0).

Declare Scope vf_scope.
Delimit Scope vf_scope with vf.
Notation "a '.&' b" := (Z.land a b) (at level 37, left associativity) : vf_scope.
Notation "a '.|' b" := (Z.lor a b) (at level 39, left associativity) : vf_scope.
Notation "a '.^' b" := (Z.lxor a b) (at level 38, left associativity) : vf_scope.
Notation "a '<<' b" := (Z.shiftl a b) (at level 36, left associativity) : vf_scope.
Notation "a '>>' b" := (Z.shiftr a b) (at level 36, left associativity) : vf_scope.
Notation "'.~' a" := (Z.lnot a) (at level 34, right associativity) : vf_scope.
Open Scope vf_scope.

(** Ranges: [in_w w z] says that [z] is a value of an unsigned [w]-bit type. *)
Definition in_w (w z : Z) : Prop := 0 ≤ z < 2 ^ w.

Create HintDb vf.

Lemma wrap_range w z : 0 ≤ w → in_w w (wrap w z).
Proof. intros. unfold in_w, wrap. apply Z.mod_pos_bound. lia. Qed.

Lemma wrap_small w z : in_w w z → wrap w z = z.
Proof. unfold in_w, wrap. intros. by apply Z.mod_small. Qed.

Lemma wrap_wrap w z : 0 ≤ w → wrap w (wrap w z) = wrap w z.
Proof. intros. by apply wrap_small, wrap_range. Qed.

Lemma u8_range z : 0 ≤ u8 z < 256.
Proof. by apply (wrap_range 8). Qed.
Lemma u16_range z : 0 ≤ u16 z < 65536.
Proof. by apply (wrap_range 16). Qed.
Lemma u32_range z : 0 ≤ u32 z < 4294967296.
Proof. by apply (wrap_range 32). Qed.
Lemma u64_range z : 0 ≤ u64 z < 18446744073709551616.
Proof. by apply (wrap_range 64). Qed.

Lemma u8_small z : 0 ≤ z < 256 → u8 z = z.
Proof. intros. by apply wrap_small. Qed.
Lemma u16_small z : 0 ≤ z < 65536 → u16 z = z.
Proof. intros. by apply wrap_small. Qed.
Lemma u32_small z : 0 ≤ z < 4294967296 → u32 z = z.
Proof. intros. by apply wrap_small. Qed.
Lemma u64_small z : 0 ≤ z < 18446744073709551616 → u64 z = z.
Proof. intros. by apply wrap_small. Qed.
Lemma s32_small z : 0 ≤ z < 2147483648 → s32 z = z.
Proof. intros. unfold s32. rewrite Z.mod_small; lia. Qed.

#[export] Hint Resolve u8_range u16_range u32_range u64_range : vf.

(** Wrap-around is compatible with addition. *)
Lemma wrap_add_l w x y : wrap w (wrap w x + y) = wrap w (x + y).
Proof. apply Zplus_mod_idemp_l. Qed.
Lemma wrap_add_r w x y : wrap w (x + wrap w y) = wrap w (x + y).
Proof. apply Zplus_mod_idemp_r. Qed.
Lemma u32_add_l x y : u32 (u32 x + y) = u32 (x + y).
Proof. apply wrap_add_l. Qed.
Lemma u32_add_r x y : u32 (x + u32 y) = u32 (x + y).
Proof. apply wrap_add_r. Qed.

(** [u_simpl] evaluates wrap-arounds of values that are known to be in range. *)
Ltac u_simpl :=
  repeat match goal with
  | |- context [u8 ?z] => rewrite (u8_small z) by lia
  | |- context [u16 ?z] => rewrite (u16_small z) by lia
  | |- context [u32 ?z] => rewrite (u32_small z) by lia
  | |- context [u64 ?z] => rewrite (u64_small z) by lia
  end.

(** *** Bitwise facts *)

Lemma land_le_r a b : 0 ≤ b → 0 ≤ Z.land a b ≤ b.
Proof.
  intros Hb. assert (Z.ldiff b a = b - Z.land a b) as Hd.
  { rewrite Z.land_comm, Z.sub_nocarry_ldiff.
    - apply Z.bits_inj'; intros n Hn. rewrite !Z.ldiff_spec, Z.land_spec.
      destruct (Z.testbit a n), (Z.testbit b n); done.
    - apply Z.bits_inj'; intros n Hn.
      rewrite Z.ldiff_spec, Z.land_spec, Z.bits_0.
      destruct (Z.testbit a n), (Z.testbit b n); done. }
  assert (0 ≤ Z.ldiff b a) by (apply Z.ldiff_nonneg; by left).
  assert (0 ≤ Z.land a b) by (apply Z.land_nonneg; by right). lia.
Qed.

Lemma land_le_l a b : 0 ≤ a → 0 ≤ Z.land a b ≤ a.
Proof. intros. rewrite Z.land_comm. by apply land_le_r. Qed.

Lemma in_w_testbit w z : 0 ≤ w →
  in_w w z ↔ 0 ≤ z ∧ ∀ i, w ≤ i → Z.testbit z i = false.
Proof.
  intros Hw. split.
  - intros Hz. split; [unfold in_w in Hz; lia|]. intros i Hi.
    rewrite <- (Z.mod_small z (2 ^ w)) by done. by apply Z.mod_pow2_bits_high.
  - intros [Hz Hi]. unfold in_w. split; [done|].
    assert (z = z `mod` 2 ^ w) as ->; [|apply Z.mod_pos_bound; lia].
    apply Z.bits_inj'. intros n Hn. destruct (decide (n < w)).
    + by rewrite Z.mod_pow2_bits_low.
    + rewrite Z.mod_pow2_bits_high by lia. apply Hi; lia.
Qed.

Lemma u8_in_w z : in_w 8 (u8 z).
Proof. by apply wrap_range. Qed.
Lemma u16_in_w z : in_w 16 (u16 z).
Proof. by apply wrap_range. Qed.
Lemma u32_in_w z : in_w 32 (u32 z).
Proof. by apply wrap_range. Qed.
Lemma lor_in_w w a b : 0 ≤ w → in_w w a → in_w w b → in_w w (Z.lor a b).
Proof.
  intros Hw. rewrite !in_w_testbit by done. intros [? Ha] [? Hb]. split.
  - by apply Z.lor_nonneg.
  - intros i Hi. by rewrite Z.lor_spec, Ha, Hb.
Qed.

Lemma lxor_in_w w a b : 0 ≤ w → in_w w a → in_w w b → in_w w (Z.lxor a b).
Proof.
  intros Hw. rewrite !in_w_testbit by done. intros [? Ha] [? Hb]. split.
  - apply Z.lxor_nonneg. lia.
  - intros i Hi. by rewrite Z.lxor_spec, Ha, Hb.
Qed.

Lemma land_in_w w a b : 0 ≤ w → in_w w a → in_w w (Z.land a b).
Proof.
  intros Hw. rewrite !in_w_testbit by done. intros [? Ha]. split.
  - apply Z.land_nonneg. by left.
  - intros i Hi. by rewrite Z.land_spec, Ha.
Qed.

(** A mask with a single bit tests that bit. *)
Lemma has_bits_pow2 v k : 0 ≤ k → has_bits v (2 ^ k) = Z.testbit v k.
Proof.
  intros Hk. unfold has_bits. destruct (Z.testbit v k) eqn:E.
  - destruct (Z.eqb_spec (Z.land v (2 ^ k)) 0) as [H|H]; [|done].
    apply (f_equal (λ z, Z.testbit z k)) in H.
    rewrite Z.land_spec, E, Z.pow2_bits_true, Z.bits_0 in H by lia. done.
  - replace (Z.land v (2 ^ k)) with 0; [done|].
    symmetry. apply Z.bits_inj'. intros n Hn. rewrite Z.land_spec, Z.bits_0.
    destruct (decide (n = k)) as [->|].
    + by rewrite E.
    + rewrite Z.pow2_bits_false by done. by destruct (Z.testbit v n).
Qed.

Lemma has_bits_true v m : has_bits v m = true ↔ Z.land v m ≠ 0.
Proof. unfold has_bits. rewrite negb_true_iff, Z.eqb_neq. done. Qed.
Lemma has_bits_false v m : has_bits v m = false ↔ Z.land v m = 0.
Proof. unfold has_bits. rewrite negb_false_iff, Z.eqb_eq. done. Qed.

(** ** Outcomes

    What executing a piece of C may do besides returning: meet undefined
    behaviour or call [abort()], or (for a loop bounded by fuel) use up the
    bound. *)

Inductive fault :=
| NullDeref
| UseAfterFree
| DoubleFree
| OutOfBounds
| UninitRead
| BadUnlock
| Aborted.

#[export] Instance fault_eq_dec : EqDecision fault.
Proof. solve_decision. Defined.

Inductive outcome (S A : Type) :=
| Ret (a : A) (s : S)
| UB (f : fault)
| OutOfFuel.
Arguments Ret {S A} a s.
Arguments UB {S A} f.
Arguments OutOfFuel {S A}.

(** Stateful C code over a state type [S] that returns an [A]. *)
Definition M (S A : Type) : Type := S → outcome S A.

#[export] Instance M_ret S : MRet (M S) := λ A a s, Ret a s.
#[export] Instance M_bind S : MBind (M S) := λ A B k m s,
  match m s with
  | Ret a s' => k a s'
  | UB f => UB f
  | OutOfFuel => OutOfFuel
  end.

Definition gets {S A} (f : S → A) : M S A := λ s, Ret (f s) s.
Definition modify {S} (f : S → S) : M S unit := λ s, Ret () (f s).
Definition fail {S A} (f : fault) : M S A := λ _, UB f.
Definition no_fuel {S A} : M S A := λ _, OutOfFuel.

(** [oob o] reads an access result: [None] is an access outside the object. *)
Definition oob {S A} (o : option A) : M S A :=
  match o with Some a => mret a | None => fail OutOfBounds end.

(** *** Weakest preconditions

    [wp] is total: the code returns, without undefined behaviour, in a state
    that satisfies the postcondition. [wlp] also accepts running out of fuel. *)

Definition wp {S A} (m : M S A) (Q : A → S → Prop) (s : S) : Prop :=
  match m s with Ret a s' => Q a s' | _ => False end.

Definition wlp {S A} (m : M S A) (Q : A → S → Prop) (s : S) : Prop :=
  match m s with Ret a s' => Q a s' | UB _ => False | OutOfFuel => True end.

Section wp_rules.
Context {S : Type}.
Implicit Types s : S.

Lemma wp_ret {A} (a : A) (Q : A → S → Prop) s : Q a s → wp (mret a) Q s.
Proof. done. Qed.

Lemma wp_bind {A B} (m : M S A) (k : A → M S B) Q s :
  wp m (λ a, wp (k a) Q) s → wp (m ≫= k) Q s.
Proof. unfold wp, mbind, M_bind. by destruct (m s). Qed.

Lemma wp_bind_inv {A B} (m : M S A) (k : A → M S B) Q s :
  wp (m ≫= k) Q s → wp m (λ a, wp (k a) Q) s.
Proof. unfold wp, mbind, M_bind. by destruct (m s). Qed.

Lemma wp_mono {A} (m : M S A) (Q Q' : A → S → Prop) s :
  wp m Q s → (∀ a s', Q a s' → Q' a s') → wp m Q' s.
Proof. unfold wp. destruct (m s); naive_solver. Qed.

Lemma wp_and {A} (m : M S A) (Q Q' : A → S → Prop) s :
  wp m Q s → wp m Q' s → wp m (λ a s', Q a s' ∧ Q' a s') s.
Proof. unfold wp. by destruct (m s). Qed.

Lemma wp_when {A} (m : M S A) (Q Q' : A → S → Prop) (H : Prop) s :
  wp m Q s → (H → wp m Q' s) → wp m (λ a s', Q a s' ∧ (H → Q' a s')) s.
Proof. unfold wp. destruct (m s); [|done..]. auto. Qed.

Lemma wp_gets {A} (f : S → A) Q s : Q (f s) s → wp (gets f) Q s.
Proof. done. Qed.

Lemma wp_modify (f : S → S) Q s : Q () (f s) → wp (modify f) Q s.
Proof. done. Qed.

Lemma wp_Ret {A} (m : M S A) Q s :
  wp m Q s ↔ ∃ a s', m s = Ret a s' ∧ Q a s'.
Proof.
  unfold wp. destruct (m s) as [a s'| |]; [|naive_solver..].
  split; [eauto|]. intros (?&?&[= -> ->]&?). done.
Qed.

Lemma wp_unit (m : M S unit) (Q : S → Prop) s :
  wp m (λ _, Q) s → ∃ s', m s = Ret () s' ∧ Q s'.
Proof. intros ([]&s'&?&?)%wp_Ret. eauto. Qed.

(** The outcome of a sequence is that of its second part when the first part
    returns; [bind_outcome] steps through a body whose outcome is a fault or
    [OutOfFuel]. *)
Lemma bind_outcome {A B} (m : M S A) (k : A → M S B) o s :
  wp m (λ a s', k a s' = o) s → (m ≫= k) s = o.
Proof. unfold wp, mbind, M_bind. by destruct (m s). Qed.

(** A first part that does not return is the outcome of the sequence. *)
Lemma bind_fault {A B} (m : M S A) (k : A → M S B) f s : m s = UB f → (m ≫= k) s = UB f.
Proof. unfold mbind, M_bind. by intros ->. Qed.

Lemma wp_wlp {A} (m : M S A) Q s : wp m Q s → wlp m Q s.
Proof. unfold wp, wlp. by destruct (m s). Qed.

Lemma wlp_ret {A} (a : A) (Q : A → S → Prop) s : Q a s → wlp (mret a) Q s.
Proof. done. Qed.

Lemma wlp_bind {A B} (m : M S A) (k : A → M S B) Q s :
  wlp m (λ a, wlp (k a) Q) s → wlp (m ≫= k) Q s.
Proof. unfold wlp, mbind, M_bind. by destruct (m s). Qed.

Lemma wlp_mono {A} (m : M S A) (Q Q' : A → S → Prop) s :
  wlp m Q s → (∀ a s', Q a s' → Q' a s') → wlp m Q' s.
Proof. unfold wlp. destruct (m s); naive_solver. Qed.
End wp_rules.

(** Running [m] on a part of a bigger state. *)
Definition zoom {S T A} (get : T → S) (set : S → T → T) (m : M S A) : M T A :=
  λ t, match m (get t) with
       | Ret a s => Ret a (set s t)
       | UB f => UB f
       | OutOfFuel => OutOfFuel
       end.

Lemma wp_zoom {S T A} (get : T → S) (set : S → T → T) (m : M S A) Q t :
  wp m (λ a s, Q a (set s t)) (get t) → wp (zoom get set m) Q t.
Proof. unfold wp, zoom. by destruct (m (get t)). Qed.

(** [ens m Q s]: if [m] returns, its result and final state satisfy [Q]. It is
    used for invariants, where the other outcomes are not the question. *)
Definition ens {S A} (m : M S A) (Q : A → S → Prop) (s : S) : Prop :=
  match m s with Ret a s' => Q a s' | _ => True end.

Section ens_rules.
Context {S : Type}.
Implicit Types s : S.

Lemma ens_ret {A} (a : A) (Q : A → S → Prop) s : Q a s → ens (mret a) Q s.
Proof. done. Qed.

Lemma ens_bind {A B} (m : M S A) (k : A → M S B) Q s :
  ens m (λ a, ens (k a) Q) s → ens (m ≫= k) Q s.
Proof. unfold ens, mbind, M_bind. by destruct (m s). Qed.

Lemma ens_mono {A} (m : M S A) (Q Q' : A → S → Prop) s :
  ens m Q s → (∀ a s', Q a s' → Q' a s') → ens m Q' s.
Proof. unfold ens. destruct (m s); naive_solver. Qed.

Lemma ens_gets {A} (f : S → A) Q s : Q (f s) s → ens (gets f) Q s.
Proof. done. Qed.

Lemma ens_modify (f : S → S) Q s : Q () (f s) → ens (modify f) Q s.
Proof. done. Qed.

Lemma ens_oob {A} (o : option A) (Q : A → S → Prop) s :
  (∀ a, o = Some a → Q a s) → ens (oob o) Q s.
Proof. destruct o; unfold ens, oob; simpl; auto. Qed.

Lemma ens_no_fuel {A} (Q : A → S → Prop) s : ens no_fuel Q s.
Proof. done. Qed.

Lemma ens_fail {A} f (Q : A → S → Prop) s : ens (fail f) Q s.
Proof. done. Qed.

Lemma ens_elim {A} (m : M S A) Q s a s' : ens m Q s → m s = Ret a s' → Q a s'.
Proof. unfold ens. intros HQ Hm. by rewrite Hm in HQ. Qed.

Lemma ens_intro {A} (m : M S A) (Q : A → S → Prop) s :
  (∀ a s', m s = Ret a s' → Q a s') → ens m Q s.
Proof. unfold ens. destruct (m s); auto. Qed.

Lemma wp_ens {A} (m : M S A) Q s : wp m Q s → ens m Q s.
Proof. unfold wp, ens. by destruct (m s). Qed.

Lemma wp_oob {A} (o : option A) (Q : A → S → Prop) s a :
  o = Some a → Q a s → wp (oob o) Q s.
Proof. by intros ->. Qed.
End ens_rules.

Lemma ens_zoom {S T A} (get : T → S) (set : S → T → T) (m : M S A) Q t :
  ens m (λ a s, Q a (set s t)) (get t) → ens (zoom get set m) Q t.
Proof. unfold ens, zoom. by destruct (m (get t)). Qed.

(** One step of symbolic execution. *)
Ltac wp_step :=
  match goal with
  | |- wp (mret _) _ _ => apply wp_ret
  | |- wp (_ ≫= _) _ _ => apply wp_bind
  | |- wp (gets _) _ _ => apply wp_gets
  | |- wp (modify _) _ _ => apply wp_modify
  | |- wp (zoom _ _ _) _ _ => apply wp_zoom
  | |- ens (mret _) _ _ => apply ens_ret
  | |- ens (_ ≫= _) _ _ => apply ens_bind
  | |- ens (gets _) _ _ => apply ens_gets
  | |- ens (modify _) _ _ => apply ens_modify
  | |- ens no_fuel _ _ => apply ens_no_fuel
  | |- ens (fail _) _ _ => apply ens_fail
  | |- ens (oob _) _ _ => apply ens_oob; intros
  end.
Ltac wp_steps := repeat (wp_step; cbv beta).

(** ** Record update

    [s <| f := v |>] is the C assignment [s->f = v], [s <| f ::= g |>] applies
    [g] to the field. A record type provides its eta expansion; the update of
    one field is derived from it. *)

Class Eta (R : Type) := eta : R → R.
Class Update {R T : Type} (get : R → T) := update : (T → T) → R → R.

Ltac derive_update :=
  match goal with
  | |- @Update ?R ?T ?get =>
      let f := fresh in let r := fresh in
      unfold Update; intros f r;
      let i := constr:(_ : Eta R) in
      let i := eval hnf in i in
      let e := eval cbv beta in (i r) in
      match eval pattern (get r) in e with
      | ?h _ => let b := eval cbv beta in (h (f (get r))) in exact b
      end
  end.
#[export] Hint Extern 1 (Update _) => derive_update : typeclass_instances.

Notation "r '<|' p ':=' v '|>'" := (update (get := p) (λ _, v) r)
  (at level 12, left associativity) : vf_scope.
Notation "r '<|' p '::=' f '|>'" := (update (get := p) f r)
  (at level 12, left associativity) : vf_scope.
