(* ===== verification/Bytes.v ===== *)
(** * Bytes, byte order and C objects

    Byte sequences as lists of [Z], their little-endian value (the host is
    little-endian, as the x86 hosts the project targets), the unaligned
    accessors of [bswap.h], and bounded loads and stores in a C object. *)

From S2P Require Import Prelude.

(** ** Byte lists *)

Definition byte_ok (b : Z) : Prop := 0 ≤ b < 256.
Definition bytes_ok (l : list Z) : Prop := Forall byte_ok l.

Fixpoint le_bytes (n : nat) (v : Z) : list Z :=
  match n with
  | O => []
  | S n => v `mod` 256 :: le_bytes n (v / 256)
  end.

Fixpoint le_val (l : list Z) : Z :=
  match l with
  | [] => 0
  | b :: l => b + 256 * le_val l
  end.

Definition be_bytes (n : nat) (v : Z) : list Z := reverse (le_bytes n v).
Definition be_val (l : list Z) : Z := le_val (reverse l).

Lemma length_le_bytes n v : length (le_bytes n v) = n.
Proof. revert v. induction n; intros; simpl; [done|]. by rewrite IHn. Qed.

Lemma length_be_bytes n v : length (be_bytes n v) = n.
Proof. unfold be_bytes. by rewrite length_reverse, length_le_bytes. Qed.

Lemma le_bytes_ok n v : bytes_ok (le_bytes n v).
Proof.
  revert v. induction n; intros; simpl; constructor.
  - apply Z.mod_pos_bound. lia.
  - apply IHn.
Qed.

Lemma be_bytes_ok n v : bytes_ok (be_bytes n v).
Proof. unfold be_bytes, bytes_ok. apply Forall_reverse, le_bytes_ok. Qed.

Lemma le_val_bytes n v : le_val (le_bytes n v) = v `mod` 256 ^ Z.of_nat n.
Proof.
  revert v. induction n; intros; simpl le_bytes; simpl le_val.
  - by rewrite Z.mod_1_r.
  - rewrite IHn, Nat2Z.inj_succ, Z.pow_succ_r by lia.
    rewrite Z.rem_mul_r by lia. lia.
Qed.

Lemma le_bytes_val l : bytes_ok l → le_bytes (length l) (le_val l) = l.
Proof.
  induction 1 as [|b l Hb Hl IH]; simpl; [done|]. unfold byte_ok in Hb. f_equal.
  - rewrite Z.mul_comm, Z.mod_add by lia. apply Z.mod_small. lia.
  - rewrite Z.mul_comm, Z.div_add by lia. rewrite Z.div_small by lia. by simpl.
Qed.

Lemma le_val_range l : bytes_ok l → 0 ≤ le_val l < 256 ^ Z.of_nat (length l).
Proof.
  induction 1 as [|b l Hb Hl IH]; [simpl; lia|].
  change (length (b :: l)) with (S (length l)).
  rewrite Nat2Z.inj_succ, Z.pow_succ_r by lia. simpl.
  unfold byte_ok in Hb. lia.
Qed.

Lemma be_val_bytes n v : be_val (be_bytes n v) = v `mod` 256 ^ Z.of_nat n.
Proof. unfold be_val, be_bytes. by rewrite reverse_involutive, le_val_bytes. Qed.

Lemma be_bytes_val l : bytes_ok l → be_bytes (length l) (be_val l) = l.
Proof.
  intros Hl. unfold be_val, be_bytes.
  rewrite <- (length_reverse l), le_bytes_val.
  - apply reverse_involutive.
  - by apply Forall_reverse.
Qed.

Lemma be_val_range l : bytes_ok l → 0 ≤ be_val l < 256 ^ Z.of_nat (length l).
Proof.
  intros. unfold be_val. rewrite <- (length_reverse l).
  by apply le_val_range, Forall_reverse.
Qed.

Lemma bytes_ok_app l1 l2 : bytes_ok (l1 ++ l2) ↔ bytes_ok l1 ∧ bytes_ok l2.
Proof. apply Forall_app. Qed.

Lemma bytes_ok_take n l : bytes_ok l → bytes_ok (take n l).
Proof. apply Forall_take. Qed.
Lemma bytes_ok_drop n l : bytes_ok l → bytes_ok (drop n l).
Proof. apply Forall_drop. Qed.
Lemma bytes_ok_zeros n : bytes_ok (replicate n 0).
Proof. apply Forall_replicate. unfold byte_ok. lia. Qed.

Lemma le_val_app l1 l2 :
  le_val (l1 ++ l2) = le_val l1 + 256 ^ Z.of_nat (length l1) * le_val l2.
Proof.
  induction l1 as [|b l1 IH]; [simpl; lia|].
  change (length (b :: l1)) with (S (length l1)).
  rewrite Nat2Z.inj_succ, Z.pow_succ_r by lia.
  change ((b :: l1) ++ l2) with (b :: (l1 ++ l2)). cbn [le_val].
  rewrite IH. ring.
Qed.

#[export] Hint Resolve le_bytes_ok be_bytes_ok bytes_ok_take bytes_ok_drop bytes_ok_zeros : vf.

(** ** bswap.h

    The byte-swap functions and the unaligned accessors, written with the
    shifts and masks of the source. *)

Definition bswap16 (x : Z) : Z :=
  u16 (((x .& 0x00ff) << 8) .| ((x .& 0xff00) >> 8)).

Definition bswap32 (x : Z) : Z :=
  u32 (((x .& 0x000000ff) << 24) .| ((x .& 0x0000ff00) << 8)
       .| ((x .& 0x00ff0000) >> 8) .| ((x .& 0xff000000) >> 24)).

Definition cpu_to_be16wu (v : Z) : list Z := [u8 (v >> 8); u8 (v .& 0xff)].
Definition cpu_to_be32wu (v : Z) : list Z :=
  [u8 (v >> 24); u8 (v >> 16); u8 (v >> 8); u8 (v .& 0xff)].
Definition be32_to_cpupu (p : list Z) : Z :=
  match p with
  | [p0; p1; p2; p3] => p3 .| (p2 << 8) .| (p1 << 16) .| (p0 << 24)
  | _ => 0
  end.

(** [be16_to_cpup p] loads the host-order word at [p] and swaps it. *)
Definition be16_to_cpup (p : list Z) : Z := bswap16 (le_val p).

Lemma u8_shiftr v k : 0 ≤ k → u8 (v >> k) = (v / 2 ^ k) `mod` 256.
Proof. intros. unfold u8, wrap. by rewrite Z.shiftr_div_pow2. Qed.

Lemma u8_land v : u8 (v .& 0xff) = v `mod` 256.
Proof.
  unfold u8, wrap. change 0xff with (Z.ones 8). rewrite Z.land_ones by lia.
  change (2 ^ 8) with 256. apply Z.mod_mod. lia.
Qed.

Lemma cpu_to_be16wu_spec v : cpu_to_be16wu v = be_bytes 2 v.
Proof.
  unfold cpu_to_be16wu. rewrite u8_land, u8_shiftr by lia.
  unfold be_bytes. cbn [le_bytes]. by rewrite reverse_cons.
Qed.

Lemma cpu_to_be32wu_spec v : cpu_to_be32wu v = be_bytes 4 v.
Proof.
  unfold cpu_to_be32wu. rewrite u8_land, !u8_shiftr by lia.
  unfold be_bytes. cbn [le_bytes]. rewrite !Z.div_div by lia.
  by rewrite !reverse_cons.
Qed.

(** Disjoint bit fields add up. *)
Lemma lor_shiftl_add a b k : 0 ≤ k → 0 ≤ a < 2 ^ k → a .| (b << k) = a + 2 ^ k * b.
Proof.
  intros Hk Ha. rewrite <- Z.lxor_lor, <- Z.add_nocarry_lxor.
  - rewrite Z.shiftl_mul_pow2 by done. lia.
  - apply Z.bits_inj'. intros n Hn. rewrite Z.land_spec, Z.bits_0.
    destruct (decide (n < k)).
    + rewrite Z.shiftl_spec_low by lia. apply andb_false_r.
    + rewrite <- (Z.mod_small a (2 ^ k)) by lia.
      by rewrite Z.mod_pow2_bits_high by lia.
  - apply Z.bits_inj'. intros n Hn. rewrite Z.land_spec, Z.bits_0.
    destruct (decide (n < k)).
    + rewrite Z.shiftl_spec_low by lia. apply andb_false_r.
    + rewrite <- (Z.mod_small a (2 ^ k)) by lia.
      by rewrite Z.mod_pow2_bits_high by lia.
Qed.

Lemma be32_to_cpupu_spec p :
  bytes_ok p → length p = 4%nat → be32_to_cpupu p = be_val p.
Proof.
  intros Hok Hlen. destruct p as [|p0 [|p1 [|p2 [|p3 [|]]]]]; try done.
  unfold be32_to_cpupu, be_val. rewrite !reverse_cons. cbn [app reverse rev_append le_val].
  unfold bytes_ok, byte_ok in Hok. rewrite !Forall_cons_iff in Hok.
  destruct Hok as (?&?&?&?&_).
  rewrite (lor_shiftl_add p3 p2 8), (lor_shiftl_add _ p1 16),
    (lor_shiftl_add _ p0 24) by lia.
  lia.
Qed.

Lemma land_shift_mod x k n : 0 ≤ k → 0 ≤ n →
  (x .& (Z.ones n << k)) >> k = (x / 2 ^ k) `mod` 2 ^ n.
Proof.
  intros. rewrite <- Z.land_ones, <- Z.shiftr_div_pow2 by done.
  rewrite Z.shiftr_land, Z.shiftr_shiftl_l, Z.sub_diag, Z.shiftl_0_r by done. done.
Qed.

Lemma be16_to_cpup_spec p :
  bytes_ok p → length p = 2%nat → be16_to_cpup p = be_val p.
Proof.
  intros Hok Hlen. destruct p as [|p0 [|p1 [|]]]; try done.
  unfold be16_to_cpup, bswap16, be_val. rewrite reverse_cons.
  cbn [app reverse rev_append le_val].
  unfold bytes_ok, byte_ok in Hok. rewrite !Forall_cons_iff in Hok.
  destruct Hok as (?&?&_).
  set (x := p0 + 256 * (p1 + 256 * 0)).
  assert (x .& 0x00ff = p0) as ->.
  { change 0x00ff with (Z.ones 8). rewrite Z.land_ones by lia. unfold x.
    rewrite Z.mul_comm, Z.mod_add by lia. by apply Z.mod_small. }
  assert ((x .& 0xff00) >> 8 = p1) as ->.
  { change 0xff00 with (Z.ones 8 << 8). rewrite land_shift_mod by lia. unfold x.
    rewrite Z.mul_comm, Z.div_add, Z.div_small by lia.
    rewrite Z.mod_small; lia. }
  rewrite Z.lor_comm, lor_shiftl_add by lia. rewrite u16_small; lia.
Qed.

(** Values read through the accessors are in range. *)
Lemma be16_to_cpup_range p : 0 ≤ be16_to_cpup p < 65536.
Proof. apply u16_range. Qed.

(** ** C objects

    [store b off l] writes the bytes [l] into the object [b] at offset [off];
    [None] is a write outside the object. *)

Definition store (b : list Z) (off : nat) (l : list Z) : option (list Z) :=
  if decide (off + length l ≤ length b)%nat
  then Some (take off b ++ l ++ drop (off + length l) b) else None.

Definition load (b : list Z) (off n : nat) : option (list Z) :=
  if decide (off + n ≤ length b)%nat then Some (take n (drop off b)) else None.

Lemma store_length b off l b' : store b off l = Some b' → length b' = length b.
Proof.
  unfold store. intros. case_decide; simplify_eq.
  rewrite !length_app, length_take, length_drop. lia.
Qed.

Lemma store_ok b off l b' :
  bytes_ok b → bytes_ok l → store b off l = Some b' → bytes_ok b'.
Proof.
  unfold store. intros. case_decide; simplify_eq.
  rewrite !bytes_ok_app. auto with vf.
Qed.

Lemma store_in b off l :
  (off + length l ≤ length b)%nat →
  store b off l = Some (take off b ++ l ++ drop (off + length l) b).
Proof. intros. unfold store. by rewrite decide_True by lia. Qed.

Lemma store_out b off l : (length b < off + length l)%nat → store b off l = None.
Proof. intros. unfold store. by rewrite decide_False by lia. Qed.

Lemma load_store b off l b' :
  store b off l = Some b' → load b' off (length l) = Some l.
Proof.
  intros Hs. pose proof (store_length _ _ _ _ Hs). unfold store in Hs.
  case_decide; simplify_eq. unfold load. rewrite decide_True by lia.
  rewrite drop_app_ge by (rewrite length_take; lia).
  rewrite length_take, Nat.min_l, Nat.sub_diag, drop_0 by lia.
  by rewrite take_app_length.
Qed.

Lemma load_in b off n :
  (off + n ≤ length b)%nat → load b off n = Some (take n (drop off b)).
Proof. intros. unfold load. by rewrite decide_True. Qed.

Lemma load_length b off n l : load b off n = Some l → length l = n.
Proof.
  unfold load. intros. case_decide; simplify_eq.
  rewrite length_take, length_drop. lia.
Qed.

Lemma load_ok b off n l : bytes_ok b → load b off n = Some l → bytes_ok l.
Proof. unfold load. intros. case_decide; simplify_eq. auto with vf. Qed.

(** Writing the whole of an object replaces it. *)
Lemma store_all b l : length l = length b → store b 0 l = Some l.
Proof.
  intros H. rewrite store_in by lia. rewrite take_0, Nat.add_0_l, drop_ge by lia.
  by rewrite app_nil_r.
Qed.
