(* ===== verification/Memory.v ===== *)
(** * Windows of C objects and guest physical memory

    Lemmas on stores seen through a window of an object, and the interface
    through which the device model reaches guest memory
    ([cpu_physical_memory_read] and [cpu_physical_memory_write]): what the
    device relies on is stated as the laws of a class, and a byte-addressed RAM
    is an instance. *)

From S2P Require Import Prelude Bytes.

(** ** Windows *)

Lemma be16_split c : 0 ≤ c < 65536 → 256 * u8 (c >> 8) + u8 (c .& 0xff) = c.
Proof.
  intros. rewrite u8_shiftr, u8_land by lia. change (2 ^ 8) with 256.
  rewrite (Z.mod_small (c / 256)).
  - symmetry. apply Z.div_mod. lia.
  - split; [apply Z.div_pos; lia|apply Z.div_lt_upper_bound; lia].
Qed.

(** A store seen through a window of the object that contains it, or that ends
    before it. *)
Lemma store_window b off l b' k n :
  store b off l = Some b' → (k ≤ off)%nat → (off + length l ≤ k + n)%nat →
  (k + n ≤ length b)%nat →
  store (take n (drop k b)) (off - k) l = Some (take n (drop k b')).
Proof.
  intros Hs ???. unfold store in Hs. case_decide; simplify_eq.
  rewrite store_in by (rewrite length_take, length_drop; lia). f_equal.
  rewrite drop_app_le by (rewrite length_take; lia).
  rewrite !skipn_firstn_comm.
  rewrite take_app_ge by (rewrite length_take, length_drop; lia).
  rewrite length_take, length_drop, Nat.min_l by lia.
  rewrite take_app_ge by lia. rewrite take_take, Nat.min_l by lia.
  rewrite !drop_drop. do 2 f_equal. f_equal; [lia|f_equal; lia].
Qed.

Lemma store_before b off l b' k n :
  store b off l = Some b' → (k + n ≤ off)%nat → take n (drop k b') = take n (drop k b).
Proof.
  intros Hs ?. unfold store in Hs. case_decide; simplify_eq.
  rewrite drop_app_le by (rewrite length_take; lia).
  rewrite take_app_le by (rewrite length_drop, length_take; lia).
  by rewrite skipn_firstn_comm, take_take, Nat.min_l by lia.
Qed.

(** ** Deciding [bytes_ok] by computation *)

Definition bytes_okb (l : list Z) : bool := forallb (λ b, (0 <=? b) && (b <? 256)) l.

Lemma bytes_okb_ok l : bytes_okb l = true → bytes_ok l.
Proof.
  unfold bytes_okb. intros H. apply Forall_forall. intros b Hb.
  rewrite forallb_forall in H. specialize (H b).
  apply H in Hb. unfold byte_ok. lia.
Qed.

(** ** Guest physical memory *)

(** The byte ranges [a, a+n) and [b, b+k) of the 64-bit address space have no
    address in common. *)
Definition range_disjoint (a : Z) (n : nat) (b : Z) (k : nat) : Prop :=
  ∀ i j, 0 ≤ i < Z.of_nat n → 0 ≤ j < Z.of_nat k → u64 (a + i) ≠ u64 (b + j).

Class PhysMem (X : Type) := {
  phys_read : X → Z → nat → list Z;
  phys_write : X → Z → list Z → X;
}.

Class PhysMemLaws (X : Type) `{PhysMem X} := {
  phys_read_length m a n : length (phys_read m a n) = n;
  phys_read_ok m a n : bytes_ok (phys_read m a n);
  phys_read_write_eq m a l :
    bytes_ok l → Z.of_nat (length l) ≤ 2 ^ 64 →
    phys_read (phys_write m a l) a (length l) = l;
  phys_read_write_ne m a l b n :
    range_disjoint b n a (length l) → phys_read (phys_write m a l) b n = phys_read m b n;
  phys_read_app m a n k :
    phys_read m a (n + k) = phys_read m a n ++ phys_read m (a + Z.of_nat n) k;
  phys_write_back m a n b k :
    phys_read (phys_write m a (phys_read m a n)) b k = phys_read m b k;
  phys_read_u64 m a n : phys_read m (u64 a) n = phys_read m a n;
}.

(** *** Byte-addressed RAM *)

Definition ram : Type := gmap Z Z.

Fixpoint ram_read (m : gmap Z Z) (a : Z) (n : nat) : list Z :=
  match n with
  | O => []
  | S n => u8 (default 0 (m !! u64 a)) :: ram_read m (a + 1) n
  end.

Fixpoint ram_write (m : gmap Z Z) (a : Z) (l : list Z) : gmap Z Z :=
  match l with
  | [] => m
  | b :: l => ram_write (<[u64 a := b]> m) (a + 1) l
  end.

#[export] Instance ram_physmem : PhysMem ram :=
  {| phys_read := ram_read; phys_write := ram_write |}.

Lemma ram_write_lookup_ne m a l x :
  (∀ j, 0 ≤ j < Z.of_nat (length l) → x ≠ u64 (a + j)) →
  ram_write m a l !! x = m !! x.
Proof.
  revert m a. induction l as [|b l IH]; intros m a Hx; [done|]. simpl.
  rewrite IH.
  - apply lookup_insert_ne. specialize (Hx 0). rewrite Z.add_0_r in Hx.
    apply not_eq_sym, Hx. simpl. lia.
  - intros j Hj. replace (a + 1 + j) with (a + (1 + j)) by lia. apply Hx. simpl. lia.
Qed.

Lemma ram_read_ext m m' a n :
  (∀ i, 0 ≤ i < Z.of_nat n → m !! u64 (a + i) = m' !! u64 (a + i)) →
  ram_read m a n = ram_read m' a n.
Proof.
  revert a. induction n as [|n IH]; intros a Hx; [done|]. simpl. f_equal.
  - specialize (Hx 0). rewrite Z.add_0_r in Hx. rewrite Hx by lia. done.
  - apply IH. intros i Hi. replace (a + 1 + i) with (a + (1 + i)) by lia. apply Hx. lia.
Qed.

Lemma u64_offset_inj a i j :
  0 ≤ i < 2 ^ 64 → 0 ≤ j < 2 ^ 64 → u64 (a + i) = u64 (a + j) → i = j.
Proof.
  intros Hi Hj H. unfold u64, wrap in H.
  assert (((a + i) - (a + j)) `mod` 2 ^ 64 = 0) as H0.
  { rewrite Zminus_mod, H, Z.sub_diag. done. }
  apply Z.mod_divide in H0 as [k Hk]; [|lia]. nia.
Qed.

Lemma ram_read_write_eq m a l :
  bytes_ok l → Z.of_nat (length l) ≤ 2 ^ 64 →
  ram_read (ram_write m a l) a (length l) = l.
Proof.
  revert m a. induction l as [|b l IH]; intros m a Hok Hlen; [done|].
  apply Forall_cons_iff in Hok as [Hb Hok]. cbn [length] in Hlen.
  cbn [ram_read ram_write length]. f_equal.
  - rewrite ram_write_lookup_ne, lookup_insert_eq.
    + by apply u8_small.
    + intros j Hj. rewrite <- (Z.add_0_r a) at 1.
      replace (a + 1 + j) with (a + (1 + j)) by lia. intros E.
      apply u64_offset_inj in E; lia.
  - apply IH; [done|lia].
Qed.

Lemma ram_read_app m a n k :
  ram_read m a (n + k) = ram_read m a n ++ ram_read m (a + Z.of_nat n) k.
Proof.
  revert a. induction n as [|n IH]; intros a; simpl.
  - by rewrite Z.add_0_r.
  - rewrite IH. do 2 f_equal. f_equal. lia.
Qed.

(** Writing back what was read changes no byte. *)
Lemma ram_read_bytes m m' a n :
  (∀ x, u8 (default 0 (m !! x)) = u8 (default 0 (m' !! x))) → ram_read m a n = ram_read m' a n.
Proof.
  intros Hx. revert a. induction n as [|n IH]; intros a; simpl; [done|]. by rewrite Hx, IH.
Qed.

Lemma ram_read_addr m a b n : u64 a = u64 b → ram_read m a n = ram_read m b n.
Proof.
  revert a b. induction n as [|n IH]; intros a b E; [done|]. simpl. rewrite E. f_equal.
  apply IH. unfold u64 in *. rewrite <- (wrap_add_l 64 a), <- (wrap_add_l 64 b). by rewrite E.
Qed.

Lemma ram_write_back m a n x :
  u8 (default 0 (ram_write m a (ram_read m a n) !! x)) = u8 (default 0 (m !! x)).
Proof.
  revert m a. induction n as [|n IH]; intros m a; simpl; [done|].
  set (m1 := <[u64 a := u8 (default 0 (m !! u64 a))]> m).
  assert (∀ y, u8 (default 0 (m !! y)) = u8 (default 0 (m1 !! y))) as Hm1.
  { intros y. unfold m1. destruct (decide (y = u64 a)) as [->|].
    - rewrite lookup_insert_eq. simpl. symmetry. apply u8_small, u8_range.
    - by rewrite lookup_insert_ne. }
  rewrite (ram_read_bytes m m1) by done. rewrite IH. symmetry. apply Hm1.
Qed.

#[export] Instance ram_laws : PhysMemLaws ram.
Proof.
  split.
  - intros m a n. simpl. revert a. induction n; intros; simpl; [done|]. by rewrite IHn.
  - intros m a n. simpl. revert a. induction n; intros; simpl; constructor.
    + apply u8_range.
    + apply IHn.
  - apply ram_read_write_eq.
  - intros m a l b n Hd. apply ram_read_ext. intros i Hi.
    apply ram_write_lookup_ne. intros j Hj. by apply Hd.
  - apply ram_read_app.
  - intros m a n b k. apply ram_read_bytes. intros x. apply ram_write_back.
  - intros m a n. apply ram_read_addr. apply wrap_wrap. lia.
Qed.

(** Reading back a part of what was written. *)
Lemma phys_read_write_part {X} `{PhysMemLaws X} (m : X) a l n k :
  bytes_ok l → Z.of_nat (length l) ≤ 2 ^ 64 → (n + k ≤ length l)%nat →
  phys_read (phys_write m a l) (a + Z.of_nat n) k = take k (drop n l).
Proof.
  intros Hok Hlen Hnk. pose proof (phys_read_write_eq m a l Hok Hlen) as Hr.
  replace (length l) with (n + (k + (length l - n - k)))%nat in Hr by lia.
  rewrite !phys_read_app in Hr. rewrite <- Hr at 2.
  rewrite drop_app_length'; [|by rewrite phys_read_length].
  by rewrite take_app_length' by (by rewrite phys_read_length).
Qed.

(** A field of a range, seen from the start of the range after it is written. *)
Lemma phys_write_field {X} `{PhysMemLaws X} (m : X) a n l :
  bytes_ok l → Z.of_nat n + Z.of_nat (length l) ≤ 2 ^ 64 →
  phys_read (phys_write m (u64 (a + Z.of_nat n)) l) a (n + length l) = phys_read m a n ++ l.
Proof.
  intros Hl Hn. rewrite phys_read_app. f_equal.
  - apply phys_read_write_ne. intros i j Hi Hj E. unfold u64 in E. rewrite wrap_add_l in E.
    unfold wrap in E. assert ((Z.of_nat n + j - i) `mod` 2 ^ 64 = 0) as Hm.
    { replace (Z.of_nat n + j - i) with (a + Z.of_nat n + j - (a + i)) by lia.
      by rewrite Zminus_mod, <- E, Z.sub_diag. }
    rewrite Z.mod_small in Hm; lia.
  - rewrite <- phys_read_u64. apply phys_read_write_eq; [done|lia].
Qed.

(** ** Struct layouts

    A C struct without padding as the list of the widths (in bytes) of its
    fields: its object representation on the little-endian host and back. *)

Fixpoint fields_encode (ws : list nat) (vs : list Z) : list Z :=
  match ws, vs with
  | w :: ws, v :: vs => le_bytes w v ++ fields_encode ws vs
  | _, _ => []
  end.

Fixpoint fields_decode (ws : list nat) (bs : list Z) : list Z :=
  match ws with
  | [] => []
  | w :: ws => le_val (take w bs) :: fields_decode ws (drop w bs)
  end.

Definition field_ok (w : nat) (v : Z) : Prop := 0 ≤ v < 256 ^ Z.of_nat w.
Definition fields_ok (ws : list nat) (vs : list Z) : Prop := Forall2 field_ok ws vs.

Lemma fields_decode_encode ws vs :
  fields_ok ws vs → fields_decode ws (fields_encode ws vs) = vs.
Proof.
  induction 1 as [|w v ws vs Hv Hvs IH]; [done|]. simpl.
  rewrite take_app_length', drop_app_length' by (by rewrite length_le_bytes).
  rewrite IH, le_val_bytes. f_equal. by apply Z.mod_small.
Qed.

Lemma fields_encode_decode ws bs :
  bytes_ok bs → length bs = sum_list ws →
  fields_encode ws (fields_decode ws bs) = bs.
Proof.
  revert bs. induction ws as [|w ws IH]; intros bs Hok Hlen; simpl in *.
  - by destruct bs.
  - rewrite IH; [|by auto with vf|rewrite length_drop; lia].
    replace (le_bytes w _) with (take w bs); [apply take_drop|].
    rewrite <- (le_bytes_val (take w bs)) at 1 by auto with vf.
    by rewrite length_take, Nat.min_l by lia.
Qed.

Lemma length_fields_encode ws vs :
  length ws = length vs → length (fields_encode ws vs) = sum_list ws.
Proof.
  revert vs. induction ws as [|w ws IH]; intros [|v vs] H; simpl in *; try lia.
  rewrite length_app, length_le_bytes, IH; lia.
Qed.

Lemma fields_encode_ok ws vs : bytes_ok (fields_encode ws vs).
Proof.
  revert vs. induction ws as [|w ws IH]; intros [|v vs]; try constructor. simpl.
  apply bytes_ok_app. auto with vf.
Qed.

Lemma length_fields_decode ws bs : length (fields_decode ws bs) = length ws.
Proof. revert bs. induction ws; intros; simpl; [done|]. by rewrite IHws. Qed.

Lemma fields_decode_ok ws bs :
  bytes_ok bs → length bs = sum_list ws → fields_ok ws (fields_decode ws bs).
Proof.
  revert bs. induction ws as [|w ws IH]; intros bs Hok Hlen; simpl in *; constructor.
  - unfold field_ok. assert (length (take w bs) = w) as E by (rewrite length_take; lia).
    rewrite <- E at 3. apply le_val_range. auto with vf.
  - apply IH; [by auto with vf|rewrite length_drop; lia].
Qed.

#[export] Hint Resolve fields_encode_ok : vf.

(** ** Rings of fixed-size slots *)

(** The slots of a ring do not overlap. *)
Lemma slot_disjoint b w i j :
  0 < w → 0 ≤ i → 0 ≤ j → w * i + w ≤ 2 ^ 64 → w * j + w ≤ 2 ^ 64 → i ≠ j →
  range_disjoint (u64 (b + w * i)) (Z.to_nat w) (u64 (b + w * j)) (Z.to_nat w).
Proof.
  intros Hw Hi Hj Hbi Hbj Hne x y Hx Hy E. unfold u64 in E. rewrite !wrap_add_l in E.
  unfold wrap in E. assert ((w * i + x - (w * j + y)) `mod` 2 ^ 64 = 0) as Hm.
  { replace (w * i + x - (w * j + y)) with (b + w * i + x - (b + w * j + y)) by lia.
    rewrite Zminus_mod, E, Z.sub_diag. done. }
  rewrite Z2Nat.id in Hx, Hy by lia.
  apply Z.mod_divide in Hm as [k Hk]; [|done].
  assert (0 ≤ w * i ∧ 0 ≤ w * j) as [? ?] by (split; apply Z.mul_nonneg_nonneg; lia).
  set (p := w * i) in *. set (q := w * j) in *. assert (p + x = q + y) as Epq by lia.
  apply Hne.
  assert ((p + x) / w = i) as E1 by (subst p; rewrite Z.mul_comm, Z.div_add_l, Z.div_small; lia).
  assert ((q + y) / w = j) as E2 by (subst q; rewrite Z.mul_comm, Z.div_add_l, Z.div_small; lia).
  subst p q. congruence.
Qed.

(** Slots counted from the head of a ring of [L] slots are different ones up to
    its length. *)
Lemma ring_index_ne h L i j : 0 ≤ i < j → j < L → (h + i) `mod` L ≠ (h + j) `mod` L.
Proof.
  intros Hij Hj E. assert ((j - i) `mod` L = 0) as Hm.
  { replace (j - i) with (h + j - (h + i)) by lia. by rewrite Zminus_mod, E, Z.sub_diag. }
  rewrite Z.mod_small in Hm; lia.
Qed.

(** A range is disjoint from the parts of a range it is disjoint from. *)
Lemma range_disjoint_part a n b k o k' :
  range_disjoint a n b k → 0 ≤ o → (Z.to_nat o + k' ≤ k)%nat → range_disjoint a n (u64 (b + o)) k'.
Proof.
  intros Hd Ho Hk i j Hi Hj. specialize (Hd i (o + j) Hi ltac:(lia)).
  unfold u64 in *. by rewrite wrap_add_l, <- Z.add_assoc.
Qed.

Lemma range_disjoint_sym a n b k : range_disjoint a n b k → range_disjoint b k a n.
Proof. intros Hd i j Hi Hj E. exact (Hd j i Hj Hi (eq_sym E)). Qed.
