(* ===== verification/NetChecksum.v ===== *)
(** * Internet checksum ([net/checksum.c])

    The one's complement checksum the device inserts into transmitted frames:
    the accumulation loop, the folding loop, and the TCP/UDP variant. An access
    outside the buffer is [None]. *)

From S2P Require Import Prelude Bytes Memory.

Module Checksum.

Abbreviation PROTO_TCP := 6.
Abbreviation PROTO_UDP := 17.

(** The loop of [net_checksum_add]: [n] iterations are left, the next one reads
    the byte of index [i], which is the head of [buf]. *)
Fixpoint net_checksum_loop (n i : nat) (sum : Z) (buf : list Z) : option Z :=
  match n with
  | O => Some sum
  | S n =>
      match buf with
      | [] => None
      | b :: buf =>
          let sum := if Nat.odd i then u32 (sum + b) else u32 (sum + u32 (b << 8)) in
          net_checksum_loop n (S i) sum buf
      end
  end.

Definition net_checksum_add (len : Z) (buf : list Z) : option Z :=
  net_checksum_loop (Z.to_nat len) 0 0 buf.

(** [while (sum >> 16) sum = (sum & 0xFFFF) + (sum >> 16);] Three rounds are
    enough for a 32-bit sum, see [fold_loop_exit]. *)
Fixpoint fold_loop (fuel : nat) (sum : Z) : Z :=
  match fuel with
  | O => sum
  | S fuel =>
      if sum >> 16 =? 0 then sum
      else fold_loop fuel (u32 ((sum .& 0xFFFF) + (sum >> 16)))
  end.

Definition net_checksum_finish (sum : Z) : Z := u16 (.~ (fold_loop 3 sum)).

Definition net_checksum_tcpudp (length proto : Z) (addrs buf : list Z) : option Z :=
  s1 ← net_checksum_add length buf;
  s2 ← net_checksum_add 8 addrs;
  Some (net_checksum_finish (u32 (u32 (u32 (0 + s1) + s2) + (proto + length)))).

(** [csum_offset] of the [switch] on the protocol. *)
Definition csum_offset_of (proto : Z) : option Z :=
  if proto =? PROTO_TCP then Some 16
  else if proto =? PROTO_UDP then Some 6
  else None.

(** The parameter [length] is not used by the source. *)
Definition net_checksum_calculate (data : list Z) (length : Z) : option (list Z) :=
  d14 ← data !! 14%nat;
  if negb (d14 .& 0xf0 =? 0x40) then Some data else
  let hlen := (d14 .& 0x0f) * 4 in
  d16 ← data !! 16%nat;
  d17 ← data !! 17%nat;
  let plen := ((d16 << 8) .| d17) - hlen in
  proto ← data !! 23%nat;
  match csum_offset_of proto with
  | None => Some data
  | Some csum_offset =>
      if plen <? csum_offset + 2 then Some data else
      let at_ := Z.to_nat (14 + hlen + csum_offset) in
      data ← store data at_ [0; 0];
      csum ← net_checksum_tcpudp (u16 plen) (u16 proto) (drop 26 data)
               (drop (Z.to_nat (14 + hlen)) data);
      store data at_ [u8 (csum >> 8); u8 (csum .& 0xff)]
  end.

(** ** Specification: the sum of the big-endian 16-bit words *)

Fixpoint csum16 (l : list Z) : Z :=
  match l with
  | [] => 0
  | [a] => 256 * a
  | a :: b :: l => 256 * a + b + csum16 l
  end.

(** The weight of the byte at an even or odd index. *)
Fixpoint wsum (odd : bool) (l : list Z) : Z :=
  match l with
  | [] => 0
  | b :: l => (if odd then b else 256 * b) + wsum (negb odd) l
  end.

Lemma csum16_wsum l : csum16 l = wsum false l.
Proof.
  revert l. fix F 1. intros [|a [|b l]]; cbn; [done|lia|]. rewrite F. lia.
Qed.

Lemma wsum_app o l1 l2 :
  wsum o (l1 ++ l2) = wsum o l1 + wsum (xorb o (Nat.odd (length l1))) l2.
Proof.
  revert o. induction l1 as [|b l1 IH]; intros o; [by rewrite xorb_false_r|].
  change ((b :: l1) ++ l2) with (b :: (l1 ++ l2)). cbn [wsum length].
  rewrite IH, Nat.odd_succ, <- Nat.negb_odd.
  destruct o, (Nat.odd (length l1)); simpl; lia.
Qed.

Lemma wsum_bounds o l : bytes_ok l →
  0 ≤ wsum o l ≤ 65280 * Z.of_nat (length l).
Proof.
  intros Hl. revert o. induction Hl as [|b l Hb Hl IH]; intros o; [done|].
  cbn [wsum length]. specialize (IH (negb o)). unfold byte_ok in Hb.
  destruct o; lia.
Qed.

(** The accumulation loop computes the specification sum modulo [2^32]. *)
Lemma net_checksum_loop_spec n i sum l :
  (n ≤ length l)%nat →
  net_checksum_loop n i (u32 sum) l = Some (u32 (sum + wsum (Nat.odd i) (take n l))).
Proof.
  revert i sum l. induction n as [|n IH]; intros i sum l Hn.
  { simpl. by rewrite Z.add_0_r. }
  destruct l as [|b l]; simpl in Hn; [lia|]. cbn [net_checksum_loop take wsum].
  rewrite u32_add_r, !u32_add_l, Z.shiftl_mul_pow2 by lia.
  destruct (Nat.odd i) eqn:Ei; rewrite IH by lia;
    rewrite Nat.odd_succ, <- Nat.negb_odd, Ei; do 2 f_equal; simpl negb; lia.
Qed.

Lemma net_checksum_add_spec len buf :
  0 ≤ len → (Z.to_nat len ≤ length buf)%nat →
  net_checksum_add len buf = Some (u32 (csum16 (take (Z.to_nat len) buf))).
Proof.
  intros. unfold net_checksum_add. change 0 with (u32 0) at 1.
  rewrite net_checksum_loop_spec by done. by rewrite csum16_wsum.
Qed.

Lemma net_checksum_loop_oob n i sum l :
  (length l < n)%nat → net_checksum_loop n i sum l = None.
Proof.
  revert i sum l. induction n; intros i sum [|b l] ?; simpl in *; try lia; [done|].
  apply IHn. lia.
Qed.

(** ** Folding *)

Lemma land_ffff v : v .& 0xFFFF = v `mod` 65536.
Proof. change 0xFFFF with (Z.ones 16). by rewrite Z.land_ones. Qed.

Lemma shiftr16 v : v >> 16 = v / 65536.
Proof. by rewrite Z.shiftr_div_pow2. Qed.

(** One round of folding keeps the value modulo 65535 and the zero test. *)
Lemma fold_round v : 0 ≤ v < 4294967296 →
  let v' := u32 ((v .& 0xFFFF) + (v >> 16)) in
  v' = v `mod` 65536 + v / 65536 ∧ v' `mod` 65535 = v `mod` 65535 ∧
  0 ≤ v' ≤ v ∧ (v' = 0 → v = 0).
Proof.
  intros Hv. cbv zeta. rewrite land_ffff, shiftr16.
  assert (0 ≤ v `mod` 65536 < 65536) by (apply Z.mod_pos_bound; lia).
  assert (0 ≤ v / 65536 < 65536).
  { split; [apply Z.div_pos; lia|apply Z.div_lt_upper_bound; lia]. }
  pose proof (Z.div_mod v 65536 ltac:(lia)).
  rewrite u32_small by lia. repeat split; try lia.
  replace v with (v `mod` 65536 + v / 65536 + (v / 65536) * 65535) at 3 by lia.
  by rewrite Z.mod_add.
Qed.

Definition folded (v r : Z) : Prop :=
  0 ≤ r < 65536 ∧ r `mod` 65535 = v `mod` 65535 ∧ (r = 0 → v = 0).

(** Three rounds end the loop: its condition is false at the exit. *)
Lemma fold_loop_spec v : 0 ≤ v < 4294967296 → folded v (fold_loop 3 v).
Proof.
  intros Hv.
  assert (∀ v, 0 ≤ v < 4294967296 → v >> 16 = 0 → folded v v) as Hbase.
  { intros x Hx H. rewrite shiftr16 in H. pose proof (Z.div_mod x 65536 ltac:(lia)).
    pose proof (Z.mod_pos_bound x 65536 ltac:(lia)). unfold folded. lia. }
  assert (∀ x y r, 0 ≤ x < 4294967296 → y = u32 ((x .& 0xFFFF) + (x >> 16)) →
    folded y r → folded x r) as Hstep.
  { intros x y r Hx -> (?&Hm&?). pose proof (fold_round x Hx) as (?&?&?&?).
    unfold folded. rewrite Hm. naive_solver. }
  pose proof (fold_round v Hv) as (E1&_&R1&_).
  set (v1 := u32 ((v .& 0xFFFF) + (v >> 16))) in *.
  assert (0 ≤ v1 ≤ 131070).
  { pose proof (Z.mod_pos_bound v 65536 ltac:(lia)).
    assert (v / 65536 < 65536) by (apply Z.div_lt_upper_bound; lia). lia. }
  pose proof (fold_round v1 ltac:(lia)) as (E2&_&R2&_).
  set (v2 := u32 ((v1 .& 0xFFFF) + (v1 >> 16))) in *.
  assert (0 ≤ v2 < 65536).
  { pose proof (Z.mod_pos_bound v1 65536 ltac:(lia)).
    pose proof (Z.div_mod v1 65536 ltac:(lia)). assert (0 ≤ v1 / 65536 < 2).
    { split; [apply Z.div_pos; lia|apply Z.div_lt_upper_bound; lia]. } nia. }
  assert (v2 >> 16 = 0) as Hv2 by (rewrite shiftr16; apply Z.div_small; lia).
  cbn [fold_loop]. fold v1. fold v2.
  destruct (Z.eqb_spec (v >> 16) 0); [by apply Hbase|].
  eapply Hstep; [done|reflexivity|]. fold v1.
  destruct (Z.eqb_spec (v1 >> 16) 0); [apply Hbase; [lia|done]|].
  eapply Hstep; [lia|reflexivity|]. fold v2.
  rewrite Hv2, Z.eqb_refl. apply Hbase; [lia|done].
Qed.

Lemma fold_loop_exit v : 0 ≤ v < 4294967296 → fold_loop 3 v >> 16 = 0.
Proof.
  intros Hv. destruct (fold_loop_spec v Hv) as [? _].
  rewrite shiftr16. by apply Z.div_small.
Qed.

Lemma net_checksum_finish_spec v : 0 ≤ v < 4294967296 →
  net_checksum_finish v = 65535 - fold_loop 3 v.
Proof.
  intros Hv. destruct (fold_loop_spec v Hv) as [? _]. unfold net_checksum_finish.
  pose proof (Z.add_lnot_diag (fold_loop 3 v)).
  unfold u16, wrap. replace (.~ fold_loop 3 v) with (65535 - fold_loop 3 v + (-1) * 65536) by lia.
  change (2 ^ 16) with 65536. rewrite Z.mod_add by lia. apply Z.mod_small. lia.
Qed.

Lemma net_checksum_finish_range v : 0 ≤ net_checksum_finish v < 65536.
Proof. apply u16_range. Qed.

(** A sum to which its own checksum is added folds to all ones. *)
Lemma finish_add v : 0 ≤ v < 4294967296 - 65535 →
  net_checksum_finish (v + net_checksum_finish v) = 0.
Proof.
  intros Hv. rewrite (net_checksum_finish_spec v) by lia.
  destruct (fold_loop_spec v ltac:(lia)) as (Hr&Hm&Hz).
  set (r := fold_loop 3 v) in *.
  assert (r ≤ v).
  { destruct (decide (v < 65536)) as [Hlt|]; [|lia].
    unfold r. cbn [fold_loop]. rewrite shiftr16, Z.div_small by lia. simpl. lia. }
  rewrite net_checksum_finish_spec by lia.
  destruct (fold_loop_spec (v + (65535 - r)) ltac:(lia)) as (Hr'&Hm'&Hz').
  set (r' := fold_loop 3 (v + (65535 - r))) in *.
  assert ((v + (65535 - r)) `mod` 65535 = 0) as H0.
  { replace (v + (65535 - r)) with (v - r + 1 * 65535) by lia.
    rewrite Z.mod_add, Zminus_mod, Hm, Z.sub_diag by lia. done. }
  rewrite H0 in Hm'. apply Z.mod_divide in Hm' as [k Hk]; [|lia].
  assert (r' ≠ 0) by (intros E; specialize (Hz' E); destruct (decide (v = 0)); lia).
  nia.
Qed.

Lemma csum16_bounds l : bytes_ok l →
  0 ≤ csum16 l ∧ 2 * csum16 l ≤ 65535 * (Z.of_nat (length l) + 1).
Proof.
  revert l. fix F 1. intros [|a [|b l]] Hl; cbn [csum16 length].
  - lia.
  - apply Forall_cons_iff in Hl as [Ha _]. unfold byte_ok in Ha. lia.
  - apply Forall_cons_iff in Hl as [Ha Hl]. apply Forall_cons_iff in Hl as [Hb Hl].
    specialize (F l Hl). unfold byte_ok in *. lia.
Qed.

(** Two bytes at an even offset count as one big-endian word. *)
Lemma csum16_store l off a b a' b' l' :
  Nat.even off = true → load l off 2 = Some [a; b] → store l off [a'; b'] = Some l' →
  csum16 l' = csum16 l - (256 * a + b) + (256 * a' + b').
Proof.
  intros He Hl Hs. unfold load in Hl. unfold store in Hs. repeat case_decide; simplify_eq.
  simpl length in *.
  assert (l = take off l ++ [a; b] ++ drop (off + 2) l) as Hsplit.
  { rewrite <- Hl, <- drop_drop, !take_drop. done. }
  rewrite Hsplit at 3. rewrite !csum16_wsum, !wsum_app.
  rewrite length_take, Nat.min_l by lia.
  rewrite <- Nat.negb_even, He. simpl. lia.
Qed.

Lemma csum16_app l1 l2 :
  Nat.even (length l1) = true → csum16 (l1 ++ l2) = csum16 l1 + csum16 l2.
Proof.
  intros He. rewrite !csum16_wsum, wsum_app, <- Nat.negb_even, He. done.
Qed.

(** Inserting the checksum of a buffer into it makes the buffer verify *)
Theorem checksum_insert_verifies (buf : list Z) (off : nat) :
  bytes_ok buf → Z.of_nat (length buf) ≤ 65535 →
  Nat.even off = true → load buf off 2 = Some [0; 0] →
  ∃ sum buf' sum',
    net_checksum_add (Z.of_nat (length buf)) buf = Some sum ∧
    store buf off (cpu_to_be16wu (net_checksum_finish sum)) = Some buf' ∧
    net_checksum_add (Z.of_nat (length buf')) buf' = Some sum' ∧
    net_checksum_finish sum' = 0.
Proof.
  intros Hok Hlen He Hload.
  pose proof (csum16_bounds buf Hok) as [? ?].
  set (c := net_checksum_finish (csum16 buf)).
  pose proof (net_checksum_finish_range (csum16 buf)) as Hc. fold c in Hc.
  assert (∃ buf', store buf off (cpu_to_be16wu c) = Some buf') as [buf' Hs].
  { unfold load in Hload. case_decide; [|done]. rewrite store_in by done. eauto. }
  pose proof (store_length _ _ _ _ Hs) as Hlen'.
  eexists _, buf', _.
  rewrite !net_checksum_add_spec by lia. split; [done|].
  rewrite !firstn_all2 by lia. rewrite u32_small by lia. split; [done|]. split; [done|].
  erewrite (csum16_store buf) by eassumption.
  rewrite be16_split by lia.
  replace (csum16 buf - (256 * 0 + 0) + c) with (csum16 buf + c) by lia.
  rewrite u32_small by lia. apply finish_add. lia.
Qed.

(** The frames [net_checksum_calculate] rewrites: IPv4 with a TCP or UDP payload
    long enough to hold the checksum field. *)
Definition checksummable (data : list Z) (hlen plen proto coff : Z) : Prop :=
  ∃ d14 d16 d17,
    data !! 14%nat = Some d14 ∧ d14 .& 0xf0 = 0x40 ∧ hlen = (d14 .& 0x0f) * 4 ∧
    data !! 16%nat = Some d16 ∧ data !! 17%nat = Some d17 ∧
    plen = ((d16 << 8) .| d17) - hlen ∧
    data !! 23%nat = Some proto ∧ csum_offset_of proto = Some coff ∧ coff + 2 ≤ plen.

Lemma csum_offset_cases proto coff :
  csum_offset_of proto = Some coff → coff = 16 ∨ coff = 6.
Proof. unfold csum_offset_of. repeat case_match; naive_solver. Qed.

Lemma checksummable_run data len hlen plen proto coff :
  checksummable data hlen plen proto coff →
  net_checksum_calculate data len =
    (data' ← store data (Z.to_nat (14 + hlen + coff)) [0; 0];
     csum ← net_checksum_tcpudp (u16 plen) (u16 proto) (drop 26 data')
              (drop (Z.to_nat (14 + hlen)) data');
     store data' (Z.to_nat (14 + hlen + coff)) [u8 (csum >> 8); u8 (csum .& 0xff)]).
Proof.
  intros (d14&d16&d17&E14&E1&->&E16&E17&->&E23&Ec&Hp).
  unfold net_checksum_calculate. rewrite E14. cbn [mbind option_bind].
  rewrite E1, Z.eqb_refl. cbn [negb]. rewrite E16, E17, E23. cbn [mbind option_bind].
  rewrite Ec. replace (_ <? _) with false by (symmetry; apply Z.ltb_ge; lia). done.
Qed.

Lemma checksummable_range data hlen plen proto coff :
  bytes_ok data → checksummable data hlen plen proto coff →
  0 ≤ hlen ≤ 60 ∧ hlen `mod` 4 = 0 ∧ 0 ≤ plen ≤ 65535 ∧ 0 ≤ proto < 256.
Proof.
  intros Hok (d14&d16&d17&E14&E1&->&E16&E17&->&E23&Ec&Hp).
  assert (∀ i x, data !! i = Some x → byte_ok x) as Hb.
  { intros i x Hi. by eapply Forall_lookup_1. }
  pose proof (Hb _ _ E14). pose proof (Hb _ _ E16). pose proof (Hb _ _ E17).
  pose proof (Hb _ _ E23). unfold byte_ok in *.
  assert (0 ≤ d14 .& 0x0f ≤ 15) by (apply land_le_r; lia).
  assert ((d16 << 8) .| d17 = d17 + 256 * d16) as E.
  { rewrite Z.lor_comm. by apply lor_shiftl_add. }
  destruct (csum_offset_cases _ _ Ec); rewrite E in *;
    (split; [lia|]; split; [by apply Z.mod_mul|lia]).
Qed.


Lemma net_checksum_tcpudp_spec len proto addrs buf :
  bytes_ok addrs → bytes_ok buf → 0 ≤ len ≤ 65535 → 0 ≤ proto < 65536 →
  (Z.to_nat len ≤ length buf)%nat → (8 ≤ length addrs)%nat →
  net_checksum_tcpudp len proto addrs buf =
    Some (net_checksum_finish
      (csum16 (take (Z.to_nat len) buf) + csum16 (take 8 addrs) + (proto + len))).
Proof.
  intros Ha Hb Hl Hp ??. unfold net_checksum_tcpudp.
  rewrite !net_checksum_add_spec by lia. cbn [mbind option_bind].
  destruct (csum16_bounds (take (Z.to_nat len) buf)) as [? ?]; [auto with vf|].
  destruct (csum16_bounds (take 8 addrs)) as [? ?]; [auto with vf|].
  rewrite length_take in *. change (Z.to_nat 8) with 8%nat. do 2 f_equal. u_simpl. lia.
Qed.

Lemma store_again b off l b' : store b off l = Some b' → store b' off l = Some b'.
Proof.
  intros Hs. pose proof (store_length _ _ _ _ Hs) as Hl. revert Hs. unfold store.
  case_decide as Hd; [|done]. intros [= <-]. rewrite decide_True by (rewrite Hl; done). f_equal.
  rewrite take_app_le by (rewrite length_take; lia). rewrite take_take, Nat.min_id.
  f_equal. f_equal. rewrite app_assoc, drop_app_length'; [done|].
  rewrite length_app, length_take. lia.
Qed.

(** Storing the computed checksum in a zeroed field that lies in the payload
    makes the sum verify. *)
Lemma tcpudp_patch_verifies d1 d2 k plen proto coff :
  let sum := csum16 (take (Z.to_nat plen) (drop k d1)) + csum16 (take 8 (drop 26 d1)) +
             (proto + plen) in
  let c := net_checksum_finish sum in
  bytes_ok d1 → (34 ≤ k)%nat → 0 ≤ plen ≤ 65535 → 0 ≤ proto < 256 →
  Nat.even coff = true → (coff + 2 ≤ Z.to_nat plen)%nat → (k + Z.to_nat plen ≤ length d1)%nat →
  store (take (Z.to_nat plen) (drop k d1)) coff [0; 0] = Some (take (Z.to_nat plen) (drop k d1)) →
  store d1 (k + coff) [u8 (c >> 8); u8 (c .& 0xff)] = Some d2 →
  net_checksum_tcpudp plen proto (drop 26 d2) (drop k d2) = Some 0.
Proof.
  intros sum c Hok1 Hk Hpl Hpr Hev Hc2 Hl Hz Hs2.
  pose proof (net_checksum_finish_range sum) as Hc. fold c in Hc.
  pose proof (store_length _ _ _ _ Hs2) as L2.
  assert (bytes_ok d2) as Hok2.
  { eapply store_ok; [exact Hok1| |exact Hs2]. repeat constructor; apply u8_range. }
  rewrite net_checksum_tcpudp_spec by (rewrite ?length_drop; auto with vf; lia).
  f_equal. rewrite (store_before _ _ _ _ 26 8 Hs2) by lia.
  pose proof (store_window _ _ _ _ k (Z.to_nat plen) Hs2) as Hw2.
  rewrite Nat.add_comm, Nat.add_sub in Hw2. cbn [length] in Hw2.
  specialize (Hw2 ltac:(lia) ltac:(lia) ltac:(lia)).
  rewrite (csum16_store _ _ 0 0 _ _ _ Hev (load_store _ _ _ _ Hz) Hw2), be16_split by lia.
  destruct (csum16_bounds (take (Z.to_nat plen) (drop k d1))) as [B1 B2]; [auto with vf|].
  destruct (csum16_bounds (take 8 (drop 26 d1))) as [B3 B4]; [auto with vf|].
  rewrite length_take in B2, B4.
  match goal with |- net_checksum_finish ?x = 0 => replace x with (sum + c) by (unfold sum; lia) end.
  apply finish_add. unfold sum. lia.
Qed.

(** C27: [net_checksum_calculate] returns on every well-formed IPv4 frame with a TCP or
    UDP payload that lies in the frame, and leaves a frame whose TCP or UDP checksum
    verifies: recomputing it with [net_checksum_tcpudp], over the pseudo header and the
    payload, gives 0. *)
Theorem net_checksum_calculate_verifies data len hlen plen proto coff :
  bytes_ok data → checksummable data hlen plen proto coff →
  20 ≤ hlen → 14 + hlen + plen ≤ Z.of_nat (length data) →
  ∃ data',
    net_checksum_calculate data len = Some data' ∧ length data' = length data ∧
    net_checksum_tcpudp plen proto (drop 26 data') (drop (Z.to_nat (14 + hlen)) data')
      = Some 0.
Proof.
  intros Hok Hck Hh Hlen.
  pose proof (checksummable_range _ _ _ _ _ Hok Hck) as (Hr&H4&Hpl&Hpr).
  assert (coff + 2 ≤ plen) as Hc2 by (by destruct Hck as (?&?&?&_&_&_&_&_&_&_&_&?)).
  assert (coff = 16 ∨ coff = 6) as Hcoff.
  { destruct Hck as (?&?&?&_&_&_&_&_&_&_&E&_). by eapply csum_offset_cases. }
  rewrite (checksummable_run _ len _ _ _ _ Hck).
  set (k := Z.to_nat (14 + hlen)).
  replace (Z.to_nat (14 + hlen + coff)) with (k + Z.to_nat coff)%nat by lia.
  assert (∃ d1, store data (k + Z.to_nat coff) [0; 0] = Some d1) as [d1 Hs1].
  { rewrite store_in; [eauto|simpl; lia]. }
  pose proof (store_length _ _ _ _ Hs1) as L1.
  assert (bytes_ok d1) as Hok1.
  { eapply store_ok; [exact Hok| |exact Hs1]. repeat constructor; lia. }
  rewrite Hs1. cbn [mbind option_bind]. rewrite !u16_small by lia.
  rewrite net_checksum_tcpudp_spec by (rewrite ?length_drop; auto with vf; lia).
  cbn [mbind option_bind].
  match goal with |- ∃ _, store _ _ ?l = _ ∧ _ => assert (∃ d2, store d1 (k + Z.to_nat coff) l = Some d2)
    as [d2 Hs2] by (rewrite store_in; [eauto|simpl; lia]) end.
  exists d2. split; [exact Hs2|]. pose proof (store_length _ _ _ _ Hs2). split; [lia|].
  apply (tcpudp_patch_verifies d1 d2 k plen proto (Z.to_nat coff)); try done; try lia.
  - by destruct Hcoff as [-> | ->].
  - pose proof (store_window _ _ _ _ k (Z.to_nat plen) Hs1) as Hw1.
    rewrite Nat.add_comm, Nat.add_sub in Hw1. cbn [length] in Hw1.
    eapply store_again, Hw1; lia.
Qed.

(** [net_checksum_calculate] ignores its length argument: on a frame whose IP
    length field exceeds the frame, it reads past the end of the frame. *)
Theorem net_checksum_calculate_overread data len hlen plen proto coff :
  bytes_ok data → checksummable data hlen plen proto coff →
  Z.of_nat (length data) < 14 + hlen + plen →
  net_checksum_calculate data len = None.
Proof.
  intros Hok Hck Hlen.
  pose proof (checksummable_range _ _ _ _ _ Hok Hck) as (Hr&H4&Hpl&Hpr).
  rewrite (checksummable_run _ len _ _ _ _ Hck).
  destruct (store data _ _) as [d1|] eqn:Hs; [|done]. cbn [mbind option_bind].
  pose proof (store_length _ _ _ _ Hs). rewrite u16_small by lia.
  assert (net_checksum_add plen (drop (Z.to_nat (14 + hlen)) d1) = None) as Hn.
  { assert (coff + 2 ≤ plen ∧ 0 ≤ coff).
    { destruct Hck as (?&?&?&_&_&_&_&_&_&_&E&?).
      apply csum_offset_cases in E. lia. }
    apply net_checksum_loop_oob. rewrite length_drop. lia. }
  unfold net_checksum_tcpudp. by rewrite Hn.
Qed.

End Checksum.
