(* ===== verification/Pci.v ===== *)
(** * PCI devices and buses ([hw/pci.c], [hw/pci_bridge.c], [hw/pci_host.c])

    The generic PCI layer that the network card is a device of: configuration
    spaces with their write masks, base address registers and the mappings they
    cause, interrupt pins and their routing up to the host bridge, reset, bridges,
    and the two ports through which a guest reaches configuration spaces.

    Devices and buses refer to each other by pointers in the source and by
    numbers here: the state is a store of devices and a store of buses. Calls into
    the rest of QEMU (physical memory, I/O ports, the interrupt controller) are
    recorded in order. *)

From S2P Require Import Prelude Bytes.

(** ** Registers of the configuration space ([pci_regs.h], [pci.h]) *)

Abbreviation PCI_VENDOR_ID := 0x00.
Abbreviation PCI_DEVICE_ID := 0x02.
Abbreviation PCI_COMMAND := 0x04.
Abbreviation PCI_COMMAND_IO := 0x1.
Abbreviation PCI_COMMAND_MEMORY := 0x2.
Abbreviation PCI_COMMAND_MASTER := 0x4.
Abbreviation PCI_COMMAND_SERR := 0x100.
Abbreviation PCI_COMMAND_INTX_DISABLE := 0x400.
Abbreviation PCI_STATUS := 0x06.
Abbreviation PCI_STATUS_INTERRUPT := 0x08.
Abbreviation PCI_STATUS_CAP_LIST := 0x10.
Abbreviation PCI_REVISION_ID := 0x08.
Abbreviation PCI_CLASS_PROG := 0x09.
Abbreviation PCI_CLASS_DEVICE := 0x0a.
Abbreviation PCI_CACHE_LINE_SIZE := 0x0c.
Abbreviation PCI_HEADER_TYPE := 0x0e.
Abbreviation PCI_HEADER_TYPE_BRIDGE := 1.
Abbreviation PCI_HEADER_TYPE_MULTI_FUNCTION := 0x80.
Abbreviation PCI_BASE_ADDRESS_0 := 0x10.
Abbreviation PCI_BASE_ADDRESS_SPACE_IO := 0x01.
Abbreviation PCI_BASE_ADDRESS_SPACE_MEMORY := 0x00.
Abbreviation PCI_BASE_ADDRESS_MEM_TYPE_64 := 0x04.
Abbreviation PCI_BASE_ADDRESS_MEM_PREFETCH := 0x08.
Abbreviation PCI_SUBSYSTEM_VENDOR_ID := 0x2c.
Abbreviation PCI_SUBSYSTEM_ID := 0x2e.
Abbreviation PCI_ROM_ADDRESS := 0x30.
Abbreviation PCI_ROM_ADDRESS_ENABLE := 0x01.
Abbreviation PCI_ROM_ADDRESS1 := 0x38.
Abbreviation PCI_CAPABILITY_LIST := 0x34.
Abbreviation PCI_INTERRUPT_LINE := 0x3c.
Abbreviation PCI_INTERRUPT_PIN := 0x3d.
Abbreviation PCI_PRIMARY_BUS := 0x18.
Abbreviation PCI_SECONDARY_BUS := 0x19.
Abbreviation PCI_SUBORDINATE_BUS := 0x1a.
Abbreviation PCI_SEC_LATENCY_TIMER := 0x1b.
Abbreviation PCI_IO_BASE := 0x1c.
Abbreviation PCI_IO_LIMIT := 0x1d.
Abbreviation PCI_MEMORY_BASE := 0x20.
Abbreviation PCI_MEMORY_LIMIT := 0x22.
Abbreviation PCI_PREF_MEMORY_BASE := 0x24.
Abbreviation PCI_PREF_MEMORY_LIMIT := 0x26.
Abbreviation PCI_PREF_BASE_UPPER32 := 0x28.
Abbreviation PCI_PREF_LIMIT_UPPER32 := 0x2c.
Abbreviation PCI_IO_BASE_UPPER16 := 0x30.
Abbreviation PCI_IO_LIMIT_UPPER16 := 0x32.
Abbreviation PCI_BRIDGE_CONTROL := 0x3e.
Abbreviation PCI_BRIDGE_CTL_BUS_RESET := 0x40.
Abbreviation PCI_CONFIG_HEADER_SIZE := 0x40.
Abbreviation PCI_CONFIG_SPACE_SIZE := 0x100.
Abbreviation PCIE_CONFIG_SPACE_SIZE := 0x1000.
Abbreviation PCI_ROM_SLOT := 6.
Abbreviation PCI_NUM_REGIONS := 7%nat.
Abbreviation PCI_NUM_PINS := 4%nat.
Abbreviation PCI_FUNC_MAX := 8.
Abbreviation QEMU_PCI_CAP_EXPRESS := 0x4.
Abbreviation QEMU_PCI_CAP_MULTIFUNCTION := 0x8.
Abbreviation QEMU_PCI_CAP_SERR := 0x10.
Abbreviation UINT16_MAX := 0xffff.
Abbreviation UINT32_MAX := 0xffffffff.
Abbreviation UINT64_MAX := 0xffffffffffffffff.
Abbreviation PCI_BAR_UNMAPPED := UINT64_MAX.
Abbreviation TARGET_PHYS_ADDR_MAX := UINT64_MAX.

Definition PCI_DEVFN (slot func : Z) : Z := ((slot .& 0x1f) << 3) .| (func .& 0x07).
Definition PCI_SLOT (devfn : Z) : Z := (devfn >> 3) .& 0x1f.
Definition PCI_FUNC (devfn : Z) : Z := devfn .& 0x07.

(** Little-endian accessors at an offset of a configuration space. *)
Definition get_le (n : nat) (b : list Z) (off : Z) : Z := le_val (take n (drop (Z.to_nat off) b)).
Definition set_le (n : nat) (b : list Z) (off v : Z) : list Z :=
  take (Z.to_nat off) b ++ le_bytes n v ++ drop (Z.to_nat off + n) b.

Definition pci_get_byte (b : list Z) (off : Z) : Z := default 0 (b !! Z.to_nat off).
Definition pci_set_byte (b : list Z) (off v : Z) : list Z := <[Z.to_nat off := u8 v]> b.
Definition pci_get_word (b : list Z) (off : Z) : Z := get_le 2 b off.
Definition pci_set_word (b : list Z) (off v : Z) : list Z := set_le 2 b off v.
Definition pci_get_long (b : list Z) (off : Z) : Z := get_le 4 b off.
Definition pci_set_long (b : list Z) (off v : Z) : list Z := set_le 4 b off v.
Definition pci_get_quad (b : list Z) (off : Z) : Z := get_le 8 b off.
Definition pci_set_quad (b : list Z) (off v : Z) : list Z := set_le 8 b off v.

(** The test-and-clear and test-and-set helpers, whose results are not used. *)
Definition pci_byte_clear_mask (b : list Z) (off mask : Z) : list Z :=
  pci_set_byte b off (pci_get_byte b off .& .~ mask).
Definition pci_byte_set_mask (b : list Z) (off mask : Z) : list Z :=
  pci_set_byte b off (pci_get_byte b off .| mask).
Definition pci_word_test_and_clear_mask (b : list Z) (off mask : Z) : list Z :=
  pci_set_word b off (pci_get_word b off .& .~ mask).
Definition pci_word_test_and_set_mask (b : list Z) (off mask : Z) : list Z :=
  pci_set_word b off (pci_get_word b off .| mask).

(** ** Ranges ([range.h]) *)

Definition range_get_last (offset len : Z) : Z := u64 (offset + len - 1).
Definition range_covers_byte (offset len byte : Z) : bool :=
  (offset <=? byte) && (byte <=? range_get_last offset len).
Definition ranges_overlap (first1 len1 first2 len2 : Z) : bool :=
  let last1 := range_get_last first1 len1 in
  let last2 := range_get_last first2 len2 in
  negb ((last2 <? first1) || (last1 <? first2)).

(** ** State *)

(** [F] is the type of the [map_func] pointers; a region that is not registered
    has none. *)
Record PCIIORegion (F : Type) := Region {
  r_addr : Z;
  r_size : Z;
  r_filtered_size : Z;
  r_type : Z;
  r_map_func : option F;
}.
Arguments Region {F} _ _ _ _ _.
Arguments r_addr {F} _.
Arguments r_size {F} _.
Arguments r_filtered_size {F} _.
Arguments r_type {F} _.
Arguments r_map_func {F} _.
#[export] Instance PCIIORegion_eta F : Eta (PCIIORegion F) := λ r,
  Region (r_addr r) (r_size r) (r_filtered_size r) (r_type r) (r_map_func r).

(** [sec_bus] is the secondary bus of a device that is a [PCIBridge]. *)
Record PCIDevice (F : Type) := Device {
  config : list Z;
  cmask : list Z;
  wmask : list Z;
  w1cmask : list Z;
  config_map : list Z;
  dev_bus : nat;
  devfn : Z;
  io_regions : list (PCIIORegion F);
  irq_state : Z;
  cap_present : Z;
  version_id : Z;
  sec_bus : option nat;
}.
Arguments Device {F} _ _ _ _ _ _ _ _ _ _ _ _.
Arguments config {F} _.
Arguments cmask {F} _.
Arguments wmask {F} _.
Arguments w1cmask {F} _.
Arguments config_map {F} _.
Arguments dev_bus {F} _.
Arguments devfn {F} _.
Arguments io_regions {F} _.
Arguments irq_state {F} _.
Arguments cap_present {F} _.
Arguments version_id {F} _.
Arguments sec_bus {F} _.
#[export] Instance PCIDevice_eta F : Eta (PCIDevice F) := λ d,
  Device (config d) (cmask d) (wmask d) (w1cmask d) (config_map d) (dev_bus d) (devfn d)
    (io_regions d) (irq_state d) (cap_present d) (version_id d) (sec_bus d).

(** [set_irq] says whether the bus has such a function: the root buses do.
    [map_irq] is given the [devfn] of a device, which is all that its
    implementations use of it. *)
Record PCIBus := Bus {
  devfn_min : Z;
  set_irq : bool;
  map_irq : Z → Z → Z;
  devices : list (option nat);
  parent_dev : option nat;
  mem_base : Z;
  child : list nat;
  nirq : Z;
  irq_count : list Z;
}.
#[export] Instance PCIBus_eta : Eta PCIBus := λ b,
  Bus (devfn_min b) (set_irq b) (map_irq b) (devices b) (parent_dev b) (mem_base b) (child b)
    (nirq b) (irq_count b).

(** Calls into the rest of QEMU. *)
Inductive hostcall :=
| cpu_register_physical_memory (start size phys_offset : Z)
| qemu_register_coalesced_mmio (addr size : Z)
| qemu_unregister_coalesced_mmio (addr size : Z)
| isa_unassign_ioport (start length : Z)
| bus_set_irq (b : nat) (irq_num level : Z).

Abbreviation IO_MEM_UNASSIGNED := 16.

(** A bus is created after the bridge it is behind; [nbuses] is the number of the
    next one. *)
Record PciSys (F : Type) := Sys {
  devs : gmap nat (PCIDevice F);
  buses : gmap nat PCIBus;
  nbuses : nat;
  host : list hostcall;
}.
Arguments Sys {F} _ _ _ _.
Arguments devs {F} _.
Arguments buses {F} _.
Arguments nbuses {F} _.
Arguments host {F} _.
#[export] Instance PciSys_eta F : Eta (PciSys F) := λ s,
  Sys (devs s) (buses s) (nbuses s) (host s).

(** What a map function does with the region it is called for. *)
Class MapFuncs (F : Type) :=
  map_func_calls : F → Z → Z → Z → Z → list hostcall.

Section pci.
Context {F : Type} `{MapFuncs F}.
Abbreviation PM := (M (PciSys F)).
Abbreviation PCIDev := (PCIDevice F).
Implicit Types (d : PCIDev) (s : PciSys F).

(** ** Access to the stores; a number without an object is a bad pointer. *)

Definition follow {A} (o : option A) : PM A :=
  match o with Some a => mret a | None => fail NullDeref end.
Definition pdev (n : nat) : PM PCIDev := o ← gets (λ s, devs s !! n); follow o.
Definition pbus (n : nat) : PM PCIBus := o ← gets (λ s, buses s !! n); follow o.
Definition put_pdev (n : nat) (d : PCIDev) : PM unit := modify (λ s, s <| devs ::= <[n := d]> |>).
Definition put_pbus (n : nat) (b : PCIBus) : PM unit := modify (λ s, s <| buses ::= <[n := b]> |>).
Definition calls (l : list hostcall) : PM unit := modify (λ s, s <| host ::= λ h, h ++ l |>).
Definition for_each {A} (f : A → PM unit) : list A → PM unit :=
  fix go l := match l with [] => mret () | a :: l => f a;; go l end.

(** ** Devices *)

Definition pci_is_express (d : PCIDev) : bool := has_bits (cap_present d) QEMU_PCI_CAP_EXPRESS.
Definition pci_config_size (d : PCIDev) : Z :=
  if pci_is_express d then PCIE_CONFIG_SPACE_SIZE else PCI_CONFIG_SPACE_SIZE.

Definition pci_bar (d : PCIDev) (reg : Z) : Z :=
  if negb (reg =? PCI_ROM_SLOT) then PCI_BASE_ADDRESS_0 + reg * 4 else
  let type := pci_get_byte (config d) PCI_HEADER_TYPE .& .~ PCI_HEADER_TYPE_MULTI_FUNCTION in
  if type =? PCI_HEADER_TYPE_BRIDGE then PCI_ROM_ADDRESS1 else PCI_ROM_ADDRESS.

Definition pci_irq_state (d : PCIDev) (irq_num : Z) : Z := (irq_state d >> irq_num) .& 1.

Definition pci_set_irq_state (d : PCIDev) (irq_num level : Z) : PCIDev :=
  let d := d <| irq_state ::= λ v, v .& .~ (1 << irq_num) |> in
  d <| irq_state ::= λ v, u8 (v .| (level << irq_num)) |>.

(** The bit is in the low byte of the status register. *)
Definition pci_update_irq_status (d : PCIDev) : PCIDev :=
  if negb (irq_state d =? 0)
  then d <| config ::= λ c, pci_byte_set_mask c PCI_STATUS PCI_STATUS_INTERRUPT |>
  else d <| config ::= λ c, pci_byte_clear_mask c PCI_STATUS PCI_STATUS_INTERRUPT |>.

Definition pci_irq_disabled (d : PCIDev) : bool :=
  has_bits (pci_get_word (config d) PCI_COMMAND) PCI_COMMAND_INTX_DISABLE.

(** *** Masks of a new device *)

Definition pci_set_default_subsystem_id (d : PCIDev) : PCIDev :=
  d <| config ::= λ c, pci_set_word (pci_set_word c PCI_SUBSYSTEM_VENDOR_ID 0x1af4) PCI_SUBSYSTEM_ID 0x1100 |>.

Definition pci_init_cmask (d : PCIDev) : PCIDev :=
  d <| cmask ::= λ c,
    let c := pci_set_word c PCI_VENDOR_ID 0xffff in
    let c := pci_set_word c PCI_DEVICE_ID 0xffff in
    let c := pci_set_byte c PCI_STATUS PCI_STATUS_CAP_LIST in
    let c := pci_set_byte c PCI_REVISION_ID 0xff in
    let c := pci_set_byte c PCI_CLASS_PROG 0xff in
    let c := pci_set_word c PCI_CLASS_DEVICE 0xffff in
    let c := pci_set_byte c PCI_HEADER_TYPE 0xff in
    pci_set_byte c PCI_CAPABILITY_LIST 0xff |>.

(** [memset(b + off, v, n)]. *)
Definition set_bytes (b : list Z) (off : Z) (v : Z) (n : nat) : list Z :=
  take (Z.to_nat off) b ++ replicate n v ++ drop (Z.to_nat off + n) b.

Definition pci_init_wmask (d : PCIDev) : PCIDev :=
  let config_size := pci_config_size d in
  d <| wmask ::= λ c,
    let c := pci_set_byte c PCI_CACHE_LINE_SIZE 0xff in
    let c := pci_set_byte c PCI_INTERRUPT_LINE 0xff in
    let c := pci_set_word c PCI_COMMAND
      (PCI_COMMAND_IO .| PCI_COMMAND_MEMORY .| PCI_COMMAND_MASTER .| PCI_COMMAND_INTX_DISABLE) in
    let c := if has_bits (cap_present d) QEMU_PCI_CAP_SERR
             then pci_word_test_and_set_mask c PCI_COMMAND PCI_COMMAND_SERR else c in
    set_bytes c PCI_CONFIG_HEADER_SIZE 0xff (Z.to_nat (config_size - PCI_CONFIG_HEADER_SIZE)) |>.

(** Parity, signalled and received aborts, system error, detected parity. *)
Definition pci_init_w1cmask (d : PCIDev) : PCIDev :=
  d <| w1cmask ::= λ c, pci_set_word c PCI_STATUS
    (0x100 .| 0x800 .| 0x1000 .| 0x2000 .| 0x4000 .| 0x8000) |>.

Definition pci_init_wmask_bridge (d : PCIDev) : PCIDev :=
  d <| wmask ::= λ c,
    let c := set_bytes c PCI_PRIMARY_BUS 0xff 4 in
    let c := pci_set_byte c PCI_IO_BASE 0xf0 in
    let c := pci_set_byte c PCI_IO_LIMIT 0xf0 in
    let c := pci_set_word c PCI_MEMORY_BASE 0xfff0 in
    let c := pci_set_word c PCI_MEMORY_LIMIT 0xfff0 in
    let c := pci_set_word c PCI_PREF_MEMORY_BASE 0xfff0 in
    let c := pci_set_word c PCI_PREF_MEMORY_LIMIT 0xfff0 in
    let c := set_bytes c PCI_PREF_BASE_UPPER32 0xff 8 in
    pci_set_word c PCI_BRIDGE_CONTROL
      (0x01 .| 0x02 .| 0x04 .| 0x08 .| 0x10 .| 0x20 .| 0x40 .| 0x80 .| 0x100 .| 0x200 .| 0x800) |>
    <| w1cmask ::= λ c, pci_set_word c PCI_BRIDGE_CONTROL 0x400 |>.

Definition pci_config_alloc (d : PCIDev) : PCIDev :=
  let z := replicate (Z.to_nat (pci_config_size d)) 0 in
  d <| config := z |> <| cmask := z |> <| wmask := z |> <| w1cmask := z |> <| config_map := z |>.

(** *** Base address registers *)

(** [None] is the call of [exit] for a size that is not a power of two, or a
    failed assertion. *)
Definition pci_register_bar (d : PCIDev) (region_num size type : Z) (map_func : F) : option PCIDev :=
  if negb ((0 <=? region_num) && (region_num <? Z.of_nat PCI_NUM_REGIONS)) then None else
  if negb (size .& u64 (size - 1) =? 0) then None else
  let r := Region PCI_BAR_UNMAPPED size size type (Some map_func) in
  let d := d <| io_regions ::= <[Z.to_nat region_num := r]> |> in
  let wm := u64 (.~ (u64 (size - 1))) in
  let addr := pci_bar d region_num in
  let wm := if region_num =? PCI_ROM_SLOT then wm .| PCI_ROM_ADDRESS_ENABLE else wm in
  let d := d <| config ::= λ c, pci_set_long c addr type |> in
  Some (if negb (has_bits type PCI_BASE_ADDRESS_SPACE_IO) && has_bits type PCI_BASE_ADDRESS_MEM_TYPE_64
        then d <| wmask ::= λ c, pci_set_quad c addr wm |>
               <| cmask ::= λ c, pci_set_quad c addr UINT64_MAX |>
        else d <| wmask ::= λ c, pci_set_long c addr (wm .& 0xffffffff) |>
               <| cmask ::= λ c, pci_set_long c addr 0xffffffff |>).

(** The address a region asks for. *)
Definition pci_bar_address (d : PCIDev) (reg type size : Z) : Z :=
  let bar := pci_bar d reg in
  let cmd := pci_get_word (config d) PCI_COMMAND in
  let mask := u64 (.~ (u64 (size - 1))) in
  if has_bits type PCI_BASE_ADDRESS_SPACE_IO then
    if negb (has_bits cmd PCI_COMMAND_IO) then PCI_BAR_UNMAPPED else
    let new_addr := pci_get_long (config d) bar .& mask in
    let last_addr := u64 (new_addr + size - 1) in
    if (last_addr <=? new_addr) || (new_addr =? 0) || (last_addr >? UINT16_MAX)
    then PCI_BAR_UNMAPPED else new_addr
  else
  if negb (has_bits cmd PCI_COMMAND_MEMORY) then PCI_BAR_UNMAPPED else
  let new_addr := if has_bits type PCI_BASE_ADDRESS_MEM_TYPE_64
                  then pci_get_quad (config d) bar else pci_get_long (config d) bar in
  if (reg =? PCI_ROM_SLOT) && negb (has_bits new_addr PCI_ROM_ADDRESS_ENABLE)
  then PCI_BAR_UNMAPPED else
  let new_addr := new_addr .& mask in
  let last_addr := u64 (new_addr + size - 1) in
  if (last_addr <=? new_addr) || (new_addr =? 0) || (last_addr =? PCI_BAR_UNMAPPED)
  then PCI_BAR_UNMAPPED else
  if negb (has_bits type PCI_BASE_ADDRESS_MEM_TYPE_64) && (last_addr >=? UINT32_MAX)
  then PCI_BAR_UNMAPPED else
  if last_addr >=? TARGET_PHYS_ADDR_MAX then PCI_BAR_UNMAPPED else new_addr.

(** ** Windows of a bridge ([pci_bridge.c]) *)

Definition pci_config_get_io_base (d : PCIDev) (base base_upper16 : Z) : Z :=
  let val := (pci_get_byte (config d) base .& 0xf0) << 8 in
  if has_bits (pci_get_byte (config d) base) 0x01
  then val .| (pci_get_word (config d) base_upper16 << 16) else val.

Definition pci_config_get_memory_base (d : PCIDev) (base : Z) : Z :=
  (pci_get_word (config d) base .& 0xfff0) << 16.

Definition pci_config_get_pref_base (d : PCIDev) (base upper : Z) : Z :=
  let tmp := pci_get_word (config d) base in
  let val := (tmp .& 0xfff0) << 16 in
  if has_bits tmp 0x01 then val .| (pci_get_long (config d) upper << 32) else val.

Definition pci_bridge_get_base (bridge : PCIDev) (type : Z) : Z :=
  if has_bits type PCI_BASE_ADDRESS_SPACE_IO
  then pci_config_get_io_base bridge PCI_IO_BASE PCI_IO_BASE_UPPER16
  else if has_bits type PCI_BASE_ADDRESS_MEM_PREFETCH
  then pci_config_get_pref_base bridge PCI_PREF_MEMORY_BASE PCI_PREF_BASE_UPPER32
  else pci_config_get_memory_base bridge PCI_MEMORY_BASE.

Definition pci_bridge_get_limit (bridge : PCIDev) (type : Z) : Z :=
  if has_bits type PCI_BASE_ADDRESS_SPACE_IO
  then pci_config_get_io_base bridge PCI_IO_LIMIT PCI_IO_LIMIT_UPPER16 .| 0xfff
  else (if has_bits type PCI_BASE_ADDRESS_MEM_PREFETCH
        then pci_config_get_pref_base bridge PCI_PREF_MEMORY_LIMIT PCI_PREF_LIMIT_UPPER32
        else pci_config_get_memory_base bridge PCI_MEMORY_LIMIT) .| 0xfffff.

(** The bridges above bus [b]; [None] is a bad pointer. The command register that
    is tested is the device's in every round. *)
Fixpoint bridge_filter_loop (fuel : nat) (s : PciSys F) (d : PCIDev) (b : nat) (type base limit : Z)
    : option (option (Z * Z)) :=
  match fuel with
  | O => None
  | S fuel =>
      bus ← buses s !! b;
      match parent_dev bus with
      | None => Some (Some (base, limit))
      | Some p =>
          let cmd := pci_get_word (config d) PCI_COMMAND in
          if (if has_bits type PCI_BASE_ADDRESS_SPACE_IO
              then negb (has_bits cmd PCI_COMMAND_IO) else negb (has_bits cmd PCI_COMMAND_MEMORY))
          then Some None else
          br ← devs s !! p;
          bridge_filter_loop fuel s d (dev_bus br) type
            (Z.max base (pci_bridge_get_base br type)) (Z.min limit (pci_bridge_get_limit br type))
      end
  end.

Definition pci_bridge_filter (s : PciSys F) (d : PCIDev) (addr size type : Z) : option (Z * Z) :=
  w ← bridge_filter_loop (S (dev_bus d)) s d (dev_bus d) type addr (u64 (addr + size - 1));
  Some match w with
       | Some (base, limit) =>
           if base >? limit then (PCI_BAR_UNMAPPED, 0) else (base, u64 (limit - base + 1))
       | None => (PCI_BAR_UNMAPPED, 0)
       end.

(** ** Mappings *)

Definition pci_to_cpu_addr (b : PCIBus) (addr : Z) : Z := u64 (addr + mem_base b).

(** The round of [pci_update_mappings] for region [i]: where the region has to be
    now, *)
Definition region_target (s : PciSys F) (d : PCIDev) (i : nat) (r : PCIIORegion F) : option (Z * Z) :=
  let new_addr := pci_bar_address d (Z.of_nat i) (r_type r) (r_size r) in
  if negb (new_addr =? PCI_BAR_UNMAPPED) then pci_bridge_filter s d new_addr (r_size r) (r_type r)
  else Some (new_addr, r_size r).

(** the calls that remove it from where it is, *)
Definition region_unmap (d : PCIDev) (b : PCIBus) (r : PCIIORegion F) : list hostcall :=
  if r_addr r =? PCI_BAR_UNMAPPED then [] else
  if has_bits (r_type r) PCI_BASE_ADDRESS_SPACE_IO then
    let class := pci_get_word (config d) PCI_CLASS_DEVICE in
    if (class =? 0x0101) && (r_size r =? 4) then [isa_unassign_ioport (r_addr r + 2) 1]
    else [isa_unassign_ioport (r_addr r) (r_filtered_size r)]
  else [cpu_register_physical_memory (pci_to_cpu_addr b (r_addr r)) (r_filtered_size r) IO_MEM_UNASSIGNED;
        qemu_unregister_coalesced_mmio (r_addr r) (r_filtered_size r)].

(** and the address its map function is called with. *)
Definition region_map_addr (b : PCIBus) (r : PCIIORegion F) : Z :=
  if has_bits (r_type r) PCI_BASE_ADDRESS_SPACE_IO then r_addr r else pci_to_cpu_addr b (r_addr r).

Definition pci_update_mapping (n : nat) (i : nat) : PM unit :=
  d ← pdev n;
  r ← oob (io_regions d !! i);
  if r_size r =? 0 then mret () else
  t ← gets (λ s, region_target s d i r);
  '(new_addr, filtered_size) ← follow t;
  if (new_addr =? r_addr r) && (filtered_size =? r_filtered_size r) then mret () else
  b ← pbus (dev_bus d);
  calls (region_unmap d b r);;
  let r := r <| r_addr := new_addr |> <| r_filtered_size := filtered_size |> in
  put_pdev n (d <| io_regions ::= <[i := r]> |>);;
  if r_addr r =? PCI_BAR_UNMAPPED then mret () else
  f ← follow (r_map_func r);
  calls (map_func_calls f (Z.of_nat i) (region_map_addr b r) (r_filtered_size r) (r_type r)).

Definition pci_update_mappings (n : nat) : PM unit :=
  for_each (pci_update_mapping n) (seq 0 PCI_NUM_REGIONS).

(** ** Interrupt pins *)

(** Up the tree to the bus with a [set_irq] function. *)
Fixpoint change_irq_level_loop (fuel : nat) (n : nat) (irq_num change : Z) : PM unit :=
  match fuel with
  | O => no_fuel
  | S fuel =>
      d ← pdev n;
      b ← pbus (dev_bus d);
      let irq_num := map_irq b (devfn d) irq_num in
      if set_irq b then
        if irq_num <? 0 then fail OutOfBounds else
        c ← oob (irq_count b !! Z.to_nat irq_num);
        let c := s32 (c + change) in
        put_pbus (dev_bus d) (b <| irq_count ::= <[Z.to_nat irq_num := c]> |>);;
        calls [bus_set_irq (dev_bus d) irq_num (if c =? 0 then 0 else 1)]
      else
        p ← follow (parent_dev b);
        change_irq_level_loop fuel p irq_num change
  end.

Definition pci_change_irq_level (n : nat) (irq_num change : Z) : PM unit :=
  d ← pdev n; change_irq_level_loop (S (dev_bus d)) n irq_num change.

Definition pci_set_irq (n : nat) (irq_num level : Z) : PM unit :=
  d ← pdev n;
  let change := level - pci_irq_state d irq_num in
  if change =? 0 then mret () else
  let d := pci_set_irq_state d irq_num level in
  let d := pci_update_irq_status d in
  put_pdev n d;;
  if pci_irq_disabled d then mret () else pci_change_irq_level n irq_num change.

Definition irq_pins : list Z := map Z.of_nat (seq 0 PCI_NUM_PINS).

(** [qemu_set_irq] of the device's own pins calls [pci_set_irq]. *)
Definition pci_device_deassert_intx (n : nat) : PM unit :=
  for_each (λ i, pci_set_irq n i 0) irq_pins.

(** After a change of the interrupt disable bit. *)
Definition pci_update_irq_disabled (n : nat) (was_irq_disabled : bool) : PM unit :=
  d ← pdev n;
  let disabled := pci_irq_disabled d in
  if Bool.eqb disabled was_irq_disabled then mret () else
  for_each (λ i,
    d ← pdev n;
    let state := pci_irq_state d i in
    pci_change_irq_level n i (if disabled then - state else state)) irq_pins.

(** ** Configuration space *)

Definition pci_default_read_config (n : nat) (address len : Z) : PM Z :=
  d ← pdev n;
  if negb ((len =? 1) || (len =? 2) || (len =? 4)) then fail Aborted else
  let len := Z.min len (u32 (pci_config_size d - address)) in
  v ← oob (load (config d) (Z.to_nat address) (Z.to_nat len));
  mret (le_val v).

(** One byte of a write: [wm] and [w1c] are its masks. *)
Definition write_byte (old wm w1c val : Z) : Z :=
  let v := (old .& .~ wm) .| (u8 val .& wm) in
  v .& .~ (u8 val .& w1c).

Fixpoint write_config_loop (k : nat) (d : PCIDev) (addr val : Z) : PM PCIDev :=
  match k with
  | O => mret d
  | S k =>
      if addr <? pci_config_size d then
        wm ← oob (wmask d !! Z.to_nat addr);
        w1c ← oob (w1cmask d !! Z.to_nat addr);
        old ← oob (config d !! Z.to_nat addr);
        if has_bits wm w1c then fail Aborted else
        write_config_loop k (d <| config ::= <[Z.to_nat addr := write_byte old wm w1c val]> |>)
          (u32 (addr + 1)) (val >> 8)
      else mret d
  end.

(** Updating the interrupts of assigned host devices is not modelled: there are
    none. *)
Definition pci_default_write_config (n : nat) (addr val l : Z) : PM unit :=
  d ← pdev n;
  let was_irq_disabled := pci_irq_disabled d in
  d ← write_config_loop (Z.to_nat l) d addr val;
  put_pdev n d;;
  (if ranges_overlap addr l PCI_BASE_ADDRESS_0 24 || ranges_overlap addr l PCI_ROM_ADDRESS 4 ||
      ranges_overlap addr l PCI_ROM_ADDRESS1 4 || range_covers_byte addr l PCI_COMMAND
   then pci_update_mappings n else mret ());;
  if range_covers_byte addr l PCI_COMMAND then pci_update_irq_disabled n was_irq_disabled else mret ().

(** ** Reset *)

Definition pci_bridge_reset_reg (d : PCIDev) : PCIDev :=
  d <| config ::= λ c,
    let c := pci_set_byte c PCI_PRIMARY_BUS 0 in
    let c := pci_set_byte c PCI_SECONDARY_BUS 0 in
    let c := pci_set_byte c PCI_SUBORDINATE_BUS 0 in
    let c := pci_set_byte c PCI_SEC_LATENCY_TIMER 0 in
    let c := pci_byte_clear_mask c PCI_IO_BASE 0xf0 in
    let c := pci_byte_clear_mask c PCI_IO_LIMIT 0xf0 in
    let c := pci_word_test_and_clear_mask c PCI_MEMORY_BASE 0xfff0 in
    let c := pci_word_test_and_clear_mask c PCI_MEMORY_LIMIT 0xfff0 in
    let c := pci_word_test_and_clear_mask c PCI_PREF_MEMORY_BASE 0xfff0 in
    let c := pci_word_test_and_clear_mask c PCI_PREF_MEMORY_LIMIT 0xfff0 in
    let c := pci_set_word c PCI_PREF_BASE_UPPER32 0 in
    let c := pci_set_word c PCI_PREF_LIMIT_UPPER32 0 in
    pci_set_word c PCI_BRIDGE_CONTROL 0 |>.

(** The base address registers hold their type bits again. *)
Definition reset_bar (d : PCIDev) (i : nat) : PCIDev :=
  match io_regions d !! i with
  | Some r =>
      if r_size r =? 0 then d else
      let addr := pci_bar d (Z.of_nat i) in
      if negb (has_bits (r_type r) PCI_BASE_ADDRESS_SPACE_IO) &&
         has_bits (r_type r) PCI_BASE_ADDRESS_MEM_TYPE_64
      then d <| config ::= λ c, pci_set_quad c addr (r_type r) |>
      else d <| config ::= λ c, pci_set_long c addr (r_type r) |>
  | None => d
  end.

Definition reset_config (d : PCIDev) : PCIDev :=
  let clear off := λ c, pci_word_test_and_clear_mask c off
    (pci_get_word (wmask d) off .| pci_get_word (w1cmask d) off) in
  let d := d <| config ::= clear PCI_COMMAND |> in
  let d := d <| config ::= clear PCI_STATUS |> in
  let d := d <| config ::= λ c, pci_set_byte c PCI_CACHE_LINE_SIZE 0 |> in
  let d := d <| config ::= λ c, pci_set_byte c PCI_INTERRUPT_LINE 0 |> in
  foldl reset_bar d (seq 0 PCI_NUM_REGIONS).

(** [pci_device_reset] after [qdev_reset_all]. *)
Definition pci_device_reset_core (n : nat) : PM unit :=
  d ← pdev n;
  put_pdev n (pci_update_irq_status (d <| irq_state := 0 |>));;
  pci_device_deassert_intx n;;
  d ← pdev n;
  put_pdev n (reset_config d);;
  pci_update_mappings n.

(** Resetting a device resets what it contains first: a bridge's registers and
    its secondary bus. The reset function of a device that is not a bridge works on the
    device's own state: that of the network card is added in [CardIrq], those of other
    devices are not modelled. *)
Fixpoint pci_bus_reset (fuel : nat) (b : nat) : PM unit :=
  match fuel with
  | O => no_fuel
  | S fuel =>
      bus ← pbus b;
      put_pbus b (bus <| irq_count ::= λ l, replicate (length l) 0 |>);;
      for_each (λ n,
        d ← pdev n;
        match sec_bus d with
        | Some sec =>
            put_pdev n (pci_bridge_reset_reg d);;
            pci_bus_reset fuel sec
        | None => mret ()
        end;;
        pci_device_reset_core n) (omap id (devices bus))
  end.

Definition pci_device_reset (n : nat) : PM unit :=
  d ← pdev n;
  match sec_bus d with
  | Some sec =>
      put_pdev n (pci_bridge_reset_reg d);;
      k ← gets nbuses;
      pci_bus_reset k sec
  | None => mret ()
  end;;
  pci_device_reset_core n.

(** ** Bridges *)

Fixpoint pci_bridge_update_mappings (fuel : nat) (b : nat) : PM unit :=
  match fuel with
  | O => no_fuel
  | S fuel =>
      bus ← pbus b;
      for_each pci_update_mappings (omap id (devices bus));;
      bus ← pbus b;
      for_each (pci_bridge_update_mappings fuel) (child bus)
  end.

Definition pci_bridge_write_config (n : nat) (sec : nat) (address val len : Z) : PM unit :=
  d ← pdev n;
  let oldctl := pci_get_word (config d) PCI_BRIDGE_CONTROL in
  pci_default_write_config n address val len;;
  k ← gets nbuses;
  (if ranges_overlap address len PCI_IO_BASE 2 || ranges_overlap address len PCI_MEMORY_BASE 20
   then pci_bridge_update_mappings k sec else mret ());;
  d ← pdev n;
  let newctl := pci_get_word (config d) PCI_BRIDGE_CONTROL in
  if has_bits (.~ oldctl .& newctl) PCI_BRIDGE_CTL_BUS_RESET then pci_bus_reset k sec else mret ().

(** [config_write] of a device. *)
Definition config_write (n : nat) (address val len : Z) : PM unit :=
  d ← pdev n;
  match sec_bus d with
  | Some sec => pci_bridge_write_config n sec address val len
  | None => pci_default_write_config n address val len
  end.

(** ** Registration *)

(** The other functions of the slot, and whether they may share it. *)
Definition pci_init_multifunction (b : PCIBus) (n : nat) : PM bool :=
  d ← pdev n;
  let multi := has_bits (cap_present d) QEMU_PCI_CAP_MULTIFUNCTION in
  let slot := u8 (PCI_SLOT (devfn d)) in
  (if multi
   then put_pdev n (d <| config ::= λ c, pci_byte_set_mask c PCI_HEADER_TYPE PCI_HEADER_TYPE_MULTI_FUNCTION |>)
   else mret ());;
  if negb (PCI_FUNC (devfn d) =? 0) then
    f0 ← oob (devices b !! Z.to_nat (PCI_DEVFN slot 0));
    match f0 with
    | Some f0 => d0 ← pdev f0; mret (has_bits (cap_present d0) QEMU_PCI_CAP_MULTIFUNCTION)
    | None => mret true
    end
  else if multi then mret true else
  mret (forallb (λ func, match devices b !! Z.to_nat (PCI_DEVFN slot func) with
                         | Some (Some _) => false | _ => true end) [1; 2; 3; 4; 5; 6; 7]).

(** The first slot whose function 0 is free. *)
Fixpoint find_slot (k : nat) (b : PCIBus) (devfn : Z) : option Z :=
  match k with
  | O => None
  | S k =>
      if devfn <? Z.of_nat (length (devices b)) then
        match devices b !! Z.to_nat devfn with
        | Some (Some _) => find_slot k b (devfn + PCI_FUNC_MAX)
        | _ => Some devfn
        end
      else None
  end.

(** [false] is the NULL pointer. The device is in the store, zeroed except for its
    properties. *)
Definition do_pci_register_device (n : nat) (b : nat) (devfn_ : Z) (is_bridge : bool) : PM bool :=
  bus ← pbus b;
  slot ← (if devfn_ <? 0 then mret (find_slot (length (devices bus)) bus (devfn_min bus))
          else o ← oob (devices bus !! Z.to_nat devfn_);
               mret match o with Some _ => None | None => Some devfn_ end);
  match slot with
  | None => mret false
  | Some fn =>
      d ← pdev n;
      let d := d <| dev_bus := b |> <| devfn := fn |> <| irq_state := 0 |> in
      let d := pci_config_alloc d in
      let d := d <| config_map ::= λ c, set_bytes c 0 0xff (Z.to_nat PCI_CONFIG_HEADER_SIZE) |> in
      let d := if is_bridge then d else pci_set_default_subsystem_id d in
      let d := pci_init_w1cmask (pci_init_wmask (pci_init_cmask d)) in
      let d := if is_bridge then pci_init_wmask_bridge d else d in
      put_pdev n d;;
      ok ← pci_init_multifunction bus n;
      if negb ok then mret false else
      put_pbus b (bus <| devices ::= <[Z.to_nat fn := Some n]> |>);;
      d ← pdev n;
      put_pdev n (d <| version_id := 2 |>);;
      mret true
  end.

(** ** Finding a device by its number *)

Definition pci_bus_num (s : PciSys F) (b : PCIBus) : option Z :=
  match parent_dev b with
  | None => Some 0
  | Some p => d ← devs s !! p; Some (pci_get_byte (config d) PCI_SECONDARY_BUS)
  end.

Definition pci_secondary_bus_in_range (d : PCIDev) (bus_num : Z) : bool :=
  negb (has_bits (pci_get_word (config d) PCI_BRIDGE_CONTROL) PCI_BRIDGE_CTL_BUS_RESET) &&
  (pci_get_byte (config d) PCI_SECONDARY_BUS <? bus_num) &&
  (bus_num <=? pci_get_byte (config d) PCI_SUBORDINATE_BUS).

(** One level of the search: the child with the number, the child to descend to, or
    neither. *)
Fixpoint find_child (s : PciSys F) (l : list nat) (bus_num : Z) : option (option (nat * bool)) :=
  match l with
  | [] => Some None
  | sec :: l =>
      b ← buses s !! sec;
      p ← parent_dev b;
      d ← devs s !! p;
      if pci_get_byte (config d) PCI_SECONDARY_BUS =? bus_num then Some (Some (sec, true))
      else if pci_secondary_bus_in_range d bus_num then Some (Some (sec, false))
      else find_child s l bus_num
  end.

Fixpoint find_bus_loop (fuel : nat) (s : PciSys F) (b : nat) (bus_num : Z) : option (option nat) :=
  match fuel with
  | O => None
  | S fuel =>
      bus ← buses s !! b;
      r ← find_child s (child bus) bus_num;
      match r with
      | Some (sec, true) => Some (Some sec)
      | Some (sec, false) => find_bus_loop fuel s sec bus_num
      | None => Some None
      end
  end.

(** The outer [None] is a bad pointer or a failed assertion. *)
Definition pci_find_bus (s : PciSys F) (b : nat) (bus_num : Z) : option (option nat) :=
  bus ← buses s !! b;
  k ← pci_bus_num s bus;
  if k =? bus_num then Some (Some b) else
  skip ← match parent_dev bus with
         | Some p => d ← devs s !! p; Some (negb (pci_secondary_bus_in_range d bus_num))
         | None => Some false
         end;
  if skip : bool then Some None else find_bus_loop (nbuses s) s b bus_num.

Definition pci_find_device (s : PciSys F) (b : nat) (bus_num slot function : Z) : option (option nat) :=
  r ← pci_find_bus s b bus_num;
  match r with
  | None => Some None
  | Some b => bus ← buses s !! b; devices bus !! Z.to_nat (PCI_DEVFN slot function)
  end.

(** ** The configuration ports ([pci_host.c]) *)

Definition pci_dev_find_by_addr (s : PciSys F) (b : nat) (addr : Z) : option (option nat) :=
  let bus_num := u8 (addr >> 16) in
  let devfn := u8 (addr >> 8) in
  pci_find_device s b bus_num (PCI_SLOT devfn) (PCI_FUNC devfn).

Definition pci_data_write (b : nat) (addr val len : Z) : PM unit :=
  o ← gets (λ s, pci_dev_find_by_addr s b addr);
  o ← follow o;
  match o with
  | None => mret ()
  | Some n => config_write n (addr .& (PCI_CONFIG_SPACE_SIZE - 1)) val len
  end.

Definition pci_data_read (b : nat) (addr len : Z) : PM Z :=
  o ← gets (λ s, pci_dev_find_by_addr s b addr);
  o ← follow o;
  if negb ((len =? 1) || (len =? 2) || (len =? 4)) then fail Aborted else
  match o with
  | None => mret UINT32_MAX
  | Some n => pci_default_read_config n (addr .& (PCI_CONFIG_SPACE_SIZE - 1)) len
  end.
End pci.

Record PCIHostState := {
  config_reg : Z;
  host_bus : nat;
}.
#[export] Instance PCIHostState_eta : Eta PCIHostState := λ h,
  Build_PCIHostState (config_reg h) (host_bus h).

Definition pci_host_config_write (h : PCIHostState) (addr val len : Z) : PCIHostState :=
  h <| config_reg := val |>.
Definition pci_host_config_read (h : PCIHostState) (addr len : Z) : Z := config_reg h.

Definition pci_host_data_write {F} `{MapFuncs F} (h : PCIHostState) (addr val len : Z) : M (PciSys F) unit :=
  if has_bits (config_reg h) (1 << 31)
  then pci_data_write (host_bus h) (config_reg h .| (addr .& 3)) val len else mret ().

Definition pci_host_data_read {F} (h : PCIHostState) (addr len : Z) : M (PciSys F) Z :=
  if negb (has_bits (config_reg h) (1 << 31)) then mret UINT32_MAX
  else pci_data_read (host_bus h) (config_reg h .| (addr .& 3)) len.

(** The interrupt routing of the PC's host bridge ([piix_pci.c]). *)
Definition pci_slot_get_pirq (devfn irq_num : Z) : Z :=
  let slot_addend := (devfn >> 3) - 1 in (irq_num + slot_addend) .& 3.
