(* ===== verification/PciSpec.v ===== *)
(** * What the PCI layer keeps ([hw/pci.c], [hw/pci_bridge.c], [hw/pci_host.c])

    Well-formed systems of devices, buses and bridges, and that every access of a
    guest to the configuration ports, every interrupt of a device and every reset
    is carried out without a fault and leaves the system well-formed, with each
    region mapped exactly where its base address register, the command register
    and the windows of the bridges above it say. *)

From S2P Require Import Prelude Bytes Pci.

(** ** Bytes at an offset *)

(** The two lists have the same bytes at the indices in [P]. *)
Definition same_at (P : Z → Prop) (b b' : list Z) : Prop :=
  ∀ i, 0 ≤ i → P i → b !! Z.to_nat i = b' !! Z.to_nat i.

Lemma same_at_sub (P Q : Z → Prop) b b' : (∀ i, Q i → P i) → same_at P b b' → same_at Q b b'.
Proof. unfold same_at. auto. Qed.
Lemma same_at_trans P b b1 b2 : same_at P b b1 → same_at P b1 b2 → same_at P b b2.
Proof. intros H1 H2 i Hi HP. by rewrite H1, H2. Qed.
Lemma same_at_sym P b b' : same_at P b b' → same_at P b' b.
Proof. intros Hb i Hi HP. by rewrite Hb. Qed.
Lemma same_at_refl P b : same_at P b b.
Proof. done. Qed.

Lemma length_set_le n b off v :
  0 ≤ off → (Z.to_nat off + n ≤ length b)%nat → length (set_le n b off v) = length b.
Proof.
  intros. unfold set_le. rewrite !length_app, length_take, length_drop, length_le_bytes. lia.
Qed.

Lemma set_le_ok n b off v : bytes_ok b → bytes_ok (set_le n b off v).
Proof. intros. unfold set_le. rewrite !bytes_ok_app. auto with vf. Qed.

Lemma set_le_same n b off v :
  0 ≤ off → (Z.to_nat off + n ≤ length b)%nat →
  same_at (λ i, i < off ∨ off + Z.of_nat n ≤ i) b (set_le n b off v).
Proof.
  intros Ho Hn i Hi Hout. unfold set_le. destruct Hout.
  - rewrite lookup_app_l by (rewrite length_take; lia). by rewrite lookup_take_lt by lia.
  - rewrite lookup_app_r by (rewrite length_take; lia).
    rewrite lookup_app_r by (rewrite length_take, length_le_bytes; lia).
    rewrite lookup_drop, length_take, length_le_bytes. f_equal. lia.
Qed.

Lemma get_le_same n b b' off :
  0 ≤ off → same_at (λ i, off ≤ i < off + Z.of_nat n) b b' → get_le n b off = get_le n b' off.
Proof.
  intros Ho Hs. unfold get_le. f_equal. apply list_eq. intros i.
  destruct (decide (i < n)%nat).
  - rewrite !lookup_take_lt, !lookup_drop by done.
    specialize (Hs (off + Z.of_nat i)). rewrite Z2Nat.inj_add, Nat2Z.id in Hs by lia. apply Hs; lia.
  - by rewrite !lookup_take_ge by lia.
Qed.

Lemma get_set_le n b off v :
  0 ≤ off → (Z.to_nat off + n ≤ length b)%nat → get_le n (set_le n b off v) off = v `mod` 256 ^ Z.of_nat n.
Proof.
  intros. unfold get_le, set_le. rewrite drop_app_ge by (rewrite length_take; lia).
  rewrite length_take, Nat.min_l, Nat.sub_diag, drop_0 by lia.
  rewrite take_app_length' by (by rewrite length_le_bytes). apply le_val_bytes.
Qed.

Lemma get_le_range n b off :
  bytes_ok b → 0 ≤ off → (Z.to_nat off + n ≤ length b)%nat → 0 ≤ get_le n b off < 256 ^ Z.of_nat n.
Proof.
  intros Hb ? ?. unfold get_le. set (l := take n _).
  assert (length l = n) as Hl by (unfold l; rewrite length_take, length_drop; lia).
  assert (bytes_ok l) as Hok by (unfold l; auto with vf).
  pose proof (le_val_range l Hok) as Hr. by rewrite Hl in Hr.
Qed.

Lemma set_byte_ok b off v : bytes_ok b → bytes_ok (pci_set_byte b off v).
Proof.
  intros. unfold pci_set_byte. apply Forall_insert; [done|]. apply u8_range.
Qed.
Lemma set_byte_same b off v : 0 ≤ off → same_at (λ i, i ≠ off) b (pci_set_byte b off v).
Proof.
  intros Ho i Hi Hne. unfold pci_set_byte. by rewrite list_lookup_insert_ne by lia.
Qed.
Lemma length_set_byte b off v : length (pci_set_byte b off v) = length b.
Proof. apply length_insert. Qed.

Lemma set_bytes_same b off v n :
  0 ≤ off → (Z.to_nat off + n ≤ length b)%nat →
  same_at (λ i, i < off ∨ off + Z.of_nat n ≤ i) b (set_bytes b off v n).
Proof.
  intros Ho Hn i Hi Hout. unfold set_bytes. destruct Hout.
  - rewrite lookup_app_l by (rewrite length_take; lia). by rewrite lookup_take_lt by lia.
  - rewrite lookup_app_r by (rewrite length_take; lia).
    rewrite lookup_app_r by (rewrite length_take, length_replicate; lia).
    rewrite lookup_drop, length_take, length_replicate. f_equal. lia.
Qed.
Lemma length_set_bytes b off v n :
  0 ≤ off → (Z.to_nat off + n ≤ length b)%nat → length (set_bytes b off v n) = length b.
Proof. intros. unfold set_bytes. rewrite !length_app, length_take, length_drop, length_replicate. lia. Qed.

(** ** The part of a system that never changes *)

Definition r_static {F} (r : PCIIORegion F) : PCIIORegion F :=
  r <| r_addr := 0 |> <| r_filtered_size := 0 |>.
Definition d_static {F} (d : PCIDevice F) : PCIDevice F :=
  d <| config := [] |> <| irq_state := 0 |> <| io_regions ::= map r_static |>.
Definition b_static (b : PCIBus) : PCIBus :=
  b <| irq_count ::= λ l, replicate (length l) 0 |>.

Definition statics {F} (s : PciSys F) : gmap nat (PCIDevice F) * gmap nat PCIBus * nat :=
  (d_static <$> devs s, b_static <$> buses s, nbuses s).

(** The registers of a bridge that open its windows, and those a device's own
    mappings depend on. *)
Definition win_regs (i : Z) : Prop := 0x1c ≤ i < 0x1e ∨ 0x20 ≤ i < 0x34.
Definition map_regs (i : Z) : Prop :=
  i = 0x04 ∨ i = 0x0e ∨ 0x10 ≤ i < 0x28 ∨ 0x30 ≤ i < 0x34 ∨ 0x38 ≤ i < 0x3c.

(** *** Well-formed devices *)

(** A registered region has a map function and a size that is a power of two; a
    64-bit one takes two registers. *)
Definition is_64 {F} (r : PCIIORegion F) : bool :=
  negb (has_bits (r_type r) PCI_BASE_ADDRESS_SPACE_IO) && has_bits (r_type r) PCI_BASE_ADDRESS_MEM_TYPE_64.

Record region_ok {F} (bridge : bool) (i : nat) (r : PCIIORegion F) : Prop := {
  ro_size : ∃ k, 2 ≤ k < 64 ∧ r_size r = 2 ^ k;
  ro_type : byte_ok (r_type r);
  ro_func : is_Some (r_map_func r);
  ro_64 : has_bits (r_type r) PCI_BASE_ADDRESS_MEM_TYPE_64 = true → (i < 5)%nat;
  ro_bridge : bridge = true → i = 6%nat ∨ (i < 2)%nat ∧ (is_64 r = true → i = 0%nat);
}.

Record masks_ok {F} (d : PCIDevice F) : Prop := {
  mo_wmask : length (wmask d) = Z.to_nat (pci_config_size d) ∧ bytes_ok (wmask d);
  mo_w1cmask : length (w1cmask d) = Z.to_nat (pci_config_size d) ∧ bytes_ok (w1cmask d);
  mo_disjoint i wm w1c : wmask d !! i = Some wm → w1cmask d !! i = Some w1c → wm .& w1c = 0;
  mo_header : wmask d !! 14%nat = Some 0 ∧ w1cmask d !! 14%nat = Some 0;
  mo_command : pci_get_byte (wmask d) PCI_COMMAND .& 3 = 3;
}.

Record dev_static_ok {F} (d : PCIDevice F) : Prop := {
  so_masks : masks_ok d;
  so_regions : length (io_regions d) = PCI_NUM_REGIONS;
  so_region i r : io_regions d !! i = Some r → r_size r ≠ 0 →
    region_ok (bool_decide (is_Some (sec_bus d))) i r;
}.

(** The configuration space has its size and holds bytes, and a bridge has the
    header of a bridge. *)
Record dev_dyn_ok {F} (d : PCIDevice F) : Prop := {
  do_len : length (config d) = Z.to_nat (pci_config_size d);
  do_bytes : bytes_ok (config d);
  do_irq : 0 ≤ irq_state d < 16;
  do_header : is_Some (sec_bus d) →
    pci_get_byte (config d) PCI_HEADER_TYPE .& .~ PCI_HEADER_TYPE_MULTI_FUNCTION = PCI_HEADER_TYPE_BRIDGE;
}.

(** *** Well-formed trees of buses *)

Record bus_static_ok (b : PCIBus) : Prop := {
  bo_devices : length (devices b) = 256%nat;
  bo_root : parent_dev b = None → set_irq b = true;
  bo_map fn k : 0 ≤ fn < 256 → 0 ≤ k < 4 → 0 ≤ map_irq b fn k < 4;
  bo_count : set_irq b = true → length (irq_count b) = 4%nat;
}.

Record topo_ok {F} (D : gmap nat (PCIDevice F)) (B : gmap nat PCIBus) (k : nat) : Prop := {
  to_dev n d : D !! n = Some d → dev_static_ok d ∧ 0 ≤ devfn d < 256 ∧
    ∃ b, B !! dev_bus d = Some b ∧ devices b !! Z.to_nat (devfn d) = Some (Some n);
  to_bus j b : B !! j = Some b → bus_static_ok b ∧ (j < k)%nat;
  to_slot j b i n : B !! j = Some b → devices b !! i = Some (Some n) →
    ∃ d, D !! n = Some d ∧ dev_bus d = j ∧ Z.to_nat (devfn d) = i;
  to_parent j b p : B !! j = Some b → parent_dev b = Some p →
    ∃ d, D !! p = Some d ∧ (dev_bus d < j)%nat ∧ sec_bus d = Some j;
  to_sec n d j : D !! n = Some d → sec_bus d = Some j →
    ∃ b, B !! j = Some b ∧ parent_dev b = Some n;
  to_child j b c : B !! j = Some b → c ∈ child b ↔
    ∃ bc p d, B !! c = Some bc ∧ parent_dev bc = Some p ∧ D !! p = Some d ∧ dev_bus d = j;
}.

Definition statics_ok {F} (x : gmap nat (PCIDevice F) * gmap nat PCIBus * nat) : Prop :=
  topo_ok x.1.1 x.1.2 x.2.

Definition int_ok (z : Z) : Prop := - 2 ^ 31 ≤ z < 2 ^ 31.

(** A well-formed system. *)
Record pci_ok {F} (s : PciSys F) : Prop := {
  po_static : statics_ok (statics s);
  po_dyn n d : devs s !! n = Some d → dev_dyn_ok d;
  po_count j b : buses s !! j = Some b → Forall int_ok (irq_count b);
}.

(** Every region of device [n] is where it has to be. *)
Definition dev_coherent {F} (s : PciSys F) (n : nat) : Prop :=
  ∀ d i r, devs s !! n = Some d → io_regions d !! i = Some r → r_size r ≠ 0 →
    region_target s d i r = Some (r_addr r, r_filtered_size r).
Definition coherent {F} (s : PciSys F) : Prop := ∀ n, dev_coherent s n.

Section topology.
Context {F : Type}.
Implicit Types (s : PciSys F) (d : PCIDevice F).

Lemma dev_static_of d : dev_static_ok (d_static d) → dev_static_ok d.
Proof.
  intros [[] Hl Hr]. split; [by split|by rewrite <- Hl; cbn; rewrite length_map|].
  intros i r Hi Hs. destruct (Hr i (r_static r)) as [H1 H2 H3 H4 H5]; [|done|by split].
  cbn. change (map r_static (io_regions d)) with (r_static <$> io_regions d).
  by rewrite list_lookup_fmap, Hi.
Qed.

Lemma bus_static_of b : bus_static_ok (b_static b) → bus_static_ok b.
Proof. intros [? ? ? Hc]. split; [done..|]. intros Hs. rewrite <- Hc by done. cbn. by rewrite length_replicate. Qed.

Lemma statics_dev s n d : devs s !! n = Some d → (statics s).1.1 !! n = Some (d_static d).
Proof. intros Hd. cbn. by rewrite lookup_fmap, Hd. Qed.
Lemma statics_bus s j b : buses s !! j = Some b → (statics s).1.2 !! j = Some (b_static b).
Proof. intros Hb. cbn. by rewrite lookup_fmap, Hb. Qed.
Lemma statics_dev_inv s n x : (statics s).1.1 !! n = Some x → ∃ d, devs s !! n = Some d ∧ x = d_static d.
Proof. cbn. rewrite lookup_fmap, fmap_Some. done. Qed.
Lemma statics_bus_inv s j x : (statics s).1.2 !! j = Some x → ∃ b, buses s !! j = Some b ∧ x = b_static b.
Proof. cbn. rewrite lookup_fmap, fmap_Some. done. Qed.

(** What well-formedness says of the objects themselves. *)
Section ok.
Context (s : PciSys F) (Hs : statics_ok (statics s)).

Lemma ok_dev n d : devs s !! n = Some d → dev_static_ok d ∧ 0 ≤ devfn d < 256 ∧
  ∃ b, buses s !! dev_bus d = Some b ∧ devices b !! Z.to_nat (devfn d) = Some (Some n).
Proof.
  intros Hd. apply statics_dev in Hd. destruct (to_dev _ _ _ Hs _ _ Hd) as (H1&H2&b&Hb&Hn).
  split; [by apply dev_static_of|]. split; [done|].
  apply statics_bus_inv in Hb as (b'&Hb&->). by exists b'.
Qed.

Lemma ok_bus j b : buses s !! j = Some b → bus_static_ok b ∧ (j < nbuses s)%nat.
Proof.
  intros Hb%statics_bus. destruct (to_bus _ _ _ Hs _ _ Hb). split; [by apply bus_static_of|done].
Qed.

Lemma ok_slot j b i n : buses s !! j = Some b → devices b !! i = Some (Some n) →
  ∃ d, devs s !! n = Some d ∧ dev_bus d = j.
Proof.
  intros Hb%statics_bus Hi. destruct (to_slot _ _ _ Hs _ _ i n Hb Hi) as (x&Hx&<-&_).
  apply statics_dev_inv in Hx as (d&Hd&->). eauto.
Qed.

Lemma ok_parent j b p : buses s !! j = Some b → parent_dev b = Some p →
  ∃ d, devs s !! p = Some d ∧ (dev_bus d < j)%nat ∧ sec_bus d = Some j.
Proof.
  intros Hb%statics_bus Hp. destruct (to_parent _ _ _ Hs _ _ p Hb Hp) as (x&Hx&Hlt&Hsec).
  apply statics_dev_inv in Hx as (d&Hd&->). eauto.
Qed.

Lemma ok_sec n d j : devs s !! n = Some d → sec_bus d = Some j →
  ∃ b, buses s !! j = Some b ∧ parent_dev b = Some n.
Proof.
  intros Hd%statics_dev Hj. destruct (to_sec _ _ _ Hs _ _ j Hd Hj) as (x&Hx&Hp).
  apply statics_bus_inv in Hx as (b&Hb&->). eauto.
Qed.

Lemma ok_child j b c : buses s !! j = Some b → c ∈ child b ↔
  ∃ bc p d, buses s !! c = Some bc ∧ parent_dev bc = Some p ∧ devs s !! p = Some d ∧ dev_bus d = j.
Proof.
  intros Hb%statics_bus. pose proof (to_child _ _ _ Hs _ _ c Hb) as Hc. cbn [b_static] in Hc.
  change (child (b_static b)) with (child b) in Hc. rewrite Hc. split.
  - intros (bc&p&x&H1&H2&H3&H4). apply statics_bus_inv in H1 as (b1&H1&->).
    apply statics_dev_inv in H3 as (d1&H3&->). by exists b1, p, d1.
  - intros (bc&p&d&H1&H2&H3&H4). exists (b_static bc), p, (d_static d).
    split_and!; [by apply statics_bus|done|by apply statics_dev|done].
Qed.
End ok.

(** Two systems with the same static part have the same objects. *)
Lemma statics_eq_dev s s' n d' : statics s' = statics s → devs s' !! n = Some d' →
  ∃ d, devs s !! n = Some d ∧ d_static d' = d_static d.
Proof.
  intros He Hd%statics_dev. rewrite He in Hd. apply statics_dev_inv in Hd as (d&Hd&E). eauto.
Qed.
Lemma statics_eq_bus s s' j b' : statics s' = statics s → buses s' !! j = Some b' →
  ∃ b, buses s !! j = Some b ∧ b_static b' = b_static b.
Proof.
  intros He Hb%statics_bus. rewrite He in Hb. apply statics_bus_inv in Hb as (b&Hb&E). eauto.
Qed.

Lemma statics_same_dev s s' n d d' : statics s' = statics s → devs s !! n = Some d →
  devs s' !! n = Some d' → d_static d' = d_static d.
Proof. intros He Hd Hd'%statics_dev. apply statics_dev in Hd. rewrite He, Hd in Hd'. by apply (inj Some) in Hd'. Qed.
Lemma statics_same_bus s s' j b b' : statics s' = statics s → buses s !! j = Some b →
  buses s' !! j = Some b' → b_static b' = b_static b.
Proof. intros He Hb Hb'%statics_bus. apply statics_bus in Hb. rewrite He, Hb in Hb'. by apply (inj Some) in Hb'. Qed.

Lemma d_static_eq d d' : d_static d' = d_static d →
  cmask d' = cmask d ∧ wmask d' = wmask d ∧ w1cmask d' = w1cmask d ∧ dev_bus d' = dev_bus d ∧
  devfn d' = devfn d ∧ cap_present d' = cap_present d ∧ sec_bus d' = sec_bus d ∧
  map r_static (io_regions d') = map r_static (io_regions d).
Proof. intros E. split_and!; [apply (f_equal cmask) in E|apply (f_equal wmask) in E|apply (f_equal w1cmask) in E|apply (f_equal dev_bus) in E|apply (f_equal devfn) in E|apply (f_equal cap_present) in E|apply (f_equal sec_bus) in E|apply (f_equal io_regions) in E]; exact E. Qed.

(** ** The tree *)

(** Bus [b] is [top] or below it; bridge [p] is on the way from bus [b] to its
    root. *)
Inductive under (s : PciSys F) (top : nat) : nat → Prop :=
| under_refl : under s top top
| under_step b bus p d : buses s !! b = Some bus → parent_dev bus = Some p →
    devs s !! p = Some d → under s top (dev_bus d) → under s top b.

Inductive feeds (s : PciSys F) (p : nat) : nat → Prop :=
| feeds_here b bus : buses s !! b = Some bus → parent_dev bus = Some p → feeds s p b
| feeds_up b bus q d : buses s !! b = Some bus → parent_dev bus = Some q →
    devs s !! q = Some d → feeds s p (dev_bus d) → feeds s p b.

Lemma under_ext s s' top b : statics s' = statics s → under s' top b → under s top b.
Proof.
  intros He. induction 1 as [|b bus p d Hb Hp Hd _ IH]; [constructor|].
  apply (statics_eq_bus _ _ _ _ He) in Hb as (b1&Hb&Eb).
  apply (statics_eq_dev _ _ _ _ He) in Hd as (d1&Hd&Ed). apply d_static_eq in Ed as (_&_&_&Ed&_).
  eapply under_step; [exact Hb| |exact Hd|by rewrite <- Ed].
  by apply (f_equal parent_dev) in Eb; cbn in Eb; rewrite <- Eb.
Qed.

Lemma feeds_ext s s' p b : statics s' = statics s → feeds s' p b → feeds s p b.
Proof.
  intros He. induction 1 as [b bus Hb Hp|b bus q d Hb Hp Hd _ IH];
    apply (statics_eq_bus _ _ _ _ He) in Hb as (b1&Hb&Eb); apply (f_equal parent_dev) in Eb; cbn in Eb.
  - eapply feeds_here; [exact Hb|by rewrite <- Eb].
  - apply (statics_eq_dev _ _ _ _ He) in Hd as (d1&Hd&Ed). apply d_static_eq in Ed as (_&_&_&Ed&_).
    eapply feeds_up; [exact Hb|by rewrite <- Eb|exact Hd|by rewrite <- Ed].
Qed.

Lemma feeds_under s p b d j :
  statics_ok (statics s) → feeds s p b → devs s !! p = Some d → sec_bus d = Some j → under s j b.
Proof.
  intros Hs Hf. revert d j. induction Hf as [b bus Hb Hp|b bus q d' Hb Hp Hd' _ IH]; intros d j Hd Hj.
  - destruct (ok_parent s Hs _ _ _ Hb Hp) as (x&Hx&_&Hsec). simplify_eq. constructor.
  - eapply under_step; [done..|]. by eapply IH.
Qed.

Lemma feeds_sec s p b : statics_ok (statics s) → feeds s p b →
  ∃ d j, devs s !! p = Some d ∧ sec_bus d = Some j ∧ (dev_bus d < b)%nat.
Proof.
  intros Hs. induction 1 as [b bus Hb Hp|b bus q d' Hb Hp Hd' _ IH];
    destruct (ok_parent s Hs _ _ _ Hb Hp) as (x&Hx&Hlt&Hsec); [eauto|].
  simplify_eq. destruct IH as (d&j&?&?&?). exists d, j. split_and!; [done..|lia].
Qed.

Lemma feeds_not_under s p b d top : feeds s p b → devs s !! p = Some d → under s top (dev_bus d) →
  under s top b.
Proof.
  induction 1 as [b bus Hb Hp|b bus q d' Hb Hp Hd' _ IH]; intros Hd Hu; eapply under_step; eauto.
Qed.

(** [under] is decidable: the way up is finite. *)
Fixpoint underb (fuel : nat) (s : PciSys F) (top b : nat) : bool :=
  match fuel with
  | O => false
  | S fuel =>
      bool_decide (b = top) ||
      match buses s !! b with
      | Some bus =>
          match parent_dev bus with
          | Some p => match devs s !! p with Some d => underb fuel s top (dev_bus d) | None => false end
          | None => false
          end
      | None => false
      end
  end.

Lemma underb_sound fuel s top b : underb fuel s top b = true → under s top b.
Proof.
  revert b. induction fuel as [|fuel IH]; intros b; cbn [underb]; [done|].
  intros [->%bool_decide_eq_true|Hup]%orb_true_iff; [constructor|].
  repeat case_match; try done. eapply under_step; eauto.
Qed.

Lemma underb_complete fuel s top b :
  statics_ok (statics s) → under s top b → (b < fuel)%nat → underb fuel s top b = true.
Proof.
  intros Hs Hu. revert fuel. induction Hu as [|b bus p d Hb Hp Hd _ IH]; intros fuel Hf;
    (destruct fuel as [|fuel]; [lia|]); cbn [underb]; apply orb_true_iff.
  - left. by apply bool_decide_eq_true.
  - right. rewrite Hb, Hp, Hd. apply IH.
    destruct (ok_parent s Hs _ _ _ Hb Hp) as (x&Hx&Hlt&_). simplify_eq. lia.
Qed.

Lemma under_dec s top b : statics_ok (statics s) → Decision (under s top b).
Proof.
  intros Hs. destruct (underb (S b) s top b) eqn:E.
  - left. by eapply underb_sound.
  - right. intros Hu. apply (underb_complete (S b)) in Hu; [congruence|done|lia].
Qed.
End topology.

(** ** What a mapping depends on *)

Section targets.
Context {F : Type}.
Implicit Types (s : PciSys F) (d : PCIDevice F).

Lemma get_byte_same b b' off : same_at (λ i, i = off) b b' → 0 ≤ off → pci_get_byte b off = pci_get_byte b' off.
Proof. intros Hs Ho. unfold pci_get_byte. by rewrite Hs. Qed.

(** The bits of a word's low byte. *)
Lemma has_bits_word b off m :
  0 ≤ m < 256 → has_bits (pci_get_word b off) m = has_bits (pci_get_byte b off) m.
Proof.
  intros Hm. unfold has_bits, pci_get_word, get_le, pci_get_byte. do 2 f_equal.
  assert (b !! Z.to_nat off = drop (Z.to_nat off) b !! 0%nat) as -> by (by rewrite lookup_drop, Nat.add_0_r).
  assert (∀ x y, (x + 256 * y) .& m = x .& m) as Hlow.
  { intros x y. assert (∀ z, z .& m = (z `mod` 2 ^ 8) .& m) as Hz.
    { intros z. rewrite <- Z.land_ones, <- Z.land_assoc by lia. f_equal.
      rewrite Z.land_comm, Z.land_ones, Z.mod_small; lia. }
    rewrite (Hz (x + 256 * y)), (Hz x). change 256 with (2 ^ 8). by rewrite (Z.mul_comm (2 ^ 8)), Z.mod_add by lia. }
  destruct (drop (Z.to_nat off) b) as [|x [|y l]]; cbn [take le_val lookup list_lookup]; cbn [default from_option id];
    rewrite ?Hlow; done.
Qed.

Ltac same_regs :=
  first [apply get_byte_same | apply get_le_same]; try lia;
  eapply same_at_sub; [|eassumption]; unfold win_regs, map_regs; intros; lia.

Lemma window_ext d d' type : same_at win_regs (config d) (config d') →
  pci_bridge_get_base d type = pci_bridge_get_base d' type ∧
  pci_bridge_get_limit d type = pci_bridge_get_limit d' type.
Proof.
  intros Hs. unfold pci_bridge_get_base, pci_bridge_get_limit, pci_config_get_io_base,
    pci_config_get_memory_base, pci_config_get_pref_base, pci_get_word, pci_get_long.
  assert (∀ off, 0x1c ≤ off < 0x1e → pci_get_byte (config d) off = pci_get_byte (config d') off) as H1
    by (intros; same_regs).
  assert (∀ n off, 0x20 ≤ off → off + Z.of_nat n ≤ 0x34 → get_le n (config d) off = get_le n (config d') off) as H2
    by (intros; same_regs).
  by rewrite !H1, !H2 by lia.
Qed.

Lemma bar_ext d d' i : same_at map_regs (config d) (config d') → pci_bar d i = pci_bar d' i.
Proof. intros Hs. unfold pci_bar. by replace (pci_get_byte (config d) PCI_HEADER_TYPE) with (pci_get_byte (config d') PCI_HEADER_TYPE) by (symmetry; same_regs). Qed.

Lemma bar_range d (i : nat) : (i < PCI_NUM_REGIONS)%nat →
  0x10 ≤ pci_bar d (Z.of_nat i) ∧ (pci_bar d (Z.of_nat i) + 4 ≤ 0x28 ∨ pci_bar d (Z.of_nat i) = 0x30 ∨
    pci_bar d (Z.of_nat i) = 0x38) ∧ ((i < 5)%nat → pci_bar d (Z.of_nat i) + 8 ≤ 0x28).
Proof.
  intros Hi. unfold pci_bar. destruct (Z.eqb_spec (Z.of_nat i) PCI_ROM_SLOT); cbn [negb]; [|lia].
  case_match; lia.
Qed.

Lemma bar_address_ext d d' (i : nat) type size :
  same_at map_regs (config d) (config d') → (i < PCI_NUM_REGIONS)%nat →
  (has_bits type PCI_BASE_ADDRESS_MEM_TYPE_64 = true → (i < 5)%nat) →
  pci_bar_address d (Z.of_nat i) type size = pci_bar_address d' (Z.of_nat i) type size.
Proof.
  intros Hs Hi H64. unfold pci_bar_address. rewrite !has_bits_word, <- (bar_ext d d' (Z.of_nat i) Hs) by lia.
  destruct (bar_range d i Hi) as (Hb1&Hb2&Hb3). set (bar := pci_bar d (Z.of_nat i)) in *.
  assert (pci_get_byte (config d) PCI_COMMAND = pci_get_byte (config d') PCI_COMMAND) as ->
    by same_regs.
  assert (pci_get_long (config d) bar = pci_get_long (config d') bar) as ->
    by (unfold pci_get_long; same_regs).
  destruct (has_bits type PCI_BASE_ADDRESS_MEM_TYPE_64) eqn:E; [|done].
  assert (pci_get_quad (config d) bar = pci_get_quad (config d') bar) as ->; [|done].
  specialize (Hb3 (H64 eq_refl)). unfold pci_get_quad. same_regs.
Qed.

Lemma filter_ext fuel s s' d d' b type base limit :
  statics s' = statics s →
  pci_get_byte (config d) PCI_COMMAND = pci_get_byte (config d') PCI_COMMAND →
  (∀ p x x', feeds s p b → devs s !! p = Some x → devs s' !! p = Some x' →
    same_at win_regs (config x) (config x')) →
  bridge_filter_loop fuel s' d' b type base limit = bridge_filter_loop fuel s d b type base limit.
Proof.
  intros He Hc. revert b base limit. induction fuel as [|fuel IH]; intros b base limit Hw; [done|].
  cbn [bridge_filter_loop]. destruct (buses s !! b) as [bus|] eqn:Hb; cycle 1.
  { destruct (buses s' !! b) eqn:Hb'; [|done].
    apply (statics_eq_bus _ _ _ _ He) in Hb' as (?&?&_). congruence. }
  destruct (buses s' !! b) as [bus'|] eqn:Hb'; cycle 1.
  { apply (statics_eq_bus s' s _ _ (eq_sym He)) in Hb as (?&?&_). congruence. }
  pose proof (f_equal parent_dev (statics_same_bus _ _ _ _ _ He Hb Hb')) as Eb. cbn in Eb.
  cbn. rewrite Eb.
  destruct (parent_dev bus) as [p|] eqn:Hp; [|done]. rewrite !has_bits_word, Hc by lia. case_match; [done|].
  destruct (devs s !! p) as [br|] eqn:Hd; cycle 1.
  { destruct (devs s' !! p) eqn:Hd'; [|done].
    apply (statics_eq_dev _ _ _ _ He) in Hd' as (?&?&_). congruence. }
  destruct (devs s' !! p) as [br'|] eqn:Hd'; cycle 1.
  { apply (statics_eq_dev s' s _ _ (eq_sym He)) in Hd as (?&?&_). congruence. }
  cbn. pose proof (f_equal dev_bus (statics_same_dev _ _ _ _ _ He Hd Hd')) as Ed. cbn in Ed. rewrite Ed.
  destruct (window_ext br br' type) as [<- <-]; [by eapply Hw; [eapply feeds_here|..]|].
  apply IH. intros q x x' Hf. apply Hw. by eapply feeds_up.
Qed.

(** A region's place depends on the device's own registers and on the windows of
    the bridges above it. *)
Lemma region_target_ext s s' d d' i r r' :
  statics s' = statics s → d_static d' = d_static d → r_static r' = r_static r →
  same_at map_regs (config d) (config d') →
  (∀ p x x', feeds s p (dev_bus d) → devs s !! p = Some x → devs s' !! p = Some x' →
    same_at win_regs (config x) (config x')) →
  (i < PCI_NUM_REGIONS)%nat → region_ok (bool_decide (is_Some (sec_bus d))) i r →
  region_target s' d' i r' = region_target s d i r.
Proof.
  intros He Ed Er Hm Hw Hi Hr. unfold region_target.
  pose proof (f_equal r_type Er) as Et. pose proof (f_equal r_size Er) as Ez. cbn in Et, Ez. rewrite Et, Ez.
  rewrite <- (bar_address_ext d d' i) by (done || apply Hr). case_match; [|done].
  unfold pci_bridge_filter. apply d_static_eq in Ed as (_&_&_&Ed&_). rewrite Ed.
  rewrite (filter_ext _ s s' d d'); [done..| |done].
  apply get_byte_same; [|lia]. eapply same_at_sub; [|exact Hm]. unfold map_regs. lia.
Qed.

(** Without decoding a region has no place, whatever the bridges do. *)
Lemma bar_address_quiet d i type size :
  pci_get_byte (config d) PCI_COMMAND .& 3 = 0 → pci_bar_address d i type size = PCI_BAR_UNMAPPED.
Proof.
  intros Hc. unfold pci_bar_address. rewrite !has_bits_word by lia.
  assert (∀ m, m .& 3 = m → has_bits (pci_get_byte (config d) PCI_COMMAND) m = false) as Hm.
  { intros m Hm. apply has_bits_false.
    replace m with (3 .& m) by (by rewrite Z.land_comm). by rewrite Z.land_assoc, Hc, Z.land_0_l. }
  rewrite !Hm by done. case_match; done.
Qed.

Lemma filter_total s d b fuel type base limit : statics_ok (statics s) → is_Some (buses s !! b) →
  (b < fuel)%nat → is_Some (bridge_filter_loop fuel s d b type base limit).
Proof.
  intros Hs. revert b base limit. induction fuel as [|fuel IH]; intros b base limit [bus Hb] Hf; [lia|].
  cbn [bridge_filter_loop]. rewrite Hb. cbn. destruct (parent_dev bus) as [p|] eqn:Hp; [|done].
  case_match; [done|]. destruct (ok_parent s Hs _ _ _ Hb Hp) as (x&Hx&Hlt&_). rewrite Hx. cbn.
  apply IH; [|lia]. destruct (ok_dev s Hs _ _ Hx) as (_&_&b'&Hb'&_). by exists b'.
Qed.

Lemma region_target_total s n d i r :
  statics_ok (statics s) → devs s !! n = Some d → is_Some (region_target s d i r).
Proof.
  intros Hs Hd. unfold region_target. case_match; [|done]. unfold pci_bridge_filter.
  destruct (ok_dev s Hs _ _ Hd) as (_&_&b&Hb&_).
  destruct (filter_total s d (dev_bus d) (S (dev_bus d)) (r_type r)
    (pci_bar_address d (Z.of_nat i) (r_type r) (r_size r))
    (u64 (pci_bar_address d (Z.of_nat i) (r_type r) (r_size r) + r_size r - 1))) as [w Hw];
    [done|by exists b|lia|]. rewrite Hw. done.
Qed.

(** A device whose registers and regions are unchanged, below bridges whose
    windows are unchanged, stays coherent. *)
Lemma dev_coherent_ext s s' n d d' :
  statics_ok (statics s) → statics s' = statics s →
  devs s !! n = Some d → devs s' !! n = Some d' → io_regions d' = io_regions d →
  same_at map_regs (config d) (config d') →
  (∀ p x x', feeds s p (dev_bus d) → devs s !! p = Some x → devs s' !! p = Some x' →
    same_at win_regs (config x) (config x')) →
  dev_coherent s n → dev_coherent s' n.
Proof.
  intros Hs He Hd Hd' Hr Hm Hw Hc x i r Hx Hi Hz. rewrite Hd' in Hx. apply (inj Some) in Hx as <-. rewrite Hr in Hi.
  rewrite <- (Hc d i r Hd Hi Hz). pose proof (statics_same_dev _ _ _ _ _ He Hd Hd') as Ed.
  destruct (ok_dev s Hs _ _ Hd) as ([_ Hlen Hreg]&_).
  apply region_target_ext; try done; [|by apply Hreg].
  apply lookup_lt_Some in Hi. by rewrite Hlen in Hi.
Qed.
End targets.
