(* ===== verification/PciInv.v ===== *)
(** * Invariants of the PCI layer

    Every operation of [hw/pci.c] runs without a fault on a well-formed system,
    keeps it well-formed, and leaves the mappings coherent. *)

From S2P Require Import Prelude Bytes Pci PciSpec.

Section ops.
Context {F : Type} `{MapFuncs F}.
Implicit Types (s : PciSys F) (d : PCIDevice F).

(** ** Rules *)

Lemma wp_follow {A} (o : option A) a (Q : A → PciSys F → Prop) s :
  o = Some a → Q a s → wp (follow o) Q s.
Proof. by intros ->. Qed.
Lemma wp_pdev n d (Q : PCIDevice F → PciSys F → Prop) s :
  devs s !! n = Some d → Q d s → wp (pdev n) Q s.
Proof. intros Hd HQ. unfold pdev. apply wp_bind, wp_gets. by eapply wp_follow. Qed.
Lemma wp_pbus n b (Q : PCIBus → PciSys F → Prop) s :
  buses s !! n = Some b → Q b s → wp (pbus n) Q s.
Proof. intros Hd HQ. unfold pbus. apply wp_bind, wp_gets. by eapply wp_follow. Qed.

(** [I done] holds when the elements of [done] were processed. *)
Lemma wp_for_each {A} (f : A → M (PciSys F) unit) l (I : list A → PciSys F → Prop) s :
  I [] s →
  (∀ pre x rest s', l = pre ++ x :: rest → I pre s' → wp (f x) (λ _, I (pre ++ [x])) s') →
  wp (for_each f l) (λ _, I l) s.
Proof.
  intros H0 Hstep. assert (∀ pre rest s', l = pre ++ rest → I pre s' → wp (for_each f rest) (λ _, I l) s') as Hgen.
  { intros pre rest. revert pre. induction rest as [|x rest IH]; intros pre s' El Hpre; cbn.
    - rewrite app_nil_r in El. subst. by apply wp_ret.
    - apply wp_bind. eapply wp_mono; [by eapply Hstep|]. intros [] s1 Hs1.
      apply (IH (pre ++ [x])); [|done]. by rewrite <- app_assoc. }
  by apply (Hgen []).
Qed.

(** ** Mappings *)

(** Only the places of regions differ. *)
Definition dev_remap (d d' : PCIDevice F) : Prop :=
  d' = d <| io_regions := io_regions d' |> ∧ map r_static (io_regions d') = map r_static (io_regions d).
Record remap s s' : Prop := {
  rm_buses : buses s' = buses s ∧ nbuses s' = nbuses s;
  rm_devs m : option_Forall2 dev_remap (devs s !! m) (devs s' !! m);
}.

Lemma dev_remap_refl d : dev_remap d d.
Proof. split; [by destruct d|done]. Qed.
Lemma dev_remap_trans d d1 d2 : dev_remap d d1 → dev_remap d1 d2 → dev_remap d d2.
Proof.
  intros [E1 R1] [E2 R2]. split; [|congruence]. rewrite E2 at 1. rewrite E1. by destruct d, d1, d2.
Qed.
Lemma dev_remap_static d d' : dev_remap d d' → d_static d' = d_static d.
Proof.
  intros [E R]. unfold d_static, update. destruct d, d'. cbn in *.
  injection E as -> -> -> -> -> -> -> -> -> -> ->. by rewrite R.
Qed.
Lemma dev_remap_dyn d d' : dev_remap d d' → dev_dyn_ok d → dev_dyn_ok d'.
Proof. intros [E _] []. rewrite E. by split. Qed.
Lemma dev_remap_config d d' : dev_remap d d' → config d' = config d ∧ irq_state d' = irq_state d.
Proof. intros [E _]. rewrite E. done. Qed.

Lemma remap_refl s : remap s s.
Proof. split; [done|]. intros m. destruct (devs s !! m); constructor. apply dev_remap_refl. Qed.
Lemma remap_trans s s1 s2 : remap s s1 → remap s1 s2 → remap s s2.
Proof.
  intros [[B1 N1] D1] [[B2 N2] D2]. split; [split; congruence|]. intros m.
  specialize (D1 m). specialize (D2 m). inversion D1 as [x y Hxy Ex Ey|Ex Ey]; rewrite <- Ey in D2;
    inversion D2; constructor. by eapply dev_remap_trans.
Qed.

Lemma remap_dev s s' m d' : remap s s' → devs s' !! m = Some d' → ∃ d, devs s !! m = Some d ∧ dev_remap d d'.
Proof. intros [_ D] Hd. specialize (D m). rewrite Hd in D. inversion D. eauto. Qed.

Lemma remap_dev_fwd s s' m d : remap s s' → devs s !! m = Some d → ∃ d', devs s' !! m = Some d' ∧ dev_remap d d'.
Proof. intros [_ D] Hd. specialize (D m). rewrite Hd in D. inversion D. eauto. Qed.

Lemma remap_statics s s' : remap s s' → statics s' = statics s.
Proof.
  intros [[Eb En] D]. unfold statics. rewrite Eb, En. do 2 f_equal. apply map_eq. intros m.
  rewrite !lookup_fmap. specialize (D m). inversion D as [x y Hxy|]; [|done]. cbn. f_equal.
  by apply dev_remap_static.
Qed.

Lemma remap_ok s s' : remap s s' → pci_ok s → pci_ok s'.
Proof.
  intros Hr [Hs Hd Hc]. split.
  - by rewrite (remap_statics _ _ Hr).
  - intros n d' Hd'. destruct (remap_dev _ _ _ _ Hr Hd') as (d&Hn&Hdd). eapply dev_remap_dyn; eauto.
  - destruct Hr as [[Eb _] _]. rewrite Eb. done.
Qed.

Lemma remap_coherent s s' m :
  remap s s' → statics_ok (statics s) → devs s' !! m = devs s !! m → dev_coherent s m → dev_coherent s' m.
Proof.
  intros Hr Hs Em Hc. destruct (devs s !! m) as [d|] eqn:Hd.
  - eapply (dev_coherent_ext s s' m d d); try done.
    + by apply remap_statics.
    + intros p x x' _ Hx Hx'. destruct (remap_dev _ _ _ _ Hr Hx') as (y&Hy&Hyx). simplify_eq.
      apply dev_remap_config in Hyx as [-> _]. apply same_at_refl.
  - intros d i r Hd'. congruence.
Qed.

Lemma remap_target s s' d d' i r :
  remap s s' → statics_ok (statics s) → dev_remap d d' → (i < PCI_NUM_REGIONS)%nat →
  region_ok (bool_decide (is_Some (sec_bus d))) i r → region_target s' d' i r = region_target s d i r.
Proof.
  intros Hr Hs Hd Hi Hok. apply region_target_ext; try done.
  - by apply remap_statics.
  - by apply dev_remap_static.
  - by rewrite (proj1 (dev_remap_config _ _ Hd)).
  - intros p x x' _ Hx Hx'. destruct (remap_dev _ _ _ _ Hr Hx') as (y&Hy&Hyx). simplify_eq.
    apply dev_remap_config in Hyx as [-> _]. apply same_at_refl.
Qed.

Lemma map_static_insert (rs : list (PCIIORegion F)) i r r' :
  rs !! i = Some r → r_static r' = r_static r → map r_static (<[i := r']> rs) = map r_static rs.
Proof.
  intros Hi E. change (map r_static ?l) with (r_static <$> l).
  rewrite list_fmap_insert, E. apply list_insert_id. by rewrite list_lookup_fmap, Hi.
Qed.

(** One region: it goes where it has to be. *)
Lemma pci_update_mapping_wp s n d i r :
  pci_ok s → devs s !! n = Some d → io_regions d !! i = Some r →
  wp (pci_update_mapping n i) (λ _ s', ∃ r',
    r_static r' = r_static r ∧ (r_size r ≠ 0 → region_target s d i r = Some (r_addr r', r_filtered_size r')) ∧
    devs s' = <[n := d <| io_regions ::= <[i := r']> |>]> (devs s) ∧ buses s' = buses s ∧ nbuses s' = nbuses s) s.
Proof.
  intros [Hs _ _] Hd Hi. unfold pci_update_mapping.
  apply wp_bind, (wp_pdev n d); [done|]. apply wp_bind. eapply wp_oob; [exact Hi|].
  assert (d <| io_regions ::= <[i := r]> |> = d) as Hid.
  { unfold update. rewrite list_insert_id by done. by destruct d. }
  destruct (Z.eqb_spec (r_size r) 0) as [|Hz].
  { apply wp_ret. exists r. rewrite Hid, insert_id by done. done. }
  apply wp_bind, wp_gets. destruct (region_target_total s n d i r Hs Hd) as [[a z] Ht].
  apply wp_bind. eapply wp_follow; [exact Ht|]. cbv iota beta.
  destruct ((a =? r_addr r) && (z =? r_filtered_size r)) eqn:E.
  { apply wp_ret. apply andb_prop in E as [->%Z.eqb_eq ->%Z.eqb_eq]. exists r.
    rewrite Hid, insert_id by done. done. }
  destruct (ok_dev s Hs _ _ Hd) as (Hst&_&b&Hb&_). apply wp_bind, (wp_pbus (dev_bus d) b); [done|].
  apply wp_bind, wp_modify, wp_bind, wp_modify. set (r' := r <| r_addr := a |> <| r_filtered_size := z |>).
  change (r_addr r') with a. destruct (a =? PCI_BAR_UNMAPPED).
  - apply wp_ret. by exists r'.
  - destruct (ro_func _ _ _ (so_region _ Hst i r Hi Hz)) as [f Hf].
    apply wp_bind. eapply wp_follow; [exact Hf|]. apply wp_modify. by exists r'.
Qed.

Lemma region_target_static s d i r r' :
  r_static r' = r_static r → region_target s d i r' = region_target s d i r.
Proof.
  intros E. pose proof (f_equal r_type E) as Et. pose proof (f_equal r_size E) as Ez. cbn in Et, Ez.
  unfold region_target. by rewrite Et, Ez.
Qed.

(** All regions of a device. *)
Lemma pci_update_mappings_wp s n d :
  pci_ok s → devs s !! n = Some d →
  wp (pci_update_mappings n) (λ _ s', remap s s' ∧ dev_coherent s' n ∧
    (∀ m, m ≠ n → devs s' !! m = devs s !! m)) s.
Proof.
  intros Hok Hd. pose proof Hok as [Hs _ _]. destruct (ok_dev s Hs _ _ Hd) as (Hst&_).
  pose (I (pre : list nat) s' := ∃ d', dev_remap d d' ∧ devs s' = <[n := d']> (devs s) ∧
    buses s' = buses s ∧ nbuses s' = nbuses s ∧
    ∀ i r, i ∈ pre → io_regions d' !! i = Some r → r_size r ≠ 0 →
      region_target s d i r = Some (r_addr r, r_filtered_size r)).
  assert (∀ d' s', dev_remap d d' → devs s' = <[n := d']> (devs s) → buses s' = buses s →
    nbuses s' = nbuses s → remap s s') as Hrm.
  { intros d' s' Hdd Ed Eb En. split; [done|]. intros m. rewrite Ed. destruct (decide (m = n)) as [->|].
    - rewrite lookup_insert_eq, Hd. by constructor.
    - rewrite lookup_insert_ne by done. destruct (devs s !! m); constructor. apply dev_remap_refl. }
  assert (∀ d' i r, dev_remap d d' → io_regions d' !! i = Some r → r_size r ≠ 0 →
    (i < PCI_NUM_REGIONS)%nat ∧ region_ok (bool_decide (is_Some (sec_bus d))) i r) as Hreg.
  { intros d' i r Hdd Hi Hz. pose proof Hdd as [Esec _]. apply dev_remap_static in Hdd.
    assert (dev_static_ok d') as [_ Hl Hr].
    { apply dev_static_of. rewrite Hdd. destruct (to_dev _ _ _ Hs n (d_static d)); [by apply statics_dev|done]. }
    apply (f_equal sec_bus) in Esec. cbn in Esec. rewrite <- Esec. split; [|by apply Hr].
    apply lookup_lt_Some in Hi. by rewrite Hl in Hi. }
  unfold pci_update_mappings. eapply wp_mono; [apply (wp_for_each _ _ I)|].
  - exists d. split_and!; [apply dev_remap_refl|by rewrite insert_id|done|done|]. intros i r Hi. by apply not_elem_of_nil in Hi.
  - intros pre i rest s1 El (d1&Hd1&Ed&Eb&En&Hpre).
    pose proof (Hrm _ _ Hd1 Ed Eb En) as Hr1. pose proof (remap_ok _ _ Hr1 Hok) as Hok1.
    assert (devs s1 !! n = Some d1) as Hn1 by (by rewrite Ed, lookup_insert_eq).
    destruct (lookup_lt_is_Some_2 (io_regions d1) i) as [r Hi].
    { destruct (ok_dev s1 (po_static _ Hok1) _ _ Hn1) as ([_ -> _]&_).
      assert (i ∈ seq 0 7) as Hin%elem_of_seq by (rewrite El; set_solver). lia. }
    eapply wp_mono; [by apply (pci_update_mapping_wp s1 n d1 i r)|].
    intros [] s2 (r'&Er&Ht&Ed2&Eb2&En2). exists (d1 <| io_regions ::= <[i := r']> |>).
    assert (dev_remap d1 (d1 <| io_regions ::= <[i := r']> |>)) as Hd12.
    { split; [by destruct d1|]. cbn. by eapply map_static_insert. }
    split_and!; [by eapply dev_remap_trans|by rewrite Ed2, Ed, insert_insert_eq|congruence..|].
    intros j r0 Hj Hj0 Hz. cbn in Hj0. destruct (decide (j = i)) as [->|Hji].
    + apply lookup_lt_Some in Hi as Hlt. rewrite list_lookup_insert_eq in Hj0 by done.
      apply (inj Some) in Hj0 as <-. pose proof (f_equal r_size Er) as Ez. cbn in Ez. rewrite Ez in Hz.
      destruct (Hreg _ _ _ Hd1 Hi Hz).
      by rewrite (region_target_static _ _ _ _ _ Er), <- (remap_target s s1 d d1), Ht.
    + rewrite list_lookup_insert_ne in Hj0 by done. apply Hpre; [|done..].
      apply elem_of_app in Hj as [ | ->%list_elem_of_singleton]; done.
  - intros [] s' (d'&Hdd&Ed&Eb&En&Hall). pose proof (Hrm _ _ Hdd Ed Eb En) as Hr. split_and!; [done| |].
    + intros x i r Hx Hi Hz. rewrite Ed, lookup_insert_eq in Hx. apply (inj Some) in Hx as <-.
      destruct (Hreg _ _ _ Hdd Hi Hz). rewrite (remap_target s s' d d') by done.
      apply Hall; [|done..]. apply elem_of_seq. lia.
    + intros m Hm. by rewrite Ed, lookup_insert_ne.
Qed.

(** Regions were refreshed: the coherent ones still are. *)
Record refresh s s' : Prop := {
  rf_remap : remap s s';
  rf_coherent m : dev_coherent s m → dev_coherent s' m;
}.
Lemma refresh_refl s : refresh s s.
Proof. split; [apply remap_refl|done]. Qed.
Lemma refresh_trans s s1 s2 : refresh s s1 → refresh s1 s2 → refresh s s2.
Proof. intros [R1 C1] [R2 C2]. split; [by eapply remap_trans|auto]. Qed.

Lemma pci_update_mappings_refresh s n d :
  pci_ok s → devs s !! n = Some d →
  wp (pci_update_mappings n) (λ _ s', refresh s s' ∧ dev_coherent s' n) s.
Proof.
  intros Hok Hd. eapply wp_mono; [by eapply pci_update_mappings_wp|]. intros [] s' (Hr&Hn&Hm).
  split; [|done]. split; [done|]. intros m Hc. destruct (decide (m = n)) as [->|]; [done|].
  eapply remap_coherent; eauto using po_static.
Qed.

Lemma update_devices_wp s l :
  pci_ok s → (∀ n, n ∈ l → is_Some (devs s !! n)) →
  wp (for_each pci_update_mappings l) (λ _ s', refresh s s' ∧ ∀ n, n ∈ l → dev_coherent s' n) s.
Proof.
  intros Hok Hl.
  apply (wp_for_each _ _ (λ pre s', refresh s s' ∧ ∀ n, n ∈ pre → dev_coherent s' n)).
  - split; [apply refresh_refl|]. intros n Hn. by apply not_elem_of_nil in Hn.
  - intros pre n rest s1 -> [Hr Hpre]. pose proof (rf_remap _ _ Hr) as Hrm.
    destruct (Hl n) as [d Hd]; [set_solver|]. destruct (remap_dev_fwd _ _ _ _ Hrm Hd) as (d1&Hd1&_).
    eapply wp_mono; [eapply pci_update_mappings_refresh; [by eapply remap_ok|exact Hd1]|].
    intros [] s2 [Hr2 Hn]. split; [by eapply refresh_trans|].
    intros m [Hm | ->%list_elem_of_singleton]%elem_of_app; [|done]. apply Hr2; auto.
Qed.

Lemma in_devices (b : PCIBus) n : n ∈ omap id (devices b) ↔ ∃ i, devices b !! i = Some (Some n).
Proof.
  rewrite list_elem_of_omap. split.
  - intros (x&Hx&E). cbn in E. subst. apply list_elem_of_lookup in Hx as [i Hi]. eauto.
  - intros [i Hi]. exists (Some n). split; [|done]. apply list_elem_of_lookup. eauto.
Qed.

Lemma under_split s b bus k :
  statics_ok (statics s) → buses s !! b = Some bus → under s b k →
  k = b ∨ ∃ c, c ∈ child bus ∧ under s c k.
Proof.
  intros Hs Hb. induction 1 as [|k bk p d Hk Hp Hd _ IH]; [by left|]. right.
  destruct IH as [E|(c&Hc&Hu)].
  - exists k. split; [|constructor]. apply (ok_child s Hs _ _ _ Hb). eauto 10.
  - exists c. split; [done|]. by eapply under_step.
Qed.

Lemma child_bus s b bus c : statics_ok (statics s) → buses s !! b = Some bus → c ∈ child bus →
  ∃ bc, buses s !! c = Some bc ∧ (b < c)%nat.
Proof.
  intros Hs Hb (bc&p&d&Hc&Hp&Hd&Eb)%(ok_child s Hs _ _ _ Hb).
  destruct (ok_parent s Hs _ _ _ Hc Hp) as (d'&Hd'&Hlt&_). simplify_eq. eauto.
Qed.

(** Everything below a bus. *)
Lemma pci_bridge_update_mappings_wp fuel s b bus :
  pci_ok s → buses s !! b = Some bus → (nbuses s ≤ fuel + b)%nat →
  wp (pci_bridge_update_mappings fuel b) (λ _ s', refresh s s' ∧
    ∀ m d, devs s !! m = Some d → under s b (dev_bus d) → dev_coherent s' m) s.
Proof.
  revert s b bus. induction fuel as [|fuel IH]; intros s b bus Hok Hb Hf.
  { destruct (ok_bus s (po_static _ Hok) _ _ Hb). lia. }
  pose proof (po_static _ Hok) as Hs. cbn [pci_bridge_update_mappings].
  apply wp_bind, (wp_pbus b bus); [done|]. apply wp_bind. eapply wp_mono; [apply update_devices_wp; [done|]|].
  { intros n [i Hi]%in_devices. destruct (ok_slot s Hs _ _ _ _ Hb Hi) as (d&Hd&_). eauto. }
  intros [] s1 [Hr1 Hc1]. pose proof (rf_remap _ _ Hr1) as [[Eb1 En1] _].
  apply wp_bind, (wp_pbus b bus); [by rewrite Eb1|].
  eapply wp_mono; [apply (wp_for_each _ _ (λ pre s', refresh s1 s' ∧
    ∀ c m d, c ∈ pre → devs s !! m = Some d → under s c (dev_bus d) → dev_coherent s' m))|].
  - split; [apply refresh_refl|]. intros c m d Hc. by apply not_elem_of_nil in Hc.
  - intros pre c rest s2 El [Hr2 Hpre]. assert (refresh s s2) as Hr by (by eapply refresh_trans).
    pose proof (rf_remap _ _ Hr) as Hrm. pose proof Hrm as [[Eb2 En2] _].
    destruct (child_bus s b bus c Hs Hb) as (bc&Hbc&Hlt); [rewrite El; set_solver|].
    eapply wp_mono; [eapply (IH s2 c bc); [by eapply remap_ok|by rewrite Eb2|lia]|].
    intros [] s3 [Hr3 Hc3]. split; [by eapply refresh_trans|].
    intros c' m d [Hin | ->%list_elem_of_singleton]%elem_of_app Hd Hu; [apply Hr3; eauto|].
    destruct (remap_dev_fwd _ _ _ _ Hrm Hd) as (d2&E2&Hd2).
    eapply Hc3; [done|]. apply dev_remap_static, d_static_eq in Hd2 as (_&_&_&->&_).
    eapply under_ext; [|exact Hu]. symmetry. by apply remap_statics.
  - intros [] s2 [Hr2 Hc2]. split; [by eapply refresh_trans|]. intros m d Hd Hu.
    destruct (under_split s b bus _ Hs Hb Hu) as [E|(c&Hc&Hu')]; [|by eapply Hc2].
    apply Hr2, Hc1, in_devices. destruct (ok_dev s Hs _ _ Hd) as (_&_&b'&Hb'&Hi). rewrite E in Hb'.
    simplify_eq. eauto.
Qed.

(** ** Interrupts *)

(** Where a pin of device [n] arrives: bus [j] and line [k] of it. *)
Inductive routes s : nat → Z → nat → Z → Prop :=
| routes_here n irq d b : devs s !! n = Some d → buses s !! dev_bus d = Some b → set_irq b = true →
    routes s n irq (dev_bus d) (map_irq b (devfn d) irq)
| routes_up n irq d b p j k : devs s !! n = Some d → buses s !! dev_bus d = Some b → set_irq b = false →
    parent_dev b = Some p → routes s p (map_irq b (devfn d) irq) j k → routes s n irq j k.

Lemma routes_ext s s' n irq j k : statics s' = statics s → routes s' n irq j k → routes s n irq j k.
Proof.
  intros Hst. induction 1 as [m i x b Hx Hb Hset|m i x b p j k Hx Hb Hset Hp _ IH];
    apply (statics_eq_dev _ _ _ _ Hst) in Hx as (y&Hy&Ey); apply d_static_eq in Ey as (_&_&_&Eb&Ef&_);
    apply (statics_eq_bus _ _ _ _ Hst) in Hb as (c&Hc&Ec); rewrite Eb, Ef in *;
    pose proof (f_equal set_irq Ec) as E1; pose proof (f_equal map_irq Ec) as E2;
    pose proof (f_equal parent_dev Ec) as E3; cbn in E1, E2, E3; rewrite ?E2 in *.
  - apply routes_here; congruence.
  - eapply (routes_up _ _ _ y c p); congruence || done.
Qed.

(** The state after a change of the count of line [k] of bus [j]. *)
Definition add_count s (j : nat) (k change : Z) : PciSys F :=
  match buses s !! j with
  | Some b =>
      let c := s32 (default 0 (irq_count b !! Z.to_nat k) + change) in
      s <| buses ::= <[j := b <| irq_count ::= <[Z.to_nat k := c]> |>]> |>
        <| host ::= λ h, h ++ [bus_set_irq j k (if c =? 0 then 0 else 1)] |>
  | None => s
  end.

Lemma change_irq_level_loop_wp fuel s n d irq change :
  statics_ok (statics s) → devs s !! n = Some d → 0 ≤ irq < 4 → (dev_bus d < fuel)%nat →
  wp (change_irq_level_loop fuel n irq change)
    (λ _ s', ∃ j k, routes s n irq j k ∧ is_Some (buses s !! j) ∧ 0 ≤ k < 4 ∧ s' = add_count s j k change) s.
Proof.
  intros Hs. revert n d irq. induction fuel as [|fuel IH]; intros n d irq Hd Hi Hf; [lia|].
  destruct (ok_dev s Hs _ _ Hd) as (_&Hfn&b&Hb&_). destruct (ok_bus s Hs _ _ Hb) as [[Hl Hroot Hmap Hcnt] _].
  pose proof (Hmap (devfn d) irq Hfn Hi) as Hk. set (k := map_irq b (devfn d) irq) in *.
  cbn [change_irq_level_loop]. apply wp_bind, (wp_pdev n d); [done|]. apply wp_bind, (wp_pbus _ b); [done|].
  fold k. cbv zeta. destruct (set_irq b) eqn:Es.
  - replace (k <? 0) with false by lia.
    destruct (lookup_lt_is_Some_2 (irq_count b) (Z.to_nat k)) as [c Hc]; [rewrite Hcnt by done; lia|].
    apply wp_bind. eapply wp_oob; [exact Hc|]. apply wp_bind, wp_modify, wp_modify.
    exists (dev_bus d), k. split_and!; [by apply routes_here|by exists b|lia|lia|].
    unfold add_count. by rewrite Hb, Hc.
  - destruct (parent_dev b) as [p|] eqn:Hp; [|by specialize (Hroot eq_refl)].
    apply wp_bind. eapply wp_follow; [reflexivity|]. destruct (ok_parent s Hs _ _ _ Hb Hp) as (x&Hx&Hlt&_).
    eapply wp_mono; [apply (IH p x); [done|lia..]|]. intros [] s' (j&k'&Hr&?&?&?). exists j, k'.
    split_and!; [by eapply routes_up|done|lia|lia|done].
Qed.

Lemma pci_change_irq_level_wp s n d irq change :
  statics_ok (statics s) → devs s !! n = Some d → 0 ≤ irq < 4 →
  wp (pci_change_irq_level n irq change)
    (λ _ s', ∃ j k, routes s n irq j k ∧ is_Some (buses s !! j) ∧ 0 ≤ k < 4 ∧ s' = add_count s j k change) s.
Proof.
  intros Hs Hd Hi. unfold pci_change_irq_level. apply wp_bind, (wp_pdev n d); [done|].
  by apply (change_irq_level_loop_wp _ s n d); [..|lia].
Qed.

(** Only counts differ. *)
Record counts s s' : Prop := {
  ct_devs : devs s' = devs s;
  ct_statics : statics s' = statics s;
  ct_int : (∀ j b, buses s !! j = Some b → Forall int_ok (irq_count b)) →
    ∀ j b, buses s' !! j = Some b → Forall int_ok (irq_count b);
}.
Lemma counts_refl s : counts s s.
Proof. done. Qed.
Lemma counts_trans s s1 s2 : counts s s1 → counts s1 s2 → counts s s2.
Proof. intros [E1 S1 C1] [E2 S2 C2]. split; [congruence..|]. intros Hi. by apply C2, C1. Qed.
Lemma counts_ok s s' : counts s s' → pci_ok s → pci_ok s'.
Proof. intros [Ed Es Hc] [Hs Hd Hi]. split; [by rewrite Es|by rewrite Ed|by apply Hc]. Qed.
Lemma counts_coherent s s' m : counts s s' → statics_ok (statics s) → dev_coherent s m → dev_coherent s' m.
Proof.
  intros [Ed Es _] Hs Hc. destruct (devs s !! m) as [d|] eqn:Hd.
  - eapply (dev_coherent_ext s s' m d d); try done; [by rewrite Ed|].
    intros p x x' _ Hx Hx'. rewrite Ed, Hx in Hx'. by apply (inj Some) in Hx' as <-.
  - intros d i r Hd'. congruence.
Qed.

Lemma s32_int z : int_ok (s32 z).
Proof. unfold int_ok, s32. pose proof (Z.mod_pos_bound (z + 2 ^ 31) (2 ^ 32)). lia. Qed.

Lemma add_count_counts s j k c : counts s (add_count s j k c).
Proof.
  unfold add_count. destruct (buses s !! j) as [b|] eqn:Hb; [|apply counts_refl]. split; [done| |].
  - unfold statics. cbn. do 2 f_equal. rewrite fmap_insert. apply insert_id. rewrite lookup_fmap, Hb. cbn. f_equal.
    unfold b_static, update. cbn. by rewrite length_insert.
  - intros Hi j' b'. cbn. rewrite lookup_insert_Some. intros [[<- <-]|[_ Hb']]; [|by eapply Hi].
    cbn. apply Forall_insert; [by eapply Hi|]. apply s32_int.
Qed.

Lemma change_irq_counts s n d irq change :
  pci_ok s → devs s !! n = Some d → 0 ≤ irq < 4 →
  wp (pci_change_irq_level n irq change) (λ _ s', counts s s') s.
Proof.
  intros [Hs _ _] Hd Hi. eapply wp_mono; [by eapply pci_change_irq_level_wp|].
  intros [] s' (j&k&_&_&_&->). apply add_count_counts.
Qed.

Lemma in_pins i : i ∈ irq_pins → 0 ≤ i < 4.
Proof. unfold irq_pins. rewrite list_elem_of_fmap. intros (x&->&Hx%elem_of_seq). lia. Qed.

Lemma pci_update_irq_disabled_wp s n d was :
  pci_ok s → devs s !! n = Some d → wp (pci_update_irq_disabled n was) (λ _ s', counts s s') s.
Proof.
  intros Hok Hd. unfold pci_update_irq_disabled. apply wp_bind, (wp_pdev n d); [done|]. cbv zeta.
  case_match; [apply wp_ret, counts_refl|].
  apply (wp_for_each _ _ (λ _, counts s)); [apply counts_refl|]. intros pre i rest s1 El Hc.
  pose proof (ct_devs _ _ Hc) as Ed. apply wp_bind, (wp_pdev n d); [by rewrite Ed|].
  eapply wp_mono; [eapply change_irq_counts; [by eapply counts_ok|by rewrite Ed|]|].
  { apply in_pins. rewrite El. set_solver. }
  intros [] s2 Hc2. by eapply counts_trans.
Qed.

(** ** Replacing a device *)

Definition set_dev s (n : nat) (d : PCIDevice F) : PciSys F := s <| devs ::= <[n := d]> |>.

Lemma wp_put_pdev n d (Q : unit → PciSys F → Prop) s : Q () (set_dev s n d) → wp (put_pdev n d) Q s.
Proof. done. Qed.

Section set_dev.
Context s n d d' (Hd : devs s !! n = Some d) (He : d_static d' = d_static d).

Lemma set_dev_statics : statics (set_dev s n d') = statics s.
Proof.
  unfold statics. cbn. do 2 f_equal. rewrite fmap_insert, He. apply insert_id. by rewrite lookup_fmap, Hd.
Qed.

Lemma set_dev_ok : pci_ok s → dev_dyn_ok d' → pci_ok (set_dev s n d').
Proof.
  intros [Hs Hdyn Hc] Hd'. split; [by rewrite set_dev_statics| |done].
  intros m x. cbn. rewrite lookup_insert_Some. intros [[_ <-]|[_ Hx]]; [done|by eapply Hdyn].
Qed.

Lemma set_dev_eq : devs (set_dev s n d') !! n = Some d'.
Proof. apply lookup_insert_eq. Qed.

(** The others keep their place when the windows stay. *)
Lemma set_dev_coherent_ne m : statics_ok (statics s) → m ≠ n →
  (∀ x, devs s !! m = Some x → feeds s n (dev_bus x) → same_at win_regs (config d) (config d')) →
  dev_coherent s m → dev_coherent (set_dev s n d') m.
Proof.
  intros Hs Hne Hw Hc. destruct (devs s !! m) as [x|] eqn:Hx.
  - eapply (dev_coherent_ext s _ m x x); try done; [apply set_dev_statics|by cbn; rewrite lookup_insert_ne|].
    intros p y y' Hf Hy. cbn. rewrite lookup_insert_Some. intros [[-> <-]|[_ Hy']]; [|simplify_eq; done].
    rewrite Hd in Hy. apply (inj Some) in Hy as <-. by eapply Hw.
  - intros z i r. cbn. rewrite lookup_insert_ne by done. congruence.
Qed.

Lemma set_dev_coherent m :
  pci_ok s → io_regions d' = io_regions d → same_at map_regs (config d) (config d') →
  same_at win_regs (config d) (config d') → dev_coherent s m → dev_coherent (set_dev s n d') m.
Proof.
  intros [Hs _ _] Hr Hm Hw Hc. destruct (decide (m = n)) as [->|]; [|by apply set_dev_coherent_ne].
  eapply (dev_coherent_ext s _ n d d'); try done; [apply set_dev_statics|apply set_dev_eq|].
  intros p y y' Hf Hy. cbn. rewrite lookup_insert_Some. intros [[-> <-]|[_ Hy']]; [|simplify_eq; done].
  rewrite Hd in Hy. by apply (inj Some) in Hy as <-.
Qed.
End set_dev.

(** ** Raising and lowering a pin *)

Lemma irq_state_bit d irq : pci_irq_state d irq = Z.b2z (Z.testbit (irq_state d) irq).
Proof.
  unfold pci_irq_state. change 1 with (Z.ones 1). rewrite Z.land_ones by lia. change (2 ^ 1) with 2.
  by rewrite <- Z.bit0_mod, Z.shiftr_spec, Z.add_0_l by lia.
Qed.

Lemma set_irq_state_bit d irq (level : bool) k :
  0 ≤ irq < 4 → 0 ≤ irq_state d < 16 → 0 ≤ k →
  Z.testbit (irq_state (pci_set_irq_state d irq (Z.b2z level))) k =
    if k =? irq then level else Z.testbit (irq_state d) k.
Proof.
  intros Hi Hs Hk. cbn. unfold u8, wrap.
  assert (∀ j, 8 ≤ j → Z.testbit (irq_state d) j = false) as Hhigh.
  { apply (in_w_testbit 8); [lia|]. unfold in_w. lia. }
  assert (Z.testbit (Z.b2z level << irq) k = if k =? irq then level else false) as Hl.
  { rewrite Z.shiftl_spec by lia. destruct (Z.eqb_spec k irq) as [->|].
    - rewrite Z.sub_diag. by destruct level.
    - destruct (decide (k < irq)); [by apply Z.testbit_neg_r; lia|].
      destruct level; cbn [Z.b2z]; [apply (Z.pow2_bits_false 0); lia|apply Z.bits_0]. }
  assert (Z.testbit (1 << irq) k = (k =? irq)) as H1.
  { rewrite Z.shiftl_1_l. destruct (Z.eqb_spec k irq) as [->|]; [apply Z.pow2_bits_true; lia|].
    apply Z.pow2_bits_false. done. }
  destruct (decide (k < 8)).
  - rewrite Z.mod_pow2_bits_low, Z.lor_spec, Z.land_spec, Z.lnot_spec, Hl, H1 by lia.
    destruct (k =? irq), level, (Z.testbit (irq_state d) k); done.
  - rewrite Z.mod_pow2_bits_high by lia. destruct (Z.eqb_spec k irq); [lia|]. by rewrite Hhigh by lia.
Qed.

Lemma set_irq_state_range d irq (level : bool) :
  0 ≤ irq < 4 → 0 ≤ irq_state d < 16 → 0 ≤ irq_state (pci_set_irq_state d irq (Z.b2z level)) < 16.
Proof.
  intros Hi Hs. apply (in_w_testbit 4); [lia|]. split; [cbn; apply u8_range|].
  intros k Hk. rewrite set_irq_state_bit by lia. destruct (Z.eqb_spec k irq); [lia|].
  apply (in_w_testbit 4); [lia|done|done].
Qed.

(** Only the status byte of the configuration space changes. *)
Lemma irq_status_rest d : pci_update_irq_status d = d <| config := config (pci_update_irq_status d) |>.
Proof. unfold pci_update_irq_status. case_match; by destruct d. Qed.
Lemma irq_status_same d : same_at (λ i, i ≠ PCI_STATUS) (config d) (config (pci_update_irq_status d)).
Proof. unfold pci_update_irq_status. case_match; by apply set_byte_same. Qed.
Lemma irq_status_dyn d : dev_dyn_ok d → dev_dyn_ok (pci_update_irq_status d).
Proof.
  intros [Hl Hb Hi Hh]. pose proof (irq_status_same d) as Hsame. rewrite (irq_status_rest d). split; try done.
  - cbn. unfold pci_update_irq_status. case_match; cbn; unfold pci_byte_set_mask, pci_byte_clear_mask;
      by rewrite length_set_byte.
  - cbn. unfold pci_update_irq_status. case_match; by apply set_byte_ok.
  - intros Hsec. rewrite <- Hh by done. cbn [config update]. f_equal. symmetry. apply get_byte_same; [|lia].
    eapply same_at_sub; [|exact Hsame]. cbn. lia.
Qed.

(** The device after a change of one of its pins. *)
Definition pin_set d (irq : Z) (level : bool) : PCIDevice F :=
  pci_update_irq_status (pci_set_irq_state d irq (Z.b2z level)).

Lemma pin_set_static d irq level : d_static (pin_set d irq level) = d_static d.
Proof. unfold pin_set. rewrite irq_status_rest. by destruct d. Qed.
Lemma pin_set_dyn d irq level : 0 ≤ irq < 4 → dev_dyn_ok d → dev_dyn_ok (pin_set d irq level).
Proof.
  intros Hi [Hl Hb Hr Hh]. apply irq_status_dyn. split; try done. by apply set_irq_state_range.
Qed.
Lemma pin_set_same d irq level : same_at (λ i, i ≠ PCI_STATUS) (config d) (config (pin_set d irq level)).
Proof. exact (irq_status_same (pci_set_irq_state d irq (Z.b2z level))). Qed.
Lemma pin_set_irq d irq level : irq_state (pin_set d irq level) = irq_state (pci_set_irq_state d irq (Z.b2z level)).
Proof. unfold pin_set. by rewrite irq_status_rest. Qed.
Lemma pin_set_regions d irq level : io_regions (pin_set d irq level) = io_regions d.
Proof. unfold pin_set. by rewrite irq_status_rest. Qed.

Lemma pci_set_irq_wp s n d irq (level : bool) :
  pci_ok s → devs s !! n = Some d → 0 ≤ irq < 4 →
  wp (pci_set_irq n irq (Z.b2z level)) (λ _ s',
    if Bool.eqb (Z.testbit (irq_state d) irq) level then s' = s else
    let d' := pin_set d irq level in
    if pci_irq_disabled d' then s' = set_dev s n d' else
    ∃ j k, routes s n irq j k ∧ 0 ≤ k < 4 ∧
      s' = add_count (set_dev s n d') j k (Z.b2z level - Z.b2z (negb level))) s.
Proof.
  intros Hok Hd Hi. unfold pci_set_irq. apply wp_bind, (wp_pdev n d); [done|]. cbv zeta.
  rewrite irq_state_bit. destruct (Bool.eqb_spec (Z.testbit (irq_state d) irq) level) as [E|E].
  { rewrite E, Z.sub_diag. by apply wp_ret. }
  assert (Z.testbit (irq_state d) irq = negb level) as -> by (destruct (Z.testbit _ _), level; done).
  replace (Z.b2z level - Z.b2z (negb level) =? 0) with false by (by destruct level).
  apply wp_bind, wp_put_pdev. fold (pin_set d irq level). case_match; [by apply wp_ret|].
  pose proof (set_dev_statics s n d (pin_set d irq level) Hd (pin_set_static _ _ _)) as Hst.
  eapply wp_mono; [eapply pci_change_irq_level_wp; [rewrite Hst; apply Hok|apply set_dev_eq|done]|].
  intros [] s' (j&k&Hr&_&Hk&->). exists j, k. split; [|done].
  by eapply routes_ext.
Qed.

(** What every operation keeps. *)
Record kept s s' : Prop := {
  kp_statics : statics s' = statics s;
  kp_ok : pci_ok s';
  kp_coherent m : dev_coherent s m → dev_coherent s' m;
}.
Lemma kept_refl s : pci_ok s → kept s s.
Proof. done. Qed.
Lemma kept_trans s s1 s2 : kept s s1 → kept s1 s2 → kept s s2.
Proof. intros [E1 _ C1] [E2 O2 C2]. split; [congruence|done|auto]. Qed.
Lemma counts_kept s s' : counts s s' → pci_ok s → kept s s'.
Proof.
  intros Hc Hok. split; [apply Hc|by eapply counts_ok|].
  intros m. by apply counts_coherent, Hok.
Qed.
Lemma refresh_kept s s' : refresh s s' → pci_ok s → kept s s'.
Proof.
  intros [Hr Hc] Hok. split; [by apply remap_statics|by eapply remap_ok|done].
Qed.

Lemma pin_set_kept s n d irq level :
  pci_ok s → devs s !! n = Some d → 0 ≤ irq < 4 → kept s (set_dev s n (pin_set d irq level)).
Proof.
  intros Hok Hd Hi. pose proof (pin_set_static d irq level) as Est. pose proof (pin_set_same d irq level) as Hsame.
  split.
  - by eapply set_dev_statics.
  - eapply set_dev_ok; try done. apply pin_set_dyn; [done|]. by eapply po_dyn.
  - intros m. eapply set_dev_coherent; try done.
    + apply pin_set_regions.
    + eapply same_at_sub; [|exact Hsame]. unfold map_regs. lia.
    + eapply same_at_sub; [|exact Hsame]. unfold win_regs. lia.
Qed.

Lemma pci_set_irq_kept s n d irq (level : bool) :
  pci_ok s → devs s !! n = Some d → 0 ≤ irq < 4 →
  wp (pci_set_irq n irq (Z.b2z level)) (λ _ s', kept s s') s.
Proof.
  intros Hok Hd Hi. pose proof (pin_set_kept s n d irq level Hok Hd Hi) as Hk.
  eapply wp_mono; [by eapply pci_set_irq_wp|]. intros [] s'. cbv zeta. case_match; [by intros ->; apply kept_refl|].
  case_match; [by intros ->|]. intros (j&k&_&_&->). eapply kept_trans; [exact Hk|].
  apply counts_kept; [apply add_count_counts|apply Hk].
Qed.
End ops.
