(* ===== verification/PciCfg.v ===== *)
(** * Configuration accesses, resets and bridges

    What a write to a configuration space does byte by byte, that the mappings
    follow it, and the same for resets and for the registers of a bridge. *)

From S2P Require Import Prelude Bytes Pci PciSpec PciInv.

(** ** One byte *)

Lemma write_byte_ok old wm w1c val :
  byte_ok old → byte_ok wm → byte_ok w1c → byte_ok (write_byte old wm w1c val).
Proof.
  intros Ho Hw Hc. unfold write_byte. apply (land_in_w 8); [lia|]. apply (lor_in_w 8); [lia|..].
  - by apply (land_in_w 8).
  - rewrite Z.land_comm. by apply (land_in_w 8).
Qed.

Lemma write_byte_ro old val : write_byte old 0 0 val = old.
Proof. unfold write_byte. by rewrite !Z.land_0_r, Z.lor_0_r, !Z.land_m1_r. Qed.

(** The bit that is read back. *)
Lemma write_byte_bit old wm w1c val k :
  0 ≤ k < 8 → wm .& w1c = 0 →
  Z.testbit (write_byte old wm w1c val) k =
    if Z.testbit wm k then Z.testbit val k
    else if Z.testbit w1c k then Z.testbit old k && negb (Z.testbit val k) else Z.testbit old k.
Proof.
  intros Hk Hd. assert (Z.testbit wm k && Z.testbit w1c k = false) as Hdk
    by (rewrite <- Z.land_spec, Hd; apply Z.bits_0).
  unfold write_byte. rewrite Z.land_spec, Z.lnot_spec, Z.land_spec, Z.lor_spec, Z.land_spec, Z.lnot_spec, Z.land_spec by lia.
  unfold u8, wrap. rewrite Z.mod_pow2_bits_low by lia.
  destruct (Z.testbit wm k), (Z.testbit w1c k), (Z.testbit old k), (Z.testbit val k); done.
Qed.

Section cfg.
Context {F : Type} `{MapFuncs F}.
Implicit Types (s : PciSys F) (d : PCIDevice F).

(** ** The write loop *)

(** [d'] is [d] after writing the [k] low bytes of [val] at [addr]. *)
Record written (k addr val : Z) d d' : Prop := {
  wr_rest : d' = d <| config := config d' |>;
  wr_len : length (config d') = length (config d);
  wr_byte i old wm w1c : 0 ≤ i → config d !! Z.to_nat i = Some old →
    wmask d !! Z.to_nat i = Some wm → w1cmask d !! Z.to_nat i = Some w1c →
    config d' !! Z.to_nat i =
      Some (if decide (addr ≤ i < addr + k) then write_byte old wm w1c (val >> (8 * (i - addr))) else old);
}.

Lemma written_static k addr val d d' : written k addr val d d' → d_static d' = d_static d.
Proof. intros [E _ _]. rewrite E. by destruct d. Qed.

Lemma written_nothing addr val d : written 0 addr val d d.
Proof.
  split; [by destruct d|done|]. intros i old wm w1c Hi Ho _ _. by rewrite Ho, decide_False by lia.
Qed.

Lemma written_lookup k addr val d d' i :
  masks_ok d → dev_dyn_ok d → written k addr val d d' → 0 ≤ i < pci_config_size d →
  ∃ old wm w1c, config d !! Z.to_nat i = Some old ∧ wmask d !! Z.to_nat i = Some wm ∧
    w1cmask d !! Z.to_nat i = Some w1c ∧ byte_ok old ∧ byte_ok wm ∧ byte_ok w1c ∧ wm .& w1c = 0 ∧
    config d' !! Z.to_nat i =
      Some (if decide (addr ≤ i < addr + k) then write_byte old wm w1c (val >> (8 * (i - addr))) else old).
Proof.
  intros [[Lw Ow] [Lc Oc] Hdis _ _] [Lk Ok _ _] Hw Hi.
  destruct (lookup_lt_is_Some_2 (config d) (Z.to_nat i)) as [old Ho]; [lia|].
  destruct (lookup_lt_is_Some_2 (wmask d) (Z.to_nat i)) as [wm Hwm]; [lia|].
  destruct (lookup_lt_is_Some_2 (w1cmask d) (Z.to_nat i)) as [w1c Hc]; [lia|].
  exists old, wm, w1c. split_and!; [done..| | | | |].
  - by eapply Forall_lookup_1 in Ok.
  - by eapply Forall_lookup_1 in Ow.
  - by eapply Forall_lookup_1 in Oc.
  - by eapply Hdis.
  - apply Hw; [lia|done..].
Qed.

Lemma write_config_loop_wp k d addr val s :
  masks_ok d → dev_dyn_ok d → 0 ≤ addr → addr + Z.of_nat k < 2 ^ 32 →
  wp (write_config_loop k d addr val) (λ d' s', s' = s ∧ written (Z.of_nat k) addr val d d') s.
Proof.
  revert d addr val. induction k as [|k IH]; intros d addr val Hm Hdyn Ha Hk; cbn [write_config_loop].
  { apply wp_ret. split; [done|]. split; [by destruct d|done|]. intros i old wm w1c Hi Ho _ _.
    rewrite Ho, decide_False by lia. done. }
  destruct (Z.ltb_spec addr (pci_config_size d)) as [Hlt|Hge]; cycle 1.
  { apply wp_ret. split; [done|]. split; [by destruct d|done|]. intros i old wm w1c Hi Ho _ _.
    pose proof (lookup_lt_Some _ _ _ Ho) as Hil. rewrite (do_len _ Hdyn) in Hil.
    rewrite Ho, decide_False by lia. done. }
  destruct (written_lookup 0 addr val d d addr) as (old&wm&w1c&Ho&Hwm&Hc&Oo&Ow&Oc&Hdis&_); [done|done|apply written_nothing|lia|].
  apply wp_bind. eapply wp_oob; [exact Hwm|]. apply wp_bind. eapply wp_oob; [exact Hc|].
  apply wp_bind. eapply wp_oob; [exact Ho|]. rewrite (proj2 (has_bits_false wm w1c)) by done.
  set (v := write_byte old wm w1c val). set (d1 := d <| config ::= <[Z.to_nat addr := v]> |>).
  assert (dev_dyn_ok d1) as Hdyn1.
  { destruct Hdyn as [L O I Hh]. split; [by cbn; rewrite length_insert| |done|].
    - cbn. apply Forall_insert; [done|]. by apply write_byte_ok.
    - intros Hsec. rewrite <- Hh by done. f_equal. unfold pci_get_byte. cbn. f_equal.
      destruct (decide (addr = 14)) as [->|]; [|by rewrite list_lookup_insert_ne by lia].
      destruct (mo_header _ Hm) as [E1 E2]. change (Z.to_nat 14) with 14%nat in *.
      assert (wm = 0) as -> by congruence. assert (w1c = 0) as -> by congruence. unfold v.
      rewrite write_byte_ro, list_insert_id by done. done. }
  rewrite u32_small by lia.
  eapply wp_mono; [apply (IH d1); [by destruct Hm; split|done|lia..]|]. intros d' s' [-> [E L B]].
  split; [done|]. split.
  - rewrite E. by destruct d.
  - rewrite L. cbn. by rewrite length_insert.
  - intros i old' wm' w1c' Hi Ho' Hwm' Hc'. destruct (decide (i = addr)) as [->|Hne].
    + simplify_eq. rewrite (B addr v wm w1c); [|done|cbn; apply list_lookup_insert_eq; by eapply lookup_lt_Some|done..].
      rewrite decide_False, decide_True by lia. unfold v. by rewrite Z.sub_diag, Z.mul_0_r, Z.shiftr_0_r.
    + rewrite (B i old' wm' w1c'); [|done|cbn; by rewrite list_lookup_insert_ne by lia|done..].
      f_equal. destruct (decide (addr ≤ i < addr + Z.of_nat (S k))).
      * rewrite decide_True by lia. f_equal. rewrite Z.shiftr_shiftr by lia. f_equal. lia.
      * by rewrite decide_False by lia.
Qed.

Lemma written_same k addr val d d' :
  masks_ok d → dev_dyn_ok d → written k addr val d d' →
  same_at (λ i, ¬ (addr ≤ i < addr + k)) (config d) (config d').
Proof.
  intros Hm Hdyn Hw i Hi Hout. destruct (decide (i < pci_config_size d)).
  - destruct (written_lookup k addr val d d' i Hm Hdyn Hw) as (old&wm&w1c&Ho&_&_&_&_&_&_&E); [lia|].
    by rewrite E, decide_False, Ho.
  - rewrite !lookup_ge_None_2; [done|..]; rewrite ?(wr_len _ _ _ _ _ Hw), (do_len _ Hdyn); lia.
Qed.

(** The header type is read-only. *)
Lemma written_header k addr val d d' :
  masks_ok d → dev_dyn_ok d → written k addr val d d' → 14 < pci_config_size d →
  config d' !! 14%nat = config d !! 14%nat.
Proof.
  intros Hm Hdyn Hw Hlt. destruct (written_lookup k addr val d d' 14 Hm Hdyn Hw) as
    (old&wm&w1c&Ho&Hwm&Hc&_&_&_&_&E); [lia|]. change (Z.to_nat 14) with 14%nat in *.
  destruct (mo_header _ Hm). assert (wm = 0) as -> by congruence. assert (w1c = 0) as -> by congruence.
  rewrite E, Ho, write_byte_ro. by case_decide.
Qed.

Lemma config_size_pos d : 256 ≤ pci_config_size d.
Proof. unfold pci_config_size. case_match; lia. Qed.

Lemma written_dyn k addr val d d' :
  masks_ok d → dev_dyn_ok d → written k addr val d d' → dev_dyn_ok d'.
Proof.
  intros Hm Hdyn Hw. pose proof (config_size_pos d) as Hsz.
  pose proof (written_header k addr val d d' Hm Hdyn Hw ltac:(lia)) as Hhdr.
  pose proof (wr_rest _ _ _ _ _ Hw) as E. pose proof Hdyn as [L O I Hh].
  assert (pci_config_size d' = pci_config_size d) as Esz by (by rewrite E).
  split.
  - by rewrite (wr_len _ _ _ _ _ Hw), Esz.
  - apply Forall_lookup_2. intros i x Hx. pose proof (lookup_lt_Some _ _ _ Hx) as Hi.
    rewrite (wr_len _ _ _ _ _ Hw), L in Hi.
    destruct (written_lookup k addr val d d' (Z.of_nat i) Hm Hdyn Hw) as (old&wm&w1c&_&_&_&Oo&Ow&Oc&_&Ex); [lia|].
    rewrite Nat2Z.id, Hx in Ex. apply (inj Some) in Ex as ->. case_decide; [by apply write_byte_ok|done].
  - by rewrite E.
  - intros Hsec. rewrite <- Hh by (by rewrite E in Hsec). unfold pci_get_byte.
    change (Z.to_nat PCI_HEADER_TYPE) with 14%nat. by rewrite Hhdr.
Qed.

(** ** Which writes touch the mappings *)

Lemma overlap_false addr l first n i :
  0 ≤ addr < 256 → 1 ≤ l ≤ 4 → 0 ≤ first → 1 ≤ n → first + n ≤ 256 →
  ranges_overlap addr l first n = false → addr ≤ i < addr + l → ¬ (first ≤ i < first + n).
Proof.
  intros Ha Hl Hf Hn Hb Ho Hi. unfold ranges_overlap, range_get_last in Ho.
  rewrite !u64_small in Ho by lia. apply negb_false_iff, orb_true_iff in Ho. lia.
Qed.

Lemma covers_byte addr l byte :
  0 ≤ addr < 256 → 1 ≤ l ≤ 4 → range_covers_byte addr l byte = bool_decide (addr ≤ byte < addr + l).
Proof.
  intros Ha Hl. unfold range_covers_byte, range_get_last. rewrite u64_small by lia.
  destruct (Z.leb_spec addr byte), (Z.leb_spec byte (addr + l - 1)); case_bool_decide; done || lia.
Qed.

(** The test in front of [pci_update_mappings]. *)
Definition touches_maps (addr l : Z) : bool :=
  ranges_overlap addr l PCI_BASE_ADDRESS_0 24 || ranges_overlap addr l PCI_ROM_ADDRESS 4 ||
  ranges_overlap addr l PCI_ROM_ADDRESS1 4 || range_covers_byte addr l PCI_COMMAND.

Lemma untouched_maps k addr val d d' :
  masks_ok d → dev_dyn_ok d → 0 ≤ addr < 256 → 1 ≤ k ≤ 4 → written k addr val d d' →
  touches_maps addr k = false → same_at map_regs (config d) (config d').
Proof.
  intros Hm Hdyn Ha Hk Hw Ht i Hi Hreg. unfold touches_maps in Ht.
  apply orb_false_iff in Ht as [[[T1 T2]%orb_false_iff T3]%orb_false_iff T4].
  rewrite covers_byte in T4 by lia. apply bool_decide_eq_false in T4.
  destruct (decide (i = 14)) as [->|].
  { symmetry. apply (written_header k addr val); try done. pose proof (config_size_pos d). lia. }
  apply (written_same k addr val d d' Hm Hdyn Hw i Hi). intros Hin.
  apply (overlap_false _ _ _ _ i) in T1, T2, T3; [|lia..|done].
  unfold map_regs in Hreg. lia.
Qed.

(** ** Writing *)

(** No bridge is above itself. *)
Lemma set_dev_coherent_self s n d d' :
  pci_ok s → devs s !! n = Some d → d_static d' = d_static d → io_regions d' = io_regions d →
  same_at map_regs (config d) (config d') → dev_coherent s n → dev_coherent (set_dev s n d') n.
Proof.
  intros [Hs _ _] Hd He Hr Hm Hc.
  eapply (dev_coherent_ext s _ n d d'); try done; [by eapply set_dev_statics|apply set_dev_eq|].
  intros p y y' Hf Hy. cbn. rewrite lookup_insert_Some. intros [[-> <-]|[_ Hy']]; [|simplify_eq; done].
  destruct (feeds_sec s p _ Hs Hf) as (x&j&Hx&_&Hlt). rewrite Hd in Hx. apply (inj Some) in Hx as <-. lia.
Qed.

(** What a write to device [n] leaves: its registers are written, its regions are
    in place, and so are those of the other devices unless it is a bridge above
    them whose windows moved. *)
Record config_written (l addr val : Z) (n : nat) d s s' : Prop := {
  cw_dev : ∃ d1 d', written l addr val d d1 ∧ dev_remap d1 d' ∧ devs s' = <[n := d']> (devs s);
  cw_statics : statics s' = statics s;
  cw_ok : pci_ok s';
  cw_self : dev_coherent s n → dev_coherent s' n;
  cw_other m : m ≠ n → dev_coherent s m →
    (∀ x d', devs s !! m = Some x → feeds s n (dev_bus x) → devs s' !! n = Some d' →
      same_at win_regs (config d) (config d')) → dev_coherent s' m;
}.

(** Everything up to the last statement of [pci_default_write_config], which leaves
    the buses alone. *)
Lemma write_config_wp s n d addr val l Q :
  pci_ok s → devs s !! n = Some d → 0 ≤ addr < 256 → 1 ≤ l ≤ 4 →
  (∀ s2, config_written l addr val n d s s2 → buses s2 = buses s →
    wp (if range_covers_byte addr l PCI_COMMAND then pci_update_irq_disabled n (pci_irq_disabled d) else mret ()) Q s2) →
  wp (pci_default_write_config n addr val l) Q s.
Proof.
  intros Hok Hd Ha Hl HQ. pose proof (po_static _ Hok) as Hs. pose proof (po_dyn _ Hok _ _ Hd) as Hdyn.
  destruct (ok_dev s Hs _ _ Hd) as (Hst&_). pose proof (so_masks _ Hst) as Hm.
  unfold pci_default_write_config. apply wp_bind, (wp_pdev n d); [done|]. cbv zeta.
  apply wp_bind. eapply wp_mono; [apply write_config_loop_wp; done || lia|].
  intros d1 ? [-> Hw]. rewrite Z2Nat.id in Hw by lia.
  pose proof (written_static _ _ _ _ _ Hw) as Est. pose proof (written_dyn _ _ _ _ _ Hm Hdyn Hw) as Hdyn1.
  apply wp_bind, wp_put_pdev. set (s1 := set_dev s n d1).
  assert (pci_ok s1) as Hok1 by (by eapply set_dev_ok).
  assert (statics s1 = statics s) as Es1 by (by eapply set_dev_statics).
  assert (devs s1 !! n = Some d1) as Hd1 by apply set_dev_eq.
  fold (touches_maps addr l). apply wp_bind.
  apply (wp_mono _ (λ _ s2, refresh s1 s2 ∧ (∀ m, m ≠ n → devs s2 !! m = devs s1 !! m) ∧
    (dev_coherent s n → dev_coherent s2 n))).
  { destruct (touches_maps addr l) eqn:Et.
    - eapply wp_mono; [by eapply pci_update_mappings_wp|]. intros [] s2 (Hr&Hn&Hne). split_and!; [|done|done].
      split; [done|]. intros m Hc. destruct (decide (m = n)) as [->|]; [done|].
      eapply remap_coherent; eauto using po_static.
    - apply wp_ret. split_and!; [apply refresh_refl|done|]. apply set_dev_coherent_self with (d := d); try done.
      + by rewrite (wr_rest _ _ _ _ _ Hw).
      + by eapply untouched_maps. }
  intros [] s2 (Hr2&Hne2&Hc2). destruct (remap_dev_fwd _ _ _ _ (rf_remap _ _ Hr2) Hd1) as (d2&Hd2&Hdd2).
  apply HQ; [|apply (rm_buses _ _ (rf_remap _ _ Hr2))]. split.
  - exists d1, d2. split_and!; [done..|]. apply map_eq. intros m.
    destruct (decide (m = n)) as [->|]; [by rewrite lookup_insert_eq|].
    rewrite Hne2 by done. cbn. by rewrite !lookup_insert_ne by done.
  - by rewrite (remap_statics _ _ (rf_remap _ _ Hr2)).
  - eapply remap_ok; [apply Hr2|done].
  - done.
  - intros m Hmn Hc Hwin. apply Hr2. eapply set_dev_coherent_ne; try done. intros x Hx Hf.
    rewrite <- (proj1 (dev_remap_config _ _ Hdd2)). by eapply Hwin.
Qed.

Lemma config_written_counts l addr val n d s s2 s3 :
  config_written l addr val n d s s2 → counts s2 s3 → config_written l addr val n d s s3.
Proof.
  intros [(d1&d2&Hw&Hdd&Ed2) Es Hok Hself Hother] Hc. pose proof (ct_devs _ _ Hc) as Ed3. split.
  - exists d1, d2. split_and!; [done..|by rewrite Ed3].
  - by rewrite (ct_statics _ _ Hc).
  - by eapply counts_ok.
  - intros Hn. apply (counts_coherent _ _ _ Hc); [apply Hok|auto].
  - intros m Hmn Hcm Hwin. apply (counts_coherent _ _ _ Hc); [apply Hok|].
    apply Hother; [done..|]. by rewrite Ed3 in Hwin.
Qed.

Lemma pci_default_write_config_wp s n d addr val l :
  pci_ok s → devs s !! n = Some d → 0 ≤ addr < 256 → 1 ≤ l ≤ 4 →
  wp (pci_default_write_config n addr val l) (λ _ s', config_written l addr val n d s s') s.
Proof.
  intros Hok Hd Ha Hl. apply (write_config_wp s n d); [done..|]. intros s2 Hw _.
  apply (wp_mono _ (λ _, counts s2)); [|intros [] s3 Hc; by eapply config_written_counts].
  destruct (cw_dev _ _ _ _ _ _ _ Hw) as (d1&d2&_&_&Ed2). case_match; [|apply wp_ret, counts_refl].
  eapply pci_update_irq_disabled_wp; [apply Hw|by rewrite Ed2, lookup_insert_eq].
Qed.

Lemma config_written_kept l addr val n d s s' :
  pci_ok s → devs s !! n = Some d → sec_bus d = None → config_written l addr val n d s s' → kept s s'.
Proof.
  intros Hok Hd Hsec [_ Es Ok Hself Hother]. split; [done..|]. intros m Hc.
  destruct (decide (m = n)) as [->|]; [by apply Hself|]. apply Hother; [done..|].
  intros x d' Hx Hf _. destruct (feeds_sec s n _ (po_static _ Hok) Hf) as (y&j&Hy&Hj&_). congruence.
Qed.

(** ** Bridges *)

Lemma config_after_remap s s' n d' : remap s s' → devs s' !! n = Some d' →
  ∃ d, devs s !! n = Some d ∧ config d' = config d.
Proof.
  intros Hr Hd'. destruct (remap_dev _ _ _ _ Hr Hd') as (d&Hd&Hdd). exists d. split; [done|].
  apply (dev_remap_config _ _ Hdd).
Qed.

(** After a write to a bridge the devices behind it are where its windows say. *)
Lemma bridge_windows_follow s s1 s2 n d sec addr val l :
  pci_ok s → devs s !! n = Some d → sec_bus d = Some sec → 0 ≤ addr < 256 → 1 ≤ l ≤ 4 →
  config_written l addr val n d s s1 →
  (if ranges_overlap addr l PCI_IO_BASE 2 || ranges_overlap addr l PCI_MEMORY_BASE 20
   then refresh s1 s2 ∧ (∀ m x, devs s1 !! m = Some x → under s1 sec (dev_bus x) → dev_coherent s2 m)
   else s2 = s1) → kept s s2.
Proof.
  intros Hok Hd Hsec Ha Hl Hcw Hs2. pose proof (po_static _ Hok) as Hs. pose proof Hcw as [Hdev Es Ok Hself Hother].
  destruct Hdev as (d1&d2&Hw&Hdd&Ed). destruct (ok_dev s Hs _ _ Hd) as (Hst&_).
  assert (ranges_overlap addr l PCI_IO_BASE 2 || ranges_overlap addr l PCI_MEMORY_BASE 20 = false →
    same_at win_regs (config d) (config d2)) as Hwin.
  { intros [O1 O2]%orb_false_iff. rewrite (proj1 (dev_remap_config _ _ Hdd)).
    eapply same_at_sub; [|eapply written_same; [apply Hst|exact (po_dyn _ Hok _ _ Hd)|exact Hw]].
    intros i Hi Hin. apply (overlap_false _ _ _ _ i) in O1, O2; [|lia..|done]. unfold win_regs in Hi. lia. }
  case_match eqn:Eo.
  - destruct Hs2 as [Hr Hu]. split; [by rewrite (remap_statics _ _ (rf_remap _ _ Hr))|eapply remap_ok; [apply Hr|done]|].
    intros m Hc. destruct (decide (m = n)) as [->|Hmn]; [by apply Hr, Hself|].
    destruct (devs s !! m) as [x|] eqn:Hx; cycle 1.
    { intros y i r Hy. destruct (remap_dev _ _ _ _ (rf_remap _ _ Hr) Hy) as (z&Hz&_).
      rewrite Ed, lookup_insert_ne in Hz by done. congruence. }
    assert (devs s1 !! m = Some x) as Hx1 by (by rewrite Ed, lookup_insert_ne).
    destruct (under_dec s sec (dev_bus x) Hs) as [Hun|Hun].
    + eapply Hu; [done|]. eapply under_ext; [|exact Hun]. done.
    + apply Hr, Hother; [done..|]. intros x' d' Hx' Hf. exfalso. apply Hun.
      rewrite Hx in Hx'. apply (inj Some) in Hx' as <-. by eapply feeds_under.
  - subst s2. split; [done..|]. intros m Hc. destruct (decide (m = n)) as [->|Hmn]; [by apply Hself|].
    apply Hother; [done..|]. intros x d' _ _ Hd'. rewrite Ed, lookup_insert_eq in Hd'.
    apply (inj Some) in Hd' as <-. by apply Hwin.
Qed.
End cfg.
