(* ===== verification/PciReset.v ===== *)
(** * Resets of PCI devices and buses

    A reset leaves a device without decoding and all of its regions unmapped; the
    reset of a bus does that to everything below it and to nothing else. *)

From S2P Require Import Prelude Bytes Pci PciSpec PciInv PciCfg.

(** ** Configuration spaces that agree on some registers *)

Record cfg_same (P : Z → Prop) (c c' : list Z) : Prop := {
  cs_len : length c' = length c;
  cs_ok : bytes_ok c → bytes_ok c';
  cs_at : same_at P c c';
}.
Lemma cfg_same_refl P c : cfg_same P c c.
Proof. done. Qed.
Lemma cfg_same_trans P c c1 c2 : cfg_same P c c1 → cfg_same P c1 c2 → cfg_same P c c2.
Proof. intros [L1 O1 S1] [L2 O2 S2]. split; [congruence|auto|by eapply same_at_trans]. Qed.

Lemma cfg_set_le (P : Z → Prop) n c off v :
  0 ≤ off → off + Z.of_nat n ≤ 256 → (256 ≤ length c)%nat →
  (∀ i, P i → i < off ∨ off + Z.of_nat n ≤ i) → cfg_same P c (set_le n c off v).
Proof.
  intros Ho Hn Hl HP. split; [apply length_set_le; lia|apply set_le_ok|].
  eapply same_at_sub; [exact HP|]. apply set_le_same; lia.
Qed.
Lemma cfg_set_byte (P : Z → Prop) c off v :
  0 ≤ off → (∀ i, P i → i ≠ off) → cfg_same P c (pci_set_byte c off v).
Proof.
  intros Ho HP. split; [apply length_set_byte|apply set_byte_ok|].
  eapply same_at_sub; [exact HP|]. by apply set_byte_same.
Qed.

(** A sequence of register writes, one after the other. *)
Lemma cfg_then_le (P : Z → Prop) n c c1 off v :
  (256 ≤ length c)%nat → 0 ≤ off → off + Z.of_nat n ≤ 256 →
  (∀ i, P i → i < off ∨ off + Z.of_nat n ≤ i) → cfg_same P c c1 → cfg_same P c (set_le n c1 off v).
Proof.
  intros Hl ? ? HP Hc. eapply cfg_same_trans; [exact Hc|]. apply cfg_set_le; try done.
  by rewrite (cs_len _ _ _ Hc).
Qed.
Lemma cfg_then_byte (P : Z → Prop) c c1 off v :
  0 ≤ off → (∀ i, P i → i ≠ off) → cfg_same P c c1 → cfg_same P c (pci_set_byte c1 off v).
Proof. intros ? HP Hc. eapply cfg_same_trans; [exact Hc|]. by apply cfg_set_byte. Qed.

Ltac cfg_seq :=
  unfold pci_word_test_and_clear_mask, pci_byte_clear_mask, pci_set_word, pci_set_quad, pci_set_long;
  repeat first [ apply cfg_same_refl | apply cfg_then_le; [lia..|] | apply cfg_then_byte; [lia..|] ].

(** The registers that a reset of the base address registers must not touch. *)
Definition keep_regs (i : Z) : Prop := i = 0x04 ∨ i = 0x0e.

Section reset.
Context {F : Type} `{MapFuncs F}.
Implicit Types (s : PciSys F) (d : PCIDevice F).

Lemma cfg_same_dyn d c :
  dev_dyn_ok d → cfg_same (λ i, i = 0x0e) (config d) c → dev_dyn_ok (d <| config := c |>).
Proof.
  intros [L O I Hh] [L' O' S']. split; [by rewrite L in L'|by apply O'|done|].
  intros Hsec. rewrite <- Hh by done. f_equal. symmetry. apply get_byte_same; [|lia]. by eapply same_at_sub; [|exact S'].
Qed.

Lemma reset_bar_same d i :
  dev_static_ok d → (256 ≤ length (config d))%nat → (i < PCI_NUM_REGIONS)%nat →
  ∃ c, reset_bar d i = d <| config := c |> ∧ cfg_same keep_regs (config d) c.
Proof.
  intros Hst Hl Hi. unfold reset_bar. destruct (io_regions d !! i) as [r|] eqn:Hr; cycle 1.
  { exists (config d). split; [by destruct d|apply cfg_same_refl]. }
  destruct (Z.eqb_spec (r_size r) 0) as [|Hz].
  { exists (config d). split; [by destruct d|apply cfg_same_refl]. }
  destruct (bar_range d i Hi) as (Hb1&Hb2&_). unfold keep_regs.
  case_match; eexists; (split; [reflexivity|]); cbn; apply cfg_set_le; lia.
Qed.

Lemma static_config d c : dev_static_ok d → dev_static_ok (d <| config := c |>).
Proof. intros [[] L R]. by split; [split|..]. Qed.

Lemma reset_bars_same l d :
  dev_static_ok d → (256 ≤ length (config d))%nat → Forall (λ i, (i < PCI_NUM_REGIONS)%nat) l →
  ∃ c, foldl reset_bar d l = d <| config := c |> ∧ cfg_same keep_regs (config d) c.
Proof.
  revert d. induction l as [|i l IH]; intros d Hst Hl Hf.
  { exists (config d). split; [by destruct d|apply cfg_same_refl]. }
  apply Forall_cons_iff in Hf as [Hi Hf]. cbn [foldl].
  destruct (reset_bar_same d i Hst Hl Hi) as (c&->&Hc).
  destruct (IH (d <| config := c |>)) as (c'&->&Hc'); [by apply static_config| |done|].
  { cbn. by rewrite (cs_len _ _ _ Hc). }
  exists c'. split; [by destruct d|]. by eapply cfg_same_trans.
Qed.

(** The byte of a cleared word. *)
Lemma clear_low c off mask m :
  0 ≤ off → (Z.to_nat off + 2 ≤ length c)%nat → 0 ≤ m < 256 → mask .& m = m →
  pci_get_byte (pci_word_test_and_clear_mask c off mask) off .& m = 0.
Proof.
  intros Ho Hl Hm Hmask. pose proof (has_bits_word (pci_word_test_and_clear_mask c off mask) off m Hm) as E.
  apply has_bits_false. rewrite <- E. apply has_bits_false. unfold pci_get_word, pci_word_test_and_clear_mask, pci_set_word.
  rewrite get_set_le by done. change (256 ^ Z.of_nat 2) with (2 ^ 16).
  rewrite <- Z.land_ones, <- !Z.land_assoc by lia.
  replace (Z.lnot mask .& (Z.ones 16 .& m)) with 0; [by rewrite Z.land_0_r|].
  symmetry. apply Z.bits_inj'. intros k Hk. rewrite !Z.land_spec, Z.lnot_spec, Z.bits_0 by lia.
  apply (f_equal (λ z, Z.testbit z k)) in Hmask. rewrite Z.land_spec in Hmask.
  destruct (Z.testbit mask k), (Z.testbit m k), (Z.testbit (Z.ones 16) k); done.
Qed.

(** Decoding is off after a reset. *)
Lemma reset_config_same d :
  dev_static_ok d → dev_dyn_ok d →
  ∃ c, reset_config d = d <| config := c |> ∧ cfg_same (λ i, i = 0x0e) (config d) c ∧
    pci_get_byte c PCI_COMMAND .& 3 = 0.
Proof.
  intros Hst Hdyn. pose proof (config_size_pos d) as Hsz. pose proof (do_len _ Hdyn) as Hl.
  unfold reset_config.
  set (m1 := pci_get_word (wmask d) PCI_COMMAND .| pci_get_word (w1cmask d) PCI_COMMAND).
  set (c1 := pci_word_test_and_clear_mask (config d) PCI_COMMAND m1).
  assert (pci_get_byte c1 PCI_COMMAND .& 3 = 0) as Hq.
  { apply clear_low; [lia..|]. unfold m1. rewrite Z.land_lor_distr_l.
    pose proof (mo_command _ (so_masks _ Hst)) as Hc.
    assert (pci_get_word (wmask d) PCI_COMMAND .& 3 = 3) as ->.
    { rewrite <- Hc at 2. apply Z.bits_inj'. intros k Hk. rewrite !Z.land_spec.
      destruct (decide (k < 2)); [|change 3 with (Z.ones 2); by rewrite Z.ones_spec_high, !andb_false_r by lia].
      f_equal. pose proof (has_bits_word (wmask d) PCI_COMMAND (2 ^ k)) as E.
      rewrite !has_bits_pow2 in E by lia. apply E. split; [lia|]. change 256 with (2 ^ 8). apply Z.pow_lt_mono_r; lia. }
    assert (0 ≤ pci_get_word (w1cmask d) PCI_COMMAND .& 3 ≤ 3) as Hr by (apply land_le_r; lia).
    assert (pci_get_word (w1cmask d) PCI_COMMAND .& 3 = 0 ∨ pci_get_word (w1cmask d) PCI_COMMAND .& 3 = 1 ∨
      pci_get_word (w1cmask d) PCI_COMMAND .& 3 = 2 ∨ pci_get_word (w1cmask d) PCI_COMMAND .& 3 = 3) as Hr' by lia.
    destruct Hr' as [->|[->|[->| ->]]]; done. }
  set (d3 := _ <| config ::= λ c, pci_set_byte c PCI_INTERRUPT_LINE 0 |>).
  assert (cfg_same (λ i, i = 0x0e) (config d) c1) as H1.
  { unfold c1. cfg_seq. }
  assert (cfg_same keep_regs c1 (config d3)) as H3.
  { assert (256 ≤ length c1)%nat by (rewrite (cs_len _ _ _ H1); lia).
    unfold d3, keep_regs. cbn. fold m1 c1. cfg_seq. }
  destruct (reset_bars_same (seq 0 PCI_NUM_REGIONS) d3) as (c&Ec&Hc).
  - unfold d3. by repeat apply (static_config _ _).
  - rewrite (cs_len _ _ _ H3), (cs_len _ _ _ H1). lia.
  - apply Forall_seq. lia.
  - exists c. split; [rewrite Ec; unfold d3; by destruct d|].
    assert (cfg_same keep_regs c1 c) as H4 by (by eapply cfg_same_trans). split.
    + eapply cfg_same_trans; [exact H1|]. destruct H4 as [? ? Hat]. split; [done..|].
      eapply same_at_sub; [|exact Hat]. unfold keep_regs. lia.
    + rewrite <- Hq. f_equal. symmetry. apply get_byte_same; [|lia].
      eapply same_at_sub; [|apply H4]. unfold keep_regs. lia.
Qed.

(** ** Devices that decode nothing *)

Record quiet d : Prop := {
  qt_command : pci_get_byte (config d) PCI_COMMAND .& 3 = 0;
  qt_irq : irq_state d = 0;
  qt_regions i r : io_regions d !! i = Some r → r_size r ≠ 0 →
    r_addr r = PCI_BAR_UNMAPPED ∧ r_filtered_size r = r_size r;
}.
Definition quiet_at s m : Prop := ∃ d, devs s !! m = Some d ∧ quiet d.

Lemma quiet_target s d i r :
  pci_get_byte (config d) PCI_COMMAND .& 3 = 0 → region_target s d i r = Some (PCI_BAR_UNMAPPED, r_size r).
Proof. intros Hq. unfold region_target. by rewrite bar_address_quiet, Z.eqb_refl. Qed.

Lemma quiet_coherent s m : quiet_at s m → dev_coherent s m.
Proof.
  intros (d&Hd&Hq) x i r Hx Hi Hz. rewrite Hd in Hx. apply (inj Some) in Hx as <-.
  destruct (qt_regions _ Hq i r Hi Hz) as [-> ->]. by apply quiet_target, Hq.
Qed.

(** *** One device *)

Lemma deassert_wp s n d :
  pci_ok s → devs s !! n = Some d → irq_state d = 0 → wp (pci_device_deassert_intx n) (λ _ s', s' = s) s.
Proof.
  intros Hok Hd Hi. apply (wp_for_each _ _ (λ _ s', s' = s)); [done|]. intros pre i rest s' El ->.
  eapply wp_mono; [apply (pci_set_irq_wp s n d i false Hok Hd)|].
  { apply in_pins. rewrite El. set_solver. }
  intros [] s'. by rewrite Hi, Z.bits_0.
Qed.

Lemma pci_device_reset_core_wp s n d :
  pci_ok s → devs s !! n = Some d →
  wp (pci_device_reset_core n) (λ _ s', statics s' = statics s ∧ pci_ok s' ∧ buses s' = buses s ∧
    quiet_at s' n ∧ ∀ m, m ≠ n → devs s' !! m = devs s !! m) s.
Proof.
  intros Hok Hd. pose proof (po_dyn _ Hok _ _ Hd) as Hdyn.
  unfold pci_device_reset_core. apply wp_bind, (wp_pdev n d); [done|]. apply wp_bind, wp_put_pdev.
  set (d1 := pci_update_irq_status (d <| irq_state := 0 |>)).
  assert (dev_dyn_ok d1) as Hdyn1 by (apply irq_status_dyn; destruct Hdyn; split; cbn; done || lia).
  assert (d_static d1 = d_static d) as Es1 by (unfold d1; rewrite irq_status_rest; by destruct d).
  assert (irq_state d1 = 0) as Hi1 by (unfold d1; by rewrite irq_status_rest).
  set (s1 := set_dev s n d1). assert (pci_ok s1) as Hok1 by (by eapply set_dev_ok).
  assert (devs s1 !! n = Some d1) as Hd1 by apply set_dev_eq.
  destruct (ok_dev s1 (po_static _ Hok1) _ _ Hd1) as (Hst1&_).
  apply wp_bind. eapply wp_mono; [by eapply deassert_wp|]. intros [] ? ->.
  apply wp_bind, (wp_pdev n d1); [done|]. apply wp_bind, wp_put_pdev.
  destruct (reset_config_same d1 Hst1 Hdyn1) as (c&->&Hc&Hq). set (d2 := d1 <| config := c |>).
  assert (dev_dyn_ok d2) as Hdyn2 by (by apply cfg_same_dyn).
  assert (d_static d2 = d_static d1) as Es2 by (by destruct d1).
  set (s2 := set_dev s1 n d2). assert (pci_ok s2) as Hok2 by (by eapply set_dev_ok).
  assert (devs s2 !! n = Some d2) as Hd2 by apply set_dev_eq.
  eapply wp_mono; [by eapply pci_update_mappings_wp|]. intros [] s3 (Hr&Hcoh&Hne).
  split_and!.
  - rewrite (remap_statics _ _ Hr). unfold s2. erewrite set_dev_statics by done. by eapply set_dev_statics.
  - by eapply remap_ok.
  - apply Hr.
  - destruct (remap_dev_fwd _ _ _ _ Hr Hd2) as (d3&Hd3&Hdd). exists d3. split; [done|].
    destruct (dev_remap_config _ _ Hdd) as [Ec Ei]. assert (pci_get_byte (config d3) PCI_COMMAND .& 3 = 0) as Hq3.
    { by rewrite Ec. }
    split; [done|by rewrite Ei|]. intros i r Hi Hz. specialize (Hcoh d3 i r Hd3 Hi Hz).
    rewrite quiet_target in Hcoh by done. by injection Hcoh as <- <-.
  - intros m Hm. rewrite Hne by done. cbn. by rewrite !lookup_insert_ne.
Qed.

(** *** A bus *)

Lemma bridge_reset_reg_same d : (256 ≤ length (config d))%nat →
  cfg_same (λ i, i = 0x0e) (config d) (config (pci_bridge_reset_reg d)).
Proof. intros Hl. unfold pci_bridge_reset_reg. cbn. cfg_seq. Qed.

Lemma zero_counts s b bus : buses s !! b = Some bus →
  counts s (s <| buses ::= <[b := bus <| irq_count ::= λ l, replicate (length l) 0 |>]> |>).
Proof.
  intros Hb. split; [done| |].
  - unfold statics. cbn. do 2 f_equal. rewrite fmap_insert. apply insert_id. rewrite lookup_fmap, Hb. cbn. f_equal.
    unfold b_static, update. cbn. by rewrite length_replicate.
  - intros Hi j b'. cbn. rewrite lookup_insert_Some. intros [[<- <-]|[_ Hb']]; [|by eapply Hi].
    cbn. apply Forall_replicate. unfold int_ok. lia.
Qed.

(** All lines of bus [j] count 0. *)
Definition zero_at s j : Prop :=
  ∀ b, buses s !! j = Some b → irq_count b = replicate (length (irq_count b)) 0.

(** [s'] is [s] with the devices in [C] reset and the counts of the buses in [Z] cleared. *)
Record reset_of (C Z : nat → Prop) s s' : Prop := {
  rs_statics : statics s' = statics s;
  rs_ok : pci_ok s';
  rs_in m : C m → quiet_at s' m;
  rs_any m : quiet_at s' m ∨ devs s' !! m = devs s !! m;
  rs_out m : ¬ C m → devs s' !! m = devs s !! m;
  rs_zero j : Z j → zero_at s' j;
  rs_zany j : zero_at s' j ∨ buses s' !! j = buses s !! j;
  rs_same j : ¬ Z j → buses s' !! j = buses s !! j;
}.

Lemma reset_of_refl s : pci_ok s → reset_of (λ _, False) (λ _, False) s s.
Proof. intros Hok. split; try done; by right. Qed.

Lemma reset_of_equiv (C Z C' Z' : nat → Prop) s s' :
  (∀ m, C m ↔ C' m) → (∀ j, Z j ↔ Z' j) → reset_of C Z s s' → reset_of C' Z' s s'.
Proof.
  intros HC HZ [E K I A O IZ AZ OZ]. split; try done.
  - intros m ?%HC. auto.
  - intros m Hm. apply O. by rewrite HC.
  - intros j ?%HZ. auto.
  - intros j Hj. apply OZ. by rewrite HZ.
Qed.

Lemma zero_at_same s s' j : buses s' !! j = buses s !! j → zero_at s j → zero_at s' j.
Proof. intros E Hz b. rewrite E. apply Hz. Qed.

Lemma reset_of_trans (C1 Z1 C2 Z2 : nat → Prop) s s1 s2 :
  reset_of C1 Z1 s s1 → reset_of C2 Z2 s1 s2 → reset_of (λ m, C1 m ∨ C2 m) (λ j, Z1 j ∨ Z2 j) s s2.
Proof.
  intros [E1 _ I1 A1 O1 J1 B1 P1] [E2 K2 I2 A2 O2 J2 B2 P2]. split; [congruence|done|..].
  - intros m [Hm|Hm]; [|auto]. destruct (A2 m) as [|Em]; [done|].
    destruct (I1 m Hm) as (d&Hd&Hq). exists d. by rewrite Em.
  - intros m. destruct (A2 m) as [|Em]; [by left|]. destruct (A1 m) as [(d&Hd&Hq)|Em1].
    + left. exists d. by rewrite Em.
    + right. congruence.
  - intros m Hm. rewrite O2, O1; [done|..]; intros Hc; apply Hm; auto.
  - intros j [Hj|Hj]; [|auto]. destruct (B2 j) as [|Ej]; [done|]. by eapply zero_at_same, J1.
  - intros j. destruct (B2 j) as [|Ej]; [by left|]. destruct (B1 j) as [Hz|Ej1]; [left|right; congruence].
    by eapply zero_at_same.
  - intros j Hj. rewrite P2, P1; [done|..]; intros Hc; apply Hj; auto.
Qed.

(** The devices on or below bus [b]; device [n] and what is behind it. *)
Definition below s (b m : nat) : Prop := ∃ d, devs s !! m = Some d ∧ under s b (dev_bus d).
Definition behind s (n m : nat) : Prop :=
  m = n ∨ ∃ d sec, devs s !! n = Some d ∧ sec_bus d = Some sec ∧ below s sec m.
(** The buses behind device [n]. *)
Definition bus_behind s (n j : nat) : Prop :=
  ∃ d sec, devs s !! n = Some d ∧ sec_bus d = Some sec ∧ under s sec j.

Lemma below_ext s s' b m : statics s' = statics s → below s b m → below s' b m.
Proof.
  intros He (d&Hd&Hu). apply (statics_eq_dev s' s _ _ (eq_sym He)) in Hd as (d'&Hd'&Ed).
  exists d'. split; [done|]. apply d_static_eq in Ed as (_&_&_&Eb&_). rewrite <- Eb. by eapply under_ext.
Qed.
Lemma behind_ext s s' n m : statics s' = statics s → behind s n m → behind s' n m.
Proof.
  intros He [->|(d&sec&Hd&Hsec&Hb)]; [by left|]. right.
  apply (statics_eq_dev s' s _ _ (eq_sym He)) in Hd as (d'&Hd'&Ed).
  exists d', sec. apply d_static_eq in Ed as (_&_&_&_&_&_&Es&_). split_and!; [done|congruence|by eapply below_ext].
Qed.

Lemma bus_behind_ext s s' n j : statics s' = statics s → bus_behind s n j → bus_behind s' n j.
Proof.
  intros He (d&sec&Hd&Hsec&Hu). apply (statics_eq_dev s' s _ _ (eq_sym He)) in Hd as (d'&Hd'&Ed).
  exists d', sec. apply d_static_eq in Ed as (_&_&_&_&_&_&Es&_). split_and!; [done|congruence|by eapply under_ext].
Qed.

Lemma under_trans s a b c : under s b c → under s a b → under s a c.
Proof. induction 1 as [|c bus p d Hc Hp Hd _ IH]; intros Ha; [done|]. eapply under_step; eauto. Qed.

(** What is below a bus is on it or behind a device that is. *)
Lemma below_behind s b bus m :
  statics_ok (statics s) → buses s !! b = Some bus →
  below s b m ↔ ∃ n, n ∈ omap id (devices bus) ∧ behind s n m.
Proof.
  intros Hs Hb. split.
  - intros (d&Hd&Hu). destruct (under_split s b bus _ Hs Hb Hu) as [E|(c&Hc&Hu')].
    + exists m. split; [|by left]. apply in_devices. destruct (ok_dev s Hs _ _ Hd) as (_&_&b'&Hb'&Hi).
      rewrite E, Hb in Hb'. apply (inj Some) in Hb' as <-. eauto.
    + apply (ok_child s Hs _ _ _ Hb) in Hc as (bc&p&x&Hc&Hp&Hx&Ex).
      destruct (ok_parent s Hs _ _ _ Hc Hp) as (y&Hy&_&Hsec). rewrite Hx in Hy. apply (inj Some) in Hy as <-.
      exists p. split; [|right; exists x, c; split_and!; [done..|by exists d]].
      apply in_devices. destruct (ok_dev s Hs _ _ Hx) as (_&_&b'&Hb'&Hi).
      rewrite Ex, Hb in Hb'. apply (inj Some) in Hb' as <-. eauto.
  - intros (n&[i Hi]%in_devices&Hbeh). destruct (ok_slot s Hs _ _ _ _ Hb Hi) as (x&Hx&Ex).
    destruct Hbeh as [->|(y&sec&Hy&Hsec&(d&Hd&Hu))].
    + exists x. rewrite Ex. split; [done|constructor].
    + rewrite Hx in Hy. apply (inj Some) in Hy as <-. exists d. split; [done|].
      eapply under_trans; [exact Hu|]. destruct (ok_sec s Hs _ _ _ Hx Hsec) as (bs&Hbs&Hp).
      eapply under_step; [exact Hbs|exact Hp|exact Hx|rewrite Ex; constructor].
Qed.

Lemma under_behind s b bus j :
  statics_ok (statics s) → buses s !! b = Some bus →
  under s b j ↔ j = b ∨ ∃ n, n ∈ omap id (devices bus) ∧ bus_behind s n j.
Proof.
  intros Hs Hb. split.
  - intros [E|(c&Hc&Hu)]%(under_split s b bus j Hs Hb); [by left|right].
    apply (ok_child s Hs _ _ _ Hb) in Hc as (bc&p&x&Hc&Hp&Hx&Ex).
    destruct (ok_parent s Hs _ _ _ Hc Hp) as (y&Hy&_&Hsec). rewrite Hx in Hy. apply (inj Some) in Hy as <-.
    exists p. split; [|by exists x, c]. apply in_devices. destruct (ok_dev s Hs _ _ Hx) as (_&_&b'&Hb'&Hi).
    rewrite Ex, Hb in Hb'. apply (inj Some) in Hb' as <-. eauto.
  - intros [->|(n&[i Hi]%in_devices&(y&sec&Hy&Hsec&Hu))]; [constructor|].
    destruct (ok_slot s Hs _ _ _ _ Hb Hi) as (x&Hx&Ex). rewrite Hx in Hy. apply (inj Some) in Hy as <-.
    eapply under_trans; [exact Hu|]. destruct (ok_sec s Hs _ _ _ Hx Hsec) as (bs&Hbs&Hp).
    eapply under_step; [exact Hbs|exact Hp|exact Hx|rewrite Ex; constructor].
Qed.

(** One device of the bus; [rec] resets a secondary bus. *)
Definition reset_child (rec : nat → M (PciSys F) unit) (n : nat) : M (PciSys F) unit :=
  d ← pdev n;
  match sec_bus d with
  | Some sec => put_pdev n (pci_bridge_reset_reg d);; rec sec
  | None => mret ()
  end;;
  pci_device_reset_core n.

Lemma core_reset_of s n d :
  pci_ok s → devs s !! n = Some d → wp (pci_device_reset_core n) (λ _ s', reset_of (λ m, m = n) (λ _, False) s s') s.
Proof.
  intros Hok Hd. eapply wp_mono; [by eapply pci_device_reset_core_wp|]. intros [] s' (E&K&B&Q&N).
  split; try done; [by intros m ->| |right; by rewrite B|by rewrite B].
  intros m. destruct (decide (m = n)) as [->|Hne]; [by left|right; auto].
Qed.

(** A device that is reset later may be written before. *)
Lemma reset_of_after (C Z : nat → Prop) s n d s' :
  C n → reset_of C Z (set_dev s n d) s' → statics (set_dev s n d) = statics s → reset_of C Z s s'.
Proof.
  intros Hn [E K I A O IZ AZ OZ] Es.
  assert (∀ m, m ≠ n → devs (set_dev s n d) !! m = devs s !! m) as N by (intros; cbn; by rewrite lookup_insert_ne).
  split; try done; [congruence|..].
  - intros m. destruct (decide (m = n)) as [->|Hne]; [left; auto|]. rewrite <- (N m Hne). apply A.
  - intros m Hm. rewrite O by done. apply N. by intros ->.
Qed.

Lemma reset_child_wp rec s n d :
  pci_ok s → devs s !! n = Some d →
  (∀ sec s', sec_bus d = Some sec → pci_ok s' → statics s' = statics s →
    wp (rec sec) (λ _ s'', reset_of (below s' sec) (under s' sec) s' s'') s') →
  wp (reset_child rec n) (λ _ s', reset_of (behind s n) (bus_behind s n) s s') s.
Proof.
  intros Hok Hd Hrec. unfold reset_child. apply wp_bind, (wp_pdev n d); [done|].
  destruct (sec_bus d) as [sec|] eqn:Hsec; cycle 1.
  { apply wp_bind, wp_ret. eapply wp_mono; [by eapply core_reset_of|]. intros [] s2.
    apply reset_of_equiv.
    - intros m. split; [by left|]. intros [|(x&sec&Hx&Hs&_)]; [done|congruence].
    - intros j. split; [done|]. intros (x&sec&Hx&Hs&_). congruence. }
  assert (dev_dyn_ok (pci_bridge_reset_reg d)) as Hdyn.
  { pose proof (po_dyn _ Hok _ _ Hd) as Hdyn. apply (cfg_same_dyn d _ Hdyn), bridge_reset_reg_same.
    rewrite (do_len _ Hdyn). pose proof (config_size_pos d). lia. }
  assert (d_static (pci_bridge_reset_reg d) = d_static d) as Est by (by destruct d).
  apply wp_bind, wp_bind, wp_put_pdev. set (s1 := set_dev s n (pci_bridge_reset_reg d)).
  assert (statics s1 = statics s) as Es1 by (by eapply set_dev_statics).
  eapply wp_mono; [apply Hrec; [done|by eapply set_dev_ok|done]|]. intros [] s2 H2.
  pose proof (rs_statics _ _ _ _ H2) as E2. assert (statics s2 = statics s) as Es2 by congruence.
  destruct (statics_eq_dev s2 s n d) as (d2&Hd2&_); [done..|].
  eapply wp_mono; [eapply core_reset_of; [apply H2|exact Hd2]|]. intros [] s3 H3.
  eapply (reset_of_after _ _ s n); [by left|eapply reset_of_equiv; [| |exact (reset_of_trans _ _ _ _ _ _ _ H2 H3)]|done].
  - intros m. split; [intros [Hb| ->]; [right; exists d, sec; split_and!; [done..|]|by left]|].
    + eapply below_ext; [symmetry; exact Es1|exact Hb].
    + intros [->|(x&sec'&Hx&Hsec'&Hb)]; [by right|left]. assert (sec' = sec) as -> by congruence. by eapply below_ext.
  - intros j. split; [intros [Hu|[]]; exists d, sec; split_and!; [done..|]|].
    + eapply under_ext; [exact Es1|exact Hu].
    + intros (x&sec'&Hx&Hsec'&Hu). left. assert (sec' = sec) as -> by congruence. eapply under_ext; [symmetry; exact Es1|exact Hu].
Qed.

Lemma zeroed_of s b bus :
  pci_ok s → buses s !! b = Some bus →
  reset_of (λ _, False) (λ j, j = b) s (s <| buses ::= <[b := bus <| irq_count ::= λ l, replicate (length l) 0 |>]> |>).
Proof.
  intros Hok Hb. pose proof (zero_counts s b bus Hb) as Hc. set (s1 := update _ s) in *.
  assert (zero_at s1 b) as Hz.
  { intros x. cbn. rewrite lookup_insert_eq. intros [= <-]. cbn. by rewrite length_replicate. }
  assert (∀ j, j ≠ b → buses s1 !! j = buses s !! j) as N by (intros; cbn; by rewrite lookup_insert_ne).
  split; [apply Hc|by eapply counts_ok|done|by right|done|by intros j ->| |auto].
  intros j. destruct (decide (j = b)) as [->|Hne]; [by left|right; auto].
Qed.

Lemma pci_bus_reset_wp fuel s b bus :
  pci_ok s → buses s !! b = Some bus → (nbuses s ≤ fuel + b)%nat →
  wp (pci_bus_reset fuel b) (λ _ s', reset_of (below s b) (under s b) s s') s.
Proof.
  revert s b bus. induction fuel as [|fuel IH]; intros s b bus Hok Hb Hf.
  { destruct (ok_bus s (po_static _ Hok) _ _ Hb). lia. }
  pose proof (po_static _ Hok) as Hs. cbn [pci_bus_reset]. apply wp_bind, (wp_pbus b bus); [done|].
  apply wp_bind, wp_modify. pose proof (zeroed_of s b bus Hok Hb) as H1. set (s1 := update _ s) in *.
  fold (reset_child (pci_bus_reset fuel)).
  eapply wp_mono; [apply (wp_for_each (reset_child (pci_bus_reset fuel)) _ (λ pre s', reset_of
    (λ m, ∃ n, n ∈ pre ∧ behind s n m) (λ j, j = b ∨ ∃ n, n ∈ pre ∧ bus_behind s n j) s s'))|].
  - eapply reset_of_equiv; [| |exact H1]; set_solver.
  - intros pre n rest s2 El Hr2. pose proof (rs_statics _ _ _ _ Hr2) as E2.
    assert (n ∈ omap id (devices bus)) as [i Hi]%in_devices by (rewrite El; set_solver).
    destruct (ok_slot s Hs _ _ _ _ Hb Hi) as (d&Hd&Edb).
    destruct (statics_eq_dev s2 s n d) as (d2&Hd2&Est); [done..|].
    eapply wp_mono; [eapply (reset_child_wp _ s2 n d2); [apply Hr2|done|]|].
    + intros sec s3 Hsec Hok3 E3. assert (statics s3 = statics s) as E3' by congruence.
      apply d_static_eq in Est as (_&_&_&_&_&_&Esec&_). rewrite <- Esec in Hsec.
      destruct (ok_sec s Hs _ _ _ Hd Hsec) as (bs&Hbs&Hp). destruct (ok_parent s Hs _ _ _ Hbs Hp) as (x&Hx&Hlt&_).
      rewrite Hd in Hx. apply (inj Some) in Hx as <-.
      destruct (statics_eq_bus s3 s sec bs) as (b3&Hb3&_); [done..|].
      apply (IH s3 sec b3); [done..|]. pose proof (f_equal snd E3') as En. cbn in En. lia.
    + intros [] s3 Hr3. eapply reset_of_equiv; [| |exact (reset_of_trans _ _ _ _ _ _ _ Hr2 Hr3)].
      * intros m. cbn beta. assert (behind s2 n m ↔ behind s n m) as -> by (split; apply behind_ext; done). set_solver.
      * intros j. cbn beta. assert (bus_behind s2 n j ↔ bus_behind s n j) as -> by (split; apply bus_behind_ext; done). set_solver.
  - intros [] s2. apply reset_of_equiv; intros; symmetry; [by apply below_behind|by apply under_behind].
Qed.

(** A reset of everything behind some bridges keeps every mapping in place. *)
Lemma reset_of_kept (C Z : nat → Prop) s s' :
  pci_ok s → reset_of C Z s s' →
  (∀ m, C m ∨ ¬ C m) → (∀ m x p, devs s !! m = Some x → C p → feeds s p (dev_bus x) → C m) → kept s s'.
Proof.
  intros Hok [E K I A O _ _ _] Hdec Hdown. split; [done..|]. intros m Hc. pose proof (po_static _ Hok) as Hs.
  destruct (devs s !! m) as [x|] eqn:Hx; cycle 1.
  { intros y i r Hy. apply (statics_eq_dev s s' _ _ E) in Hy as (z&Hz&_). congruence. }
  destruct (Hdec m) as [Hm|Hm]; [by apply quiet_coherent, I|].
  eapply (dev_coherent_ext s s' m x x); try done; [by rewrite O|].
  intros p y y' Hf Hy Hy'. rewrite O, Hy in Hy'; [by apply (inj Some) in Hy' as <-|]. eauto.
Qed.

Definition belowb s (b m : nat) : bool :=
  match devs s !! m with Some d => underb (S (dev_bus d)) s b (dev_bus d) | None => false end.
Lemma belowb_spec s b m : statics_ok (statics s) → belowb s b m = true ↔ below s b m.
Proof.
  intros Hs. unfold belowb. split.
  - destruct (devs s !! m) as [d|] eqn:Hd; [|done]. intros Hu%underb_sound. by exists d.
  - intros (d&Hd&Hu). rewrite Hd. apply underb_complete; [done..|lia].
Qed.
Lemma below_dec s b m : statics_ok (statics s) → below s b m ∨ ¬ below s b m.
Proof.
  intros Hs. rewrite <- belowb_spec by done. destruct (belowb s b m); [by left|by right].
Qed.
Lemma below_down s b m x p :
  devs s !! m = Some x → below s b p → feeds s p (dev_bus x) → below s b m.
Proof. intros Hx (y&Hy&Hu) Hf. exists x. split; [done|]. by eapply feeds_not_under. Qed.

Lemma bus_reset_kept s s' b : pci_ok s → reset_of (below s b) (under s b) s s' → kept s s'.
Proof.
  intros Hok Hr. eapply reset_of_kept; [done..| |].
  - intros m. apply below_dec, Hok.
  - intros m x p. apply below_down.
Qed.

Lemma behind_kept s s' n d : pci_ok s → devs s !! n = Some d → reset_of (behind s n) (bus_behind s n) s s' → kept s s'.
Proof.
  intros Hok Hd Hr. pose proof (po_static _ Hok) as Hs. eapply reset_of_kept; [done..| |].
  - intros m. destruct (decide (m = n)) as [->|Hne]; [by left; left|].
    destruct (sec_bus d) as [sec|] eqn:Hsec.
    + destruct (below_dec s sec m Hs); [left; right; eauto|right]. intros [|(x&j&Hx&Hj&Hb)]; [done|].
      assert (j = sec) as -> by congruence. done.
    + right. intros [|(x&j&Hx&Hj&Hb)]; [done|congruence].
  - intros m x p Hx Hp Hf. right. destruct Hp as [->|(y&sec&Hy&Hsec&Hb)].
    + destruct (feeds_sec s n _ Hs Hf) as (y&sec&Hy&Hsec&_). exists y, sec. split_and!; [done..|].
      exists x. split; [done|]. by eapply feeds_under.
    + exists y, sec. split_and!; [done..|]. by eapply below_down.
Qed.

(** The whole of [pci_device_reset]. *)
Lemma pci_device_reset_wp s n d :
  pci_ok s → devs s !! n = Some d → wp (pci_device_reset n) (λ _ s', reset_of (behind s n) (bus_behind s n) s s') s.
Proof.
  intros Hok Hd. pose proof (po_static _ Hok) as Hs.
  assert (pci_device_reset n s = reset_child (pci_bus_reset (nbuses s)) n s) as E.
  { assert (pdev n s = Ret d s) as Hp by (unfold pdev, mbind, M_bind, gets; by rewrite Hd).
    unfold pci_device_reset, reset_child. cbv [mbind M_bind]. rewrite Hp. by destruct (sec_bus d). }
  unfold wp. rewrite E. apply (reset_child_wp _ s n d); [done..|]. intros sec s' Hsec Hok' Es.
  destruct (ok_sec s Hs _ _ _ Hd Hsec) as (bs&Hbs&_).
  destruct (statics_eq_bus s' s sec bs) as (b'&Hb'&_); [done..|].
  apply (pci_bus_reset_wp _ s' sec b'); [done..|]. pose proof (f_equal snd Es) as En. cbn in En. lia.
Qed.
End reset.
