(* ===== verification/PciGuest.v ===== *)
(** * PCI as the guest and the devices use it

    The configuration ports ([pci_host.c]) over the invariants of the layer: every
    run of port accesses, pin changes and resets is carried out and keeps the
    system well-formed with its regions in place; what is written to a register
    and read back. *)

From S2P Require Import Prelude Bytes Pci PciSpec PciInv PciCfg PciReset.

(** The bits of a little-endian value. *)
Lemma le_val_bit l k x :
  bytes_ok l → 0 ≤ k → l !! Z.to_nat (k / 8) = Some x → Z.testbit (le_val l) k = Z.testbit x (k `mod` 8).
Proof.
  revert k. induction l as [|b l IH]; intros k Hok Hk Hx; [done|]. apply Forall_cons_iff in Hok as [Hb Hok].
  cbn [le_val]. change 256 with (2 ^ 8). rewrite <- lor_shiftl_add by (done || lia).
  rewrite Z.lor_spec, Z.shiftl_spec by done. destruct (decide (k < 8)).
  - rewrite Z.div_small in Hx by lia. cbn in Hx. injection Hx as ->. rewrite Z.mod_small by lia.
    by rewrite (Z.testbit_neg_r _ (k - 8)), orb_false_r by lia.
  - assert (k / 8 = (k - 8) / 8 + 1) as E by (replace k with (k - 8 + 1 * 8) at 1 by lia; by rewrite Z.div_add by lia).
    assert (0 ≤ (k - 8) / 8) by (apply Z.div_pos; lia).
    rewrite E, Z2Nat.inj_add, Nat.add_comm in Hx by lia. cbn in Hx.
    rewrite (IH (k - 8) Hok) by (done || lia).
    replace (Z.testbit b k) with false by (symmetry; apply (in_w_testbit 8); [lia|done|lia]).
    cbn [orb]. f_equal. replace k with (k - 8 + 1 * 8) at 2 by lia. by rewrite Z.mod_add by lia.
Qed.

Lemma get_le_bit n b off k x :
  bytes_ok b → 0 ≤ off → 0 ≤ k < 8 * Z.of_nat n → b !! Z.to_nat (off + k / 8) = Some x →
  Z.testbit (get_le n b off) k = Z.testbit x (k `mod` 8).
Proof.
  intros Hb Ho Hk Hx. assert (0 ≤ k / 8 < Z.of_nat n).
  { split; [apply Z.div_pos; lia|apply Z.div_lt_upper_bound; lia]. }
  unfold get_le. apply le_val_bit; [auto with vf|lia|].
  rewrite lookup_take_lt, lookup_drop by lia. by rewrite Z2Nat.inj_add in Hx by lia.
Qed.

Section guest.
Context {F : Type} `{MapFuncs F}.
Implicit Types (s : PciSys F) (d : PCIDevice F).

(** ** Writing to a device or a bridge *)

Lemma pci_bridge_write_config_wp s n d sec addr val l :
  pci_ok s → devs s !! n = Some d → sec_bus d = Some sec → 0 ≤ addr < 256 → 1 ≤ l ≤ 4 →
  wp (pci_bridge_write_config n sec addr val l) (λ _ s', kept s s') s.
Proof.
  intros Hok Hd Hsec Ha Hl. pose proof (po_static _ Hok) as Hs.
  destruct (ok_sec s Hs _ _ _ Hd Hsec) as (bs&Hbs&_).
  unfold pci_bridge_write_config. apply wp_bind, (wp_pdev n d); [done|]. cbv zeta.
  apply wp_bind. eapply wp_mono; [by eapply pci_default_write_config_wp|]. intros [] s1 Hcw.
  pose proof (cw_statics _ _ _ _ _ _ _ Hcw) as E1. pose proof (cw_ok _ _ _ _ _ _ _ Hcw) as Hok1.
  destruct (statics_eq_bus s1 s sec bs) as (b1&Hb1&_); [done..|].
  apply wp_bind, wp_gets, wp_bind. eapply (wp_mono _ (λ _ s2, kept s s2)).
  { destruct (ranges_overlap addr l PCI_IO_BASE 2 || ranges_overlap addr l PCI_MEMORY_BASE 20) eqn:Eo.
    - eapply wp_mono; [eapply pci_bridge_update_mappings_wp; [done..|lia]|]. intros [] s2 Hs2.
      eapply bridge_windows_follow; try done. by rewrite Eo.
    - apply wp_ret. eapply bridge_windows_follow; try done. by rewrite Eo. }
  intros [] s2 Hk. destruct (statics_eq_dev s2 s n d) as (d2&Hd2&_); [symmetry; apply Hk|done|].
  apply wp_bind, (wp_pdev n d2); [done|]. case_match; [|by apply wp_ret].
  destruct (statics_eq_bus s2 s sec bs) as (b2&Hb2&_); [symmetry; apply Hk|done|].
  eapply wp_mono; [eapply pci_bus_reset_wp; [apply Hk|done|]|].
  { pose proof (f_equal snd (kp_statics _ _ Hk)). pose proof (f_equal snd E1). cbn in *. lia. }
  intros [] s3 Hr. eapply kept_trans; [done|]. eapply bus_reset_kept; [apply Hk|done].
Qed.

Lemma config_write_wp s n d addr val l :
  pci_ok s → devs s !! n = Some d → 0 ≤ addr < 256 → 1 ≤ l ≤ 4 →
  wp (config_write n addr val l) (λ _ s', kept s s') s.
Proof.
  intros Hok Hd Ha Hl. unfold config_write. apply wp_bind, (wp_pdev n d); [done|].
  destruct (sec_bus d) as [sec|] eqn:Hsec; [by eapply pci_bridge_write_config_wp|].
  eapply wp_mono; [by eapply pci_default_write_config_wp|]. intros [] s' Hcw. by eapply config_written_kept.
Qed.

Lemma pci_default_read_config_wp s n d addr l :
  pci_ok s → devs s !! n = Some d → 0 ≤ addr < 256 → l = 1 ∨ l = 2 ∨ l = 4 →
  wp (pci_default_read_config n addr l) (λ v s', s' = s ∧
    v = get_le (Z.to_nat (Z.min l (pci_config_size d - addr))) (config d) addr) s.
Proof.
  intros Hok Hd Ha Hl. pose proof (po_dyn _ Hok _ _ Hd) as Hdyn. pose proof (config_size_pos d) as Hsz.
  assert (pci_config_size d ≤ 4096) by (unfold pci_config_size; case_match; lia).
  unfold pci_default_read_config. apply wp_bind, (wp_pdev n d); [done|].
  replace ((l =? 1) || (l =? 2) || (l =? 4)) with true by (by destruct Hl as [->|[->| ->]]).
  cbn [negb]. rewrite u32_small by lia. apply wp_bind. rewrite load_in by (rewrite (do_len _ Hdyn); lia).
  eapply wp_oob; [reflexivity|]. by apply wp_ret.
Qed.

(** ** Finding the device *)

Lemma find_child_total s l num :
  (∀ c, c ∈ l → ∃ b p d, buses s !! c = Some b ∧ parent_dev b = Some p ∧ devs s !! p = Some d) →
  ∃ r, find_child s l num = Some r ∧ ∀ c x, r = Some (c, x) → c ∈ l.
Proof.
  induction l as [|c l IH]; intros Hl; cbn [find_child]; [by exists None|].
  destruct (Hl c) as (b&p&d&Hb&Hp&Hd); [set_solver|]. rewrite Hb. cbn. rewrite Hp. cbn. rewrite Hd. cbn.
  case_match; [eexists; split; [done|intros ? ? [= -> _]; set_solver]|].
  case_match; [eexists; split; [done|intros ? ? [= -> _]; set_solver]|].
  destruct IH as (r&Hr&Hin); [set_solver|]. exists r. split; [done|]. intros c' x Hx. apply list_elem_of_further. eauto.
Qed.

Lemma find_bus_total fuel s b bus num :
  statics_ok (statics s) → buses s !! b = Some bus → (nbuses s ≤ fuel + b)%nat →
  ∃ r, find_bus_loop fuel s b num = Some r ∧ ∀ c, r = Some c → is_Some (buses s !! c).
Proof.
  intros Hs. revert b bus. induction fuel as [|fuel IH]; intros b bus Hb Hf.
  { destruct (ok_bus s Hs _ _ Hb). lia. }
  cbn [find_bus_loop]. rewrite Hb. cbn.
  destruct (find_child_total s (child bus) num) as (r&Hr&Hin).
  { intros c (bc&p&d&H1&H2&H3&_)%(ok_child s Hs _ _ _ Hb). by exists bc, p, d. }
  rewrite Hr. cbn. destruct r as [[c x]|]; [|by exists None].
  destruct (child_bus s b bus c Hs Hb) as (bc&Hbc&Hlt); [by eapply Hin|].
  destruct x; [exists (Some c); split; [done|intros ? [= ->]; eauto]|]. apply (IH c bc); [done|lia].
Qed.

Lemma pci_find_bus_total s b bus num :
  statics_ok (statics s) → buses s !! b = Some bus →
  ∃ r, pci_find_bus s b num = Some r ∧ ∀ c, r = Some c → is_Some (buses s !! c).
Proof.
  intros Hs Hb. unfold pci_find_bus. rewrite Hb. cbn. unfold pci_bus_num.
  assert (∀ k (skip : bool), ∃ r, (if k =? num then Some (Some b) else if skip then Some None
    else find_bus_loop (nbuses s) s b num) = Some r ∧ ∀ c, r = Some c → is_Some (buses s !! c)) as Hrest.
  { intros k skip. case_match; [exists (Some b); split; [done|intros ? [= ->]; eauto]|].
    destruct skip; [by exists None|]. eapply find_bus_total; [done..|lia]. }
  destruct (parent_dev bus) as [p|] eqn:Hp; cbn; [|apply (Hrest 0 false)].
  destruct (ok_parent s Hs _ _ _ Hb Hp) as (d&Hd&_&_). rewrite Hd. cbn. apply Hrest.
Qed.

Lemma devfn_roundtrip fn : 0 ≤ fn < 256 → PCI_DEVFN (PCI_SLOT fn) (PCI_FUNC fn) = fn.
Proof.
  intros Hf. assert (forallb (λ i, PCI_DEVFN (PCI_SLOT i) (PCI_FUNC i) =? i) (seqZ 0 256) = true) as Hall
    by (by vm_compute).
  rewrite forallb_forall in Hall. apply Z.eqb_eq, Hall, list_elem_of_In, elem_of_seqZ. lia.
Qed.

Lemma find_by_addr_total s b bus addr :
  statics_ok (statics s) → buses s !! b = Some bus →
  ∃ o, pci_dev_find_by_addr s b addr = Some o ∧ ∀ n, o = Some n → is_Some (devs s !! n).
Proof.
  intros Hs Hb. unfold pci_dev_find_by_addr, pci_find_device.
  destruct (pci_find_bus_total s b bus (u8 (addr >> 16)) Hs Hb) as (r&Hr&Hin). rewrite Hr. cbn.
  destruct r as [c|]; [|by exists None]. destruct (Hin c eq_refl) as [bc Hbc]. rewrite Hbc. cbn.
  pose proof (u8_range (addr >> 8)) as Hfn. rewrite devfn_roundtrip by done.
  destruct (ok_bus s Hs _ _ Hbc) as [[Hl _ _ _] _].
  destruct (lookup_lt_is_Some_2 (devices bc) (Z.to_nat (u8 (addr >> 8)))) as [o Ho]; [lia|].
  exists o. split; [done|]. intros n ->. destruct (ok_slot s Hs _ _ _ _ Hbc Ho) as (d&Hd&_). eauto.
Qed.

Lemma pci_data_write_wp s b bus addr val l :
  pci_ok s → buses s !! b = Some bus → 1 ≤ l ≤ 4 → wp (pci_data_write b addr val l) (λ _ s', kept s s') s.
Proof.
  intros Hok Hb Hl. destruct (find_by_addr_total s b bus addr (po_static _ Hok) Hb) as (o&Ho&Hin).
  unfold pci_data_write. apply wp_bind, wp_gets, wp_bind. eapply wp_follow; [exact Ho|].
  destruct o as [n|]; [|by apply wp_ret, kept_refl]. destruct (Hin n eq_refl) as [d Hd].
  eapply config_write_wp; try done. change (PCI_CONFIG_SPACE_SIZE - 1) with (Z.ones 8).
  rewrite Z.land_ones by lia. apply (Z.mod_pos_bound addr (2 ^ 8)). lia.
Qed.

Lemma pci_data_read_wp s b bus addr l :
  pci_ok s → buses s !! b = Some bus → l = 1 ∨ l = 2 ∨ l = 4 →
  wp (pci_data_read b addr l) (λ _ s', s' = s) s.
Proof.
  intros Hok Hb Hl. destruct (find_by_addr_total s b bus addr (po_static _ Hok) Hb) as (o&Ho&Hin).
  unfold pci_data_read. apply wp_bind, wp_gets, wp_bind. eapply wp_follow; [exact Ho|].
  replace ((l =? 1) || (l =? 2) || (l =? 4)) with true by (by destruct Hl as [->|[->| ->]]). cbn [negb].
  destruct o as [n|]; [|by apply wp_ret]. destruct (Hin n eq_refl) as [d Hd].
  eapply wp_mono; [eapply (pci_default_read_config_wp s n d); try done|by intros v s' [-> _]].
  change (PCI_CONFIG_SPACE_SIZE - 1) with (Z.ones 8).
  rewrite Z.land_ones by lia. apply (Z.mod_pos_bound addr (2 ^ 8)). lia.
Qed.

(** ** Runs *)

(** What a guest (through the ports), a device and the machine do with the PCI
    system. *)
Inductive pci_act :=
| port_config_write (addr val len : Z)
| port_data_write (addr val len : Z)
| port_data_read (addr len : Z)
| dev_set_irq (n : nat) (irq : Z) (level : bool)
| dev_reset (n : nat)
| bus_reset (b : nat).

Definition do_act (a : pci_act) : M (PCIHostState * PciSys F) unit :=
  let on_sys {A} (m : M (PciSys F) A) := zoom snd (λ s t, (t.1, s)) m in
  match a with
  | port_config_write addr val len => modify (λ t, (pci_host_config_write t.1 addr val len, t.2))
  | port_data_write addr val len => h ← gets fst; on_sys (pci_host_data_write h addr val len)
  | port_data_read addr len => h ← gets fst; _ ← on_sys (pci_host_data_read h addr len); mret ()
  | dev_set_irq n irq level => on_sys (pci_set_irq n irq (Z.b2z level))
  | dev_reset n => on_sys (pci_device_reset n)
  | bus_reset b => k ← gets (λ t, nbuses t.2); on_sys (pci_bus_reset k b)
  end.

Fixpoint do_acts (l : list pci_act) : M (PCIHostState * PciSys F) unit :=
  match l with [] => mret () | a :: l => do_act a;; do_acts l end.

Definition act_ok s (a : pci_act) : Prop :=
  match a with
  | port_config_write _ _ _ => True
  | port_data_write _ _ len | port_data_read _ len => len = 1 ∨ len = 2 ∨ len = 4
  | dev_set_irq n irq _ => is_Some (devs s !! n) ∧ 0 ≤ irq < 4
  | dev_reset n => is_Some (devs s !! n)
  | bus_reset b => is_Some (buses s !! b)
  end.

Lemma act_ok_ext s s' a : statics s' = statics s → act_ok s a → act_ok s' a.
Proof.
  intros E. symmetry in E. destruct a; cbn; try done.
  - intros [[d Hd] Hi]. split; [|done]. destruct (statics_eq_dev s' s n d E Hd) as (?&?&_). eauto.
  - intros [d Hd]. destruct (statics_eq_dev s' s n d E Hd) as (?&?&_). eauto.
  - intros [x Hb]. destruct (statics_eq_bus s' s b x E Hb) as (?&?&_). eauto.
Qed.

Lemma do_act_wp h s a bus :
  pci_ok s → buses s !! host_bus h = Some bus → act_ok s a →
  wp (do_act a) (λ _ t, host_bus t.1 = host_bus h ∧ kept s t.2) (h, s).
Proof.
  intros Hok Hb Ha. destruct a; cbn [do_act act_ok] in *.
  - apply wp_modify. split; [done|by apply kept_refl].
  - apply wp_bind, wp_gets, wp_zoom. cbn [fst snd]. unfold pci_host_data_write.
    case_match; [|apply wp_ret; split; [done|by apply kept_refl]].
    eapply wp_mono; [eapply pci_data_write_wp; [done..|lia]|]. done.
  - apply wp_bind, wp_gets, wp_bind, wp_zoom. cbn [fst snd]. unfold pci_host_data_read.
    case_match; [do 2 apply wp_ret; split; [done|by apply kept_refl]|].
    eapply wp_mono; [by eapply pci_data_read_wp|]. intros v s' ->. apply wp_ret. split; [done|by apply kept_refl].
  - destruct Ha as [[d Hd] Hi]. apply wp_zoom. eapply wp_mono; [by eapply pci_set_irq_kept|]. done.
  - destruct Ha as [d Hd]. apply wp_zoom. eapply wp_mono; [by eapply pci_device_reset_wp|].
    intros [] s' Hr. split; [done|]. by eapply behind_kept.
  - destruct Ha as [x Hx]. apply wp_bind, wp_gets, wp_zoom. cbn [snd].
    eapply wp_mono; [eapply pci_bus_reset_wp; [done..|lia]|]. intros [] s' Hr. split; [done|]. by eapply bus_reset_kept.
Qed.

(** In a well-formed system of devices, buses and bridges, every sequence of
    accesses of the guest to the configuration ports, pin changes and resets is
    carried out to the end without a fault; afterwards every configuration space
    still has its size and holds bytes, interrupt states and counts are in range,
    masks and topology are unchanged, and every region of every device is mapped
    exactly where its base address register, its command register and the windows
    of the bridges above it place it. *)
Theorem pci_run_invariant h s acts :
  pci_ok s → coherent s → is_Some (buses s !! host_bus h) → Forall (act_ok s) acts →
  wp (do_acts acts) (λ _ t, pci_ok t.2 ∧ coherent t.2 ∧ statics t.2 = statics s) (h, s).
Proof.
  intros Hok Hc [bus Hb] Ha. revert h s bus Hok Hc Hb Ha.
  induction acts as [|a acts IH]; intros h s bus Hok Hc Hb Ha; cbn [do_acts]; [by apply wp_ret|].
  apply Forall_cons_iff in Ha as [Ha Hacts]. apply wp_bind. eapply wp_mono; [by eapply do_act_wp|].
  intros [] [h1 s1] [Eh Hk]. cbn [fst snd] in *. pose proof (kp_statics _ _ Hk) as E1.
  destruct (statics_eq_bus s1 s (host_bus h) bus) as (b1&Hb1&_); [done..|].
  eapply wp_mono; [eapply (IH h1 s1 b1); [apply Hk|intros m; apply Hk, Hc|by rewrite Eh|]|].
  - eapply Forall_impl; [|exact Hacts]. intros x. by apply act_ok_ext.
  - intros [] t (H1&H2&H3). split_and!; [done..|congruence].
Qed.

(** ** Reading back *)

Lemma written_bit l addr val d d1 k :
  masks_ok d → dev_dyn_ok d → written l addr val d d1 → 0 ≤ addr → addr + l ≤ 256 → 0 ≤ k < 8 * l →
  let bit b := Z.testbit (get_le (Z.to_nat l) b addr) k in
  bit (config d1) =
    if bit (wmask d) then Z.testbit val k
    else if bit (w1cmask d) then bit (config d) && negb (Z.testbit val k) else bit (config d).
Proof.
  intros Hm Hdyn Hw Ha Hal Hk bit. unfold bit. pose proof (config_size_pos d) as Hsz.
  assert (k / 8 < l) by (apply Z.div_lt_upper_bound; lia).
  assert (0 ≤ k / 8) by (apply Z.div_pos; lia). pose proof (Z.mod_pos_bound k 8).
  destruct (written_lookup l addr val d d1 (addr + k / 8) Hm Hdyn Hw) as (old&wm&w1c&Ho&Hwm&Hc&_&_&_&Hdis&E); [lia|].
  rewrite decide_True in E by lia. pose proof (written_dyn _ _ _ _ _ Hm Hdyn Hw) as Hdyn1.
  assert (∀ b x, bytes_ok b → b !! Z.to_nat (addr + k / 8) = Some x → (256 ≤ length b)%nat →
    Z.testbit (get_le (Z.to_nat l) b addr) k = Z.testbit x (k `mod` 8)) as Hbit.
  { intros b x Hb Hx Hlen. apply get_le_bit; done || lia. }
  rewrite (Hbit _ _ (do_bytes _ Hdyn1) E), (Hbit _ _ (proj2 (mo_wmask _ Hm)) Hwm),
    (Hbit _ _ (proj2 (mo_w1cmask _ Hm)) Hc), (Hbit _ _ (do_bytes _ Hdyn) Ho), write_byte_bit by
    (done || rewrite ?(wr_len _ _ _ _ _ Hw), ?(do_len _ Hdyn), ?(proj1 (mo_wmask _ Hm)), ?(proj1 (mo_w1cmask _ Hm)); lia).
  replace (addr + k / 8 - addr) with (k / 8) by lia.
  rewrite Z.shiftr_spec by lia. replace (k `mod` 8 + 8 * (k / 8)) with k by (pose proof (Z.div_mod k 8); lia). done.
Qed.

(** C16: what a guest reads from a register of a device, not a bridge, after writing to
    it. In each
    bit that is writable the value written; a bit that is cleared by writing one
    is cleared where a one was written; every other bit is what it was. No other
    register of the device and no other device changes. *)
Theorem config_write_read s n d addr val l :
  pci_ok s → devs s !! n = Some d → sec_bus d = None →
  l = 1 ∨ l = 2 ∨ l = 4 → 0 ≤ addr → addr + l ≤ 256 →
  let bit b k := Z.testbit (get_le (Z.to_nat l) b addr) k in
  wp (config_write n addr val l;; pci_default_read_config n addr l) (λ v s',
    (∀ k, 0 ≤ k < 8 * l → Z.testbit v k =
      if bit (wmask d) k then Z.testbit val k
      else if bit (w1cmask d) k then bit (config d) k && negb (Z.testbit val k) else bit (config d) k) ∧
    (∀ m, m ≠ n → devs s' !! m = devs s !! m) ∧
    ∃ d', devs s' !! n = Some d' ∧ same_at (λ i, ¬ (addr ≤ i < addr + l)) (config d) (config d')) s.
Proof.
  intros Hok Hd Hsec Hl Ha Hal bit. pose proof (po_dyn _ Hok _ _ Hd) as Hdyn.
  destruct (ok_dev s (po_static _ Hok) _ _ Hd) as (Hst&_). pose proof (so_masks _ Hst) as Hm.
  pose proof (config_size_pos d) as Hsz.
  apply wp_bind. unfold config_write. apply wp_bind, (wp_pdev n d); [done|]. rewrite Hsec.
  eapply wp_mono; [eapply pci_default_write_config_wp; [done..|lia|lia]|].
  intros [] s1 [(d1&d2&Hw&Hdd&Ed) _ Hok1 _ _]. destruct (dev_remap_config _ _ Hdd) as [Ec _].
  assert (devs s1 !! n = Some d2) as Hd2 by (by rewrite Ed, lookup_insert_eq).
  assert (pci_config_size d2 = pci_config_size d) as Esz.
  { apply dev_remap_static, d_static_eq in Hdd as (_&_&_&_&_&E1&_).
    apply written_static, d_static_eq in Hw as (_&_&_&_&_&E2&_). unfold pci_config_size, pci_is_express. by rewrite E1, E2. }
  eapply wp_mono; [eapply pci_default_read_config_wp; [done..|lia|done]|]. intros v s2 [-> ->].
  rewrite Esz, Z.min_l, Ec by lia. split_and!.
  - intros k Hk. unfold bit. apply (written_bit l addr val d d1 k); done || lia.
  - intros m Hne. by rewrite Ed, lookup_insert_ne.
  - exists d2. split; [done|]. rewrite Ec. by eapply written_same.
Qed.
End guest.
