(* ===== verification/PciIrq.v ===== *)
(** * Interrupt lines of the host bridge

    A root bus counts, for each of its lines, the raised pins that arrive there;
    the line is the logical or of those pins. The counts are right after every
    change of a pin and every write to the configuration space of a device,
    except for two paths of the code that are shown to lose count. *)

From S2P Require Import Prelude Bytes Pci PciSpec PciInv PciCfg PciReset PciGuest.

(** ** Sums over a map *)

Section msum.
Context {A : Type}.
Implicit Types (f g : nat → A → Z) (m : gmap nat A).

Definition msum f m : Z := map_fold (λ n x acc, f n x + acc) 0 m.

Lemma msum_empty f : msum f ∅ = 0.
Proof. apply map_fold_empty. Qed.
Lemma msum_insert f m n x : m !! n = None → msum f (<[n := x]> m) = f n x + msum f m.
Proof. intros Hn. unfold msum. rewrite map_fold_insert_L; [done|intros; lia|done]. Qed.

Lemma msum_update f m n x y : m !! n = Some x → msum f (<[n := y]> m) = msum f m + (f n y - f n x).
Proof.
  intros Hn. rewrite <- (insert_delete_id m n x) at 2 by done. rewrite <- insert_delete_eq.
  rewrite !msum_insert by apply lookup_delete_eq. lia.
Qed.

Lemma msum_ext f g m : (∀ n x, m !! n = Some x → f n x = g n x) → msum f m = msum g m.
Proof.
  induction m as [|n x m Hn IH] using map_ind; intros Hfg; [done|].
  rewrite !msum_insert by done. rewrite (Hfg n x) by apply lookup_insert_eq. f_equal. apply IH.
  intros k y Hk. apply Hfg. rewrite lookup_insert_ne; [done|congruence].
Qed.

Lemma msum_same f g m m' :
  (∀ n, from_option (λ x, Some (f n x)) None (m !! n) = from_option (λ x, Some (g n x)) None (m' !! n)) →
  msum f m = msum g m'.
Proof.
  revert m'. induction m as [|n x m Hn IH] using map_ind; intros m' Hfg.
  { replace m' with (∅ : gmap nat A); [done|]. symmetry. apply map_empty. intros k. specialize (Hfg k).
    rewrite lookup_empty in Hfg. by destruct (m' !! k). }
  pose proof (Hfg n) as En. rewrite lookup_insert_eq in En. destruct (m' !! n) as [y|] eqn:Hy; [|done].
  cbn in En. apply (inj Some) in En. rewrite <- (insert_delete_id m' n y) by done.
  rewrite !msum_insert by (done || apply lookup_delete_eq). rewrite En. f_equal. apply IH. intros k.
  destruct (decide (k = n)) as [->|Hk]; [by rewrite Hn, lookup_delete_eq|].
  specialize (Hfg k). by rewrite lookup_insert_ne in Hfg by done; rewrite lookup_delete_ne by done.
Qed.

Lemma msum_bound f m c : 0 ≤ c → (∀ n x, m !! n = Some x → 0 ≤ f n x ≤ c) → 0 ≤ msum f m ≤ c * Z.of_nat (size m).
Proof.
  intros Hc. induction m as [|n x m Hn IH] using map_ind; intros Hf; [rewrite msum_empty; lia|].
  rewrite msum_insert, map_size_insert_None by done. pose proof (Hf n x (lookup_insert_eq _ _ _)).
  assert (0 ≤ msum f m ≤ c * Z.of_nat (size m)); [|lia]. apply IH.
  intros k y Hk. apply (Hf k). rewrite lookup_insert_ne; [done|congruence].
Qed.

Lemma msum_pos f m : (∀ n x, m !! n = Some x → 0 ≤ f n x) →
  msum f m ≠ 0 ↔ ∃ n x, m !! n = Some x ∧ f n x ≠ 0.
Proof.
  intros Hf. assert (∀ m', m' ⊆ m → 0 ≤ msum f m') as Hnn.
  { intros m'. induction m' as [|n x m' Hn IH] using map_ind; intros Hsub; [by rewrite msum_empty|].
    rewrite msum_insert by done. pose proof (Hf n x (lookup_weaken _ _ _ _ (lookup_insert_eq _ _ _) Hsub)).
    assert (0 ≤ msum f m'); [|lia]. apply IH. etrans; [|done]. by apply insert_subseteq. }
  split.
  - revert Hf Hnn. induction m as [|n x m Hn IH] using map_ind; intros Hf Hnn; [done|]. rewrite msum_insert by done.
    intros Hz. destruct (decide (f n x = 0)) as [E|]; [|exists n, x; by rewrite lookup_insert_eq].
    destruct IH as (k&y&Hk&Hy); [|intros m' Hm'; apply Hnn; etrans; [done|by apply insert_subseteq]|lia|].
    + intros k y Hk. apply (Hf k). rewrite lookup_insert_ne; [done|congruence].
    + exists k, y. rewrite lookup_insert_ne; [done|congruence].
  - intros (n&x&Hn&Hx). rewrite <- (insert_delete_id m n x), msum_insert by (done || apply lookup_delete_eq).
    pose proof (Hf n x Hn). pose proof (Hnn (delete n m) (delete_subseteq m n)). lia.
Qed.
End msum.

Section irq.
Context {F : Type} `{MapFuncs F}.
Implicit Types (s : PciSys F) (d : PCIDevice F).

(** ** Routing *)

(** The bus and the line at which pin [irq] of device [n] arrives. *)
Fixpoint irq_route_loop (fuel : nat) s (n : nat) (irq : Z) : option (nat * Z) :=
  match fuel with
  | O => None
  | S fuel =>
      d ← devs s !! n;
      b ← buses s !! dev_bus d;
      let k := map_irq b (devfn d) irq in
      if set_irq b then Some (dev_bus d, k) else p ← parent_dev b; irq_route_loop fuel s p k
  end.
Definition irq_route s (n : nat) (irq : Z) : option (nat * Z) :=
  d ← devs s !! n; irq_route_loop (S (dev_bus d)) s n irq.

Lemma route_loop_of fuel s n irq j k d :
  statics_ok (statics s) → routes s n irq j k → devs s !! n = Some d → (dev_bus d < fuel)%nat →
  irq_route_loop fuel s n irq = Some (j, k).
Proof.
  intros Hs Hr. revert fuel d. induction Hr as [n irq x b Hx Hb Hset|n irq x b p j k Hx Hb Hset Hp _ IH];
    intros fuel d Hd Hf; (destruct fuel as [|fuel]; [lia|]); cbn [irq_route_loop]; rewrite Hx; cbn; rewrite Hb; cbn;
    rewrite Hset; [done|]. rewrite Hp. cbn. destruct (ok_parent s Hs _ _ _ Hb Hp) as (y&Hy&Hlt&_).
  apply (IH fuel y Hy). assert (d = x) as -> by congruence. lia.
Qed.

Lemma irq_route_of s n irq j k :
  statics_ok (statics s) → routes s n irq j k → irq_route s n irq = Some (j, k).
Proof.
  intros Hs Hr. unfold irq_route. assert (is_Some (devs s !! n)) as [d Hd] by (inversion Hr; eauto).
  rewrite Hd. cbn [mbind option_bind]. eapply route_loop_of; [done..|lia].
Qed.

Lemma routes_total s n d irq :
  statics_ok (statics s) → devs s !! n = Some d → 0 ≤ irq < 4 →
  ∃ j k b, routes s n irq j k ∧ 0 ≤ k < 4 ∧ buses s !! j = Some b ∧ set_irq b = true.
Proof.
  intros Hs. remember (dev_bus d) as j eqn:Ej. revert n d irq Ej.
  induction (lt_wf j) as [j _ IH]. intros n d irq -> Hd Hi.
  destruct (ok_dev s Hs _ _ Hd) as (_&Hfn&b&Hb&_). destruct (ok_bus s Hs _ _ Hb) as [[_ Hroot Hmap _] _].
  pose proof (Hmap (devfn d) irq Hfn Hi) as Hk. destruct (set_irq b) eqn:Hset.
  - exists (dev_bus d), (map_irq b (devfn d) irq), b. split_and!; [by apply routes_here|lia|lia|done|done].
  - destruct (parent_dev b) as [p|] eqn:Hp; [|by specialize (Hroot eq_refl)].
    destruct (ok_parent s Hs _ _ _ Hb Hp) as (y&Hy&Hlt&_).
    destruct (IH _ Hlt p y (map_irq b (devfn d) irq)) as (j&k&c&Hr&?&?&?); [done..|].
    exists j, k, c. split_and!; [by eapply routes_up|lia|lia|done|done].
Qed.

Lemma irq_route_ext s s' n irq :
  statics_ok (statics s) → statics s' = statics s → 0 ≤ irq < 4 → irq_route s' n irq = irq_route s n irq.
Proof.
  intros Hs E Hi. destruct (devs s' !! n) as [d'|] eqn:Hd'; cycle 1.
  { unfold irq_route. rewrite Hd'. destruct (devs s !! n) eqn:Hd; [|done].
    apply (statics_eq_dev s' s _ _ (eq_sym E)) in Hd as (?&?&_). congruence. }
  destruct (routes_total s' n d' irq) as (j&k&b&Hr&_); [by rewrite E|done..|].
  rewrite (irq_route_of s' n irq j k) by (done || by rewrite E).
  symmetry. apply irq_route_of; [done|]. by eapply routes_ext.
Qed.

(** ** Counting *)

Definition pin_on d (i : Z) : bool := negb (pci_irq_disabled d) && Z.testbit (irq_state d) i.
Definition arrives s (n : nat) (i : Z) (j : nat) (k : Z) : bool := bool_decide (irq_route s n i = Some (j, k)).

(** The pins of device [n] that are raised and arrive at line [k] of bus [j]. *)
Definition pins_on s (j : nat) (k : Z) (n : nat) d : Z :=
  foldr (λ i acc, Z.b2z (pin_on d i && arrives s n i j k) + acc) 0 irq_pins.
Definition line_count s (j : nat) (k : Z) : Z := msum (pins_on s j k) (devs s).

(** Every root bus counts right; there are fewer devices than an [int] can count
    pins of. *)
Record irq_sync s : Prop := {
  is_count j b k : buses s !! j = Some b → set_irq b = true → 0 ≤ k < 4 →
    irq_count b !! Z.to_nat k = Some (line_count s j k);
  is_few : Z.of_nat (size (devs s)) < 2 ^ 28;
}.

Lemma pins_on_range s j k n d : 0 ≤ pins_on s j k n d ≤ 4.
Proof. unfold pins_on, irq_pins. cbn. repeat destruct (_ && _); cbn; lia. Qed.

Lemma pins_on_quiet s j k n d : irq_state d = 0 → pins_on s j k n d = 0.
Proof.
  intros E. unfold pins_on, pin_on. change irq_pins with [0; 1; 2; 3]. rewrite E. cbn [foldr].
  by rewrite !Z.bits_0, !andb_false_r.
Qed.

Lemma pins_on_outside s j k n d :
  (∀ i, 0 ≤ i < 4 → pin_on d i = true → irq_route s n i ≠ Some (j, k)) → pins_on s j k n d = 0.
Proof.
  intros Hout. assert (∀ i, 0 ≤ i < 4 → pin_on d i && arrives s n i j k = false) as Hz.
  { intros i Hi. apply not_true_iff_false. intros [Hon Ha%bool_decide_eq_true]%andb_prop. by eapply Hout. }
  unfold pins_on. change irq_pins with [0; 1; 2; 3]. cbn [foldr]. by rewrite !Hz by lia.
Qed.

Lemma line_count_range s j k : Z.of_nat (size (devs s)) < 2 ^ 28 → 0 ≤ line_count s j k < 2 ^ 30.
Proof.
  intros Hf. unfold line_count. pose proof (msum_bound (pins_on s j k) (devs s) 4) as Hb.
  assert (0 ≤ msum (pins_on s j k) (devs s) ≤ 4 * Z.of_nat (size (devs s))); [|lia].
  apply Hb; [lia|]. intros n x _. apply pins_on_range.
Qed.

(** The line is the logical or of the pins that arrive at it. *)
Lemma line_count_or s j k :
  line_count s j k ≠ 0 ↔ ∃ n d i, devs s !! n = Some d ∧ 0 ≤ i < 4 ∧ pin_on d i = true ∧
    irq_route s n i = Some (j, k).
Proof.
  unfold line_count. rewrite msum_pos by (intros; apply pins_on_range).
  assert (∀ n d, pins_on s j k n d ≠ 0 ↔ ∃ i, 0 ≤ i < 4 ∧ pin_on d i && arrives s n i j k = true) as Hp.
  { intros n d. unfold pins_on. change irq_pins with [0; 1; 2; 3]. cbn [foldr]. split.
    - intros Hz. assert (∃ i, (i = 0 ∨ i = 1 ∨ i = 2 ∨ i = 3) ∧ pin_on d i && arrives s n i j k = true) as (i&Hi&E).
      { destruct (pin_on d 0 && arrives s n 0 j k) eqn:E0; [eauto|]. destruct (pin_on d 1 && arrives s n 1 j k) eqn:E1; [eauto|].
        destruct (pin_on d 2 && arrives s n 2 j k) eqn:E2; [eauto 6|]. destruct (pin_on d 3 && arrives s n 3 j k) eqn:E3; [eauto 6|].
        cbn in Hz. lia. }
      exists i. split; [lia|done].
    - intros (i&Hi&E). assert (i = 0 ∨ i = 1 ∨ i = 2 ∨ i = 3) as Hc by lia.
      destruct Hc as [->|[->|[->| ->]]]; rewrite E; repeat destruct (_ && _); cbn; lia. }
  split.
  - intros (n&d&Hd&(i&Hi&[Hon Ha]%andb_prop)%Hp). exists n, d, i. split_and!; try done; [lia|lia|].
    by apply bool_decide_eq_true in Ha.
  - intros (n&d&i&Hd&Hi&Hon&Hr). exists n, d. split; [done|]. apply Hp. exists i. split; [done|].
    rewrite Hon. by apply bool_decide_eq_true.
Qed.

Lemma line_count_statics s s' j k :
  statics_ok (statics s) → statics s' = statics s → devs s' = devs s → line_count s' j k = line_count s j k.
Proof.
  intros Hs E Ed. unfold line_count. rewrite Ed. apply msum_ext. intros n d _. unfold pins_on, arrives.
  change irq_pins with [0; 1; 2; 3]. cbn [foldr]. by rewrite !(irq_route_ext s s') by (done || lia).
Qed.

Lemma line_count_upd s s' n d d' j k :
  statics_ok (statics s) → statics s' = statics s → devs s !! n = Some d → devs s' = <[n := d']> (devs s) →
  line_count s' j k = line_count s j k + (pins_on s j k n d' - pins_on s j k n d).
Proof.
  intros Hs E Hd Ed. unfold line_count. rewrite Ed, <- (msum_update _ _ n d d') by done.
  apply msum_ext. intros m x _. unfold pins_on, arrives. change irq_pins with [0; 1; 2; 3]. cbn [foldr].
  by rewrite !(irq_route_ext s s') by (done || lia).
Qed.

(** The counts of a system whose root buses are off by [delta]. *)
Definition counts_off s (delta : nat → Z → Z) : Prop :=
  ∀ j b k, buses s !! j = Some b → set_irq b = true → 0 ≤ k < 4 →
    irq_count b !! Z.to_nat k = Some (line_count s j k + delta j k).

Lemma add_count_off s j0 k0 c delta :
  pci_ok s → counts_off s delta → Z.of_nat (size (devs s)) < 2 ^ 28 → 0 ≤ k0 < 4 →
  (∀ j k, -8 ≤ delta j k ≤ 8) → -8 ≤ c ≤ 8 →
  counts_off (add_count s j0 k0 c)
    (λ j k, delta j k + if bool_decide (Some (j0, k0) = Some (j, k)) then c else 0).
Proof.
  intros Hok Hoff Hfew Hk0 Hd Hc j b k Hb Hset Hk.
  pose proof (add_count_counts s j0 k0 c) as [Ed Es _].
  rewrite (line_count_statics s _ j k (po_static _ Hok) Es Ed).
  pose proof (line_count_range s j k Hfew) as Hr.
  unfold add_count in Hb. destruct (buses s !! j0) as [b0|] eqn:Hb0; cycle 1.
  { rewrite (Hoff j b k Hb Hset Hk). case_bool_decide as E; [|do 2 f_equal; lia]. injection E as -> ->. congruence. }
  cbn in Hb. apply lookup_insert_Some in Hb as [[-> <-]|[Hne Hb]]; cycle 1.
  { rewrite (Hoff j b k Hb Hset Hk), bool_decide_eq_false_2 by congruence. do 2 f_equal. lia. }
  cbn in Hset |- *. pose proof (Hoff j b0 k0 Hb0 Hset Hk0) as E0. pose proof (Hoff j b0 k Hb0 Hset Hk) as Ek.
  specialize (Hd j k). destruct (decide (k = k0)) as [->|Hk'].
  - rewrite E0, list_lookup_insert_eq by (by eapply lookup_lt_Some). rewrite bool_decide_eq_true_2 by done.
    cbn [default from_option id]. f_equal. unfold s32. rewrite Z.mod_small; lia.
  - rewrite list_lookup_insert_ne, Ek by lia. rewrite bool_decide_eq_false_2 by congruence. do 2 f_equal. lia.
Qed.

Lemma sync_off s : irq_sync s ↔ counts_off s (λ _ _, 0) ∧ Z.of_nat (size (devs s)) < 2 ^ 28.
Proof.
  split.
  - intros [Hc Hf]. split; [|done]. intros j b k Hb Hset Hk. rewrite (Hc j b k Hb Hset Hk). f_equal. lia.
  - intros [Hc Hf]. split; [|done]. intros j b k Hb Hset Hk. rewrite (Hc j b k Hb Hset Hk). f_equal. lia.
Qed.

Lemma counts_off_ext s delta delta' :
  (∀ j k, 0 ≤ k < 4 → delta j k = delta' j k) → counts_off s delta → counts_off s delta'.
Proof. intros E Hc j b k Hb Hset Hk. rewrite (Hc j b k Hb Hset Hk). by rewrite E. Qed.

Lemma size_set_dev (m : gmap nat (PCIDevice F)) n d d' : m !! n = Some d → size (<[n := d']> m) = size m.
Proof. intros Hd. by rewrite map_size_insert, Hd. Qed.

(** Replacing a device puts the counts off by what its pins contribute. *)
Lemma upd_off s s' n d d' :
  pci_ok s → irq_sync s → statics s' = statics s → devs s !! n = Some d →
  devs s' = <[n := d']> (devs s) → buses s' = buses s →
  counts_off s' (λ j k, pins_on s j k n d - pins_on s j k n d').
Proof.
  intros Hok [Hc _] E Hd Ed Eb j b k Hb Hset Hk. rewrite Eb in Hb. rewrite (Hc j b k Hb Hset Hk).
  rewrite (line_count_upd s s' n d d') by (done || apply Hok). f_equal. lia.
Qed.

(** ** A pin *)

Lemma disabled_same d d' : same_at (λ i, i ≠ PCI_STATUS) (config d) (config d') →
  pci_irq_disabled d' = pci_irq_disabled d.
Proof.
  intros Hs. unfold pci_irq_disabled. f_equal. symmetry. apply get_le_same; [lia|].
  eapply same_at_sub; [|exact Hs]. cbn. lia.
Qed.

Lemma pins_on_set s j k n d irq level :
  0 ≤ irq < 4 → 0 ≤ irq_state d < 16 → Z.testbit (irq_state d) irq = negb level →
  pins_on s j k n (pin_set d irq level) = pins_on s j k n d +
    if negb (pci_irq_disabled d) && arrives s n irq j k then Z.b2z level - Z.b2z (negb level) else 0.
Proof.
  intros Hi Hst Hbit. unfold pins_on, pin_on. rewrite (disabled_same d) by apply pin_set_same.
  rewrite pin_set_irq. change irq_pins with [0; 1; 2; 3]. cbn [foldr].
  rewrite !set_irq_state_bit by lia. destruct (pci_irq_disabled d); [done|]. cbn [negb andb].
  assert (irq = 0 ∨ irq = 1 ∨ irq = 2 ∨ irq = 3) as [->|[->|[->| ->]]] by lia; cbn [Z.eqb Pos.eqb];
    rewrite Hbit; destruct level;
    repeat match goal with |- context [arrives s n ?i j k] => destruct (arrives s n i j k) end;
    rewrite ?andb_true_r, ?andb_false_r; cbn [Z.b2z negb andb]; lia.
Qed.

(** The level that the line is told when the counts are right afterwards. *)
Lemma add_count_told s j k c b :
  pci_ok s → buses s !! j = Some b → set_irq b = true → 0 ≤ k < 4 → irq_sync (add_count s j k c) →
  host (add_count s j k c) =
    host s ++ [bus_set_irq j k (Z.b2z (negb (line_count (add_count s j k c) j k =? 0)))].
Proof.
  intros Hok Hb Hset Hk Hsync. destruct (ok_bus s (po_static _ Hok) _ _ Hb) as [[_ _ _ Hlen] _].
  assert (∃ b' v, buses (add_count s j k c) !! j = Some b' ∧ set_irq b' = true ∧
    irq_count b' !! Z.to_nat k = Some v ∧
    host (add_count s j k c) = host s ++ [bus_set_irq j k (if v =? 0 then 0 else 1)]) as (b'&v&Hb'&Hset'&Hv&->).
  { unfold add_count. rewrite Hb. eexists _, _. split_and!; [apply lookup_insert_eq|exact Hset| |reflexivity].
    cbn. apply list_lookup_insert_eq. rewrite Hlen by done. lia. }
  rewrite (is_count _ Hsync j b' k Hb' Hset' Hk) in Hv. injection Hv as <-. do 3 f_equal. by case_match.
Qed.

(** A change of a pin. *)
Lemma pin_changed_wp s n d irq (level : bool) :
  pci_ok s → irq_sync s → devs s !! n = Some d → 0 ≤ irq < 4 →
  Z.testbit (irq_state d) irq = negb level →
  wp (pci_set_irq n irq (Z.b2z level)) (λ _ s', irq_sync s' ∧ kept s s' ∧
    devs s' = <[n := pin_set d irq level]> (devs s) ∧
    if pci_irq_disabled d then host s' = host s else
    ∃ j k v, irq_route s n irq = Some (j, k) ∧ host s' = host s ++ [bus_set_irq j k (Z.b2z v)] ∧
      (v = true ↔ ∃ m x i, devs s' !! m = Some x ∧ 0 ≤ i < 4 ∧ pin_on x i = true ∧
        irq_route s' m i = Some (j, k))) s.
Proof.
  intros Hok Hsync Hd Hi Hbit. pose proof (po_dyn _ Hok _ _ Hd) as Hdyn.
  pose proof (pin_set_static d irq level) as Est. set (d' := pin_set d irq level) in *.
  pose proof (pin_set_kept s n d irq level Hok Hd Hi) as Hk. fold d' in Hk. pose proof (kp_ok _ _ Hk) as Hok1.
  pose proof (upd_off s (set_dev s n d') n d d' Hok Hsync (kp_statics _ _ Hk) Hd eq_refl eq_refl) as Hoff.
  assert (pci_irq_disabled d' = pci_irq_disabled d) as Edis by apply disabled_same, pin_set_same.
  eapply wp_mono; [by apply (pci_set_irq_wp s n d irq level)|]. intros [] s'. cbv zeta. fold d'.
  rewrite Hbit, Edis. replace (Bool.eqb (negb level) level) with false by (by destruct level).
  destruct (pci_irq_disabled d) eqn:Hdis.
  - intros ->. split_and!; [|done|done|done]. apply sync_off. split; [|cbn; rewrite (size_set_dev _ n d) by done; apply Hsync].
    eapply counts_off_ext; [|exact Hoff]. intros j k _. cbn beta. unfold d'.
    rewrite (pins_on_set s j k) by (done || apply Hdyn). rewrite Hdis. cbn [negb andb]. lia.
  - intros (j&k&Hr&Hkr&->). pose proof (irq_route_of s n irq j k (po_static _ Hok) Hr) as Hroute.
    assert (Z.of_nat (size (devs (set_dev s n d'))) < 2 ^ 28) as Hsz.
    { cbn. rewrite (size_set_dev _ n d) by done. apply Hsync. }
    set (c := Z.b2z level - Z.b2z (negb level)) in *.
    pose proof (add_count_counts (set_dev s n d') j k c) as Hcnt.
    assert (irq_sync (add_count (set_dev s n d') j k c)) as Hsync'.
    { apply sync_off. rewrite (ct_devs _ _ Hcnt). split; [|done].
      eapply counts_off_ext; [|apply (add_count_off (set_dev s n d') j k c); try done].
      - intros j' k' _. cbn beta. unfold d'. rewrite (pins_on_set s j' k') by (done || apply Hdyn).
        rewrite Hdis. cbn [negb andb]. unfold arrives. rewrite Hroute. fold c. case_bool_decide; lia.
      - intros j' k'. pose proof (pins_on_range s j' k' n d). pose proof (pins_on_range s j' k' n d'). lia.
      - unfold c. destruct level; cbn; lia. }
    split_and!; [done|eapply kept_trans; [exact Hk|apply counts_kept; done]|by rewrite (ct_devs _ _ Hcnt)|].
    destruct (routes_total s n d irq (po_static _ Hok) Hd Hi) as (j1&k1&b&Hr1&_&Hb&Hset).
    assert (j1 = j ∧ k1 = k) as [-> ->].
    { apply (irq_route_of s n irq j1 k1 (po_static _ Hok)) in Hr1. by rewrite Hroute in Hr1; simplify_eq. }
    exists j, k, (negb (line_count (add_count (set_dev s n d') j k c) j k =? 0)). split_and!; [done| |].
    + by apply (add_count_told (set_dev s n d') j k c b).
    + rewrite negb_true_iff, Z.eqb_neq. apply line_count_or.
Qed.

(** Setting a pin, whatever the counts are. *)
Lemma pin_level_pins s n d irq (level : bool) :
  pci_ok s → devs s !! n = Some d → 0 ≤ irq < 4 →
  wp (pci_set_irq n irq (Z.b2z level)) (λ _ s', kept s s' ∧
    ∃ d', devs s' = <[n := d']> (devs s) ∧
      irq_state d' = if Bool.eqb (Z.testbit (irq_state d) irq) level then irq_state d
                     else irq_state (pci_set_irq_state d irq (Z.b2z level))) s.
Proof.
  intros Hok Hd Hi. pose proof (pin_set_kept s n d irq level Hok Hd Hi) as Hk.
  eapply wp_mono; [by eapply pci_set_irq_wp|]. intros [] s'. cbv zeta. case_match.
  { intros ->. split; [by apply kept_refl|]. exists d. by rewrite insert_id. }
  assert (irq_state (pin_set d irq level) = irq_state (pci_set_irq_state d irq (Z.b2z level))) as Ei by apply pin_set_irq.
  case_match; [by intros ->; split; [|exists (pin_set d irq level)]|]. intros (j&k&_&_&->).
  set (c := Z.b2z level - _). pose proof (add_count_counts (set_dev s n (pin_set d irq level)) j k c) as Hc.
  split; [eapply kept_trans; [exact Hk|by apply counts_kept, Hk]|]. exists (pin_set d irq level).
  by rewrite (ct_devs _ _ Hc).
Qed.

(** Setting a pin to the level it has changes nothing. *)
Lemma pin_level_wp s n d irq (level : bool) :
  pci_ok s → irq_sync s → devs s !! n = Some d → 0 ≤ irq < 4 →
  wp (pci_set_irq n irq (Z.b2z level)) (λ _ s', irq_sync s' ∧ kept s s' ∧
    ∃ d', devs s' = <[n := d']> (devs s) ∧ pci_irq_disabled d' = pci_irq_disabled d ∧
      irq_state d' = if Bool.eqb (Z.testbit (irq_state d) irq) level then irq_state d
                     else irq_state (pci_set_irq_state d irq (Z.b2z level))) s.
Proof.
  intros Hok Hsync Hd Hi. destruct (Bool.eqb (Z.testbit (irq_state d) irq) level) eqn:E.
  - eapply wp_mono; [by apply (pci_set_irq_wp s n d irq level)|]. intros [] s'. cbv zeta. rewrite E. intros ->.
    split_and!; [done|by apply kept_refl|]. exists d. by rewrite insert_id.
  - assert (Z.testbit (irq_state d) irq = negb level) as Hbit by (by destruct (Z.testbit _ _), level).
    eapply wp_mono; [by apply pin_changed_wp|]. intros [] s' (H1&H2&H3&_). split_and!; [done..|].
    exists (pin_set d irq level). split_and!; [done|apply disabled_same, pin_set_same|apply pin_set_irq].
Qed.

(** C15: when a device raises or lowers one of its interrupt pins, the line at
    which the pin arrives is told the logical or of all pins that arrive there,
    from every device of the system, through any number of bridges; a device
    whose interrupts are disabled changes no line. The counts of the root buses
    stay right. *)
Theorem pin_change_or s n d irq (level : bool) :
  pci_ok s → irq_sync s → devs s !! n = Some d → 0 ≤ irq < 4 →
  Z.testbit (irq_state d) irq = negb level →
  wp (pci_set_irq n irq (Z.b2z level)) (λ _ s', irq_sync s' ∧ kept s s' ∧
    if pci_irq_disabled d then host s' = host s else
    ∃ j k v, irq_route s n irq = Some (j, k) ∧ host s' = host s ++ [bus_set_irq j k (Z.b2z v)] ∧
      (v = true ↔ ∃ m x i, devs s' !! m = Some x ∧ 0 ≤ i < 4 ∧ pin_on x i = true ∧
        irq_route s' m i = Some (j, k))) s.
Proof.
  intros Hok Hsync Hd Hi Hbit. eapply wp_mono; [by apply (pin_changed_wp s n d irq level)|]. intros [] s' (H1&H2&_&H3). done.
Qed.

(** ** The interrupt disable bit *)

(** What the pins [l] of a device add to a line when each counts [ch]. *)
Definition pin_sum s n d (ch : Z) (l : list Z) (j : nat) (k : Z) : Z :=
  foldr (λ i acc, (if arrives s n i j k then ch * Z.b2z (Z.testbit (irq_state d) i) else 0) + acc) 0 l.

Lemma pin_sum_range s n d ch l j k : -1 ≤ ch ≤ 1 → - Z.of_nat (length l) ≤ pin_sum s n d ch l j k ≤ Z.of_nat (length l).
Proof.
  intros Hch. induction l as [|i l IH]; [done|]. unfold pin_sum in *. cbn [foldr length].
  destruct (arrives s n i j k), (Z.testbit (irq_state d) i); cbn [Z.b2z]; lia.
Qed.

Lemma pin_sum_counts s s' n d ch l j k :
  statics_ok (statics s) → statics s' = statics s → Forall (λ i, 0 ≤ i < 4) l →
  pin_sum s' n d ch l j k = pin_sum s n d ch l j k.
Proof.
  intros Hs E. induction 1 as [|i l Hi Hl IH]; [done|]. unfold pin_sum in *. cbn [foldr]. rewrite IH.
  unfold arrives. by rewrite (irq_route_ext s s') by done.
Qed.

(** All four pins are taken from their lines, or put on them. *)
Definition pin_change (disabled : bool) : Z := if disabled then -1 else 1.

Lemma update_pins_wp s n d (disabled : bool) l :
  pci_ok s → devs s !! n = Some d → Z.of_nat (size (devs s)) < 2 ^ 28 →
  Forall (λ i, 0 ≤ i < 4) l → (length l ≤ 4)%nat →
  counts_off s (λ j k, - pin_sum s n d (pin_change disabled) l j k) →
  wp (for_each (λ i, d ← pdev n; let state := pci_irq_state d i in
      pci_change_irq_level n i (if disabled then - state else state)) l)
    (λ _ s', counts s s' ∧ counts_off s' (λ _ _, 0)) s.
Proof.
  intros Hok Hd Hf Hl. revert s Hok Hd Hf. induction Hl as [|i l Hi Hl IH]; intros s Hok Hd Hf Hlen Hoff;
    cbn [for_each].
  { apply wp_ret. split; [apply counts_refl|]. eapply counts_off_ext; [|exact Hoff]. done. }
  assert (-1 ≤ pin_change disabled ≤ 1) as Hch by (unfold pin_change; case_match; lia).
  apply wp_bind, wp_bind, (wp_pdev n d); [done|]. cbv zeta.
  set (c := pin_change disabled * Z.b2z (Z.testbit (irq_state d) i)).
  assert ((if disabled then - pci_irq_state d i else pci_irq_state d i) = c) as ->.
  { rewrite irq_state_bit. unfold c, pin_change. case_match; lia. }
  eapply wp_mono; [by eapply pci_change_irq_level_wp; [apply Hok|..]|]. intros [] s1 (j&k&Hr&_&Hk&->).
  pose proof (add_count_counts s j k c) as Hc. pose proof (irq_route_of s n i j k (po_static _ Hok) Hr) as Hroute.
  eapply wp_mono; [apply IH; [by eapply counts_ok|by rewrite (ct_devs _ _ Hc)..|cbn in Hlen; lia|]|].
  - eapply counts_off_ext; [|apply (add_count_off s j k c); try done].
    + intros j' k' _. cbn beta. rewrite (pin_sum_counts s (add_count s j k c)) by (done || apply Hok || apply Hc).
      unfold pin_sum. cbn [foldr]. fold c. unfold arrives at 1. rewrite Hroute. case_bool_decide; lia.
    + intros j' k'. pose proof (pin_sum_range s n d _ (i :: l) j' k' Hch). cbn [length] in *. lia.
    + unfold c. destruct (Z.testbit (irq_state d) i); cbn [Z.b2z]; lia.
  - intros [] s2 [Hc2 Ho2]. split; [by eapply counts_trans|done].
Qed.

Lemma update_irq_disabled_off s n d (was : bool) :
  pci_ok s → devs s !! n = Some d → Z.of_nat (size (devs s)) < 2 ^ 28 →
  counts_off s (λ j k, if Bool.eqb (pci_irq_disabled d) was then 0
    else - pin_sum s n d (pin_change (pci_irq_disabled d)) irq_pins j k) →
  wp (pci_update_irq_disabled n was) (λ _ s', counts s s' ∧ counts_off s' (λ _ _, 0)) s.
Proof.
  intros Hok Hd Hf Hoff. unfold pci_update_irq_disabled. apply wp_bind, (wp_pdev n d); [done|]. cbv zeta.
  destruct (Bool.eqb (pci_irq_disabled d) was); [by apply wp_ret; split; [apply counts_refl|]|].
  apply (update_pins_wp s n d); try done. unfold irq_pins. cbn. repeat constructor; lia.
Qed.

(** How the contribution of a device changes with the bit. *)
Lemma pins_on_disable s j k n d d' :
  irq_state d' = irq_state d →
  pins_on s j k n d - pins_on s j k n d' =
    if Bool.eqb (pci_irq_disabled d') (pci_irq_disabled d) then 0
    else - pin_sum s n d' (pin_change (pci_irq_disabled d')) irq_pins j k.
Proof.
  intros E. unfold pins_on, pin_sum, pin_on. rewrite E. change irq_pins with [0; 1; 2; 3]. cbn [foldr].
  destruct (pci_irq_disabled d), (pci_irq_disabled d'); cbn [Bool.eqb negb andb pin_change]; [lia|..|lia];
    repeat match goal with |- context [arrives s n ?i j k] => destruct (arrives s n i j k) end;
    rewrite ?andb_true_r, ?andb_false_r; cbn [Z.b2z]; lia.
Qed.

(** A write of the guest to the configuration space of a device keeps the
    counts of all root buses right, also when it enables or disables the device's
    interrupts while pins are raised, unless it is a write that starts at the
    upper byte of the command register while a pin is raised. *)
Theorem config_write_counts s n d addr val l :
  pci_ok s → irq_sync s → devs s !! n = Some d → sec_bus d = None →
  0 ≤ addr < 256 → 1 ≤ l ≤ 4 → (addr = PCI_COMMAND + 1 → irq_state d = 0) →
  wp (config_write n addr val l) (λ _ s', irq_sync s' ∧ kept s s' ∧
    ∃ d', devs s' = <[n := d']> (devs s) ∧ irq_state d' = irq_state d) s.
Proof.
  intros Hok Hsync Hd Hsec Ha Hl Hne. unfold config_write. apply wp_bind, (wp_pdev n d); [done|]. rewrite Hsec.
  apply (write_config_wp s n d); [done..|]. intros s2 Hw Eb. pose proof Hw as [(d1&d2&Hwr&Hdd&Ed) Es Hok2 _ _].
  pose proof (po_dyn _ Hok _ _ Hd) as Hdyn. destruct (ok_dev s (po_static _ Hok) _ _ Hd) as (Hst&_).
  pose proof (so_masks _ Hst) as Hm.
  assert (devs s2 !! n = Some d2) as Hd2 by (by rewrite Ed, lookup_insert_eq).
  assert (irq_state d2 = irq_state d) as Ei.
  { rewrite (proj2 (dev_remap_config _ _ Hdd)). by rewrite (wr_rest _ _ _ _ _ Hwr). }
  assert (Z.of_nat (size (devs s2)) < 2 ^ 28) as Hsz by (rewrite Ed, (size_set_dev _ n d) by done; apply Hsync).
  pose proof (upd_off s s2 n d d2 Hok Hsync Es Hd Ed Eb) as Hoff.
  assert (counts_off s2 (λ j k, if Bool.eqb (pci_irq_disabled d2) (pci_irq_disabled d) then 0
    else - pin_sum s2 n d2 (pin_change (pci_irq_disabled d2)) irq_pins j k)) as Hoff2.
  { eapply counts_off_ext; [|exact Hoff]. intros j k _. cbn beta. rewrite pins_on_disable by done.
    rewrite (pin_sum_counts s s2); [done|apply Hok|done|]. unfold irq_pins. cbn. repeat constructor; lia. }
  rewrite covers_byte by lia. case_bool_decide as Hcov.
  - eapply wp_mono; [by apply (update_irq_disabled_off s2 n d2)|]. intros [] s3 [Hc Ho]. split_and!.
    + apply sync_off. split; [done|]. by rewrite (ct_devs _ _ Hc).
    + eapply config_written_kept; [done..|]. by eapply config_written_counts.
    + exists d2. by rewrite (ct_devs _ _ Hc).
  - apply wp_ret. split_and!; [|by eapply config_written_kept|by exists d2].
    destruct (decide (addr = PCI_COMMAND + 1)) as [->|Hne'].
    { apply sync_off. split; [|done]. eapply counts_off_ext; [|exact Hoff]. intros. cbn beta.
      by rewrite !pins_on_quiet by (rewrite ?Ei; auto). }
    assert (pci_irq_disabled d2 = pci_irq_disabled d) as Edis.
    { unfold pci_irq_disabled. f_equal. rewrite (proj1 (dev_remap_config _ _ Hdd)). symmetry. apply get_le_same; [lia|].
      eapply same_at_sub; [|by eapply written_same]. cbn. lia. }
    apply sync_off. split; [|done]. eapply counts_off_ext; [|exact Hoff2]. intros. by rewrite Edis, Bool.eqb_reflx.
Qed.

(** A write leaves the pins alone. *)
Lemma config_write_pins s n d addr val l :
  pci_ok s → devs s !! n = Some d → sec_bus d = None → 0 ≤ addr < 256 → 1 ≤ l ≤ 4 →
  wp (config_write n addr val l) (λ _ s', kept s s' ∧
    ∃ d', devs s' = <[n := d']> (devs s) ∧ irq_state d' = irq_state d) s.
Proof.
  intros Hok Hd Hsec Ha Hl. unfold config_write. apply wp_bind, (wp_pdev n d); [done|]. rewrite Hsec.
  eapply wp_mono; [by eapply pci_default_write_config_wp|]. intros [] s' Hcw.
  split; [by eapply config_written_kept|]. destruct (cw_dev _ _ _ _ _ _ _ Hcw) as (d1&d2&Hwr&Hdd&Ed).
  exists d2. split; [done|]. rewrite (proj2 (dev_remap_config _ _ Hdd)). by rewrite (wr_rest _ _ _ _ _ Hwr).
Qed.

(** ** Resets that keep count *)

(** A device is reset while its pins are low. *)
Lemma reset_low_sync s s' n d :
  pci_ok s → irq_sync s → devs s !! n = Some d → sec_bus d = None → irq_state d = 0 →
  reset_of (behind s n) (bus_behind s n) s s' → irq_sync s'.
Proof.
  intros Hok Hsync Hd Hsec Hi Hr. destruct (rs_in _ _ _ _ Hr n) as (d'&Hd'&Hq); [by left|].
  assert (∀ j, buses s' !! j = buses s !! j) as Eb.
  { intros j. apply (rs_same _ _ _ _ Hr). intros (x&sec&Hx&Hs&_). congruence. }
  assert (devs s' = <[n := d']> (devs s)) as Ed.
  { apply map_eq. intros m. destruct (decide (m = n)) as [->|Hne]; [by rewrite lookup_insert_eq|].
    rewrite lookup_insert_ne by done. apply (rs_out _ _ _ _ Hr). intros [|(x&sec&Hx&Hs&_)]; [done|congruence]. }
  apply sync_off. split; [|rewrite Ed, (size_set_dev _ n d) by done; apply Hsync].
  eapply counts_off_ext; [|apply (upd_off s s' n d d'); try done; [apply Hr|by apply map_eq]].
  intros j k _. cbn beta. by rewrite !pins_on_quiet by (done || apply Hq).
Qed.

Lemma routes_under s n irq j k : routes s n irq j k → ∃ d, devs s !! n = Some d ∧ under s j (dev_bus d).
Proof.
  induction 1 as [n irq d b Hd _ _|n irq d b p j k Hd Hb _ Hp _ (x&Hx&IH)]; exists d; (split; [done|]); [constructor|].
  by eapply under_step.
Qed.

Lemma zero_count s j b k : zero_at s j → buses s !! j = Some b → set_irq b = true → bus_static_ok b → 0 ≤ k < 4 →
  irq_count b !! Z.to_nat k = Some 0.
Proof.
  intros Hz Hb Hset Hst Hk. rewrite (Hz b Hb), (bo_count _ Hst Hset). apply lookup_replicate_2. lia.
Qed.

(** The buses above a bus are in a chain. *)
Lemma under_chain s a b c : statics_ok (statics s) → under s a c → under s b c → under s a b ∨ under s b a.
Proof.
  intros Hs Ha. induction Ha as [|c bus p d Hb Hp Hd Ha IH]; intros Hu; [by right|].
  inversion Hu as [|c' bus' p' d' Hb' Hp' Hd' Hu' Ec]; subst; [left; by eapply under_step|]. apply IH.
  rewrite Hb in Hb'. apply (inj Some) in Hb' as <-. rewrite Hp in Hp'. apply (inj Some) in Hp' as <-.
  rewrite Hd in Hd'. by apply (inj Some) in Hd' as <-.
Qed.

(** The pins of devices below a bus without a bridge arrive at it or below. *)
Lemma root_inside s b bus m i j k :
  statics_ok (statics s) → buses s !! b = Some bus → parent_dev bus = None → below s b m → 0 ≤ i < 4 →
  irq_route s m i = Some (j, k) → under s b j.
Proof.
  intros Hs Hb Hp (d&Hd&Hu) Hi Hroute. destruct (routes_total s m d i Hs Hd Hi) as (j'&k'&b'&Hr&_).
  pose proof (irq_route_of s m i j' k' Hs Hr) as E. rewrite Hroute in E. injection E as <- <-.
  destruct (routes_under _ _ _ _ _ Hr) as (x&Hx&Hux). rewrite Hd in Hx. apply (inj Some) in Hx as <-.
  destruct (under_chain s b j _ Hs Hu Hux) as [|Hj]; [done|]. inversion Hj; [constructor|]. congruence.
Qed.

(** A bus is reset, the counts of its lines with it: the other buses keep count when
    no raised pin of a device below it arrives at one of them. *)
Lemma bus_reset_sync s s' b :
  pci_ok s → irq_sync s → reset_of (below s b) (under s b) s s' →
  (∀ m d i j k, below s b m → devs s !! m = Some d → 0 ≤ i < 4 → pin_on d i = true →
    irq_route s m i = Some (j, k) → under s b j) →
  irq_sync s'.
Proof.
  intros Hok [Hc Hsz] Hr Hin. pose proof (po_static _ Hok) as Hs. pose proof (rs_statics _ _ _ _ Hr) as E.
  split; cycle 1.
  { assert (size (devs s') = size (devs s)) as ->; [|done].
    pose proof (f_equal (λ x, size x.1.1) E) as Hz. cbn in Hz. by rewrite !map_size_fmap in Hz. }
  intros j bus k Hb Hset Hk. destruct (under_dec s b j Hs) as [Hu|Hu].
  - rewrite (zero_count s' j bus k) by (done || apply Hr, Hu || apply (ok_bus s' (po_static _ (rs_ok _ _ _ _ Hr)) _ _ Hb)).
    symmetry. f_equal. destruct (decide (line_count s' j k = 0)) as [|Hne]; [done|exfalso].
    apply line_count_or in Hne as (m&d&i&Hd&Hi&Hon&Hroute). rewrite (irq_route_ext s s') in Hroute by done.
    destruct (statics_eq_dev s s' m d E Hd) as (x&Hx&_).
    destruct (routes_total s m x i Hs Hx Hi) as (j'&k'&b'&Hr'&_). pose proof Hr' as Hr''.
    apply irq_route_of in Hr'; [|done]. rewrite Hroute in Hr'. injection Hr' as <- <-.
    destruct (routes_under _ _ _ _ _ Hr'') as (y&Hy&Huy).
    destruct (rs_in _ _ _ _ Hr m) as (z&Hz&Hq); [exists y; split; [done|by eapply under_trans]|].
    rewrite Hd in Hz. apply (inj Some) in Hz as <-. unfold pin_on in Hon. by rewrite (qt_irq _ Hq), Z.bits_0, andb_false_r in Hon.
  - rewrite (rs_same _ _ _ _ Hr j Hu) in Hb. rewrite (Hc j bus k Hb Hset Hk). f_equal.
    apply msum_same. intros m. destruct (below_dec s b m Hs) as [Hm|Hm].
    + destruct (rs_in _ _ _ _ Hr m Hm) as (z&Hz&Hq), Hm as (d&Hd&Hm). rewrite Hd, Hz. cbn [from_option].
      rewrite (pins_on_quiet s' j k m z) by apply Hq. rewrite (pins_on_outside s j k m d); [done|].
      intros i Hi Hon Hroute. apply Hu, (Hin m d i j k); [by exists d|done..].
    + rewrite (rs_out _ _ _ _ Hr m Hm). destruct (devs s !! m) as [d|]; [|done]. cbn [from_option]. f_equal.
      unfold pins_on, arrives. change irq_pins with [0; 1; 2; 3]. cbn [foldr].
      by rewrite !(irq_route_ext s s') by (done || lia).
Qed.

(** ** Two ways to lose count *)

Lemma pins_on_disabled s j k n d : pci_irq_disabled d = true → pins_on s j k n d = 0.
Proof. intros E. unfold pins_on, pin_on. by rewrite E. Qed.

Lemma pins_on_raised s j k n d irq :
  0 ≤ irq < 4 → pin_on d irq = true → irq_route s n irq = Some (j, k) → 1 ≤ pins_on s j k n d.
Proof.
  intros Hi Hon Hr. assert (pin_on d irq && arrives s n irq j k = true) as E.
  { rewrite Hon. by apply bool_decide_eq_true. }
  unfold pins_on. change irq_pins with [0; 1; 2; 3]. cbn [foldr].
  assert (irq = 0 ∨ irq = 1 ∨ irq = 2 ∨ irq = 3) as [->|[->|[->| ->]]] by lia; rewrite E;
    repeat match goal with |- context [Z.b2z (?x && ?y)] => destruct (x && y) end; cbn [Z.b2z]; lia.
Qed.

(** A device whose pins were counted and whose contribution vanished without its
    bus being told leaves the count of the line too high. *)
Lemma stale_count s s' n d irq :
  pci_ok s → irq_sync s → devs s !! n = Some d → 0 ≤ irq < 4 → pin_on d irq = true →
  statics s' = statics s → counts_off s' (λ j k, pins_on s j k n d) →
  ∃ j k b c, irq_route s' n irq = Some (j, k) ∧ buses s' !! j = Some b ∧
    irq_count b !! Z.to_nat k = Some c ∧ line_count s' j k < c.
Proof.
  intros Hok Hsync Hd Hi Hon E Hoff.
  destruct (routes_total s n d irq (po_static _ Hok) Hd Hi) as (j&k&b&Hr&Hk&Hb&Hset).
  apply (irq_route_of s n irq j k (po_static _ Hok)) in Hr.
  destruct (statics_eq_bus s' s j b) as (b'&Hb'&Eb); [done..|]. pose proof (f_equal set_irq Eb) as Es. cbn in Es.
  exists j, k, b', (line_count s' j k + pins_on s j k n d). split_and!.
  - rewrite (irq_route_ext s s') by (done || apply Hok). done.
  - done.
  - apply Hoff; [done|congruence|done].
  - pose proof (pins_on_raised s j k n d irq Hi Hon Hr). lia.
Qed.

(** Disabling the interrupts of a device with a raised pin by a write of one
    byte, to the upper half of the command register, is not noticed: when the
    device then lowers the pin, the count of the line stays too high, so the line
    stays asserted with no pin behind it. *)
Theorem intx_byte_write_stuck s n d irq val :
  pci_ok s → irq_sync s → devs s !! n = Some d → sec_bus d = None → 0 ≤ irq < 4 → pin_on d irq = true →
  Z.testbit (pci_get_byte (wmask d) (PCI_COMMAND + 1)) 2 = true → Z.testbit val 2 = true →
  wp (config_write n (PCI_COMMAND + 1) val 1;; pci_set_irq n irq 0) (λ _ s',
    ∃ j k b c, irq_route s' n irq = Some (j, k) ∧ buses s' !! j = Some b ∧
      irq_count b !! Z.to_nat k = Some c ∧ line_count s' j k < c) s.
Proof.
  intros Hok Hsync Hd Hsec Hi Hon Hwm Hval. apply wp_bind. unfold config_write.
  apply wp_bind, (wp_pdev n d); [done|]. rewrite Hsec. apply (write_config_wp s n d); [done|done|lia|lia|].
  intros s2 Hw Eb. pose proof Hw as [(d1&d2&Hwr&Hdd&Ed) Es Hok2 _ _].
  replace (range_covers_byte _ _ _) with false by done. apply wp_ret.
  pose proof (po_dyn _ Hok _ _ Hd) as Hdyn. destruct (ok_dev s (po_static _ Hok) _ _ Hd) as (Hst&_).
  assert (devs s2 !! n = Some d2) as Hd2 by (by rewrite Ed, lookup_insert_eq).
  assert (pci_irq_disabled d2 = true) as Hdis.
  { pose proof (config_size_pos d). unfold pci_irq_disabled. rewrite (proj1 (dev_remap_config _ _ Hdd)).
    change PCI_COMMAND_INTX_DISABLE with (2 ^ 10). rewrite has_bits_pow2 by lia.
    destruct (written_lookup 1 (PCI_COMMAND + 1) val d d1 (PCI_COMMAND + 1) (so_masks _ Hst) Hdyn Hwr)
      as (old&wm&w1c&Ho&Hwm'&Hc&_&_&_&Hdj&E); [lia|]. rewrite decide_True in E by lia.
    unfold pci_get_word. erewrite get_le_bit; [|eapply written_dyn; [apply Hst|done|exact Hwr]|lia|cbn; lia|exact E].
    change (10 `mod` 8) with 2. rewrite write_byte_bit by (done || lia).
    unfold pci_get_byte in Hwm. rewrite Hwm' in Hwm. cbn [default from_option id] in Hwm. rewrite Hwm, Z.sub_diag, Z.mul_0_r, Z.shiftr_0_r. done. }
  assert (counts_off s2 (λ j k, pins_on s j k n d)) as Hoff.
  { eapply counts_off_ext; [|by apply (upd_off s s2 n d d2)]. intros. cbn beta. rewrite (pins_on_disabled s _ _ n d2 Hdis). lia. }
  eapply wp_mono; [apply (pci_set_irq_wp s2 n d2 irq false Hok2 Hd2 Hi)|]. intros [] s'. cbv zeta.
  pose proof (disabled_same d2 _ (pin_set_same d2 irq false)) as Edis. rewrite Hdis in Edis. rewrite Edis.
  assert (d_static (pin_set d2 irq false) = d_static d2) as Est by apply pin_set_static.
  case_match; intros ->; apply (stale_count s _ n d irq); try done.
  - rewrite <- Es. by eapply set_dev_statics.
  - intros j b k Hb Hset Hk. cbn in Hb. rewrite (Hoff j b k Hb Hset Hk).
    rewrite (line_count_upd s2 (set_dev s2 n (pin_set d2 irq false)) n d2 (pin_set d2 irq false));
      [|apply Hok2|by eapply set_dev_statics|done|done].
    rewrite (pins_on_disabled s2 j k n d2), (pins_on_disabled s2 j k n (pin_set d2 irq false)) by done. f_equal. lia.
Qed.

(** C21: resetting a device that has a raised pin forgets the pin without telling
    the bus: the pins are cleared before they are lowered, so lowering them does
    nothing and the count of the line stays too high. *)
Theorem device_reset_stuck s n d irq :
  pci_ok s → irq_sync s → devs s !! n = Some d → sec_bus d = None → 0 ≤ irq < 4 → pin_on d irq = true →
  wp (pci_device_reset n) (λ _ s', (∀ d', devs s' !! n = Some d' → irq_state d' = 0) ∧
    ∃ j k b c, irq_route s' n irq = Some (j, k) ∧ buses s' !! j = Some b ∧
      irq_count b !! Z.to_nat k = Some c ∧ line_count s' j k < c) s.
Proof.
  intros Hok Hsync Hd Hsec Hi Hon. unfold pci_device_reset. apply wp_bind, (wp_pdev n d); [done|].
  rewrite Hsec. apply wp_bind, wp_ret. eapply wp_mono; [by eapply pci_device_reset_core_wp|].
  intros [] s' (Es&Hok'&Eb&(d'&Hd'&Hq)&Hne). split.
  { intros x Hx. rewrite Hd' in Hx. apply (inj Some) in Hx as <-. apply Hq. }
  apply (stale_count s s' n d irq); try done. eapply counts_off_ext; [|apply (upd_off s s' n d d'); try done].
  - intros j k _. cbn beta. replace (pins_on s j k n d') with 0; [lia|]. unfold pins_on, pin_on.
    rewrite (qt_irq _ Hq). change irq_pins with [0; 1; 2; 3]. cbn [foldr]. by rewrite !Z.bits_0, !andb_false_r.
  - apply map_eq. intros m. destruct (decide (m = n)) as [->|]; [by rewrite lookup_insert_eq|].
    by rewrite lookup_insert_ne, Hne.
Qed.
End irq.
