(* ===== verification/PciAdd.v ===== *)
(** * Adding to a PCI system ([hw/pci.c])

    Root buses, and what registering a device changes: a device that decodes
    nothing and raises no pin, put into a free slot of a well-formed system, gives a
    well-formed system in which everything else is as it was. *)

From S2P Require Import Prelude Bytes Pci PciSpec PciInv PciCfg PciReset PciGuest PciIrq.

Section add.
Context {F : Type} `{MapFuncs F}.
Implicit Types (s : PciSys F) (d : PCIDevice F).

(** A bus without bridge above it ([pci_bus_new], [pci_bus_irqs]). *)
Definition pci_register_bus (map_irq_ : Z → Z → Z) (devfn_min_ nirq_ : Z) : M (PciSys F) nat :=
  if negb (PCI_FUNC devfn_min_ =? 0) then fail Aborted else
  j ← gets nbuses;
  modify (λ s, s <| buses ::= <[j := Bus devfn_min_ true map_irq_ (replicate 256 None) None 0 [] nirq_
                                        (replicate (Z.to_nat nirq_) 0)]> |>
                 <| nbuses := S j |>);;
  mret j.

Definition pci_bus_set_mem_base (b : nat) (base : Z) : M (PciSys F) unit :=
  bus ← pbus b; put_pbus b (bus <| mem_base := base |>).

Definition empty_sys : PciSys F := Sys ∅ ∅ 0 [].

(** ** Larger systems *)

(** Every device and every bus of [s] is in [s'], with the same wiring. *)
Definition same_wiring (b b' : PCIBus) : Prop :=
  parent_dev b' = parent_dev b ∧ set_irq b' = set_irq b ∧ map_irq b' = map_irq b ∧ irq_count b' = irq_count b.
Record extends s s' : Prop := {
  ex_bus j b : buses s !! j = Some b → ∃ b', buses s' !! j = Some b' ∧ same_wiring b b';
  ex_dev m x : devs s !! m = Some x → devs s' !! m = Some x;
}.

Section extends.
Context s s' (Hs : statics_ok (statics s)) (He : extends s s').

Lemma ex_filter fuel x b type base limit : is_Some (buses s !! b) →
  bridge_filter_loop fuel s' x b type base limit = bridge_filter_loop fuel s x b type base limit.
Proof using Hs He.
  revert b base limit. induction fuel as [|fuel IH]; intros b base limit [y Hy]; [done|]. cbn [bridge_filter_loop].
  destruct (ex_bus _ _ He _ _ Hy) as (y'&Hy'&Ep&_). rewrite Hy, Hy'. cbn [mbind option_bind]. rewrite Ep.
  destruct (parent_dev y) as [p|] eqn:Hp; [|done]. case_match; [done|].
  destruct (ok_parent s Hs _ _ _ Hy Hp) as (z&Hz&_). rewrite Hz, (ex_dev _ _ He _ _ Hz). cbn [mbind option_bind].
  apply IH. destruct (ok_dev s Hs _ _ Hz) as (_&_&bz&Hbz&_). eauto.
Qed.

Lemma ex_target m x i r : devs s !! m = Some x → region_target s' x i r = region_target s x i r.
Proof using Hs He.
  intros Hx. destruct (ok_dev s Hs _ _ Hx) as (_&_&b&Hb&_). unfold region_target, pci_bridge_filter. by rewrite ex_filter by eauto.
Qed.

Lemma ex_route_loop fuel m irq : is_Some (devs s !! m) → irq_route_loop fuel s' m irq = irq_route_loop fuel s m irq.
Proof using Hs He.
  revert m irq. induction fuel as [|fuel IH]; intros m irq [x Hx]; [done|]. cbn [irq_route_loop].
  rewrite Hx, (ex_dev _ _ He _ _ Hx). cbn [mbind option_bind]. destruct (ok_dev s Hs _ _ Hx) as (_&_&y&Hy&_).
  destruct (ex_bus _ _ He _ _ Hy) as (y'&Hy'&Ep&Es&Em&_). rewrite Hy, Hy'. cbn [mbind option_bind]. rewrite Ep, Es, Em.
  case_match; [done|]. destruct (parent_dev y) as [p|] eqn:Hp; [|done]. apply IH.
  destruct (ok_parent s Hs _ _ _ Hy Hp) as (z&Hz&_). eauto.
Qed.

Lemma ex_pins j k m x : devs s !! m = Some x → pins_on s' j k m x = pins_on s j k m x.
Proof using Hs He.
  intros Hx. assert (∀ irq, irq_route s' m irq = irq_route s m irq) as Hr.
  { intros irq. unfold irq_route. rewrite Hx, (ex_dev _ _ He _ _ Hx). cbn [mbind option_bind]. apply ex_route_loop. eauto. }
  unfold pins_on, arrives. change irq_pins with [0; 1; 2; 3]. cbn [foldr]. by rewrite !Hr.
Qed.
End extends.

(** One device more. *)
Lemma count_add s s' n d j k :
  statics_ok (statics s) → extends s s' → devs s !! n = None → devs s' = <[n := d]> (devs s) →
  line_count s' j k = pins_on s' j k n d + line_count s j k.
Proof.
  intros Hs He Hn Ed. unfold line_count at 1. rewrite Ed, msum_insert by done. f_equal.
  apply msum_ext. intros m x Hx. by apply ex_pins.
Qed.

Lemma sync_add s s' n d :
  statics_ok (statics s) → extends s s' → devs s !! n = None → devs s' = <[n := d]> (devs s) → irq_state d = 0 →
  (∀ j b, buses s' !! j = Some b → set_irq b = true → is_Some (buses s !! j)) →
  Z.of_nat (size (devs s)) + 1 < 2 ^ 28 → irq_sync s → irq_sync s'.
Proof.
  intros Hs He Hn Ed Hq Hold Hsz [Hc _]. split.
  - intros j b' k Hb' Hset Hk. destruct (Hold _ _ Hb' Hset) as [b Hb].
    destruct (ex_bus _ _ He _ _ Hb) as (b1&Hb1&_&Es&_&Ec). rewrite Hb' in Hb1. apply (inj Some) in Hb1 as <-.
    rewrite (count_add s s' n d), pins_on_quiet, Ec by done. rewrite Es in Hset. by eapply Hc.
  - rewrite Ed, map_size_insert_None by done. lia.
Qed.

Lemma coherent_add s s' n d :
  statics_ok (statics s) → extends s s' → devs s !! n = None → devs s' = <[n := d]> (devs s) →
  pci_get_byte (config d) PCI_COMMAND .& 3 = 0 →
  (∀ i r, io_regions d !! i = Some r → r_size r ≠ 0 → r_addr r = PCI_BAR_UNMAPPED ∧ r_filtered_size r = r_size r) →
  coherent s → coherent s'.
Proof.
  intros Hs He Hn Ed Hq Hr Hc m x i r. rewrite Ed, lookup_insert_Some. intros [[<- <-]|[_ Hx]] Hi Hz.
  - destruct (Hr _ _ Hi Hz) as [-> ->]. unfold region_target. by rewrite bar_address_quiet.
  - rewrite (ex_target s s' Hs He m) by done. by eapply Hc.
Qed.

(** ** A device in a slot *)

Definition plug (n : nat) (fn : Z) (b : PCIBus) : PCIBus := b <| devices ::= <[Z.to_nat fn := Some n]> |>.
Definition attach s (n : nat) d (bus : PCIBus) : PciSys F :=
  s <| devs ::= <[n := d]> |> <| buses ::= <[dev_bus d := plug n (devfn d) bus]> |>.

(** Each bus of the larger system is one of the smaller with other devices. *)
Lemma plug_inv (B : gmap nat PCIBus) n fn b bus j x :
  B !! b = Some bus → <[b := plug n fn bus]> B !! j = Some x →
  ∃ y, B !! j = Some y ∧ x = y <| devices := devices x |> ∧
    (devices x = devices y ∨ j = b ∧ devices x = <[Z.to_nat fn := Some n]> (devices y)).
Proof.
  intros Hb. rewrite lookup_insert_Some. intros [[<- <-]|[Hne Hx]].
  - exists bus. split_and!; [done..|by right].
  - exists x. split_and!; [done|by destruct x|by left].
Qed.

Lemma topo_add (D : gmap nat (PCIDevice F)) B k n b bus d :
  topo_ok D B k → D !! n = None → B !! b = Some bus → dev_bus d = b → 0 ≤ devfn d < 256 →
  devices bus !! Z.to_nat (devfn d) = Some None → dev_static_ok d → sec_bus d = None →
  topo_ok (<[n := d]> D) (<[b := plug n (devfn d) bus]> B) k.
Proof.
  intros [Hdev Hbus Hslot Hpar Hsec Hch] Hn Hb Edb Hfn Hfree Hst Hns.
  assert (∀ m, is_Some (D !! m) → m ≠ n) as Hold by (intros m [? ?] ->; congruence).
  assert (length (devices bus) = 256%nat) as Hlen by apply (Hbus _ _ Hb). split.
  - intros m x. rewrite lookup_insert_Some. intros [[<- <-]|[Hne Hx]].
    + split; [done|]. split; [done|]. exists (plug n (devfn d) bus). rewrite Edb, lookup_insert_eq.
      split; [done|]. cbn. apply list_lookup_insert_eq. lia.
    + destruct (Hdev _ _ Hx) as (H1&H2&y&Hy&Hs). split; [done|]. split; [done|].
      destruct (decide (dev_bus x = b)) as [E|].
      * rewrite E in Hy |- *. rewrite Hb in Hy. apply (inj Some) in Hy as <-. exists (plug n (devfn d) bus).
        rewrite lookup_insert_eq. split; [done|]. cbn. rewrite list_lookup_insert_ne; [done|congruence].
      * exists y. by rewrite lookup_insert_ne.
  - intros j x (y&Hy&Ex&Hd)%(plug_inv _ _ _ _ _ _ _ Hb). destruct (Hbus _ _ Hy) as [[] ?]. split; [|done].
    rewrite Ex. split; cbn; try done. destruct Hd as [->|[_ ->]]; [done|by rewrite length_insert].
  - intros j x i m (y&Hy&Ex&Hd)%(plug_inv _ _ _ _ _ _ _ Hb) Hi.
    assert (devices y !! i = Some (Some m) → ∃ d0, <[n:=d]> D !! m = Some d0 ∧ dev_bus d0 = j ∧ Z.to_nat (devfn d0) = i) as Hm.
    { intros Hy'. destruct (Hslot _ _ _ _ Hy Hy') as (d0&Hd0&<-&<-). exists d0.
      rewrite lookup_insert_ne; [done|]. intros <-. congruence. }
    destruct Hd as [E|[-> E]]; rewrite E in Hi; [by apply Hm|].
    apply list_lookup_insert_Some in Hi as [(<-&[= <-]&_)|[_ Hi]]; [|by apply Hm].
    exists d. by rewrite lookup_insert_eq.
  - intros j x p (y&Hy&Ex&_)%(plug_inv _ _ _ _ _ _ _ Hb) Hp. rewrite Ex in Hp.
    destruct (Hpar _ _ _ Hy Hp) as (d0&Hd0&?). exists d0. rewrite lookup_insert_ne; [done|]. intros <-. congruence.
  - intros m x j. rewrite lookup_insert_Some. intros [[<- <-]|[_ Hx]] Hj; [congruence|].
    destruct (Hsec _ _ _ Hx Hj) as (y&Hy&Hp). destruct (decide (j = b)) as [->|].
    + exists (plug n (devfn d) bus). rewrite lookup_insert_eq. rewrite Hb in Hy. by apply (inj Some) in Hy as <-.
    + exists y. by rewrite lookup_insert_ne.
  - intros j x c (y&Hy&Ex&_)%(plug_inv _ _ _ _ _ _ _ Hb). rewrite Ex. cbn. rewrite (Hch _ _ _ Hy). split.
    + intros (bc&p&d0&Hc&Hp&Hd0&E). assert (n ≠ p) by (intros <-; congruence).
      destruct (decide (c = b)) as [->|].
      * exists (plug n (devfn d) bus), p, d0. rewrite lookup_insert_eq, lookup_insert_ne by done.
        rewrite Hb in Hc. by apply (inj Some) in Hc as <-.
      * exists bc, p, d0. by rewrite !lookup_insert_ne.
    + intros (bc&p&d0&(yc&Hyc&Ec&_)%(plug_inv _ _ _ _ _ _ _ Hb)&Hp&Hd0&E). rewrite Ec in Hp. cbn in Hp.
      destruct (Hpar _ _ _ Hyc Hp) as (d1&Hd1&_). rewrite lookup_insert_ne in Hd0 by (intros <-; congruence).
      by exists yc, p, d0.
Qed.

(** *** The larger system *)

(** [d] is new, decodes nothing and raises no pin. *)
Record fresh_dev s (n : nat) d (bus : PCIBus) : Prop := {
  fd_new : devs s !! n = None;
  fd_bus : buses s !! dev_bus d = Some bus;
  fd_slot : 0 ≤ devfn d < 256 ∧ devices bus !! Z.to_nat (devfn d) = Some None;
  fd_static : dev_static_ok d;
  fd_dyn : dev_dyn_ok d;
  fd_bridge : sec_bus d = None;
  fd_quiet : pci_get_byte (config d) PCI_COMMAND .& 3 = 0;
  fd_regions i r : io_regions d !! i = Some r → r_size r ≠ 0 → r_addr r = PCI_BAR_UNMAPPED ∧ r_filtered_size r = r_size r;
  fd_pins : irq_state d = 0;
}.

Lemma attach_statics s n d bus :
  statics (attach s n d bus) =
    (<[n := d_static d]> (statics s).1.1, <[dev_bus d := plug n (devfn d) (b_static bus)]> (statics s).1.2, (statics s).2).
Proof. unfold statics, attach. cbn. by rewrite !fmap_insert. Qed.

Lemma dev_static_to d : dev_static_ok d → dev_static_ok (d_static d).
Proof.
  intros [[] Hl Hr]. split; [by split|by cbn; rewrite length_map|].
  intros i r. cbn. change (map r_static (io_regions d)) with (r_static <$> io_regions d).
  rewrite list_lookup_fmap, fmap_Some. intros (r0&Hr0&->) Hz. destruct (Hr i r0 Hr0 Hz). by split.
Qed.

Section attached.
Context s n d bus (Hok : pci_ok s) (Hf : fresh_dev s n d bus).
Let s' := attach s n d bus.

Lemma attach_ok : pci_ok s'.
Proof.
  destruct Hok as [Hs Hd Hc], Hf as [Hn Hb [Hfn Hfree] Hst Hdyn Hns _ _ _]. split.
  - unfold s'. rewrite attach_statics. unfold statics_ok. cbn. change (devfn d) with (devfn (d_static d)).
    apply topo_add; [exact Hs|by rewrite lookup_fmap, Hn|by rewrite lookup_fmap, Hb|done|done|done|by apply dev_static_to|done].
  - intros m x. cbn. rewrite lookup_insert_Some. intros [[<- <-]|[_ Hx]]; [done|by eapply Hd].
  - intros j x (y&Hy&Ex&_)%(plug_inv _ _ _ _ _ _ _ Hb). rewrite Ex. apply (Hc j y Hy).
Qed.

Lemma attach_extends : extends s s'.
Proof.
  split.
  - intros j b Hb. unfold s'. cbn. destruct (decide (j = dev_bus d)) as [->|].
    + rewrite lookup_insert_eq. pose proof (fd_bus _ _ _ _ Hf) as E. rewrite E in Hb. apply (inj Some) in Hb as <-. eexists. split; done.
    + rewrite lookup_insert_ne by done. by exists b.
  - intros m x Hx. unfold s'. cbn. rewrite lookup_insert_ne; [done|]. intros <-. pose proof (fd_new _ _ _ _ Hf). congruence.
Qed.

Lemma attach_coherent : coherent s → coherent s'.
Proof. apply (coherent_add s s' n d); [apply Hok|apply attach_extends|apply Hf|done|apply Hf|apply Hf]. Qed.

Lemma attach_sync : Z.of_nat (size (devs s)) + 1 < 2 ^ 28 → irq_sync s → irq_sync s'.
Proof.
  apply (sync_add s s' n d); [apply Hok|apply attach_extends|apply Hf|done|apply Hf|].
  intros j b (y&Hy&_)%(plug_inv _ _ _ _ _ _ _ (fd_bus _ _ _ _ Hf)) _. eauto.
Qed.
End attached.


(** What [qdev_create] allocates: properties have their defaults. *)
Definition new_pci_device (devfn_ : Z) : PCIDevice F :=
  Device [] [] [] [] [] 0 devfn_ (replicate PCI_NUM_REGIONS (Region 0 0 0 0 None)) 0 QEMU_PCI_CAP_SERR 0 None.

(** ** Registration *)

(** The device after [do_pci_register_device]. *)
Definition registered (is_bridge : bool) (b : nat) (fn : Z) : PCIDevice F :=
  let d := new_pci_device fn <| dev_bus := b |> <| devfn := fn |> <| irq_state := 0 |> in
  let d := pci_config_alloc d in
  let d := d <| config_map ::= λ c, set_bytes c 0 0xff (Z.to_nat PCI_CONFIG_HEADER_SIZE) |> in
  let d := if is_bridge then d else pci_set_default_subsystem_id d in
  let d := pci_init_w1cmask (pci_init_wmask (pci_init_cmask d)) in
  (if is_bridge then pci_init_wmask_bridge d else d) <| version_id := 2 |>.

(** Function 0 of slot [fn / 8] of the bus and the functions beside it are free. *)
Definition slot_free (bus : PCIBus) (fn : Z) : Prop :=
  0 ≤ fn < 256 ∧ PCI_FUNC fn = 0 ∧ ∀ k, 0 ≤ k < 8 → devices bus !! Z.to_nat (PCI_DEVFN (PCI_SLOT fn) k) = Some None.

Lemma slot_free_self bus fn : slot_free bus fn → devices bus !! Z.to_nat fn = Some None.
Proof. intros (Hfn&H0&Hall). rewrite <- (devfn_roundtrip fn Hfn). rewrite H0. by apply Hall. Qed.

Lemma devfn_range slot func : 0 ≤ PCI_DEVFN slot func < 256.
Proof.
  unfold PCI_DEVFN. change 0x1f with (Z.ones 5). change 0x07 with (Z.ones 3). rewrite !Z.land_ones by lia.
  pose proof (Z.mod_pos_bound slot (2 ^ 5)). pose proof (Z.mod_pos_bound func (2 ^ 3)).
  rewrite Z.lor_comm, lor_shiftl_add by lia. lia.
Qed.

Lemma slot_free_empty bus fn : devices bus = replicate 256 None → 0 ≤ fn < 256 → PCI_FUNC fn = 0 → slot_free bus fn.
Proof.
  intros E Hfn H0. split_and!; [lia|lia|done|]. intros k Hk. rewrite E. apply lookup_replicate. split; [done|].
  pose proof (devfn_range (PCI_SLOT fn) k). lia.
Qed.

Lemma slot_small fn : 0 ≤ PCI_SLOT fn < 32.
Proof. unfold PCI_SLOT. change 0x1f with (Z.ones 5). rewrite Z.land_ones by lia. by apply Z.mod_pos_bound. Qed.

Lemma register_wp s n b bus fn is_bridge :
  buses s !! b = Some bus → slot_free bus fn → devs s !! n = Some (new_pci_device fn) →
  wp (do_pci_register_device n b fn is_bridge) (λ ok s', ok = true ∧
    s' = s <| devs ::= <[n := registered is_bridge b fn]> |> <| buses ::= <[b := plug n fn bus]> |>) s.
Proof.
  intros Hb Hfree Hn. pose proof (slot_free_self _ _ Hfree) as Hself. destruct Hfree as (Hfn&H0&Hall).
  unfold do_pci_register_device. apply wp_bind, (wp_pbus b bus); [done|].
  replace (fn <? 0) with false by (symmetry; apply Z.ltb_ge; lia).
  apply wp_bind, wp_bind. eapply wp_oob; [exact Hself|]. apply wp_ret. cbv iota.
  apply wp_bind, (wp_pdev n (new_pci_device fn)); [done|]. cbv zeta iota.
  match goal with |- wp (_ ← put_pdev n ?x; _) _ _ => set (d1 := x) end.
  apply wp_bind, wp_put_pdev, wp_bind. unfold pci_init_multifunction.
  apply wp_bind, (wp_pdev n d1); [apply set_dev_eq|]. cbv zeta.
  assert (devfn d1 = fn ∧ has_bits (cap_present d1) QEMU_PCI_CAP_MULTIFUNCTION = false) as [-> ->] by (unfold d1; by destruct is_bridge).
  apply wp_bind, wp_ret. rewrite H0. cbv iota. cbn [Z.eqb negb]. apply wp_ret.
  pose proof (slot_small fn). rewrite (proj2 (forallb_forall _ _)).
  - cbn [negb]. apply wp_bind, wp_modify, wp_bind, (wp_pdev n d1); [apply lookup_insert_eq|].
    apply wp_bind, wp_modify, wp_ret. split; [done|].
    change (registered is_bridge b fn) with (d1 <| version_id := 2 |>). clearbody d1. unfold set_dev, update. cbn.
    f_equal. by rewrite insert_insert_eq.
  - intros k Hk. rewrite (u8_small (PCI_SLOT fn)) by lia. rewrite Hall; [done|].
    cbn in Hk. intuition lia.
Qed.

(** ** Registering regions *)

(** What a new device that is not a bridge satisfies while its regions are
    registered. *)
Record dev_fresh d : Prop := {
  df_static : dev_static_ok d;
  df_dyn : dev_dyn_ok d;
  df_bridge : sec_bus d = None;
  df_header : pci_get_byte (config d) PCI_HEADER_TYPE = 0;
  df_quiet : pci_get_byte (config d) PCI_COMMAND .& 3 = 0;
  df_regions i r : io_regions d !! i = Some r → r_size r ≠ 0 → r_addr r = PCI_BAR_UNMAPPED ∧ r_filtered_size r = r_size r;
  df_pins : irq_state d = 0;
  df_w1c i : 0x10 ≤ i < 0x34 → w1cmask d !! Z.to_nat i = Some 0;
}.

Lemma pow2_masked k : 0 ≤ k < 64 → 2 ^ k .& u64 (2 ^ k - 1) = 0.
Proof.
  intros Hk. assert (0 < 2 ^ k) by (apply Z.pow_pos_nonneg; lia).
  assert (2 ^ k ≤ 2 ^ 63) by (apply Z.pow_le_mono_r; lia). rewrite u64_small by lia.
  replace (2 ^ k - 1) with (Z.ones k) by (rewrite Z.ones_equiv; lia).
  rewrite Z.land_ones, Z.mod_same by lia. done.
Qed.

(** The state after [pci_register_bar] that does not end the process. *)
Lemma register_bar_some d (i : nat) k type f :
  (i < PCI_NUM_REGIONS)%nat → 2 ≤ k < 64 → pci_get_byte (config d) PCI_HEADER_TYPE = 0 →
  ∃ d' n w wm c, pci_register_bar d (Z.of_nat i) (2 ^ k) type f = Some d' ∧ (n = 4 ∨ n = 8 ∧ w = true)%nat ∧
    w = is_64 (Region PCI_BAR_UNMAPPED (2 ^ k) (2 ^ k) type (Some f)) ∧
    d' = d <| io_regions ::= <[i := Region PCI_BAR_UNMAPPED (2 ^ k) (2 ^ k) type (Some f)]> |>
           <| config ::= λ b, set_le 4 b (pci_bar d (Z.of_nat i)) type |>
           <| wmask ::= λ b, set_le n b (pci_bar d (Z.of_nat i)) wm |>
           <| cmask ::= λ b, set_le n b (pci_bar d (Z.of_nat i)) c |>.
Proof.
  intros Hi Hk Hh. unfold pci_register_bar, is_64. cbn [r_type]. rewrite pow2_masked by lia.
  replace ((0 <=? Z.of_nat i) && (Z.of_nat i <? Z.of_nat PCI_NUM_REGIONS)) with true
    by (symmetry; apply andb_true_iff; split; [apply Z.leb_le|apply Z.ltb_lt]; lia). cbn [negb Z.eqb].
  rewrite Nat2Z.id. destruct (_ && _) eqn:E; [|].
  - eexists _, 8%nat, true, _, _. split_and!; [reflexivity|by right|done|]. by destruct d.
  - eexists _, 4%nat, false, _, _. split_and!; [reflexivity|by left|done|]. by destruct d.
Qed.

Lemma register_bar_fresh d (i : nat) k type f :
  dev_fresh d → (i < PCI_NUM_REGIONS)%nat → 2 ≤ k < 64 → byte_ok type →
  (has_bits type PCI_BASE_ADDRESS_MEM_TYPE_64 = true → (i < 5)%nat) →
  ∃ d', pci_register_bar d (Z.of_nat i) (2 ^ k) type f = Some d' ∧ dev_fresh d' ∧
    dev_bus d' = dev_bus d ∧ devfn d' = devfn d.
Proof.
  intros [[Hm Hrl Hr] Hdyn Hns Hh Hq Hreg Hpins Hw] Hi Hk Ht H64.
  destruct (register_bar_some d i k type f) as (d'&n&w&wm&c&Hd'&Hn&Hw64&E); [done..|].
  exists d'. split; [done|]. rewrite E. split; [|by destruct d].
  pose proof (config_size_pos d) as Hsz. destruct Hm as [[Lw Ow] [Lc Oc] Hdis Hhdr Hcmd], Hdyn as [Lk Ok Hirq _].
  assert (0x10 ≤ pci_bar d (Z.of_nat i) ∧ pci_bar d (Z.of_nat i) + Z.of_nat n ≤ 0x34) as [Hb1 Hb2].
  { unfold pci_bar. rewrite Hh. unfold is_64 in Hw64. cbn [r_type] in Hw64.
    assert (n = 4 ∨ n = 8 ∧ i < 5)%nat.
    { destruct Hn as [->|[-> ->]]; [by left|right]. symmetry in Hw64. apply andb_prop in Hw64 as [_ Hw64]. auto. }
    change (0 .& .~ PCI_HEADER_TYPE_MULTI_FUNCTION =? PCI_HEADER_TYPE_BRIDGE) with false.
    destruct (Z.eqb_spec (Z.of_nat i) PCI_ROM_SLOT); cbn [negb]; lia. }
  set (bar := pci_bar d (Z.of_nat i)) in *. set (r := Region _ _ _ _ _) in *.
  assert (0 < 2 ^ k) by (apply Z.pow_pos_nonneg; lia).
  assert (∀ b m v off, length b = Z.to_nat (pci_config_size d) → (m ≤ n)%nat → 0 ≤ off < 0x10 →
    set_le m b bar v !! Z.to_nat off = b !! Z.to_nat off) as Hlow.
  { intros b m v off Hl Hmn Hoff. symmetry. apply set_le_same; lia. }
  assert (4 ≤ n)%nat as Hn4 by lia.
  split; try done.
  - split; [split|by cbn; rewrite length_insert|]; cbn.
    + rewrite length_set_le by lia. split; [done|by apply set_le_ok].
    + done.
    + intros j x y Hx Hy. destruct (decide (bar ≤ Z.of_nat j < bar + Z.of_nat n)) as [Hin|Hout].
      * specialize (Hw (Z.of_nat j)). rewrite Nat2Z.id, Hy in Hw. assert (Some y = Some 0) as [= ->] by (apply Hw; lia). by rewrite Z.land_0_r.
      * apply (Hdis j); [|done]. rewrite <- Hx. pose proof (set_le_same n (wmask d) bar wm) as Hs.
        specialize (Hs ltac:(lia) ltac:(lia) (Z.of_nat j)). rewrite Nat2Z.id in Hs. apply Hs; lia.
    + split; [|apply Hhdr]. rewrite <- (proj1 Hhdr). apply (Hlow _ n wm 14 Lw); lia.
    + etrans; [|exact Hcmd]. unfold pci_get_byte. by rewrite (Hlow _ n wm PCI_COMMAND Lw) by lia.
    + intros j x Hj Hz. apply list_lookup_insert_Some in Hj as [(<-&<-&_)|[_ Hj]]; [|by apply Hr].
      rewrite Hns. split; cbn; [by exists k|done|done|done|done].
  - split; cbn; [by rewrite length_set_le by lia|by apply set_le_ok|done|]. rewrite Hns. by intros [].
  - etrans; [|exact Hh]. change (pci_get_byte (set_le 4 (config d) bar type) PCI_HEADER_TYPE = pci_get_byte (config d) PCI_HEADER_TYPE).
    unfold pci_get_byte. by rewrite (Hlow _ 4%nat type PCI_HEADER_TYPE Lk) by lia.
  - etrans; [|exact Hq]. change (pci_get_byte (set_le 4 (config d) bar type) PCI_COMMAND .& 3 = pci_get_byte (config d) PCI_COMMAND .& 3).
    unfold pci_get_byte. by rewrite (Hlow _ 4%nat type PCI_COMMAND Lk) by lia.
  - intros j x. cbn. intros [(<-&<-&_)|[_ Hj]]%list_lookup_insert_Some Hz; [done|by eapply Hreg].
Qed.


(** ** A machine's first bus *)

Lemma first_bus_wp map_irq_ devfn_min_ :
  (∀ fn k, 0 ≤ fn < 256 → 0 ≤ k < 4 → 0 ≤ map_irq_ fn k < 4) → PCI_FUNC devfn_min_ = 0 →
  wp (pci_register_bus map_irq_ devfn_min_ 4) (λ j s, j = 0%nat ∧ pci_ok s ∧ coherent s ∧ irq_sync s ∧
    s = Sys ∅ {[0%nat := Bus devfn_min_ true map_irq_ (replicate 256 None) None 0 [] 4 [0; 0; 0; 0]]} 1 []) empty_sys.
Proof.
  intros Hmap Hfn. unfold pci_register_bus. rewrite Hfn. cbn [Z.eqb negb].
  apply wp_bind, wp_gets, wp_bind, wp_modify, wp_ret. split; [done|].
  set (b := Bus _ _ _ _ _ _ _ _ _).
  assert (∀ j x, ({[0%nat := b]} : gmap nat PCIBus) !! j = Some x → j = 0%nat ∧ x = b) as Hone
    by (intros j x [<- <-]%lookup_singleton_Some; done).
  split_and!; [|done| |done].
  - split; [|done|by intros j x [-> ->]%Hone; repeat constructor]. unfold statics_ok, statics. cbn.
    rewrite insert_empty, map_fmap_singleton.
    assert (∀ j x, ({[0%nat := b_static b]} : gmap nat PCIBus) !! j = Some x → j = 0%nat ∧ x = b_static b) as Hst
      by (intros j x [<- <-]%lookup_singleton_Some; done).
    split; [done| | |by intros j x p [-> ->]%Hst|done|].
    + intros j x [-> ->]%Hst. split; [by split|lia].
    + intros j x i m [-> ->]%Hst. cbn [b devices b_static]. intros Hi%lookup_replicate. by destruct Hi.
    + intros j x c [-> ->]%Hst. split; [by intros []%not_elem_of_nil|]. by intros (?&?&?&_&_&?&_).
  - split; [|done]. intros j x k [-> ->]%Hone _ Hk. change (irq_count b !! Z.to_nat k = Some 0).
    assert (k = 0 ∨ k = 1 ∨ k = 2 ∨ k = 3) as [->|[->|[->| ->]]] by lia; done.
Qed.
End add.
