(* ===== verification/PciHot.v ===== *)
(** * Bridges and removal ([hw/pci_bridge.c], [hw/pci.c])

    Creating bridges with their secondary buses and taking devices away: how the tree
    of buses grows and shrinks. *)

From S2P Require Import Prelude Bytes Pci PciSpec PciInv PciCfg PciReset PciGuest PciIrq PciAdd.

Section hot.
Context {F : Type} `{MapFuncs F}.
Abbreviation PM := (M (PciSys F)).
Implicit Types (s : PciSys F) (d : PCIDevice F).

(** ** Bridges *)

Abbreviation PCI_STATUS_66MHZ := 0x20.
Abbreviation PCI_STATUS_FAST_BACK := 0x80.
Abbreviation PCI_CLASS_BRIDGE_PCI := 0x0604.
Abbreviation PCI_SEC_STATUS := 0x1e.

Definition bridge_init_config (c : list Z) : list Z :=
  let c := pci_set_word c PCI_STATUS (PCI_STATUS_66MHZ .| PCI_STATUS_FAST_BACK) in
  let c := pci_set_word c PCI_CLASS_DEVICE PCI_CLASS_BRIDGE_PCI in
  let c := pci_set_byte c PCI_HEADER_TYPE
    ((pci_get_byte c PCI_HEADER_TYPE .& PCI_HEADER_TYPE_MULTI_FUNCTION) .| PCI_HEADER_TYPE_BRIDGE) in
  pci_set_word c PCI_SEC_STATUS (PCI_STATUS_66MHZ .| PCI_STATUS_FAST_BACK).

(** The secondary bus gets the next number; it has no [set_irq] function. *)
Definition pci_bridge_initfn (n : nat) (map_irq_ : Z → Z → Z) : PM Z :=
  d ← pdev n;
  j ← gets nbuses;
  put_pdev n (d <| config ::= bridge_init_config |> <| sec_bus := Some j |>);;
  modify (λ s, s <| buses ::= <[j := Bus 0 false map_irq_ (replicate 256 None) (Some n) 0 [] 0 []]> |>
                 <| nbuses := S j |>);;
  parent ← pbus (dev_bus d);
  put_pbus (dev_bus d) (parent <| child ::= cons j |>);;
  mret 0.

(** The bus is no longer a child of its parent, and is freed with the bridge. *)
Definition pci_bridge_exitfn (n : nat) (sec : nat) : PM Z :=
  d ← pdev n;
  b ← pbus sec;
  if negb (bool_decide (child b = [])) then fail Aborted else
  parent ← pbus (dev_bus d);
  put_pbus (dev_bus d) (parent <| child ::= filter (λ c, c ≠ sec) |>);;
  modify (λ s, s <| buses ::= delete sec |>);;
  mret 0.

Definition pci_bridge_disable_base_limit (c : list Z) : list Z :=
  let c := pci_byte_set_mask c PCI_IO_BASE 0xf0 in
  let c := pci_byte_clear_mask c PCI_IO_LIMIT 0xf0 in
  let c := pci_word_test_and_set_mask c PCI_MEMORY_BASE 0xfff0 in
  let c := pci_word_test_and_clear_mask c PCI_MEMORY_LIMIT 0xfff0 in
  let c := pci_word_test_and_set_mask c PCI_PREF_MEMORY_BASE 0xfff0 in
  let c := pci_word_test_and_clear_mask c PCI_PREF_MEMORY_LIMIT 0xfff0 in
  let c := pci_set_word c PCI_PREF_BASE_UPPER32 0 in
  pci_set_word c PCI_PREF_LIMIT_UPPER32 0.

(** ** Removal *)

Definition unregister_region (b : PCIBus) (r : PCIIORegion F) : list hostcall :=
  if (r_size r =? 0) || (r_addr r =? PCI_BAR_UNMAPPED) then [] else
  if r_type r =? PCI_BASE_ADDRESS_SPACE_IO then [isa_unassign_ioport (r_addr r) (r_filtered_size r)]
  else [cpu_register_physical_memory (pci_to_cpu_addr b (r_addr r)) (r_filtered_size r) IO_MEM_UNASSIGNED].

Definition pci_unregister_io_regions (n : nat) : PM unit :=
  d ← pdev n;
  b ← pbus (dev_bus d);
  calls (concat (map (unregister_region b) (io_regions d))).

(** The slot is free, and the memory of the device is given back. *)
Definition do_pci_unregister_device (n : nat) : PM unit :=
  d ← pdev n;
  b ← pbus (dev_bus d);
  put_pbus (dev_bus d) (b <| devices ::= <[Z.to_nat (devfn d) := None]> |>);;
  modify (λ s, s <| devs ::= delete n |>).

(** For a device whose own [exit] function succeeds and does not touch the PCI
    system, or a bridge; the memory of an option ROM is not part of the system. *)
Definition pci_unregister_device (n : nat) : PM Z :=
  d ← pdev n;
  ret ← match sec_bus d with Some sec => pci_bridge_exitfn n sec | None => mret 0 end;
  if negb (ret =? 0) then mret ret else
  pci_unregister_io_regions n;;
  do_pci_unregister_device n;;
  mret 0.

(** [pci_qdev_init] for a bridge without an option ROM. *)
Definition pci_qdev_init_bridge (n b : nat) (map_irq_ : Z → Z → Z) : PM Z :=
  d ← pdev n;
  ok ← do_pci_register_device n b (devfn d) true;
  if negb ok then mret (-1) else
  rc ← pci_bridge_initfn n map_irq_;
  if negb (rc =? 0) then do_pci_unregister_device n;; mret rc else mret 0.

(** ** A secondary bus more *)

Definition sec_root (n : nat) (map_irq_ : Z → Z → Z) : PCIBus :=
  Bus 0 false map_irq_ (replicate 256 None) (Some n) 0 [] 0 [].
Definition grow (B : gmap nat PCIBus) (b k n : nat) (bus : PCIBus) map_irq_ : gmap nat PCIBus :=
  <[b := bus <| child ::= cons k |>]> (<[k := sec_root n map_irq_]> B).

Section grow.
Context (B : gmap nat PCIBus) (b k n : nat) (bus : PCIBus) (map_irq_ : Z → Z → Z).
Context (Hb : B !! b = Some bus) (Hk : B !! k = None).

Lemma grow_new : grow B b k n bus map_irq_ !! k = Some (sec_root n map_irq_).
Proof using Hb Hk. unfold grow. rewrite lookup_insert_ne by congruence. apply lookup_insert_eq. Qed.

Lemma grow_old j y : B !! j = Some y →
  ∃ x, grow B b k n bus map_irq_ !! j = Some x ∧ x = y <| child := if decide (j = b) then k :: child y else child y |>.
Proof using Hb Hk.
  intros Hy. unfold grow. destruct (decide (j = b)) as [->|Hne].
  - rewrite lookup_insert_eq. rewrite Hb in Hy. apply (inj Some) in Hy as <-. by eexists.
  - rewrite !lookup_insert_ne by congruence. exists y. split; [done|by destruct y].
Qed.

Lemma grow_inv j x : grow B b k n bus map_irq_ !! j = Some x →
  (j = k ∧ x = sec_root n map_irq_) ∨ j ≠ k ∧ ∃ y, B !! j = Some y ∧
    x = y <| child := if decide (j = b) then k :: child y else child y |>.
Proof using Hb Hk.
  intros Hx. destruct (decide (j = k)) as [->|Hne].
  - left. rewrite grow_new in Hx. by apply (inj Some) in Hx as <-.
  - right. split; [done|]. destruct (B !! j) as [y|] eqn:Hy.
    + exists y. split; [done|]. destruct (grow_old _ _ Hy) as (x'&Hx'&E). congruence.
    + unfold grow in Hx. rewrite !lookup_insert_ne in Hx by congruence. congruence.
Qed.
End grow.

(** A device of the tree gets a secondary bus, or loses it. *)
Section resec.
Context (D : gmap nat (PCIDevice F)) (n : nat) (d : PCIDevice F) (o : option nat) (Hn : D !! n = Some d).
Let d' := d <| sec_bus := o |>.

Lemma resec_fwd m x : D !! m = Some x →
  ∃ x', <[n := d']> D !! m = Some x' ∧ dev_bus x' = dev_bus x ∧ devfn x' = devfn x ∧ (m ≠ n ∧ x' = x ∨ m = n ∧ x = d).
Proof using Hn.
  intros Hx. destruct (decide (m = n)) as [->|].
  - exists d'. rewrite lookup_insert_eq. rewrite Hn in Hx. apply (inj Some) in Hx as <-. auto 6.
  - exists x. rewrite lookup_insert_ne by done. auto 6.
Qed.
Lemma resec_bwd m x' : <[n := d']> D !! m = Some x' →
  ∃ x, D !! m = Some x ∧ dev_bus x' = dev_bus x ∧ devfn x' = devfn x ∧ (m ≠ n ∧ x' = x ∨ m = n ∧ x' = d' ∧ x = d).
Proof using Hn.
  rewrite lookup_insert_Some. intros [[<- <-]|[Hne Hx]]; [exists d|exists x']; auto 7.
Qed.
End resec.

Section add_sec.
Context (D : gmap nat (PCIDevice F)) (B : gmap nat PCIBus) (k n : nat) (bus : PCIBus) (d : PCIDevice F) (map_irq_ : Z → Z → Z).
Context (Ht : topo_ok D B k) (Hn : D !! n = Some d) (Hb : B !! dev_bus d = Some bus) (Hns : sec_bus d = None).
Let d' := d <| sec_bus := Some k |>.
Let B' := grow B (dev_bus d) k n bus map_irq_.

Lemma next_unused : B !! k = None.
Proof using Ht. destruct (B !! k) as [y|] eqn:Hy; [|done]. destruct (to_bus _ _ _ Ht _ _ Hy). lia. Qed.

Lemma grow_child j x c : B' !! j = Some x →
  c ∈ child x ↔ ∃ bc p z, B' !! c = Some bc ∧ parent_dev bc = Some p ∧ <[n := d']> D !! p = Some z ∧ dev_bus z = j.
Proof using Ht Hn Hb.
  pose proof next_unused as Hk. intros Hx. apply grow_inv in Hx as [[-> ->]|(Hne&y&Hy&->)]; [| |done|done].
  - split; [by intros []%not_elem_of_nil|]. intros (bc&p&z&Hc&Hp&(x&Hx&Eb&_)%(resec_bwd D n d _ Hn)&E).
    destruct (to_dev _ _ _ Ht _ _ Hx) as (_&_&y&Hy&_). congruence.
  - assert (c ∈ (if decide (j = dev_bus d) then k :: child y else child y) ↔ (c = k ∧ j = dev_bus d) ∨ c ∈ child y) as Hin.
    { case_decide; [rewrite elem_of_cons|]; naive_solver. }
    cbn. rewrite Hin, (to_child _ _ _ Ht _ _ _ Hy). split.
    + intros [[-> ->]|(bc&p&z&Hc&Hp&Hz&<-)].
      * exists (sec_root n map_irq_), n, d'. unfold B'. rewrite grow_new, lookup_insert_eq by done. done.
      * destruct (grow_old B (dev_bus d) k n bus map_irq_ Hb Hk _ _ Hc) as (w&Hw&->).
        destruct (resec_fwd D n d (Some k) Hn _ _ Hz) as (z'&Hz'&Eb&_). eexists _, p, z'. by split_and!.
    + intros (bc&p&z'&[[-> ->]|(_&yc&Hyc&->)]%grow_inv&Hp&(z&Hz&Eb&_&Hc)%(resec_bwd D n d _ Hn)&<-); [| |done|done].
      * cbn in Hp. apply (inj Some) in Hp as <-. left. split; [done|]. rewrite Hn in Hz. by apply (inj Some) in Hz as <-.
      * right. exists yc, p, z. by split_and!.
Qed.

Lemma topo_add_sec :
  (∀ i r, io_regions d !! i = Some r → r_size r = 0) →
  (∀ fn i, 0 ≤ fn < 256 → 0 ≤ i < 4 → 0 ≤ map_irq_ fn i < 4) →
  topo_ok (<[n := d']> D) B' (S k).
Proof using Ht Hn Hb Hns.
  intros Hnone Hmap. pose proof next_unused as Hk. destruct Ht as [Hdev Hbus Hslot Hpar Hsec _]. split.
  - intros m x' (x&Hx&Eb&Ef&Hc)%(resec_bwd D n d _ Hn). destruct (Hdev _ _ Hx) as (Hst&Hfn&y&Hy&Hi).
    rewrite Eb, Ef. split_and!; try lia.
    + destruct Hc as [[_ ->]|(->&->&->)]; [done|].
      destruct Hst as [[] Hl _]. split; [by split|done|]. intros i r Hr Hz. by destruct Hz; apply (Hnone i).
    + destruct (grow_old B (dev_bus d) k n bus map_irq_ Hb Hk _ _ Hy) as (z&Hz&Ez). exists z. split; [done|]. by rewrite Ez.
  - intros j x [[-> ->]|(_&y&Hy&->)]%grow_inv; [split; [by split|lia]| |done|done].
    destruct (Hbus _ _ Hy) as [[] ?]. split; [by split|lia].
  - intros j x i m [[-> ->]|(_&y&Hy&->)]%grow_inv Hi; [| |done|done].
    + apply lookup_replicate in Hi as [? _]. done.
    + destruct (Hslot _ _ _ _ Hy Hi) as (z&Hz&<-&<-). destruct (resec_fwd D n d (Some k) Hn _ _ Hz) as (z'&Hz'&<-&<-&_). eauto.
  - intros j x p [[-> ->]|(Hne&y&Hy&->)]%grow_inv Hp; [| |done|done].
    + cbn in Hp. apply (inj Some) in Hp as <-. exists d'. rewrite lookup_insert_eq. split_and!; [done| |done].
      by destruct (Hbus _ _ Hb).
    + destruct (Hpar _ _ _ Hy Hp) as (z&Hz&Hlt&Hs). destruct (resec_fwd D n d (Some k) Hn _ _ Hz) as (z'&Hz'&Eb&_&[[_ ->]|[_ ->]]).
      * eauto.
      * congruence.
  - intros m x' j (x&Hx&_&_&Hc)%(resec_bwd D n d _ Hn) Hj. destruct Hc as [[_ ->]|(->&->&_)].
    + destruct (Hsec _ _ _ Hx Hj) as (y&Hy&Hp). destruct (grow_old B (dev_bus d) k n bus map_irq_ Hb Hk _ _ Hy) as (z&Hz&->). eauto.
    + cbn in Hj. apply (inj Some) in Hj as <-. exists (sec_root n map_irq_). split; [by apply grow_new|done].
  - intros j x c. apply grow_child.
Qed.
End add_sec.

(** ** A secondary bus less *)

(** The bus and its number in the list of the parent are gone. *)
Definition shrink (B : gmap nat PCIBus) (b j : nat) (bus : PCIBus) : gmap nat PCIBus :=
  delete j (<[b := bus <| child ::= filter (λ c, c ≠ j) |>]> B).

Section shrink.
Context (B : gmap nat PCIBus) (b j : nat) (bus : PCIBus) (Hb : B !! b = Some bus).

Lemma shrink_old i y : B !! i = Some y → i ≠ j →
  ∃ x, shrink B b j bus !! i = Some x ∧ x = y <| child := if decide (i = b) then filter (λ c, c ≠ j) (child y) else child y |>.
Proof using Hb.
  intros Hy Hij. unfold shrink. rewrite lookup_delete_ne by done. destruct (decide (i = b)) as [->|Hne].
  - rewrite lookup_insert_eq. rewrite Hb in Hy. apply (inj Some) in Hy as <-. by eexists.
  - rewrite lookup_insert_ne by done. exists y. split; [done|by destruct y].
Qed.
Lemma shrink_inv i x : shrink B b j bus !! i = Some x →
  i ≠ j ∧ ∃ y, B !! i = Some y ∧ x = y <| child := if decide (i = b) then filter (λ c, c ≠ j) (child y) else child y |>.
Proof using Hb.
  unfold shrink. rewrite lookup_delete_Some. intros [Hne Hx]. split; [done|].
  destruct (B !! i) as [y|] eqn:Hy.
  - exists y. split; [done|]. destruct (shrink_old i y Hy ltac:(done)) as (x'&Hx'&E). unfold shrink in Hx'.
    rewrite lookup_delete_ne in Hx' by done. congruence.
  - rewrite lookup_insert_ne in Hx by congruence. congruence.
Qed.
End shrink.

Section del_sec.
Context (D : gmap nat (PCIDevice F)) (B : gmap nat PCIBus) (k n j : nat) (bus sec : PCIBus) (d : PCIDevice F).
Context (Ht : topo_ok D B k) (Hn : D !! n = Some d) (Hb : B !! dev_bus d = Some bus) (Hns : sec_bus d = Some j).
Context (Hj : B !! j = Some sec) (Hempty : ∀ i m, devices sec !! i ≠ Some (Some m)).
Let d' := d <| sec_bus := None |>.
Let B' := shrink B (dev_bus d) j bus.

(** No device is on the bus, so no bus is below it. *)
Lemma none_on m x : D !! m = Some x → dev_bus x ≠ j.
Proof using Ht Hj Hempty. intros Hx E. destruct (to_dev _ _ _ Ht _ _ Hx) as (_&_&y&Hy&Hi). rewrite E, Hj in Hy. apply (inj Some) in Hy as <-. by eapply Hempty. Qed.

Lemma shrink_child i x c : B' !! i = Some x →
  c ∈ child x ↔ ∃ bc p z, B' !! c = Some bc ∧ parent_dev bc = Some p ∧ <[n := d']> D !! p = Some z ∧ dev_bus z = i.
Proof using Ht Hn Hb Hns Hj Hempty.
  intros (Hij&y&Hy&->)%shrink_inv; [|done].
  assert (c ∈ (if decide (i = dev_bus d) then filter (λ c, c ≠ j) (child y) else child y) ↔ c ≠ j ∧ c ∈ child y) as Hin.
  { case_decide as E; [by rewrite list_elem_of_filter|]. split; [|by intros [_ ?]]. intros Hc. split; [|done]. intros ->.
    apply (to_child _ _ _ Ht _ _ _ Hy) in Hc as (bc&p&z&Hc&Hp&Hz&<-).
    destruct (to_parent _ _ _ Ht _ _ _ Hc Hp) as (z1&Hz1&_&Hs). destruct (to_sec _ _ _ Ht _ _ _ Hn Hns) as (y1&Hy1&Hp1).
    congruence. }
  cbn. rewrite Hin, (to_child _ _ _ Ht _ _ _ Hy). split.
  - intros [Hcj (bc&p&z&Hc&Hp&Hz&<-)]. destruct (shrink_old B (dev_bus d) j bus Hb _ _ Hc Hcj) as (w&Hw&->).
    destruct (resec_fwd D n d None Hn _ _ Hz) as (z'&Hz'&Eb&_). eexists _, p, z'. by split_and!.
  - intros (bc&p&z'&(Hcj&yc&Hyc&->)%shrink_inv&Hp&(z&Hz&Eb&_)%(resec_bwd D n d _ Hn)&<-); [|done].
    split; [done|]. exists yc, p, z. by split_and!.
Qed.

Lemma topo_del_sec : topo_ok (<[n := d']> D) B' k.
Proof using Ht Hn Hb Hns Hj Hempty.
  destruct Ht as [Hdev Hbus Hslot Hpar Hsec _]. split.
  - intros m x' (x&Hx&Eb&Ef&Hc)%(resec_bwd D n d _ Hn). destruct (Hdev _ _ Hx) as (Hst&Hfn&y&Hy&Hi).
    rewrite Eb, Ef. split_and!; try lia.
    + destruct Hc as [[_ ->]|(->&->&->)]; [done|]. destruct Hst as [[] Hl Hr]. split; [by split|done|].
      intros i r Hi' Hz. destruct (Hr i r Hi' Hz). by split.
    + destruct (shrink_old B (dev_bus d) j bus Hb _ _ Hy (none_on _ _ Hx)) as (z&Hz&Ez). exists z. split; [done|]. by rewrite Ez.
  - intros i x (_&y&Hy&->)%shrink_inv; [|done]. destruct (Hbus _ _ Hy) as [[] ?]. split; [by split|lia].
  - intros i x o m (_&y&Hy&->)%shrink_inv Hi; [|done].
    destruct (Hslot _ _ _ _ Hy Hi) as (z&Hz&<-&<-). destruct (resec_fwd D n d None Hn _ _ Hz) as (z'&Hz'&<-&<-&_). eauto.
  - intros i x p (Hij&y&Hy&->)%shrink_inv Hp; [|done].
    destruct (Hpar _ _ _ Hy Hp) as (z&Hz&Hlt&Hs). destruct (resec_fwd D n d None Hn _ _ Hz) as (z'&Hz'&Eb&_&[[_ ->]|[_ ->]]).
    + eauto.
    + congruence.
  - intros m x' i (x&Hx&_&_&Hc)%(resec_bwd D n d _ Hn) Hi. destruct Hc as [[Hmn ->]|(->&->&_)]; [|done].
    destruct (Hsec _ _ _ Hx Hi) as (y&Hy&Hp). destruct (Hsec _ _ _ Hn Hns) as (y'&Hy'&Hp').
    assert (i ≠ j) as Hij by congruence.
    destruct (shrink_old B (dev_bus d) j bus Hb _ _ Hy Hij) as (z&Hz&->). eauto.
  - intros i x c. apply shrink_child.
Qed.
End del_sec.

(** ** A device less *)

Definition unplug (fn : Z) (b : PCIBus) : PCIBus := b <| devices ::= <[Z.to_nat fn := None]> |>.

Section del_dev.
Context (D : gmap nat (PCIDevice F)) (B : gmap nat PCIBus) (k n : nat) (bus : PCIBus) (d : PCIDevice F).
Context (Ht : topo_ok D B k) (Hn : D !! n = Some d) (Hb : B !! dev_bus d = Some bus) (Hns : sec_bus d = None).
Let B' := <[dev_bus d := unplug (devfn d) bus]> B.

Lemma unplug_old i y : B !! i = Some y →
  ∃ x, B' !! i = Some x ∧ x = y <| devices := devices x |> ∧
    ∀ o m, m ≠ n → devices y !! o = Some (Some m) → devices x !! o = Some (Some m).
Proof using Ht Hn Hb.
  intros Hy. unfold B'. destruct (decide (i = dev_bus d)) as [->|Hne].
  - rewrite lookup_insert_eq. rewrite Hb in Hy. apply (inj Some) in Hy as <-. exists (unplug (devfn d) bus).
    split_and!; [done..|]. intros o m Hm Ho. cbn. rewrite list_lookup_insert_ne; [done|]. intros <-.
    destruct (to_dev _ _ _ Ht _ _ Hn) as (_&_&y&Hy&Hi). congruence.
  - rewrite lookup_insert_ne by done. exists y. split_and!; [done|by destruct y|done].
Qed.
Lemma unplug_inv i x : B' !! i = Some x →
  ∃ y, B !! i = Some y ∧ x = y <| devices := devices x |> ∧ length (devices x) = length (devices y) ∧
    ∀ o m, devices x !! o = Some (Some m) → devices y !! o = Some (Some m) ∧ (m ≠ n).
Proof using Ht Hn Hb.
  unfold B'. rewrite lookup_insert_Some. intros [[<- <-]|[Hne Hx]].
  - exists bus. split_and!; [done..|by apply length_insert|]. cbn.
    intros o m [(_&?&_)|[Hne Ho]]%list_lookup_insert_Some; [done|]. split; [done|]. intros ->.
    destruct (to_slot _ _ _ Ht _ _ _ _ Hb Ho) as (z&Hz&_&<-). congruence.
  - exists x. split_and!; [done|by destruct x|done|]. intros o m Ho. split; [done|]. intros ->.
    destruct (to_slot _ _ _ Ht _ _ _ _ Hx Ho) as (z&Hz&<-&_). congruence.
Qed.

Lemma topo_del : topo_ok (delete n D) B' k.
Proof using Ht Hn Hb Hns.
  pose proof unplug_old as Hold. pose proof unplug_inv as Hinv. destruct Ht as [Hdev Hbus Hslot Hpar Hsec Hch].
  assert (∀ j y p, B !! j = Some y → parent_dev y = Some p → p ≠ n) as Hpn.
  { intros j y p Hy Hp ->. destruct (Hpar _ _ _ Hy Hp) as (z&Hz&_&Hs). congruence. }
  split.
  - intros m x [Hne Hx]%lookup_delete_Some. destruct (Hdev _ _ Hx) as (Hst&Hfn&y&Hy&Hi). split_and!; [done|lia|lia|].
    destruct (Hold _ _ Hy) as (y'&Hy'&_&Hd). exists y'. split; [done|]. apply Hd; [done|done].
  - intros j x (y&Hy&E&Hl&_)%Hinv. destruct (Hbus _ _ Hy) as [[Hlen ? ? ?] ?]. split; [|lia].
    rewrite E. split; try done. cbn. by rewrite Hl.
  - intros j x i m (y&Hy&_&_&Hd)%Hinv Hi. destruct (Hd _ _ Hi) as [Hi' Hm].
    destruct (Hslot _ _ _ _ Hy Hi') as (z&Hz&?). exists z. by rewrite lookup_delete_ne.
  - intros j x p (y&Hy&E&_)%Hinv Hp. rewrite E in Hp. pose proof (Hpn _ _ _ Hy Hp).
    destruct (Hpar _ _ _ Hy Hp) as (z&Hz&?). exists z. by rewrite lookup_delete_ne.
  - intros m x j [Hne Hx]%lookup_delete_Some Hj. destruct (Hsec _ _ _ Hx Hj) as (y&Hy&Hp).
    destruct (Hold _ _ Hy) as (y'&Hy'&E&_). exists y'. split; [done|]. by rewrite E.
  - intros j x c (y&Hy&Ex&_)%Hinv. rewrite Ex. cbn. rewrite (Hch _ _ _ Hy). split.
    + intros (bc&p&z&Hc&Hp&Hz&<-). destruct (Hold _ _ Hc) as (bc'&Hc'&E&_). exists bc', p, z.
      rewrite lookup_delete_ne by (symmetry; by eapply Hpn). split; [done|]. by rewrite E.
    + intros (bc&p&z&(yc&Hyc&E&_)%Hinv&Hp&[_ Hz]%lookup_delete_Some&<-). rewrite E in Hp. by exists yc, p, z.
Qed.
End del_dev.

(** ** Adding a bridge *)

Abbreviation bridge0 := (registered (F := F) true).
Definition bridge_dev (b : nat) (fn : Z) (j : nat) : PCIDevice F :=
  bridge0 b fn <| config ::= bridge_init_config |> <| sec_bus := Some j |>.

Lemma bridge_static b fn : dev_static_ok (bridge0 b fn).
Proof.
  split; [split|done|].
  - split; [done|]. apply (bool_decide_unpack (bytes_ok _)). by vm_compute.
  - split; [done|]. apply (bool_decide_unpack (bytes_ok _)). by vm_compute.
  - intros i wm w1c Hw Hw1. assert (forallb (λ p, p.1 .& p.2 =? 0)
      (zip (wmask (bridge0 b fn)) (w1cmask (bridge0 b fn))) = true) as Hall by (by vm_compute).
    rewrite forallb_forall in Hall. apply Z.eqb_eq, (Hall (wm, w1c)), list_elem_of_In, (list_elem_of_lookup_2 _ i).
    apply lookup_zip_Some. done.
  - done.
  - done.
  - intros i r Hi. assert (r = Region 0 0 0 0 None) as ->; [|done].
    apply (list_elem_of_lookup_2 _ i) in Hi. by apply elem_of_replicate in Hi as [-> _].
Qed.

Lemma bridge_dyn b fn j : dev_dyn_ok (bridge_dev b fn j).
Proof.
  split; [done| |done|by intros _; vm_compute]. apply (bool_decide_unpack (bytes_ok _)). by vm_compute.
Qed.

Definition with_bridge s (n : nat) (fn : Z) (b : nat) (bus : PCIBus) map_irq_ : PciSys F :=
  s <| devs ::= <[n := bridge_dev b fn (nbuses s)]> |>
    <| buses ::= λ B, grow (<[b := plug n fn bus]> B) b (nbuses s) n (plug n fn bus) map_irq_ |>
    <| nbuses ::= S |>.

Section bridged.
Context s (n : nat) (fn : Z) (b : nat) (bus : PCIBus) (map_irq_ : Z → Z → Z).
Context (Hok : pci_ok s) (Hn : devs s !! n = None) (Hb : buses s !! b = Some bus) (Hfree : slot_free bus fn).
Context (Hmap : ∀ fn i, 0 ≤ fn < 256 → 0 ≤ i < 4 → 0 ≤ map_irq_ fn i < 4).
Let s' := with_bridge s n fn b bus map_irq_.

Lemma next_bus_unused : buses s !! nbuses s = None.
Proof using Hok.
  destruct (buses s !! nbuses s) as [y|] eqn:Hy; [|done]. destruct (ok_bus s (po_static _ Hok) _ _ Hy). lia.
Qed.

Lemma plugged_unused : <[b := plug n fn bus]> (buses s) !! nbuses s = None.
Proof using Hok Hb. pose proof next_bus_unused. rewrite lookup_insert_ne; [done|congruence]. Qed.

Lemma bridged_statics : statics_ok (statics s').
Proof using Hok Hn Hb Hfree Hmap.
  pose proof (slot_free_self _ _ Hfree) as Hself. destruct Hfree as (Hfn&_).
  set (d0 := d_static (bridge0 b fn)).
  assert (topo_ok (<[n := d0]> (statics s).1.1) (<[b := plug n fn (b_static bus)]> (statics s).1.2) (nbuses s)) as Ht.
  { change fn with (devfn d0). apply topo_add; [apply Hok|by cbn; rewrite lookup_fmap, Hn|by cbn; rewrite lookup_fmap, Hb|done..|apply dev_static_to, bridge_static|done]. }
  pose proof (topo_add_sec _ _ _ n (plug n fn (b_static bus)) d0 map_irq_ Ht (lookup_insert_eq _ _ _)
    (lookup_insert_eq _ _ _) eq_refl) as Ht'. unfold statics_ok, s', statics, with_bridge. cbn. cbn in Ht'.
  unfold grow in Ht' |- *. rewrite !fmap_insert. rewrite insert_insert_eq in Ht'. apply Ht'; [|done].
  intros i r Hi. assert (replicate PCI_NUM_REGIONS (Region (F := F) 0 0 0 0 None) !! i = Some r) as Hr by exact Hi.
  apply (list_elem_of_lookup_2 _ i), elem_of_replicate in Hr as [-> _]. reflexivity.
Qed.

Lemma bridged_old j x : buses s !! j = Some x → ∃ x', buses s' !! j = Some x' ∧ same_wiring x x'.
Proof using Hok Hb.
  intros Hx. pose proof plugged_unused as Hk.
  assert (∃ y, <[b := plug n fn bus]> (buses s) !! j = Some y ∧ same_wiring x y) as (y&Hy&Hxy).
  { destruct (decide (j = b)) as [->|]; [|by exists x; rewrite lookup_insert_ne].
    rewrite lookup_insert_eq. eexists. split; [done|]. rewrite Hb in Hx. by apply (inj Some) in Hx as <-. }
  destruct (grow_old _ b (nbuses s) n (plug n fn bus) map_irq_ (lookup_insert_eq _ _ _) Hk _ _ Hy) as (z&Hz&->).
  eexists. by split.
Qed.

Lemma bridged_inv j x' : buses s' !! j = Some x' →
  x' = sec_root n map_irq_ ∨ ∃ x, buses s !! j = Some x ∧ same_wiring x x'.
Proof using Hok Hb.
  intros Hx'. pose proof plugged_unused as Hk. pose proof (bridged_old j) as Hold.
  apply grow_inv in Hx' as [[_ ->]|(_&y&(x&Hx&E&_)%(plug_inv _ _ _ _ _ _ _ Hb)&->)]; [by left| |apply lookup_insert_eq|done].
  right. exists x. split; [done|]. rewrite E. done.
Qed.

Lemma bridged_ok : pci_ok s'.
Proof using Hok Hn Hb Hfree Hmap.
  split; [apply bridged_statics| |].
  - intros m x. cbn. rewrite lookup_insert_Some. intros [[<- <-]|[_ Hx]]; [apply bridge_dyn|by eapply Hok].
  - intros j x' [->|(x&Hx&_&_&_&->)]%bridged_inv; [constructor|]. by eapply Hok.
Qed.

Lemma bridged_extends : extends s s'.
Proof using Hok Hn Hb.
  split; [apply bridged_old|]. intros m x Hx. cbn. rewrite lookup_insert_ne; [done|]. intros <-. congruence.
Qed.
End bridged.

Lemma bridge_add_wp s n b bus fn map_irq_ :
  pci_ok s → buses s !! b = Some bus → slot_free bus fn →
  wp (put_pdev n (new_pci_device fn);; pci_qdev_init_bridge n b map_irq_)
    (λ r s', r = 0 ∧ s' = with_bridge s n fn b bus map_irq_) s.
Proof.
  intros Hok Hb Hfree. pose proof (next_bus_unused s Hok) as Hk.
  apply wp_bind, wp_put_pdev. unfold pci_qdev_init_bridge. apply wp_bind. eapply wp_pdev; [apply set_dev_eq|].
  apply wp_bind. eapply wp_mono; [apply (register_wp _ n b bus fn); [done|done|apply set_dev_eq]|].
  intros ok s1 [-> ->]. cbn [negb]. apply wp_bind. unfold pci_bridge_initfn.
  apply wp_bind, (wp_pdev n (bridge0 b fn)); [apply lookup_insert_eq|].
  apply wp_bind, wp_gets, wp_bind, wp_put_pdev, wp_bind, wp_modify, wp_bind.
  apply (wp_pbus _ (plug n fn bus)).
  { cbn. rewrite lookup_insert_ne by congruence. apply lookup_insert_eq. }
  apply wp_bind, wp_modify, wp_ret. cbn [Z.eqb negb]. apply wp_ret. split; [done|].
  unfold with_bridge, bridge_dev, set_dev, update. cbn [devs buses nbuses host]. rewrite !insert_insert_eq. reflexivity.
Qed.

Lemma bridged_coherent s n b bus fn map_irq_ :
  pci_ok s → devs s !! n = None → buses s !! b = Some bus → coherent s → coherent (with_bridge s n fn b bus map_irq_).
Proof.
  intros Hok Hn Hb Hc. apply (coherent_add s _ n (bridge_dev b fn (nbuses s)));
    [apply Hok|by apply bridged_extends|exact Hn|reflexivity|by vm_compute| |exact Hc].
  intros i r Hi Hz. by apply (list_elem_of_lookup_2 _ i), elem_of_replicate in Hi as [-> _].
Qed.

(** A machine that creates a bridge in a free slot of a well-formed PCI system
    succeeds and gets a new bus below the bridge, with a number no bus has and every
    slot of it free; nothing is mapped, no interrupt line changes, the devices
    that were there keep their state, and the larger tree of buses is well-formed
    with every region and every line as it has to be. *)
Theorem bridge_added s n b bus fn map_irq_ :
  pci_ok s → coherent s → irq_sync s → Z.of_nat (size (devs s)) + 1 < 2 ^ 28 →
  devs s !! n = None → buses s !! b = Some bus → slot_free bus fn →
  (∀ fn i, 0 ≤ fn < 256 → 0 ≤ i < 4 → 0 ≤ map_irq_ fn i < 4) →
  wp (put_pdev n (new_pci_device fn);; pci_qdev_init_bridge n b map_irq_) (λ r s', r = 0 ∧
    pci_ok s' ∧ coherent s' ∧ irq_sync s' ∧ host s' = host s ∧
    (∀ m, m ≠ n → devs s' !! m = devs s !! m) ∧
    ∃ d j sec, devs s' !! n = Some d ∧ dev_bus d = b ∧ devfn d = fn ∧ sec_bus d = Some j ∧
      buses s !! j = None ∧ buses s' !! j = Some sec ∧
      ∀ fn', 0 ≤ fn' < 256 → PCI_FUNC fn' = 0 → slot_free sec fn') s.
Proof.
  intros Hok Hc Hsync Hfew Hn Hb Hfree Hmap. eapply wp_mono; [by apply bridge_add_wp|]. intros r s' [-> ->].
  split_and!; [done|by apply bridged_ok|by apply bridged_coherent| |done|..].
  - apply (sync_add s _ n (bridge_dev b fn (nbuses s)));
      [apply Hok|by apply bridged_extends|exact Hn|reflexivity..| |exact Hfew|exact Hsync].
    intros j x Hx Hset. apply bridged_inv in Hx as [->|(y&Hy&_)]; [done|eauto|done|done].
  - intros m Hm. cbn. by rewrite lookup_insert_ne.
  - exists (bridge_dev b fn (nbuses s)), (nbuses s), (sec_root n map_irq_). split; [apply lookup_insert_eq|].
    split_and!; [done|done|done|by apply next_bus_unused| |].
    { change (grow (<[b := plug n fn bus]> (buses s)) b (nbuses s) n (plug n fn bus) map_irq_ !! nbuses s = Some (sec_root n map_irq_)).
      apply grow_new; [apply lookup_insert_eq|by apply plugged_unused]. }
    intros fn' Hfn' H0. by apply slot_free_empty.
Qed.

(** ** Removing a device *)

(** A smaller system: what every removal keeps. *)
Section removed.
Context s s' (n : nat) d (Hok : pci_ok s) (Hn : devs s !! n = Some d).
Context (Hs' : statics_ok (statics s')) (Ed : devs s' = delete n (devs s)).
Context (Hold : ∀ j x', buses s' !! j = Some x' → ∃ x, buses s !! j = Some x ∧ same_wiring x' x).

Lemma removed_extends : extends s' s.
Proof using Hold Ed. split; [exact Hold|]. intros m x. rewrite Ed. by intros [_ ?]%lookup_delete_Some. Qed.
Lemma removed_devs : devs s = <[n := d]> (devs s') ∧ devs s' !! n = None.
Proof using Hn Ed. rewrite Ed, insert_delete_id by done. split; [done|apply lookup_delete_eq]. Qed.

Lemma removed_ok : pci_ok s'.
Proof using Hok Hs' Ed Hold.
  split; [done| |].
  - intros m x. rewrite Ed. intros [_ Hx]%lookup_delete_Some. by eapply Hok.
  - intros j x' (x&Hx&_&_&_&<-)%Hold. by eapply Hok.
Qed.
Lemma removed_coherent : coherent s → coherent s'.
Proof using Hs' Ed Hold.
  intros Hc m x i r Hx Hi Hz. rewrite <- (ex_target s' s Hs' removed_extends m) by done.
  apply (Hc m x i r); [|done..]. by apply removed_extends.
Qed.
Lemma removed_count j k : line_count s j k = pins_on s j k n d + line_count s' j k.
Proof using Hn Hs' Ed Hold.
  destruct removed_devs as [E Hnone]. by apply (count_add s' s n d); [|apply removed_extends|..].
Qed.
Lemma removed_sync : irq_state d = 0 → irq_sync s → irq_sync s'.
Proof using Hn Hs' Ed Hold.
  intros Hq [Hc Hsz]. split.
  - intros j x' k Hx' Hset Hk. destruct (Hold _ _ Hx') as (x&Hx&_&Es&_&Ec). rewrite <- Ec.
    rewrite (Hc j x k Hx) by congruence. rewrite removed_count, pins_on_quiet by done. done.
  - destruct removed_devs as [E Hnone]. rewrite E, map_size_insert_None in Hsz by done. lia.
Qed.
(** A line on which the device had a raised pin counts one too many. *)
Lemma removed_stale i : irq_sync s → 0 ≤ i < 4 → pin_on d i = true →
  (∀ j x, buses s !! j = Some x → set_irq x = true → ∃ x', buses s' !! j = Some x' ∧ irq_count x' = irq_count x) →
  ∃ j k x' c, irq_route s n i = Some (j, k) ∧ buses s' !! j = Some x' ∧
    irq_count x' !! Z.to_nat k = Some c ∧ line_count s' j k < c.
Proof using Hok Hn Hs' Ed Hold.
  intros Hsync Hi Hon Hroots. pose proof (po_static _ Hok) as Hs.
  destruct (routes_total s n d i Hs Hn Hi) as (j&k&x&Hr&Hk&Hx&Hset).
  pose proof (irq_route_of s n i j k Hs Hr) as Hroute. destruct (Hroots j x Hx Hset) as (x'&Hx'&Ec).
  exists j, k, x', (line_count s j k). split_and!; [done|done| |].
  - rewrite Ec. by apply (is_count _ Hsync).
  - rewrite removed_count. pose proof (pins_on_raised s j k n d i Hi Hon Hroute). lia.
Qed.
End removed.

(** *** The system after [pci_unregister_device] *)

Definition released d (b : PCIBus) : list hostcall := concat (map (unregister_region b) (io_regions d)).

(** The bus of the device when its [exit] function has run. *)
Definition after_exit d (b : PCIBus) : PCIBus :=
  match sec_bus d with Some j => b <| child ::= filter (λ c, c ≠ j) |> | None => b end.
Definition without s (n : nat) d (bus : PCIBus) : PciSys F :=
  let bus' := after_exit d bus in
  s <| buses ::= λ B, <[dev_bus d := unplug (devfn d) bus']>
         (match sec_bus d with Some j => shrink B (dev_bus d) j bus | None => B end) |>
    <| devs ::= delete n |> <| host ::= λ h, h ++ released d bus |>.

(** There is nothing behind the device. *)
Definition nothing_behind s d : Prop :=
  ∀ j sec, sec_bus d = Some j → buses s !! j = Some sec → ∀ i m, devices sec !! i ≠ Some (Some m).

Section unregister.
Context s (n : nat) d (bus : PCIBus) (Hok : pci_ok s) (Hn : devs s !! n = Some d).
Context (Hb : buses s !! dev_bus d = Some bus) (Hbehind : nothing_behind s d).
Let s' := without s n d bus.

Lemma sec_other j : sec_bus d = Some j → dev_bus d ≠ j.
Proof using Hok Hn.
  intros Hj E. destruct (ok_sec s (po_static _ Hok) _ _ _ Hn Hj) as (x&Hx&Hp).
  destruct (ok_parent s (po_static _ Hok) _ _ _ Hx Hp) as (y&Hy&Hlt&_). rewrite Hn in Hy. apply (inj Some) in Hy as <-. lia.
Qed.

Lemma without_old j x' : buses s' !! j = Some x' → ∃ x, buses s !! j = Some x ∧ same_wiring x' x.
Proof using Hb.
  unfold s', without. cbn. rewrite lookup_insert_Some. intros [[<- <-]|[Hne Hx]].
  - exists bus. split; [done|]. unfold after_exit. by destruct (sec_bus d).
  - destruct (sec_bus d) as [i|]; [|by exists x'].
    apply shrink_inv in Hx as (_&y&Hy&->); [|done]. by exists y.
Qed.

Lemma without_other j x : buses s !! j = Some x → sec_bus d ≠ Some j → ∃ x', buses s' !! j = Some x' ∧ same_wiring x x'.
Proof using Hb.
  intros Hx Hj. unfold s', without. cbn. destruct (decide (j = dev_bus d)) as [->|Hne].
  - rewrite lookup_insert_eq. eexists. split; [done|]. rewrite Hb in Hx. apply (inj Some) in Hx as <-.
    unfold after_exit. by destruct (sec_bus d).
  - rewrite lookup_insert_ne by done. destruct (sec_bus d) as [i|]; [|by exists x].
    destruct (shrink_old (buses s) (dev_bus d) i bus Hb j x Hx) as (x'&Hx'&->); [congruence|]. by eexists.
Qed.

Lemma without_statics : statics_ok (statics s').
Proof using Hok Hn Hb Hbehind.
  pose proof (po_static _ Hok) as Hs. set (d0 := d_static d).
  assert ((statics s).1.1 !! n = Some d0) as Hn0 by (cbn; by rewrite lookup_fmap, Hn).
  assert ((statics s).1.2 !! dev_bus d0 = Some (b_static bus)) as Hb0 by (cbn; by rewrite lookup_fmap, Hb).
  unfold statics_ok, s', statics, without. cbn. rewrite fmap_delete, fmap_insert. unfold after_exit.
  destruct (sec_bus d) as [j|] eqn:Hj.
  - destruct (ok_sec s Hs _ _ _ Hn Hj) as (sec&Hsec&_).
    assert (∀ i m, devices (b_static sec) !! i ≠ Some (Some m)) as Hemp by (intros i m; apply (Hbehind j sec Hj Hsec)).
    pose proof (topo_del_sec _ _ _ n j (b_static bus) (b_static sec) d0 Hs Hn0 Hb0 Hj
      ltac:(cbn; by rewrite lookup_fmap, Hsec) Hemp) as Ht.
    assert (shrink (statics s).1.2 (dev_bus d0) j (b_static bus) !! dev_bus d0 =
      Some (b_static bus <| child ::= filter (λ c, c ≠ j) |>)) as Hb1.
    { unfold shrink. rewrite lookup_delete_ne by (symmetry; by apply sec_other). apply lookup_insert_eq. }
    pose proof (topo_del _ _ _ n _ (d0 <| sec_bus := None |>) Ht (lookup_insert_eq _ _ _) Hb1 eq_refl) as Ht'.
    rewrite delete_insert_eq in Ht'. unfold shrink in Ht' |- *. rewrite fmap_delete, fmap_insert. exact Ht'.
  - exact (topo_del _ _ _ n _ d0 Hs Hn0 Hb0 Hj).
Qed.

Lemma no_children j sec : sec_bus d = Some j → buses s !! j = Some sec → child sec = [].
Proof using Hok Hbehind.
  intros Hj Hsec. pose proof (po_static _ Hok) as Hs. destruct (child sec) as [|c l] eqn:Ec; [done|]. exfalso.
  assert (c ∈ child sec) as Hc by (rewrite Ec; apply list_elem_of_here).
  apply (ok_child s Hs _ _ _ Hsec) in Hc as (bc&p&z&_&_&Hz&Eb).
  destruct (ok_dev s Hs _ _ Hz) as (_&_&y&Hy&Hi). rewrite Eb, Hsec in Hy. apply (inj Some) in Hy as <-.
  by eapply (Hbehind j sec).
Qed.

(** What follows the [exit] function. *)
Lemma unregister_rest_wp x bus' : devs x !! n = Some d → buses x !! dev_bus d = Some bus' →
  wp (pci_unregister_io_regions n;; do_pci_unregister_device n;; mret 0) (λ r y, r = 0 ∧
    y = x <| host ::= λ h, h ++ released d bus' |> <| buses ::= <[dev_bus d := unplug (devfn d) bus']> |>
          <| devs ::= delete n |>) x.
Proof.
  intros Hd Hb'. apply wp_bind. unfold pci_unregister_io_regions. apply wp_bind, (wp_pdev n d); [done|].
  apply wp_bind, (wp_pbus _ bus'); [done|]. apply wp_modify, wp_bind. unfold do_pci_unregister_device.
  apply wp_bind, (wp_pdev n d); [done|]. apply wp_bind, (wp_pbus _ bus'); [done|].
  apply wp_bind, wp_modify, wp_modify, wp_ret. done.
Qed.

Lemma unregister_wp : wp (pci_unregister_device n) (λ r x, r = 0 ∧ x = s') s.
Proof using Hok Hn Hb Hbehind.
  unfold pci_unregister_device. apply wp_bind, (wp_pdev n d); [done|]. apply wp_bind.
  unfold s', without, after_exit. destruct (sec_bus d) as [j|] eqn:Hj.
  - destruct (ok_sec s (po_static _ Hok) _ _ _ Hn Hj) as (sec&Hsec&_).
    unfold pci_bridge_exitfn. apply wp_bind, (wp_pdev n d); [done|]. apply wp_bind, (wp_pbus _ sec); [done|].
    rewrite bool_decide_true by (by eapply no_children). cbn [negb]. apply wp_bind, (wp_pbus _ bus); [done|].
    apply wp_bind, wp_modify, wp_bind, wp_modify, wp_ret. cbn [Z.eqb negb].
    eapply wp_mono; [apply (unregister_rest_wp _ (bus <| child ::= filter (λ c, c ≠ j) |>)); [done|]|].
    + cbn. rewrite lookup_delete_ne by (symmetry; by apply sec_other). apply lookup_insert_eq.
    + intros r x [-> ->]. done.
  - apply wp_ret. cbn [Z.eqb negb]. eapply wp_mono; [by apply (unregister_rest_wp _ bus)|]. intros r x [-> ->]. done.
Qed.
End unregister.

(** C17: taking a device out of a well-formed system, a bridge only when nothing is behind
    it, succeeds: every region that was mapped is released, the slot is free, no
    other device changes, and the smaller tree of buses is well-formed with every
    region still where it has to be. When no pin of the device was raised, every
    interrupt line still counts right. *)
Theorem device_removed s n d :
  pci_ok s → coherent s → devs s !! n = Some d → nothing_behind s d →
  wp (pci_unregister_device n) (λ r s', r = 0 ∧ pci_ok s' ∧ coherent s' ∧
    devs s' = delete n (devs s) ∧ (irq_state d = 0 → irq_sync s → irq_sync s') ∧
    ∃ b b', buses s !! dev_bus d = Some b ∧ host s' = host s ++ concat (map (unregister_region b) (io_regions d)) ∧
      buses s' !! dev_bus d = Some b' ∧ devices b' !! Z.to_nat (devfn d) = Some None) s.
Proof.
  intros Hok Hc Hn Hbehind. destruct (ok_dev s (po_static _ Hok) _ _ Hn) as (_&Hfn&b&Hb&_).
  eapply wp_mono; [by eapply unregister_wp|]. intros r s' [-> ->].
  pose proof (without_statics s n d b Hok Hn Hb Hbehind) as Hs'. pose proof (without_old s n d b Hb) as Hold.
  split_and!; [done|by apply (removed_ok s _ n)|by apply (removed_coherent s _ n)|done|by apply (removed_sync s _ n d)|].
  eexists b, _. split_and!; [done|done|apply lookup_insert_eq|]. cbn. apply list_lookup_insert_eq.
  destruct (ok_bus s (po_static _ Hok) _ _ Hb) as [[Hl _ _ _] _]. unfold after_exit. destruct (sec_bus d); cbn; lia.
Qed.

(** Taking a device out while one of its pins is raised leaves the line counted:
    nothing lowers the pin, and since the device is gone nothing ever will. The
    count of the line is higher than the number of raised pins that are left. *)
Theorem unplug_stuck s n d irq :
  pci_ok s → irq_sync s → devs s !! n = Some d → sec_bus d = None → 0 ≤ irq < 4 → pin_on d irq = true →
  wp (pci_unregister_device n) (λ _ s', devs s' !! n = None ∧
    ∃ j k b c, irq_route s n irq = Some (j, k) ∧ buses s' !! j = Some b ∧
      irq_count b !! Z.to_nat k = Some c ∧ line_count s' j k < c) s.
Proof.
  intros Hok Hsync Hn Hsec Hi Hon. destruct (ok_dev s (po_static _ Hok) _ _ Hn) as (_&Hfn&b&Hb&_).
  assert (nothing_behind s d) as Hbehind by (intros j sec Hj; congruence).
  eapply wp_mono; [by eapply unregister_wp|]. intros r s' [_ ->].
  pose proof (without_statics s n d b Hok Hn Hb Hbehind) as Hs'. pose proof (without_old s n d b Hb) as Hold.
  split; [apply lookup_delete_eq|]. eapply removed_stale; try done.
  intros j x Hx _. destruct (without_other s n d b Hb j x Hx) as (x'&Hx'&_&_&_&Ec); [congruence|]. eauto.
Qed.
End hot.
