(* ===== verification/PciCap.v ===== *)
(** * Capabilities in the configuration space ([hw/pci.c], [hw/pci_bridge.c])

    A device describes optional features in records that it links into a list inside its
    configuration space. This file models finding space for a record, adding,
    finding and removing one, and shows that the list in the bytes is always the
    list the caller means. *)

From S2P Require Import Prelude Bytes Pci PciSpec PciInv PciCfg.

Abbreviation PCI_CAP_LIST_ID := 0.
Abbreviation PCI_CAP_LIST_NEXT := 1.
Abbreviation PCI_CAP_ID_SSVID := 0x0d.
Abbreviation PCI_SSVID_SIZEOF := 8.
Abbreviation PCI_SSVID_SVID := 4.
Abbreviation PCI_SSVID_SSID := 6.
Abbreviation ENOSPC := 28.
Abbreviation EINVAL := 22.

(** The walk over the list goes round at most once per byte. *)
Abbreviation CAP_FUEL := 256%nat.

Section cap.
Context {F : Type}.
Abbreviation PCIDev := (PCIDevice F).
Abbreviation CM := (M PCIDev).
Implicit Types (d : PCIDev) (c : list Z).

(** ** Space *)

Fixpoint find_space_loop (k : nat) (config_map : list Z) (i offset size : Z) : Z :=
  match k with
  | O => 0
  | S k =>
      if negb (pci_get_byte config_map i =? 0) then find_space_loop k config_map (i + 1) (i + 1) size
      else if i - offset + 1 =? size then offset
      else find_space_loop k config_map (i + 1) offset size
  end.
Definition pci_find_space d (size : Z) : Z :=
  find_space_loop (Z.to_nat (pci_config_size d - PCI_CONFIG_HEADER_SIZE)) (config_map d)
    PCI_CONFIG_HEADER_SIZE PCI_CONFIG_HEADER_SIZE size.

(** ** Searching *)

(** The capability and the byte that points to it; [None] does not end. *)
Fixpoint cap_loop (fuel : nat) c (cap_id prev : Z) : option (Z * Z) :=
  match fuel with
  | O => None
  | S fuel =>
      let next := pci_get_byte c prev in
      if next =? 0 then Some (next, prev)
      else if pci_get_byte c (next + PCI_CAP_LIST_ID) =? cap_id then Some (next, prev)
      else cap_loop fuel c cap_id (u8 (next + PCI_CAP_LIST_NEXT))
  end.
(** Without a list the second result is not set. *)
Definition pci_find_capability_list d (cap_id : Z) : option (Z * option Z) :=
  if negb (has_bits (pci_get_byte (config d) PCI_STATUS) PCI_STATUS_CAP_LIST) then Some (0, None) else
  r ← cap_loop CAP_FUEL (config d) cap_id PCI_CAPABILITY_LIST; Some (r.1, Some r.2).
Definition pci_find_capability d (cap_id : Z) : option Z := fst <$> pci_find_capability_list d cap_id.

(** ** Adding *)

Fixpoint reserved_loop (k : nat) (config_map : list Z) (i : Z) : CM bool :=
  match k with
  | O => mret false
  | S k => x ← oob (config_map !! Z.to_nat i); if negb (x =? 0) then mret true else reserved_loop k config_map (i + 1)
  end.

(** The record at [offset] becomes the first of the list, read-only and checked. *)
Definition link_dev (cap_id offset size : Z) (d : PCIDev) : PCIDev :=
  d <| config ::= λ c,
        let c := pci_set_byte c (offset + PCI_CAP_LIST_ID) cap_id in
        let c := pci_set_byte c (offset + PCI_CAP_LIST_NEXT) (pci_get_byte c PCI_CAPABILITY_LIST) in
        pci_set_byte c PCI_CAPABILITY_LIST offset |>
    <| config_map ::= λ c, set_bytes c offset cap_id (Z.to_nat size) |>
    <| wmask ::= λ c, set_bytes c offset 0 (Z.to_nat size) |>
    <| cmask ::= λ c, set_bytes c offset 0xff (Z.to_nat size) |>
    <| config ::= λ c, pci_set_byte c PCI_STATUS (pci_get_byte c PCI_STATUS .| PCI_STATUS_CAP_LIST) |>.
Definition link_capability (cap_id offset size : Z) : CM Z :=
  d ← gets id;
  if pci_config_size d <? offset + Z.max size 2 then fail OutOfBounds else
  modify (link_dev cap_id offset size);; mret offset.

Definition pci_add_capability (cap_id offset size : Z) : CM Z :=
  d ← gets id;
  if offset =? 0 then
    let offset := u8 (pci_find_space d size) in
    if offset =? 0 then mret (- ENOSPC) else link_capability cap_id offset size
  else
    taken ← reserved_loop (Z.to_nat size) (config_map d) offset;
    if (taken : bool) then mret (- EINVAL) else link_capability cap_id offset size.

Definition pci_bridge_ssvid_init (offset svid ssid : Z) : CM Z :=
  pos ← pci_add_capability PCI_CAP_ID_SSVID offset PCI_SSVID_SIZEOF;
  if pos <? 0 then mret pos else
  modify (λ d, d <| config ::= λ c,
    pci_set_word (pci_set_word c (pos + PCI_SSVID_SVID) svid) (pos + PCI_SSVID_SSID) ssid |>);;
  mret pos.

(** ** Removing *)

(** The status register announces no list when it is empty. *)
Definition clear_empty (c : list Z) : list Z :=
  if pci_get_byte c PCI_CAPABILITY_LIST =? 0
  then pci_set_byte c PCI_STATUS (pci_get_byte c PCI_STATUS .& .~ PCI_STATUS_CAP_LIST) else c.
Definition unlink_dev (prev offset size : Z) (d : PCIDev) : PCIDev :=
  d <| config ::= λ c, pci_set_byte c prev (pci_get_byte c (offset + PCI_CAP_LIST_NEXT)) |>
    <| wmask ::= λ c, set_bytes c offset 0xff (Z.to_nat size) |>
    <| w1cmask ::= λ c, set_bytes c offset 0 (Z.to_nat size) |>
    <| cmask ::= λ c, set_bytes c offset 0 (Z.to_nat size) |>
    <| config_map ::= λ c, set_bytes c offset 0 (Z.to_nat size) |>
    <| config ::= clear_empty |>.
Definition pci_del_capability (cap_id size : Z) : CM unit :=
  d ← gets id;
  match pci_find_capability_list d cap_id with
  | None => no_fuel
  | Some (offset, prev) =>
      if offset =? 0 then mret () else
      match prev with
      | None => fail UninitRead
      | Some prev =>
          if pci_config_size d <? offset + Z.max size 2 then fail OutOfBounds
          else modify (unlink_dev prev offset size)
      end
  end.

(** ** Free space *)

Definition free (m : list Z) (o size : Z) : Prop := ∀ x, o ≤ x < o + size → pci_get_byte m x = 0.

Lemma not_free m o size : ¬ free m o size → ∃ x, o ≤ x < o + size ∧ pci_get_byte m x ≠ 0.
Proof.
  intros Hn. destruct (decide (Forall (λ x, pci_get_byte m x = 0) (seqZ o size))) as [Hall|(x&Hx&Hnz)%not_Forall_Exists%Exists_exists].
  - destruct Hn. intros x Hx. rewrite Forall_forall in Hall. by apply Hall, list_elem_of_In, elem_of_seqZ.
  - exists x. split; [|done]. by apply list_elem_of_In, elem_of_seqZ in Hx.
  - intros x. apply _.
Qed.

Lemma find_space_loop_spec k m i offset size :
  PCI_CONFIG_HEADER_SIZE ≤ offset ≤ i → i < offset + size → free m offset (i - offset) →
  (∀ o, PCI_CONFIG_HEADER_SIZE ≤ o < offset → ¬ free m o size) →
  let r := find_space_loop k m i offset size in
  r = 0 ∧ (∀ o, PCI_CONFIG_HEADER_SIZE ≤ o → o + size ≤ i + Z.of_nat k → ¬ free m o size) ∨
  PCI_CONFIG_HEADER_SIZE ≤ r ∧ r + size ≤ i + Z.of_nat k ∧ free m r size ∧
    ∀ o, PCI_CONFIG_HEADER_SIZE ≤ o < r → ¬ free m o size.
Proof.
  revert i offset. induction k as [|k IH]; intros i offset Ho Hi Hf Hno; cbn [find_space_loop].
  - left. split; [done|]. intros o Ho1 Ho2. apply Hno. lia.
  - destruct (Z.eqb_spec (pci_get_byte m i) 0) as [E|E]; cbn [negb].
    + assert (free m offset (i - offset + 1)) as Hf'.
      { intros x Hx. destruct (decide (x = i)) as [->|]; [done|]. apply Hf. lia. }
      destruct (Z.eqb_spec (i - offset + 1) size) as [<-|Hne].
      * right. split_and!; [lia|lia|done|done].
      * destruct (IH (i + 1) offset) as [[-> Hr]|(H1&H2&H3&H4)]; [lia|lia|by replace (i + 1 - offset) with (i - offset + 1) by lia|done|left|right].
        -- split; [done|]. intros o ? ?. apply Hr; lia.
        -- split_and!; [lia|lia|done..].
    + destruct (IH (i + 1) (i + 1)) as [[-> Hr]|(H1&H2&H3&H4)]; [lia|lia|intros x; lia| |left|right].
      * intros o Ho1 Hf1. destruct (decide (o < offset)) as [|]; [by apply (Hno o); [lia|]|].
        apply E, Hf1. lia.
      * split; [done|]. intros o ? ?. apply Hr; lia.
      * split_and!; [lia|lia|done..].
Qed.

Lemma find_space_spec d size :
  1 ≤ size → let r := pci_find_space d size in
  r = 0 ∧ (∀ o, PCI_CONFIG_HEADER_SIZE ≤ o → o + size ≤ pci_config_size d → ¬ free (config_map d) o size) ∨
  PCI_CONFIG_HEADER_SIZE ≤ r ∧ r + size ≤ pci_config_size d ∧ free (config_map d) r size ∧
    ∀ o, PCI_CONFIG_HEADER_SIZE ≤ o < r → ¬ free (config_map d) o size.
Proof.
  intros Hs. pose proof (config_size_pos d) as Hsz. unfold pci_find_space.
  pose proof (find_space_loop_spec (Z.to_nat (pci_config_size d - PCI_CONFIG_HEADER_SIZE)) (config_map d)
    PCI_CONFIG_HEADER_SIZE PCI_CONFIG_HEADER_SIZE size) as Hl.
  replace (PCI_CONFIG_HEADER_SIZE + Z.of_nat (Z.to_nat (pci_config_size d - PCI_CONFIG_HEADER_SIZE)))
    with (pci_config_size d) in Hl by lia.
  apply Hl; [lia|lia|intros x; lia|intros o; lia].
Qed.

(** ** Lists of capabilities *)

Record capability := Cap { c_off : Z; c_id : Z; c_size : Z }.

(** The byte at [loc] starts the list [l]. *)
Fixpoint chain c (loc : Z) (l : list capability) : Prop :=
  match l with
  | [] => pci_get_byte c loc = 0
  | x :: l => pci_get_byte c loc = c_off x ∧ pci_get_byte c (c_off x) = c_id x ∧ chain c (c_off x + 1) l
  end.
(** The bytes that make the list, after the first. *)
Definition cells (l : list capability) : list Z := concat (map (λ x, [c_off x; c_off x + 1]) l).
(** The byte that points to what follows [l]. *)
Definition last_loc (loc : Z) (l : list capability) : Z := foldl (λ _ x, c_off x + 1) loc l.

Lemma chain_move c c' loc loc' l :
  chain c loc l → pci_get_byte c' loc' = pci_get_byte c loc →
  (∀ x, x ∈ cells l → pci_get_byte c' x = pci_get_byte c x) → chain c' loc' l.
Proof.
  revert loc loc'. induction l as [|x l IH]; intros loc loc'; cbn [chain].
  - by intros -> ->.
  - intros (E1&E2&Hl) E Hc. unfold cells in *. cbn in Hc. split_and!; [congruence| |].
    + rewrite Hc by (apply list_elem_of_here). done.
    + apply (IH (c_off x + 1)); [done| |].
      * apply Hc. right. apply list_elem_of_here.
      * intros y Hy. apply Hc. by do 2 right.
Qed.

Lemma get_set_byte c o x v : 0 ≤ o < Z.of_nat (length c) → 0 ≤ x → 0 ≤ v < 256 →
  pci_get_byte (pci_set_byte c o v) x = if decide (x = o) then v else pci_get_byte c x.
Proof.
  intros Ho Hx Hv. unfold pci_get_byte, pci_set_byte. case_decide as E.
  - rewrite E, list_lookup_insert_eq by lia. cbn. by rewrite u8_small.
  - by rewrite list_lookup_insert_ne by lia.
Qed.

Lemma last_loc_in loc l : last_loc loc l ∈ loc :: cells l.
Proof.
  revert loc. induction l as [|x l IH]; intros loc; [apply list_elem_of_here|].
  change (cells (x :: l)) with (c_off x :: (c_off x + 1) :: cells l). do 2 right. apply (IH (c_off x + 1)).
Qed.
Lemma cells_app l1 l2 : cells (l1 ++ l2) = cells l1 ++ cells l2.
Proof. unfold cells. by rewrite map_app, concat_app. Qed.

(** Unlinking what the byte [last_loc loc l1] points to. *)
Lemma chain_unlink c loc l1 x l2 v :
  chain c loc (l1 ++ x :: l2) → NoDup (loc :: cells (l1 ++ x :: l2)) →
  (∀ y, y ∈ loc :: cells (l1 ++ x :: l2) → 0 ≤ y < Z.of_nat (length c)) →
  v = pci_get_byte c (c_off x + 1) → 0 ≤ v < 256 →
  chain (pci_set_byte c (last_loc loc l1) v) loc (l1 ++ l2).
Proof.
  revert loc. induction l1 as [|y l1 IH]; intros loc; cbn [app chain].
  - intros (_&_&Hl) Hnd Hin -> Hv. change (cells (x :: l2)) with (c_off x :: (c_off x + 1) :: cells l2) in *.
    apply list.NoDup_cons in Hnd as [Hloc _].
    assert (0 ≤ loc < Z.of_nat (length c)) by (apply Hin, list_elem_of_here).
    eapply chain_move; [exact Hl| |].
    + change (last_loc loc []) with loc. rewrite get_set_byte by lia. by rewrite decide_True.
    + intros y Hy. assert (0 ≤ y < Z.of_nat (length c)) by (apply Hin; by do 3 right).
      change (last_loc loc []) with loc. rewrite get_set_byte by lia. rewrite decide_False; [done|].
      intros ->. apply Hloc. by do 2 right.
  - intros (E1&E2&Hl) Hnd Hin Hv Hr. change (last_loc loc (y :: l1)) with (last_loc (c_off y + 1) l1).
    change (cells (y :: l1 ++ x :: l2)) with (c_off y :: (c_off y + 1) :: cells (l1 ++ x :: l2)) in *.
    apply list.NoDup_cons in Hnd as [Hloc Hnd]. pose proof Hnd as Hnd1.
    apply list.NoDup_cons in Hnd1 as [Hoff Hnd1].
    assert (last_loc (c_off y + 1) l1 ∈ c_off y + 1 :: cells (l1 ++ x :: l2)) as Hprev.
    { pose proof (last_loc_in (c_off y + 1) l1) as Hp. rewrite cells_app. rewrite app_comm_cons. apply elem_of_app. by left. }
    assert (0 ≤ last_loc (c_off y + 1) l1 < Z.of_nat (length c)) by (apply Hin; by do 2 right).
    assert (0 ≤ loc < Z.of_nat (length c)) by (apply Hin, list_elem_of_here).
    assert (0 ≤ c_off y < Z.of_nat (length c)) by (apply Hin; right; apply list_elem_of_here).
    split_and!.
    + rewrite get_set_byte by lia. rewrite decide_False; [done|]. intros ->. apply Hloc. by right.
    + rewrite get_set_byte by lia. rewrite decide_False; [done|]. intros E. apply Hoff. rewrite E at 1. exact Hprev.
    + apply IH; [done..| |done|done]. intros z Hz. apply Hin. by do 2 right.
Qed.

(** *** Searching *)

Fixpoint first_cap (id loc : Z) (l : list capability) : Z * Z :=
  match l with
  | [] => (0, loc)
  | x :: l => if c_id x =? id then (c_off x, loc) else first_cap id (c_off x + 1) l
  end.

Lemma cap_loop_chain fuel c id loc l :
  chain c loc l → Forall (λ x, 0 < c_off x < 255) l → (length l < fuel)%nat →
  cap_loop fuel c id loc = Some (first_cap id loc l).
Proof.
  revert loc l. induction fuel as [|fuel IH]; intros loc l Hc Hl Hf; [lia|]. cbn [cap_loop].
  destruct l as [|x l]; cbn [chain first_cap length] in *.
  - by rewrite Hc.
  - destruct Hc as (E1&E2&Hc). apply Forall_cons_iff in Hl as [Hx Hl]. rewrite E1.
    destruct (Z.eqb_spec (c_off x) 0); [lia|]. rewrite Z.add_0_r, E2. destruct (c_id x =? id); [done|].
    rewrite u8_small by lia. apply IH; [done|done|lia].
Qed.

Lemma first_cap_app id loc l1 x l2 :
  Forall (λ y, c_id y ≠ id) l1 → c_id x = id → first_cap id loc (l1 ++ x :: l2) = (c_off x, last_loc loc l1).
Proof.
  revert loc. induction l1 as [|y l1 IH]; intros loc Hl Hx; cbn [app first_cap].
  - by rewrite Hx, Z.eqb_refl.
  - apply Forall_cons_iff in Hl as [Hy Hl]. destruct (Z.eqb_spec (c_id y) id); [done|]. by apply IH.
Qed.

(** *** The invariant *)

Definition covers (x : capability) (o : Z) : Prop := c_off x ≤ o < c_off x + c_size x.

(** The list of the capabilities of the device: they are apart, in the first 256
    bytes, and exactly their bytes are reserved. *)
Record caps_ok d (l : list capability) : Prop := {
  ck_len : Forall (λ b : list Z, length b = Z.to_nat (pci_config_size d)) [config d; config_map d; wmask d; w1cmask d; cmask d];
  ck_bytes : bytes_ok (config d);
  ck_chain : chain (config d) PCI_CAPABILITY_LIST l;
  ck_cap x : x ∈ l → PCI_CONFIG_HEADER_SIZE ≤ c_off x ∧ 2 ≤ c_size x ∧ c_off x + c_size x ≤ 256 ∧ 0 < c_id x < 256;
  ck_map o : PCI_CONFIG_HEADER_SIZE ≤ o < pci_config_size d → pci_get_byte (config_map d) o ≠ 0 ↔ ∃ x, x ∈ l ∧ covers x o;
  ck_apart l1 x l2 y o : l = l1 ++ x :: l2 → y ∈ l1 ++ l2 → covers x o → ¬ covers y o;
  ck_status : l ≠ [] → has_bits (pci_get_byte (config d) PCI_STATUS) PCI_STATUS_CAP_LIST = true;
}.

Lemma elem_cells o l : o ∈ cells l → ∃ x, x ∈ l ∧ (o = c_off x ∨ o = c_off x + 1).
Proof.
  induction l as [|x l IH]; [by intros []%not_elem_of_nil|].
  change (cells (x :: l)) with (c_off x :: (c_off x + 1) :: cells l).
  intros [->|[->|(y&Hy&E)%IH]%elem_of_cons]%elem_of_cons; [exists x|exists x|exists y]; split; auto; by (left || right).
Qed.

Lemma get_set_bytes c o v n x : 0 ≤ o → 0 ≤ x → (Z.to_nat o + n ≤ length c)%nat →
  pci_get_byte (set_bytes c o v n) x = if decide (o ≤ x < o + Z.of_nat n) then v else pci_get_byte c x.
Proof.
  intros Ho Hx Hn. case_decide as E.
  - unfold pci_get_byte, set_bytes. rewrite lookup_app_r by (rewrite length_take; lia).
    rewrite lookup_app_l by (rewrite length_take, length_replicate; lia).
    rewrite length_take. rewrite lookup_replicate_2 by lia. done.
  - unfold pci_get_byte. f_equal. symmetry. apply set_bytes_same; [done|done|done|lia].
Qed.

Section caps.
Context d (l : list capability) (Hd : caps_ok d l).

Lemma caps_len c : c ∈ [config d; config_map d; wmask d; w1cmask d; cmask d] → length c = Z.to_nat (pci_config_size d).
Proof using Hd. pose proof (ck_len _ _ Hd) as Hl. rewrite Forall_forall in Hl. intros Hc. by apply Hl, list_elem_of_In. Qed.

Lemma cells_range o : o ∈ cells l → PCI_CONFIG_HEADER_SIZE ≤ o < 256.
Proof using Hd. intros (x&Hx&E)%elem_cells. pose proof (ck_cap _ _ Hd x Hx). lia. Qed.

Lemma cells_nodup : NoDup (PCI_CAPABILITY_LIST :: cells l).
Proof using Hd.
  apply list.NoDup_cons. split; [intros ?%cells_range; lia|].
  assert (∀ l0 l', l = l0 ++ l' → NoDup (cells l')) as Hgen; [|by apply (Hgen [] l)].
  intros l0 l'. revert l0. induction l' as [|x l' IH]; intros l0 El; [constructor|].
  change (cells (x :: l')) with (c_off x :: (c_off x + 1) :: cells l').
  assert (x ∈ l) as Hx by (rewrite El; apply elem_of_app; right; apply list_elem_of_here).
  pose proof (ck_cap _ _ Hd x Hx) as Hxr.
  assert (∀ o, o ∈ cells l' → ¬ covers x o) as Hno.
  { intros o (y&Hy&E)%elem_cells Hc. assert (y ∈ l0 ++ l') as Hy' by (apply elem_of_app; by right).
    assert (y ∈ l) as Hyl by (rewrite El; apply elem_of_app; right; by right).
    apply (ck_apart _ _ Hd l0 x l' y o El Hy' Hc). pose proof (ck_cap _ _ Hd y Hyl). unfold covers. lia. }
  apply list.NoDup_cons. split.
  { intros [|Hin]%elem_of_cons; [lia|]. apply (Hno _ Hin). unfold covers. lia. }
  apply list.NoDup_cons. split; [intros Hin; apply (Hno _ Hin); unfold covers; lia|].
  apply (IH (l0 ++ [x])). by rewrite <- app_assoc.
Qed.

Lemma caps_few : (length l < CAP_FUEL)%nat.
Proof using Hd.
  pose proof cells_nodup as [_ Hnd]%list.NoDup_cons.
  assert (length (cells l) ≤ length (seqZ 0 256))%nat as Hlen.
  { apply submseteq_length, NoDup_submseteq; [done|]. intros o Ho%cells_range. apply elem_of_seqZ. lia. }
  assert (∀ l, length (cells l) = 2 * length l)%nat as E.
  { intros k. induction k as [|x k IH]; [done|]. change (cells (x :: k)) with (c_off x :: (c_off x + 1) :: cells k). cbn [length]. lia. }
  rewrite E, length_seqZ in Hlen. lia.
Qed.

Lemma find_caps id : pci_find_capability_list d id =
  if has_bits (pci_get_byte (config d) PCI_STATUS) PCI_STATUS_CAP_LIST
  then Some ((first_cap id PCI_CAPABILITY_LIST l).1, Some (first_cap id PCI_CAPABILITY_LIST l).2) else Some (0, None).
Proof using Hd.
  unfold pci_find_capability_list. destruct (has_bits _ _); [|done]. cbn [negb].
  rewrite (cap_loop_chain _ _ _ _ l); [done|apply Hd| |apply caps_few].
  apply Forall_forall. intros x Hx%list_elem_of_In. pose proof (ck_cap _ _ Hd x Hx). lia.
Qed.
End caps.

Lemma byte_range c x : bytes_ok c → 0 ≤ pci_get_byte c x < 256.
Proof.
  intros Hc. unfold pci_get_byte. destruct (c !! Z.to_nat x) as [v|] eqn:E; [|done].
  exact (Forall_lookup_1 _ _ _ _ Hc E).
Qed.

(** *** One more *)

Section link.
Context d (l : list capability) (id off size : Z) (Hd : caps_ok d l).
Context (Hid : 0 < id < 256) (Hoff : PCI_CONFIG_HEADER_SIZE ≤ off) (Hsize : 2 ≤ size) (Hend : off + size ≤ 256).
Context (Hfree : free (config_map d) off size).
Let d' := link_dev id off size d.

(** The bytes that change. *)
Lemma linked_byte x : 0 ≤ x → pci_get_byte (config d') x =
  if decide (x = PCI_STATUS) then pci_get_byte (config d) PCI_STATUS .| PCI_STATUS_CAP_LIST
  else if decide (x = PCI_CAPABILITY_LIST) then off
  else if decide (x = off + 1) then pci_get_byte (config d) PCI_CAPABILITY_LIST
  else if decide (x = off) then id else pci_get_byte (config d) x.
Proof using Hd Hid Hoff Hsize Hend.
  intros Hx. pose proof (config_size_pos d). pose proof (caps_len d l Hd (config d) ltac:(left)) as Hlen.
  pose proof (byte_range (config d) PCI_CAPABILITY_LIST (ck_bytes _ _ Hd)).
  pose proof (byte_range (config d) PCI_STATUS (ck_bytes _ _ Hd)).
  assert (0 ≤ pci_get_byte (config d) PCI_STATUS .| PCI_STATUS_CAP_LIST < 2 ^ 8) by (apply lor_in_w; unfold in_w; lia).
  set (c := config d) in *. set (c1 := pci_set_byte c off id). set (c2 := pci_set_byte c1 (off + 1) (pci_get_byte c1 PCI_CAPABILITY_LIST)).
  set (c3 := pci_set_byte c2 PCI_CAPABILITY_LIST off).
  replace (config d') with (pci_set_byte c3 PCI_STATUS (pci_get_byte c3 PCI_STATUS .| PCI_STATUS_CAP_LIST))
    by (unfold c3, c2, c1, d', link_dev; cbn [config update]; by rewrite Z.add_0_r).
  assert (∀ y, 0 ≤ y → pci_get_byte c1 y = if decide (y = off) then id else pci_get_byte c y) as E1.
  { intros y Hy. apply get_set_byte; lia. }
  assert (pci_get_byte c1 PCI_CAPABILITY_LIST = pci_get_byte c PCI_CAPABILITY_LIST) as El.
  { rewrite E1 by lia. by rewrite decide_False by lia. }
  assert (∀ y, 0 ≤ y → pci_get_byte c3 y = if decide (y = PCI_CAPABILITY_LIST) then off
    else if decide (y = off + 1) then pci_get_byte c PCI_CAPABILITY_LIST else pci_get_byte c1 y) as E3.
  { intros y Hy. unfold c3, c2. rewrite El, !get_set_byte; unfold c1; rewrite ?length_set_byte; done || lia. }
  assert (pci_get_byte c3 PCI_STATUS = pci_get_byte c PCI_STATUS) as Es.
  { rewrite E3, E1 by lia. by rewrite !decide_False by lia. }
  rewrite Es, get_set_byte; [|unfold c3, c2, c1; rewrite !length_set_byte; lia|done|done].
  case_decide; [done|]. rewrite E3, E1 by done. done.
Qed.

Lemma linked_free x o : x ∈ l → covers x o → ¬ (off ≤ o < off + size).
Proof using Hd Hoff Hend Hfree.
  intros Hx Ho Hin. pose proof (config_size_pos d). apply Hfree in Hin as E. revert E.
  apply (ck_map _ _ Hd); [lia|]. eauto.
Qed.

Lemma linked_ok : caps_ok d' (Cap off id size :: l).
Proof using Hd Hid Hoff Hsize Hend Hfree.
  pose proof (config_size_pos d) as Hsz. pose proof (caps_len d l Hd) as Hlen. split.
  - change (pci_config_size d') with (pci_config_size d). unfold d', link_dev. cbn [config config_map wmask w1cmask cmask update].
    repeat apply List.Forall_cons; try apply List.Forall_nil; rewrite ?length_set_byte, ?length_set_bytes;
      rewrite ?Hlen by set_solver; lia || apply Hlen; set_solver.
  - unfold d', link_dev. cbn [config update]. repeat apply set_byte_ok. apply Hd.
  - cbn [chain c_off c_id]. rewrite !linked_byte by lia. split_and!.
    + repeat (rewrite decide_False by lia). by rewrite decide_True.
    + repeat (rewrite decide_False by lia). by rewrite decide_True.
    + apply (chain_move (config d) _ PCI_CAPABILITY_LIST); [apply Hd| |].
      * rewrite linked_byte by lia. rewrite decide_False, decide_False, decide_True by lia. done.
      * intros x Hx. pose proof (cells_range d l Hd x Hx). rewrite linked_byte by lia.
        apply elem_cells in Hx as (y&Hy&E). pose proof (ck_cap _ _ Hd y Hy).
        assert (covers y x) as Hc by (unfold covers; lia). pose proof (linked_free y x Hy Hc).
        by repeat (rewrite decide_False by lia).
  - intros x [->|Hx]%elem_of_cons; [cbn; lia|]. by apply Hd.
  - intros o Ho. change (pci_config_size d') with (pci_config_size d) in Ho. unfold d', link_dev. cbn [config_map update].
    rewrite get_set_bytes by (rewrite ?Hlen by set_solver; lia). rewrite Z2Nat.id by lia. case_decide as E.
    + split; [|lia]. intros _. exists (Cap off id size). split; [left|done].
    + rewrite (ck_map _ _ Hd o Ho). split; intros (x&Hx&Hc); [exists x; split; [by right|done]|].
      apply elem_of_cons in Hx as [->|Hx]; [by destruct E|by exists x].
  - intros l1 x l2 y o El Hy Hx Hc. destruct l1 as [|z l1]; cbn in El; injection El as <- El.
    + eapply linked_free; [|exact Hc|exact Hx]. by rewrite El.
    + cbn in Hy. apply elem_of_cons in Hy as [->|Hy].
      * eapply linked_free; [|exact Hx|exact Hc]. rewrite El. apply elem_of_app. right. apply list_elem_of_here.
      * by eapply (ck_apart _ _ Hd l1 x l2 y o).
  - intros _. rewrite linked_byte by lia. rewrite decide_True by done. apply has_bits_true.
    intros E. apply (f_equal (λ z, Z.testbit z 4)) in E. by rewrite Z.land_spec, Z.lor_spec, orb_true_r in E.
Qed.
End link.

(** *** One less *)

Lemma length_clear_empty c : length (clear_empty c) = length c.
Proof. unfold clear_empty. case_match; [apply length_set_byte|done]. Qed.
Lemma get_clear_empty c y : 0 ≤ y → y ≠ PCI_STATUS → pci_get_byte (clear_empty c) y = pci_get_byte c y.
Proof.
  intros Hy Hne. unfold clear_empty. case_match; [|done]. unfold pci_get_byte at 1.
  by rewrite <- (set_byte_same c PCI_STATUS) by (done || lia).
Qed.

(** A splitting of the shorter list comes from one of the longer. *)
Lemma split_longer l1 (x : capability) l2 k1 y k2 z :
  l1 ++ l2 = k1 ++ y :: k2 → z ∈ k1 ++ k2 → ∃ m1 m2, l1 ++ x :: l2 = m1 ++ y :: m2 ∧ z ∈ m1 ++ m2.
Proof.
  intros (m&[[-> Ek]|[-> ->]])%app_eq_app Hz.
  - destruct m as [|w m]; cbn in Ek.
    + exists (k1 ++ [x]), k2. rewrite Ek, <- !app_assoc. split; [by rewrite ?app_nil_r|]. set_solver.
    + injection Ek as <- ->. exists k1, (m ++ x :: l2). rewrite <- !app_assoc. split; [done|]. set_solver.
  - exists (l1 ++ x :: m), k2. rewrite <- !app_assoc. split; [done|]. set_solver.
Qed.

Section unlink.
Context d (l1 : list capability) (x : capability) (l2 : list capability) (Hd : caps_ok d (l1 ++ x :: l2)).
Let prev := last_loc PCI_CAPABILITY_LIST l1.
Let d' := unlink_dev prev (c_off x) (c_size x) d.
Let c1 := pci_set_byte (config d) prev (pci_get_byte (config d) (c_off x + 1)).

Lemma unlink_in : x ∈ l1 ++ x :: l2.
Proof. apply elem_of_app. right. apply list_elem_of_here. Qed.
Lemma unlink_sub y : y ∈ l1 ++ l2 → y ∈ l1 ++ x :: l2.
Proof. rewrite !elem_of_app, elem_of_cons. tauto. Qed.
Lemma unlink_chain : chain c1 PCI_CAPABILITY_LIST (l1 ++ l2).
Proof using Hd.
  pose proof (config_size_pos d). apply (chain_unlink _ _ l1 x); [apply Hd|by apply (cells_nodup d)| |done|apply byte_range, Hd].
  rewrite (caps_len d _ Hd) by set_solver. intros y [->|Hy%(cells_range d _ Hd)]%elem_of_cons; lia.
Qed.

(** The list is empty exactly when the register says so. *)
Lemma unlink_empty : pci_get_byte c1 PCI_CAPABILITY_LIST = 0 ↔ l1 ++ l2 = [].
Proof using Hd.
  pose proof unlink_chain as Hc. destruct (l1 ++ l2) as [|y k] eqn:Ek; [done|]. destruct Hc as (->&_&_).
  assert (y ∈ l1 ++ l2) as Hy by (rewrite Ek; apply list_elem_of_here).
  pose proof (ck_cap _ _ Hd y (unlink_sub y Hy)). split; [lia|done].
Qed.

Lemma unlink_status : pci_get_byte c1 PCI_STATUS = pci_get_byte (config d) PCI_STATUS.
Proof using Hd.
  assert (PCI_CAPABILITY_LIST ≤ prev) as Hp.
  { assert (prev ∈ PCI_CAPABILITY_LIST :: cells l1) as Hin by apply last_loc_in. apply elem_of_cons in Hin as [->|Hin]; [done|].
    assert (prev ∈ cells (l1 ++ x :: l2)) as Hr by (rewrite cells_app; apply elem_of_app; by left).
    apply (cells_range d _ Hd) in Hr. lia. }
  unfold pci_get_byte, c1. by rewrite <- (set_byte_same (config d) prev) by lia.
Qed.

Lemma unlinked_ok : caps_ok d' (l1 ++ l2).
Proof using Hd.
  pose proof (config_size_pos d) as Hsz. pose proof (caps_len d _ Hd) as Hlen. pose proof (ck_cap _ _ Hd x unlink_in) as Hx.
  split.
  - change (pci_config_size d') with (pci_config_size d). unfold d', unlink_dev. cbn [config config_map wmask w1cmask cmask update].
    repeat apply List.Forall_cons; try apply List.Forall_nil; rewrite ?length_clear_empty, ?length_set_byte, ?length_set_bytes;
      rewrite ?Hlen by set_solver; lia || apply Hlen; set_solver.
  - unfold d', unlink_dev. cbn [config update]. unfold clear_empty. case_match; repeat apply set_byte_ok; apply Hd.
  - eapply chain_move; [apply unlink_chain|by apply get_clear_empty|].
    intros y (z&Hz&E)%elem_cells. pose proof (ck_cap _ _ Hd z (unlink_sub z Hz)). apply get_clear_empty; lia.
  - intros y Hy. apply Hd, unlink_sub, Hy.
  - intros o Ho. change (pci_config_size d') with (pci_config_size d) in Ho. unfold d', unlink_dev. cbn [config_map update].
    rewrite get_set_bytes by (rewrite ?Hlen by set_solver; lia). rewrite Z2Nat.id by lia. case_decide as E.
    + split; [done|]. intros (y&Hy&Hc). by destruct (ck_apart _ _ Hd l1 x l2 y o eq_refl Hy E).
    + rewrite (ck_map _ _ Hd o Ho). split; intros (y&Hy&Hc); exists y; (split; [|done]); [|by apply unlink_sub].
      revert Hy. rewrite !elem_of_app, elem_of_cons. intros [?|[->|?]]; auto; by destruct E.
  - intros k1 y k2 z o El Hz Hy Hc. destruct (split_longer l1 x l2 k1 y k2 z El Hz) as (m1&m2&Em&Hzm).
    by eapply (ck_apart _ _ Hd m1 y m2 z o).
  - intros Hne. change (has_bits (pci_get_byte (clear_empty c1) PCI_STATUS) PCI_STATUS_CAP_LIST = true). unfold clear_empty.
    destruct (Z.eqb_spec (pci_get_byte c1 PCI_CAPABILITY_LIST) 0) as [E|_]; [by destruct Hne; apply unlink_empty|].
    rewrite unlink_status. apply (ck_status _ _ Hd). by destruct l1.
Qed.

Lemma unlinked_off : l1 ++ l2 = [] → has_bits (pci_get_byte (config d') PCI_STATUS) PCI_STATUS_CAP_LIST = false.
Proof using Hd.
  intros E. change (config d') with (clear_empty c1). unfold clear_empty. rewrite (proj2 unlink_empty E). cbn [Z.eqb].
  pose proof (config_size_pos d). pose proof (byte_range (config d) PCI_STATUS (ck_bytes _ _ Hd)).
  pose proof (land_le_l (pci_get_byte (config d) PCI_STATUS) (.~ PCI_STATUS_CAP_LIST)).
  rewrite unlink_status, get_set_byte, decide_True by
    (done || unfold c1; rewrite ?length_set_byte, ?(caps_len d _ Hd (config d) ltac:(left)); lia).
  apply has_bits_false. rewrite <- Z.land_assoc. change (Z.lnot PCI_STATUS_CAP_LIST .& PCI_STATUS_CAP_LIST) with 0. apply Z.land_0_r.
Qed.
End unlink.

(** ** Adding and removing *)

Lemma reserved_wp k m i d :
  0 ≤ i → (Z.to_nat i + k ≤ length m)%nat →
  wp (reserved_loop k m i) (λ r d', d' = d ∧ (r = false ↔ free m i (Z.of_nat k))) d.
Proof.
  revert i. induction k as [|k IH]; intros i Hi Hk; cbn [reserved_loop].
  - apply wp_ret. split; [done|]. split; [|done]. intros _ x. lia.
  - destruct (lookup_lt_is_Some_2 m (Z.to_nat i)) as [v Hv]; [lia|]. apply wp_bind. eapply wp_oob; [exact Hv|].
    assert (pci_get_byte m i = v) as Ev by (unfold pci_get_byte; by rewrite Hv).
    destruct (Z.eqb_spec v 0) as [->|Hne]; cbn [negb].
    + eapply wp_mono; [apply (IH (i + 1)); lia|]. intros r d' [-> Hr]. split; [done|]. rewrite Hr. unfold free. split.
      * intros Hf x Hx. destruct (decide (x = i)) as [->|]; [done|]. apply Hf. lia.
      * intros Hf x Hx. apply Hf. lia.
    + apply wp_ret. split; [done|]. split; [done|]. intros Hf. destruct Hne. rewrite <- Ev. apply Hf. lia.
Qed.

(** C19: adding a capability to a conventional (not Express) device with the
    capabilities [l], at a place the
    caller names or at the first place that is free. Either the record is put in
    front of the list, in bytes no other capability has, and a search finds it; or
    nothing changes and the error says why: the place overlaps a capability, or there
    is no gap of that size in the configuration space. *)
Theorem capability_added d l cap_id offset size :
  caps_ok d l → pci_is_express d = false → 0 < cap_id < 256 → 2 ≤ size < 256 →
  offset = 0 ∨ PCI_CONFIG_HEADER_SIZE ≤ offset ∧ offset + size ≤ 256 →
  wp (pci_add_capability cap_id offset size) (λ r d',
    (caps_ok d' (Cap r cap_id size :: l) ∧ pci_find_capability d' cap_id = Some r ∧ (offset ≠ 0 → r = offset)) ∨
    d' = d ∧ if decide (offset = 0)
      then r = - ENOSPC ∧ ∀ o, PCI_CONFIG_HEADER_SIZE ≤ o → o + size ≤ 256 → ∃ x i, x ∈ l ∧ covers x i ∧ o ≤ i < o + size
      else r = - EINVAL ∧ ∃ x i, x ∈ l ∧ covers x i ∧ offset ≤ i < offset + size) d.
Proof.
  intros Hd Hex Hid Hsize Hoff. assert (pci_config_size d = 256) as Hsz by (unfold pci_config_size; by rewrite Hex).
  assert (∀ o, PCI_CONFIG_HEADER_SIZE ≤ o → o + size ≤ 256 → ¬ free (config_map d) o size →
    ∃ x i, x ∈ l ∧ covers x i ∧ o ≤ i < o + size) as Hused.
  { intros o Ho1 Ho2 Hn. apply not_free in Hn as (i&Hi&Hnz). apply (ck_map _ _ Hd) in Hnz as (x&Hx&Hc); [|lia]. eauto 6. }
  assert (∀ o, PCI_CONFIG_HEADER_SIZE ≤ o → o + size ≤ 256 → free (config_map d) o size → (offset ≠ 0 → o = offset) →
    wp (link_capability cap_id o size) (λ r d', caps_ok d' (Cap r cap_id size :: l) ∧
      pci_find_capability d' cap_id = Some r ∧ (offset ≠ 0 → r = offset)) d) as Hlink.
  { intros o Ho1 Ho2 Hf He. unfold link_capability. apply wp_bind, wp_gets. cbv beta. unfold Datatypes.id. rewrite Hsz, Z.max_l by lia.
    destruct (Z.ltb_spec 256 (o + size)); [lia|]. apply wp_bind, wp_modify, wp_ret.
    pose proof (linked_ok d l cap_id o size Hd Hid Ho1 ltac:(lia) Ho2 Hf) as Hd'. split_and!; [done| |done].
    unfold pci_find_capability. rewrite (find_caps _ _ Hd'), (ck_status _ _ Hd') by done. cbn. by rewrite Z.eqb_refl. }
  unfold pci_add_capability. apply wp_bind, wp_gets. unfold Datatypes.id. destruct (Z.eqb_spec offset 0) as [->|Hne].
  - cbv zeta. destruct (find_space_spec d size) as [[-> Hno]|(H1&H2&H3&_)]; [lia|..].
    + apply wp_ret. right. split; [done|]. rewrite decide_True by done. split; [done|].
      intros o Ho1 Ho2. apply Hused; [done..|]. apply Hno; lia.
    + rewrite u8_small by lia. destruct (Z.eqb_spec (pci_find_space d size) 0); [lia|].
      eapply wp_mono; [by apply Hlink; try lia|]. intros r d' Hr. by left.
  - destruct Hoff as [|[Ho1 Ho2]]; [done|]. apply wp_bind.
    eapply wp_mono; [apply reserved_wp; [lia|rewrite (caps_len d l Hd) by set_solver; lia]|].
    intros r ? [-> Hr]. rewrite Z2Nat.id in Hr by lia. destruct r.
    + apply wp_ret. right. split; [done|]. rewrite decide_False by done. split; [done|]. apply Hused; [done..|].
      intros Hf. by apply Hr in Hf.
    + eapply wp_mono; [apply Hlink; [done..|by apply Hr|done]|]. intros r d' Hr'. by left.
Qed.

(** Removing a capability by its id takes the first capability of that id out
    of the list and nothing else: the others are found as before, its bytes are free
    again, and when it was the last one the status register says that there is
    no list. *)
Theorem capability_removed d l1 x l2 :
  caps_ok d (l1 ++ x :: l2) → (∀ y, y ∈ l1 → c_id y ≠ c_id x) →
  wp (pci_del_capability (c_id x) (c_size x)) (λ _ d', caps_ok d' (l1 ++ l2) ∧
    (l1 ++ l2 = [] → has_bits (pci_get_byte (config d') PCI_STATUS) PCI_STATUS_CAP_LIST = false) ∧
    ∀ o, covers x o → pci_get_byte (config_map d') o = 0) d.
Proof.
  intros Hd Hfirst. pose proof (config_size_pos d) as Hsz. pose proof (ck_cap _ _ Hd x (unlink_in l1 x l2)) as Hx.
  unfold pci_del_capability. apply wp_bind, wp_gets. unfold Datatypes.id. rewrite (find_caps _ _ Hd), (ck_status _ _ Hd) by (by destruct l1).
  rewrite first_cap_app; [|apply Forall_forall; intros y Hy%list_elem_of_In; by apply Hfirst|done]. cbn [fst snd].
  destruct (Z.eqb_spec (c_off x) 0); [lia|]. rewrite Z.max_l by lia.
  destruct (Z.ltb_spec (pci_config_size d) (c_off x + c_size x)); [lia|]. apply wp_modify.
  split_and!; [by apply unlinked_ok|by apply unlinked_off|].
  intros o Ho. unfold covers in Ho. unfold unlink_dev. cbn [config_map update].
  rewrite get_set_bytes by (rewrite ?(caps_len d _ Hd (config_map d)) by set_solver; lia). by rewrite decide_True by lia.
Qed.
End cap.
