(* ===== verification/PciPath.v ===== *)
(** * Paths of PCI devices ([hw/pci.c])

    The name of a device's place on its machine, by which its saved state is found,
    and that two devices of a machine never have the same one. *)

From S2P Require Import Prelude Bytes Pci PciSpec PciInv.

Section path.
Context {F : Type}.
Implicit Types (s : PciSys F) (d : PCIDevice F).

(** One digit of a [%x] conversion, as a character. *)
Definition hex_digit (v : Z) : Z := if v <? 10 then 48 + v else 87 + v.
Definition hex2 (v : Z) : list Z := [hex_digit (v `div` 16); hex_digit (v `mod` 16)].
Definition hex4 (v : Z) : list Z := hex2 (v `div` 256) ++ hex2 (v `mod` 256).

(** The root above a bus. Every root bus is registered as domain 0. *)
Fixpoint pci_find_domain (fuel : nat) s (j : nat) : option Z :=
  match fuel with
  | O => None
  | S fuel =>
      bus ← buses s !! j;
      match parent_dev bus with
      | Some p => d ← devs s !! p; pci_find_domain fuel s (dev_bus d)
      | None => Some 0
      end
  end.

(** The slots from the root down to device [n], each as [:SS.F]. *)
Definition slot_name d : list Z := [58] ++ hex2 (PCI_SLOT (devfn d)) ++ [46; hex_digit (PCI_FUNC (devfn d))].
Fixpoint slot_path (fuel : nat) s (n : nat) : option (list Z) :=
  match fuel with
  | O => None
  | S fuel =>
      d ← devs s !! n;
      bus ← buses s !! dev_bus d;
      path ← match parent_dev bus with Some p => slot_path fuel s p | None => Some [] end;
      Some (path ++ slot_name d)
  end.

(** A path from the root has as many steps as there are buses on it. *)
Definition pcibus_get_dev_path s (n : nat) : option (list Z) :=
  d ← devs s !! n;
  domain ← pci_find_domain (S (nbuses s)) s (dev_bus d);
  path ← slot_path (S (nbuses s)) s n;
  Some (hex4 domain ++ [58; 48; 48] ++ path).

(** ** Paths exist and are distinct *)

Lemma hex_digit_inj a b : 0 ≤ a < 16 → 0 ≤ b < 16 → hex_digit a = hex_digit b → a = b.
Proof. intros Ha Hb. unfold hex_digit. destruct (Z.ltb_spec a 10), (Z.ltb_spec b 10); lia. Qed.

Lemma slot_name_inj d1 d2 :
  0 ≤ devfn d1 < 256 → 0 ≤ devfn d2 < 256 → slot_name d1 = slot_name d2 → devfn d1 = devfn d2.
Proof.
  intros H1 H2. unfold slot_name, hex2, PCI_SLOT, PCI_FUNC. change 0x1f with (Z.ones 5).
  change 0x07 with (Z.ones 3). rewrite !Z.land_ones, !Z.shiftr_div_pow2 by lia. cbn [app].
  change (2 ^ 3) with 8. change (2 ^ 5) with 32. intros E. injection E as Ea Eb Ec.
  apply hex_digit_inj in Ea, Eb, Ec; Z.div_mod_to_equations; lia.
Qed.

Lemma hex_digit_char v : 0 ≤ v < 16 → 0 < hex_digit v < 256.
Proof. intros Hv. unfold hex_digit. case_match; lia. Qed.
Lemma hex2_chars v : 0 ≤ v < 256 → Forall (λ c, 0 < c < 256) (hex2 v).
Proof.
  intros Hv. assert (0 ≤ v `div` 16 < 16 ∧ 0 ≤ v `mod` 16 < 16) as [H1 H2] by (Z.div_mod_to_equations; lia).
  repeat constructor; by apply hex_digit_char.
Qed.
Lemma slot_name_chars d : Forall (λ c, 0 < c < 256) (slot_name d).
Proof.
  unfold slot_name, PCI_SLOT, PCI_FUNC. change 0x1f with (Z.ones 5). change 0x07 with (Z.ones 3).
  rewrite !Z.land_ones by lia. change (2 ^ 5) with 32. change (2 ^ 3) with 8.
  pose proof (Z.mod_pos_bound (devfn d >> 3) 32 ltac:(lia)). pose proof (Z.mod_pos_bound (devfn d) 8 ltac:(lia)).
  constructor; [lia|]. apply Forall_app. split; [apply hex2_chars; lia|].
  constructor; [lia|]. constructor; [apply hex_digit_char; lia|constructor].
Qed.

Lemma slot_name_length d : length (slot_name d) = 5%nat.
Proof. done. Qed.

Section tree.
Context (s : PciSys F) (Hs : statics_ok (statics s)).

Lemma slot_path_some fuel n d :
  devs s !! n = Some d → (dev_bus d < fuel)%nat →
  ∃ path, slot_path fuel s n = Some path ∧ (0 < length path ≤ 5 * S (dev_bus d))%nat ∧
    Forall (λ c, 0 < c < 256) path.
Proof.
  revert n d. induction fuel as [|fuel IH]; intros n d Hd Hl; [lia|].
  destruct (ok_dev s Hs n d Hd) as (_&_&b&Hb&_). cbn [slot_path]. rewrite Hd. cbn [mbind option_bind].
  rewrite Hb. cbn [mbind option_bind]. destruct (parent_dev b) as [p|] eqn:Ep.
  - destruct (ok_parent s Hs _ _ p Hb Ep) as (dp&Hp&Hlt&_).
    destruct (IH p dp Hp) as (path&->&Hlen&Hc); [lia|]. eexists. split; [reflexivity|].
    rewrite length_app, slot_name_length. split; [lia|]. apply Forall_app. auto using slot_name_chars.
  - eexists. split; [reflexivity|]. split; [cbn; lia|apply slot_name_chars].
Qed.

Lemma find_domain_some fuel j b : buses s !! j = Some b → (j < fuel)%nat → pci_find_domain fuel s j = Some 0.
Proof.
  revert j b. induction fuel as [|fuel IH]; intros j b Hb Hl; [lia|]. cbn [pci_find_domain]. rewrite Hb.
  cbn [mbind option_bind]. destruct (parent_dev b) as [p|] eqn:Ep; [|done].
  destruct (ok_parent s Hs _ _ p Hb Ep) as (dp&Hp&Hlt&_). rewrite Hp. cbn [mbind option_bind].
  destruct (ok_dev s Hs p dp Hp) as (_&_&b'&Hb'&_). apply (IH _ _ Hb'). lia.
Qed.

Lemma same_place n m d1 d2 : devs s !! n = Some d1 → devs s !! m = Some d2 →
  dev_bus d1 = dev_bus d2 → devfn d1 = devfn d2 → n = m.
Proof.
  intros H1 H2 Eb Ef. destruct (ok_dev s Hs n d1 H1) as (_&_&b1&Hb1&Hn).
  destruct (ok_dev s Hs m d2 H2) as (_&_&b2&Hb2&Hm). rewrite <- Eb, Hb1 in Hb2. injection Hb2 as <-.
  rewrite <- Ef, Hn in Hm. by injection Hm.
Qed.

(** The machine has one root bus. *)
Definition one_root : Prop :=
  ∀ i j a b, buses s !! i = Some a → buses s !! j = Some b → parent_dev a = None → parent_dev b = None → i = j.

Lemma slot_path_inj fuel n m path : one_root →
  slot_path fuel s n = Some path → slot_path fuel s m = Some path → n = m.
Proof.
  intros Hroot. revert n m path. induction fuel as [|fuel IH]; intros n m path Hn Hm; [done|].
  cbn [slot_path] in Hn, Hm.
  apply bind_Some in Hn as (d1&Hd1&Hn). apply bind_Some in Hn as (b1&Hb1&Hn). apply bind_Some in Hn as (p1&Hp1&Hn).
  apply bind_Some in Hm as (d2&Hd2&Hm). apply bind_Some in Hm as (b2&Hb2&Hm). apply bind_Some in Hm as (p2&Hp2&Hm).
  injection Hn as <-. injection Hm as E.
  apply app_inj_2 in E as [-> E]; [|by rewrite !slot_name_length].
  destruct (ok_dev s Hs n d1 Hd1) as (_&R1&_). destruct (ok_dev s Hs m d2 Hd2) as (_&R2&_).
  apply (same_place n m d1 d2 Hd1 Hd2); [|symmetry; by apply slot_name_inj].
  assert (∀ q, slot_path fuel s q ≠ Some []) as Hne.
  { intros q. destruct fuel as [|g]; [done|]. cbn [slot_path]. intros (d&_&Hq)%bind_Some.
    apply bind_Some in Hq as (b&_&Hq). apply bind_Some in Hq as (p&_&Hq). injection Hq as Hq.
    by apply (f_equal length) in Hq; rewrite length_app, slot_name_length in Hq; cbn in Hq; lia. }
  destruct (parent_dev b1) as [q1|] eqn:E1, (parent_dev b2) as [q2|] eqn:E2.
  - assert (q1 = q2) as -> by (by eapply IH).
    destruct (ok_parent s Hs _ _ _ Hb1 E1) as (x&Hx&_&S1). destruct (ok_parent s Hs _ _ _ Hb2 E2) as (y&Hy&_&S2).
    rewrite Hx in Hy. injection Hy as <-. rewrite S1 in S2. by injection S2.
  - injection Hp2 as <-. by destruct (Hne q1).
  - injection Hp1 as <-. by destruct (Hne q2).
  - by apply (Hroot _ _ b1 b2).
Qed.
End tree.

Lemma dev_path_some s n d : statics_ok (statics s) → devs s !! n = Some d →
  ∃ path, pcibus_get_dev_path s n = Some (48 :: path) ∧ (length path ≤ 6 + 5 * S (dev_bus d))%nat ∧
    Forall (λ c, 0 < c < 256) path.
Proof.
  intros Hs Hd. destruct (ok_dev s Hs n d Hd) as (_&_&b&Hb&_). destruct (ok_bus s Hs _ _ Hb) as [_ Hlt].
  unfold pcibus_get_dev_path. rewrite Hd. cbn [mbind option_bind].
  rewrite (find_domain_some s Hs _ _ _ Hb) by lia. cbn [mbind option_bind].
  destruct (slot_path_some s Hs (S (nbuses s)) n d Hd) as (path&->&Hl&Hc); [lia|].
  eexists. split; [reflexivity|]. split; [cbn [length app hex4 hex2] in *; lia|]. by repeat constructor.
Qed.

(** A path is part of what never changes. *)
Lemma slot_path_statics s s' fuel n : statics s' = statics s → slot_path fuel s' n = slot_path fuel s n.
Proof.
  intros E. revert n. induction fuel as [|fuel IH]; intros n; [done|]. cbn [slot_path].
  assert (d_static <$> devs s' !! n = d_static <$> devs s !! n) as Ed
    by (rewrite <- !lookup_fmap; by apply (f_equal (λ x, x.1.1 !! n)) in E).
  destruct (devs s' !! n) as [d'|], (devs s !! n) as [d|]; try done. apply (inj Some) in Ed. cbn [mbind option_bind].
  apply d_static_eq in Ed as (_&_&_&Eb&Ef&_). unfold slot_name. rewrite Eb, Ef.
  assert (b_static <$> buses s' !! dev_bus d = b_static <$> buses s !! dev_bus d) as El
    by (rewrite <- !lookup_fmap; by apply (f_equal (λ x, x.1.2 !! dev_bus d)) in E).
  destruct (buses s' !! dev_bus d) as [b'|], (buses s !! dev_bus d) as [b|]; try done.
  apply (inj Some), (f_equal parent_dev) in El. cbn [mbind option_bind].
  change (parent_dev b' = parent_dev b) in El. rewrite El. destruct (parent_dev b); [by rewrite IH|done].
Qed.

Lemma dev_path_statics s s' n d : statics_ok (statics s) → statics s' = statics s → devs s !! n = Some d →
  pcibus_get_dev_path s' n = pcibus_get_dev_path s n.
Proof.
  intros Hs E Hd. destruct (statics_eq_dev s' s n d (eq_sym E) Hd) as (d'&Hd'&Ed).
  destruct (ok_dev s Hs n d Hd) as (_&_&b&Hb&_). destruct (ok_bus s Hs _ _ Hb) as [_ Hlt].
  destruct (ok_dev s' ltac:(by rewrite E) n d' Hd') as (_&_&b'&Hb'&_).
  destruct (ok_bus s' ltac:(by rewrite E) _ _ Hb') as [_ Hlt'].
  unfold pcibus_get_dev_path. rewrite Hd, Hd'. cbn [mbind option_bind].
  rewrite (find_domain_some s Hs _ _ _ Hb), (find_domain_some s' ltac:(by rewrite E) _ _ _ Hb') by lia.
  cbn [mbind option_bind]. rewrite (slot_path_statics s s') by done.
  by rewrite (f_equal snd E : nbuses s' = nbuses s).
Qed.

Lemma dev_path_inj s n m path : statics_ok (statics s) → one_root s →
  pcibus_get_dev_path s n = Some path → pcibus_get_dev_path s m = Some path → m = n.
Proof.
  intros Hs Hroot Hp Hm. unfold pcibus_get_dev_path in Hp, Hm.
  apply bind_Some in Hp as (d1&_&Hp). apply bind_Some in Hp as (z1&Z1&Hp). apply bind_Some in Hp as (p1&P1&Hp).
  apply bind_Some in Hm as (d2&_&Hm). apply bind_Some in Hm as (z2&Z2&Hm). apply bind_Some in Hm as (p2&P2&Hm).
  injection Hp as <-. injection Hm as _ _ _ _ E. subst p2. by apply (slot_path_inj s Hs (S (nbuses s)) _ _ p1).
Qed.

(** Every device of a well-formed PCI system has a path, and on a machine with one
    root bus two devices never have the same one, whatever bridges they are
    behind: a path names one device. *)
Theorem dev_path_names_device s n m d :
  pci_ok s → one_root s → devs s !! n = Some d →
  ∃ path, pcibus_get_dev_path s n = Some path ∧ (pcibus_get_dev_path s m = Some path → m = n).
Proof.
  intros Hok Hroot Hd. pose proof (po_static _ Hok) as Hs.
  destruct (dev_path_some s n d Hs Hd) as (path&Hp&_). exists (48 :: path). eauto using dev_path_inj.
Qed.
End path.
