(* ===== verification/E1000Hw.v ===== *)
(** * Hardware constants ([hw/e1000_hw.h]) and register indices

    The register offsets, bit masks and descriptor layouts the device model
    uses, with the names and values of the header. *)

From S2P Require Import Prelude Bytes Memory.

(** ** Device identifiers *)

Abbreviation E1000_DEV_ID_82544GC_COPPER := 0x100C.
Abbreviation E1000_DEV_ID_82540EM := 0x100E.
Abbreviation E1000_DEV_ID_82573L := 0x109A.

(** ** Register offsets *)

Abbreviation E1000_CTRL := 0x00000.
Abbreviation E1000_STATUS := 0x00008.
Abbreviation E1000_EECD := 0x00010.
Abbreviation E1000_EERD := 0x00014.
Abbreviation E1000_MDIC := 0x00020.
Abbreviation E1000_VET := 0x00038.
Abbreviation E1000_ICR := 0x000C0.
Abbreviation E1000_ICS := 0x000C8.
Abbreviation E1000_IMS := 0x000D0.
Abbreviation E1000_IMC := 0x000D8.
Abbreviation E1000_RCTL := 0x00100.
Abbreviation E1000_TCTL := 0x00400.
Abbreviation E1000_LEDCTL := 0x00E00.
Abbreviation E1000_PBA := 0x01000.
Abbreviation E1000_RDBAL := 0x02800.
Abbreviation E1000_RDBAH := 0x02804.
Abbreviation E1000_RDLEN := 0x02808.
Abbreviation E1000_RDH := 0x02810.
Abbreviation E1000_RDT := 0x02818.
Abbreviation E1000_TDBAL := 0x03800.
Abbreviation E1000_TDBAH := 0x03804.
Abbreviation E1000_TDLEN := 0x03808.
Abbreviation E1000_TDH := 0x03810.
Abbreviation E1000_TDT := 0x03818.
Abbreviation E1000_TXDCTL := 0x03828.
Abbreviation E1000_CRCERRS := 0x04000.
Abbreviation E1000_MPC := 0x04010.
Abbreviation E1000_GPRC := 0x04074.
Abbreviation E1000_GPTC := 0x04080.
Abbreviation E1000_TORL := 0x040C0.
Abbreviation E1000_TORH := 0x040C4.
Abbreviation E1000_TOTL := 0x040C8.
Abbreviation E1000_TOTH := 0x040CC.
Abbreviation E1000_TPR := 0x040D0.
Abbreviation E1000_TPT := 0x040D4.
Abbreviation E1000_MTA := 0x05200.
Abbreviation E1000_RA := 0x05400.
Abbreviation E1000_VFTA := 0x05600.
Abbreviation E1000_WUFC := 0x05808.
Abbreviation E1000_MANC := 0x05820.
Abbreviation E1000_SWSM := 0x05B50.

(** ** PHY registers *)

Abbreviation PHY_CTRL := 0x00.
Abbreviation PHY_STATUS := 0x01.
Abbreviation PHY_ID1 := 0x02.
Abbreviation PHY_ID2 := 0x03.
Abbreviation PHY_AUTONEG_ADV := 0x04.
Abbreviation PHY_LP_ABILITY := 0x05.
Abbreviation PHY_1000T_CTRL := 0x09.
Abbreviation PHY_1000T_STATUS := 0x0A.
Abbreviation M88E1000_PHY_SPEC_CTRL := 0x10.
Abbreviation M88E1000_PHY_SPEC_STATUS := 0x11.
Abbreviation M88E1000_EXT_PHY_SPEC_CTRL := 0x14.
Abbreviation M88E1000_RX_ERR_CNTR := 0x15.

(** ** Interrupt causes *)

Abbreviation E1000_ICR_TXDW := 0x00000001.
Abbreviation E1000_ICR_TXQE := 0x00000002.
Abbreviation E1000_ICR_LSC := 0x00000004.
Abbreviation E1000_ICR_RXDMT0 := 0x00000010.
Abbreviation E1000_ICR_RXO := 0x00000040.
Abbreviation E1000_ICR_RXT0 := 0x00000080.
Abbreviation E1000_ICR_MDAC := 0x00000200.
Abbreviation E1000_ICR_INT_ASSERTED := 0x80000000.
Abbreviation E1000_ICS_TXQE := E1000_ICR_TXQE.
Abbreviation E1000_ICS_RXDMT0 := E1000_ICR_RXDMT0.
Abbreviation E1000_ICS_RXO := E1000_ICR_RXO.
Abbreviation E1000_ICS_RXT0 := E1000_ICR_RXT0.

(** ** Receive control *)

Abbreviation E1000_RCTL_EN := 0x00000002.
Abbreviation E1000_RCTL_UPE := 0x00000008.
Abbreviation E1000_RCTL_MPE := 0x00000010.
Abbreviation E1000_RCTL_RDMTS_QUAT := 0x00000100.
Abbreviation E1000_RCTL_MO_SHIFT := 12.
Abbreviation E1000_RCTL_BAM := 0x00008000.
Abbreviation E1000_RCTL_SZ_2048 := 0x00000000.
Abbreviation E1000_RCTL_SZ_1024 := 0x00010000.
Abbreviation E1000_RCTL_SZ_512 := 0x00020000.
Abbreviation E1000_RCTL_SZ_256 := 0x00030000.
Abbreviation E1000_RCTL_SZ_16384 := 0x00010000.
Abbreviation E1000_RCTL_SZ_8192 := 0x00020000.
Abbreviation E1000_RCTL_SZ_4096 := 0x00030000.
Abbreviation E1000_RCTL_VFE := 0x00040000.
Abbreviation E1000_RCTL_BSEX := 0x02000000.
Abbreviation E1000_RCTL_SECRC := 0x04000000.

(** ** EEPROM read register *)

Definition E1000_EEPROM_RW_REG_DATA : Z := 16.
Definition E1000_EEPROM_RW_REG_DONE : Z := 0x10.
Definition E1000_EEPROM_RW_REG_START : Z := 1.
Definition E1000_EEPROM_RW_ADDR_SHIFT : Z := 8.

(** ** Device control *)

Abbreviation E1000_CTRL_SLU := 0x00000040.
Abbreviation E1000_CTRL_SPD_1000 := 0x00000200.
Abbreviation E1000_CTRL_SWDPIN0 := 0x00040000.
Abbreviation E1000_CTRL_SWDPIN2 := 0x00100000.
Abbreviation E1000_CTRL_RST := 0x04000000.
Abbreviation E1000_CTRL_VME := 0x40000000.

(** ** Device status *)

Abbreviation E1000_STATUS_FD := 0x00000001.
Abbreviation E1000_STATUS_LU := 0x00000002.
Abbreviation E1000_STATUS_SPEED_1000 := 0x00000080.
Abbreviation E1000_STATUS_ASDV := 0x00000300.
Abbreviation E1000_STATUS_GIO_MASTER_ENABLE := 0x00080000.
Abbreviation E1000_STATUS_MTXCKOK := 0x00000400.

(** ** EEPROM control *)

Abbreviation E1000_EECD_SK := 0x00000001.
Abbreviation E1000_EECD_CS := 0x00000002.
Abbreviation E1000_EECD_DI := 0x00000004.
Abbreviation E1000_EECD_DO := 0x00000008.
Abbreviation E1000_EECD_FWE_MASK := 0x00000030.
Abbreviation E1000_EECD_REQ := 0x00000040.
Abbreviation E1000_EECD_GNT := 0x00000080.
Abbreviation E1000_EECD_PRES := 0x00000100.

(** ** MDI control *)

Abbreviation E1000_MDIC_DATA_MASK := 0x0000FFFF.
Abbreviation E1000_MDIC_REG_MASK := 0x001F0000.
Abbreviation E1000_MDIC_REG_SHIFT := 16.
Abbreviation E1000_MDIC_PHY_MASK := 0x03E00000.
Abbreviation E1000_MDIC_PHY_SHIFT := 21.
Abbreviation E1000_MDIC_OP_WRITE := 0x04000000.
Abbreviation E1000_MDIC_OP_READ := 0x08000000.
Abbreviation E1000_MDIC_READY := 0x10000000.
Abbreviation E1000_MDIC_ERROR := 0x40000000.

(** ** EEPROM commands and layout *)

Abbreviation EEPROM_READ_OPCODE_MICROWIRE := 0x6.
Abbreviation EEPROM_CHECKSUM_REG := 0x003F.

(** ** Transmit descriptors *)

Abbreviation E1000_TXD_DTYP_D := 0x00100000.
Abbreviation E1000_TXD_POPTS_IXSM := 0x01.
Abbreviation E1000_TXD_POPTS_TXSM := 0x02.
Abbreviation E1000_TXD_CMD_EOP := 0x01000000.
Abbreviation E1000_TXD_CMD_RS := 0x08000000.
Abbreviation E1000_TXD_CMD_RPS := 0x10000000.
Abbreviation E1000_TXD_CMD_DEXT := 0x20000000.
Abbreviation E1000_TXD_CMD_VLE := 0x40000000.
Abbreviation E1000_TXD_STAT_DD := 0x00000001.
Abbreviation E1000_TXD_STAT_EC := 0x00000002.
Abbreviation E1000_TXD_STAT_LC := 0x00000004.
Abbreviation E1000_TXD_STAT_TU := 0x00000008.
Abbreviation E1000_TXD_CMD_TCP := 0x01000000.
Abbreviation E1000_TXD_CMD_IP := 0x02000000.
Abbreviation E1000_TXD_CMD_TSE := 0x04000000.

(** ** Transmit control *)

Definition E1000_TCTL_EN : Z := 0x00000002.

(** ** Admin queue *)

Definition E1000_PF_ATQBAH : Z := 0x00006000.
Definition E1000_PF_ATQBAL : Z := 0x00006004.
Definition E1000_PF_ATQH : Z := 0x00006008.
Definition E1000_PF_ATQLEN : Z := 0x0000600C.
Definition E1000_PF_ATQLEN_ATQENABLE_SHIFT : Z := 31.
Definition E1000_PF_ATQLEN_ATQENABLE_MASK : Z := (0x1 << E1000_PF_ATQLEN_ATQENABLE_SHIFT).
Definition E1000_PF_ATQT : Z := 0x00006010.
Definition e1000_aqc_get_version : Z := 0x0001.
Definition e1000_aqc_driver_heartbeat : Z := 0x0002.
Definition e1000_aqc_echo : Z := 0x0003.
Definition E1000_AQ_FLAG_DD_OFF_SHIFT : Z := 0.
Definition E1000_AQ_FLAG_ERR_OFF_SHIFT : Z := 2.
Definition E1000_AQ_FLAG_DD : Z := (1 << E1000_AQ_FLAG_DD_OFF_SHIFT).
Definition E1000_AQ_FLAG_ERR : Z := (1 << E1000_AQ_FLAG_ERR_OFF_SHIFT).
Definition E1000_AQ_RC_OK : Z := 0.
Definition E1000_AQ_RC_ENOSYS : Z := 1.

(** ** Receive descriptors *)

Abbreviation E1000_RXD_STAT_DD := 0x01.
Abbreviation E1000_RXD_STAT_EOP := 0x02.
Abbreviation E1000_RXD_STAT_IXSM := 0x04.
Abbreviation E1000_RXD_STAT_VP := 0x08.

(** ** Receive addresses *)

Definition E1000_RAH_AV : Z := 0x80000000.

(** ** Management control *)

Abbreviation E1000_MANC_RMCP_EN := 0x00000100.
Abbreviation E1000_MANC_0298_EN := 0x00000200.
Abbreviation E1000_MANC_ARP_EN := 0x00002000.
Abbreviation E1000_MANC_RCV_TCO_EN := 0x00020000.
Abbreviation E1000_MANC_EN_MNG2HOST := 0x00200000.

(** ** EEPROM checksum *)

Definition EEPROM_SUM : Z := 0xBABA.

(** ** Register indices into [mac_reg] ([defreg] of [e1000.c]) *)

Definition CTRL : Z := E1000_CTRL >> 2.
Definition EECD : Z := E1000_EECD >> 2.
Definition EERD : Z := E1000_EERD >> 2.
Definition GPRC : Z := E1000_GPRC >> 2.
Definition GPTC : Z := E1000_GPTC >> 2.
Definition ICR : Z := E1000_ICR >> 2.
Definition ICS : Z := E1000_ICS >> 2.
Definition IMC : Z := E1000_IMC >> 2.
Definition IMS : Z := E1000_IMS >> 2.
Definition LEDCTL : Z := E1000_LEDCTL >> 2.
Definition MANC : Z := E1000_MANC >> 2.
Definition MDIC : Z := E1000_MDIC >> 2.
Definition MPC : Z := E1000_MPC >> 2.
Definition PBA : Z := E1000_PBA >> 2.
Definition RCTL : Z := E1000_RCTL >> 2.
Definition RDBAH : Z := E1000_RDBAH >> 2.
Definition RDBAL : Z := E1000_RDBAL >> 2.
Definition RDH : Z := E1000_RDH >> 2.
Definition RDLEN : Z := E1000_RDLEN >> 2.
Definition RDT : Z := E1000_RDT >> 2.
Definition STATUS : Z := E1000_STATUS >> 2.
Definition SWSM : Z := E1000_SWSM >> 2.
Definition TCTL : Z := E1000_TCTL >> 2.
Definition TDBAH : Z := E1000_TDBAH >> 2.
Definition TDBAL : Z := E1000_TDBAL >> 2.
Definition TDH : Z := E1000_TDH >> 2.
Definition TDLEN : Z := E1000_TDLEN >> 2.
Definition TDT : Z := E1000_TDT >> 2.
Definition TORH : Z := E1000_TORH >> 2.
Definition TORL : Z := E1000_TORL >> 2.
Definition TOTH : Z := E1000_TOTH >> 2.
Definition TOTL : Z := E1000_TOTL >> 2.
Definition TPR : Z := E1000_TPR >> 2.
Definition TPT : Z := E1000_TPT >> 2.
Definition TXDCTL : Z := E1000_TXDCTL >> 2.
Definition WUFC : Z := E1000_WUFC >> 2.
Definition RA : Z := E1000_RA >> 2.
Definition MTA : Z := E1000_MTA >> 2.
Definition CRCERRS : Z := E1000_CRCERRS >> 2.
Definition VFTA : Z := E1000_VFTA >> 2.
Definition VET : Z := E1000_VET >> 2.
Definition PF_ATQLEN : Z := E1000_PF_ATQLEN >> 2.
Definition PF_ATQT : Z := E1000_PF_ATQT >> 2.
Definition PF_ATQH : Z := E1000_PF_ATQH >> 2.
Definition PF_ATQBAH : Z := E1000_PF_ATQBAH >> 2.
Definition PF_ATQBAL : Z := E1000_PF_ATQBAL >> 2.

Definition E1000_DEVID : Z := E1000_DEV_ID_82540EM.
Definition PHY_ID2_INIT : Z :=
  if E1000_DEVID =? E1000_DEV_ID_82573L then 0xcc2
  else if E1000_DEVID =? E1000_DEV_ID_82544GC_COPPER then 0xc30
  else 0xc20.
Definition MIN_BUF_SIZE : Z := 60.
Definition PNPMMIO_SIZE : Z := 0x20000.
Definition IOPORT_SIZE : Z := 0x40.

Definition PHY_R : Z := 1.
Definition PHY_W : Z := 2.
Definition PHY_RW : Z := PHY_R .| PHY_W.

(** ** Transmit descriptor *)

Record e1000_tx_desc := {
  txd_buffer_addr : Z;
  txd_lower : Z;
  txd_upper : Z;
}.

Definition tx_desc_layout : list nat := [8; 4; 4]%nat.

Definition tx_desc_decode (bs : list Z) : e1000_tx_desc :=
  match fields_decode tx_desc_layout bs with
  | [a; l; u] => {| txd_buffer_addr := a; txd_lower := l; txd_upper := u |}
  | _ => {| txd_buffer_addr := 0; txd_lower := 0; txd_upper := 0 |}
  end.

Definition tx_desc_encode (d : e1000_tx_desc) : list Z :=
  fields_encode tx_desc_layout [txd_buffer_addr d; txd_lower d; txd_upper d].

(** [upper.fields.special]: the high half of [upper.data]. *)
Definition txd_special (d : e1000_tx_desc) : Z := u16 (txd_upper d >> 16).

(** ** Offload context descriptor: the same sixteen bytes read as
    [struct e1000_context_desc] *)

Record e1000_context_desc := {
  xd_ipcss : Z;
  xd_ipcso : Z;
  xd_ipcse : Z;
  xd_tucss : Z;
  xd_tucso : Z;
  xd_tucse : Z;
  xd_cmd_and_length : Z;
  xd_status : Z;
  xd_hdr_len : Z;
  xd_mss : Z;
}.

Definition context_desc_layout : list nat := [1; 1; 2; 1; 1; 2; 4; 1; 1; 2]%nat.

Definition context_desc_decode (bs : list Z) : e1000_context_desc :=
  match fields_decode context_desc_layout bs with
  | [a; b; c; d; e; f; g; h; i; j] =>
      {| xd_ipcss := a; xd_ipcso := b; xd_ipcse := c; xd_tucss := d; xd_tucso := e;
         xd_tucse := f; xd_cmd_and_length := g; xd_status := h; xd_hdr_len := i;
         xd_mss := j |}
  | _ =>
      {| xd_ipcss := 0; xd_ipcso := 0; xd_ipcse := 0; xd_tucss := 0; xd_tucso := 0;
         xd_tucse := 0; xd_cmd_and_length := 0; xd_status := 0; xd_hdr_len := 0;
         xd_mss := 0 |}
  end.

Definition context_of_tx_desc (d : e1000_tx_desc) : e1000_context_desc :=
  context_desc_decode (tx_desc_encode d).

(** ** Receive descriptor *)

Record e1000_rx_desc := {
  rxd_buffer_addr : Z;
  rxd_length : Z;
  rxd_csum : Z;
  rxd_status : Z;
  rxd_errors : Z;
  rxd_special : Z;
}.
#[export] Instance e1000_rx_desc_eta : Eta e1000_rx_desc := λ d,
  Build_e1000_rx_desc (rxd_buffer_addr d) (rxd_length d) (rxd_csum d) (rxd_status d)
    (rxd_errors d) (rxd_special d).

Definition rx_desc_layout : list nat := [8; 2; 2; 1; 1; 2]%nat.

Definition rx_desc_decode (bs : list Z) : e1000_rx_desc :=
  match fields_decode rx_desc_layout bs with
  | [a; b; c; d; e; f] =>
      {| rxd_buffer_addr := a; rxd_length := b; rxd_csum := c; rxd_status := d;
         rxd_errors := e; rxd_special := f |}
  | _ =>
      {| rxd_buffer_addr := 0; rxd_length := 0; rxd_csum := 0; rxd_status := 0;
         rxd_errors := 0; rxd_special := 0 |}
  end.

Definition rx_desc_encode (d : e1000_rx_desc) : list Z :=
  fields_encode rx_desc_layout
    [rxd_buffer_addr d; rxd_length d; rxd_csum d; rxd_status d; rxd_errors d; rxd_special d].

(** ** Admin queue descriptor *)

Record e1000_aq_desc := {
  aq_flags : Z;
  aq_opcode : Z;
  aq_datalen : Z;
  aq_retval : Z;
  aq_cookie_high : Z;
  aq_cookie_low : Z;
  aq_param0 : Z;
  aq_param1 : Z;
  aq_addr_high : Z;
  aq_addr_low : Z;
}.
#[export] Instance e1000_aq_desc_eta : Eta e1000_aq_desc := λ d,
  Build_e1000_aq_desc (aq_flags d) (aq_opcode d) (aq_datalen d) (aq_retval d)
    (aq_cookie_high d) (aq_cookie_low d) (aq_param0 d) (aq_param1 d) (aq_addr_high d)
    (aq_addr_low d).

Definition aq_desc_layout : list nat := [2; 2; 2; 2; 4; 4; 4; 4; 4; 4]%nat.
Definition AQ_DESC_SIZE : Z := 32.

Definition aq_desc_of_fields (vs : list Z) : e1000_aq_desc :=
  match vs with
  | [a; b; c; d; e; f; g; h; i; j] =>
      {| aq_flags := a; aq_opcode := b; aq_datalen := c; aq_retval := d;
         aq_cookie_high := e; aq_cookie_low := f; aq_param0 := g; aq_param1 := h;
         aq_addr_high := i; aq_addr_low := j |}
  | _ =>
      {| aq_flags := 0; aq_opcode := 0; aq_datalen := 0; aq_retval := 0;
         aq_cookie_high := 0; aq_cookie_low := 0; aq_param0 := 0; aq_param1 := 0;
         aq_addr_high := 0; aq_addr_low := 0 |}
  end.

Definition aq_desc_fields (d : e1000_aq_desc) : list Z :=
  [aq_flags d; aq_opcode d; aq_datalen d; aq_retval d; aq_cookie_high d;
   aq_cookie_low d; aq_param0 d; aq_param1 d; aq_addr_high d; aq_addr_low d].

Definition aq_desc_decode (bs : list Z) : e1000_aq_desc :=
  aq_desc_of_fields (fields_decode aq_desc_layout bs).
Definition aq_desc_encode (d : e1000_aq_desc) : list Z :=
  fields_encode aq_desc_layout (aq_desc_fields d).

Definition aq_desc_ok (d : e1000_aq_desc) : Prop :=
  fields_ok aq_desc_layout (aq_desc_fields d).

Lemma aq_desc_fields_of vs :
  length vs = 10%nat → aq_desc_fields (aq_desc_of_fields vs) = vs.
Proof. intros H. by do 11 (destruct vs as [|? vs]; try done). Qed.

Lemma aq_desc_decode_encode d : aq_desc_ok d → aq_desc_decode (aq_desc_encode d) = d.
Proof.
  intros Hd. unfold aq_desc_decode, aq_desc_encode.
  rewrite fields_decode_encode by done. by destruct d.
Qed.

Lemma aq_desc_encode_decode bs :
  bytes_ok bs → length bs = 32%nat → aq_desc_encode (aq_desc_decode bs) = bs.
Proof.
  intros. unfold aq_desc_decode, aq_desc_encode.
  rewrite aq_desc_fields_of by (by rewrite length_fields_decode).
  by apply fields_encode_decode.
Qed.

Lemma aq_desc_decode_ok bs : bytes_ok bs → length bs = 32%nat → aq_desc_ok (aq_desc_decode bs).
Proof.
  intros. unfold aq_desc_ok, aq_desc_decode.
  rewrite aq_desc_fields_of by (by rewrite length_fields_decode).
  by apply fields_decode_ok.
Qed.

Lemma length_aq_desc_encode d : length (aq_desc_encode d) = 32%nat.
Proof. unfold aq_desc_encode. by rewrite length_fields_encode. Qed.
Lemma aq_desc_encode_ok d : bytes_ok (aq_desc_encode d).
Proof. apply fields_encode_ok. Qed.

Lemma length_tx_desc_encode d : length (tx_desc_encode d) = 16%nat.
Proof. unfold tx_desc_encode. by rewrite length_fields_encode. Qed.
Lemma length_rx_desc_encode d : length (rx_desc_encode d) = 16%nat.
Proof. unfold rx_desc_encode. by rewrite length_fields_encode. Qed.
Lemma rx_desc_encode_ok d : bytes_ok (rx_desc_encode d).
Proof. apply fields_encode_ok. Qed.

#[export] Hint Resolve aq_desc_encode_ok aq_desc_decode_ok rx_desc_encode_ok : vf.

Lemma tx_desc_decode_upper bs :
  txd_upper (tx_desc_decode bs) = le_val (take 4 (drop 12 bs)).
Proof. unfold tx_desc_decode. simpl. by rewrite drop_drop. Qed.
Lemma tx_desc_decode_lower bs :
  txd_lower (tx_desc_decode bs) = le_val (take 4 (drop 8 bs)).
Proof. done. Qed.
Lemma tx_desc_decode_addr bs :
  txd_buffer_addr (tx_desc_decode bs) = le_val (take 8 bs).
Proof. done. Qed.

Lemma rx_desc_decode_encode d :
  fields_ok rx_desc_layout
    [rxd_buffer_addr d; rxd_length d; rxd_csum d; rxd_status d; rxd_errors d; rxd_special d] →
  rx_desc_decode (rx_desc_encode d) = d.
Proof.
  intros Hd. unfold rx_desc_decode, rx_desc_encode.
  rewrite fields_decode_encode by done. by destruct d.
Qed.

Arguments aq_desc_encode : simpl never.
Arguments aq_desc_decode : simpl never.
Arguments tx_desc_encode : simpl never.
Arguments tx_desc_decode : simpl never.
Arguments rx_desc_encode : simpl never.
Arguments rx_desc_decode : simpl never.
