(* ===== verification/AqSpec.v ===== *)
(** * The contract of the admin queue

    What completing a command means, whoever does it: the firmware, the device
    when there is no firmware, and the driver that waits for the answer agree on
    this specification. *)

From S2P Require Import Prelude Bytes Memory E1000Hw.

(** The commands that are implemented; [heartbeat] says whether the driver
    heartbeat is one of them. *)
Definition aq_commands (heartbeat : bool) : list Z :=
  [e1000_aqc_get_version; e1000_aqc_echo] ++ (if heartbeat then [e1000_aqc_driver_heartbeat] else []).

(** A completed command is marked as done. A version request carries the major
    numbers of firmware and interface in the low halves of the parameters and the
    minor numbers in the high halves. A command that is not implemented carries the
    error code. Nothing else changes. *)
Definition aq_completed (heartbeat : bool) (d : e1000_aq_desc) : e1000_aq_desc :=
  let version := aq_opcode d =? e1000_aqc_get_version in {|
    aq_flags := aq_flags d .| E1000_AQ_FLAG_DD;
    aq_opcode := aq_opcode d;
    aq_datalen := aq_datalen d;
    aq_retval := if decide (aq_opcode d ∈ aq_commands heartbeat) then aq_retval d
                 else E1000_AQ_RC_ENOSYS;
    aq_cookie_high := aq_cookie_high d;
    aq_cookie_low := aq_cookie_low d;
    aq_param0 := if version then 0x34 + 2 ^ 16 * 0x13 else aq_param0 d;
    aq_param1 := if version then 0xfa + 2 ^ 16 * 0xaf else aq_param1 d;
    aq_addr_high := aq_addr_high d;
    aq_addr_low := aq_addr_low d;
  |}.

Lemma aq_completed_ok hb d : aq_desc_ok d → aq_desc_ok (aq_completed hb d).
Proof.
  unfold aq_desc_ok, fields_ok, aq_desc_layout, aq_desc_fields. rewrite !Forall2_cons_iff.
  intros (Hf&?&?&?&?&?&Hp&Hq&?&?&_).
  assert (field_ok 2 (aq_flags d .| E1000_AQ_FLAG_DD)) by (by apply (lor_in_w 16)).
  unfold aq_completed; cbn. split_and!; try done; by case_match.
Qed.

Lemma aq_completed_done hb d : has_bits (aq_flags (aq_completed hb d)) E1000_AQ_FLAG_DD = true.
Proof.
  change E1000_AQ_FLAG_DD with (2 ^ 0). rewrite has_bits_pow2 by lia. cbn [aq_completed aq_flags].
  rewrite Z.lor_spec. apply orb_true_r.
Qed.

Lemma aq_completed_known hb d :
  aq_opcode d ∈ aq_commands hb → aq_retval (aq_completed hb d) = aq_retval d.
Proof. intros. cbn. by rewrite decide_True. Qed.

Lemma aq_completed_unknown hb d :
  aq_opcode d ∉ aq_commands hb → aq_retval (aq_completed hb d) = E1000_AQ_RC_ENOSYS.
Proof. intros. cbn. by rewrite decide_False. Qed.

(** An implementation that treats the implemented commands by cases. *)
Lemma aq_completed_cases hb d :
  aq_completed hb d =
    (if aq_opcode d =? e1000_aqc_get_version
     then d <| aq_param0 := 0x130034 |> <| aq_param1 := 0xaf00fa |>
     else if aq_opcode d =? e1000_aqc_echo then d
     else if hb && (aq_opcode d =? e1000_aqc_driver_heartbeat) then d
     else d <| aq_retval := E1000_AQ_RC_ENOSYS |>) <| aq_flags ::= λ f, f .| E1000_AQ_FLAG_DD |>.
Proof.
  unfold aq_completed, aq_commands, update.
  destruct (Z.eqb_spec (aq_opcode d) e1000_aqc_get_version) as [E|E];
    [rewrite decide_True by (rewrite E; destruct hb; constructor); done|].
  destruct (Z.eqb_spec (aq_opcode d) e1000_aqc_echo) as [E1|E1];
    [rewrite decide_True by (rewrite E1; destruct hb; do 2 constructor); done|].
  destruct hb, (Z.eqb_spec (aq_opcode d) e1000_aqc_driver_heartbeat) as [E2|E2]; cbn [andb app];
    [rewrite decide_True by (rewrite E2; do 3 constructor); done|..];
    rewrite decide_False; try done; rewrite !not_elem_of_cons; split_and!; try done;
    apply not_elem_of_nil.
Qed.

(** The completion flag does not leave the sixteen bits of the flags. *)
Lemma aq_done_u16 d d' : aq_desc_ok d → aq_flags d' = aq_flags d →
  d' <| aq_flags ::= λ f, u16 (f .| E1000_AQ_FLAG_DD) |> =
  d' <| aq_flags ::= λ f, f .| E1000_AQ_FLAG_DD |>.
Proof.
  unfold aq_desc_ok, fields_ok, aq_desc_layout, aq_desc_fields. rewrite !Forall2_cons_iff.
  intros (Hf&_) E. unfold update. f_equal. rewrite E. apply wrap_small.
  by apply (lor_in_w 16).
Qed.
