(* ===== verification/E1000State.v ===== *)
(** * Device state and register handlers ([hw/e1000.c])

    The state of the emulated network card ([E1000State]) and the register
    handlers that touch nothing but that state: interrupt causes, receive
    control, the MDI (PHY) interface, the EEPROM in its bit-banged (EECD) and
    register (EERD) forms, and the plain register accessors. The level of the
    interrupt line ([qemu_set_irq]) is the field [irq]. *)

From S2P Require Import Prelude Bytes Memory E1000Hw.

(** ** State *)

Record eecd_state := {
  val_in : Z;
  bitnum_in : Z;
  bitnum_out : Z;
  reading : Z;
  old_eecd : Z;
}.
#[export] Instance eecd_state_eta : Eta eecd_state := λ e,
  Build_eecd_state (val_in e) (bitnum_in e) (bitnum_out e) (reading e) (old_eecd e).

(** [struct e1000_tx]. *)
Record e1000_tx := {
  tx_header : list Z;
  tx_vlan_header : list Z;
  tx_vlan : list Z;
  tx_data : list Z;
  tx_size : Z;
  tx_sum_needed : Z;
  tx_vlan_needed : Z;
  tx_ipcss : Z;
  tx_ipcso : Z;
  tx_ipcse : Z;
  tx_tucss : Z;
  tx_tucso : Z;
  tx_tucse : Z;
  tx_hdr_len : Z;
  tx_mss : Z;
  tx_paylen : Z;
  tx_tso_frames : Z;
  tx_tse : Z;
  tx_ip : Z;
  tx_tcp : Z;
  tx_cptse : Z;
}.
#[export] Instance e1000_tx_eta : Eta e1000_tx := λ t,
  Build_e1000_tx (tx_header t) (tx_vlan_header t) (tx_vlan t) (tx_data t) (tx_size t)
    (tx_sum_needed t) (tx_vlan_needed t) (tx_ipcss t) (tx_ipcso t) (tx_ipcse t)
    (tx_tucss t) (tx_tucso t) (tx_tucse t) (tx_hdr_len t) (tx_mss t) (tx_paylen t)
    (tx_tso_frames t) (tx_tse t) (tx_ip t) (tx_tcp t) (tx_cptse t).

(** [mac_reg] has 0x8000 entries, all zero unless written: an index that is not
    a key of the map holds 0. *)
Record E1000State := {
  irq : bool;
  mac_reg : gmap Z Z;
  phy_reg : list Z;
  eeprom_data : list Z;
  rxbuf_size : Z;
  rxbuf_min_shift : Z;
  check_rxov : Z;
  tx : e1000_tx;
  fs : Z;
  eecd : eecd_state;
}.
#[export] Instance E1000State_eta : Eta E1000State := λ s,
  Build_E1000State (irq s) (mac_reg s) (phy_reg s) (eeprom_data s) (rxbuf_size s)
    (rxbuf_min_shift s) (check_rxov s) (tx s) (fs s) (eecd s).

Definition INVALID_SOCKET : Z := -1.

Definition reg (s : E1000State) (i : Z) : Z := default 0 (mac_reg s !! i).
Definition set_reg (s : E1000State) (i v : Z) : E1000State := s <| mac_reg ::= <[i := v]> |>.

(** An array read at an index that is in range. *)
Definition arr (l : list Z) (i : Z) : Z := default 0 (l !! Z.to_nat i).

(** ** Interrupts *)

Definition set_interrupt_cause (s : E1000State) (index val : Z) : E1000State :=
  let val := if val =? 0 then val else val .| E1000_ICR_INT_ASSERTED in
  let s := set_reg s ICR val in
  let s := set_reg s ICS val in
  s <| irq := has_bits (reg s IMS) (reg s ICR) |>.

Definition set_ics (s : E1000State) (index val : Z) : E1000State :=
  set_interrupt_cause s 0 (val .| reg s ICR).

Definition set_icr (s : E1000State) (index val : Z) : E1000State :=
  set_interrupt_cause s 0 (reg s ICR .& .~ val).

Definition set_imc (s : E1000State) (index val : Z) : E1000State :=
  let s := set_reg s IMS (reg s IMS .& .~ val) in
  set_ics s 0 0.

Definition set_ims (s : E1000State) (index val : Z) : E1000State :=
  let s := set_reg s IMS (reg s IMS .| val) in
  set_ics s 0 0.

Definition mac_icr_read (s : E1000State) (index : Z) : Z * E1000State :=
  let ret := reg s ICR in
  (ret, set_interrupt_cause s 0 0).

(** ** Device and receive control *)

Definition rxbufsize (v : Z) : Z :=
  let v := v .& (E1000_RCTL_BSEX .| E1000_RCTL_SZ_16384 .| E1000_RCTL_SZ_8192 .|
                 E1000_RCTL_SZ_4096 .| E1000_RCTL_SZ_2048 .| E1000_RCTL_SZ_1024 .|
                 E1000_RCTL_SZ_512 .| E1000_RCTL_SZ_256) in
  if v =? E1000_RCTL_BSEX .| E1000_RCTL_SZ_16384 then 16384
  else if v =? E1000_RCTL_BSEX .| E1000_RCTL_SZ_8192 then 8192
  else if v =? E1000_RCTL_BSEX .| E1000_RCTL_SZ_4096 then 4096
  else if v =? E1000_RCTL_SZ_1024 then 1024
  else if v =? E1000_RCTL_SZ_512 then 512
  else if v =? E1000_RCTL_SZ_256 then 256
  else 2048.

Definition set_ctrl (s : E1000State) (index val : Z) : E1000State :=
  set_reg s CTRL (val .& .~ E1000_CTRL_RST).

Definition set_rx_control (s : E1000State) (index val : Z) : E1000State :=
  let s := set_reg s RCTL val in
  let s := s <| rxbuf_size := rxbufsize val |> in
  s <| rxbuf_min_shift := ((val / E1000_RCTL_RDMTS_QUAT) .& 3) + 1 |>.

(** ** PHY registers *)

Definition phy_regcap (addr : Z) : Z :=
  if addr =? PHY_STATUS then PHY_R
  else if addr =? M88E1000_EXT_PHY_SPEC_CTRL then PHY_RW
  else if addr =? PHY_ID1 then PHY_R
  else if addr =? M88E1000_PHY_SPEC_CTRL then PHY_RW
  else if addr =? PHY_CTRL then PHY_RW
  else if addr =? PHY_1000T_CTRL then PHY_RW
  else if addr =? PHY_LP_ABILITY then PHY_R
  else if addr =? PHY_1000T_STATUS then PHY_R
  else if addr =? PHY_AUTONEG_ADV then PHY_RW
  else if addr =? M88E1000_RX_ERR_CNTR then PHY_R
  else if addr =? PHY_ID2 then PHY_R
  else if addr =? M88E1000_PHY_SPEC_STATUS then PHY_R
  else 0.

Definition set_mdic (s : E1000State) (index val : Z) : E1000State :=
  let data := val .& E1000_MDIC_DATA_MASK in
  let addr := (val .& E1000_MDIC_REG_MASK) >> E1000_MDIC_REG_SHIFT in
  let '(s, val) :=
    if negb ((val .& E1000_MDIC_PHY_MASK) >> E1000_MDIC_PHY_SHIFT =? 1) then
      (s, reg s MDIC .| E1000_MDIC_ERROR)
    else if has_bits val E1000_MDIC_OP_READ then
      if negb (has_bits (phy_regcap addr) PHY_R) then (s, val .| E1000_MDIC_ERROR)
      else (s, (val .^ data) .| arr (phy_reg s) addr)
    else if has_bits val E1000_MDIC_OP_WRITE then
      if negb (has_bits (phy_regcap addr) PHY_W) then (s, val .| E1000_MDIC_ERROR)
      else (s <| phy_reg ::= <[Z.to_nat addr := data]> |>, val)
    else (s, val) in
  let s := set_reg s MDIC (val .| E1000_MDIC_READY) in
  set_ics s 0 E1000_ICR_MDAC.

(** ** EEPROM *)

Definition get_eecd (s : E1000State) (index : Z) : Z * E1000State :=
  let ret := E1000_EECD_PRES .| E1000_EECD_GNT .| old_eecd (eecd s) in
  let out := bitnum_out (eecd s) in
  let word := arr (eeprom_data s) ((out >> 4) .& 0x3f) in
  let ret :=
    if (reading (eecd s) =? 0) || has_bits (word >> ((out .& 0xf) .^ 0xf)) 1
    then ret .| E1000_EECD_DO else ret in
  (ret, s).

Definition set_eecd_state (e : eecd_state) (val : Z) : eecd_state :=
  let oldval := old_eecd e in
  let e := e <| old_eecd := val .& (E1000_EECD_SK .| E1000_EECD_CS .| E1000_EECD_DI .|
                                    E1000_EECD_FWE_MASK .| E1000_EECD_REQ) |> in
  if negb (has_bits E1000_EECD_CS val) then e else
  let e :=
    if has_bits E1000_EECD_CS (val .^ oldval)
    then e <| val_in := 0 |> <| bitnum_in := 0 |> <| bitnum_out := 0 |> <| reading := 0 |>
    else e in
  if negb (has_bits E1000_EECD_SK (val .^ oldval)) then e else
  if negb (has_bits E1000_EECD_SK val)
  then e <| bitnum_out ::= λ n, u16 (n + 1) |> else
  let e := e <| val_in ::= λ v, u32 (v << 1) |> in
  let e := if has_bits val E1000_EECD_DI then e <| val_in ::= λ v, v .| 1 |> else e in
  let e := e <| bitnum_in ::= λ n, u16 (n + 1) |> in
  if (bitnum_in e =? 9) && (reading e =? 0) then
    e <| bitnum_out := u16 (((val_in e .& 0x3f) << 4) - 1) |>
      <| reading := if (val_in e >> 6) .& 7 =? EEPROM_READ_OPCODE_MICROWIRE then 1 else 0 |>
  else e.

Definition set_eecd (s : E1000State) (index val : Z) : E1000State :=
  s <| eecd ::= λ e, set_eecd_state e val |>.

Definition flash_eerd_read (s : E1000State) (x : Z) : Z * E1000State :=
  let r := reg s EERD .& .~ E1000_EEPROM_RW_REG_START in
  if reg s EERD .& E1000_EEPROM_RW_REG_START =? 0 then (reg s EERD, s) else
  let index := r >> E1000_EEPROM_RW_ADDR_SHIFT in
  if index >? EEPROM_CHECKSUM_REG then (E1000_EEPROM_RW_REG_DONE .| r, s) else
  ((arr (eeprom_data s) index << E1000_EEPROM_RW_REG_DATA) .|
     E1000_EEPROM_RW_REG_DONE .| r, s).

(** ** Plain register accessors *)

Definition mac_readreg (s : E1000State) (index : Z) : Z * E1000State := (reg s index, s).

Definition mac_read_clr4 (s : E1000State) (index : Z) : Z * E1000State :=
  let ret := reg s index in (ret, set_reg s index 0).

Definition mac_read_clr8 (s : E1000State) (index : Z) : Z * E1000State :=
  let ret := reg s index in
  let s := set_reg s index 0 in
  (ret, set_reg s (index - 1) 0).

Definition mac_writereg (s : E1000State) (index val : Z) : E1000State := set_reg s index val.

Definition set_rdt (s : E1000State) (index val : Z) : E1000State :=
  set_reg (s <| check_rxov := 0 |>) index (val .& 0xffff).

Definition set_16bit (s : E1000State) (index val : Z) : E1000State :=
  set_reg s index (val .& 0xffff).

Definition set_dlen (s : E1000State) (index val : Z) : E1000State :=
  set_reg s index (val .& 0xfff80).

Definition vlan_enabled (s : E1000State) : bool := has_bits (reg s CTRL) E1000_CTRL_VME.
Definition vlan_rx_filter_enabled (s : E1000State) : bool :=
  has_bits (reg s RCTL) E1000_RCTL_VFE.
Definition is_vlan_txd (txd_lower : Z) : bool := has_bits txd_lower E1000_TXD_CMD_VLE.
Definition fcs_len (s : E1000State) : Z := if has_bits (reg s RCTL) E1000_RCTL_SECRC then 0 else 4.

(** [le16_to_cpup((uint16_t * )(s->mac_reg + VET))]: the low half of the
    register on the little-endian host. *)
Definition vet (s : E1000State) : Z := u16 (reg s VET).

(** ** Link status and receive enable *)

Definition e1000_set_link_status (s : E1000State) (link_down : bool) : E1000State :=
  let old_status := reg s STATUS in
  let s :=
    if link_down then set_reg s STATUS (reg s STATUS .& .~ E1000_STATUS_LU)
    else set_reg s STATUS (reg s STATUS .| E1000_STATUS_LU) in
  if negb (reg s STATUS =? old_status) then set_ics s 0 E1000_ICR_LSC else s.

Definition e1000_can_receive (s : E1000State) : bool := has_bits (reg s RCTL) E1000_RCTL_EN.

(** ** Lemmas on registers *)

Lemma reg_set_eq s i v : reg (set_reg s i v) i = v.
Proof. unfold reg. cbn. by rewrite lookup_insert_eq. Qed.
Lemma reg_set_ne s i j v : i ≠ j → reg (set_reg s i v) j = reg s j.
Proof. intros. unfold reg. cbn. by rewrite lookup_insert_ne. Qed.
Lemma reg_set s i j v : reg (set_reg s i v) j = if decide (i = j) then v else reg s j.
Proof. case_decide; subst; [apply reg_set_eq|by apply reg_set_ne]. Qed.

(** [reg_simpl] computes register reads after writes at different constants. *)
Ltac reg_simpl :=
  repeat first
    [ rewrite reg_set_eq
    | rewrite reg_set_ne by done ].

Lemma reg_irq s b j : reg (s <| irq := b |>) j = reg s j.
Proof. done. Qed.

Lemma reg_set_interrupt_cause s i v j :
  j ≠ ICR → j ≠ ICS → reg (set_interrupt_cause s i v) j = reg s j.
Proof.
  intros. unfold set_interrupt_cause. by rewrite reg_irq, !reg_set_ne by congruence.
Qed.

Lemma set_interrupt_cause_icr s i v :
  reg (set_interrupt_cause s i v) ICR = (if v =? 0 then v else v .| E1000_ICR_INT_ASSERTED).
Proof. unfold set_interrupt_cause. rewrite reg_irq. by reg_simpl. Qed.

Lemma set_interrupt_cause_ics s i v :
  reg (set_interrupt_cause s i v) ICS = reg (set_interrupt_cause s i v) ICR.
Proof.
  rewrite set_interrupt_cause_icr. unfold set_interrupt_cause. rewrite reg_irq. by reg_simpl.
Qed.

(** Raising the causes [c] and [v], the first of them not empty. *)
Lemma set_ics_icr s i c v :
  c ≠ 0 → reg (set_ics s i (c .| v)) ICR = reg s ICR .| c .| E1000_ICR_INT_ASSERTED .| v.
Proof.
  intros Hc. unfold set_ics. rewrite set_interrupt_cause_icr, (proj2 (Z.eqb_neq _ _)).
  - rewrite (Z.lor_comm (c .| v)), !Z.lor_assoc, <- !(Z.lor_assoc (_ .| c)). f_equal. apply Z.lor_comm.
  - by intros [[? _]%Z.lor_eq_0_iff _]%Z.lor_eq_0_iff.
Qed.

Lemma set_interrupt_cause_irq s i v :
  irq (set_interrupt_cause s i v) =
    has_bits (reg (set_interrupt_cause s i v) IMS) (reg (set_interrupt_cause s i v) ICR).
Proof. done. Qed.

(** ** The interrupt invariant

    The line is high exactly when an unmasked cause is pending, the two views of
    the cause register agree, and a pending cause carries the asserted bit. *)

Record irq_ok (s : E1000State) : Prop := {
  irq_line : irq s = has_bits (reg s IMS) (reg s ICR);
  irq_ics : reg s ICS = reg s ICR;
  irq_asserted : reg s ICR ≠ 0 → has_bits (reg s ICR) E1000_ICR_INT_ASSERTED = true;
}.

Lemma has_bits_lor_r v b k : 0 ≤ k → b = 2 ^ k → has_bits (v .| b) b = true.
Proof.
  intros Hk ->. rewrite has_bits_pow2, Z.lor_spec, Z.pow2_bits_true by done. apply orb_true_r.
Qed.

Lemma set_interrupt_cause_ok s i v : irq_ok (set_interrupt_cause s i v).
Proof.
  split.
  - done.
  - apply set_interrupt_cause_ics.
  - rewrite set_interrupt_cause_icr. destruct (Z.eqb_spec v 0) as [->|]; [done|]. intros _.
    by apply (has_bits_lor_r _ _ 31).
Qed.

(** Writing another register, or another field, keeps the invariant. *)
Lemma irq_ok_frame s s' :
  irq s' = irq s → reg s' IMS = reg s IMS → reg s' ICR = reg s ICR → reg s' ICS = reg s ICS →
  irq_ok s → irq_ok s'.
Proof. intros E1 E2 E3 E4 []. split; rewrite ?E1, ?E2, ?E3, ?E4; done. Qed.

Lemma irq_ok_set_reg s i v : i ≠ IMS → i ≠ ICR → i ≠ ICS → irq_ok s → irq_ok (set_reg s i v).
Proof. intros. apply (irq_ok_frame s); rewrite ?reg_set_ne by congruence; done. Qed.

(** ** Well-formedness: every field holds a value of its C type *)

Record tx_ok (t : e1000_tx) : Prop := {
  tx_header_ok : length (tx_header t) = 256%nat ∧ bytes_ok (tx_header t);
  tx_vlan_header_ok : length (tx_vlan_header t) = 4%nat ∧ bytes_ok (tx_vlan_header t);
  tx_vlan_ok : length (tx_vlan t) = 4%nat ∧ bytes_ok (tx_vlan t);
  tx_data_ok : length (tx_data t) = Z.to_nat 0x10000 ∧ bytes_ok (tx_data t);
  tx_u8_ok : Forall (in_w 8) [tx_sum_needed t; tx_vlan_needed t; tx_ipcss t; tx_ipcso t;
    tx_tucss t; tx_tucso t; tx_hdr_len t; tx_tse t; tx_ip t; tx_tcp t; tx_cptse t];
  tx_u16_ok : Forall (in_w 16) [tx_size t; tx_ipcse t; tx_tucse t; tx_mss t; tx_tso_frames t];
  tx_u32_ok : in_w 32 (tx_paylen t);
}.

Record eecd_ok (e : eecd_state) : Prop := {
  eecd_u32_ok : Forall (in_w 32) [val_in e; old_eecd e];
  eecd_u16_ok : Forall (in_w 16) [bitnum_in e; bitnum_out e; reading e];
}.

Record dev_ok (s : E1000State) : Prop := {
  mac_reg_ok : ∀ i, in_w 32 (reg s i);
  phy_reg_ok : length (phy_reg s) = 32%nat ∧ Forall (in_w 16) (phy_reg s);
  eeprom_ok : length (eeprom_data s) = 64%nat ∧ Forall (in_w 16) (eeprom_data s);
  rxbuf_ok : 0 ≤ rxbuf_size s ≤ 16384 ∧ 0 ≤ rxbuf_min_shift s ≤ 4;
  dev_tx_ok : tx_ok (tx s);
  dev_eecd_ok : eecd_ok (eecd s);
}.

Lemma in_w_mono w w' z : in_w w z → w ≤ w' → in_w w' z.
Proof.
  unfold in_w. intros [? ?] ?. assert (2 ^ w ≤ 2 ^ w'); [|lia].
  apply Z.pow_le_mono_r; lia.
Qed.

Lemma arr_in_w w l i : 0 ≤ w → Forall (in_w w) l → in_w w (arr l i).
Proof.
  intros Hw Hl. unfold arr. destruct (l !! _) eqn:E; simpl.
  - by eapply Forall_lookup_1.
  - unfold in_w. split; [done|]. apply Z.pow_pos_nonneg; lia.
Qed.

Lemma land_in_w_r w a b : 0 ≤ w → in_w w b → in_w w (a .& b).
Proof. intros. rewrite Z.land_comm. by apply land_in_w. Qed.

(** [in_w_solve] proves ranges of expressions built from values in range. *)
Ltac in_w_const :=
  match goal with
  | |- in_w _ ?c =>
      first [is_const c | match c with Z0 => idtac | Zpos _ => idtac end];
      split; [vm_compute; discriminate|vm_compute; reflexivity]
  end.
Ltac in_w_solve :=
  repeat first
    [ assumption
    | apply u8_in_w | apply u16_in_w | apply u32_in_w
    | in_w_const
    | apply lor_in_w; [lia| |]
    | apply lxor_in_w; [lia| |]
    | apply land_in_w; [lia|] ].

Lemma dev_ok_set_reg s i v : in_w 32 v → dev_ok s → dev_ok (set_reg s i v).
Proof.
  intros Hv []. split; try done. intros j. rewrite reg_set. by case_decide.
Qed.

Lemma dev_ok_irq s b : dev_ok s → dev_ok (s <| irq := b |>).
Proof. intros []. by split. Qed.

Lemma set_interrupt_cause_dev_ok s i v : in_w 32 v → dev_ok s → dev_ok (set_interrupt_cause s i v).
Proof.
  intros Hv Hs. unfold set_interrupt_cause. apply dev_ok_irq.
  assert (in_w 32 (if v =? 0 then v else v .| E1000_ICR_INT_ASSERTED)).
  { case_match; in_w_solve. }
  by apply dev_ok_set_reg, dev_ok_set_reg.
Qed.

Lemma set_ics_dev_ok s i v : in_w 32 v → dev_ok s → dev_ok (set_ics s i v).
Proof.
  intros Hv Hs. apply set_interrupt_cause_dev_ok; [|done].
  apply lor_in_w; [lia|done|apply Hs].
Qed.

(** Deciding ranges of concrete values by computation. *)
Lemma Forall_in_w_compute w l :
  forallb (λ z, (0 <=? z) && (z <? 2 ^ w)) l = true → Forall (in_w w) l.
Proof.
  rewrite forallb_forall, Forall_forall. intros Hl z Hz.
  specialize (Hl z Hz). unfold in_w. lia.
Qed.

(** *** Every handler keeps the device well-formed *)

Lemma rxbufsize_range v : 256 ≤ rxbufsize v ≤ 16384.
Proof. unfold rxbufsize. cbv zeta. repeat case_match; lia. Qed.

Lemma set_rx_control_ok s i v : in_w 32 v → dev_ok s → dev_ok (set_rx_control s i v).
Proof.
  intros Hv Hs. pose proof (dev_ok_set_reg s RCTL v Hv Hs) as [].
  unfold set_rx_control. split; try done. cbn. split.
  - pose proof (rxbufsize_range v). lia.
  - pose proof (land_le_r (v / E1000_RCTL_RDMTS_QUAT) 3 ltac:(lia)). lia.
Qed.

Lemma set_mdic_ok s i v : in_w 32 v → dev_ok s → dev_ok (set_mdic s i v).
Proof.
  intros Hv Hs. unfold set_mdic. cbv zeta.
  assert (in_w 32 (reg s MDIC)) by apply Hs.
  assert (∀ a, in_w 32 (arr (phy_reg s) a)) as Hphy.
  { intros a. apply in_w_mono with 16; [|lia]. apply arr_in_w; [lia|apply Hs]. }
  destruct (negb _); [|destruct (has_bits _ _); [|destruct (has_bits _ _)]];
    try destruct (negb _); apply set_ics_dev_ok; try in_w_const; apply dev_ok_set_reg;
    try in_w_solve; try done; try apply Hphy.
  destruct Hs. split; try done. cbn. split.
  - rewrite length_insert. apply phy_reg_ok0.
  - apply Forall_insert; [apply phy_reg_ok0|]. by apply land_in_w_r; [lia|in_w_const].
Qed.

Lemma set_eecd_ok s i v : in_w 32 v → dev_ok s → dev_ok (set_eecd s i v).
Proof.
  intros Hv []. unfold set_eecd. split; try done. cbn.
  destruct dev_eecd_ok0 as [Hu32 Hu16]. rewrite !Forall_cons_iff in Hu32.
  rewrite !Forall_cons_iff in Hu16. destruct_and! Hu32. destruct_and! Hu16.
  unfold set_eecd_state. repeat case_match; split; cbn;
    rewrite !Forall_cons_iff; split_and!; try apply Forall_nil_2; in_w_solve.
Qed.
