(* ===== verification/E1000Eeprom.v ===== *)
(** * Reading the EEPROM and the PHY through the device registers

    What a driver sees when it talks to the EEPROM: bit by bit through the EECD
    register (the Microwire protocol) and word by word through EERD; and when
    it accesses PHY registers through MDIC. *)

From S2P Require Import Prelude Bytes Memory E1000Hw E1000State.

(** ** The driver's side of the Microwire protocol *)

Definition EECD_SELECT : Z := E1000_EECD_CS .| E1000_EECD_REQ.

(** Clocking one bit into the EEPROM: data, rising edge, falling edge. *)
Definition mw_shift_out (s : E1000State) (b : bool) : E1000State :=
  let v := EECD_SELECT .| (if b then E1000_EECD_DI else 0) in
  set_eecd (set_eecd (set_eecd s 0 v) 0 (v .| E1000_EECD_SK)) 0 v.

(** Clocking one bit out: rising edge, sample the data line, falling edge. *)
Definition mw_shift_in (s : E1000State) : bool * E1000State :=
  let s := set_eecd s 0 (EECD_SELECT .| E1000_EECD_SK) in
  (has_bits (get_eecd s 0).1 E1000_EECD_DO, set_eecd s 0 EECD_SELECT).

(** The read command: opcode 110 and a six-bit address, first bit first. *)
Definition mw_command (a : Z) : list bool :=
  map (λ k, Z.testbit ((EEPROM_READ_OPCODE_MICROWIRE << 6) .| a) k) [8; 7; 6; 5; 4; 3; 2; 1; 0].

Fixpoint mw_bits (n : nat) (acc : Z) (s : E1000State) : Z * E1000State :=
  match n with
  | O => (acc, s)
  | S n => let '(b, s) := mw_shift_in s in mw_bits n (2 * acc + Z.b2z b) s
  end.

Definition mw_read (s : E1000State) (a : Z) : Z * E1000State :=
  let s := set_eecd s 0 EECD_SELECT in
  mw_bits 16 0 (foldl mw_shift_out s (mw_command a)).

(** ** The protocol state *)

Lemma has_bits_sym a b : has_bits a b = has_bits b a.
Proof. unfold has_bits. by rewrite Z.land_comm. Qed.

Lemma has_bits_lxor m k v w : 0 ≤ k → m = 2 ^ k →
  has_bits m (v .^ w) = xorb (has_bits v m) (has_bits w m).
Proof. intros ? ->. by rewrite has_bits_sym, !has_bits_pow2, Z.lxor_spec. Qed.

(** Raising the chip select resets the state; an old high clock counts as a
    falling edge. *)
Definition eecd_selected (sk : bool) : eecd_state := {|
  val_in := 0; bitnum_in := 0; bitnum_out := if sk then 1 else 0; reading := 0;
  old_eecd := EECD_SELECT |}.

Lemma set_eecd_select e :
  has_bits (old_eecd e) E1000_EECD_CS = false →
  set_eecd_state e EECD_SELECT = eecd_selected (has_bits (old_eecd e) E1000_EECD_SK).
Proof.
  intros Hcs. unfold set_eecd_state. cbv zeta.
  rewrite (has_bits_lxor E1000_EECD_CS 1), (has_bits_lxor E1000_EECD_SK 0), Hcs by done.
  destruct (has_bits (old_eecd e) E1000_EECD_SK); done.
Qed.

(** The state after the nine command bits. *)
Definition eecd_addressed (a : Z) : eecd_state := {|
  val_in := (EEPROM_READ_OPCODE_MICROWIRE << 6) .| a; bitnum_in := 9; bitnum_out := 16 * a;
  reading := 1;
  old_eecd := EECD_SELECT .| (if Z.testbit a 0 then E1000_EECD_DI else 0) |}.

Definition mw_shift_out_state (e : eecd_state) (b : bool) : eecd_state :=
  let v := EECD_SELECT .| (if b then E1000_EECD_DI else 0) in
  set_eecd_state (set_eecd_state (set_eecd_state e v) (v .| E1000_EECD_SK)) v.

(** Checking a property of a small range by computing both sides. *)
Lemma seqZ_map_eq {A} (f g : Z → A) n :
  map f (seqZ 0 n) = map g (seqZ 0 n) → ∀ a, 0 ≤ a < n → f a = g a.
Proof.
  intros H a Ha. assert (a ∈ seqZ 0 n) as Hin by (apply elem_of_seqZ; lia).
  revert H Hin. generalize (seqZ 0 n). intros l. induction l as [|x l IH]; simpl.
  - intros _ Hin. by apply elem_of_nil in Hin.
  - intros [= E1 E2] [->|Hin]%elem_of_cons; auto.
Qed.

Lemma mw_command_state a sk : 0 ≤ a < 64 →
  foldl mw_shift_out_state (eecd_selected sk) (mw_command a) = eecd_addressed a.
Proof.
  revert a. destruct sk; apply seqZ_map_eq; vm_compute; reflexivity.
Qed.

Lemma mw_command_eecd s l :
  foldl mw_shift_out s l = s <| eecd ::= λ e, foldl mw_shift_out_state e l |>.
Proof.
  revert s. induction l as [|b l IH]; intros s; simpl; [by destruct s|]. by rewrite IH.
Qed.

(** *** Shifting in *)

(** The EEPROM is being read and its next bit is number [n]. *)
Definition eecd_reading (e : eecd_state) (n : Z) : Prop :=
  reading e = 1 ∧ bitnum_out e = n ∧
  has_bits (old_eecd e) E1000_EECD_CS = true ∧ has_bits (old_eecd e) E1000_EECD_SK = false.

Lemma mw_shift_in_spec s n :
  eecd_reading (eecd s) n → 0 ≤ n < 65535 →
  ∃ s', mw_shift_in s =
    (Z.testbit (arr (eeprom_data s) ((n >> 4) .& 0x3f)) ((n .& 0xf) .^ 0xf), s') ∧
    eeprom_data s' = eeprom_data s ∧ eecd_reading (eecd s') (n + 1).
Proof.
  intros (Hr&Hn&Hcs&Hsk) Hrange. unfold mw_shift_in.
  set (s1 := set_eecd s 0 (EECD_SELECT .| E1000_EECD_SK)).
  assert (reading (eecd s1) = 1 ∧ bitnum_out (eecd s1) = n ∧
    old_eecd (eecd s1) = EECD_SELECT .| E1000_EECD_SK ∧ eeprom_data s1 = eeprom_data s)
    as (Hr1&Hn1&Ho1&He1).
  { unfold s1, set_eecd. cbn [eecd eeprom_data update]. unfold set_eecd_state. cbv zeta.
    rewrite (has_bits_lxor E1000_EECD_CS 1), (has_bits_lxor E1000_EECD_SK 0), Hcs, Hsk by done.
    change (has_bits E1000_EECD_CS (EECD_SELECT .| E1000_EECD_SK)) with true.
    change (has_bits E1000_EECD_SK (EECD_SELECT .| E1000_EECD_SK)) with true.
    change (has_bits (EECD_SELECT .| E1000_EECD_SK) E1000_EECD_CS) with true.
    change (has_bits (EECD_SELECT .| E1000_EECD_SK) E1000_EECD_SK) with true.
    change (has_bits (EECD_SELECT .| E1000_EECD_SK) E1000_EECD_DI) with false.
    cbn [negb xorb update reading bitnum_in bitnum_out val_in old_eecd].
    rewrite Hr. cbn [Z.eqb Pos.eqb]. rewrite andb_false_r. done. }
  clearbody s1. eexists. split.
  - f_equal. unfold get_eecd. cbv zeta. rewrite Hr1, Hn1, Ho1, He1. cbn [fst Z.eqb orb].
    change 1 with (2 ^ 0) at 1. rewrite has_bits_pow2, Z.shiftr_spec, Z.add_0_l by lia.
    by destruct (Z.testbit _ _).
  - split; [done|]. unfold eecd_reading, set_eecd. cbn [eecd update].
    unfold set_eecd_state. cbv zeta. rewrite Ho1.
    change (has_bits E1000_EECD_CS EECD_SELECT) with true.
    change (has_bits E1000_EECD_SK EECD_SELECT) with false.
    change (has_bits E1000_EECD_CS (EECD_SELECT .^ (EECD_SELECT .| E1000_EECD_SK))) with false.
    change (has_bits E1000_EECD_SK (EECD_SELECT .^ (EECD_SELECT .| E1000_EECD_SK))) with true.
    cbn [negb update reading bitnum_in bitnum_out val_in old_eecd].
    rewrite Hr1, Hn1. split_and!; [done| |done..]. apply u16_small. lia.
Qed.

Lemma bitnum_split a k : 0 ≤ a < 64 → 0 ≤ k < 16 →
  ((16 * a + k) >> 4) .& 0x3f = a ∧ ((16 * a + k) .& 0xf) .^ 0xf = 15 - k.
Proof.
  intros Ha Hk.
  set (f := λ n, ((n >> 4) .& 0x3f, (n .& 0xf) .^ 0xf)).
  set (g := λ n, (n / 16, 15 - n `mod` 16)).
  assert (f (16 * a + k) = g (16 * a + k)) as E.
  { apply (seqZ_map_eq f g 1024); [vm_compute; reflexivity|lia]. }
  unfold f, g in E. injection E as -> ->.
  rewrite (Z.add_comm (16 * a)), (Z.mul_comm 16), Z.div_add, Z.mod_add by lia.
  rewrite Z.div_small, Z.mod_small by lia. done.
Qed.

Lemma div_pow2_step w j : 0 ≤ j →
  2 * (w / 2 ^ (j + 1)) + Z.b2z (Z.testbit w j) = w / 2 ^ j.
Proof.
  intros Hj. rewrite Z.testbit_odd, Z.shiftr_div_pow2 by done.
  rewrite Z.pow_add_r, <- Z.div_div by lia. change (2 ^ 1) with 2.
  pose proof (Z.div_mod (w / 2 ^ j) 2 ltac:(lia)) as E.
  rewrite Zmod_odd in E. destruct (Z.odd (w / 2 ^ j)); simpl Z.b2z; lia.
Qed.

Lemma mw_bits_spec n k a s :
  0 ≤ a < 64 → Z.of_nat n + k = 16 → 0 ≤ k →
  eecd_reading (eecd s) (16 * a + k) →
  ∃ s', mw_bits n (arr (eeprom_data s) a / 2 ^ Z.of_nat n) s = (arr (eeprom_data s) a, s') ∧
        eeprom_data s' = eeprom_data s.
Proof.
  revert k s. induction n as [|n IH]; intros k s Ha Hnk Hk Hs.
  { exists s. simpl. by rewrite Z.div_1_r. }
  destruct (mw_shift_in_spec s _ Hs ltac:(lia)) as (s1&E1&Hd&Hs1).
  destruct (bitnum_split a k Ha ltac:(lia)) as [Ea Ek]. rewrite Ea, Ek in E1.
  destruct (IH (k + 1) s1 Ha ltac:(lia) ltac:(lia)) as (s2&E2&Hd2).
  { by replace (16 * a + (k + 1)) with (16 * a + k + 1) by lia. }
  exists s2. cbn [mw_bits]. rewrite E1. rewrite Hd in E2, Hd2. split; [|done].
  replace (15 - k) with (Z.of_nat n) by lia.
  rewrite Nat2Z.inj_succ, <- Z.add_1_r, div_pow2_step by lia. exact E2.
Qed.

(** C26: the sixteen bits a driver clocks out after a Microwire read command for
    address [a] are the EEPROM word at [a], from any state in which the chip
    select is low. *)
Theorem eeprom_microwire_read s a :
  dev_ok s → has_bits (old_eecd (eecd s)) E1000_EECD_CS = false → 0 ≤ a < 64 →
  (mw_read s a).1 = arr (eeprom_data s) a ∧
  eeprom_data (mw_read s a).2 = eeprom_data s.
Proof.
  intros Hok Hcs Ha. unfold mw_read. rewrite mw_command_eecd. cbv zeta.
  set (s9 := set_eecd s 0 EECD_SELECT <| eecd ::= _ |>).
  assert (eecd s9 = eecd_addressed a) as He9.
  { unfold s9. cbn [eecd update set_eecd]. rewrite set_eecd_select by done.
    by apply mw_command_state. }
  destruct (mw_bits_spec 16 0 a s9 Ha) as (s'&E&Hd); [done|done| |].
  { rewrite He9. unfold eecd_reading, eecd_addressed. cbn [reading bitnum_out old_eecd].
    split_and!; [done|lia|by destruct (Z.testbit a 0)..]. }
  assert (arr (eeprom_data s9) a / 2 ^ Z.of_nat 16 = 0) as E0.
  { apply Z.div_small. apply (arr_in_w 16); [lia|]. apply Hok. }
  rewrite E0 in E. rewrite E. cbn [fst snd]. by rewrite Hd.
Qed.

(** ** The EERD register *)

(** The value a driver writes to start a read of word [a]. *)
Definition eerd_start (a : Z) : Z := (a << E1000_EEPROM_RW_ADDR_SHIFT) .| E1000_EEPROM_RW_REG_START.

Lemma eerd_start_fields a : 0 ≤ a →
  eerd_start a .& E1000_EEPROM_RW_REG_START = 1 ∧
  eerd_start a .& .~ E1000_EEPROM_RW_REG_START = a << 8.
Proof.
  intros Ha. unfold eerd_start. change E1000_EEPROM_RW_ADDR_SHIFT with 8.
  change E1000_EEPROM_RW_REG_START with (2 ^ 0).
  assert (∀ n, 0 ≤ n → Z.testbit (a << 8) n && Z.testbit (2 ^ 0) n = false) as Hd.
  { intros n Hn. destruct (decide (n = 0)) as [->|].
    - by rewrite Z.shiftl_spec_low.
    - rewrite Z.pow2_bits_false by done. apply andb_false_r. }
  split; apply Z.bits_inj'; intros n Hn; specialize (Hd n Hn);
    rewrite ?Z.land_spec, ?Z.lnot_spec, ?Z.lor_spec by done.
  - change 1 with (2 ^ 0). by destruct (Z.testbit (a << 8) n), (Z.testbit (2 ^ 0) n).
  - by destruct (Z.testbit (a << 8) n), (Z.testbit (2 ^ 0) n).
Qed.

(** After a driver started a read of word [a] through EERD, reading the
    register gives the done bit and, in the upper half, the EEPROM word when
    [a] is one of the 64 words, and no data otherwise. *)
Theorem eerd_read_word s a :
  dev_ok s → 0 ≤ a < 2 ^ 24 → reg s EERD = eerd_start a →
  let v := (flash_eerd_read s 0).1 in
  has_bits v E1000_EEPROM_RW_REG_DONE = true ∧
  (a < 64 → v >> 16 = arr (eeprom_data s) a) ∧
  (64 ≤ a → v = E1000_EEPROM_RW_REG_DONE .| (a << 8)).
Proof.
  intros Hok Ha Hr. destruct (eerd_start_fields a ltac:(lia)) as [Es Er].
  unfold flash_eerd_read. rewrite Hr, Es, Er. cbv zeta.
  change (1 =? 0) with false. change E1000_EEPROM_RW_ADDR_SHIFT with 8.
  rewrite Z.shiftr_shiftl_l, Z.sub_diag, Z.shiftl_0_r by lia.
  change EEPROM_CHECKSUM_REG with 63. change E1000_EEPROM_RW_REG_DATA with 16.
  change E1000_EEPROM_RW_REG_DONE with (2 ^ 4).
  destruct (Z.gtb_spec a 63) as [Hgt|Hle]; cbn [fst].
  - rewrite has_bits_pow2, Z.lor_spec, Z.pow2_bits_true by lia. split; [done|]. lia.
  - rewrite has_bits_pow2, !Z.lor_spec, Z.pow2_bits_true, orb_true_r by lia.
    split; [done|]. split; [|lia]. intros _.
    rewrite !Z.shiftr_lor, Z.shiftr_shiftl_l, Z.sub_diag, Z.shiftl_0_r by lia.
    replace (2 ^ 4 >> 16) with 0 by done. rewrite Z.lor_0_r.
    replace ((a << 8) >> 16) with 0; [apply Z.lor_0_r|].
    rewrite Z.shiftr_div_pow2, Z.shiftl_mul_pow2 by lia.
    symmetry. apply Z.div_small. change (2 ^ 16) with 65536. change (2 ^ 8) with 256. lia.
Qed.

(** ** MDIC *)

Definition mdic_write_cmd (a d : Z) : Z :=
  (E1000_MDIC_OP_WRITE .| (1 << E1000_MDIC_PHY_SHIFT) .| (a << E1000_MDIC_REG_SHIFT)) .| d.
Definition mdic_read_cmd (a : Z) : Z :=
  E1000_MDIC_OP_READ .| (1 << E1000_MDIC_PHY_SHIFT) .| (a << E1000_MDIC_REG_SHIFT).

Lemma land_low_high d m : 0 ≤ d < 65536 → d .& (m << 16) = 0.
Proof.
  intros Hd. apply Z.bits_inj'. intros n Hn. rewrite Z.land_spec, Z.bits_0.
  destruct (decide (n < 16)).
  - rewrite Z.shiftl_spec_low by lia. apply andb_false_r.
  - rewrite <- (Z.mod_small d (2 ^ 16)) by (simpl; lia).
    by rewrite Z.mod_pow2_bits_high by lia.
Qed.

(** The PHY registers a driver may both read and write. *)
Definition phy_rw : list Z :=
  [PHY_CTRL; PHY_AUTONEG_ADV; PHY_1000T_CTRL; M88E1000_PHY_SPEC_CTRL; M88E1000_EXT_PHY_SPEC_CTRL].

Lemma mdic_write_fields a d : a ∈ phy_rw → 0 ≤ d < 65536 →
  let v := mdic_write_cmd a d in
  v .& E1000_MDIC_DATA_MASK = d ∧ v .& E1000_MDIC_REG_MASK = a << 16 ∧
  v .& E1000_MDIC_PHY_MASK = 1 << 21 ∧ has_bits v E1000_MDIC_OP_READ = false ∧
  has_bits v E1000_MDIC_OP_WRITE = true ∧ has_bits v E1000_MDIC_ERROR = false.
Proof.
  intros Ha Hd. unfold mdic_write_cmd, has_bits. cbv zeta. rewrite !Z.land_lor_distr_l.
  assert (d .& E1000_MDIC_DATA_MASK = d) as ->.
  { change E1000_MDIC_DATA_MASK with (Z.ones 16). rewrite Z.land_ones by lia.
    apply Z.mod_small. simpl. lia. }
  change E1000_MDIC_REG_MASK with (0x1F << 16). change E1000_MDIC_PHY_MASK with (0x3E0 << 16).
  change E1000_MDIC_OP_READ with (0x800 << 16). change E1000_MDIC_OP_WRITE with (0x400 << 16).
  change E1000_MDIC_ERROR with (0x4000 << 16).
  rewrite !(land_low_high d) by done.
  unfold phy_rw in Ha. rewrite !elem_of_cons in Ha.
  destruct Ha as [->|[->|[->|[->|[->|Ha]]]]]; [..|by apply elem_of_nil in Ha];
    vm_compute (E1000_MDIC_OP_WRITE .| _); rewrite Z.lor_0_l; done.
Qed.

Lemma phy_rw_cap a : a ∈ phy_rw →
  0 ≤ a < 32 ∧ has_bits (phy_regcap a) PHY_R = true ∧ has_bits (phy_regcap a) PHY_W = true.
Proof.
  intros Ha. unfold phy_rw in Ha. rewrite !elem_of_cons in Ha.
  destruct Ha as [->|[->|[->|[->|[->|Ha]]]]]; [done..|by apply elem_of_nil in Ha].
Qed.

Lemma set_mdic_write s i a d : a ∈ phy_rw → 0 ≤ d < 65536 →
  set_mdic s i (mdic_write_cmd a d) =
    set_ics (set_reg (s <| phy_reg ::= <[Z.to_nat a := d]> |>) MDIC
               (mdic_write_cmd a d .| E1000_MDIC_READY)) 0 E1000_ICR_MDAC.
Proof.
  intros Ha Hd. destruct (mdic_write_fields a d Ha Hd) as (Ed&Er&Ep&Hr&Hw&He).
  destruct (phy_rw_cap a Ha) as (Hrange&_&Hcw).
  unfold set_mdic. cbv zeta. rewrite Ed, Er, Ep, Hr, Hw.
  change E1000_MDIC_PHY_SHIFT with 21. change E1000_MDIC_REG_SHIFT with 16.
  rewrite !Z.shiftr_shiftl_l, !Z.sub_diag, !Z.shiftl_0_r by lia. by rewrite Hcw.
Qed.

Lemma mdic_read_fields a : a ∈ phy_rw →
  let v := mdic_read_cmd a in
  v .& E1000_MDIC_DATA_MASK = 0 ∧ v .& E1000_MDIC_REG_MASK = a << 16 ∧
  v .& E1000_MDIC_PHY_MASK = 1 << 21 ∧ has_bits v E1000_MDIC_OP_READ = true ∧
  v .& E1000_MDIC_ERROR = 0.
Proof.
  intros Ha. unfold phy_rw in Ha. rewrite !elem_of_cons in Ha.
  destruct Ha as [->|[->|[->|[->|[->|Ha]]]]]; [done..|by apply elem_of_nil in Ha].
Qed.

Lemma set_mdic_read s i a : a ∈ phy_rw →
  set_mdic s i (mdic_read_cmd a) =
    set_ics (set_reg s MDIC (mdic_read_cmd a .| arr (phy_reg s) a .| E1000_MDIC_READY))
      0 E1000_ICR_MDAC.
Proof.
  intros Ha. destruct (mdic_read_fields a Ha) as (Ed&Er&Ep&Hr&He).
  destruct (phy_rw_cap a Ha) as (Hrange&Hcr&_).
  unfold set_mdic. cbv zeta. rewrite Ed, Er, Ep, Hr.
  change E1000_MDIC_PHY_SHIFT with 21. change E1000_MDIC_REG_SHIFT with 16.
  rewrite !Z.shiftr_shiftl_l, !Z.sub_diag, !Z.shiftl_0_r by lia.
  by rewrite Hcr, Z.lxor_0_r.
Qed.

(** A value written to a writable PHY register through MDIC is read back
    through MDIC; both accesses complete (ready, no error) and raise the MDI
    access interrupt cause, and no other PHY register changes. *)
Theorem mdic_write_read s a d :
  dev_ok s → a ∈ phy_rw → 0 ≤ d < 65536 →
  let s1 := set_mdic s MDIC (mdic_write_cmd a d) in
  let s2 := set_mdic s1 MDIC (mdic_read_cmd a) in
  reg s2 MDIC .& E1000_MDIC_DATA_MASK = d ∧
  has_bits (reg s2 MDIC) E1000_MDIC_READY = true ∧
  has_bits (reg s2 MDIC) E1000_MDIC_ERROR = false ∧
  has_bits (reg s2 ICR) E1000_ICR_MDAC = true ∧
  phy_reg s2 = <[Z.to_nat a := d]> (phy_reg s).
Proof.
  intros Hok Ha Hd. cbv zeta. rewrite set_mdic_write, set_mdic_read by done.
  destruct (phy_rw_cap a Ha) as (Hrange&_). destruct (mdic_read_fields a Ha) as (Ed&_&_&_&He).
  set (s0 := s <| phy_reg ::= <[Z.to_nat a := d]> |>).
  set (s1 := set_ics (set_reg s0 MDIC _) 0 E1000_ICR_MDAC).
  assert (arr (phy_reg s1) a = d) as ->.
  { unfold arr. change (phy_reg s1) with (<[Z.to_nat a := d]> (phy_reg s)).
    rewrite list_lookup_insert_eq; [done|]. destruct (phy_reg_ok s Hok) as [-> _]. lia. }
  unfold set_ics at 1 2 3 4. rewrite set_interrupt_cause_icr, !reg_set_interrupt_cause by done.
  rewrite reg_set_eq. split_and!.
  - rewrite !Z.land_lor_distr_l, Ed.
    change (E1000_MDIC_READY .& E1000_MDIC_DATA_MASK) with 0. rewrite Z.lor_0_l, Z.lor_0_r.
    change E1000_MDIC_DATA_MASK with (Z.ones 16). rewrite Z.land_ones by lia.
    apply Z.mod_small. simpl. lia.
  - by apply (has_bits_lor_r _ _ 28).
  - unfold has_bits. rewrite !Z.land_lor_distr_l, He.
    change E1000_MDIC_ERROR with (0x4000 << 16). by rewrite land_low_high.
  - set (c := E1000_ICR_MDAC .| _). assert (Z.testbit c 9 = true) as Hc.
    { unfold c. change E1000_ICR_MDAC with (2 ^ 9). by rewrite Z.lor_spec, Z.pow2_bits_true. }
    change E1000_ICR_MDAC with (2 ^ 9). rewrite has_bits_pow2 by lia.
    case_match; [done|]. by rewrite Z.lor_spec, Hc.
  - done.
Qed.
