(* ===== verification/E1000Tx.v ===== *)
(** * Transmit path ([hw/e1000.c])

    [putsum], [xmit_seg], [process_tx_desc], [txdesc_writeback] and
    [start_xmit] over a machine made of the device, guest memory, the frames
    handed to the network ([qemu_send_packet]) and the world of the firmware
    link. The transmit buffers are C objects of fixed size; an access outside
    them is [UB OutOfBounds]. The two loops whose bound depends on guest data
    take fuel. *)

From S2P Require Import Prelude Bytes Memory NetChecksum E1000Hw E1000State.
Import Checksum.

(** ** The machine *)

Record machine (X W : Type) := Machine {
  dev : E1000State;
  mem : X;
  sent : list (list Z);
  world : W;
}.
Arguments Machine {X W} _ _ _ _.
Arguments dev {X W} _.
Arguments mem {X W} _.
Arguments sent {X W} _.
Arguments world {X W} _.
#[export] Instance machine_eta X W : Eta (machine X W) := λ m,
  Machine (dev m) (mem m) (sent m) (world m).

Section machine_ops.
Context {X W : Type} `{PhysMem X}.

Definition get_dev {A} (f : E1000State → A) : M (machine X W) A := gets (λ m, f (dev m)).
Definition mod_dev (f : E1000State → E1000State) : M (machine X W) unit :=
  modify (λ m, m <| dev ::= f |>).
Definition get_tx {A} (f : e1000_tx → A) : M (machine X W) A := get_dev (λ s, f (tx s)).
Definition mod_tx (f : e1000_tx → e1000_tx) : M (machine X W) unit :=
  mod_dev (λ s, s <| tx ::= f |>).
Definition get_reg (i : Z) : M (machine X W) Z := get_dev (λ s, reg s i).
Definition put_reg (i v : Z) : M (machine X W) unit := mod_dev (λ s, set_reg s i v).

(** [cpu_physical_memory_read] and [_write] with their [int] length: a length
    that is not positive transfers nothing. *)
Definition cpu_physical_memory_read (addr len : Z) : M (machine X W) (list Z) :=
  gets (λ m, phys_read (mem m) addr (Z.to_nat (s32 len))).
Definition cpu_physical_memory_write (addr : Z) (buf : list Z) : M (machine X W) unit :=
  modify (λ m, m <| mem ::= λ x, phys_write x addr buf |>).

Definition qemu_send_packet (frame : list Z) : M (machine X W) unit :=
  modify (λ m, m <| sent ::= λ l, l ++ [frame] |>).

(** Accesses to [tx.data]. *)
Definition data_load (off n : Z) : M (machine X W) (list Z) :=
  d ← get_tx tx_data; oob (load d (Z.to_nat off) (Z.to_nat n)).
Definition data_store (off : Z) (l : list Z) : M (machine X W) unit :=
  d ← get_tx tx_data;
  d ← oob (store d (Z.to_nat off) l);
  mod_tx (λ t, t <| tx_data := d |>).
End machine_ops.

(** ** Checksum insertion *)

Definition putsum (data : list Z) (n sloc css cse : Z) : option (list Z) :=
  let n := if negb (cse =? 0) && (cse <? n) then u32 (cse + 1) else n in
  if sloc <? u32 (n - 1) then
    sum ← net_checksum_add (s32 (u32 (n - css))) (drop (Z.to_nat css) data);
    store data (Z.to_nat sloc) (cpu_to_be16wu (net_checksum_finish sum))
  else Some data.

Section transmit.
Context {X W : Type} `{PhysMem X}.
Abbreviation MM := (M (machine X W)).

(** The header rewrite of [xmit_seg] for a segmented packet. *)
Definition xmit_seg_tso : MM unit :=
  tp ← get_tx id;
  let frames := tx_tso_frames tp in
  let css := tx_ipcss tp in
  (if negb (tx_ip tp =? 0) then
     data_store (css + 2) (cpu_to_be16wu (u16 (tx_size tp - css)));;
     id_ ← data_load (css + 4) 2;
     data_store (css + 4) (cpu_to_be16wu (u16 (be16_to_cpup id_ + frames)))
   else data_store (css + 4) (cpu_to_be16wu (u16 (tx_size tp - css))));;
  let css := tx_tucss tp in
  let len := u16 (tx_size tp - css) in
  (if negb (tx_tcp tp =? 0) then
     let sofar := u32 (frames * tx_mss tp) in
     seq ← data_load (css + 4) 4;
     data_store (css + 4) (cpu_to_be32wu (u32 (be32_to_cpupu seq + sofar)));;
     if u32 (tx_paylen tp - sofar) >? tx_mss tp then
       fl ← data_load (css + 13) 1;
       data_store (css + 13) [u8 (arr fl 0 .& .~ 9)]
     else mret ()
   else data_store (css + 4) (cpu_to_be16wu len));;
  (if has_bits (tx_sum_needed tp) E1000_TXD_POPTS_TXSM then
     sp ← data_load (tx_tucso tp) 2;
     let phsum := u32 (be16_to_cpup sp + len) in
     let phsum := u32 ((phsum >> 16) + (phsum .& 0xffff)) in
     data_store (tx_tucso tp) (cpu_to_be16wu (u16 phsum))
   else mret ());;
  mod_tx (λ t, t <| tx_tso_frames ::= λ n, u16 (n + 1) |>).

(** The checksums of [xmit_seg]. *)
Definition xmit_seg_sums : MM unit :=
  tp ← get_tx id;
  (if has_bits (tx_sum_needed tp) E1000_TXD_POPTS_TXSM then
     d ← get_tx tx_data;
     d ← oob (putsum d (tx_size tp) (tx_tucso tp) (tx_tucss tp) (tx_tucse tp));
     mod_tx (λ t, t <| tx_data := d |>)
   else mret ());;
  (if has_bits (tx_sum_needed tp) E1000_TXD_POPTS_IXSM then
     d ← get_tx tx_data;
     d ← oob (putsum d (tx_size tp) (tx_ipcso tp) (tx_ipcss tp) (tx_ipcse tp));
     mod_tx (λ t, t <| tx_data := d |>)
   else mret ()).

(** Handing the frame over, with the VLAN tag inserted when it is needed: the
    frame then starts in [tx.vlan], which [tx.data] follows. *)
Definition xmit_seg_send : MM unit :=
  tp ← get_tx id;
  if negb (tx_vlan_needed tp =? 0) then
    v ← data_load 0 4;
    mod_tx (λ t, t <| tx_vlan := v |>);;
    d ← data_load 4 8;
    data_store 0 d;;
    data_store 8 (tx_vlan_header tp);;
    tp ← get_tx id;
    frame ← oob (load (tx_vlan tp ++ tx_data tp) 0 (Z.to_nat (tx_size tp + 4)));
    qemu_send_packet frame
  else
    frame ← data_load 0 (tx_size tp);
    qemu_send_packet frame.

Definition xmit_seg_stats : MM unit :=
  sz ← get_tx tx_size;
  mod_dev (λ s, set_reg s TPT (u32 (reg s TPT + 1)));;
  mod_dev (λ s, set_reg s GPTC (u32 (reg s GPTC + 1)));;
  n ← get_reg TOTL;
  put_reg TOTL (u32 (n + sz));;
  n' ← get_reg TOTL;
  if n' <? n then mod_dev (λ s, set_reg s TOTH (u32 (reg s TOTH + 1))) else mret ().

Definition xmit_seg : MM unit :=
  tp ← get_tx id;
  (if negb (tx_tse tp =? 0) && negb (tx_cptse tp =? 0) then xmit_seg_tso else mret ());;
  xmit_seg_sums;;
  xmit_seg_send;;
  xmit_seg_stats.

(** ** Descriptors *)

Definition flag (b : bool) : Z := if b then 1 else 0.

(** The context descriptor branch. *)
Definition tx_context (xp : e1000_context_desc) (tp : e1000_tx) : e1000_tx :=
  let op := xd_cmd_and_length xp in
  let tp := tp <| tx_ipcss := xd_ipcss xp |> <| tx_ipcso := xd_ipcso xp |>
               <| tx_ipcse := xd_ipcse xp |> <| tx_tucss := xd_tucss xp |>
               <| tx_tucso := xd_tucso xp |> <| tx_tucse := xd_tucse xp |>
               <| tx_paylen := op .& 0xfffff |> <| tx_hdr_len := xd_hdr_len xp |>
               <| tx_mss := xd_mss xp |>
               <| tx_ip := flag (has_bits op E1000_TXD_CMD_IP) |>
               <| tx_tcp := flag (has_bits op E1000_TXD_CMD_TCP) |>
               <| tx_tse := flag (has_bits op E1000_TXD_CMD_TSE) |>
               <| tx_tso_frames := 0 |> in
  if tx_tucso tp =? 0
  then tp <| tx_tucso := u8 (tx_tucss tp + (if negb (tx_tcp tp =? 0) then 16 else 6)) |>
  else tp.

(** The segmentation loop of [process_tx_desc]. *)
Fixpoint tso_loop (fuel : nat) (hdr msh addr split_size : Z) : MM unit :=
  match fuel with
  | O => no_fuel
  | S fuel =>
      size ← get_tx tx_size;
      let bytes := if u32 (size + split_size) >? msh then u32 (msh - size) else split_size in
      chunk ← cpu_physical_memory_read addr bytes;
      data_store size chunk;;
      let sz := u32 (size + bytes) in
      (if (hdr <=? sz) && (size <? hdr) then
         h ← data_load 0 hdr;
         hd ← get_tx tx_header;
         hd ← oob (store hd 0 h);
         mod_tx (λ t, t <| tx_header := hd |>)
       else mret ());;
      mod_tx (λ t, t <| tx_size := u16 sz |>);;
      let addr := u64 (addr + bytes) in
      (if sz =? msh then
         xmit_seg;;
         hd ← get_tx tx_header;
         h ← oob (load hd 0 (Z.to_nat hdr));
         data_store 0 h;;
         mod_tx (λ t, t <| tx_size := u16 hdr |>)
       else mret ());;
      let split_size := u32 (split_size - bytes) in
      if split_size =? 0 then mret () else tso_loop fuel hdr msh addr split_size
  end.

(** Descriptor type: the head of [process_tx_desc] for data and legacy
    descriptors, up to the copy of the payload. *)
Definition tx_begin (s : E1000State) (dp : e1000_tx_desc) (dtype : Z) : e1000_tx :=
  let txd_lower := txd_lower dp in
  let tp := tx s in
  let tp :=
    if dtype =? E1000_TXD_CMD_DEXT .| E1000_TXD_DTYP_D then
      tp <| tx_sum_needed := u8 (txd_upper dp >> 8) |>
         <| tx_cptse := flag (has_bits txd_lower E1000_TXD_CMD_TSE) |>
    else tp <| tx_cptse := 0 |> in
  if vlan_enabled s && is_vlan_txd txd_lower &&
     (negb (tx_cptse tp =? 0) || has_bits txd_lower E1000_TXD_CMD_EOP)
  then tp <| tx_vlan_needed := 1 |>
          <| tx_vlan_header := cpu_to_be16wu (vet s) ++ cpu_to_be16wu (txd_special dp) |>
  else tp.

Definition process_tx_desc (fuel : nat) (dp : e1000_tx_desc) : MM unit :=
  let txd_lower := txd_lower dp in
  let dtype := txd_lower .& (E1000_TXD_CMD_DEXT .| E1000_TXD_DTYP_D) in
  let split_size := txd_lower .& 0xffff in
  if dtype =? E1000_TXD_CMD_DEXT then mod_tx (tx_context (context_of_tx_desc dp))
  else
    tp ← get_dev (λ s, tx_begin s dp dtype);
    mod_tx (λ _, tp);;
    let addr := txd_buffer_addr dp in
    let tso := negb (tx_tse tp =? 0) && negb (tx_cptse tp =? 0) in
    let hdr := if tso then tx_hdr_len tp else 0 in
    (if tso then tso_loop fuel hdr (hdr + tx_mss tp) addr split_size
     else if (tx_tse tp =? 0) && negb (tx_cptse tp =? 0) then mret ()
     else
       size ← get_tx tx_size;
       chunk ← cpu_physical_memory_read addr split_size;
       data_store size chunk;;
       mod_tx (λ t, t <| tx_size := u16 (size + split_size) |>));;
    if negb (has_bits txd_lower E1000_TXD_CMD_EOP) then mret () else
    tp ← get_tx id;
    (if negb (negb (tx_tse tp =? 0) && negb (tx_cptse tp =? 0) && (tx_size tp <? hdr))
     then xmit_seg else mret ());;
    mod_tx (λ t, t <| tx_tso_frames := 0 |> <| tx_sum_needed := 0 |>
                   <| tx_vlan_needed := 0 |> <| tx_size := 0 |> <| tx_cptse := 0 |>).

Definition txdesc_writeback (base : Z) (dp : e1000_tx_desc) : MM Z :=
  if negb (has_bits (txd_lower dp) (E1000_TXD_CMD_RS .| E1000_TXD_CMD_RPS)) then mret 0 else
  let txd_upper := (txd_upper dp .| E1000_TXD_STAT_DD) .&
                   .~ (E1000_TXD_STAT_EC .| E1000_TXD_STAT_LC .| E1000_TXD_STAT_TU) in
  cpu_physical_memory_write (u64 (base + 12)) (le_bytes 4 txd_upper);;
  mret E1000_ICR_TXDW.

(** ** The descriptor ring *)

Definition tx_ring_base (s : E1000State) : Z :=
  u64 ((reg s TDBAH << 32) + reg s TDBAL + 16 * reg s TDH).

Definition tdh_next (s : E1000State) : Z :=
  let h := u32 (reg s TDH + 1) in
  if h * 16 >=? reg s TDLEN then 0 else h.

Fixpoint xmit_loop (fuel : nat) (tdh_start cause : Z) : MM Z :=
  match fuel with
  | O => no_fuel
  | S fuel' =>
      tdh ← get_reg TDH;
      tdt ← get_reg TDT;
      if tdh =? tdt then mret cause else
      base ← get_dev tx_ring_base;
      bs ← cpu_physical_memory_read base 16;
      let desc := tx_desc_decode bs in
      process_tx_desc fuel' desc;;
      c ← txdesc_writeback base desc;
      let cause := cause .| c in
      mod_dev (λ s, set_reg s TDH (tdh_next s));;
      tdh ← get_reg TDH;
      if tdh =? tdh_start then mret cause else xmit_loop fuel' tdh_start cause
  end.

Definition start_xmit (fuel : nat) : MM unit :=
  tdh_start ← get_reg TDH;
  tctl ← get_reg TCTL;
  if negb (has_bits tctl E1000_TCTL_EN) then mret () else
  cause ← xmit_loop fuel tdh_start E1000_ICS_TXQE;
  mod_dev (λ s, set_ics s 0 cause).

Definition set_tctl (fuel : nat) (index val : Z) : MM unit :=
  put_reg index val;;
  mod_dev (λ s, set_reg s TDT (reg s TDT .& 0xffff));;
  start_xmit fuel.
End transmit.
