(* ===== verification/E1000Rx.v ===== *)
(** * Receive path ([hw/e1000.c])

    The receive filter and [e1000_receive]. The caller's frame buffer is passed
    by reference in the source and the VLAN branch moves bytes inside it, so the
    model returns the buffer along with the result. *)

From S2P Require Import Prelude Bytes Memory E1000Hw E1000State E1000Tx.

Definition is_vlan_packet (s : E1000State) (buf : list Z) : bool :=
  be16_to_cpup (take 2 (drop 12 buf)) =? vet s.

Definition bcast : list Z := [0xff; 0xff; 0xff; 0xff; 0xff; 0xff].
Definition mta_shift : list Z := [4; 3; 2; 0].

(** The VLAN identifier of the frame, and the VLAN filter table test. *)
Definition vlan_vid (buf : list Z) : Z := be16_to_cpup (take 2 (drop 14 buf)).
Definition vfta_index (vid : Z) : Z := VFTA + ((vid >> 5) .& 0x7f).
Definition vfta_match (s : E1000State) (vid : Z) : bool :=
  has_bits (reg s (vfta_index vid)) (1 << (vid .& 0x1f)).

(** Entry [k] of the receive address table. *)
Definition ra_match (s : E1000State) (buf : list Z) (k : Z) : bool :=
  let r0 := reg s (RA + 2 * k) in
  let r1 := reg s (RA + 2 * k + 1) in
  has_bits r1 E1000_RAH_AV &&
  bool_decide (take 6 buf = take 6 (le_bytes 4 r0 ++ le_bytes 4 r1)).

Definition mta_hash (rctl : Z) (buf : list Z) : Z :=
  let f := arr mta_shift ((rctl >> E1000_RCTL_MO_SHIFT) .& 3) in
  (((arr buf 5 << 8) .| arr buf 4) >> f) .& 0xfff.
Definition mta_index (f : Z) : Z := MTA + (f >> 5).

Definition receive_filter (s : E1000State) (buf : list Z) : bool :=
  let rctl := reg s RCTL in
  if is_vlan_packet s buf && vlan_rx_filter_enabled s && negb (vfta_match s (vlan_vid buf))
  then false
  else if has_bits rctl E1000_RCTL_UPE then true
  else if has_bits (arr buf 0) 1 && has_bits rctl E1000_RCTL_MPE then true
  else if has_bits rctl E1000_RCTL_BAM && bool_decide (take 6 buf = bcast) then true
  else if existsb (ra_match s buf) (seqZ 0 16) then true
  else
    let f := mta_hash rctl buf in
    has_bits (reg s (mta_index f)) (1 << (f .& 0x1f)).

(** Padding to the minimum Ethernet frame length. *)
Definition pad_min (buf : list Z) : list Z :=
  if Z.of_nat (length buf) <? MIN_BUF_SIZE
  then buf ++ replicate (Z.to_nat MIN_BUF_SIZE - length buf) 0 else buf.

Definition rx_ring_base (s : E1000State) : Z :=
  u64 ((reg s RDBAH << 32) + reg s RDBAL + 16 * reg s RDH).

Definition rdh_next (s : E1000State) : Z :=
  let h := u32 (reg s RDH + 1) in
  if h * 16 >=? reg s RDLEN then 0 else h.

(** What [e1000_receive] makes of the descriptor read from the ring. *)
Definition rx_desc_fill (s : E1000State) (size special status : Z) (d : e1000_rx_desc) :
    e1000_rx_desc :=
  let d := d <| rxd_special := special |>
             <| rxd_status ::= λ st, st .| (status .| E1000_RXD_STAT_DD) |> in
  if negb (rxd_buffer_addr d =? 0) then
    d <| rxd_length := u16 (size + fcs_len s) |>
      <| rxd_status ::= λ st, st .| (E1000_RXD_STAT_EOP .| E1000_RXD_STAT_IXSM) |>
  else d.

(** The counters after a delivered frame. *)
Definition rx_stats (size : Z) (s : E1000State) : E1000State :=
  let s := set_reg s GPRC (u32 (reg s GPRC + 1)) in
  let s := set_reg s TPR (u32 (reg s TPR + 1)) in
  let n := u32 (reg s TORL + size + 4) in
  let s := if n <? reg s TORL then set_reg s TORH (u32 (reg s TORH + 1)) else s in
  set_reg s TORL n.

(** The interrupt cause: the timer, and the threshold when few descriptors are
    left. *)
Definition rx_cause (s : E1000State) : Z :=
  let rdt := if reg s RDT <? reg s RDH then u32 (reg s RDT + reg s RDLEN / 16) else reg s RDT in
  if u32 (rdt - reg s RDH) * 16 <=? reg s RDLEN >> rxbuf_min_shift s
  then E1000_ICS_RXT0 .| E1000_ICS_RXDMT0 else E1000_ICS_RXT0.

Definition rx_done (size : Z) (s : E1000State) : E1000State :=
  let s := rx_stats size s in set_ics s 0 (rx_cause s).

Section receive.
Context {X W : Type} `{PhysMem X}.
Abbreviation MM := (M (machine X W)).

(** The [do ... while (desc.buffer_addr == 0)] loop; [false] is the overrun
    exit ([return -1]). *)
Fixpoint rx_loop (fuel : nat) (rdh_start special status : Z) (payload : list Z) : MM bool :=
  match fuel with
  | O => no_fuel
  | S fuel =>
      s ← get_dev id;
      if (reg s RDH =? reg s RDT) && negb (check_rxov s =? 0) then
        mod_dev (λ s, set_ics s 0 E1000_ICS_RXO);; mret false
      else
        let base := rx_ring_base s in
        bs ← cpu_physical_memory_read base 16;
        let size := Z.of_nat (length payload) in
        let desc := rx_desc_fill s size special status (rx_desc_decode bs) in
        (if negb (rxd_buffer_addr desc =? 0)
         then cpu_physical_memory_write (rxd_buffer_addr desc) payload else mret ());;
        cpu_physical_memory_write base (rx_desc_encode desc);;
        mod_dev (λ s, set_reg s RDH (rdh_next s));;
        mod_dev (λ s, s <| check_rxov := 1 |>);;
        rdh ← get_reg RDH;
        if rdh =? rdh_start then
          mod_dev (λ s, set_ics s 0 E1000_ICS_RXO);; mret false
        else if rxd_buffer_addr desc =? 0
        then rx_loop fuel rdh_start special status payload
        else mret true
  end.

(** [e1000_receive(nc, buf, size)] with [size = length buf]; the result is the
    return value and the caller's buffer afterwards. *)
Definition e1000_receive (fuel : nat) (buf0 : list Z) : MM (Z * list Z) :=
  s ← get_dev id;
  if negb (has_bits (reg s RCTL) E1000_RCTL_EN) then mret (-1, buf0) else
  let buf := pad_min buf0 in
  let size := Z.of_nat (length buf) in
  if size >? rxbuf_size s then mret (-1, buf0) else
  if negb (receive_filter s buf) then mret (size, buf0) else
  let strip := vlan_enabled s && is_vlan_packet s buf in
  let special := if strip then vlan_vid buf else 0 in
  let status := if strip then E1000_RXD_STAT_VP else 0 in
  buf ← (if strip then oob (store buf 4 (take 12 buf)) else mret buf);
  let payload := if strip then drop 4 buf else buf in
  let buf0 := if Z.of_nat (length buf0) <? MIN_BUF_SIZE then buf0 else buf in
  let size := Z.of_nat (length payload) in
  rdh_start ← get_reg RDH;
  ok ← rx_loop fuel rdh_start special status payload;
  if negb ok then mret (-1, buf0) else
  mod_dev (rx_done size);;
  mret (size, buf0).
End receive.
