(* ===== verification/E1000Ring.v ===== *)
(** * Descriptor rings of the device

    The transmit and the receive ring are laid out alike: a 64-bit base in two
    registers, a length in bytes, and a head register that counts descriptors of
    sixteen bytes and wraps to zero at the length. What the two paths have in
    common is stated here for any such ring. *)

From S2P Require Import Prelude Bytes Memory E1000Hw E1000State E1000Tx E1000Rx.

(** The registers of a ring. *)
Record ring_regs := {
  r_bah : Z;
  r_bal : Z;
  r_len : Z;
  r_head : Z;
}.

Definition tx_ring : ring_regs := {| r_bah := TDBAH; r_bal := TDBAL; r_len := TDLEN; r_head := TDH |}.
Definition rx_ring : ring_regs := {| r_bah := RDBAH; r_bal := RDBAL; r_len := RDLEN; r_head := RDH |}.

Definition ring_list (r : ring_regs) : list Z := [r_bah r; r_bal r; r_len r; r_head r].

(** The slot of descriptor [i], the number of slots, and the slot [i] places
    behind the head. *)
Definition ring_slot (r : ring_regs) (s : E1000State) (i : Z) : Z :=
  u64 ((reg s (r_bah r) << 32) + reg s (r_bal r) + 16 * i).
Definition ring_len (r : ring_regs) (s : E1000State) : Z := reg s (r_len r) / 16.
Definition ring_nth (r : ring_regs) (s : E1000State) (i : nat) : Z :=
  ring_slot r s ((reg s (r_head r) + Z.of_nat i) `mod` ring_len r s).

(** The head register after a descriptor. *)
Definition ring_next (r : ring_regs) (s : E1000State) : Z :=
  let h := u32 (reg s (r_head r) + 1) in if h * 16 >=? reg s (r_len r) then 0 else h.

(** A whole number of slots, and the head is one of them. *)
Definition ring_ok (r : ring_regs) (s : E1000State) : Prop :=
  reg s (r_len r) = 16 * ring_len r s ∧ 0 ≤ reg s (r_head r) < ring_len r s.

Section ring.
Context (r : ring_regs).
Implicit Types (s : E1000State).

Lemma ring_len_bound s : (∀ i, in_w 32 (reg s i)) → ring_len r s ≤ 2 ^ 28.
Proof.
  intros Hs. pose proof (Hs (r_len r)). unfold in_w, ring_len in *. apply Z.div_le_upper_bound; lia.
Qed.

Lemma ring_nth_disjoint s i j :
  (∀ i, in_w 32 (reg s i)) → (i < j)%nat → Z.of_nat j < ring_len r s →
  range_disjoint (ring_nth r s i) 16 (ring_nth r s j) 16.
Proof.
  intros Hs Hij Hj. pose proof (ring_len_bound s Hs).
  pose proof (ring_index_ne (reg s (r_head r)) _ (Z.of_nat i) (Z.of_nat j) ltac:(lia) Hj) as Hne.
  pose proof (Z.mod_pos_bound (reg s (r_head r) + Z.of_nat i) (ring_len r s) ltac:(lia)).
  pose proof (Z.mod_pos_bound (reg s (r_head r) + Z.of_nat j) (ring_len r s) ltac:(lia)).
  apply (slot_disjoint _ 16); lia.
Qed.

Lemma ring_nth_0 s : ring_ok r s → ring_nth r s 0 = ring_slot r s (reg s (r_head r)).
Proof. intros [_ ?]. unfold ring_nth. rewrite Z.add_0_r, Z.mod_small by lia. done. Qed.

(** The head meets the slots behind it only after a full round. *)
Lemma ring_head_ne s k :
  ring_ok r s → 0 < k < ring_len r s →
  (reg s (r_head r) + k) `mod` ring_len r s ≠ reg s (r_head r).
Proof.
  intros [_ Hh] Hk E. pose proof (ring_index_ne (reg s (r_head r)) (ring_len r s) 0 k) as Hn.
  rewrite Z.add_0_r, E, Z.mod_small in Hn by lia. apply Hn; [lia|lia|done].
Qed.

Lemma ring_next_mod s :
  (∀ i, in_w 32 (reg s i)) → ring_ok r s →
  ring_next r s = (reg s (r_head r) + 1) `mod` ring_len r s.
Proof.
  intros Hs [Hl Hh]. pose proof (ring_len_bound s Hs).
  unfold ring_next. rewrite u32_small by lia. rewrite Hl, Z.geb_leb.
  destruct (Z.leb_spec (16 * ring_len r s) ((reg s (r_head r) + 1) * 16)).
  - replace (reg s (r_head r) + 1) with (ring_len r s) by lia. by rewrite Z.mod_same by lia.
  - rewrite Z.mod_small; lia.
Qed.

Lemma ring_ext s s' :
  (∀ i, i ∈ ring_list r → reg s' i = reg s i) →
  ring_len r s' = ring_len r s ∧ ring_next r s' = ring_next r s ∧
  (∀ i, ring_nth r s' i = ring_nth r s i) ∧ (ring_ok r s → ring_ok r s').
Proof.
  intros E. unfold ring_list in E.
  assert (ring_len r s' = ring_len r s) as El by (unfold ring_len; rewrite E; set_solver).
  split_and!; [done|..].
  - unfold ring_next. rewrite !E by set_solver. done.
  - intros i. unfold ring_nth, ring_slot. rewrite El, !E by set_solver. done.
  - unfold ring_ok. rewrite El, !E by set_solver. done.
Qed.

(** After a descriptor the ring has moved by one slot. *)
Lemma ring_step s s' :
  r_head r ∉ [r_bah r; r_bal r; r_len r] → (∀ i, in_w 32 (reg s i)) → ring_ok r s →
  (∀ i, i ∈ ring_list r → reg s' i = reg s i) →
  let s2 := set_reg s' (r_head r) (ring_next r s') in
  ring_ok r s2 ∧ ring_len r s2 = ring_len r s ∧
  reg s2 (r_head r) = (reg s (r_head r) + 1) `mod` ring_len r s ∧
  ∀ i, ring_nth r s2 i = ring_nth r s (S i).
Proof.
  intros Hnd Hs Hr HF. destruct (ring_ext s s' HF) as (El&En&_&_).
  cbv zeta. rewrite En, ring_next_mod by done.
  set (h := (reg s (r_head r) + 1) `mod` ring_len r s).
  assert (∀ i, i ∈ ring_list r → i ≠ r_head r → reg (set_reg s' (r_head r) h) i = reg s i) as HF2.
  { intros i Hi Hne. rewrite reg_set_ne by done. by apply HF. }
  unfold ring_list in *.
  assert (r_bah r ≠ r_head r ∧ r_bal r ≠ r_head r ∧ r_len r ≠ r_head r) as (?&?&?) by set_solver.
  assert (ring_len r (set_reg s' (r_head r) h) = ring_len r s) as El2
    by (unfold ring_len; by rewrite HF2 by set_solver).
  split_and!; [|done|apply reg_set_eq|].
  - unfold ring_ok. rewrite El2, reg_set_eq, HF2 by set_solver. destruct Hr as [? ?].
    split; [done|]. apply Z.mod_pos_bound. lia.
  - intros i. unfold ring_nth, ring_slot. rewrite El2, reg_set_eq, !HF2 by set_solver.
    unfold h. rewrite Zplus_mod_idemp_l. do 4 f_equal. lia.
Qed.
End ring.
