(* ===== verification/Process.v ===== *)
(** * The host process

    The messaging library ([vf_tx/], and its copy [qemu-kvm-0.14.1/hw/msg/])
    runs on the operating system's sockets, files and allocator. Those are the
    class [OS]: every operation takes the state of the system and answers with a
    result or an error number. Nothing is assumed about the answers here; the
    theorems that need documented behaviour name it as laws. The state of a
    process is the operating system, [errno], the global [OPT], the heap objects
    of type [PANEL] and the debug output. *)

From S2P Require Import Prelude Bytes Memory.

(** ** Constants of the system headers *)

Module Sys.
Definition EPERM : Z := 1.
Definition ENOMEM : Z := 12.
Definition EINVAL : Z := 22.
Definition ENOSPC : Z := 28.
Definition EAFNOSUPPORT : Z := 97.
Definition ECANCELED : Z := 125.
Definition AF_UNSPEC : Z := 0.
Definition AF_INET : Z := 2.
Definition AF_INET6 : Z := 10.
Definition SOCK_STREAM : Z := 1.
Definition SOCK_DGRAM : Z := 2.
Definition IPPROTO_IP : Z := 0.
Definition IPPROTO_TCP : Z := 6.
Definition IPPROTO_UDP : Z := 17.
Definition IPPROTO_IPV6 : Z := 41.
Definition SOL_SOCKET : Z := 1.
Definition SO_REUSEADDR : Z := 2.
Definition SO_LINGER : Z := 13.
Definition IP_MULTICAST_IF : Z := 32.
Definition IP_MULTICAST_TTL : Z := 33.
Definition IP_MULTICAST_LOOP : Z := 34.
Definition IP_ADD_MEMBERSHIP : Z := 35.
Definition IP_DROP_MEMBERSHIP : Z := 36.
Definition IPV6_MULTICAST_IF : Z := 17.
Definition IPV6_MULTICAST_HOPS : Z := 18.
Definition IPV6_MULTICAST_LOOP : Z := 19.
Definition IPV6_ADD_MEMBERSHIP : Z := 20.
Definition IPV6_DROP_MEMBERSHIP : Z := 21.
Definition IFF_UP : Z := 0x1.
Definition IFF_LOOPBACK : Z := 0x8.
Definition IFF_MULTICAST : Z := 0x1000.
Definition NI_MAXHOST : Z := 1025.
Definition SOCKADDR_SIZE : nat := 16.
End Sys.

(** [panel.h]. *)
Abbreviation NO_ERROR := 0.
Definition SOCKET_ERROR : Z := .~ 0.

(** ** Data *)

Definition MULTICAST_ADDR : string := "234.1.1.10".
Definition MULTICAST_PORT : string := "9751".
Abbreviation MAGIC_NUMBER := 0xe1000.
Definition TCP_PORT : string := "9752".
Abbreviation CONNECT_TIMEOUT := 0.
Abbreviation DBGLVL := 3.
Abbreviation DBG_STATUS := 1.
Abbreviation DBG_ERROR := 2.
Abbreviation DBG_WARN := 3.
Abbreviation DBG_VERB := 4.
Definition OPTBUFLEN : Z := 1024.

(** [struct options]; the sizes of the character arrays are those of [opt.h]. *)
Record options := {
  mcastip : string;
  mcastport : string;
  magicnum : Z;
  tcpport : string;
  timeout : Z;
  dbglvl : Z;
  set : Z;
}.
#[export] Instance options_eta : Eta options := λ o,
  Build_options (mcastip o) (mcastport o) (magicnum o) (tcpport o) (timeout o) (dbglvl o) (set o).

Definition OPT_default : options := {|
  mcastip := MULTICAST_ADDR; mcastport := MULTICAST_PORT; magicnum := MAGIC_NUMBER;
  tcpport := TCP_PORT; timeout := CONNECT_TIMEOUT; dbglvl := DBGLVL; set := 0 |}.

(** [struct socket_panel]; a [struct sockaddr] is its sixteen bytes. *)
Record PANEL := {
  sp_socket : Z;
  sp_bind : list Z;
  sp_dest : list Z;
  sp_family : Z;
  sp_socktype : Z;
  sp_protocol : Z;
  sp_flags : Z;
  sp_zero : Z;
}.
#[export] Instance PANEL_eta : Eta PANEL := λ p,
  Build_PANEL (sp_socket p) (sp_bind p) (sp_dest p) (sp_family p) (sp_socktype p)
    (sp_protocol p) (sp_flags p) (sp_zero p).

(** One element of the list [getifaddrs] returns: name, flags and address (if
    any). *)
Record ifaddr := {
  ifa_name : string;
  ifa_flags : Z;
  ifa_addr : option (list Z);
}.

(** ** The operating system *)

(** A failed call gives its [errno], a successful one its value. *)
Definition res (A : Type) : Type := (Z + A)%type.

Class OS (W : Type) := {
  os_malloc : Z → W → bool * W;
  os_garbage : nat → W → list Z * W;
  os_fopen : string → W → option string * W;
  os_socket : Z → Z → Z → W → res Z * W;
  os_close : Z → W → res unit * W;
  os_setsockopt : Z → Z → Z → list Z → W → res unit * W;
  os_bind : Z → list Z → W → res unit * W;
  os_listen : Z → Z → W → res unit * W;
  os_accept : Z → W → res (Z * list Z) * W;
  os_connect : Z → list Z → W → res unit * W;
  os_send : Z → list Z → W → res Z * W;
  os_recv : Z → Z → bool → W → res (list Z) * W;
  os_sendto : Z → list Z → list Z → W → res Z * W;
  os_recvfrom : Z → Z → W → res (list Z * list Z) * W;
  os_select : list Z → option Z → W → res (list Z * Z) * W;
  os_getaddrinfo : option string → string → Z → Z → Z → W → option (list Z) * W;
  os_getifaddrs : W → res (list ifaddr) * W;
  os_getnameinfo : list Z → W → option string * W;
  os_inet_pton : string → option (list Z);
  os_inet_ntop : Z → list Z → option string;
}.

(** ** The process *)

Definition ptr : Type := Z.
Definition NULL : ptr := 0.

Record proc (W : Type) := Proc {
  os : W;
  errno : Z;
  OPT : options;
  panels : gmap ptr PANEL;
  next_ptr : ptr;
  log : list (Z * string);
}.
Arguments Proc {W} _ _ _ _ _ _.
Arguments os {W} _.
Arguments errno {W} _.
Arguments OPT {W} _.
Arguments panels {W} _.
Arguments next_ptr {W} _.
Arguments log {W} _.
#[export] Instance proc_eta W : Eta (proc W) := λ p,
  Proc (os p) (errno p) (OPT p) (panels p) (next_ptr p) (log p).

Definition proc_init {W} (w : W) : proc W := Proc w 0 OPT_default ∅ 1 [].

Section process.
Context {W : Type} `{OS W}.
Abbreviation PM := (M (proc W)).

Definition sys {A} (f : W → A * W) : PM A := λ p,
  let '(a, w) := f (os p) in Ret a (p <| os := w |>).

(** A call that reports errors through [errno]. *)
Definition sys_errno {A} (f : W → res A * W) : PM (option A) :=
  r ← sys f;
  match r with
  | inl e => modify (λ p, p <| errno := e |>);; mret None
  | inr a => mret (Some a)
  end.

(** A call whose result is 0 or -1. *)
Definition sys_rc (f : W → res unit * W) : PM Z :=
  r ← sys_errno f; mret (match r with Some _ => 0 | None => -1 end).

(** A call whose result is a value or -1. *)
Definition sys_val (f : W → res Z * W) : PM Z :=
  r ← sys_errno f; mret (default (-1) r).

(** *** [sockerr.c] and [dbg.c] *)

Definition set_error (err : Z) : PM unit := modify (λ p, p <| errno := err |>).
Definition sock_error : PM Z := gets errno.

(** The output of [fdbg] is kept as the level and the format string. *)
Definition fdbg (level : Z) (msg : string) : PM unit :=
  o ← gets OPT;
  if dbglvl o >=? level then modify (λ p, p <| log ::= λ l, l ++ [(level, msg)] |>)
  else mret ().

(** *** Heap objects of type [PANEL] *)

Definition deref (p : ptr) : PM PANEL :=
  if p =? NULL then fail NullDeref else
  h ← gets panels;
  match h !! p with Some x => mret x | None => fail UseAfterFree end.

Definition assign (p : ptr) (f : PANEL → PANEL) : PM unit :=
  x ← deref p;
  modify (λ s, s <| panels ::= <[p := f x]> |>).

Definition malloc_panel (x : PANEL) : PM ptr :=
  ok ← sys (os_malloc 52);
  if (ok : bool) then
    p ← gets next_ptr;
    modify (λ s, s <| panels ::= <[p := x]> |> <| next_ptr := p + 1 |>);;
    mret p
  else mret NULL.

Definition free_panel (p : ptr) : PM unit :=
  if p =? NULL then mret () else
  h ← gets panels;
  match h !! p with
  | Some _ => modify (λ s, s <| panels ::= delete p |>)
  | None => fail DoubleFree
  end.
End process.

(** ** Rules for the process monad *)

Section process_rules.
Context {W : Type} `{OS W}.

Lemma wp_sys {A} (f : W → A * W) Q p :
  Q (f (os p)).1 (p <| os := (f (os p)).2 |>) → wp (sys f) Q p.
Proof. unfold wp, sys. by destruct (f (os p)). Qed.

Lemma wp_sys_errno_ok {A} (f : W → res A * W) Q p a w :
  f (os p) = (inr a, w) → Q (Some a) (p <| os := w |>) → wp (sys_errno f) Q p.
Proof. intros Hf HQ. unfold wp, sys_errno, mbind, M_bind, sys. by rewrite Hf. Qed.

Lemma wp_sys_errno_err {A} (f : W → res A * W) Q p e w :
  f (os p) = (inl e, w) →
  Q None (p <| os := w |> <| errno := e |>) → wp (sys_errno f) Q p.
Proof. intros Hf HQ. unfold wp, sys_errno, mbind, M_bind, sys. by rewrite Hf. Qed.

(** Whatever the call answers, [sys_errno] returns, and changes the system and
    [errno] only. *)
Lemma wp_sys_errno {A} (f : W → res A * W) (Q : option A → proc W → Prop) p :
  (∀ a w e, Q a (p <| os := w |> <| errno := e |>)) → wp (sys_errno f) Q p.
Proof.
  intros HQ. destruct (f (os p)) as [[e|a] w] eqn:E.
  - eapply wp_sys_errno_err; eauto.
  - eapply wp_sys_errno_ok; [done|]. apply (HQ (Some a) w (errno p)).
Qed.

Lemma wp_sys_val_ok (f : W → res Z * W) Q p a w :
  f (os p) = (inr a, w) → Q a (p <| os := w |>) → wp (sys_val f) Q p.
Proof. intros Hf HQ. apply wp_bind. by eapply wp_sys_errno_ok. Qed.

Lemma wp_fdbg level msg (Q : unit → proc W → Prop) p :
  (∀ l, Q () (p <| log := l |>)) → wp (fdbg level msg) Q p.
Proof.
  intros HQ. unfold fdbg. wp_steps. case_match; wp_steps; [apply HQ|].
  specialize (HQ (log p)). by destruct p.
Qed.
End process_rules.

(** The parts of a process that sending and receiving leave alone. *)
Definition same_process {W} (p p' : proc W) : Prop :=
  OPT p' = OPT p ∧ panels p' = panels p ∧ next_ptr p' = next_ptr p.
