(* ===== verification/Message.v ===== *)
(** * Messages over a stream socket ([vf_tx/message.c])

    [chksum], [senddata] and [recvdata]: a message travels as an eight-byte
    header (length, two bytes of padding, checksum, in network byte order)
    followed by its bytes. *)

From S2P Require Import Prelude Bytes Memory Process.

(** ** Byte order *)

Definition htons (v : Z) : Z := bswap16 v.
Definition ntohs (v : Z) : Z := bswap16 v.
Definition htonl (v : Z) : Z := bswap32 v.
Definition ntohl (v : Z) : Z := bswap32 v.

(** ** Checksum: the exclusive or of the little-endian words *)

Fixpoint chksum_words (n : nat) (sum : Z) (data : list Z) : option (Z * list Z) :=
  match n with
  | O => Some (sum, data)
  | S n =>
      match data with
      | d0 :: d1 :: d2 :: d3 :: data =>
          let value := d0 in
          let value := value .| (d1 << 8) in
          let value := value .| (d2 << 16) in
          let value := value .| (d3 << 24) in
          chksum_words n (sum .^ value) data
      | _ => None
      end
  end.

Definition chksum (data : list Z) (length : Z) : option Z :=
  let extra := length `mod` 4 in
  '(sum, rest) ← chksum_words (Z.to_nat ((length - extra) / 4)) 0 data;
  if extra >? 0 then
    d0 ← (if 1 <=? extra then rest !! 0%nat else Some 0);
    d1 ← (if 2 <=? extra then rest !! 1%nat else Some 0);
    d2 ← (if 3 <=? extra then rest !! 2%nat else Some 0);
    let value := d0 in
    let value := value .| (d1 << 8) in
    let value := value .| (d2 << 16) in
    Some (sum .^ value)
  else Some sum.

(** ** Message header *)

Record msg_header := {
  m_length : Z;
  m_sum : Z;
}.
Definition MSG_HEADER_SIZE : Z := 8.

(** The object representation has two bytes of padding after [length]. *)
Definition msg_header_bytes (m : msg_header) (padding : list Z) : list Z :=
  le_bytes 2 (m_length m) ++ padding ++ le_bytes 4 (m_sum m).
Definition msg_header_of_bytes (bs : list Z) : msg_header :=
  {| m_length := le_val (take 2 bs); m_sum := le_val (take 4 (drop 4 bs)) |}.

Section message.
Context {W : Type} `{OS W}.
Abbreviation PM := (M (proc W)).

Definition senddata (socket : Z) (data : list Z) (length : Z) : PM Z :=
  if length <=? 0 then set_error Sys.EINVAL;; mret (-1) else
  sum ← oob (chksum data length);
  let m := {| m_length := htons length; m_sum := htonl sum |} in
  padding ← sys (os_garbage 2);
  rc ← sys_val (os_send socket (msg_header_bytes m padding));
  if rc =? 0 then set_error Sys.ECANCELED;; mret (-1)
  else if rc <? 0 then mret (-1) else
  fdbg DBG_VERB "senddata: send length=%u";;
  body ← oob (load data 0 (Z.to_nat length));
  rc ← sys_val (os_send socket body);
  if rc =? 0 then set_error Sys.ECANCELED;; mret (-1)
  else if rc <? 0 then mret rc
  else mret rc.

(** [recvdata(socket, data, length)]: the return value, the contents of [data]
    and of [*length] afterwards. *)
Definition recvdata (socket : Z) (data : list Z) (length : Z) : PM (Z * list Z * Z) :=
  let error := mret (-1, data, length) in
  r ← sys_errno (os_recv socket MSG_HEADER_SIZE true);
  match r with
  | None => error
  | Some bs =>
      let rc := Z.of_nat (List.length bs) in
      if rc =? 0 then set_error Sys.ECANCELED;; error
      else if negb (rc =? MSG_HEADER_SIZE) then set_error Sys.ECANCELED;; error
      else
        let m := msg_header_of_bytes bs in
        let len := ntohs (m_length m) in
        let sum := ntohl (m_sum m) in
        if len >? length then set_error Sys.ENOMEM;; error else
        r ← sys_errno (os_recv socket MSG_HEADER_SIZE false);
        match r with
        | None => error
        | Some [] => set_error Sys.ECANCELED;; error
        | Some _ =>
            fdbg DBG_VERB "recvdata: recv length %u";;
            r ← sys_errno (os_recv socket len false);
            match r with
            | None => error
            | Some bs =>
                let rc := Z.of_nat (List.length bs) in
                data ← oob (store data 0 bs);
                if rc =? 0 then set_error Sys.ECANCELED;; mret (-1, data, length)
                else if negb (rc =? len) then
                  set_error Sys.ECANCELED;; mret (-1, data, length)
                else
                  recv_sum ← oob (chksum data len);
                  (if negb (sum .^ recv_sum =? 0) then
                     fdbg DBG_WARN "chksum expected %u";;
                     fdbg DBG_WARN "chksum computed %u"
                   else mret ());;
                  mret (0, data, len)
            end
        end
  end.
End message.

(** ** Specification of the checksum *)

Fixpoint xor_words (l : list Z) : Z :=
  match l with
  | [] => 0
  | a :: b :: c :: d :: l => le_val [a; b; c; d] .^ xor_words l
  | _ => le_val l
  end.

Lemma le_word_lor a b c d :
  byte_ok a → byte_ok b → byte_ok c → byte_ok d →
  a .| (b << 8) .| (c << 16) .| (d << 24) = le_val [a; b; c; d].
Proof.
  unfold byte_ok. intros. cbn [le_val].
  rewrite (lor_shiftl_add a b 8), (lor_shiftl_add _ c 16), (lor_shiftl_add _ d 24) by lia.
  lia.
Qed.

Lemma chksum_words_spec n sum l :
  bytes_ok l → (4 * n ≤ length l)%nat →
  ∃ s, chksum_words n sum l = Some (sum .^ s, drop (4 * n) l) ∧
       ∀ r, xor_words (take (4 * n) l ++ r) = s .^ xor_words r.
Proof.
  revert sum l. induction n as [|n IH]; intros sum l Hok Hn.
  { exists 0. simpl. rewrite Z.lxor_0_r, drop_0. split; [done|].
    intros. by rewrite Z.lxor_0_l. }
  destruct l as [|a [|b [|c [|d l]]]]; simpl in Hn; try lia.
  unfold bytes_ok in Hok. rewrite !Forall_cons_iff in Hok.
  destruct Hok as (Ha&Hb&Hc&Hd&Hl).
  destruct (IH (sum .^ le_val [a; b; c; d]) l Hl ltac:(lia)) as (s&Hs&Hx).
  exists (le_val [a; b; c; d] .^ s). cbn [chksum_words].
  rewrite le_word_lor, Hs, Z.lxor_assoc by done.
  replace (4 * S n)%nat with (S (S (S (S (4 * n))))) by lia. split; [done|].
  intros r. cbn [take firstn app xor_words]. by rewrite Hx, Z.lxor_assoc.
Qed.

(** [chksum] is the exclusive or of the words of the message, the last one
    padded with zeros. *)
Lemma chksum_spec data len :
  bytes_ok data → 0 ≤ len ≤ Z.of_nat (length data) →
  chksum data len = Some (xor_words (take (Z.to_nat len) data)).
Proof.
  intros Hok Hlen. unfold chksum.
  pose proof (Z.mod_pos_bound len 4 ltac:(lia)) as He.
  pose proof (Z.div_mod len 4 ltac:(lia)) as Hdm.
  set (e := len `mod` 4) in *. set (q := len / 4) in *.
  replace ((len - e) / 4) with q by (rewrite Hdm, Z.add_simpl_r, Z.mul_comm, Z.div_mul; lia).
  destruct (chksum_words_spec (Z.to_nat q) 0 data Hok ltac:(lia)) as (s&Hs&Hx).
  rewrite Hs. cbn [mbind option_bind]. rewrite Z.lxor_0_l.
  set (rest := drop (4 * Z.to_nat q) data).
  assert (take (Z.to_nat len) data = take (4 * Z.to_nat q) data ++ take (Z.to_nat e) rest) as Et.
  { replace (Z.to_nat len) with (4 * Z.to_nat q + Z.to_nat e)%nat by lia.
    unfold rest. by rewrite <- take_take_drop. }
  rewrite Et, Hx.
  assert (length rest = length data - 4 * Z.to_nat q)%nat as Hr by apply length_drop.
  assert (bytes_ok rest) as Hokr by (apply bytes_ok_drop, Hok).
  destruct (decide (e = 0)) as [->|He0]; [simpl; by rewrite Z.lxor_0_r|].
  replace (e >? 0) with true by lia.
  assert (Z.to_nat e ≤ length rest)%nat as Hle by lia.
  unfold bytes_ok, byte_ok in Hokr.
  assert (e = 1 ∨ e = 2 ∨ e = 3) as [-> | [-> | ->]] by lia;
    simpl in Hle |- *; destruct rest as [|a [|b [|c rest]]]; simpl in *; try lia;
    rewrite !Forall_cons_iff in Hokr; f_equal; f_equal;
    rewrite ?Z.shiftl_0_l, ?Z.lor_0_r;
    rewrite ?(lor_shiftl_add a b 8), ?(lor_shiftl_add _ c 16) by lia; lia.
Qed.

Lemma xor_words_range l : bytes_ok l → in_w 32 (xor_words l).
Proof.
  assert (∀ l, bytes_ok l → (length l ≤ 4)%nat → in_w 32 (le_val l)) as Hw.
  { intros x Hx Hl. pose proof (le_val_range x Hx). unfold in_w.
    assert (256 ^ Z.of_nat (length x) ≤ 2 ^ 32); [|lia].
    change (2 ^ 32) with (256 ^ 4). apply Z.pow_le_mono_r; lia. }
  revert l. fix F 1. intros l Hok.
  destruct l as [|a [|b [|c [|d l]]]]; try (apply Hw; [done|simpl; lia]).
  { unfold in_w. simpl. lia. }
  cbn [xor_words]. apply lxor_in_w; [lia|..].
  - apply Hw; [|simpl; lia]. unfold bytes_ok in *. rewrite !Forall_cons_iff in Hok |- *. naive_solver.
  - apply F. unfold bytes_ok in *. rewrite !Forall_cons_iff in Hok. naive_solver.
Qed.

(** ** Network byte order *)

Lemma htons_bytes v : 0 ≤ v < 65536 → le_bytes 2 (htons v) = be_bytes 2 v.
Proof.
  intros Hv. unfold htons. pose proof (be16_to_cpup_spec (le_bytes 2 v)) as E.
  unfold be16_to_cpup in E. rewrite le_val_bytes, Z.mod_small in E by (simpl; lia).
  rewrite E by auto with vf. unfold be_val. fold (be_bytes 2 v).
  rewrite <- (length_be_bytes 2 v) at 1. apply le_bytes_val. auto with vf.
Qed.

(** A masked bit field is the field's value shifted into place. *)
Lemma land_field x n k : 0 ≤ n → 0 ≤ k →
  x .& (Z.ones n << k) = ((x / 2 ^ k) `mod` 2 ^ n) << k.
Proof.
  intros. rewrite <- land_shift_mod by done. apply Z.bits_inj'. intros i Hi.
  rewrite Z.shiftl_spec by done. destruct (decide (i < k)).
  - rewrite Z.land_spec, (Z.shiftl_spec_low _ _ i) by lia.
    rewrite andb_false_r, Z.testbit_neg_r by lia. done.
  - rewrite Z.shiftr_spec by lia. f_equal. lia.
Qed.

Lemma bswap32_le_val p : bytes_ok p → length p = 4%nat → bswap32 (le_val p) = be_val p.
Proof.
  intros Hok Hlen. destruct p as [|a [|b [|c [|d [|]]]]]; try done.
  unfold bytes_ok, byte_ok in Hok. rewrite !Forall_cons_iff in Hok.
  destruct Hok as (?&?&?&?&_).
  unfold bswap32, be_val. rewrite !reverse_cons. cbn [app reverse rev_append le_val].
  set (x := a + 256 * (b + 256 * (c + 256 * (d + 256 * 0)))).
  change 0x000000ff with (Z.ones 8 << 0). change 0x0000ff00 with (Z.ones 8 << 8).
  change 0x00ff0000 with (Z.ones 8 << 16). change 0xff000000 with (Z.ones 8 << 24).
  rewrite !land_field by lia.
  assert ((x / 2 ^ 0) `mod` 2 ^ 8 = a ∧ (x / 2 ^ 8) `mod` 2 ^ 8 = b ∧
          (x / 2 ^ 16) `mod` 2 ^ 8 = c ∧ (x / 2 ^ 24) `mod` 2 ^ 8 = d) as (->&->&->&->).
  { unfold x. cbn [Z.pow Z.pow_pos Pos.iter]. repeat split; Z.div_mod_to_equations; lia. }
  rewrite Z.shiftl_0_r, Z.shiftl_shiftl, !Z.shiftr_shiftl_l by lia.
  rewrite Z.sub_diag, Z.shiftl_0_r. change (8 + 8) with 16. change (16 - 8) with 8.
  rewrite (Z.lor_comm (_ .| _ .| _)), (Z.lor_comm (_ .| _) (c << 8)), Z.lor_assoc.
  rewrite (Z.lor_comm (a << 24)), Z.lor_assoc.
  rewrite (lor_shiftl_add d c 8), (lor_shiftl_add _ b 16), (lor_shiftl_add _ a 24) by lia.
  rewrite u32_small; lia.
Qed.

Lemma htonl_bytes v : 0 ≤ v < 4294967296 → le_bytes 4 (htonl v) = be_bytes 4 v.
Proof.
  intros Hv. unfold htonl. pose proof (bswap32_le_val (le_bytes 4 v)) as E.
  rewrite le_val_bytes, Z.mod_small in E by (simpl; lia).
  rewrite E by auto with vf. unfold be_val. fold (be_bytes 4 v).
  rewrite <- (length_be_bytes 4 v) at 1. apply le_bytes_val. auto with vf.
Qed.

Lemma ntohs_bytes p : bytes_ok p → length p = 2%nat → ntohs (le_val p) = be_val p.
Proof. apply be16_to_cpup_spec. Qed.

(** ** Stream sockets

    What [send] and [recv] promise on a connected stream socket with room in
    its buffers: bytes are delivered in order, [recv] returns what is
    available up to the size asked for, and [MSG_PEEK] leaves it in place. [rx]
    is what can be read from a descriptor, [txd] what was written to it; what
    the peer does with the bytes it was sent may make more available, unless
    the peer is quiet. [peer] is the rest of the system, which reading leaves
    alone. *)

Class StreamOS (W : Type) `{OS W} := {
  rx : W → Z → list Z;
  txd : W → Z → list Z;
  quiet : Prop;
  Peer : Type;
  peer : W → Peer;
  os_recv_stream w fd n peek :
    0 < n → rx w fd ≠ [] →
    ∃ w', os_recv fd n peek w = (inr (take (Z.to_nat n) (rx w fd)), w') ∧
          rx w' fd = (if peek then rx w fd else drop (Z.to_nat n) (rx w fd)) ∧
          txd w' fd = txd w fd ∧ peer w' = peer w;
  os_send_stream w fd bs :
    bs ≠ [] →
    ∃ w' more, os_send fd bs w = (inr (Z.of_nat (length bs)), w') ∧
               txd w' fd = txd w fd ++ bs ∧ rx w' fd = rx w fd ++ more ∧
               (quiet → more = []);
  os_garbage_stream w fd n :
    ∃ bs w', os_garbage n w = (bs, w') ∧ length bs = n ∧ bytes_ok bs ∧
             rx w' fd = rx w fd ∧ txd w' fd = txd w fd;
}.

(** A message on the wire. *)
Definition msg_header_encode (padding : list Z) (len sum : Z) : list Z :=
  be_bytes 2 len ++ padding ++ be_bytes 4 sum.
Definition msg_encode (padding body : list Z) : list Z :=
  msg_header_encode padding (Z.of_nat (length body)) (xor_words body) ++ body.

Lemma length_msg_header_encode padding len sum :
  length padding = 2%nat → length (msg_header_encode padding len sum) = 8%nat.
Proof. intros. unfold msg_header_encode. rewrite !length_app, !length_be_bytes. lia. Qed.

(** The header survives the trip. *)
Lemma msg_header_roundtrip padding len sum :
  length padding = 2%nat → 0 ≤ len < 65536 → 0 ≤ sum < 4294967296 →
  let m := msg_header_of_bytes (msg_header_encode padding len sum) in
  ntohs (m_length m) = len ∧ ntohl (m_sum m) = sum.
Proof.
  intros Hp Hl Hs. unfold msg_header_of_bytes, msg_header_encode. cbn [m_length m_sum].
  rewrite take_app_length' by (by rewrite length_be_bytes).
  rewrite app_assoc, drop_app_length' by (rewrite length_app, length_be_bytes; lia).
  rewrite take_ge by (rewrite length_be_bytes; lia).
  rewrite ntohs_bytes by auto with vf. unfold ntohl. rewrite bswap32_le_val by auto with vf.
  rewrite !be_val_bytes. split; apply Z.mod_small; simpl; lia.
Qed.

Lemma msg_header_bytes_encode padding len sum :
  0 ≤ len < 65536 → 0 ≤ sum < 4294967296 →
  msg_header_bytes {| m_length := htons len; m_sum := htonl sum |} padding =
    msg_header_encode padding len sum.
Proof.
  intros. unfold msg_header_bytes. cbn [m_length m_sum].
  by rewrite htons_bytes, htonl_bytes by lia.
Qed.

(** The calls [senddata] makes: the padding is whatever the stack held, then
    the header and the body are sent. *)
Lemma senddata_calls {W : Type} `{OS W} (fd : Z) (data : list Z) (len : Z) (p : proc W)
    pad w1 w2 w3 (Q : Z → proc W → Prop) :
  let body := take (Z.to_nat len) data in
  bytes_ok data → 0 < len < 65536 → len ≤ Z.of_nat (length data) →
  os_garbage 2 (os p) = (pad, w1) →
  os_send fd (msg_header_encode pad len (xor_words body)) w1 = (inr 8, w2) →
  os_send fd body w2 = (inr len, w3) →
  (∀ lg, Q len (p <| os := w3 |> <| log := lg |>)) →
  wp (senddata fd data len) Q p.
Proof.
  intros body Hok Hlen Hdata Hg Hs2 Hs3 HQ. unfold senddata.
  replace (len <=? 0) with false by lia.
  rewrite chksum_spec by (done || lia). cbn [oob]. apply wp_bind, wp_ret. fold body.
  assert (0 ≤ xor_words body < 4294967296) as Hsum by (apply xor_words_range, bytes_ok_take, Hok).
  apply wp_bind, wp_sys. rewrite Hg. cbn [fst snd].
  rewrite msg_header_bytes_encode by lia.
  apply wp_bind. eapply wp_sys_val_ok; [exact Hs2|]. simpl (8 =? 0). simpl (8 <? 0). cbv iota.
  apply wp_bind, wp_fdbg. intros lg. rewrite load_in by lia. cbn [oob drop skipn].
  apply wp_bind, wp_ret. fold body. apply wp_bind. eapply wp_sys_val_ok; [exact Hs3|].
  replace (len =? 0) with false by lia. replace (len <? 0) with false by lia.
  apply wp_ret. apply (HQ lg).
Qed.

Section stream.
Context {W : Type} `{StreamOS W}.

Lemma senddata_wp (fd : Z) (data : list Z) (len : Z) (p : proc W) :
  bytes_ok data → 0 < len < 65536 → len ≤ Z.of_nat (length data) →
  wp (senddata fd data len) (λ rc p',
    rc = len ∧ same_process p p' ∧
    (∃ more, rx (os p') fd = rx (os p) fd ++ more ∧ (quiet → more = [])) ∧
    ∃ padding, length padding = 2%nat ∧ bytes_ok padding ∧
      txd (os p') fd = txd (os p) fd ++ msg_encode padding (take (Z.to_nat len) data)) p.
Proof.
  intros Hok Hlen Hdata. set (body := take (Z.to_nat len) data).
  assert (length body = Z.to_nat len) as Hbl by (unfold body; rewrite length_take; lia).
  destruct (os_garbage_stream (os p) fd 2) as (pad&w1&Hg&Hpl&Hpok&Hx1&Ht1).
  pose proof (length_msg_header_encode pad len (xor_words body) Hpl) as Hhl.
  destruct (os_send_stream w1 fd (msg_header_encode pad len (xor_words body)))
    as (w2&m2&Hs2&Ht2&Hx2&Hq2); [by destruct (msg_header_encode _ _ _)|].
  destruct (os_send_stream w2 fd body) as (w3&m3&Hs3&Ht3&Hx3&Hq3); [destruct body; simpl in *; [lia|done]|].
  rewrite Hhl in Hs2. replace (Z.of_nat (length body)) with len in Hs3 by lia.
  eapply senddata_calls; [done..|]. intros lg. split; [done|]. split; [done|]. cbn. split.
  { exists (m2 ++ m3). rewrite Hx3, Hx2, Hx1, <- app_assoc. split; [done|].
    intros q. by rewrite Hq2, Hq3. }
  exists pad. split_and!; [done..|].
  rewrite Ht3, Ht2, Ht1, <- app_assoc. unfold msg_encode. by rewrite Hbl, Z2Nat.id by lia.
Qed.

(** What [recvdata] does with a message whose header announces [len] bytes and
    the checksum [sum], whatever that checksum is. *)
Lemma recvdata_wp (fd : Z) (data : list Z) (maxlen : Z) padding body sum rest (p : proc W) :
  bytes_ok data → bytes_ok body → length padding = 2%nat → 0 ≤ sum < 4294967296 →
  0 < Z.of_nat (length body) < 65536 → Z.of_nat (length body) ≤ maxlen →
  (length body ≤ length data)%nat →
  rx (os p) fd = msg_header_encode padding (Z.of_nat (length body)) sum ++ body ++ rest →
  wp (recvdata fd data maxlen) (λ '(rc, data', len') p',
    rc = 0 ∧ len' = Z.of_nat (length body) ∧
    data' = body ++ drop (length body) data ∧
    rx (os p') fd = rest ∧ txd (os p') fd = txd (os p) fd ∧ same_process p p' ∧
    peer (os p') = peer (os p)) p.
Proof.
  intros Hok Hbok Hp Hsum Hlen Hmax Hdata Hrx. unfold recvdata.
  set (hdr := msg_header_encode padding (Z.of_nat (length body)) sum) in *.
  assert (length hdr = 8%nat) as Hhl by (by apply length_msg_header_encode).
  destruct (msg_header_roundtrip padding (Z.of_nat (length body)) sum) as [Hml Hms]; [done|lia|lia|].
  fold hdr in Hml, Hms.
  assert (∀ w, rx w fd = hdr ++ body ++ rest → rx w fd ≠ []) as Hne.
  { intros w -> E. apply app_nil in E as [E _]. by rewrite E in Hhl. }
  destruct (os_recv_stream (os p) fd MSG_HEADER_SIZE true) as (w1&Hr1&Hx1&Ht1&Hp1); [done|by apply Hne|].
  rewrite Hrx in Hr1, Hx1. rewrite take_app_length' in Hr1 by done.
  apply wp_bind. eapply wp_sys_errno_ok; [exact Hr1|]. cbv beta iota.
  rewrite Hhl. simpl (Z.of_nat 8 =? 0). simpl (negb (Z.of_nat 8 =? MSG_HEADER_SIZE)). cbv iota zeta.
  rewrite Hml, Hms. replace (_ >? _) with false by lia.
  destruct (os_recv_stream w1 fd MSG_HEADER_SIZE false) as (w2&Hr2&Hx2&Ht2&Hp2); [done|by apply Hne|].
  rewrite Hx1 in Hr2, Hx2. rewrite take_app_length' in Hr2 by done.
  rewrite drop_app_length' in Hx2 by done.
  apply wp_bind. eapply wp_sys_errno_ok; [exact Hr2|]. cbv beta iota.
  destruct hdr as [|h0 hdr]; [done|]. apply wp_bind, wp_fdbg. intros lg.
  destruct (os_recv_stream w2 fd (Z.of_nat (length body)) false) as (w3&Hr3&Hx3&Ht3&Hp3); [lia| |].
  { rewrite Hx2. destruct body; simpl in *; [lia|done]. }
  rewrite Nat2Z.id in Hr3, Hx3. rewrite Hx2 in Hr3, Hx3.
  rewrite take_app_length in Hr3. rewrite drop_app_length in Hx3.
  apply wp_bind. eapply wp_sys_errno_ok; [exact Hr3|]. cbv beta iota zeta.
  rewrite store_in by lia. cbn [oob take firstn app Nat.add]. apply wp_bind, wp_ret.
  replace (Z.of_nat (length body) =? 0) with false by lia. rewrite Z.eqb_refl. cbn [negb].
  rewrite chksum_spec by (rewrite ?bytes_ok_app, ?length_app; auto with vf; lia).
  cbn [oob]. apply wp_bind, wp_ret.
  apply wp_bind, wp_mono with (Q := λ _ q, os q = w3 ∧ same_process p q).
  - case_match; [|by apply wp_ret].
    apply wp_bind, wp_fdbg. intros. by apply wp_fdbg.
  - intros _ q [Hq Hsame]. apply wp_ret. rewrite Hq. split_and!; try done; congruence.
Qed.

(** A message longer than the caller's buffer is refused and stays in the
    stream, header included. *)
Lemma recvdata_too_long_wp (fd : Z) (data : list Z) (maxlen : Z) padding len sum tail (p : proc W) :
  length padding = 2%nat → 0 ≤ sum < 4294967296 → 0 ≤ len < 65536 → maxlen < len →
  rx (os p) fd = msg_header_encode padding len sum ++ tail →
  wp (recvdata fd data maxlen) (λ '(rc, data', len') p',
    rc = -1 ∧ data' = data ∧ len' = maxlen ∧ errno p' = Sys.ENOMEM ∧
    rx (os p') fd = rx (os p) fd ∧ txd (os p') fd = txd (os p) fd ∧ same_process p p') p.
Proof.
  intros Hp Hsum Hlen Hmax Hrx. unfold recvdata.
  pose proof (length_msg_header_encode padding len sum Hp) as Hhl.
  destruct (msg_header_roundtrip padding len sum Hp Hlen Hsum) as [Hml Hms].
  set (hdr := msg_header_encode padding len sum) in *.
  destruct (os_recv_stream (os p) fd MSG_HEADER_SIZE true) as (w1&Hr1&Hx1&Ht1&Hp1); [done| |].
  { rewrite Hrx. by destruct hdr. }
  rewrite Hrx in Hr1. rewrite take_app_length' in Hr1 by done.
  apply wp_bind. eapply wp_sys_errno_ok; [exact Hr1|]. cbv beta iota.
  rewrite Hhl. simpl (Z.of_nat 8 =? 0). simpl (negb (Z.of_nat 8 =? MSG_HEADER_SIZE)). cbv iota zeta.
  rewrite Hml. replace (_ >? _) with true by lia.
  apply wp_bind, wp_modify, wp_ret. split_and!; done.
Qed.

(** A message longer than the memory behind [data], although not longer than
    the caller said, is written past its end. *)
Lemma recvdata_overflow (fd : Z) (data : list Z) (maxlen : Z) padding body sum rest (p : proc W) :
  length padding = 2%nat → 0 ≤ sum < 4294967296 →
  0 < Z.of_nat (length body) < 65536 → Z.of_nat (length body) ≤ maxlen →
  (length data < length body)%nat →
  rx (os p) fd = msg_header_encode padding (Z.of_nat (length body)) sum ++ body ++ rest →
  recvdata fd data maxlen p = UB OutOfBounds.
Proof.
  intros Hp Hsum Hlen Hmax Hdata Hrx. unfold recvdata.
  set (hdr := msg_header_encode padding (Z.of_nat (length body)) sum) in *.
  assert (length hdr = 8%nat) as Hhl by (by apply length_msg_header_encode).
  destruct (msg_header_roundtrip padding (Z.of_nat (length body)) sum) as [Hml Hms]; [done|lia|lia|].
  fold hdr in Hml, Hms.
  assert (∀ w, rx w fd = hdr ++ body ++ rest → rx w fd ≠ []) as Hne.
  { intros w -> E. apply app_nil in E as [E _]. by rewrite E in Hhl. }
  destruct (os_recv_stream (os p) fd MSG_HEADER_SIZE true) as (w1&Hr1&Hx1&_&_); [done|by apply Hne|].
  rewrite Hrx in Hr1, Hx1. rewrite take_app_length' in Hr1 by done.
  apply bind_outcome. eapply wp_sys_errno_ok; [exact Hr1|]. cbv beta iota.
  rewrite Hhl. simpl (Z.of_nat 8 =? 0). simpl (negb (Z.of_nat 8 =? MSG_HEADER_SIZE)). cbv iota zeta.
  rewrite Hml, Hms. replace (_ >? _) with false by lia.
  destruct (os_recv_stream w1 fd MSG_HEADER_SIZE false) as (w2&Hr2&Hx2&_&_); [done|by apply Hne|].
  rewrite Hx1 in Hr2, Hx2. rewrite take_app_length' in Hr2 by done.
  rewrite drop_app_length' in Hx2 by done.
  apply bind_outcome. eapply wp_sys_errno_ok; [exact Hr2|]. cbv beta iota.
  destruct hdr as [|h0 hdr]; [done|]. apply bind_outcome, wp_fdbg. intros lg.
  destruct (os_recv_stream w2 fd (Z.of_nat (length body)) false) as (w3&Hr3&_&_&_); [lia| |].
  { rewrite Hx2. destruct body; simpl in *; [lia|done]. }
  rewrite Nat2Z.id, Hx2, take_app_length in Hr3.
  apply bind_outcome. eapply wp_sys_errno_ok; [exact Hr3|]. cbv beta iota zeta.
  rewrite store_out by lia. by apply bind_fault.
Qed.

(** ** Sequences of messages *)

Fixpoint send_all (fd : Z) (ms : list (list Z)) : M (proc W) bool :=
  match ms with
  | [] => mret true
  | m :: ms =>
      rc ← senddata fd m (Z.of_nat (length m));
      if rc <? 0 then mret false else send_all fd ms
  end.

Fixpoint recv_all (fd : Z) (buf : list Z) (n : nat) : M (proc W) (list (list Z)) :=
  match n with
  | O => mret []
  | S n =>
      '(rc, data, len) ← recvdata fd buf (Z.of_nat (length buf));
      if rc <? 0 then mret [] else
      ms ← recv_all fd buf n;
      mret (take (Z.to_nat len) data :: ms)
  end.

Definition message_ok (maxlen : nat) (m : list Z) : Prop :=
  bytes_ok m ∧ 0 < Z.of_nat (length m) < 65536 ∧ (length m ≤ maxlen)%nat.

Lemma send_all_wp fd ms maxlen (p : proc W) :
  Forall (message_ok maxlen) ms →
  wp (send_all fd ms) (λ ok p', ok = true ∧
    ∃ pads, Forall (λ pad, length pad = 2%nat) pads ∧ length pads = length ms ∧
      txd (os p') fd = txd (os p) fd ++ concat (zip_with msg_encode pads ms)) p.
Proof.
  intros Hms. revert p. induction Hms as [|m ms (Hok&Hlen&Hmax) Hms IH]; intros p; cbn [send_all].
  { apply wp_ret. split; [done|]. exists []. simpl. by rewrite app_nil_r. }
  apply wp_bind. eapply wp_mono; [apply senddata_wp; [done|lia|lia]|].
  intros rc p1 (->&_&_&pad&Hpad&_&Ht). replace (_ <? 0) with false by lia.
  eapply wp_mono; [apply IH|]. intros ok p2 (->&pads&Hpads&Hpl&Ht2). split; [done|].
  exists (pad :: pads). split; [by constructor|]. split; [simpl; lia|].
  rewrite Ht2, Ht, <- app_assoc. cbn [zip_with concat].
  by rewrite Nat2Z.id, firstn_all.
Qed.

Lemma recv_all_wp fd buf ms pads rest (q : proc W) :
  bytes_ok buf → Forall (message_ok (length buf)) ms →
  Forall (λ pad, length pad = 2%nat) pads → length pads = length ms →
  rx (os q) fd = concat (zip_with msg_encode pads ms) ++ rest →
  wp (recv_all fd buf (length ms)) (λ r q', r = ms ∧ rx (os q') fd = rest) q.
Proof.
  intros Hbuf Hms. revert pads q. induction Hms as [|m ms (Hok&Hlen&Hmax) Hms IH];
    intros [|pad pads] q Hpads Hpl Hrx; simpl in Hpl; try lia; cbn [recv_all length].
  { by apply wp_ret. }
  apply Forall_cons_iff in Hpads as [Hpad Hpads]. cbn [zip_with concat] in Hrx.
  apply wp_bind. eapply wp_mono; [eapply recvdata_wp with (body := m) (sum := xor_words m)|].
  all: try done; try lia.
  { by apply xor_words_range. }
  { rewrite Hrx. unfold msg_encode. by rewrite <- !app_assoc. }
  intros [[rc data'] len'] q1 (->&->&->&Hx&_&_&_). cbn.
  apply wp_bind. eapply wp_mono; [by apply (IH pads); [..|lia|]|]. intros r q2 (->&Hx2). apply wp_ret.
  split; [|done]. f_equal. by rewrite Nat2Z.id, take_app_length.
Qed.
End stream.

(** C8: any sequence of messages sent with [senddata] over a stream connection
    is received by [recvdata] calls at the other end as the same messages, in
    order and with their boundaries, whatever the padding bytes of the headers
    are and whatever follows in the stream. *)
Theorem message_sequence_roundtrip {W V : Type} `{StreamOS W} `{StreamOS V}
    (fd fd' : Z) (buf : list Z) (ms : list (list Z)) (p : proc W) :
  bytes_ok buf → Forall (message_ok (length buf)) ms →
  ∃ p' bytes,
    send_all fd ms p = Ret true p' ∧ txd (os p') fd = txd (os p) fd ++ bytes ∧
    ∀ (q : proc V) rest, rx (os q) fd' = bytes ++ rest →
      ∃ q', recv_all fd' buf (length ms) q = Ret ms q' ∧ rx (os q') fd' = rest.
Proof.
  intros Hbuf Hms.
  destruct (proj1 (wp_Ret _ _ _) (send_all_wp fd ms _ p Hms)) as (ok&p'&E&->&pads&Hpads&Hpl&Ht).
  eexists p', _. split; [done|]. split; [exact Ht|]. intros q rest Hrx.
  destruct (proj1 (wp_Ret _ _ _) (recv_all_wp fd' buf ms pads rest q Hbuf Hms Hpads Hpl Hrx))
    as (r&q'&E'&->&Hx). eauto.
Qed.

(** The checksum never causes a message to be rejected: a message whose body
    does not match the checksum of its header is delivered like any other, with a
    return value of 0. *)
Theorem corrupted_message_delivered {W : Type} `{StreamOS W} (fd : Z) (data : list Z)
    padding body sum rest (p : proc W) :
  bytes_ok data → bytes_ok body → length padding = 2%nat → 0 ≤ sum < 4294967296 →
  0 < Z.of_nat (length body) < 65536 → (length body ≤ length data)%nat →
  rx (os p) fd = msg_header_encode padding (Z.of_nat (length body)) sum ++ body ++ rest →
  sum ≠ xor_words body →
  ∃ p', recvdata fd data (Z.of_nat (length data)) p =
      Ret (0, body ++ drop (length body) data, Z.of_nat (length body)) p' ∧ rx (os p') fd = rest.
Proof.
  intros Hok Hbok Hp Hsum Hlen Hdata Hrx _.
  destruct (proj1 (wp_Ret _ _ _) (recvdata_wp fd data (Z.of_nat (length data)) padding body sum rest p
    Hok Hbok Hp Hsum Hlen ltac:(lia) Hdata Hrx)) as ([[rc d'] l']&p'&E&->&->&->&Hx&_).
  by exists p'.
Qed.

Arguments msg_encode : simpl never.
Arguments msg_header_encode : simpl never.
