(* ===== verification/Panel.v ===== *)
(** * Socket panels ([vf_tx/panel.c])

    A panel is a heap object that groups a socket with its addresses. The
    operations are the library's, on the POSIX branch of the source; a null or
    dangling panel pointer and a copy past the end of an address are faults. *)

From S2P Require Import Prelude Bytes Memory Process Message.
From stdpp Require Import pretty.
Open Scope Z_scope.

(** ** Flags and addresses *)

Abbreviation SP_F_VALID := 0x0001.
Abbreviation SP_F_LISTENER := 0x0002.
Abbreviation SP_F_SENDER := 0x0004.
Abbreviation SP_F_MULTICAST := 0x0010.
Definition sp_setflag (var flag : Z) : Z := u16 (var .| flag).
Definition sp_getflag (var flag : Z) : bool := has_bits var flag.
Definition sp_clearflag (var flag : Z) : Z := u16 (var .& .~ flag).

Definition sockaddr_zero : list Z := replicate Sys.SOCKADDR_SIZE 0.
Definition sa_family (sa : list Z) : Z := le_val (take 2 sa).
Definition sin_port (sa : list Z) : list Z := take 2 (drop 2 sa).
Definition sin_addr (sa : list Z) : list Z := take 4 (drop 4 sa).

Definition zero_panel : PANEL := {|
  sp_socket := 0; sp_bind := sockaddr_zero; sp_dest := sockaddr_zero; sp_family := 0;
  sp_socktype := 0; sp_protocol := 0; sp_flags := 0; sp_zero := 0 |}.

Section panel.
Context {W : Type} `{OS W}.
Abbreviation PM := (M (proc W)).

(** ** Creation and destruction *)

Definition CreateEmptyPanel : PM ptr := malloc_panel zero_panel.

Definition FreePanel (p : ptr) : PM unit :=
  if negb (p =? NULL) then
    x ← deref p;
    _ ← sys_rc (os_close (s32 (sp_socket x)));
    free_panel p
  else mret ().

Definition DissociatePanel (p : ptr) : PM unit :=
  if negb (p =? NULL) then free_panel p else mret ().

Definition CreatePanel (af type proto : Z) : PM ptr :=
  p ← CreateEmptyPanel;
  s ← sys_val (os_socket af type proto);
  assign p (λ x, x <| sp_socket := u32 s |>);;
  x ← deref p;
  if sp_socket x =? u32 (-1) then FreePanel p;; mret NULL else
  assign p (λ x, x <| sp_family := u32 af |>);;
  assign p (λ x, x <| sp_socktype := u32 type |>);;
  assign p (λ x, x <| sp_protocol := u32 proto |>);;
  assign p (λ x, x <| sp_flags ::= λ f, sp_setflag f SP_F_VALID |>);;
  mret p.

(** [sizeof(addr)] in the source is the size of the pointer: eight bytes are
    copied. *)
Definition SocketToPanel (s : Z) (addr : list Z) : PM ptr :=
  p ← CreateEmptyPanel;
  assign p (λ x, x <| sp_socket := u32 s |>);;
  x ← deref p;
  head ← oob (load addr 0 8);
  bind ← oob (store (sp_bind x) 0 head);
  assign p (λ x, x <| sp_bind := bind |>);;
  assign p (λ x, x <| sp_flags ::= λ f, sp_setflag f SP_F_VALID |>);;
  mret p.

(** ** Addresses *)

Definition ResolveAddr (addr : option string) (svc : string) (af type proto : Z) :
    PM (option (list Z)) :=
  sys (os_getaddrinfo addr svc af type proto).

Definition BindPanel (p : ptr) (addr : option string) (svc : string) (reuse : Z) : PM Z :=
  x ← deref p;
  if sp_getflag (sp_flags x) SP_F_VALID then
    ai ← ResolveAddr addr svc (sp_family x) (sp_socktype x) (sp_protocol x);
    match ai with
    | None => mret SOCKET_ERROR
    | Some ai_addr =>
        bind ← oob (store (sp_bind x) 0 ai_addr);
        assign p (λ x, x <| sp_bind := bind |>);;
        rc ← sys_rc (os_setsockopt (s32 (sp_socket x)) Sys.SOL_SOCKET Sys.SO_REUSEADDR
                       (le_bytes 4 reuse));
        if rc =? SOCKET_ERROR then mret rc else
        assign p (λ x, x <| sp_flags ::= λ f, sp_setflag f SP_F_LISTENER |>);;
        sys_rc (os_bind (s32 (sp_socket x)) bind)
    end
  else set_error Sys.EPERM;; mret SOCKET_ERROR.

Definition CreateBoundPanel (svc : string) (af type proto : Z) : PM ptr :=
  p ← CreatePanel af type proto;
  rc ← BindPanel p None svc 1;
  if rc =? SOCKET_ERROR then FreePanel p;; mret NULL else mret p.

Definition SetDestination (p : ptr) (addr : option string) (svc : string) : PM Z :=
  x ← deref p;
  if sp_getflag (sp_flags x) SP_F_VALID then
    ai ← ResolveAddr addr svc (sp_family x) (sp_socktype x) (sp_protocol x);
    match ai with
    | None => mret SOCKET_ERROR
    | Some ai_addr =>
        dest ← oob (store (sp_dest x) 0 ai_addr);
        assign p (λ x, x <| sp_dest := dest |>);;
        assign p (λ x, x <| sp_flags ::= λ f, sp_setflag f SP_F_SENDER |>);;
        mret NO_ERROR
    end
  else set_error Sys.EPERM;; mret SOCKET_ERROR.

(** ** Socket options *)

Definition SetOptionLinger (p : ptr) (opt_yesno opt_delay : Z) : PM Z :=
  x ← deref p;
  sys_rc (os_setsockopt (s32 (sp_socket x)) Sys.SOL_SOCKET Sys.SO_LINGER
            (le_bytes 4 opt_yesno ++ le_bytes 4 opt_delay)).

Definition SetOption (p : ptr) (level option optval : Z) : PM Z :=
  x ← deref p;
  sys_rc (os_setsockopt (s32 (sp_socket x)) level option (le_bytes 4 optval)).

(** ** Multicast *)

(** [struct ip_mreq]: the group of [sp_dest] and the interface. [inet_pton] may
    reject the text of the interface, which leaves the field unset. *)
Definition ip_mreq (x : PANEL) (ifaddr : option string) : PM (list Z) :=
  itf ← (match ifaddr with
         | Some a =>
             match os_inet_pton a with
             | Some bs => mret bs
             | None => sys (os_garbage 4)
             end
         | None => mret (sin_addr (sp_bind x))
         end : PM (list Z));
  mret (sin_addr (sp_dest x) ++ itf).

(** The IPv6 branch stores [sin6_scope_id], at offset 24 of the sixteen bytes
    of [sp_dest]. *)
Definition scope_id_clear (p : ptr) : PM (list Z) :=
  x ← deref p;
  dest ← oob (store (sp_dest x) 24 (le_bytes 4 0));
  assign p (λ x, x <| sp_dest := dest |>);;
  a ← oob (load dest 8 16);
  i ← oob (load dest 24 4);
  mret (a ++ i).

Definition JoinMulticastGroup (p : ptr) (ifaddr : option string) : PM Z :=
  x ← deref p;
  let fam := sa_family (sp_dest x) in
  let finish level option optval :=
    rc ← sys_rc (os_setsockopt (s32 (sp_socket x)) level option optval);
    if rc =? SOCKET_ERROR then mret SOCKET_ERROR else
    assign p (λ x, x <| sp_flags ::= λ f, sp_setflag f SP_F_MULTICAST |>);;
    mret rc in
  if (fam =? Sys.AF_INET) || (fam =? Sys.AF_UNSPEC) then
    mreq ← ip_mreq x ifaddr;
    finish Sys.IPPROTO_IP Sys.IP_ADD_MEMBERSHIP mreq
  else if fam =? Sys.AF_INET6 then
    mreq6 ← scope_id_clear p;
    finish Sys.IPPROTO_IPV6 Sys.IPV6_ADD_MEMBERSHIP mreq6
  else set_error Sys.EAFNOSUPPORT;; mret SOCKET_ERROR.

Definition LeaveMulticastGroup (p : ptr) (ifaddr : option string) : PM Z :=
  x ← deref p;
  let fam := sa_family (sp_dest x) in
  let finish level option optval :=
    rc ← sys_rc (os_setsockopt (s32 (sp_socket x)) level option optval);
    if rc =? SOCKET_ERROR then mret SOCKET_ERROR else
    assign p (λ x, x <| sp_flags ::= λ f, sp_clearflag f SP_F_MULTICAST |>);;
    mret rc in
  if (fam =? Sys.AF_INET) || (fam =? Sys.AF_UNSPEC) then
    mreq ← ip_mreq x ifaddr;
    finish Sys.IPPROTO_IP Sys.IP_DROP_MEMBERSHIP mreq
  else if fam =? Sys.AF_INET6 then
    mreq6 ← scope_id_clear p;
    finish Sys.IPPROTO_IPV6 Sys.IPV6_DROP_MEMBERSHIP mreq6
  else set_error Sys.EAFNOSUPPORT;; mret SOCKET_ERROR.

(** The interface address is a [struct sockaddr] of sixteen bytes; the IPv6
    branch reads [sin6_scope_id] at offset 24 of it. *)
Definition SetMulticastSendInterface (p : ptr) (addr : list Z) : PM Z :=
  x ← deref p;
  let finish level option optval :=
    rc ← sys_rc (os_setsockopt (s32 (sp_socket x)) level option optval);
    if rc =? SOCKET_ERROR then mret SOCKET_ERROR else mret rc in
  if sa_family addr =? Sys.AF_INET then
    finish Sys.IPPROTO_IP Sys.IP_MULTICAST_IF (sin_addr addr)
  else if sa_family addr =? Sys.AF_INET6 then
    sid ← oob (load addr 24 4);
    finish Sys.IPPROTO_IPV6 Sys.IPV6_MULTICAST_IF sid
  else set_error Sys.EAFNOSUPPORT;; mret SOCKET_ERROR.

Definition SetMulticastTTL (p : ptr) (ttl : Z) : PM Z :=
  x ← deref p;
  let finish level option :=
    rc ← sys_rc (os_setsockopt (s32 (sp_socket x)) level option (le_bytes 4 ttl));
    if rc =? SOCKET_ERROR then set_error Sys.EAFNOSUPPORT;; mret SOCKET_ERROR else mret 0 in
  let fam := sa_family (sp_dest x) in
  if fam =? Sys.AF_INET then finish Sys.IPPROTO_IP Sys.IP_MULTICAST_TTL
  else if fam =? Sys.AF_INET6 then finish Sys.IPPROTO_IPV6 Sys.IPV6_MULTICAST_HOPS
  else mret SOCKET_ERROR.

Definition SetMulticastLoopback (p : ptr) (loopval : Z) : PM Z :=
  x ← deref p;
  let finish level option :=
    rc ← sys_rc (os_setsockopt (s32 (sp_socket x)) level option (le_bytes 4 loopval));
    if rc =? SOCKET_ERROR then mret SOCKET_ERROR else mret NO_ERROR in
  let fam := sa_family (sp_dest x) in
  if fam =? Sys.AF_INET then finish Sys.IPPROTO_IP Sys.IP_MULTICAST_LOOP
  else if fam =? Sys.AF_INET6 then finish Sys.IPPROTO_IPV6 Sys.IPV6_MULTICAST_LOOP
  else set_error Sys.EAFNOSUPPORT;; mret SOCKET_ERROR.

(** ** Printing: the text each function writes *)

Definition FormatAddr (sa : list Z) : string :=
  let fam := sa_family sa in
  let port := pretty (Z.to_N (be_val (sin_port sa))) in
  if (fam =? Sys.AF_UNSPEC) || (fam =? Sys.AF_INET) then
    default EmptyString (os_inet_ntop fam (sin_addr sa)) +:+ ":" +:+ port
  else if fam =? Sys.AF_INET6 then
    default EmptyString (os_inet_ntop fam (take 16 (drop 8 sa))) +:+ "/" +:+ port
  else "<unsupported address format>".

Definition PrintAddrFamily (af : Z) : string :=
  if af =? Sys.AF_INET then ", Family: AF_INET"
  else if af =? Sys.AF_INET6 then ", Family: AF_INET6"
  else ", Family: UNKNOWN".

Definition PrintAddrProtocol (proto : Z) : string :=
  if proto =? Sys.IPPROTO_IP then ", Protocol: IPPROTO_IP"
  else if proto =? Sys.IPPROTO_IPV6 then ", Protocol: IPPROTO_IPV6"
  else if proto =? Sys.IPPROTO_TCP then ", Protocol: IPPROTO_TCP"
  else if proto =? Sys.IPPROTO_UDP then ", Protocol: IPPROTO_UDP"
  else ", Protocol: UNKNOWN".

Definition nl : string := String (Ascii.ascii_of_nat 10) EmptyString.

Definition PrintPanel (p : ptr) : PM string :=
  x ← deref p;
  mret ("PANEL:" +:+ nl +:+ "  Socket ID: " +:+ pretty (s32 (sp_socket x)) +:+ nl +:+
        "  Destination: " +:+ FormatAddr (sp_dest x) +:+
        PrintAddrFamily (sa_family (sp_dest x)) +:+ nl +:+ "  Bind: " +:+
        FormatAddr (sp_bind x) +:+ PrintAddrFamily (sa_family (sp_bind x)) +:+ nl).

Record addrinfo := {
  ai_family : Z;
  ai_protocol : Z;
  ai_addr : list Z;
}.

Definition PrintAddr (sa : list Z) : string := FormatAddr sa.

(** The loop advances [p] but prints [ai], the first element. *)
Definition PrintAddrinfo (ais : list addrinfo) : string :=
  match ais with
  | [] => "No address information (null pointer)."
  | ai :: _ =>
      foldr (λ _ out,
        "  Address: " +:+ PrintAddr (ai_addr ai) +:+ PrintAddrFamily (ai_family ai) +:+
        PrintAddrProtocol (ai_protocol ai) +:+ nl +:+ out) EmptyString ais
  end.
End panel.
