(* ===== verification/Options.v ===== *)
(** * The options file ([vf_tx/opt.c])

    [ReadOptions] reads [name=value] words from a file into the global [OPT],
    once per process. Strings are copied with [strcpy] into fixed arrays: a
    value that does not fit is a fault, and so is a word longer than the line
    buffer. *)

From S2P Require Import Prelude Bytes Memory Process.
From Stdlib Require Import Ascii.

(** ** C string functions *)

Definition OPTRC : string := "optrc".

Definition is_space (c : ascii) : bool :=
  let n := nat_of_ascii c in ((9 <=? n) && (n <=? 13) || (n =? 32))%nat.

(** The words [fscanf(f, "%s\n", line)] reads one after the other. *)
Fixpoint words_go (s cur : string) : list string :=
  match s with
  | EmptyString => if decide (cur = EmptyString) then [] else [cur]
  | String c s =>
      if is_space c
      then (if decide (cur = EmptyString) then [] else [cur]) ++ words_go s EmptyString
      else words_go s (cur +:+ String c EmptyString)
  end.
Definition words (s : string) : list string := words_go s EmptyString.

Fixpoint until (d : ascii) (s : string) : string :=
  match s with
  | EmptyString => EmptyString
  | String c s => if decide (c = d) then EmptyString else String c (until d s)
  end.

(** [strtok(line, "#")] as an effect on [line]: leading delimiters are skipped,
    the next one ends the string. *)
Fixpoint strtok_hash (s : string) : string :=
  match s with
  | EmptyString => EmptyString
  | String c s' =>
      if decide (c = "#"%char) then String c (strtok_hash s') else until "#"%char s
  end.

(** [strchr(line, '=')] and the split it is used for. *)
Fixpoint split_eq (s : string) : option (string * string) :=
  match s with
  | EmptyString => None
  | String c s =>
      if decide (c = "="%char) then Some (EmptyString, s)
      else '(n, v) ← split_eq s; Some (String c n, v)
  end.

Definition digit (c : ascii) : option Z :=
  let n := Z.of_nat (nat_of_ascii c) in
  if (48 <=? n) && (n <=? 57) then Some (n - 48) else None.

Fixpoint digits (acc : Z) (s : string) : Z :=
  match s with
  | EmptyString => acc
  | String c s => match digit c with Some d => digits (10 * acc + d) s | None => acc end
  end.

(** [atoi]: [strtol] saturates at the 64-bit range, the cast to [int] wraps. *)
Definition atoi (s : string) : Z :=
  let v :=
    match s with
    | String c s' =>
        if decide (c = "-"%char) then - digits 0 s'
        else if decide (c = "+"%char) then digits 0 s'
        else digits 0 s
    | EmptyString => 0
    end in
  s32 (Z.max (- 2 ^ 63) (Z.min (2 ^ 63 - 1) v)).

(** ** Reading *)

Section options.
Context {W : Type} `{OS W}.
Abbreviation PM := (M (proc W)).

Definition mod_OPT (f : options → options) : PM unit := modify (λ p, p <| OPT ::= f |>).

(** [strcpy] of [v] into an array of [n] characters. *)
Definition strcpy_fits (n : Z) (v : string) : PM unit :=
  if Z.of_nat (String.length v) + 1 <=? n then mret () else fail OutOfBounds.

Definition set_option (name value : string) : PM unit :=
  if decide (name = "mcastip") then
    strcpy_fits 16 value;; mod_OPT (λ o, o <| mcastip := value |>)
  else if decide (name = "mcastport") then
    strcpy_fits 6 value;; mod_OPT (λ o, o <| mcastport := value |>)
  else if decide (name = "tcpport") then
    strcpy_fits 6 value;; mod_OPT (λ o, o <| tcpport := value |>)
  else if decide (name = "magicnum") then mod_OPT (λ o, o <| magicnum := u32 (atoi value) |>)
  else if decide (name = "timeout") then mod_OPT (λ o, o <| timeout := atoi value |>)
  else if decide (name = "dbglvl") then mod_OPT (λ o, o <| dbglvl := atoi value |>)
  else mret ().

(** One round of the loop, with [line] the word just read. *)
Definition read_line (line : string) : PM unit :=
  strcpy_fits OPTBUFLEN line;;
  match split_eq (strtok_hash line) with
  | Some (name, value) => set_option name value
  | None => mret ()
  end.

Fixpoint read_lines (ls : list string) : PM unit :=
  match ls with
  | [] => mret ()
  | l :: ls => read_line l;; read_lines ls
  end.

(** A file without any word leaves [line] unset in the first round. *)
Definition ReadOptions (filename : option string) : PM unit :=
  o ← gets OPT;
  if negb (set o =? 0) then mret () else
  let filename := default OPTRC filename in
  mod_OPT (λ o, o <| set := 1 |>);;
  f ← sys (os_fopen filename);
  match f with
  | None => mret ()
  | Some text =>
      match words text with
      | [] => fail UninitRead
      | ls => read_lines ls
      end
  end.
End options.
