(* ===== verification/OptionsSpec.v ===== *)
(** * Correctness of the options file reader

    What [ReadOptions] makes of a file of [name=value] lines, and that it reads
    a file once. *)

From S2P Require Import Prelude Bytes Memory Process Options.
From Stdlib Require Import Ascii.

(** ** Strings *)

Fixpoint string_all (f : ascii → bool) (s : string) : bool :=
  match s with
  | EmptyString => true
  | String c s => f c && string_all f s
  end.

Lemma string_app_cons c (s t : string) : String c s +:+ t = String c (s +:+ t).
Proof. done. Qed.

Lemma string_all_app f s t : string_all f (s +:+ t) = string_all f s && string_all f t.
Proof. induction s as [|c s IH]; [done|]. rewrite string_app_cons. simpl. by rewrite IH, andb_assoc. Qed.

Lemma string_app_nil_r (s : string) : s +:+ EmptyString = s.
Proof. induction s as [|c s IH]; [done|]. rewrite !string_app_cons. by f_equal. Qed.

Lemma string_app_assoc (s t u : string) : (s +:+ t) +:+ u = s +:+ (t +:+ u).
Proof. induction s as [|c s IH]; [done|]. rewrite !string_app_cons. by f_equal. Qed.

Lemma string_length_app (s t : string) : String.length (s +:+ t) = (String.length s + String.length t)%nat.
Proof. induction s as [|c s IH]; [done|]. rewrite string_app_cons. cbn. by rewrite IH. Qed.

Lemma string_all_impl (f g : ascii → bool) s :
  (∀ c, f c = true → g c = true) → string_all f s = true → string_all g s = true.
Proof.
  intros Hfg. induction s as [|c s IH]; [done|]. cbn. intros [Hc Hs]%andb_prop.
  by rewrite Hfg, IH.
Qed.

(** ** Words *)

Definition newline : ascii := ascii_of_nat 10.
Definition not_space (c : ascii) : bool := negb (is_space c).
Definition not_char (d c : ascii) : bool := bool_decide (c ≠ d).

Lemma words_go_prefix l rest cur :
  string_all not_space l = true → words_go (l +:+ rest) cur = words_go rest (cur +:+ l).
Proof.
  revert cur. induction l as [|c l IH]; intros cur; [by rewrite string_app_nil_r|].
  rewrite string_app_cons. cbn [string_all words_go]. intros [Hc Hl]%andb_prop. unfold not_space in Hc. apply negb_true_iff in Hc. rewrite Hc, IH by done.
  by rewrite string_app_assoc, string_app_cons.
Qed.

Lemma words_line l rest :
  string_all not_space l = true → l ≠ EmptyString →
  words (l +:+ String newline rest) = l :: words rest.
Proof.
  intros Hl Hne. unfold words. rewrite words_go_prefix by done.
  change (EmptyString +:+ l) with l. cbn [words_go]. change (is_space newline) with true. cbv iota.
  by destruct (decide (l = EmptyString)).
Qed.

(** ** Lines *)

Lemma until_none d s : string_all (not_char d) s = true → until d s = s.
Proof.
  induction s as [|c s IH]; [done|]. cbn. intros [Hc Hs]%andb_prop. unfold not_char in Hc.
  apply bool_decide_eq_true in Hc. destruct (decide (c = d)); [done|]. by rewrite IH.
Qed.

Lemma strtok_none s : string_all (not_char "#"%char) s = true → strtok_hash s = s.
Proof.
  destruct s as [|c s]; [done|]. intros Hs. cbn [strtok_hash].
  destruct (decide (c = "#"%char)) as [->|]; [done|]. by apply until_none.
Qed.

Lemma split_eq_line n v :
  string_all (not_char "="%char) n = true →
  split_eq (n +:+ String "="%char v) = Some (n, v).
Proof.
  induction n as [|c n IH]; [done|]. rewrite string_app_cons. cbn. intros [Hc Hn]%andb_prop. unfold not_char in Hc.
  apply bool_decide_eq_true in Hc. destruct (decide (c = "="%char)); [done|]. by rewrite IH.
Qed.

(** ** A file of options *)

Definition option_line (o : string * string) : string := o.1 +:+ String "="%char o.2.

Fixpoint option_text (l : list (string * string)) : string :=
  match l with
  | [] => EmptyString
  | o :: l => option_line o +:+ String newline (option_text l)
  end.

(** The effect of one option on the record. *)
Definition apply_option (o : options) (nv : string * string) : options :=
  let '(name, value) := nv in
  if decide (name = "mcastip") then o <| mcastip := value |>
  else if decide (name = "mcastport") then o <| mcastport := value |>
  else if decide (name = "tcpport") then o <| tcpport := value |>
  else if decide (name = "magicnum") then o <| magicnum := u32 (atoi value) |>
  else if decide (name = "timeout") then o <| timeout := atoi value |>
  else if decide (name = "dbglvl") then o <| dbglvl := atoi value |>
  else o.

(** The array a value is copied to, if it is copied. *)
Definition option_room (name : string) : option Z :=
  if decide (name = "mcastip") then Some 16
  else if decide (name = "mcastport") then Some 6
  else if decide (name = "tcpport") then Some 6
  else None.

Definition text_char (c : ascii) : bool := not_space c && not_char "#"%char c.

(** A line that is read as it stands, and one whose value also fits. *)
Record line_ok (o : string * string) : Prop := {
  name_chars : string_all (λ c, text_char c && not_char "="%char c) o.1 = true;
  value_chars : string_all text_char o.2 = true;
  line_fits : Z.of_nat (String.length (option_line o)) + 1 ≤ OPTBUFLEN;
}.
Definition option_ok (o : string * string) : Prop :=
  line_ok o ∧ ∀ n, option_room o.1 = Some n → Z.of_nat (String.length o.2) + 1 ≤ n.

Section options_spec.
Context {W : Type} `{OS W}.
Implicit Types (p : proc W).

Lemma set_option_spec name value p :
  (∀ n, option_room name = Some n → Z.of_nat (String.length value) + 1 ≤ n) →
  set_option name value p = Ret () (p <| OPT ::= λ o, apply_option o (name, value) |>).
Proof.
  intros Hfit. unfold set_option, apply_option, option_room, strcpy_fits in *.
  repeat (destruct (decide _) as [?|?]; [try rewrite (proj2 (Z.leb_le _ _)) by (by apply Hfit); done|]).
  by destruct p.
Qed.

Lemma option_line_chars f o :
  (∀ c, text_char c = true → f c = true) → f "="%char = true → line_ok o →
  string_all f (option_line o) = true.
Proof.
  intros Hf Heq [Hn Hv _]. unfold option_line. rewrite string_all_app. cbn. rewrite Heq.
  assert (string_all f o.1 = true) as ->.
  { eapply string_all_impl, Hn. intros c [? ?]%andb_prop. by apply Hf. }
  by rewrite (string_all_impl _ f _ Hf Hv).
Qed.

Lemma read_line_set o p :
  line_ok o → read_line (option_line o) p = set_option o.1 o.2 p.
Proof.
  intros Ho. pose proof Ho as [Hn Hv Hline]. unfold read_line, strcpy_fits.
  rewrite (proj2 (Z.leb_le _ _) Hline). unfold mbind, M_bind, mret, M_ret.
  rewrite strtok_none by (apply option_line_chars; [intros c [? ?]%andb_prop; done|done|done]).
  unfold option_line. rewrite split_eq_line by (eapply string_all_impl, Hn; intros c [? ?]%andb_prop; done).
  done.
Qed.

Lemma read_lines_spec l p :
  Forall option_ok l →
  read_lines (map option_line l) p = Ret () (p <| OPT ::= λ x, foldl apply_option x l |>).
Proof.
  intros Hl. revert p. induction Hl as [|o l Ho Hl IH]; intros p; [by destruct p|].
  cbn [map read_lines foldl]. unfold mbind, M_bind. destruct Ho as [Ho Hfit].
  rewrite read_line_set, set_option_spec by done. rewrite IH. by destruct o.
Qed.

Lemma words_option_text l : Forall line_ok l → words (option_text l) = map option_line l.
Proof.
  intros Hl. induction Hl as [|o l Ho Hl IH]; [done|]. cbn [option_text map].
  rewrite words_line, IH; [done|..].
  - apply option_line_chars; [intros c [? ?]%andb_prop; done|done|done].
  - unfold option_line. by destruct o.1.
Qed.

Lemma apply_options_set o l : set (foldl apply_option o l) = set o.
Proof.
  revert o. induction l as [|[n v] l IH]; intros o; [done|]. cbn [foldl]. rewrite IH.
  unfold apply_option. by repeat destruct (decide _).
Qed.

(** C35: reading a file of [name=value] lines sets every option named in it, the
    last line for a name deciding and unknown names ignored; everything else of the process
    is as before, and a later call, for whatever file, changes nothing. *)
Theorem ReadOptions_reads_file filename filename' l w p :
  set (OPT p) = 0 → l ≠ [] → Forall option_ok l →
  os_fopen (default OPTRC filename) (os p) = (Some (option_text l), w) →
  let p' := p <| os := w |> <| OPT := foldl apply_option (OPT p <| set := 1 |>) l |> in
  ReadOptions filename p = Ret () p' ∧ ReadOptions filename' p' = Ret () p'.
Proof.
  intros Hset Hne Hl Hopen p'. split.
  - unfold ReadOptions. unfold mbind at 1, M_bind at 1, gets. rewrite Hset. cbn [Z.eqb negb].
    unfold mbind at 1, M_bind at 1, mod_OPT, modify.
    unfold mbind at 1, M_bind at 1, sys. cbn [os update]. rewrite Hopen.
    rewrite words_option_text by (eapply Forall_impl, Hl; by intros o [? _]).
    destruct (map option_line l) eqn:E; [by destruct l|].
    rewrite <- E, read_lines_spec by done. by destruct p.
  - unfold ReadOptions. unfold mbind, M_bind, gets.
    replace (set (OPT p')) with 1; [done|]. unfold p'. cbn [OPT update]. by rewrite apply_options_set.
Qed.

(** A value longer than the array of its option is copied past its end. *)
Theorem ReadOptions_overflow filename name value n w p :
  set (OPT p) = 0 → option_room name = Some n → n < Z.of_nat (String.length value) + 1 →
  string_all text_char value = true → Z.of_nat (String.length value) < 1000 →
  os_fopen (default OPTRC filename) (os p) = (Some (option_text [(name, value)]), w) →
  ReadOptions filename p = UB OutOfBounds.
Proof.
  intros Hset Hroom Hbig Hv Hlen Hopen.
  assert (name = "mcastip" ∨ name = "mcastport" ∨ name = "tcpport") as Hname.
  { unfold option_room in Hroom. repeat destruct (decide _); auto. done. }
  assert (string_all (λ c, text_char c && not_char "="%char c) name = true ∧ (String.length name ≤ 9)%nat) as [Hn Hnl].
  { destruct Hname as [-> | [-> | ->]]; (split; [reflexivity|cbn; lia]). }
  assert (line_ok (name, value)) as Hline.
  { split; [done|done|]. unfold option_line, OPTBUFLEN. cbn [fst snd]. rewrite string_length_app. cbn. lia. }
  unfold ReadOptions. unfold mbind at 1, M_bind at 1, gets. rewrite Hset. cbn [Z.eqb negb].
  unfold mbind at 1, M_bind at 1, mod_OPT, modify.
  unfold mbind at 1, M_bind at 1, sys. cbn [os update]. rewrite Hopen.
  rewrite words_option_text by (by apply Forall_singleton). cbn [map read_lines]. apply bind_fault.
  rewrite read_line_set by done. cbn [fst snd]. unfold option_room, set_option, strcpy_fits in *.
  destruct Hname as [-> | [-> | ->]]; cbn in Hroom; injection Hroom as <-;
    repeat first [rewrite decide_True by done|rewrite decide_False by done];
    unfold mbind, M_bind, mret, M_ret; by rewrite (proj2 (Z.leb_gt _ _)) by lia.
Qed.
End options_spec.

