(* ===== verification/Discovery.v ===== *)
(** * Finding the peer ([vf_tx/message.c])

    [announce] multicasts the address of a listening socket on every interface
    until somebody connects; [locate] waits for such an announcement and
    connects. The local arrays, the panels they point to and the cleanup code
    are those of the source; the two waiting loops take fuel. *)

From S2P Require Import Prelude Bytes Memory Process Message Panel Options.

Definition PACKETS_PER_SEC : Z := 10.
Definition MAX_IF_LENGTH : Z := 32.
Definition ANNOUNCE_MSG_SIZE : Z := 12.

Record IF_PANEL := {
  hs : ptr;
  cs : ptr;
}.
#[export] Instance IF_PANEL_eta : Eta IF_PANEL := λ p, Build_IF_PANEL (hs p) (cs p).

Record IF_DATA := {
  if_addr : string;
  if_name : string;
  if_sa : list Z;
}.

(** [struct announce_msg] as sent: magic and port in network byte order, the
    address as it is stored in the bound address. *)
Definition announce_msg_bytes (magic : Z) (addr : list Z) (port flags : Z) : list Z :=
  le_bytes 4 (htonl magic) ++ addr ++ le_bytes 2 (htons port) ++ le_bytes 2 flags.

(** The interfaces [populateInterfaceData] keeps. *)
Definition if_usable (i : ifaddr) : option (list Z) :=
  match ifa_addr i with
  | None => None
  | Some sa =>
      if negb (sa_family sa =? Sys.AF_INET) then None
      else if has_bits (ifa_flags i) Sys.IFF_UP && has_bits (ifa_flags i) Sys.IFF_MULTICAST
              && negb (has_bits (ifa_flags i) Sys.IFF_LOOPBACK)
           then Some sa else None
  end.

Section discovery.
Context {W : Type} `{OS W}.
Abbreviation PM := (M (proc W)).

(** ** Interfaces *)

(** The loop over the list: [None] is the early return after [getnameinfo]
    failed, otherwise the filled part of [if_d] and the number of usable
    interfaces. *)
Fixpoint populate_loop (ifas : list ifaddr) (numIfs found : Z) (acc : list IF_DATA) :
    PM (option (list IF_DATA * Z)) :=
  match ifas with
  | [] => mret (Some (acc, found))
  | i :: ifas =>
      match if_usable i with
      | None => populate_loop ifas numIfs found acc
      | Some sa =>
          if found + 1 >? numIfs then populate_loop ifas numIfs (found + 1) acc else
          nm ← sys (os_getnameinfo sa);
          match nm with
          | None => mret None
          | Some a =>
              let d := {| if_addr := a; if_name := ifa_name i; if_sa := take 16 sa |} in
              populate_loop ifas numIfs (found + 1) (acc ++ [d])
          end
      end
  end.

(** The return value, the filled entries of [if_d] and [*numIfs]. *)
Definition populateInterfaceData (numIfs : Z) : PM (Z * list IF_DATA * Z) :=
  r ← sys_errno os_getifaddrs;
  match r with
  | None =>
      _ ← sock_error;
      fdbg DBG_ERROR "getifaddrs(): %s";; mret (SOCKET_ERROR, [], numIfs)
  | Some ifas =>
      l ← populate_loop ifas numIfs 0 [];
      match l with
      | None => mret (SOCKET_ERROR, [], numIfs)
      | Some (acc, found) =>
          if found >? numIfs then
            set_error Sys.ENOMEM;;
            fdbg DBG_ERROR "populateInterfaceData(): not enough memory";;
            mret (SOCKET_ERROR, acc, found)
          else mret (0, acc, found)
      end
  end.

(** Runs the calls of [l] until one of them returns [SOCKET_ERROR]. *)
Fixpoint first_error (l : list (PM Z)) : PM Z :=
  match l with
  | [] => mret 0
  | c :: l =>
      rc ← c;
      if rc =? SOCKET_ERROR then mret rc else first_error l
  end.

Definition buildIfPanel (p : IF_PANEL) (i : IF_DATA) : PM (Z * IF_PANEL) :=
  fdbg DBG_WARN "Using interface '%s' (%s)";;
  h ← CreatePanel Sys.AF_INET Sys.SOCK_DGRAM Sys.IPPROTO_UDP;
  let p := p <| hs := h |> in
  if h =? NULL then mret (SOCKET_ERROR, p) else
  o ← gets OPT;
  rc ← first_error [
    BindPanel h (Some (if_addr i)) (mcastport o) 1;
    SetDestination h (Some (mcastip o)) (mcastport o);
    JoinMulticastGroup h None;
    SetMulticastSendInterface h (if_sa i);
    SetMulticastLoopback h 1];
  if rc =? SOCKET_ERROR then mret (rc, p) else
  c ← CreatePanel Sys.AF_INET Sys.SOCK_STREAM Sys.IPPROTO_TCP;
  let p := p <| cs := c |> in
  if c =? NULL then mret (SOCKET_ERROR, p) else
  rc ← BindPanel c (Some (if_addr i)) (tcpport o) 1;
  if rc =? SOCKET_ERROR then mret (rc, p) else
  mret (0, p).

(** ** announce *)

Definition IF_PANEL_null : IF_PANEL := {| hs := NULL; cs := NULL |}.

(** [for (i = 0; i < ifd_length; i++) buildIfPanel(&ifp[i], &ifd[i])] from
    index [i]: the last return value and the array. *)
Fixpoint build_all (ifd : list IF_DATA) (i : nat) (ifp : list IF_PANEL) :
    PM (Z * list IF_PANEL) :=
  match ifd with
  | [] => mret (0, ifp)
  | d :: ifd =>
      p ← oob (ifp !! i);
      '(rc, p) ← buildIfPanel p d;
      let ifp := <[i := p]> ifp in
      if rc =? SOCKET_ERROR then
        fdbg DBG_ERROR "buildIfPanel(%d): '%s'";; mret (rc, ifp)
      else build_all ifd (S i) ifp
  end.

(** [sp_socket] of a panel as an [int]. *)
Definition panel_fd (p : ptr) : PM Z := x ← deref p; mret (s32 (sp_socket x)).

Fixpoint listen_all (ifp : list IF_PANEL) : PM Z :=
  match ifp with
  | [] => mret 0
  | p :: ifp =>
      fd ← panel_fd (cs p);
      rc ← sys_rc (os_listen fd 1);
      if rc =? SOCKET_ERROR then fdbg DBG_ERROR "listen(cs): '%s'";; mret rc
      else listen_all ifp
  end.

Fixpoint sendto_all (ifp : list IF_PANEL) : PM Z :=
  match ifp with
  | [] => mret 0
  | p :: ifp =>
      o ← gets OPT;
      c ← deref (cs p);
      h ← deref (hs p);
      let m := announce_msg_bytes (magicnum o) (sin_addr (sp_bind c)) (u16 (atoi (tcpport o))) 0 in
      rc ← sys_val (os_sendto (s32 (sp_socket h)) m (sp_dest h));
      if rc =? SOCKET_ERROR then fdbg DBG_ERROR "sendto(hs): %s";; mret rc
      else sendto_all ifp
  end.

Fixpoint cs_fds (ifp : list IF_PANEL) : PM (list Z) :=
  match ifp with
  | [] => mret []
  | p :: ifp => fd ← panel_fd (cs p); fds ← cs_fds ifp; mret (fd :: fds)
  end.

(** Accepts on the first interface whose socket is in [ready]. *)
Fixpoint accept_first (ifp : list IF_PANEL) (ready : list Z) : PM Z :=
  match ifp with
  | [] => mret (-1)
  | p :: ifp =>
      fd ← panel_fd (cs p);
      if decide (fd ∈ ready) then
        r ← sys_errno (os_accept fd);
        s ← (match r with
             | None => mret (-1)
             | Some (s, sa) =>
                 x ← deref (cs p);
                 dest ← oob (store (sp_dest x) 0 (take 16 sa));
                 assign (cs p) (λ x, x <| sp_dest := dest |>);; mret s
             end : PM Z);
        fdbg DBG_STATUS "connected to %s";; mret s
      else accept_first ifp ready
  end.

(** The announcing loop: [None] is [goto err], [Some s] the socket at its end.
    The debug message formats [hs0->sp_dest], where [hs0] is [ifp[0].hs]. *)
Fixpoint announce_loop (fuel : nat) (count num_packets : Z) (hs0 : ptr)
    (ifp : list IF_PANEL) : PM (option Z) :=
  match fuel with
  | O => no_fuel
  | S fuel =>
      if negb ((num_packets =? 0) || (count <? num_packets)) then mret (Some (-1)) else
      rc ← sendto_all ifp;
      if rc =? SOCKET_ERROR then mret None else
      _ ← deref hs0;
      fdbg DBG_VERB "Sent announce msg %d to %s";;
      fds ← cs_fds ifp;
      r ← sys_errno (os_select fds (Some 100000));
      match r with
      | None => fdbg DBG_ERROR "select(cs): %s";; mret None
      | Some ([], _) => announce_loop fuel (count + 1) num_packets hs0 ifp
      | Some (ready, _) =>
          s ← accept_first ifp ready;
          if negb (s =? -1) then mret (Some s)
          else announce_loop fuel (count + 1) num_packets hs0 ifp
      end
  end.

(** The cleanup after the loop; [false] is [goto err]. *)
Fixpoint announce_cleanup (socket : Z) (ifp : list IF_PANEL) : PM bool :=
  match ifp with
  | [] => mret true
  | p :: ifp =>
      fd ← panel_fd (cs p);
      (if socket =? fd then DissociatePanel (cs p) else FreePanel (cs p));;
      rc ← LeaveMulticastGroup (hs p) None;
      if rc =? SOCKET_ERROR then mret false else
      FreePanel (hs p);;
      announce_cleanup socket ifp
  end.

(** [err:] frees every panel of the array, [n] elements of it (at least 32). *)
Fixpoint announce_err (n i : nat) (ifp : list IF_PANEL) : PM unit :=
  match n with
  | O => mret ()
  | S n =>
      p ← oob (ifp !! i);
      FreePanel (hs p);;
      FreePanel (cs p);;
      announce_err n (S i) ifp
  end.

Definition announce (fuel : nat) (optrc : option string) : PM Z :=
  ReadOptions optrc;;
  let ifp := replicate (Z.to_nat MAX_IF_LENGTH) IF_PANEL_null in
  '(rc, ifd, ifd_length) ← populateInterfaceData MAX_IF_LENGTH;
  let err ifp :=
    announce_err (Z.to_nat (Z.max ifd_length MAX_IF_LENGTH)) 0 ifp;; mret (-1) in
  if rc =? SOCKET_ERROR then fdbg DBG_ERROR "populateInterfaceData(): '%s'";; err ifp else
  '(rc, ifp) ← build_all ifd 0 ifp;
  if rc =? SOCKET_ERROR then err ifp else
  let used := take (Z.to_nat ifd_length) ifp in
  rc ← listen_all used;
  if rc =? SOCKET_ERROR then err ifp else
  o ← gets OPT;
  let num_packets := timeout o * PACKETS_PER_SEC in
  p0 ← oob (ifp !! 0%nat);
  r ← announce_loop fuel 0 num_packets (hs p0) used;
  match r with
  | None => err ifp
  | Some socket =>
      ok ← announce_cleanup socket used;
      if (ok : bool) then mret socket else err ifp
  end.

(** ** locate *)

Fixpoint join_all (h : ptr) (ifd : list IF_DATA) : PM Z :=
  match ifd with
  | [] => mret 0
  | d :: ifd =>
      rc ← JoinMulticastGroup h (Some (if_addr d));
      if rc =? SOCKET_ERROR then fdbg DBG_ERROR "MakeMulticast(hs): %s";; mret rc
      else join_all h ifd
  end.

(** The waiting loop with the datagram buffer [m] and the remaining time [tv];
    [None] is [goto err]. *)
Fixpoint locate_loop (fuel : nat) (h c : ptr) (tv : Z) (m : list Z) : PM (option Z) :=
  match fuel with
  | O => no_fuel
  | S fuel =>
      o ← gets OPT;
      hfd ← panel_fd h;
      r ← sys_errno (os_select [hfd] (if timeout o >? 0 then Some tv else None));
      match r with
      | None => fdbg DBG_ERROR "select(hs): %s";; mret None
      | Some ([], _) => mret (Some (-1))
      | Some (_, tv) =>
          r ← sys_errno (os_recvfrom hfd ANNOUNCE_MSG_SIZE);
          match r with
          | None => fdbg DBG_ERROR "recvfrom(hs): %s";; mret None
          | Some (bs, from) =>
              m ← oob (store m 0 bs);
              x ← deref c;
              dest ← oob (store (sp_dest x) 0 (take 16 from));
              assign c (λ x, x <| sp_dest := dest |>);;
              let magic := ntohl (le_val (take 4 m)) in
              m ← oob (store m 0 (le_bytes 4 magic));
              fdbg DBG_WARN "received announce (magic=%d) from %s";;
              if magic =? magicnum o then
                dest ← oob (store dest 4 (take 4 (drop 4 m)));
                dest ← oob (store dest 2 (take 2 (drop 8 m)));
                assign c (λ x, x <| sp_dest := dest |>);;
                cfd ← panel_fd c;
                rc ← sys_rc (os_connect cfd dest);
                if rc =? SOCKET_ERROR then fdbg DBG_ERROR "connect(cs): %s";; mret None else
                fdbg DBG_STATUS "connected to %s";;
                cfd ← panel_fd c;
                if negb (cfd =? -1) then mret (Some cfd) else locate_loop fuel h c tv m
              else locate_loop fuel h c tv m
          end
      end
  end.

Definition locate_err (h c : ptr) : PM Z :=
  (if negb (h =? NULL) then FreePanel h else mret ());;
  (if negb (c =? NULL) then FreePanel c else mret ());;
  mret (-1).

Definition locate (fuel : nat) (optrc : option string) : PM Z :=
  ReadOptions optrc;;
  '(rc, ifd, ifd_length) ← populateInterfaceData MAX_IF_LENGTH;
  if rc =? SOCKET_ERROR then
    fdbg DBG_ERROR "populateInterfaceData(): '%s'";; locate_err NULL NULL else
  h ← CreatePanel Sys.AF_INET Sys.SOCK_DGRAM Sys.IPPROTO_UDP;
  if h =? NULL then fdbg DBG_ERROR "CreateBoundPanel(hs): %s";; locate_err h NULL else
  o ← gets OPT;
  rc ← BindPanel h None (mcastport o) 1;
  if rc =? SOCKET_ERROR then fdbg DBG_ERROR "BindPanel(hs), '%s'";; locate_err h NULL else
  rc ← SetDestination h (Some (mcastip o)) (mcastport o);
  if rc =? SOCKET_ERROR then fdbg DBG_ERROR "SetDestination(hs): %s";; locate_err h NULL else
  rc ← join_all h ifd;
  if rc =? SOCKET_ERROR then locate_err h NULL else
  rc ← SetMulticastLoopback h 1;
  if rc =? SOCKET_ERROR then fdbg DBG_ERROR "SetMulticastLoopback(hs): %s";; locate_err h NULL else
  c ← CreateBoundPanel "0" Sys.AF_INET Sys.SOCK_STREAM Sys.IPPROTO_TCP;
  if c =? NULL then fdbg DBG_ERROR "CreateBoundPanel(cs): %s";; locate_err h c else
  m ← sys (os_garbage (Z.to_nat ANNOUNCE_MSG_SIZE));
  r ← locate_loop fuel h c (timeout o * 1000000) m;
  match r with
  | None => locate_err h c
  | Some socket =>
      FreePanel h;;
      DissociatePanel c;;
      mret socket
  end.
End discovery.
