(* ===== verification/DiscoverySpec.v ===== *)
(** * Correctness of discovery

    An announcement leads [locate] to the announced address and port; which
    interfaces [populateInterfaceData] finds; and the two faults of [announce]
    on machines with no usable interface and with more than the array holds. *)

From S2P Require Import Prelude Bytes Memory Process Message Panel Options Discovery.

(** ** Announcements *)

Lemma announce_msg_fields magic addr port :
  0 ≤ magic < 4294967296 → length addr = 4%nat → 0 ≤ port < 65536 →
  let m := announce_msg_bytes magic addr port 0 in
  length m = 12%nat ∧ ntohl (le_val (take 4 m)) = magic ∧
  take 4 (drop 4 m) = addr ∧ take 2 (drop 8 m) = be_bytes 2 port.
Proof.
  intros Hm Ha Hp m. unfold m, announce_msg_bytes.
  assert (length (le_bytes 4 (htonl magic)) = 4%nat) as H4 by apply length_le_bytes.
  assert (length (le_bytes 2 (htons port)) = 2%nat) as H2 by apply length_le_bytes.
  split; [rewrite !length_app, !length_le_bytes; lia|]. rewrite take_app_length' by done.
  rewrite (drop_app_length' _ _ 4) by done. rewrite (take_app_length' addr) by done.
  replace 8%nat with (4 + 4)%nat by done. rewrite <- drop_drop, !drop_app_length' by done.
  rewrite take_app_length' by done. split_and!; [|done|by apply htons_bytes].
  rewrite htonl_bytes by done. unfold ntohl.
  rewrite bswap32_le_val, be_val_bytes by auto with vf. apply Z.mod_small. done.
Qed.

Section locate_spec.
Context {W : Type} `{OS W}.
Implicit Types (p : proc W).

Lemma wp_deref q Q p x : q ≠ NULL → panels p !! q = Some x → Q x p → wp (deref q) Q p.
Proof.
  intros Hq Hx HQ. unfold deref. apply Z.eqb_neq in Hq. rewrite Hq.
  apply wp_bind, wp_gets. rewrite Hx. by apply wp_ret.
Qed.

Lemma wp_assign q f (Q : unit → proc W → Prop) p x :
  q ≠ NULL → panels p !! q = Some x → Q () (p <| panels ::= <[q := f x]> |>) → wp (assign q f) Q p.
Proof. intros Hq Hx HQ. apply wp_bind. by eapply wp_deref. Qed.

Lemma wp_sys_rc_ok f (Q : Z → proc W → Prop) p w :
  f (os p) = (inr (), w) → Q 0 (p <| os := w |>) → wp (sys_rc f) Q p.
Proof. intros Hf HQ. apply wp_bind. eapply wp_sys_errno_ok; [done|]. by apply wp_ret. Qed.

(** The address [locate] connects to: the sender's, with the announced address
    and port put in. *)
Definition announced_dest (from addr : list Z) (port : Z) : list Z :=
  take 2 from ++ be_bytes 2 port ++ addr ++ drop 8 from.

Lemma announced_dest_stores from addr port :
  length from = 16%nat → length addr = 4%nat →
  ∃ d, store from 4 addr = Some d ∧ store d 2 (be_bytes 2 port) = Some (announced_dest from addr port).
Proof.
  intros Hf Ha. eexists. rewrite store_in by lia. split; [done|].
  assert (length (be_bytes 2 port) = 2%nat) as Hb by apply length_be_bytes.
  rewrite store_in by (rewrite !length_app, length_take, length_drop; lia).
  unfold announced_dest. f_equal. rewrite Hb, Ha.
  rewrite take_app_le, take_take by (rewrite length_take; lia). do 2 f_equal.
  apply drop_app_length'. rewrite length_take. lia.
Qed.

(** C34: when the datagram that arrives is an announcement with the right magic
    number, [locate] connects its stream socket to exactly the announced address
    and port, and returns that socket. *)
Theorem locate_connects_to_announced fuel h c tv m p xh xc r rs tv' addr port from w1 w2 w3 :
  h ≠ NULL → c ≠ NULL → panels p !! h = Some xh → panels p !! c = Some xc →
  length m = 12%nat → length (sp_dest xc) = 16%nat → length from = 16%nat → length addr = 4%nat →
  0 ≤ magicnum (OPT p) < 4294967296 → 0 ≤ port < 65536 → s32 (sp_socket xc) ≠ -1 →
  let hfd := s32 (sp_socket xh) in
  let cfd := s32 (sp_socket xc) in
  os_select [hfd] (if timeout (OPT p) >? 0 then Some tv else None) (os p) = (inr (r :: rs, tv'), w1) →
  os_recvfrom hfd ANNOUNCE_MSG_SIZE w1 =
    (inr (announce_msg_bytes (magicnum (OPT p)) addr port 0, from), w2) →
  os_connect cfd (announced_dest from addr port) w2 = (inr (), w3) →
  ∃ p', locate_loop (S fuel) h c tv m p = Ret (Some cfd) p' ∧ os p' = w3 ∧
    panels p' !! c = Some (xc <| sp_dest := announced_dest from addr port |>).
Proof.
  intros Hh Hc Hxh Hxc Hm Hdl Hfl Hal Hmg Hport Hcfd hfd cfd Hsel Hrecv Hconn.
  destruct (announce_msg_fields (magicnum (OPT p)) addr port Hmg Hal Hport) as (Hl&Emg&Ead&Ept).
  set (msg := announce_msg_bytes _ _ _ _) in *.
  assert (wp (locate_loop (S fuel) h c tv m) (λ r p', r = Some cfd ∧ os p' = w3 ∧
    panels p' !! c = Some (xc <| sp_dest := announced_dest from addr port |>)) p) as Hw.
  { cbn [locate_loop]. apply wp_bind, wp_gets, wp_bind. unfold panel_fd.
    apply wp_bind. eapply wp_deref; [done..|]. apply wp_ret, wp_bind.
    eapply wp_sys_errno_ok; [exact Hsel|]. cbv beta iota. apply wp_bind.
    eapply wp_sys_errno_ok; [exact Hrecv|]. cbv beta iota.
    rewrite (store_all m msg) by lia. cbn [oob]. apply wp_bind, wp_ret, wp_bind.
    eapply (wp_deref c); [done..|]. rewrite (take_ge from) by lia.
    rewrite (store_all (sp_dest xc) from) by lia.
    cbn [oob]. apply wp_bind, wp_ret, wp_bind. eapply (wp_assign c); [done..|]. cbv zeta.
    rewrite Emg, Z.eqb_refl. rewrite store_in by (rewrite length_le_bytes; lia).
    cbn [oob]. apply wp_bind, wp_ret. rewrite length_le_bytes, take_0, app_nil_l. cbn [Nat.add].
    apply wp_bind, wp_fdbg. intros lg.
    rewrite (drop_app_length' _ _ 4), Ead by (by rewrite length_le_bytes).
    replace 8%nat with (4 + 4)%nat by done.
    rewrite <- drop_drop, (drop_app_length' _ _ 4), drop_drop by (by rewrite length_le_bytes).
    cbn [Nat.add]. rewrite Ept.
    destruct (announced_dest_stores from addr port Hfl Hal) as (d&Ed1&Ed2). rewrite Ed1.
    cbn [oob]. apply wp_bind, wp_ret. rewrite Ed2. cbn [oob]. apply wp_bind, wp_ret, wp_bind.
    eapply (wp_assign c); [done|cbn; by rewrite lookup_insert_eq|]. apply wp_bind, wp_bind.
    eapply (wp_deref c); [done|cbn; by rewrite lookup_insert_eq|]. apply wp_ret, wp_bind.
    eapply wp_sys_rc_ok; [exact Hconn|]. change (0 =? SOCKET_ERROR) with false. cbv iota.
    apply wp_bind, wp_fdbg. intros lg2. apply wp_bind, wp_bind.
    eapply (wp_deref c); [done|cbn; by rewrite lookup_insert_eq|]. apply wp_ret.
    cbn [sp_socket update]. fold cfd. apply Z.eqb_neq in Hcfd. fold cfd in Hcfd. rewrite Hcfd.
    apply wp_ret. cbn. by rewrite lookup_insert_eq. }
  destruct (proj1 (wp_Ret _ _ _) Hw) as (r'&p'&E&->&Ho&Hp). by exists p'.
Qed.
End locate_spec.

(** ** Interfaces *)

Definition usable_count (ifas : list ifaddr) : Z :=
  Z.of_nat (length (filter (λ i, is_Some (if_usable i)) ifas)).

Lemma usable_count_cons i ifas :
  usable_count (i :: ifas) = (match if_usable i with Some _ => 1 | None => 0 end) + usable_count ifas.
Proof.
  unfold usable_count. rewrite filter_cons. destruct (if_usable i) eqn:E.
  - rewrite decide_True by eauto. cbn. lia.
  - rewrite decide_False by (intros [? [=]]). lia.
Qed.

Section announce_faults.
Context {W : Type} `{OS W}.
Implicit Types (p : proc W).

(** Every address has a name. *)
Hypothesis getnameinfo_ok : ∀ sa w, is_Some (os_getnameinfo sa w).1.

Lemma populate_loop_wp ifas numIfs found acc p :
  0 ≤ found → Z.of_nat (length acc) = Z.min found numIfs →
  wp (populate_loop ifas numIfs found acc) (λ r p',
    ∃ acc', r = Some (acc', found + usable_count ifas) ∧
      Z.of_nat (length acc') = Z.min (found + usable_count ifas) numIfs ∧
      same_process p p') p.
Proof.
  revert found acc p. induction ifas as [|i ifas IH]; intros found acc p Hf Hacc; cbn [populate_loop].
  { apply wp_ret. exists acc. change (usable_count []) with 0. rewrite Z.add_0_r. done. }
  rewrite usable_count_cons. destruct (if_usable i) as [sa|]; cycle 1.
  { rewrite Z.add_0_l. by apply IH. }
  rewrite Z.add_assoc. destruct (found + 1 >? numIfs) eqn:E.
  { apply IH; lia. }
  apply wp_bind, wp_sys. destruct (getnameinfo_ok sa (os p)) as [a ->].
  eapply wp_mono; [apply IH; [lia|rewrite length_app; cbn; lia]|].
  intros r p' (acc'&->&Hl&Hs). exists acc'. done.
Qed.

Lemma populateInterfaceData_wp numIfs ifas w p :
  0 ≤ numIfs → os_getifaddrs (os p) = (inr ifas, w) →
  wp (populateInterfaceData numIfs) (λ r p', ∃ acc,
    r = (if usable_count ifas >? numIfs then SOCKET_ERROR else 0, acc, usable_count ifas) ∧
    Z.of_nat (length acc) = Z.min (usable_count ifas) numIfs ∧ same_process p p') p.
Proof.
  intros Hn Hget. unfold populateInterfaceData. apply wp_bind.
  eapply wp_sys_errno_ok; [exact Hget|]. cbv beta iota.
  apply wp_bind. eapply wp_mono; [apply populate_loop_wp; cbn; lia|].
  intros r p1 (acc&->&Hl&Hs). rewrite Z.add_0_l in *. cbv beta iota.
  destruct (usable_count ifas >? numIfs).
  - apply wp_bind, wp_modify, wp_bind, wp_fdbg. intros lg. apply wp_ret. by exists acc.
  - apply wp_ret. by exists acc.
Qed.

(** [populateInterfaceData] reports the number of usable interfaces; it fails
    exactly when there are more than the caller has room for, and the entries it
    filled never exceed that room. *)
Theorem populateInterfaceData_counts numIfs ifas w p :
  0 ≤ numIfs → os_getifaddrs (os p) = (inr ifas, w) →
  ∃ acc p', populateInterfaceData numIfs p =
      Ret (if usable_count ifas >? numIfs then SOCKET_ERROR else 0, acc, usable_count ifas) p' ∧
    Z.of_nat (length acc) = Z.min (usable_count ifas) numIfs ∧ same_process p p'.
Proof.
  intros Hn Hget.
  destruct (proj1 (wp_Ret _ _ _) (populateInterfaceData_wp numIfs ifas w p Hn Hget))
    as (r&p'&E&acc&->&Hl&Hs). by exists acc, p'.
Qed.

Lemma announce_err_overrun n i k p :
  announce_err (W := W) (n + S k) i (replicate (i + n) IF_PANEL_null) p = UB OutOfBounds.
Proof.
  revert i. induction n as [|n IH]; intros i; cbn [announce_err Nat.add].
  - rewrite Nat.add_0_r, lookup_ge_None_2; [done|]. rewrite length_replicate. lia.
  - rewrite lookup_replicate_2 by lia. unfold mbind, M_bind. cbn.
    replace (i + S n)%nat with (S i + n)%nat by lia. apply (IH (S i)).
Qed.

(** On a machine with more usable interfaces than the array of [announce]
    holds, its error path walks past the end of the array. *)
Theorem announce_too_many_interfaces fuel optrc ifas w p :
  set (OPT p) = 1 → os_getifaddrs (os p) = (inr ifas, w) → MAX_IF_LENGTH < usable_count ifas →
  announce fuel optrc p = UB OutOfBounds.
Proof.
  intros Hset Hget Hmany. unfold MAX_IF_LENGTH in *. unfold announce.
  apply bind_outcome. unfold ReadOptions at 1. apply wp_bind, wp_gets. rewrite Hset. cbn [Z.eqb negb].
  apply wp_ret. apply bind_outcome.
  eapply wp_mono; [by eapply (populateInterfaceData_wp 32)|].
  intros r p1 (acc&->&_&_). replace (usable_count ifas >? 32) with true by lia.
  change (SOCKET_ERROR =? SOCKET_ERROR) with true. cbv iota zeta beta.
  apply bind_outcome, wp_fdbg. intros lg. apply bind_fault.
  unfold MAX_IF_LENGTH. change (Z.to_nat 32) with 32%nat.
  replace (Z.to_nat (Z.max (usable_count ifas) 32))
    with (32 + S (Z.to_nat (usable_count ifas) - 33))%nat by lia.
  apply (announce_err_overrun 32 0).
Qed.

(** On a machine without a usable interface, [announce] formats the address of
    a panel that does not exist. *)
Theorem announce_no_interface fuel optrc ifas w p :
  set (OPT p) = 1 → os_getifaddrs (os p) = (inr ifas, w) → usable_count ifas = 0 →
  0 ≤ timeout (OPT p) → announce (S fuel) optrc p = UB NullDeref.
Proof.
  intros Hset Hget Hnone Htime. unfold MAX_IF_LENGTH, announce.
  apply bind_outcome. unfold ReadOptions at 1. apply wp_bind, wp_gets. rewrite Hset. cbn [Z.eqb negb].
  apply wp_ret. apply bind_outcome.
  eapply wp_mono; [by eapply (populateInterfaceData_wp 32)|].
  intros r p1 (acc&->&Hl&Ho&_). rewrite Hnone in *. destruct acc; [|cbn in Hl; lia].
  change (0 >? 32) with false. change (0 =? SOCKET_ERROR) with false. cbv iota zeta beta.
  cbn [build_all]. apply bind_outcome, wp_ret. change (0 =? SOCKET_ERROR) with false. cbv iota.
  rewrite take_0. cbn [listen_all]. apply bind_outcome, wp_ret.
  change (0 =? SOCKET_ERROR) with false. cbv iota. apply bind_outcome, wp_gets. cbv zeta.
  change (Z.to_nat MAX_IF_LENGTH) with 32%nat. rewrite lookup_replicate_2 by lia. cbn [oob]. apply bind_outcome, wp_ret. apply bind_fault.
  cbn [announce_loop]. unfold PACKETS_PER_SEC. rewrite Ho.
  replace (negb ((timeout (OPT p) * 10 =? 0) || (0 <? timeout (OPT p) * 10))) with false by lia. cbn [sendto_all]. apply bind_outcome, wp_ret.
  change (0 =? SOCKET_ERROR) with false. cbv iota. by apply bind_fault.
Qed.
End announce_faults.
