(* ===== verification/Demo.v ===== *)
(** * The demonstration program ([vf_tx/demo.c])

    One process announces itself and waits for a message, the other finds it, reads
    a line from its terminal and sends it. *)

From S2P Require Import Prelude Bytes Memory Process Message Panel Options Discovery.

Abbreviation MAX_MSGSIZE := 1024.
Abbreviation OPTRC_FILE := "demo.optrc"%string.
Abbreviation INVALID_SOCKET := (-1).

(** ** Strings *)

(** The bytes before the terminator; [None] reads past the end. *)
Fixpoint c_string (buf : list Z) : option (list Z) :=
  match buf with
  | [] => None
  | b :: buf => if b =? 0 then Some [] else cons b <$> c_string buf
  end.

(** [fgets(buf, n, stdin)]: what is read ends with a newline, with the input or with
    the space; at the end of the input the buffer stays as it was. *)
Fixpoint take_line (n : nat) (input : list Z) : list Z :=
  match n, input with
  | S n, b :: input => if b =? 10 then [b] else b :: take_line n input
  | _, _ => []
  end.
Definition fgets (buf : list Z) (n : nat) (input : list Z) : option (list Z) :=
  let line := take_line (n - 1) input in
  if bool_decide (line = []) then Some buf else store buf 0 (line ++ [0]).

(** ** The program *)

(** [ProcessArgs]: an argument that starts with -s or -S. *)
Definition server_arg (arg : list Z) : bool :=
  match arg with 45 :: c :: _ => (c =? 115) || (c =? 83) | _ => false end.
Definition bIsServer (args : list (list Z)) : bool := existsb server_arg args.

(** "Enter a message: " *)
Definition prompt : list Z := [69; 110; 116; 101; 114; 32; 97; 32; 109; 101; 115; 115; 97; 103; 101; 58; 32].

Section demo.
Context {W : Type} `{OS W}.
Abbreviation PM := (M (proc W)).

(** With a connection: the exit status and what is printed. *)
Definition demo_serve (socket : Z) : PM (Z * list Z) :=
  '(rc, buffer, msg_size) ← recvdata socket (replicate (Z.to_nat (MAX_MSGSIZE + 1)) 0) MAX_MSGSIZE;
  if rc =? SOCKET_ERROR then mret (-1, []) else
  text ← oob (c_string buffer);
  mret (0, text ++ [10]).

Definition demo_send (socket : Z) (input : list Z) : PM Z :=
  msg ← oob (fgets (replicate (Z.to_nat (MAX_MSGSIZE + 1)) 0) (Z.to_nat MAX_MSGSIZE) input);
  text ← oob (c_string msg);
  rc ← senddata socket msg (Z.of_nat (length text));
  if rc =? SOCKET_ERROR then mret (-1) else mret 0.

Definition demo_main (fuel : nat) (args : list (list Z)) (input : list Z) : PM (Z * list Z) :=
  if bIsServer args then
    socket ← announce fuel (Some OPTRC_FILE);
    if socket =? INVALID_SOCKET then sys_rc (os_close socket);; mret (-1, []) else
    r ← demo_serve socket;
    sys_rc (os_close socket);; mret r
  else
    socket ← locate fuel (Some OPTRC_FILE);
    if socket =? INVALID_SOCKET then sys_rc (os_close socket);; mret (-1, []) else
    rc ← demo_send socket input;
    sys_rc (os_close socket);; mret (rc, prompt).
End demo.

(** ** A line goes through *)

(** A line as a terminal gives it: no NUL and no newline but the last character. *)
Definition line_ok (text : list Z) : Prop := Forall (λ b, 0 < b < 256 ∧ b ≠ 10) text.

Lemma take_line_all text n rest : line_ok text → (length text < n)%nat → take_line n (text ++ 10 :: rest) = text ++ [10].
Proof.
  intros Ht. revert n. induction Ht as [|b text [_ Hb] Ht IH]; intros [|n] Hn; cbn in *; try lia; [done|].
  apply Z.eqb_neq in Hb. rewrite Hb. f_equal. apply IH. lia.
Qed.

Lemma c_string_line line rest : Forall (λ b, b ≠ 0) line → c_string (line ++ 0 :: rest) = Some line.
Proof.
  intros Hl. induction Hl as [|b line Hb Hl IH]; [done|]. cbn. apply Z.eqb_neq in Hb. by rewrite Hb, IH.
Qed.

Lemma line_nonzero text : line_ok text → Forall (λ b, b ≠ 0) (text ++ [10]) ∧ bytes_ok (text ++ [10]).
Proof.
  intros Ht. split; apply Forall_app; (split; [|repeat constructor; unfold byte_ok; lia]);
    (eapply Forall_impl; [|exact Ht]); intros b [Hb _]; unfold byte_ok; lia.
Qed.

Abbreviation zeros := (replicate (Z.to_nat (MAX_MSGSIZE + 1)) 0).

Lemma fgets_line text more : line_ok text → (length text < 1023)%nat →
  ∃ msg tail, fgets zeros (Z.to_nat MAX_MSGSIZE) (text ++ 10 :: more) = Some msg ∧
    msg = (text ++ [10]) ++ 0 :: tail ∧ bytes_ok msg.
Proof.
  intros Ht Hlen. destruct (line_nonzero text Ht) as [_ Hok]. unfold fgets. rewrite take_line_all by (done || lia).
  set (line := text ++ [10]) in *. assert (length line = S (length text)) as Hll by (unfold line; rewrite length_app; cbn; lia).
  clearbody line. cbv zeta. rewrite (bool_decide_false (line = [])) by (intros E; rewrite E in Hll; discriminate Hll).
  rewrite store_in by (rewrite length_app, length_replicate; cbn; lia). eexists _, _. split; [reflexivity|].
  cbn [take app Nat.add]. rewrite <- app_assoc. split; [reflexivity|].
  assert (bytes_ok zeros) by (apply Forall_replicate; unfold byte_ok; lia).
  rewrite !bytes_ok_app. split_and!; [constructor|done|repeat constructor; lia|auto with vf].
Qed.

Lemma demo_send_wp {W : Type} `{StreamOS W} fd text more (p : proc W) :
  line_ok text → (length text < 1023)%nat →
  wp (demo_send fd (text ++ 10 :: more)) (λ rc p', rc = 0 ∧ ∃ pad, length pad = 2%nat ∧
    txd (os p') fd = txd (os p) fd ++ msg_encode pad (text ++ [10])) p.
Proof.
  intros Ht Hlen. destruct (line_nonzero text Ht) as [Hnz _].
  destruct (fgets_line text more Ht Hlen) as (msg&tail&Ef&Em&Hok).
  unfold demo_send. rewrite Ef. cbn [oob]. apply wp_bind, wp_ret.
  assert (c_string msg = Some (text ++ [10])) as -> by (rewrite Em; by apply c_string_line).
  cbn [oob]. apply wp_bind, wp_ret, wp_bind. eapply wp_mono; [apply senddata_wp; [done| |]|].
  - rewrite length_app. cbn. lia.
  - rewrite Em, !length_app. lia.
  - intros rc p1 (->&_&_&pad&Hpad&_&Htx). rewrite Nat2Z.id, Em, take_app_length in Htx.
    destruct (Z.eqb_spec (Z.of_nat (length (text ++ [10]))) SOCKET_ERROR) as [E|_]; [change SOCKET_ERROR with (-1) in E; lia|].
    apply wp_ret. split; [done|]. by exists pad.
Qed.

Lemma demo_serve_wp {W : Type} `{StreamOS W} fd text pad rest (q : proc W) :
  line_ok text → (length text < 1023)%nat → length pad = 2%nat →
  rx (os q) fd = msg_encode pad (text ++ [10]) ++ rest →
  wp (demo_serve fd) (λ r q', r = (0, text ++ [10; 10]) ∧ rx (os q') fd = rest) q.
Proof.
  intros Ht Hlen Hpad Hrx. destruct (line_nonzero text Ht) as [Hnz Hok].
  set (line := text ++ [10]) in *. assert (length line = S (length text)) as Hll by (unfold line; rewrite length_app; cbn; lia).
  assert (bytes_ok zeros) by (apply Forall_replicate; unfold byte_ok; lia).
  unfold demo_serve. apply wp_bind.
  eapply wp_mono; [apply (recvdata_wp fd zeros MAX_MSGSIZE pad line (xor_words line) rest q);
    rewrite ?length_replicate; try done; try lia|].
  - by apply xor_words_range.
  - rewrite Hrx. unfold msg_encode. by rewrite <- app_assoc.
  - intros [[rc data] len] q1 (->&->&->&Hx&_). change (0 =? SOCKET_ERROR) with false. cbv iota.
    assert (drop (length line) zeros = 0 :: drop (S (length line)) zeros) as ->.
    { apply drop_S, lookup_replicate. split; [done|lia]. }
    rewrite (c_string_line line _ Hnz). cbn [oob]. apply wp_bind, wp_ret, wp_ret. split; [|done].
    unfold line. by rewrite <- app_assoc.
Qed.

(** The line that is typed at one end is printed at the other, whatever follows
    it in the input or in the connection. *)
Theorem demo_line_printed {W V : Type} `{StreamOS W} `{StreamOS V} (fd fd' : Z) text more (p : proc W) :
  line_ok text → (length text < 1023)%nat →
  ∃ p' bytes,
    demo_send fd (text ++ 10 :: more) p = Ret 0 p' ∧ txd (os p') fd = txd (os p) fd ++ bytes ∧
    ∀ (q : proc V) rest, rx (os q) fd' = bytes ++ rest →
      ∃ q', demo_serve fd' q = Ret (0, text ++ [10; 10]) q' ∧ rx (os q') fd' = rest.
Proof.
  intros Ht Hlen. destruct (proj1 (wp_Ret _ _ _) (demo_send_wp fd text more p Ht Hlen)) as (rc&p'&E&->&pad&Hpad&Htx).
  exists p', (msg_encode pad (text ++ [10])). split; [done|]. split; [done|]. intros q rest Hrx.
  destruct (proj1 (wp_Ret _ _ _) (demo_serve_wp fd' text pad rest q Ht Hlen Hpad Hrx)) as (r&q'&E'&->&Hx). eauto.
Qed.
