(* ===== verification/SendRcv.v ===== *)
(** * The test program for files ([vf_tx/sendrcv.c])

    The demonstration program with the message in a file, and optionally its size in
    a second one: what is sent is the last line of the file. *)

From Stdlib Require Import Ascii String.
From S2P Require Import Prelude Bytes Memory Process Message Panel Options Discovery Demo.

Abbreviation SENDRCV_OPTRC := "tinymsg.optrc"%string.

(** ** Files *)

Definition file_chars (text : string) : list Z := map (λ c, Z.of_nat (nat_of_ascii c)) (list_ascii_of_string text).

(** [atoi]: white space, a sign, digits. *)
Definition is_blank (c : Z) : bool := ((9 <=? c) && (c <=? 13)) || (c =? 32).
Fixpoint skip_blanks (l : list Z) : list Z :=
  match l with c :: l' => if is_blank c then skip_blanks l' else l | [] => [] end.
Fixpoint digits (acc : Z) (l : list Z) : Z :=
  match l with c :: l => if (48 <=? c) && (c <=? 57) then digits (acc * 10 + (c - 48)) l else acc | [] => acc end.
Definition chars_atoi (l : list Z) : Z :=
  match skip_blanks l with
  | 45 :: l => - digits 0 l
  | 43 :: l => digits 0 l
  | l => digits 0 l
  end.

(** The inner loop: the file of the size is read in pieces of four characters, and the
    last piece decides. *)
Fixpoint read_sizes (fuel : nat) (input : list Z) (buffSize : Z) : option Z :=
  match fuel with
  | O => None
  | S fuel =>
      let s := take_line 4 input in
      if bool_decide (s = []) then Some buffSize
      else read_sizes fuel (drop (length s) input) (chars_atoi s)
  end.

(** ** The program *)

(** What is printed at the end: the text and the size. *)
Inductive report :=
| Received (content : list Z) (size : Z)
| Sent (content : list Z) (size : Z)
| No_report.

Section sendrcv.
Context {W : Type} `{OS W}.
Abbreviation PM := (M (proc W)).

Definition sendrcv_size (argc : Z) (fileSize : option string) (msg : list Z) (buffSize : Z) : PM Z :=
  if argc =? 3 then text ← oob (c_string msg); mret (Z.of_nat (length text))
  else match fileSize with
  | None => fail NullDeref
  | Some fileSize =>
      f ← sys (os_fopen fileSize);
      match f with
      | None => mret buffSize
      | Some text =>
          match read_sizes (S (length (file_chars text))) (file_chars text) buffSize with
          | Some n => mret n
          | None => no_fuel
          end
      end
  end.

(** The outer loop: every line goes to the same buffer. *)
Fixpoint read_msgs (fuel : nat) (argc : Z) (fileSize : option string) (msg : list Z) (buffSize : Z) (input : list Z) :
    PM (list Z * Z) :=
  match fuel with
  | O => no_fuel
  | S fuel =>
      let line := take_line (Z.to_nat MAX_MSGSIZE - 1) input in
      if bool_decide (line = []) then mret (msg, buffSize) else
      msg ← oob (store msg 0 (line ++ [0]));
      buffSize ← sendrcv_size argc fileSize msg buffSize;
      read_msgs fuel argc fileSize msg buffSize (drop (length line) input)
  end.

Definition sendrcv_serve (socket : Z) : PM (Z * report) :=
  '(rc, buffer, msg_size) ← recvdata socket (replicate (Z.to_nat (MAX_MSGSIZE + 1)) 0) MAX_MSGSIZE;
  if rc =? SOCKET_ERROR then mret (-1, No_report) else
  text ← oob (c_string buffer);
  mret (0, Received text msg_size).

Definition sendrcv_send (socket : Z) (msg : list Z) (buffSize : Z) : PM (Z * report) :=
  rc ← senddata socket msg (u16 buffSize);
  if rc =? SOCKET_ERROR then mret (-1, No_report) else
  text ← oob (c_string msg);
  mret (0, Sent text buffSize).

(** [args] are the arguments behind the name of the program, with their characters as
    [ProcessArgs] looks at them. The name of the file is used before the arguments
    are counted: behind the last argument there is a null pointer and then nothing. *)
Definition sendrcv_main (fuel : nat) (args : list string) : PM (Z * report) :=
  let argc := 1 + Z.of_nat (length args) in
  match args with
  | [] => fail OutOfBounds
  | [_] => fail NullDeref
  | _ :: filename :: more =>
      file ← sys (os_fopen filename);
      if bIsServer (map file_chars args) then
        socket ← announce fuel (Some SENDRCV_OPTRC);
        if socket =? INVALID_SOCKET then sys_rc (os_close socket);; mret (-1, No_report) else
        r ← sendrcv_serve socket;
        sys_rc (os_close socket);; mret r
      else
        match file with
        | None => mret (3, No_report)
        | Some text =>
            let input := file_chars text in
            '(msg, buffSize) ← read_msgs (S (length input)) argc (head more)
              (replicate (Z.to_nat (MAX_MSGSIZE + 1)) 0) 0 input;
            socket ← locate fuel (Some SENDRCV_OPTRC);
            if socket =? INVALID_SOCKET then sys_rc (os_close socket);; mret (-1, No_report) else
            r ← sendrcv_send socket msg buffSize;
            sys_rc (os_close socket);; mret r
        end
  end.
End sendrcv.

(** ** The last line goes through *)

Definition file_of (texts : list (list Z)) : list Z := concat (map (λ t, t ++ [10]) texts).
Definition text_ok (t : list Z) : Prop := line_ok t ∧ (length t < 1023)%nat.

Section last_line.
Context {W : Type} `{StreamOS W}.
Implicit Types (p : proc W) (msg : list Z).

Lemma store_line msg t : length msg = 1025%nat → bytes_ok msg → text_ok t →
  ∃ tail, store msg 0 ((t ++ [10]) ++ [0]) = Some ((t ++ [10]) ++ 0 :: tail) ∧
    length ((t ++ [10]) ++ 0 :: tail) = 1025%nat ∧ bytes_ok ((t ++ [10]) ++ 0 :: tail).
Proof.
  intros Hl Hok [Ht Hlt]. destruct (line_nonzero t Ht) as [_ Htok].
  set (line := t ++ [10]) in *. assert (length line = S (length t)) as Hll by (unfold line; rewrite length_app; cbn; lia).
  clearbody line. rewrite store_in by (rewrite length_app; cbn; lia). eexists.
  cbn [take app Nat.add]. rewrite <- app_assoc. split; [reflexivity|]. split.
  - rewrite length_app. cbn [length app]. rewrite length_drop, length_app. cbn. lia.
  - rewrite bytes_ok_app. split; [done|]. constructor; [unfold byte_ok; lia|by apply bytes_ok_drop].
Qed.

Lemma read_msgs_wp fuel texts msg size p :
  length msg = 1025%nat → bytes_ok msg → Forall text_ok texts → (length (file_of texts) < fuel)%nat →
  wp (read_msgs fuel 3 None msg size (file_of texts)) (λ r p', p' = p ∧ length r.1 = 1025%nat ∧ bytes_ok r.1 ∧
    (texts = [] → r = (msg, size)) ∧
    ∀ init t, texts = init ++ [t] → r.2 = Z.of_nat (length (t ++ [10])) ∧ ∃ tail, r.1 = (t ++ [10]) ++ 0 :: tail) p.
Proof.
  intros Hl Hok Hts. revert fuel msg size Hl Hok. induction Hts as [|t texts Ht Hts IH]; intros fuel msg size Hl Hok Hf.
  { destruct fuel; [cbn in Hf; lia|]. apply wp_ret. split_and!; [done..|]. intros init t E. by destruct init. }
  destruct fuel as [|fuel]; [lia|]. unfold file_of in *. cbn [map concat] in *. cbn [read_msgs].
  pose proof Ht as [Hline Hlen]. rewrite <- app_assoc. cbn [app]. rewrite take_line_all by (done || lia).
  rewrite bool_decide_eq_false_2 by (by destruct t). destruct (store_line msg t Hl Hok Ht) as (tail&->&Hl'&Hok').
  cbn [oob]. apply wp_bind, wp_ret, wp_bind. unfold sendrcv_size. cbn [Z.eqb Pos.eqb].
  rewrite (c_string_line (t ++ [10])) by (by apply line_nonzero). cbn [oob]. apply wp_bind, wp_ret, wp_ret.
  assert (∀ l, drop (length (t ++ [10])) (t ++ 10 :: l) = l) as ->
    by (intros l; change (t ++ 10 :: l) with (t ++ [10] ++ l); rewrite app_assoc; apply drop_app_length).
  eapply wp_mono; [apply IH; [done|done|rewrite !length_app in Hf; cbn in Hf; lia]|].
  intros r p' (->&H1&H2&H3&H4). split_and!; [done|done|done|done|]. intros [|x init] u Hu.
  - injection Hu as <- ->. rewrite (H3 eq_refl). eauto.
  - injection Hu as <- Hu. by eapply H4.
Qed.

Lemma sendrcv_send_wp fd t tail p :
  text_ok t → length ((t ++ [10]) ++ 0 :: tail) = 1025%nat → bytes_ok ((t ++ [10]) ++ 0 :: tail) →
  wp (sendrcv_send fd ((t ++ [10]) ++ 0 :: tail) (Z.of_nat (length (t ++ [10])))) (λ r p',
    r = (0, Sent (t ++ [10]) (Z.of_nat (length (t ++ [10])))) ∧ ∃ pad, length pad = 2%nat ∧
    txd (os p') fd = txd (os p) fd ++ msg_encode pad (t ++ [10])) p.
Proof.
  intros [Ht Hlen] Hl Hok. assert (length (t ++ [10]) = S (length t)) as Hll by (rewrite length_app; cbn; lia).
  unfold sendrcv_send. rewrite u16_small by (unfold in_w; lia).
  apply wp_bind. eapply wp_mono; [apply senddata_wp; [done|lia|rewrite Hl; lia]|].
  intros rc p1 (->&_&_&pad&Hpad&_&Htx). rewrite Nat2Z.id, take_app_length in Htx.
  destruct (Z.eqb_spec (Z.of_nat (length (t ++ [10]))) SOCKET_ERROR) as [E|_]; [change SOCKET_ERROR with (-1) in E; lia|].
  rewrite (c_string_line (t ++ [10])) by (by apply line_nonzero). cbn [oob]. apply wp_bind, wp_ret, wp_ret. eauto.
Qed.

Lemma sendrcv_serve_wp fd t pad rest p :
  text_ok t → length pad = 2%nat → rx (os p) fd = msg_encode pad (t ++ [10]) ++ rest →
  wp (sendrcv_serve fd) (λ r p', r = (0, Received (t ++ [10]) (Z.of_nat (length (t ++ [10])))) ∧ rx (os p') fd = rest) p.
Proof.
  intros [Ht Hlen] Hpad Hrx. destruct (line_nonzero t Ht) as [Hnz Hok].
  set (line := t ++ [10]) in *. assert (length line = S (length t)) as Hll by (unfold line; rewrite length_app; cbn; lia).
  assert (bytes_ok zeros) by (apply Forall_replicate; unfold byte_ok; lia).
  unfold sendrcv_serve. apply wp_bind.
  eapply wp_mono; [apply (recvdata_wp fd zeros MAX_MSGSIZE pad line (xor_words line) rest p);
    rewrite ?length_replicate; try done; try lia|].
  - by apply xor_words_range.
  - rewrite Hrx. unfold msg_encode. by rewrite <- app_assoc.
  - intros [[rc data] len] q1 (->&->&->&Hx&_). change (0 =? SOCKET_ERROR) with false. cbv iota.
    assert (drop (length line) zeros = 0 :: drop (S (length line)) zeros) as ->.
    { apply drop_S, lookup_replicate. split; [done|lia]. }
    rewrite (c_string_line line _ Hnz). cbn [oob]. by apply wp_bind, wp_ret, wp_ret.
Qed.
End last_line.

(** Of a file of several lines only the last is sent; the other end prints it, with
    its length. *)
Theorem sendrcv_sends_last_line {W V : Type} `{StreamOS W} `{StreamOS V} (fd fd' : Z) earlier t (p : proc W) :
  let texts := earlier ++ [t] in Forall text_ok texts →
  ∃ p' bytes size,
    ('(msg, n) ← read_msgs (S (length (file_of texts))) 3 None zeros 0 (file_of texts); sendrcv_send fd msg n) p =
      Ret (0, Sent (t ++ [10]) size) p' ∧ txd (os p') fd = txd (os p) fd ++ bytes ∧
    ∀ (q : proc V) rest, rx (os q) fd' = bytes ++ rest →
      ∃ q', sendrcv_serve fd' q = Ret (0, Received (t ++ [10]) size) q' ∧ rx (os q') fd' = rest.
Proof.
  intros texts Hts. assert (text_ok t) as Ht by (by apply Forall_app in Hts as [_ [? _]%Forall_cons_iff]).
  assert (wp ('(msg, n) ← read_msgs (S (length (file_of texts))) 3 None zeros 0 (file_of texts); sendrcv_send fd msg n)
    (λ r p', r = (0, Sent (t ++ [10]) (Z.of_nat (length (t ++ [10])))) ∧ ∃ pad, length pad = 2%nat ∧
      txd (os p') fd = txd (os p) fd ++ msg_encode pad (t ++ [10])) p) as Hw.
  { apply wp_bind. eapply wp_mono; [apply read_msgs_wp; [done|by apply Forall_replicate|done|lia]|].
    intros [msg n] p1 (->&Hl&Hok&_&Ht'). destruct (Ht' earlier t eq_refl) as [Hn [tail Hm]]. cbn [fst snd] in *. subst.
    by apply sendrcv_send_wp. }
  destruct (proj1 (wp_Ret _ _ _) Hw) as (r&p'&E&->&pad&Hpad&Htx).
  exists p', (msg_encode pad (t ++ [10])), (Z.of_nat (length (t ++ [10]))). split; [done|]. split; [done|].
  intros q rest Hrx. destruct (proj1 (wp_Ret _ _ _) (sendrcv_serve_wp fd' t pad rest q Ht Hpad Hrx)) as (r&q'&E'&->&Hx). eauto.
Qed.

(** A size of four digits at the end of a line counts as no size: the newline is a
    piece of its own. *)
Lemma size_of_four_digits a b c d n :
  Forall (λ x, 48 ≤ x ≤ 57) [a; b; c; d] → read_sizes 6 [a; b; c; d; 10] n = Some 0.
Proof.
  intros Hd. repeat match goal with H : Forall _ (_ :: _) |- _ => apply Forall_cons_iff in H as [? ?] end.
  cbn [read_sizes take_line]. replace (a =? 10) with false by lia. replace (b =? 10) with false by lia.
  replace (c =? 10) with false by lia. replace (d =? 10) with false by lia. done.
Qed.
