(* ===== verification/Firmware.v ===== *)
(** * The virtual firmware ([vf_tx/vf_tx.c])

    The communication thread answers admin queue commands: it receives a
    descriptor (and its data buffer), performs the command, and sends the
    descriptor (and, for an echo, the buffer) back. ThreadX itself is outside
    the sources; [tx_application_define] is the list of calls made to it. *)

From S2P Require Import Prelude Bytes Memory Process Message Panel Options Discovery E1000Hw AqSpec.

Definition FW_MSG_SIZE : Z := AQ_DESC_SIZE.
Definition FW_DAT_SIZE : Z := 4096.
Abbreviation FW_THREADS := 1.
Abbreviation FW_STACK_SIZE := 1024.
Abbreviation FW_BYTE_POOL_SIZE := (FW_MSG_SIZE + FW_THREADS * FW_STACK_SIZE + FW_DAT_SIZE).
Definition OPTRC_FILE : string := "vf.optrc".
Abbreviation TID_COMM := 1.

(** ** ThreadX set-up *)

Inductive tx_call :=
| Tx_byte_pool_create (size : Z)
| Tx_byte_allocate (size : Z)
| Tx_thread_create (input stack_size priority threshold slice : Z).

Definition tx_application_define : list tx_call := [
  Tx_byte_pool_create FW_BYTE_POOL_SIZE;
  Tx_byte_allocate FW_STACK_SIZE;
  Tx_thread_create TID_COMM (FW_STACK_SIZE + FW_DAT_SIZE) 16 16 4].

(** ** Commands *)

Definition FW_MAJ_TEMP : Z := 0x34.
Definition FW_MIN_TEMP : Z := 0x13.
Definition API_MAJ_TEMP : Z := 0xfa.
Definition API_MIN_TEMP : Z := 0xaf.

Definition fw_aq_get_version (desc : e1000_aq_desc) : e1000_aq_desc :=
  let desc := desc <| aq_param0 := FW_MAJ_TEMP |> in
  let desc := desc <| aq_param0 ::= λ v, v .| (FW_MIN_TEMP << 16) |> in
  let desc := desc <| aq_param1 := API_MAJ_TEMP |> in
  desc <| aq_param1 ::= λ v, v .| (API_MIN_TEMP << 16) |>.

Definition fw_aq_driver_heartbeat (desc : e1000_aq_desc) : e1000_aq_desc := desc.
Definition fw_aq_echo (desc : e1000_aq_desc) : e1000_aq_desc := desc.

(** The [switch] and the completion flag; the boolean is [echobuf = 1]. *)
Definition fw_execute (desc : e1000_aq_desc) : e1000_aq_desc * bool :=
  let '(desc, echo) :=
    if aq_opcode desc =? e1000_aqc_get_version then (fw_aq_get_version desc, false)
    else if aq_opcode desc =? e1000_aqc_driver_heartbeat then (fw_aq_driver_heartbeat desc, false)
    else if aq_opcode desc =? e1000_aqc_echo then (fw_aq_echo desc, true)
    else (desc <| aq_retval := E1000_AQ_RC_ENOSYS |>, false) in
  (desc <| aq_flags ::= λ f, u16 (f .| E1000_AQ_FLAG_DD) |>, echo).

(** ** The communication thread *)

(** The locals that live across iterations. *)
Record fw_state := {
  fw_desc : list Z;
  fw_buffer : list Z;
  fw_echobuf : bool;
}.
#[export] Instance fw_state_eta : Eta fw_state := λ s,
  Build_fw_state (fw_desc s) (fw_buffer s) (fw_echobuf s).

Section firmware.
Context {W : Type} `{OS W}.
Abbreviation PM := (M (proc W)).

(** The receiving half of an iteration of [while (1)]: the locals, and
    [msg_length] and [dat_length] unless the descriptor could not be received. *)
Definition t_0_receive (g_sock : Z) (st : fw_state) : PM (fw_state * option (Z * Z)) :=
  '(rc, desc, msg_length) ← recvdata g_sock (fw_desc st) AQ_DESC_SIZE;
  fdbg DBG_VERB "Received size: %d";;
  let st := st <| fw_desc := desc |> in
  if rc =? SOCKET_ERROR then fdbg DBG_ERROR "RECVDATA (message): %s";; mret (st, None) else
  let dat_length := aq_datalen (aq_desc_decode desc) in
  if negb (dat_length =? 0) then
    '(rc, buffer, dat_length) ← recvdata g_sock (fw_buffer st) dat_length;
    fdbg DBG_VERB "Received size: %d";;
    (if rc =? SOCKET_ERROR then fdbg DBG_ERROR "RECVDATA (buffer): %s" else mret ());;
    mret (st <| fw_buffer := buffer |>, Some (msg_length, dat_length))
  else mret (st, Some (msg_length, dat_length)).

(** The answering half; [false] when it breaks out of the loop. *)
Definition t_0_answer (g_sock : Z) (st : fw_state) (msg_length dat_length : Z) :
    PM (fw_state * bool) :=
  let '(d, echo) := fw_execute (aq_desc_decode (fw_desc st)) in
  let st := st <| fw_desc := aq_desc_encode d |> <| fw_echobuf ::= λ e, e || echo |> in
  rc ← senddata g_sock (fw_desc st) msg_length;
  if rc =? SOCKET_ERROR then fdbg DBG_ERROR "SENDDATA (message): %s";; mret (st, false) else
  if fw_echobuf st && negb (dat_length =? 0) then
    rc ← senddata g_sock (fw_buffer st) dat_length;
    if rc =? SOCKET_ERROR then fdbg DBG_ERROR "SENDDATA (buffer): %s";; mret (st, false)
    else mret (st <| fw_echobuf := false |>, true)
  else mret (st, true).

(** One iteration of [while (1)]. *)
Definition t_0_iter (g_sock : Z) (st : fw_state) : PM (fw_state * bool) :=
  '(st, r) ← t_0_receive g_sock st;
  match r with
  | None => mret (st, true)
  | Some (msg_length, dat_length) => t_0_answer g_sock st msg_length dat_length
  end.

(** [n] iterations, or fewer when one of them leaves the loop. *)
Fixpoint t_0_loop (n : nat) (g_sock : Z) (st : fw_state) : PM (fw_state * bool) :=
  match n with
  | O => mret (st, true)
  | S n =>
      '(st, go) ← t_0_iter g_sock st;
      if (go : bool) then t_0_loop n g_sock st else mret (st, false)
  end.

(** [t_0_entry]: the two locals start out unset. *)
Definition t_0_entry (n : nat) (g_sock : Z) : PM (fw_state * bool) :=
  fdbg DBG_WARN "Entering thread t_0.";;
  desc ← sys (os_garbage (Z.to_nat AQ_DESC_SIZE));
  buffer ← sys (os_garbage (Z.to_nat FW_DAT_SIZE));
  t_0_loop n g_sock {| fw_desc := desc; fw_buffer := buffer; fw_echobuf := false |}.

(** [main] after [WSAStartup] succeeded; [tx_kernel_enter] runs the thread. *)
Definition vf_main (fuel n : nat) : PM Z :=
  g_sock ← announce fuel (Some OPTRC_FILE);
  if g_sock =? -1 then
    _ ← sys_rc (os_close g_sock); mret (-1)
  else
    _ ← t_0_entry n g_sock;
    _ ← sys_rc (os_close g_sock); mret 0.
End firmware.

(** ** Specification *)

(** The messages of a command and of its answer: the descriptor, and the data
    buffer when there is one to send. *)
Definition fw_request (d : e1000_aq_desc) (buf : list Z) : list (list Z) :=
  aq_desc_encode d :: if aq_datalen d =? 0 then [] else [buf].
Definition fw_response (echobuf : bool) (d : e1000_aq_desc) (buf : list Z) : list (list Z) :=
  aq_desc_encode (aq_completed true d) ::
  if (echobuf || (aq_opcode d =? e1000_aqc_echo)) && negb (aq_datalen d =? 0) then [buf] else [].

Lemma fw_execute_spec d :
  aq_desc_ok d → fw_execute d = (aq_completed true d, aq_opcode d =? e1000_aqc_echo).
Proof.
  intros Hd. rewrite aq_completed_cases. unfold fw_execute.
  destruct (Z.eqb_spec (aq_opcode d) e1000_aqc_get_version) as [E|E];
    [|destruct (Z.eqb_spec (aq_opcode d) e1000_aqc_driver_heartbeat) as [E2|E2]];
    [rewrite E|rewrite E2|destruct (aq_opcode d =? e1000_aqc_echo)];
    f_equal; by apply (aq_done_u16 d).
Qed.

(** The locals as the thread keeps them. *)
Definition fw_state_ok (st : fw_state) : Prop :=
  length (fw_desc st) = 32%nat ∧ bytes_ok (fw_desc st) ∧
  length (fw_buffer st) = Z.to_nat FW_DAT_SIZE ∧ bytes_ok (fw_buffer st).

(** A well-formed command with its data. *)
Definition fw_command_ok (d : e1000_aq_desc) (buf : list Z) : Prop :=
  aq_desc_ok d ∧ bytes_ok buf ∧ Z.of_nat (length buf) = aq_datalen d ∧ aq_datalen d ≤ FW_DAT_SIZE.

Lemma aq_desc_datalen_range d : aq_desc_ok d → 0 ≤ aq_datalen d < 65536.
Proof.
  unfold aq_desc_ok, fields_ok, aq_desc_layout, aq_desc_fields. rewrite !Forall2_cons_iff.
  intros (_&_&Hd&_). exact Hd.
Qed.

Section firmware_spec.
Context {W : Type} `{StreamOS W}.

Lemma recvdata_msg_wp (fd : Z) (data : list Z) (maxlen : Z) padding body rest (p : proc W) :
  bytes_ok data → bytes_ok body → length padding = 2%nat →
  0 < Z.of_nat (length body) < 65536 → Z.of_nat (length body) ≤ maxlen →
  (length body ≤ length data)%nat →
  rx (os p) fd = msg_encode padding body ++ rest →
  wp (recvdata fd data maxlen) (λ '(rc, data', len') p',
    rc = 0 ∧ len' = Z.of_nat (length body) ∧ data' = body ++ drop (length body) data ∧
    rx (os p') fd = rest ∧ txd (os p') fd = txd (os p) fd ∧ same_process p p' ∧
    peer (os p') = peer (os p)) p.
Proof.
  intros. eapply recvdata_wp with (sum := xor_words body); try done.
  - by apply xor_words_range.
  - unfold msg_encode in *. by rewrite app_assoc.
Qed.

(** The stream of a command, split into its one or two messages. *)
Lemma request_stream d buf pads (rest bytes : list Z) :
  Forall (λ pad, length pad = 2%nat) pads → length pads = length (fw_request d buf) →
  bytes = concat (zip_with msg_encode pads (fw_request d buf)) ++ rest →
  ∃ pad1 tail, length pad1 = 2%nat ∧ bytes = msg_encode pad1 (aq_desc_encode d) ++ tail ∧
    (aq_datalen d = 0 → tail = rest) ∧
    (aq_datalen d ≠ 0 → ∃ pad2, length pad2 = 2%nat ∧ tail = msg_encode pad2 buf ++ rest).
Proof.
  intros Hpads Hpl Hrx. unfold fw_request in *.
  destruct (Z.eqb_spec (aq_datalen d) 0) as [E|E].
  - destruct pads as [|pad1 [|]]; try done. apply Forall_cons_iff in Hpads as [Hp1 _].
    cbn [zip_with concat] in Hrx. rewrite app_nil_r in Hrx. eexists pad1, rest. done.
  - destruct pads as [|pad1 [|pad2 [|]]]; try done. rewrite !Forall_cons_iff in Hpads.
    destruct Hpads as (Hp1&Hp2&_). cbn [zip_with concat] in Hrx.
    rewrite app_nil_r, <- app_assoc in Hrx. eexists pad1, _. split; [done|].
    split; [exact Hrx|]. split; [done|]. eauto.
Qed.

Lemma t_0_receive_wp fd st d buf pads rest (p : proc W) :
  fw_state_ok st → fw_command_ok d buf →
  Forall (λ pad, length pad = 2%nat) pads → length pads = length (fw_request d buf) →
  rx (os p) fd = concat (zip_with msg_encode pads (fw_request d buf)) ++ rest →
  wp (t_0_receive fd st) (λ '(st', r) p',
    r = Some (32, aq_datalen d) ∧ fw_state_ok st' ∧ fw_desc st' = aq_desc_encode d ∧
    fw_echobuf st' = fw_echobuf st ∧ take (length buf) (fw_buffer st') = buf ∧
    rx (os p') fd = rest ∧ txd (os p') fd = txd (os p) fd) p.
Proof.
  intros (Hdl&Hdok&Hbl&Hbok) (Hd&Hbuf&Hlen&Hmax) Hpads Hpl Hrx.
  destruct (request_stream d buf pads rest _ Hpads Hpl Hrx) as (pad1&tail&Hp1&Hrx1&Ht0&Ht1).
  pose proof (aq_desc_datalen_range d Hd). pose proof (length_aq_desc_encode d) as Hel.
  unfold FW_DAT_SIZE in *. unfold t_0_receive. apply wp_bind.
  eapply wp_mono; [eapply recvdata_msg_wp with (body := aq_desc_encode d); 
    try done; auto with vf; rewrite Hel; unfold AQ_DESC_SIZE; lia|].
  intros [[rc desc] ml] p1 (->&->&->&Hx1&Htx1&_). rewrite Hel.
  apply wp_bind, wp_fdbg. intros lg. cbv zeta. simpl (0 =? SOCKET_ERROR). cbv iota.
  assert (aq_desc_encode d ++ drop 32 (fw_desc st) = aq_desc_encode d) as ->.
  { rewrite drop_ge by lia. apply app_nil_r. }
  rewrite aq_desc_decode_encode by done. unfold fw_state_ok.
  destruct (Z.eqb_spec (aq_datalen d) 0) as [E|E]; cbn [negb].
  - apply wp_ret. cbn. rewrite (Ht0 E) in Hx1. destruct buf; simpl in Hlen; [|lia].
    cbn [length]. rewrite take_0, E.
    split_and!; auto with vf; congruence.
  - destruct (Ht1 E) as (pad2&Hp2&Htail). rewrite Htail in Hx1. apply wp_bind.
    eapply wp_mono; [eapply recvdata_msg_wp with (body := buf); try done; cbn; try lia; exact Hx1|].
    intros [[rc buffer] dl] p2 (->&->&->&Hx2&Htx2&_). apply wp_bind, wp_fdbg. intros lg2.
    simpl (0 =? SOCKET_ERROR). cbv iota. apply wp_bind, wp_ret, wp_ret. cbn. cbn in Htx2.
    rewrite Hlen, length_app, length_drop. split_and!; auto with vf; try lia; try congruence.
    + unfold FW_DAT_SIZE. lia.
    + apply bytes_ok_app. auto with vf.
    + by rewrite take_app_length.
Qed.

Lemma t_0_answer_wp fd st d buf (p : proc W) :
  fw_state_ok st → fw_command_ok d buf → fw_desc st = aq_desc_encode d →
  take (length buf) (fw_buffer st) = buf →
  wp (t_0_answer fd st 32 (aq_datalen d)) (λ '(st', go) p',
    go = true ∧ fw_state_ok st' ∧
    fw_echobuf st' = (fw_echobuf st || (aq_opcode d =? e1000_aqc_echo)) && (aq_datalen d =? 0) ∧
    (∃ more, rx (os p') fd = rx (os p) fd ++ more ∧ (quiet → more = [])) ∧
    ∃ pads, Forall (λ pad, length pad = 2%nat) pads ∧
      length pads = length (fw_response (fw_echobuf st) d buf) ∧
      txd (os p') fd = txd (os p) fd ++
        concat (zip_with msg_encode pads (fw_response (fw_echobuf st) d buf))) p.
Proof.
  intros (Hdl&Hdok&Hbl&Hbok) (Hd&Hbuf&Hlen&Hmax) Hdesc Htake.
  pose proof (aq_desc_datalen_range d Hd). unfold t_0_answer, fw_response, fw_state_ok.
  rewrite Hdesc, aq_desc_decode_encode by done.
  rewrite fw_execute_spec by done. set (d' := aq_completed true d). set (echo := aq_opcode d =? _).
  cbv zeta.
  pose proof (length_aq_desc_encode d') as Hel. unfold FW_DAT_SIZE in *.
  apply wp_bind. eapply wp_mono; [apply senddata_wp; cbn; auto with vf; lia|].
  cbn. intros rc p1 (->&_&(m1&Hx1&Hq1)&pad1&Hp1&_&Ht1).
  simpl (32 =? SOCKET_ERROR). cbv iota.
  change (Z.to_nat 32) with 32%nat in Ht1. rewrite take_ge in Ht1 by lia.
  destruct (fw_echobuf st || echo) eqn:Ee; [destruct (Z.eqb_spec (aq_datalen d) 0) as [E|E]|];
    cbn [negb andb].
  - apply wp_ret. cbn. rewrite Ee. split_and!; eauto with vf.
    exists [pad1]. cbn. rewrite app_nil_r. split_and!; auto.
  - apply wp_bind. eapply wp_mono; [apply senddata_wp; cbn; auto; lia|].
    cbn. intros rc p2 (->&_&(m2&Hx2&Hq2)&pad2&Hp2&_&Ht2).
    replace (aq_datalen d =? SOCKET_ERROR) with false by (change SOCKET_ERROR with (-1); lia).
    apply wp_ret. cbn. split_and!; auto with vf.
    { exists (m1 ++ m2). rewrite Hx2, Hx1, <- app_assoc. split; [done|].
      intros q. by rewrite Hq1, Hq2. }
    exists [pad1; pad2]. cbn. rewrite app_nil_r. split_and!; auto.
    rewrite <- Hlen, Nat2Z.id, Htake in Ht2. by rewrite Ht2, Ht1, <- app_assoc.
  - apply wp_ret. cbn. rewrite Ee. split_and!; eauto with vf.
    exists [pad1]. cbn. rewrite app_nil_r. split_and!; auto.
Qed.

(** One iteration reads one command and sends its answer. *)
Lemma t_0_iter_spec fd st d buf pads rest (p : proc W) :
  fw_state_ok st → fw_command_ok d buf →
  Forall (λ pad, length pad = 2%nat) pads → length pads = length (fw_request d buf) →
  rx (os p) fd = concat (zip_with msg_encode pads (fw_request d buf)) ++ rest →
  ∃ st' p' pads' more,
    t_0_iter fd st p = Ret (st', true) p' ∧ fw_state_ok st' ∧
    fw_echobuf st' = (fw_echobuf st || (aq_opcode d =? e1000_aqc_echo)) && (aq_datalen d =? 0) ∧
    rx (os p') fd = rest ++ more ∧ (quiet → more = []) ∧
    Forall (λ pad, length pad = 2%nat) pads' ∧
    length pads' = length (fw_response (fw_echobuf st) d buf) ∧
    txd (os p') fd =
      txd (os p) fd ++ concat (zip_with msg_encode pads' (fw_response (fw_echobuf st) d buf)).
Proof.
  intros Hst Hcmd Hpads Hpl Hrx.
  destruct (proj1 (wp_Ret _ _ _) (t_0_receive_wp fd st d buf pads rest p Hst Hcmd Hpads Hpl Hrx))
    as ([st1 r]&p1&E1&->&Hst1&Hd1&He1&Hb1&Hx1&Ht1).
  destruct (proj1 (wp_Ret _ _ _) (t_0_answer_wp fd st1 d buf p1 Hst1 Hcmd Hd1 Hb1))
    as ([st2 go]&p2&E2&->&Hst2&He2&(more&Hx2&Hq2)&pads'&Hpads'&Hpl'&Ht2).
  rewrite He1 in *. exists st2, p2, pads', more. split_and!; try done; [|congruence..].
  unfold t_0_iter, mbind, M_bind. rewrite E1. exact E2.
Qed.
End firmware_spec.

(** The answers to a sequence of commands. The flag [echobuf] survives an echo
    without data. *)
Fixpoint fw_serve (echobuf : bool) (cmds : list (e1000_aq_desc * list Z)) : list (list Z) :=
  match cmds with
  | [] => []
  | (d, buf) :: cmds =>
      fw_response echobuf d buf ++
      fw_serve ((echobuf || (aq_opcode d =? e1000_aqc_echo)) && (aq_datalen d =? 0)) cmds
  end.
Definition fw_requests (cmds : list (e1000_aq_desc * list Z)) : list (list Z) :=
  concat (map (λ c, fw_request c.1 c.2) cmds).

Lemma zip_encode_app pads1 pads2 ms1 ms2 :
  length pads1 = length ms1 →
  concat (zip_with msg_encode (pads1 ++ pads2) (ms1 ++ ms2)) =
  concat (zip_with msg_encode pads1 ms1) ++ concat (zip_with msg_encode pads2 ms2).
Proof. intros. by rewrite zip_with_app, concat_app. Qed.

(** C9: the firmware thread, given a stream that holds any sequence of
    well-formed commands (with any padding bytes), runs through its loop once
    per command, consumes the stream up to its end, and answers each command in
    order as [fw_serve] specifies. *)
Theorem firmware_serves_commands {W : Type} `{StreamOS W} fd st cmds pads rest (p : proc W) :
  fw_state_ok st → Forall (λ c, fw_command_ok c.1 c.2) cmds →
  Forall (λ pad, length pad = 2%nat) pads → length pads = length (fw_requests cmds) →
  rx (os p) fd = concat (zip_with msg_encode pads (fw_requests cmds)) ++ rest →
  ∃ st' p' pads' more,
    t_0_loop (length cmds) fd st p = Ret (st', true) p' ∧ fw_state_ok st' ∧
    rx (os p') fd = rest ++ more ∧ (quiet → more = []) ∧
    Forall (λ pad, length pad = 2%nat) pads' ∧
    length pads' = length (fw_serve (fw_echobuf st) cmds) ∧
    txd (os p') fd =
      txd (os p) fd ++ concat (zip_with msg_encode pads' (fw_serve (fw_echobuf st) cmds)).
Proof.
  intros Hst Hcmds. revert st pads rest p Hst.
  induction Hcmds as [|[d buf] cmds Hc Hcmds IH]; intros st pads rest p Hst Hpads Hpl Hrx.
  { destruct pads; [|done]. exists st, p, [], []. cbn in *. rewrite !app_nil_r. done. }
  unfold fw_requests in Hpl, Hrx. cbn [map concat fst snd] in Hpl, Hrx.
  fold (fw_requests cmds) in Hpl, Hrx. rewrite length_app in Hpl.
  set (k := length (fw_request d buf)) in *.
  rewrite <- (take_drop k pads) in Hrx.
  rewrite zip_encode_app, <- app_assoc in Hrx by (rewrite length_take; lia).
  destruct (t_0_iter_spec fd st d buf (take k pads) _ p Hst Hc (Forall_take _ _ _ Hpads)
    ltac:(rewrite length_take; lia) Hrx)
    as (st1&p1&pads1&more1&E1&Hst1&He1&Hx1&Hq1&Hp1&Hpl1&Ht1).
  rewrite <- app_assoc in Hx1.
  destruct (IH st1 (drop k pads) (rest ++ more1) p1 Hst1 (Forall_drop _ _ _ Hpads)
    ltac:(rewrite length_drop; lia) Hx1)
    as (st2&p2&pads2&more2&E2&Hst2&Hx2&Hq2&Hp2&Hpl2&Ht2).
  exists st2, p2, (pads1 ++ pads2), (more1 ++ more2). cbn [length t_0_loop fw_serve].
  rewrite He1 in *. rewrite zip_encode_app by done. split_and!; try done.
  - unfold mbind, M_bind. rewrite E1. exact E2.
  - by rewrite Hx2, <- app_assoc.
  - intros q. by rewrite Hq1, Hq2.
  - by apply Forall_app.
  - rewrite !length_app. lia.
  - by rewrite Ht2, Ht1, <- app_assoc.
Qed.
