(* ===== verification/AdminQ.v ===== *)
(** * The admin queue of the device ([hw/e1000.c])

    A write to the tail register takes the command at the head of the queue,
    forwards it to the firmware over the message link, or carries it out itself
    when the firmware cannot be reached, and writes the descriptor back. The
    link is an interface: the messaging library implements it. *)

From S2P Require Import Prelude Bytes Memory E1000Hw AqSpec E1000State E1000Tx.

(** ** The message link *)

Class MsgLink (P : Type) := {
  link_locate : M P Z;
  link_senddata : Z → list Z → Z → M P Z;
  link_recvdata : Z → list Z → Z → M P (Z * list Z * Z);
  link_close : Z → M P unit;
  link_malloc : nat → M P (list Z);
}.

Definition aq_addr (d : e1000_aq_desc) : Z := (aq_addr_high d << 32) .| aq_addr_low d.

(** ** Commands carried out by the device *)

Definition FW_MAJ_TEMP : Z := 0x34.
Definition FW_MIN_TEMP : Z := 0x13.
Definition API_MAJ_TEMP : Z := 0xfa.
Definition API_MIN_TEMP : Z := 0xaf.

Definition e1000_aq_get_version (desc : e1000_aq_desc) : e1000_aq_desc :=
  let desc := desc <| aq_param0 := FW_MAJ_TEMP |> in
  let desc := desc <| aq_param0 ::= λ v, v .| (FW_MIN_TEMP << 16) |> in
  let desc := desc <| aq_param1 := API_MAJ_TEMP |> in
  desc <| aq_param1 ::= λ v, v .| (API_MIN_TEMP << 16) |>.

Section adminq.
Context {X P : Type} `{PhysMem X} `{MsgLink P}.
Abbreviation MM := (M (machine X P)).

Definition link {A} (m : M P A) : MM A := zoom world (λ w t, t <| world := w |>) m.

(** [qemu_malloc] does not return null, so the error branch is not taken. *)
Definition e1000_aq_echo (desc : e1000_aq_desc) : MM unit :=
  if negb (aq_datalen desc =? 0) then
    my_buf ← cpu_physical_memory_read (aq_addr desc) (aq_datalen desc);
    cpu_physical_memory_write (aq_addr desc) my_buf
  else mret ().

(** [err:] of [e1000_send_aq_cmd]. *)
Definition send_aq_err : MM (option e1000_aq_desc) :=
  fd ← get_dev fs;
  link (link_close fd);;
  mod_dev (λ s, s <| fs := INVALID_SOCKET |>);;
  mret None.

(** Sending the command, with its data, over a valid socket. *)
Definition aq_send (fd : Z) (desc : e1000_aq_desc) : MM Z :=
  rc ← link (link_senddata fd (aq_desc_encode desc) AQ_DESC_SIZE);
  if rc <? 0 then mret rc else
  if aq_datalen desc >? 0 then
    buffer ← cpu_physical_memory_read (aq_addr desc) (aq_datalen desc);
    link (link_senddata fd buffer (aq_datalen desc))
  else mret rc.

(** Receiving the answer, with its data; [None] is a failure. *)
Definition aq_receive (fd : Z) (desc : e1000_aq_desc) : MM (option e1000_aq_desc) :=
  '(rc, recv, _) ← link (link_recvdata fd (replicate 32 0) AQ_DESC_SIZE);
  if rc <? 0 then mret None else
  let recv_desc := aq_desc_decode recv in
  if aq_datalen recv_desc >? 0 then
    buffer ← link (link_malloc (Z.to_nat (aq_datalen desc)));
    '(rc, buffer, _) ← link (link_recvdata fd buffer (aq_datalen recv_desc));
    if rc <? 0 then mret None else
    out ← oob (load buffer 0 (Z.to_nat (aq_datalen recv_desc)));
    cpu_physical_memory_write (aq_addr recv_desc) out;;
    mret (Some recv_desc)
  else mret (Some recv_desc).

(** The command's exchange over a valid socket. *)
Definition aq_exchange (fd : Z) (desc : e1000_aq_desc) : MM (option e1000_aq_desc) :=
  rc ← aq_send fd desc;
  if rc <? 0 then mret None else aq_receive fd desc.

(** [Some d]: the firmware answered with the descriptor [d] (return value 0). *)
Definition e1000_send_aq_cmd (desc : e1000_aq_desc) : MM (option e1000_aq_desc) :=
  fd ← get_dev fs;
  (if fd =? INVALID_SOCKET then
     fd ← link link_locate; mod_dev (λ s, s <| fs := fd |>)
   else mret ());;
  fd ← get_dev fs;
  if fd =? INVALID_SOCKET then send_aq_err else
  r ← aq_exchange fd desc;
  match r with
  | None => send_aq_err
  | Some d => mret (Some d)
  end.

(** The fallback: the device carries the command out. *)
Definition aq_fallback (desc : e1000_aq_desc) : MM e1000_aq_desc :=
  desc ← (if aq_opcode desc =? e1000_aqc_get_version then mret (e1000_aq_get_version desc)
          else if aq_opcode desc =? e1000_aqc_echo then e1000_aq_echo desc;; mret desc
          else mret (desc <| aq_retval := E1000_AQ_RC_ENOSYS |>));
  mret (desc <| aq_flags ::= λ f, u16 (f .| E1000_AQ_FLAG_DD) |>).

Definition atq_base (s : E1000State) : Z :=
  u64 ((reg s PF_ATQBAH << 32) + reg s PF_ATQBAL + AQ_DESC_SIZE * reg s PF_ATQH).

Definition atq_ring_len (s : E1000State) : Z :=
  u16 (reg s PF_ATQLEN .& .~ E1000_PF_ATQLEN_ATQENABLE_MASK).

(** [if (++s->mac_reg[PF_ATQH] >= ring_len) s->mac_reg[PF_ATQH] = 0;] *)
Definition atqh_advance (s : E1000State) : E1000State :=
  let s' := set_reg s PF_ATQH (u32 (reg s PF_ATQH + 1)) in
  if reg s' PF_ATQH >=? atq_ring_len s then set_reg s' PF_ATQH 0 else s'.

Definition e1000_set_atq_tail (index val : Z) : MM unit :=
  put_reg index val;;
  base ← get_dev atq_base;
  bs ← cpu_physical_memory_read base AQ_DESC_SIZE;
  let desc := aq_desc_decode bs in
  r ← e1000_send_aq_cmd desc;
  desc ← (match r with
          | Some d => mret d
          | None => aq_fallback desc
          end : MM e1000_aq_desc);
  cpu_physical_memory_write base (aq_desc_encode desc);;
  mod_dev atqh_advance.
End adminq.

(** ** Properties *)

(** The address of slot [i]. *)
Definition atq_slot (s : E1000State) (i : Z) : Z :=
  u64 ((reg s PF_ATQBAH << 32) + reg s PF_ATQBAL + AQ_DESC_SIZE * i).

Lemma atq_base_slot s : atq_base s = atq_slot s (reg s PF_ATQH).
Proof. done. Qed.

(** The registers of the queue after a tail write. *)
Lemma atq_regs_advance s v :
  0 ≤ reg s PF_ATQH < atq_ring_len s →
  let s' := atqh_advance (set_reg s PF_ATQT v) in
  (∀ i, atq_slot s' i = atq_slot s i) ∧ atq_ring_len s' = atq_ring_len s ∧ fs s' = fs s ∧
  reg s' PF_ATQH = (reg s PF_ATQH + 1) `mod` atq_ring_len s ∧ reg s' PF_ATQT = v ∧
  (∀ i, i ≠ PF_ATQH → i ≠ PF_ATQT → reg s' i = reg s i).
Proof.
  intros Hh. assert (0 ≤ atq_ring_len s < 65536) as Hl by apply u16_range.
  cbv zeta. unfold atqh_advance. cbv zeta.
  assert (atq_ring_len (set_reg s PF_ATQT v) = atq_ring_len s) as -> by (unfold atq_ring_len; by reg_simpl).
  reg_simpl. rewrite u32_small by lia. rewrite Z.geb_leb. unfold atq_slot, atq_ring_len.
  destruct (Z.leb_spec (u16 (reg s PF_ATQLEN .& .~ E1000_PF_ATQLEN_ATQENABLE_MASK)) (reg s PF_ATQH + 1));
    fold (atq_ring_len s) in *;
    (split_and!; [intros; by reg_simpl|by reg_simpl|done|reg_simpl|by reg_simpl|]);
    try (intros; by rewrite !reg_set_ne by done).
  - replace (reg s PF_ATQH + 1) with (atq_ring_len s) by lia. by rewrite Z.mod_same by lia.
  - rewrite Z.mod_small; lia.
Qed.

Section adminq_spec.
Context {X P : Type} `{PhysMemLaws X} `{MsgLink P}.
Abbreviation MM := (M (machine X P)).

(** Two memories that read the same. *)
Definition mem_equiv (x y : X) : Prop := ∀ a n, phys_read x a n = phys_read y a n.

Lemma wp_read a n (Q : list Z → machine X P → Prop) m :
  Q (phys_read (mem m) a (Z.to_nat (s32 n))) m → wp (cpu_physical_memory_read a n) Q m.
Proof. done. Qed.

Lemma wp_write a l (Q : unit → machine X P → Prop) m :
  Q () (m <| mem ::= λ x, phys_write x a l |>) → wp (cpu_physical_memory_write a l) Q m.
Proof. done. Qed.

Lemma wp_get_dev {A} (f : E1000State → A) (Q : A → machine X P → Prop) m :
  Q (f (dev m)) m → wp (get_dev f) Q m.
Proof. done. Qed.

Lemma wp_mod_dev f (Q : unit → machine X P → Prop) m :
  Q () (m <| dev ::= f |>) → wp (mod_dev f) Q m.
Proof. done. Qed.

Lemma wp_link {A} (c : M P A) (Q : A → machine X P → Prop) m a w :
  c (world m) = Ret a w → Q a (m <| world := w |>) → wp (link c) Q m.
Proof. intros E HQ. unfold wp, link, zoom. by rewrite E. Qed.

(** The fallback completes a command; an echo reads and writes back the data. *)
Lemma aq_fallback_wp d (m : machine X P) :
  aq_desc_ok d →
  wp (aq_fallback d) (λ d' m',
    d' = aq_completed false d ∧ dev m' = dev m ∧ sent m' = sent m ∧ world m' = world m ∧
    mem_equiv (mem m') (mem m)) m.
Proof.
  intros Hd. unfold aq_fallback. rewrite aq_completed_cases. cbn [andb]. apply wp_bind.
  case_match; [apply wp_ret, wp_ret; split_and!; try done; by apply (aq_done_u16 d)|].
  case_match; [|apply wp_ret, wp_ret; split_and!; try done; by apply (aq_done_u16 d)].
  apply wp_bind. unfold e1000_aq_echo. case_match;
    [apply wp_bind, wp_read, wp_write, wp_ret, wp_ret|apply wp_ret, wp_ret, wp_ret];
    split_and!; try done; try (by apply (aq_done_u16 d)).
  intros a n. apply phys_write_back.
Qed.

(** The command at the head of the queue. *)
Definition atq_head (m : machine X P) : e1000_aq_desc :=
  aq_desc_decode (phys_read (mem m) (atq_base (dev m)) 32).

Lemma atq_head_ok m : aq_desc_ok (atq_head m).
Proof. apply aq_desc_decode_ok; [apply phys_read_ok|apply phys_read_length]. Qed.

Lemma atq_base_set_tail s v : atq_base (set_reg s PF_ATQT v) = atq_base s.
Proof. unfold atq_base. by reg_simpl. Qed.

(** A tail write without a firmware. *)
Lemma atq_fallback_wp (m : machine X P) val w1 w2 :
  fs (dev m) = INVALID_SOCKET →
  link_locate (world m) = Ret (-1) w1 → link_close (-1) w1 = Ret () w2 →
  wp (e1000_set_atq_tail PF_ATQT val) (λ _ m',
    phys_read (mem m') (atq_base (dev m)) 32 = aq_desc_encode (aq_completed false (atq_head m)) ∧
    (∀ a n, range_disjoint a n (atq_base (dev m)) 32 →
       phys_read (mem m') a n = phys_read (mem m) a n) ∧
    dev m' = atqh_advance (set_reg (dev m) PF_ATQT val) ∧
    sent m' = sent m ∧ world m' = w2) m.
Proof.
  intros Hfs Hloc Hclose. unfold e1000_set_atq_tail, put_reg.
  apply wp_bind, wp_mod_dev, wp_bind, wp_get_dev, wp_bind, wp_read. cbn [dev mem update].
  rewrite atq_base_set_tail. change (Z.to_nat (s32 AQ_DESC_SIZE)) with 32%nat.
  fold (atq_head m). cbv zeta. unfold e1000_send_aq_cmd, send_aq_err.
  apply wp_bind, wp_bind, wp_get_dev. cbn [dev update fs set_reg]. rewrite Hfs, Z.eqb_refl.
  apply wp_bind, wp_bind. eapply wp_link; [exact Hloc|].
  apply wp_mod_dev, wp_bind, wp_get_dev. cbn [dev update fs].
  change (-1 =? INVALID_SOCKET) with true. cbv iota.
  apply wp_bind, wp_get_dev, wp_bind. eapply wp_link; [exact Hclose|].
  apply wp_bind, wp_mod_dev, wp_ret, wp_bind. eapply wp_mono; [apply aq_fallback_wp, atq_head_ok|].
  cbn. intros d' m' (->&Hdev&Hsent&Hw&Hmem). apply wp_bind, wp_write, wp_mod_dev. cbn.
  pose proof (length_aq_desc_encode (aq_completed false (atq_head m))) as Hl.
  split_and!; try done.
  - rewrite <- Hl at 1. apply phys_read_write_eq; [auto with vf|lia].
  - intros a n Hd. rewrite phys_read_write_ne by (by rewrite Hl). apply Hmem.
  - rewrite Hdev. f_equal. unfold set_reg, update. destruct (dev m). cbn in *. by rewrite Hfs.
Qed.

(** C25: when the firmware cannot be found, a write to the admin queue tail
    still completes the command at the head: the descriptor is written back in
    place with the completion flag set and the answer of the device (version
    numbers, unchanged echo, or the error code for an unknown command), all
    other guest memory reads as before, and the head moves to the next slot. *)
Theorem atq_fallback_completes (m : machine X P) val w1 w2 :
  fs (dev m) = INVALID_SOCKET → 0 ≤ reg (dev m) PF_ATQH < atq_ring_len (dev m) →
  link_locate (world m) = Ret (-1) w1 → link_close (-1) w1 = Ret () w2 →
  ∃ m', e1000_set_atq_tail PF_ATQT val m = Ret () m' ∧
    phys_read (mem m') (atq_base (dev m)) 32 = aq_desc_encode (aq_completed false (atq_head m)) ∧
    (∀ a n, range_disjoint a n (atq_base (dev m)) 32 →
       phys_read (mem m') a n = phys_read (mem m) a n) ∧
    reg (dev m') PF_ATQH = (reg (dev m) PF_ATQH + 1) `mod` atq_ring_len (dev m) ∧
    reg (dev m') PF_ATQT = val ∧
    (∀ i, i ≠ PF_ATQH → i ≠ PF_ATQT → reg (dev m') i = reg (dev m) i) ∧
    sent m' = sent m ∧ world m' = w2.
Proof.
  intros Hfs Hh Hloc Hclose.
  destruct (wp_unit _ _ _ (atq_fallback_wp m val w1 w2 Hfs Hloc Hclose)) as (m'&E&?&?&Hd&?&?).
  destruct (atq_regs_advance (dev m) val Hh) as (_&_&_&?&?&?).
  exists m'. rewrite Hd. by split_and!.
Qed.
End adminq_spec.
