(* ===== verification/E1000Mmio.v ===== *)
(** * Register access, reset and start-up of the device ([hw/e1000.c])

    The dispatch tables of the memory-mapped registers, the six access
    functions, [e1000_reset] and the parts of [pci_e1000_init] that set up the
    device's own state. *)

From S2P Require Import Prelude Bytes Memory E1000Hw E1000State E1000Tx E1000Rx AdminQ.

(** ** Dispatch tables

    The function pointers of [macreg_readops] and [macreg_writeops] as tags. *)

Inductive readop :=
| Rd_mac_readreg
| Rd_mac_read_clr4
| Rd_mac_read_clr8
| Rd_mac_icr_read
| Rd_get_eecd
| Rd_flash_eerd_read.

Inductive writeop :=
| Wr_mac_writereg
| Wr_set_dlen
| Wr_set_tctl
| Wr_set_mdic
| Wr_set_ics
| Wr_set_16bit
| Wr_set_rdt
| Wr_set_imc
| Wr_set_ims
| Wr_set_icr
| Wr_set_eecd
| Wr_set_rx_control
| Wr_set_ctrl
| Wr_set_atq_tail.

(** [[a ... b] = op]. *)
Definition op_range {A} (a b : Z) (op : A) : list (Z * A) := map (λ i, (i, op)) (seqZ a (b - a + 1)).

Definition macreg_readops : list (Z * readop) :=
  map (λ r, (r, Rd_mac_readreg))
    [PBA; RCTL; TDH; TXDCTL; WUFC; TDT; CTRL; LEDCTL; MANC; MDIC; SWSM; STATUS;
     TORL; TOTL; IMS; TCTL; RDH; RDT; VET; ICS; TDBAL; TDBAH; RDBAH; RDBAL;
     TDLEN; RDLEN] ++
  [(TOTH, Rd_mac_read_clr8); (TORH, Rd_mac_read_clr8); (GPRC, Rd_mac_read_clr4);
   (GPTC, Rd_mac_read_clr4); (TPR, Rd_mac_read_clr4); (TPT, Rd_mac_read_clr4);
   (ICR, Rd_mac_icr_read); (EECD, Rd_get_eecd); (EERD, Rd_flash_eerd_read)] ++
  op_range CRCERRS MPC Rd_mac_readreg ++
  op_range RA (RA + 31) Rd_mac_readreg ++
  op_range MTA (MTA + 127) Rd_mac_readreg ++
  op_range VFTA (VFTA + 127) Rd_mac_readreg ++
  map (λ r, (r, Rd_mac_readreg)) [PF_ATQBAH; PF_ATQBAL; PF_ATQLEN; PF_ATQH; PF_ATQT].

Definition macreg_writeops : list (Z * writeop) :=
  map (λ r, (r, Wr_mac_writereg))
    [PBA; EERD; SWSM; WUFC; TDBAL; TDBAH; TXDCTL; RDBAH; RDBAL; LEDCTL; VET] ++
  [(TDLEN, Wr_set_dlen); (RDLEN, Wr_set_dlen); (TCTL, Wr_set_tctl); (TDT, Wr_set_tctl);
   (MDIC, Wr_set_mdic); (ICS, Wr_set_ics); (TDH, Wr_set_16bit); (RDH, Wr_set_16bit);
   (RDT, Wr_set_rdt); (IMC, Wr_set_imc); (IMS, Wr_set_ims); (ICR, Wr_set_icr);
   (EECD, Wr_set_eecd); (RCTL, Wr_set_rx_control); (CTRL, Wr_set_ctrl)] ++
  op_range RA (RA + 31) Wr_mac_writereg ++
  op_range MTA (MTA + 127) Wr_mac_writereg ++
  op_range VFTA (VFTA + 127) Wr_mac_writereg ++
  map (λ r, (r, Wr_mac_writereg)) [PF_ATQBAH; PF_ATQBAL; PF_ATQLEN; PF_ATQH] ++
  [(PF_ATQT, Wr_set_atq_tail)].

Fixpoint table_get {A} (t : list (Z * A)) (i : Z) : option A :=
  match t with
  | [] => None
  | (j, a) :: t => if i =? j then Some a else table_get t i
  end.

(** [ARRAY_SIZE] of a table built with designated initialisers. *)
Definition table_size {A} (t : list (Z * A)) : Z := foldr (λ e n, Z.max (e.1 + 1) n) 0 t.
Definition NREADOPS : Z := table_size macreg_readops.
Definition NWRITEOPS : Z := table_size macreg_writeops.

Definition run_readop (op : readop) (s : E1000State) (index : Z) : Z * E1000State :=
  match op with
  | Rd_mac_readreg => mac_readreg s index
  | Rd_mac_read_clr4 => mac_read_clr4 s index
  | Rd_mac_read_clr8 => mac_read_clr8 s index
  | Rd_mac_icr_read => mac_icr_read s index
  | Rd_get_eecd => get_eecd s index
  | Rd_flash_eerd_read => flash_eerd_read s index
  end.

Definition mmio_index (addr : Z) : Z := (addr .& 0x1ffff) >> 2.

Section mmio.
Context {X P : Type} `{PhysMem X} `{MsgLink P}.
Abbreviation MM := (M (machine X P)).

Definition run_writeop (fuel : nat) (op : writeop) (index val : Z) : MM unit :=
  match op with
  | Wr_mac_writereg => mod_dev (λ s, mac_writereg s index val)
  | Wr_set_dlen => mod_dev (λ s, set_dlen s index val)
  | Wr_set_tctl => set_tctl fuel index val
  | Wr_set_mdic => mod_dev (λ s, set_mdic s index val)
  | Wr_set_ics => mod_dev (λ s, set_ics s index val)
  | Wr_set_16bit => mod_dev (λ s, set_16bit s index val)
  | Wr_set_rdt => mod_dev (λ s, set_rdt s index val)
  | Wr_set_imc => mod_dev (λ s, set_imc s index val)
  | Wr_set_ims => mod_dev (λ s, set_ims s index val)
  | Wr_set_icr => mod_dev (λ s, set_icr s index val)
  | Wr_set_eecd => mod_dev (λ s, set_eecd s index val)
  | Wr_set_rx_control => mod_dev (λ s, set_rx_control s index val)
  | Wr_set_ctrl => mod_dev (λ s, set_ctrl s index val)
  | Wr_set_atq_tail => e1000_set_atq_tail index val
  end.

Definition e1000_mmio_writel (fuel : nat) (addr val : Z) : MM unit :=
  let index := mmio_index addr in
  if index <? NWRITEOPS then
    match table_get macreg_writeops index with
    | Some op => run_writeop fuel op index val
    | None => mret ()
    end
  else mret ().

Definition e1000_mmio_writew (fuel : nat) (addr val : Z) : MM unit :=
  e1000_mmio_writel fuel (addr .& .~ 3) (u32 ((val .& 0xffff) << (8 * (addr .& 3)))).

Definition e1000_mmio_writeb (fuel : nat) (addr val : Z) : MM unit :=
  e1000_mmio_writel fuel (addr .& .~ 3) (u32 ((val .& 0xff) << (8 * (addr .& 3)))).

Definition e1000_mmio_readl (addr : Z) : MM Z :=
  let index := mmio_index addr in
  if index <? NREADOPS then
    match table_get macreg_readops index with
    | Some op =>
        r ← get_dev (λ s, run_readop op s index);
        mod_dev (λ _, r.2);;
        mret r.1
    | None => mret 0
    end
  else mret 0.

Definition e1000_mmio_readb (addr : Z) : MM Z :=
  v ← e1000_mmio_readl (addr .& .~ 3);
  mret ((v >> (8 * (addr .& 3))) .& 0xff).

Definition e1000_mmio_readw (addr : Z) : MM Z :=
  v ← e1000_mmio_readl (addr .& .~ 3);
  mret ((v >> (8 * (addr .& 3))) .& 0xffff).
End mmio.

(** ** Mapping of the register window

    The ranges given to [qemu_register_coalesced_mmio], relative to the start
    of the window: what lies between the excluded registers. *)

Definition excluded_regs : list Z :=
  [E1000_MDIC; E1000_ICR; E1000_ICS; E1000_IMS; E1000_IMC; E1000_TCTL; E1000_TDT; PNPMMIO_SIZE].

Fixpoint coalesced_between (l : list Z) : list (Z * Z) :=
  match l with
  | a :: ((b :: _) as l') =>
      if a =? PNPMMIO_SIZE then [] else (a + 4, b - a - 4) :: coalesced_between l'
  | _ => []
  end.

Definition e1000_mmio_map (addr : Z) : list (Z * Z) :=
  (addr, arr excluded_regs 0) ::
  map (λ r, (addr + r.1, r.2)) (coalesced_between excluded_regs).

(** ** Reset *)

Definition zero_tx : e1000_tx := {|
  tx_header := replicate 256 0; tx_vlan_header := replicate 4 0; tx_vlan := replicate 4 0;
  tx_data := replicate (Z.to_nat 0x10000) 0; tx_size := 0; tx_sum_needed := 0;
  tx_vlan_needed := 0; tx_ipcss := 0; tx_ipcso := 0; tx_ipcse := 0; tx_tucss := 0;
  tx_tucso := 0; tx_tucse := 0; tx_hdr_len := 0; tx_mss := 0; tx_paylen := 0;
  tx_tso_frames := 0; tx_tse := 0; tx_ip := 0; tx_tcp := 0; tx_cptse := 0 |}.

Definition phy_reg_init : list (Z * Z) :=
  [(PHY_CTRL, 0x1140); (PHY_STATUS, 0x796d); (PHY_ID1, 0x141); (PHY_ID2, PHY_ID2_INIT);
   (PHY_1000T_CTRL, 0x0e00); (M88E1000_PHY_SPEC_CTRL, 0x360);
   (M88E1000_EXT_PHY_SPEC_CTRL, 0x0d60); (PHY_AUTONEG_ADV, 0xde1);
   (PHY_LP_ABILITY, 0x1e0); (PHY_1000T_STATUS, 0x3c00); (M88E1000_PHY_SPEC_STATUS, 0xac00)].

Definition mac_reg_init : list (Z * Z) :=
  [(PBA, 0x00100030); (LEDCTL, 0x602);
   (CTRL, E1000_CTRL_SWDPIN2 .| E1000_CTRL_SWDPIN0 .| E1000_CTRL_SPD_1000 .| E1000_CTRL_SLU);
   (STATUS, 0x80000000 .| E1000_STATUS_GIO_MASTER_ENABLE .| E1000_STATUS_ASDV .|
            E1000_STATUS_MTXCKOK .| E1000_STATUS_SPEED_1000 .| E1000_STATUS_FD .|
            E1000_STATUS_LU);
   (MANC, E1000_MANC_EN_MNG2HOST .| E1000_MANC_RCV_TCO_EN .| E1000_MANC_ARP_EN .|
          E1000_MANC_0298_EN .| E1000_MANC_RMCP_EN)].

Definition e1000_reset (d : E1000State) : E1000State :=
  let d := d <| phy_reg := foldl (λ l e, <[Z.to_nat e.1 := e.2]> l) (replicate 32 0) phy_reg_init |> in
  let d := d <| mac_reg := list_to_map mac_reg_init |> in
  let d := d <| rxbuf_min_shift := 1 |> in
  d <| tx := zero_tx |>.

(** ** Start-up *)

Definition e1000_eeprom_template : list Z := [
  0x0000; 0x0000; 0x0000; 0x0000; 0xffff; 0x0000; 0x0000; 0x0000;
  0x3000; 0x1000; 0x6403; E1000_DEVID; 0x8086; E1000_DEVID; 0x8086; 0x3040;
  0x0008; 0x2000; 0x7e14; 0x0048; 0x1000; 0x00d8; 0x0000; 0x2700;
  0x6cc9; 0x3150; 0x0722; 0x040b; 0x0984; 0x0000; 0xc000; 0x0706;
  0x1008; 0x0000; 0x0f04; 0x7fff; 0x4d01; 0xffff; 0xffff; 0xffff;
  0xffff; 0xffff; 0xffff; 0xffff; 0xffff; 0xffff; 0xffff; 0xffff;
  0x0100; 0x4000; 0x121c; 0xffff; 0xffff; 0xffff; 0xffff; 0xffff;
  0xffff; 0xffff; 0xffff; 0xffff; 0xffff; 0xffff; 0xffff; 0x0000].

(** The MAC address words, then the checksum word. *)
Definition eeprom_mac (macaddr : list Z) (e : list Z) : list Z :=
  foldl (λ e i, <[Z.to_nat i := (arr macaddr (2 * i + 1) << 8) .| arr macaddr (2 * i)]> e)
    e [0; 1; 2].

Definition eeprom_checksum (e : list Z) : Z :=
  foldl (λ c w, u16 (c + w)) 0 (take (Z.to_nat EEPROM_CHECKSUM_REG) e).

Definition eeprom_init (macaddr : list Z) : list Z :=
  let e := eeprom_mac macaddr e1000_eeprom_template in
  <[Z.to_nat EEPROM_CHECKSUM_REG := u16 (EEPROM_SUM - eeprom_checksum e)]> e.

(** The state a newly allocated device is zeroed to, and what
    [pci_e1000_init] makes of it. *)
Definition e1000_zero : E1000State := {|
  irq := false; mac_reg := ∅; phy_reg := replicate 32 0; eeprom_data := replicate 64 0;
  rxbuf_size := 0; rxbuf_min_shift := 0; check_rxov := 0; tx := zero_tx; fs := 0;
  eecd := {| val_in := 0; bitnum_in := 0; bitnum_out := 0; reading := 0; old_eecd := 0 |} |}.

Definition pci_e1000_init (macaddr : list Z) (d : E1000State) : E1000State :=
  d <| eeprom_data := eeprom_init macaddr |> <| fs := INVALID_SOCKET |>.

(** A device after start-up and its first reset. *)
Definition e1000_power_on (macaddr : list Z) : E1000State :=
  e1000_reset (pci_e1000_init macaddr e1000_zero).
