(* ===== verification/Driver.v ===== *)
(** * The guest driver's admin queue ([patches/])

    The Linux driver side of the admin queue, as the three driver patches leave
    it: allocation of the ring and of the command buffers, configuration of the
    queue registers, the synchronous send routine, the two commands built on it
    and the command hook of the watchdog. The driver runs on the device model:
    its register writes are [e1000_mmio_writel], and the ring and the buffers
    are guest memory (coherent DMA memory is one memory for both sides). *)

From S2P Require Import Prelude Bytes Memory E1000Hw E1000State E1000Tx AdminQ E1000Mmio.

(** ** Constants of [e1000_adminq.h] *)

Definition E1000_SUCCESS : Z := 0.
Definition ENOMEM : Z := 12.
Definition E1000_ASQ_CMD_TIMEOUT : Z := 100000.
Abbreviation DRV_AQ_RC_EPERM := 1.
Abbreviation DRV_AQ_RC_ENOSYS := 17.
Abbreviation E1000_AQ_ERR_INVALID_BUFF_SIZE := 0xfffd.
Abbreviation E1000_AQ_ERR_QUEUE_FULL := 0xfffe.
Abbreviation E1000_AQ_ERR_TIMEOUT := 0xffff.
Abbreviation E1000_AQ_FLAG_SI := (1 << 13).
Abbreviation E1000_AQ_FLAG_EI := (1 << 14).
Abbreviation E1000_AQ_FLAG_FE := (1 << 15).

(** ** The kernel's allocators

    [None] and [false] are failed allocations. Memory is addressed by its DMA
    handle. *)

Class KernelMem (A : Type) := {
  dma_alloc_coherent : Z → A → option Z * A;
  dma_free_coherent : Z → option Z → A → A;
  vmalloc : Z → A → bool * A;
  kzalloc : Z → A → bool * A;
}.

(** ** State *)

(** [struct e1000_aq_bi]: a buffer whose allocation failed has no address. *)
Record e1000_aq_bi := {
  bi_dma : option Z;
  bi_size : Z;
}.

(** [struct e1000_adminq_ring]; the ring memory is null before it is allocated. *)
Record e1000_adminq_ring := {
  rq_dma : option Z;
  rq_count : Z;
  asq_bi : option (list e1000_aq_bi);
  next_to_use : Z;
  next_to_clean : Z;
  rq_head : Z;
  rq_tail : Z;
}.
#[export] Instance adminq_ring_eta : Eta e1000_adminq_ring := λ r,
  Build_e1000_adminq_ring (rq_dma r) (rq_count r) (asq_bi r) (next_to_use r) (next_to_clean r)
    (rq_head r) (rq_tail r).

(** [struct e1000_adminq_info]. *)
Record e1000_adminq_info := {
  asq : e1000_adminq_ring;
  num_asq_entries : Z;
  num_arq_entries : Z;
  asq_buf_size : Z;
  fw_maj_ver : Z;
  fw_min_ver : Z;
  api_maj_ver : Z;
  api_min_ver : Z;
  asq_spinlock : bool;
}.
#[export] Instance adminq_info_eta : Eta e1000_adminq_info := λ q,
  Build_e1000_adminq_info (asq q) (num_asq_entries q) (num_arq_entries q) (asq_buf_size q)
    (fw_maj_ver q) (fw_min_ver q) (api_maj_ver q) (api_min_ver q) (asq_spinlock q).

(** Lines of the kernel log. *)
Inductive kmsg :=
| K_fw_maj (v : Z)
| K_command (cmd : Z)
| K_versions (fw_maj fw_min api_maj api_min : Z)
| K_echo_passed
| K_echo_failed
| K_failure (err : Z)
| K_unknown (cmd : Z).

(** The guest: the driver's data, the static [cookie] and [adminq_cmd], the
    kernel's memory and log, and the machine it runs on. *)
Record guest (X P A : Type) := Guest {
  aq : e1000_adminq_info;
  cookie : Z;
  adminq_cmd : Z;
  kmem : A;
  klog : list kmsg;
  mach : machine X P;
}.
Arguments Guest {X P A} _ _ _ _ _ _.
Arguments aq {X P A} _.
Arguments cookie {X P A} _.
Arguments adminq_cmd {X P A} _.
Arguments kmem {X P A} _.
Arguments klog {X P A} _.
Arguments mach {X P A} _.
#[export] Instance guest_eta X P A : Eta (guest X P A) := λ g,
  Guest (aq g) (cookie g) (adminq_cmd g) (kmem g) (klog g) (mach g).

Section driver.
Context {X P A : Type} `{PhysMem X} `{MsgLink P} `{KernelMem A} (fuel : nat).
Abbreviation DM := (M (guest X P A)).

Definition get_aq {B} (f : e1000_adminq_info → B) : DM B := gets (λ g, f (aq g)).
Definition mod_aq (f : e1000_adminq_info → e1000_adminq_info) : DM unit :=
  modify (λ g, g <| aq ::= f |>).
Definition get_asq {B} (f : e1000_adminq_ring → B) : DM B := get_aq (λ q, f (asq q)).
Definition mod_asq (f : e1000_adminq_ring → e1000_adminq_ring) : DM unit :=
  mod_aq (λ q, q <| asq ::= f |>).
Definition printk (m : kmsg) : DM unit := modify (λ g, g <| klog ::= λ l, l ++ [m] |>).
Definition kernel {B} (f : A → B * A) : DM B :=
  λ g, let '(b, k) := f (kmem g) in Ret b (g <| kmem := k |>).

(** [E1000_WRITE_REG]: a register write of the guest, carried out by the device. *)
Definition E1000_WRITE_REG (reg val : Z) : DM unit :=
  zoom mach (λ m g, g <| mach := m |>) (e1000_mmio_writel fuel reg (u32 val)).

(** The processor's accesses to coherent memory. *)
Definition mem_read (a : Z) (n : nat) : DM (list Z) := gets (λ g, phys_read (mem (mach g)) a n).
Definition mem_write (a : Z) (bs : list Z) : DM unit :=
  modify (λ g, g <| mach ::= λ m, m <| mem ::= λ x, phys_write x a bs |> |>).

(** A spinlock that is taken twice is never acquired; one that is not held must
    not be released. *)
Definition spin_lock : DM unit :=
  held ← get_aq asq_spinlock;
  if held : bool then no_fuel else mod_aq (λ q, q <| asq_spinlock := true |>).
Definition spin_unlock : DM unit :=
  held ← get_aq asq_spinlock;
  if held : bool then mod_aq (λ q, q <| asq_spinlock := false |>) else fail BadUnlock.

(** [E1000_ADMINQ_DESC]: the address of slot [i]. *)
Definition E1000_ADMINQ_DESC (i : Z) : DM Z :=
  r ← get_asq id;
  match rq_dma r with
  | None => fail NullDeref
  | Some base => if i <? rq_count r then mret (base + AQ_DESC_SIZE * i) else fail OutOfBounds
  end.

Definition read_desc (a : Z) : DM e1000_aq_desc := bs ← mem_read a 32; mret (aq_desc_decode bs).
Definition write_desc (a : Z) (d : e1000_aq_desc) : DM unit := mem_write a (aq_desc_encode d).

(** ** Set-up and release *)

Definition e1000_alloc_adminq_rings : DM Z :=
  n ← get_aq num_asq_entries;
  d ← kernel (dma_alloc_coherent (n * AQ_DESC_SIZE));
  mod_asq (λ r, r <| rq_dma := d |>);;
  match d with
  | None => mret (- ENOMEM)
  | Some a =>
      if a =? 0 then mret (- ENOMEM) else
      mod_asq (λ r, r <| rq_tail := E1000_PF_ATQT |> <| rq_head := E1000_PF_ATQH |>
                      <| rq_count := n |> <| next_to_use := 0 |>);;
      mret E1000_SUCCESS
  end.

(** The receive ring is never allocated: its pointer is null and its size the
    number of entries that was configured for it. *)
Definition e1000_free_adminq_rings : DM unit :=
  q ← get_aq id;
  kernel (λ a, ((), dma_free_coherent (num_asq_entries q * AQ_DESC_SIZE) (rq_dma (asq q)) a));;
  kernel (λ a, ((), dma_free_coherent (num_arq_entries q * AQ_DESC_SIZE) None a)).

Fixpoint alloc_bufs (n : nat) (size : Z) : DM (list e1000_aq_bi) :=
  match n with
  | O => mret []
  | S n =>
      d ← kernel (dma_alloc_coherent size);
      l ← alloc_bufs n size;
      mret ({| bi_dma := d; bi_size := size |} :: l)
  end.

(** The results of the allocations are not examined: with no array the first
    element is stored through a null pointer. *)
Definition e1000_alloc_asq_bufs : DM Z :=
  n ← get_aq num_asq_entries;
  size ← get_aq asq_buf_size;
  ok ← kernel (vmalloc (n * 24));
  (if (ok : bool) || (n =? 0) then mret () else fail NullDeref);;
  l ← alloc_bufs (Z.to_nat n) size;
  mod_asq (λ r, r <| asq_bi := Some l |>);;
  mret E1000_SUCCESS.

Definition e1000_alloc_adminq_bufs : DM Z := e1000_alloc_asq_bufs.

(** [bi->dma] of a buffer that was not allocated has never been written. *)
Fixpoint free_bufs (size : Z) (l : list e1000_aq_bi) : DM unit :=
  match l with
  | [] => mret ()
  | bi :: l =>
      match bi_dma bi with
      | None => fail UninitRead
      | Some a =>
          (if a =? 0 then mret ()
           else kernel (λ k, ((), dma_free_coherent size (Some a) k)));;
          free_bufs size l
      end
  end.

(** The array itself is released, its pointer kept. *)
Definition e1000_free_asq_bufs : DM unit :=
  q ← get_aq id;
  match asq_bi (asq q) with
  | None => if num_asq_entries q =? 0 then mret () else fail NullDeref
  | Some l => free_bufs (asq_buf_size q) l
  end.

Definition e1000_free_adminq_bufs : DM unit := e1000_free_asq_bufs.

Definition e1000_config_adminq_regs : DM unit :=
  q ← get_aq id;
  let dma := default 0 (rq_dma (asq q)) in
  E1000_WRITE_REG E1000_PF_ATQBAH (dma >> 32);;
  E1000_WRITE_REG E1000_PF_ATQBAL (dma .& 0xffffffff);;
  E1000_WRITE_REG E1000_PF_ATQLEN (num_asq_entries q .| E1000_PF_ATQLEN_ATQENABLE_MASK);;
  E1000_WRITE_REG E1000_PF_ATQT 0;;
  E1000_WRITE_REG E1000_PF_ATQH 0.

Definition e1000_shutdown_adminq : DM Z :=
  spin_lock;;
  e1000_free_adminq_bufs;;
  e1000_free_adminq_rings;;
  spin_unlock;;
  E1000_WRITE_REG E1000_PF_ATQLEN 0;;
  mret E1000_SUCCESS.

(** ** Commands *)

(** [E1000_DESC_UNUSED]. *)
Definition E1000_DESC_UNUSED (r : e1000_adminq_ring) : Z :=
  (if next_to_clean r >? next_to_use r then 0 else rq_count r) + next_to_clean r - next_to_use r - 1.

(** The loop of [e1000_clean_asq]; the index is not brought back to the start of
    the ring. *)
Fixpoint clean_loop (n : nat) (i : Z) : DM Z :=
  match n with
  | O => no_fuel
  | S n =>
      a ← E1000_ADMINQ_DESC i;
      d ← read_desc a;
      if has_bits (aq_flags d) E1000_AQ_FLAG_DD then
        mem_write a (replicate 32 0);;
        clean_loop n (u16 (i + 1))
      else mret i
  end.

Definition e1000_clean_asq : DM Z :=
  i ← get_asq next_to_clean;
  n ← get_asq rq_count;
  i ← clean_loop (S (Z.to_nat n)) i;
  mod_asq (λ r, r <| next_to_clean := i |>);;
  u ← get_asq E1000_DESC_UNUSED;
  mret (u16 u).

(** The wait for the completion flag, a millisecond per round. *)
Fixpoint wait_done (n : nat) (a : Z) : DM unit :=
  match n with
  | O => mret ()
  | S n =>
      d ← read_desc a;
      if has_bits (aq_flags d) E1000_AQ_FLAG_DD then mret () else wait_done n a
  end.
Definition wait_rounds : nat := Z.to_nat (E1000_ASQ_CMD_TIMEOUT / 1000).

(** The buffer of slot [i]. *)
Definition asq_buf (i : Z) : DM Z :=
  l ← get_asq asq_bi;
  match l with
  | None => fail NullDeref
  | Some l =>
      bi ← oob (l !! Z.to_nat i);
      match bi_dma bi with
      | None => fail NullDeref
      | Some a => mret a
      end
  end.

(** Posting the command in slot [i]; the address of its buffer. *)
Definition asq_post (a i : Z) (desc : e1000_aq_desc) (buff : option (list Z)) (buff_size : Z) :
    DM (option Z) :=
  write_desc a desc;;
  match buff with
  | None => mret None
  | Some b =>
      buf ← asq_buf i;
      bs ← oob (load b 0 (Z.to_nat buff_size));
      mem_write buf bs;;
      d ← read_desc a;
      write_desc a (d <| aq_datalen := buff_size |> <| aq_addr_high := buf >> 32 |>
                      <| aq_addr_low := buf .& 0xffffffff |>);;
      mret (Some buf)
  end.

(** Taking the answer: the descriptor and the contents of the buffer. *)
Definition asq_answer (a : Z) (desc : e1000_aq_desc) (buff : option (list Z)) (buff_size : Z)
    (buf : option Z) : DM (Z * e1000_aq_desc * option (list Z)) :=
  d ← read_desc a;
  if has_bits (aq_flags d) E1000_AQ_FLAG_DD then
    match buff, buf with
    | Some b, Some buf =>
        bs ← mem_read buf (Z.to_nat buff_size);
        b' ← oob (store b 0 bs);
        mret (aq_retval d, d, Some b')
    | _, _ => mret (aq_retval d, d, buff)
    end
  else mret (E1000_AQ_ERR_TIMEOUT, desc, buff).

(** [clean]: whether the check for a full queue is compiled in. The first driver
    patch has it, the third one disables it. The result is the status and the
    contents of [*desc] and of [*buff] on return. *)
Definition e1000_asq_send_command (clean : bool) (desc : e1000_aq_desc) (buff : option (list Z))
    (buff_size : Z) : DM (Z * e1000_aq_desc * option (list Z)) :=
  size ← get_aq asq_buf_size;
  if buff_size >? size then
    spin_unlock;;
    mret (E1000_AQ_ERR_INVALID_BUFF_SIZE, desc, buff)
  else
  spin_lock;;
  full ← (if clean then n ← e1000_clean_asq; mret (n =? 0) else mret false);
  if full : bool then
    spin_unlock;;
    mret (E1000_AQ_ERR_QUEUE_FULL, desc, buff)
  else
  let desc := desc <| aq_flags ::= λ f, f .| E1000_AQ_FLAG_SI |> in
  i ← get_asq next_to_use;
  a ← E1000_ADMINQ_DESC i;
  buf ← asq_post a i desc buff buff_size;
  mod_asq (λ r, r <| next_to_use ::= λ i, u16 (i + 1) |>);;
  mod_asq (λ r, if next_to_use r =? rq_count r then r <| next_to_use := 0 |> else r);;
  tail ← get_asq next_to_use;
  E1000_WRITE_REG E1000_PF_ATQT tail;;
  wait_done wait_rounds a;;
  r ← asq_answer a desc buff buff_size buf;
  spin_unlock;;
  mret r.

Definition e1000_fill_default_direct_cmd_desc (opcode : Z) : DM e1000_aq_desc :=
  modify (λ g, g <| cookie ::= λ c, u64 (c + 1) |>);;
  c ← gets cookie;
  let flags := if opcode =? e1000_aqc_driver_heartbeat then E1000_AQ_FLAG_SI else 0 in
  mret {| aq_flags := flags .| E1000_AQ_FLAG_EI .| E1000_AQ_FLAG_FE; aq_opcode := opcode;
          aq_datalen := 0; aq_retval := 0; aq_cookie_high := c >> 32;
          aq_cookie_low := c .& 0xffffffff; aq_param0 := 0; aq_param1 := 0;
          aq_addr_high := 0; aq_addr_low := 0 |}.

(** The four versions, [None] when the caller's variables are left as they are. *)
Definition e1000_aq_get_firmware_version (clean : bool) : DM (option (Z * Z * Z * Z)) :=
  desc ← e1000_fill_default_direct_cmd_desc e1000_aqc_get_version;
  '(err, desc, _) ← e1000_asq_send_command clean desc None 0;
  if err =? E1000_AQ_RC_OK then
    mret (Some (aq_param0 desc .& 0xffff, aq_param0 desc >> 16,
                aq_param1 desc .& 0xffff, aq_param1 desc >> 16))
  else printk (K_failure err);; mret None.

(** [stackbuf], of [ECHO_BUFLEN] bytes, holds whatever is on the stack; it is
    copied to the buffer that is sent. *)
Definition ECHO_BUFLEN : Z := 1024.

Definition drv_aq_echo (clean : bool) (stackbuf : list Z) : DM Z :=
  desc ← e1000_fill_default_direct_cmd_desc e1000_aqc_echo;
  ok ← kernel (kzalloc ECHO_BUFLEN);
  (if ok : bool then mret () else fail NullDeref);;
  '(err, _, adminq_buf) ← e1000_asq_send_command clean desc (Some stackbuf) ECHO_BUFLEN;
  (if err =? E1000_AQ_RC_OK then
     if bool_decide (adminq_buf = Some stackbuf) then printk K_echo_passed else printk K_echo_failed
   else printk (K_failure err));;
  mret E1000_SUCCESS.

Definition e1000_init_adminq (clean : bool) : DM Z :=
  q ← get_aq id;
  if (num_asq_entries q =? 0) || (asq_buf_size q =? 0) then mret (-1) else
  mod_aq (λ q, q <| asq_spinlock := false |>);;
  rc ← e1000_alloc_adminq_rings;
  if negb (rc =? E1000_SUCCESS) then mret rc else
  rc ← e1000_alloc_adminq_bufs;
  if negb (rc =? E1000_SUCCESS) then e1000_free_adminq_rings;; mret rc else
  e1000_config_adminq_regs;;
  v ← e1000_aq_get_firmware_version clean;
  (match v with
   | Some (fmaj, fmin, amaj, amin) =>
       mod_aq (λ q, q <| fw_maj_ver := fmaj |> <| fw_min_ver := fmin |>
                      <| api_maj_ver := amaj |> <| api_min_ver := amin |>)
   | None => mret ()
   end);;
  v ← get_aq fw_maj_ver;
  printk (K_fw_maj v);;
  mret rc.

(** The variables are passed in another order than they are declared in the
    callee: minor before major. On a failure they are printed uninitialised. *)
Definition e1000_adminq_cmd (stackbuf : list Z) (cmd : Z) : DM unit :=
  printk (K_command cmd);;
  if cmd =? 1 then
    v ← e1000_aq_get_firmware_version false;
    match v with
    | Some (v1, v2, v3, v4) => printk (K_versions v2 v1 v4 v3)
    | None => fail UninitRead
    end
  else if cmd =? 3 then drv_aq_echo false stackbuf;; mret ()
  else printk (K_unknown cmd).

(** The hook of [e1000_watchdog_task]. *)
Definition watchdog_adminq (stackbuf : list Z) : DM unit :=
  cmd ← gets adminq_cmd;
  if cmd =? 0 then mret () else
  e1000_adminq_cmd stackbuf cmd;;
  modify (λ g, g <| adminq_cmd := 0 |>).
End driver.
