(* ===== verification/E1000Inv.v ===== *)
(** * Invariants of the device

    The well-formedness of the device state and the interrupt invariant are
    kept by every operation of the device: register reads and writes of every
    width (transmission and admin queue commands included), reception of a
    frame, link changes; a reset with a lowered line establishes them. *)

From S2P Require Import Prelude Bytes Memory NetChecksum E1000Hw E1000State E1000Tx E1000Rx.
From S2P Require Import AdminQ E1000Mmio.

Definition dev_inv (s : E1000State) : Prop := dev_ok s ∧ irq_ok s.

Lemma be16_ok v : bytes_ok (cpu_to_be16wu v).
Proof. rewrite cpu_to_be16wu_spec. auto with vf. Qed.
Lemma be32_ok v : bytes_ok (cpu_to_be32wu v).
Proof. rewrite cpu_to_be32wu_spec. auto with vf. Qed.
#[export] Hint Resolve be16_ok be32_ok : vf.

Section invariant_rules.
Context {X P : Type} `{PhysMemLaws X} `{MsgLink P}.
Abbreviation MM := (M (machine X P)).

(** [keeps m R]: whenever [m] returns, the invariant is kept and the result
    satisfies [R]. *)
Definition keeps {A} (m : MM A) (R : A → Prop) : Prop :=
  ∀ s, dev_inv (dev s) → ens m (λ a s', R a ∧ dev_inv (dev s')) s.

(** ** Closure rules *)

Lemma keeps_ret {A} (a : A) (R : A → Prop) : R a → keeps (mret a) R.
Proof. intros ? ? ?. by apply ens_ret. Qed.

Lemma keeps_bind {A B} (m : MM A) (k : A → MM B) (R : A → Prop) R' :
  keeps m R → (∀ a, R a → keeps (k a) R') → keeps (m ≫= k) R'.
Proof.
  intros Hm Hk s Hs. apply ens_bind. eapply ens_mono; [by apply Hm|].
  intros a s' [Ha Hs']. by apply Hk.
Qed.

Lemma keeps_seq {A B} (m : MM A) (k : MM B) R' :
  keeps m (λ _, True) → keeps k R' → keeps (m ≫= λ _, k) R'.
Proof. intros ??. by eapply keeps_bind. Qed.

Lemma keeps_weaken {A} (m : MM A) (R R' : A → Prop) :
  keeps m R → (∀ a, R a → R' a) → keeps m R'.
Proof.
  intros Hm HR s Hs. eapply ens_mono; [by apply Hm|]. intros a s' [??]. auto.
Qed.

Lemma keeps_get_dev {A} (f : E1000State → A) (R : A → Prop) :
  (∀ s, dev_inv s → R (f s)) → keeps (get_dev f) R.
Proof. intros Hf s Hs. apply ens_gets. auto. Qed.

Lemma keeps_get_tx {A} (f : e1000_tx → A) (R : A → Prop) :
  (∀ t, tx_ok t → R (f t)) → keeps (get_tx f) R.
Proof. intros Hf. apply keeps_get_dev. intros s [Hs _]. apply Hf, Hs. Qed.

Lemma keeps_get_reg i : keeps (get_reg i) (in_w 32).
Proof. apply keeps_get_dev. intros s [Hs _]. apply Hs. Qed.

Lemma keeps_mod_dev f :
  (∀ s, dev_inv s → dev_inv (f s)) → keeps (mod_dev f) (λ _, True).
Proof. intros Hf s Hs. apply ens_modify. split; [done|]. by apply Hf. Qed.

Lemma keeps_mod_tx f : (∀ t, tx_ok t → tx_ok (f t)) → keeps (mod_tx f) (λ _, True).
Proof.
  intros Hf. apply keeps_mod_dev. intros s [[] ?]. split; [split; auto; by apply Hf|].
  by apply (irq_ok_frame s).
Qed.

Lemma keeps_oob {A} (o : option A) (R : A → Prop) :
  (∀ a, o = Some a → R a) → keeps (oob o) R.
Proof. intros HR s Hs. apply ens_oob. auto. Qed.

Lemma keeps_no_fuel {A} (R : A → Prop) : keeps no_fuel R.
Proof. intros s _. apply ens_no_fuel. Qed.

Lemma keeps_read a n : keeps (cpu_physical_memory_read a n) bytes_ok.
Proof. intros s Hs. apply ens_gets. split; [apply phys_read_ok|done]. Qed.

Lemma keeps_write a l : keeps (cpu_physical_memory_write a l) (λ _, True).
Proof. intros s Hs. by apply ens_modify. Qed.

Lemma keeps_send f : keeps (qemu_send_packet f) (λ _, True).
Proof. intros s Hs. by apply ens_modify. Qed.

Lemma keeps_link {A} (m : M P A) : keeps (link m) (λ _, True).
Proof. intros s Hs. apply ens_zoom, ens_intro. intros. done. Qed.

Lemma keeps_data_load off n : keeps (data_load off n) bytes_ok.
Proof.
  eapply keeps_bind; [apply (keeps_get_tx _ bytes_ok); intros t Ht; apply Ht|].
  intros d Hd. apply keeps_oob. intros a Ha. by eapply load_ok.
Qed.

Lemma tx_ok_data t d :
  tx_ok t → length d = Z.to_nat 0x10000 → bytes_ok d → tx_ok (t <| tx_data := d |>).
Proof. intros [] ??. by split. Qed.

Lemma keeps_set_data d :
  length d = Z.to_nat 0x10000 → bytes_ok d →
  keeps (mod_tx (λ t, t <| tx_data := d |>)) (λ _, True).
Proof. intros. apply keeps_mod_tx. intros. by apply tx_ok_data. Qed.

Lemma keeps_set_header h h' l :
  length h = 256%nat → bytes_ok h → bytes_ok l → store h 0 l = Some h' →
  keeps (mod_tx (λ t, t <| tx_header := h' |>)) (λ _, True).
Proof.
  intros Hlen Hh Hl Hs. apply keeps_mod_tx. intros t []. split; try done. cbn.
  rewrite (store_length _ _ _ _ Hs). split; [done|]. exact (store_ok _ _ _ _ Hh Hl Hs).
Qed.

Lemma keeps_data_store off l : bytes_ok l → keeps (data_store off l) (λ _, True).
Proof.
  intros Hl. eapply keeps_bind; [apply (keeps_get_tx _ (λ d, length d = Z.to_nat 0x10000 ∧ bytes_ok d));
    intros t Ht; exact (tx_data_ok t Ht)|].
  intros d [Hlen Hd].
  eapply keeps_bind; [apply keeps_oob; intros d' Hd'; exact Hd'|].
  intros d' Hd'. cbv beta in Hd'. apply keeps_set_data.
  - by rewrite (store_length _ _ _ _ Hd').
  - exact (store_ok _ _ _ _ Hd Hl Hd').
Qed.

Lemma keeps_set_reg (f : E1000State → Z) i :
  i ≠ IMS → i ≠ ICR → i ≠ ICS → (∀ s, dev_inv s → in_w 32 (f s)) →
  keeps (mod_dev (λ s, set_reg s i (f s))) (λ _, True).
Proof.
  intros ??? Hf. apply keeps_mod_dev. intros s Hs. pose proof (Hf s Hs). destruct Hs.
  split; [by apply dev_ok_set_reg|by apply irq_ok_set_reg].
Qed.

Lemma keeps_set_ics v : in_w 32 v → keeps (mod_dev (λ s, set_ics s 0 v)) (λ _, True).
Proof.
  intros Hv. apply keeps_mod_dev. intros s [Hs ?]. split; [by apply set_ics_dev_ok|].
  apply set_interrupt_cause_ok.
Qed.
End invariant_rules.

(** One step through a body, by the shape of its first operation. *)
Ltac keeps_step :=
  lazymatch goal with
  | |- keeps (mret _) _ => apply keeps_ret
  | |- keeps (if ?b then _ else _) _ => destruct b
  | |- keeps no_fuel _ => apply keeps_no_fuel
  | |- keeps (get_tx id ≫= _) _ =>
      eapply keeps_bind; [apply (keeps_get_tx id tx_ok); auto|intros ? ?]
  | |- keeps (get_tx tx_data ≫= _) _ =>
      eapply keeps_bind; [apply (keeps_get_tx _ (λ d, length d = Z.to_nat 0x10000 ∧ bytes_ok d));
                          intros ? Ht; exact (tx_data_ok _ Ht)|intros ? [? ?]]
  | |- keeps (get_tx tx_header ≫= _) _ =>
      eapply keeps_bind; [apply (keeps_get_tx _ (λ d, length d = 256%nat ∧ bytes_ok d));
                          intros ? Ht; exact (tx_header_ok _ Ht)|intros ? [? ?]]
  | |- keeps (get_tx tx_size ≫= _) _ =>
      eapply keeps_bind; [apply (keeps_get_tx _ (in_w 16)); intros ? Ht;
                          exact (Forall_inv (tx_u16_ok _ Ht))|intros ? ?]
  | |- keeps (get_reg _ ≫= _) _ => eapply keeps_bind; [apply keeps_get_reg|intros ? ?]
  | |- keeps (get_dev _ ≫= _) _ =>
      eapply keeps_bind; [apply (keeps_get_dev _ (λ _, True)); done|intros ? _]
  | |- keeps (data_load _ _ ≫= _) _ => eapply keeps_bind; [apply keeps_data_load|intros ? ?]
  | |- keeps (cpu_physical_memory_read _ _ ≫= _) _ =>
      eapply keeps_bind; [apply keeps_read|intros ? ?]
  | |- keeps (oob _ ≫= _) _ =>
      eapply keeps_bind; [apply keeps_oob; intros ? Ho; exact Ho|intros ? ?; cbv beta in *]
  | |- keeps (link _ ≫= _) _ => eapply keeps_bind; [apply keeps_link|intros ? _]
  | |- keeps (_ ≫= _) _ => apply keeps_seq
  | |- keeps (data_store _ _) _ => apply keeps_data_store
  | |- keeps (qemu_send_packet _) _ => apply keeps_send
  | |- keeps (cpu_physical_memory_write _ _) _ => apply keeps_write
  end.

(** Scalar fields of [tx] set to values in range. *)
Ltac tx_ok_tac :=
  intros; match goal with Ht : tx_ok _ |- _ => destruct Ht end;
  split; try done; cbn; rewrite ?Forall_cons_iff in *; destruct_and?; split_and?;
  try apply Forall_nil_2; in_w_solve.

(** ** Transmission *)

Section invariant.
Context {X P : Type} `{PhysMemLaws X} `{MsgLink P}.
Abbreviation MM := (M (machine X P)).
Abbreviation keeps := (@keeps X P _).

Lemma putsum_ok d n sloc css cse d' :
  length d = Z.to_nat 0x10000 → bytes_ok d → putsum d n sloc css cse = Some d' →
  length d' = Z.to_nat 0x10000 ∧ bytes_ok d'.
Proof.
  intros Hlen Hd Hp. unfold putsum in Hp. cbv zeta in Hp. case_match; [|by simplify_eq].
  apply bind_Some in Hp as (sum&_&Hs). split.
  - by rewrite (store_length _ _ _ _ Hs).
  - exact (store_ok _ _ _ _ Hd (be16_ok _) Hs).
Qed.

Lemma keeps_xmit_seg_tso : keeps xmit_seg_tso (λ _, True).
Proof.
  unfold xmit_seg_tso. repeat (keeps_step; cbv zeta); auto with vf.
  - repeat constructor; apply u8_range.
  - apply keeps_mod_tx. tx_ok_tac.
Qed.

Lemma keeps_xmit_seg_sums : keeps xmit_seg_sums (λ _, True).
Proof.
  unfold xmit_seg_sums. repeat (keeps_step; cbv zeta); auto with vf;
    apply keeps_set_data; by edestruct putsum_ok as [? ?].
Qed.

Lemma keeps_xmit_seg_send : keeps xmit_seg_send (λ _, True).
Proof.
  unfold xmit_seg_send.
  eapply keeps_bind; [apply (keeps_get_tx id tx_ok); auto|intros tp Htp].
  destruct (negb _).
  - eapply keeps_bind with (R := λ l, length l = 4%nat ∧ bytes_ok l).
    { unfold data_load. keeps_step. apply keeps_oob. intros l Hl.
      split; [exact (load_length _ _ _ _ Hl)|by eapply load_ok]. }
    intros v [Hv1 Hv2]. apply keeps_seq.
    { apply keeps_mod_tx. intros t []. by split. }
    repeat (keeps_step; cbv zeta); auto with vf. apply Htp.
  - repeat (keeps_step; cbv zeta); auto with vf.
Qed.

Lemma keeps_xmit_seg_stats : keeps xmit_seg_stats (λ _, True).
Proof.
  unfold xmit_seg_stats, put_reg. repeat (keeps_step; cbv zeta); try done;
    apply keeps_set_reg; try done; intros; apply u32_in_w.
Qed.

Lemma keeps_xmit_seg : keeps xmit_seg (λ _, True).
Proof.
  unfold xmit_seg. keeps_step.
  repeat apply keeps_seq; [case_match|..]; auto using keeps_xmit_seg_tso, keeps_xmit_seg_sums,
    keeps_xmit_seg_send, keeps_xmit_seg_stats, keeps_ret.
Qed.

Lemma keeps_tso_loop fuel hdr msh addr split_size :
  keeps (tso_loop fuel hdr msh addr split_size) (λ _, True).
Proof.
  revert addr split_size. induction fuel as [|fuel IH]; intros; cbn [tso_loop].
  { apply keeps_no_fuel. }
  repeat (keeps_step; cbv zeta); eauto using keeps_xmit_seg, keeps_set_header, load_ok with vf;
    apply keeps_mod_tx; tx_ok_tac.
Qed.

Lemma flag_in_w b : in_w 8 (flag b).
Proof. by destruct b. Qed.

Lemma keeps_tx_context dp : keeps (mod_tx (tx_context (context_of_tx_desc dp))) (λ _, True).
Proof.
  apply keeps_mod_tx. intros t Ht.
  assert (fields_ok context_desc_layout (fields_decode context_desc_layout (tx_desc_encode dp))) as Hf.
  { apply fields_decode_ok; [apply fields_encode_ok|apply length_tx_desc_encode]. }
  unfold context_of_tx_desc, context_desc_decode.
  destruct (fields_decode _ _) as [|a [|b [|c [|d [|e [|f [|g [|h [|i [|j [|]]]]]]]]]]];
    try (apply Forall2_length in Hf; done).
  unfold fields_ok, context_desc_layout in Hf. rewrite !Forall2_cons_iff in Hf.
  destruct_and!.
  assert (∀ w v, field_ok w v → in_w (8 * Z.of_nat w) v) as Hw.
  { intros w v Hv. unfold field_ok in Hv. unfold in_w. by rewrite Z.pow_mul_r by lia. }
  repeat match goal with Hx : field_ok _ _ |- _ => apply Hw in Hx; simpl in Hx end.
  unfold tx_context. cbv zeta. cbn [xd_cmd_and_length]. 
  assert (in_w 32 (g .& 0xfffff)) by (apply land_in_w; [lia|done]).
  pose proof flag_in_w. case_match; tx_ok_tac; auto.
Qed.

Lemma tx_begin_ok s dp dtype : dev_ok s → tx_ok (tx_begin s dp dtype).
Proof.
  intros Hs. pose proof (dev_tx_ok s Hs) as Ht. unfold tx_begin. cbv zeta.
  pose proof flag_in_w as Hflag.
  set (t1 := if dtype =? _ then _ else _).
  assert (tx_ok t1) as Ht1 by (unfold t1; case_match; tx_ok_tac; auto).
  clearbody t1. case_match; [|done]. destruct Ht1. split; try done; cbn.
  - split; [done|]. repeat constructor; apply u8_range.
  - rewrite ?Forall_cons_iff in *. destruct_and!. split_and!; try done; in_w_solve.
Qed.

Lemma keeps_process_tx_desc fuel dp : keeps (process_tx_desc fuel dp) (λ _, True).
Proof.
  unfold process_tx_desc. cbv zeta. case_match; [apply keeps_tx_context|].
  eapply keeps_bind; [apply (keeps_get_dev _ tx_ok); intros s [Hs _]; by apply tx_begin_ok|].
  intros tp Htp. apply keeps_seq; [by apply keeps_mod_tx|]. apply keeps_seq.
  - repeat case_match; auto using keeps_tso_loop, keeps_ret.
    repeat (keeps_step; cbv zeta); auto with vf. apply keeps_mod_tx. tx_ok_tac.
  - repeat (keeps_step; cbv zeta); auto using keeps_xmit_seg. apply keeps_mod_tx. tx_ok_tac.
Qed.

Lemma keeps_txdesc_writeback base dp : keeps (txdesc_writeback base dp) (in_w 32).
Proof.
  unfold txdesc_writeback. repeat (keeps_step; cbv zeta); in_w_solve.
Qed.

Lemma tdh_next_in_w s : in_w 32 (tdh_next s).
Proof. unfold tdh_next. cbv zeta. case_match; in_w_solve. Qed.
Lemma rdh_next_in_w s : in_w 32 (rdh_next s).
Proof. unfold rdh_next. cbv zeta. case_match; in_w_solve. Qed.

Lemma keeps_xmit_loop fuel start cause :
  in_w 32 cause → keeps (xmit_loop fuel start cause) (in_w 32).
Proof.
  revert cause. induction fuel as [|fuel IH]; intros cause Hc; cbn [xmit_loop].
  { apply keeps_no_fuel. }
  do 2 keeps_step. keeps_step; [by apply keeps_ret|]. keeps_step. keeps_step. cbv zeta.
  apply keeps_seq; [apply keeps_process_tx_desc|].
  eapply keeps_bind; [apply keeps_txdesc_writeback|]. intros c Hc'.
  apply keeps_seq; [apply keeps_set_reg; try done; intros; apply tdh_next_in_w|].
  assert (in_w 32 (cause .| c)) by in_w_solve. keeps_step. keeps_step; [by apply keeps_ret|auto].
Qed.

Lemma keeps_start_xmit fuel : keeps (start_xmit fuel) (λ _, True).
Proof.
  unfold start_xmit. do 2 keeps_step. keeps_step; [by apply keeps_ret|].
  eapply keeps_bind; [apply keeps_xmit_loop; in_w_solve|]. intros. by apply keeps_set_ics.
Qed.

Lemma keeps_set_tctl fuel index val :
  in_w 32 val → index ∈ [TCTL; TDT] → keeps (set_tctl fuel index val) (λ _, True).
Proof.
  intros Hv Hi. unfold set_tctl, put_reg. repeat apply keeps_seq.
  - apply keeps_set_reg; [intros ->; set_solver by done..|auto].
  - apply keeps_set_reg; try done. intros s [Hs _]. apply land_in_w; [lia|apply Hs].
  - apply keeps_start_xmit.
Qed.

(** ** Reception *)

Lemma dev_inv_set_reg s i v :
  i ≠ IMS → i ≠ ICR → i ≠ ICS → in_w 32 v → dev_inv s → dev_inv (set_reg s i v).
Proof. intros ???? []. split; [by apply dev_ok_set_reg|by apply irq_ok_set_reg]. Qed.

Lemma dev_inv_set_ics s i v : in_w 32 v → dev_inv s → dev_inv (set_ics s i v).
Proof. intros ? []. split; [by apply set_ics_dev_ok|apply set_interrupt_cause_ok]. Qed.

Lemma rx_stats_inv size s : dev_inv s → dev_inv (rx_stats size s).
Proof.
  intros Hs. unfold rx_stats. cbv zeta. apply dev_inv_set_reg; try done; [in_w_solve|].
  case_match; repeat (apply dev_inv_set_reg; try done; try in_w_solve).
Qed.

Lemma rx_done_inv size s : dev_inv s → dev_inv (rx_done size s).
Proof.
  intros Hs. unfold rx_done. cbv zeta. apply dev_inv_set_ics; [|by apply rx_stats_inv].
  unfold rx_cause. cbv zeta. case_match; in_w_solve.
Qed.

Lemma keeps_rx_loop fuel start special status payload :
  keeps (rx_loop fuel start special status payload) (λ _, True).
Proof.
  induction fuel as [|fuel IH]; cbn [rx_loop]; [apply keeps_no_fuel|].
  keeps_step. keeps_step.
  { apply keeps_seq; [apply keeps_set_ics; in_w_solve|by apply keeps_ret]. }
  cbv zeta. keeps_step. apply keeps_seq; [keeps_step; [apply keeps_write|by apply keeps_ret]|].
  apply keeps_seq; [apply keeps_write|].
  apply keeps_seq; [apply keeps_set_reg; try done; intros; apply rdh_next_in_w|].
  apply keeps_seq.
  { apply keeps_mod_dev. intros s' [[] ?]. split; [by split|by apply (irq_ok_frame s')]. }
  keeps_step. keeps_step.
  { apply keeps_seq; [apply keeps_set_ics; in_w_solve|by apply keeps_ret]. }
  keeps_step; [done|by apply keeps_ret].
Qed.

Lemma keeps_e1000_receive fuel buf : keeps (e1000_receive fuel buf) (λ _, True).
Proof.
  unfold e1000_receive. keeps_step. cbv zeta.
  do 3 (keeps_step; [by apply keeps_ret|]).
  eapply keeps_bind with (R := λ _, True).
  { case_match; [apply keeps_oob|apply keeps_ret]; done. }
  intros b _. keeps_step. eapply keeps_bind; [apply keeps_rx_loop|]. intros ok _.
  keeps_step; [by apply keeps_ret|]. apply keeps_seq; [|by apply keeps_ret].
  apply keeps_mod_dev. intros. by apply rx_done_inv.
Qed.

(** ** The admin queue *)

Lemma dev_inv_fs s v : dev_inv s → dev_inv (s <| fs := v |>).
Proof. intros [[] ?]. split; [by split|by apply (irq_ok_frame s)]. Qed.

Lemma keeps_aq_send fd desc : keeps (aq_send fd desc) (λ _, True).
Proof.
  unfold aq_send. keeps_step. keeps_step; [by apply keeps_ret|].
  keeps_step; [|by apply keeps_ret]. keeps_step. apply keeps_link.
Qed.

Lemma keeps_aq_receive fd desc : keeps (aq_receive fd desc) (λ _, True).
Proof.
  unfold aq_receive. keeps_step. destruct a as [[rc recv] ?].
  keeps_step; [by apply keeps_ret|]. cbv zeta. keeps_step; [|by apply keeps_ret].
  keeps_step. keeps_step. destruct a0 as [[rc' buffer] ?]. keeps_step; [by apply keeps_ret|].
  keeps_step. apply keeps_seq; [apply keeps_write|by apply keeps_ret].
Qed.

Lemma keeps_aq_exchange fd desc : keeps (aq_exchange fd desc) (λ _, True).
Proof.
  eapply keeps_bind; [apply keeps_aq_send|]. intros rc _.
  case_match; [by apply keeps_ret|apply keeps_aq_receive].
Qed.

Lemma keeps_send_aq_err : keeps send_aq_err (λ _, True).
Proof.
  unfold send_aq_err. keeps_step. keeps_step. apply keeps_seq; [|by apply keeps_ret].
  apply keeps_mod_dev. intros. by apply dev_inv_fs.
Qed.

Lemma keeps_e1000_send_aq_cmd desc : keeps (e1000_send_aq_cmd desc) (λ _, True).
Proof.
  unfold e1000_send_aq_cmd. keeps_step. apply keeps_seq.
  { keeps_step; [|by apply keeps_ret]. keeps_step. apply keeps_mod_dev. intros. by apply dev_inv_fs. }
  keeps_step. keeps_step; [apply keeps_send_aq_err|].
  eapply keeps_bind; [apply keeps_aq_exchange|]. intros [d|] _; [by apply keeps_ret|].
  apply keeps_send_aq_err.
Qed.

Lemma atqh_advance_inv s : dev_inv s → dev_inv (atqh_advance s).
Proof.
  intros Hs. unfold atqh_advance. cbv zeta.
  case_match; repeat (apply dev_inv_set_reg; try done; try in_w_solve).
Qed.

Lemma keeps_e1000_set_atq_tail val :
  in_w 32 val → keeps (e1000_set_atq_tail PF_ATQT val) (λ _, True).
Proof.
  intros Hv. unfold e1000_set_atq_tail, put_reg.
  apply keeps_seq; [apply keeps_set_reg; done|]. keeps_step. keeps_step. cbv zeta.
  eapply keeps_bind; [apply keeps_e1000_send_aq_cmd|]. intros r _.
  eapply keeps_bind with (R := λ _, True).
  { destruct r; [by apply keeps_ret|]. unfold aq_fallback.
    eapply keeps_bind with (R := λ _, True); [|intros; by apply keeps_ret].
    keeps_step; [by apply keeps_ret|]. keeps_step; [|by apply keeps_ret].
    apply keeps_seq; [|by apply keeps_ret]. unfold e1000_aq_echo.
    keeps_step; [|by apply keeps_ret]. keeps_step. apply keeps_write. }
  intros d _. apply keeps_seq; [apply keeps_write|].
  apply keeps_mod_dev. apply atqh_advance_inv.
Qed.

(** ** Register access *)

(** The handlers that write a register by its index are not installed for the
    interrupt registers. *)
Definition plain_write (op : writeop) : bool :=
  match op with
  | Wr_mac_writereg | Wr_set_dlen | Wr_set_16bit | Wr_set_rdt => true
  | _ => false
  end.

Definition write_entry_ok (e : Z * writeop) : bool :=
  (if plain_write e.2 then negb (bool_decide (e.1 ∈ [IMS; ICR; ICS])) else true) &&
  (match e.2 with
   | Wr_set_tctl => bool_decide (e.1 ∈ [TCTL; TDT])
   | Wr_set_atq_tail => e.1 =? PF_ATQT
   | _ => true
   end).

Lemma table_get_In {A} (t : list (Z * A)) i a : table_get t i = Some a → In (i, a) t.
Proof.
  induction t as [|[j b] t IH]; simpl; [done|]. destruct (Z.eqb_spec i j); [|auto].
  intros. simplify_eq. by left.
Qed.

Lemma writeops_ok i op : table_get macreg_writeops i = Some op → write_entry_ok (i, op) = true.
Proof.
  intros Hi%table_get_In.
  assert (forallb write_entry_ok macreg_writeops = true) as Hall by (vm_compute; reflexivity).
  rewrite forallb_forall in Hall. by apply Hall.
Qed.

Lemma keeps_run_writeop fuel op index val :
  in_w 32 val → write_entry_ok (index, op) = true →
  keeps (run_writeop fuel op index val) (λ _, True).
Proof.
  intros Hv Hop. unfold write_entry_ok in Hop. cbn [fst snd] in Hop.
  apply andb_true_iff in Hop as [Hp Hr].
  assert (plain_write op = true → index ≠ IMS ∧ index ≠ ICR ∧ index ≠ ICS) as Hplain.
  { intros E. rewrite E in Hp. apply negb_true_iff, bool_decide_eq_false in Hp. set_solver. }
  assert (∀ v, in_w 32 v → plain_write op = true →
    ∀ s, dev_inv s → dev_inv (set_reg s index v)) as Hset.
  { intros v ? (?&?&?)%Hplain ??. by apply dev_inv_set_reg. }
  destruct op; cbn [run_writeop];
    try (apply bool_decide_eq_true in Hr; by apply keeps_set_tctl);
    try (apply Z.eqb_eq in Hr as ->; by apply keeps_e1000_set_atq_tail);
    apply keeps_mod_dev; intros s Hs.
  - by apply Hset.
  - apply Hset; [in_w_solve|done..].
  - destruct Hs. split; [by apply set_mdic_ok|]. unfold set_mdic. cbv zeta.
    repeat case_match; apply set_interrupt_cause_ok.
  - by apply dev_inv_set_ics.
  - apply Hset; [in_w_solve|done..].
  - apply Hset; [in_w_solve|done|]. destruct Hs as [[] ?]. split; [by split|].
    by apply (irq_ok_frame s).
  - destruct Hs as [Hs ?]. split; [|apply set_interrupt_cause_ok].
    apply set_ics_dev_ok; [in_w_solve|]. apply dev_ok_set_reg; [|done].
    apply land_in_w; [lia|apply Hs].
  - destruct Hs as [Hs ?]. split; [|apply set_interrupt_cause_ok].
    apply set_ics_dev_ok; [in_w_solve|]. apply dev_ok_set_reg; [|done].
    apply lor_in_w; [lia|apply Hs|done].
  - destruct Hs as [Hs ?]. split; [|apply set_interrupt_cause_ok].
    apply set_interrupt_cause_dev_ok; [|done]. apply land_in_w; [lia|apply Hs].
  - destruct Hs as [Hs ?]. split; [by apply set_eecd_ok|]. by apply (irq_ok_frame s).
  - destruct Hs as [Hs ?]. split; [by apply set_rx_control_ok|].
    by apply (irq_ok_frame (set_reg s RCTL val)), irq_ok_set_reg.
  - apply dev_inv_set_reg; try done. in_w_solve.
Qed.

Lemma keeps_mmio_writel fuel addr val :
  in_w 32 val → keeps (e1000_mmio_writel fuel addr val) (λ _, True).
Proof.
  intros Hv. unfold e1000_mmio_writel. cbv zeta. case_match; [|by apply keeps_ret].
  case_match eqn:E; [|by apply keeps_ret].
  by apply keeps_run_writeop; [|apply writeops_ok].
Qed.

(** Of the read handlers, those that clear by index are installed for
    statistics registers only. *)
Definition read_entry_ok (e : Z * readop) : bool :=
  match e.2 with
  | Rd_mac_read_clr4 => negb (bool_decide (e.1 ∈ [IMS; ICR; ICS]))
  | Rd_mac_read_clr8 =>
      negb (bool_decide (e.1 ∈ [IMS; ICR; ICS])) && negb (bool_decide (e.1 - 1 ∈ [IMS; ICR; ICS]))
  | _ => true
  end.

Lemma readops_ok i op : table_get macreg_readops i = Some op → read_entry_ok (i, op) = true.
Proof.
  intros Hi%table_get_In.
  assert (forallb read_entry_ok macreg_readops = true) as Hall by (vm_compute; reflexivity).
  rewrite forallb_forall in Hall. by apply Hall.
Qed.

Lemma run_readop_inv op s i :
  read_entry_ok (i, op) = true → dev_inv s → dev_inv (run_readop op s i).2.
Proof.
  intros Hop Hs. unfold read_entry_ok in Hop. destruct op; cbn in Hop |- *; try done.
  - apply negb_true_iff, bool_decide_eq_false in Hop.
    apply dev_inv_set_reg; [set_solver..|in_w_solve|done].
  - apply andb_true_iff in Hop as [Hi1%negb_true_iff%bool_decide_eq_false
      Hi2%negb_true_iff%bool_decide_eq_false].
    apply dev_inv_set_reg; [set_solver..|in_w_solve|].
    apply dev_inv_set_reg; [set_solver..|in_w_solve|done].
  - destruct Hs. split; [apply set_interrupt_cause_dev_ok; [in_w_solve|done]|].
    apply set_interrupt_cause_ok.
  - unfold flash_eerd_read. cbv zeta. by repeat case_match.
Qed.

Lemma keeps_mmio_readl addr : keeps (e1000_mmio_readl addr) (λ _, True).
Proof.
  unfold e1000_mmio_readl. cbv zeta. case_match; [|by apply keeps_ret].
  destruct (table_get _ _) as [op|] eqn:E; [|by apply keeps_ret].
  eapply keeps_bind; [apply (keeps_get_dev _ (λ r, dev_inv r.2))|].
  { intros s Hs. apply run_readop_inv; [by apply readops_ok|done]. }
  intros r Hr. apply keeps_seq; [by apply keeps_mod_dev|by apply keeps_ret].
Qed.

(** ** Everything that can happen to the device *)

Inductive dev_op :=
| Op_writel (addr val : Z)
| Op_writew (addr val : Z)
| Op_writeb (addr val : Z)
| Op_readl (addr : Z)
| Op_readw (addr : Z)
| Op_readb (addr : Z)
| Op_receive (frame : list Z)
| Op_link (down : bool).

(** The guest writes 32-bit values. *)
Definition op_ok (op : dev_op) : Prop :=
  match op with
  | Op_writel _ v | Op_writew _ v | Op_writeb _ v => in_w 32 v
  | _ => True
  end.

Definition run_op (fuel : nat) (op : dev_op) : MM unit :=
  match op with
  | Op_writel a v => e1000_mmio_writel fuel a v
  | Op_writew a v => e1000_mmio_writew fuel a v
  | Op_writeb a v => e1000_mmio_writeb fuel a v
  | Op_readl a => e1000_mmio_readl a;; mret ()
  | Op_readw a => e1000_mmio_readw a;; mret ()
  | Op_readb a => e1000_mmio_readb a;; mret ()
  | Op_receive f => e1000_receive fuel f;; mret ()
  | Op_link down => mod_dev (λ s, e1000_set_link_status s down)
  end.

Lemma link_status_inv s down : dev_inv s → dev_inv (e1000_set_link_status s down).
Proof.
  intros Hs. unfold e1000_set_link_status. cbv zeta.
  assert (dev_inv (if down then set_reg s STATUS (reg s STATUS .& .~ E1000_STATUS_LU)
                   else set_reg s STATUS (reg s STATUS .| E1000_STATUS_LU))) as Hs'.
  { assert (in_w 32 (reg s STATUS)) by apply Hs.
    destruct down; apply dev_inv_set_reg; try done; in_w_solve. }
  destruct (negb _); [|done]. apply dev_inv_set_ics; [in_w_solve|done].
Qed.

Lemma keeps_run_op fuel op : op_ok op → keeps (run_op fuel op) (λ _, True).
Proof.
  destruct op; simpl; intros Hop;
    try (unfold e1000_mmio_writew, e1000_mmio_writeb; apply keeps_mmio_writel; in_w_solve; done).
  - apply keeps_seq; [apply keeps_mmio_readl|by apply keeps_ret].
  - apply keeps_seq; [|by apply keeps_ret]. unfold e1000_mmio_readw.
    eapply keeps_bind; [apply keeps_mmio_readl|]. intros. by apply keeps_ret.
  - apply keeps_seq; [|by apply keeps_ret]. unfold e1000_mmio_readb.
    eapply keeps_bind; [apply keeps_mmio_readl|]. intros. by apply keeps_ret.
  - apply keeps_seq; [apply keeps_e1000_receive|by apply keeps_ret].
  - apply keeps_mod_dev. intros. by apply link_status_inv.
Qed.

(** One operation that returns. *)
Inductive dev_step : machine X P → machine X P → Prop :=
| Dev_step fuel op m m' : op_ok op → run_op fuel op m = Ret () m' → dev_step m m'.

Lemma dev_step_inv m m' : dev_inv (dev m) → dev_step m m' → dev_inv (dev m').
Proof.
  intros Hm Hs. destruct Hs as [fuel op m m' Hop Hrun].
  by destruct (ens_elim _ _ _ _ _ (keeps_run_op fuel op Hop _ Hm) Hrun).
Qed.

(** A reset of the card leaves no cause and no mask, so the line has to be low. *)
Lemma reset_inv s : dev_ok s → dev_inv (e1000_reset s <| irq := false |>).
Proof.
  intros [_ _ He [Hr _] _ Hd]. split; [|by split]. split; try done.
  - intros i. unfold reg. destruct (mac_reg _ !! i) as [v|] eqn:E; [|simpl; in_w_const].
    simpl. change (mac_reg _) with (list_to_map mac_reg_init : gmap Z Z) in E.
    apply elem_of_list_to_map_2 in E.
    assert (Forall (in_w 32) mac_reg_init.*2) as Hf.
    { apply Forall_in_w_compute. vm_compute. reflexivity. }
    rewrite Forall_forall in Hf. apply Hf, list_elem_of_In.
    change v with ((i, v).2). by apply list_elem_of_fmap_2.
  - split; [done|]. apply Forall_in_w_compute. vm_compute. reflexivity.
  - split; cbn [tx e1000_reset update]; try (split; [|apply bytes_ok_zeros]).
    all: try apply length_replicate; try (apply Forall_in_w_compute; vm_compute; reflexivity).
    change (in_w 32 0). in_w_const.
Qed.

Lemma eeprom_init_ok mac : bytes_ok mac → length (eeprom_init mac) = 64%nat ∧ Forall (in_w 16) (eeprom_init mac).
Proof.
  intros Hmac. unfold eeprom_init, eeprom_mac. cbn [foldl]. cbv zeta. rewrite !length_insert.
  split; [done|]. repeat apply Forall_insert; try apply u16_in_w;
    [apply Forall_in_w_compute; vm_compute; reflexivity|..];
    (apply lor_in_w; [lia| |]);
    try (apply in_w_mono with 8; [apply arr_in_w; [lia|done]|lia]);
    (assert (∀ i, 0 ≤ arr mac i < 256) as Ha by (intros; apply (arr_in_w 8); [lia|done]));
    rewrite Z.shiftl_mul_pow2 by lia; unfold in_w;
    match goal with |- context [arr mac ?i] => specialize (Ha i) end; simpl; lia.
Qed.

Lemma init_ok mac : bytes_ok mac → dev_ok (pci_e1000_init mac e1000_zero).
Proof.
  intros Hmac. split.
  - intros i. unfold reg. cbn. rewrite lookup_empty. cbn. in_w_const.
  - split; [done|]. apply Forall_in_w_compute. vm_compute. reflexivity.
  - by apply eeprom_init_ok.
  - cbn. lia.
  - split; cbn [tx pci_e1000_init e1000_zero update]; try (split; [|apply bytes_ok_zeros]).
    all: try apply length_replicate; try (apply Forall_in_w_compute; vm_compute; reflexivity).
    change (in_w 32 0). in_w_const.
  - split; apply Forall_in_w_compute; vm_compute; reflexivity.
Qed.

Lemma init_inv mac : bytes_ok mac → dev_inv (pci_e1000_init mac e1000_zero).
Proof. intros Hmac. split; [by apply init_ok|by split]. Qed.

Lemma set_irq_id s v : irq s = v → s <| irq := v |> = s.
Proof. destruct s. by intros <-. Qed.

Lemma power_on_inv mac : bytes_ok mac → dev_inv (e1000_power_on mac).
Proof.
  intros Hmac. pose proof (reset_inv _ (init_ok mac Hmac)) as Hi. unfold e1000_power_on.
  by rewrite set_irq_id in Hi by reflexivity.
Qed.
End invariant.
