(* ===== verification/E1000Pci.v ===== *)
(** * The network card on its PCI bus ([hw/e1000.c], [hw/pci.c])

    The PCI side of [pci_e1000_init], the creation of a PCI device with its option
    ROM, and the card seen from the bus: adding it to a well-formed system gives a
    well-formed system, a guest finds the sizes of its regions, and after the usual
    start-up accesses the card's registers answer at the address the guest chose. *)

From S2P Require Import Prelude Bytes Memory E1000Hw E1000State E1000Tx AdminQ E1000Mmio Pci PciSpec PciInv PciCfg PciReset PciGuest PciIrq PciAdd.

(** ** The card's functions and registers *)

(** The map functions, with the field of the device that they use. *)
Inductive map_fn :=
| FN_e1000_mmio_map (mmio_index : Z)
| FN_ioport_map
| FN_pci_map_option_rom (rom_offset : Z).

#[export] Instance map_fn_calls : MapFuncs map_fn := λ f region_num addr size type,
  match f with
  | FN_e1000_mmio_map idx =>
      cpu_register_physical_memory addr PNPMMIO_SIZE idx ::
      map (λ r, qemu_register_coalesced_mmio r.1 r.2) (e1000_mmio_map addr)
  | FN_ioport_map => []
  | FN_pci_map_option_rom rom_offset => [cpu_register_physical_memory addr size rom_offset]
  end.

Abbreviation PCI_VENDOR_ID_INTEL := 0x8086.
Abbreviation PCI_CLASS_NETWORK_ETHERNET := 0x0200.

Abbreviation PDev := (PCIDevice map_fn).
Abbreviation PSys := (PciSys map_fn).

(** The part of [pci_e1000_init] that concerns the PCI device. *)
Definition pci_e1000_init_pci (d : PDev) (mmio_index : Z) : option PDev :=
  let d := d <| config ::= λ c,
    let c := pci_set_word c PCI_VENDOR_ID PCI_VENDOR_ID_INTEL in
    let c := pci_set_word c PCI_DEVICE_ID E1000_DEVID in
    let c := pci_set_word c PCI_STATUS PCI_STATUS_CAP_LIST in
    let c := pci_set_byte c PCI_REVISION_ID 0x03 in
    let c := pci_set_word c PCI_CLASS_DEVICE PCI_CLASS_NETWORK_ETHERNET in
    let c := pci_set_byte c PCI_CACHE_LINE_SIZE 0x10 in
    pci_set_byte c PCI_INTERRUPT_PIN 1 |> in
  d ← pci_register_bar d 0 PNPMMIO_SIZE PCI_BASE_ADDRESS_SPACE_MEMORY (FN_e1000_mmio_map mmio_index);
  pci_register_bar d 1 IOPORT_SIZE PCI_BASE_ADDRESS_SPACE_IO FN_ioport_map.

(** ** Option ROMs *)

(** [rom] is the RAM block the image was loaded into. *)
Definition pci_patch_ids (d : PDev) (rom : list Z) (size : Z) : list Z :=
  let rom_magic := pci_get_word rom 0 in
  if negb (rom_magic =? 0xaa55) then rom else
  let pcir_offset := pci_get_word rom 0x18 in
  if (pcir_offset + 8 >=? size) ||
     negb (bool_decide (take 4 (drop (Z.to_nat pcir_offset) rom) = [0x50; 0x43; 0x49; 0x52]))
  then rom else
  let vendor_id := pci_get_word (config d) PCI_VENDOR_ID in
  let device_id := pci_get_word (config d) PCI_DEVICE_ID in
  let rom_vendor_id := pci_get_word rom (pcir_offset + 4) in
  let rom_device_id := pci_get_word rom (pcir_offset + 6) in
  let checksum := pci_get_byte rom 6 in
  let '(rom, checksum) :=
    if negb (vendor_id =? rom_vendor_id) then
      let checksum := u8 (checksum + (u8 rom_vendor_id + u8 (rom_vendor_id >> 8))) in
      let checksum := u8 (checksum - (u8 vendor_id + u8 (vendor_id >> 8))) in
      (pci_set_word (pci_set_byte rom 6 checksum) (pcir_offset + 4) vendor_id, checksum)
    else (rom, checksum) in
  if negb (device_id =? rom_device_id) then
    let checksum := u8 (checksum + (u8 rom_device_id + u8 (rom_device_id >> 8))) in
    let checksum := u8 (checksum - (u8 device_id + u8 (device_id >> 8))) in
    pci_set_word (pci_set_byte rom 6 checksum) (pcir_offset + 6) device_id
  else rom.

(** The size of the region: the next power of two; [qemu_fls] is one more than the
    number of the highest bit. *)
Definition rom_size (size : Z) : Z :=
  if negb (size .& (size - 1) =? 0) then s32 (1 << (Z.log2 size + 1)) else size.

(** [image] is the file, if the device has one and it is found; [ram] is the content
    of the RAM block allocated for it at [rom_offset]. The results are the device
    and the block; [None] is the end of the process. *)
Definition pci_add_option_rom (d : PDev) (image : option (list Z)) (is_default_rom : bool)
    (rom_offset : Z) (ram : list Z) : option (PDev * list Z) :=
  match image with
  | None => Some (d, ram)
  | Some bytes =>
      let size := rom_size (Z.of_nat (length bytes)) in
      let ptr := bytes ++ drop (length bytes) ram in
      let ptr := if is_default_rom then pci_patch_ids d ptr size else ptr in
      d ← pci_register_bar d PCI_ROM_SLOT size 0 (FN_pci_map_option_rom rom_offset);
      Some (d, ptr)
  end.

(** ** Creating the device *)

(** [pci_qdev_init] for this device, when it is not hot-plugged and the bus has no
    [hotplug] function; the result is also the RAM block of the ROM. *)
Definition pci_qdev_init (n b : nat) (mmio_index : Z) (image : option (list Z)) (rom_offset : Z) (ram : list Z)
    : M PSys (Z * list Z) :=
  d ← pdev n;
  ok ← do_pci_register_device n b (devfn d) false;
  if negb ok then mret (-1, ram) else
  d ← pdev n;
  match pci_e1000_init_pci d mmio_index with
  | None => fail Aborted
  | Some d =>
      put_pdev n d;;
      match pci_add_option_rom d image true rom_offset ram with
      | None => fail Aborted
      | Some (d, ram) => put_pdev n d;; mret (0, ram)
      end
  end.

(** ** Registration *)

Abbreviation registered := (registered (F := map_fn) false).

Lemma fresh_card b fn cfg :
  length cfg = 256%nat → bytes_ok cfg → pci_get_byte cfg PCI_HEADER_TYPE = 0 → pci_get_byte cfg PCI_COMMAND = 0 →
  dev_fresh (registered b fn <| config := cfg |>).
Proof.
  intros Hl Hb Hh Hc. split; try done.
  - split; [split|done|].
    + split; [done|]. apply (bool_decide_unpack (bytes_ok _)). by vm_compute.
    + split; [done|]. apply (bool_decide_unpack (bytes_ok _)). by vm_compute.
    + intros i wm w1c Hw Hw1. assert (forallb (λ p, p.1 .& p.2 =? 0)
        (zip (wmask (registered b fn)) (w1cmask (registered b fn))) = true) as Hall by (by vm_compute).
      rewrite forallb_forall in Hall. apply Z.eqb_eq, (Hall (wm, w1c)), list_elem_of_In, (list_elem_of_lookup_2 _ i).
      apply lookup_zip_Some. done.
    + done.
    + done.
    + intros i r Hi. assert (r = Region 0 0 0 0 None) as ->; [|done].
      apply (list_elem_of_lookup_2 _ i) in Hi. by apply elem_of_replicate in Hi as [-> _].
  - split; [done..|]. by intros [].
  - change (pci_get_byte cfg PCI_COMMAND .& 3 = 0). by rewrite Hc.
  - intros i r Hi Hz. apply (list_elem_of_lookup_2 _ i) in Hi. by apply elem_of_replicate in Hi as [-> _].
  - intros i Hi. assert (forallb (λ i, bool_decide (w1cmask (registered b fn) !! Z.to_nat i = Some 0)) (seqZ 0x10 0x24) = true)
      as Hall by (by vm_compute).
    rewrite forallb_forall in Hall. apply (bool_decide_unpack (w1cmask (registered b fn) !! Z.to_nat i = Some 0)).
    apply Is_true_true, Hall, list_elem_of_In, elem_of_seqZ. lia.
Qed.

(** ** The card *)

(** What stays true of the card: its regions, and which bits of its registers the
    guest can set. *)
Record is_card (d : PDev) (mmio_index : Z) : Prop := {
  ic_bar0 : ∃ r, io_regions d !! 0%nat = Some r ∧ r_size r = PNPMMIO_SIZE ∧
    r_type r = PCI_BASE_ADDRESS_SPACE_MEMORY ∧ r_map_func r = Some (FN_e1000_mmio_map mmio_index);
  ic_bar1 : ∃ r, io_regions d !! 1%nat = Some r ∧ r_type r = PCI_BASE_ADDRESS_SPACE_IO;
  ic_none i r : (1 < i < 6)%nat → io_regions d !! i = Some r → r_size r = 0;
  ic_rom r : io_regions d !! 6%nat = Some r → r_type r = 0;
  ic_bridge : sec_bus d = None;
  ic_wmask : get_le 4 (wmask d) PCI_BASE_ADDRESS_0 = 0xfffe0000 ∧ get_le 2 (wmask d) PCI_COMMAND = 0x507;
  ic_w1c : get_le 4 (w1cmask d) PCI_BASE_ADDRESS_0 = 0 ∧ get_le 2 (w1cmask d) PCI_COMMAND = 0;
}.

(** Its registers after it was created or reset: nothing is decoded, no interrupt
    is disabled. *)
Record at_reset (d : PDev) : Prop := {
  ar_command : pci_get_word (config d) PCI_COMMAND = 0;
  ar_bar0 : pci_get_long (config d) PCI_BASE_ADDRESS_0 = 0;
  ar_rom : has_bits (pci_get_long (config d) PCI_ROM_ADDRESS) PCI_ROM_ADDRESS_ENABLE = false;
  ar_header : pci_get_byte (config d) PCI_HEADER_TYPE = 0;
}.

Definition card (b : nat) (fn idx : Z) : PDev := default (registered b fn) (pci_e1000_init_pci (registered b fn) idx).

Lemma card_is_card b fn idx : is_card (card b fn idx) idx ∧ at_reset (card b fn idx).
Proof.
  split; [split|split; by vm_compute].
  - eexists. split; [reflexivity|]. done.
  - eexists. split; [reflexivity|]. done.
  - intros i r Hi Hr. assert (i = 2 ∨ i = 3 ∨ i = 4 ∨ i = 5)%nat as [->|[->|[->| ->]]] by lia;
      apply (inj Some) in Hr as <-; done.
  - intros r Hr. by apply (inj Some) in Hr as <-.
  - done.
  - split; by vm_compute.
  - split; by vm_compute.
Qed.

Lemma card_init b fn idx :
  pci_e1000_init_pci (registered b fn) idx = Some (card b fn idx) ∧ dev_fresh (card b fn idx) ∧
    dev_bus (card b fn idx) = b ∧ devfn (card b fn idx) = fn.
Proof.
  set (cfg := let c := config (registered b fn) in
    let c := pci_set_word c PCI_VENDOR_ID PCI_VENDOR_ID_INTEL in
    let c := pci_set_word c PCI_DEVICE_ID E1000_DEVID in
    let c := pci_set_word c PCI_STATUS PCI_STATUS_CAP_LIST in
    let c := pci_set_byte c PCI_REVISION_ID 0x03 in
    let c := pci_set_word c PCI_CLASS_DEVICE PCI_CLASS_NETWORK_ETHERNET in
    let c := pci_set_byte c PCI_CACHE_LINE_SIZE 0x10 in
    pci_set_byte c PCI_INTERRUPT_PIN 1).
  assert (dev_fresh (registered b fn <| config := cfg |>)) as Hf.
  { apply fresh_card; [done| |done|done]. apply (bool_decide_unpack (bytes_ok _)). by vm_compute. }
  destruct (register_bar_fresh _ 0 17 PCI_BASE_ADDRESS_SPACE_MEMORY (FN_e1000_mmio_map idx) Hf) as (d1&E1&Hf1&Eb1&Ef1);
    [lia|lia|done|done|].
  destruct (register_bar_fresh _ 1 6 PCI_BASE_ADDRESS_SPACE_IO FN_ioport_map Hf1) as (d2&E2&Hf2&Eb2&Ef2);
    [lia|lia|done|done|].
  assert (pci_e1000_init_pci (registered b fn) idx = Some d2) as E by (rewrite <- E2; apply bind_Some; by exists d1).
  unfold card. rewrite E. cbn [default from_option id]. split_and!; [done|done|by rewrite Eb2|by rewrite Ef2].
Qed.

(** *** With its ROM *)

Lemma rom_size_pow2 z : 4 ≤ z < 2 ^ 30 → ∃ k, 2 ≤ k < 31 ∧ rom_size z = 2 ^ k.
Proof.
  intros Hz. pose proof (Z.log2_spec z ltac:(lia)) as [Hlo Hhi]. set (k := Z.log2 z) in *.
  assert (2 ≤ k) by (apply Z.log2_le_pow2; lia). assert (k < 30) by (apply Z.log2_lt_pow2; lia).
  unfold rom_size. fold k. destruct (Z.eqb_spec (z .& (z - 1)) 0) as [E|_]; cbn [negb].
  - exists k. split; [lia|]. destruct (decide (z = 2 ^ k)) as [|Hne]; [done|]. exfalso.
    assert (Z.testbit (z .& (z - 1)) k = true) as Hb; [|by rewrite E, Z.bits_0 in Hb].
    assert (Z.log2 (z - 1) = k) as Hk by (apply Z.log2_unique; lia).
    rewrite Z.land_spec. apply andb_true_intro. split; [apply Z.bit_log2; lia|].
    rewrite <- Hk. apply Z.bit_log2. lia.
  - exists (k + 1). split; [lia|]. rewrite Z.shiftl_1_l.
    assert (2 ^ (k + 1) ≤ 2 ^ 30) by (apply Z.pow_le_mono_r; lia).
    assert (0 < 2 ^ (k + 1)) by (apply Z.pow_pos_nonneg; lia). apply s32_small. lia.
Qed.

(** A file that is long enough to be a region of a PCI device. *)
Definition image_ok (image : option (list Z)) : Prop :=
  match image with Some bytes => 4 ≤ Z.of_nat (length bytes) < 2 ^ 30 | None => True end.

Lemma option_rom_added d idx image is_default rom_offset ram :
  dev_fresh d → is_card d idx → at_reset d → image_ok image →
  ∃ d' ram', pci_add_option_rom d image is_default rom_offset ram = Some (d', ram') ∧
    dev_fresh d' ∧ is_card d' idx ∧ at_reset d' ∧ dev_bus d' = dev_bus d ∧ devfn d' = devfn d.
Proof.
  intros Hf Hc Ha Hi. unfold pci_add_option_rom. destruct image as [bytes|]; [|by exists d, ram].
  destruct (rom_size_pow2 (Z.of_nat (length bytes)) Hi) as (k&Hk&->). cbv zeta.
  destruct (register_bar_fresh d 6 k 0 (FN_pci_map_option_rom rom_offset) Hf) as (d'&E&Hf'&Eb&Ef); [lia|lia|done|done|].
  destruct (register_bar_some d 6 k 0 (FN_pci_map_option_rom rom_offset)) as (d1&n&w&wm&c&E1&Hn&->&E2); [lia|lia|apply Hf|].
  change (Z.of_nat 6) with PCI_ROM_SLOT in *. rewrite E in E1 |- *. apply (inj Some) in E1 as <-.
  destruct Hn as [->|[_ ?]]; [|done]. eexists d', _. split; [reflexivity|]. split; [done|].
  assert (pci_bar d PCI_ROM_SLOT = PCI_ROM_ADDRESS) as Hbar.
  { unfold pci_bar. cbn [Z.eqb negb]. by rewrite (df_header _ Hf). }
  rewrite Hbar in E2. destruct Hf as [[[[Lw _] [Lc _] _ _ _] _ _] [Lk _ _ _] _ _ _ _ _ _].
  pose proof (config_size_pos d) as Hsz. destruct Hc as [H0 H1 Hno Hr Hs [W0 W1] C0], Ha as [A1 A2 A3 A4].
  assert (∀ l v off j, length l = Z.to_nat (pci_config_size d) → 0 ≤ off → off + Z.of_nat j ≤ 0x30 →
    get_le j (set_le 4 l PCI_ROM_ADDRESS v) off = get_le j l off) as Hget.
  { intros l v off j Hl Ho Hj. symmetry. apply get_le_same; [done|].
    eapply same_at_sub; [|apply set_le_same; lia]. intros i Hi'. cbn. lia. }
  rewrite E2. split_and!; [split|split|by destruct d|by destruct d]; try done.
  - cbn. by rewrite list_lookup_insert_ne by lia.
  - cbn. by rewrite list_lookup_insert_ne by lia.
  - intros i r Hi' Hr'. cbn in Hr'. rewrite list_lookup_insert_ne in Hr' by lia. by eapply Hno.
  - intros r Hr'. cbn in Hr'. by apply list_lookup_insert_Some in Hr' as [(_&<-&_)|[? _]].
  - split; (etrans; [apply Hget; [done|lia|lia]|done]).
  - etrans; [apply Hget; [done|lia|lia]|done].
  - etrans; [apply Hget; [done|lia|lia]|done].
  - change (has_bits (get_le 4 (set_le 4 (config d) PCI_ROM_ADDRESS 0) PCI_ROM_ADDRESS) PCI_ROM_ADDRESS_ENABLE = false).
    rewrite get_set_le by lia. done.
  - etrans; [|exact A4]. change (pci_get_byte (set_le 4 (config d) PCI_ROM_ADDRESS 0) PCI_HEADER_TYPE = pci_get_byte (config d) PCI_HEADER_TYPE).
    symmetry. apply get_byte_same; [|lia]. eapply same_at_sub; [|apply set_le_same; lia]. intros i Hi'. cbn. lia.
Qed.

(** *** Patching the identification *)

Definition byte_sum (b : list Z) : Z := foldr Z.add 0 b.

Lemma byte_sum_app a b : byte_sum (a ++ b) = byte_sum a + byte_sum b.
Proof. induction a as [|x a IH]; [done|]. unfold byte_sum in *. cbn. rewrite IH. lia. Qed.

Lemma byte_sum_byte b o v : 0 ≤ o < Z.of_nat (length b) →
  byte_sum (pci_set_byte b o v) = byte_sum b - pci_get_byte b o + u8 v.
Proof.
  intros Ho. destruct (lookup_lt_is_Some_2 b (Z.to_nat o)) as [x Hx]; [lia|]. unfold pci_get_byte, pci_set_byte. rewrite Hx.
  rewrite <- (take_drop_middle b (Z.to_nat o) x Hx) at 2. rewrite insert_take_drop by lia. rewrite !byte_sum_app. cbn. lia.
Qed.

Lemma byte_sum_word b o v : bytes_ok b → 0 ≤ o → o + 2 ≤ Z.of_nat (length b) →
  let w := pci_get_word b o in
  byte_sum (pci_set_word b o v) = byte_sum b - (u8 w + u8 (w >> 8)) + (u8 v + u8 (v >> 8)).
Proof.
  intros Hb Ho Hl w. assert (∀ x, byte_sum (le_bytes 2 x) = u8 x + u8 (x >> 8)) as E.
  { intros x. rewrite u8_shiftr by lia. unfold byte_sum, u8, wrap. cbn [le_bytes foldr]. change (2 ^ 8) with 256. lia. }
  assert (b = take (Z.to_nat o) b ++ le_bytes 2 w ++ drop (Z.to_nat o + 2) b) as Eb.
  { assert (length (take 2 (drop (Z.to_nat o) b)) = 2%nat) as Hlen by (rewrite length_take, length_drop; lia).
    unfold w, pci_get_word, get_le. rewrite <- Hlen at 1. rewrite le_bytes_val by auto with vf.
    rewrite <- drop_drop, take_drop, take_drop. done. }
  rewrite Eb at 2. unfold pci_set_word, set_le. rewrite !byte_sum_app, !E. lia.
Qed.

(** One of the two identifications: [old] was there, the checksum byte makes up for
    the difference. *)
Record patched (o new : Z) (rom rom' : list Z) : Prop := {
  pt_ok : bytes_ok rom';
  pt_len : length rom' = length rom;
  pt_sum : byte_sum rom' `mod` 256 = byte_sum rom `mod` 256;
  pt_word : pci_get_word rom' o = new;
  pt_same : same_at (λ i, i ≠ 6 ∧ ¬ (o ≤ i < o + 2)) rom rom';
}.

Lemma patch_word_spec rom o new :
  bytes_ok rom → 6 < o → o + 2 ≤ Z.of_nat (length rom) → 0 ≤ new < 65536 →
  let old := pci_get_word rom o in
  let ck := u8 (u8 (pci_get_byte rom 6 + (u8 old + u8 (old >> 8))) - (u8 new + u8 (new >> 8))) in
  let rom' := pci_set_word (pci_set_byte rom 6 ck) o new in
  patched o new rom rom' ∧ pci_get_byte rom' 6 = ck.
Proof.
  intros Hr Ho Hl Hn old ck rom'. pose proof (length_set_byte rom 6 ck) as Hl6.
  assert (0 ≤ ck < 256) as Hck by apply u8_range. split; [split|].
  - apply set_le_ok. by apply set_byte_ok.
  - unfold rom', pci_set_word. rewrite length_set_le; lia.
  - assert (pci_get_word (pci_set_byte rom 6 ck) o = old) as Eo.
    { symmetry. apply get_le_same; [lia|]. eapply same_at_sub; [|apply set_byte_same; lia]. cbn. lia. }
    unfold rom'. rewrite byte_sum_word by (try apply set_byte_ok; done || lia). rewrite Eo, byte_sum_byte by lia.
    rewrite (u8_small ck) by done. unfold ck, u8, wrap. change (2 ^ 8) with 256. Z.div_mod_to_equations. lia.
  - unfold rom', pci_get_word, pci_set_word. rewrite get_set_le by lia. apply Z.mod_small. lia.
  - apply (same_at_trans _ _ (pci_set_byte rom 6 ck)); [eapply same_at_sub; [|apply set_byte_same; lia]|eapply same_at_sub; [|apply set_le_same; rewrite ?length_set_byte; lia]]; cbn; lia.
  - transitivity (pci_get_byte (pci_set_byte rom 6 ck) 6).
    + symmetry. apply get_byte_same; [|lia]. eapply same_at_sub; [|apply set_le_same; rewrite ?length_set_byte; lia]. cbn. lia.
    + unfold pci_get_byte, pci_set_byte. rewrite list_lookup_insert_eq by lia. cbn. by rewrite u8_small.
Qed.

Lemma patched_id o new rom : bytes_ok rom → pci_get_word rom o = new → patched o new rom rom.
Proof. by split. Qed.

Lemma same_word P b b' o : same_at P b b' → 0 ≤ o → P o → P (o + 1) → pci_get_word b o = pci_get_word b' o.
Proof.
  intros Hs Ho H0 H1. apply get_le_same; [done|]. eapply same_at_sub; [|exact Hs]. cbn. intros i Hi.
  assert (i = o ∨ i = o + 1) as [->| ->] by lia; done.
Qed.

(** C18: a default option ROM that was built for another card, with its data structure
    behind byte 2: after patching it names this card's vendor and device, its bytes still add up to the same
    checksum, which the firmware of the guest verifies before it runs the ROM, and
    no other byte has changed. *)
Theorem rom_patched (d : PDev) rom size :
  let p := pci_get_word rom 0x18 in
  bytes_ok rom → size ≤ Z.of_nat (length rom) → bytes_ok (config d) → (256 ≤ length (config d))%nat →
  pci_get_word rom 0 = 0xaa55 → 2 < p → p + 8 < size → take 4 (drop (Z.to_nat p) rom) = [0x50; 0x43; 0x49; 0x52] →
  let rom' := pci_patch_ids d rom size in
  length rom' = length rom ∧ byte_sum rom' `mod` 256 = byte_sum rom `mod` 256 ∧
  pci_get_word rom' (p + 4) = pci_get_word (config d) PCI_VENDOR_ID ∧
  pci_get_word rom' (p + 6) = pci_get_word (config d) PCI_DEVICE_ID ∧
  same_at (λ i, i ≠ 6 ∧ ¬ (p + 4 ≤ i < p + 8)) rom rom'.
Proof.
  intros p Hr Hl Hc Hcl Hm Hp Hps Hsig. unfold pci_patch_ids. rewrite Hm. cbn [Z.eqb negb]. fold p.
  rewrite (bool_decide_true _ Hsig). replace (p + 8 >=? size) with false by (symmetry; rewrite Z.geb_leb; apply Z.leb_gt; lia).
  cbn [negb orb]. set (ven := pci_get_word (config d) PCI_VENDOR_ID). set (dev := pci_get_word (config d) PCI_DEVICE_ID).
  pose proof (get_le_range 2 (config d) PCI_VENDOR_ID Hc ltac:(lia) ltac:(lia)) as Hven.
  pose proof (get_le_range 2 (config d) PCI_DEVICE_ID Hc ltac:(lia) ltac:(lia)) as Hdev.
  fold (pci_get_word (config d) PCI_VENDOR_ID) ven in Hven. fold (pci_get_word (config d) PCI_DEVICE_ID) dev in Hdev.
  destruct (patch_word_spec rom (p + 4) ven) as [Hv1 Hv2]; [done|lia|lia|lia|].
  assert (∃ rom1, (if negb (ven =? pci_get_word rom (p + 4)) then _ else (rom, pci_get_byte rom 6)) = (rom1, pci_get_byte rom1 6) ∧
    patched (p + 4) ven rom rom1) as (rom1&->&H1).
  { case_match; [by eexists; split; [rewrite Hv2|exact Hv1]|]. exists rom. split; [done|]. apply patched_id; [done|].
    by apply negb_false_iff, Z.eqb_eq in H. }
  assert (pci_get_word rom (p + 6) = pci_get_word rom1 (p + 6)) as E6 by (eapply same_word; [apply H1|lia|cbn; lia..]).
  pose proof (pt_len _ _ _ _ H1) as Hl1. rewrite E6.
  destruct (patch_word_spec rom1 (p + 6) dev) as [Hd1 _]; [apply H1|lia|lia|lia|].
  match goal with |- context [length ?x = length rom] => assert (patched (p + 6) dev rom1 x) as H2 end.
  { destruct (Z.eqb_spec dev (pci_get_word rom1 (p + 6))) as [E|_]; cbn [negb]; [by apply patched_id; [apply H1|]|exact Hd1]. }
  cbv zeta. destruct H1 as [_ L1 S1 W1 A1], H2 as [_ L2 S2 W2 A2]. split_and!; [congruence|congruence| |done|].
  - rewrite <- W1. symmetry. eapply same_word; [exact A2|lia|cbn; lia..].
  - eapply same_at_trans; [eapply same_at_sub; [|exact A1]|eapply same_at_sub; [|exact A2]]; cbn; lia.
Qed.

(** ** Adding the card *)

Lemma card_add_wp s n b bus fn idx image rom_offset ram :
  devs s !! n = None → buses s !! b = Some bus → slot_free bus fn → image_ok image →
  wp (put_pdev n (new_pci_device fn);; pci_qdev_init n b idx image rom_offset ram) (λ r s', r.1 = 0 ∧
    ∃ d, s' = attach s n d bus ∧ fresh_dev s n d bus ∧ is_card d idx ∧ at_reset d ∧ dev_bus d = b ∧ devfn d = fn) s.
Proof.
  intros Hn Hb Hfree Himg. pose proof (slot_free_self _ _ Hfree) as Hself.
  destruct (card_init b fn idx) as (Ei&Hf1&Eb1&Ef1). destruct (card_is_card b fn idx) as [Hcard Hreset].
  destruct (option_rom_added _ idx image true rom_offset ram Hf1 Hcard Hreset Himg) as (d&ram'&Er&Hf&Hcd&Hrd&Eb&Ef).
  rewrite Eb1 in Eb. rewrite Ef1 in Ef. clear Hf1 Hcard Hreset Eb1 Ef1.
  apply wp_bind, wp_put_pdev. unfold pci_qdev_init. apply wp_bind. eapply wp_pdev; [apply set_dev_eq|].
  apply wp_bind. eapply wp_mono; [apply (register_wp _ n b bus fn); [done|done|apply set_dev_eq]|].
  intros ok s1 [-> ->]. cbn [negb]. apply wp_bind, (wp_pdev n (registered b fn)); [apply lookup_insert_eq|].
  rewrite Ei. apply wp_bind, wp_put_pdev. rewrite Er. apply wp_bind, wp_put_pdev, wp_ret.
  split; [done|]. exists d. split_and!; try assumption.
  - unfold attach, set_dev, update. cbn. rewrite Eb, Ef, !insert_insert_eq. done.
  - destruct Hf, Hfree. split; try assumption; rewrite ?Eb, ?Ef; [assumption|by split].
Qed.

(** A machine that creates the card in a free slot of a well-formed PCI system
    succeeds, with or without an option ROM of any size; nothing is mapped and no
    interrupt line changes, and the larger system is well-formed again: every region
    of every device is where its registers say, every line counts the raised
    pins that arrive at it, and the card is in its reset state. *)
Theorem card_added s n b bus fn idx image rom_offset ram :
  pci_ok s → coherent s → irq_sync s → Z.of_nat (size (devs s)) + 1 < 2 ^ 28 →
  devs s !! n = None → buses s !! b = Some bus → slot_free bus fn → image_ok image →
  wp (put_pdev n (new_pci_device fn);; pci_qdev_init n b idx image rom_offset ram) (λ r s', r.1 = 0 ∧
    pci_ok s' ∧ coherent s' ∧ irq_sync s' ∧ host s' = host s ∧
    (∀ m, m ≠ n → devs s' !! m = devs s !! m) ∧
    ∃ d, devs s' !! n = Some d ∧ is_card d idx ∧ at_reset d ∧ dev_bus d = b ∧ devfn d = fn) s.
Proof.
  intros Hok Hc Hsync Hfew Hn Hb Hfree Himg. eapply wp_mono; [by apply card_add_wp|].
  intros r s' (Hr&d&->&Hfd&Hcd&Hrd&Eb&Ef).
  split_and!; [exact Hr|by apply attach_ok|by apply attach_coherent|by apply attach_sync|done|..].
  - intros m Hm. cbn. by rewrite lookup_insert_ne.
  - exists d. split; [apply lookup_insert_eq|]. split_and!; assumption.
Qed.

(** ** Starting the card *)

(** What a write leaves in a register of [l] bytes. *)
Lemma written_value l addr val (d d1 : PDev) :
  masks_ok d → dev_dyn_ok d → written l addr val d d1 → 0 ≤ addr → 0 < l → addr + l ≤ 256 →
  get_le (Z.to_nat l) (w1cmask d) addr = 0 →
  let wm := get_le (Z.to_nat l) (wmask d) addr in
  get_le (Z.to_nat l) (config d1) addr = (val .& wm) .| (get_le (Z.to_nat l) (config d) addr .& .~ wm).
Proof.
  intros Hm Hdyn Hw Ha Hl Hal Hc wm. apply Z.bits_inj'. intros k Hk.
  pose proof (written_dyn _ _ _ _ _ Hm Hdyn Hw) as Hdyn1. pose proof (config_size_pos d) as Hsz.
  rewrite Z.lor_spec, !Z.land_spec, Z.lnot_spec by done.
  assert (∀ b, bytes_ok b → length b = Z.to_nat (pci_config_size d) → 8 * l ≤ k →
    Z.testbit (get_le (Z.to_nat l) b addr) k = false) as Hhigh.
  { intros b Hb Hlen Hlk. apply (in_w_testbit (8 * l)); [lia| |lia]. unfold in_w.
    pose proof (get_le_range (Z.to_nat l) b addr Hb Ha ltac:(lia)) as Hr. rewrite Z2Nat.id in Hr by lia.
    change 256 with (2 ^ 8) in Hr. by rewrite <- Z.pow_mul_r in Hr by lia. }
  destruct (decide (k < 8 * l)) as [Hlt|Hge].
  - rewrite (written_bit l addr val d d1 k), Hc, Z.bits_0 by (done || lia). fold wm.
    destruct (Z.testbit wm k); by rewrite ?andb_false_r, ?andb_true_r, ?orb_false_r.
  - unfold wm. rewrite (Hhigh (wmask d)), (Hhigh (config d)), (Hhigh (config d1)) by
      (lia || apply Hm || apply Hdyn || apply Hdyn1 || by rewrite (wr_len _ _ _ _ _ Hw), (do_len _ Hdyn)).
    by rewrite andb_false_r.
Qed.

(** Where a region stays, nothing is called. *)
Lemma mapping_stays s n (d : PDev) i r (Q : unit → PSys → Prop) :
  devs s !! n = Some d → io_regions d !! i = Some r →
  (r_size r ≠ 0 → region_target s d i r = Some (r_addr r, r_filtered_size r)) → Q () s →
  wp (pci_update_mapping n i) Q s.
Proof.
  intros Hd Hi Ht HQ. unfold pci_update_mapping. apply wp_bind, (wp_pdev n d); [done|].
  apply wp_bind. eapply wp_oob; [exact Hi|]. destruct (Z.eqb_spec (r_size r) 0) as [|Hz]; [by apply wp_ret|].
  apply wp_bind, wp_gets, wp_bind. eapply wp_follow; [by apply Ht|]. cbv iota beta.
  rewrite !Z.eqb_refl. cbn [andb]. by apply wp_ret.
Qed.

(** A region that gets a place. *)
Lemma mapping_appears s n (d : PDev) i r b f a z (Q : unit → PSys → Prop) :
  devs s !! n = Some d → io_regions d !! i = Some r → r_size r ≠ 0 → r_addr r = PCI_BAR_UNMAPPED →
  region_target s d i r = Some (a, z) → a ≠ PCI_BAR_UNMAPPED → buses s !! dev_bus d = Some b → r_map_func r = Some f →
  let r' := r <| r_addr := a |> <| r_filtered_size := z |> in
  Q () (set_dev s n (d <| io_regions ::= <[i := r']> |>)
    <| host ::= λ h, h ++ map_func_calls f (Z.of_nat i) (region_map_addr b r') z (r_type r) |>) →
  wp (pci_update_mapping n i) Q s.
Proof.
  intros Hd Hi Hz Hu Ht Ha Hb Hf r' HQ. unfold pci_update_mapping. apply wp_bind, (wp_pdev n d); [done|].
  apply wp_bind. eapply wp_oob; [exact Hi|]. destruct (Z.eqb_spec (r_size r) 0) as [|_]; [done|].
  apply wp_bind, wp_gets, wp_bind. eapply wp_follow; [exact Ht|]. cbv iota beta. rewrite Hu.
  destruct (Z.eqb_spec a PCI_BAR_UNMAPPED) as [|_]; [done|]. cbn [andb].
  apply wp_bind, (wp_pbus _ b); [done|]. apply wp_bind, wp_modify, wp_bind, wp_modify. fold r'. cbv zeta.
  change (r_addr r') with a. destruct (Z.eqb_spec a PCI_BAR_UNMAPPED) as [|_]; [done|].
  apply wp_bind. eapply wp_follow; [exact Hf|]. apply wp_modify.
  unfold region_unmap. rewrite Hu. revert HQ. unfold set_dev, update. cbn. by rewrite app_nil_r.
Qed.

Lemma mappings_stay s n (d : PDev) l (Q : unit → PSys → Prop) :
  devs s !! n = Some d → (∀ i, i ∈ l → (i < length (io_regions d))%nat) →
  (∀ i r, i ∈ l → io_regions d !! i = Some r → r_size r ≠ 0 →
    region_target s d i r = Some (r_addr r, r_filtered_size r)) → Q () s →
  wp (for_each (pci_update_mapping n) l) Q s.
Proof.
  intros Hd Hl Hall HQ. eapply wp_mono; [apply (wp_for_each _ _ (λ _ s', s' = s)); [done|]|by intros [] ? ->].
  intros pre i rest s' El ->. assert (i ∈ l) as Hi by (rewrite El; set_solver).
  destruct (lookup_lt_is_Some_2 (io_regions d) i) as [r Hr]; [by apply Hl|].
  apply (mapping_stays s n d i r); try done. intros Hz. by apply Hall.
Qed.

(** The card is off: no region has a place. *)
Definition off (d : PDev) : Prop := pci_get_byte (config d) PCI_COMMAND .& 3 = 0.

Lemma off_unmapped s n d i r :
  coherent s → devs s !! n = Some d → off d → io_regions d !! i = Some r → r_size r ≠ 0 →
  r_addr r = PCI_BAR_UNMAPPED ∧ r_filtered_size r = r_size r.
Proof.
  intros Hc Hd Ho Hi Hz. pose proof (Hc n d i r Hd Hi Hz) as Ht. unfold region_target in Ht.
  rewrite bar_address_quiet in Ht by done. cbn in Ht. by injection Ht as <- <-.
Qed.

(** While it is off, a write to another register than the command register is only
    that. *)
Lemma off_write s n d addr val l (Q : unit → PSys → Prop) :
  pci_ok s → coherent s → devs s !! n = Some d → sec_bus d = None → off d →
  PCI_COMMAND < addr → addr + l ≤ 256 → 1 ≤ l ≤ 4 →
  (∀ d1, written l addr val d d1 → off d1 → pci_ok (set_dev s n d1) → coherent (set_dev s n d1) → Q () (set_dev s n d1)) →
  wp (config_write n addr val l) Q s.
Proof.
  intros Hok Hc Hd Hsec Ho Ha Hal Hl HQ. pose proof (po_static _ Hok) as Hs. pose proof (po_dyn _ Hok _ _ Hd) as Hdyn.
  destruct (ok_dev s Hs _ _ Hd) as (Hst&_). pose proof (so_masks _ Hst) as Hm.
  unfold config_write. apply wp_bind, (wp_pdev n d); [done|]. rewrite Hsec.
  unfold pci_default_write_config. apply wp_bind, (wp_pdev n d); [done|]. cbv zeta.
  apply wp_bind. eapply wp_mono; [apply write_config_loop_wp; done || lia|].
  intros d1 ? [-> Hw]. rewrite Z2Nat.id in Hw by lia. pose proof (wr_rest _ _ _ _ _ Hw) as E1.
  assert (io_regions d1 = io_regions d) as Er by (by rewrite E1).
  assert (off d1) as Ho1.
  { unfold off. rewrite <- Ho. f_equal. symmetry. apply get_byte_same; [|lia].
    eapply same_at_sub; [|by eapply written_same]. cbn. lia. }
  assert (∀ i r, io_regions d1 !! i = Some r → r_size r ≠ 0 →
    region_target (set_dev s n d1) d1 i r = Some (r_addr r, r_filtered_size r)) as Ht.
  { intros i r Hi Hz. rewrite Er in Hi. destruct (off_unmapped s n d i r Hc Hd Ho Hi Hz) as [-> ->].
    unfold region_target. by rewrite bar_address_quiet. }
  rewrite (covers_byte addr l PCI_COMMAND) by lia. rewrite bool_decide_eq_false_2 by lia.
  assert (Q () (set_dev s n d1)) as HQ1.
  { apply HQ; [done..| |].
    - eapply set_dev_ok; [done|by eapply written_static|done|by eapply written_dyn].
    - intros m. destruct (decide (m = n)) as [->|].
      + intros x i r Hx. rewrite set_dev_eq in Hx. apply (inj Some) in Hx as <-. apply Ht.
      + eapply set_dev_coherent_ne; [done|by eapply written_static|done|done| |apply Hc].
        intros x Hx Hfd. destruct (feeds_sec s n _ Hs Hfd) as (y&j&Hy&Hj&_). congruence. }
  apply wp_bind, wp_put_pdev, wp_bind. cbv iota. case_match; [|apply wp_ret; by apply wp_ret].
  apply (mappings_stay _ n d1); [apply set_dev_eq| |by auto|by apply wp_ret].
  intros i Hi%elem_of_seq. rewrite Er, (so_regions _ Hst). lia.
Qed.

(** *** Turning it on *)

Lemma aligned_masked w a :
  0 ≤ w → 0 ≤ a < 2 ^ (17 + w) → a `mod` PNPMMIO_SIZE = 0 → a .& (Z.ones w << 17) = a.
Proof.
  intros Hw Ha Hm. assert (a = Z.shiftl (a / 2 ^ 17) 17) as E.
  { rewrite Z.shiftl_mul_pow2 by lia. pose proof (Z.div_mod a (2 ^ 17)). change PNPMMIO_SIZE with (2 ^ 17) in Hm. lia. }
  rewrite E at 1. rewrite <- Z.shiftl_land, Z.land_ones, Z.mod_small; [done| |lia].
  split; [apply Z.div_pos; lia|apply Z.div_lt_upper_bound; [lia|]].
  rewrite <- Z.pow_add_r by lia. lia.
Qed.

Lemma bar0_target s (d : PDev) r bus a :
  r_type r = PCI_BASE_ADDRESS_SPACE_MEMORY → r_size r = PNPMMIO_SIZE →
  has_bits (pci_get_word (config d) PCI_COMMAND) PCI_COMMAND_MEMORY = true →
  pci_get_long (config d) PCI_BASE_ADDRESS_0 = a → 0 < a → a `mod` PNPMMIO_SIZE = 0 → a + PNPMMIO_SIZE < 2 ^ 32 →
  buses s !! dev_bus d = Some bus → parent_dev bus = None →
  region_target s d 0 r = Some (a, PNPMMIO_SIZE).
Proof.
  intros Ht Hz Hcmd Hbar H0 Hmod Hlt Hb Hp. unfold region_target, PNPMMIO_SIZE in *. rewrite Ht, Hz.
  assert (pci_bar_address d (Z.of_nat 0) PCI_BASE_ADDRESS_SPACE_MEMORY 0x20000 = a) as ->.
  { unfold pci_bar_address. rewrite Hcmd. change (has_bits PCI_BASE_ADDRESS_SPACE_MEMORY ?m) with false.
    change (pci_bar d (Z.of_nat 0)) with PCI_BASE_ADDRESS_0. rewrite Hbar. cbn [negb andb Z.of_nat Z.eqb].
    change (u64 (.~ (u64 (0x20000 - 1)))) with (Z.ones 47 << 17).
    rewrite aligned_masked by (done || unfold PNPMMIO_SIZE; lia). rewrite u64_small by lia.
    destruct (Z.leb_spec (a + 0x20000 - 1) a); [lia|]. destruct (Z.eqb_spec a 0); [lia|].
    destruct (Z.eqb_spec (a + 0x20000 - 1) PCI_BAR_UNMAPPED); [lia|]. cbn [orb].
    rewrite !Z.geb_leb. destruct (Z.leb_spec UINT32_MAX (a + 0x20000 - 1)); [lia|].
    destruct (Z.leb_spec TARGET_PHYS_ADDR_MAX (a + 0x20000 - 1)); [lia|]. done. }
  destruct (Z.eqb_spec a PCI_BAR_UNMAPPED); [lia|]. cbn [negb]. unfold pci_bridge_filter. cbn [bridge_filter_loop].
  rewrite Hb. cbn [mbind option_bind]. rewrite Hp, u64_small by lia. cbn [mbind option_bind]. rewrite Z.gtb_ltb.
  destruct (Z.ltb_spec (a + 0x20000 - 1) a); [lia|]. rewrite u64_small by lia. do 2 f_equal. lia.
Qed.

Lemma command_off (d : PDev) : pci_get_word (config d) PCI_COMMAND = 0 → off d.
Proof.
  intros E. apply (has_bits_false _ 3). rewrite <- has_bits_word, E by lia. done.
Qed.

(** With memory decoding on, the other regions have no place: the second is I/O, the
    third to sixth do not exist, and the ROM is not enabled. *)
Lemma card_rest_off (d : PDev) i (r : PCIIORegion map_fn) :
  pci_get_word (config d) PCI_COMMAND = PCI_COMMAND_MEMORY → (1 ≤ i < 7)%nat →
  (i = 1%nat → r_type r = PCI_BASE_ADDRESS_SPACE_IO) → ((1 < i < 6)%nat → r_size r = 0) →
  (i = 6%nat → r_type r = 0) → pci_get_byte (config d) PCI_HEADER_TYPE = 0 →
  has_bits (pci_get_long (config d) PCI_ROM_ADDRESS) PCI_ROM_ADDRESS_ENABLE = false → r_size r ≠ 0 →
  pci_bar_address d (Z.of_nat i) (r_type r) (r_size r) = PCI_BAR_UNMAPPED.
Proof.
  intros Hcmd Hi H1 Hn H6 Hh Hrom Hz. destruct (decide (i = 1%nat)) as [->|].
  - unfold pci_bar_address. by rewrite H1, Hcmd.
  - destruct (decide (i = 6%nat)) as [->|]; [|exfalso; apply Hz, Hn; lia].
    unfold pci_bar_address, pci_bar. rewrite H6, Hcmd, Hh by done. change (Z.of_nat 6 =? PCI_ROM_SLOT) with true. cbn [negb].
    change (0 .& .~ PCI_HEADER_TYPE_MULTI_FUNCTION =? PCI_HEADER_TYPE_BRIDGE) with false.
    change (has_bits 0 ?m) with false. cbv zeta iota. by rewrite Hrom.
Qed.

Section started.
Context (s : PSys) (n : nat) (d : PDev) (idx a : Z) (bus : PCIBus).
Context (Hok : pci_ok s) (Hc : coherent s) (Hd : devs s !! n = Some d) (Hcard : is_card d idx).
Context (Hb : buses s !! dev_bus d = Some bus) (Hroot : parent_dev bus = None) (Hbase : mem_base bus = 0).
Context (Ha0 : 0 < a) (Hmod : a `mod` PNPMMIO_SIZE = 0) (Hlt : a + PNPMMIO_SIZE < 2 ^ 32).

Lemma command_write_maps :
  pci_get_word (config d) PCI_COMMAND = 0 → pci_get_long (config d) PCI_BASE_ADDRESS_0 = a →
  pci_get_byte (config d) PCI_HEADER_TYPE = 0 →
  has_bits (pci_get_long (config d) PCI_ROM_ADDRESS) PCI_ROM_ADDRESS_ENABLE = false →
  wp (config_write n PCI_COMMAND PCI_COMMAND_MEMORY 2) (λ _ s',
    host s' = host s ++ cpu_register_physical_memory a PNPMMIO_SIZE idx ::
                        map (λ r, qemu_register_coalesced_mmio r.1 r.2) (e1000_mmio_map a)) s.
Proof using All.
  intros Hcmd Hbar Hhdr Hrom. pose proof (po_static _ Hok) as Hs. pose proof (po_dyn _ Hok _ _ Hd) as Hdyn.
  destruct (ok_dev s Hs _ _ Hd) as (Hst&_). pose proof (so_masks _ Hst) as Hm.
  destruct Hcard as [(r0&Hr0&Hz0&Ht0&Hf0) (r1&Hr1&Ht1) Hnone Hr6 Hsec [_ Wc] [_ Cc]].
  unfold config_write. apply wp_bind, (wp_pdev n d); [done|]. rewrite Hsec.
  unfold pci_default_write_config. apply wp_bind, (wp_pdev n d); [done|]. cbv zeta.
  apply wp_bind. eapply wp_mono; [apply write_config_loop_wp; done || lia|].
  intros d1 ? [-> Hw]. change (Z.of_nat (Z.to_nat 2)) with 2 in Hw. pose proof (wr_rest _ _ _ _ _ Hw) as E1.
  pose proof (written_same _ _ _ _ _ Hm Hdyn Hw) as Hsame.
  assert (pci_get_word (config d1) PCI_COMMAND = 2) as Hcmd1.
  { pose proof (written_value 2 PCI_COMMAND _ d d1 Hm Hdyn Hw ltac:(lia) ltac:(lia) ltac:(lia) Cc) as E.
    cbv zeta in E. change (Z.to_nat 2) with 2%nat in E. unfold pci_get_word in *. by rewrite E, Wc, Hcmd. }
  assert (∀ j off, PCI_COMMAND + 2 ≤ off → get_le j (config d1) off = get_le j (config d) off) as Hget.
  { intros j off Hoff. symmetry. apply get_le_same; [lia|]. eapply same_at_sub; [|exact Hsame]. cbn. lia. }
  destruct (off_unmapped s n d 0 r0 Hc Hd (command_off _ Hcmd) Hr0) as [Hu0 _]; [by rewrite Hz0|].
  apply wp_bind, wp_put_pdev, wp_bind. change (touches_maps PCI_COMMAND 2) with true. cbv iota.
  change (range_covers_byte PCI_COMMAND 2 PCI_COMMAND) with true. cbv iota.
  change (pci_update_mappings n) with (pci_update_mapping n 0;; for_each (pci_update_mapping n) (seq 1 6)).
  assert (io_regions d1 = io_regions d ∧ dev_bus d1 = dev_bus d) as [Er1 Eb1] by (by rewrite E1).
  apply wp_bind, (mapping_appears _ n d1 0 r0 bus (FN_e1000_mmio_map idx) a PNPMMIO_SIZE);
    [apply set_dev_eq|by rewrite Er1|by rewrite Hz0|done| |unfold PNPMMIO_SIZE in *; lia|by rewrite Eb1|done|].
  { apply (bar0_target _ d1 r0 bus); try done; [by rewrite Hcmd1|by unfold pci_get_long; rewrite Hget|by rewrite Eb1]. }
  set (s2 := set_dev _ _ _ <| host ::= _ |>). set (d2 := d1 <| io_regions ::= _ |>) in s2.
  assert (devs s2 !! n = Some d2) as Hd2 by apply lookup_insert_eq.
  apply (mappings_stay s2 n d2); [done| | |].
  - intros i Hi%elem_of_seq. unfold d2. cbn. rewrite length_insert, Er1, (so_regions _ Hst). lia.
  - intros i r Hi%elem_of_seq Hr Hz. unfold d2 in Hr. cbn in Hr. rewrite list_lookup_insert_ne, Er1 in Hr by lia.
    destruct (off_unmapped s n d i r Hc Hd (command_off _ Hcmd) Hr Hz) as [-> ->].
    unfold region_target. rewrite (card_rest_off d2 i r); [done|done|lia|..].
    + intros ->. rewrite Hr1 in Hr. by apply (inj Some) in Hr as <-.
    + intros Hi'. by apply (Hnone i).
    + intros ->. by apply Hr6.
    + by rewrite <- Hhdr; symmetry; apply get_byte_same; [eapply same_at_sub; [|exact Hsame]; cbn; lia|lia].
    + change (config d2) with (config d1). unfold pci_get_long. by rewrite Hget.
    + done.
  - unfold pci_update_irq_disabled. apply wp_bind, (wp_pdev n d2); [done|]. unfold pci_irq_disabled.
    change (config d2) with (config d1). rewrite Hcmd, Hcmd1. cbn [Bool.eqb]. apply wp_ret.
    unfold s2. cbn -[e1000_mmio_map]. unfold region_map_addr, pci_to_cpu_addr. cbn -[e1000_mmio_map].
    rewrite Ht0, Hbase, Z.add_0_r, u64_small by (unfold PNPMMIO_SIZE in *; lia). done.
Qed.
End started.

(** *** From the configuration ports *)

Definition cfg_addr (fn reg : Z) : Z := 0x80000000 + fn * 256 + reg.

(** The usual start-up of a guest: find the size of the first region, place it at
    [a], and turn memory decoding on. *)
Definition guest_start (fn a : Z) : M (PCIHostState * PSys) Z :=
  do_act (port_config_write 0 (cfg_addr fn PCI_BASE_ADDRESS_0) 4);;
  do_act (port_data_write 0 0xffffffff 4);;
  h ← gets fst;
  v ← zoom snd (λ s t, (t.1, s)) (pci_host_data_read h 0 4);
  do_act (port_data_write 0 a 4);;
  do_act (port_config_write 0 (cfg_addr fn PCI_COMMAND) 4);;
  do_act (port_data_write 0 PCI_COMMAND_MEMORY 2);;
  mret v.

Lemma cfg_addr_fields fn reg : 0 ≤ fn < 256 → 0 ≤ reg < 256 →
  has_bits (cfg_addr fn reg) (1 << 31) = true ∧ u8 (cfg_addr fn reg >> 16) = 0 ∧ u8 (cfg_addr fn reg >> 8) = fn ∧
  cfg_addr fn reg .& (PCI_CONFIG_SPACE_SIZE - 1) = reg.
Proof.
  intros Hf Hr. unfold cfg_addr, u8, wrap. rewrite !Z.shiftr_div_pow2 by lia.
  change (PCI_CONFIG_SPACE_SIZE - 1) with (Z.ones 8). rewrite Z.land_ones by lia. split_and!.
  - apply has_bits_true. rewrite Z.shiftl_1_l. intros E. assert (Z.testbit (0x80000000 + fn * 256 + reg) 31 = true) as Hb.
    { apply Z.testbit_true; [lia|]. rewrite <- (Z.div_unique (0x80000000 + fn * 256 + reg) (2 ^ 31) 1 (fn * 256 + reg)); [done|lia..]. }
    assert (Z.testbit ((0x80000000 + fn * 256 + reg) .& 2 ^ 31) 31 = true); [|by rewrite E in *].
    by rewrite Z.land_spec, Hb, Z.pow2_bits_true by lia.
  - rewrite <- (Z.div_unique (0x80000000 + fn * 256 + reg) (2 ^ 16) 0x8000 (fn * 256 + reg)); [done|lia..].
  - rewrite <- (Z.div_unique (0x80000000 + fn * 256 + reg) (2 ^ 8) (0x800000 + fn) reg) by lia. symmetry. apply (Z.mod_unique _ _ 0x8000); lia.
  - symmetry. apply (Z.mod_unique _ _ (0x800000 + fn)); lia.
Qed.

Lemma found_by_addr (s : PSys) b bus fn reg n :
  buses s !! b = Some bus → parent_dev bus = None → 0 ≤ fn < 256 → 0 ≤ reg < 256 →
  devices bus !! Z.to_nat fn = Some (Some n) → pci_dev_find_by_addr s b (cfg_addr fn reg) = Some (Some n).
Proof.
  intros Hb Hp Hf Hr Hn. destruct (cfg_addr_fields fn reg Hf Hr) as (_&E1&E2&_).
  unfold pci_dev_find_by_addr, pci_find_device, pci_find_bus, pci_bus_num. rewrite E1, E2, Hb.
  cbn [mbind option_bind]. rewrite Hp. cbn [mbind option_bind Z.eqb]. rewrite Hb. cbn [mbind option_bind].
  by rewrite devfn_roundtrip.
Qed.

Lemma port_write_wp h (s : PSys) fn reg val len n bus (Q : unit → PCIHostState * PSys → Prop) :
  config_reg h = cfg_addr fn reg → buses s !! host_bus h = Some bus → parent_dev bus = None →
  0 ≤ fn < 256 → 0 ≤ reg < 256 → devices bus !! Z.to_nat fn = Some (Some n) →
  wp (config_write n reg val len) (λ u s', Q u (h, s')) s → wp (do_act (port_data_write 0 val len)) Q (h, s).
Proof.
  intros Er Hb Hp Hf Hr Hn Hw. destruct (cfg_addr_fields fn reg Hf Hr) as (E1&_&_&E4).
  cbn [do_act]. apply wp_bind, wp_gets, wp_zoom. cbn [fst snd]. unfold pci_host_data_write.
  rewrite Er, E1, Z.land_0_l, Z.lor_0_r. unfold pci_data_write. apply wp_bind, wp_gets, wp_bind.
  eapply wp_follow; [by eapply found_by_addr|]. by rewrite E4.
Qed.

Lemma port_read_wp h (s : PSys) fn reg len n bus (Q : Z → PCIHostState * PSys → Prop) :
  config_reg h = cfg_addr fn reg → buses s !! host_bus h = Some bus → parent_dev bus = None →
  0 ≤ fn < 256 → 0 ≤ reg < 256 → devices bus !! Z.to_nat fn = Some (Some n) → len = 1 ∨ len = 2 ∨ len = 4 →
  wp (pci_default_read_config n reg len) (λ v s', Q v (h, s')) s →
  wp (zoom snd (λ s t, (t.1, s)) (pci_host_data_read h 0 len)) Q (h, s).
Proof.
  intros Er Hb Hp Hf Hr Hn Hl Hw. destruct (cfg_addr_fields fn reg Hf Hr) as (E1&_&_&E4).
  apply wp_zoom. cbn [fst snd]. unfold pci_host_data_read. rewrite Er, E1, Z.land_0_l, Z.lor_0_r. cbn [negb].
  unfold pci_data_read. apply wp_bind, wp_gets, wp_bind. eapply wp_follow; [by eapply found_by_addr|].
  replace ((len =? 1) || (len =? 2) || (len =? 4)) with true by (by destruct Hl as [->|[->| ->]]). cbn [negb].
  by rewrite E4.
Qed.

Lemma written_is_card l addr val d d1 idx : written l addr val d d1 → is_card d idx → is_card d1 idx.
Proof. intros Hw []. rewrite (wr_rest _ _ _ _ _ Hw). by split. Qed.

(** The registers that starting the card does not write. *)
Lemma written_at_reset val (d d1 : PDev) :
  masks_ok d → dev_dyn_ok d → written 4 PCI_BASE_ADDRESS_0 val d d1 →
  pci_get_word (config d1) PCI_COMMAND = pci_get_word (config d) PCI_COMMAND ∧
  pci_get_byte (config d1) PCI_HEADER_TYPE = pci_get_byte (config d) PCI_HEADER_TYPE ∧
  pci_get_long (config d1) PCI_ROM_ADDRESS = pci_get_long (config d) PCI_ROM_ADDRESS.
Proof.
  intros Hm Hdyn Hw. pose proof (written_same _ _ _ _ _ Hm Hdyn Hw) as Hs.
  split_and!; symmetry; (apply get_le_same || apply get_byte_same); try lia;
    (eapply same_at_sub; [|exact Hs]); cbn; lia.
Qed.

Lemma bar0_written val (d d1 : PDev) idx :
  masks_ok d → dev_dyn_ok d → is_card d idx → written 4 PCI_BASE_ADDRESS_0 val d d1 →
  pci_get_long (config d1) PCI_BASE_ADDRESS_0 =
    (val .& 0xfffe0000) .| (pci_get_long (config d) PCI_BASE_ADDRESS_0 .& .~ 0xfffe0000).
Proof.
  intros Hm Hdyn [_ _ _ _ _ [W _] [C _]] Hw.
  pose proof (written_value 4 PCI_BASE_ADDRESS_0 val d d1 Hm Hdyn Hw ltac:(lia) ltac:(lia) ltac:(lia) C) as E.
  cbv zeta in E. change (Z.to_nat 4) with 4%nat in E. by rewrite W in E.
Qed.

(** C14: a guest that uses the configuration ports as system software does starts the
    card: it writes ones to the first base address register and reads back the size
    of the register window, writes an address and turns memory decoding on. Exactly
    then one request reaches the memory system: the window is mapped at that
    address to the card's register functions, with the register ranges whose
    writes may be batched; nothing else is mapped or unmapped, and the system stays
    well-formed with every region in place. *)
Theorem card_started h s n d bus idx a :
  pci_ok s → coherent s → devs s !! n = Some d → is_card d idx → at_reset d →
  dev_bus d = host_bus h → buses s !! host_bus h = Some bus → parent_dev bus = None → mem_base bus = 0 →
  0 < a → a `mod` PNPMMIO_SIZE = 0 → a + PNPMMIO_SIZE < 2 ^ 32 →
  wp (guest_start (devfn d) a) (λ v t, v = 2 ^ 32 - PNPMMIO_SIZE ∧ pci_ok t.2 ∧ coherent t.2 ∧
    host t.2 = host s ++ cpu_register_physical_memory a PNPMMIO_SIZE idx ::
                         map (λ r, qemu_register_coalesced_mmio r.1 r.2) (e1000_mmio_map a)) (h, s).
Proof.
  intros Hok Hc Hd Hcard [A1 A2 A3 A4] Eb Hb Hp Hbase H0 Hmod Hlt.
  destruct (ok_dev s (po_static _ Hok) _ _ Hd) as (Hst&Hfn&bus'&Hb'&Hslot). rewrite Eb, Hb in Hb'.
  apply (inj Some) in Hb' as <-. pose proof (so_masks _ Hst) as Hm. pose proof (po_dyn _ Hok _ _ Hd) as Hdyn.
  unfold guest_start. apply wp_bind, wp_modify. set (h1 := pci_host_config_write _ _ _ _).
  apply wp_bind. eapply port_write_wp; [reflexivity|done|done|done|lia|done|].
  apply (off_write s n d); try done; [apply Hcard|by apply command_off|]. intros d1 Hw1 Ho1 Hok1 Hc1.
  pose proof (set_dev_eq s n d1) as Hd1. set (s1 := set_dev s n d1) in *.
  pose proof (bar0_written _ _ _ _ Hm Hdyn Hcard Hw1) as B1. rewrite A2 in B1. cbn in B1.
  destruct (written_at_reset _ _ _ Hm Hdyn Hw1) as (R1&R2&R3).
  apply wp_bind, wp_gets, wp_bind. eapply port_read_wp; [reflexivity|done|done|done|lia|done|auto|].
  eapply wp_mono; [apply (pci_default_read_config_wp s1 n d1); [done|done|lia|auto]|]. intros v ? [-> ->].
  apply wp_bind. eapply port_write_wp; [reflexivity|done|done|done|lia|done|].
  destruct (ok_dev s1 (po_static _ Hok1) _ _ Hd1) as (Hst1&_). pose proof (so_masks _ Hst1) as Hm1.
  pose proof (po_dyn _ Hok1 _ _ Hd1) as Hdyn1. pose proof (written_is_card _ _ _ _ _ _ Hw1 Hcard) as Hcard1.
  apply (off_write s1 n d1); try done; [apply Hcard1|]. intros d2 Hw2 Ho2 Hok2 Hc2.
  pose proof (set_dev_eq s1 n d2) as Hd2. set (s2 := set_dev s1 n d2) in *.
  pose proof (bar0_written _ _ _ _ Hm1 Hdyn1 Hcard1 Hw2) as B2. rewrite B1 in B2.
  destruct (written_at_reset _ _ _ Hm1 Hdyn1 Hw2) as (S1&S2&S3).
  assert (dev_bus d2 = host_bus h) as Eb2.
  { rewrite (wr_rest _ _ _ _ _ Hw2). cbn. rewrite (wr_rest _ _ _ _ _ Hw1). done. }
  apply wp_bind, wp_modify, wp_bind. eapply port_write_wp; [reflexivity|done|done|done|lia|done|].
  eapply wp_mono; [apply wp_and|].
  - apply (command_write_maps s2 n d2 idx a bus); try done.
    + by eapply written_is_card.
    + by rewrite Eb2.
    + congruence.
    + rewrite B2. change 0xfffe0000 with (Z.ones 15 << 17) at 1.
      rewrite aligned_masked by (done || unfold PNPMMIO_SIZE in *; lia). apply Z.lor_0_r.
    + congruence.
    + congruence.
  - apply (config_write_wp s2 n d2); done || lia.
  - intros [] s3 [Hh [_ Hok3 Hc3]]. apply wp_ret. cbn [snd]. split_and!; [|done|intros m; apply Hc3, Hc2|done].
    rewrite Z.min_l by (pose proof (config_size_pos d1); lia). exact B1.
Qed.
