(* ===== verification/PciMachine.v ===== *)
(** * The life of a PCI system

    Everything that happens to the PCI system of a machine with these network cards: the
    guest's accesses, interrupts, resets, and cards and bridges that come and go.
    From the bus a machine starts with, whatever the order, the system stays
    well-formed and no operation fails. *)

From S2P Require Import Prelude Bytes Pci PciSpec PciInv PciCfg PciReset PciGuest PciIrq PciAdd PciHot E1000Pci.

Abbreviation Machine := (PCIHostState * PciSys map_fn)%type.

Inductive event :=
| access (a : pci_act)
| add_card (n b : nat) (fn idx : Z) (image : option (list Z)) (rom_offset : Z) (ram : list Z)
| add_bridge (n b : nat) (fn : Z) (map_irq_ : Z → Z → Z)
| remove (n : nat).

Definition run_event (e : event) : M Machine Z :=
  let on_sys {A} (m : M (PciSys map_fn) A) : M Machine A := zoom snd (λ s t, (t.1, s)) m in
  match e with
  | access a => do_act a;; mret 0
  | add_card n b fn idx image rom_offset ram =>
      r ← on_sys (put_pdev n (new_pci_device fn);; pci_qdev_init n b idx image rom_offset ram); mret r.1
  | add_bridge n b fn map_irq_ => on_sys (put_pdev n (new_pci_device fn);; pci_qdev_init_bridge n b map_irq_)
  | remove n => on_sys (pci_unregister_device n)
  end.

(** When an event can happen: a slot is free, a device is there, and a bridge goes
    only after what is behind it. *)
Definition enabled (s : PciSys map_fn) (e : event) : Prop :=
  match e with
  | access a => act_ok s a
  | add_card n b fn idx image rom_offset ram =>
      devs s !! n = None ∧ image_ok image ∧ ∃ bus, buses s !! b = Some bus ∧ slot_free bus fn
  | add_bridge n b fn map_irq_ =>
      devs s !! n = None ∧ (∀ fn i, 0 ≤ fn < 256 → 0 ≤ i < 4 → 0 ≤ map_irq_ fn i < 4) ∧
      ∃ bus, buses s !! b = Some bus ∧ slot_free bus fn
  | remove n => ∃ d, devs s !! n = Some d ∧ nothing_behind s d
  end.

Definition machine_step (t t' : Machine) : Prop := ∃ e r, enabled t.2 e ∧ run_event e t = Ret r t'.

(** The machine before its first device: the host bridge's bus only. *)
Definition powered_on (map_irq_ : Z → Z → Z) (devfn_min_ : Z) (t : Machine) : Prop :=
  host_bus t.1 = 0%nat ∧ pci_register_bus map_irq_ devfn_min_ 4 empty_sys = Ret 0%nat t.2.

Record machine_ok (t : Machine) : Prop := {
  mk_ok : pci_ok t.2;
  mk_coherent : coherent t.2;
  mk_host : ∃ bus, buses t.2 !! host_bus t.1 = Some bus ∧ parent_dev bus = None;
}.

Lemma host_kept (h : PCIHostState) (s s' : PciSys map_fn) bus :
  statics s' = statics s → buses s !! host_bus h = Some bus → parent_dev bus = None →
  ∃ bus', buses s' !! host_bus h = Some bus' ∧ parent_dev bus' = None.
Proof.
  intros E Hb Hp. destruct (statics_eq_bus s' s _ _ (eq_sym E) Hb) as (b'&Hb'&Eb). exists b'. split; [done|].
  apply (f_equal parent_dev) in Eb. cbn in Eb. congruence.
Qed.

Lemma host_extends (h : PCIHostState) (s s' : PciSys map_fn) bus :
  extends s s' → buses s !! host_bus h = Some bus → parent_dev bus = None →
  ∃ bus', buses s' !! host_bus h = Some bus' ∧ parent_dev bus' = None.
Proof. intros He Hb Hp. destruct (ex_bus _ _ He _ _ Hb) as (b'&Hb'&Ep&_). exists b'. split; [done|congruence]. Qed.

(** One event. *)
Lemma event_wp t e : machine_ok t → enabled t.2 e → wp (run_event e) (λ r t', r = 0 ∧ machine_ok t') t.
Proof.
  destruct t as [h s]. intros [Hok Hc (hb&Hhb&Hroot)] He. cbn [fst snd] in *.
  destruct e as [a|n b fn idx image rom_offset ram|n b fn map_irq_|n]; cbn [enabled run_event] in *.
  - apply wp_bind. eapply wp_mono; [by eapply do_act_wp|]. intros [] [h' s'] [Eh Hk]. cbn [fst snd] in *.
    apply wp_ret. split; [done|]. split; cbn [fst snd]; [apply Hk|intros m; apply Hk, Hc|].
    rewrite Eh. eapply host_kept; [apply Hk|done|done].
  - destruct He as (Hn&Himg&bus&Hb&Hfree). apply wp_bind, wp_zoom. eapply wp_mono; [by apply (card_add_wp _ n b bus fn)|].
    intros r s' (Hr&d&->&Hfd&_). apply wp_ret. split; [exact Hr|].
    split; cbn [fst snd]; [by apply attach_ok|by apply attach_coherent|]. eapply host_extends; [by apply attach_extends|done|done].
  - destruct He as (Hn&Hmap&bus&Hb&Hfree). apply wp_zoom. eapply wp_mono; [by apply (bridge_add_wp _ n b bus fn)|].
    intros r s' [-> ->]. split; [done|].
    split; cbn [fst snd]; [by apply bridged_ok|by apply bridged_coherent|]. eapply host_extends; [by apply bridged_extends|done|done].
  - destruct He as (d&Hn&Hbehind). destruct (ok_dev s (po_static _ Hok) _ _ Hn) as (_&Hfn&b&Hb&_).
    apply wp_zoom. eapply wp_mono; [by eapply unregister_wp|]. intros r s' [-> ->]. split; [done|].
    pose proof (without_statics s n d b Hok Hn Hb Hbehind) as Hs'. pose proof (without_old s n d b Hb) as Hold.
    split; cbn [fst snd]; [by apply (removed_ok s _ n)|by apply (removed_coherent s _ n)|].
    destruct (without_other s n d b Hb (host_bus h) hb Hhb) as (x'&Hx'&Ep&_).
    + intros Hj. destruct (ok_sec s (po_static _ Hok) _ _ _ Hn Hj) as (y&Hy&Hp). congruence.
    + exists x'. split; [done|congruence].
Qed.

Lemma step_ok t t' : machine_ok t → machine_step t t' → machine_ok t'.
Proof. intros Hok (e&r&He&Hr). pose proof (event_wp t e Hok He) as Hw. unfold wp in Hw. rewrite Hr in Hw. apply Hw. Qed.

Lemma power_on_ok map_irq_ devfn_min_ t :
  (∀ fn k, 0 ≤ fn < 256 → 0 ≤ k < 4 → 0 ≤ map_irq_ fn k < 4) → PCI_FUNC devfn_min_ = 0 →
  powered_on map_irq_ devfn_min_ t → machine_ok t.
Proof.
  intros Hmap Hfn [Hh Hr]. pose proof (first_bus_wp (F := map_fn) map_irq_ devfn_min_ Hmap Hfn) as Hw. unfold wp in Hw. rewrite Hr in Hw.
  destruct Hw as (_&Hok&Hc&_&E). split; [done..|]. rewrite Hh, E. eexists. split; [apply lookup_singleton_eq|done].
Qed.

(** C12: starting from a machine that has only the bus of its host bridge, let cards
    and bridges be added and removed, let the guest access any configuration
    register, let devices raise and lower pins and be reset, in any order and any
    number of times. Every state that is reached is a well-formed tree of buses in
    which every region of every device is mapped exactly where the registers of the
    device and of the bridges above it place it; and in each of these states every
    event that can happen is carried out successfully, without a fault. *)
Theorem machine_never_fails map_irq_ devfn_min_ t0 t :
  (∀ fn k, 0 ≤ fn < 256 → 0 ≤ k < 4 → 0 ≤ map_irq_ fn k < 4) → PCI_FUNC devfn_min_ = 0 →
  powered_on map_irq_ devfn_min_ t0 → rtc machine_step t0 t →
  pci_ok t.2 ∧ coherent t.2 ∧ ∀ e, enabled t.2 e → ∃ t', run_event e t = Ret 0 t' ∧ machine_step t t'.
Proof.
  intros Hmap Hfn Hon Hsteps. pose proof (power_on_ok _ _ _ Hmap Hfn Hon) as Hok.
  assert (machine_ok t) as Ht by (clear - Hsteps Hok; induction Hsteps; eauto using step_ok).
  split_and!; [apply Ht|apply Ht|]. intros e He. pose proof (event_wp t e Ht He) as Hw.
  apply (proj1 (wp_Ret _ _ _)) in Hw as (r&t'&Hr&->&_). exists t'. split; [done|]. by exists e, 0.
Qed.
