(* ===== verification/CardIrq.v ===== *)
(** * Cards on a shared interrupt line ([hw/e1000.c], [hw/pci.c])

    Several network cards on one PCI system: what a card does changes its interrupt
    causes, and [qemu_set_irq] carries the level to its pin and through the bridges to
    a line that other cards may share. Cards are also reset, plugged in and taken
    out. The pin of a card always has the level that its registers ask for, and a line
    of a root bus is the logical or of the pins that arrive there, as long as no
    card loses a raised pin in one of the ways in which [pci.c] loses count. *)

From S2P Require Import Prelude Bytes Memory E1000Hw AqSpec E1000State E1000Tx E1000Rx AdminQ E1000Mmio E1000Inv Pci PciSpec PciInv PciCfg PciReset PciGuest PciIrq PciAdd PciHot E1000Pci.

(** ** The machine *)

(** The PCI system, the cards by the number of their PCI device, and the rest of the
    machine, in which [dev] is the card that is at work. *)
Record board (X P : Type) := Board {
  pci : PciSys map_fn;
  cards : gmap nat E1000State;
  rest : machine X P;
}.
Arguments Board {X P} _ _ _.
Arguments pci {X P} _.
Arguments cards {X P} _.
Arguments rest {X P} _.
#[export] Instance board_eta X P : Eta (board X P) := λ b, Board (pci b) (cards b) (rest b).

Section board.
Context {X P : Type} `{PhysMemLaws X} `{MsgLink P}.
Abbreviation BM := (M (board X P)).
Implicit Types (b : board X P).

Definition on_pci {A} (m : M (PciSys map_fn) A) : BM A := zoom pci (λ s b, b <| pci := s |>) m.
Definition on_card {A} (n : nat) (m : M (machine X P) A) : BM A :=
  o ← gets (λ b, cards b !! n);
  match o with
  | None => fail NullDeref
  | Some c =>
      a ← zoom (λ b, rest b <| dev := c |>) (λ m b, b <| rest := m |> <| cards ::= <[n := dev m]> |>) m;
      mret a
  end.

(** [qemu_set_irq(s->dev.irq[0], level)]. *)
Definition drive_pin (n : nat) (level : bool) : M (PciSys map_fn) unit := pci_set_irq n 0 (Z.b2z level).

(** The last call of [set_interrupt_cause]. *)
Definition set_pin (n : nat) : BM unit :=
  o ← gets (λ b, cards b !! n);
  match o with
  | None => fail NullDeref
  | Some c => on_pci (drive_pin n (irq c))
  end.

(** An operation of a card, in which [set_interrupt_cause] is called any number of
    times: [levels] are the levels that all calls but the last one set the pin to. The
    operation does not depend on the pins, so the calls can be looked at after it, and
    what is proved holds for every list of levels. *)
Definition card_op (fuel n : nat) (op : dev_op) (levels : list bool) : BM unit :=
  on_card n (run_op fuel op);; on_pci (for_each (drive_pin n) levels);; set_pin n.

(** The [irq] of a card is the level of the first pin of its PCI device: it follows the
    pin where the PCI code changes it. *)
Definition pin_of (s : PciSys map_fn) (n : nat) (c : E1000State) : E1000State :=
  match devs s !! n with Some d => c <| irq := Z.testbit (irq_state d) 0 |> | None => c end.
Definition take_levels : BM unit :=
  modify (λ b, b <| cards ::= map_imap (λ n c, Some (pin_of (pci b) n c)) |>).

(** [pci_device_reset] of a card: [qdev_reset_all] runs the reset function of the card,
    then the PCI device is reset. *)
Definition card_reset (n : nat) : BM unit :=
  on_card n (modify (λ m, m <| dev ::= e1000_reset |>));;
  on_pci (pci_device_reset n);;
  take_levels.

(** [pci_bus_reset]: all cards below the bus are reset, and their PCI devices. The reset
    function of a card and the reset of PCI devices work on different states, so all
    cards can go first. *)
Definition reset_cards (s : PciSys map_fn) (j : nat) (cs : gmap nat E1000State) : gmap nat E1000State :=
  map_imap (λ n c, Some (if belowb s j n then e1000_reset c else c)) cs.
Definition bus_reset (j : nat) : BM unit :=
  modify (λ b, b <| cards ::= reset_cards (pci b) j |>);;
  on_pci (k ← gets nbuses; pci_bus_reset k j);;
  take_levels.

(** [pci_qdev_init] with [pci_e1000_init], and [pci_unregister_device] with
    [pci_e1000_uninit]. A card that arrives is not reset: the machine resets its buses
    when it is started, and a card that is plugged in later stays as it was allocated. *)
Definition card_plug (n j : nat) (fn idx : Z) (image : option (list Z)) (rom_offset : Z) (ram mac : list Z) : BM unit :=
  r ← on_pci (put_pdev n (new_pci_device fn);; pci_qdev_init n j idx image rom_offset ram);
  if r.1 =? 0 then modify (λ b, b <| cards ::= <[n := pci_e1000_init mac e1000_zero]> |>) else mret ().
Definition card_unplug (n : nat) : BM unit :=
  r ← on_pci (pci_unregister_device n);
  if r =? 0 then modify (λ b, b <| cards ::= delete n |>) else mret ().

Inductive board_act :=
| card_does (fuel n : nat) (op : dev_op) (levels : list bool)
| guest_writes (n : nat) (addr val len : Z)
| guest_reads (n : nat) (addr len : Z)
| card_resets (n : nat)
| bus_resets (j : nat)
| card_arrives (n j : nat) (fn idx : Z) (image : option (list Z)) (rom_offset : Z) (ram mac : list Z)
| card_leaves (n : nat).

Definition run_board_act (a : board_act) : BM unit :=
  match a with
  | card_does fuel n op levels => card_op fuel n op levels
  | guest_writes n addr val len => on_pci (config_write n addr val len)
  | guest_reads n addr len => _ ← on_pci (pci_default_read_config n addr len); mret ()
  | card_resets n => card_reset n
  | bus_resets j => bus_reset j
  | card_arrives n j fn idx image rom_offset ram mac => card_plug n j fn idx image rom_offset ram mac
  | card_leaves n => card_unplug n
  end.

(** When an action can happen. *)
Definition act_possible b (a : board_act) : Prop :=
  match a with
  | card_does fuel n op levels => op_ok op ∧ is_Some (cards b !! n)
  | guest_writes n addr val len => is_Some (cards b !! n) ∧ 0 ≤ addr < 256 ∧ 1 ≤ len ≤ 4
  | guest_reads n addr len => is_Some (cards b !! n) ∧ 0 ≤ addr < 256 ∧ (len = 1 ∨ len = 2 ∨ len = 4)
  | card_resets n => is_Some (cards b !! n)
  | bus_resets j => is_Some (buses (pci b) !! j)
  | card_arrives n j fn idx image rom_offset ram mac =>
      devs (pci b) !! n = None ∧ image_ok image ∧ bytes_ok mac ∧
      ∃ bus, buses (pci b) !! j = Some bus ∧ slot_free bus fn
  | card_leaves n => is_Some (cards b !! n)
  end.

(** Actions that keep count of the lines. While the pin of a card is raised, it is not
    reset or taken out, the upper byte of its command register is not written alone,
    and no bridge above it resets its bus. A reset of a root bus is one of a whole
    system and clears the counts. *)
Definition pin_low b (n : nat) : Prop := ∀ c, cards b !! n = Some c → irq c = false.
Definition act_counted b (a : board_act) : Prop :=
  match a with
  | card_does fuel n op levels => True
  | guest_writes n addr val len => addr = PCI_COMMAND + 1 → pin_low b n
  | guest_reads n addr len => True
  | card_resets n => pin_low b n
  | bus_resets j => (∀ bus, buses (pci b) !! j = Some bus → parent_dev bus = None) ∨
      ∀ n, below (pci b) j n → pin_low b n
  | card_arrives n j fn idx image rom_offset ram mac => Z.of_nat (size (devs (pci b))) + 1 < 2 ^ 28
  | card_leaves n => pin_low b n
  end.

Inductive board_step : board X P → board X P → Prop :=
| Board_step a b b' : act_possible b a → act_counted b a → run_board_act a b = Ret () b' → board_step b b'.

(** ** The invariants *)

(** A device that is a card has the level of the card at its first pin; the other
    pins, and the pins of bridges, are low. *)
Definition dev_agrees (cs : gmap nat E1000State) (n : nat) (d : PCIDevice map_fn) : Prop :=
  match cs !! n with
  | Some c => sec_bus d = None ∧ irq_state d = Z.b2z (irq c)
  | None => irq_state d = 0
  end.
Record pins_ok b : Prop := {
  bk_ok : pci_ok (pci b);
  bk_cards n c : cards b !! n = Some c → dev_inv c ∧ is_Some (devs (pci b) !! n);
  bk_agrees n d : devs (pci b) !! n = Some d → dev_agrees (cards b) n d;
}.
Definition board_ok b : Prop := pins_ok b ∧ irq_sync (pci b).

(** What an action has to keep. *)
Definition keeps_pins b (counted : Prop) b' : Prop :=
  pins_ok b' ∧ (irq_sync (pci b) → counted → irq_sync (pci b')).

Lemma card_dev b n c : pins_ok b → cards b !! n = Some c →
  dev_inv c ∧ ∃ d, devs (pci b) !! n = Some d ∧ sec_bus d = None ∧ irq_state d = Z.b2z (irq c).
Proof.
  intros [_ Hcs Hag] Hc. destruct (Hcs n c Hc) as [Hi [d Hd]]. split; [done|]. exists d. split; [done|].
  specialize (Hag n d Hd). unfold dev_agrees in Hag. by rewrite Hc in Hag.
Qed.
Lemma low_dev b n c d : pins_ok b → cards b !! n = Some c → devs (pci b) !! n = Some d → pin_low b n → irq_state d = 0.
Proof.
  intros Hb Hc Hd Hlow. destruct (card_dev b n c Hb Hc) as (_&x&Hx&_&E). rewrite Hd in Hx. apply (inj Some) in Hx as <-.
  by rewrite E, (Hlow c Hc).
Qed.

Lemma statics_sec (s s' : PciSys map_fn) n d d' : statics s' = statics s → devs s !! n = Some d → devs s' !! n = Some d' →
  sec_bus d' = sec_bus d.
Proof.
  intros E Hd Hd'. destruct (statics_eq_dev s' s n d (eq_sym E) Hd) as (y&Hy&Ey).
  rewrite Hd' in Hy. apply (inj Some) in Hy as <-. apply (f_equal sec_bus) in Ey. cbn in Ey. congruence.
Qed.

Lemma b2z_bit v k : 0 ≤ k → Z.testbit (Z.b2z v) k = (k =? 0) && v.
Proof.
  intros Hk. destruct (Z.eqb_spec k 0) as [->|]; [by destruct v|].
  destruct v; [|apply Z.bits_0]. apply Z.bits_above_log2; cbn; lia.
Qed.

Lemma pin0_only d v (l : bool) :
  0 ≤ irq_state d < 16 → irq_state d = Z.b2z v →
  (if Bool.eqb (Z.testbit (irq_state d) 0) l then irq_state d
   else irq_state (pci_set_irq_state (F := map_fn) d 0 (Z.b2z l))) = Z.b2z l.
Proof.
  intros Hr E. assert (Z.testbit (irq_state d) 0 = v) as -> by (rewrite E; by destruct v).
  destruct (Bool.eqb_spec v l) as [<-|_]; [done|]. apply Z.bits_inj'. intros k Hk.
  rewrite set_irq_state_bit, E, !b2z_bit by lia. by destruct (k =? 0).
Qed.

(** ** The pin of a card *)

(** All devices agree with their cards, but device [n] has a level of its own. *)
Record loose (n : nat) (v : bool) b : Prop := {
  ls_ok : pci_ok (pci b);
  ls_cards m c : cards b !! m = Some c → dev_inv c ∧ is_Some (devs (pci b) !! m);
  ls_dev : ∃ d, devs (pci b) !! n = Some d ∧ sec_bus d = None ∧ irq_state d = Z.b2z v;
  ls_agrees m d : m ≠ n → devs (pci b) !! m = Some d → dev_agrees (cards b) m d;
}.

Lemma drive_pin_wp b n v v' :
  loose n v b → wp (drive_pin n v') (λ _ s', loose n v' (b <| pci := s' |>) ∧
    (irq_sync (pci b) → irq_sync s')) (pci b).
Proof.
  intros [Hok Hcs (d&Hd&Hsec&Hi) Hag]. unfold drive_pin.
  assert (0 ≤ 0 < 4) as Hpin by lia.
  eapply wp_mono; [eapply (wp_when _ _ _ (irq_sync (pci b)));
    [apply (pin_level_pins _ n d 0 v' Hok Hd Hpin)|intros Hs; apply (pin_level_wp _ n d 0 v' Hok Hs Hd Hpin)]|].
  cbv beta. intros [] s' ((Hk&d'&Ed&Ei)&Hsync). rewrite (pin0_only d v) in Ei by (done || apply (po_dyn _ Hok _ _ Hd)).
  assert (devs s' !! n = Some d') as Hd' by (by rewrite Ed, lookup_insert_eq).
  split; [|intros Hs; apply Hsync, Hs]. split; cbn; [apply Hk|..].
  - intros m c Hc. destruct (Hcs m c Hc) as [? Hm]. split; [done|]. rewrite Ed. by apply lookup_insert_is_Some'; right.
  - exists d'. split_and!; [done| |done]. rewrite (statics_sec _ _ _ _ _ (kp_statics _ _ Hk) Hd Hd'). done.
  - intros m x Hne Hx. rewrite Ed, lookup_insert_ne in Hx by done. by apply Hag.
Qed.

Lemma drive_pins_wp b n v levels :
  loose n v b → wp (on_pci (for_each (drive_pin n) levels)) (λ _ b', (∃ v', loose n v' b') ∧ cards b' = cards b ∧
    rest b' = rest b ∧ (irq_sync (pci b) → irq_sync (pci b'))) b.
Proof.
  intros Hl. apply wp_zoom. eapply wp_mono; [apply (wp_for_each _ _ (λ _ s,
    (∃ v', loose n v' (b <| pci := s |>)) ∧ (irq_sync (pci b) → irq_sync s)))|by intros [] s' [? ?]].
  - split; [exists v; by destruct b|done].
  - intros pre l post s1 _ ([v1 Hl1]&S1). eapply wp_mono; [apply (drive_pin_wp _ n v1 l Hl1)|].
    cbn. intros [] s2 [H2 S2]. split; [by exists l|auto].
Qed.

Lemma set_pin_wp b n v c :
  loose n v b → cards b !! n = Some c →
  wp (set_pin n) (λ _ b', pins_ok b' ∧ cards b' = cards b ∧ rest b' = rest b ∧ (irq_sync (pci b) → irq_sync (pci b'))) b.
Proof.
  intros Hl Hc. unfold set_pin. apply wp_bind, wp_gets. rewrite Hc. apply wp_zoom.
  eapply wp_mono; [by eapply drive_pin_wp|].
  intros [] s' ([Hok Hcs (d&Hd&Hsec&Hi) Hag]&Hs). split_and!; [|done..]. split; [done..|].
  intros m x Hx. destruct (decide (m = n)) as [->|Hne]; [|auto]. rewrite Hd in Hx. apply (inj Some) in Hx as <-.
  unfold dev_agrees. cbn. by rewrite Hc.
Qed.

(** An operation of a card that returns: the PCI layer takes the new levels without
    a fault. *)
Lemma card_op_wp b fuel n op levels c m' :
  pins_ok b → op_ok op → cards b !! n = Some c → run_op fuel op (rest b <| dev := c |>) = Ret () m' →
  wp (card_op fuel n op levels) (λ _ b', keeps_pins b True b' ∧ rest b' = m' ∧ cards b' = <[n := dev m']> (cards b)) b.
Proof.
  intros Hb Hop Hc Hrun. destruct (card_dev b n c Hb Hc) as (Hinv&d&Hd&Hsec&Hi). destruct Hb as [Hok Hcs Hag].
  assert (dev_inv (dev m')) as Hinv' by (eapply (dev_step_inv (rest b <| dev := c |>)); [done|by eapply Dev_step]).
  unfold card_op, on_card. apply wp_bind, wp_bind, wp_gets. rewrite Hc. apply wp_bind, wp_zoom. cbv beta.
  unfold wp at 1. rewrite Hrun. apply wp_ret, wp_bind. set (b1 := update _ _).
  assert (loose n (irq c) b1) as Hl.
  { split; cbn; [done| |by exists d|].
    - intros m x [[<- <-]|[Hne Hx]]%lookup_insert_Some; [eauto|by apply Hcs].
    - intros m x Hne Hx. specialize (Hag m x Hx). unfold dev_agrees in *. by rewrite lookup_insert_ne. }
  eapply wp_mono; [by eapply drive_pins_wp|]. intros [] b2 ([v2 H2]&E2&F2&S2).
  eapply wp_mono; [apply (set_pin_wp _ n v2 (dev m') H2); rewrite E2; apply lookup_insert_eq|].
  intros [] b3 (H3&E3&F3&S3). split_and!; [split; [done|auto]|by rewrite F3, F2|by rewrite E3, E2].
Qed.

(** ** Accesses to the configuration space *)

Lemma guest_write_wp b n addr val len :
  pins_ok b → act_possible b (guest_writes n addr val len) →
  wp (run_board_act (guest_writes n addr val len)) (λ _, keeps_pins b (act_counted b (guest_writes n addr val len))) b.
Proof.
  intros Hb ([c Hc]&Ha&Hl). destruct (card_dev b n c Hb Hc) as (Hinv&d&Hd&Hsec&Hi). pose proof Hb as [Hok Hcs Hag].
  cbn [run_board_act]. apply wp_zoom. eapply wp_mono; [eapply (wp_when _ _ _ (irq_sync (pci b) ∧ act_counted b (guest_writes n addr val len)));
    [by apply (config_write_pins _ n d)|intros [Hs Hcnt]; apply (config_write_counts _ n d); try done]|].
  { intros E. by eapply low_dev; [..|apply Hcnt]. }
  cbv beta. intros [] s' ((Hk&d'&Ed&Ei)&Hsync). split; [|intros Hs Hcnt; by apply Hsync]. split; cbn; [apply Hk|..].
  - intros m x Hx. destruct (Hcs m x Hx) as [? ?]. split; [done|]. rewrite Ed. by apply lookup_insert_is_Some'; right.
  - intros m x Hx. rewrite Ed in Hx. apply lookup_insert_Some in Hx as [[<- <-]|[_ Hx]]; [|by apply Hag].
    unfold dev_agrees. rewrite Hc. split; [|congruence].
    rewrite (statics_sec _ _ n d d' (kp_statics _ _ Hk) Hd); [done|]. by rewrite Ed, lookup_insert_eq.
Qed.

Lemma guest_read_wp b n addr len :
  pins_ok b → act_possible b (guest_reads n addr len) → wp (run_board_act (guest_reads n addr len)) (λ _ b', b' = b) b.
Proof.
  intros [Hok Hcs _] ([c Hc]&Ha&Hl). destruct (Hcs n c Hc) as [_ [d Hd]]. cbn [run_board_act].
  apply wp_bind, wp_zoom. eapply wp_mono; [by apply (pci_default_read_config_wp _ n d)|].
  intros v s' [-> _]. apply wp_ret. by destruct b.
Qed.

(** ** Resets *)

(** The cards in [C] and their devices are reset, and the levels follow the pins. *)
Lemma reset_pins_ok b (C Z : nat → Prop) s' cs r :
  pins_ok b → reset_of C Z (pci b) s' →
  (∀ n, cs !! n = None ↔ cards b !! n = None) →
  (∀ n c, cards b !! n = Some c → C n ∧ cs !! n = Some (e1000_reset c) ∨ ¬ C n ∧ cs !! n = Some c) →
  pins_ok (Board (X := X) (P := P) s' (map_imap (λ n c, Some (pin_of s' n c)) cs) r).
Proof.
  intros Hb Hr Hnone Hcs.
  assert (∀ n c, cards b !! n = Some c → ∃ c' d', pin_of s' n <$> cs !! n = Some c' ∧ devs s' !! n = Some d' ∧
    dev_inv c' ∧ sec_bus d' = None ∧ irq_state d' = Z.b2z (irq c')) as Hcard.
  { intros n c Hc. destruct (card_dev b n c Hb Hc) as (Hinv&d&Hd&Hsec&Hi).
    destruct (Hcs n c Hc) as [[Hn ->]|[Hn ->]]; cbn; unfold pin_of.
    - destruct (rs_in _ _ _ _ Hr n Hn) as (d'&Hd'&Hq). rewrite Hd', (qt_irq _ Hq), Z.bits_0.
      eexists _, d'. split_and!; [done|done|by apply reset_inv, Hinv| |apply Hq].
      by rewrite (statics_sec _ _ n d d' (rs_statics _ _ _ _ Hr) Hd Hd').
    - rewrite (rs_out _ _ _ _ Hr n Hn), Hd, Hi, b2z_bit by lia. cbn [Z.eqb andb]. rewrite set_irq_id by done. eauto 10. }
  split; cbn; [apply Hr|..].
  - intros n x Hx. rewrite map_lookup_imap in Hx. destruct (cards b !! n) as [c|] eqn:Hc; cycle 1.
    { by rewrite (proj2 (Hnone n) Hc) in Hx. }
    destruct (Hcard n c Hc) as (c'&d'&E&Hd'&Hinv&_). destruct (cs !! n) as [y|]; [|done]. cbn in Hx, E. simplify_eq. eauto.
  - intros n d' Hd'. unfold dev_agrees. rewrite map_lookup_imap. destruct (cards b !! n) as [c|] eqn:Hc.
    + destruct (Hcard n c Hc) as (c'&x&E&Hx&_&Hsec&Hi). destruct (cs !! n) as [y|]; [|done]. cbn in E |- *. by simplify_eq.
    + rewrite (proj2 (Hnone n) Hc). cbn. destruct (rs_any _ _ _ _ Hr n) as [(x&Hx&Hq)|Ex].
      * rewrite Hd' in Hx. apply (inj Some) in Hx as ->. apply Hq.
      * rewrite Ex in Hd'. pose proof (bk_agrees _ Hb n d' Hd') as Ha. unfold dev_agrees in Ha. by rewrite Hc in Ha.
Qed.

Lemma card_reset_wp b n :
  pins_ok b → is_Some (cards b !! n) → wp (card_reset n) (λ _, keeps_pins b (pin_low b n)) b.
Proof.
  intros Hb [c Hc]. destruct (card_dev b n c Hb Hc) as (_&d&Hd&Hsec&Hi). pose proof (bk_ok _ Hb) as Hok.
  unfold card_reset, on_card. apply wp_bind, wp_bind, wp_gets. rewrite Hc. apply wp_bind, wp_zoom, wp_modify, wp_ret.
  apply wp_bind, wp_zoom. eapply wp_mono; [by apply (pci_device_reset_wp _ n d)|]. intros [] s' Hr.
  change (reset_of (behind (pci b) n) (bus_behind (pci b) n) (pci b) s') in Hr. apply wp_modify. split; [|intros Hs Hlow; by eapply reset_low_sync, Hr; try done; eapply low_dev].
  apply (reset_pins_ok b _ _ s' (<[n := e1000_reset c]> (cards b)) _ Hb Hr).
  - intros m. rewrite lookup_insert_None. split; [by intros [? _]|]. intros Hm. split; [done|]. intros ->. congruence.
  - intros m x Hx. destruct (decide (m = n)) as [->|Hne].
    + left. split; [by left|]. rewrite lookup_insert_eq. congruence.
    + right. rewrite lookup_insert_ne by done. split; [|done]. intros [|(y&sec&Hy&Hs&_)]; [done|]. rewrite Hd in Hy. apply (inj Some) in Hy as <-. congruence.
Qed.

Lemma bus_reset_wp b j :
  pins_ok b → is_Some (buses (pci b) !! j) → wp (bus_reset j) (λ _, keeps_pins b (act_counted b (bus_resets j))) b.
Proof.
  intros Hb [bus Hj]. pose proof (bk_ok _ Hb) as Hok. pose proof (po_static _ Hok) as Hst.
  unfold bus_reset. apply wp_bind, wp_modify, wp_bind, wp_zoom, wp_bind, wp_gets.
  eapply wp_mono; [apply (pci_bus_reset_wp _ (pci b) j bus); [done..|cbn; lia]|]. intros [] s' Hr. apply wp_modify. split.
  - apply (reset_pins_ok b _ _ s' (reset_cards (pci b) j (cards b)) _ Hb Hr).
    + intros m. unfold reset_cards. rewrite map_lookup_imap. by destruct (cards b !! m).
    + intros m x Hx. unfold reset_cards. rewrite map_lookup_imap, Hx. cbn.
      destruct (belowb (pci b) j m) eqn:E; [left|right]; (split; [|done]); rewrite <- belowb_spec by done; congruence.
  - intros Hs Hcnt. apply (bus_reset_sync (pci b) s' j Hok Hs Hr). intros m d i j' k Hm Hd Hpin Hon Hroute.
    destruct Hcnt as [Hroot|Hlow]; [by eapply (root_inside _ j bus m); eauto|exfalso].
    assert (irq_state d = 0) as E0; [|unfold pin_on in Hon; by rewrite E0, Z.bits_0, andb_false_r in Hon].
    destruct (cards b !! m) as [c|] eqn:Hc; [by eapply low_dev; eauto|].
    pose proof (bk_agrees _ Hb m d Hd) as Ha. unfold dev_agrees in Ha. by rewrite Hc in Ha.
Qed.

(** ** Cards that come and go *)

Lemma card_plug_wp b n j fn idx image rom_offset ram mac :
  pins_ok b → act_possible b (card_arrives n j fn idx image rom_offset ram mac) →
  wp (card_plug n j fn idx image rom_offset ram mac)
    (λ _, keeps_pins b (act_counted b (card_arrives n j fn idx image rom_offset ram mac))) b.
Proof.
  intros Hb (Hn&Himg&Hmac&bus&Hj&Hfree). pose proof Hb as [Hok Hcs Hag]. unfold card_plug.
  apply wp_bind, wp_zoom. eapply wp_mono; [by apply (card_add_wp _ n j bus fn)|].
  intros r s' (->&d&->&Hfd&_). cbn [Z.eqb]. apply wp_modify. split; [|intros Hs Hcnt; by apply attach_sync].
  split; cbn; [by apply attach_ok|..].
  - intros m x [[<- <-]|[Hne Hx]]%lookup_insert_Some.
    + rewrite lookup_insert_eq. by split; [apply init_inv|].
    + rewrite lookup_insert_ne by done. by apply Hcs.
  - intros m x [[<- <-]|[Hne Hx]]%lookup_insert_Some; unfold dev_agrees; cbn.
    + rewrite lookup_insert_eq. split; [apply Hfd|]. by rewrite (fd_pins _ _ _ _ Hfd).
    + rewrite lookup_insert_ne by done. by apply Hag.
Qed.

Lemma card_unplug_wp b n :
  pins_ok b → is_Some (cards b !! n) → wp (card_unplug n) (λ _, keeps_pins b (pin_low b n)) b.
Proof.
  intros Hb [c Hc]. destruct (card_dev b n c Hb Hc) as (_&d&Hd&Hsec&Hi). pose proof Hb as [Hok Hcs Hag].
  assert (nothing_behind (pci b) d) as Hbehind by (intros j sec Hj; congruence).
  destruct (ok_dev _ (po_static _ Hok) _ _ Hd) as (_&Hfn&bus&Hbus&_).
  unfold card_unplug. apply wp_bind, wp_zoom. eapply wp_mono; [by eapply unregister_wp|]. intros r s' [-> ->].
  cbn [Z.eqb]. apply wp_modify. pose proof (without_statics (pci b) n d bus Hok Hd Hbus Hbehind) as Hs'.
  pose proof (without_old (pci b) n d bus Hbus) as Hold.
  split; [|intros Hs Hlow; apply (removed_sync (pci b) _ n d); try done; by eapply low_dev].
  split; cbn [pci cards update]; [by apply (removed_ok (pci b) _ n)|..].
  - intros m x [Hne Hx]%lookup_delete_Some. cbn. rewrite lookup_delete_ne by done. by apply Hcs.
  - intros m x. cbn. intros [Hne Hx]%lookup_delete_Some. unfold dev_agrees. rewrite lookup_delete_ne by done. by apply Hag.
Qed.

(** ** All actions *)

(** The operation of the card returns. *)
Definition op_returns b (a : board_act) : Prop :=
  match a with
  | card_does fuel n op levels => ∃ c m, cards b !! n = Some c ∧ run_op fuel op (rest b <| dev := c |>) = Ret () m
  | _ => True
  end.

Lemma act_wp b a :
  pins_ok b → act_possible b a → op_returns b a → wp (run_board_act a) (λ _, keeps_pins b (act_counted b a)) b.
Proof.
  intros Hb Ha Hret. destruct a as [fuel n op levels|n addr val len|n addr len|n|j|n j fn idx image rom_offset ram mac|n].
  - destruct Ha as [Hop _], Hret as (c&m&Hc&Hrun). eapply wp_mono; [by eapply card_op_wp|]. by intros [] b' [? _].
  - by apply guest_write_wp.
  - eapply wp_mono; [by apply guest_read_wp|]. intros [] b' ->. by split.
  - by apply card_reset_wp.
  - by apply bus_reset_wp.
  - by apply card_plug_wp.
  - by apply card_unplug_wp.
Qed.

Lemma act_returned b b' a : act_possible b a → run_board_act a b = Ret () b' → op_returns b a.
Proof.
  destruct a as [fuel n op levels| | | | | |]; try done. intros [Hop [c Hc]] Hr. exists c.
  destruct (run_op fuel op (rest b <| dev := c |>)) as [[] m'|f|] eqn:Hrun; [eauto|exfalso..];
    revert Hr; cbn [run_board_act]; unfold card_op, on_card, zoom, gets, mbind, M_bind; by rewrite Hc, Hrun.
Qed.

Lemma act_keeps b b' a :
  pins_ok b → act_possible b a → run_board_act a b = Ret () b' → keeps_pins b (act_counted b a) b'.
Proof.
  intros Hb Ha Hr. pose proof (act_wp b a Hb Ha (act_returned b b' a Ha Hr)) as Hw. unfold wp in Hw. by rewrite Hr in Hw.
Qed.

Lemma board_step_ok b b' : board_ok b → board_step b b' → board_ok b'.
Proof.
  intros [Hb Hs] Hstep. destruct Hstep as [a b0 b1 Ha Hcnt Hr]. destruct (act_keeps _ _ _ Hb Ha Hr) as [Hb' Hs'].
  split; auto.
Qed.

(** A line is high when a card asks for it. *)
Lemma line_of_cards b j k :
  pins_ok b →
  line_count (pci b) j k ≠ 0 ↔ ∃ n c d, cards b !! n = Some c ∧ devs (pci b) !! n = Some d ∧
    pci_irq_disabled d = false ∧ irq_route (pci b) n 0 = Some (j, k) ∧ has_bits (reg c IMS) (reg c ICR) = true.
Proof.
  intros [Hok Hcs Hag]. rewrite line_count_or. unfold pin_on. split.
  - intros (n&d&i&Hd&Hi&Hon&Hr). apply andb_prop in Hon as [Hdis%negb_true_iff Hbit].
    pose proof (Hag n d Hd) as Hn. unfold dev_agrees in Hn. destruct (cards b !! n) as [c|] eqn:Hc.
    + destruct Hn as [_ E]. rewrite E, b2z_bit in Hbit by lia. apply andb_prop in Hbit as [->%Z.eqb_eq Hirq].
      exists n, c, d. split_and!; try done. destruct (Hcs n c Hc) as [[_ [<- _ _]] _]. done.
    + by rewrite Hn, Z.bits_0 in Hbit.
  - intros (n&c&d&Hc&Hd&Hdis&Hr&Hb). exists n, d, 0. split_and!; try done; try lia.
    pose proof (Hag n d Hd) as Hn. unfold dev_agrees in Hn. rewrite Hc in Hn. destruct Hn as [_ ->].
    destruct (Hcs n c Hc) as [[_ [-> _ _]] _]. by rewrite Hdis, Hb.
Qed.

(** C13: any number of cards on a PCI system, on the same or different lines and
    behind any bridges. Let the cards work (register accesses, transmission,
    reception, link changes; an operation may move the pin any number of times), let
    the guest access their configuration registers, let cards and buses be reset and
    cards come and go, except that while the pin of a card is raised the card is
    not reset or taken out, no bridge above it resets its bus, and no write starts at
    the upper byte of its command register. Then a line of a root bus is raised
    exactly when some card whose pin arrives there, and whose interrupts the guest has
    not disabled, has an unmasked cause pending; and every action that is possible,
    also one of the excepted ones, succeeds in the PCI layer. *)
Theorem shared_line_level b b' :
  board_ok b → rtc board_step b b' →
  (∀ j bus k, buses (pci b') !! j = Some bus → set_irq bus = true → 0 ≤ k < 4 →
    ∃ v, irq_count bus !! Z.to_nat k = Some v ∧
      (v ≠ 0 ↔ ∃ n c d, cards b' !! n = Some c ∧ devs (pci b') !! n = Some d ∧ pci_irq_disabled d = false ∧
        irq_route (pci b') n 0 = Some (j, k) ∧ has_bits (reg c IMS) (reg c ICR) = true)) ∧
  (∀ a, act_possible b' a → op_returns b' a → ∃ b'', run_board_act a b' = Ret () b'').
Proof.
  intros Hok Hr. assert (board_ok b') as [Hp Hs] by (induction Hr; eauto using board_step_ok). split.
  - intros j bus k Hb Hset Hk. exists (line_count (pci b') j k). split; [by apply (is_count _ Hs)|].
    by apply line_of_cards.
  - intros a Ha Hret. pose proof (act_wp b' a Hp Ha Hret) as Hw.
    apply (proj1 (wp_Ret _ _ _)) in Hw as ([]&b''&E&_). eauto.
Qed.
End board.
