(* ===== verification/E1000TxRing.v ===== *)
(** * Descriptors through the transmit ring

    What the ring loop of [start_xmit] does with the descriptors a guest hands
    over, whatever they are: given an invariant of the device between two
    descriptors that processing a descriptor maintains, [start_xmit] processes all
    of them, writes them back, moves the head to the tail and raises the
    interrupts. Processing changes neither guest memory nor any register but the
    counters. *)

From S2P Require Import Prelude Bytes Memory E1000Hw E1000State E1000Tx E1000Ring AdminQ E1000Mmio E1000Inv.

Definition tx_counters : list Z := [TPT; GPTC; TOTL; TOTH].

(** [notin] decides that constant registers are not in a constant list. *)
Ltac notin :=
  try unfold tx_counters; rewrite ?not_elem_of_cons; split_and!; first [done | apply not_elem_of_nil].

(** ** What processing a descriptor leaves alone *)

Section local.
Context {X P : Type} `{PhysMemLaws X} `{MsgLink P}.
Abbreviation MM := (M (machine X P)).
Implicit Types (m : machine X P).

Definition tx_frame m m' : Prop :=
  mem m' = mem m ∧ ∀ i, i ∉ tx_counters → reg (dev m') i = reg (dev m) i.

Definition tx_local {A} (c : MM A) : Prop := ∀ m, ens c (λ _, tx_frame m) m.

Lemma tx_local_ret {A} (a : A) : tx_local (mret a).
Proof. by intros m. Qed.

Lemma tx_local_bind {A B} (c : MM A) (k : A → MM B) :
  tx_local c → (∀ a, tx_local (k a)) → tx_local (c ≫= k).
Proof.
  intros Hc Hk m. apply ens_bind. eapply ens_mono; [apply Hc|]. intros a m1 [Em Er].
  eapply ens_mono; [apply Hk|]. intros b m2 [Em2 Er2]. split; [congruence|].
  intros i Hi. by rewrite Er2, Er.
Qed.

Lemma tx_local_gets {A} (f : machine X P → A) : tx_local (gets f).
Proof. by intros m. Qed.

Lemma tx_local_oob {A} (o : option A) : tx_local (oob o).
Proof. intros m. by destruct o. Qed.

Lemma tx_local_no_fuel {A} : tx_local (no_fuel : MM A).
Proof. by intros m. Qed.

Lemma tx_local_mod_tx f : tx_local (mod_tx f).
Proof. by intros m. Qed.

Lemma tx_local_send f : tx_local (qemu_send_packet f).
Proof. by intros m. Qed.

Lemma tx_local_counter f i : i ∈ tx_counters → tx_local (mod_dev (λ s, set_reg s i (f s))).
Proof. intros Hi m. split; [done|]. intros j Hj. cbn. apply reg_set_ne. by intros ->. Qed.
End local.

(** One step through a body. *)
Ltac local_step :=
  lazymatch goal with
  | |- tx_local (_ ≫= _) => apply tx_local_bind; [|intros ?]
  | |- tx_local (mret _) => apply tx_local_ret
  | |- tx_local (if ?b then _ else _) => destruct b
  | |- tx_local (oob _) => apply tx_local_oob
  | |- tx_local no_fuel => apply tx_local_no_fuel
  | |- tx_local (mod_tx _) => apply tx_local_mod_tx
  | |- tx_local (qemu_send_packet _) => apply tx_local_send
  | |- tx_local (data_load _ _) => unfold data_load
  | |- tx_local (data_store _ _) => unfold data_store
  | |- tx_local (get_tx _) => apply tx_local_gets
  | |- tx_local (get_dev _) => apply tx_local_gets
  | |- tx_local (get_reg _) => apply tx_local_gets
  | |- tx_local (cpu_physical_memory_read _ _) => apply tx_local_gets
  end.

Section process.
Context {X P : Type} `{PhysMemLaws X} `{MsgLink P}.
Abbreviation MM := (M (machine X P)).

Lemma tx_local_xmit_seg : tx_local (xmit_seg : MM unit).
Proof.
  unfold xmit_seg, xmit_seg_tso, xmit_seg_sums, xmit_seg_send, xmit_seg_stats, put_reg.
  repeat (local_step; cbv zeta); apply tx_local_counter; unfold tx_counters; set_solver.
Qed.

Lemma tx_local_tso_loop fuel hdr msh addr split_size :
  tx_local (tso_loop fuel hdr msh addr split_size : MM unit).
Proof.
  revert addr split_size. induction fuel as [|fuel IH]; intros; cbn [tso_loop];
    repeat (local_step; cbv zeta); auto using tx_local_xmit_seg.
Qed.

Lemma tx_local_process_tx_desc fuel d : tx_local (process_tx_desc fuel d : MM unit).
Proof.
  unfold process_tx_desc. repeat (local_step; cbv zeta);
    auto using tx_local_xmit_seg, tx_local_tso_loop.
Qed.
End process.

(** ** The ring *)

Section ring.
Context {X P : Type} `{PhysMemLaws X} `{MsgLink P}.
Abbreviation MM := (M (machine X P)).
Implicit Types (m : machine X P).

(** A descriptor: whether it carries data (or is a context descriptor), the
    length and the contents of its buffer, whether it ends the packet, and
    whether the guest asks for a report. *)
Definition tx_carries (d : e1000_tx_desc) : bool :=
  negb (txd_lower d .& (E1000_TXD_CMD_DEXT .| E1000_TXD_DTYP_D) =? E1000_TXD_CMD_DEXT).
Definition tx_len (d : e1000_tx_desc) : Z := txd_lower d .& 0xffff.
Definition tx_chunk (x : X) (d : e1000_tx_desc) : list Z :=
  phys_read x (txd_buffer_addr d) (Z.to_nat (tx_len d)).
Definition tx_eop (d : e1000_tx_desc) : bool := has_bits (txd_lower d) E1000_TXD_CMD_EOP.
Definition tx_reports (d : e1000_tx_desc) : bool :=
  has_bits (txd_lower d) (E1000_TXD_CMD_RS .| E1000_TXD_CMD_RPS).

Lemma tx_len_range d : 0 ≤ tx_len d < 65536.
Proof. pose proof (land_le_r (txd_lower d) 0xffff ltac:(lia)). unfold tx_len. lia. Qed.

Lemma tx_chunk_length x d : length (tx_chunk x d) = Z.to_nat (tx_len d).
Proof. apply phys_read_length. Qed.

(** The sixteen bytes the guest finds in a slot when it has been processed. *)
Definition tx_written (bs : list Z) : list Z :=
  let d := tx_desc_decode bs in
  if tx_reports d
  then take 12 bs ++ le_bytes 4 ((txd_upper d .| E1000_TXD_STAT_DD) .&
         .~ (E1000_TXD_STAT_EC .| E1000_TXD_STAT_LC .| E1000_TXD_STAT_TU))
  else bs.

Lemma txdesc_writeback_wp base m :
  let bs := phys_read (mem m) base 16 in
  wp (txdesc_writeback base (tx_desc_decode bs)) (λ c m',
    c = (if tx_reports (tx_desc_decode bs) then E1000_ICR_TXDW else 0) ∧
    dev m' = dev m ∧ sent m' = sent m ∧ phys_read (mem m') base 16 = tx_written bs ∧
    ∀ a n, range_disjoint a n base 16 → phys_read (mem m') a n = phys_read (mem m) a n) m.
Proof.
  intros bs. unfold txdesc_writeback, tx_written. cbv zeta. fold (tx_reports (tx_desc_decode bs)).
  destruct (tx_reports _); cbn [negb]; [|by apply wp_ret].
  apply wp_bind, wp_write, wp_ret. split_and!; try done; cbn [mem update].
  - set (l := le_bytes 4 _). assert (length l = 4%nat) as Hl by apply length_le_bytes.
    pose proof (phys_write_field (mem m) base 12 l (le_bytes_ok 4 _)) as E. rewrite Hl in E.
    change (12 + 4)%nat with 16%nat in E. change (Z.of_nat 12) with 12 in E. rewrite E by lia.
    f_equal. unfold bs. change 16%nat with (12 + 4)%nat.
    by rewrite phys_read_app, take_app_length' by (by rewrite phys_read_length).
  - intros a n Hd. apply phys_read_write_ne. rewrite length_le_bytes.
    apply (range_disjoint_part _ _ _ 16); [done|lia|cbn; lia].
Qed.

(** *** The descriptors handed over *)

Abbreviation tx_nth := (ring_nth tx_ring).
Definition tx_cmd m (i : nat) : e1000_tx_desc :=
  tx_desc_decode (phys_read (mem m) (tx_nth (dev m) i) 16).
Definition tx_cmds m (n : nat) : list e1000_tx_desc := map (tx_cmd m) (seq 0 n).

(** The guest has handed over [n] descriptors, fewer than the ring holds, whose
    buffers lie outside their slots. *)
Record tx_posted m (n : nat) : Prop := {
  posted_inv : dev_inv (dev m);
  posted_ring : ring_ok tx_ring (dev m);
  posted_tail : reg (dev m) TDT = (reg (dev m) TDH + Z.of_nat n) `mod` ring_len tx_ring (dev m);
  posted_len : Z.of_nat n < ring_len tx_ring (dev m);
  posted_bufs i j : (i < n)%nat → (j < n)%nat → tx_carries (tx_cmd m i) = true →
    range_disjoint (txd_buffer_addr (tx_cmd m i)) (Z.to_nat (tx_len (tx_cmd m i)))
      (tx_nth (dev m) j) 16;
}.

(** [k] of the descriptors handed over in [m0] have been processed. *)
Record tx_upto m0 (k : nat) m : Prop := {
  upto_inv : dev_inv (dev m);
  upto_regs i : i ∉ TDH :: tx_counters → reg (dev m) i = reg (dev m0) i;
  upto_head : reg (dev m) TDH = (reg (dev m0) TDH + Z.of_nat k) `mod` ring_len tx_ring (dev m0);
  upto_slots i : (i < k)%nat → phys_read (mem m) (tx_nth (dev m0) i) 16 =
    tx_written (phys_read (mem m0) (tx_nth (dev m0) i) 16);
  upto_mem a n : (∀ i, (i < k)%nat → range_disjoint a n (tx_nth (dev m0) i) 16) →
    phys_read (mem m) a n = phys_read (mem m0) a n;
}.

Definition tx_cause (ds : list e1000_tx_desc) : Z :=
  if existsb tx_reports ds then E1000_ICR_TXDW else 0.

Lemma wp_keeps {A} (c : MM A) (Q : A → machine X P → Prop) R m :
  wp c Q m → keeps c R → dev_inv (dev m) → wp c (λ a m', Q a m' ∧ dev_inv (dev m')) m.
Proof.
  intros Hw Hk Hi. specialize (Hk m Hi). unfold wp, ens in *. destruct (c m); try done.
  split; [done|]. apply Hk.
Qed.

Lemma wp_local {A} (c : MM A) (Q : A → machine X P → Prop) m :
  wp c Q m → tx_local c → wp c (λ a m', Q a m' ∧ tx_frame m m') m.
Proof. intros Hw Hl. specialize (Hl m). unfold wp, ens in *. by destruct (c m). Qed.

Section loop.
Context (m0 : machine X P) (n : nat) (Hpost : tx_posted m0 n).

Lemma tx_upto_0 : tx_upto m0 0 m0.
Proof.
  destruct Hpost as [? [_ Hr] _ _ _]. split; try done; [|by intros; lia].
  rewrite Z.add_0_r, Z.mod_small; done.
Qed.

(** The ring of a state in between is that of the start. *)
Lemma tx_upto_ring k m :
  tx_upto m0 k m →
  ring_len tx_ring (dev m) = ring_len tx_ring (dev m0) ∧
  ring_ok tx_ring (dev m) ∧ tx_ring_base (dev m) = tx_nth (dev m0) k.
Proof.
  intros [_ Hr Hh _ _]. destruct Hpost as [_ [Hl Hb] _ _ _].
  assert (ring_len tx_ring (dev m) = ring_len tx_ring (dev m0)) as El
    by (unfold ring_len; cbn; by rewrite Hr by notin).
  split_and!; [done|split|].
  - rewrite El. cbn. by rewrite Hr by notin.
  - rewrite El. cbn. rewrite Hh. apply Z.mod_pos_bound. cbn in Hb. lia.
  - unfold tx_ring_base, ring_nth, ring_slot. cbn. rewrite Hh, !Hr by notin. done.
Qed.

Lemma tx_upto_cmd k m :
  tx_upto m0 k m → (k < n)%nat →
  phys_read (mem m) (tx_nth (dev m0) k) 16 = phys_read (mem m0) (tx_nth (dev m0) k) 16 ∧
  (tx_carries (tx_cmd m0 k) = true →
   tx_chunk (mem m) (tx_cmd m0 k) = tx_chunk (mem m0) (tx_cmd m0 k)).
Proof.
  intros Hu Hk. destruct Hpost as [Hi _ _ Hl Hb]. split.
  - apply (upto_mem _ _ _ Hu). intros i Hik. apply range_disjoint_sym, ring_nth_disjoint; [apply Hi|lia|lia].
  - intros Hc. unfold tx_chunk. apply (upto_mem _ _ _ Hu). intros i Hik. apply Hb; [lia|lia|done].
Qed.

Lemma tx_upto_next k m m1 m2 :
  tx_upto m0 k m → (k < n)%nat → tx_frame m m1 → dev_inv (dev m1) → dev m2 = dev m1 →
  phys_read (mem m2) (tx_nth (dev m0) k) 16 = tx_written (phys_read (mem m1) (tx_nth (dev m0) k) 16) →
  (∀ a l, range_disjoint a l (tx_nth (dev m0) k) 16 → phys_read (mem m2) a l = phys_read (mem m1) a l) →
  tx_upto m0 (S k) (m2 <| dev ::= λ s, set_reg s TDH (tdh_next s) |>).
Proof.
  intros Hu Hk [Em Er] Hi1 Ed Hs Ho. destruct (tx_upto_ring k m Hu) as (El&Hok&_).
  destruct (tx_upto_cmd k m Hu Hk) as [Hc _]. rewrite Em in *. destruct Hu as [Hi Hr Hh Hsl Hmem].
  assert (tdh_next (dev m1) = (reg (dev m0) TDH + Z.of_nat (S k)) `mod` ring_len tx_ring (dev m0)) as En.
  { change (tdh_next (dev m1)) with (ring_next tx_ring (dev m1)).
    destruct (ring_ext tx_ring (dev m) (dev m1)) as (El1&->&_).
    - intros i Hin. apply Er. unfold ring_list, tx_ring in Hin. cbn in Hin. unfold tx_counters. set_solver.
    - rewrite ring_next_mod by (apply Hi || done). cbn. rewrite El, Hh, Zplus_mod_idemp_l. f_equal. lia. }
  destruct Hpost as [Hi0 _ _ Hl _].
  split; cbn [dev mem update]; rewrite ?Ed.
  - apply dev_inv_set_reg; try done. apply tdh_next_in_w.
  - intros i Hin. apply not_elem_of_cons in Hin as [? Hin]. rewrite reg_set_ne by done.
    rewrite Er, Hr; [done| |done]. by apply not_elem_of_cons.
  - by rewrite reg_set_eq.
  - intros i Hik. destruct (decide (i = k)) as [->|]; [by rewrite Hs, Hc|].
    rewrite Ho, Hsl by first [lia | apply ring_nth_disjoint; [apply Hi0|lia|lia]]. done.
  - intros a l Hd. rewrite Ho, Hmem; [done|..]; [intros; apply Hd; lia|apply Hd; lia].
Qed.

(** The invariant [J k s fs] of the device and of the frames sent holds before
    descriptor [k]; it does not depend on the head register, and processing a
    descriptor, whose buffer is as the guest left it, maintains it. *)
Context (B : nat) (J : nat → E1000State → list (list Z) → Prop).
Context (J_head : ∀ k s fs v, in_w 32 v → J k s fs → J k (set_reg s TDH v) fs).
Context (J_step : ∀ k f m, (k < n)%nat → (B ≤ f)%nat → dev_inv (dev m) → J k (dev m) (sent m) →
  (tx_carries (tx_cmd m0 k) = true →
   tx_chunk (mem m) (tx_cmd m0 k) = tx_chunk (mem m0) (tx_cmd m0 k)) →
  wp (process_tx_desc f (tx_cmd m0 k)) (λ _ m', J (S k) (dev m') (sent m')) m).

Lemma tx_ring_step k f m :
  (k < n)%nat → (B ≤ f)%nat → tx_upto m0 k m → J k (dev m) (sent m) →
  wp (process_tx_desc f (tx_cmd m0 k)) (λ _,
    wp (txdesc_writeback (tx_nth (dev m0) k) (tx_cmd m0 k)) (λ c m2,
      c = (if tx_reports (tx_cmd m0 k) then E1000_ICR_TXDW else 0) ∧
      let m3 := m2 <| dev ::= λ s, set_reg s TDH (tdh_next s) |> in
      tx_upto m0 (S k) m3 ∧ J (S k) (dev m3) (sent m3))) m.
Proof.
  intros Hk Hf Hu HJ. destruct (tx_upto_cmd k m Hu Hk) as [Hc Hch].
  eapply wp_mono.
  { eapply wp_keeps; [|apply keeps_process_tx_desc|apply Hu].
    apply wp_local; [by apply J_step; [..|apply Hu|done|done]|apply tx_local_process_tx_desc]. }
  intros [] m1 [[HJ1 Hfr] Hi1].
  assert (tx_cmd m0 k = tx_desc_decode (phys_read (mem m1) (tx_nth (dev m0) k) 16)) as Ec.
  { destruct Hfr as [-> _]. by rewrite Hc. }
  rewrite Ec at 1. eapply wp_mono; [apply txdesc_writeback_wp|]. rewrite <- Ec.
  intros c m2 (->&Hd&Hsent&Hslot&Hother). split; [done|]. split.
  - by eapply tx_upto_next.
  - cbn [dev sent update]. rewrite Hd, Hsent. by apply J_head; [apply tdh_next_in_w|].
Qed.

Lemma tx_cmds_drop k : (k < n)%nat → drop k (tx_cmds m0 n) = tx_cmd m0 k :: drop (S k) (tx_cmds m0 n).
Proof.
  intros Hk. apply drop_S. unfold tx_cmds. change (map ?g ?l) with (g <$> l).
  rewrite list_lookup_fmap, lookup_seq_lt by done. done.
Qed.

Lemma xmit_loop_ring r k fuel cause m :
  (k + r = n)%nat → (B + r < fuel)%nat → tx_upto m0 k m → J k (dev m) (sent m) →
  wp (xmit_loop fuel (reg (dev m0) TDH) cause) (λ c m',
    c = cause .| tx_cause (drop k (tx_cmds m0 n)) ∧ tx_upto m0 n m' ∧ J n (dev m') (sent m')) m.
Proof.
  revert k fuel cause m. induction r as [|r IH]; intros k fuel cause m Hkr Hf Hu HJ;
    (destruct fuel as [|fuel]; [lia|]); cbn [xmit_loop]; unfold get_reg;
    apply wp_bind, wp_get_dev, wp_bind, wp_get_dev;
    pose proof Hpost as [_ Hr Ht Hl _]; rewrite (upto_head _ _ _ Hu), (upto_regs _ _ _ Hu TDT), Ht by notin.
  { replace k with n in * by lia. rewrite Z.eqb_refl, drop_ge by (unfold tx_cmds; rewrite length_map, length_seq; lia).
    apply wp_ret. by rewrite Z.lor_0_r. }
  rewrite (proj2 (Z.eqb_neq _ _)) by (apply ring_index_ne; lia).
  destruct (tx_upto_ring k m Hu) as (_&_&Hbase). destruct (tx_upto_cmd k m Hu ltac:(lia)) as [Hc _].
  apply wp_bind, wp_get_dev, wp_bind, wp_read. rewrite Hbase.
  change (Z.to_nat (s32 16)) with 16%nat. rewrite Hc. cbv zeta. fold (tx_cmd m0 k). apply wp_bind.
  eapply wp_mono; [apply tx_ring_step; try done; lia|]. intros [] m1 Hw. apply wp_bind.
  eapply wp_mono; [exact Hw|]. cbv zeta. intros c m2 (->&Hu2&HJ2).
  apply wp_bind, wp_mod_dev, wp_bind, wp_get_dev. set (m3 := m2 <| dev ::= _ |>) in *.
  rewrite (upto_head _ _ _ Hu2).
  rewrite (proj2 (Z.eqb_neq _ _)) by (apply (ring_head_ne tx_ring); [done|lia]).
  eapply wp_mono; [apply (IH (S k)); try done; lia|]. intros c m' (->&?&?). split; [|done].
  rewrite (tx_cmds_drop k) by lia. unfold tx_cause. cbn [existsb].
  destruct (tx_reports _), (existsb _ _); cbn [orb]; rewrite ?Z.lor_0_r, <- ?Z.lor_assoc; done.
Qed.

(** What the guest finds afterwards: the reports in the slots and nothing else
    changed in memory; the head at the tail; the queue-empty interrupt pending, and
    the write-back one where a report was asked for. *)
Record tx_finished m : Prop := {
  fin_slots i : (i < n)%nat → phys_read (mem m) (tx_nth (dev m0) i) 16 =
    tx_written (phys_read (mem m0) (tx_nth (dev m0) i) 16);
  fin_mem a l : (∀ i, (i < n)%nat → range_disjoint a l (tx_nth (dev m0) i) 16) →
    phys_read (mem m) a l = phys_read (mem m0) a l;
  fin_head : reg (dev m) TDH = reg (dev m0) TDT;
  fin_regs i : i ∉ TDH :: ICR :: ICS :: tx_counters → reg (dev m) i = reg (dev m0) i;
  fin_icr : reg (dev m) ICR = reg (dev m0) ICR .| E1000_ICS_TXQE .| E1000_ICR_INT_ASSERTED .|
    (if existsb tx_reports (tx_cmds m0 n) then E1000_ICR_TXDW else 0);
  fin_irq : irq (dev m) = has_bits (reg (dev m0) IMS) (reg (dev m) ICR);
}.

Lemma tx_upto_finished m :
  tx_upto m0 n m → tx_finished (m <| dev ::= λ s, set_ics s 0 (E1000_ICS_TXQE .| tx_cause (tx_cmds m0 n)) |>).
Proof.
  intros [Hi Hr Hh Hs Hm]. destruct Hpost as [_ _ Ht _ _].
  split; cbn [mem dev update]; try done.
  - unfold set_ics. by rewrite reg_set_interrupt_cause, Hh, Ht by done.
  - intros i Hin. rewrite !not_elem_of_cons in Hin. destruct Hin as (?&?&?&?).
    unfold set_ics. rewrite reg_set_interrupt_cause by done. apply Hr. by apply not_elem_of_cons.
  - by rewrite set_ics_icr, Hr by first [done|notin].
  - unfold set_ics. rewrite set_interrupt_cause_irq, (reg_set_interrupt_cause _ _ _ IMS), Hr by first [done|notin]. done.
Qed.

Lemma start_xmit_ring fuel :
  (B + n < fuel)%nat → has_bits (reg (dev m0) TCTL) E1000_TCTL_EN = true → J 0 (dev m0) (sent m0) →
  ∃ m s, start_xmit fuel m0 = Ret () m ∧ tx_finished m ∧ J n s (sent m) ∧ tx (dev m) = tx s ∧
    ∀ i, i ∈ tx_counters → reg (dev m) i = reg s i.
Proof.
  intros Hf Hen HJ. set (v := E1000_ICS_TXQE .| tx_cause (tx_cmds m0 n)).
  assert (wp (start_xmit fuel) (λ _ m, ∃ m1, m = m1 <| dev ::= λ s, set_ics s 0 v |> ∧
    tx_upto m0 n m1 ∧ J n (dev m1) (sent m1)) m0) as Hw.
  { unfold start_xmit, get_reg. apply wp_bind, wp_get_dev, wp_bind, wp_get_dev. rewrite Hen. cbn [negb].
    apply wp_bind. eapply wp_mono; [apply (xmit_loop_ring n 0); try done; apply tx_upto_0|].
    rewrite drop_0. fold v. intros c m1 (->&?&?). apply wp_mod_dev. by exists m1. }
  destruct (wp_unit _ _ _ Hw) as (m&E&m1&->&Hu&HJ1).
  eexists _, (dev m1). split; [exact E|]. split; [by apply tx_upto_finished|]. split_and!; try done.
  assert (ICR ∉ tx_counters) by notin. assert (ICS ∉ tx_counters) by notin.
  intros i Hi. apply reg_set_interrupt_cause; by intros ->.
Qed.
End loop.
End ring.
