(* ===== verification/E1000TxSpec.v ===== *)
(** * Correctness of the transmit path

    [xmit_seg] stays inside its buffers in every well-formed state; what legacy
    descriptors transmit; the ring loop; and the two ways in which a guest can
    make [process_tx_desc] misbehave. *)

From S2P Require Import Prelude Bytes Memory NetChecksum E1000Hw E1000State E1000Tx E1000Ring AdminQ E1000Mmio E1000Inv E1000TxRing.
Import Checksum.

(** ** Safety of [xmit_seg] *)

Section safety.
Context {X P : Type} `{PhysMemLaws X} `{MsgLink P}.
Abbreviation MM := (M (machine X P)).

(** [safe m]: in a well-formed state, [m] returns. *)
Definition safe {A} (m : MM A) : Prop := ∀ s, dev_inv (dev s) → wp m (λ _ _, True) s.

Lemma safe_ret {A} (a : A) : safe (mret a).
Proof. done. Qed.

Lemma safe_bind {A B} (m : MM A) (k : A → MM B) (R : A → Prop) :
  safe m → keeps m R → (∀ a, R a → safe (k a)) → safe (m ≫= k).
Proof.
  intros Hm HR Hk s Hs. apply wp_bind. specialize (Hm s Hs). specialize (HR s Hs).
  unfold wp, ens in *. destruct (m s) as [a s'| |]; try done.
  destruct HR as [Ha Hs']. by apply Hk.
Qed.

Lemma safe_seq {A B} (m : MM A) (k : MM B) :
  safe m → keeps m (λ _, True) → safe k → safe (m ≫= λ _, k).
Proof. intros. by eapply safe_bind. Qed.

Lemma safe_get_dev {A} (f : E1000State → A) : safe (get_dev f).
Proof. done. Qed.
Lemma safe_mod_dev f : safe (mod_dev f).
Proof. done. Qed.
Lemma safe_send f : safe (qemu_send_packet f).
Proof. done. Qed.

Lemma safe_oob {A} (o : option A) : is_Some o → safe (oob o).
Proof. by intros [a ->]. Qed.

Lemma safe_data_load off n : 0 ≤ off → 0 ≤ n → off + n ≤ 0x10000 → safe (data_load off n).
Proof.
  intros Ho Hn Hb s [Hs _]. apply wp_bind, wp_gets.
  destruct (tx_data_ok _ (dev_tx_ok _ Hs)) as [Hl _]. rewrite load_in by lia. done.
Qed.

Lemma safe_data_store off l :
  0 ≤ off → off + Z.of_nat (length l) ≤ 0x10000 → safe (data_store off l).
Proof.
  intros Ho Hb s [Hs _]. apply wp_bind, wp_gets.
  destruct (tx_data_ok _ (dev_tx_ok _ Hs)) as [Hl _]. rewrite store_in by lia. done.
Qed.

Lemma length_be16 v : length (cpu_to_be16wu v) = 2%nat.
Proof. done. Qed.
Lemma length_be32 v : length (cpu_to_be32wu v) = 4%nat.
Proof. done. Qed.

Lemma putsum_safe d n sloc css cse :
  in_w 16 n → in_w 8 sloc → in_w 8 css → in_w 16 cse →
  n ≤ Z.of_nat (length d) → sloc + 2 ≤ Z.of_nat (length d) →
  is_Some (putsum d n sloc css cse).
Proof.
  unfold in_w. intros Hn Hs Hc He Hd Hl. unfold putsum. cbv zeta.
  set (m := if _ && _ then _ else n).
  assert (0 ≤ m ≤ n) as Hm.
  { unfold m. destruct (Z.eqb_spec cse 0), (Z.ltb_spec cse n); cbn; try lia.
    rewrite u32_small; lia. }
  clearbody m. case_match; [|done].
  assert (Z.to_nat (s32 (u32 (m - css))) ≤ length (drop (Z.to_nat css) d))%nat as Hle.
  { rewrite length_drop. unfold s32, u32, wrap. destruct (Z.le_gt_cases css m).
    - rewrite (Z.mod_small (m - css)) by lia. rewrite Z.mod_small; lia.
    - replace (m - css) with (m - css + 2 ^ 32 + (-1) * 2 ^ 32) by lia.
      rewrite Z.mod_add, (Z.mod_small (m - css + 2 ^ 32)) by lia.
      replace (m - css + 2 ^ 32 + 2 ^ 31) with (m - css + 2 ^ 31 + 1 * 2 ^ 32) by lia.
      rewrite Z.mod_add, Z.mod_small by lia. lia. }
  assert (is_Some (net_checksum_add (s32 (u32 (m - css))) (drop (Z.to_nat css) d))) as [sum ->].
  { unfold net_checksum_add. change 0 with (u32 0) at 1.
    rewrite net_checksum_loop_spec by done. eauto. }
  cbn [mbind option_bind]. rewrite store_in; [eauto|]. rewrite length_be16. lia.
Qed.

End safety.

(** One step through a body, by the shape of its first operation. *)
Ltac safe_step :=
  lazymatch goal with
  | |- safe (mret _) => apply safe_ret
  | |- safe (if ?b then _ else _) => destruct b
  | |- safe (get_tx id ≫= _) =>
      eapply safe_bind; [apply safe_get_dev|apply (keeps_get_tx id tx_ok); auto|intros ? ?]
  | |- safe (get_tx tx_data ≫= _) =>
      eapply safe_bind; [apply safe_get_dev|
        apply (keeps_get_tx _ (λ d, length d = Z.to_nat 0x10000 ∧ bytes_ok d));
          intros ? Ht; exact (tx_data_ok _ Ht)|intros ? [? ?]]
  | |- safe (get_tx tx_size ≫= _) =>
      eapply safe_bind; [apply safe_get_dev|apply (keeps_get_tx _ (in_w 16)); intros ? Ht;
                          exact (Forall_inv (tx_u16_ok _ Ht))|intros ? ?]
  | |- safe (get_reg _ ≫= _) => eapply safe_bind; [apply safe_get_dev|apply keeps_get_reg|intros ? ?]
  | |- safe (data_load _ _ ≫= _) =>
      eapply safe_bind; [apply safe_data_load|apply keeps_data_load|intros ? ?]
  | |- safe (_ ≫= _) => apply safe_seq
  | |- safe (data_store _ _) => apply safe_data_store; rewrite ?length_be16, ?length_be32
  | |- safe (qemu_send_packet _) => apply safe_send
  | |- safe (mod_dev _) => apply safe_mod_dev
  | |- safe (mod_tx _) => apply safe_mod_dev
  end.

Section xmit_seg_safe.
Context {X P : Type} `{PhysMemLaws X} `{MsgLink P}.
Abbreviation safe := (@safe X P _).

Lemma tx_u8_range t : tx_ok t →
  0 ≤ tx_ipcss t < 256 ∧ 0 ≤ tx_ipcso t < 256 ∧ 0 ≤ tx_tucss t < 256 ∧ 0 ≤ tx_tucso t < 256 ∧
  0 ≤ tx_hdr_len t < 256 ∧ 0 ≤ tx_size t < 65536 ∧ 0 ≤ tx_ipcse t < 65536 ∧ 0 ≤ tx_tucse t < 65536.
Proof.
  intros [].
  repeat match goal with H : Forall _ (_ :: _) |- _ => apply Forall_cons_iff in H as [? ?] end.
  unfold in_w in *. lia.
Qed.

Lemma safe_xmit_seg_tso : safe xmit_seg_tso.
Proof.
  unfold xmit_seg_tso. safe_step.
  match goal with Ht : tx_ok _ |- _ => pose proof (tx_u8_range _ Ht) as Hr end.
  repeat (safe_step; cbv zeta); try (cbn; lia); try (repeat keeps_step; auto with vf; done).
  repeat (keeps_step; cbv zeta); auto with vf. repeat constructor; apply u8_range.
Qed.

Lemma safe_xmit_seg_sums : safe xmit_seg_sums.
Proof.
  unfold xmit_seg_sums. safe_step.
  match goal with Ht : tx_ok _ |- _ => pose proof (tx_u8_range _ Ht) as Hr end.
  assert (∀ sloc css cse, 0 ≤ sloc < 256 → 0 ≤ css < 256 → 0 ≤ cse < 65536 →
    safe (d ← get_tx tx_data; d ← oob (putsum d (tx_size a) sloc css cse);
          mod_tx (λ t, t <| tx_data := d |>)) ∧
    keeps (X := X) (P := P) (d ← get_tx tx_data; d ← oob (putsum d (tx_size a) sloc css cse);
          mod_tx (λ t, t <| tx_data := d |>)) (λ _, True)) as Hp.
  { intros sloc css cse ???. split.
    - safe_step. eapply safe_bind; [apply safe_oob, putsum_safe; unfold in_w; lia|
        apply (keeps_oob _ (λ _, True)); done|intros; safe_step].
    - repeat (keeps_step; cbv zeta). apply keeps_set_data; by edestruct putsum_ok as [? ?]. }
  safe_step; [safe_step|keeps_step|safe_step]; try apply Hp; try lia;
    first [apply safe_ret | by apply keeps_ret].
Qed.

Lemma safe_xmit_seg_send : safe xmit_seg_send.
Proof.
  intros s Hs. pose proof (dev_tx_ok _ (proj1 Hs)) as Ht. pose proof (tx_u8_range _ Ht) as Hr.
  destruct (tx_data_ok _ Ht) as [Hdl _]. destruct (tx_vlan_header_ok _ Ht) as [Hvl _].
  unfold xmit_seg_send. apply wp_bind, wp_gets. cbn [id]. destruct (negb _); cycle 1.
  { apply wp_bind, wp_bind, wp_gets. rewrite load_in by lia. by apply wp_ret. }
  unfold data_load, data_store. apply wp_bind, wp_bind, wp_gets. rewrite load_in by lia.
  apply wp_ret, wp_bind, wp_modify, wp_bind, wp_bind, wp_gets. cbn [dev tx tx_data update].
  rewrite load_in by lia. apply wp_ret.
  assert (length (take (Z.to_nat 4) (drop (Z.to_nat 0) (tx_data (tx (dev s))))) = 4%nat) as Hv
    by (rewrite length_take, length_drop; lia).
  assert (length (take (Z.to_nat 8) (drop (Z.to_nat 4) (tx_data (tx (dev s))))) = 8%nat) as Hd
    by (rewrite length_take, length_drop; lia).
  apply wp_bind, wp_bind, wp_gets. cbn [dev tx tx_data update].
  destruct (store (tx_data (tx (dev s))) (Z.to_nat 0) _) as [d1|] eqn:E1;
    [|rewrite store_in in E1 by lia; done].
  apply wp_bind, wp_ret, wp_modify. pose proof (store_length _ _ _ _ E1) as Hl1.
  apply wp_bind, wp_bind, wp_gets. cbn [dev tx tx_data update].
  destruct (store d1 (Z.to_nat 8) _) as [d2|] eqn:E2; [|rewrite store_in in E2 by lia; done].
  apply wp_bind, wp_ret, wp_modify. pose proof (store_length _ _ _ _ E2) as Hl2.
  apply wp_bind, wp_gets. cbn [id dev tx tx_data tx_vlan tx_size update].
  rewrite load_in by (rewrite length_app; lia). apply wp_bind, wp_ret. done.
Qed.

Lemma safe_xmit_seg : safe xmit_seg.
Proof.
  unfold xmit_seg. safe_step. safe_step; [safe_step|..].
  - apply safe_xmit_seg_tso.
  - apply safe_ret.
  - keeps_step; [apply keeps_xmit_seg_tso|by apply keeps_ret].
  - safe_step; [apply safe_xmit_seg_sums|apply keeps_xmit_seg_sums|].
    safe_step; [apply safe_xmit_seg_send|apply keeps_xmit_seg_send|].
    unfold xmit_seg_stats, put_reg. repeat safe_step; try done;
      apply keeps_set_reg; try done; intros; apply u32_in_w.
Qed.

(** C22: in every state a device can be in, transmitting a segment stays inside the
    transmit buffers: whatever header offsets, checksum fields and sizes the
    guest has set up, [xmit_seg] returns without an access out of bounds and
    leaves a well-formed state. *)
Theorem xmit_seg_in_bounds (m : machine X P) :
  dev_ok (dev m) → irq_ok (dev m) →
  ∃ m', xmit_seg m = Ret () m' ∧ dev_ok (dev m') ∧ irq_ok (dev m').
Proof.
  intros Hd Hi.
  pose proof (safe_xmit_seg m (conj Hd Hi)) as Hw. pose proof (keeps_xmit_seg m (conj Hd Hi)) as Hk.
  unfold wp, ens in *. destruct (xmit_seg m) as [[] m'| |]; try done.
  exists m'. split; [done|]. apply Hk.
Qed.
End xmit_seg_safe.

(** ** Legacy descriptors *)

(** The good octets transmitted: a counter of 64 bits in two registers. *)
Definition tx_octets (s : E1000State) : Z := reg s TOTL + 2 ^ 32 * reg s TOTH.

(** [n] frames of [bytes] octets in total were counted. *)
Record tx_counted (s s' : E1000State) (n bytes : Z) : Prop := {
  counted_tpt : reg s' TPT = u32 (reg s TPT + n);
  counted_gptc : reg s' GPTC = u32 (reg s GPTC + n);
  counted_octets : tx_octets s' = u64 (tx_octets s + bytes);
}.

Lemma tx_counted_trans s1 s2 s3 n b n' b' :
  tx_counted s1 s2 n b → tx_counted s2 s3 n' b' → tx_counted s1 s3 (n + n') (b + b').
Proof.
  intros [T1 G1 O1] [T2 G2 O2]. split.
  - rewrite T2, T1, u32_add_l. f_equal. lia.
  - rewrite G2, G1, u32_add_l. f_equal. lia.
  - rewrite O2, O1. unfold u64. rewrite wrap_add_l. f_equal. lia.
Qed.

Lemma tx_octets_range s : (∀ i, in_w 32 (reg s i)) → 0 ≤ tx_octets s < 2 ^ 64.
Proof.
  intros Hs. pose proof (Hs TOTL). pose proof (Hs TOTH).
  unfold in_w, tx_octets in *. lia.
Qed.

Lemma tx_counted_ext s s' t n b :
  (∀ i, i ∈ tx_counters → reg t i = reg s' i) → tx_counted s s' n b → tx_counted s t n b.
Proof.
  intros E []. unfold tx_octets, tx_counters in *. split; unfold tx_octets; rewrite !E by set_solver; done.
Qed.

Lemma tx_counted_refl s s' :
  (∀ i, in_w 32 (reg s i)) → (∀ i, i ∈ tx_counters → reg s' i = reg s i) → tx_counted s s' 0 0.
Proof.
  intros Hs E. apply (tx_counted_ext s s); [done|]. pose proof (tx_octets_range s Hs).
  split; rewrite Z.add_0_r; [by rewrite u32_small by apply Hs..|by rewrite u64_small by lia].
Qed.

(** The bytes [p] of a frame without offloads have been gathered. *)
Record tx_ready (t : e1000_tx) (p : list Z) : Prop := {
  ready_sum : tx_sum_needed t = 0;
  ready_vlan : tx_vlan_needed t = 0;
  ready_size : tx_size t = Z.of_nat (length p);
  ready_data : take (length p) (tx_data t) = p;
}.

(** Adding to a counter of 64 bits kept in two registers. *)
Lemma count_64 lo hi n :
  in_w 32 lo → in_w 32 hi → 0 ≤ n < 2 ^ 32 →
  u32 (lo + n) + 2 ^ 32 * u32 (hi + if u32 (lo + n) <? lo then 1 else 0) = u64 (lo + 2 ^ 32 * hi + n).
Proof.
  unfold in_w, u32, u64, wrap. change (2 ^ 32) with 4294967296.
  change (2 ^ 64) with (4294967296 * 4294967296). intros.
  destruct (Z.ltb_spec ((lo + n) `mod` 4294967296) lo); Z.div_mod_to_equations; nia.
Qed.

Section legacy.
Context {X P : Type} `{PhysMemLaws X} `{MsgLink P}.
Abbreviation MM := (M (machine X P)).
Implicit Types (m : machine X P).

Lemma xmit_seg_stats_wp m :
  (∀ i, in_w 32 (reg (dev m) i)) → 0 ≤ tx_size (tx (dev m)) < 65536 →
  wp xmit_seg_stats (λ _ m', sent m' = sent m ∧ mem m' = mem m ∧ tx (dev m') = tx (dev m) ∧
    tx_counted (dev m) (dev m') 1 (tx_size (tx (dev m)))) m.
Proof.
  intros Hs Hn. pose proof (count_64 (reg (dev m) TOTL) (reg (dev m) TOTH) (tx_size (tx (dev m)))
    (Hs _) (Hs _) ltac:(lia)) as Hc. pose proof (Hs TOTH) as Hh.
  unfold xmit_seg_stats, put_reg, get_reg.
  apply wp_bind, wp_get_dev, wp_bind, wp_mod_dev, wp_bind, wp_mod_dev, wp_bind, wp_get_dev,
    wp_bind, wp_mod_dev, wp_bind, wp_get_dev.
  cbn [dev update]. reg_simpl.
  case_match; [apply wp_mod_dev|apply wp_ret]; cbn [dev sent mem]; split_and!; try done;
    split; cbn [dev update]; try (by reg_simpl); unfold tx_octets; rewrite <- Hc; reg_simpl; [done|].
  by rewrite Z.add_0_r, (u32_small (reg _ TOTH)) by apply Hh.
Qed.

(** A frame without offloads is sent as it was gathered. *)
Lemma xmit_seg_plain p m :
  (∀ i, in_w 32 (reg (dev m) i)) → length (tx_data (tx (dev m))) = Z.to_nat 0x10000 →
  tx_ready (tx (dev m)) p → Z.of_nat (length p) < 65536 → tx_cptse (tx (dev m)) = 0 →
  wp xmit_seg (λ _ m', sent m' = sent m ++ [p] ∧ mem m' = mem m ∧ tx (dev m') = tx (dev m) ∧
    tx_counted (dev m) (dev m') 1 (Z.of_nat (length p))) m.
Proof.
  intros Hs Hdl [Hsum Hvl Hsz Hd] Hn Hc.
  unfold xmit_seg. apply wp_bind, wp_get_dev. cbn [id]. rewrite Hc. rewrite andb_false_r.
  apply wp_bind, wp_ret, wp_bind. unfold xmit_seg_sums. apply wp_bind, wp_get_dev. cbn [id].
  rewrite Hsum. apply wp_bind, wp_ret, wp_ret, wp_bind. unfold xmit_seg_send.
  apply wp_bind, wp_get_dev. cbn [id]. rewrite Hvl. cbn [negb Z.eqb].
  apply wp_bind, wp_bind, wp_get_dev. rewrite Hsz, load_in by lia.
  rewrite drop_0, Nat2Z.id, Hd. apply wp_ret, wp_modify.
  eapply wp_mono; [apply xmit_seg_stats_wp; [done|cbn; lia]|]. cbn [dev sent mem]. by rewrite <- Hsz.
Qed.

(** A descriptor of the legacy kind, without a VLAN tag. *)
Definition legacy_desc (d : e1000_tx_desc) : bool :=
  negb (has_bits (txd_lower d) E1000_TXD_CMD_DEXT) && negb (is_vlan_txd (txd_lower d)).

Lemma legacy_dtype v : has_bits v E1000_TXD_CMD_DEXT = false →
  let dtype := v .& (E1000_TXD_CMD_DEXT .| E1000_TXD_DTYP_D) in
  (dtype =? E1000_TXD_CMD_DEXT) = false ∧
  (dtype =? E1000_TXD_CMD_DEXT .| E1000_TXD_DTYP_D) = false.
Proof.
  change E1000_TXD_CMD_DEXT with (2 ^ 29). rewrite has_bits_pow2 by lia. intros Hv dtype.
  assert (Z.testbit dtype 29 = false) as Hd by (unfold dtype; by rewrite Z.land_spec, Hv).
  split; apply Z.eqb_neq; intros E; rewrite E in Hd; done.
Qed.

Lemma legacy_carries d : legacy_desc d = true → tx_carries d = true.
Proof.
  intros [Hx%negb_true_iff _]%andb_true_iff. destruct (legacy_dtype _ Hx) as [E _].
  unfold tx_carries. by rewrite E.
Qed.

Lemma store_gather b p l :
  take (length p) b = p → (length p + length l ≤ length b)%nat →
  ∃ b', store b (length p) l = Some b' ∧ length b' = length b ∧
    take (length (p ++ l)) b' = p ++ l.
Proof.
  intros Hp Hl. eexists. rewrite store_in by done. split; [done|].
  rewrite Hp. split; [rewrite !length_app, length_drop; lia|].
  by rewrite app_assoc, take_app_length.
Qed.

Lemma process_tx_desc_legacy fuel d p m :
  dev_ok (dev m) → legacy_desc d = true → tx_ready (tx (dev m)) p →
  Z.of_nat (length p) + tx_len d < 65536 →
  wp (process_tx_desc fuel d) (λ _ m',
    mem m' = mem m ∧
    tx_ready (tx (dev m')) (if tx_eop d then [] else p ++ tx_chunk (mem m) d) ∧
    sent m' = sent m ++ (if tx_eop d then [p ++ tx_chunk (mem m) d] else []) ∧
    tx_counted (dev m) (dev m') (flag (tx_eop d))
      (if tx_eop d then Z.of_nat (length p) + tx_len d else 0)) m.
Proof.
  intros Hs Hl [Hsum Hvl Hsz Hd] Hlen. pose proof (tx_len_range d).
  apply andb_true_iff in Hl as [Hx Hv]. apply negb_true_iff in Hx, Hv.
  destruct (legacy_dtype _ Hx) as [Ed1 Ed2]. destruct (tx_data_ok _ (dev_tx_ok _ Hs)) as [Hdl _].
  unfold process_tx_desc. cbv zeta. rewrite Ed1. apply wp_bind, wp_get_dev.
  unfold tx_begin. rewrite Ed2, Hv, andb_false_r. cbn [andb].
  apply wp_bind, wp_mod_dev. cbn [tx_tse tx_cptse update]. rewrite andb_false_r. cbn [andb negb Z.eqb].
  rewrite andb_false_r. apply wp_bind, wp_bind, wp_get_dev, wp_bind, wp_read.
  cbn [dev mem tx tx_size update]. fold (tx_len d).
  rewrite s32_small by lia.
  fold (tx_chunk (mem m) d). pose proof (tx_chunk_length (mem m) d) as Hcl.
  destruct (store_gather (tx_data (tx (dev m))) p (tx_chunk (mem m) d) Hd ltac:(lia))
    as (b&Hb&Hbl&Hbd).
  apply wp_bind, wp_bind, wp_get_dev. cbn [dev tx tx_data update]. rewrite Hsz, Nat2Z.id, Hb.
  apply wp_bind, wp_ret, wp_mod_dev, wp_mod_dev. fold (tx_eop d).
  rewrite u16_small by lia. set (q := p ++ tx_chunk (mem m) d) in *.
  assert (Z.of_nat (length p) + tx_len d = Z.of_nat (length q)) as Hq
    by (unfold q; rewrite length_app; lia). rewrite Hq in *.
  destruct (tx_eop d); cbn [negb]; cycle 1.
  { apply wp_ret. cbn. split_and!; [done|by split|by rewrite app_nil_r|].
    by apply tx_counted_refl; [apply Hs|]. }
  apply wp_bind, wp_get_dev. cbn [id tx_tse tx_cptse tx dev update].
  rewrite andb_false_r. cbn [andb negb]. apply wp_bind. eapply wp_mono.
  { apply (xmit_seg_plain q); try done; [apply Hs|cbn; lia]. }
  intros _ m' (Hsent&Hmem&_&Hc). apply wp_mod_dev. cbn in *. split_and!; try done.
  destruct Hc. by split.
Qed.

(** *** What a list of legacy descriptors transmits *)

(** The frames the buffers of the descriptors make up, after the bytes [p]
    gathered before, and the bytes gathered for the next frame. *)
Fixpoint tx_frames (x : X) (p : list Z) (ds : list e1000_tx_desc) : list (list Z) * list Z :=
  match ds with
  | [] => ([], p)
  | d :: ds =>
      let q := p ++ tx_chunk x d in
      if tx_eop d then let '(fs, r) := tx_frames x [] ds in (q :: fs, r)
      else tx_frames x q ds
  end.

(** No frame reaches the 64 KiB of the buffer. *)
Fixpoint tx_fits (n : Z) (ds : list e1000_tx_desc) : Prop :=
  match ds with
  | [] => True
  | d :: ds => n + tx_len d < 65536 ∧ tx_fits (if tx_eop d then 0 else n + tx_len d) ds
  end.

Definition frame_bytes (fs : list (list Z)) : Z := Z.of_nat (length (concat fs)).

Lemma tx_frames_snoc x p ds d :
  let '(fs, q) := tx_frames x p ds in
  tx_frames x p (ds ++ [d]) = if tx_eop d then (fs ++ [q ++ tx_chunk x d], []) else (fs, q ++ tx_chunk x d).
Proof.
  revert p. induction ds as [|e ds IH]; intros p; cbn; [by case_match|].
  destruct (tx_eop e); [specialize (IH [])|apply (IH (p ++ tx_chunk x e))].
  destruct (tx_frames x [] ds) as [fs q]. rewrite IH. by destruct (tx_eop d).
Qed.

Lemma tx_fits_at x p ds k d :
  tx_fits (Z.of_nat (length p)) ds → ds !! k = Some d →
  Z.of_nat (length (tx_frames x p (take k ds)).2) + tx_len d < 65536.
Proof.
  revert p k. induction ds as [|e ds IH]; intros p k; [done|]. intros [Hlen Hfit] Hk.
  destruct k as [|k]; [injection Hk as ->; done|]. cbn. pose proof (tx_len_range e).
  destruct (tx_eop e).
  - specialize (IH [] k Hfit Hk). by destruct (tx_frames x [] (take k ds)).
  - apply IH; [|done]. rewrite length_app, tx_chunk_length.
    by replace (Z.of_nat _) with (Z.of_nat (length p) + tx_len e) by lia.
Qed.

(** The guest has handed over [n] legacy descriptors; [p] has been gathered
    before. *)
Record tx_job m (n : nat) (p : list Z) : Prop := {
  job_posted : tx_posted m n;
  job_ready : tx_ready (tx (dev m)) p;
  job_legacy i : (i < n)%nat → legacy_desc (tx_cmd m i) = true;
  job_fits : tx_fits (Z.of_nat (length p)) (tx_cmds m n);
}.

(** After [k] of them. *)
Definition legacy_upto m n p (k : nat) (s : E1000State) (out : list (list Z)) : Prop :=
  let '(fs, q) := tx_frames (mem m) p (take k (tx_cmds m n)) in
  tx_ready (tx s) q ∧ out = sent m ++ fs ∧
  tx_counted (dev m) s (Z.of_nat (length fs)) (frame_bytes fs).

Lemma legacy_upto_head m n p k s out v :
  legacy_upto m n p k s out → legacy_upto m n p k (set_reg s TDH v) out.
Proof.
  unfold legacy_upto. destruct (tx_frames _ _ _) as [fs q]. intros (?&?&?). split_and!; try done.
  eapply tx_counted_ext; [|done]. intros i Hi. apply reg_set_ne. intros <-.
  by assert (TDH ∉ tx_counters) by notin.
Qed.

Lemma legacy_upto_step m n p k f m1 :
  tx_job m n p → (k < n)%nat → dev_inv (dev m1) → legacy_upto m n p k (dev m1) (sent m1) →
  tx_chunk (mem m1) (tx_cmd m k) = tx_chunk (mem m) (tx_cmd m k) →
  wp (process_tx_desc f (tx_cmd m k)) (λ _ m', legacy_upto m n p (S k) (dev m') (sent m')) m1.
Proof.
  intros [_ _ Hleg Hfit] Hk [Hok _] HJ Hch. set (d := tx_cmd m k) in *.
  assert (tx_cmds m n !! k = Some d) as Hd.
  { unfold tx_cmds. change (map ?g ?l) with (g <$> l). by rewrite list_lookup_fmap, lookup_seq_lt. }
  pose proof (tx_fits_at (mem m) p _ k d Hfit Hd) as Hlen. unfold legacy_upto in *.
  rewrite (take_S_r _ _ _ Hd). pose proof (tx_frames_snoc (mem m) p (take k (tx_cmds m n)) d) as Hs.
  destruct (tx_frames (mem m) p (take k _)) as [fs q]. destruct HJ as (Hr&Ho&Hc). cbn [snd] in Hlen.
  eapply wp_mono; [by apply (process_tx_desc_legacy f d q); [..|apply Hleg|done|done]|].
  intros [] m2 (_&Hr2&Ho2&Hc2). rewrite Hch in *. pose proof (tx_counted_trans _ _ _ _ _ _ _ Hc Hc2) as Hc3.
  pose proof (tx_len_range d). rewrite Hs. destruct (tx_eop d); split_and!; try done.
  - by rewrite Ho2, Ho, app_assoc.
  - rewrite length_app, Nat2Z.inj_add. unfold frame_bytes in *.
    rewrite concat_app, length_app, Nat2Z.inj_add. cbn [concat length]. rewrite app_nil_r, length_app, tx_chunk_length.
    by replace (Z.of_nat (length q + Z.to_nat (tx_len d))) with (Z.of_nat (length q) + tx_len d) by lia.
  - by rewrite Ho2, Ho, app_nil_r.
  - by rewrite !Z.add_0_r in Hc3.
Qed.

(** C6: a guest that hands over [n] legacy descriptors (fewer than the ring holds, none
    asking for a VLAN tag, no packet larger than the transmit buffer) and enables the transmitter has exactly the frames it described sent, in
    order: each frame is the buffers of its descriptors one after the other, up
    to the one marked as the end of the packet. The head register has moved to
    the tail, across the end of the ring; every descriptor that asked for it
    carries the done bit, and guest memory outside the slots is unchanged; the
    packet and octet counters have grown by what was sent; and the queue-empty
    interrupt, with the write-back one where a report was asked for, is
    pending. *)
Theorem start_xmit_legacy fuel n p m :
  (n < fuel)%nat → tx_job m n p → has_bits (reg (dev m) TCTL) E1000_TCTL_EN = true →
  let '(frames, rest) := tx_frames (mem m) p (tx_cmds m n) in
  ∃ m', start_xmit fuel m = Ret () m' ∧ sent m' = sent m ++ frames ∧ tx_ready (tx (dev m')) rest ∧
    tx_finished m n m' ∧ tx_counted (dev m) (dev m') (Z.of_nat (length frames)) (frame_bytes frames).
Proof.
  intros Hf Hj Hen. destruct (start_xmit_ring m n (job_posted _ _ _ Hj) 0 (legacy_upto m n p)
    (λ k s fs v _, legacy_upto_head m n p k s fs v)) with (fuel := fuel) as (m'&s&E&Hfin&HJ&Etx&Ecn); try done.
  - intros k f m1 Hk _ Hi HJ Hch. apply legacy_upto_step; try done. apply Hch, legacy_carries, Hj; done.
  - unfold legacy_upto. cbn. split_and!; [apply Hj|by rewrite app_nil_r|].
    apply tx_counted_refl; [apply Hj|done].
  - unfold legacy_upto in HJ. rewrite take_ge in HJ by (unfold tx_cmds; rewrite length_map, length_seq; lia).
    destruct (tx_frames _ _ _) as [fs q]. destruct HJ as (Hr&Ho&Hc). exists m'. rewrite Etx. split_and!; try done.
    by apply (tx_counted_ext _ s).
Qed.
End legacy.

(** ** What the guest can do to the device *)

Section misuse.
Context {X P : Type} `{PhysMemLaws X} `{MsgLink P}.
Abbreviation MM := (M (machine X P)).
Implicit Types (m : machine X P).

(** C38: the copy of a descriptor's buffer does not compare the gathered size with
    the size of [tx.data]: in every state, a legacy descriptor whose buffer
    would end behind the 64 KiB makes the device write out of bounds. *)
Theorem process_tx_desc_overflow fuel d m :
  dev_ok (dev m) → legacy_desc d = true → 0x10000 < tx_size (tx (dev m)) + tx_len d →
  process_tx_desc fuel d m = UB OutOfBounds.
Proof.
  intros Hs Hl Hlen. pose proof (tx_len_range d).
  apply andb_true_iff in Hl as [Hx Hv]. apply negb_true_iff in Hx, Hv.
  destruct (legacy_dtype _ Hx) as [Ed1 Ed2]. destruct (tx_data_ok _ (dev_tx_ok _ Hs)) as [Hdl _].
  unfold process_tx_desc, tx_begin. cbv zeta. rewrite Ed1, Ed2, Hv.
  unfold mbind, M_bind, get_dev, gets. rewrite andb_false_r. cbn. rewrite !andb_false_r. cbn.
  unfold data_store, get_tx, get_dev, gets, mbind, M_bind. cbn.
  rewrite store_out; [done|]. rewrite phys_read_length, Hdl. fold (tx_len d).
  rewrite s32_small by lia. lia.
Qed.

Lemma safe_keeps {A} (c : MM A) R m :
  safe c → keeps c R → dev_inv (dev m) → wp c (λ a m', R a ∧ dev_inv (dev m')) m.
Proof.
  intros Hs Hk Hi. specialize (Hs m Hi). specialize (Hk m Hi). unfold wp, ens in *.
  by destruct (c m).
Qed.

Lemma safe_tx_header {A} (k : list Z → MM A) :
  (∀ h, length h = 256%nat → bytes_ok h → safe (k h)) → safe (get_tx tx_header ≫= k).
Proof.
  intros Hk. eapply safe_bind; [apply safe_get_dev|apply (keeps_get_tx _
    (λ h, length h = 256%nat ∧ bytes_ok h)); intros t Ht; exact (tx_header_ok t Ht)|].
  intros h [? ?]. by apply Hk.
Qed.

Lemma safe_load_data {A} hdr (k : list Z → MM A) :
  0 ≤ hdr ≤ 0x10000 → (∀ l, length l = Z.to_nat hdr → bytes_ok l → safe (k l)) →
  safe (data_load 0 hdr ≫= k).
Proof.
  intros Hh Hk s Hs. destruct (tx_data_ok _ (dev_tx_ok _ (proj1 Hs))) as [Hl Hb].
  apply wp_bind, wp_bind, wp_get_dev. rewrite load_in by lia. apply wp_ret, Hk; [|..|done].
  - rewrite length_take, length_drop. lia.
  - by apply bytes_ok_take, bytes_ok_drop.
Qed.

Lemma tso_next_wp hdr m :
  dev_inv (dev m) → 0 ≤ hdr < 256 →
  wp (xmit_seg;; hd ← get_tx tx_header; h ← oob (load hd 0 (Z.to_nat hdr)); data_store 0 h;;
      mod_tx (λ t, t <| tx_size := u16 hdr |>))
    (λ _ m', dev_inv (dev m') ∧ tx_size (tx (dev m')) = hdr) m.
Proof.
  intros Hi Hhdr. apply wp_bind.
  eapply wp_mono; [apply safe_keeps; [apply safe_xmit_seg|apply keeps_xmit_seg|exact Hi]|].
  intros _ m1 [_ Hi1]. destruct (tx_header_ok _ (dev_tx_ok _ (proj1 Hi1))) as [Hhl Hho].
  apply wp_bind, wp_get_dev. rewrite load_in by lia. apply wp_bind, wp_ret, wp_bind.
  eapply wp_mono; [apply safe_keeps; [|apply keeps_data_store|exact Hi1]|].
  { apply safe_data_store; [lia|]. rewrite length_take. lia. }
  { by apply bytes_ok_take, bytes_ok_drop. }
  intros _ m2 [_ Hi2].
  pose proof (safe_keeps (mod_tx (λ t, t <| tx_size := u16 hdr |>)) (λ _, True) m2
    (safe_mod_dev _) ltac:(apply keeps_mod_tx; tx_ok_tac) Hi2) as [_ Hi3].
  apply wp_mod_dev. split; [exact Hi3|]. by apply u16_small; lia.
Qed.

(** With no payload per segment, an iteration of the segmentation loop fills the
    header, sends the segment and is where it was. *)
Lemma tso_loop_diverges fuel hdr addr split_size m :
  dev_inv (dev m) → 0 ≤ tx_size (tx (dev m)) ≤ hdr → hdr < 256 →
  hdr - tx_size (tx (dev m)) < split_size < 65536 →
  tso_loop fuel hdr hdr addr split_size m = OutOfFuel.
Proof.
  revert addr split_size m. induction fuel as [|fuel IH]; intros addr split_size m Hi Hsz Hhdr Hsp;
    [done|]. cbn [tso_loop]. apply bind_outcome, wp_get_dev.
  set (size := tx_size (tx (dev m))) in *. cbv zeta. rewrite (u32_small (size + split_size)) by lia.
  replace (size + split_size >? hdr) with true by lia. rewrite !(u32_small (hdr - size)) by lia.
  replace (size + (hdr - size)) with hdr by lia. rewrite (u32_small hdr), Z.eqb_refl by lia.
  apply bind_outcome, wp_read. rewrite s32_small by lia. apply bind_outcome.
  eapply wp_mono; [apply safe_keeps; [|apply keeps_data_store, phys_read_ok|done]|].
  { apply safe_data_store; [lia|]. rewrite phys_read_length. lia. }
  intros _ m1 [_ Hi1]. apply bind_outcome.
  eapply wp_mono; [apply (safe_keeps _ (λ _, True)); [| |exact Hi1]|].
  { destruct (_ && _); [|apply safe_ret]. apply safe_load_data; [lia|]. intros l Hl _.
    apply safe_tx_header. intros h Hh _. by rewrite store_in by lia. }
  { repeat (keeps_step; cbv zeta); eauto using keeps_set_header with vf. }
  intros _ m2 [_ Hi2]. apply bind_outcome.
  eapply wp_mono; [apply (safe_keeps _ (λ _, True)); [apply safe_mod_dev|apply keeps_mod_tx; tx_ok_tac|exact Hi2]|].
  intros _ m3 [_ Hi3]. apply bind_outcome. eapply wp_mono; [apply tso_next_wp; [done|lia]|].
  intros _ m4 [Hi4 Hs4]. rewrite (u32_small (split_size - _)) by lia.
  replace (split_size - (hdr - size) =? 0) with false by lia. apply IH; [exact Hi4|lia..].
Qed.

(** A data descriptor of a segmented packet. *)
Definition tso_desc (d : e1000_tx_desc) : Prop :=
  txd_lower d .& (E1000_TXD_CMD_DEXT .| E1000_TXD_DTYP_D) = E1000_TXD_CMD_DEXT .| E1000_TXD_DTYP_D ∧
  has_bits (txd_lower d) E1000_TXD_CMD_TSE = true.

(** C39: a context descriptor with a maximum segment size of zero makes the
    segmentation loop run for ever: whatever bound is put on its iterations, a
    data descriptor longer than the header does not complete. *)
Theorem tso_zero_mss_diverges fuel d m :
  dev_ok (dev m) → irq_ok (dev m) → tso_desc d →
  tx_tse (tx (dev m)) ≠ 0 → tx_mss (tx (dev m)) = 0 →
  tx_size (tx (dev m)) ≤ tx_hdr_len (tx (dev m)) →
  tx_hdr_len (tx (dev m)) - tx_size (tx (dev m)) < tx_len d →
  process_tx_desc fuel d m = OutOfFuel.
Proof.
  intros Hs Hirq [Ed Ht] Htse Hmss Hsz Hlen. pose proof (tx_len_range d).
  pose proof (tx_u8_range _ (dev_tx_ok _ Hs)) as Hr.
  pose proof (Forall_inv (tx_u16_ok _ (dev_tx_ok _ Hs))) as Hu.
  unfold process_tx_desc. cbv zeta. rewrite Ed. change (_ =? E1000_TXD_CMD_DEXT) with false. cbv iota.
  apply bind_outcome, wp_get_dev, bind_outcome, wp_mod_dev.
  pose proof (tx_begin_ok (dev m) d (E1000_TXD_CMD_DEXT .| E1000_TXD_DTYP_D) Hs) as Hok.
  set (t := tx_begin _ _ _) in *. assert (tx_tse t = tx_tse (tx (dev m)) ∧ tx_cptse t = 1 ∧
    tx_hdr_len t = tx_hdr_len (tx (dev m)) ∧ tx_mss t = 0 ∧ tx_size t = tx_size (tx (dev m))) as
    (Et&Ec&Eh&Em&Ez).
  { unfold t, tx_begin. cbv zeta. rewrite Z.eqb_refl, Ht. destruct (_ && _); by cbn. }
  rewrite Et, Ec, Eh, Em, Z.add_0_r. apply Z.eqb_neq in Htse. rewrite Htse. cbn [negb andb Z.eqb].
  unfold mbind at 1, M_bind at 1. rewrite tso_loop_diverges; [done|..]; cbn [dev update tx];
    rewrite ?Ez; fold (tx_len d); try lia.
  split; [|by destruct Hirq]. destruct Hs. by split.
Qed.

(** A descriptor of zeroes does nothing. *)
Lemma process_tx_desc_null fuel d m :
  dev_inv (dev m) → txd_lower d = 0 →
  wp (process_tx_desc fuel d) (λ _ m', (mem m' = mem m ∧ ∀ i, reg (dev m') i = reg (dev m) i) ∧
    dev_inv (dev m')) m.
Proof.
  intros Hi Hd. eapply wp_keeps; [|apply keeps_process_tx_desc|done].
  destruct (tx_data_ok _ (dev_tx_ok _ (proj1 Hi))) as [Hdl _].
  pose proof (Forall_inv (tx_u16_ok _ (dev_tx_ok _ (proj1 Hi)))) as Hsz. unfold in_w in Hsz.
  unfold process_tx_desc, tx_begin. rewrite Hd. cbv zeta.
  rewrite !Z.land_0_l. change (0 =? E1000_TXD_CMD_DEXT) with false. cbv iota.
  apply wp_bind, wp_get_dev. change (0 =? E1000_TXD_CMD_DEXT .| E1000_TXD_DTYP_D) with false.
  change (is_vlan_txd 0) with false. rewrite andb_false_r. cbn [andb].
  apply wp_bind, wp_mod_dev. cbn [tx_tse tx_cptse update].
  cbn [negb andb Z.eqb]. rewrite !andb_false_r. apply wp_bind, wp_bind, wp_get_dev, wp_bind, wp_read.
  pose proof (phys_read_length (mem m) (txd_buffer_addr d) 0) as E0. cbn [mem update].
  change (Z.to_nat (s32 0)) with O. apply wp_bind, wp_bind, wp_get_dev.
  cbn [dev tx tx_data tx_size update]. rewrite store_in by lia.
  apply wp_bind, wp_ret, wp_mod_dev, wp_mod_dev, wp_ret. done.
Qed.

(** The ring loop with the head among the slots of empty descriptors, and the
    tail and the start not. *)
Lemma xmit_loop_diverges fuel start cause m L :
  dev_inv (dev m) → 0 < L → reg (dev m) TDLEN = 16 * L → L ≤ start → L ≤ reg (dev m) TDT →
  start ≠ reg (dev m) TDT → 0 ≤ reg (dev m) TDH < L ∨ reg (dev m) TDH = start →
  (∀ i, 0 ≤ i < L ∨ i = start →
     txd_lower (tx_desc_decode (phys_read (mem m) (ring_slot tx_ring (dev m) i) 16)) = 0) →
  xmit_loop fuel start cause m = OutOfFuel.
Proof.
  revert cause m. induction fuel as [|fuel IH]; intros cause m Hi HL Hlen Hst Ht Hne Hh Hnull; [done|].
  cbn [xmit_loop]. unfold get_reg. apply bind_outcome, wp_get_dev, bind_outcome, wp_get_dev.
  replace (reg (dev m) TDH =? reg (dev m) TDT) with false by lia.
  apply bind_outcome, wp_get_dev, bind_outcome, wp_read.
  change (Z.to_nat (s32 16)) with 16%nat.
  change (tx_ring_base (dev m)) with (ring_slot tx_ring (dev m) (reg (dev m) TDH)).
  set (d := tx_desc_decode _). assert (txd_lower d = 0) as Hd by (by apply Hnull).
  apply bind_outcome. eapply wp_mono; [by apply process_tx_desc_null|].
  intros _ m1 [[Hm Hr] Hi1]. unfold txdesc_writeback. rewrite Hd.
  change (has_bits 0 _) with false. cbn [negb]. apply bind_outcome, wp_ret, bind_outcome, wp_mod_dev,
    bind_outcome, wp_get_dev. cbn [dev update]. reg_simpl.
  assert (0 ≤ tdh_next (dev m1) < L) as Hn.
  { unfold tdh_next. rewrite !Hr, Hlen. pose proof (u32_range (reg (dev m) TDH + 1)).
    cbv zeta. case_match; lia. }
  replace (tdh_next (dev m1) =? start) with false by lia.
  apply IH; cbn [dev mem update]; reg_simpl; rewrite ?Hr, ?Hm; try done; [|by left|].
  - apply dev_inv_set_reg; try done. apply tdh_next_in_w.
  - intros i Hin. unfold ring_slot, tx_ring. cbn [r_bah r_bal]. reg_simpl. rewrite !Hr. by apply Hnull.
Qed.

(** The ring loop guards against a guest that sets the registers to values
    outside the ring by stopping when the head is back where it started. A head
    that starts outside the ring never is: with the tail outside as well and
    empty descriptors, [start_xmit] does not return, whatever the bound on its
    iterations. *)
Theorem start_xmit_outside_ring_diverges fuel m L :
  dev_ok (dev m) → irq_ok (dev m) → has_bits (reg (dev m) TCTL) E1000_TCTL_EN = true →
  0 < L → reg (dev m) TDLEN = 16 * L → L ≤ reg (dev m) TDH → L ≤ reg (dev m) TDT →
  reg (dev m) TDH ≠ reg (dev m) TDT →
  (∀ i, 0 ≤ i < L ∨ i = reg (dev m) TDH →
     txd_lower (tx_desc_decode (phys_read (mem m) (ring_slot tx_ring (dev m) i) 16)) = 0) →
  start_xmit fuel m = OutOfFuel.
Proof.
  intros Hs Hi Hen HL Hlen Hh Ht Hne Hnull. unfold start_xmit, get_reg.
  apply bind_outcome, wp_get_dev, bind_outcome, wp_get_dev. rewrite Hen. cbn [negb].
  unfold mbind at 1, M_bind at 1. rewrite (xmit_loop_diverges fuel _ _ m L); try done; by right.
Qed.
End misuse.
