(* ===== verification/E1000Tso.v ===== *)
(** * TCP segmentation offload

    What a sequence of data descriptors of one packet transmits when the guest
    has enabled segmentation: the bytes of their buffers are cut into a header
    and segments of [tx_mss] bytes; every segment is sent behind a copy of the
    header, with the fields [xmit_seg] rewrites. *)

From S2P Require Import Prelude Bytes Memory NetChecksum E1000Hw E1000State E1000Tx E1000Ring AdminQ E1000Mmio E1000Inv E1000TxRing E1000TxSpec.
Import Checksum.

(** ** The rewritten segment

    [xmit_seg_tso] and [xmit_seg_sums] as functions of the bytes of the
    segment; [None] when a field lies outside it. *)

Definition st (b : list Z) (off : Z) (l : list Z) : option (list Z) := store b (Z.to_nat off) l.
Definition ld (b : list Z) (off n : Z) : option (list Z) := load b (Z.to_nat off) (Z.to_nat n).

Definition seg_ip (t : e1000_tx) (b : list Z) : option (list Z) :=
  let css := tx_ipcss t in
  let len := cpu_to_be16wu (u16 (Z.of_nat (length b) - css)) in
  if negb (tx_ip t =? 0) then
    b ← st b (css + 2) len;
    id_ ← ld b (css + 4) 2;
    st b (css + 4) (cpu_to_be16wu (u16 (be16_to_cpup id_ + tx_tso_frames t)))
  else st b (css + 4) len.

Definition seg_tcp (t : e1000_tx) (b : list Z) : option (list Z) :=
  let css := tx_tucss t in
  let len := u16 (Z.of_nat (length b) - css) in
  if negb (tx_tcp t =? 0) then
    let sofar := u32 (tx_tso_frames t * tx_mss t) in
    seq ← ld b (css + 4) 4;
    b ← st b (css + 4) (cpu_to_be32wu (u32 (be32_to_cpupu seq + sofar)));
    if u32 (tx_paylen t - sofar) >? tx_mss t then
      fl ← ld b (css + 13) 1;
      st b (css + 13) [u8 (arr fl 0 .& .~ 9)]
    else Some b
  else st b (css + 4) (cpu_to_be16wu len).

Definition seg_phsum (t : e1000_tx) (b : list Z) : option (list Z) :=
  let len := u16 (Z.of_nat (length b) - tx_tucss t) in
  if has_bits (tx_sum_needed t) E1000_TXD_POPTS_TXSM then
    sp ← ld b (tx_tucso t) 2;
    let phsum := u32 (be16_to_cpup sp + len) in
    let phsum := u32 ((phsum >> 16) + (phsum .& 0xffff)) in
    st b (tx_tucso t) (cpu_to_be16wu (u16 phsum))
  else Some b.

Definition seg_sum (needed : bool) (b : list Z) (sloc css cse : Z) : option (list Z) :=
  if needed then putsum b (Z.of_nat (length b)) sloc css cse else Some b.

Definition seg_fix (t : e1000_tx) (b : list Z) : option (list Z) :=
  b ← seg_ip t b;
  b ← seg_tcp t b;
  b ← seg_phsum t b;
  b ← seg_sum (has_bits (tx_sum_needed t) E1000_TXD_POPTS_TXSM) b (tx_tucso t) (tx_tucss t) (tx_tucse t);
  seg_sum (has_bits (tx_sum_needed t) E1000_TXD_POPTS_IXSM) b (tx_ipcso t) (tx_ipcss t) (tx_ipcse t).

(** ** The device's buffer seen through the segment *)

Lemma load_prefix d b off n l :
  take (length b) d = b → load b off n = Some l → load d off n = Some l.
Proof.
  intros Hb Hl. unfold load in *. case_decide; [|done]. injection Hl as <-.
  assert (length b ≤ length d)%nat by (rewrite <- Hb, length_take; lia).
  rewrite decide_True by lia. f_equal. rewrite <- Hb, skipn_firstn_comm, take_take. f_equal.
  rewrite <- Hb in *. rewrite length_take in *. lia.
Qed.

Lemma store_prefix d b off l b' :
  take (length b) d = b → store b off l = Some b' →
  ∃ d', store d off l = Some d' ∧ take (length b') d' = b' ∧ length d' = length d ∧
    length b' = length b.
Proof.
  intros Hb Hs. pose proof (store_length _ _ _ _ Hs) as Hl.
  unfold store in Hs. case_decide as Hin; [|done]. injection Hs as Hs.
  assert (length b ≤ length d)%nat by (rewrite <- Hb, length_take; lia).
  destruct (store d off l) as [d'|] eqn:E; [|rewrite store_in in E by lia; done].
  exists d'. pose proof (store_length _ _ _ _ E). split_and!; try done.
  pose proof (store_window d off l d' 0 (length b) E ltac:(lia) ltac:(lia) ltac:(lia)) as Hw.
  rewrite !drop_0, Nat.sub_0_r, Hb in Hw. rewrite store_in in Hw by lia. rewrite Hs in Hw.
  rewrite Hl. by injection Hw.
Qed.

Lemma net_checksum_loop_app n i acc l r s :
  net_checksum_loop n i acc l = Some s → net_checksum_loop n i acc (l ++ r) = Some s.
Proof.
  revert i acc l. induction n as [|n IH]; intros i acc l Hl; [done|].
  destruct l as [|b l]; [done|]. by apply IH.
Qed.

Lemma putsum_prefix d b sloc css cse b' n :
  take (length b) d = b → putsum b n sloc css cse = Some b' →
  ∃ d', putsum d n sloc css cse = Some d' ∧ take (length b') d' = b' ∧ length d' = length d ∧
    length b' = length b.
Proof.
  intros Hb Hp. unfold putsum in *. cbv zeta in *.
  set (k := if _ && _ then _ else n) in *. clearbody k. case_match; [|simplify_eq; eauto].
  apply bind_Some in Hp as (sum&Hs&Hp). destruct (store_prefix _ _ _ _ _ Hb Hp) as (d'&Hd&?).
  exists d'. split; [|done].
  assert (drop (Z.to_nat css) d =
    drop (Z.to_nat css) b ++ drop (Z.to_nat css - length b) (drop (length b) d)) as ->.
  { rewrite <- (take_drop (length b) d) at 1. by rewrite Hb, drop_app. }
  unfold net_checksum_add in *. by rewrite (net_checksum_loop_app _ _ _ _ _ _ Hs).
Qed.

(** The first bytes of [tx.data] are the segment [b], of [tx.size] bytes. *)
Record tx_win (t : e1000_tx) (b : list Z) : Prop := {
  win_size : tx_size t = Z.of_nat (length b);
  win_data : take (length b) (tx_data t) = b;
}.

Section segment.
Context {X P : Type} `{PhysMemLaws X} `{MsgLink P}.
Abbreviation MM := (M (machine X P)).
Implicit Types (m : machine X P) (Q : unit → machine X P → Prop).

Definition with_data m (d : list Z) : machine X P :=
  m <| dev ::= λ s, s <| tx ::= λ t, t <| tx_data := d |> |> |>.

(** Only the buffer changed, and the segment is [b] now. *)
Definition segment m (b : list Z) (m' : machine X P) : Prop :=
  ∃ d, m' = with_data m d ∧ length d = length (tx_data (tx (dev m))) ∧
    take (length b) d = b ∧ tx_size (tx (dev m)) = Z.of_nat (length b).

Lemma segment_self m b : tx_win (tx (dev m)) b → segment m b m.
Proof.
  intros []. exists (tx_data (tx (dev m))). split_and!; try done.
  destruct m as [s ???]. destruct s as []. by destruct tx.
Qed.

Lemma wp_data_load m b off n l (Q : list Z → machine X P → Prop) m' :
  segment m b m' → ld b off n = Some l → Q l m' → wp (data_load off n) Q m'.
Proof.
  intros (d&->&?&Hd&?) Hl HQ. unfold data_load. apply wp_bind, wp_get_dev.
  cbn [dev tx tx_data update with_data]. by rewrite (load_prefix _ _ _ _ _ Hd Hl).
Qed.

Lemma wp_data_store m b off l b' m' :
  segment m b m' → st b off l = Some b' → wp (data_store off l) (λ _, segment m b') m'.
Proof.
  intros (d&->&?&Hd&?) Hs. unfold data_store. apply wp_bind, wp_get_dev.
  cbn [dev tx tx_data update with_data].
  destruct (store_prefix _ _ _ _ _ Hd Hs) as (d'&->&?&?&?).
  apply wp_bind, wp_ret, wp_mod_dev. exists d'. split_and!; try done; congruence.
Qed.

Lemma wp_putsum m b sloc css cse b' m' :
  segment m b m' → putsum b (Z.of_nat (length b)) sloc css cse = Some b' →
  wp (d ← get_tx tx_data; d ← oob (putsum d (tx_size (tx (dev m))) sloc css cse);
      mod_tx (λ t, t <| tx_data := d |>)) (λ _, segment m b') m'.
Proof.
  intros (d&->&?&Hd&Hsz) Hs. apply wp_bind, wp_get_dev. rewrite Hsz.
  cbn [dev tx tx_data update with_data].
  destruct (putsum_prefix _ _ _ _ _ _ _ Hd Hs) as (d'&->&?&?&?).
  apply wp_bind, wp_ret, wp_mod_dev. exists d'. split_and!; try done; congruence.
Qed.

Lemma segment_size m b m' : segment m b m' → tx_size (tx (dev m)) = Z.of_nat (length b).
Proof. by intros (d&?&?&?&?). Qed.

Lemma xmit_seg_tso_wp m b b1 b2 b3 :
  tx_win (tx (dev m)) b → let t := tx (dev m) in
  seg_ip t b = Some b1 → seg_tcp t b1 = Some b2 → seg_phsum t b2 = Some b3 →
  wp xmit_seg_tso (λ _ m', ∃ m1, segment m b3 m1 ∧
    m' = m1 <| dev ::= λ s, s <| tx ::= λ t, t <| tx_tso_frames ::= λ n, u16 (n + 1) |> |> |>) m.
Proof.
  intros Hw t E1 E2 E3. unfold xmit_seg_tso. apply wp_bind, wp_get_dev. cbn [id]. fold t.
  pose proof (segment_self _ _ Hw) as Hm. cbv zeta. apply wp_bind.
  apply wp_mono with (Q := λ _, segment m b1).
  { unfold seg_ip in E1. cbv zeta in E1. unfold t. rewrite (segment_size _ _ _ Hm). fold t.
    destruct (negb _); [|by eapply wp_data_store].
    apply bind_Some in E1 as (c&Hc&E1). apply bind_Some in E1 as (id_&Hi&E1).
    apply wp_bind. eapply wp_mono; [by eapply wp_data_store|]. cbn. intros _ m1 Hm1.
    apply wp_bind. eapply wp_data_load; [done..|]. by eapply wp_data_store. }
  clear Hm. intros _ m1 Hm1. apply wp_bind.
  apply wp_mono with (Q := λ _, segment m b2).
  { unfold seg_tcp in E2. cbv zeta in E2. unfold t. rewrite (segment_size _ _ _ Hm1). fold t.
    destruct (negb _); [|by eapply wp_data_store].
    apply bind_Some in E2 as (sq&Hq&E2). apply bind_Some in E2 as (c&Hc&E2).
    apply wp_bind. eapply wp_data_load; [done..|]. apply wp_bind.
    eapply wp_mono; [by eapply wp_data_store|]. cbn. intros _ m2 Hm2.
    destruct (_ >? _); [|apply wp_ret; by simplify_eq].
    apply bind_Some in E2 as (fl&Hfl&E2).
    apply wp_bind. eapply wp_data_load; [done..|]. by eapply wp_data_store. }
  clear dependent m1. intros _ m1 Hm1. apply wp_bind.
  apply wp_mono with (Q := λ _, segment m b3).
  { unfold seg_phsum in E3. cbv zeta in E3. unfold t. rewrite (segment_size _ _ _ Hm1). fold t.
    destruct (has_bits _ _); [|apply wp_ret; by simplify_eq].
    apply bind_Some in E3 as (sp&Hsp&E3).
    apply wp_bind. eapply wp_data_load; [done..|]. by eapply wp_data_store. }
  clear dependent m1. intros _ m1 Hm1. apply wp_mod_dev. by exists m1.
Qed.

Lemma wp_seg_sum m n (needed : bool) b sloc css cse b' m' :
  segment m b m' → n = tx_size (tx (dev m)) → seg_sum needed b sloc css cse = Some b' →
  wp (if needed then
        d ← get_tx tx_data; d ← oob (putsum d n sloc css cse); mod_tx (λ t, t <| tx_data := d |>)
      else mret ()) (λ _, segment m b') m'.
Proof.
  intros Hm -> Hs. destruct needed; cbn in Hs; [by eapply wp_putsum|]. apply wp_ret. by simplify_eq.
Qed.

Lemma xmit_seg_sums_wp m b b' b'' :
  let t := tx (dev m) in
  tx_win t b →
  seg_sum (has_bits (tx_sum_needed t) E1000_TXD_POPTS_TXSM) b (tx_tucso t) (tx_tucss t) (tx_tucse t) = Some b' →
  seg_sum (has_bits (tx_sum_needed t) E1000_TXD_POPTS_IXSM) b' (tx_ipcso t) (tx_ipcss t) (tx_ipcse t) = Some b'' →
  wp xmit_seg_sums (λ _, segment m b'') m.
Proof.
  intros t Hw E1 E2. unfold xmit_seg_sums. apply wp_bind, wp_get_dev. cbn [id]. fold t.
  apply wp_bind. eapply wp_mono; [by eapply wp_seg_sum; [by apply segment_self| |]|].
  cbn beta. intros _ m1 Hm1. by eapply wp_seg_sum.
Qed.

Lemma xmit_seg_stats_regs m :
  (∀ i, in_w 32 (reg (dev m) i)) → wp xmit_seg_stats (λ _ m', ∀ i, in_w 32 (reg (dev m') i)) m.
Proof.
  intros Hs. unfold xmit_seg_stats, put_reg, get_reg.
  apply wp_bind, wp_get_dev, wp_bind, wp_mod_dev, wp_bind, wp_mod_dev, wp_bind, wp_get_dev,
    wp_bind, wp_mod_dev, wp_bind, wp_get_dev.
  case_match; [apply wp_mod_dev|apply wp_ret]; cbn [dev update]; intros i; rewrite !reg_set;
    repeat case_decide; first [apply u32_in_w|apply Hs].
Qed.

(** A segment is sent with its fields rewritten. *)
Lemma xmit_seg_segment m b b' :
  let t := tx (dev m) in
  (∀ i, in_w 32 (reg (dev m) i)) → length (tx_data t) = Z.to_nat 0x10000 →
  tx_win t b → Z.of_nat (length b) < 65536 →
  tx_tse t ≠ 0 → tx_cptse t ≠ 0 → tx_vlan_needed t = 0 → seg_fix t b = Some b' →
  wp xmit_seg (λ _ m', sent m' = sent m ++ [b'] ∧ mem m' = mem m ∧
    (∀ i, in_w 32 (reg (dev m') i)) ∧
    ∃ d, length d = Z.to_nat 0x10000 ∧
      tx (dev m') = t <| tx_data := d |> <| tx_tso_frames ::= λ n, u16 (n + 1) |>) m.
Proof.
  intros t Hregs Hl Hw Hlt Htse Hcp Hvl Hfix. pose proof (win_size _ _ Hw) as Hsb.
  unfold seg_fix in Hfix. apply bind_Some in Hfix as (b1&E1&Hfix).
  apply bind_Some in Hfix as (b2&E2&Hfix). apply bind_Some in Hfix as (b3&E3&Hfix).
  apply bind_Some in Hfix as (b4&E4&E5).
  unfold xmit_seg. apply wp_bind, wp_get_dev. cbn [id]. fold t.
  rewrite (proj2 (Z.eqb_neq _ _) Htse), (proj2 (Z.eqb_neq _ _) Hcp). cbn [negb andb].
  apply wp_bind. eapply wp_mono; [by eapply xmit_seg_tso_wp|]. cbn beta.
  intros _ ? (?&(d&->&Hdl&Hd&Hsz)&->). apply wp_bind. eapply wp_mono.
  { eapply xmit_seg_sums_wp; [split; cbn; eassumption|exact E4|exact E5]. }
  intros _ ? (d'&->&Hdl'&Hd'&Hsz'). cbn [with_data dev tx tx_data tx_size update] in *.
  apply wp_bind. unfold xmit_seg_send. apply wp_bind, wp_get_dev.
  cbn [id with_data dev tx tx_vlan_needed tx_size update]. fold t. rewrite Hvl. cbn [negb Z.eqb].
  apply wp_bind, wp_bind, wp_get_dev. cbn [with_data dev tx tx_data update].
  unfold t in *. rewrite load_in by lia. rewrite drop_0, Hsz', Nat2Z.id, Hd'.
  apply wp_ret, wp_modify.
  lazymatch goal with |- wp _ _ ?s => set (m1 := s) end.
  pose proof (xmit_seg_stats_wp m1 Hregs ltac:(cbn; lia)) as W1.
  pose proof (xmit_seg_stats_regs m1 Hregs) as W2.
  unfold wp in *. destruct (xmit_seg_stats m1) as [[] m'| |]; try done.
  destruct W1 as (->&->&Ht&_). split_and!; try done. exists d'. split; [congruence|done].
Qed.

End segment.

(** ** Cutting the packet

    [S]: the bytes the descriptors have delivered so far, [H] of header and
    then the payload, in segments of [M]. *)

Section cutting.
Context (H M : nat) (M_pos : (0 < M)%nat).
Implicit Types (S x : list Z).

(** The whole segments of [S], and segment [k] with its header. *)
Definition seg_count S : nat := (length S - H) / M.
Definition seg_bytes S (k : nat) : list Z := take H S ++ take M (drop (H + k * M) S).
(** The part of [S] that waits in the buffer. *)
Definition seg_pending S : list Z :=
  if decide (length S < H)%nat then S else take H S ++ drop (H + seg_count S * M) S.

Lemma seg_count_bounds S : (H ≤ length S)%nat →
  (H + seg_count S * M ≤ length S < H + seg_count S * M + M)%nat.
Proof.
  intros. unfold seg_count. pose proof (Nat.div_mod_eq (length S - H) M).
  pose proof (Nat.mod_upper_bound (length S - H) M). lia.
Qed.

Lemma seg_count_unique S n :
  (H + n * M ≤ length S < H + n * M + M)%nat → seg_count S = n.
Proof. intros Hn. unfold seg_count. symmetry. apply (Nat.div_unique _ _ _ (length S - H - n * M)); lia. Qed.

Lemma seg_count_short S : (length S < H + M)%nat → seg_count S = 0%nat.
Proof. intros. apply Nat.div_small. lia. Qed.

Lemma seg_pending_length S :
  length (seg_pending S) =
    (if decide (length S < H) then length S else length S - seg_count S * M)%nat.
Proof.
  unfold seg_pending. case_decide; [done|]. pose proof (seg_count_bounds S).
  rewrite length_app, length_take, length_drop. lia.
Qed.

Lemma seg_pending_lt S : (length (seg_pending S) < H + M)%nat.
Proof. rewrite seg_pending_length. pose proof (seg_count_bounds S). case_decide; lia. Qed.

Lemma seg_bytes_app S x k :
  (H + k * M + M ≤ length S)%nat → seg_bytes (S ++ x) k = seg_bytes S k.
Proof.
  intros. unfold seg_bytes. rewrite take_app_le by lia. f_equal.
  rewrite drop_app_le by lia. rewrite take_app_le; [done|]. rewrite length_drop. lia.
Qed.

(** Bytes that do not complete the segment only join it. *)
Lemma seg_gather S x :
  (length (seg_pending S) + length x < H + M)%nat →
  seg_pending (S ++ x) = seg_pending S ++ x ∧ seg_count (S ++ x) = seg_count S.
Proof.
  rewrite seg_pending_length. intros Hx. pose proof (seg_count_bounds S).
  assert (seg_count (S ++ x) = seg_count S) as Hc.
  { case_decide.
    - rewrite !seg_count_short; rewrite ?length_app; lia.
    - apply seg_count_unique. rewrite length_app. lia. }
  split; [|done]. unfold seg_pending. rewrite Hc, length_app. repeat case_decide; try lia; try done.
  - rewrite seg_count_short, Nat.mul_0_l, Nat.add_0_r by lia. by rewrite take_drop.
  - rewrite <- app_assoc. rewrite take_app_le by lia. by rewrite drop_app_le by lia.
Qed.

(** Bytes that complete the segment. *)
Lemma seg_complete S x :
  (length (seg_pending S) + length x = H + M)%nat →
  seg_pending S ++ x = seg_bytes (S ++ x) (seg_count S) ∧
  seg_pending (S ++ x) = take H (S ++ x) ∧ seg_count (S ++ x) = Datatypes.S (seg_count S) ∧
  (H ≤ length (S ++ x))%nat.
Proof.
  rewrite seg_pending_length. intros Hx. pose proof (seg_count_bounds S).
  assert (length (S ++ x) = H + Datatypes.S (seg_count S) * M)%nat as Hl.
  { rewrite length_app. case_decide; [rewrite (seg_count_short S) by lia|]; lia. }
  assert (seg_count (S ++ x) = Datatypes.S (seg_count S)) as Hc by (apply seg_count_unique; lia).
  split_and!; [..|done|lia].
  - unfold seg_pending, seg_bytes. case_decide.
    + rewrite (seg_count_short S), Nat.mul_0_l, Nat.add_0_r in * by lia.
      rewrite (take_ge (drop _ _)); [by rewrite take_drop|]. rewrite length_drop. lia.
    + rewrite take_app_le, drop_app_le by lia.
      rewrite (take_ge (drop _ S ++ x)); [by rewrite app_assoc|].
      rewrite length_app, length_drop in *. lia.
  - unfold seg_pending. rewrite decide_False by lia. rewrite Hc.
    rewrite (drop_ge (S ++ x)) by lia. apply app_nil_r.
Qed.
End cutting.

(** ** The segmentation loop *)

(** What the context descriptor has set up: everything but the buffers and the
    progress through the packet. *)
Definition tx_params (t : e1000_tx) : e1000_tx :=
  t <| tx_data := [] |> <| tx_header := [] |> <| tx_size := 0 |> <| tx_tso_frames := 0 |>.

Lemma seg_fix_params t t' b :
  tx_params t = tx_params t' → tx_tso_frames t = tx_tso_frames t' → seg_fix t b = seg_fix t' b.
Proof. destruct t, t'. cbn. intros [=] ?. by simplify_eq. Qed.

Lemma tx_params_begin u t : tx_cptse t = 1 → tx_params u = tx_params t →
  tx_params (u <| tx_sum_needed := tx_sum_needed t |> <| tx_cptse := 1 |>) = tx_params t.
Proof. destruct u, t. cbn. intros ? [=]. by simplify_eq. Qed.

(** Segmentation with a header that holds every field to be rewritten. *)
Record tso_params (t : e1000_tx) : Prop := {
  tp_ok : tx_ok t;
  tp_tse : tx_tse t ≠ 0;
  tp_cptse : tx_cptse t ≠ 0;
  tp_vlan : tx_vlan_needed t = 0;
  tp_mss : 0 < tx_mss t;
  tp_msh : tx_hdr_len t + tx_mss t < 65536;
  tp_fits : Forall (λ o, o ≤ tx_hdr_len t)
    [tx_ipcss t + 6; tx_tucss t + 14; tx_ipcso t + 2; tx_tucso t + 2];
}.

Lemma st_some b off l : 0 ≤ off → off + Z.of_nat (length l) ≤ Z.of_nat (length b) →
  ∃ b', st b off l = Some b' ∧ length b' = length b.
Proof.
  intros. unfold st. destruct (store b (Z.to_nat off) l) as [b'|] eqn:E.
  - exists b'. split; [done|]. by eapply store_length.
  - rewrite store_in in E by lia. done.
Qed.

Lemma ld_some b off n : 0 ≤ off → 0 ≤ n → off + n ≤ Z.of_nat (length b) → is_Some (ld b off n).
Proof. intros. unfold ld. rewrite load_in by lia. eauto. Qed.

Ltac seg_some :=
  repeat first
    [ match goal with |- context [st ?b ?o ?l] =>
        destruct (st_some b o l) as (?&->&?); [lia|cbn; lia|cbn] end
    | match goal with |- context [ld ?b ?o ?n] =>
        destruct (ld_some b o n) as [? ->]; [lia|lia|lia|cbn] end
    | case_match ]; eauto with lia.

Lemma seg_sum_some needed b sloc css cse :
  in_w 8 sloc → in_w 8 css → in_w 16 cse → sloc + 2 ≤ Z.of_nat (length b) < 65536 →
  ∃ b', seg_sum needed b sloc css cse = Some b' ∧ length b' = length b.
Proof.
  intros. destruct needed; cbn; [|by eauto].
  destruct (putsum_safe b (Z.of_nat (length b)) sloc css cse) as [b' E];
    [done || (unfold in_w; lia)..|].
  exists b'. split; [done|]. unfold putsum in E. cbv zeta in E.
  case_match; [|by simplify_eq]. apply bind_Some in E as (?&?&E). by eapply store_length.
Qed.

Lemma seg_fix_some t b :
  tso_params t → tx_hdr_len t ≤ Z.of_nat (length b) → Z.of_nat (length b) < 65536 →
  ∃ b', seg_fix t b = Some b' ∧ length b' = length b.
Proof.
  intros [Hok ? ? ? ? ? Hf] Hb Hlt. pose proof (tx_u8_range _ Hok) as Hr.
  repeat (apply Forall_cons_iff in Hf as [? Hf]). unfold seg_fix.
  assert (∃ b', seg_ip t b = Some b' ∧ length b' = length b) as (b1&->&L1).
  { unfold seg_ip. cbv zeta. seg_some. }
  assert (∃ b', seg_tcp t b1 = Some b' ∧ length b' = length b1) as (b2&E2&L2).
  { unfold seg_tcp. cbv zeta. seg_some. }
  cbn. rewrite E2. cbn.
  assert (∃ b', seg_phsum t b2 = Some b' ∧ length b' = length b2) as (b3&->&L3).
  { unfold seg_phsum. cbv zeta. seg_some. }
  cbn. edestruct (seg_sum_some (has_bits (tx_sum_needed t) E1000_TXD_POPTS_TXSM) b3
    (tx_tucso t) (tx_tucss t) (tx_tucse t)) as (b4&->&L4); [unfold in_w; lia..|]. cbn.
  edestruct (seg_sum_some (has_bits (tx_sum_needed t) E1000_TXD_POPTS_IXSM) b4
    (tx_ipcso t) (tx_ipcss t) (tx_ipcse t)) as (b5&->&L5); [unfold in_w; lia..|].
  exists b5. split; [done|lia].
Qed.

Lemma tso_params_frames t k : tso_params t → tso_params (t <| tx_tso_frames := u16 k |>).
Proof.
  intros [[] ? ? ? ? ? ?]. pose proof (u16_range k). split; try done. split; try done. cbn.
  repeat match goal with H : Forall _ (_ :: _) |- _ => apply Forall_cons_iff in H as [? ?] end.
  by repeat (apply Forall_cons_2; [done|]).
Qed.

Section loop.
Context {X P : Type} `{PhysMemLaws X} `{MsgLink P}.
Abbreviation MM := (M (machine X P)).
Context (t : e1000_tx) (Ht : tso_params t).
Let hlen := Z.to_nat (tx_hdr_len t).
Let mseg := Z.to_nat (tx_mss t).
Implicit Types (S x : list Z) (m : machine X P).

(** Segment [k], as it is sent, and the segments of [S] that are complete. *)
Definition seg_frame (k : nat) (b : list Z) : list Z :=
  default [] (seg_fix (t <| tx_tso_frames := u16 (Z.of_nat k) |>) b).
Definition seg_out S : list (list Z) :=
  map (λ k, seg_frame k (seg_bytes hlen mseg S k)) (seq 0 (seg_count hlen mseg S)).

(** The device in the middle of a packet, after the bytes [S]; [base]: the
    frames sent before it. *)
Record tso_at (base : list (list Z)) S m : Prop := {
  at_regs i : in_w 32 (reg (dev m) i);
  at_data : length (tx_data (tx (dev m))) = Z.to_nat 0x10000;
  at_hlen : length (tx_header (tx (dev m))) = 256%nat;
  at_params : tx_params (tx (dev m)) = tx_params t;
  at_frames : tx_tso_frames (tx (dev m)) = u16 (Z.of_nat (seg_count hlen mseg S));
  at_win : tx_win (tx (dev m)) (seg_pending hlen mseg S);
  at_hdr : (hlen ≤ length S)%nat → take hlen (tx_header (tx (dev m))) = take hlen S;
  at_sent : sent m = base ++ seg_out S;
}.

Lemma tso_hdr_range : 0 ≤ tx_hdr_len t < 256.
Proof. destruct (tx_u8_range _ (tp_ok _ Ht)). lia. Qed.

Lemma tso_M_pos : (0 < mseg)%nat.
Proof. unfold mseg. pose proof (tp_mss _ Ht). lia. Qed.

Lemma tx_params_eq m : tx_params (tx (dev m)) = tx_params t →
  tx_tse (tx (dev m)) ≠ 0 ∧ tx_cptse (tx (dev m)) ≠ 0 ∧ tx_vlan_needed (tx (dev m)) = 0.
Proof.
  destruct Ht as [_ Ha Hb Hc _ _ _]. destruct (tx (dev m)), t. cbn. intros [=]. by subst.
Qed.

(** Sending what is gathered, when it is a segment behind its header. *)
Lemma tso_xmit base k b m :
  (∀ i, in_w 32 (reg (dev m) i)) → length (tx_data (tx (dev m))) = Z.to_nat 0x10000 →
  tx_params (tx (dev m)) = tx_params t → tx_tso_frames (tx (dev m)) = u16 (Z.of_nat k) →
  tx_win (tx (dev m)) b → tx_hdr_len t ≤ Z.of_nat (length b) < 65536 → sent m = base →
  wp xmit_seg (λ _ m', sent m' = base ++ [seg_frame k b] ∧ mem m' = mem m ∧
    (∀ i, in_w 32 (reg (dev m') i)) ∧
    ∃ d, length d = Z.to_nat 0x10000 ∧ tx (dev m') = tx (dev m) <| tx_data := d |>
      <| tx_tso_frames := u16 (Z.of_nat (Datatypes.S k)) |>) m.
Proof.
  intros Hr Hd Hp Hf Hw Hb <-. destruct (tx_params_eq m Hp) as (?&?&?).
  destruct (seg_fix_some _ b (tso_params_frames t (Z.of_nat k) Ht)) as (b'&Hb'&_); [cbn; lia..|].
  assert (seg_fix (tx (dev m)) b = Some b') as Hfix.
  { rewrite <- Hb'. apply seg_fix_params; [|done]. by rewrite Hp. }
  eapply wp_mono; [by eapply xmit_seg_segment; try done; lia|]. cbn beta.
  intros _ m' (->&->&?&d&?&Htx). unfold seg_frame. rewrite Hb'. split_and!; try done.
  exists d. split; [done|]. rewrite Htx, Nat2Z.inj_succ. unfold Z.succ. rewrite <- (wrap_add_l 16 (Z.of_nat k)). fold (u16 (Z.of_nat k)). rewrite <- Hf. done.
Qed.

Lemma seg_out_app S x n :
  (n ≤ seg_count hlen mseg S)%nat →
  map (λ k, seg_frame k (seg_bytes hlen mseg (S ++ x) k)) (seq 0 n) =
  map (λ k, seg_frame k (seg_bytes hlen mseg S k)) (seq 0 n).
Proof.
  intros Hn. apply map_ext_in. intros k Hk%in_seq. rewrite (seg_bytes_app _ _ tso_M_pos); [done|].
  pose proof tso_M_pos as HM. pose proof (seg_count_bounds hlen mseg HM S).
  destruct (decide (length S < hlen)%nat); [|nia].
  rewrite seg_count_short in Hn; lia.
Qed.

Lemma seg_out_gather S x :
  seg_count hlen mseg (S ++ x) = seg_count hlen mseg S → seg_out (S ++ x) = seg_out S.
Proof. intros E. unfold seg_out. rewrite E. by apply seg_out_app. Qed.

Lemma seg_out_complete S x :
  let n := seg_count hlen mseg S in
  seg_count hlen mseg (S ++ x) = Datatypes.S n →
  seg_out (S ++ x) = seg_out S ++ [seg_frame n (seg_bytes hlen mseg (S ++ x) n)].
Proof.
  intros n E. unfold seg_out. rewrite E, seq_S, map_app. by rewrite seg_out_app.
Qed.

(** The bytes [x] have joined the segment, which may now be complete. *)
Record tso_mid S x m m' : Prop := {
  mid_regs i : in_w 32 (reg (dev m') i);
  mid_data : length (tx_data (tx (dev m'))) = Z.to_nat 0x10000;
  mid_hlen : length (tx_header (tx (dev m'))) = 256%nat;
  mid_params : tx_params (tx (dev m')) = tx_params t;
  mid_frames : tx_tso_frames (tx (dev m')) = u16 (Z.of_nat (seg_count hlen mseg S));
  mid_win : tx_win (tx (dev m')) (seg_pending hlen mseg S ++ x);
  mid_hdr : (hlen ≤ length (S ++ x))%nat → take hlen (tx_header (tx (dev m'))) = take hlen (S ++ x);
  mid_sent : sent m' = sent m;
  mid_mem : mem m' = mem m;
}.

(** Saving the header, at the step that completes it. *)
Lemma tso_header_saved S x hd d :
  let b := seg_pending hlen mseg S in
  length hd = 256%nat → take (length (b ++ x)) d = b ++ x →
  ((hlen ≤ length S)%nat → take hlen hd = take hlen S) →
  if (tx_hdr_len t <=? Z.of_nat (length (b ++ x))) && (Z.of_nat (length b) <? tx_hdr_len t)
  then load d 0 hlen = Some (take hlen (S ++ x)) ∧
       ∃ hd', store hd 0 (take hlen (S ++ x)) = Some hd' ∧ length hd' = 256%nat ∧
              take hlen hd' = take hlen (S ++ x)
  else (hlen ≤ length (S ++ x))%nat → take hlen hd = take hlen (S ++ x).
Proof.
  intros b Hhd Hd Hh. pose proof tso_hdr_range as Hr. pose proof tso_M_pos as HM.
  assert (Z.of_nat hlen = tx_hdr_len t) as Eh by (unfold hlen; lia). rewrite <- Eh.
  destruct (decide (length S < hlen)%nat) as [Hlt|Hge]; cycle 1.
  { assert (hlen ≤ length b)%nat.
    { unfold b. rewrite seg_pending_length, decide_False by done.
      pose proof (seg_count_bounds hlen mseg HM S). lia. }
    rewrite (proj2 (Z.ltb_ge _ _)), andb_false_r by lia. intros _.
    rewrite take_app_le, Hh by lia. done. }
  assert (b = S) as -> by (unfold b, seg_pending; by rewrite decide_True).
  rewrite (proj2 (Z.ltb_lt _ _)), andb_true_r by lia.
  destruct (Z.leb_spec (Z.of_nat hlen) (Z.of_nat (length (S ++ x)))); [|lia].
  assert (length (S ++ x) ≤ length d)%nat by (rewrite <- Hd at 1; rewrite length_take; lia).
  split.
  - rewrite load_in by lia. rewrite drop_0, <- Hd, take_take. do 2 f_equal. lia.
  - rewrite store_in; rewrite length_take, ?Nat.min_l by lia; [|lia]. eexists. split; [done|].
    rewrite take_0, app_nil_l. rewrite !length_app, length_drop, !length_take, length_app in *.
    split; [lia|].
    apply take_app_length'. rewrite length_take, length_app. lia.
Qed.

Lemma tso_gather_wp base S x m (k : MM unit) Q :
  let b := seg_pending hlen mseg S in
  tso_at base S m → Z.of_nat (length (b ++ x)) ≤ tx_hdr_len t + tx_mss t →
  (∀ m', tso_mid S x m m' → wp k Q m') →
  wp (data_store (Z.of_nat (length b)) x;;
      (if (tx_hdr_len t <=? Z.of_nat (length (b ++ x))) && (Z.of_nat (length b) <? tx_hdr_len t) then
         h ← data_load 0 (tx_hdr_len t);
         hd ← get_tx tx_header;
         hd ← oob (store hd 0 h);
         mod_tx (λ t, t <| tx_header := hd |>)
       else mret ());;
      mod_tx (λ t, t <| tx_size := Z.of_nat (length (b ++ x)) |>);; k) Q m.
Proof.
  intros b [] Hle HQ. destruct at_win0 as [Hsz Hd]. pose proof (tp_msh _ Ht). fold b in Hsz, Hd.
  destruct (store_gather (tx_data (tx (dev m))) b x Hd) as (d'&Hd'&Hl&Hg).
  { rewrite length_app in Hle. lia. }
  pose proof (tso_header_saved S x _ d' at_hlen0 Hg at_hdr0) as Hsave. fold b in Hsave.
  unfold data_store. apply wp_bind, wp_bind, wp_get_dev. rewrite Nat2Z.id, Hd'.
  apply wp_bind, wp_ret, wp_mod_dev, wp_bind. destruct (_ && _) eqn:Ec.
  - destruct Hsave as (Hload&hd&Hst&Hhl&Hhd).
    apply wp_bind, wp_bind, wp_get_dev. cbn [dev tx tx_data update]. fold hlen.
    change (Z.to_nat 0) with 0%nat. rewrite Hload.
    apply wp_ret, wp_bind, wp_get_dev. cbn [dev tx tx_header update]. rewrite Hst.
    apply wp_bind, wp_ret, wp_mod_dev, wp_bind, wp_mod_dev. apply HQ.
    split; cbn; first [done|congruence|by split].
  - apply wp_ret, wp_bind, wp_mod_dev. apply HQ. split; cbn; first [done|congruence|by split].
Qed.

(** Sending a complete segment and putting the saved header back. *)
Lemma tso_flush_wp base S x m m' :
  let b := seg_pending hlen mseg S in
  tso_mid S x m m' → sent m = base ++ seg_out S →
  Z.of_nat (length (b ++ x)) ≤ tx_hdr_len t + tx_mss t →
  wp (if Z.of_nat (length (b ++ x)) =? tx_hdr_len t + tx_mss t then
        xmit_seg;;
        hd ← get_tx tx_header;
        h ← oob (load hd 0 (Z.to_nat (tx_hdr_len t)));
        data_store 0 h;;
        mod_tx (λ u, u <| tx_size := u16 (tx_hdr_len t) |>)
      else mret ()) (λ _ m'', mem m'' = mem m ∧ tso_at base (S ++ x) m'') m'.
Proof.
  intros b [] Hsent Hle. pose proof tso_M_pos as HM. pose proof (tp_msh _ Ht). pose proof (tp_mss _ Ht).
  pose proof tso_hdr_range. fold b in mid_win0.
  assert (Z.of_nat hlen = tx_hdr_len t ∧ Z.of_nat mseg = tx_mss t) as [Eh Em]
    by (unfold hlen, mseg; lia).
  destruct (Z.eqb_spec (Z.of_nat (length (b ++ x))) (tx_hdr_len t + tx_mss t)) as [E|E]; cycle 1.
  { apply wp_ret. destruct (seg_gather hlen mseg HM S x) as [Hp Hc]; [rewrite length_app in *; fold b; lia|].
    split; [done|]. split; try done; [by rewrite Hc|by rewrite Hp|].
    by rewrite mid_sent0, Hsent, seg_out_gather. }
  destruct (seg_complete hlen mseg HM S x) as (Hb&Hp&Hc&Hl); [rewrite length_app in *; fold b; lia|].
  apply wp_bind. eapply wp_mono.
  { apply (tso_xmit (sent m')); try done. lia. }
  cbn beta. intros _ m2 (Hs2&Hm2&Hr2&d&Hd&Htx2). fold b in Hb.
  apply wp_bind, wp_get_dev. rewrite Htx2. cbn [tx_header update]. fold hlen.
  rewrite load_in by lia. rewrite drop_0, (mid_hdr0 Hl).
  destruct (store_gather d [] (take hlen (S ++ x)) eq_refl) as (d'&Hd'&Hdl&Hdt).
  { rewrite length_take. cbn. lia. }
  apply wp_bind, wp_ret, wp_bind, wp_bind, wp_get_dev. rewrite Htx2. cbn [tx_data update].
  change (Z.to_nat 0) with (length (@nil Z)). rewrite Hd'. apply wp_bind, wp_ret, wp_mod_dev, wp_mod_dev.
  split; [cbn; congruence|]. split; cbn; rewrite ?Htx2; cbn; try done.
  - congruence.
  - by rewrite Hc.
  - rewrite Hp. split; cbn; [|done]. rewrite u16_small, length_take by lia. lia.
  - by rewrite Hs2, mid_sent0, Hsent, (seg_out_complete _ _ Hc), Hb, <- app_assoc.
Qed.

Lemma tso_loop_wp base fuel addr split S m :
  (Z.to_nat split < fuel)%nat → 0 ≤ split < 65536 → tso_at base S m →
  wp (tso_loop fuel (tx_hdr_len t) (tx_hdr_len t + tx_mss t) addr split) (λ _ m',
    mem m' = mem m ∧ tso_at base (S ++ phys_read (mem m) addr (Z.to_nat split)) m') m.
Proof.
  revert addr split S m. induction fuel as [|fuel IH]; [lia|]. intros addr split S m Hf Hs Hat.
  pose proof tso_hdr_range as Hh. pose proof (tp_msh _ Ht). pose proof (tp_mss _ Ht).
  pose proof (seg_pending_lt hlen mseg tso_M_pos S) as Hlt.
  set (b := seg_pending hlen mseg S) in *. pose proof (win_size _ _ (at_win _ _ _ Hat)) as Hsz. fold b in Hsz.
  assert (Z.of_nat (length b) < tx_hdr_len t + tx_mss t) as Hb by (unfold hlen, mseg in Hlt; lia).
  cbn [tso_loop]. apply wp_bind, wp_get_dev. rewrite Hsz. cbv zeta.
  rewrite (u32_small (_ + split)), (u32_small (_ + _ - _)) by lia.
  set (bytes := if _ >? _ then _ else split).
  assert (0 ≤ bytes ≤ split ∧ Z.of_nat (length b) + bytes ≤ tx_hdr_len t + tx_mss t ∧
    (0 < split → 0 < bytes)) as (Hy&Hy2&Hy3).
  { unfold bytes. destruct (Z.gtb_spec (Z.of_nat (length b) + split) (tx_hdr_len t + tx_mss t)); lia. }
  clearbody bytes. apply wp_bind, wp_read. rewrite s32_small by lia.
  set (x := phys_read (mem m) addr (Z.to_nat bytes)).
  assert (Z.of_nat (length b) + bytes = Z.of_nat (length (b ++ x))) as Hx
    by (unfold x; rewrite length_app, phys_read_length; lia).
  rewrite Hx, (u32_small (Z.of_nat _)), (u16_small (Z.of_nat _)) by lia.
  apply (tso_gather_wp base S x); [done|fold b; lia|]. intros m' Hmid. apply wp_bind. eapply wp_mono.
  { apply (tso_flush_wp base S x m); [done|by apply Hat|fold b; lia]. }
  cbn beta. intros _ m2 (Hm2&Hat2). rewrite u32_small by lia.
  replace (Z.to_nat split) with (Z.to_nat bytes + Z.to_nat (split - bytes))%nat by lia.
  rewrite phys_read_app, app_assoc. fold x.
  destruct (Z.eqb_spec (split - bytes) 0) as [E|E].
  { apply wp_ret. split; [done|]. rewrite E.
    by rewrite (nil_length_inv (phys_read _ _ _)), app_nil_r by apply phys_read_length. }
  eapply wp_mono; [apply IH; [lia|lia|exact Hat2]|]. cbn beta.
  rewrite Hm2, phys_read_u64. by replace (Z.of_nat (Z.to_nat bytes)) with bytes by lia.
Qed.

(** *** The descriptors of a packet *)

(** A data descriptor of the packet: no VLAN tag, and the same checksum options
    on all of them. *)
Definition seg_desc (d : e1000_tx_desc) : Prop :=
  tso_desc d ∧ is_vlan_txd (txd_lower d) = false ∧ u8 (txd_upper d >> 8) = tx_sum_needed t.

(** The options of a data descriptor taken over. *)
Definition tso_begin m : machine X P :=
  m <| dev ::= λ s, s <| tx ::= λ u, u <| tx_sum_needed := tx_sum_needed t |> <| tx_cptse := 1 |> |> |>.

Lemma tso_begin_id base S m : tx_cptse t = 1 → tso_at base S m → tso_at base S (tso_begin m).
Proof.
  intros Hc []. split; try done; [|by destruct at_win0].
  by apply (tx_params_begin _ _ Hc).
Qed.

Lemma tx_begin_desc s d :
  seg_desc d →
  tx_begin s d (E1000_TXD_CMD_DEXT .| E1000_TXD_DTYP_D) =
  tx s <| tx_sum_needed := tx_sum_needed t |> <| tx_cptse := 1 |>.
Proof.
  intros ([_ Hf]&Hv&Hs). unfold tx_begin. rewrite Z.eqb_refl, Hf, Hv, Hs. by rewrite andb_false_r.
Qed.

Lemma process_tx_desc_seg base fuel d S m (Q : unit → machine X P → Prop) :
  seg_desc d → (Z.to_nat (tx_len d) < fuel)%nat → tso_at base S (tso_begin m) →
  (∀ m', mem m' = mem m → tso_at base (S ++ tx_chunk (mem m) d) m' →
    wp (if negb (tx_eop d) then mret () else
        tp ← get_tx id;
        (if negb (negb (tx_tse tp =? 0) && negb (tx_cptse tp =? 0) && (tx_size tp <? tx_hdr_len t))
         then xmit_seg else mret ());;
        mod_tx (λ t, t <| tx_tso_frames := 0 |> <| tx_sum_needed := 0 |>
                   <| tx_vlan_needed := 0 |> <| tx_size := 0 |> <| tx_cptse := 0 |>)) Q m') →
  wp (process_tx_desc fuel d) Q m.
Proof.
  intros Hd Hf Hat HQ. pose proof (tx_len_range d). destruct (tx_params_eq _ (at_params _ _ _ Hat)) as (Et&Ec&_).
  assert (tx_hdr_len (tx (dev m)) = tx_hdr_len t ∧ tx_mss (tx (dev m)) = tx_mss t) as [Eh Em].
  { pose proof (at_params _ _ _ Hat) as Hp. cbn in Hp. split; by injection Hp. }
  unfold process_tx_desc. cbv zeta. destruct Hd as ([Ed Hf']&Hv&Hs). rewrite Ed.
  change (_ =? E1000_TXD_CMD_DEXT) with false. cbv iota.
  apply wp_bind, wp_get_dev. rewrite tx_begin_desc by done. apply wp_bind, wp_mod_dev.
  cbn [tx_tse tx_cptse tx_hdr_len tx_mss update tso_begin dev tx] in *.
  rewrite (proj2 (Z.eqb_neq _ _) Et). cbn [negb andb Z.eqb]. rewrite Eh, Em.
  fold (tx_len d). apply wp_bind. eapply wp_mono.
  { apply (tso_loop_wp base fuel _ (tx_len d) S); [done|lia|exact Hat]. }
  cbn beta. intros _ m' [Hm' Hat']. by apply HQ.
Qed.

(** The frames of the packet [S]. *)
Definition tso_frames S : list (list Z) :=
  map (λ k, seg_frame k (seg_bytes hlen mseg S k)) (seq 0 (Datatypes.S (seg_count hlen mseg S))).

Lemma tso_last_wp base S m :
  tso_at base S m → (hlen ≤ length S)%nat →
  wp (tp ← get_tx id;
      (if negb (negb (tx_tse tp =? 0) && negb (tx_cptse tp =? 0) && (tx_size tp <? tx_hdr_len t))
       then xmit_seg else mret ());;
      mod_tx (λ t, t <| tx_tso_frames := 0 |> <| tx_sum_needed := 0 |>
                 <| tx_vlan_needed := 0 |> <| tx_size := 0 |> <| tx_cptse := 0 |>))
    (λ _ m', sent m' = base ++ tso_frames S ∧ mem m' = mem m ∧
      tx_size (tx (dev m')) = 0 ∧ tx_tso_frames (tx (dev m')) = 0) m.
Proof.
  intros [] Hl. pose proof tso_M_pos as HM. pose proof tso_hdr_range. pose proof (tp_msh _ Ht).
  pose proof (seg_count_bounds hlen mseg HM S Hl) as Hc.
  assert (seg_pending hlen mseg S = seg_bytes hlen mseg S (seg_count hlen mseg S)) as Hp.
  { unfold seg_pending, seg_bytes. rewrite decide_False by lia. f_equal.
    rewrite take_ge; [done|]. rewrite length_drop. lia. }
  assert (hlen ≤ length (seg_pending hlen mseg S))%nat as Hpl.
  { rewrite seg_pending_length, decide_False by lia. lia. }
  pose proof (seg_pending_lt hlen mseg HM S) as Hlt. pose proof (tp_mss _ Ht).
  assert (Z.of_nat hlen = tx_hdr_len t ∧ Z.of_nat mseg = tx_mss t) as [Eh Em]
    by (unfold hlen, mseg; lia).
  apply wp_bind, wp_get_dev. cbn [id]. rewrite (win_size _ _ at_win0).
  rewrite (proj2 (Z.ltb_ge _ _)), andb_false_r by lia. cbn [negb].
  apply wp_bind. eapply wp_mono.
  { apply (tso_xmit (base ++ seg_out S)); try done. lia. }
  cbn beta. intros _ m' (Hs&Hm&_). apply wp_mod_dev. split_and!; try done.
  change (sent m' = base ++ tso_frames S). rewrite Hs, <- app_assoc. unfold tso_frames, seg_out. by rewrite seq_S, map_app, Hp.
Qed.

Fixpoint process_tx_descs (fuel : nat) (ds : list e1000_tx_desc) : MM unit :=
  match ds with
  | [] => mret ()
  | d :: ds => process_tx_desc fuel d;; process_tx_descs fuel ds
  end.

Definition tx_bytes (x : X) (ds : list e1000_tx_desc) : list Z := concat (map (tx_chunk x) ds).

(** A descriptor in the middle of the packet, and the last one. *)
Lemma tso_data_wp base fuel d S m :
  seg_desc d → (Z.to_nat (tx_len d) < fuel)%nat → tx_eop d = false → tso_at base S (tso_begin m) →
  wp (process_tx_desc fuel d) (λ _ m',
    mem m' = mem m ∧ tso_at base (S ++ tx_chunk (mem m) d) m') m.
Proof.
  intros Hd Hf He Hat. apply (process_tx_desc_seg base fuel d S); [done..|].
  intros m' Hm Hat'. rewrite He. cbn [negb]. by apply wp_ret.
Qed.

Lemma tso_end_wp base fuel d S m :
  seg_desc d → (Z.to_nat (tx_len d) < fuel)%nat → tx_eop d = true → tso_at base S (tso_begin m) →
  (hlen ≤ length (S ++ tx_chunk (mem m) d))%nat →
  wp (process_tx_desc fuel d) (λ _ m',
    sent m' = base ++ tso_frames (S ++ tx_chunk (mem m) d) ∧ mem m' = mem m ∧
    tx_size (tx (dev m')) = 0 ∧ tx_tso_frames (tx (dev m')) = 0) m.
Proof.
  intros Hd Hf He Hat Hl. apply (process_tx_desc_seg base fuel d S); [done..|].
  intros m' Hm Hat'. rewrite He. cbn [negb]. rewrite <- Hm in *. by apply tso_last_wp.
Qed.

Lemma tso_packet_wp base fuel ds d S m :
  tx_cptse t = 1 → Forall seg_desc (ds ++ [d]) →
  Forall (λ d, Z.to_nat (tx_len d) < fuel)%nat (ds ++ [d]) →
  Forall (λ d, tx_eop d = false) ds → tx_eop d = true →
  tso_at base S (tso_begin m) → (hlen ≤ length (S ++ tx_bytes (mem m) (ds ++ [d])))%nat →
  wp (process_tx_descs fuel (ds ++ [d])) (λ _ m',
    sent m' = base ++ tso_frames (S ++ tx_bytes (mem m) (ds ++ [d])) ∧ mem m' = mem m ∧
    tx_size (tx (dev m')) = 0 ∧ tx_tso_frames (tx (dev m')) = 0) m.
Proof.
  intros Hc Hds Hf He Hd. revert S m. unfold tx_bytes.
  induction ds as [|d' ds IH]; intros S m Hat Hl; cbn [app process_tx_descs map concat] in *; apply wp_bind.
  - rewrite app_nil_r in *.
    eapply wp_mono; [apply (tso_end_wp base fuel d S); [by inversion Hds|by inversion Hf|done..]|].
    intros [] m' ?. by apply wp_ret.
  - apply Forall_cons_iff in Hds as [? Hds], Hf as [? Hf], He as [He' He].
    eapply wp_mono; [by apply (tso_data_wp base fuel d' S)|]. cbn beta. intros [] m1 [Hm1 Hat1].
    rewrite app_assoc, <- Hm1 in *. apply IH; [done..|by apply tso_begin_id|done].
Qed.
End loop.

(** ** What the rewriting leaves alone *)

Definition apart (o n off k : Z) : Prop := o + n ≤ off ∨ off + k ≤ o.

Lemma ld_st_ne b off l b' o n :
  st b off l = Some b' → 0 ≤ off → 0 ≤ o → 0 ≤ n → apart o n off (Z.of_nat (length l)) →
  ld b' o n = ld b o n.
Proof.
  intros Hs ? ? ? Ha. pose proof (store_length _ _ _ _ Hs) as Hl. unfold st, store, ld, load, apart in *.
  case_decide; [|done]. injection Hs as <-. rewrite Hl. case_decide; [|done]. f_equal.
  destruct Ha.
  - rewrite drop_app_le by (rewrite length_take; lia).
    rewrite take_app_le by (rewrite length_drop, length_take; lia).
    rewrite skipn_firstn_comm, take_take. f_equal. lia.
  - rewrite app_assoc, drop_app_ge by (rewrite length_app, length_take; lia).
    rewrite drop_drop, length_app, length_take. do 2 f_equal. lia.
Qed.

Lemma ld_st_eq b off l b' :
  st b off l = Some b' → 0 ≤ off → ld b' off (Z.of_nat (length l)) = Some l.
Proof. intros Hs ?. unfold ld. rewrite Nat2Z.id. by eapply load_store. Qed.

Lemma st_drop b off l b' n :
  st b off l = Some b' → 0 ≤ off → off + Z.of_nat (length l) ≤ Z.of_nat n → drop n b' = drop n b.
Proof.
  intros Hs ? ?. unfold st, store in Hs. case_decide; [|done]. injection Hs as <-.
  rewrite app_assoc, drop_app_ge by (rewrite length_app, length_take; lia).
  rewrite drop_drop, length_app, length_take. f_equal. lia.
Qed.

Lemma seg_sum_st needed b sloc css cse b' :
  seg_sum needed b sloc css cse = Some b' →
  b' = b ∨ ∃ l, length l = 2%nat ∧ st b sloc l = Some b'.
Proof.
  destruct needed; cbn; [|intros [= ->]; by left]. unfold putsum. cbv zeta.
  case_match; [|intros [= ->]; by left]. intros (?&?&?)%bind_Some.
  right. eexists. split; [|done]. done.
Qed.

(** [f] does not depend on the bytes from [o] on, [n] of them. *)
Definition blind {A} (f : list Z → A) (o n : Z) : Prop :=
  ∀ b off l b', st b off l = Some b' → o ≤ off → off + Z.of_nat (length l) ≤ o + n → f b' = f b.

Lemma blind_drop n o k : 0 ≤ o → o + k ≤ Z.of_nat n → blind (drop n) o k.
Proof. intros ?? b off l b' Hs ??. eapply st_drop; [done|lia..]. Qed.

Lemma blind_ld o n off k : 0 ≤ o → 0 ≤ n → 0 ≤ off → apart o n off k → blind (λ b, ld b o n) off k.
Proof.
  intros ??? Ha b off' l b' Hs ??. eapply ld_st_ne; [done|lia..|]. unfold apart in *. lia.
Qed.

Section blind.
Context {A : Type} (f : list Z → A) (t : e1000_tx).

(** Through a sequence of writes, the last one first. *)
Ltac blind_step :=
  match goal with
  | B : blind f _ _, E : st ?b _ _ = Some ?b' |- context [f ?b'] =>
      rewrite (B _ _ _ _ E) by (cbn; lia); clear E
  end.

Lemma seg_ip_blind b b' : blind f (tx_ipcss t + 2) 4 → seg_ip t b = Some b' → f b' = f b.
Proof.
  intros B Hs. unfold seg_ip in Hs. cbv zeta in Hs.
  case_match; [apply bind_Some in Hs as (?&?&Hs); apply bind_Some in Hs as (?&?&Hs)|];
    by repeat blind_step.
Qed.

Lemma seg_tcp_blind b b' :
  blind f (tx_tucss t + 4) 4 → blind f (tx_tucss t + 13) 1 → seg_tcp t b = Some b' → f b' = f b.
Proof.
  intros B B' Hs. unfold seg_tcp in Hs. cbv zeta in Hs. case_match; [|by repeat blind_step].
  apply bind_Some in Hs as (?&?&Hs). apply bind_Some in Hs as (?&?&Hs).
  case_match; [apply bind_Some in Hs as (?&?&Hs)|injection Hs as <-]; by repeat blind_step.
Qed.

Lemma seg_phsum_blind b b' : blind f (tx_tucso t) 2 → seg_phsum t b = Some b' → f b' = f b.
Proof.
  intros B Hs. unfold seg_phsum in Hs. cbv zeta in Hs. case_match; [|by simplify_eq].
  apply bind_Some in Hs as (?&?&Hs). by repeat blind_step.
Qed.

Lemma seg_sum_blind needed b sloc css cse b' :
  blind f sloc 2 → seg_sum needed b sloc css cse = Some b' → f b' = f b.
Proof. intros B [->|(l&?&?)]%seg_sum_st; [done|]. by blind_step. Qed.
End blind.

(** The payload travels unchanged. *)
Lemma seg_fix_payload t b b' :
  tso_params t → seg_fix t b = Some b' →
  drop (Z.to_nat (tx_hdr_len t)) b' = drop (Z.to_nat (tx_hdr_len t)) b.
Proof.
  intros [Hok ? ? ? ? ? Hf] Hs. pose proof (tx_u8_range _ Hok) as Hr.
  repeat (apply Forall_cons_iff in Hf as [? Hf]).
  unfold seg_fix in Hs. apply bind_Some in Hs as (b1&E1&Hs). apply bind_Some in Hs as (b2&E2&Hs).
  apply bind_Some in Hs as (b3&E3&Hs). apply bind_Some in Hs as (b4&E4&E5).
  assert (∀ o k, 0 ≤ o → o + k ≤ tx_hdr_len t → blind (drop (Z.to_nat (tx_hdr_len t))) o k) as B
    by (intros; apply blind_drop; lia).
  rewrite (seg_sum_blind _ _ _ _ _ _ _ (B (tx_ipcso t) 2 ltac:(lia) ltac:(lia)) E5).
  rewrite (seg_sum_blind _ _ _ _ _ _ _ (B (tx_tucso t) 2 ltac:(lia) ltac:(lia)) E4).
  rewrite (seg_phsum_blind _ t _ _ (B (tx_tucso t) 2 ltac:(lia) ltac:(lia)) E3).
  rewrite (seg_tcp_blind _ t _ _ (B (tx_tucss t + 4) 4 ltac:(lia) ltac:(lia))
    (B (tx_tucss t + 13) 1 ltac:(lia) ltac:(lia)) E2).
  by rewrite (seg_ip_blind _ t _ _ (B (tx_ipcss t + 2) 4 ltac:(lia) ltac:(lia)) E1).
Qed.

(** Consecutive pieces make up the whole. *)
Lemma concat_pieces (k n : nat) (q : list Z) :
  (length q ≤ n * k)%nat → concat (map (λ i, take k (drop (i * k) q)) (seq 0 n)) = q.
Proof.
  revert q. induction n as [|n IH]; intros q Hq; [destruct q; [done|cbn in *; lia]|].
  cbn [seq map concat]. rewrite <- seq_shift, map_map. rewrite Nat.mul_0_l, drop_0.
  rewrite (map_ext _ (λ i, take k (drop (i * k) (drop k q)))).
  - rewrite IH by (rewrite length_drop; lia). apply take_drop.
  - intros i. by rewrite drop_drop.
Qed.

Section packet.
Context {X P : Type} `{PhysMemLaws X} `{MsgLink P}.
Implicit Types (m : machine X P).

Lemma seg_bytes_length hl ms S k : (0 < ms)%nat → (hl ≤ length S)%nat → (k ≤ seg_count hl ms S)%nat →
  (hl ≤ length (seg_bytes hl ms S k) ≤ hl + ms)%nat.
Proof. intros. unfold seg_bytes. rewrite length_app, !length_take, length_drop. lia. Qed.

Lemma tso_frames_payload t S :
  let H := Z.to_nat (tx_hdr_len t) in
  tso_params t → (H ≤ length S)%nat →
  concat (map (drop H) (tso_frames t S)) = drop H S ∧
  Forall (λ f, H ≤ length f ≤ H + Z.to_nat (tx_mss t))%nat (tso_frames t S).
Proof.
  intros hl Ht Hl. pose proof (tp_mss _ Ht). pose proof (tp_msh _ Ht).
  pose proof (tx_u8_range _ (tp_ok _ Ht)) as Hr. set (ms := Z.to_nat (tx_mss t)).
  assert (∀ k, (k ≤ seg_count hl ms S)%nat →
    drop hl (seg_frame t k (seg_bytes hl ms S k)) = take ms (drop (k * ms) (drop hl S)) ∧
    (hl ≤ length (seg_frame t k (seg_bytes hl ms S k)) ≤ hl + ms)%nat) as Hk.
  { intros k Hk. pose proof (seg_bytes_length hl ms S k ltac:(lia) Hl Hk) as Hb.
    destruct (seg_fix_some _ (seg_bytes hl ms S k) (tso_params_frames t (Z.of_nat k) Ht))
      as (f&Hf&Hfl); [cbn; lia..|].
    unfold seg_frame. rewrite Hf. change (default [] (Some f)) with f. rewrite Hfl. split; [|done].
    pose proof (seg_fix_payload _ _ _ (tso_params_frames t (Z.of_nat k) Ht) Hf) as Hp. cbn in Hp.
    fold hl in Hp. rewrite Hp. unfold seg_bytes. rewrite drop_app_length' by (rewrite length_take; lia).
    by rewrite drop_drop. }
  unfold tso_frames. fold hl ms. split.
  - rewrite map_map. etransitivity; [|apply (concat_pieces ms (Datatypes.S (seg_count hl ms S)))].
    + f_equal. apply map_ext_in. intros k ?%in_seq. apply Hk. lia.
    + rewrite length_drop. pose proof (seg_count_bounds hl ms ltac:(lia) S Hl). lia.
  - apply List.Forall_map, Forall_seq. intros k ?. apply Hk. lia.
Qed.

Lemma tso_at_start t base m :
  let u := tx (dev m) in
  dev_ok (dev m) → tx_size u = 0 → tx_tso_frames u = 0 → sent m = base →
  tx_params (u <| tx_sum_needed := tx_sum_needed t |> <| tx_cptse := 1 |>) = tx_params t → tso_params t →
  tso_at t base [] (tso_begin t m).
Proof.
  intros u Hok Hsz Hfr Hs Et Ht. pose proof (tp_mss _ Ht). pose proof (dev_tx_ok _ Hok) as Htx.
  assert (∀ hl ms, (0 < ms)%nat → seg_count hl ms [] = 0%nat ∧ seg_pending hl ms [] = []) as Hnil.
  { intros hl ms Hms. rewrite seg_count_short by (cbn; lia). split; [done|].
    unfold seg_pending. case_decide; [done|]. by rewrite take_nil, drop_nil. }
  destruct (Hnil (Z.to_nat (tx_hdr_len t)) (Z.to_nat (tx_mss t)) ltac:(lia)) as [Hc Hp].
  split; cbn; try done; try apply Hok; try apply Htx.
  - by rewrite Hc.
  - rewrite Hp. by split.
  - intros Hl. cbn in Hl. by replace (Z.to_nat (tx_hdr_len t)) with 0%nat by lia.
  - unfold seg_out. rewrite Hc, Hs. cbn. by rewrite app_nil_r.
Qed.

(** The packet [S] as the frames [fs]: with [H] bytes of header and segments of [M]
    bytes there are [(|S| - H) / M + 1] frames; frame [k] is the header followed by
    bytes [k * M] to [(k + 1) * M] of the payload, as rewritten for segment [k]; no
    frame is longer than [H + M]; and the payloads of the frames, one after the
    other, are the payload of the packet. *)
Record segmented (t : e1000_tx) (S : list Z) (fs : list (list Z)) : Prop := {
  sg_count : length fs = ((length S - Z.to_nat (tx_hdr_len t)) / Z.to_nat (tx_mss t) + 1)%nat;
  sg_frame k f : fs !! k = Some f →
    seg_fix (t <| tx_tso_frames := u16 (Z.of_nat k) |>)
      (take (Z.to_nat (tx_hdr_len t)) S ++
       take (Z.to_nat (tx_mss t)) (drop (Z.to_nat (tx_hdr_len t) + k * Z.to_nat (tx_mss t)) S)) = Some f;
  sg_size : Forall (λ f, length f ≤ Z.to_nat (tx_hdr_len t) + Z.to_nat (tx_mss t))%nat fs;
  sg_payload : concat (map (drop (Z.to_nat (tx_hdr_len t))) fs) = drop (Z.to_nat (tx_hdr_len t)) S;
}.

Lemma tso_frames_segmented t S :
  tso_params t → (Z.to_nat (tx_hdr_len t) ≤ length S)%nat → segmented t S (tso_frames t S).
Proof.
  intros Ht Hl. destruct (tso_frames_payload t S Ht Hl) as [Hp Hlen].
  set (hl := Z.to_nat (tx_hdr_len t)) in *. set (ms := Z.to_nat (tx_mss t)) in *. split; fold hl ms.
  - unfold tso_frames. rewrite length_map, length_seq. fold hl ms. unfold seg_count. lia.
  - intros k f Hk. unfold tso_frames in Hk. fold hl ms in Hk.
    change (map ?g ?l) with (g <$> l) in Hk.
    apply list_lookup_fmap_Some in Hk as (k'&->&[-> ?]%lookup_seq).
    unfold seg_frame. fold (seg_bytes hl ms S k).
    pose proof (tp_mss _ Ht). pose proof (tp_msh _ Ht). pose proof (tx_u8_range _ (tp_ok _ Ht)) as Hr.
    pose proof (seg_bytes_length hl ms S k ltac:(lia) Hl ltac:(lia)) as Hb.
    destruct (seg_fix_some _ (seg_bytes hl ms S k) (tso_params_frames t (Z.of_nat k) Ht))
      as (f&Hf'&_); [|lia|change (0 + k)%nat with k; by rewrite Hf'].
    change (tx_hdr_len t ≤ Z.of_nat (length (seg_bytes hl ms S k))). lia.
  - eapply Forall_impl; [|exact Hlen]. cbn beta. lia.
  - done.
Qed.

(** Segmentation offload: the data descriptors of one packet, under any context
    whose header holds every field that is rewritten, transmit the packet cut
    into segments. The processing ends: the loop needs no more iterations than a
    buffer has bytes. *)
Theorem tso_packet_segmented fuel ds d m :
  let t := tx (dev m) <| tx_sum_needed := u8 (txd_upper d >> 8) |> <| tx_cptse := 1 |> in
  let S := tx_bytes (mem m) (ds ++ [d]) in
  dev_ok (dev m) → tso_params t → tx_size t = 0 → tx_tso_frames t = 0 →
  Forall (seg_desc t) (ds ++ [d]) → Forall (λ d, Z.to_nat (tx_len d) < fuel)%nat (ds ++ [d]) →
  Forall (λ d, tx_eop d = false) ds → tx_eop d = true → (Z.to_nat (tx_hdr_len t) ≤ length S)%nat →
  ∃ m' fs, process_tx_descs fuel (ds ++ [d]) m = Ret () m' ∧
    sent m' = sent m ++ fs ∧ segmented t S fs.
Proof.
  intros t S Hok Ht Hsz Hfr Hds Hf He Hd Hl.
  pose proof (tso_at_start t (sent m) m Hok Hsz Hfr eq_refl eq_refl Ht) as Hat.
  pose proof (tso_packet_wp t Ht (sent m) fuel ds d [] m eq_refl Hds Hf He Hd Hat Hl) as Hw.
  cbn [app] in Hw. fold S in Hw.
  destruct (wp_unit _ _ _ Hw) as (m'&E&Hs&_). exists m', (tso_frames t S). split_and!; try done.
  by apply tso_frames_segmented.
Qed.
End packet.

(** *** The header of a segment *)

(** The TCP/IPv4 layout: the checksum fields do not overlap the fields that
    carry the lengths and the sequence number. *)
Record tcp_layout (t : e1000_tx) : Prop := {
  lay_ip : tx_ip t ≠ 0;
  lay_tcp : tx_tcp t ≠ 0;
  lay_order : tx_ipcss t + 6 ≤ tx_tucss t;
  lay_ipcso : tx_ipcss t + 6 ≤ tx_ipcso t;
  lay_ipcso' : tx_ipcso t + 2 ≤ tx_tucss t + 4;
  lay_tucso : tx_tucss t + 14 ≤ tx_tucso t;
}.

Definition be16_at (b : list Z) (off : Z) : option Z := be16_to_cpup <$> ld b off 2.
Definition be32_at (b : list Z) (off : Z) : option Z := be32_to_cpupu <$> ld b off 4.
Definition u8_at (b : list Z) (off : Z) : option Z := (λ l, arr l 0) <$> ld b off 1.

Lemma be16_roundtrip v : be16_to_cpup (cpu_to_be16wu v) = u16 v.
Proof.
  rewrite cpu_to_be16wu_spec, be16_to_cpup_spec; [apply (be_val_bytes 2)|apply be_bytes_ok|apply length_be_bytes].
Qed.

Lemma be32_roundtrip v : be32_to_cpupu (cpu_to_be32wu v) = u32 v.
Proof.
  rewrite cpu_to_be32wu_spec, be32_to_cpupu_spec; [apply (be_val_bytes 4)|apply be_bytes_ok|apply length_be_bytes].
Qed.

Lemma seg_ip_fields t b b' i :
  0 ≤ tx_ipcss t → tx_ip t ≠ 0 → seg_ip t b = Some b' → be16_at b (tx_ipcss t + 4) = Some i →
  be16_at b' (tx_ipcss t + 2) = Some (u16 (Z.of_nat (length b) - tx_ipcss t)) ∧
  be16_at b' (tx_ipcss t + 4) = Some (u16 (i + tx_tso_frames t)).
Proof.
  intros Hc Hip Hs Hi. unfold seg_ip in Hs. cbv zeta in Hs.
  rewrite (proj2 (Z.eqb_neq _ _) Hip) in Hs. cbn [negb] in Hs.
  apply bind_Some in Hs as (c&Hst&Hs). apply bind_Some in Hs as (id_&Hid&Hs).
  pose proof (ld_st_eq _ _ _ _ Hst ltac:(lia)) as L1. pose proof (ld_st_eq _ _ _ _ Hs ltac:(lia)) as L2.
  rewrite length_be16 in L1, L2. change (Z.of_nat 2) with 2 in L1, L2.
  pose proof (ld_st_ne _ _ _ _ (tx_ipcss t + 4) 2 Hst) as N1.
  pose proof (ld_st_ne _ _ _ _ (tx_ipcss t + 2) 2 Hs) as N2. unfold apart in N1, N2. cbn in N1, N2.
  unfold be16_at in *. rewrite <- N1, Hid in Hi by lia. injection Hi as <-.
  rewrite N2, L1, L2 by lia. cbn [fmap option_fmap option_map].
  rewrite !be16_roundtrip. unfold u16.
  by rewrite !wrap_wrap by done.
Qed.

Lemma seg_tcp_fields t b b' q g :
  0 ≤ tx_tucss t → tx_tcp t ≠ 0 → seg_tcp t b = Some b' →
  be32_at b (tx_tucss t + 4) = Some q → u8_at b (tx_tucss t + 13) = Some g →
  let sofar := tx_tso_frames t * tx_mss t in
  be32_at b' (tx_tucss t + 4) = Some (u32 (q + sofar)) ∧
  u8_at b' (tx_tucss t + 13) =
    Some (if u32 (tx_paylen t - sofar) >? tx_mss t then u8 (g .& .~ 9) else g).
Proof.
  intros Hc Htcp Hs Hq Hg sofar. unfold seg_tcp in Hs. cbv zeta in Hs. fold sofar in Hs.
  rewrite (proj2 (Z.eqb_neq _ _) Htcp) in Hs. cbn [negb] in Hs.
  apply bind_Some in Hs as (sq&Hsq&Hs). apply bind_Some in Hs as (c&Hst&Hs).
  unfold be32_at, u8_at in *. rewrite Hsq in Hq. injection Hq as <-.
  pose proof (ld_st_eq _ _ _ _ Hst ltac:(lia)) as L1.
  rewrite length_be32 in L1. change (Z.of_nat 4) with 4 in L1.
  pose proof (ld_st_ne _ _ _ _ (tx_tucss t + 13) 1 Hst) as N1. unfold apart in N1. cbn in N1.
  rewrite <- N1 in Hg by lia.
  assert (u32 (tx_paylen t - u32 sofar) = u32 (tx_paylen t - sofar)) as Ep
    by (unfold u32, wrap; by rewrite Zminus_mod_idemp_r). rewrite Ep in Hs.
  assert (be32_to_cpupu (cpu_to_be32wu (u32 (be32_to_cpupu sq + u32 sofar))) =
    u32 (be32_to_cpupu sq + sofar)) as Eq.
  { rewrite be32_roundtrip. unfold u32. by rewrite wrap_wrap, wrap_add_r by done. }
  destruct (_ >? _).
  - apply bind_Some in Hs as (fl&Hfl&Hs). rewrite Hfl in Hg. injection Hg as <-.
    pose proof (ld_st_eq _ _ _ _ Hs ltac:(lia)) as L2. cbn [length] in L2.
    change (Z.of_nat 1) with 1 in L2.
    pose proof (ld_st_ne _ _ _ _ (tx_tucss t + 4) 4 Hs) as N2. unfold apart in N2. cbn in N2.
    rewrite N2, L1, L2 by lia. cbn [fmap option_fmap option_map]. by rewrite Eq.
  - injection Hs as <-. rewrite L1. cbn [fmap option_fmap option_map]. by rewrite Eq.
Qed.

(** The rewritten header of a TCP/IPv4 segment. *)
Lemma seg_fix_fields t b i q g :
  let sofar := tx_tso_frames t * tx_mss t in
  tso_params t → tcp_layout t → tx_hdr_len t ≤ Z.of_nat (length b) < 65536 →
  be16_at b (tx_ipcss t + 4) = Some i → be32_at b (tx_tucss t + 4) = Some q →
  u8_at b (tx_tucss t + 13) = Some g →
  ∃ f, seg_fix t b = Some f ∧ length f = length b ∧
    be16_at f (tx_ipcss t + 2) = Some (Z.of_nat (length b) - tx_ipcss t) ∧
    be16_at f (tx_ipcss t + 4) = Some (u16 (i + tx_tso_frames t)) ∧
    be32_at f (tx_tucss t + 4) = Some (u32 (q + sofar)) ∧
    u8_at f (tx_tucss t + 13) =
      Some (if u32 (tx_paylen t - sofar) >? tx_mss t then u8 (g .& .~ 9) else g).
Proof.
  intros sofar Ht [Hip Htcp ? ? ? ?] Hb Hi Hq Hg.
  destruct (seg_fix_some t b Ht) as (f&Hf&Hfl); [cbn; lia..|].
  exists f. split; [done|]. split; [done|]. pose proof (tx_u8_range _ (tp_ok _ Ht)) as Hr.
  unfold seg_fix in Hf. apply bind_Some in Hf as (b1&E1&Hf).
  apply bind_Some in Hf as (b2&E2&Hf). apply bind_Some in Hf as (b3&E3&Hf).
  apply bind_Some in Hf as (b4&E4&E5).
  assert (∀ o n, 0 ≤ o → 0 ≤ n → apart o n (tx_ipcso t) 2 → apart o n (tx_tucso t) 2 →
    ld f o n = ld b2 o n) as A2.
  { intros o n ? ? A1 A2. pose proof (blind_ld o n (tx_ipcso t) 2) as B1.
    pose proof (blind_ld o n (tx_tucso t) 2) as B2.
    rewrite (seg_sum_blind (λ b, ld b o n) _ _ _ _ _ _ (B1 ltac:(lia) ltac:(lia) ltac:(lia) A1) E5).
    rewrite (seg_sum_blind (λ b, ld b o n) _ _ _ _ _ _ (B2 ltac:(lia) ltac:(lia) ltac:(lia) A2) E4).
    apply (seg_phsum_blind (λ b, ld b o n) t b2 b3); [|done]. apply B2; try done; cbn; lia. }
  assert (∀ o, 0 ≤ o → o + 2 ≤ tx_tucss t + 4 → ld b2 o 2 = ld b1 o 2) as A1.
  { intros o ? ?. apply (seg_tcp_blind (λ b, ld b o 2) t); [..|done];
      apply blind_ld; unfold apart; cbn; lia. }
  assert (∀ o n, 0 ≤ o → 0 ≤ n → tx_tucss t + 4 ≤ o → ld b1 o n = ld b o n) as A0.
  { intros o n ? ? ?. apply (seg_ip_blind (λ b, ld b o n) t); [|done].
    apply blind_ld; unfold apart; cbn; lia. }
  destruct (seg_ip_fields t b b1 i) as [F1 F2]; [cbn; lia|exact Hip|exact E1|exact Hi|].
  destruct (seg_tcp_fields t b1 b2 q g) as [F3 F4]; [cbn; lia|exact Htcp|exact E2|..].
  { rewrite <- Hq. unfold be32_at. f_equal. apply A0; cbn; lia. }
  { rewrite <- Hg. unfold u8_at. f_equal. apply A0; cbn; lia. }
  unfold be16_at, be32_at, u8_at, apart in *.
  rewrite (A2 (tx_ipcss t + 2)), (A2 (tx_ipcss t + 4)), (A2 (tx_tucss t + 4)), (A2 (tx_tucss t + 13)) by lia.
  rewrite !A1 by lia. pose proof (Forall_inv (tp_fits _ Ht)) as Hfit.
  cbn beta in Hfit.
  cbv zeta in F3, F4. fold sofar in F3, F4. rewrite F1, F2, F3, F4. by rewrite u16_small by lia.
Qed.

(** C30: transmitting one segment of a TCP/IPv4 packet. The transmit buffer of the
    card holds the bytes [b] of the segment, whose header carries the identification
    [i], the sequence number [q] and the flags [g], and the card has transmitted
    [tx_tso_frames] segments of the packet. [xmit_seg] then sends exactly one frame, of
    the same length and with the same payload: its IP length is that of the segment,
    its identification is advanced by the number of segments before it, its sequence
    number by the bytes in them, FIN and PSH are cleared unless no more than one
    segment's bytes remain. The card counts the segment. *)
Theorem tso_header_fields {X P : Type} `{PhysMemLaws X} `{MsgLink P} (m : machine X P) b i q g :
  let t := tx (dev m) in
  let sofar := tx_tso_frames t * tx_mss t in
  dev_ok (dev m) → tso_params t → tcp_layout t →
  tx_size t = Z.of_nat (length b) → take (length b) (tx_data t) = b →
  tx_hdr_len t ≤ Z.of_nat (length b) < 65536 →
  be16_at b (tx_ipcss t + 4) = Some i → be32_at b (tx_tucss t + 4) = Some q →
  u8_at b (tx_tucss t + 13) = Some g →
  ∃ m' f, xmit_seg m = Ret () m' ∧ sent m' = sent m ++ [f] ∧ mem m' = mem m ∧
    length f = length b ∧ drop (Z.to_nat (tx_hdr_len t)) f = drop (Z.to_nat (tx_hdr_len t)) b ∧
    be16_at f (tx_ipcss t + 2) = Some (Z.of_nat (length b) - tx_ipcss t) ∧
    be16_at f (tx_ipcss t + 4) = Some (u16 (i + tx_tso_frames t)) ∧
    be32_at f (tx_tucss t + 4) = Some (u32 (q + sofar)) ∧
    u8_at f (tx_tucss t + 13) =
      Some (if u32 (tx_paylen t - sofar) >? tx_mss t then u8 (g .& .~ 9) else g) ∧
    tx_tso_frames (tx (dev m')) = u16 (tx_tso_frames t + 1).
Proof.
  intros t sofar Hok Ht Hlay Hsz Hd Hb Hi Hq Hg.
  destruct (seg_fix_fields t b i q g Ht Hlay Hb Hi Hq Hg) as (f&Hf&Hl&F1&F2&F3&F4).
  destruct (wp_unit _ _ _ (xmit_seg_segment m b f (mac_reg_ok _ Hok) (proj1 (tx_data_ok _ (tp_ok _ Ht)))
    ltac:(by split) ltac:(lia) (tp_tse _ Ht) (tp_cptse _ Ht) (tp_vlan _ Ht) Hf)) as (m'&E&Hs&Hm&_&d&_&Etx).
  exists m', f. split_and!; try done; [by apply seg_fix_payload|]. by rewrite Etx.
Qed.
