(* ===== verification/E1000TsoRing.v ===== *)
(** * Segmentation from the ring

    A guest hands over a context descriptor followed by the data descriptors of
    one packet. The context descriptor sets the parameters of the segmentation, the
    ring loop processes the data descriptors, and the packet leaves cut into
    segments. *)

From S2P Require Import Prelude Bytes Memory NetChecksum E1000Hw E1000State E1000Tx E1000Ring AdminQ E1000Mmio E1000Inv E1000TxRing E1000TxSpec E1000Tso.

(** What a context descriptor sets, field by field; [options] are the checksum
    options of the data descriptors. A checksum offset of zero stands for the
    usual one of TCP or UDP. The buffers are those of before. *)
Definition context_tx (x : e1000_context_desc) (options : Z) (u : e1000_tx) : e1000_tx :=
  let cmd := xd_cmd_and_length x in
  let tcp := Z.testbit cmd 24 in {|
    tx_header := tx_header u; tx_vlan_header := tx_vlan_header u; tx_vlan := tx_vlan u;
    tx_data := tx_data u; tx_size := tx_size u; tx_sum_needed := options;
    tx_vlan_needed := tx_vlan_needed u;
    tx_ipcss := xd_ipcss x; tx_ipcso := xd_ipcso x; tx_ipcse := xd_ipcse x;
    tx_tucss := xd_tucss x;
    tx_tucso := if xd_tucso x =? 0 then u8 (xd_tucss x + if tcp then 16 else 6) else xd_tucso x;
    tx_tucse := xd_tucse x;
    tx_hdr_len := xd_hdr_len x; tx_mss := xd_mss x; tx_paylen := cmd `mod` 2 ^ 20;
    tx_tso_frames := 0;
    tx_tse := Z.b2z (Z.testbit cmd 26); tx_ip := Z.b2z (Z.testbit cmd 25);
    tx_tcp := Z.b2z tcp; tx_cptse := 1;
  |}.

Lemma e1000_tx_ext t t' :
  tx_header t = tx_header t' → tx_vlan_header t = tx_vlan_header t' → tx_vlan t = tx_vlan t' →
  tx_data t = tx_data t' → tx_size t = tx_size t' → tx_sum_needed t = tx_sum_needed t' →
  tx_vlan_needed t = tx_vlan_needed t' → tx_ipcss t = tx_ipcss t' → tx_ipcso t = tx_ipcso t' →
  tx_ipcse t = tx_ipcse t' → tx_tucss t = tx_tucss t' → tx_tucso t = tx_tucso t' →
  tx_tucse t = tx_tucse t' → tx_hdr_len t = tx_hdr_len t' → tx_mss t = tx_mss t' →
  tx_paylen t = tx_paylen t' → tx_tso_frames t = tx_tso_frames t' → tx_tse t = tx_tse t' →
  tx_ip t = tx_ip t' → tx_tcp t = tx_tcp t' → tx_cptse t = tx_cptse t' → t = t'.
Proof. destruct t, t'. cbn. by intros; subst. Qed.

Lemma tx_context_spec x options u :
  tx_context x u <| tx_sum_needed := options |> <| tx_cptse := 1 |> = context_tx x options u.
Proof.
  assert (∀ v k, 0 ≤ k → flag (has_bits v (2 ^ k)) = Z.b2z (Z.testbit v k)) as Hb
    by (intros v k ?; rewrite has_bits_pow2 by done; by destruct (Z.testbit v k)).
  assert (∀ v, v .& 0xfffff = v `mod` 2 ^ 20) as Hm by (intros; by apply (Z.land_ones _ 20)).
  unfold tx_context. cbv zeta. destruct (tx_tucso _ =? 0) eqn:E; cbn in E; apply e1000_tx_ext;
    cbn [tx_header tx_vlan_header tx_vlan tx_data tx_size tx_sum_needed tx_vlan_needed tx_ipcss tx_ipcso tx_ipcse tx_tucss tx_tucso tx_tucse tx_hdr_len tx_mss tx_paylen tx_tso_frames tx_tse tx_ip tx_tcp tx_cptse update context_tx]; try done.
  all: try (by apply (Hb _ 24)); try (by apply (Hb _ 25)); try (by apply (Hb _ 26)); rewrite E; try done.
  change E1000_TXD_CMD_TCP with (2 ^ 24). rewrite (Hb _ 24) by done.
  by destruct (Z.testbit (xd_cmd_and_length x) 24).
Qed.

Section tso_ring.
Context {X P : Type} `{PhysMemLaws X} `{MsgLink P}.
Abbreviation MM := (M (machine X P)).
Implicit Types (m : machine X P).

Lemma tso_at_ext t base S m1 m2 :
  dev m2 = dev m1 → sent m2 = sent m1 → tso_at t base S m1 → tso_at t base S m2.
Proof. intros Ed Es []. split; rewrite ?Ed, ?Es; done. Qed.

Lemma tso_at_reg t base S m i v :
  in_w 32 v → tso_at t base S (tso_begin t m) →
  tso_at t base S (tso_begin t (m <| dev ::= λ s, set_reg s i v |>)).
Proof.
  intros Hv []. split; try done. intros j. change (in_w 32 (reg (set_reg (dev m) i v) j)).
  rewrite reg_set. case_decide; [done|apply at_regs].
Qed.

(** The transmitter is idle, and the guest has handed over the context
    descriptor [c] and the data descriptors [ds] and [d] of a packet whose buffers
    hold at least the header. *)
Record tso_job m (t : e1000_tx) (c : e1000_tx_desc) (ds : list e1000_tx_desc) (d : e1000_tx_desc) : Prop := {
  tj_posted : tx_posted m (length ds + 2);
  tj_cmds : tx_cmds m (length ds + 2) = c :: ds ++ [d];
  tj_idle : tx_size (tx (dev m)) = 0;
  tj_context : tx_carries c = false;
  tj_params : tso_params t;
  tj_data : Forall (seg_desc t) (ds ++ [d]);
  tj_mid : Forall (λ d, tx_eop d = false) ds;
  tj_last : tx_eop d = true;
  tj_header : (Z.to_nat (tx_hdr_len t) ≤ length (tx_bytes (mem m) (ds ++ [d])))%nat;
}.

(** The device before descriptor [k]: idle, in the middle of the packet, or done
    with it. *)
Definition tso_upto m t (ds : list e1000_tx_desc) d (k : nat) (s : E1000State) (out : list (list Z)) : Prop :=
  match k with
  | O => tx s = tx (dev m) ∧ out = sent m
  | S j =>
      if decide (j ≤ length ds)%nat
      then tso_at t (sent m) (tx_bytes (mem m) (take j (ds ++ [d])))
             (tso_begin t (Machine s (mem m) out (world m)))
      else out = sent m ++ tso_frames t (tx_bytes (mem m) (ds ++ [d]))
  end.

Lemma tso_upto_head m t ds d k s out v :
  in_w 32 v → tso_upto m t ds d k s out → tso_upto m t ds d k (set_reg s TDH v) out.
Proof.
  intros Hv. destruct k as [|j]; [done|]. cbn. case_decide; [|done].
  intros Hat. by apply (tso_at_reg _ _ _ (Machine s (mem m) out (world m)) TDH v).
Qed.

Lemma tso_context_step m c ds d f m1 :
  let t := context_tx (context_of_tx_desc c) (u8 (txd_upper d >> 8)) (tx (dev m)) in
  tso_job m t c ds d → dev_inv (dev m1) → tso_upto m t ds d 0 (dev m1) (sent m1) →
  wp (process_tx_desc f c) (λ _ m', tso_upto m t ds d 1 (dev m') (sent m')) m1.
Proof.
  intros t [_ _ Hsz Hc Ht _ _ _ _] Hi [Etx Es]. apply negb_false_iff in Hc.
  unfold process_tx_desc. cbv zeta. rewrite Hc.
  pose proof (keeps_tx_context c m1 Hi) as Hk. unfold wp, ens in *.
  destruct (mod_tx _ m1) as [[] m2| |] eqn:E; try done. injection E as <-. destruct Hk as [_ [Hok _]].
  cbn [tso_upto]. rewrite decide_True by lia. rewrite take_0. cbn [tx_bytes map concat].
  apply (tso_at_start t); try done; cbn [dev sent update tx].
  - rewrite <- Hsz, <- Etx. unfold tx_context. cbv zeta. by case_match.
  - unfold tx_context. cbv zeta. by case_match.
  - by rewrite tx_context_spec, Etx.
Qed.

Lemma tso_data_step m t c ds d B j e f m1 :
  tso_job m t c ds d → tx_cptse t = 1 → Forall (λ d, Z.to_nat (tx_len d) < B)%nat (ds ++ [d]) →
  (ds ++ [d]) !! j = Some e → (B ≤ f)%nat → tso_upto m t ds d (S j) (dev m1) (sent m1) →
  tx_chunk (mem m1) e = tx_chunk (mem m) e →
  wp (process_tx_desc f e) (λ _ m', tso_upto m t ds d (S (S j)) (dev m') (sent m')) m1.
Proof.
  intros [_ _ _ _ Ht Hds Hmid Hlast Hl] Hcp HB He Hf HJ Hch. cbn [tso_upto] in *.
  pose proof (lookup_lt_Some _ _ _ He) as Hj. rewrite length_app in Hj. cbn in Hj.
  rewrite decide_True in HJ by lia.
  assert (tso_at t (sent m) (tx_bytes (mem m) (take j (ds ++ [d]))) (tso_begin t m1)) as Hat
    by (by eapply tso_at_ext; [..|exact HJ]).
  rewrite Forall_lookup in Hds, HB. specialize (Hds j e He). specialize (HB j e He). cbn in HB.
  assert (tx_bytes (mem m) (take (S j) (ds ++ [d])) =
    tx_bytes (mem m) (take j (ds ++ [d])) ++ tx_chunk (mem m1) e) as Eb.
  { rewrite (take_S_r _ _ _ He), Hch. unfold tx_bytes. rewrite map_app, concat_app. cbn. by rewrite app_nil_r. }
  case_decide as Hjl.
  - rewrite lookup_app_l in He by lia. rewrite Forall_lookup in Hmid. specialize (Hmid j e He).
    eapply wp_mono; [exact (tso_data_wp t Ht (sent m) f e _ m1 Hds ltac:(lia) Hmid Hat)|]. cbn beta.
    intros _ m2 [_ Hat2]. rewrite Eb. apply (tso_begin_id t); [done|].
    by eapply tso_at_ext; [..|exact Hat2].
  - assert (j = length ds) as -> by lia. rewrite list_lookup_middle in He by done. injection He as <-.
    rewrite take_ge in Eb by (rewrite length_app; cbn; lia). rewrite Eb in Hl |- *.
    eapply wp_mono; [exact (tso_end_wp t Ht (sent m) f d _ m1 Hds ltac:(lia) Hlast Hat Hl)|]. cbn beta.
    by intros _ m2 (?&_).
Qed.

(** C4: segmentation offload through the ring: a guest that hands over a context
    descriptor and the data descriptors of one packet, and enables the
    transmitter, has the packet sent cut into segments with the parameters of the
    context: no byte of the payload is lost, repeated or out of order, and the
    header in front of each segment is rewritten for it. The head has moved to the
    tail, the slots carry their reports, guest memory is otherwise unchanged and
    the interrupts are pending. *)
Theorem start_xmit_tso fuel B c ds d m :
  let t := context_tx (context_of_tx_desc c) (u8 (txd_upper d >> 8)) (tx (dev m)) in
  tso_job m t c ds d → Forall (λ d, Z.to_nat (tx_len d) < B)%nat (ds ++ [d]) →
  (B + (length ds + 2) < fuel)%nat → has_bits (reg (dev m) TCTL) E1000_TCTL_EN = true →
  ∃ m' fs, start_xmit fuel m = Ret () m' ∧ sent m' = sent m ++ fs ∧
    segmented t (tx_bytes (mem m) (ds ++ [d])) fs ∧ tx_finished m (length ds + 2) m'.
Proof.
  intros t Hj HB Hf Hen. pose proof Hj as [Hpost Hcmds _ _ Ht Hds _ _ Hl].
  assert (∀ k, (k < length ds + 2)%nat → (c :: ds ++ [d]) !! k = Some (tx_cmd m k)) as Hcmd.
  { intros k Hk. rewrite <- Hcmds. unfold tx_cmds. change (map ?g ?l) with (g <$> l).
    by rewrite list_lookup_fmap, lookup_seq_lt. }
  destruct (start_xmit_ring m (length ds + 2) Hpost B (tso_upto m t ds d)
    (λ k s fs v, tso_upto_head m t ds d k s fs v)) with (fuel := fuel) as (m'&s&E&Hfin&HJ&_&_); try done.
  - intros [|j] f m1 Hk Hf1 Hi HJ Hch; specialize (Hcmd _ Hk).
    + injection Hcmd as <-. by apply tso_context_step.
    + cbn in Hcmd. apply (tso_data_step m t c ds d B j); try done. apply Hch.
      rewrite Forall_lookup in Hds. destruct (Hds j _ Hcmd) as [[Ed _] _]. unfold tx_carries. by rewrite Ed.
  - rewrite Nat.add_comm in HJ. cbn [tso_upto Nat.add] in HJ. rewrite decide_False in HJ by lia.
    exists m', (tso_frames t (tx_bytes (mem m) (ds ++ [d]))). split_and!; try done.
    by apply tso_frames_segmented.
Qed.
End tso_ring.
