(* ===== verification/E1000RxSpec.v ===== *)
(** * Correctness of the receive path

    Delivery of a frame into the guest's ring, with empty descriptors skipped;
    the overrun exit; termination inside the ring; and the loop a guest can
    cause with a head outside it. *)

From S2P Require Import Prelude Bytes Memory E1000Hw E1000State E1000Tx E1000Rx E1000Ring AdminQ E1000Mmio E1000Inv E1000TxRing E1000TxSpec.

Section receive_spec.
Context {X P : Type} `{PhysMemLaws X} `{MsgLink P}.
Abbreviation MM := (M (machine X P)).
Implicit Types (m : machine X P).
Abbreviation rx_nth := (ring_nth rx_ring).

Definition rx_cmd m (i : nat) : e1000_rx_desc :=
  rx_desc_decode (phys_read (mem m) (rx_nth (dev m) i) 16).

(** The sixteen bytes the device leaves in a slot. *)
Definition rx_filled m (special status size : Z) (i : nat) : list Z :=
  rx_desc_encode (rx_desc_fill (dev m) size special status (rx_cmd m i)).

(** The frame goes to the descriptor [k] places behind the head, the ones before
    it having no buffer. *)
Record rx_job m (k n : nat) : Prop := {
  rj_regs i : in_w 32 (reg (dev m) i);
  rj_ring : ring_ok rx_ring (dev m);
  rj_len : Z.of_nat (S k) < ring_len rx_ring (dev m);
  rj_free i : (i ≤ k)%nat →
    (reg (dev m) RDH + Z.of_nat i) `mod` ring_len rx_ring (dev m) ≠ reg (dev m) RDT ∨
    i = O ∧ check_rxov (dev m) = 0;
  rj_null i : (i < k)%nat → rxd_buffer_addr (rx_cmd m i) = 0;
  rj_buf : rxd_buffer_addr (rx_cmd m k) ≠ 0;
  rj_disj i : (i ≤ k)%nat →
    range_disjoint (rxd_buffer_addr (rx_cmd m k)) n (rx_nth (dev m) i) 16;
}.

Definition rx_moved (s : E1000State) (n : Z) : E1000State :=
  set_reg s RDH ((reg s RDH + n) `mod` ring_len rx_ring s) <| check_rxov := 1 |>.

Record rx_delivered m m' (k : nat) (special status : Z) (payload : list Z) : Prop := {
  rd_dev : dev m' = rx_moved (dev m) (Z.of_nat (S k));
  rd_sent : sent m' = sent m;
  rd_buf : phys_read (mem m') (rxd_buffer_addr (rx_cmd m k)) (length payload) = payload;
  rd_slots i : (i ≤ k)%nat → phys_read (mem m') (rx_nth (dev m) i) 16 =
    rx_filled m special status (Z.of_nat (length payload)) i;
  rd_mem a n : (∀ i, (i ≤ k)%nat → range_disjoint a n (rx_nth (dev m) i) 16) →
    range_disjoint a n (rxd_buffer_addr (rx_cmd m k)) (length payload) →
    phys_read (mem m') a n = phys_read (mem m) a n;
}.

Lemma rx_fill_addr s size special status d :
  rxd_buffer_addr (rx_desc_fill s size special status d) = rxd_buffer_addr d.
Proof. unfold rx_desc_fill. by destruct (negb _). Qed.

Lemma rx_moved_ring m n :
  (∀ i, in_w 32 (reg (dev m) i)) → ring_ok rx_ring (dev m) →
  let s2 := rx_moved (dev m) 1 in
  ring_ok rx_ring s2 ∧ ring_len rx_ring s2 = ring_len rx_ring (dev m) ∧
  reg s2 RDH = (reg (dev m) RDH + 1) `mod` ring_len rx_ring (dev m) ∧
  (∀ i, rx_nth s2 i = rx_nth (dev m) (S i)) ∧ rx_moved s2 n = rx_moved (dev m) (n + 1).
Proof.
  intros Hs Hr s2. pose proof (ring_step rx_ring (dev m) (dev m) ltac:(set_solver) Hs Hr
    (λ _ _, eq_refl)) as (Hr2&El&Eh&En). rewrite (ring_next_mod rx_ring) in * by done.
  split_and!; try done. unfold rx_moved.
  change (ring_len rx_ring s2) with (ring_len rx_ring (set_reg (dev m) RDH
    ((reg (dev m) RDH + 1) `mod` ring_len rx_ring (dev m)))).
  cbn [r_head rx_ring] in *. rewrite El. change (reg s2 RDH) with (reg (set_reg (dev m) RDH
    ((reg (dev m) RDH + 1) `mod` ring_len rx_ring (dev m))) RDH). rewrite Eh, Zplus_mod_idemp_l.
  replace (reg (dev m) RDH + 1 + n) with (reg (dev m) RDH + (n + 1)) by lia.
  unfold s2, rx_moved, set_reg, update. destruct (dev m). cbn. f_equal. apply insert_insert_eq.
Qed.

(** *** One iteration *)

(** The state after an iteration of the loop that finds a free descriptor. *)
Definition rx_iter m (base special status : Z) (payload : list Z) : machine X P :=
  let d := rx_desc_decode (phys_read (mem m) base 16) in
  let x := if rxd_buffer_addr d =? 0 then mem m
           else phys_write (mem m) (rxd_buffer_addr d) payload in
  m <| mem := phys_write x base
         (rx_desc_encode (rx_desc_fill (dev m) (Z.of_nat (length payload)) special status d)) |>
    <| dev := set_reg (dev m) RDH (rdh_next (dev m)) <| check_rxov := 1 |> |>.

Definition rx_overrun : MM bool := mod_dev (λ s, set_ics s 0 E1000_ICS_RXO);; mret false.

Lemma rx_loop_iter fuel start special status payload m :
  reg (dev m) RDH ≠ reg (dev m) RDT ∨ check_rxov (dev m) = 0 →
  rx_loop (S fuel) start special status payload m =
    (if rdh_next (dev m) =? start then rx_overrun
     else if rxd_buffer_addr (rx_desc_decode (phys_read (mem m) (rx_ring_base (dev m)) 16)) =? 0
     then rx_loop fuel start special status payload else mret true)
    (rx_iter m (rx_ring_base (dev m)) special status payload).
Proof.
  intros Hf. cbn [rx_loop]. unfold mbind at 1, M_bind at 1, get_dev at 1, gets at 1. cbn [id].
  replace ((reg (dev m) RDH =? reg (dev m) RDT) && negb (check_rxov (dev m) =? 0)) with false by lia.
  unfold rx_iter. cbv zeta. unfold mbind at 1, M_bind at 1, cpu_physical_memory_read at 1, gets at 1.
  change (Z.to_nat (s32 16)) with 16%nat. rewrite rx_fill_addr.
  set (d := rx_desc_decode _). set (e := rx_desc_encode _).
  destruct (rxd_buffer_addr d =? 0); unfold mbind, M_bind, mret, M_ret, cpu_physical_memory_write,
    mod_dev, modify, get_reg, get_dev, gets; destruct m as [s ? ? ?]; cbn;
    change (reg (set_reg s RDH (rdh_next s) <| check_rxov := 1 |>) RDH)
      with (reg (set_reg s RDH (rdh_next s)) RDH);
    rewrite reg_set_eq; by destruct (_ =? start).
Qed.

(** *** Delivery *)

Lemma rx_iter_dev m base special status payload :
  (∀ i, in_w 32 (reg (dev m) i)) → ring_ok rx_ring (dev m) →
  dev (rx_iter m base special status payload) = rx_moved (dev m) 1.
Proof.
  intros Hs Hr. unfold rx_iter, rx_moved. cbn [dev update].
  change (rdh_next (dev m)) with (ring_next rx_ring (dev m)). by rewrite ring_next_mod.
Qed.

Lemma rx_base_nth m : ring_ok rx_ring (dev m) → rx_ring_base (dev m) = rx_nth (dev m) 0.
Proof. intros Hr. by rewrite ring_nth_0. Qed.

(** Memory after an iteration: the slot, the buffer, and everything else. *)
Lemma rx_iter_slot m base special status payload :
  phys_read (mem (rx_iter m base special status payload)) base 16 =
    rx_desc_encode (rx_desc_fill (dev m) (Z.of_nat (length payload)) special status
      (rx_desc_decode (phys_read (mem m) base 16))).
Proof.
  unfold rx_iter. cbn [mem update]. set (e := rx_desc_encode _).
  assert (length e = 16%nat) as He by apply length_rx_desc_encode.
  rewrite <- He at 1. apply phys_read_write_eq; [apply rx_desc_encode_ok|lia].
Qed.

Lemma rx_iter_mem m base special status payload a n :
  let d := rx_desc_decode (phys_read (mem m) base 16) in
  range_disjoint a n base 16 →
  (rxd_buffer_addr d ≠ 0 → range_disjoint a n (rxd_buffer_addr d) (length payload)) →
  phys_read (mem (rx_iter m base special status payload)) a n = phys_read (mem m) a n.
Proof.
  intros d Hb Hd. unfold rx_iter. cbn [mem update]. fold d.
  rewrite phys_read_write_ne by (by rewrite length_rx_desc_encode).
  destruct (Z.eqb_spec (rxd_buffer_addr d) 0); [done|]. apply phys_read_write_ne. auto.
Qed.

Lemma rx_iter_buf m base special status payload :
  let d := rx_desc_decode (phys_read (mem m) base 16) in
  rxd_buffer_addr d ≠ 0 → bytes_ok payload → Z.of_nat (length payload) ≤ 2 ^ 64 →
  range_disjoint (rxd_buffer_addr d) (length payload) base 16 →
  phys_read (mem (rx_iter m base special status payload)) (rxd_buffer_addr d) (length payload) = payload.
Proof.
  intros d Hd Hok Hlen Hb. unfold rx_iter. cbn [mem update]. fold d.
  rewrite phys_read_write_ne by (by rewrite length_rx_desc_encode).
  rewrite (proj2 (Z.eqb_neq _ _) Hd). by apply phys_read_write_eq.
Qed.

Lemma reg_rx_moved s n i : i ≠ RDH → reg (rx_moved s n) i = reg s i.
Proof. intros Hi. exact (reg_set_ne s RDH i _ (not_eq_sym Hi)). Qed.

Lemma rx_fill_moved s n size special status d :
  rx_desc_fill (rx_moved s n) size special status d = rx_desc_fill s size special status d.
Proof. unfold rx_desc_fill, fcs_len. by rewrite reg_rx_moved. Qed.

(** An iteration that skips a descriptor without a buffer. *)
Lemma rx_skip_mem m k special status payload a n :
  rx_job m (S k) (length payload) → range_disjoint a n (rx_nth (dev m) 0) 16 →
  phys_read (mem (rx_iter m (rx_nth (dev m) 0) special status payload)) a n = phys_read (mem m) a n.
Proof.
  intros [] Hd. apply rx_iter_mem; [done|]. intros Hne. destruct Hne. apply rj_null0. lia.
Qed.

Lemma rx_skip_cmd m k special status payload i :
  rx_job m (S k) (length payload) → (i ≤ k)%nat →
  let m1 := rx_iter m (rx_nth (dev m) 0) special status payload in
  rx_nth (dev m1) i = rx_nth (dev m) (S i) ∧
  phys_read (mem m1) (rx_nth (dev m) (S i)) 16 = phys_read (mem m) (rx_nth (dev m) (S i)) 16 ∧
  rx_cmd m1 i = rx_cmd m (S i).
Proof.
  intros Hj Hi m1. pose proof Hj as [Hs Hr Hl _ _ _ _].
  assert (rx_nth (dev m1) i = rx_nth (dev m) (S i)) as En.
  { unfold m1. rewrite rx_iter_dev by done. by apply (rx_moved_ring m 0). }
  assert (phys_read (mem m1) (rx_nth (dev m) (S i)) 16 =
    phys_read (mem m) (rx_nth (dev m) (S i)) 16) as Em.
  { apply (rx_skip_mem m k); [done|]. apply range_disjoint_sym, ring_nth_disjoint; [done|lia|lia]. }
  split_and!; [done|done|]. unfold rx_cmd. by rewrite En, Em.
Qed.

Lemma rx_skip_job m k special status payload :
  rx_job m (S k) (length payload) →
  rx_job (rx_iter m (rx_nth (dev m) 0) special status payload) k (length payload).
Proof.
  intros Hj. pose proof Hj as [Hs Hr Hl Hfree Hnull Hbuf Hdisj].
  pose proof (rx_skip_cmd m k special status payload) as Hc. cbv zeta in Hc.
  pose proof (rx_iter_dev m (rx_nth (dev m) 0) special status payload Hs Hr) as Ed.
  set (m1 := rx_iter _ _ _ _ _) in *. destruct (rx_moved_ring m 0 Hs Hr) as (Hr1&El&Eh&En&_).
  split; rewrite ?Ed, ?El; try done.
  - intros i. change (in_w 32 (reg (set_reg (dev m) RDH ((reg (dev m) RDH + 1) `mod`
      ring_len rx_ring (dev m))) i)). rewrite reg_set. case_decide; [|done].
    pose proof (Z.mod_pos_bound (reg (dev m) RDH + 1) (ring_len rx_ring (dev m)) ltac:(lia)).
    pose proof (ring_len_bound rx_ring (dev m) Hs). unfold in_w. lia.
  - lia.
  - intros i Hi. left. rewrite Eh, Zplus_mod_idemp_l.
    replace (reg (dev m) RDH + 1 + Z.of_nat i) with (reg (dev m) RDH + Z.of_nat (S i)) by lia.
    destruct (Hfree (S i) ltac:(lia)) as [Hx|[? _]]; [|done].
    by rewrite reg_rx_moved by done.
  - intros i Hi. destruct (Hc i Hj ltac:(lia)) as (_&_&->). apply Hnull. lia.
  - destruct (Hc k Hj ltac:(lia)) as (_&_&->). done.
  - intros i Hi. destruct (Hc k Hj ltac:(lia)) as (_&_&->). rewrite En. apply Hdisj. lia.
Qed.

Lemma rx_skip_delivered m m' k special status payload :
  rx_job m (S k) (length payload) →
  rx_delivered (rx_iter m (rx_nth (dev m) 0) special status payload) m' k special status payload →
  rx_delivered m m' (S k) special status payload.
Proof.
  intros Hj [Dd Ds Db Dsl Dm]. pose proof Hj as [Hs Hr Hl Hfree Hnull Hbuf Hdisj].
  pose proof (rx_skip_cmd m k special status payload) as Hc. cbv zeta in Hc.
  pose proof (rx_iter_dev m (rx_nth (dev m) 0) special status payload Hs Hr) as Ed.
  pose proof (rx_skip_mem m k special status payload) as Hm.
  pose proof (rx_iter_slot m (rx_nth (dev m) 0) special status payload) as Hsl.
  change (sent (rx_iter _ _ _ _ _)) with (sent m) in Ds.
  set (m1 := rx_iter _ _ _ _ _) in *.
  destruct (rx_moved_ring m (Z.of_nat (S k)) Hs Hr) as (_&_&_&En&Emv).
  rewrite (proj2 (proj2 (Hc k Hj ltac:(lia)))) in *. rewrite Ed in *.
  split.
  - rewrite Dd, Emv. f_equal. lia.
  - done.
  - done.
  - intros [|i] Hi.
    + rewrite Dm; [exact Hsl|..].
      * intros i Hi'. rewrite En. apply ring_nth_disjoint; [done|lia|lia].
      * apply range_disjoint_sym, Hdisj. lia.
    + rewrite <- En, Dsl by lia. unfold rx_filled. by rewrite (proj2 (proj2 (Hc i Hj ltac:(lia)))), Ed, rx_fill_moved.
  - intros a n Hd Hb. rewrite Dm, Hm; try done; [apply Hd; lia|].
    intros i Hi. rewrite En. apply Hd. lia.
Qed.

Lemma rx_loop_delivers fuel start special status payload k m :
  (k < fuel)%nat → bytes_ok payload → Z.of_nat (length payload) ≤ 2 ^ 64 →
  rx_job m k (length payload) →
  (∀ i, (0 < i ≤ S k)%nat → (reg (dev m) RDH + Z.of_nat i) `mod` ring_len rx_ring (dev m) ≠ start) →
  ∃ m', rx_loop fuel start special status payload m = Ret true m' ∧
    rx_delivered m m' k special status payload.
Proof.
  revert fuel m. induction k as [|k IH]; intros fuel m Hf Hok Hlen [Hs Hr Hl Hfree Hnull Hbuf Hdisj] Hstart;
    (destruct fuel as [|fuel]; [lia|]); rewrite rx_loop_iter, (rx_base_nth m Hr) by
      (destruct (Hfree 0%nat ltac:(lia)) as [Hx|[_ Hx]]; [left|by right];
       by rewrite Z.add_0_r, Z.mod_small in Hx by apply Hr);
    fold (rx_cmd m 0);
    change (rdh_next (dev m)) with (ring_next rx_ring (dev m)); rewrite ring_next_mod by done;
    change (r_head rx_ring) with RDH; rewrite (proj2 (Z.eqb_neq _ _) (Hstart 1%nat ltac:(lia)) : ((_ + 1) `mod` _ =? _) = false);
    set (m1 := rx_iter _ _ _ _ _).
  - rewrite (proj2 (Z.eqb_neq _ _) Hbuf). exists m1. split; [done|]. split.
    + by apply rx_iter_dev.
    + done.
    + apply rx_iter_buf; try done. apply Hdisj. lia.
    + intros i Hi. replace i with O by lia. apply rx_iter_slot.
    + intros a n Hd Hb. apply rx_iter_mem; [apply Hd; lia|done].
  - rewrite (Hnull 0%nat) by lia. cbn [Z.eqb].
    edestruct (IH fuel m1) as (m'&E&Hd); [lia|done|done|by apply rx_skip_job|..].
    + intros i Hi. unfold m1. rewrite rx_iter_dev by done.
      destruct (rx_moved_ring m 0 Hs Hr) as (_&->&->&_). rewrite Zplus_mod_idemp_l.
      replace (reg (dev m) RDH + 1 + Z.of_nat i) with (reg (dev m) RDH + Z.of_nat (S i)) by lia.
      apply Hstart. lia.
    + exists m'. split; [done|]. by apply rx_skip_delivered.
Qed.

(** *** The frame *)

(** The tag is taken out of a tagged frame when the guest enabled VLAN mode. *)
Definition rx_strips (s : E1000State) (buf : list Z) : bool := vlan_enabled s && is_vlan_packet s buf.
Definition rx_payload (s : E1000State) (buf : list Z) : list Z :=
  if rx_strips s buf then take 12 buf ++ drop 16 buf else buf.
Definition rx_special (s : E1000State) (buf : list Z) : Z :=
  if rx_strips s buf then vlan_vid buf else 0.
Definition rx_status (s : E1000State) (buf : list Z) : Z :=
  if rx_strips s buf then E1000_RXD_STAT_VP else 0.

Lemma pad_min_length buf : (60 ≤ length (pad_min buf))%nat.
Proof.
  unfold pad_min, MIN_BUF_SIZE. destruct (Z.ltb_spec (Z.of_nat (length buf)) 60); [|lia].
  rewrite length_app, length_replicate. lia.
Qed.

Lemma pad_min_ok buf : bytes_ok buf → bytes_ok (pad_min buf).
Proof.
  intros Hb. unfold pad_min. case_match; [|done]. apply bytes_ok_app. split; [done|].
  apply bytes_ok_zeros.
Qed.

Lemma strip_store buf :
  (60 ≤ length buf)%nat →
  store buf 4 (take 12 buf) = Some (take 4 buf ++ take 12 buf ++ drop 16 buf) ∧
  drop 4 (take 4 buf ++ take 12 buf ++ drop 16 buf) = take 12 buf ++ drop 16 buf.
Proof.
  intros Hl. split.
  - rewrite store_in by (rewrite length_take; lia). do 3 f_equal. f_equal.
    rewrite length_take. lia.
  - apply drop_app_length'. rewrite length_take. lia.
Qed.

Lemma rx_payload_ok s buf : bytes_ok buf → bytes_ok (rx_payload s buf).
Proof.
  intros Hb. unfold rx_payload. case_match; [|done]. apply bytes_ok_app.
  split; [by apply bytes_ok_take|by apply bytes_ok_drop].
Qed.

Lemma rx_payload_length s buf : (length (rx_payload s buf) ≤ length buf)%nat.
Proof.
  unfold rx_payload. case_match; [|lia]. rewrite length_app, length_take, length_drop. lia.
Qed.

(** The caller's buffer afterwards. *)
Definition rx_caller (s : E1000State) (buf : list Z) : list Z :=
  if rx_strips s (pad_min buf) && (60 <=? Z.of_nat (length buf))
  then take 4 buf ++ take 12 buf ++ drop 16 buf else buf.

(** The frame is taken: reception is on, it fits a buffer, and the filter lets it
    through. *)
Record rx_accepts (s : E1000State) (buf : list Z) : Prop := {
  accept_on : has_bits (reg s RCTL) E1000_RCTL_EN = true;
  accept_size : Z.of_nat (length (pad_min buf)) ≤ rxbuf_size s;
  accept_filter : receive_filter s (pad_min buf) = true;
}.

Lemma e1000_receive_accepted fuel buf m :
  rx_accepts (dev m) buf →
  let s := dev m in
  let payload := rx_payload s (pad_min buf) in
  e1000_receive fuel buf m =
    (ok ← rx_loop fuel (reg s RDH) (rx_special s (pad_min buf)) (rx_status s (pad_min buf)) payload;
     if negb ok then mret (-1, rx_caller s buf) else
     mod_dev (rx_done (Z.of_nat (length payload)));;
     mret (Z.of_nat (length payload), rx_caller s buf)) m.
Proof.
  intros [Hon Hsz Hfl] s payload. fold s in Hon, Hsz, Hfl. unfold e1000_receive. unfold mbind at 1, M_bind at 1, get_dev at 1, gets at 1.
  cbn [id]. fold s. rewrite Hon. cbn [negb]. cbv zeta.
  replace (Z.of_nat (length (pad_min buf)) >? rxbuf_size s) with false by lia.
  rewrite Hfl. cbn [negb]. fold (rx_strips s (pad_min buf)).
  destruct (strip_store (pad_min buf) (pad_min_length buf)) as [Est Edr].
  assert (pad_min buf = buf ∨ Z.of_nat (length buf) < 60) as Hpad.
  { unfold pad_min, MIN_BUF_SIZE. destruct (Z.ltb_spec (Z.of_nat (length buf)) 60); auto. }
  unfold payload, rx_payload, rx_special, rx_status, rx_caller, MIN_BUF_SIZE.
  destruct (rx_strips s (pad_min buf)); cbn [andb].
  - rewrite Est. unfold mbind at 1, M_bind at 1. unfold oob at 1, mret at 1, M_ret at 1. cbv beta iota.
    rewrite Edr. unfold mbind at 1, M_bind at 1, get_reg, get_dev, gets. fold s.
    destruct (Z.ltb_spec (Z.of_nat (length buf)) 60), (Z.leb_spec 60 (Z.of_nat (length buf)));
      try lia; [done|]. destruct Hpad as [->|]; [done|lia].
  - unfold mbind at 1, M_bind at 1, mret at 1, M_ret at 1.
    unfold mbind at 1, M_bind at 1, get_reg, get_dev, gets. fold s.
    destruct (Z.ltb_spec (Z.of_nat (length buf)) 60); [done|]. destruct Hpad as [->|]; [done|lia].
Qed.

(** What the device makes of a descriptor [d]: every descriptor it passes gets the
    done bit and the tag; the one that receives the frame ([last]) also the length,
    the checksum bytes included unless they are stripped, and the end of packet. *)
Record rx_slot_done (s : E1000State) (special status size : Z) (last : bool)
    (d d' : e1000_rx_desc) : Prop := {
  slot_addr : rxd_buffer_addr d' = rxd_buffer_addr d;
  slot_csum : rxd_csum d' = rxd_csum d;
  slot_errors : rxd_errors d' = rxd_errors d;
  slot_special : rxd_special d' = special;
  slot_length : rxd_length d' =
    if last then size + (if has_bits (reg s RCTL) E1000_RCTL_SECRC then 0 else 4) else rxd_length d;
  slot_status : rxd_status d' = rxd_status d .| status .| E1000_RXD_STAT_DD .|
    (if last then E1000_RXD_STAT_EOP .| E1000_RXD_STAT_IXSM else 0);
}.

Lemma rx_filled_done m special status size i :
  in_w 16 special → in_w 8 status → 0 ≤ size ≤ 16384 →
  rx_slot_done (dev m) special status size (negb (rxd_buffer_addr (rx_cmd m i) =? 0)) (rx_cmd m i)
    (rx_desc_decode (rx_filled m special status size i)).
Proof.
  intros Hsp Hst Hsz. unfold rx_filled.
  assert (fields_ok rx_desc_layout (fields_decode rx_desc_layout (phys_read (mem m) (rx_nth (dev m) i) 16)))
    as Hd by (apply fields_decode_ok; [apply phys_read_ok|by rewrite phys_read_length]).
  rewrite rx_desc_decode_encode.
  - unfold rx_desc_fill. cbn [rxd_buffer_addr update].
    destruct (negb _); split; cbn; rewrite ?Z.lor_0_r, ?Z.lor_assoc; try done.
    unfold u16. rewrite wrap_small; [done|]. unfold in_w, fcs_len. case_match; lia.
  - revert Hd. unfold rx_cmd, rx_desc_decode.
    set (l := fields_decode _ _). assert (length l = 6%nat) as Hl by done.
    destruct l as [|a [|b [|c [|d [|e [|? [|]]]]]]]; try done.
    unfold fields_ok, rx_desc_layout. rewrite !Forall2_cons_iff. unfold field_ok.
    intros (Ha&Hb&Hc&Hd&He&_). unfold rx_desc_fill. cbn [rxd_buffer_addr update].
    assert (in_w 8 (d .| (status .| E1000_RXD_STAT_DD))) by (repeat apply lor_in_w; done).
    destruct (negb _); (split; [done|split; [|split; [done|split; [|split; [done|split; [done|apply Forall2_nil]]]]]]); try done.
    + apply (wrap_range 16); lia.
    + by apply (lor_in_w 8 (d .| (status .| E1000_RXD_STAT_DD)) (E1000_RXD_STAT_EOP .| E1000_RXD_STAT_IXSM)).
Qed.

Lemma rx_special_range s buf : in_w 16 (rx_special s buf).
Proof. unfold rx_special, vlan_vid. case_match; [apply be16_to_cpup_range|done]. Qed.
Lemma rx_status_range s buf : in_w 8 (rx_status s buf).
Proof. unfold rx_status. by case_match. Qed.

(** The total octets received: a counter of 64 bits in two registers. *)
Definition rx_octets (s : E1000State) : Z := reg s TORL + 2 ^ 32 * reg s TORH.

Definition rx_touched : list Z := [RDH; GPRC; TPR; TORL; TORH; ICR; ICS].

(** [s'] is [s] after a frame of [size] bytes in the descriptor [n - 1] places
    behind the head: it is counted, four more octets for the checksum; the timer
    interrupt is raised, and the threshold interrupt when the free descriptors
    are no more than the configured part of the ring. *)
Record rx_counted (s s' : E1000State) (n size : Z) : Prop := {
  rc_frame i : i ∉ rx_touched → reg s' i = reg s i;
  rc_head : reg s' RDH = (reg s RDH + n) `mod` ring_len rx_ring s;
  rc_gprc : reg s' GPRC = u32 (reg s GPRC + 1);
  rc_tpr : reg s' TPR = u32 (reg s TPR + 1);
  rc_octets : rx_octets s' = u64 (rx_octets s + size + 4);
  rc_cause : reg s RDT < ring_len rx_ring s →
    let free := (reg s RDT - reg s' RDH) `mod` ring_len rx_ring s in
    reg s' ICR = reg s ICR .| E1000_ICS_RXT0 .| E1000_ICR_INT_ASSERTED .|
      (if free * 16 <=? reg s RDLEN >> rxbuf_min_shift s then E1000_ICS_RXDMT0 else 0);
  rc_irq : irq s' = has_bits (reg s IMS) (reg s' ICR);
  rc_rxov : check_rxov s' = 1;
}.


Lemma rx_stats_regs size s :
  (∀ i, in_w 32 (reg s i)) → 0 ≤ size ≤ 16384 →
  (∀ i, i ∉ [GPRC; TPR; TORL; TORH] → reg (rx_stats size s) i = reg s i) ∧
  reg (rx_stats size s) GPRC = u32 (reg s GPRC + 1) ∧
  reg (rx_stats size s) TPR = u32 (reg s TPR + 1) ∧
  rx_octets (rx_stats size s) = u64 (rx_octets s + size + 4).
Proof.
  intros Hs Hsz. unfold rx_stats. cbv zeta. reg_simpl.
  pose proof (count_64 (reg s TORL) (reg s TORH) (size + 4) (Hs _) (Hs _) ltac:(lia)) as Hc.
  rewrite !Z.add_assoc in Hc. split_and!.
  - intros i Hi. rewrite !not_elem_of_cons in Hi. destruct Hi as (?&?&?&?&_).
    rewrite reg_set_ne by done. case_match; by rewrite !reg_set_ne by done.
  - reg_simpl. case_match; by reg_simpl.
  - reg_simpl. case_match; by reg_simpl.
  - unfold rx_octets. reg_simpl. rewrite <- Hc. do 2 f_equal. case_match; reg_simpl; [done|].
    rewrite Z.add_0_r, u32_small; [done|apply Hs].
Qed.

Lemma rx_cause_free s :
  in_w 32 (reg s RDT) → in_w 32 (reg s RDLEN) → ring_ok rx_ring s → reg s RDT < ring_len rx_ring s →
  rx_cause s = E1000_ICS_RXT0 .|
    (if (reg s RDT - reg s RDH) `mod` ring_len rx_ring s * 16 <=? reg s RDLEN >> rxbuf_min_shift s
     then E1000_ICS_RXDMT0 else 0).
Proof.
  intros [Ht0 _] [_ HL] [Hl Hh] Ht. unfold rx_cause.
  cbn [rx_ring r_len r_head] in *. unfold ring_len in *. cbn [rx_ring r_len] in *.
  set (L := reg s RDLEN / 16) in *.
  replace (u32 _) with ((reg s RDT - reg s RDH) `mod` L); [by case_match|].
  destruct (Z.ltb_spec (reg s RDT) (reg s RDH)).
  - rewrite (u32_small (reg s RDT + L)) by lia. rewrite u32_small by lia.
    symmetry. apply (Z.mod_unique _ _ (-1)); lia.
  - rewrite u32_small by lia. apply Z.mod_small. lia.
Qed.

Lemma rx_done_counted s n size :
  (∀ i, in_w 32 (reg s i)) → ring_ok rx_ring s → 0 ≤ size ≤ 16384 →
  rx_counted s (rx_done size (rx_moved s n)) n size.
Proof.
  intros Hs Hr Hsz. set (h := (reg s RDH + n) `mod` ring_len rx_ring s).
  assert (0 ≤ h < ring_len rx_ring s) as Hh by (destruct Hr; apply Z.mod_pos_bound; lia).
  set (s1 := rx_moved s n). assert (reg s1 RDH = h) as E1h by apply reg_set_eq.
  assert (∀ i, in_w 32 (reg s1 i)) as Hs1.
  { intros i. destruct (decide (i = RDH)) as [->|]; [|by unfold s1; rewrite reg_rx_moved].
    rewrite E1h. pose proof (ring_len_bound rx_ring s Hs). unfold in_w. lia. }
  destruct (rx_stats_regs size s1 Hs1 Hsz) as (Ef&Eg&Et&Eo). set (s2 := rx_stats size s1) in *.
  assert (∀ i, i ∉ [RDH; GPRC; TPR; TORL; TORH] → reg s2 i = reg s i) as E2.
  { intros i Hi. rewrite !not_elem_of_cons in Hi. destruct Hi as (?&?&?&?&?&_).
    rewrite Ef by notin.
    by apply reg_rx_moved. }
  assert (reg s2 RDH = h) as E2h by (by rewrite Ef by notin).
  assert (ring_len rx_ring s2 = ring_len rx_ring s) as El by (unfold ring_len; cbn; by rewrite E2 by notin).
  assert (rxbuf_min_shift s2 = rxbuf_min_shift s) as Esh by (unfold s2, rx_stats; cbv zeta; by case_match).
  assert (check_rxov s2 = 1) as Eov by (unfold s2, rx_stats; cbv zeta; by case_match).
  unfold rx_done. fold s1 s2. cbv zeta.
  assert (∀ i, i ≠ ICR → i ≠ ICS → reg (set_ics s2 0 (rx_cause s2)) i = reg s2 i) as Eics
    by (intros; by apply reg_set_interrupt_cause).
  split.
  - intros i Hi. unfold rx_touched in Hi. rewrite !not_elem_of_cons in Hi.
    destruct Hi as (?&?&?&?&?&?&?&_). rewrite Eics by done. apply E2.
    notin.
  - by rewrite Eics by done.
  - rewrite Eics, Eg by done. unfold s1. by rewrite reg_rx_moved.
  - rewrite Eics, Et by done. unfold s1. by rewrite reg_rx_moved.
  - unfold rx_octets. rewrite !Eics by done. fold (rx_octets s2). rewrite Eo.
    unfold rx_octets, s1. by rewrite !reg_rx_moved by done.
  - intros Ht free. unfold free. clear free. rewrite (Eics RDH), E2h by done. rewrite rx_cause_free.
    2,3: rewrite E2 by notin; apply Hs.
    2: { split; [|by cbn; rewrite E2h, El]. rewrite El. cbn. rewrite E2 by notin. apply Hr. }
    2: by rewrite El, E2 by notin.
    by rewrite set_ics_icr, E2h, (E2 RDT), (E2 RDLEN), (E2 ICR), El, Esh by first [done|notin].
  - unfold set_ics. rewrite set_interrupt_cause_irq, (reg_set_interrupt_cause _ _ _ IMS), E2 by first [done|notin]. done.
  - done.
Qed.

(** C7: a frame the filter accepts is delivered to the first descriptor that has a
    buffer: padded to the Ethernet minimum and with its VLAN tag taken out in
    VLAN mode, it is in that buffer; the descriptors up to and including it are
    marked as done, the last one with the length and the end of the packet; the head
    register has moved behind it, across the end of the ring; guest memory is
    otherwise unchanged; the frame is counted and the interrupts are raised. The
    caller's own buffer is changed when a tag is taken out. *)
Theorem e1000_receive_delivers fuel buf k m :
  let s := dev m in
  let payload := rx_payload s (pad_min buf) in
  bytes_ok buf → (k < fuel)%nat → rx_accepts s buf → rxbuf_size s ≤ 16384 →
  rx_job m k (length payload) →
  ∃ m', e1000_receive fuel buf m = Ret (Z.of_nat (length payload), rx_caller s buf) m' ∧
    phys_read (mem m') (rxd_buffer_addr (rx_cmd m k)) (length payload) = payload ∧
    (∀ i, (i ≤ k)%nat →
       rx_slot_done s (rx_special s (pad_min buf)) (rx_status s (pad_min buf))
         (Z.of_nat (length payload)) (Nat.eqb i k) (rx_cmd m i)
         (rx_desc_decode (phys_read (mem m') (rx_nth s i) 16))) ∧
    (∀ a n, (∀ i, (i ≤ k)%nat → range_disjoint a n (rx_nth s i) 16) →
       range_disjoint a n (rxd_buffer_addr (rx_cmd m k)) (length payload) →
       phys_read (mem m') a n = phys_read (mem m) a n) ∧
    rx_counted s (dev m') (Z.of_nat (S k)) (Z.of_nat (length payload)).
Proof.
  intros s payload Hb Hf Hacc Hmax Hj. unfold s. rewrite (e1000_receive_accepted fuel buf m Hacc).
  fold s payload. pose proof (rx_payload_length s (pad_min buf)) as Hpl. fold payload in Hpl.
  pose proof (accept_size _ _ Hacc). pose proof Hj as [Hs Hr Hl _ Hnul Hbuf _].
  edestruct (rx_loop_delivers fuel (reg s RDH) (rx_special s (pad_min buf)) (rx_status s (pad_min buf))
    payload k m) as (m'&E&[Dd Ds Db Dsl Dm]); try done.
  { by apply rx_payload_ok, pad_min_ok. } { lia. }
  { intros i Hi. apply (ring_head_ne rx_ring (dev m)); [done|lia]. }
  exists (m' <| dev ::= rx_done (Z.of_nat (length payload)) |>).
  unfold mbind, M_bind. rewrite E. cbn [negb]. split; [done|]. split; [done|]. split; [|split; [done|]].
  - intros i Hi. cbn [mem update]. unfold s. rewrite Dsl by done.
    replace (Nat.eqb i k) with (negb (rxd_buffer_addr (rx_cmd m i) =? 0)).
    { apply rx_filled_done; [apply rx_special_range|apply rx_status_range|lia]. }
    destruct (Nat.eqb_spec i k) as [->|]; [by rewrite (proj2 (Z.eqb_neq _ _) Hbuf)|].
    by rewrite Hnul by lia.
  - cbn [dev update]. rewrite Dd. apply rx_done_counted; [done..|lia].
Qed.

(** C36: when the ring is exhausted, a frame is refused and nothing of guest memory
    changes: only the overrun interrupt is raised. *)
Theorem e1000_receive_overrun fuel buf m :
  rx_accepts (dev m) buf → reg (dev m) RDH = reg (dev m) RDT → check_rxov (dev m) ≠ 0 →
  e1000_receive (S fuel) buf m =
    Ret (-1, rx_caller (dev m) buf) (m <| dev := set_ics (dev m) 0 E1000_ICS_RXO |>).
Proof.
  intros Hacc Heq Hov. rewrite (e1000_receive_accepted _ buf m Hacc). cbv zeta.
  unfold mbind at 1, M_bind at 1. cbn [rx_loop]. unfold mbind at 1, M_bind at 1, get_dev at 1, gets at 1.
  cbn [id]. rewrite Heq, Z.eqb_refl. apply Z.eqb_neq in Hov. rewrite Hov. done.
Qed.

(** *** Termination *)

Lemma rx_loop_returns fuel start special status payload j m :
  (∀ i, in_w 32 (reg (dev m) i)) → ring_ok rx_ring (dev m) →
  0 ≤ start < ring_len rx_ring (dev m) → 0 ≤ j < ring_len rx_ring (dev m) →
  reg (dev m) RDH = (start + j) `mod` ring_len rx_ring (dev m) →
  ring_len rx_ring (dev m) - j ≤ Z.of_nat fuel →
  ∃ b m', rx_loop fuel start special status payload m = Ret b m'.
Proof.
  revert j m. induction fuel as [|fuel IH]; intros j m Hs Hr Hst Hj Hh Hf; [lia|].
  destruct (decide (reg (dev m) RDH ≠ reg (dev m) RDT ∨ check_rxov (dev m) = 0)) as [Hfree|Hov].
  - rewrite rx_loop_iter by done. pose proof (rx_iter_dev m (rx_ring_base (dev m)) special status payload Hs Hr) as Ed.
    set (m1 := rx_iter _ _ _ _ _) in *. destruct (rx_moved_ring m 0 Hs Hr) as (Hr1&El&Eh&_&_).
    rewrite <- Ed in *. change (rdh_next (dev m)) with (ring_next rx_ring (dev m)).
    rewrite ring_next_mod by done. change (r_head rx_ring) with RDH.
    destruct (Z.eqb_spec ((reg (dev m) RDH + 1) `mod` ring_len rx_ring (dev m)) start) as [|Hne];
      [by eexists _, _|]. destruct (_ =? 0); [|by eexists _, _].
    rewrite Hh, Zplus_mod_idemp_l in Hne, Eh.
    assert (j + 1 ≠ ring_len rx_ring (dev m)) as Hj1.
    { intros E. apply Hne. replace (start + j + 1) with (start + 1 * ring_len rx_ring (dev m)) by lia.
      rewrite Z.mod_add, Z.mod_small; lia. }
    apply (IH (j + 1)); rewrite ?El; try done; try lia.
    + intros i. rewrite Ed. destruct (decide (i = RDH)) as [->|Hi].
      * rewrite <- Ed, Eh. pose proof (Z.mod_pos_bound (start + j + 1) (ring_len rx_ring (dev m)) ltac:(lia)).
        pose proof (ring_len_bound rx_ring (dev m) Hs). unfold in_w. lia.
      * rewrite reg_rx_moved by done. apply Hs.
    + rewrite Eh. f_equal. lia.
  - cbn [rx_loop]. unfold mbind at 1, M_bind at 1, get_dev at 1, gets at 1. cbn [id].
    replace ((reg (dev m) RDH =? reg (dev m) RDT) && negb (check_rxov (dev m) =? 0)) with true by lia.
    by eexists _, _.
Qed.

(** C29: with the head inside the ring, a frame is always dealt with: whatever the
    descriptors hold, [e1000_receive] returns after at most as many iterations as
    the ring has slots. *)
Theorem e1000_receive_returns fuel buf m :
  dev_ok (dev m) → ring_ok rx_ring (dev m) → ring_len rx_ring (dev m) ≤ Z.of_nat fuel →
  ∃ r m', e1000_receive fuel buf m = Ret r m'.
Proof.
  intros Hs Hr Hf. destruct (decide (has_bits (reg (dev m) RCTL) E1000_RCTL_EN = true ∧
    Z.of_nat (length (pad_min buf)) ≤ rxbuf_size (dev m) ∧
    receive_filter (dev m) (pad_min buf) = true)) as [(Ha&Hb&Hc)|Hn].
  - rewrite e1000_receive_accepted by done. cbv zeta.
    edestruct (rx_loop_returns fuel (reg (dev m) RDH) (rx_special (dev m) (pad_min buf))
      (rx_status (dev m) (pad_min buf)) (rx_payload (dev m) (pad_min buf)) 0 m)
      as (b&m'&E); try done; try apply Hs; try apply Hr; try lia.
    { destruct Hr. lia. }
    { rewrite Z.add_0_r, Z.mod_small; [done|apply Hr]. }
    unfold mbind, M_bind. rewrite E. destruct b; by eexists _, _.
  - unfold e1000_receive. unfold mbind at 1, M_bind at 1, get_dev at 1, gets at 1. cbn [id]. cbv zeta.
    destruct (has_bits (reg (dev m) RCTL) E1000_RCTL_EN) eqn:Ea; cbn [negb]; [|by eexists _, _].
    destruct (Z.of_nat (length (pad_min buf)) >? rxbuf_size (dev m)) eqn:Eb; [by eexists _, _|].
    destruct (receive_filter (dev m) (pad_min buf)) eqn:Ec; cbn [negb]; [|by eexists _, _].
    destruct Hn. split_and!; try done. lia.
Qed.

(** *** A head outside the ring *)

Lemma rx_desc_addr_encode d :
  rxd_buffer_addr (rx_desc_decode (rx_desc_encode d)) = u64 (rxd_buffer_addr d).
Proof.
  unfold rx_desc_decode, rx_desc_encode, rx_desc_layout. cbn [fields_encode fields_decode].
  rewrite take_app_length' by (by rewrite length_le_bytes). cbn [rxd_buffer_addr]. apply le_val_bytes.
Qed.

Lemma rx_loop_diverges fuel start special status payload m L :
  (∀ i, in_w 32 (reg (dev m) i)) → 0 < L → reg (dev m) RDLEN = 16 * L → L ≤ start → start < 2 ^ 32 →
  L ≤ reg (dev m) RDT →
  0 ≤ reg (dev m) RDH < L ∨ reg (dev m) RDH = start ∧ (start ≠ reg (dev m) RDT ∨ check_rxov (dev m) = 0) →
  (∀ i, 0 ≤ i < L ∨ i = start →
     rxd_buffer_addr (rx_desc_decode (phys_read (mem m) (ring_slot rx_ring (dev m) i) 16)) = 0) →
  rx_loop fuel start special status payload m = OutOfFuel.
Proof.
  revert m. induction fuel as [|fuel IH]; intros m Hs HL Hlen Hst Hst2 Ht Hh Hnull; [done|].
  rewrite rx_loop_iter by lia.
  change (rx_ring_base (dev m)) with (ring_slot rx_ring (dev m) (reg (dev m) RDH)).
  rewrite Hnull by lia. cbn [Z.eqb]. pose proof (u32_range (reg (dev m) RDH + 1)) as Hu.
  assert (0 ≤ rdh_next (dev m) < L) as Hn by (unfold rdh_next; rewrite Hlen; cbv zeta; case_match; lia).
  replace (rdh_next (dev m) =? start) with false by lia.
  set (h := reg (dev m) RDH) in *. set (b := ring_slot rx_ring (dev m) h).
  assert (∀ i, i ≠ RDH → reg (dev (rx_iter m b special status payload)) i = reg (dev m) i) as Hreg.
  { intros i Hi. exact (reg_set_ne (dev m) RDH i _ (not_eq_sym Hi)). }
  assert (reg (dev (rx_iter m b special status payload)) RDH = rdh_next (dev m)) as Hrdh
    by exact (reg_set_eq (dev m) RDH _).
  assert (∀ i, ring_slot rx_ring (dev (rx_iter m b special status payload)) i = ring_slot rx_ring (dev m) i) as Hslot.
  { intros i. unfold ring_slot. cbn [r_bah r_bal rx_ring]. by rewrite !Hreg. }
  apply IH; rewrite ?Hreg by done; rewrite ?Hrdh; try done; try lia.
  - intros i. destruct (decide (i = RDH)) as [->|]; [|rewrite Hreg by done; apply Hs].
    rewrite Hrdh. pose proof (Hs RDLEN). unfold in_w in *. lia.
  - intros i Hi. rewrite Hslot. destruct (decide (i = h)) as [->|Hne].
    + fold b. rewrite rx_iter_slot, rx_desc_addr_encode, rx_fill_addr. unfold b. rewrite Hnull; [done|lia].
    + rewrite rx_iter_mem; [by apply Hnull| |].
      * pose proof (Hs RDLEN). unfold in_w in *. apply (slot_disjoint _ 16); lia.
      * intros Hx. destruct Hx. unfold b. apply Hnull. lia.
Qed.

(** The comment in [start_xmit] says that a round trip of the head catches a
    guest that sets bogus values. A head outside the ring is never met again:
    with the tail outside as well and no buffer in any descriptor, an accepted
    frame keeps [e1000_receive] running for ever. *)
Theorem e1000_receive_outside_ring_diverges fuel buf m L :
  dev_ok (dev m) → rx_accepts (dev m) buf → 0 < L → reg (dev m) RDLEN = 16 * L →
  L ≤ reg (dev m) RDH → L ≤ reg (dev m) RDT → reg (dev m) RDH ≠ reg (dev m) RDT →
  (∀ i, 0 ≤ i < L ∨ i = reg (dev m) RDH →
     rxd_buffer_addr (rx_desc_decode (phys_read (mem m) (ring_slot rx_ring (dev m) i) 16)) = 0) →
  e1000_receive fuel buf m = OutOfFuel.
Proof.
  intros Hs Hacc HL Hlen Hh Ht Hne Hnull. rewrite e1000_receive_accepted by done. cbv zeta.
  unfold mbind at 1, M_bind at 1. rewrite (rx_loop_diverges _ _ _ _ _ m L); try done; try apply Hs; try lia.
Qed.
End receive_spec.
