(* ===== verification/E1000MmioSpec.v ===== *)
(** * Correctness of register access, the receive filter and start-up

    The plain registers behave as a store; an interrupt is raised and acknowledged through the registers; a station address
    programmed by the driver passes the receive filter; which part of the register
    window is coalesced; and the checksum of the EEPROM image. *)

From S2P Require Import Prelude Bytes Memory E1000Hw E1000State E1000Tx E1000Rx AdminQ E1000Mmio E1000Inv.

(** ** Dispatch *)

Lemma table_get_size {A} (t : list (Z * A)) i a : table_get t i = Some a → i < table_size t.
Proof.
  induction t as [|[j b] t IH]; [done|]. cbn. destruct (Z.eqb_spec i j) as [->|].
  - lia.
  - intros Hi. specialize (IH Hi). unfold table_size in IH. lia.
Qed.

Section mmio_spec.
Context {X P : Type} `{PhysMemLaws X} `{MsgLink P}.
Abbreviation MM := (M (machine X P)).
Implicit Types (m : machine X P).

Lemma writel_dispatch fuel addr val op m :
  table_get macreg_writeops (mmio_index addr) = Some op →
  e1000_mmio_writel fuel addr val m = run_writeop fuel op (mmio_index addr) val m.
Proof.
  intros E. unfold e1000_mmio_writel. cbv zeta. unfold NWRITEOPS.
  rewrite (proj2 (Z.ltb_lt _ _) (table_get_size _ _ _ E)), E. done.
Qed.

Lemma readl_dispatch addr op m :
  table_get macreg_readops (mmio_index addr) = Some op →
  e1000_mmio_readl addr m =
    Ret (run_readop op (dev m) (mmio_index addr)).1
      (m <| dev := (run_readop op (dev m) (mmio_index addr)).2 |>).
Proof.
  intros E. unfold e1000_mmio_readl. cbv zeta. unfold NREADOPS.
  rewrite (proj2 (Z.ltb_lt _ _) (table_get_size _ _ _ E)), E. done.
Qed.

(** ** Plain registers *)

(** The register at [addr] is read and written without side effect. *)
Definition plain_reg (addr : Z) : Prop :=
  table_get macreg_readops (mmio_index addr) = Some Rd_mac_readreg ∧
  table_get macreg_writeops (mmio_index addr) = Some Wr_mac_writereg.

Fixpoint mmio_writes (fuel : nat) (ws : list (Z * Z)) : MM unit :=
  match ws with
  | [] => mret ()
  | (addr, val) :: ws => e1000_mmio_writel fuel addr val;; mmio_writes fuel ws
  end.

(** The value the last of the writes left in register [i]. *)
Fixpoint last_write (ws : list (Z * Z)) (i old : Z) : Z :=
  match ws with
  | [] => old
  | (addr, val) :: ws => last_write ws i (if mmio_index addr =? i then val else old)
  end.

Lemma mmio_writes_plain fuel ws m :
  Forall (λ w, plain_reg w.1) ws →
  ∃ s', mmio_writes fuel ws m = Ret () (m <| dev := s' |>) ∧
    (∀ i, reg s' i = last_write ws i (reg (dev m) i)) ∧ s' <| mac_reg := mac_reg (dev m) |> = dev m.
Proof.
  revert m. induction ws as [|[addr val] ws IH]; intros m Hp.
  { exists (dev m). by destruct m as [[] ? ? ?]. }
  apply Forall_cons_iff in Hp as [[_ Hw] Hp]. cbn [mmio_writes fst] in *.
  unfold mbind, M_bind. rewrite (writel_dispatch _ _ _ _ _ Hw). cbn [run_writeop].
  unfold mod_dev, modify. set (m1 := m <| dev ::= _ |>).
  destruct (IH m1 Hp) as (s'&E&Hr&Hs). exists s'. split; [exact E|]. split.
  - intros i. rewrite Hr. cbn [last_write]. f_equal. subst m1. cbn [dev update].
    unfold mac_writereg. rewrite reg_set. case_decide; subst; [by rewrite Z.eqb_refl|].
    destruct (Z.eqb_spec (mmio_index addr) i); congruence.
  - destruct s'. unfold update in *. cbn in *. unfold mac_writereg, set_reg, update in Hs.
    destruct (dev m). cbn in *. congruence.
Qed.


(** ** Interrupts through the registers *)

(** C28: a cause the driver has unmasked and that is set (here through ICS) raises
    the interrupt line; reading ICR returns every pending cause, with the asserted
    bit, clears them all and lowers the line. *)
Theorem interrupt_raised_and_acknowledged fuel v m :
  dev_ok (dev m) → in_w 32 v → has_bits (reg (dev m) IMS) v = true →
  ∃ m1 m2, e1000_mmio_writel fuel E1000_ICS v m = Ret () m1 ∧ irq (dev m1) = true ∧
    e1000_mmio_readl E1000_ICR m1 = Ret (v .| reg (dev m) ICR .| E1000_ICR_INT_ASSERTED) m2 ∧
    irq (dev m2) = false ∧ reg (dev m2) ICR = 0 ∧ reg (dev m2) IMS = reg (dev m) IMS.
Proof.
  intros Hs Hv Hm. pose proof (mac_reg_ok _ Hs ICR) as Hicr.
  assert (v .| reg (dev m) ICR ≠ 0) as Hne.
  { intros E. apply Z.lor_eq_0_iff in E as [-> _]. unfold has_bits in Hm. by rewrite Z.land_0_r in Hm. }
  eexists _, _. rewrite (writel_dispatch _ _ _ Wr_set_ics) by done. split; [done|].
  cbn [dev update]. unfold set_ics.
  set (s := set_interrupt_cause (dev m) 0 (v .| reg (dev m) ICR)).
  assert (reg s ICR = v .| reg (dev m) ICR .| E1000_ICR_INT_ASSERTED) as Es.
  { unfold s. rewrite set_interrupt_cause_icr. by rewrite (proj2 (Z.eqb_neq _ _) Hne). }
  assert (reg s IMS = reg (dev m) IMS) as Ei by (by apply reg_set_interrupt_cause).
  split; [|split; [|split_and!]].
  - change (has_bits (reg s IMS) (reg s ICR) = true). rewrite Es, Ei.
    apply has_bits_true. apply has_bits_true in Hm. intros E. apply Hm.
    rewrite !Z.land_lor_distr_r in E. apply Z.lor_eq_0_iff in E as [E _].
    by apply Z.lor_eq_0_iff in E as [E _].
  - rewrite (readl_dispatch _ Rd_mac_icr_read) by done. cbn [run_readop mac_icr_read fst snd dev update].
    fold s. rewrite Es. done.
  - change (has_bits (reg (set_interrupt_cause s 0 0) IMS) (reg (set_interrupt_cause s 0 0) ICR) = false).
    rewrite set_interrupt_cause_icr. cbn [Z.eqb]. unfold has_bits. by rewrite Z.land_0_r.
  - cbn [dev update]. fold s. by rewrite set_interrupt_cause_icr.
  - cbn [dev update]. fold s. rewrite reg_set_interrupt_cause by done. exact Ei.
Qed.

(** ** The receive filter *)

Definition ra_entry_ok (k : Z) : bool :=
  (mmio_index (E1000_RA + 8 * k) =? RA + 2 * k) &&
  (mmio_index (E1000_RA + 8 * k + 4) =? RA + 2 * k + 1) &&
  match table_get macreg_writeops (RA + 2 * k), table_get macreg_writeops (RA + 2 * k + 1),
    table_get macreg_readops (RA + 2 * k), table_get macreg_readops (RA + 2 * k + 1) with
  | Some Wr_mac_writereg, Some Wr_mac_writereg, Some Rd_mac_readreg, Some Rd_mac_readreg => true
  | _, _, _, _ => false
  end.

Lemma ra_entry k : 0 ≤ k < 16 →
  mmio_index (E1000_RA + 8 * k) = RA + 2 * k ∧ mmio_index (E1000_RA + 8 * k + 4) = RA + 2 * k + 1 ∧
  plain_reg (E1000_RA + 8 * k) ∧ plain_reg (E1000_RA + 8 * k + 4).
Proof.
  intros Hk. assert (ra_entry_ok k = true) as Hok.
  { assert (In k (seqZ 0 16)) as Hin by (apply list_elem_of_In, elem_of_seqZ; lia).
    revert k Hk Hin. intros k _. revert k. apply forallb_forall. vm_compute. reflexivity. }
  unfold ra_entry_ok in Hok. apply andb_prop in Hok as [Hix Ht]. apply andb_prop in Hix as [E1 E2].
  apply Z.eqb_eq in E1, E2. unfold plain_reg. rewrite E1, E2.
  repeat case_match; try done.
Qed.

Lemma mac_registers mac :
  bytes_ok mac → length mac = 6%nat →
  let r1 := le_val (drop 4 mac) .| E1000_RAH_AV in
  take 6 (le_bytes 4 (le_val (take 4 mac)) ++ le_bytes 4 r1) = mac ∧ has_bits r1 E1000_RAH_AV = true.
Proof.
  intros Hok Hl r1. split; [|by apply (has_bits_lor_r _ _ 31)].
  assert (le_bytes 4 (le_val (take 4 mac)) = take 4 mac) as ->.
  { rewrite <- (le_bytes_val (take 4 mac)) at 2 by (by apply bytes_ok_take).
    f_equal. rewrite length_take. lia. }
  destruct mac as [|a [|b [|c [|d [|e [|f [|]]]]]]]; try done. cbn [take drop app]. do 4 f_equal.
  assert (byte_ok e ∧ byte_ok f) as [He Hf].
  { unfold bytes_ok in Hok. rewrite !Forall_cons_iff in Hok. tauto. }
  unfold byte_ok in *. unfold r1. cbn [drop le_val].
  change E1000_RAH_AV with (1 << 31). rewrite lor_shiftl_add by lia. cbn [le_bytes take].
  repeat f_equal; Z.div_mod_to_equations; lia.
Qed.

(** A station address that the driver programs into any of the sixteen
    receive address entries is accepted: after the two register writes, every
    frame sent to that address passes the filter (VLAN filtering off). *)
Theorem station_address_accepted fuel k mac m :
  0 ≤ k < 16 → bytes_ok mac → length mac = 6%nat → vlan_rx_filter_enabled (dev m) = false →
  ∃ m', mmio_writes fuel [(E1000_RA + 8 * k, le_val (take 4 mac));
                          (E1000_RA + 8 * k + 4, le_val (drop 4 mac) .| E1000_RAH_AV)] m = Ret () m' ∧
    ∀ frame, take 6 frame = mac → receive_filter (dev m') frame = true.
Proof.
  intros Hk Hok Hl Hv. destruct (ra_entry k Hk) as (I1&I2&P1&P2).
  destruct (mac_registers mac Hok Hl) as [Hm Hav]. cbv zeta in Hm, Hav.
  set (ws := [_; _]). assert (Forall (λ w, plain_reg w.1) ws) as Hws
    by (apply Forall_cons; [exact P1|apply Forall_cons; [exact P2|apply Forall_nil_2]]).
  destruct (mmio_writes_plain fuel ws m Hws) as (s'&E&Hr&_).
  exists (m <| dev := s' |>). split; [exact E|]. cbn [dev update].
  assert (∀ i, reg s' i = if RA + 2 * k + 1 =? i then le_val (drop 4 mac) .| E1000_RAH_AV
    else if RA + 2 * k =? i then le_val (take 4 mac) else reg (dev m) i) as Hr2.
  { intros i. rewrite Hr. unfold ws. cbn [last_write]. by rewrite I1, I2. }
  clear Hr E Hws ws. intros frame Hf. unfold receive_filter. cbv zeta.
  assert (vlan_rx_filter_enabled s' = false) as ->.
  { unfold vlan_rx_filter_enabled in *. rewrite Hr2.
    assert (RA + 2 * k ≠ RCTL ∧ RA + 2 * k + 1 ≠ RCTL) as [? ?]
      by (change RA with 5376; change RCTL with 64; lia).
    by rewrite !(proj2 (Z.eqb_neq _ _)) by done. }
  rewrite andb_false_r. cbn [andb]. do 3 (case_match; [done|]).
  replace (existsb (ra_match s' frame) (seqZ 0 16)) with true; [done|]. symmetry.
  apply existsb_exists. exists k. split; [apply list_elem_of_In, elem_of_seqZ; lia|].
  unfold ra_match. cbv zeta. rewrite !Hr2.
  rewrite !Z.eqb_refl, (proj2 (Z.eqb_neq (RA + 2 * k + 1) (RA + 2 * k))) by lia.
  rewrite Hav, Hm, Hf. by rewrite bool_decide_eq_true_2.
Qed.
End mmio_spec.

(** ** Coalesced writes *)

(** The ranges registered for coalescing are the register window without the
    seven registers whose accesses must not be delayed. *)
Theorem coalesced_is_complement addr off :
  0 ≤ off < PNPMMIO_SIZE →
  Exists (λ r, r.1 ≤ addr + off < r.1 + r.2) (e1000_mmio_map addr) ↔
  Forall (λ e, ¬ (e ≤ off < e + 4)) [E1000_MDIC; E1000_ICR; E1000_ICS; E1000_IMS; E1000_IMC; E1000_TCTL; E1000_TDT].
Proof.
  intros Ho. unfold PNPMMIO_SIZE in Ho. unfold e1000_mmio_map. cbn -[Z.add].
  rewrite !Exists_cons, !Forall_cons_iff, Exists_nil. cbn [fst snd].
  change (arr excluded_regs 0) with E1000_MDIC.
  unfold PNPMMIO_SIZE.
  split; [intros Hx; split_and!; try done; lia|lia].
Qed.

(** ** The EEPROM image *)

Lemma foldl_u16 c l : foldl (λ c w, u16 (c + w)) (u16 c) l = u16 (c + foldr Z.add 0 l).
Proof.
  revert c. induction l as [|w l IH]; intros c; cbn; [by rewrite Z.add_0_r|].
  unfold u16 at 2. rewrite wrap_add_l. fold (u16 (c + w)). rewrite IH. f_equal. lia.
Qed.

(** The EEPROM image the device starts with carries the MAC address of the
    configuration in its first three words, and its 64 words add up to the value
    the driver checks, whatever the address. *)
Theorem eeprom_image_valid macaddr :
  let e := eeprom_init macaddr in
  length e = 64%nat ∧ foldl (λ c w, u16 (c + w)) 0 e = EEPROM_SUM ∧
  (∀ i, 0 ≤ i < 3 → arr e i = (arr macaddr (2 * i + 1) << 8) .| arr macaddr (2 * i)).
Proof.
  intros e. unfold e, eeprom_init. cbv zeta. set (e0 := eeprom_mac _ _).
  assert (length e0 = 64%nat) as Hl by (unfold e0, eeprom_mac; cbn [foldl]; by rewrite !length_insert).
  split_and!.
  - by rewrite length_insert.
  - change (Z.to_nat EEPROM_CHECKSUM_REG) with 63%nat. rewrite insert_take_drop by lia.
    rewrite (drop_ge e0) by lia. rewrite foldl_app. cbn [foldl].
    unfold eeprom_checksum. change (Z.to_nat EEPROM_CHECKSUM_REG) with 63%nat.
    pose proof (foldl_u16 0 (take 63 e0)) as Ef. change (u16 0) with 0 in Ef. rewrite Ef.
    unfold u16. rewrite wrap_add_r, wrap_add_l. rewrite Z.add_0_l.
    replace (foldr Z.add 0 (take 63 e0) + (EEPROM_SUM - wrap 16 (foldr Z.add 0 (take 63 e0)))) with
      (EEPROM_SUM + (foldr Z.add 0 (take 63 e0) - wrap 16 (foldr Z.add 0 (take 63 e0)))) by lia.
    unfold wrap. rewrite Z.add_mod, Zminus_mod_idemp_r, Z.sub_diag by done. reflexivity.
  - intros i Hi. unfold arr at 1. rewrite list_lookup_insert_ne
      by (change (Z.to_nat EEPROM_CHECKSUM_REG) with 63%nat; lia).
    unfold e0, eeprom_mac. cbn [foldl]. assert (i = 0 ∨ i = 1 ∨ i = 2) as [->|[->| ->]] by lia; reflexivity.
Qed.
