(* ===== verification/NetQueue.v ===== *)
(** * The packet queue between network clients ([net/queue.c])

    Packets a client cannot take yet are queued and delivered in order later. The
    delivery handlers are those the queue was created with, and the sent callbacks
    those of the packets, so they are arguments. A handler is given a packet (or a vector
    of buffers) and the state of the clients; it returns its result, the contents of
    the buffer when it is done (the buffer is shared, a client may have changed it), the
    packets it sent through this same queue while it ran, and the new state. A sent
    callback may send packets through the queue as well, one after the other and depending
    on the results. Neither flushes or purges the queue by itself. *)

From S2P Require Import Prelude Bytes Memory.

Module NetQueue.

Record NetPacket := {
  np_sender : Z;
  np_flags : Z;
  np_data : list Z;
  np_sent_cb : option Z;
}.

#[export] Instance NetPacket_eta : Eta NetPacket := λ p,
  Build_NetPacket (np_sender p) (np_flags p) (np_data p) (np_sent_cb p).

Definition np_size (p : NetPacket) : Z := Z.of_nat (length (np_data p)).

(** [events] records what happens: a packet is offered to the handler (with the result),
    enters the queue at its tail, leaves it for good, or its callback is called. *)
Inductive event :=
| Ev_deliver (p : NetPacket) (ret : Z)
| Ev_queue (p : NetPacket)
| Ev_take (p : NetPacket)
| Ev_sent_cb (cb sender ret : Z).

Record NetQueue (C : Type) := Queue {
  packets : list NetPacket;
  delivering : bool;
  clients : C;
  events : list event;
}.
Arguments Queue {C} _ _ _ _.
Arguments packets {C} _.
Arguments delivering {C} _.
Arguments clients {C} _.
Arguments events {C} _.
#[export] Instance NetQueue_eta C : Eta (NetQueue C) := λ q,
  Queue (packets q) (delivering q) (clients q) (events q).

Definition qemu_new_net_queue {C} (c : C) : NetQueue C := Queue [] false c [].

Section queue.
Context {C : Type}.
Variable handler : NetPacket → C → Z * list Z * list NetPacket * C.
Variable handler_iov : Z → Z → list (list Z) → C → Z * list (list Z) * list NetPacket * C.
(** [callback cb sender r c]: after the result [r] (of the delivery the callback is told
    of, or of the packet it sent last) it sends the next packet, or is done. *)
Variable callback : Z → Z → Z → C → option NetPacket * C.
Abbreviation QM := (M (NetQueue C)).
Implicit Types (q : NetQueue C) (c : C).

Definition put_event (e : event) : QM unit := modify (λ q, q <| events ::= λ l, l ++ [e] |>).

(** The packets left after [qemu_del_net_queue] freed them one by one. *)
Definition qemu_del_net_queue : QM unit := modify (λ q, q <| packets := [] |>).

Definition packet (sender flags : Z) (data : list Z) (cb : option Z) : NetPacket :=
  {| np_sender := sender; np_flags := flags; np_data := data; np_sent_cb := cb |}.

Definition insert_tail (p : NetPacket) : QM unit :=
  modify (λ q, q <| packets ::= λ l, l ++ [p] |>);; put_event (Ev_queue p).

Definition qemu_net_queue_append (sender flags : Z) (buf : list Z) (sent_cb : option Z) : QM Z :=
  insert_tail (packet sender flags buf sent_cb);;
  mret (Z.of_nat (length buf)).

Definition qemu_net_queue_append_iov (sender flags : Z) (iov : list (list Z))
    (sent_cb : option Z) : QM Z :=
  let data := foldl (λ d v, d ++ v) [] iov in
  insert_tail (packet sender flags data sent_cb);;
  mret (Z.of_nat (length data)).

(** The packets the handler sends while it runs are queued without callback. *)
Definition sent_inside (sends : list NetPacket) : list NetPacket :=
  map (λ s, s <| np_sent_cb := None |>) sends.

(** What the handler leaves behind. It runs with [delivering] set, so what it sends is
    appended. *)
Definition after_handler (sends : list NetPacket) (c : C) (p : NetPacket) (ret : Z) : QM unit :=
  modify (λ q, q <| clients := c |>
                 <| packets ::= λ l, l ++ sent_inside sends |>
                 <| events ::= λ l, l ++ map Ev_queue (sent_inside sends) ++ [Ev_deliver p ret] |>).

Definition qemu_net_queue_deliver (p : NetPacket) : QM (Z * list Z) :=
  modify (λ q, q <| delivering := true |>);;
  q ← gets id;
  let '(ret, data, sends, c) := handler p (clients q) in
  after_handler sends c p ret;;
  modify (λ q, q <| delivering := false |>);;
  mret (ret, data).

Definition qemu_net_queue_deliver_iov (sender flags : Z) (iov : list (list Z)) : QM (Z * list (list Z)) :=
  modify (λ q, q <| delivering := true |>);;
  q ← gets id;
  let '(ret, iov', sends, c) := handler_iov sender flags iov (clients q) in
  after_handler sends c (packet sender flags (concat iov) None) ret;;
  modify (λ q, q <| delivering := false |>);;
  mret (ret, iov').

(** Sending; [flush] is what flushes the queue. *)
Definition send_with (flush : QM unit) (sender flags : Z) (data : list Z) (sent_cb : option Z) : QM Z :=
  q ← gets id;
  if delivering q then qemu_net_queue_append sender flags data None else
  '(ret, data) ← qemu_net_queue_deliver (packet sender flags data None);
  if ret =? 0 then qemu_net_queue_append sender flags data sent_cb;; mret 0 else
  flush;;
  mret ret.

(** The sent callback runs: packets it sends go through the queue like any other. *)
Fixpoint callback_with (flush : QM unit) (fuel : nat) (cb sender ret : Z) : QM unit :=
  match fuel with
  | O => no_fuel
  | S fuel =>
      q ← gets id;
      let '(o, c) := callback cb sender ret (clients q) in
      modify (λ q, q <| clients := c |>);;
      match o with
      | None => mret ()
      | Some p =>
          r ← send_with flush (np_sender p) (np_flags p) (np_data p) (np_sent_cb p);
          callback_with flush fuel cb sender r
      end
  end.

Fixpoint qemu_net_queue_flush (fuel : nat) : QM unit :=
  match fuel with
  | O => no_fuel
  | S fuel =>
      q ← gets id;
      match packets q with
      | [] => mret ()
      | p :: rest =>
          modify (λ q, q <| packets := rest |>);;
          '(ret, data) ← qemu_net_queue_deliver p;
          if ret =? 0 then modify (λ q, q <| packets ::= λ l, (p <| np_data := data |>) :: l |>)
          else
            put_event (Ev_take p);;
            (match np_sent_cb p with
             | Some cb =>
                 put_event (Ev_sent_cb cb (np_sender p) ret);;
                 callback_with (qemu_net_queue_flush fuel) fuel cb (np_sender p) ret
             | None => mret ()
             end);;
            qemu_net_queue_flush fuel
      end
  end.

Definition qemu_net_queue_send (fuel : nat) : Z → Z → list Z → option Z → QM Z :=
  send_with (qemu_net_queue_flush fuel).

Definition qemu_net_queue_send_iov (fuel : nat) (sender flags : Z) (iov : list (list Z))
    (sent_cb : option Z) : QM Z :=
  q ← gets id;
  if delivering q then qemu_net_queue_append_iov sender flags iov None else
  '(ret, iov) ← qemu_net_queue_deliver_iov sender flags iov;
  if ret =? 0 then qemu_net_queue_append_iov sender flags iov sent_cb;; mret 0 else
  qemu_net_queue_flush fuel;;
  mret ret.

Definition qemu_net_queue_purge (from : Z) : QM unit :=
  modify (λ q, q <| packets ::= filter (λ p, np_sender p ≠ from) |>).

(** ** First in, first out *)

(** The packets that entered the queue, and those that left it. *)
Definition entered (evs : list event) : list NetPacket :=
  omap (λ e, match e with Ev_queue p => Some p | _ => None end) evs.
Definition left_for_good (evs : list event) : list NetPacket :=
  omap (λ e, match e with Ev_take p => Some p | _ => None end) evs.

(** From [q] to [q'] packets entered only at the tail and left only at the head; [K] is
    what is looked at of a packet. *)
Definition fifo {A} (K : NetPacket → A) q q' : Prop :=
  ∃ evs, events q' = events q ++ evs ∧
    map K (packets q ++ entered evs) = map K (left_for_good evs ++ packets q').

Lemma fifo_refl {A} (K : NetPacket → A) q : fifo K q q.
Proof. exists []. cbn. by rewrite !app_nil_r. Qed.

Lemma entered_app l1 l2 : entered (l1 ++ l2) = entered l1 ++ entered l2.
Proof. apply omap_app. Qed.
Lemma left_app l1 l2 : left_for_good (l1 ++ l2) = left_for_good l1 ++ left_for_good l2.
Proof. apply omap_app. Qed.

Lemma fifo_trans {A} (K : NetPacket → A) q1 q2 q3 : fifo K q1 q2 → fifo K q2 q3 → fifo K q1 q3.
Proof.
  intros (e1&E1&F1) (e2&E2&F2). exists (e1 ++ e2). split; [by rewrite E2, E1, app_assoc|].
  rewrite entered_app, left_app, !map_app in *. by rewrite app_assoc, F1, <- !app_assoc, F2.
Qed.

Lemma entered_queued (l : list NetPacket) e : entered (map Ev_queue l ++ [e]) = l ++ entered [e].
Proof. rewrite entered_app. f_equal. unfold entered. induction l as [|p l IH]; [done|]. cbn. by rewrite IH. Qed.
Lemma left_queued (l : list NetPacket) e : left_for_good (map Ev_queue l ++ [e]) = left_for_good [e].
Proof. rewrite left_app. unfold left_for_good at 1. by induction l. Qed.

(** Where a flush stops: nothing is left, or the first packet was just refused. *)
Definition flushed q : Prop :=
  packets q = [] ∨ ∃ p data rest evs,
    packets q = (p <| np_data := data |>) :: rest ∧ events q = evs ++ [Ev_deliver p 0].

(** *** Delivery *)

Definition delivered q (p : NetPacket) : NetQueue C :=
  let '(ret, _, sends, c) := handler p (clients q) in
  Queue (packets q ++ sent_inside sends) false c
    (events q ++ map Ev_queue (sent_inside sends) ++ [Ev_deliver p ret]).

Lemma deliver_eq q p : qemu_net_queue_deliver p q = Ret (handler p (clients q)).1.1 (delivered q p).
Proof.
  unfold qemu_net_queue_deliver, after_handler, delivered, mbind, M_bind, gets, modify, mret, M_ret. cbn.
  by destruct (handler p (clients q)) as [[[ret data] sends] c].
Qed.

Lemma wp_deliver q p (Q : Z * list Z → NetQueue C → Prop) :
  Q (handler p (clients q)).1.1 (delivered q p) → wp (qemu_net_queue_deliver p) Q q.
Proof. intros HQ. unfold wp. by rewrite deliver_eq. Qed.

Lemma delivered_fifo {A} (K : NetPacket → A) q p : fifo K q (delivered q p).
Proof.
  unfold delivered. destruct (handler p (clients q)) as [[[ret data] sends] c].
  eexists. split; [reflexivity|]. cbn. rewrite entered_queued, left_queued. cbn. by rewrite app_nil_r.
Qed.

(** A packet taken from the head of the queue goes back or is gone. *)
Lemma refused_fifo {A} (K : NetPacket → A) q p rest data :
  packets q = p :: rest → K (p <| np_data := data |>) = K p →
  fifo K q (delivered (q <| packets := rest |>) p <| packets ::= λ l, (p <| np_data := data |>) :: l |>).
Proof.
  intros Hp HK. unfold delivered. cbn. destruct (handler p (clients q)) as [[[ret d] sends] c].
  eexists. split; [reflexivity|]. cbn. rewrite entered_queued, left_queued, Hp. cbn. by rewrite HK, app_nil_r.
Qed.
Lemma taken_fifo {A} (K : NetPacket → A) q p rest :
  packets q = p :: rest →
  fifo K q (delivered (q <| packets := rest |>) p <| events ::= λ l, l ++ [Ev_take p] |>).
Proof.
  intros Hp. unfold delivered. cbn. destruct (handler p (clients q)) as [[[ret d] sends] c].
  eexists. split; [cbn; by rewrite <- app_assoc|].
  rewrite entered_app, left_app, entered_queued, left_queued, Hp. cbn. by rewrite !app_nil_r.
Qed.
Lemma event_fifo {A} (K : NetPacket → A) q cb sender ret :
  fifo K q (q <| events ::= λ l, l ++ [Ev_sent_cb cb sender ret] |>).
Proof. eexists. split; [reflexivity|]. cbn. by rewrite !app_nil_r. Qed.

(** *** All operations keep the order *)

Section order.
Context {A : Type} (K : NetPacket → A).
(** What is looked at is not changed by a handler that works on the buffer. *)
Context (HK : ∀ p c, K (p <| np_data := (handler p c).1.1.2 |>) = K p).

Lemma append_fifo q sender flags data cb :
  wlp (qemu_net_queue_append sender flags data cb) (λ _, fifo K q) q.
Proof using Type. exists [Ev_queue (packet sender flags data cb)]. by cbn. Qed.

Lemma send_fifo flush q sender flags data cb :
  (∀ q, wlp flush (λ _, fifo K q) q) → wlp (send_with flush sender flags data cb) (λ _, fifo K q) q.
Proof using HK.
  intros Hf. unfold send_with. apply wlp_bind, wp_wlp, wp_gets. cbn [id].
  destruct (delivering q); [apply append_fifo|]. apply wlp_bind, wp_wlp, wp_deliver.
  pose proof (delivered_fifo K q (packet sender flags data None)) as Hd. set (q1 := delivered _ _) in *.
  destruct (handler _ _) as [[[ret d] sends] c]. cbn [fst]. destruct (ret =? 0).
  - apply wlp_bind. eapply wlp_mono; [apply append_fifo|]. intros ? q2 H2. apply wlp_ret. by eapply fifo_trans.
  - apply wlp_bind. eapply wlp_mono; [apply Hf|]. intros ? q2 H2. apply wlp_ret. by eapply fifo_trans.
Qed.

Lemma callback_fifo flush fuel q cb sender ret :
  (∀ q, wlp flush (λ _, fifo K q) q) → wlp (callback_with flush fuel cb sender ret) (λ _, fifo K q) q.
Proof using HK.
  intros Hf. revert q ret. induction fuel as [|fuel IH]; intros q ret; cbn [callback_with]; [done|].
  apply wlp_bind, wp_wlp, wp_gets. destruct (callback cb sender ret (clients (id q))) as [o c].
  apply wlp_bind, wp_wlp, wp_modify. set (q1 := update _ q).
  assert (fifo K q q1) as H1 by (exists []; cbn; by rewrite !app_nil_r).
  destruct o as [p|]; [|by apply wlp_ret]. apply wlp_bind. eapply wlp_mono; [by apply send_fifo|].
  intros r q2 H2. eapply wlp_mono; [apply IH|]. intros ? q3 H3.
  eapply fifo_trans; [exact H1|]. eapply fifo_trans; [exact H2|exact H3].
Qed.

Lemma flush_fifo fuel q : wlp (qemu_net_queue_flush fuel) (λ _ q', fifo K q q' ∧ flushed q') q.
Proof using HK.
  revert q. induction fuel as [|fuel IH]; intros q; cbn [qemu_net_queue_flush]; [done|].
  apply wlp_bind, wp_wlp, wp_gets. cbn [id]. destruct (packets q) as [|p rest] eqn:Hp.
  { apply wlp_ret. split; [apply fifo_refl|by left]. }
  apply wlp_bind, wp_wlp, wp_modify, wlp_bind, wp_wlp, wp_deliver. cbn [clients update].
  pose proof (HK p (clients q)) as Hkp. pose proof (taken_fifo K q p rest Hp) as Ht.
  pose proof (refused_fifo K q p rest (handler p (clients q)).1.1.2 Hp Hkp) as Hr.
  assert (∃ evs, events (delivered (q <| packets := rest |>) p) = evs ++ [Ev_deliver p (handler p (clients q)).1.1.1]) as [evs Ev].
  { unfold delivered. cbn. destruct (handler p (clients q)) as [[[ret d] sends] c]. eexists. cbn. by rewrite app_assoc. }
  set (q1 := delivered _ p) in *. destruct (handler p (clients q)) as [[[ret data] sends] c]. cbn [fst snd] in *.
  destruct (Z.eqb_spec ret 0) as [->|Hne].
  { apply wp_wlp, wp_modify. split; [done|right]. by eexists p, data, _, evs. }
  apply wlp_bind, wp_wlp, wp_modify. set (q2 := update _ q1) in *.
  assert (∀ q, wlp (qemu_net_queue_flush fuel) (λ _, fifo K q) q) as Hf.
  { intros q'. eapply wlp_mono; [apply IH|]. by intros ? ? [? _]. }
  apply wlp_bind, (wlp_mono _ (λ _, fifo K q)).
  - destruct (np_sent_cb p) as [cb|]; [|by apply wlp_ret]. apply wlp_bind, wp_wlp, wp_modify.
    eapply wlp_mono; [by apply callback_fifo|]. intros ? q3 H3. eapply fifo_trans; [exact Ht|].
    eapply fifo_trans; [apply event_fifo|exact H3].
  - intros ? q3 H3. eapply wlp_mono; [apply IH|]. intros ? q4 [H4 H5]. split; [by eapply fifo_trans|done].
Qed.
End order.

(** *** Termination *)

(** The clients can send only so many packets in answer to deliveries and callbacks. *)
Section budget.
Context (budget : C → nat).
Context (Hhandler : ∀ p c, (length (handler p c).1.2 + budget (handler p c).2 ≤ budget c)%nat).
Context (Hcallback : ∀ cb sender r c, (length (option_list (callback cb sender r c).1) + budget (callback cb sender r c).2 ≤ budget c)%nat).

Definition load q : nat := (length (packets q) + budget (clients q))%nat.
Definition spent q q' : Prop := (budget (clients q') ≤ budget (clients q))%nat ∧ (load q' ≤ load q)%nat.

Lemma spent_trans q1 q2 q3 : spent q1 q2 → spent q2 q3 → spent q1 q3.
Proof using Type. unfold spent. lia. Qed.

Lemma delivered_spent q p : spent q (delivered q p).
Proof using Hhandler.
  pose proof (Hhandler p (clients q)) as Hh. unfold spent, load, delivered.
  destruct (handler p (clients q)) as [[[ret d] sends] c]. cbn in *. unfold sent_inside.
  rewrite length_app, length_map. lia.
Qed.

Lemma append_spent q sender flags data cb :
  wp (qemu_net_queue_append sender flags data cb) (λ _ q', clients q' = clients q ∧ load q' = S (load q)) q.
Proof using Type.
  split; [done|]. unfold load. cbn. rewrite length_app. cbn. lia.
Qed.

Lemma send_returns fuel flush q sender flags data cb :
  (∀ q, (load q < fuel)%nat → wp flush (λ _, spent q) q) → (load q < fuel)%nat →
  wp (send_with flush sender flags data cb) (λ _ q', (budget (clients q') ≤ budget (clients q))%nat ∧ (load q' ≤ S (load q))%nat) q.
Proof using Hhandler.
  intros Hf Hq. unfold send_with. apply wp_bind, wp_gets. cbn [id].
  destruct (delivering q).
  { eapply wp_mono; [apply append_spent|]. intros ? q' [-> ?]. lia. }
  apply wp_bind, wp_deliver. pose proof (delivered_spent q (packet sender flags data None)) as Hd.
  set (q1 := delivered _ _) in *. destruct (handler _ _) as [[[ret d] sends] c]. cbn [fst]. unfold spent in *.
  destruct (ret =? 0); apply wp_bind.
  - eapply wp_mono; [apply append_spent|]. intros ? q2 [E ?]. apply wp_ret. rewrite E. lia.
  - eapply wp_mono; [apply Hf; lia|]. intros ? q2 [? ?]. apply wp_ret. lia.
Qed.

Lemma callback_returns fuel flush n q cb sender ret :
  (∀ q, (load q < fuel)%nat → wp flush (λ _, spent q) q) → (load q < fuel)%nat → (budget (clients q) < n)%nat →
  wp (callback_with flush n cb sender ret) (λ _, spent q) q.
Proof using Hhandler Hcallback.
  intros Hf. revert q ret. induction n as [|n IH]; intros q ret Hq Hn; [lia|]. cbn [callback_with].
  apply wp_bind, wp_gets. cbn [id]. pose proof (Hcallback cb sender ret (clients q)) as Hc.
  destruct (callback cb sender ret (clients q)) as [o c]. apply wp_bind, wp_modify. cbn in Hc.
  set (q1 := update _ q). assert (load q1 = (length (packets q) + budget c)%nat) as E1 by done.
  assert (clients q1 = c) as E2 by done. unfold load in Hq.
  destruct o as [p|]; cbn in Hc; [|apply wp_ret; split; [rewrite E2; lia|rewrite E1; unfold load; lia]].
  apply wp_bind. eapply wp_mono; [apply (send_returns fuel); [done|lia]|].
  intros r q2 [Hb Hl]. rewrite E2 in Hb. eapply wp_mono; [apply IH; lia|].
  intros ? q3 [? ?]. unfold spent, load in *. lia.
Qed.

Lemma flush_returns fuel q : (load q < fuel)%nat → wp (qemu_net_queue_flush fuel) (λ _, spent q) q.
Proof using Hhandler Hcallback.
  revert q. induction fuel as [|fuel IH]; intros q Hq; [lia|]. cbn [qemu_net_queue_flush].
  apply wp_bind, wp_gets. cbn [id]. destruct (packets q) as [|p rest] eqn:Hp.
  { apply wp_ret. by split. }
  apply wp_bind, wp_modify, wp_bind, wp_deliver. set (q0 := update _ q).
  assert (S (load q0) = load q ∧ clients q0 = clients q) as [E0 Ec] by (unfold load; by rewrite Hp).
  pose proof (delivered_spent q0 p) as [Hb Hl]. set (q1 := delivered q0 p) in *.
  destruct (handler p (clients q0)) as [[[ret data] sends] c]. cbn [fst]. destruct (ret =? 0).
  { apply wp_modify. rewrite Ec in Hb. unfold spent, load in *. rewrite Ec in *. cbn [packets clients update length]. lia. }
  apply wp_bind, wp_modify. set (q2 := update _ q1).
  assert (load q2 = load q1 ∧ clients q2 = clients q1) as [E2 Ec2] by done.
  apply wp_bind, (wp_mono _ (λ _, spent q2)).
  - destruct (np_sent_cb p) as [cb|]; [|by apply wp_ret]. apply wp_bind, wp_modify. set (q3 := update _ q2).
    assert (load q3 = load q2 ∧ clients q3 = clients q2) as [E3 Ec3] by done.
    eapply wp_mono; [apply (callback_returns fuel); [done|lia|]|].
    + rewrite Ec3. unfold load in *. lia.
    + intros ? q4. unfold spent. by rewrite E3, Ec3.
  - intros ? q3 [H1 H2]. eapply wp_mono; [apply IH; lia|]. intros ? q4 [H3 H4].
    unfold spent. rewrite <- Ec, Ec2 in *. lia.
Qed.
End budget.

(** C32: flushing the queue, with handlers and sent callbacks that send packets through
    the same queue while they run. Whenever the flush returns, packets have entered the
    queue only at its tail and left it only at its head: the packets that left, followed
    by those that are queued now, are the packets that were queued before, followed by
    those that entered, in this order (seen through any view of packets that the
    handlers do not change, of the header fields or, when they leave the buffer alone,
    of everything); and the queue is empty or its first packet has just been refused. The
    flush does return if the number of packets that the clients still send in answer to
    deliveries and callbacks is bounded. *)
Theorem net_queue_flush_fifo {A} (K : NetPacket → A) q :
  (∀ p c, K (p <| np_data := (handler p c).1.1.2 |>) = K p) →
  (∀ fuel q', qemu_net_queue_flush fuel q = Ret () q' →
    (∃ evs, events q' = events q ++ evs ∧
      map K (packets q ++ entered evs) = map K (left_for_good evs ++ packets q')) ∧
    (packets q' = [] ∨ ∃ p data rest evs,
      packets q' = (p <| np_data := data |>) :: rest ∧ events q' = evs ++ [Ev_deliver p 0])) ∧
  (∀ budget : C → nat,
    (∀ p c, length (handler p c).1.2 + budget (handler p c).2 ≤ budget c)%nat →
    (∀ cb sender r c, length (option_list (callback cb sender r c).1) + budget (callback cb sender r c).2 ≤ budget c)%nat →
    ∃ q', qemu_net_queue_flush (S (length (packets q) + budget (clients q))) q = Ret () q').
Proof.
  intros HK. split.
  - intros fuel q' E. pose proof (flush_fifo K HK fuel q) as Hw. unfold wlp in Hw. by rewrite E in Hw.
  - intros budget Hh Hc.
    destruct (wp_unit _ _ _ (flush_returns budget Hh Hc _ q (Nat.lt_succ_diag_r _))) as (q'&E&_). by exists q'.
Qed.

(** Without a bound it need not return: a handler that answers every packet with
    another one keeps the flush busy for ever. *)
Lemma flush_echo_diverges fuel q :
  (∀ p c, (handler p c).1.1.1 ≠ 0 ∧ (handler p c).1.2 ≠ []) →
  packets q ≠ [] → Forall (λ p, np_sent_cb p = None) (packets q) → qemu_net_queue_flush fuel q = OutOfFuel.
Proof.
  intros Hh. revert q. induction fuel as [|fuel IH]; intros q Hq Hcb; [done|]. cbn [qemu_net_queue_flush].
  apply bind_outcome, wp_gets. cbn [id]. destruct (packets q) as [|p rest] eqn:Hp; [done|].
  apply Forall_cons_iff in Hcb as [Hp0 Hrest].
  apply bind_outcome, wp_modify, bind_outcome, wp_deliver. cbn [clients update].
  destruct (Hh p (clients q)) as [Hret Hsend]. unfold delivered. cbn [clients packets events update].
  destruct (handler p (clients q)) as [[[ret data] sends] c]. cbn [fst snd] in *. rewrite (proj2 (Z.eqb_neq ret 0) Hret), Hp0.
  apply bind_outcome, wp_modify, bind_outcome, wp_ret. apply IH; cbn.
  - destruct rest; [|done]. by destruct sends.
  - apply Forall_app. split; [done|]. apply Forall_map, Forall_forall. done.
Qed.

(** ** Single operations *)

(** A packet that is refused is queued at the tail, as the handler left it. *)
Lemma send_refused fuel sender flags data cb l c ev data' c' :
  handler (packet sender flags data None) c = (0, data', [], c') →
  qemu_net_queue_send fuel sender flags data cb (Queue l false c ev) =
    Ret 0 (Queue (l ++ [packet sender flags data' cb]) false c'
      (ev ++ [Ev_deliver (packet sender flags data None) 0; Ev_queue (packet sender flags data' cb)])).
Proof.
  intros E. unfold qemu_net_queue_send, send_with. apply bind_outcome, wp_gets. cbn [id delivering].
  apply bind_outcome, wp_deliver. unfold delivered. cbn [clients packets events]. rewrite E. cbn [fst Z.eqb].
  apply bind_outcome, wp_bind, wp_bind, wp_modify, wp_modify, wp_ret.
  unfold mret, M_ret, update. cbn. by rewrite app_nil_r, <- app_assoc.
Qed.

(** A flush that delivers one packet. *)
Lemma flush_one fuel p d c ev ret data c' :
  handler p c = (ret, data, [], c') → ret ≠ 0 → np_sent_cb p = None →
  qemu_net_queue_flush (S (S fuel)) (Queue [p] d c ev) = Ret () (Queue [] false c' (ev ++ [Ev_deliver p ret; Ev_take p])).
Proof.
  intros E Hr Hcb. cbn [qemu_net_queue_flush]. apply bind_outcome, wp_gets. cbn [id packets].
  apply bind_outcome, wp_modify, bind_outcome, wp_deliver. unfold delivered. cbn [clients packets events update].
  rewrite E. cbn [fst]. rewrite (proj2 (Z.eqb_neq ret 0) Hr), Hcb.
  apply bind_outcome, wp_modify, bind_outcome, wp_ret, bind_outcome, wp_gets.
  cbn. unfold mret, M_ret, update. cbn. by rewrite <- app_assoc.
Qed.

(** Sending while a delivery is in progress queues the packet at the tail
    without delivering it and without a callback; sending otherwise delivers it
    first, and queues it (with its callback) behind the waiting packets when it
    is refused. *)
Theorem net_queue_send_order fuel sender flags data cb l d c ev ret data' c' :
  handler (packet sender flags data None) c = (ret, data', [], c') →
  (d = true →
    qemu_net_queue_send fuel sender flags data cb (Queue l d c ev) =
      Ret (Z.of_nat (length data)) (Queue (l ++ [packet sender flags data None]) d c
        (ev ++ [Ev_queue (packet sender flags data None)]))) ∧
  (d = false → ret = 0 →
    qemu_net_queue_send fuel sender flags data cb (Queue l d c ev) =
      Ret 0 (Queue (l ++ [packet sender flags data' cb]) false c'
        (ev ++ [Ev_deliver (packet sender flags data None) 0; Ev_queue (packet sender flags data' cb)]))).
Proof.
  intros E. split.
  - intros ->. done.
  - intros -> ->. by apply send_refused.
Qed.

(** Purging removes exactly the packets of one sender and keeps the others
    in order; it runs no handler and no callback. *)
Theorem net_queue_purge_spec from l d c ev :
  ∃ l', qemu_net_queue_purge from (Queue l d c ev) = Ret () (Queue l' d c ev) ∧
    sublist l' l ∧ (∀ p, p ∈ l' ↔ p ∈ l ∧ np_sender p ≠ from).
Proof.
  eexists. split; [reflexivity|]. cbn. split.
  - apply sublist_filter.
  - intros p. rewrite list_elem_of_filter. naive_solver.
Qed.
End queue.
End NetQueue.
