(* ===== verification/Net.v ===== *)
(** * Network clients and VLANs ([net.c])

    A client is on the VLAN, or has a peer, or is not connected. Sending goes
    through the queue of the VLAN or of the peer; delivery calls the receive
    functions of the clients. What a client does with a frame is code of the
    client: its functions are the class [NetClients], on a state [U] of their
    own. All clients of a VLAN are given the same buffer, and a receive function may
    change it: [e1000_receive] moves the bytes in front of a VLAN tag that it takes
    out. The log records the frames handed to each client, as they were then. *)

From S2P Require Import Prelude Bytes Memory NetQueue.
Import NetQueue.

Module Net.

Abbreviation QEMU_NET_PACKET_FLAG_NONE := 0.
Abbreviation QEMU_NET_PACKET_FLAG_RAW := 1.

Record VLANClientState := {
  vc_id : Z;
  vc_on_vlan : bool;
  vc_peer : option Z;
  link_down : bool;
  receive_disabled : bool;
}.
#[export] Instance VLANClientState_eta : Eta VLANClientState := λ v,
  Build_VLANClientState (vc_id v) (vc_on_vlan v) (vc_peer v) (link_down v) (receive_disabled v).

(** The functions of [NetClientInfo]; [None] is a null pointer. A receive function
    gives its result, the buffer as it leaves it, the frames it sent meanwhile and the new
    state. [nc_sent] is the code of the sent callbacks: given the result of the
    delivery, or of the frame it sent last, the next frame it sends, if any. *)
Class NetClients (U : Type) := {
  nc_can_receive : Z → option (U → bool);
  nc_receive : Z → list Z → U → Z * list Z * list NetPacket * U;
  nc_receive_raw : Z → option (list Z → U → Z * list Z * list NetPacket * U);
  nc_receive_iov : Z → option (list (list Z) → U → Z * list (list Z) * list NetPacket * U);
  nc_sent : Z → Z → Z → U → option NetPacket * U;
}.

Record net (U : Type) := NetState {
  vlan_clients : list VLANClientState;
  non_vlan_clients : list VLANClientState;
  user : U;
  frames : list (Z * list Z);
  replies : list NetPacket;
}.
Arguments NetState {U} _ _ _ _ _.
Arguments vlan_clients {U} _.
Arguments non_vlan_clients {U} _.
Arguments user {U} _.
Arguments frames {U} _.
Arguments replies {U} _.
#[export] Instance net_eta U : Eta (net U) := λ n,
  NetState (vlan_clients n) (non_vlan_clients n) (user n) (frames n) (replies n).

Section net.
Context {U : Type} `{NetClients U}.

Definition disable (id : Z) (l : list VLANClientState) : list VLANClientState :=
  map (λ v, if vc_id v =? id then v <| receive_disabled := true |> else v) l.
Definition set_receive_disabled (id : Z) (n : net U) : net U :=
  n <| vlan_clients ::= disable id |> <| non_vlan_clients ::= disable id |>.

(** One of the receive functions is called. *)
Definition call_receive {V} (id : Z) (f : V → U → Z * V * list NetPacket * U) (buf : V) (data : list Z) (n : net U) :
    Z * V * list NetPacket * net U :=
  let '(len, buf, sends, u) := f buf (user n) in
  (len, buf, sends, n <| user := u |> <| frames ::= λ l, l ++ [(id, data)] |>).

(** [receive_raw] for raw packets when there is one, [receive] otherwise. *)
Definition receive_fn (id flags : Z) : list Z → U → Z * list Z * list NetPacket * U :=
  match nc_receive_raw id with
  | Some raw => if has_bits flags QEMU_NET_PACKET_FLAG_RAW then raw else nc_receive id
  | None => nc_receive id
  end.

(** A result of 0 disables the client. *)
Definition receive_frame (id flags : Z) (data : list Z) (n : net U) :
    Z * list Z * list NetPacket * net U :=
  let '(len, data, sends, n) := call_receive id (receive_fn id flags) data data n in
  (len, data, sends, if len =? 0 then set_receive_disabled id n else n).

Definition qemu_can_send_packet (peers : Z → option VLANClientState) (sender : VLANClientState)
    (n : net U) : Z :=
  let can v := match nc_can_receive (vc_id v) with None => true | Some f => f (user n) end in
  match vc_peer sender ≫= peers with
  | Some p => if receive_disabled p then 0 else if can p then 1 else 0
  | None =>
      if negb (vc_on_vlan sender) then 1 else
      if existsb (λ v, negb (vc_id v =? vc_id sender) && can v) (vlan_clients n) then 1 else 0
  end.

(** What a client with a peer sends while it receives does not go through the queue
    that delivers to it, but through the one of its peer: it is put aside. *)
Definition reply {V} (r : Z * V * list NetPacket * net U) : Z * V * list NetPacket * net U :=
  let '(len, buf, sends, n) := r in (len, buf, [], n <| replies ::= λ l, l ++ sends |>).

(** Delivery to the one client [vc] of a peer's queue. *)
Definition qemu_deliver_packet (vc : VLANClientState) (p : NetPacket) (n : net U) :
    Z * list Z * list NetPacket * net U :=
  if link_down vc then (np_size p, np_data p, [], n)
  else if receive_disabled vc then (0, np_data p, [], n)
  else reply (receive_frame (vc_id vc) (np_flags p) (np_data p) n).

(** The loop over the clients of the VLAN; they share [buf]. *)
Fixpoint vlan_deliver_loop (sender flags : Z) (buf : list Z) (vcs : list VLANClientState)
    (ret : Z) (sends : list NetPacket) (n : net U) : Z * list Z * list NetPacket * net U :=
  match vcs with
  | [] => (ret, buf, sends, n)
  | vc :: vcs =>
      if vc_id vc =? sender then vlan_deliver_loop sender flags buf vcs ret sends n
      else if link_down vc then
        vlan_deliver_loop sender flags buf vcs (Z.of_nat (length buf)) sends n
      else if receive_disabled vc then vlan_deliver_loop sender flags buf vcs 0 sends n
      else
        let '(len, buf, s, n) := receive_frame (vc_id vc) flags buf n in
        vlan_deliver_loop sender flags buf vcs (if ret >=? 0 then ret else len) (sends ++ s) n
  end.

Definition qemu_vlan_deliver_packet (p : NetPacket) (n : net U) : Z * list Z * list NetPacket * net U :=
  vlan_deliver_loop (np_sender p) (np_flags p) (np_data p) (vlan_clients n) (-1) [] n.

(** *** Vectors *)

Definition calc_iov_length (iov : list (list Z)) : Z :=
  foldl (λ o v, o + Z.of_nat (length v)) 0 iov.

(** The buffer of 4096 bytes; what does not fit is dropped. *)
Definition vc_sendv_buffer (iov : list (list Z)) : list Z :=
  foldl (λ b v, b ++ take (Z.to_nat (Z.min (4096 - Z.of_nat (length b)) (Z.of_nat (length v)))) v) [] iov.
(** The client works on that buffer, the vector stays as it is. *)
Definition vc_sendv_compat (id : Z) (iov : list (list Z)) (n : net U) : Z * list (list Z) * list NetPacket * net U :=
  let buffer := vc_sendv_buffer iov in
  let '(len, _, sends, n) := call_receive id (nc_receive id) buffer buffer n in
  (len, iov, sends, n).

Definition receive_iov (id : Z) (iov : list (list Z)) (n : net U) : Z * list (list Z) * list NetPacket * net U :=
  match nc_receive_iov id with
  | Some f => call_receive id f iov (concat iov) n
  | None => vc_sendv_compat id iov n
  end.

Definition qemu_deliver_packet_iov (vc : VLANClientState) (sender flags : Z) (iov : list (list Z))
    (n : net U) : Z * list (list Z) * list NetPacket * net U :=
  if link_down vc then (calc_iov_length iov, iov, [], n) else reply (receive_iov (vc_id vc) iov n).

Fixpoint vlan_deliver_iov_loop (sender : Z) (iov : list (list Z)) (vcs : list VLANClientState)
    (ret : Z) (sends : list NetPacket) (n : net U) : Z * list (list Z) * list NetPacket * net U :=
  match vcs with
  | [] => (ret, iov, sends, n)
  | vc :: vcs =>
      if vc_id vc =? sender then vlan_deliver_iov_loop sender iov vcs ret sends n
      else if link_down vc then vlan_deliver_iov_loop sender iov vcs (calc_iov_length iov) sends n
      else
        let '(len, iov, s, n) := receive_iov (vc_id vc) iov n in
        vlan_deliver_iov_loop sender iov vcs (if ret >=? 0 then ret else len) (sends ++ s) n
  end.

(** Raw packets are never sent as vectors; the code asserts it. *)
Definition qemu_vlan_deliver_packet_iov (sender flags : Z) (iov : list (list Z)) (n : net U) :
    Z * list (list Z) * list NetPacket * net U :=
  vlan_deliver_iov_loop sender iov (vlan_clients n) (-1) [] n.

(** *** Sending *)

(** All clients, and the queues: [None] is the queue of the VLAN, [Some id] the
    queue that delivers to the client [id]. *)
Record netsys := NetSys {
  ns_net : net U;
  ns_queues : gmap (option Z) (list NetPacket * bool);
  ns_events : list event;
}.
#[export] Instance netsys_eta : Eta netsys := λ s,
  NetSys (ns_net s) (ns_queues s) (ns_events s).

Definition find_client (id : Z) (n : net U) : option VLANClientState :=
  List.find (λ v, vc_id v =? id) (vlan_clients n ++ non_vlan_clients n).

(** The functions a queue was created with. The client a queue delivers to
    exists as long as the queue does. *)
Definition queue_deliver (k : option Z) (p : NetPacket) (n : net U) : Z * list Z * list NetPacket * net U :=
  match k with
  | None => qemu_vlan_deliver_packet p n
  | Some id =>
      match find_client id n with
      | Some vc => qemu_deliver_packet vc p n
      | None => (-1, np_data p, [], n)
      end
  end.
Definition queue_deliver_iov (k : option Z) (sender flags : Z) (iov : list (list Z)) (n : net U) :
    Z * list (list Z) * list NetPacket * net U :=
  match k with
  | None => qemu_vlan_deliver_packet_iov sender flags iov n
  | Some id =>
      match find_client id n with
      | Some vc => qemu_deliver_packet_iov vc sender flags iov n
      | None => (-1, iov, [], n)
      end
  end.

(** The sent callback of a packet is code of its sender, which sends through the queue
    the packet was in. *)
Definition sent_callback (cb sender ret : Z) (n : net U) : option NetPacket * net U :=
  let '(o, u) := nc_sent cb sender ret (user n) in (o, n <| user := u |>).

(** An operation on one of the queues. *)
Definition with_queue {A} (k : option Z) (m : M (NetQueue (net U)) A) : M netsys A := λ s,
  let '(pk, dl) := default ([], false) (ns_queues s !! k) in
  match m (Queue pk dl (ns_net s) (ns_events s)) with
  | Ret a q => Ret a (NetSys (clients q) (<[k := (packets q, delivering q)]> (ns_queues s)) (events q))
  | UB f => UB f
  | OutOfFuel => OutOfFuel
  end.

Definition connected (vc : VLANClientState) : bool :=
  match vc_peer vc with Some _ => true | None => vc_on_vlan vc end.

Definition qemu_purge_queued_packets (vc : VLANClientState) : M netsys unit :=
  if negb (connected vc) then mret () else
  with_queue (vc_peer vc) (qemu_net_queue_purge (vc_id vc)).

Definition enable (id : Z) (l : list VLANClientState) : list VLANClientState :=
  map (λ v, if vc_id v =? id then v <| receive_disabled := false |> else v) l.

(** The queue that delivers to [vc] is flushed. *)
Definition qemu_flush_queued_packets (fuel : nat) (vc : VLANClientState) : M netsys unit :=
  modify (λ s, s <| ns_net ::= λ n, n <| vlan_clients ::= enable (vc_id vc) |>
                                      <| non_vlan_clients ::= enable (vc_id vc) |> |>);;
  let k := if vc_on_vlan vc then None else Some (vc_id vc) in
  with_queue k (qemu_net_queue_flush (queue_deliver k) sent_callback fuel).

Definition qemu_send_packet_async_with_flags (fuel : nat) (sender : VLANClientState) (flags : Z)
    (buf : list Z) (sent_cb : option Z) : M netsys Z :=
  if link_down sender || negb (connected sender) then mret (Z.of_nat (length buf)) else
  let k := vc_peer sender in
  with_queue k (qemu_net_queue_send (queue_deliver k) sent_callback fuel (vc_id sender) flags buf sent_cb).

Definition qemu_send_packet_async (fuel : nat) (sender : VLANClientState) (buf : list Z)
    (sent_cb : option Z) : M netsys Z :=
  qemu_send_packet_async_with_flags fuel sender QEMU_NET_PACKET_FLAG_NONE buf sent_cb.
Definition qemu_send_packet (fuel : nat) (vc : VLANClientState) (buf : list Z) : M netsys unit :=
  _ ← qemu_send_packet_async fuel vc buf None; mret ().
Definition qemu_send_packet_raw (fuel : nat) (vc : VLANClientState) (buf : list Z) : M netsys Z :=
  qemu_send_packet_async_with_flags fuel vc QEMU_NET_PACKET_FLAG_RAW buf None.

Definition qemu_sendv_packet_async (fuel : nat) (sender : VLANClientState) (iov : list (list Z))
    (sent_cb : option Z) : M netsys Z :=
  if link_down sender || negb (connected sender) then mret (calc_iov_length iov) else
  let k := vc_peer sender in
  with_queue k (qemu_net_queue_send_iov (queue_deliver k) (queue_deliver_iov k) sent_callback fuel (vc_id sender)
    QEMU_NET_PACKET_FLAG_NONE iov sent_cb).
Definition qemu_sendv_packet (fuel : nat) (vc : VLANClientState) (iov : list (list Z)) : M netsys Z :=
  qemu_sendv_packet_async fuel vc iov None.

(** ** Properties *)

(** The clients a frame of [sender] is handed to. *)
Definition takes_frame (sender : Z) (vc : VLANClientState) : bool :=
  negb (vc_id vc =? sender) && negb (link_down vc) && negb (receive_disabled vc).

(** The buffer as the receive function of a client leaves it. *)
Definition left_by (id flags : Z) (buf : list Z) (u : U) : list Z := (receive_fn id flags buf u).1.1.2.

(** [passes flags b l b']: a buffer that starts as [b] is handed to the clients in [l], to
    each as the one before left it, and is [b'] in the end. *)
Inductive passes (flags : Z) : list Z → list (Z * list Z) → list Z → Prop :=
| pass_end b : passes flags b [] b
| pass_on b id u l b' : passes flags (left_by id flags b u) l b' → passes flags b ((id, b) :: l) b'.

Lemma passes_same flags b l b' :
  (∀ id u, left_by id flags b u = b) → passes flags b l b' → b' = b ∧ Forall (λ e, e.2 = b) l.
Proof.
  intros Hs Hp. induction Hp as [b|b id u l b' Hp IH]; [done|]. rewrite (Hs id u) in *.
  destruct (IH Hs) as [-> Hl]. split; [done|]. by constructor.
Qed.

Lemma receive_frame_log id flags data (n : net U) :
  ∃ len sends n', receive_frame id flags data n = (len, left_by id flags data (user n), sends, n') ∧
    frames n' = frames n ++ [(id, data)].
Proof.
  unfold receive_frame, call_receive, left_by.
  destruct (receive_fn id flags data (user n)) as [[[len d] sends] u].
  eexists _, _, _. split; [reflexivity|]. by case_match.
Qed.

Lemma vlan_deliver_loop_log sender flags buf vcs ret sends (n : net U) :
  ∃ l, let r := vlan_deliver_loop sender flags buf vcs ret sends n in
    frames r.2 = frames n ++ l ∧ l.*1 = map vc_id (List.filter (takes_frame sender) vcs) ∧
    passes flags buf l r.1.1.2.
Proof.
  revert buf ret sends n. induction vcs as [|vc vcs IH]; intros buf ret sends n; cbn [vlan_deliver_loop List.filter].
  { exists []. rewrite app_nil_r. split_and!; [done|done|constructor]. }
  unfold takes_frame at 1. destruct (vc_id vc =? sender); [apply IH|].
  destruct (link_down vc); [apply IH|]. destruct (receive_disabled vc); [apply IH|]. cbn [negb andb].
  destruct (receive_frame_log (vc_id vc) flags buf n) as (len&s&n'&E&Hl). rewrite E.
  destruct (IH (left_by (vc_id vc) flags buf (user n)) (if ret >=? 0 then ret else len) (sends ++ s) n')
    as (l&Hf&Hi&Hp). exists ((vc_id vc, buf) :: l). cbv zeta in *. split_and!.
  - by rewrite Hf, Hl, <- app_assoc.
  - cbn. by rewrite Hi.
  - by econstructor.
Qed.

(** C33: one delivery of a packet on the VLAN. The packet is handed once to every client
    other than the sender whose link is up and which is not disabled, in the order of
    the VLAN, and to no other client. The clients share the buffer: the first is given
    the packet's data, each of the others what the clients before it left in the
    buffer, and what is left in the end is what a later delivery of the same packet starts
    with; when no receive function changes the buffer, all are given the packet's data. *)
Theorem vlan_delivers_to_all p (n : net U) :
  ∃ ret data sends n' l, qemu_vlan_deliver_packet p n = (ret, data, sends, n') ∧
    frames n' = frames n ++ l ∧
    l.*1 = map vc_id (List.filter (takes_frame (np_sender p)) (vlan_clients n)) ∧
    passes (np_flags p) (np_data p) l data ∧
    ((∀ id u, left_by id (np_flags p) (np_data p) u = np_data p) →
      data = np_data p ∧ l = map (λ vc, (vc_id vc, np_data p)) (List.filter (takes_frame (np_sender p)) (vlan_clients n))).
Proof.
  destruct (vlan_deliver_loop_log (np_sender p) (np_flags p) (np_data p) (vlan_clients n) (-1) [] n) as (l&Hf&Hi&Hp).
  unfold qemu_vlan_deliver_packet. destruct (vlan_deliver_loop _ _ _ _ _ _ _) as [[[ret data] sends] n'] eqn:E. cbn [fst snd] in *.
  exists ret, data, sends, n', l. split_and!; try done. intros Hs. destruct (passes_same _ _ _ _ Hs Hp) as [-> Hl].
  split; [done|]. clear - Hi Hl. revert l Hi Hl. induction (List.filter _ _) as [|vc vcs IH]; intros [|[id b] l] Hi Hl; try done.
  cbn in *. injection Hi as -> Hi. apply Forall_cons_iff in Hl as [Hb Hl]. cbn in Hb. subst b. f_equal. auto.
Qed.

Lemma calc_iov_length_spec iov : calc_iov_length iov = Z.of_nat (length (concat iov)).
Proof.
  unfold calc_iov_length. change (Z.of_nat (length (concat iov))) with (0 + Z.of_nat (length (concat iov))).
  generalize 0. induction iov as [|v iov IH]; intros o; cbn [foldl concat]; [cbn; lia|].
  rewrite IH, length_app. lia.
Qed.

(** A client without a vector function is given the concatenation of the
    vector cut off after 4096 bytes, while the length reported for a client
    whose link is down is that of the whole vector. *)
Theorem sendv_truncates iov :
  vc_sendv_buffer iov = take 4096 (concat iov) ∧
  calc_iov_length iov = Z.of_nat (length (concat iov)).
Proof.
  split; [|apply calc_iov_length_spec]. unfold vc_sendv_buffer.
  assert (∀ b, (length b ≤ 4096)%nat →
    foldl (λ b v, b ++ take (Z.to_nat (Z.min (4096 - Z.of_nat (length b)) (Z.of_nat (length v)))) v) b iov =
    b ++ take (4096 - length b) (concat iov)) as Hg; [|by rewrite Hg by (cbn; lia)].
  induction iov as [|v iov IH]; intros b Hb; cbn [foldl concat]; [by rewrite take_nil, app_nil_r|].
  rewrite IH by (rewrite length_app, length_take; lia). rewrite <- app_assoc. f_equal.
  rewrite length_app, length_take, firstn_app. f_equal.
  - destruct (decide (length v ≤ 4096 - length b)%nat); [rewrite !take_ge by lia; done|].
    f_equal. lia.
  - f_equal. lia.
Qed.

Lemma with_queue_ret {A} k (m : M (NetQueue (net U)) A) n qs ev pk dl a q :
  default ([], false) (qs !! k) = (pk, dl) → m (Queue pk dl n ev) = Ret a q →
  with_queue k m (NetSys n qs ev) =
    Ret a (NetSys (clients q) (<[k := (packets q, delivering q)]> qs) (events q)).
Proof. intros E Em. unfold with_queue. cbn. by rewrite E, Em. Qed.

(** A client on the VLAN with its link up. *)
Definition vlan_client (id : Z) (disabled : bool) : VLANClientState :=
  {| vc_id := id; vc_on_vlan := true; vc_peer := None; link_down := false; receive_disabled := disabled |}.

Lemma receive_frame_plain id data len u (n : net U) :
  nc_receive id data (user n) = (len, data, [], u) → len ≠ 0 → user n = u →
  receive_frame id QEMU_NET_PACKET_FLAG_NONE data n =
    (len, data, [], n <| frames ::= λ l, l ++ [(id, data)] |>).
Proof.
  intros E Hl Hu. unfold receive_frame, call_receive.
  assert (receive_fn id QEMU_NET_PACKET_FLAG_NONE = nc_receive id) as -> by (unfold receive_fn; by destruct (nc_receive_raw id)).
  rewrite E. subst u. replace (len =? 0) with false by lia. by destruct n.
Qed.

(** A frame sent while a later client of the VLAN is disabled is handed to the
    earlier clients, and then queued; when the disabled client is enabled again
    the queue is flushed and the earlier clients get the same frame a second
    time. *)
Theorem vlan_duplicates_frames s a b data la lb u ev fuel :
  s ≠ a → s ≠ b → a ≠ b → 0 < la → 0 < lb → (2 ≤ fuel)%nat →
  nc_receive a data u = (la, data, [], u) → nc_receive b data u = (lb, data, [], u) →
  let vlan dis := [vlan_client s false; vlan_client a false; vlan_client b dis] in
  ∃ q1 q2 ev1 ev2,
    qemu_send_packet fuel (vlan_client s false) data (NetSys (NetState (vlan true) [] u [] []) ∅ ev) =
      Ret () (NetSys (NetState (vlan true) [] u [(a, data)] []) q1 ev1) ∧
    qemu_flush_queued_packets fuel (vlan_client b true)
      (NetSys (NetState (vlan true) [] u [(a, data)] []) q1 ev1) =
      Ret () (NetSys (NetState (vlan false) [] u [(a, data); (a, data); (b, data)] []) q2 ev2).
Proof.
  intros Hsa Hsb Hab Hla Hlb Hf Ha Hb vlan. destruct fuel as [|[|fuel]]; try lia.
  assert (∀ n dis, vlan_clients n = vlan dis → user n = u → ∃ r,
    qemu_vlan_deliver_packet (packet s 0 data None) n = (r, data, [], n <| frames ::= λ l,
      l ++ (a, data) :: if dis then [] else [(b, data)] |>) ∧ (dis = true → r = 0) ∧ (dis = false → r ≠ 0)) as Hd.
  { intros n dis Hv Hu. unfold qemu_vlan_deliver_packet. rewrite Hv. unfold vlan.
    cbn [vlan_deliver_loop vlan_client vc_id link_down receive_disabled packet np_sender np_flags np_data].
    rewrite Z.eqb_refl. replace (a =? s) with false by lia. replace (b =? s) with false by lia.
    erewrite (receive_frame_plain a) by (eauto; rewrite ?Hu; eauto; lia). destruct dis; [by eauto|].
    erewrite (receive_frame_plain b) by (cbn; rewrite ?Hu; eauto; lia).
    replace (-1 >=? 0) with false by lia. replace (la >=? 0) with true by lia.
    exists la. split; [|lia]. destruct n. unfold update. cbn. by rewrite <- app_assoc. }
  destruct (Hd (NetState (vlan true) [] u [] []) true eq_refl eq_refl) as (r1&E1&R1&_).
  destruct (Hd (NetState (vlan false) [] u [(a, data)] []) false eq_refl eq_refl) as (r2&E2&_&R2).
  rewrite R1 in E1 by done. eexists _, _, _, _. split.
  - unfold qemu_send_packet, qemu_send_packet_async, qemu_send_packet_async_with_flags.
    unfold mbind, M_bind. cbn [vlan_client link_down connected vc_peer vc_on_vlan orb negb vc_id].
    erewrite with_queue_ret; [|by rewrite lookup_empty|by eapply send_refused, E1]. reflexivity.
  - assert (enable b (vlan true) = vlan false) as Hen.
    { cbn. replace (s =? b) with false by lia. replace (a =? b) with false by lia. by rewrite Z.eqb_refl. }
    unfold qemu_flush_queued_packets, mbind, M_bind, modify, update.
    cbn [ns_net ns_queues ns_events vlan_clients non_vlan_clients user frames replies vlan_client vc_id vc_on_vlan].
    rewrite Hen. cbn [enable map].
    erewrite with_queue_ret; [|by rewrite lookup_insert_eq|].
    2: { apply (flush_one _ _ _ _ _ _ _ r2 data); [exact E2|by apply R2|done]. }
    reflexivity.
Qed.
End net.
End Net.
