(* ===== verification/SaveVm.v ===== *)
(** * Buffered migration files ([savevm.c])

    [QEMUFile] buffers the bytes of a saved machine in front of a backend. The
    backend (a file, a socket, a block device) is code of the host, so a file
    carries its two functions; what they promise is a class, and the file is
    shown to be a plain byte stream on top of it. *)

From S2P Require Import Prelude Bytes Memory.

Definition IO_BUF_SIZE : Z := 32768.
Definition EAGAIN : Z := 11.

(** [buf_offset] is the start of the buffer when writing and its end when
    reading. The backend's [get_buffer] gives a negative error or the bytes. *)
Record QEMUFile (B : Type) := File {
  put_buffer : option (list Z → Z → B → Z * B);
  get_buffer : option (Z → Z → B → (Z + list Z) * B);
  opaque : B;
  is_write : bool;
  buf_offset : Z;
  buf_index : Z;
  buf_size : Z;
  buf : list Z;
  has_error : bool;
}.
Arguments File {B} _ _ _ _ _ _ _ _ _.
Arguments put_buffer {B} _.
Arguments get_buffer {B} _.
Arguments opaque {B} _.
Arguments is_write {B} _.
Arguments buf_offset {B} _.
Arguments buf_index {B} _.
Arguments buf_size {B} _.
Arguments buf {B} _.
Arguments has_error {B} _.
#[export] Instance QEMUFile_eta B : Eta (QEMUFile B) := λ f,
  File (put_buffer f) (get_buffer f) (opaque f) (is_write f) (buf_offset f) (buf_index f)
    (buf_size f) (buf f) (has_error f).

Section file.
Context {B : Type}.
Abbreviation FM := (M (QEMUFile B)).

Definition qemu_fopen_ops (b : B) (put : option (list Z → Z → B → Z * B))
    (get : option (Z → Z → B → (Z + list Z) * B)) : QEMUFile B :=
  File put get b false 0 0 0 (replicate (Z.to_nat IO_BUF_SIZE) 0) false.

Definition qemu_file_has_error : FM bool := gets has_error.
Definition qemu_file_set_error : FM unit := modify (λ f, f <| has_error := true |>).

Definition qemu_fflush : FM unit :=
  f ← gets id;
  match put_buffer f with
  | None => mret ()
  | Some put =>
      if is_write f && (buf_index f >? 0) then
        let '(len, b) := put (take (Z.to_nat (buf_index f)) (buf f)) (buf_offset f) (opaque f) in
        modify (λ f, f <| opaque := b |>);;
        (if len >? 0 then modify (λ f, f <| buf_offset ::= λ o, o + buf_index f |>)
         else modify (λ f, f <| has_error := true |>));;
        modify (λ f, f <| buf_index := 0 |>)
      else mret ()
  end.

Definition qemu_fill_buffer : FM unit :=
  f ← gets id;
  match get_buffer f with
  | None => mret ()
  | Some get =>
      if is_write f then fail Aborted else
      let '(r, b) := get (buf_offset f) IO_BUF_SIZE (opaque f) in
      modify (λ f, f <| opaque := b |>);;
      match r with
      | inr ((_ :: _) as bs) =>
          let len := Z.of_nat (length bs) in
          d ← oob (store (buf f) 0 bs);
          modify (λ f, f <| buf := d |> <| buf_index := 0 |> <| buf_size := len |>
                         <| buf_offset ::= λ o, o + len |>)
      | inr [] => modify (λ f, f <| has_error := true |>)
      | inl e => if negb (e =? - EAGAIN) then modify (λ f, f <| has_error := true |>) else mret ()
      end
  end.

(** The check in front of both writing functions. *)
Definition abort_if_reading : FM unit :=
  f ← gets id;
  if negb (has_error f) && negb (is_write f) && (buf_index f >? 0) then fail Aborted else mret ().

(** Both writing functions: the bytes are copied into the buffer, which is
    flushed when it is full. *)
Definition put_block (bs : list Z) : FM unit :=
  f ← gets id;
  d ← oob (store (buf f) (Z.to_nat (buf_index f)) bs);
  modify (λ f, f <| buf := d |> <| is_write := true |>
                 <| buf_index ::= λ i, i + Z.of_nat (length bs) |>);;
  i ← gets buf_index;
  if i >=? IO_BUF_SIZE then qemu_fflush else mret ().

(** The loop of [qemu_put_buffer]. An iteration that copies nothing repeats
    for ever; every other one copies at least one byte. *)
Fixpoint put_loop (fuel : nat) (bs : list Z) : FM unit :=
  match fuel with
  | O => no_fuel
  | S fuel =>
      f ← gets id;
      if negb (has_error f) && (Z.of_nat (length bs) >? 0) then
        let l := IO_BUF_SIZE - buf_index f in
        let l := if l >? Z.of_nat (length bs) then Z.of_nat (length bs) else l in
        put_block (take (Z.to_nat l) bs);;
        put_loop fuel (drop (Z.to_nat l) bs)
      else mret ()
  end.

Definition qemu_put_buffer (bs : list Z) : FM unit :=
  abort_if_reading;; put_loop (S (length bs)) bs.

Definition qemu_put_byte (v : Z) : FM unit :=
  abort_if_reading;; put_block [u8 v].

(** The loop of [qemu_get_buffer]: the bytes copied so far are [acc]. *)
Fixpoint get_loop (fuel : nat) (size : Z) (acc : list Z) : FM (list Z) :=
  match fuel with
  | O => no_fuel
  | S fuel =>
      if size >? 0 then
        f ← gets id;
        (if buf_size f - buf_index f =? 0 then qemu_fill_buffer else mret ());;
        f ← gets id;
        let l := buf_size f - buf_index f in
        if l =? 0 then mret acc else
        let l := if l >? size then size else l in
        bs ← oob (load (buf f) (Z.to_nat (buf_index f)) (Z.to_nat l));
        modify (λ f, f <| buf_index ::= λ i, i + l |>);;
        get_loop fuel (size - l) (acc ++ bs)
      else mret acc
  end.

(** The bytes read; the C function returns their number. *)
Definition qemu_get_buffer (size1 : Z) : FM (list Z) :=
  f ← gets id;
  if is_write f then fail Aborted else get_loop (S (Z.to_nat size1)) size1 [].

Definition qemu_peek_byte : FM Z :=
  f ← gets id;
  if is_write f then fail Aborted else
  (if buf_index f >=? buf_size f then qemu_fill_buffer else mret ());;
  f ← gets id;
  if buf_index f >=? buf_size f then mret 0
  else oob (buf f !! Z.to_nat (buf_index f)).

Definition qemu_get_byte : FM Z :=
  f ← gets id;
  if is_write f then fail Aborted else
  (if buf_index f >=? buf_size f then qemu_fill_buffer else mret ());;
  f ← gets id;
  if buf_index f >=? buf_size f then mret 0
  else
    b ← oob (buf f !! Z.to_nat (buf_index f));
    modify (λ f, f <| buf_index ::= λ i, i + 1 |>);;
    mret b.

Definition qemu_ftell (f : QEMUFile B) : Z := buf_offset f - buf_size f + buf_index f.

Definition qemu_put_be16 (v : Z) : FM unit :=
  qemu_put_byte (v >> 8);; qemu_put_byte v.
Definition qemu_put_be32 (v : Z) : FM unit :=
  qemu_put_byte (v >> 24);; qemu_put_byte (v >> 16);; qemu_put_byte (v >> 8);; qemu_put_byte v.
Definition qemu_put_be64 (v : Z) : FM unit :=
  qemu_put_be32 (v >> 32);; qemu_put_be32 (u32 v).

Definition qemu_get_be16 : FM Z :=
  a ← qemu_get_byte; b ← qemu_get_byte; mret ((a << 8) .| b).
Definition qemu_get_be32 : FM Z :=
  a ← qemu_get_byte; b ← qemu_get_byte; c ← qemu_get_byte; d ← qemu_get_byte;
  mret ((a << 24) .| (b << 16) .| (c << 8) .| d).
Definition qemu_get_be64 : FM Z :=
  a ← qemu_get_be32; b ← qemu_get_be32; mret ((a << 32) .| b).
End file.

(** ** The backend's promise

    A reliable sequential store: a write at the end appends, a read before the
    end gives some of the next bytes. *)

Class ByteStore (B : Type) := {
  bs_content : B → list Z;
  bs_put : list Z → Z → B → Z * B;
  bs_get : Z → Z → B → (Z + list Z) * B;
  bs_put_append bs b :
    bs ≠ [] → ∃ b', bs_put bs (Z.of_nat (length (bs_content b))) b = (Z.of_nat (length bs), b') ∧
      bs_content b' = bs_content b ++ bs;
  bs_get_next pos n b :
    0 ≤ pos < Z.of_nat (length (bs_content b)) → 0 < n →
    ∃ bs b', bs_get pos n b = (inr bs, b') ∧ bs ≠ [] ∧ Z.of_nat (length bs) ≤ n ∧
      bs_content b' = bs_content b ∧
      ∃ rest, drop (Z.to_nat pos) (bs_content b) = bs ++ rest;
}.

Section stream.
Context {B : Type} `{ByteStore B}.
Implicit Types f : QEMUFile B.

(** *** Writing *)

(** What was written: the backend's content and the buffer. *)
Definition written f : list Z := bs_content (opaque f) ++ take (Z.to_nat (buf_index f)) (buf f).

Record write_ok f : Prop := {
  wo_put : put_buffer f = Some bs_put;
  wo_error : has_error f = false;
  wo_mode : is_write f = false → buf_index f = 0;
  wo_index : 0 ≤ buf_index f < IO_BUF_SIZE;
  wo_buf : length (buf f) = Z.to_nat IO_BUF_SIZE;
  wo_offset : buf_offset f = Z.of_nat (length (bs_content (opaque f)));
}.

Lemma fopen_write_ok b get :
  bs_content b = [] → let f := qemu_fopen_ops b (Some bs_put) get in write_ok f ∧ written f = [].
Proof.
  intros Hb. cbv zeta. split; [split; cbn [qemu_fopen_ops put_buffer has_error is_write buf_index
    buf buf_offset opaque]; try done|].
  - by rewrite Hb.
  - unfold written. cbn [qemu_fopen_ops opaque buf_index buf]. by rewrite Hb.
Qed.

(** A full buffer, or one that is flushed early. *)
Lemma qemu_fflush_wp f :
  put_buffer f = Some bs_put → is_write f = true → has_error f = false →
  0 < buf_index f ≤ IO_BUF_SIZE → length (buf f) = Z.to_nat IO_BUF_SIZE →
  buf_offset f = Z.of_nat (length (bs_content (opaque f))) →
  wp qemu_fflush (λ _ f', write_ok f' ∧ written f' = written f ∧
    bs_content (opaque f') = written f) f.
Proof.
  intros Hp Hw He Hi Hb Ho. unfold qemu_fflush. apply wp_bind, wp_gets. cbn [id].
  rewrite Hp, Hw. replace (buf_index f >? 0) with true by lia. cbn [andb].
  set (l := take (Z.to_nat (buf_index f)) (buf f)).
  assert (Z.of_nat (length l) = buf_index f) as Hl by (unfold l; rewrite length_take; lia).
  destruct (bs_put_append l (opaque f)) as (b'&Eput&Hc).
  { intros E. rewrite E in Hl. cbn in Hl. lia. }
  rewrite Ho, Eput, Hl. apply wp_bind, wp_modify.
  replace (buf_index f >? 0) with true by lia. apply wp_bind, wp_modify, wp_modify.
  unfold written. cbn. fold l. rewrite Hc, app_nil_r. split_and!; try done.
  split; cbn; try done. rewrite Ho, Hc, length_app. lia.
Qed.

(** Appending to the buffer, then flushing it when it is full. *)
Lemma put_block_wp f bs :
  write_ok f → bs ≠ [] → buf_index f + Z.of_nat (length bs) ≤ IO_BUF_SIZE →
  wp (put_block bs) (λ _ f', write_ok f' ∧ written f' = written f ++ bs) f.
Proof.
  intros [Hp He Hm Hi Hb Ho] Hne Hl.
  assert (0 < Z.of_nat (length bs)) by (destruct bs; [done|cbn; lia]).
  unfold put_block. apply wp_bind, wp_gets. cbn [id].
  rewrite store_in by lia. apply wp_bind, wp_ret, wp_bind, wp_modify, wp_bind, wp_gets.
  set (d := take _ (buf f) ++ bs ++ _). set (f1 := update (get := buf_index) _ _).
  assert (length d = Z.to_nat IO_BUF_SIZE) as Hd.
  { unfold d. rewrite !length_app, length_take, length_drop. lia. }
  assert (written f1 = written f ++ bs) as Hw.
  { unfold written, f1, d. cbn. rewrite <- app_assoc. f_equal.
    rewrite app_assoc, take_app_length'; [done|].
    rewrite length_app, length_take. lia. }
  cbn. case_match eqn:E.
  - eapply wp_mono; [apply qemu_fflush_wp; try done; cbn; lia|].
    intros _ f' (?&Hw'&_). by rewrite Hw', Hw.
  - apply wp_ret. split; [|done]. split; try done. cbn. lia.
Qed.

Lemma abort_if_reading_wp f (Q : unit → QEMUFile B → Prop) :
  write_ok f → Q () f → wp abort_if_reading Q f.
Proof.
  intros [_ _ Hm _ _ _] HQ. unfold abort_if_reading. apply wp_bind, wp_gets. cbn [id].
  destruct (is_write f); [by rewrite andb_false_r; apply wp_ret|].
  rewrite Hm by done. rewrite andb_false_r. by apply wp_ret.
Qed.

Lemma qemu_put_byte_wp f v :
  write_ok f → wp (qemu_put_byte v) (λ _ f', write_ok f' ∧ written f' = written f ++ [u8 v]) f.
Proof.
  intros Hf. unfold qemu_put_byte. apply wp_bind, abort_if_reading_wp; [done|].
  apply put_block_wp; [done..|].
  destruct Hf as [_ _ _ Hi _ _]. cbn. lia.
Qed.

Lemma put_loop_wp fuel bs f :
  write_ok f → (length bs < fuel)%nat →
  wp (put_loop fuel bs) (λ _ f', write_ok f' ∧ written f' = written f ++ bs) f.
Proof.
  revert bs f. induction fuel as [|fuel IH]; intros bs f Hf Hfuel; [lia|].
  cbn [put_loop]. apply wp_bind, wp_gets. cbn [id]. rewrite (wo_error _ Hf). cbn [negb andb].
  pose proof (wo_index _ Hf) as Hi. destruct bs as [|b bs'] eqn:Ebs.
  { apply wp_ret. by rewrite app_nil_r. }
  rewrite <- Ebs in *. assert (0 < Z.of_nat (length bs)) by (subst; cbn; lia).
  replace (Z.of_nat (length bs) >? 0) with true by lia. cbv zeta.
  set (n := Z.of_nat (length bs)) in *. set (r := IO_BUF_SIZE - buf_index f).
  set (l := if r >? n then n else r).
  assert (0 < l ≤ n ∧ buf_index f + l ≤ IO_BUF_SIZE) as [Hl1 Hl2].
  { unfold l, r. case_match; lia. }
  assert (Z.of_nat (length (take (Z.to_nat l) bs)) = l) as Hlen by (rewrite length_take; lia).
  apply wp_bind. eapply wp_mono; [apply put_block_wp; [done| |lia]|].
  { intros E. rewrite E in Hlen. cbn in Hlen. lia. }
  intros _ f1 [Hf1 Hw1]. eapply wp_mono; [apply IH; [done|rewrite length_drop; lia]|].
  intros _ f2 [Hf2 Hw2]. split; [done|]. by rewrite Hw2, Hw1, <- app_assoc, take_drop.
Qed.

Lemma qemu_put_buffer_wp f bs :
  write_ok f → wp (qemu_put_buffer bs) (λ _ f', write_ok f' ∧ written f' = written f ++ bs) f.
Proof.
  intros Hf. unfold qemu_put_buffer. apply wp_bind, abort_if_reading_wp; [done|].
  apply put_loop_wp; [done|lia].
Qed.

(** Closing a file that is being written leaves everything in the backend. *)
Lemma fflush_written f :
  write_ok f → wp qemu_fflush (λ _ f', bs_content (opaque f') = written f) f.
Proof.
  intros Hf. destruct Hf as [Hp He Hm Hi Hb Ho].
  destruct (decide (is_write f = true ∧ 0 < buf_index f)) as [[Hw Hx]|Hn].
  - eapply wp_mono; [apply qemu_fflush_wp; done || lia|]. by intros _ f' (_&_&?).
  - unfold qemu_fflush. apply wp_bind, wp_gets. cbn [id]. rewrite Hp.
    assert (is_write f && (buf_index f >? 0) = false) as ->.
    { destruct (is_write f); [|done]. cbn. destruct (Z.gtb_spec (buf_index f) 0); [|done].
      exfalso. apply Hn. done. }
    apply wp_ret. unfold written. replace (buf_index f) with 0; [by rewrite app_nil_r|].
    destruct (is_write f) eqn:Ew; [|symmetry; by apply Hm].
    destruct (decide (0 < buf_index f)); [|lia]. exfalso. by apply Hn.
Qed.

(** *** Reading *)

Definition unread f : list Z :=
  take (Z.to_nat (buf_size f - buf_index f)) (drop (Z.to_nat (buf_index f)) (buf f)) ++
  drop (Z.to_nat (buf_offset f)) (bs_content (opaque f)).

Record read_ok f : Prop := {
  ro_get : get_buffer f = Some bs_get;
  ro_mode : is_write f = false;
  ro_index : 0 ≤ buf_index f ≤ buf_size f;
  ro_size : buf_size f ≤ IO_BUF_SIZE;
  ro_buf : length (buf f) = Z.to_nat IO_BUF_SIZE;
  ro_offset : 0 ≤ buf_offset f;
  ro_error : has_error f = false;
}.

Lemma fopen_read_ok b put :
  let f := qemu_fopen_ops b put (Some bs_get) in read_ok f ∧ unread f = bs_content b.
Proof. cbv zeta. by split. Qed.

(** Filling an empty buffer when there is something left to read. *)
Lemma qemu_fill_buffer_wp f :
  read_ok f → buf_index f = buf_size f → unread f ≠ [] →
  wp qemu_fill_buffer (λ _ f', read_ok f' ∧ unread f' = unread f ∧ buf_index f' < buf_size f') f.
Proof.
  intros [Hg Hm Hi Hs Hb Ho Hx] He Hu. unfold unread in *. rewrite He, Z.sub_diag in *.
  cbn [take firstn Z.to_nat app] in Hu |- *.
  unfold qemu_fill_buffer. apply wp_bind, wp_gets. cbn [id]. rewrite Hg, Hm.
  destruct (bs_get_next (buf_offset f) IO_BUF_SIZE (opaque f)) as (bs&b'&Eg&Hne&Hlen&Hc&rest&Hrest).
  { split; [done|]. apply Znot_ge_lt. intros Hge. apply Hu, drop_ge. lia. }
  { done. }
  rewrite Eg. apply wp_bind, wp_modify. destruct bs as [|c bs']; [done|].
  assert (0 < Z.of_nat (length (c :: bs'))) as Hpos by (cbn; lia).
  set (bs := c :: bs') in *. clearbody bs. rewrite store_in by lia.
  apply wp_bind, wp_ret, wp_modify. cbn [take firstn app Nat.add].
  assert (length (bs ++ drop (length bs) (buf f)) = Z.to_nat IO_BUF_SIZE)
    by (rewrite length_app, length_drop; lia).
  split; [split; cbn; done || lia|]. cbn. split; [|lia].
  change (Z.to_nat 0) with 0%nat. rewrite !take_0, !app_nil_l, Z.sub_0_r, drop_0, Nat2Z.id.
  rewrite take_app_length, Hc, Hrest. f_equal.
  rewrite Z2Nat.inj_add, <- drop_drop, Hrest, Nat2Z.id by lia. apply drop_app_length.
Qed.

(** The buffer holds the next byte. *)
Lemma buffered_cons f c rest :
  read_ok f → buf_index f < buf_size f → unread f = c :: rest →
  buf f !! Z.to_nat (buf_index f) = Some c ∧
  let f' := f <| buf_index ::= λ i, i + 1 |> in read_ok f' ∧ unread f' = rest.
Proof.
  intros [Hg Hm Hi Hs Hb Ho Hx] Hlt Hu. unfold unread in *.
  destruct (drop (Z.to_nat (buf_index f)) (buf f)) as [|c' l] eqn:Ed.
  { apply (f_equal length) in Ed. rewrite length_drop in Ed. cbn in Ed. lia. }
  replace (Z.to_nat (buf_size f - buf_index f)) with (S (Z.to_nat (buf_size f - (buf_index f + 1))))
    in Hu by lia.
  injection Hu as -> Hu. split.
  { rewrite <- (Nat.add_0_r (Z.to_nat _)), <- lookup_drop, Ed. done. }
  cbv zeta. split; [split; cbn; try done; lia|]. cbn.
  replace (Z.to_nat (buf_index f + 1)) with (Z.to_nat (buf_index f) + 1)%nat by lia.
  by rewrite <- drop_drop, Ed.
Qed.

Lemma qemu_get_byte_wp f c rest :
  read_ok f → unread f = c :: rest →
  wp qemu_get_byte (λ v f', v = c ∧ read_ok f' ∧ unread f' = rest) f.
Proof.
  intros Hf Hu. unfold qemu_get_byte. apply wp_bind, wp_gets. cbn [id]. rewrite (ro_mode _ Hf).
  apply wp_bind, wp_mono with (Q := λ _ f', read_ok f' ∧ unread f' = unread f ∧ buf_index f' < buf_size f').
  { pose proof (ro_index _ Hf). case_match eqn:E; [|by apply wp_ret; split_and!; try done; lia].
    apply qemu_fill_buffer_wp; [done|lia|by rewrite Hu]. }
  intros _ f1 (Hf1&Hu1&Hlt). apply wp_bind, wp_gets. cbn [id].
  replace (buf_index f1 >=? buf_size f1) with false by lia.
  destruct (buffered_cons f1 c rest Hf1 Hlt) as (Hl&Hf2&Hu2); [congruence|].
  apply wp_bind. eapply wp_oob; [exact Hl|]. apply wp_bind, wp_modify, wp_ret. done.
Qed.

(** A prefix of the buffer. *)
Lemma buffered_prefix f l bs rest :
  read_ok f → 0 ≤ l ≤ buf_size f - buf_index f → Z.of_nat (length bs) = l → unread f = bs ++ rest →
  load (buf f) (Z.to_nat (buf_index f)) (Z.to_nat l) = Some bs ∧
  let f' := f <| buf_index ::= λ i, i + l |> in read_ok f' ∧ unread f' = rest.
Proof.
  intros [Hg Hm Hi Hs Hb Ho Hx] Hl Hbs Hu. unfold unread in *. rewrite load_in by lia.
  set (w := drop (Z.to_nat (buf_index f)) (buf f)) in *.
  assert (length w = Z.to_nat IO_BUF_SIZE - Z.to_nat (buf_index f))%nat as Hw
    by (unfold w; rewrite length_drop; lia).
  set (n := Z.to_nat (buf_size f - buf_index f)) in *.
  assert (take (Z.to_nat l) w = bs) as Htw.
  { apply (f_equal (take (Z.to_nat l))) in Hu.
    rewrite take_app_le, take_take, Nat.min_l in Hu by (rewrite ?length_take; lia).
    by rewrite Hu, take_app_length' by lia. }
  split; [by rewrite Htw|]. cbv zeta. split; [split; cbn; try done; lia|]. cbn.
  replace (Z.to_nat (buf_index f + l)) with (Z.to_nat (buf_index f) + Z.to_nat l)%nat by lia.
  rewrite <- drop_drop. fold w.
  replace (Z.to_nat (buf_size f - (buf_index f + l))) with (n - Z.to_nat l)%nat by lia.
  rewrite <- skipn_firstn_comm. apply (f_equal (drop (Z.to_nat l))) in Hu.
  rewrite drop_app_le in Hu by (rewrite length_take; lia).
  rewrite Hu, drop_app_length' by lia. done.
Qed.

Lemma get_loop_wp fuel size acc f bs rest :
  read_ok f → Z.of_nat (length bs) = size → unread f = bs ++ rest → (Z.to_nat size < fuel)%nat →
  wp (get_loop fuel size acc) (λ r f', r = acc ++ bs ∧ read_ok f' ∧ unread f' = rest) f.
Proof.
  revert size acc f bs. induction fuel as [|fuel IH]; intros size acc f bs Hf Hs Hu Hfuel; [lia|].
  cbn [get_loop]. destruct (Z.gtb_spec size 0) as [Hp|Hz].
  2: { destruct bs; [|cbn in Hs; lia]. apply wp_ret. by rewrite app_nil_r. }
  apply wp_bind, wp_gets. cbn [id].
  apply wp_bind, wp_mono with (Q := λ _ f', read_ok f' ∧ unread f' = unread f ∧ buf_index f' < buf_size f').
  { pose proof (ro_index _ Hf). case_match eqn:E; [|by apply wp_ret; split_and!; try done; lia].
    apply qemu_fill_buffer_wp; [done|lia|]. rewrite Hu. destruct bs; [cbn in Hs; lia|done]. }
  intros _ f1 (Hf1&Hu1&Hlt). apply wp_bind, wp_gets. cbn [id]. cbv zeta.
  replace (buf_size f1 - buf_index f1 =? 0) with false by lia.
  set (r := buf_size f1 - buf_index f1). set (l := if r >? size then size else r).
  assert (0 < l ≤ size ∧ l ≤ r) as [Hl1 Hl2] by (unfold l, r; case_match; lia).
  destruct (buffered_prefix f1 l (take (Z.to_nat l) bs) (drop (Z.to_nat l) bs ++ rest))
    as (Hld&Hf2&Hu2); [done|lia|rewrite length_take; lia| |].
  { by rewrite Hu1, Hu, app_assoc, take_drop. }
  apply wp_bind. eapply wp_oob; [exact Hld|]. apply wp_bind, wp_modify.
  eapply wp_mono; [apply (IH _ _ _ (drop (Z.to_nat l) bs)); [done| |done|lia]|].
  { rewrite length_drop. lia. }
  intros x f3 (->&?&?). by rewrite <- app_assoc, take_drop.
Qed.

Lemma qemu_get_buffer_wp f bs rest :
  read_ok f → unread f = bs ++ rest →
  wp (qemu_get_buffer (Z.of_nat (length bs))) (λ r f', r = bs ∧ read_ok f' ∧ unread f' = rest) f.
Proof.
  intros Hf Hu. unfold qemu_get_buffer. apply wp_bind, wp_gets. cbn [id]. rewrite (ro_mode _ Hf).
  eapply wp_mono; [eapply get_loop_wp; try done; lia|]. by intros r f' (->&?&?).
Qed.

(** *** Big-endian integers *)

Lemma be_bytes_2 v : be_bytes 2 v = [u8 (v >> 8); u8 v].
Proof.
  unfold be_bytes. cbn [le_bytes]. rewrite !reverse_cons. cbn [app reverse rev_append].
  by rewrite u8_shiftr by lia.
Qed.

Lemma be_bytes_4 v : be_bytes 4 v = [u8 (v >> 24); u8 (v >> 16); u8 (v >> 8); u8 v].
Proof.
  unfold be_bytes. cbn [le_bytes]. rewrite !reverse_cons. cbn [app reverse rev_append].
  rewrite !u8_shiftr by lia. rewrite !Z.div_div by lia. done.
Qed.

Lemma qemu_put_be16_wp f v :
  write_ok f → wp (qemu_put_be16 v) (λ _ f', write_ok f' ∧ written f' = written f ++ be_bytes 2 v) f.
Proof.
  intros Hf. unfold qemu_put_be16. apply wp_bind. eapply wp_mono; [by apply qemu_put_byte_wp|].
  intros _ f1 [Hf1 Hw1]. eapply wp_mono; [by apply qemu_put_byte_wp|].
  intros _ f2 [Hf2 Hw2]. split; [done|]. by rewrite Hw2, Hw1, <- app_assoc, be_bytes_2.
Qed.

Lemma qemu_put_be32_wp f v :
  write_ok f → wp (qemu_put_be32 v) (λ _ f', write_ok f' ∧ written f' = written f ++ be_bytes 4 v) f.
Proof.
  intros Hf. unfold qemu_put_be32.
  apply wp_bind. eapply wp_mono; [by apply qemu_put_byte_wp|]. intros _ f1 [Hf1 Hw1].
  apply wp_bind. eapply wp_mono; [by apply qemu_put_byte_wp|]. intros _ f2 [Hf2 Hw2].
  apply wp_bind. eapply wp_mono; [by apply qemu_put_byte_wp|]. intros _ f3 [Hf3 Hw3].
  eapply wp_mono; [by apply qemu_put_byte_wp|]. intros _ f4 [Hf4 Hw4]. split; [done|].
  by rewrite Hw4, Hw3, Hw2, Hw1, <- !app_assoc, be_bytes_4.
Qed.

Lemma qemu_get_be16_wp f v rest :
  read_ok f → in_w 16 v → unread f = be_bytes 2 v ++ rest →
  wp qemu_get_be16 (λ r f', r = v ∧ read_ok f' ∧ unread f' = rest) f.
Proof.
  intros Hf Hv Hu. rewrite be_bytes_2 in Hu. unfold qemu_get_be16.
  apply wp_bind. eapply wp_mono; [eapply qemu_get_byte_wp; [done|exact Hu]|]. intros a f1 (->&Hf1&Hu1).
  apply wp_bind. eapply wp_mono; [eapply qemu_get_byte_wp; [done|exact Hu1]|]. intros b f2 (->&Hf2&Hu2).
  apply wp_ret. split; [|done]. unfold in_w in Hv. pose proof (u8_range v).
  rewrite Z.lor_comm, lor_shiftl_add by lia.
  rewrite u8_shiftr by lia. unfold u8, wrap. change (2 ^ 8) with 256. Z.div_mod_to_equations. lia.
Qed.

Lemma qemu_get_be32_wp f v rest :
  read_ok f → in_w 32 v → unread f = be_bytes 4 v ++ rest →
  wp qemu_get_be32 (λ r f', r = v ∧ read_ok f' ∧ unread f' = rest) f.
Proof.
  intros Hf Hv Hu. rewrite be_bytes_4 in Hu. unfold qemu_get_be32.
  apply wp_bind. eapply wp_mono; [eapply qemu_get_byte_wp; [done|exact Hu]|]. intros a f1 (->&Hf1&Hu1).
  apply wp_bind. eapply wp_mono; [eapply qemu_get_byte_wp; [done|exact Hu1]|]. intros b f2 (->&Hf2&Hu2).
  apply wp_bind. eapply wp_mono; [eapply qemu_get_byte_wp; [done|exact Hu2]|]. intros c f3 (->&Hf3&Hu3).
  apply wp_bind. eapply wp_mono; [eapply qemu_get_byte_wp; [done|exact Hu3]|]. intros d f4 (->&Hf4&Hu4).
  apply wp_ret. split; [|done]. unfold in_w in Hv.
  pose proof (u8_range v). pose proof (u8_range (v >> 8)). pose proof (u8_range (v >> 16)).
  rewrite Z.lor_comm, (Z.lor_comm _ (_ << 8)), (Z.lor_comm (_ << 24)), !Z.lor_assoc.
  rewrite (lor_shiftl_add _ _ 8), (lor_shiftl_add _ _ 16), (lor_shiftl_add _ _ 24) by lia.
  rewrite !u8_shiftr by lia. unfold u8, wrap. change (2 ^ 8) with 256.
  change (2 ^ 16) with 65536. change (2 ^ 24) with 16777216. Z.div_mod_to_equations. lia.
Qed.
End stream.
