(* ===== verification/VmDesc.v ===== *)
(** * Descriptions of saved state ([savevm.c])

    The tables that say which parts of a device are saved, and their interpreter:
    [vmstate_save_state] and [vmstate_load_state] over the buffered file.
    Descriptions have no subsections here. *)

From S2P Require Import Prelude Bytes SaveVm.

(** ** Descriptions *)

Definition EINVAL : Z := 22.

(** The [VMStateInfo]s the device uses; an [int8_t] is held as its byte. *)
Inductive vminfo := info_int8 | info_uint8 | info_uint16 | info_uint32.

(** Besides the plain kinds there are fields with [put] and [get] functions of their
    own, and structures with a description of their own; both are [VInfo] here. *)
Inductive vmdata (B S : Type) :=
| VScalars (info : vminfo) (num : nat) (rd : S → nat → Z) (wr : nat → Z → S → S)
| VBuffer (size : nat) (rd : S → list Z) (wr : list Z → S → S)
| VUnused (size : nat)
| VInfo (put : S → M (QEMUFile B) unit) (get : S → M (QEMUFile B) (Z * S)).
Arguments VScalars {B S} _ _ _ _.
Arguments VBuffer {B S} _ _ _.
Arguments VUnused {B S} _.
Arguments VInfo {B S} _ _.

Record VMStateField (B S : Type) := Field {
  vf_exists : option (Z → bool);
  vf_version : Z;
  vf_data : vmdata B S;
}.
Arguments Field {B S} _ _ _.
Arguments vf_exists {B S} _.
Arguments vf_version {B S} _.
Arguments vf_data {B S} _.

Record VMStateDescription (B S : Type) := {
  vm_version_id : Z;
  vm_minimum_version_id : Z;
  vm_minimum_version_id_old : Z;
  vm_pre_save : option (S → S);
  vm_pre_load : option (S → Z * S);
  vm_post_load : option (S → Z → Z * S);
  vm_fields : list (VMStateField B S);
}.
Arguments vm_version_id {B S} _.
Arguments vm_minimum_version_id {B S} _.
Arguments vm_minimum_version_id_old {B S} _.
Arguments vm_pre_save {B S} _.
Arguments vm_pre_load {B S} _.
Arguments vm_post_load {B S} _.
Arguments vm_fields {B S} _.

(** ** The interpreter *)

Section vmstate.
Context {B T : Type}.
Abbreviation FM := (M (QEMUFile B)).

Definition info_put (i : vminfo) (v : Z) : FM unit :=
  match i with
  | info_int8 | info_uint8 => qemu_put_byte v
  | info_uint16 => qemu_put_be16 v
  | info_uint32 => qemu_put_be32 v
  end.

Definition info_get (i : vminfo) : FM Z :=
  match i with
  | info_int8 | info_uint8 => v ← qemu_get_byte; mret (u8 v)
  | info_uint16 => v ← qemu_get_be16; mret (u16 v)
  | info_uint32 => v ← qemu_get_be32; mret (u32 v)
  end.

(** The unused buffers go through blocks of 1024 bytes. *)
Fixpoint put_unused_buffer (fuel : nat) (size : Z) : FM unit :=
  match fuel with
  | O => no_fuel
  | S fuel =>
      if size >? 0 then
        let block_len := Z.min 1024 size in
        qemu_put_buffer (replicate (Z.to_nat block_len) 0);;
        put_unused_buffer fuel (size - block_len)
      else mret ()
  end.

Fixpoint get_unused_buffer (fuel : nat) (size : Z) : FM unit :=
  match fuel with
  | O => no_fuel
  | S fuel =>
      if size >? 0 then
        let block_len := Z.min 1024 size in
        _ ← qemu_get_buffer block_len;
        get_unused_buffer fuel (size - block_len)
      else mret ()
  end.

(** The loop over the elements of an array. *)
Fixpoint put_elems (info : vminfo) (rd : nat → Z) (ids : list nat) : FM unit :=
  match ids with
  | [] => mret ()
  | i :: ids => info_put info (rd i);; put_elems info rd ids
  end.

Fixpoint get_elems (info : vminfo) (wr : nat → Z → T → T) (ids : list nat) (s : T) : FM T :=
  match ids with
  | [] => mret s
  | i :: ids => v ← info_get info; get_elems info wr ids (wr i v s)
  end.

Definition data_put (d : vmdata B T) (s : T) : FM unit :=
  match d with
  | VScalars info num rd _ => put_elems info (rd s) (seq 0 num)
  | VBuffer _ rd _ => qemu_put_buffer (rd s)
  | VUnused size => put_unused_buffer (S size) (Z.of_nat size)
  | VInfo put _ => put s
  end.

(** The first result is the return value of the [get] function. A short read leaves
    the rest of a buffer as it was. *)
Definition data_get (d : vmdata B T) (s : T) : FM (Z * T) :=
  match d with
  | VScalars info num _ wr => s ← get_elems info wr (seq 0 num) s; mret (0, s)
  | VBuffer size rd wr =>
      bs ← qemu_get_buffer (Z.of_nat size);
      mret (0, wr (take size (bs ++ drop (length bs) (rd s))) s)
  | VUnused size => get_unused_buffer (S size) (Z.of_nat size);; mret (0, s)
  | VInfo _ get => get s
  end.

Definition field_saved (version : Z) (fld : VMStateField B T) : bool :=
  match vf_exists fld with None => true | Some e => e version end.
Definition field_loaded (version : Z) (fld : VMStateField B T) : bool :=
  match vf_exists fld with None => vf_version fld <=? version | Some e => e version end.

Fixpoint save_fields (version : Z) (fs : list (VMStateField B T)) (s : T) : FM unit :=
  match fs with
  | [] => mret ()
  | fld :: fs =>
      (if field_saved version fld then data_put (vf_data fld) s else mret ());;
      save_fields version fs s
  end.

Fixpoint load_fields (version : Z) (fs : list (VMStateField B T)) (s : T) : FM (Z * T) :=
  match fs with
  | [] => mret (0, s)
  | fld :: fs =>
      '(ret, s) ← (if field_loaded version fld then data_get (vf_data fld) s else mret (0, s));
      if ret <? 0 then mret (ret, s) else load_fields version fs s
  end.

Definition vmstate_save_state (vmsd : VMStateDescription B T) (s : T) : FM unit :=
  let s := match vm_pre_save vmsd with Some f => f s | None => s end in
  save_fields (vm_version_id vmsd) (vm_fields vmsd) s.

(** No description of this model has a [load_state_old] function. *)
Definition vmstate_load_state (vmsd : VMStateDescription B T) (s : T) (version_id : Z) : FM (Z * T) :=
  if version_id >? vm_version_id vmsd then mret (- EINVAL, s) else
  if version_id <? vm_minimum_version_id_old vmsd then mret (- EINVAL, s) else
  if version_id <? vm_minimum_version_id vmsd then fail NullDeref else
  let '(ret, s) := match vm_pre_load vmsd with Some f => f s | None => (0, s) end in
  if negb (ret =? 0) then mret (ret, s) else
  '(ret, s) ← load_fields version_id (vm_fields vmsd) s;
  if ret <? 0 then mret (ret, s) else
  match vm_post_load vmsd with
  | Some f => mret (f s version_id)
  | None => mret (0, s)
  end.
End vmstate.

(** ** What is written *)

Definition info_bytes (i : vminfo) (v : Z) : list Z :=
  match i with
  | info_int8 | info_uint8 => [u8 v]
  | info_uint16 => be_bytes 2 v
  | info_uint32 => be_bytes 4 v
  end.
Definition info_ok (i : vminfo) (v : Z) : Prop :=
  match i with
  | info_int8 | info_uint8 => in_w 8 v
  | info_uint16 => in_w 16 v
  | info_uint32 => in_w 32 v
  end.

Definition data_bytes {B S} (d : vmdata B S) (s : S) : list Z :=
  match d with
  | VScalars info num rd _ => concat (map (λ i, info_bytes info (rd s i)) (seq 0 num))
  | VBuffer _ rd _ => rd s
  | VUnused size => replicate size 0
  | VInfo _ _ => []
  end.

(** The values fit their fields, which are all of the plain kinds. *)
Definition data_ok {B S} (d : vmdata B S) (s : S) : Prop :=
  match d with
  | VScalars info num rd _ => Forall (λ i, info_ok info (rd s i)) (seq 0 num)
  | VBuffer size rd _ => length (rd s) = size
  | VUnused size => True
  | VInfo _ _ => False
  end.

(** Restoring a field: its value of [s] is stored into [s0]. *)
Definition data_copy {B S} (d : vmdata B S) (s s0 : S) : S :=
  match d with
  | VScalars _ num rd wr => foldl (λ s0 i, wr i (rd s i) s0) s0 (seq 0 num)
  | VBuffer _ rd wr => wr (rd s) s0
  | VUnused _ | VInfo _ _ => s0
  end.

Fixpoint fields_bytes {B S} (version : Z) (fs : list (VMStateField B S)) (s : S) : list Z :=
  match fs with
  | [] => []
  | fld :: fs =>
      (if field_saved version fld then data_bytes (vf_data fld) s else []) ++
      fields_bytes version fs s
  end.
Fixpoint fields_copy {B S} (version : Z) (fs : list (VMStateField B S)) (s s0 : S) : S :=
  match fs with
  | [] => s0
  | fld :: fs =>
      fields_copy version fs s (if field_saved version fld then data_copy (vf_data fld) s s0 else s0)
  end.

Section vmstate_spec.
Context {B : Type} `{ByteStore B}.
Context {T : Type}.
Implicit Types f : QEMUFile B.

Lemma info_put_wp f i v :
  write_ok f → wp (info_put i v) (λ _ f', write_ok f' ∧ written f' = written f ++ info_bytes i v) f.
Proof.
  intros Hf. destruct i; cbn; auto using qemu_put_byte_wp, qemu_put_be16_wp, qemu_put_be32_wp.
Qed.

Lemma info_get_wp f i v rest :
  read_ok f → info_ok i v → unread f = info_bytes i v ++ rest →
  wp (info_get i) (λ r f', r = v ∧ read_ok f' ∧ unread f' = rest) f.
Proof.
  intros Hf Hv Hu. destruct i; cbn [info_get info_ok info_bytes app] in *; apply wp_bind.
  1, 2: eapply wp_mono; [eapply qemu_get_byte_wp; [exact Hf|exact Hu]|]; intros r f' (->&?&?); apply wp_ret;
    split; [|done]; rewrite (u8_small v Hv); apply (u8_small v Hv).
  - eapply wp_mono; [by eapply qemu_get_be16_wp|]. intros r f' (->&?&?). apply wp_ret.
    split; [|done]. by apply u16_small.
  - eapply wp_mono; [by eapply qemu_get_be32_wp|]. intros r f' (->&?&?). apply wp_ret.
    split; [|done]. by apply u32_small.
Qed.

Lemma put_elems_wp f info rd ids :
  write_ok f →
  wp (put_elems info rd ids) (λ _ f', write_ok f' ∧
    written f' = written f ++ concat (map (λ i, info_bytes info (rd i)) ids)) f.
Proof.
  revert f. induction ids as [|i ids IH]; intros f Hf; cbn [put_elems map concat].
  { apply wp_ret. by rewrite app_nil_r. }
  apply wp_bind. eapply wp_mono; [by apply info_put_wp|]. intros _ f1 [Hf1 Hw1].
  eapply wp_mono; [by apply IH|]. intros _ f2 [Hf2 Hw2]. split; [done|].
  by rewrite Hw2, Hw1, <- app_assoc.
Qed.

Lemma get_elems_wp f info rd wr ids (s0 : T) rest :
  read_ok f → Forall (λ i, info_ok info (rd i)) ids →
  unread f = concat (map (λ i, info_bytes info (rd i)) ids) ++ rest →
  wp (get_elems info wr ids s0) (λ r f', r = foldl (λ s0 i, wr i (rd i) s0) s0 ids ∧
    read_ok f' ∧ unread f' = rest) f.
Proof.
  revert f s0. induction ids as [|i ids IH]; intros f s0 Hf Hok Hu; cbn [get_elems map concat] in *.
  { by apply wp_ret. }
  apply Forall_cons_iff in Hok as [Hi Hok]. rewrite <- app_assoc in Hu.
  apply wp_bind. eapply wp_mono; [by eapply info_get_wp|]. intros v f1 (->&Hf1&Hu1).
  by apply IH.
Qed.

Lemma put_unused_buffer_wp fuel size f :
  write_ok f → 0 ≤ size → (Z.to_nat size < fuel)%nat →
  wp (put_unused_buffer fuel size) (λ _ f', write_ok f' ∧
    written f' = written f ++ replicate (Z.to_nat size) 0) f.
Proof.
  revert size f. induction fuel as [|fuel IH]; intros size f Hf Hs Hl; [lia|]. cbn [put_unused_buffer].
  destruct (Z.gtb_spec size 0); cycle 1.
  { replace size with 0 by lia. apply wp_ret. by rewrite app_nil_r. }
  apply wp_bind. eapply wp_mono; [by apply qemu_put_buffer_wp|]. intros _ f1 [Hf1 Hw1].
  eapply wp_mono; [apply IH; [done|lia..]|]. intros _ f2 [Hf2 Hw2]. split; [done|].
  rewrite Hw2, Hw1, <- app_assoc, <- replicate_add. do 2 f_equal. lia.
Qed.

Lemma get_unused_buffer_wp fuel size f rest :
  read_ok f → 0 ≤ size → (Z.to_nat size < fuel)%nat →
  unread f = replicate (Z.to_nat size) 0 ++ rest →
  wp (get_unused_buffer fuel size) (λ _ f', read_ok f' ∧ unread f' = rest) f.
Proof.
  revert size f. induction fuel as [|fuel IH]; intros size f Hf Hs Hl Hu; [lia|]. cbn [get_unused_buffer].
  destruct (Z.gtb_spec size 0); cycle 1.
  { replace size with 0 in Hu by lia. by apply wp_ret. }
  set (n := Z.min 1024 size).
  replace (Z.to_nat size) with (Z.to_nat n + Z.to_nat (size - n))%nat in Hu by lia.
  rewrite replicate_add, <- app_assoc in Hu.
  pose proof (qemu_get_buffer_wp f _ _ Hf Hu) as Hg. rewrite length_replicate, Z2Nat.id in Hg by lia.
  apply wp_bind. eapply wp_mono; [exact Hg|]. intros bs f1 (_&Hf1&Hu1). apply IH; [done|lia|lia|done].
Qed.

Lemma data_put_wp f (d : vmdata B T) s :
  write_ok f → data_ok d s → wp (data_put d s) (λ _ f', write_ok f' ∧ written f' = written f ++ data_bytes d s) f.
Proof.
  intros Hf Hok. destruct d; cbn [data_put data_bytes data_ok] in *.
  - by apply put_elems_wp.
  - by apply qemu_put_buffer_wp.
  - eapply wp_mono; [apply put_unused_buffer_wp; [done|lia..]|]. by rewrite Nat2Z.id.
  - done.
Qed.

Lemma data_get_wp f (d : vmdata B T) s s0 rest :
  read_ok f → data_ok d s → unread f = data_bytes d s ++ rest →
  wp (data_get d s0) (λ r f', r = (0, data_copy d s s0) ∧ read_ok f' ∧ unread f' = rest) f.
Proof.
  intros Hf Hok Hu. destruct d; cbn [data_get data_bytes data_copy data_ok] in *.
  - apply wp_bind. eapply wp_mono; [by eapply get_elems_wp|]. intros r f1 (->&?&?). by apply wp_ret.
  - subst size. apply wp_bind. eapply wp_mono; [by apply qemu_get_buffer_wp|].
    intros bs f1 (->&Hf1&Hu1). apply wp_ret. by rewrite take_app_length.
  - apply wp_bind. eapply wp_mono; [eapply get_unused_buffer_wp; [done|lia..|]|].
    { by rewrite Nat2Z.id. }
    intros _ f1 [Hf1 Hu1]. by apply wp_ret.
  - done.
Qed.

Lemma save_fields_wp version (fs : list (VMStateField B T)) s f :
  write_ok f → Forall (λ fld, field_saved version fld = true → data_ok (vf_data fld) s) fs →
  wp (save_fields version fs s) (λ _ f', write_ok f' ∧
    written f' = written f ++ fields_bytes version fs s) f.
Proof.
  revert f. induction fs as [|fld fs IH]; intros f Hf Hok; cbn [save_fields fields_bytes].
  { apply wp_ret. by rewrite app_nil_r. }
  apply Forall_cons_iff in Hok as [Hd Hok]. apply wp_bind. destruct (field_saved version fld).
  - eapply wp_mono; [by apply data_put_wp; auto|]. intros _ f1 [Hf1 Hw1].
    eapply wp_mono; [by apply IH|]. intros _ f2 [Hf2 Hw2]. split; [done|].
    by rewrite Hw2, Hw1, <- app_assoc.
  - apply wp_ret. by apply IH.
Qed.

Lemma load_fields_wp version (fs : list (VMStateField B T)) s s0 f rest :
  read_ok f → Forall (λ fld, vf_version fld ≤ version ∧ data_ok (vf_data fld) s) fs →
  unread f = fields_bytes version fs s ++ rest →
  wp (load_fields version fs s0) (λ r f', r = (0, fields_copy version fs s s0) ∧
    read_ok f' ∧ unread f' = rest) f.
Proof.
  revert f s0. induction fs as [|fld fs IH]; intros f s0 Hf Hok Hu; cbn [load_fields fields_bytes fields_copy] in *.
  { by apply wp_ret. }
  apply Forall_cons_iff in Hok as [[Hv Hd] Hok].
  assert (field_loaded version fld = field_saved version fld) as ->.
  { unfold field_loaded, field_saved. destruct (vf_exists fld); [done|]. by apply Z.leb_le. }
  rewrite <- app_assoc in Hu. apply wp_bind. destruct (field_saved version fld).
  - eapply wp_mono; [by eapply data_get_wp|]. intros r f1 (->&Hf1&Hu1). by apply IH.
  - apply wp_ret. by apply IH.
Qed.
End vmstate_spec.
