(* ===== verification/PciVm.v ===== *)
(** * Saved state of PCI devices ([hw/pci.c], [savevm.c])

    The description of the PCI part of a device and its functions. Loading a
    configuration space changes mappings, so the state that is restored is the whole
    PCI system; [n] is the device. *)

From S2P Require Import Prelude Bytes Pci PciSpec PciInv PciCfg PciGuest SaveVm VmDesc.

Section pci_vmstate.
Context {B F : Type} `{MapFuncs F} (n : nat).
Abbreviation FM := (M (QEMUFile B)).
Implicit Types (s : PciSys F) (d : PCIDevice F).

(** Runs code of [pci.c] on the PCI system. *)
Definition on_sys {A} (m : M (PciSys F) A) s : FM (A * PciSys F) :=
  λ f, match m s with Ret a s' => Ret (a, s') f | UB e => UB e | OutOfFuel => OutOfFuel end.

(** [vmstate_info_int32_le]: the field is compared and not changed. *)
Definition put_int32 (v : Z) : FM unit := qemu_put_be32 (u32 v).
Definition get_int32_le (old : Z) : FM Z :=
  new ← qemu_get_be32;
  mret (if old <=? s32 new then 0 else - EINVAL).

(** A bit that is fixed in the device differs from the one loaded. *)
Definition config_mismatch d (config' : list Z) (size : Z) : bool :=
  existsb (λ i, let i := Z.of_nat i in
    negb (Z.lxor (pci_get_byte config' i) (pci_get_byte (config d) i) .& pci_get_byte (cmask d) i .&
          .~ pci_get_byte (wmask d) i .& .~ pci_get_byte (w1cmask d) i =? 0)) (seq 0 (Z.to_nat size)).

(** [block] is what the allocated memory holds before the read. *)
Definition get_pci_config_device (block : list Z) (size : Z) s : FM (Z * PciSys F) :=
  '(d, s) ← on_sys (pdev n) s;
  if negb (size =? pci_config_size d) then fail Aborted else
  bs ← qemu_get_buffer size;
  let config' := take (Z.to_nat size) (bs ++ drop (length bs) block) in
  if config_mismatch d config' size then mret (- EINVAL, s) else
  '(_, s) ← on_sys (put_pdev n (d <| config := config' |>);; pci_update_mappings n) s;
  mret (0, s).

Definition put_pci_config_device (size : Z) s : FM unit :=
  '(d, _) ← on_sys (pdev n) s;
  if negb (size =? pci_config_size d) then fail Aborted else
  qemu_put_buffer (take (Z.to_nat size) (config d)).

(** The levels of the pins; [None] is a value that is neither 0 nor 1. *)
Fixpoint get_levels (k : nat) : FM (option (list Z)) :=
  match k with
  | O => mret (Some [])
  | S k =>
      v ← qemu_get_be32;
      if negb (v =? 1) && negb (v =? 0) then mret None else
      o ← get_levels k;
      mret (o ← o; Some (v :: o))
  end.

Definition set_levels d (l : list Z) : PCIDevice F :=
  foldl (λ d p, pci_set_irq_state d p.1 p.2) d (zip irq_pins l).

Definition get_pci_irq_state s : FM (Z * PciSys F) :=
  o ← get_levels PCI_NUM_PINS;
  match o with
  | None => mret (- EINVAL, s)
  | Some l =>
      '(d, s) ← on_sys (pdev n) s;
      '(_, s) ← on_sys (put_pdev n (set_levels d l)) s;
      mret (0, s)
  end.

Fixpoint put_levels d (pins : list Z) : FM unit :=
  match pins with
  | [] => mret ()
  | i :: pins => qemu_put_be32 (pci_irq_state d i);; put_levels d pins
  end.

Definition put_pci_irq_state s : FM unit :=
  '(d, _) ← on_sys (pdev n) s;
  put_levels d irq_pins.

(** The two descriptions differ in the size of the configuration space. *)
Definition vmstate_pci (size : Z) (block : list Z) : VMStateDescription B (PciSys F) := {|
  vm_version_id := 2; vm_minimum_version_id := 1; vm_minimum_version_id_old := 1;
  vm_pre_save := None; vm_pre_load := None; vm_post_load := None;
  vm_fields := [
    Field None 0 (VInfo (λ s, '(d, _) ← on_sys (pdev n) s; put_int32 (version_id d))
                        (λ s, '(d, s) ← on_sys (pdev n) s; r ← get_int32_le (version_id d); mret (r, s)));
    Field None 0 (VInfo (put_pci_config_device size) (get_pci_config_device block size));
    Field None 2 (VInfo put_pci_irq_state get_pci_irq_state)] |}.
Definition vmstate_pci_device := vmstate_pci PCI_CONFIG_SPACE_SIZE.
Definition vmstate_pcie_device := vmstate_pci PCIE_CONFIG_SPACE_SIZE.

Definition pci_get_vmstate d := if pci_is_express d then vmstate_pcie_device else vmstate_pci_device.

(** Devices that save themselves outside of a description of their own. *)
Definition pci_device_save (block : list Z) s : FM (PciSys F) :=
  '(d, s) ← on_sys (pdev n) s;
  '(_, s) ← on_sys (put_pdev n (d <| config ::= λ c, pci_byte_clear_mask c PCI_STATUS PCI_STATUS_INTERRUPT |>)) s;
  vmstate_save_state (pci_get_vmstate d block) s;;
  '(d, s) ← on_sys (pdev n) s;
  '(_, s) ← on_sys (put_pdev n (pci_update_irq_status d)) s;
  mret s.

Definition pci_device_load (block : list Z) s : FM (Z * PciSys F) :=
  '(d, s) ← on_sys (pdev n) s;
  '(ret, s) ← vmstate_load_state (pci_get_vmstate d block) s (version_id d);
  '(d, s) ← on_sys (pdev n) s;
  '(_, s) ← on_sys (put_pdev n (pci_update_irq_status d)) s;
  mret (ret, s).
End pci_vmstate.

(** ** What is saved *)

Definition level_bytes {F} (d : PCIDevice F) : list Z :=
  concat (map (λ i, be_bytes 4 (pci_irq_state d i)) irq_pins).
Definition pci_bytes {F} (d : PCIDevice F) : list Z :=
  be_bytes 4 (u32 (version_id d)) ++ config d ++ level_bytes d.

(** The saved device [d] can be loaded into [d0]: the fixed bits agree, and the
    version of [d0] is not newer. *)
Record loadable {F} (d d0 : PCIDevice F) : Prop := {
  ld_size : length (config d) = Z.to_nat (pci_config_size d0);
  ld_bytes : bytes_ok (config d);
  ld_match : config_mismatch d0 (config d) (pci_config_size d0) = false;
  ld_version : version_id d0 ≤ version_id d ∧ int_ok (version_id d);
  ld_levels : 0 ≤ irq_state d < 16;
}.

Section pci_vmstate_spec.
Context {B F : Type} `{ByteStore B} `{MapFuncs F} (n : nat).
Implicit Types (s : PciSys F) (d : PCIDevice F) (f : QEMUFile B).

Lemma wp_on_sys {A} (m : M (PciSys F) A) s (Q : A * PciSys F → QEMUFile B → Prop) f :
  wp m (λ a s', Q (a, s') f) s → wp (on_sys m s) Q f.
Proof. unfold wp, on_sys. by destruct (m s). Qed.

Lemma wp_on_pdev s d (Q : PCIDevice F * PciSys F → QEMUFile B → Prop) f :
  devs s !! n = Some d → Q (d, s) f → wp (on_sys (pdev n) s) Q f.
Proof. intros Hd HQ. by apply wp_on_sys, (wp_pdev n d). Qed.

Lemma irq_state_bit_small d i : 0 ≤ pci_irq_state d i < 2.
Proof. rewrite irq_state_bit. destruct (Z.testbit (irq_state d) i); cbn [Z.b2z]; lia. Qed.

Lemma put_levels_wp f d pins :
  write_ok f → wp (put_levels d pins) (λ _ f', write_ok f' ∧
    SaveVm.written f' = SaveVm.written f ++ concat (map (λ i, be_bytes 4 (pci_irq_state d i)) pins)) f.
Proof.
  revert f. induction pins as [|i pins IH]; intros f Hf; cbn [put_levels map concat].
  { apply wp_ret. by rewrite app_nil_r. }
  apply wp_bind. eapply wp_mono; [by apply qemu_put_be32_wp|]. intros [] f1 [Hf1 Hw1].
  eapply wp_mono; [by apply IH|]. intros [] f2 [Hf2 Hw2]. split; [done|]. by rewrite Hw2, Hw1, <- app_assoc.
Qed.

Lemma get_levels_wp f d pins rest :
  read_ok f → unread f = concat (map (λ i, be_bytes 4 (pci_irq_state d i)) pins) ++ rest →
  wp (get_levels (length pins)) (λ o f', o = Some (map (pci_irq_state d) pins) ∧ read_ok f' ∧ unread f' = rest) f.
Proof.
  revert f. induction pins as [|i pins IH]; intros f Hf Hu; cbn [length get_levels map concat] in *; [by apply wp_ret|].
  rewrite <- app_assoc in Hu. pose proof (irq_state_bit_small d i) as Hb. apply wp_bind.
  eapply wp_mono; [eapply (qemu_get_be32_wp f (pci_irq_state d i)); [done|unfold in_w; lia|exact Hu]|]. intros v f1 (->&Hf1&Hu1).
  assert (pci_irq_state d i = 0 ∨ pci_irq_state d i = 1) as Hv by lia.
  replace (negb (pci_irq_state d i =? 1) && negb (pci_irq_state d i =? 0)) with false by (by destruct Hv as [-> | ->]).
  apply wp_bind. eapply wp_mono; [by apply IH|]. intros o f2 (->&?&?). by apply wp_ret.
Qed.

Lemma set_levels_state d0 d :
  0 ≤ irq_state d0 < 16 → 0 ≤ irq_state d < 16 →
  set_levels d0 (map (pci_irq_state d) irq_pins) = d0 <| irq_state := irq_state d |>.
Proof.
  intros Hd0 Hd.
  assert (forallb (λ a, forallb (λ b, irq_state (set_levels (Device (F := F) [] [] [] [] [] 0 0 [] a 0 0 None)
    (map (λ i, (b >> i) .& 1) irq_pins)) =? b) (seqZ 0 16)) (seqZ 0 16) = true) as Hall by (by vm_compute).
  rewrite forallb_forall in Hall. specialize (Hall (irq_state d0)). rewrite forallb_forall in Hall.
  specialize (Hall ltac:(apply list_elem_of_In, elem_of_seqZ; lia) (irq_state d)).
  assert (∀ v, v = irq_state d → d0 <| irq_state := v |> = d0 <| irq_state := irq_state d |>) as E by (by intros v ->).
  rewrite <- (E _ (proj1 (Z.eqb_eq _ _) (Hall ltac:(apply list_elem_of_In, elem_of_seqZ; lia)))). by destruct d0.
Qed.

Lemma pci_save_wp f s d block :
  write_ok f → devs s !! n = Some d → length (config d) = Z.to_nat (pci_config_size d) →
  wp (vmstate_save_state (vmstate_pci n (pci_config_size d) block) s) (λ _ f', write_ok f' ∧
    SaveVm.written f' = SaveVm.written f ++ pci_bytes d) f.
Proof.
  intros Hf Hd Hlen. unfold vmstate_save_state, vmstate_pci. cbn [vm_pre_save vm_version_id vm_fields save_fields field_saved vf_exists vf_data data_put].
  apply wp_bind, wp_bind, (wp_on_pdev s d); [done|]. unfold put_int32.
  eapply wp_mono; [by apply qemu_put_be32_wp|]. intros [] f1 [Hf1 Hw1].
  apply wp_bind. unfold put_pci_config_device. apply wp_bind, (wp_on_pdev s d); [done|].
  rewrite Z.eqb_refl. cbn [negb]. rewrite take_ge by lia.
  eapply wp_mono; [by apply qemu_put_buffer_wp|]. intros [] f2 [Hf2 Hw2].
  apply wp_bind. unfold put_pci_irq_state. apply wp_bind, (wp_on_pdev s d); [done|].
  eapply wp_mono; [by apply put_levels_wp|]. intros [] f3 [Hf3 Hw3]. apply wp_ret. split; [done|].
  by rewrite Hw3, Hw2, Hw1, <- !app_assoc.
Qed.

Lemma s32_u32 z : int_ok z → s32 (u32 z) = z.
Proof.
  intros Hz. unfold int_ok in Hz. unfold s32, u32, wrap.
  rewrite Z.add_mod_idemp_l, Z.mod_small; lia.
Qed.

(** *** The configuration space *)

(** What loading leaves of a system: device [n] has the saved registers, the others
    have theirs, and the regions are in place. *)
Record loaded d s s' : Prop := {
  lo_dev : ∃ d', devs s' !! n = Some d' ∧ config d' = config d;
  lo_other m : m ≠ n → devs s' !! m = devs s !! m;
  lo_ok : pci_ok s';
  lo_statics : statics s' = statics s;
  lo_buses : buses s' = buses s;
  lo_coherent : coherent s → coherent s';
}.

Lemma load_config_wp s d d0 :
  pci_ok s → devs s !! n = Some d0 → sec_bus d0 = None → loadable d d0 →
  wp (put_pdev n (d0 <| config := config d |>);; pci_update_mappings n) (λ _ s', loaded d s s' ∧
    ∀ x, devs s' !! n = Some x → irq_state x = irq_state d0) s.
Proof.
  intros Hok Hd0 Hsec Hl. pose proof (po_static _ Hok) as Hs. pose proof (po_dyn _ Hok _ _ Hd0) as [_ _ Hirq _].
  set (d1 := d0 <| config := config d |>). assert (d_static d1 = d_static d0) as Est by (by destruct d0).
  assert (dev_dyn_ok d1) as Hdyn.
  { destruct Hl. split; [done..|]. cbn. rewrite Hsec. by intros []. }
  apply wp_bind, wp_put_pdev. assert (pci_ok (set_dev s n d1)) as Hok1 by (by eapply set_dev_ok).
  eapply wp_mono; [eapply pci_update_mappings_wp; [done|apply set_dev_eq]|]. intros [] s' (Hr&Hn&Hoth).
  pose proof (remap_statics _ _ Hr) as Es. rewrite (set_dev_statics s n d0 d1 Hd0 Est) in Es.
  destruct (remap_dev_fwd _ _ n d1 Hr (set_dev_eq s n d1)) as (d2&Hd2&Hdd).
  destruct (dev_remap_config _ _ Hdd) as [Ec Ei]. split; [split|].
  - exists d2. done.
  - intros m Hm. rewrite Hoth by done. cbn. by rewrite lookup_insert_ne.
  - by eapply remap_ok.
  - done.
  - by destruct Hr as [[-> _] _].
  - intros Hc m. destruct (decide (m = n)) as [->|Hm]; [done|].
    apply (remap_coherent _ _ m Hr); [by rewrite (set_dev_statics s n d0 d1 Hd0 Est)|by apply Hoth|].
    eapply set_dev_coherent_ne; [done|done|done|done| |apply Hc].
    intros x Hx Hf. destruct (feeds_sec s n _ Hs Hf) as (y&j&Hy&Hj&_). congruence.
  - intros x Hx. rewrite Hd2 in Hx. by apply (inj Some) in Hx as <-.
Qed.

(** *** The whole device *)

(** The part of loading up to the comparison of the fixed bits. *)
Lemma load_start_wp f s d d0 block rest (Q : Z * PciSys F → QEMUFile B → Prop) :
  read_ok f → devs s !! n = Some d0 → length (config d) = Z.to_nat (pci_config_size d0) →
  version_id d0 ≤ version_id d → int_ok (version_id d) → unread f = pci_bytes d ++ rest →
  (∀ f1, read_ok f1 → unread f1 = level_bytes d ++ rest →
    wp ('(ret, s) ← (if config_mismatch d0 (config d) (pci_config_size d0) then mret (- EINVAL, s) else
         '(_, s) ← on_sys (put_pdev n (d0 <| config := config d |>);; pci_update_mappings n) s; mret (0, s));
        if ret <? 0 then mret (ret, s) else
        load_fields 2 [Field None 2 (VInfo (put_pci_irq_state n) (get_pci_irq_state n))] s) Q f1) →
  wp (load_fields 2 (vm_fields (vmstate_pci n (pci_config_size d0) block)) s) Q f.
Proof.
  intros Hf Hd0 Hlen Hver Hint Hu HQ. unfold pci_bytes in Hu. rewrite <- !app_assoc in Hu.
  cbn [vmstate_pci vm_fields load_fields field_loaded vf_exists vf_version vf_data data_get]. change (0 <=? 2) with true. cbv iota.
  apply wp_bind, wp_bind, (wp_on_pdev s d0); [done|]. apply wp_bind. unfold get_int32_le. apply wp_bind.
  eapply wp_mono; [eapply (qemu_get_be32_wp f (u32 (version_id d))); [done|apply u32_in_w|exact Hu]|].
  intros v f1 (->&Hf1&Hu1). apply wp_ret, wp_ret. rewrite s32_u32 by done.
  destruct (Z.leb_spec (version_id d0) (version_id d)); [|lia]. change (0 <? 0) with false. cbv iota.
  pose proof (qemu_get_buffer_wp f1 _ _ Hf1 Hu1) as Hg. rewrite Hlen, Z2Nat.id in Hg by (pose proof (config_size_pos d0); lia).
  apply wp_bind. unfold get_pci_config_device. apply wp_bind, (wp_on_pdev s d0); [done|]. rewrite Z.eqb_refl. cbn [negb].
  apply wp_bind. eapply wp_mono; [exact Hg|]. intros bs f2 (->&Hf2&Hu2). cbv zeta.
  rewrite take_app_length' by done. exact (wp_bind_inv _ _ _ _ (HQ f2 Hf2 Hu2)).
Qed.

Lemma pci_load_wp f s d d0 block rest :
  read_ok f → pci_ok s → devs s !! n = Some d0 → sec_bus d0 = None → loadable d d0 → unread f = pci_bytes d ++ rest →
  wp (vmstate_load_state (vmstate_pci n (pci_config_size d0) block) s 2) (λ r f', r.1 = 0 ∧ read_ok f' ∧ unread f' = rest ∧
    loaded d s r.2 ∧ ∀ x, devs r.2 !! n = Some x → irq_state x = irq_state d) f.
Proof.
  intros Hf Hok Hd0 Hsec Hl Hu. unfold vmstate_load_state. cbn [vmstate_pci vm_version_id vm_minimum_version_id_old vm_minimum_version_id vm_pre_load vm_post_load].
  change (2 >? 2) with false. change (2 <? 1) with false. change (0 =? 0) with true. cbn [negb].
  apply wp_bind. eapply load_start_wp; [done|done|apply Hl|apply Hl|apply Hl|exact Hu|]. intros f1 Hf1 Hu1.
  rewrite (ld_match _ _ Hl). apply wp_bind, wp_bind, wp_on_sys. eapply wp_mono; [by apply load_config_wp|].
  intros [] s1 [[(d1&Hd1&Ec1) Hoth Hok1 Es1 Eb1 Hc1] Hirq]. apply wp_ret. change (0 <? 0) with false. cbv iota.
  cbn [load_fields field_loaded vf_exists vf_version vf_data data_get]. change (2 <=? 2) with true. cbv iota.
  apply wp_bind. unfold get_pci_irq_state. apply wp_bind. change PCI_NUM_PINS with (length irq_pins).
  eapply wp_mono; [by eapply get_levels_wp|]. intros o f2 (->&Hf2&Hu2). apply wp_bind, (wp_on_pdev s1 d1); [done|].
  pose proof (po_dyn _ Hok1 _ _ Hd1) as Hdyn1. rewrite set_levels_state by (apply Hdyn1 || apply Hl).
  set (d2 := d1 <| irq_state := irq_state d |>). assert (d_static d2 = d_static d1) as Est by (by destruct d1).
  apply wp_bind, wp_on_sys, wp_put_pdev, wp_ret. change (0 <? 0) with false. cbv iota. apply wp_ret, wp_ret.
  cbn [fst snd]. split_and!; try done; [split|].
  - exists d2. split; [apply set_dev_eq|done].
  - intros m Hm. cbn. by rewrite lookup_insert_ne, Hoth.
  - eapply set_dev_ok; [done..|]. destruct Hdyn1, Hl. by split.
  - by rewrite (set_dev_statics s1 n d1 d2).
  - done.
  - intros Hc m. by eapply set_dev_coherent; try done; apply Hc1.
  - intros x Hx. rewrite set_dev_eq in Hx. by apply (inj Some) in Hx as <-.
Qed.

(** State of another kind of device is refused. If a bit that the device's
    [cmask] fixes, such as one of its vendor and device numbers, its class or the
    type of a region, differs between the saved configuration space and the
    device's own, loading fails with [-EINVAL], and no register, region or interrupt
    of the PCI system has changed. *)
Theorem pci_load_rejects f s d d0 block rest :
  read_ok f → devs s !! n = Some d0 → length (config d) = Z.to_nat (pci_config_size d0) →
  version_id d0 ≤ version_id d → int_ok (version_id d) → unread f = pci_bytes d ++ rest →
  config_mismatch d0 (config d) (pci_config_size d0) = true →
  wp (vmstate_load_state (vmstate_pci n (pci_config_size d0) block) s 2) (λ r _, r = (- EINVAL, s)) f.
Proof.
  intros Hf Hd0 Hlen Hver Hint Hu Hm. unfold vmstate_load_state.
  cbn [vmstate_pci vm_version_id vm_minimum_version_id_old vm_minimum_version_id vm_pre_load vm_post_load].
  change (2 >? 2) with false. change (2 <? 1) with false. change (0 =? 0) with true. cbn [negb].
  apply wp_bind. eapply load_start_wp; [done..|]. intros f1 _ _. rewrite Hm. by apply wp_bind, wp_ret.
Qed.
End pci_vmstate_spec.
