(* ===== verification/VmState.v ===== *)
(** * Saving and restoring the device ([hw/e1000.c])

    The description [vmstate_e1000]: the PCI device and the card's own state. *)

From S2P Require Import Prelude Bytes Memory Pci PciSpec E1000Hw E1000State E1000Mmio SaveVm VmDesc PciVm.

(** ** The device's description *)

Definition is_version_1 (version_id : Z) : bool := version_id =? 1.

Section description.
Context {B : Type}.

Definition VMSTATE_SINGLE {S} (info : vminfo) (rd : S → Z) (wr : Z → S → S) : VMStateField B S :=
  Field None 0 (VScalars info 1 (λ s _, rd s) (λ _, wr)).

(** [VMSTATE_UINT32(mac_reg[i], E1000State)] and the sub-arrays. *)
Definition VMSTATE_REG (i : Z) : VMStateField B E1000State :=
  VMSTATE_SINGLE info_uint32 (λ s, reg s i) (λ v s, set_reg s i v).
Definition VMSTATE_REGS (start num : Z) : VMStateField B E1000State :=
  Field None 0 (VScalars info_uint32 (Z.to_nat num) (λ s i, reg s (start + Z.of_nat i))
    (λ i v s, set_reg s (start + Z.of_nat i) v)).

Definition vmstate_e1000_fields : list (VMStateField B E1000State) := [
  Field (Some is_version_1) 0 (VUnused 4);
  Field None 0 (VUnused 4);
  VMSTATE_SINGLE info_uint32 rxbuf_size (λ v s, s <| rxbuf_size := v |>);
  VMSTATE_SINGLE info_uint32 rxbuf_min_shift (λ v s, s <| rxbuf_min_shift := v |>);
  VMSTATE_SINGLE info_uint32 (λ s, val_in (eecd s)) (λ v s, s <| eecd ::= λ e, e <| val_in := v |> |>);
  VMSTATE_SINGLE info_uint16 (λ s, bitnum_in (eecd s)) (λ v s, s <| eecd ::= λ e, e <| bitnum_in := v |> |>);
  VMSTATE_SINGLE info_uint16 (λ s, bitnum_out (eecd s)) (λ v s, s <| eecd ::= λ e, e <| bitnum_out := v |> |>);
  VMSTATE_SINGLE info_uint16 (λ s, reading (eecd s)) (λ v s, s <| eecd ::= λ e, e <| reading := v |> |>);
  VMSTATE_SINGLE info_uint32 (λ s, old_eecd (eecd s)) (λ v s, s <| eecd ::= λ e, e <| old_eecd := v |> |>);
  VMSTATE_SINGLE info_uint8 (λ s, tx_ipcss (tx s)) (λ v s, s <| tx ::= λ t, t <| tx_ipcss := v |> |>);
  VMSTATE_SINGLE info_uint8 (λ s, tx_ipcso (tx s)) (λ v s, s <| tx ::= λ t, t <| tx_ipcso := v |> |>);
  VMSTATE_SINGLE info_uint16 (λ s, tx_ipcse (tx s)) (λ v s, s <| tx ::= λ t, t <| tx_ipcse := v |> |>);
  VMSTATE_SINGLE info_uint8 (λ s, tx_tucss (tx s)) (λ v s, s <| tx ::= λ t, t <| tx_tucss := v |> |>);
  VMSTATE_SINGLE info_uint8 (λ s, tx_tucso (tx s)) (λ v s, s <| tx ::= λ t, t <| tx_tucso := v |> |>);
  VMSTATE_SINGLE info_uint16 (λ s, tx_tucse (tx s)) (λ v s, s <| tx ::= λ t, t <| tx_tucse := v |> |>);
  VMSTATE_SINGLE info_uint32 (λ s, tx_paylen (tx s)) (λ v s, s <| tx ::= λ t, t <| tx_paylen := v |> |>);
  VMSTATE_SINGLE info_uint8 (λ s, tx_hdr_len (tx s)) (λ v s, s <| tx ::= λ t, t <| tx_hdr_len := v |> |>);
  VMSTATE_SINGLE info_uint16 (λ s, tx_mss (tx s)) (λ v s, s <| tx ::= λ t, t <| tx_mss := v |> |>);
  VMSTATE_SINGLE info_uint16 (λ s, tx_size (tx s)) (λ v s, s <| tx ::= λ t, t <| tx_size := v |> |>);
  VMSTATE_SINGLE info_uint16 (λ s, tx_tso_frames (tx s)) (λ v s, s <| tx ::= λ t, t <| tx_tso_frames := v |> |>);
  VMSTATE_SINGLE info_uint8 (λ s, tx_sum_needed (tx s)) (λ v s, s <| tx ::= λ t, t <| tx_sum_needed := v |> |>);
  VMSTATE_SINGLE info_int8 (λ s, tx_ip (tx s)) (λ v s, s <| tx ::= λ t, t <| tx_ip := v |> |>);
  VMSTATE_SINGLE info_int8 (λ s, tx_tcp (tx s)) (λ v s, s <| tx ::= λ t, t <| tx_tcp := v |> |>);
  Field None 0 (VBuffer 256 (λ s, tx_header (tx s)) (λ v s, s <| tx ::= λ t, t <| tx_header := v |> |>));
  Field None 0 (VBuffer (Z.to_nat 0x10000) (λ s, tx_data (tx s)) (λ v s, s <| tx ::= λ t, t <| tx_data := v |> |>));
  Field None 0 (VScalars info_uint16 64 (λ s i, arr (eeprom_data s) (Z.of_nat i))
    (λ i v s, s <| eeprom_data ::= <[i := v]> |>));
  Field None 0 (VScalars info_uint16 32 (λ s i, arr (phy_reg s) (Z.of_nat i))
    (λ i v s, s <| phy_reg ::= <[i := v]> |>));
  VMSTATE_REG CTRL; VMSTATE_REG EECD; VMSTATE_REG EERD; VMSTATE_REG GPRC; VMSTATE_REG GPTC;
  VMSTATE_REG ICR; VMSTATE_REG ICS; VMSTATE_REG IMC; VMSTATE_REG IMS; VMSTATE_REG LEDCTL;
  VMSTATE_REG MANC; VMSTATE_REG MDIC; VMSTATE_REG MPC; VMSTATE_REG PBA; VMSTATE_REG RCTL;
  VMSTATE_REG RDBAH; VMSTATE_REG RDBAL; VMSTATE_REG RDH; VMSTATE_REG RDLEN; VMSTATE_REG RDT;
  VMSTATE_REG STATUS; VMSTATE_REG SWSM; VMSTATE_REG TCTL; VMSTATE_REG TDBAH; VMSTATE_REG TDBAL;
  VMSTATE_REG TDH; VMSTATE_REG TDLEN; VMSTATE_REG TDT; VMSTATE_REG TORH; VMSTATE_REG TORL;
  VMSTATE_REG TOTH; VMSTATE_REG TOTL; VMSTATE_REG TPR; VMSTATE_REG TPT; VMSTATE_REG TXDCTL;
  VMSTATE_REG WUFC; VMSTATE_REG VET;
  VMSTATE_REGS RA 32;
  VMSTATE_REGS MTA 128;
  VMSTATE_REGS VFTA 128].

End description.

(** A field of a part of a structure. *)
Definition data_on {B S T} (part : T → S) (set : S → T → T) (d : vmdata B S) : vmdata B T :=
  match d with
  | VScalars info num rd wr => VScalars info num (λ t, rd (part t)) (λ i v t, set (wr i v (part t)) t)
  | VBuffer size rd wr => VBuffer size (λ t, rd (part t)) (λ v t, set (wr v (part t)) t)
  | VUnused size => VUnused size
  | VInfo put get => VInfo (λ t, put (part t)) (λ t, '(r, s) ← get (part t); mret (r, set s t))
  end.
Definition field_on {B S T} (part : T → S) (set : S → T → T) (fld : VMStateField B S) : VMStateField B T :=
  Field (vf_exists fld) (vf_version fld) (data_on part set (vf_data fld)).

(** [VMSTATE_PCI_DEVICE]: a structure with a description of its own. *)
Definition VMSTATE_PCI_DEVICE {B F} `{MapFuncs F} (n : nat) (block : list Z) : VMStateField B (PciSys F) :=
  Field None 0 (VInfo (vmstate_save_state (vmstate_pci_device n block))
                      (λ s, vmstate_load_state (vmstate_pci_device n block) s (vm_version_id (B := B) (vmstate_pci_device n block)))).

(** The state is the PCI system, in which the card is device [n], and the rest of
    the card. *)
Definition vmstate_e1000 {B F} `{MapFuncs F} (n : nat) (block : list Z) : VMStateDescription B (PciSys F * E1000State) := {|
  vm_version_id := 2; vm_minimum_version_id := 1; vm_minimum_version_id_old := 1;
  vm_pre_save := None; vm_pre_load := None; vm_post_load := None;
  vm_fields := field_on fst (λ s t, (s, t.2)) (VMSTATE_PCI_DEVICE n block) ::
               map (field_on snd (λ e t, (t.1, e))) vmstate_e1000_fields |}.

(** ** Parts *)

Section parts.
Context {B F : Type}.
Abbreviation on_card := (field_on (B := B) snd (λ e (t : PciSys F * E1000State), (t.1, e))).

Lemma data_bytes_on (d : vmdata B E1000State) (t : PciSys F * E1000State) : data_bytes (vf_data (on_card (Field None 0 d))) t = data_bytes d t.2.
Proof. by destruct d. Qed.
Lemma fields_bytes_on v fs (t : PciSys F * E1000State) : fields_bytes v (map on_card fs) t = fields_bytes v fs t.2.
Proof. induction fs as [|[e w d] fs IH]; cbn; [done|]. rewrite IH. unfold field_saved. cbn. by destruct d. Qed.
Lemma data_ok_on (d : vmdata B E1000State) (t : PciSys F * E1000State) : data_ok (data_on snd (λ e (t : PciSys F * E1000State), (t.1, e)) d) t ↔ data_ok d t.2.
Proof. by destruct d. Qed.
Lemma data_copy_on (d : vmdata B E1000State) (t t0 : PciSys F * E1000State) :
  data_copy (data_on snd (λ e (t : PciSys F * E1000State), (t.1, e)) d) t t0 = (t0.1, data_copy d t.2 t0.2).
Proof.
  destruct d as [info num rd wr| | |]; cbn; try by destruct t0.
  generalize (seq 0 num). intros l. revert t0. induction l as [|i l IH]; intros t0; cbn; [by destruct t0|]. by rewrite IH.
Qed.
Lemma fields_copy_on v fs (t t0 : PciSys F * E1000State) :
  fields_copy v (map on_card fs) t t0 = (t0.1, fields_copy v fs t.2 t0.2).
Proof.
  revert t0. induction fs as [|[e w d] fs IH]; intros t0; cbn [map fields_copy]; [by destruct t0|].
  rewrite IH. unfold field_saved. cbn [field_on vf_exists vf_data]. rewrite data_copy_on. by repeat case_match.
Qed.
End parts.

(** ** The device *)

Definition vmstate_single_regs : list Z := [
  CTRL; EECD; EERD; GPRC; GPTC; ICR; ICS; IMC; IMS; LEDCTL; MANC; MDIC; MPC; PBA; RCTL; RDBAH;
  RDBAL; RDH; RDLEN; RDT; STATUS; SWSM; TCTL; TDBAH; TDBAL; TDH; TDLEN; TDT; TORH; TORL; TOTH;
  TOTL; TPR; TPT; TXDCTL; WUFC; VET].

Definition reg_range (start num : Z) : list Z :=
  map (λ i, start + Z.of_nat i) (seq 0 (Z.to_nat num)).

(** The registers that are saved. *)
Definition vmstate_regs : list Z :=
  vmstate_single_regs ++ reg_range RA 32 ++ reg_range MTA 128 ++ reg_range VFTA 128.

Definition copy_regs (l : list Z) (s s0 : E1000State) : E1000State :=
  foldl (λ s0 i, set_reg s0 i (reg s i)) s0 l.

Lemma copy_regs_app l1 l2 s s0 : copy_regs (l1 ++ l2) s s0 = copy_regs l2 s (copy_regs l1 s s0).
Proof. apply foldl_app. Qed.

Lemma copy_regs_reg l s s0 i :
  reg (copy_regs l s s0) i = if decide (i ∈ l) then reg s i else reg s0 i.
Proof.
  revert s0. induction l as [|j l IH]; intros s0; [done|]. cbn [copy_regs foldl].
  fold (copy_regs l s (set_reg s0 j (reg s j))). rewrite IH, reg_set.
  repeat case_decide; set_solver.
Qed.

Lemma copy_regs_rest l s s0 : ∃ m, copy_regs l s s0 = s0 <| mac_reg := m |>.
Proof.
  revert s0. induction l as [|j l IH]; intros s0; [exists (mac_reg s0); by destruct s0|].
  cbn [copy_regs foldl]. fold (copy_regs l s (set_reg s0 j (reg s j))).
  destruct (IH (set_reg s0 j (reg s j))) as [m ->]. by exists m.
Qed.

Section copying.
Context {B : Type}.
Implicit Types s : E1000State.

Lemma fields_copy_app {S} v (l1 l2 : list (VMStateField B S)) (s s0 : S) :
  fields_copy v (l1 ++ l2) s s0 = fields_copy v l2 s (fields_copy v l1 s s0).
Proof. revert s0. induction l1 as [|fld l1 IH]; intros s0; cbn; [done|]. by rewrite IH. Qed.

Lemma fields_copy_regs v l s s0 : fields_copy v (map (VMSTATE_REG (B := B)) l) s s0 = copy_regs l s s0.
Proof. revert s0. induction l as [|i l IH]; intros s0; cbn; [done|]. by rewrite IH. Qed.

Lemma data_copy_regs start num s s0 :
  data_copy (vf_data (VMSTATE_REGS (B := B) start num)) s s0 = copy_regs (reg_range start num) s s0.
Proof.
  unfold copy_regs, reg_range. cbn [VMSTATE_REGS vf_data data_copy].
  generalize (seq 0 (Z.to_nat num)). intros l. revert s0.
  induction l as [|i l IH]; intros s0; cbn; [done|]. by rewrite IH.
Qed.

(** Copying an array element by element. *)
Lemma copy_elems (l l0 : list Z) n :
  length l0 = length l → (n ≤ length l)%nat →
  foldl (λ l0 i, <[i := arr l (Z.of_nat i)]> l0) l0 (seq 0 n) = take n l ++ drop n l0.
Proof.
  intros Hl. induction n as [|n IH]; intros Hn; [by rewrite take_0, drop_0|].
  rewrite seq_S, foldl_app, IH by lia. cbn [foldl]. rewrite Nat.add_0_l.
  destruct (lookup_lt_is_Some_2 l n) as [x Hx]; [lia|].
  destruct (lookup_lt_is_Some_2 l0 n) as [y Hy]; [lia|].
  rewrite (drop_S _ _ _ Hy), (take_S_r _ _ _ Hx).
  rewrite insert_app_r_alt by (rewrite length_take; lia).
  rewrite length_take, Nat.min_l, Nat.sub_diag by lia. cbn [insert list_insert].
  unfold arr. by rewrite Nat2Z.id, Hx, <- app_assoc.
Qed.

Lemma copy_array (l l0 : list Z) n :
  length l0 = n → length l = n →
  foldl (λ l0 i, <[i := arr l (Z.of_nat i)]> l0) l0 (seq 0 n) = l.
Proof.
  intros H0 H1. rewrite copy_elems by lia. rewrite drop_ge, take_ge by lia. apply app_nil_r.
Qed.

Lemma foldl_eeprom h ids s0 :
  foldl (λ s i, s <| eeprom_data ::= h i |>) s0 ids =
    s0 <| eeprom_data := foldl (λ l (i : nat), h i l) (eeprom_data s0) ids |>.
Proof. revert s0. induction ids as [|i l IH]; intros s0; [by destruct s0|]. cbn. by rewrite IH. Qed.
Lemma foldl_phy h ids s0 :
  foldl (λ s i, s <| phy_reg ::= h i |>) s0 ids =
    s0 <| phy_reg := foldl (λ l (i : nat), h i l) (phy_reg s0) ids |>.
Proof. revert s0. induction ids as [|i l IH]; intros s0; [by destruct s0|]. cbn. by rewrite IH. Qed.

(** What restoring [s] into a device in state [s0] gives. *)
Record migrated (s s0 s' : E1000State) : Prop := {
  mig_reg : ∀ i, reg s' i = if decide (i ∈ vmstate_regs) then reg s i else reg s0 i;
  mig_phy : phy_reg s' = phy_reg s;
  mig_eeprom : eeprom_data s' = eeprom_data s;
  mig_rxbuf : rxbuf_size s' = rxbuf_size s ∧ rxbuf_min_shift s' = rxbuf_min_shift s;
  mig_eecd : eecd s' = eecd s;
  mig_tx : tx s' = tx s <| tx_vlan_header := tx_vlan_header (tx s0) |> <| tx_vlan := tx_vlan (tx s0) |>
    <| tx_vlan_needed := tx_vlan_needed (tx s0) |> <| tx_tse := tx_tse (tx s0) |>
    <| tx_cptse := tx_cptse (tx s0) |>;
  mig_rest : irq s' = irq s0 ∧ check_rxov s' = check_rxov s0 ∧ fs s' = fs s0;
}.

(** The fields other than arrays and registers. *)
Definition scalars_copy (s s0 : E1000State) : E1000State :=
  s0 <| rxbuf_size := rxbuf_size s |> <| rxbuf_min_shift := rxbuf_min_shift s |> <| eecd := eecd s |>
     <| tx := tx s <| tx_vlan_header := tx_vlan_header (tx s0) |> <| tx_vlan := tx_vlan (tx s0) |>
          <| tx_vlan_needed := tx_vlan_needed (tx s0) |> <| tx_tse := tx_tse (tx s0) |>
          <| tx_cptse := tx_cptse (tx s0) |> |>.

Lemma fields_copy_scalars s s0 :
  fields_copy 2 (take 25 (vmstate_e1000_fields (B := B))) s s0 = scalars_copy s s0.
Proof.
  destruct s as [i r p e z h c t f [e1 e2 e3 e4 e5]], s0 as [i' r' p' e' z' h' c' t' f' e0'].
  destruct t, t', e0'. vm_compute. reflexivity.
Qed.

Lemma fields_copy_arrays s s0 :
  length (phy_reg s) = 32%nat → length (phy_reg s0) = 32%nat →
  length (eeprom_data s) = 64%nat → length (eeprom_data s0) = 64%nat →
  fields_copy 2 (take 2 (drop 25 (vmstate_e1000_fields (B := B)))) s s0 =
    s0 <| eeprom_data := eeprom_data s |> <| phy_reg := phy_reg s |>.
Proof.
  intros Hp Hp0 He He0. unfold vmstate_e1000_fields.
  cbn [take drop skipn firstn fields_copy field_saved vf_exists vf_data data_copy].
  rewrite foldl_phy, foldl_eeprom. cbn [phy_reg update]. by rewrite !copy_array.
Qed.

Lemma fields_copy_device s s0 :
  length (phy_reg s) = 32%nat → length (phy_reg s0) = 32%nat →
  length (eeprom_data s) = 64%nat → length (eeprom_data s0) = 64%nat →
  migrated s s0 (fields_copy 2 (vmstate_e1000_fields (B := B)) s s0).
Proof.
  intros Hp Hp0 He He0.
  change (vmstate_e1000_fields (B := B)) with (take 25 (vmstate_e1000_fields (B := B)) ++
    take 2 (drop 25 vmstate_e1000_fields) ++ map VMSTATE_REG vmstate_single_regs ++ [VMSTATE_REGS RA 32; VMSTATE_REGS MTA 128; VMSTATE_REGS VFTA 128]).
  rewrite !fields_copy_app, fields_copy_regs, fields_copy_scalars, fields_copy_arrays by done.
  cbn [fields_copy field_saved VMSTATE_REGS vf_exists].
  rewrite !data_copy_regs, <- !copy_regs_app. fold vmstate_regs.
  set (s1 := update _ _). destruct (copy_regs_rest vmstate_regs s s1) as [m Hm].
  split; try (rewrite Hm; done). intros i. by rewrite copy_regs_reg.
Qed.

Lemma e1000_fields_ok s :
  dev_ok s → Forall (λ fld, vf_version fld ≤ 2 ∧ data_ok (vf_data fld) s) (vmstate_e1000_fields (B := B)).
Proof.
  intros [Hreg [Hpl Hp] [Hel He] [Hr1 Hr2] [[Hh _] _ _ [Hd _] H8 H16 H32] [E32 E16]].
  repeat match goal with H : Forall _ (_ :: _) |- _ => apply Forall_cons_iff in H as [? ?] end.
  assert (∀ start num, data_ok (vf_data (VMSTATE_REGS (B := B) start num)) s) as Hregs.
  { intros start num. apply Forall_forall. intros i _. apply Hreg. }
  assert (∀ info rd wr, info_ok info (rd s) → data_ok (vf_data (VMSTATE_SINGLE (B := B) info rd wr)) s) as Hone.
  { intros. by repeat constructor. }
  assert (∀ l n, Forall (in_w 16) l → Forall (λ i, in_w 16 (arr l (Z.of_nat i))) (seq 0 n)) as Harr.
  { intros l n Hl. apply Forall_forall. intros i _. by apply arr_in_w. }
  assert (∀ z, 0 ≤ z ≤ 16384 → in_w 32 z) as Hsmall by (unfold in_w; lia).
  unfold vmstate_e1000_fields.
  repeat match goal with |- Forall _ (_ :: _) => apply Forall_cons; [split; [cbn; lia|]|] end;
    [..|apply Forall_nil];
    match goal with
    | |- data_ok (vf_data (VMSTATE_REGS _ _)) _ => apply Hregs
    | |- data_ok (vf_data (VMSTATE_REG _)) _ => apply Hone, Hreg
    | |- data_ok (vf_data (VMSTATE_SINGLE _ _ _)) _ =>
        apply Hone; cbn [info_ok]; first [assumption | apply Hsmall; lia]
    | |- data_ok (vf_data (Field _ _ (VScalars _ _ _ _))) _ => by apply Harr
    | |- _ => first [exact I | exact Hh | exact Hd]
    end.
Qed.

End copying.

Section saved.
Context {B F : Type} `{ByteStore B} `{MapFuncs F} (n : nat) (block : list Z).
Abbreviation desc := (vmstate_e1000 (B := B) (F := F) n block).
Abbreviation card_fields := (map (field_on snd (λ e (t : PciSys F * E1000State), (t.1, e))) (vmstate_e1000_fields (B := B))).

Lemma card_fields_ok (s : PciSys F) e :
  dev_ok e → Forall (λ fld, vf_version fld ≤ 2 ∧ data_ok (vf_data fld) (s, e)) card_fields.
Proof.
  intros He. apply Forall_fmap. eapply Forall_impl; [|apply (e1000_fields_ok e He)].
  intros fld [Hv Hd]. split; [done|]. by apply data_ok_on.
Qed.

Lemma e1000_save_wp f (s : PciSys F) e d :
  write_ok f → dev_ok e → devs s !! n = Some d → pci_is_express d = false → length (config d) = 256%nat →
  wp (vmstate_save_state desc (s, e)) (λ _ f', write_ok f' ∧
    written f' = written f ++ pci_bytes d ++ fields_bytes 2 (vmstate_e1000_fields (B := B)) e) f.
Proof.
  intros Hf He Hd Hx Hlen. unfold vmstate_save_state. cbn [vmstate_e1000 vm_pre_save vm_version_id vm_fields].
  assert (pci_config_size d = PCI_CONFIG_SPACE_SIZE) as Esz by (unfold pci_config_size; by rewrite Hx).
  cbn [save_fields field_saved field_on vf_exists VMSTATE_PCI_DEVICE vf_data data_on data_put fst]. apply wp_bind.
  unfold vmstate_pci_device. rewrite <- Esz.
  eapply wp_mono; [apply (pci_save_wp n f s d block Hf Hd); by rewrite Esz|]. intros [] f1 [Hf1 Hw1].
  eapply wp_mono; [apply save_fields_wp; [done|]|].
  - eapply Forall_impl; [|apply (card_fields_ok s e He)]. by intros fld [_ Hd'] _.
  - intros [] f2 [Hf2 Hw2]. split; [done|]. by rewrite Hw2, Hw1, fields_bytes_on, <- app_assoc.
Qed.

Lemma e1000_load_wp f (s0 : PciSys F) e e0 d d0 rest :
  read_ok f → dev_ok e → pci_ok s0 → devs s0 !! n = Some d0 → sec_bus d0 = None → pci_is_express d0 = false →
  loadable d d0 → unread f = pci_bytes d ++ fields_bytes 2 (vmstate_e1000_fields (B := B)) e ++ rest →
  wp (vmstate_load_state desc (s0, e0) 2) (λ r f', r.1 = 0 ∧ r.2.2 = fields_copy 2 (vmstate_e1000_fields (B := B)) e e0 ∧
    read_ok f' ∧ unread f' = rest ∧ loaded n d s0 r.2.1 ∧ ∀ x, devs r.2.1 !! n = Some x → irq_state x = irq_state d) f.
Proof.
  intros Hf He Hok Hd0 Hsec Hx Hl Hu. unfold vmstate_load_state.
  cbn [vmstate_e1000 vm_version_id vm_minimum_version_id_old vm_minimum_version_id vm_pre_load vm_post_load vm_fields].
  change (2 >? 2) with false. change (2 <? 1) with false. change (0 =? 0) with true. cbn [negb].
  assert (pci_config_size d0 = PCI_CONFIG_SPACE_SIZE) as Esz by (unfold pci_config_size; by rewrite Hx).
  cbn [load_fields field_loaded field_on vf_exists vf_version VMSTATE_PCI_DEVICE vf_data data_on data_get fst].
  change (0 <=? 2) with true. cbv iota. apply wp_bind, wp_bind, wp_bind.
  unfold vmstate_pci_device. cbn [vmstate_pci vm_version_id]. fold (vmstate_pci (B := B) (F := F) n PCI_CONFIG_SPACE_SIZE block).
  rewrite <- Esz. eapply wp_mono; [by eapply pci_load_wp|].
  intros [r s1] f1 (Hr&Hf1&Hu1&Hlo&Hirq). cbn [fst snd] in *. subst r. apply wp_ret. change (0 <? 0) with false. cbv iota.
  rewrite <- (fields_bytes_on 2 _ (s0, e)) in Hu1.
  eapply wp_mono; [eapply load_fields_wp; [done|apply (card_fields_ok s0 e He)|exact Hu1]|].
  intros r f2 (->&Hf2&Hu2). change (0 <? 0) with false. cbv iota. apply wp_ret. rewrite fields_copy_on. done.
Qed.
End saved.

(** Saving and loading a card. *)
Lemma e1000_roundtrip {B F : Type} `{ByteStore B} `{MapFuncs F} n block (b : B) (s s0 : PciSys F) d d0 e e0 :
  bs_content b = [] → dev_ok e → dev_ok e0 → devs s !! n = Some d → pci_is_express d = false →
  pci_ok s0 → devs s0 !! n = Some d0 → sec_bus d0 = None → pci_is_express d0 = false → loadable d d0 →
  ∃ f f' s' e',
    (vmstate_save_state (vmstate_e1000 n block) (s, e);; qemu_fflush) (qemu_fopen_ops b (Some bs_put) None) = Ret () f ∧
    vmstate_load_state (vmstate_e1000 n block) (s0, e0) 2 (qemu_fopen_ops (opaque f) None (Some bs_get)) =
      Ret (0, (s', e')) f' ∧ unread f' = [] ∧ migrated e e0 e' ∧ loaded n d s0 s' ∧
    ∀ x, devs s' !! n = Some x → irq_state x = irq_state d.
Proof.
  intros Hb He He0 Hd Hx Hok Hd0 Hsec Hx0 Hl. destruct (fopen_write_ok b None Hb) as [Hf0 Hw0].
  assert (length (config d) = 256%nat) as Hlen by (rewrite (ld_size _ _ Hl); unfold pci_config_size; by rewrite Hx0).
  destruct (wp_unit (vmstate_save_state (vmstate_e1000 n block) (s, e);; qemu_fflush)
    (λ f, bs_content (opaque f) = pci_bytes d ++ fields_bytes 2 (vmstate_e1000_fields (B := B)) e)
    (qemu_fopen_ops b (Some bs_put) None)) as (f&Ef&Hf).
  { apply wp_bind. eapply wp_mono; [by eapply e1000_save_wp|]. intros [] f1 [Hf1 Hw1].
    eapply wp_mono; [apply fflush_written, Hf1|]. intros _ f2 ->. by rewrite Hw1, Hw0. }
  destruct (fopen_read_ok (opaque f) None) as [Hr Hu]. rewrite Hf in Hu.
  pose proof (e1000_load_wp n block _ s0 e e0 d d0 [] Hr He Hok Hd0 Hsec Hx0 Hl) as Hload.
  rewrite app_nil_r in Hload. specialize (Hload Hu).
  apply wp_Ret in Hload as ([r [s' e']]&f'&El&Er&Ee&_&Hun&Hlo&Hirq). cbn [fst snd] in *. subst r.
  exists f, f', s', e'. split_and!; [exact Ef|exact El|exact Hun| |exact Hlo|exact Hirq].
  rewrite Ee. apply fields_copy_device; [apply He|apply He0|apply He|apply He0].
Qed.

(** C11: the card saved through the buffered file and loaded from the bytes the
    backend then holds into the card of any other machine is restored: loading
    succeeds and consumes exactly what was saved; every register in the description
    and all EEPROM, PHY and transmit context fields in it have the saved values, and
    exactly the parts that are not in the description keep the values of the card
    it was loaded into. The PCI configuration space and the interrupt pins are the
    saved ones, the regions are mapped where the restored registers place them, and
    the PCI system stays well-formed with every other device as it was. *)
Theorem vmstate_e1000_roundtrip {B F : Type} `{ByteStore B} `{MapFuncs F} n block (b : B) (s s0 : PciSys F) d d0 e e0 :
  bs_content b = [] → dev_ok e → dev_ok e0 → devs s !! n = Some d → pci_is_express d = false →
  pci_ok s0 → devs s0 !! n = Some d0 → sec_bus d0 = None → pci_is_express d0 = false → loadable d d0 →
  ∃ f f' s' e',
    (vmstate_save_state (vmstate_e1000 n block) (s, e);; qemu_fflush) (qemu_fopen_ops b (Some bs_put) None) = Ret () f ∧
    vmstate_load_state (vmstate_e1000 n block) (s0, e0) 2 (qemu_fopen_ops (opaque f) None (Some bs_get)) =
      Ret (0, (s', e')) f' ∧ unread f' = [] ∧ migrated e e0 e' ∧ loaded n d s0 s' ∧
    ∀ x, devs s' !! n = Some x → irq_state x = irq_state d.
Proof. apply e1000_roundtrip. Qed.

(** The registers of the admin queue are not among the saved ones: whatever
    state is restored into a device that was reset, its admin queue registers
    read 0 afterwards, so a migrated guest loses its queue. *)
Theorem vmstate_omits_admin_queue s mac s' i :
  migrated s (e1000_power_on mac) s' → i ∈ [PF_ATQBAL; PF_ATQBAH; PF_ATQLEN; PF_ATQH; PF_ATQT] →
  reg s' i = 0.
Proof.
  intros Hm Hi. rewrite (mig_reg _ _ _ Hm).
  change (reg (e1000_power_on mac) i) with (default 0 ((list_to_map mac_reg_init : gmap Z Z) !! i)).
  rewrite !elem_of_cons in Hi. destruct Hi as [-> |[-> |[-> |[-> |[-> |[]%not_elem_of_nil]]]]];
    vm_compute; reflexivity.
Qed.
