(* ===== verification/E1000Life.v ===== *)
(** * The life of a card ([hw/e1000.c], [hw/pci.c])

    Everything that happens to the cards of a machine: operations, configuration
    accesses, resets of a card or of a bus, cards that come and go, and the state of a
    card being replaced by one that was saved before, in this machine or in another. *)

From S2P Require Import Prelude Bytes Memory E1000Hw AqSpec E1000State E1000Tx E1000Rx AdminQ E1000Mmio E1000Inv Pci PciSpec PciInv PciCfg PciReset PciGuest PciIrq PciAdd PciHot E1000Pci CardIrq SaveVm VmDesc PciVm VmState.

(** ** A state that is loaded *)

Lemma migrated_reg s s0 s' i : migrated s s0 s' → i ∈ vmstate_regs → reg s' i = reg s i.
Proof. intros Hm Hi. by rewrite (mig_reg _ _ _ Hm), decide_True. Qed.

Lemma migrated_tx s s0 : tx_ok (tx s) → tx_ok (tx s0) →
  tx_ok (tx s <| tx_vlan_header := tx_vlan_header (tx s0) |> <| tx_vlan := tx_vlan (tx s0) |>
    <| tx_vlan_needed := tx_vlan_needed (tx s0) |> <| tx_tse := tx_tse (tx s0) |>
    <| tx_cptse := tx_cptse (tx s0) |>).
Proof.
  intros [H1 H2 H3 H4 H5 H6 H7] [G1 G2 G3 G4 G5 G6 G7]. split; try done; cbn.
  rewrite ?Forall_cons_iff in *. by destruct_and!; split_and!.
Qed.

(** The registers of the interrupts are saved, and the level of the pin with the PCI
    device: the loaded card is as consistent as the saved one. *)
Lemma migrated_inv s s0 s' : dev_inv s → dev_inv s0 → migrated s s0 s' → dev_inv (s' <| irq := irq s |>).
Proof.
  intros [Hs Hi] [Hs0 _] Hm. pose proof Hm as [Hreg Hphy Hee [Hr1 Hr2] Hecd Htx _]. split.
  - split; cbn.
    + intros i. change (in_w 32 (reg s' i)). rewrite Hreg. case_decide; [apply Hs|apply Hs0].
    + rewrite Hphy. apply Hs.
    + rewrite Hee. apply Hs.
    + rewrite Hr1, Hr2. apply Hs.
    + rewrite Htx. apply migrated_tx; [apply Hs|apply Hs0].
    + rewrite Hecd. apply Hs.
  - assert (∀ i, i ∈ [IMS; ICR; ICS] → reg (s' <| irq := irq s |>) i = reg s i) as Hr.
    { intros i Hin. change (reg s' i = reg s i). apply (migrated_reg s s0 s' i Hm), elem_of_app. left. set_solver. }
    apply (irq_ok_frame s); [done|apply Hr; set_solver..|exact Hi].
Qed.

Section life.
Context {B X P : Type} `{ByteStore B} `{PhysMemLaws X} `{MsgLink P}.
Implicit Types (b : board X P).

(** ** Reachable machines *)

(** A machine without cards, in which no pin is raised. *)
Definition no_cards b : Prop :=
  pci_ok (pci b) ∧ cards b = ∅ ∧ ∀ n d, devs (pci b) !! n = Some d → irq_state d = 0.

(** The card is loaded from a file; its level is the one of the PCI device. *)
Definition card_load (n : nat) (block : list Z) (f : QEMUFile B) b : option (board X P) :=
  match cards b !! n with
  | None => None
  | Some e0 =>
      match vmstate_load_state (vmstate_e1000 n block) (pci b, e0) 2 f with
      | Ret (r, (s', e')) _ =>
          if r =? 0 then Some (b <| pci := s' |> <| cards ::= <[n := pin_of s' n e']> |>) else None
      | _ => None
      end
  end.

(** The bytes that saving the card leaves in the backend. *)
Definition card_save (n : nat) (block : list Z) (store : B) b : option B :=
  match cards b !! n with
  | None => None
  | Some e =>
      match (vmstate_save_state (vmstate_e1000 n block) (pci b, e);; qemu_fflush)
          (qemu_fopen_ops store (Some bs_put) None) with
      | Ret _ f => Some (opaque f)
      | _ => None
      end
  end.

Inductive reachable : board X P → Prop :=
| reach_start b : no_cards b → reachable b
| reach_act b b' a : reachable b → act_possible b a → run_board_act a b = Ret () b' → reachable b'
| reach_load b b1 b' n block store saved d d1 :
    reachable b → reachable b1 → devs (pci b) !! n = Some d → devs (pci b1) !! n = Some d1 →
    pci_is_express d = false → pci_is_express d1 = false → loadable d1 d →
    bs_content store = [] → card_save n block store b1 = Some saved →
    card_load n block (qemu_fopen_ops saved None (Some bs_get)) b = Some b' → reachable b'.

(** ** The invariant *)

Lemma no_cards_ok b : no_cards b → pins_ok b.
Proof.
  intros (Hok&Hc&Hd). split; [done|..]; rewrite Hc; [done|]. intros n d Hn. unfold dev_agrees.
  rewrite lookup_empty. eauto.
Qed.

Lemma card_load_ok b b1 b' n block store saved d d1 :
  pins_ok b → pins_ok b1 → devs (pci b) !! n = Some d → devs (pci b1) !! n = Some d1 →
  pci_is_express d = false → pci_is_express d1 = false → loadable d1 d →
  bs_content store = [] → card_save n block store b1 = Some saved →
  card_load n block (qemu_fopen_ops saved None (Some bs_get)) b = Some b' → pins_ok b'.
Proof.
  intros Hb Hb1 Hd Hd1 Hx Hx1 Hl Hst Hsave Hload. unfold card_save in Hsave. unfold card_load in Hload.
  destruct (cards b1 !! n) as [e|] eqn:He; [|done]. destruct (cards b !! n) as [e0|] eqn:He0; [|done].
  destruct (card_dev b1 n e Hb1 He) as (Hinv&y&Hy&_&Hlev). rewrite Hd1 in Hy. apply (inj Some) in Hy as <-.
  destruct (card_dev b n e0 Hb He0) as (Hinv0&y&Hy&Hsec&_). rewrite Hd in Hy. apply (inj Some) in Hy as <-.
  destruct (e1000_roundtrip n block store (pci b1) (pci b) d1 d e e0 Hst (proj1 Hinv) (proj1 Hinv0) Hd1 Hx1 (bk_ok _ Hb) Hd Hsec Hx Hl)
    as (f&f'&s'&e'&Ef&El&_&Hm&Hlo&Hirq).
  rewrite Ef in Hsave. apply (inj Some) in Hsave as <-. rewrite El in Hload. cbn in Hload. apply (inj Some) in Hload as <-.
  destruct (lo_dev _ _ _ _ Hlo) as (d'&Hd'&_). pose proof (Hirq d' Hd') as Ei. rewrite Hlev in Ei.
  assert (pin_of s' n e' = e' <| irq := irq e |>) as Epin.
  { unfold pin_of. by rewrite Hd', Ei, b2z_bit by lia. }
  split; cbn; rewrite ?Epin.
  - apply Hlo.
  - intros m c [[<- <-]|[Hne Hc]]%lookup_insert_Some.
    + split; [by eapply migrated_inv|eauto].
    + destruct (bk_cards _ Hb m c Hc) as [? Hm']. split; [done|]. by rewrite (lo_other _ _ _ _ Hlo) by done.
  - intros m x Hx'. unfold dev_agrees. destruct (decide (m = n)) as [->|Hne].
    + rewrite lookup_insert_eq. rewrite Hd' in Hx'. apply (inj Some) in Hx' as <-. cbn. split; [|done].
      by rewrite (statics_sec _ _ n d d' (lo_statics _ _ _ _ Hlo) Hd Hd').
    + rewrite lookup_insert_ne by done. rewrite (lo_other _ _ _ _ Hlo) in Hx' by done. by apply (bk_agrees _ Hb).
Qed.

Lemma reachable_ok b : reachable b → pins_ok b.
Proof.
  induction 1 as [b Hb|b b' a _ IH Ha Hr|b b1 b' n block store saved d d1 _ IH _ IH1 Hd Hd1 Hx Hx1 Hl Hst Hs Hld].
  - by apply no_cards_ok.
  - apply (act_keeps _ _ _ IH Ha Hr).
  - exact (card_load_ok b b1 b' n block store saved d d1 IH IH1 Hd Hd1 Hx Hx1 Hl Hst Hs Hld).
Qed.

(** C3: start with a machine without cards and let cards come and go, let them do
    anything (register accesses of every width, transmission, admin queue commands,
    reception, link changes), let the guest access their configuration registers, let
    cards and buses be reset at any time, and let the state of a card be loaded from
    what any such machine saved. In every state that is reached and for every card, all
    fields hold values of their C types, both cause registers agree, a pending cause has
    the asserted bit, and the interrupt pin of the card's PCI device is raised exactly
    when an unmasked cause is pending; the other pins are low. (The pin of the device;
    what the line of the root bus makes of it is the subject of [CardIrq].) *)
Theorem device_invariant b n c :
  reachable b → cards b !! n = Some c →
  dev_ok c ∧ reg c ICS = reg c ICR ∧
  (reg c ICR ≠ 0 → has_bits (reg c ICR) E1000_ICR_INT_ASSERTED = true) ∧
  ∃ d, devs (pci b) !! n = Some d ∧ irq_state d = Z.b2z (has_bits (reg c IMS) (reg c ICR)).
Proof.
  intros Hr Hc. destruct (card_dev b n c (reachable_ok b Hr) Hc) as ([Hok [Hline Hics Hass]]&d&Hd&_&Hi).
  split_and!; [done..|]. exists d. by rewrite Hi, Hline.
Qed.
End life.
