(* ===== verification/Snapshot.v ===== *)
(** * Snapshots of whole machines ([savevm.c])

    The list of everything that has state to be saved, how devices enter and leave
    it, and the format in which a machine is written to a file and read back:
    sections with the name, the instance and the version of their owner. *)

From S2P Require Import Prelude Bytes SaveVm VmDesc.

Abbreviation QEMU_VM_FILE_MAGIC := 0x5145564d.
Abbreviation QEMU_VM_FILE_VERSION_COMPAT := 0x00000002.
Abbreviation QEMU_VM_FILE_VERSION := 0x00000003.
Abbreviation QEMU_VM_EOF := 0x00.
Abbreviation QEMU_VM_SECTION_START := 0x01.
Abbreviation QEMU_VM_SECTION_PART := 0x02.
Abbreviation QEMU_VM_SECTION_END := 0x03.
Abbreviation QEMU_VM_SECTION_FULL := 0x04.
Abbreviation EIO := 5.
Abbreviation ENOTSUP := 95.

(** ** Strings *)

(** The bytes up to the terminator, in an array of [size] bytes. *)
Definition pstrcpy (size : nat) (str : list Z) : list Z := take (size - 1) str.
Definition pstrcat (size : nat) (buf s : list Z) : list Z := pstrcpy size (buf ++ s).
Definition ID_SIZE : nat := 256.

Definition strcmp_eq (a b : list Z) : bool := bool_decide (a = b).
Fixpoint strstr (s sub : list Z) : bool :=
  bool_decide (take (length sub) s = sub) || match s with [] => false | _ :: s => strstr s sub end.
Fixpoint c_str (buf : list Z) : list Z :=
  match buf with [] => [] | b :: buf => if b =? 0 then [] else b :: c_str buf end.

(** ** Entries *)

(** How the state is saved: by functions, or by a description. [T] is the state of the
    machine and [get] and [set] are what the opaque pointer refers to. Descriptions
    are compared as pointers, so each has a number, [desc]. *)
Inductive handler (B T : Type) :=
| Old_style (save : option (T → M (QEMUFile B) unit)) (load : option (T → Z → M (QEMUFile B) (Z * T)))
| Described {R : Type} (desc : nat) (vmsd : VMStateDescription B R) (get : T → R) (set : R → T → T).
Arguments Old_style {B T} _ _.
Arguments Described {B T R} _ _ _ _.

Record SaveStateEntry (B T : Type) := Entry {
  se_idstr : list Z;
  se_instance_id : Z;
  se_alias_id : Z;
  se_version_id : Z;
  se_section_id : Z;
  se_set_params : option (Z → Z → T → T);
  se_save_live : option (Z → T → M (QEMUFile B) (Z * T));
  se_handler : handler B T;
  se_opaque : nat;
  se_compat : option (list Z * Z);
  se_no_migrate : bool;
}.
Arguments Entry {B T} _ _ _ _ _ _ _ _ _ _ _.
Arguments se_idstr {B T} _.
Arguments se_instance_id {B T} _.
Arguments se_alias_id {B T} _.
Arguments se_version_id {B T} _.
Arguments se_section_id {B T} _.
Arguments se_set_params {B T} _.
Arguments se_save_live {B T} _.
Arguments se_handler {B T} _.
Arguments se_opaque {B T} _.
Arguments se_compat {B T} _.
Arguments se_no_migrate {B T} _.

Record savevm (B T : Type) := Savevm {
  savevm_handlers : list (SaveStateEntry B T);
  global_section_id : Z;
}.
Arguments Savevm {B T} _ _.
Arguments savevm_handlers {B T} _.
Arguments global_section_id {B T} _.

(** What the processors do when a machine is saved and when it was loaded. *)
Class Processors (T : Type) := {
  cpu_synchronize_all_states : T → T;
  cpu_synchronize_all_post_init : T → T;
}.

Section savevm.
Context {B T : Type} `{Processors T}.
Abbreviation SaveEntry := (SaveStateEntry B T).
Abbreviation FM := (M (QEMUFile B)).
Implicit Types (hs : list SaveEntry) (se : SaveEntry) (r : savevm B T).

(** *** Registration *)

Definition calculate_new_instance_id hs (idstr : list Z) : Z :=
  foldl (λ instance_id se,
    if strcmp_eq idstr (se_idstr se) && (instance_id <=? se_instance_id se) then se_instance_id se + 1 else instance_id) 0 hs.
Definition calculate_compat_instance_id hs (idstr : list Z) : Z :=
  foldl (λ instance_id se,
    match se_compat se with
    | None => instance_id
    | Some (c, i) => if strcmp_eq idstr c && (instance_id <=? i) then i + 1 else instance_id
    end) 0 hs.

(** The name and the numbers of a new entry; [path] is the path of the device on its
    bus, when it has one. *)
Definition entry_names hs (path : option (list Z)) (idstr : list Z) (instance_id : Z) :
    list Z * Z * option (list Z * Z) :=
  let '(buf, compat, instance_id) :=
    match path with
    | None => ([], None, instance_id)
    | Some id =>
        (pstrcat ID_SIZE (pstrcpy ID_SIZE id) [47],
         Some (pstrcpy ID_SIZE idstr,
               if instance_id =? -1 then calculate_compat_instance_id hs idstr else instance_id), -1)
    end in
  let name := pstrcat ID_SIZE buf idstr in
  (name, if instance_id =? -1 then calculate_new_instance_id hs name else instance_id, compat).

(** [None] is a failed assertion. *)
Definition add_entry r (se : SaveEntry) : option (savevm B T) :=
  if match se_compat se with Some _ => negb (se_instance_id se =? 0) | None => false end then None else
  Some (Savevm (savevm_handlers r ++ [se]) (global_section_id r + 1)).

Definition register_savevm_live r path idstr instance_id version_id set_params save_live save load opaque :=
  let '(name, instance_id, compat) := entry_names (savevm_handlers r) path idstr instance_id in
  add_entry r (Entry name instance_id 0 version_id (global_section_id r) set_params save_live
    (Old_style save load) opaque compat false).
Definition register_savevm r path idstr instance_id version_id save load opaque :=
  register_savevm_live r path idstr instance_id version_id None None save load opaque.

Definition vmstate_register_with_alias_id r path instance_id (name : list Z) desc {R} (vmsd : VMStateDescription B R)
    get set opaque alias_id required_for_version :=
  if negb ((alias_id =? -1) || (required_for_version >=? vm_minimum_version_id vmsd)) then None else
  let '(idstr, instance_id, compat) := entry_names (savevm_handlers r) path name instance_id in
  add_entry r (Entry idstr instance_id alias_id (vm_version_id vmsd) (global_section_id r) None None
    (Described desc vmsd get set) opaque compat false).
Definition vmstate_register r path instance_id name desc {R} (vmsd : VMStateDescription B R) get set opaque :=
  vmstate_register_with_alias_id r path instance_id name desc vmsd get set opaque (-1) 0.

Definition entry_name (path : option (list Z)) (idstr : list Z) : list Z :=
  pstrcat ID_SIZE (match path with Some p => pstrcat ID_SIZE (pstrcpy ID_SIZE p) [47] | None => [] end) idstr.
Definition unregister_savevm r path idstr (opaque : nat) : savevm B T :=
  Savevm (filter (λ se, negb (strcmp_eq (se_idstr se) (entry_name path idstr) && bool_decide (se_opaque se = opaque)))
    (savevm_handlers r)) (global_section_id r).
Definition register_device_unmigratable r path idstr (opaque : nat) : savevm B T :=
  Savevm (map (λ se, if strcmp_eq (se_idstr se) (entry_name path idstr) && bool_decide (se_opaque se = opaque)
      then Entry (se_idstr se) (se_instance_id se) (se_alias_id se) (se_version_id se) (se_section_id se)
             (se_set_params se) (se_save_live se) (se_handler se) (se_opaque se) (se_compat se) true
      else se) (savevm_handlers r)) (global_section_id r).
Definition vmstate_unregister r (desc opaque : nat) : savevm B T :=
  Savevm (filter (λ se, negb (match se_handler se with
      | Described d _ _ _ => bool_decide (d = desc) | Old_style _ _ => false end && bool_decide (se_opaque se = opaque)))
    (savevm_handlers r)) (global_section_id r).

(** ** Saving *)

Definition vmstate_load se (s : T) (version_id : Z) : FM (Z * T) :=
  match se_handler se with
  | Old_style _ (Some load) => load s version_id
  | Old_style _ None => fail NullDeref
  | Described _ vmsd get set =>
      '(ret, x) ← vmstate_load_state vmsd (get s) version_id;
      mret (ret, set x s)
  end.
Definition vmstate_save se (s : T) : FM unit :=
  match se_handler se with
  | Old_style (Some save) _ => save s
  | Old_style None _ => fail NullDeref
  | Described _ vmsd get _ => vmstate_save_state vmsd (get s)
  end.

Definition qemu_savevm_state_blocked hs : bool := existsb se_no_migrate hs.

Definition put_section_start (type : Z) se : FM unit :=
  qemu_put_byte type;;
  qemu_put_be32 (u32 (se_section_id se));;
  qemu_put_byte (Z.of_nat (length (se_idstr se)));;
  qemu_put_buffer (se_idstr se);;
  qemu_put_be32 (u32 (se_instance_id se));;
  qemu_put_be32 (u32 (se_version_id se)).

(** The loops over the entries with a live handler. The second one stops at an entry
    that has not finished. *)
Fixpoint live_start hs (s : T) : FM T :=
  match hs with
  | [] => mret s
  | se :: hs =>
      match se_save_live se with
      | None => live_start hs s
      | Some live =>
          put_section_start QEMU_VM_SECTION_START se;;
          '(_, s) ← live QEMU_VM_SECTION_START s;
          live_start hs s
      end
  end.
Fixpoint live_part hs (ret : Z) (s : T) : FM (Z * T) :=
  match hs with
  | [] => mret (ret, s)
  | se :: hs =>
      match se_save_live se with
      | None => live_part hs ret s
      | Some live =>
          qemu_put_byte QEMU_VM_SECTION_PART;;
          qemu_put_be32 (u32 (se_section_id se));;
          '(ret, s) ← live QEMU_VM_SECTION_PART s;
          if ret =? 0 then mret (ret, s) else live_part hs ret s
      end
  end.
Fixpoint live_end hs (s : T) : FM T :=
  match hs with
  | [] => mret s
  | se :: hs =>
      match se_save_live se with
      | None => live_end hs s
      | Some live =>
          qemu_put_byte QEMU_VM_SECTION_END;;
          qemu_put_be32 (u32 (se_section_id se));;
          '(_, s) ← live QEMU_VM_SECTION_END s;
          live_end hs s
      end
  end.
Fixpoint qemu_savevm_state_cancel hs (s : T) : FM T :=
  match hs with
  | [] => mret s
  | se :: hs =>
      s ← match se_save_live se with None => mret s | Some live => '(_, s) ← live (-1) s; mret s end;
      qemu_savevm_state_cancel hs s
  end.

Definition qemu_savevm_state_begin hs (blk_enable shared : Z) (s : T) : FM (Z * T) :=
  let s := foldl (λ s se, match se_set_params se with Some f => f blk_enable shared s | None => s end) s hs in
  qemu_put_be32 QEMU_VM_FILE_MAGIC;;
  qemu_put_be32 QEMU_VM_FILE_VERSION;;
  s ← live_start hs s;
  err ← qemu_file_has_error;
  if (err : bool) then s ← qemu_savevm_state_cancel hs s; mret (- EIO, s) else mret (0, s).

Definition qemu_savevm_state_iterate hs (s : T) : FM (Z * T) :=
  '(ret, s) ← live_part hs 1 s;
  if negb (ret =? 0) then mret (1, s) else
  err ← qemu_file_has_error;
  if (err : bool) then s ← qemu_savevm_state_cancel hs s; mret (- EIO, s) else mret (0, s).

Fixpoint save_full hs (s : T) : FM unit :=
  match hs with
  | [] => mret ()
  | se :: hs =>
      match se_handler se with
      | Old_style None _ => save_full hs s
      | _ => put_section_start QEMU_VM_SECTION_FULL se;; vmstate_save se s;; save_full hs s
      end
  end.
Definition qemu_savevm_state_complete hs (s : T) : FM (Z * T) :=
  s ← live_end hs (cpu_synchronize_all_states s);
  save_full hs s;;
  qemu_put_byte QEMU_VM_EOF;;
  err ← qemu_file_has_error;
  mret (if (err : bool) then - EIO else 0, s).

Fixpoint iterate_loop (fuel : nat) hs (s : T) : FM (Z * T) :=
  match fuel with
  | O => no_fuel
  | S fuel =>
      '(ret, s) ← qemu_savevm_state_iterate hs s;
      if ret =? 0 then iterate_loop fuel hs s else mret (ret, s)
  end.

(** Without [vm_stop] and [vm_start] around it, which are about running processors. *)
Definition qemu_savevm_state (fuel : nat) hs (s : T) : FM (Z * T) :=
  '(ret, s) ←
    (if qemu_savevm_state_blocked hs then mret (- EINVAL, s) else
     '(ret, s) ← qemu_savevm_state_begin hs 0 0 s;
     if ret <? 0 then mret (ret, s) else
     '(ret, s) ← iterate_loop fuel hs s;
     if ret <? 0 then mret (ret, s) else
     qemu_savevm_state_complete hs s);
  err ← qemu_file_has_error;
  mret (if (err : bool) then - EIO else ret, s).

(** ** Loading *)

Definition se_matches (idstr : list Z) (instance_id : Z) se : bool :=
  (strcmp_eq (se_idstr se) idstr &&
   ((instance_id =? se_instance_id se) || (instance_id =? se_alias_id se))) ||
  match se_compat se with
  | None => false
  | Some (cid, cinst) =>
      strstr (se_idstr se) idstr &&
      (strcmp_eq cid idstr && ((instance_id =? cinst) || (instance_id =? se_alias_id se)))
  end.
Definition find_se hs (idstr : list Z) (instance_id : Z) : option SaveEntry :=
  List.find (se_matches idstr instance_id) hs.

Record LoadStateEntry := LoadEntry {
  le_se : SaveEntry;
  le_section_id : Z;
  le_version_id : Z;
}.

(** The name is looked up in an array that nothing initialised: when the file ends inside
    a name, the comparison reads what was in the array before. *)
Definition get_section_start : FM (Z * list Z * Z * Z) :=
  section_id ← qemu_get_be32;
  len ← qemu_get_byte;
  bs ← qemu_get_buffer len;
  if (Z.of_nat (length bs) <? len) && negb (existsb (Z.eqb 0) bs) then fail UninitRead else
  instance_id ← qemu_get_be32;
  version_id ← qemu_get_be32;
  mret (section_id, c_str bs, instance_id, version_id).

Fixpoint loadvm_loop (fuel : nat) hs (loadvm_handlers : list LoadStateEntry) (s : T) : FM (Z * T) :=
  match fuel with
  | O => no_fuel
  | S fuel =>
      section_type ← qemu_get_byte;
      let section_type := u8 section_type in
      if section_type =? QEMU_VM_EOF then mret (0, cpu_synchronize_all_post_init s) else
      if (section_type =? QEMU_VM_SECTION_START) || (section_type =? QEMU_VM_SECTION_FULL) then
        '(section_id, idstr, instance_id, version_id) ← get_section_start;
        match find_se hs idstr (s32 instance_id) with
        | None => mret (- EINVAL, s)
        | Some se =>
            if version_id >? u32 (se_version_id se) then mret (- EINVAL, s) else
            '(ret, s) ← vmstate_load se s (s32 version_id);
            if ret <? 0 then mret (ret, s) else
            loadvm_loop fuel hs (LoadEntry se section_id (s32 version_id) :: loadvm_handlers) s
        end
      else if (section_type =? QEMU_VM_SECTION_PART) || (section_type =? QEMU_VM_SECTION_END) then
        section_id ← qemu_get_be32;
        match List.find (λ le, u32 (le_section_id le) =? section_id) loadvm_handlers with
        | None => mret (- EINVAL, s)
        | Some le =>
            '(ret, s) ← vmstate_load (le_se le) s (le_version_id le);
            if ret <? 0 then mret (ret, s) else loadvm_loop fuel hs loadvm_handlers s
        end
      else mret (- EINVAL, s)
  end.

Definition qemu_loadvm_state (fuel : nat) hs (s : T) : FM (Z * T) :=
  if qemu_savevm_state_blocked hs then mret (- EINVAL, s) else
  v ← qemu_get_be32;
  if negb (v =? QEMU_VM_FILE_MAGIC) then mret (- EINVAL, s) else
  v ← qemu_get_be32;
  if v =? QEMU_VM_FILE_VERSION_COMPAT then mret (- ENOTSUP, s) else
  if negb (v =? QEMU_VM_FILE_VERSION) then mret (- ENOTSUP, s) else
  '(ret, s) ← loadvm_loop fuel hs [] s;
  err ← qemu_file_has_error;
  mret (if (err : bool) then - EIO else ret, s).
End savevm.
