(* ===== verification/SnapshotSpec.v ===== *)
(** * What a snapshot restores ([savevm.c])

    A machine saved by [qemu_savevm_state] and loaded by [qemu_loadvm_state]: every
    entry of the list gets its own section back, in the order of the list. *)

From S2P Require Import Prelude Bytes SaveVm VmDesc Pci PciSpec PciVm Snapshot.

(** ** Lists of entries *)

(** An entry can be written to a file, and a list finds it by what is written. *)
Record entry_ok {B T} (hs : list (SaveStateEntry B T)) (se : SaveStateEntry B T) : Prop := {
  eo_idstr : (length (se_idstr se) < ID_SIZE)%nat ∧ Forall (λ c, 0 < c < 256) (se_idstr se);
  eo_version : 0 ≤ se_version_id se < 2 ^ 31;
  eo_instance : int_ok (se_instance_id se);
  eo_live : se_save_live se = None;
  eo_params : se_set_params se = None;
  eo_migrate : se_no_migrate se = false;
  eo_full : ∀ load, se_handler se ≠ Old_style None load;
  eo_found : find_se hs (se_idstr se) (se_instance_id se) = Some se;
}.

Section snapshot.
Context {B T : Type} `{ByteStore B} `{Processors T}.
Implicit Types (hs : list (SaveStateEntry B T)) (se : SaveStateEntry B T) (f : QEMUFile B).

(** What an entry promises: it writes [bytes] for the state [s], and reading them
    takes a state in which [Pre] holds to one in which [Post] does. *)
Record saveable (s : T) (Pre : T → Prop) se (bytes : list Z) (Post : T → Prop) : Prop := {
  sv_save f : write_ok f →
    wp (vmstate_save se s) (λ _ f', write_ok f' ∧ written f' = written f ++ bytes) f;
  sv_load f s0 rest : read_ok f → Pre s0 → unread f = bytes ++ rest →
    wp (vmstate_load se s0 (se_version_id se))
      (λ r f', r.1 = 0 ∧ Post r.2 ∧ read_ok f' ∧ unread f' = rest) f;
}.

(** ** Sections *)

Definition section_start (type : Z) se : list Z :=
  [type] ++ be_bytes 4 (u32 (se_section_id se)) ++ [Z.of_nat (length (se_idstr se))] ++ se_idstr se ++
  be_bytes 4 (u32 (se_instance_id se)) ++ be_bytes 4 (u32 (se_version_id se)).

Lemma put_section_start_wp f type se :
  write_ok f → in_w 8 type → (length (se_idstr se) < ID_SIZE)%nat →
  wp (put_section_start type se) (λ _ f', write_ok f' ∧ written f' = written f ++ section_start type se) f.
Proof.
  intros Hf Ht Hl. unfold put_section_start.
  apply wp_bind. eapply wp_mono; [by apply qemu_put_byte_wp|]. intros [] f1 [Hf1 Hw1].
  apply wp_bind. eapply wp_mono; [by apply qemu_put_be32_wp|]. intros [] f2 [Hf2 Hw2].
  apply wp_bind. eapply wp_mono; [by apply qemu_put_byte_wp|]. intros [] f3 [Hf3 Hw3].
  apply wp_bind. eapply wp_mono; [by apply qemu_put_buffer_wp|]. intros [] f4 [Hf4 Hw4].
  apply wp_bind. eapply wp_mono; [by apply qemu_put_be32_wp|]. intros [] f5 [Hf5 Hw5].
  eapply wp_mono; [by apply qemu_put_be32_wp|]. intros [] f6 [Hf6 Hw6]. split; [done|].
  rewrite Hw6, Hw5, Hw4, Hw3, Hw2, Hw1. unfold section_start.
  rewrite (u8_small type), (u8_small (Z.of_nat _)) by (done || (unfold in_w, ID_SIZE in *; lia)).
  by rewrite <- !app_assoc.
Qed.

Lemma c_str_id bs : Forall (λ c, 0 < c < 256) bs → c_str bs = bs.
Proof.
  induction 1 as [|c bs Hc _ IH]; [done|]. cbn [c_str]. replace (c =? 0) with false by lia. by rewrite IH.
Qed.

(** Everything of a section's start but its type. *)
Lemma get_section_start_wp f type se rest :
  read_ok f → unread f = drop 1 (section_start type se) ++ rest →
  Forall (λ c, 0 < c < 256) (se_idstr se) →
  wp get_section_start (λ r f',
    r = (u32 (se_section_id se), se_idstr se, u32 (se_instance_id se), u32 (se_version_id se)) ∧
    read_ok f' ∧ unread f' = rest) f.
Proof.
  intros Hf Hu Hid. unfold section_start in Hu. change (drop 1 ([type] ++ ?l)) with l in Hu. rewrite <- !app_assoc in Hu.
  unfold get_section_start.
  apply wp_bind. eapply wp_mono; [eapply qemu_get_be32_wp; [done|apply u32_in_w|exact Hu]|]. intros a f1 (->&Hf1&Hu1).
  apply wp_bind. eapply wp_mono; [eapply qemu_get_byte_wp; [done|exact Hu1]|]. intros b f2 (->&Hf2&Hu2).
  apply wp_bind. eapply wp_mono; [eapply qemu_get_buffer_wp; [done|exact Hu2]|]. intros bs f3 (->&Hf3&Hu3).
  rewrite Z.ltb_irrefl. cbn [andb].
  apply wp_bind. eapply wp_mono; [eapply qemu_get_be32_wp; [done|apply u32_in_w|exact Hu3]|]. intros c f4 (->&Hf4&Hu4).
  apply wp_bind. eapply wp_mono; [eapply qemu_get_be32_wp; [done|apply u32_in_w|exact Hu4]|]. intros d f5 (->&Hf5&Hu5).
  apply wp_ret. by rewrite c_str_id.
Qed.

(** ** Saving *)

(** Entries with what they write. *)
Abbreviation saved_entry := (SaveStateEntry B T * list Z)%type.
Implicit Types es : list saved_entry.
Definition sections es : list Z := concat (map (λ e, section_start QEMU_VM_SECTION_FULL e.1 ++ e.2) es).
Definition file_bytes es : list Z :=
  be_bytes 4 QEMU_VM_FILE_MAGIC ++ be_bytes 4 QEMU_VM_FILE_VERSION ++ sections es ++ [QEMU_VM_EOF].

(** Entries of the list [hs], each of which needs what the ones before it left. *)
Inductive saves hs (s : T) : (T → Prop) → list saved_entry → (T → Prop) → Prop :=
| Saves_nil Pre : saves hs s Pre [] Pre
| Saves_cons Pre Mid Post se bs es :
    entry_ok hs se → saveable s Pre se bs Mid → saves hs s Mid es Post → saves hs s Pre ((se, bs) :: es) Post.

Lemma saves_entries hs s Pre es Post : saves hs s Pre es Post → Forall (entry_ok hs) (map fst es).
Proof. induction 1; by constructor. Qed.

Lemma no_live hs hs' (s : T) : Forall (entry_ok hs) hs' →
  live_start hs' s = mret s ∧ (∀ ret, live_part hs' ret s = mret (ret, s)) ∧ live_end hs' s = mret s ∧
  foldl (λ s se, match se_set_params se with Some g => g 0 0 s | None => s end) s hs' = s ∧
  qemu_savevm_state_blocked hs' = false.
Proof.
  induction 1 as [|se hs' Hse _ (IH1&IH2&IH3&IH4&IH5)]; [done|].
  unfold qemu_savevm_state_blocked in *. cbn [live_start live_part live_end foldl existsb].
  rewrite (eo_live _ _ Hse), (eo_params _ _ Hse), (eo_migrate _ _ Hse). done.
Qed.

Lemma save_full_wp hs s Pre es Post f :
  write_ok f → saves hs s Pre es Post →
  wp (save_full (map fst es) s) (λ _ f', write_ok f' ∧ written f' = written f ++ sections es) f.
Proof.
  intros Hf Hes. revert f Hf. induction Hes as [|Pre Mid Post se bs es Hse Hsv _ IH]; intros f Hf.
  { apply wp_ret. by rewrite app_nil_r. }
  cbn [map save_full fst].
  assert (wp (put_section_start QEMU_VM_SECTION_FULL se;; vmstate_save se s;; save_full (map fst es) s)
    (λ _ f', write_ok f' ∧ written f' = written f ++ sections ((se, bs) :: es)) f) as Hgo.
  { apply wp_bind. eapply wp_mono; [apply put_section_start_wp; [done|by unfold in_w|apply Hse]|].
    intros [] f1 [Hf1 Hw1]. apply wp_bind. eapply wp_mono; [by apply Hsv|]. intros [] f2 [Hf2 Hw2].
    eapply wp_mono; [by apply IH|]. intros [] f3 [Hf3 Hw3]. split; [done|].
    rewrite Hw3, Hw2, Hw1. unfold sections. cbn [map concat fst snd]. by rewrite <- !app_assoc. }
  destruct (se_handler se) as [[save|] load|] eqn:Eh; [exact Hgo| |exact Hgo].
  by destruct (eo_full _ _ Hse load).
Qed.

Lemma savevm_state_wp hs s Pre es Post f fuel :
  write_ok f → map fst es = hs → saves hs (cpu_synchronize_all_states s) Pre es Post → (0 < fuel)%nat →
  wp (qemu_savevm_state fuel hs s) (λ r f', r = (0, cpu_synchronize_all_states s) ∧ write_ok f' ∧
    written f' = written f ++ file_bytes es) f.
Proof.
  intros Hf Ehs Hes Hfuel. pose proof (saves_entries _ _ _ _ _ Hes) as Hall. rewrite Ehs in Hall.
  destruct (no_live hs hs s Hall) as (L1&L2&_&L4&L5).
  destruct (no_live hs hs (cpu_synchronize_all_states s) Hall) as (_&_&L3&_).
  destruct fuel as [|fuel]; [lia|]. unfold qemu_savevm_state. rewrite L5.
  apply wp_bind, wp_bind. unfold qemu_savevm_state_begin. rewrite L4, L1.
  apply wp_bind. eapply wp_mono; [by apply qemu_put_be32_wp|]. intros [] f1 [Hf1 Hw1].
  apply wp_bind. eapply wp_mono; [by apply qemu_put_be32_wp|]. intros [] f2 [Hf2 Hw2].
  apply wp_bind, wp_ret, wp_bind, wp_gets. rewrite (wo_error _ Hf2). apply wp_ret.
  change (0 <? 0) with false. cbn [iterate_loop]. apply wp_bind, wp_bind.
  unfold qemu_savevm_state_iterate. rewrite L2. apply wp_bind, wp_ret. cbn [negb Z.eqb]. apply wp_ret, wp_ret.
  change (1 <? 0) with false. unfold qemu_savevm_state_complete. rewrite L3. apply wp_bind, wp_ret, wp_bind.
  rewrite <- Ehs at 1. eapply wp_mono; [by eapply save_full_wp|]. intros [] f3 [Hf3 Hw3].
  apply wp_bind. eapply wp_mono; [by apply qemu_put_byte_wp|]. intros [] f4 [Hf4 Hw4].
  apply wp_bind, wp_gets. rewrite (wo_error _ Hf4). apply wp_ret, wp_bind, wp_gets.
  rewrite (wo_error _ Hf4). apply wp_ret. split_and!; [done|done|].
  rewrite Hw4, Hw3, Hw2, Hw1. unfold file_bytes. by rewrite <- !app_assoc.
Qed.

(** ** Loading *)

Lemma load_section_wp hs s Pre se bs Post fuel les s0 f rest (Q : Z * T → QEMUFile B → Prop) :
  read_ok f → entry_ok hs se → saveable s Pre se bs Post → Pre s0 →
  unread f = section_start QEMU_VM_SECTION_FULL se ++ bs ++ rest →
  (∀ le s1 f1, read_ok f1 → Post s1 → unread f1 = rest → wp (loadvm_loop fuel hs (le :: les) s1) Q f1) →
  wp (loadvm_loop (S fuel) hs les s0) Q f.
Proof.
  intros Hf [Hid Hv Hin _ _ _ _ Hfind] Hsv Hpre Hu HQ.
  cbn [loadvm_loop]. apply wp_bind.
  eapply wp_mono; [eapply qemu_get_byte_wp; [done|exact Hu]|]. intros c f1 (->&Hf1&Hu1). cbv zeta.
  change (u8 QEMU_VM_SECTION_FULL) with 4. cbn [Z.eqb Pos.eqb orb].
  apply wp_bind. eapply wp_mono; [eapply (get_section_start_wp f1 QEMU_VM_SECTION_FULL se); [done|exact Hu1|apply Hid]|].
  intros r f2 (->&Hf2&Hu2). rewrite s32_u32 by done. rewrite Hfind.
  rewrite Z.gtb_ltb, Z.ltb_irrefl, s32_u32 by (unfold int_ok; lia).
  apply wp_bind. eapply wp_mono; [by eapply sv_load|]. intros [r s1] f3 (Hr&Hpost&Hf3&Hu3).
  cbn [fst snd] in *. subst r. change (0 <? 0) with false. by apply HQ.
Qed.

Lemma load_sections_wp hs s Pre es Post fuel les s0 f rest (Q : Z * T → QEMUFile B → Prop) :
  read_ok f → saves hs s Pre es Post → Pre s0 → unread f = sections es ++ rest →
  (∀ les s1 f1, read_ok f1 → Post s1 → unread f1 = rest → wp (loadvm_loop fuel hs les s1) Q f1) →
  wp (loadvm_loop (length es + fuel) hs les s0) Q f.
Proof.
  intros Hf Hes. revert les s0 f Hf.
  induction Hes as [Pre|Pre Mid Post se bs es Hse Hsv _ IH]; intros les s0 f Hf Hpre Hu HQ; [by apply HQ|].
  unfold sections in Hu. cbn [map concat fst snd] in Hu. rewrite <- !app_assoc in Hu.
  eapply load_section_wp; [done..|exact Hu|]. intros le s1 f1 Hf1 Hmid Hu1. by apply IH.
Qed.

Lemma loadvm_loop_wp hs s Pre es Post fuel les s0 f rest :
  read_ok f → saves hs s Pre es Post → Pre s0 → (length es < fuel)%nat →
  unread f = sections es ++ QEMU_VM_EOF :: rest →
  wp (loadvm_loop fuel hs les s0) (λ r f', ∃ s', r = (0, cpu_synchronize_all_post_init s') ∧
    Post s' ∧ read_ok f' ∧ unread f' = rest) f.
Proof.
  intros Hf Hes Hpre Hl Hu. replace fuel with (length es + S (fuel - S (length es)))%nat by lia.
  eapply load_sections_wp; [done..|exact Hu|]. intros les' s1 f1 Hf1 Hpost Hu1. cbn [loadvm_loop]. apply wp_bind.
  eapply wp_mono; [eapply qemu_get_byte_wp; [done|exact Hu1]|]. intros c f2 (->&Hf2&Hu2).
  change (u8 QEMU_VM_EOF =? QEMU_VM_EOF) with true. apply wp_ret. by exists s1.
Qed.

(** A section that cannot be loaded: no entry has its name, or the entry is older. *)
Definition unloadable hs se : Prop :=
  find_se hs (se_idstr se) (se_instance_id se) = None ∨
  ∃ se', find_se hs (se_idstr se) (se_instance_id se) = Some se' ∧ u32 (se_version_id se') < u32 (se_version_id se).

Lemma loadvm_loop_rejects hs s Pre es Post fuel les s0 f se rest :
  read_ok f → saves hs s Pre es Post → Pre s0 → (length es < fuel)%nat →
  Forall (λ c, 0 < c < 256) (se_idstr se) → int_ok (se_instance_id se) → unloadable hs se →
  unread f = sections es ++ section_start QEMU_VM_SECTION_FULL se ++ rest →
  wp (loadvm_loop fuel hs les s0) (λ r f', r.1 = - EINVAL ∧ Post r.2 ∧ read_ok f' ∧ unread f' = rest) f.
Proof.
  intros Hf Hes Hpre Hl Hid Hin Hbad Hu. replace fuel with (length es + S (fuel - S (length es)))%nat by lia.
  eapply load_sections_wp; [done..|exact Hu|]. intros les' s1 f1 Hf1 Hpost Hu1. cbn [loadvm_loop]. apply wp_bind.
  eapply wp_mono; [eapply qemu_get_byte_wp; [done|exact Hu1]|]. intros c f2 (->&Hf2&Hu2). cbv zeta.
  change (u8 QEMU_VM_SECTION_FULL) with 4. cbn [Z.eqb Pos.eqb orb]. apply wp_bind.
  eapply wp_mono; [eapply (get_section_start_wp f2 QEMU_VM_SECTION_FULL se); [done|exact Hu2|done]|].
  intros r f3 (->&Hf3&Hu3). rewrite s32_u32 by done.
  destruct Hbad as [->|(se'&->&Hv)]; [by apply wp_ret|].
  replace (u32 (se_version_id se) >? u32 (se_version_id se')) with true by lia. by apply wp_ret.
Qed.

Lemma file_start_wp hs fuel (s0 : T) f rest (Q : Z * T → QEMUFile B → Prop) :
  read_ok f → qemu_savevm_state_blocked hs = false →
  unread f = be_bytes 4 QEMU_VM_FILE_MAGIC ++ be_bytes 4 QEMU_VM_FILE_VERSION ++ rest →
  (∀ f1, read_ok f1 → unread f1 = rest → wp (loadvm_loop fuel hs [] s0) (λ r f', read_ok f' ∧ Q r f') f1) →
  wp (qemu_loadvm_state fuel hs s0) Q f.
Proof.
  intros Hf Hbl Hu HQ. unfold qemu_loadvm_state. rewrite Hbl.
  apply wp_bind. eapply wp_mono; [eapply (qemu_get_be32_wp _ QEMU_VM_FILE_MAGIC); [done|by unfold in_w|exact Hu]|].
  intros a f1 (->&Hf1&Hu1). rewrite Z.eqb_refl. cbn [negb].
  apply wp_bind. eapply wp_mono; [eapply (qemu_get_be32_wp _ QEMU_VM_FILE_VERSION); [done|by unfold in_w|exact Hu1]|].
  intros b f2 (->&Hf2&Hu2).
  change (QEMU_VM_FILE_VERSION =? QEMU_VM_FILE_VERSION_COMPAT) with false. rewrite Z.eqb_refl. cbn [negb].
  apply wp_bind. eapply wp_mono; [by apply HQ|]. intros [r s'] f3 [Hf3 HQ3].
  apply wp_bind, wp_gets. rewrite (ro_error _ Hf3). by apply wp_ret.
Qed.

Lemma loadvm_state_wp hs s Pre es Post fuel s0 f rest :
  read_ok f → map fst es = hs → saves hs s Pre es Post → Pre s0 → (length es < fuel)%nat →
  unread f = file_bytes es ++ rest →
  wp (qemu_loadvm_state fuel hs s0) (λ r f', ∃ s', r = (0, cpu_synchronize_all_post_init s') ∧
    Post s' ∧ unread f' = rest) f.
Proof.
  intros Hf Ehs Hes Hpre Hl Hu. pose proof (saves_entries _ _ _ _ _ Hes) as Hall. rewrite Ehs in Hall.
  unfold file_bytes in Hu. rewrite <- !app_assoc in Hu.
  eapply file_start_wp; [done|apply (no_live hs hs s0 Hall)|exact Hu|]. intros f1 Hf1 Hu1.
  eapply wp_mono; [by eapply loadvm_loop_wp|]. intros r f2 (s'&->&?&?&?). split; [done|]. by exists s'.
Qed.

(** A machine saved through the buffered file and loaded from the bytes the backend
    then holds: both succeed, and every entry restores what it promises. *)
Lemma snapshot_restores hs Pre es Post (b : B) s s0 fuel :
  bs_content b = [] → map fst es = hs → saves hs (cpu_synchronize_all_states s) Pre es Post → Pre s0 →
  (length hs < fuel)%nat →
  ∃ f f' s',
    ('(ret, s) ← qemu_savevm_state fuel hs s; qemu_fflush;; mret (ret, s)) (qemu_fopen_ops b (Some bs_put) None) =
      Ret (0, cpu_synchronize_all_states s) f ∧
    qemu_loadvm_state fuel hs s0 (qemu_fopen_ops (opaque f) None (Some bs_get)) =
      Ret (0, cpu_synchronize_all_post_init s') f' ∧ unread f' = [] ∧ Post s'.
Proof.
  intros Hb Ehs Hes Hpre Hl. destruct (fopen_write_ok b None Hb) as [Hf0 Hw0].
  assert (length es < fuel)%nat as Hl' by (by rewrite <- Ehs, length_map in Hl).
  assert (wp ('(ret, s) ← qemu_savevm_state fuel hs s; qemu_fflush;; mret (ret, s))
    (λ r f, r = (0, cpu_synchronize_all_states s) ∧ bs_content (opaque f) = file_bytes es)
    (qemu_fopen_ops b (Some bs_put) None)) as Hsave.
  { apply wp_bind. eapply wp_mono; [eapply savevm_state_wp; [done..|lia]|]. intros r f1 (->&Hf1&Hw1).
    apply wp_bind. eapply wp_mono; [by apply fflush_written|]. intros [] f2 Hf2. apply wp_ret.
    split; [done|]. by rewrite Hf2, Hw1, Hw0. }
  apply wp_Ret in Hsave as (r&f&Ef&->&Hf). destruct (fopen_read_ok (opaque f) None) as [Hr Hu].
  rewrite Hf, <- (app_nil_r (file_bytes es)) in Hu.
  pose proof (loadvm_state_wp _ _ _ _ _ _ _ _ _ Hr Ehs Hes Hpre Hl' Hu) as Hload.
  apply wp_Ret in Hload as (r&f'&El&s'&->&Hc&Hun). by exists f, f', s'.
Qed.

(** C20: a file with a section that the machine cannot load, because no entry has its
    name and instance or because it was written by a newer version, is refused
    with [-EINVAL] at that section: nothing of the section's state is read, and
    what was restored by the sections in front of it stays. *)
Theorem loadvm_rejects_section hs s Pre es Post fuel s0 f se rest :
  read_ok f → qemu_savevm_state_blocked hs = false → saves hs s Pre es Post → Pre s0 → (length es < fuel)%nat →
  Forall (λ c, 0 < c < 256) (se_idstr se) → int_ok (se_instance_id se) → unloadable hs se →
  unread f = be_bytes 4 QEMU_VM_FILE_MAGIC ++ be_bytes 4 QEMU_VM_FILE_VERSION ++ sections es ++
    section_start QEMU_VM_SECTION_FULL se ++ rest →
  ∃ s' f', qemu_loadvm_state fuel hs s0 f = Ret (- EINVAL, s') f' ∧ Post s' ∧ unread f' = rest.
Proof.
  intros Hf Hbl Hes Hpre Hl Hid Hin Hbad Hu.
  assert (wp (qemu_loadvm_state fuel hs s0) (λ r f', r.1 = - EINVAL ∧ Post r.2 ∧ unread f' = rest) f) as Hw.
  { eapply file_start_wp; [done|done|exact Hu|]. intros f1 Hf1 Hu1.
    eapply wp_mono; [by eapply loadvm_loop_rejects|]. by intros r f2 (?&?&?&?). }
  apply wp_Ret in Hw as ([r s']&f'&E&Er&?&?). cbn in Er. subst r. by exists s', f'.
Qed.

(** Entries registered with functions have the alias 0: of two with the same name, the
    first takes the section of instance 0, although it has another instance. *)
Lemma old_style_takes_instance_0 (r : savevm B T) name i load1 load2 save1 save2 o1 o2 r1 r2 :
  savevm_handlers r = [] → (length name < ID_SIZE)%nat → i ≠ -1 →
  register_savevm r None name i 1 save1 load1 o1 = Some r1 → register_savevm r1 None name 0 1 save2 load2 o2 = Some r2 →
  ∃ se, find_se (savevm_handlers r2) name 0 = Some se ∧ se_instance_id se = i.
Proof.
  intros Hr Hl Hi E1 E2. unfold register_savevm, register_savevm_live, entry_names in *. rewrite Hr in E1.
  assert (pstrcat ID_SIZE [] name = name) as Hn by (apply take_ge; unfold ID_SIZE in *; cbn; lia).
  rewrite Hn in *. replace (i =? -1) with false in E1 by lia. injection E1 as <-. injection E2 as <-. rewrite Hr.
  unfold find_se. cbn [savevm_handlers app List.find]. unfold se_matches at 1, strcmp_eq.
  cbn [se_idstr se_instance_id se_alias_id]. rewrite bool_decide_eq_true_2, Z.eqb_refl, orb_true_r by done.
  cbn [andb orb]. eauto.
Qed.
End snapshot.
