(* ===== verification/SnapshotCards.v ===== *)
(** * Snapshots of machines with network cards ([savevm.c], [hw/pci.c], [hw/qdev.c])

    A machine with a PCI host bridge and any number of cards registers the state of
    the root bus and of every card; saved and loaded, the cards, their
    configuration spaces and the interrupt lines they share are restored. *)

From S2P Require Import Prelude Bytes Memory SaveVm VmDesc E1000Hw E1000State E1000Mmio E1000Inv Pci PciSpec PciInv PciCfg PciGuest PciIrq PciPath E1000Pci CardIrq PciVm VmState Snapshot SnapshotSpec.

(** ** The state of a bus *)

Section bus_state.
Context {B : Type}.
Abbreviation FM := (M (QEMUFile B)).

Fixpoint put_int32s (l : list Z) : FM unit :=
  match l with [] => mret () | v :: l => qemu_put_be32 (u32 v);; put_int32s l end.
Fixpoint get_int32s (n : nat) : FM (list Z) :=
  match n with
  | O => mret []
  | S n => v ← qemu_get_be32; l ← get_int32s n; mret (s32 v :: l)
  end.

(** The number of lines has to be the same; the counts are an array of that length. *)
Definition get_int32_equal (v : Z) : FM Z :=
  v2 ← qemu_get_be32; mret (if v =? s32 v2 then 0 else - EINVAL).
Definition put_irq_count (bus : PCIBus) : FM unit :=
  if Z.of_nat (length (irq_count bus)) <? nirq bus then fail OutOfBounds
  else put_int32s (take (Z.to_nat (nirq bus)) (irq_count bus)).
Definition get_irq_count (bus : PCIBus) : FM PCIBus :=
  if Z.of_nat (length (irq_count bus)) <? nirq bus then fail OutOfBounds
  else l ← get_int32s (Z.to_nat (nirq bus)); mret (bus <| irq_count ::= λ old, l ++ drop (length l) old |>).

Definition vmstate_pcibus : VMStateDescription B PCIBus := {|
  vm_version_id := 1; vm_minimum_version_id := 1; vm_minimum_version_id_old := 1;
  vm_pre_save := None; vm_pre_load := None; vm_post_load := None;
  vm_fields := [
    Field None 0 (VInfo (λ bus, qemu_put_be32 (u32 (nirq bus)))
      (λ bus, ret ← get_int32_equal (nirq bus); mret (ret, bus)));
    Field None 0 (VInfo put_irq_count (λ bus, bus ← get_irq_count bus; mret (0, bus)))]
|}.
End bus_state.

(** ** Registration *)

Section register.
Context {B X P : Type}.
Abbreviation BM := (savevm B (board X P)).

(** The parts of the machine that the opaque pointers of the entries refer to. *)
Definition no_bus : PCIBus := Bus 0 false (λ _ _, 0) [] None 0 [] 0 [].
Definition no_card : E1000State := e1000_power_on [].
Definition bus_of (j : nat) (b : board X P) : PCIBus := default no_bus (buses (pci b) !! j).
Definition set_bus (j : nat) (bus : PCIBus) (b : board X P) : board X P :=
  b <| pci ::= λ s, s <| buses ::= <[j := bus]> |> |>.
Definition card_of (n : nat) (b : board X P) : PciSys map_fn * E1000State :=
  (pci b, default no_card (cards b !! n)).
Definition set_card (n : nat) (x : PciSys map_fn * E1000State) (b : board X P) : board X P :=
  b <| pci := x.1 |> <| cards ::= <[n := x.2]> |>.

Definition str_PCIBUS : list Z := [80; 67; 73; 66; 85; 83].
Definition str_e1000 : list Z := [101; 49; 48; 48; 48].

(** What [pci_bus_new] does for the bus, and [qdev_init] for a card. *)
Definition register_bus (r : BM) (j : nat) : option BM :=
  vmstate_register r None (-1) str_PCIBUS 0 vmstate_pcibus (bus_of j) (set_bus j) j.
Definition register_card (block : list Z) (b : board X P) (r : BM) (n : nat) : option BM :=
  vmstate_register_with_alias_id r (pcibus_get_dev_path (pci b) n) (-1) str_e1000 1
    (vmstate_e1000 n block) (card_of n) (set_card n) n (-1) 0.
Fixpoint register_cards (block : list Z) (b : board X P) (r : BM) (ns : list nat) : option BM :=
  match ns with
  | [] => Some r
  | n :: ns => r ← register_card block b r n; register_cards block b r ns
  end.
Definition register_machine (block : list Z) (b : board X P) (root : nat) (ns : list nat) : option BM :=
  r ← register_bus (Savevm [] 0) root; register_cards block b r ns.
End register.

(** ** The registered entries *)

Section entries.
Context {B X P : Type} (block : list Z) (root : nat).
Implicit Types (b : board X P) (se : SaveStateEntry B (board X P)) (ns : list nat).

Definition bus_entry : SaveStateEntry B (board X P) :=
  Entry str_PCIBUS 0 (-1) 1 0 None None (Described 0 vmstate_pcibus (bus_of root) (set_bus root)) root None false.
Definition card_name (path : list Z) : list Z := path ++ [47] ++ str_e1000.

(** The entry of a card, up to the numbers that no snapshot of this format uses. *)
Definition card_entry (path : list Z) (n : nat) (section_id compat_id : Z) : SaveStateEntry B (board X P) :=
  Entry (card_name path) 0 (-1) 2 section_id None None
    (Described 1 (vmstate_e1000 n block) (card_of n) (set_card n)) n (Some (str_e1000, compat_id)) false.
Definition is_card b (n : nat) se : Prop :=
  ∃ path sid cid, pcibus_get_dev_path (pci b) n = Some (48 :: path) ∧
    (length path ≤ 248)%nat ∧ Forall (λ c, 0 < c < 256) path ∧ se = card_entry (48 :: path) n sid cid.

Lemma new_instance_fresh (hs : list (SaveStateEntry B (board X P))) name :
  Forall (λ se, name ≠ se_idstr se) hs → calculate_new_instance_id hs name = 0.
Proof.
  unfold calculate_new_instance_id. induction 1 as [|se hs Hne _ IH]; [done|]. cbn [foldl].
  unfold strcmp_eq at 2. by rewrite bool_decide_eq_false_2.
Qed.

Lemma pstrcat_fits buf str : (length buf + length str ≤ 255)%nat → pstrcat ID_SIZE buf str = buf ++ str.
Proof. intros Hl. apply take_ge. rewrite length_app. cbn. lia. Qed.

Lemma card_name_fits path : (length path ≤ 249)%nat →
  pstrcat ID_SIZE (pstrcat ID_SIZE (pstrcpy ID_SIZE path) [47]) str_e1000 = card_name path.
Proof.
  intros Hl. assert (pstrcpy ID_SIZE path = path) as -> by (apply take_ge; cbn; lia).
  rewrite (pstrcat_fits path) by (cbn; lia). rewrite pstrcat_fits by (rewrite length_app; cbn; lia).
  unfold card_name. by rewrite <- app_assoc.
Qed.

Lemma is_card_inj b n m se1 se2 : statics_ok (statics (pci b)) → one_root (pci b) →
  is_card b n se1 → is_card b m se2 → se_idstr se1 = se_idstr se2 → n = m.
Proof.
  intros Hs Hroot (p1&?&?&P1&_&_&->) (p2&?&?&P2&_&_&->) E. cbn [se_idstr card_entry] in E.
  apply app_inv_tail in E. rewrite <- E in P2. symmetry. by eapply dev_path_inj.
Qed.

(** Every card can be registered, and gets an entry of its own. *)
Lemma register_card_some b hs k n path :
  pcibus_get_dev_path (pci b) n = Some (48 :: path) → (length path ≤ 248)%nat → Forall (λ c, 0 < c < 256) path →
  Forall (λ se, card_name (48 :: path) ≠ se_idstr se) hs →
  ∃ se, is_card b n se ∧ register_card block b (Savevm hs k) n = Some (Savevm (hs ++ [se]) (k + 1)).
Proof.
  intros Hp Hl Hc Hne. eexists. split; cycle 1.
  - unfold register_card, vmstate_register_with_alias_id. cbn [Z.eqb negb orb Pos.eqb]. rewrite Hp.
    unfold entry_names. cbn [savevm_handlers]. rewrite card_name_fits by (cbn; lia). rewrite Z.eqb_refl.
    rewrite new_instance_fresh by done. reflexivity.
  - by exists path, k, (calculate_compat_instance_id hs str_e1000).
Qed.

Lemma register_cards_some b hs k done ns :
  statics_ok (statics (pci b)) → one_root (pci b) → NoDup (done ++ ns) →
  (∀ n, n ∈ ns → ∃ d, devs (pci b) !! n = Some d ∧ (dev_bus d < 48)%nat) →
  Forall2 (is_card b) done hs →
  ∃ ses k', register_cards block b (Savevm (bus_entry :: hs) k) ns = Some (Savevm (bus_entry :: hs ++ ses) k') ∧
    Forall2 (is_card b) ns ses.
Proof.
  intros Hs Hroot. revert hs k done. induction ns as [|n ns IH]; intros hs k done Hnd Hns Hhs.
  { exists [], k. cbn [register_cards]. by rewrite app_nil_r. }
  destruct (Hns n) as (d&Hd&Hbus); [left|]. destruct (dev_path_some _ n d Hs Hd) as (path&Hp&Hl&Hc).
  destruct (register_card_some b (bus_entry :: hs) k n path) as (se&Hse&Er); [done|lia|done| |].
  { constructor; [done|]. apply Forall_forall. intros se Hin%list_elem_of_In E.
    apply list_elem_of_lookup in Hin as [i Hi]. destruct (Forall2_lookup_r _ _ _ _ _ Hhs Hi) as (m&Hm&Hcm).
    assert (n = m) as <-.
    { eapply (is_card_inj b n m (card_entry (48 :: path) n 0 0) se Hs Hroot); [|done|done].
      exists path, 0, 0. split_and!; [done|lia|done|done]. }
    apply (list.NoDup_app done (n :: ns)) in Hnd as (_&Hnd&_). apply (Hnd n); [by eapply list_elem_of_lookup_2|left]. }
  cbn [register_cards]. rewrite Er. cbn [mbind option_bind app].
  destruct (IH (hs ++ [se]) (k + 1) (done ++ [n])) as (ses&k'&Es&Hses).
  - by rewrite <- app_assoc.
  - intros m Hm. apply Hns. by right.
  - apply Forall2_app; [done|by repeat constructor].
  - exists (se :: ses), k'. rewrite Es, <- app_assoc. split; [done|by constructor].
Qed.

Lemma register_cards_statics b b0 r ns :
  statics_ok (statics (pci b)) → statics (pci b0) = statics (pci b) → (∀ n, n ∈ ns → is_Some (devs (pci b) !! n)) →
  register_cards (B := B) block b0 r ns = register_cards block b r ns.
Proof.
  intros Hs E. revert r. induction ns as [|n ns IH]; intros r Hns; [done|]. cbn [register_cards].
  destruct (Hns n) as [d Hd]; [left|]. unfold register_card at 1. rewrite (dev_path_statics _ _ n d Hs E Hd).
  fold (register_card block b r n). destruct (register_card block b r n); [|done]. cbn [mbind option_bind].
  apply IH. intros m Hm. apply Hns. by right.
Qed.

(** ** Entries are found *)

Lemma bus_entry_ok hs : entry_ok (bus_entry :: hs) bus_entry.
Proof. split; try done. split; [by apply Nat.ltb_lt|]. by repeat constructor. Qed.

Lemma find_card b hs ns n se : statics_ok (statics (pci b)) → one_root (pci b) →
  Forall2 (is_card b) ns hs → NoDup ns → is_card b n se → se ∈ hs →
  find_se (bus_entry :: hs) (se_idstr se) 0 = Some se.
Proof.
  intros Hs Hroot Hhs Hnd Hn Hin. unfold find_se. cbn [List.find].
  assert (se_matches (se_idstr se) 0 bus_entry = false) as ->.
  { destruct Hn as (path&?&?&_&_&_&->). done. }
  induction Hhs as [|m se' ns hs Hm Hhs IH]; [by apply not_elem_of_nil in Hin|]. apply list.NoDup_cons in Hnd as [Hmn Hnd].
  cbn [List.find]. apply elem_of_cons in Hin as [->|Hin].
  - assert (se_matches (se_idstr se') 0 se' = true) as ->; [|done].
    destruct Hn as (path&?&?&_&_&_&->). unfold se_matches, strcmp_eq. by rewrite bool_decide_eq_true_2.
  - assert (se_matches (se_idstr se) 0 se' = false) as ->; [|by apply IH].
    unfold se_matches, strcmp_eq. rewrite bool_decide_eq_false_2; cycle 1.
    { intros E. apply list_elem_of_lookup in Hin as [i Hi]. destruct (Forall2_lookup_r _ _ _ _ _ Hhs Hi) as (q&Hq&Hcq).
      assert (m = q) as -> by (by eapply is_card_inj). apply Hmn. by eapply list_elem_of_lookup_2. }
    destruct Hm as (?&?&?&_&_&_&->). destruct Hn as (path&?&?&_&_&_&->). cbn [se_compat card_entry andb orb].
    rewrite (bool_decide_eq_false_2 (str_e1000 = _)) by done. by rewrite andb_false_r.
Qed.

Lemma card_entry_ok b hs ns n se : statics_ok (statics (pci b)) → one_root (pci b) →
  Forall2 (is_card b) ns hs → NoDup ns → is_card b n se → se ∈ hs → entry_ok (bus_entry :: hs) se.
Proof.
  intros Hs Hroot Hhs Hnd Hn Hin. pose proof (find_card _ _ _ _ _ Hs Hroot Hhs Hnd Hn Hin) as Hfind.
  destruct Hn as (path&sid&cid&_&Hl&Hc&->). split; try done.
  cbn [se_idstr card_entry]. unfold card_name. split; [rewrite length_app; unfold ID_SIZE; cbn; lia|].
  apply Forall_app. split; [by constructor|]. by repeat constructor.
Qed.
End entries.

(** ** What the entries restore *)

Section bus_state_spec.
Context {B : Type} `{ByteStore B}.
Implicit Types f : QEMUFile B.

Definition int32_bytes (l : list Z) : list Z := concat (map (λ v, be_bytes 4 (u32 v)) l).
Definition bus_bytes (bus : PCIBus) : list Z := be_bytes 4 (u32 (nirq bus)) ++ int32_bytes (irq_count bus).

Lemma put_int32s_wp f l :
  write_ok f → wp (put_int32s l) (λ _ f', write_ok f' ∧ SaveVm.written f' = SaveVm.written f ++ int32_bytes l) f.
Proof.
  revert f. induction l as [|v l IH]; intros f Hf; cbn [put_int32s].
  { apply wp_ret. by rewrite app_nil_r. }
  apply wp_bind. eapply wp_mono; [by apply qemu_put_be32_wp|]. intros [] f1 [Hf1 Hw1].
  eapply wp_mono; [by apply IH|]. intros [] f2 [Hf2 Hw2]. split; [done|].
  rewrite Hw2, Hw1. unfold int32_bytes. cbn [map concat]. by rewrite <- app_assoc.
Qed.

Lemma get_int32s_wp f l rest :
  read_ok f → Forall int_ok l → unread f = int32_bytes l ++ rest →
  wp (get_int32s (length l)) (λ r f', r = l ∧ read_ok f' ∧ unread f' = rest) f.
Proof.
  revert f. induction l as [|v l IH]; intros f Hf Hok Hu; cbn [get_int32s length]; [by apply wp_ret|].
  apply Forall_cons_iff in Hok as [Hv Hok]. unfold int32_bytes in Hu. cbn [map concat] in Hu. rewrite <- app_assoc in Hu.
  apply wp_bind. eapply wp_mono; [eapply qemu_get_be32_wp; [done|apply u32_in_w|exact Hu]|]. intros a f1 (->&Hf1&Hu1).
  apply wp_bind. eapply wp_mono; [by apply IH|]. intros r f2 (->&Hf2&Hu2). apply wp_ret. by rewrite s32_u32.
Qed.

Lemma pcibus_save_wp f bus :
  write_ok f → nirq bus = Z.of_nat (length (irq_count bus)) →
  wp (vmstate_save_state vmstate_pcibus bus) (λ _ f', write_ok f' ∧ SaveVm.written f' = SaveVm.written f ++ bus_bytes bus) f.
Proof.
  intros Hf Hn. unfold vmstate_save_state. cbn [vmstate_pcibus vm_pre_save vm_version_id vm_fields save_fields field_saved
    vf_exists vf_data data_put].
  apply wp_bind. eapply wp_mono; [by apply qemu_put_be32_wp|]. intros [] f1 [Hf1 Hw1].
  apply wp_bind. unfold put_irq_count. rewrite Hn, Z.ltb_irrefl, Nat2Z.id, firstn_all.
  eapply wp_mono; [by apply put_int32s_wp|]. intros [] f2 [Hf2 Hw2]. apply wp_ret. split; [done|].
  rewrite Hw2, Hw1. unfold bus_bytes. by rewrite Hn, <- app_assoc.
Qed.

Lemma pcibus_load_wp f bus bus0 rest :
  read_ok f → nirq bus = Z.of_nat (length (irq_count bus)) → nirq bus0 = nirq bus → int_ok (nirq bus) →
  length (irq_count bus0) = length (irq_count bus) → Forall int_ok (irq_count bus) → unread f = bus_bytes bus ++ rest →
  wp (vmstate_load_state vmstate_pcibus bus0 1) (λ r f', r = (0, bus0 <| irq_count := irq_count bus |>) ∧
    read_ok f' ∧ unread f' = rest) f.
Proof.
  intros Hf Hn Hn0 Hi Hl Hok Hu. unfold bus_bytes in Hu. rewrite <- app_assoc in Hu. unfold vmstate_load_state.
  cbn [vmstate_pcibus vm_pre_load vm_post_load vm_version_id vm_minimum_version_id vm_minimum_version_id_old vm_fields
    load_fields field_loaded vf_exists vf_version vf_data data_get].
  change (1 >? 1) with false. change (1 <? 1) with false. change (0 =? 0) with true. change (0 <=? 1) with true. cbn [negb].
  apply wp_bind, wp_bind, wp_bind. unfold get_int32_equal. apply wp_bind.
  eapply wp_mono; [eapply qemu_get_be32_wp; [done|apply u32_in_w|exact Hu]|]. intros a f1 (->&Hf1&Hu1).
  rewrite s32_u32, Hn0, Z.eqb_refl by done. apply wp_ret, wp_ret. change (0 <? 0) with false. cbv iota.
  apply wp_bind, wp_bind. unfold get_irq_count. rewrite Hn0, Hl, Hn, Z.ltb_irrefl, Nat2Z.id.
  apply wp_bind. eapply wp_mono; [by eapply get_int32s_wp|]. intros l f2 (->&Hf2&Hu2).
  apply wp_ret, wp_ret. change (0 <? 0) with false. cbv iota. apply wp_ret. change (0 <? 0) with false. cbv iota.
  apply wp_ret. split; [|done].
  assert (irq_count bus ++ drop (length (irq_count bus)) (irq_count bus0) = irq_count bus) as E
    by (rewrite <- Hl, drop_all; apply app_nil_r).
  destruct bus0. unfold update. cbn in *. by rewrite E.
Qed.
End bus_state_spec.

(** ** The machine *)

(** Saving and loading are done while the processors stand still; what they do does not
    change devices. *)
Class ProcessorsLaws (X P : Type) `{Processors (board X P)} := {
  cpu_sync_pci (b : board X P) : pci (cpu_synchronize_all_states b) = pci b;
  cpu_sync_cards (b : board X P) : cards (cpu_synchronize_all_states b) = cards b;
  cpu_post_pci (b : board X P) : pci (cpu_synchronize_all_post_init b) = pci b;
  cpu_post_cards (b : board X P) : cards (cpu_synchronize_all_post_init b) = cards b;
}.

(** The state of card [n] of the machine [b] can be loaded into that of [b0]. *)
Record card_fits {X P} (b b0 : board X P) (n : nat) : Prop := {
  cf_saved : ∃ d e, devs (pci b) !! n = Some d ∧ cards b !! n = Some e ∧ dev_ok e ∧ pci_is_express d = false;
  cf_target : ∃ d0 e0, devs (pci b0) !! n = Some d0 ∧ cards b0 !! n = Some e0 ∧ dev_ok e0 ∧
    pci_is_express d0 = false ∧ sec_bus d0 = None;
  cf_loadable d d0 : devs (pci b) !! n = Some d → devs (pci b0) !! n = Some d0 → loadable d d0;
}.

(** Card [n] of [b'] is card [n] of [b], loaded into that of [b0]. *)
Record card_restored {X P} (b b0 b' : board X P) (n : nat) : Prop := {
  cr_card e e0 : cards b !! n = Some e → cards b0 !! n = Some e0 → ∃ e', cards b' !! n = Some e' ∧ migrated e e0 e';
  cr_dev d : devs (pci b) !! n = Some d →
    ∃ d', devs (pci b') !! n = Some d' ∧ config d' = config d ∧ irq_state d' = irq_state d;
}.

(** The machine [b'] has the cards in [ns] of [b] and is like [b0] otherwise. *)
Record restored {X P} (b b0 : board X P) (root : nat) (ns : list nat) (b' : board X P) : Prop := {
  re_ok : pci_ok (pci b');
  re_statics : statics (pci b') = statics (pci b0);
  re_cards n : n ∈ ns → card_restored b b0 b' n;
  re_other m : m ∉ ns → devs (pci b') !! m = devs (pci b0) !! m ∧ cards b' !! m = cards b0 !! m;
  re_bus bus : buses (pci b') !! root = Some bus → irq_count bus = irq_count (bus_of root b);
  re_coherent : coherent (pci b0) → coherent (pci b');
}.

Section machine.
Context {B X P : Type} `{ByteStore B} `{Processors (board X P)} (block : list Z) (root : nat).
Implicit Types (b : board X P) (ns : list nat).

Section loading.
Context (b b0 : board X P).

Lemma set_bus_counts bus bus0 : buses (pci b0) !! root = Some bus0 →
  length (irq_count bus) = length (irq_count bus0) → Forall int_ok (irq_count bus) →
  counts (pci b0) (pci (set_bus root (bus0 <| irq_count := irq_count bus |>) b0)).
Proof.
  intros Hb Hl Hi. split; [done| |].
  - unfold statics. cbn. do 2 f_equal. rewrite fmap_insert. apply insert_id. rewrite lookup_fmap, Hb. cbn. f_equal.
    unfold b_static, update. cbn. by rewrite Hl.
  - intros Hb0 j b'. cbn. rewrite lookup_insert_Some. intros [[<- <-]|[_ Hb']]; [done|by eapply Hb0].
Qed.

Lemma bus_saveable bus bus0 :
  pci_ok (pci b) → pci_ok (pci b0) → statics (pci b0) = statics (pci b) →
  buses (pci b) !! root = Some bus → buses (pci b0) !! root = Some bus0 → set_irq bus = true → nirq bus = 4 →
  saveable b (λ t, t = b0) (bus_entry (B := B) root) (bus_bytes bus) (restored b b0 root []).
Proof.
  intros Hok Hok0 E Hb Hb0 Hset Hn.
  pose proof (statics_same_bus _ _ _ _ _ E Hb Hb0) as Eb.
  assert (nirq bus0 = nirq bus) as En by (by apply (f_equal nirq) in Eb).
  assert (length (irq_count bus0) = length (irq_count bus)) as El.
  { apply (f_equal (length ∘ irq_count)) in Eb. cbn in Eb. by rewrite !length_replicate in Eb. }
  assert (nirq bus = Z.of_nat (length (irq_count bus))) as Hl.
  { rewrite (bo_count _ (proj1 (ok_bus _ (po_static _ Hok) _ _ Hb)) Hset). done. }
  pose proof (po_count _ Hok _ _ Hb) as Hi.
  assert (bus_of root b = bus) as Eo by (unfold bus_of; by rewrite Hb).
  split.
  - intros f Hf. unfold vmstate_save. cbn [se_handler bus_entry]. rewrite Eo. by apply pcibus_save_wp.
  - intros f t rest Hf -> Hu. unfold vmstate_load. cbn [se_handler bus_entry se_version_id]. apply wp_bind.
    assert (bus_of root b0 = bus0) as -> by (unfold bus_of; by rewrite Hb0).
    eapply wp_mono; [eapply (pcibus_load_wp f bus bus0); done || (unfold int_ok; lia)|].
    intros r f1 (->&Hf1&Hu1). apply wp_ret. split_and!; [done| |done|done]. cbn [snd].
    pose proof (counts_kept _ _ (set_bus_counts bus bus0 Hb0 (eq_sym El) Hi) Hok0) as [K1 K2 K3].
    split; [done|done| | |..]; [by intros n Hin%not_elem_of_nil|done| |].
    + intros x. cbn. rewrite lookup_insert_eq. intros Ex. apply (inj Some) in Ex as <-. by rewrite Eo.
    + intros Hc m. by apply K3.
Qed.

(** Loading a card. *)
Lemma load_restored done n d e e0 s1 e1 t :
  n ∉ done → restored b b0 root done t → devs (pci b) !! n = Some d → cards b !! n = Some e →
  cards b0 !! n = Some e0 → migrated e e0 e1 → loaded n d (pci t) s1 →
  (∀ x, devs s1 !! n = Some x → irq_state x = irq_state d) →
  restored b b0 root (done ++ [n]) (set_card n (s1, e1) t).
Proof.
  intros Hn [Rok Rst Rc Ro Rb Rh] Hd He He0 Hm [(d'&Hd'&Ec) Lo Lok Lst Lb Lh] Hirq.
  split; cbn [pci cards set_card update fst snd].
  - exact Lok.
  - by rewrite Lst.
  - intros m [Hm'|Em%list_elem_of_singleton]%elem_of_app; [|subst m].
    + assert (m ≠ n) by (by intros ->). destruct (Rc m Hm') as [C1 C2]. split; cbn [pci cards set_card update fst snd].
      * rewrite lookup_insert_ne by done. exact C1.
      * intros x Hx. rewrite Lo by done. by apply C2.
    + split; cbn [pci cards set_card update fst snd].
      * intros x x0 Hx Hx0. rewrite lookup_insert_eq. exists e1. split; [done|]. congruence.
      * intros x Hx. exists d'. assert (x = d) as -> by congruence. split_and!; [done|done|]. by apply Hirq.
  - intros m Hm'. rewrite elem_of_app, list_elem_of_singleton in Hm'.
    destruct (Ro m) as [O1 O2]; [naive_solver|]. rewrite Lo, lookup_insert_ne by naive_solver. done.
  - by rewrite Lb.
  - auto.
Qed.

Lemma card_saveable done n se :
  n ∉ done → card_fits b b0 n → is_card (B := B) block b n se →
  ∃ bs, saveable b (restored b b0 root done) se bs (restored b b0 root (done ++ [n])).
Proof.
  intros Hn [(d&e&Hd&He&Hok&Hx) (d0&e0&Hd0&He0&Hok0&Hx0&Hsec) Hl] (path&sid&cid&_&_&_&->).
  specialize (Hl d d0 Hd Hd0). exists (pci_bytes d ++ fields_bytes 2 (vmstate_e1000_fields (B := B)) e). split.
  - intros f Hf. unfold vmstate_save. cbn [se_handler card_entry]. unfold card_of. rewrite He. cbn [default from_option id].
    apply e1000_save_wp; try done. rewrite (ld_size _ _ Hl). unfold pci_config_size. by rewrite Hx0.
  - intros f t rest Hf Ht Hu. rewrite <- app_assoc in Hu. unfold vmstate_load. cbn [se_handler card_entry se_version_id].
    apply wp_bind. destruct (re_other _ _ _ _ _ Ht n Hn) as [O1 O2]. unfold card_of. rewrite O2, He0. cbn [default from_option id].
    eapply wp_mono; [eapply (e1000_load_wp n block f (pci t) e e0 d d0); try done; [apply Ht|congruence]|].
    intros [r [s1 e1]] f1 (Hr&Ee&Hf1&Hu1&Hlo&Hirq). cbn [fst snd] in *. subst r. apply wp_ret.
    split_and!; [done| |done|done]. cbn [snd]. apply (load_restored done n d e e0 s1 e1 t Hn Ht Hd He He0); [|exact Hlo|exact Hirq].
    rewrite Ee. apply fields_copy_device; [apply Hok|apply Hok0|apply Hok|apply Hok0].
Qed.

Lemma cards_saves hs done ns ses :
  Forall (entry_ok hs) ses → Forall2 (is_card (B := B) block b) ns ses → NoDup (done ++ ns) → (∀ n, n ∈ ns → card_fits b b0 n) →
  ∃ es, map fst es = ses ∧ saves hs b (restored b b0 root done) es (restored b b0 root (done ++ ns)).
Proof.
  intros Hok Hns. revert done Hok. induction Hns as [|n se ns ses Hn _ IH]; intros done Hok Hnd Hf.
  { exists []. split; [done|]. rewrite app_nil_r. constructor. }
  apply Forall_cons_iff in Hok as [Hse Hok].
  assert (n ∉ done) as Hnot by (apply (list.NoDup_app done) in Hnd as (_&Hx&_); intros Hin; by eapply Hx; [|left]).
  destruct (card_saveable done n se Hnot) as [bs Hbs]; [apply Hf; left|done|].
  destruct (IH (done ++ [n])) as (es&Ees&Hes); [done|by rewrite <- app_assoc|intros m Hm; apply Hf; by right|].
  exists ((se, bs) :: es). split; [cbn; by rewrite Ees|]. rewrite <- app_assoc in Hes. by eapply Saves_cons.
Qed.

(** The restored lines count the restored pins. *)
Lemma restored_line_count b' ns j k :
  statics_ok (statics (pci b)) → statics (pci b0) = statics (pci b) → restored b b0 root ns b' →
  (∀ m d, m ∉ ns → devs (pci b) !! m = Some d → irq_state d = 0) →
  (∀ m d, m ∉ ns → devs (pci b0) !! m = Some d → irq_state d = 0) →
  line_count (pci b') j k = line_count (pci b) j k.
Proof.
  intros Hs E [Rok Rst Rc Ro Rb _] Hq Hq0. unfold line_count. apply msum_same. intros n.
  assert (statics (pci b') = statics (pci b)) as E' by congruence.
  assert (∀ x y : PCIDevice map_fn, pins_on (pci b') j k n x = pins_on (pci b) j k n x) as Hext.
  { intros x _. unfold pins_on, arrives. change irq_pins with [0; 1; 2; 3]. cbn [foldr].
    by rewrite !(irq_route_ext (pci b) (pci b')) by (done || lia). }
  destruct (devs (pci b) !! n) as [d|] eqn:Hd; cbn [from_option]; cycle 1.
  { destruct (devs (pci b') !! n) as [d'|] eqn:Hd'; [|done].
    destruct (statics_eq_dev _ _ _ _ E' Hd') as (?&?&_). congruence. }
  destruct (decide (n ∈ ns)) as [Hin|Hnot].
  - destruct (cr_dev _ _ _ _ (Rc n Hin) d Hd) as (d'&Hd'&Ec&Ei). rewrite Hd'. cbn [from_option]. rewrite Hext by done.
    unfold pins_on, pin_on, pci_irq_disabled. by rewrite Ec, Ei.
  - destruct (Ro n Hnot) as [Eo _]. destruct (statics_eq_dev _ _ _ _ (eq_sym E) Hd) as (d0&Hd0&_).
    rewrite Eo, Hd0. cbn [from_option]. rewrite Hext by done. unfold pins_on, pin_on.
    change irq_pins with [0; 1; 2; 3]. cbn [foldr].
    by rewrite (Hq n d Hnot Hd), (Hq0 n d0 Hnot Hd0), !Z.bits_0, !andb_false_r.
Qed.

Lemma restored_sync b' ns :
  statics_ok (statics (pci b)) → statics (pci b0) = statics (pci b) → restored b b0 root ns b' →
  (∀ j x, buses (pci b) !! j = Some x → set_irq x = true → j = root) →
  (∀ m d, m ∉ ns → devs (pci b) !! m = Some d → irq_state d = 0) →
  (∀ m d, m ∉ ns → devs (pci b0) !! m = Some d → irq_state d = 0) →
  irq_sync (pci b) → irq_sync (pci b').
Proof.
  intros Hs E Hr Hhost Hq Hq0 [Hc Hf]. assert (statics (pci b') = statics (pci b)) as E' by (destruct Hr; congruence). split.
  - intros j x k Hx Hset Hk. destruct (statics_eq_bus _ _ _ _ E' Hx) as (y&Hy&Ey).
    assert (set_irq y = true) as Hset' by (by apply (f_equal set_irq) in Ey; rewrite <- Hset).
    pose proof (Hhost j y Hy Hset') as ->. rewrite (re_bus _ _ _ _ _ Hr x Hx). unfold bus_of. rewrite Hy.
    cbn [default from_option id]. rewrite (Hc _ _ _ Hy Hset' Hk). by rewrite (restored_line_count b' ns).
  - apply (f_equal (λ t, size t.1.1)) in E'. cbn in E'. rewrite !map_size_fmap in E'. by rewrite E'.
Qed.
End loading.

Lemma restored_same b b1 b0 ns b' b2 :
  pci b1 = pci b → cards b1 = cards b → pci b2 = pci b' → cards b2 = cards b' →
  restored b1 b0 root ns b' → restored b b0 root ns b2.
Proof.
  intros E1 E2 E3 E4 [R1 R2 R3 R4 R5 R6]. split; rewrite ?E3, ?E4; try done.
  - intros n Hn. destruct (R3 n Hn) as [C1 C2]. rewrite E1 in C2. rewrite E2 in C1. split; by rewrite ?E3, ?E4.
  - unfold bus_of in *. by rewrite E1 in R5.
Qed.

Lemma machine_registered b ns :
  statics_ok (statics (pci b)) → one_root (pci b) → NoDup ns →
  (∀ n, n ∈ ns → ∃ d, devs (pci b) !! n = Some d ∧ (dev_bus d < 48)%nat) →
  ∃ ses k, register_machine (B := B) block b root ns = Some (Savevm (bus_entry root :: ses) k) ∧
    Forall2 (is_card block b) ns ses ∧ Forall (entry_ok (bus_entry root :: ses)) ses.
Proof.
  intros Hs Hroot Hnd Hns.
  destruct (register_cards_some (B := B) block root b [] 1 [] ns Hs Hroot Hnd Hns (Forall2_nil _)) as (ses&k&E&Hses).
  exists ses, k. split; [exact E|]. split; [done|]. apply Forall_forall. intros se Hin%list_elem_of_In.
  pose proof Hin as [i Hi]%list_elem_of_lookup. destruct (Forall2_lookup_r _ _ _ _ _ Hses Hi) as (n&_&Hn).
  by eapply card_entry_ok.
Qed.

(** C10: two machines were started with the same devices: a host bridge, at
    most 48 buses and any number of cards anywhere behind it. They register the
    same entries. Saving the one and loading the file into the other both
    succeed and consume exactly what was written; every card then has the saved
    registers, EEPROM and transmit context (those in the card's description,
    see [migrated]), its configuration space and its interrupt pins are the
    saved ones, and all else is as it was. When the lines of the saved machine
    counted its pins, so do the restored ones. *)
Theorem snapshot_restores_cards `{!ProcessorsLaws X P} (bk : B) b b0 ns fuel bus :
  bs_content bk = [] → NoDup ns → (S (length ns) < fuel)%nat →
  pci_ok (pci b) → pci_ok (pci b0) → statics (pci b0) = statics (pci b) → (nbuses (pci b) ≤ 48)%nat →
  buses (pci b) !! root = Some bus → set_irq bus = true → nirq bus = 4 →
  (∀ j x, buses (pci b) !! j = Some x → set_irq x = true → j = root) →
  (∀ n, n ∈ ns → card_fits b b0 n) →
  ∃ r f f' b',
    register_machine block b root ns = Some r ∧ register_machine block b0 root ns = Some r ∧
    ('(ret, t) ← qemu_savevm_state fuel (savevm_handlers r) b; qemu_fflush;; mret (ret, t))
      (qemu_fopen_ops bk (Some bs_put) None) = Ret (0, cpu_synchronize_all_states b) f ∧
    qemu_loadvm_state fuel (savevm_handlers r) b0 (qemu_fopen_ops (opaque f) None (Some bs_get)) = Ret (0, b') f' ∧
    unread f' = [] ∧ restored b b0 root ns b' ∧
    (irq_sync (pci b) → (∀ m d, m ∉ ns → devs (pci b) !! m = Some d → irq_state d = 0) →
     (∀ m d, m ∉ ns → devs (pci b0) !! m = Some d → irq_state d = 0) → irq_sync (pci b')).
Proof.
  intros Hbk Hnd Hfuel Hok Hok0 E Hk Hb Hset Hn Hhost Hfit. pose proof (po_static _ Hok) as Hs.
  assert (one_root (pci b)) as Hroot.
  { intros i j x y Hx Hy Px Py. rewrite (Hhost i x), (Hhost j y); try done;
      [apply (bo_root _ (proj1 (ok_bus _ Hs _ _ Hy)) Py)|apply (bo_root _ (proj1 (ok_bus _ Hs _ _ Hx)) Px)]. }
  assert (∀ n, n ∈ ns → ∃ d, devs (pci b) !! n = Some d ∧ (dev_bus d < 48)%nat) as Hns.
  { intros n Hin. destruct (cf_saved _ _ _ (Hfit n Hin)) as (d&_&Hd&_). exists d. split; [done|].
    destruct (ok_dev _ Hs _ _ Hd) as (_&_&x&Hx&_). destruct (ok_bus _ Hs _ _ Hx). lia. }
  destruct (machine_registered b ns Hs Hroot Hnd Hns) as (ses&k&Er&Hses&Hes).
  destruct (statics_eq_bus _ _ _ _ (eq_sym E) Hb) as (bus0&Hb0&_).
  set (b1 := cpu_synchronize_all_states b).
  pose proof (cpu_sync_pci b) as Ep. pose proof (cpu_sync_cards b) as Ec. fold b1 in Ep, Ec.
  destruct (cards_saves b1 b0 (bus_entry root :: ses) [] ns ses Hes) as (es&Ees&Hsv);
    [|done|intros n Hin; destruct (Hfit n Hin) as [F1 F2 F3]; split; by rewrite ?Ep, ?Ec|].
  { eapply Forall2_impl; [|exact Hses]. intros n se Hc. unfold is_card in *. by rewrite Ep. }
  destruct (snapshot_restores (bus_entry root :: ses) (λ t, t = b0) ((bus_entry root, bus_bytes bus) :: es)
    (restored b1 b0 root ns) bk b b0 fuel Hbk) as (f&f'&b'&Es&El&Hun&Hr); [by cbn; rewrite Ees| |done| |].
  { eapply Saves_cons; [apply bus_entry_ok| |exact Hsv]. apply (bus_saveable b1 b0 bus bus0); rewrite ?Ep; done. }
  { cbn. apply Forall2_length in Hses. lia. }
  assert (restored b b0 root ns (cpu_synchronize_all_post_init b')) as Hr'
    by (eapply restored_same; [..|exact Hr]; auto using cpu_post_pci, cpu_post_cards).
  exists (Savevm (bus_entry root :: ses) k), f, f', (cpu_synchronize_all_post_init b'). split_and!; try done.
  - rewrite <- Er. unfold register_machine. destruct (register_bus _ root); [|done]. cbn [mbind option_bind].
    apply register_cards_statics; [done|done|]. intros n Hin. destruct (Hns n Hin) as (d&Hd&_). by exists d.
  - intros Hsync Hq Hq0. by eapply (restored_sync b b0).
Qed.
End machine.
