(* ===== verification/Link.v ===== *)
(** * The device and the firmware connected

    The messaging library as the message link of the device, and a network of
    two byte queues: what the device sends goes to the socket of the firmware,
    whose thread ([t_0_entry]) runs one iteration whenever that socket holds a
    complete command. The device code of [hw/e1000.c], the messaging code of
    [message.c] and the firmware code of [vf_tx.c] are composed here as they are
    modelled, so the theorems speak about the whole path of a command. *)

From S2P Require Import Prelude Bytes Memory Process Message Panel Options Discovery E1000Hw AqSpec E1000State E1000Tx Firmware AdminQ.

(** ** The messaging library as a link *)

Definition proc_link {W : Type} `{OS W} (fuel : nat) : MsgLink (proc W) := {|
  link_locate := locate fuel None;
  link_senddata := senddata;
  link_recvdata := recvdata;
  link_close := λ fd, _ ← sys_rc (os_close fd); mret ();
  link_malloc := λ n, sys (os_garbage n);
|}.

(** ** Systems with one connected stream

    Only the stream works; every other call fails. *)

Definition pipe_os {W : Type} (send : list Z → W → W) (recv : Z → bool → W → list Z * W) : OS W := {|
  os_malloc := λ _ w, (true, w);
  os_garbage := λ n w, (replicate n 0, w);
  os_fopen := λ _ w, (None, w);
  os_socket := λ _ _ _ w, (inl Sys.ECANCELED, w);
  os_close := λ _ w, (inr (), w);
  os_setsockopt := λ _ _ _ _ w, (inl Sys.ECANCELED, w);
  os_bind := λ _ _ w, (inl Sys.ECANCELED, w);
  os_listen := λ _ _ w, (inl Sys.ECANCELED, w);
  os_accept := λ _ w, (inl Sys.ECANCELED, w);
  os_connect := λ _ _ w, (inl Sys.ECANCELED, w);
  os_send := λ _ bs w, (inr (Z.of_nat (length bs)), send bs w);
  os_recv := λ _ n peek w, let '(bs, w) := recv n peek w in (inr bs, w);
  os_sendto := λ _ _ _ w, (inl Sys.ECANCELED, w);
  os_recvfrom := λ _ _ w, (inl Sys.ECANCELED, w);
  os_select := λ _ _ w, (inl Sys.ECANCELED, w);
  os_getaddrinfo := λ _ _ _ _ _ w, (None, w);
  os_getifaddrs := λ w, (inl Sys.ECANCELED, w);
  os_getnameinfo := λ _ w, (None, w);
  os_inet_pton := λ _, None;
  os_inet_ntop := λ _ _, None;
|}.

(** *** Two queues *)

Record wire := {
  w_in : list Z;
  w_out : list Z;
}.
#[export] Instance wire_eta : Eta wire := λ w, Build_wire (w_in w) (w_out w).

Definition wire_send (bs : list Z) (w : wire) : wire := w <| w_out ::= λ l, l ++ bs |>.
Definition wire_recv (n : Z) (peek : bool) (w : wire) : list Z * wire :=
  (take (Z.to_nat n) (w_in w), if peek then w else w <| w_in ::= drop (Z.to_nat n) |>).

#[export] Instance wire_os : OS wire := pipe_os wire_send wire_recv.

#[export] Instance wire_stream : StreamOS wire.
Proof.
  refine {| rx := λ w _, w_in w; txd := λ w _, w_out w; quiet := True; peer := λ _, () |}.
  - intros w fd n peek Hn Hne. eexists. split; [done|]. by destruct peek.
  - intros w fd bs Hbs. eexists _, []. by rewrite app_nil_r.
  - intros w fd n. eexists _, w. split; [done|]. rewrite length_replicate.
    split_and!; try done. apply Forall_replicate. done.
Defined.

(** *** Recognising a complete command *)

(** The first message of a stream: its padding, its body and what follows. *)
Definition frame_of (l : list Z) : option (list Z * list Z * list Z) :=
  let len := Z.to_nat (be_val (take 2 l)) in
  let pad := take 2 (drop 2 l) in
  let body := take len (drop 8 l) in
  let rest := drop (8 + len) l in
  if bytes_okb l && bool_decide (8 + len ≤ length l)%nat && bool_decide (0 < len)%nat &&
     bool_decide (l = msg_encode pad body ++ rest)
  then Some (pad, body, rest) else None.

Definition command_of (l : list Z) : option (e1000_aq_desc * list Z * list (list Z) * list Z) :=
  '(pad1, body, rest) ← frame_of l;
  if bool_decide (length body = 32%nat) then
    let d := aq_desc_decode body in
    if aq_datalen d =? 0 then Some (d, [], [pad1], rest) else
    '(pad2, buf, rest) ← frame_of rest;
    if (Z.of_nat (length buf) =? aq_datalen d) && (aq_datalen d <=? FW_DAT_SIZE)
    then Some (d, buf, [pad1; pad2], rest) else None
  else None.

(** ** The network *)

Record fwlink := {
  fl_proc : proc wire;
  fl_st : fw_state;
  fl_hist : list Z;
}.
#[export] Instance fwlink_eta : Eta fwlink := λ w, Build_fwlink (fl_proc w) (fl_st w) (fl_hist w).

Definition fw_sock : Z := 3.

Definition fw_state_okb (st : fw_state) : bool :=
  bool_decide (length (fw_desc st) = 32%nat) && bytes_okb (fw_desc st) &&
  bool_decide (length (fw_buffer st) = Z.to_nat FW_DAT_SIZE) && bytes_okb (fw_buffer st).

(** The firmware thread is scheduled. *)
Definition fw_run (w : fwlink) : fwlink :=
  match command_of (w_in (os (fl_proc w))) with
  | Some _ =>
      if fw_state_okb (fl_st w) then
        match t_0_iter fw_sock (fl_st w) (fl_proc w) with
        | Ret (st, _) p => w <| fl_proc := p |> <| fl_st := st |>
        | _ => w
        end
      else w
  | None => w
  end.

Definition fwlink_push (bs : list Z) (w : fwlink) : fwlink :=
  w <| fl_proc ::= λ p, p <| os ::= λ x, x <| w_in ::= λ l, l ++ bs |> |> |>
    <| fl_hist ::= λ l, l ++ bs |>.
Definition fwlink_send (bs : list Z) (w : fwlink) : fwlink := fw_run (fwlink_push bs w).
Definition fwlink_recv (n : Z) (peek : bool) (w : fwlink) : list Z * fwlink :=
  (take (Z.to_nat n) (w_out (os (fl_proc w))),
   if peek then w else
   w <| fl_proc ::= λ p, p <| os ::= λ x, x <| w_out ::= drop (Z.to_nat n) |> |> |>).

#[export] Instance fwlink_os : OS fwlink := pipe_os fwlink_send fwlink_recv.

(** ** Lemmas *)

Lemma frame_of_Some l pad body rest :
  frame_of l = Some (pad, body, rest) →
  bytes_ok l ∧ length pad = 2%nat ∧ bytes_ok body ∧ 0 < Z.of_nat (length body) < 65536 ∧
  bytes_ok rest ∧ l = msg_encode pad body ++ rest.
Proof.
  unfold frame_of. set (len := Z.to_nat (be_val (take 2 l))).
  case_match eqn:E; [|done]. intros [= <- <- <-].
  rewrite !andb_true_iff, !bool_decide_eq_true in E. destruct E as (((Hok&Hl)&Hn)&Hl').
  apply bytes_okb_ok in Hok. split; [done|].
  pose proof (be_val_range (take 2 l) (bytes_ok_take _ _ Hok)) as Hr.
  rewrite length_take, Nat.min_l in Hr by lia. change (256 ^ Z.of_nat 2) with 65536 in Hr.
  rewrite !length_take, !length_drop. split_and!; auto with vf; lia.
Qed.

Lemma bytes_okb_true l : bytes_ok l → bytes_okb l = true.
Proof.
  unfold bytes_okb, bytes_ok, byte_ok. induction 1; cbn; [done|].
  rewrite IHForall. lia.
Qed.

(** The length field of a message, and what it cuts out of the stream. *)
Lemma frame_of_header pad len sum tail :
  length pad = 2%nat → 0 ≤ len < 65536 →
  let l := msg_header_encode pad len sum ++ tail in
  be_val (take 2 l) = len ∧ take 2 (drop 2 l) = pad ∧
  (∀ n, drop (8 + n) l = drop n tail) ∧ length l = (8 + length tail)%nat.
Proof.
  intros Hp Hl. cbv zeta. pose proof (length_msg_header_encode pad len sum Hp) as Hhl.
  split_and!.
  - unfold msg_header_encode. rewrite <- !app_assoc.
    rewrite take_app_length' by (by rewrite length_be_bytes).
    rewrite be_val_bytes. by apply Z.mod_small.
  - unfold msg_header_encode. rewrite <- !app_assoc.
    rewrite drop_app_length' by (by rewrite length_be_bytes). by rewrite take_app_length'.
  - intros n. rewrite <- drop_drop. by rewrite drop_app_length' by done.
  - rewrite length_app. lia.
Qed.

Lemma msg_encode_ok pad body : bytes_ok pad → bytes_ok body → bytes_ok (msg_encode pad body).
Proof. intros. unfold msg_encode, msg_header_encode. rewrite !bytes_ok_app. auto 6 with vf. Qed.

Lemma frame_of_encode pad body rest :
  length pad = 2%nat → bytes_ok pad → bytes_ok body → bytes_ok rest →
  0 < Z.of_nat (length body) < 65536 →
  frame_of (msg_encode pad body ++ rest) = Some (pad, body, rest).
Proof.
  intros Hp Hpok Hbok Hrok Hl. set (l := msg_encode pad body ++ rest).
  assert (bytes_okb l = true) as Hokb.
  { apply bytes_okb_true, bytes_ok_app. split; [by apply msg_encode_ok|done]. }
  destruct (frame_of_header pad (Z.of_nat (length body)) (xor_words body) (body ++ rest))
    as (Hv&Hpad&Hd&Hll); [done|lia|].
  rewrite app_assoc in Hv, Hpad, Hd, Hll. fold (msg_encode pad body) in *. fold l in Hv, Hpad, Hd, Hll.
  unfold frame_of. rewrite Hv, Hpad, Hokb, Hll, Nat2Z.id, Hd.
  rewrite (Hd 0%nat : drop 8 l = _), drop_0.
  rewrite take_app_length, drop_app_length, length_app.
  rewrite !bool_decide_true; [done|done|lia..].
Qed.

(** A message that is not complete is no frame. *)
Lemma frame_of_partial pad len sum tail :
  length pad = 2%nat → 0 ≤ len < 65536 → Z.of_nat (length tail) < len →
  frame_of (msg_header_encode pad len sum ++ tail) = None.
Proof.
  intros Hp Hl Ht. unfold frame_of.
  destruct (frame_of_header pad len sum tail) as (->&->&Hd&->); [done..|].
  rewrite (bool_decide_false (8 + _ ≤ _)%nat) by lia. by rewrite andb_false_r.
Qed.

Lemma frame_of_nil : frame_of [] = None.
Proof. done. Qed.

(** What a recognised command is. *)
Lemma command_of_Some l d buf pads rest :
  command_of l = Some (d, buf, pads, rest) →
  fw_command_ok d buf ∧ Forall (λ pad, length pad = 2%nat) pads ∧
  length pads = length (fw_request d buf) ∧
  l = concat (zip_with msg_encode pads (fw_request d buf)) ++ rest.
Proof.
  unfold command_of, fw_command_ok, fw_request.
  destruct (frame_of l) as [[[pad1 body] r1]|] eqn:E1; [|done]. cbn [mbind option_bind].
  apply frame_of_Some in E1 as (_&Hp1&Hb1&_&_&->).
  case_bool_decide as Hl; [|done].
  pose proof (aq_desc_decode_ok body Hb1 Hl). pose proof (aq_desc_encode_decode body Hb1 Hl) as He.
  destruct (Z.eqb_spec (aq_datalen (aq_desc_decode body)) 0) as [Ez|Ez].
  - intros [= <- <- <- <-]. rewrite Ez, He. cbn. rewrite app_nil_r.
    split_and!; try done; auto. by constructor.
  - destruct (frame_of r1) as [[[pad2 buf'] r2]|] eqn:E2; [|done]. cbn [mbind option_bind].
    apply frame_of_Some in E2 as (_&Hp2&Hb2&_&_&->).
    case_match eqn:E; [|done]. apply andb_true_iff in E as [E3 E4].
    intros [= <- <- <- <-]. rewrite (proj2 (Z.eqb_neq _ _) Ez), He. cbn.
    rewrite app_nil_r, <- app_assoc. split_and!; try done; auto; lia.
Qed.

Lemma fw_state_okb_iff st : fw_state_okb st = true ↔ fw_state_ok st.
Proof.
  unfold fw_state_okb, fw_state_ok. rewrite !andb_true_iff, !bool_decide_eq_true.
  split.
  - intros (((?&?%bytes_okb_ok)&?)&?%bytes_okb_ok). done.
  - intros (?&?%bytes_okb_true&?&?%bytes_okb_true). done.
Qed.

(** Scheduling the firmware on a complete command: it is taken from the queue
    and its answer appended to the other one. *)
Lemma fw_run_command w d buf pads rest :
  fw_state_ok (fl_st w) →
  command_of (w_in (os (fl_proc w))) = Some (d, buf, pads, rest) →
  ∃ pads', Forall (λ pad, length pad = 2%nat) pads' ∧
    length pads' = length (fw_response (fw_echobuf (fl_st w)) d buf) ∧
    w_in (os (fl_proc (fw_run w))) = rest ∧ fl_hist (fw_run w) = fl_hist w ∧
    fw_state_ok (fl_st (fw_run w)) ∧
    w_out (os (fl_proc (fw_run w))) = w_out (os (fl_proc w)) ++
      concat (zip_with msg_encode pads' (fw_response (fw_echobuf (fl_st w)) d buf)).
Proof.
  intros Hst Hc. unfold fw_run. rewrite Hc. rewrite (proj2 (fw_state_okb_iff _) Hst).
  destruct (command_of_Some _ _ _ _ _ Hc) as (Hcmd&Hpads&Hpl&Hin).
  change (w_in (os (fl_proc w))) with (rx (os (fl_proc w)) fw_sock) in Hin.
  destruct (t_0_iter_spec fw_sock (fl_st w) d buf pads rest (fl_proc w) Hst Hcmd Hpads Hpl Hin)
    as (st'&p'&pads'&more&->&Hst'&_&Hx&Hq&Hpads'&Hpl'&Ht).
  cbn in *. rewrite (Hq I), app_nil_r in Hx. exists pads'. done.
Qed.

(** Sending only ever makes more available to the device. *)
Lemma fwlink_send_grows bs w :
  ∃ more, w_out (os (fl_proc (fwlink_send bs w))) = w_out (os (fl_proc w)) ++ more ∧
          fl_hist (fwlink_send bs w) = fl_hist w ++ bs.
Proof.
  unfold fwlink_send. set (w1 := fwlink_push bs w).
  destruct (command_of (w_in (os (fl_proc w1)))) as [[[[d buf] pads] rest]|] eqn:Ec;
    [destruct (fw_state_okb (fl_st w1)) eqn:Es|].
  - apply fw_state_okb_iff in Es.
    destruct (fw_run_command w1 d buf pads rest Es Ec) as (?&_&_&_&Hh&_&Ho). eauto.
  - unfold fw_run. rewrite Ec, Es. exists []. by rewrite app_nil_r.
  - unfold fw_run. rewrite Ec. exists []. by rewrite app_nil_r.
Qed.

#[export] Instance fwlink_stream : StreamOS fwlink.
Proof.
  refine {| rx := λ w _, w_out (os (fl_proc w)); txd := λ w _, fl_hist w; quiet := False;
            peer := λ w, (w_in (os (fl_proc w)), fl_st w) |}.
  - intros w fd n peek Hn Hne. eexists. split; [done|]. by destruct peek.
  - intros w fd bs Hbs. destruct (fwlink_send_grows bs w) as (more&?&?).
    by exists (fwlink_send bs w), more.
  - intros w fd n. eexists _, w. split; [done|]. rewrite length_replicate.
    split_and!; try done. apply Forall_replicate. done.
Defined.

(** ** A command on its way to the firmware *)

Definition pad0 : list Z := [0; 0].

Lemma fwlink_push_app w l1 l2 : fwlink_push l2 (fwlink_push l1 w) = fwlink_push (l1 ++ l2) w.
Proof. unfold fwlink_push, update. cbn. by rewrite <- !app_assoc. Qed.

Lemma fw_run_none w : command_of (w_in (os (fl_proc w))) = None → fw_run w = w.
Proof. intros E. unfold fw_run. by rewrite E. Qed.

(** [senddata] of the device: the firmware is not scheduled between the header
    and the body as long as they do not complete a command. *)
Lemma dev_senddata_wp fd data len (p : proc fwlink) :
  let body := take (Z.to_nat len) data in
  bytes_ok data → 0 < len < 65536 → len ≤ Z.of_nat (length data) →
  command_of (w_in (os (fl_proc (os p))) ++ msg_header_encode pad0 len (xor_words body)) = None →
  wp (senddata fd data len) (λ rc p',
    rc = len ∧ os p' = fw_run (fwlink_push (msg_encode pad0 body) (os p))) p.
Proof.
  intros body Hok Hlen Hdata Hc.
  assert (∀ bs (w : fwlink), os_send fd bs w = (inr (Z.of_nat (length bs)), fwlink_send bs w))
    as Hs by done.
  assert (Z.of_nat (length body) = len) as Hl by (unfold body; rewrite length_take; lia).
  set (w2 := fwlink_push (msg_header_encode pad0 len (xor_words body)) (os p)).
  apply (senddata_calls fd data len p pad0 (os p) w2 (fwlink_send body w2)); try done.
  - rewrite Hs. unfold fwlink_send. rewrite fw_run_none by done. by rewrite length_msg_header_encode.
  - rewrite Hs. fold body. by rewrite Hl.
  - intros lg. split; [done|]. cbn.
    unfold w2, fwlink_send, msg_encode. by rewrite fwlink_push_app, Hl.
Qed.

Section commands.
Context (d : e1000_aq_desc) (buf : list Z).
Context (Hcmd : fw_command_ok d buf).

Lemma frame_of_desc rest :
  bytes_ok rest →
  frame_of (msg_encode pad0 (aq_desc_encode d) ++ rest) = Some (pad0, aq_desc_encode d, rest).
Proof.
  intros. pose proof (length_aq_desc_encode d).
  apply frame_of_encode; auto with vf; [by apply bytes_okb_ok|lia].
Qed.

Lemma command_of_desc_partial sum : command_of (msg_header_encode pad0 32 sum) = None.
Proof.
  unfold command_of. rewrite <- (app_nil_r (msg_header_encode _ _ _)).
  by rewrite frame_of_partial.
Qed.

Lemma command_of_desc :
  command_of (msg_encode pad0 (aq_desc_encode d)) =
    if aq_datalen d =? 0 then Some (d, [], [pad0], []) else None.
Proof.
  destruct Hcmd as (Hd&_). unfold command_of. rewrite <- (app_nil_r (msg_encode _ _)).
  rewrite frame_of_desc by constructor. cbn [mbind option_bind].
  rewrite bool_decide_true by apply length_aq_desc_encode.
  rewrite aq_desc_decode_encode by done. by case_match.
Qed.

Lemma command_of_data_partial sum :
  aq_datalen d ≠ 0 → in_w 32 sum →
  command_of (msg_encode pad0 (aq_desc_encode d) ++ msg_header_encode pad0 (aq_datalen d) sum) = None.
Proof.
  intros Hz Hs. destruct Hcmd as (Hd&_). pose proof (aq_desc_datalen_range d Hd).
  unfold command_of. rewrite frame_of_desc.
  2: { unfold msg_header_encode. rewrite !bytes_ok_app. split_and!; auto with vf.
       apply bytes_okb_ok. done. }
  cbn [mbind option_bind]. rewrite bool_decide_true by apply length_aq_desc_encode.
  rewrite aq_desc_decode_encode by done. rewrite (proj2 (Z.eqb_neq _ _) Hz).
  rewrite <- (app_nil_r (msg_header_encode _ _ _)). rewrite frame_of_partial; try done.
  cbn. lia.
Qed.

Lemma command_of_data :
  aq_datalen d ≠ 0 →
  command_of (msg_encode pad0 (aq_desc_encode d) ++ msg_encode pad0 buf) =
    Some (d, buf, [pad0; pad0], []).
Proof.
  intros Hz. destruct Hcmd as (Hd&Hb&Hl&Hm). pose proof (aq_desc_datalen_range d Hd).
  assert (bytes_ok pad0) by (apply bytes_okb_ok; done).
  unfold command_of. rewrite frame_of_desc by (by apply msg_encode_ok).
  cbn [mbind option_bind]. rewrite bool_decide_true by apply length_aq_desc_encode.
  rewrite aq_desc_decode_encode by done. rewrite (proj2 (Z.eqb_neq _ _) Hz).
  rewrite <- (app_nil_r (msg_encode pad0 buf)).
  rewrite frame_of_encode by (done || lia || by apply Forall_nil). cbn [mbind option_bind].
  rewrite Hl, Z.eqb_refl. by replace (_ <=? _) with true by lia.
Qed.
End commands.

(** The network at rest: no byte is on its way. *)
Definition link_idle (w : fwlink) : Prop :=
  w_in (os (fl_proc w)) = [] ∧ w_out (os (fl_proc w)) = [] ∧ fw_state_ok (fl_st w).

(** The answer waiting for the device. *)
Definition link_answer (d : e1000_aq_desc) (buf : list Z) (w : fwlink) : Prop :=
  w_in (os (fl_proc w)) = [] ∧ fw_state_ok (fl_st w) ∧
  ∃ pads echobuf, Forall (λ pad, length pad = 2%nat) pads ∧
    length pads = length (fw_response echobuf d buf) ∧
    w_out (os (fl_proc w)) = concat (zip_with msg_encode pads (fw_response echobuf d buf)).

Lemma fw_run_answers d buf bytes pads w :
  link_idle w → command_of bytes = Some (d, buf, pads, []) →
  link_answer d buf (fw_run (fwlink_push bytes w)).
Proof.
  intros (Hin&Hout&Hst) Hc.
  destruct (fw_run_command (fwlink_push bytes w) d buf pads []) as (pads'&Hp&Hpl&Hin'&_&Hst'&Ho).
  - done.
  - cbn. by rewrite Hin.
  - cbn in Ho. rewrite Hout in Ho. unfold link_answer. split_and!; eauto.
Qed.

(** ** What the firmware makes of a command *)

(** A command the firmware serves in step with the device: it has no data, or
    its data comes back. *)
Definition aq_servable (d : e1000_aq_desc) : Prop :=
  aq_datalen d ≤ FW_DAT_SIZE ∧ (aq_opcode d = e1000_aqc_echo ∨ aq_datalen d = 0).

Lemma fw_response_servable echobuf d buf :
  aq_servable d → fw_response echobuf d buf = fw_request (aq_completed true d) buf.
Proof.
  intros [_ Hs]. unfold fw_response, fw_request. cbn [aq_completed aq_datalen].
  destruct (Z.eqb_spec (aq_datalen d) 0) as [|Hz]; [by rewrite andb_false_r|].
  destruct Hs as [->|]; [|done]. by rewrite orb_true_r.
Qed.

(** ** The command's path through the device *)

Section endtoend.
Context {X : Type} `{PhysMemLaws X} (fuel : nat).
#[local] Instance dev_link : MsgLink (proc fwlink) := proc_link fuel.
Implicit Types m : machine X (proc fwlink).

(** The data buffer of a command. *)
Definition aq_data m (d : e1000_aq_desc) : list Z :=
  phys_read (mem m) (aq_addr d) (Z.to_nat (aq_datalen d)).

Lemma aq_data_ok m d : aq_desc_ok d → aq_servable d → fw_command_ok d (aq_data m d).
Proof.
  intros Hd [Hm _]. pose proof (aq_desc_datalen_range d Hd). unfold aq_data.
  split_and!; [done|apply phys_read_ok| |done]. rewrite phys_read_length. lia.
Qed.

Lemma aq_send_wp fd d m :
  aq_desc_ok d → aq_servable d → link_idle (os (world m)) →
  wp (aq_send fd d) (λ rc m', 0 ≤ rc ∧ link_answer d (aq_data m d) (os (world m')) ∧
    dev m' = dev m ∧ sent m' = sent m ∧ mem m' = mem m) m.
Proof.
  intros Hd Hs Hidle. pose proof (aq_data_ok m d Hd Hs) as Hcmd.
  pose proof (aq_desc_datalen_range d Hd). pose proof (length_aq_desc_encode d) as Hel.
  pose proof Hidle as (Hin&_). unfold aq_send. apply wp_bind, wp_zoom.
  eapply wp_mono; [apply (dev_senddata_wp fd (aq_desc_encode d) 32)|]; auto with vf; try lia.
  { rewrite Hin. apply command_of_desc_partial. }
  intros rc p1 [-> Ho]. change (Z.to_nat 32) with 32%nat in Ho. rewrite take_ge in Ho by lia.
  change (32 <? 0) with false. cbv iota. pose proof (command_of_desc d _ Hcmd) as Hc1.
  destruct (Z.eqb_spec (aq_datalen d) 0) as [Ez|Ez].
  - rewrite Ez. apply wp_ret. split_and!; try done. cbn. rewrite Ho.
    replace (aq_data m d) with (@nil Z) by (unfold aq_data; rewrite Ez; symmetry;
      apply nil_length_inv; by rewrite phys_read_length).
    by eapply fw_run_answers.
  - replace (aq_datalen d >? 0) with true by lia. apply wp_bind, wp_read. cbn.
    rewrite s32_small by lia. fold (aq_data m d). apply wp_zoom.
    rewrite fw_run_none in Ho by (cbn; by rewrite Hin).
    pose proof Hcmd as (_&Hbok&Hbl&_).
    eapply wp_mono; [apply (dev_senddata_wp fd (aq_data m d))|]; auto; try lia; cbn.
    { rewrite Ho. cbn. rewrite Hin. apply (command_of_data_partial d _ Hcmd); [done|].
      apply xor_words_range, bytes_ok_take, Hbok. }
    intros rc p2 [-> Ho2]. split_and!; try done; [lia|]. cbn.
    rewrite Ho2, Ho, fwlink_push_app, take_ge by lia.
    eapply fw_run_answers; [done|]. by apply command_of_data.
Qed.

Lemma aq_receive_wp fd d m :
  aq_desc_ok d → aq_servable d → link_answer d (aq_data m d) (os (world m)) →
  wp (aq_receive fd d) (λ r m', r = Some (aq_completed true d) ∧ link_idle (os (world m')) ∧
    dev m' = dev m ∧ sent m' = sent m ∧ mem_equiv (mem m') (mem m)) m.
Proof.
  intros Hd Hs (Hin&Hst&pads&eb&Hpads&Hpl&Hout). rewrite fw_response_servable in Hpl, Hout by done.
  pose proof (aq_completed_ok true d Hd) as Hd'.
  set (d' := aq_completed true d) in *. assert (aq_datalen d' = aq_datalen d) as Hdl by done.
  assert (aq_addr d' = aq_addr d) as Hda by done.
  pose proof (aq_data_ok m d Hd Hs) as (_&Hbok&Hbl&_).
  pose proof (aq_desc_datalen_range d Hd). pose proof (length_aq_desc_encode d') as Hel.
  rewrite <- (app_nil_r (concat _)) in Hout.
  destruct (request_stream d' _ pads [] _ Hpads Hpl Hout) as (pad1&tail&Hp1&Hout1&Ht0&Ht1).
  rewrite Hdl in Ht0, Ht1. unfold aq_receive. apply wp_bind, wp_zoom.
  eapply wp_mono; [eapply (recvdata_msg_wp fd _ _ pad1 (aq_desc_encode d') tail)|]; auto with vf; try lia.
  { rewrite Hel. unfold AQ_DESC_SIZE. lia. }
  intros [[rc recv] len] p1 (->&->&->&Hx1&_&_&Hpeer1). change (0 <? 0) with false. cbv iota.
  rewrite drop_ge, app_nil_r, aq_desc_decode_encode by (done || rewrite length_replicate; lia).
  cbv zeta. rewrite Hdl. cbn in Hx1, Hpeer1. injection Hpeer1 as Hin1 Hst1.
  destruct (Z.eqb_spec (aq_datalen d) 0) as [Ez|Ez].
  - rewrite Ez. apply wp_ret. cbn. rewrite (Ht0 Ez) in Hx1. unfold link_idle.
    split_and!; try done; congruence.
  - destruct (Ht1 Ez) as (pad2&Hp2&->). replace (aq_datalen d >? 0) with true by lia.
    apply wp_bind, wp_zoom, wp_sys. cbn [fst snd os_garbage fwlink_os pipe_os]. cbn.
    apply wp_bind, wp_zoom.
    eapply wp_mono; [eapply (recvdata_msg_wp fd _ _ pad2 (aq_data m d) [])|]; try done; try lia.
    { apply Forall_replicate. done. }
    { rewrite length_replicate. lia. }
    intros [[rc out] len2] p2 (->&->&->&Hx2&_&_&Hpeer2). change (0 <? 0) with false. cbv iota.
    cbn in Hx2, Hpeer2. injection Hpeer2 as Hin2 Hst2.
    rewrite load_in by (rewrite length_app; lia). rewrite drop_0, take_app_length' by lia.
    apply wp_bind, wp_ret.
    apply wp_bind, wp_write, wp_ret. rewrite Hda. cbn. unfold link_idle.
    split_and!; try done; try congruence. intros a n. apply phys_write_back.
Qed.

Lemma aq_exchange_wp fd d m :
  aq_desc_ok d → aq_servable d → link_idle (os (world m)) →
  wp (aq_exchange fd d) (λ r m', r = Some (aq_completed true d) ∧ link_idle (os (world m')) ∧
    dev m' = dev m ∧ sent m' = sent m ∧ mem_equiv (mem m') (mem m)) m.
Proof.
  intros Hd Hs Hidle. unfold aq_exchange. apply wp_bind.
  eapply wp_mono; [by apply aq_send_wp|]. intros rc m1 (Hrc&Hans&Hdev&Hsent&Hmem).
  replace (rc <? 0) with false by lia.
  eapply wp_mono; [apply aq_receive_wp; try done; unfold aq_data in *; by rewrite Hmem|].
  intros r m2 (->&Hidle2&Hdev2&Hsent2&Hmem2). rewrite Hmem in Hmem2. split_and!; congruence.
Qed.

(** One tail write, with the firmware connected. *)
Lemma atq_firmware_wp val m :
  fs (dev m) ≠ INVALID_SOCKET → aq_servable (atq_head m) → link_idle (os (world m)) →
  wp (e1000_set_atq_tail PF_ATQT val) (λ _ m',
    phys_read (mem m') (atq_base (dev m)) 32 = aq_desc_encode (aq_completed true (atq_head m)) ∧
    (∀ a n, range_disjoint a n (atq_base (dev m)) 32 →
       phys_read (mem m') a n = phys_read (mem m) a n) ∧
    dev m' = atqh_advance (set_reg (dev m) PF_ATQT val) ∧
    sent m' = sent m ∧ link_idle (os (world m'))) m.
Proof.
  intros Hfs Hs Hidle. unfold e1000_set_atq_tail, put_reg.
  apply wp_bind, wp_mod_dev, wp_bind, wp_get_dev, wp_bind, wp_read. cbn [dev mem update].
  rewrite atq_base_set_tail. change (Z.to_nat (s32 AQ_DESC_SIZE)) with 32%nat.
  fold (atq_head m). cbv zeta. unfold e1000_send_aq_cmd.
  apply wp_bind, wp_bind, wp_get_dev. cbn [dev update fs set_reg].
  rewrite (proj2 (Z.eqb_neq _ _) Hfs). apply wp_bind, wp_ret, wp_bind, wp_get_dev.
  cbn [dev update fs set_reg]. rewrite (proj2 (Z.eqb_neq _ _) Hfs). apply wp_bind.
  eapply wp_mono; [apply aq_exchange_wp; try done; unfold atq_head; auto using
    aq_desc_decode_ok, phys_read_ok, phys_read_length|].
  intros r m1 (->&Hidle1&Hdev&Hsent&Hmem). apply wp_ret, wp_bind, wp_ret, wp_bind, wp_write, wp_mod_dev.
  cbn in *. pose proof (length_aq_desc_encode (aq_completed true (atq_head m))) as Hl.
  split_and!; try done.
  - rewrite <- Hl at 1. apply phys_read_write_eq; [auto with vf|lia].
  - intros a n Hd. rewrite phys_read_write_ne by (by rewrite Hl). apply Hmem.
  - by rewrite Hdev.
Qed.

(** *** The ring *)

Lemma atq_slot_disjoint s i j :
  0 ≤ i < 65536 → 0 ≤ j < 65536 → i ≠ j → range_disjoint (atq_slot s i) 32 (atq_slot s j) 32.
Proof.
  intros. apply (slot_disjoint _ 32); lia.
Qed.

(** A driver's tail writes, one per command. *)
Fixpoint atq_writes (vals : list Z) : M (machine X (proc fwlink)) unit :=
  match vals with
  | [] => mret ()
  | v :: vals => e1000_set_atq_tail PF_ATQT v;; atq_writes vals
  end.

(** The [i]-th slot counted from the head, and the command in it. *)
Definition atq_nth (s : E1000State) (i : nat) : Z :=
  atq_slot s ((reg s PF_ATQH + Z.of_nat i) `mod` atq_ring_len s).
Definition atq_cmd m (i : nat) : e1000_aq_desc :=
  aq_desc_decode (phys_read (mem m) (atq_nth (dev m) i) 32).

Lemma atq_nth_0 s : 0 ≤ reg s PF_ATQH < atq_ring_len s → atq_nth s 0 = atq_base s.
Proof. intros. unfold atq_nth. rewrite Z.add_0_r, Z.mod_small by lia. done. Qed.

Lemma atq_nth_advance s v i :
  0 ≤ reg s PF_ATQH < atq_ring_len s →
  atq_nth (atqh_advance (set_reg s PF_ATQT v)) i = atq_nth s (S i).
Proof.
  intros Hh. destruct (atq_regs_advance s v Hh) as (Hslot&Hlen&_&Hreg&_).
  unfold atq_nth. rewrite Hslot, Hlen, Hreg, Zplus_mod_idemp_l. do 2 f_equal. lia.
Qed.

Lemma atq_nth_disjoint s i j :
  (i < j)%nat → Z.of_nat j < atq_ring_len s →
  range_disjoint (atq_nth s i) 32 (atq_nth s j) 32 ∧ range_disjoint (atq_nth s j) 32 (atq_nth s i) 32.
Proof.
  intros Hij Hj. assert (0 ≤ atq_ring_len s < 65536) as Hl by apply u16_range.
  set (L := atq_ring_len s) in *. unfold atq_nth. fold L.
  pose proof (ring_index_ne (reg s PF_ATQH) L (Z.of_nat i) (Z.of_nat j) ltac:(lia) ltac:(lia)) as Hne.
  pose proof (Z.mod_pos_bound (reg s PF_ATQH + Z.of_nat i) L ltac:(lia)).
  pose proof (Z.mod_pos_bound (reg s PF_ATQH + Z.of_nat j) L ltac:(lia)).
  split; apply atq_slot_disjoint; lia.
Qed.

(** C1: with the firmware connected, a driver that posts commands in the ring (data
    only with an echo, and no more than 4096 bytes of it) and writes the tail register once per command has all of them executed by
    the firmware, in ring order and across the end of the ring: each slot holds
    the descriptor the firmware answered with, the head has moved past the
    commands, guest memory outside these slots reads as before (the data of an
    echo included), and no byte of the conversation is left on the network. *)
Theorem atq_ring_served vals m :
  fs (dev m) ≠ INVALID_SOCKET → link_idle (os (world m)) →
  0 ≤ reg (dev m) PF_ATQH < atq_ring_len (dev m) →
  Z.of_nat (length vals) ≤ atq_ring_len (dev m) →
  (∀ i, (i < length vals)%nat → aq_servable (atq_cmd m i)) →
  ∃ m', atq_writes vals m = Ret () m' ∧
    (∀ i, (i < length vals)%nat →
       phys_read (mem m') (atq_nth (dev m) i) 32 = aq_desc_encode (aq_completed true (atq_cmd m i))) ∧
    (∀ a n, (∀ i, (i < length vals)%nat → range_disjoint a n (atq_nth (dev m) i) 32) →
       phys_read (mem m') a n = phys_read (mem m) a n) ∧
    reg (dev m') PF_ATQH = (reg (dev m) PF_ATQH + Z.of_nat (length vals)) `mod` atq_ring_len (dev m) ∧
    link_idle (os (world m')).
Proof.
  revert m. induction vals as [|v vals IH]; intros m Hfs Hidle Hh Hn Hcmds.
  { exists m. cbn. rewrite Z.add_0_r, Z.mod_small by lia. split_and!; try done. intros i Hi. lia. }
  cbn [length] in *. pose proof (atq_nth_0 (dev m) Hh) as H00.
  assert (atq_cmd m 0 = atq_head m) as Hc0 by (unfold atq_cmd, atq_head; by rewrite H00).
  destruct (wp_unit _ _ _ (atq_firmware_wp v m Hfs ltac:(rewrite <- Hc0; apply Hcmds; lia) Hidle))
    as (m1&E1&Hslot&Hmem&Hdev&_&Hidle1).
  destruct (atq_regs_advance (dev m) v Hh) as (Hsl&Hlen&Hfs1&Hreg&_). rewrite <- Hdev in *.
  assert (∀ i, atq_nth (dev m1) i = atq_nth (dev m) (S i)) as Hnth.
  { intros i. rewrite Hdev. by apply atq_nth_advance. }
  assert (∀ i, (i < length vals)%nat → atq_cmd m1 i = atq_cmd m (S i)) as Hcmd.
  { intros i Hi. unfold atq_cmd. rewrite Hnth, Hmem; [done|]. rewrite <- H00.
    apply (atq_nth_disjoint (dev m) 0 (S i)); lia. }
  destruct (IH m1) as (m2&E2&Hslots&Hmem2&Hreg2&Hidle2); try done.
  { congruence. }
  { rewrite Hreg, Hlen. apply Z.mod_pos_bound. lia. }
  { lia. }
  { intros i Hi. rewrite Hcmd by done. apply Hcmds. lia. }
  exists m2. split_and!; try done.
  - cbn [atq_writes]. unfold mbind, M_bind. by rewrite E1.
  - intros [|i] Hi.
    + rewrite Hmem2, Hc0, H00; [done|]. intros i Hi'. rewrite Hnth.
      apply (atq_nth_disjoint (dev m) 0 (S i)); lia.
    + rewrite <- Hnth, Hslots, Hcmd by lia. done.
  - intros a n Hd. rewrite Hmem2, Hmem; [done|..].
    + rewrite <- H00. apply Hd. lia.
    + intros i Hi. rewrite Hnth. apply Hd. lia.
  - rewrite Hreg2, Hreg, Hlen, Zplus_mod_idemp_l. f_equal. lia.
Qed.
End endtoend.

Section agreement.
Context {X P : Type} `{PhysMemLaws X} `{MsgLink P}.

(** C24: the device's own fallback and the firmware give a command the same
    completed descriptor, except the heartbeat, which only the firmware
    implements: the fallback reports it as an unknown command. *)
Theorem fallback_agrees_with_firmware d (m : machine X P) :
  aq_desc_ok d →
  ∃ d' m', aq_fallback d m = Ret d' m' ∧
    (d' = (fw_execute d).1 ↔
     aq_opcode d ≠ e1000_aqc_driver_heartbeat ∨ aq_retval d = E1000_AQ_RC_ENOSYS).
Proof.
  intros Hd. destruct (proj1 (wp_Ret _ _ _) (aq_fallback_wp d m Hd)) as (d'&m'&E&->&_).
  exists (aq_completed false d), m'. split; [done|]. rewrite fw_execute_spec by done. cbn [fst].
  destruct (decide (aq_opcode d = e1000_aqc_driver_heartbeat)) as [Eo|Eo].
  - split; [|intros [?|Hr]; [done|]].
    + intros E2%(f_equal aq_retval). right.
      rewrite (aq_completed_known true) in E2 by (rewrite Eo; do 3 constructor).
      rewrite (aq_completed_unknown false) in E2; [done|]. rewrite Eo. unfold aq_commands. cbn [app].
      rewrite !not_elem_of_cons. split_and!; [done..|apply not_elem_of_nil].
    + unfold aq_completed. rewrite Eo, Hr. by repeat case_decide.
  - split; [intros _; by left|intros _]. rewrite !aq_completed_cases.
    by rewrite (proj2 (Z.eqb_neq _ _) Eo).
Qed.
End agreement.
