(* ===== verification/LinkErrors.v ===== *)
(** * What the firmware and the device do with messages they do not expect

    A message longer than a descriptor stops the firmware for good; data longer
    than the firmware's or the device's buffer is written past its end; and the
    firmware announces data it does not send. *)

From S2P Require Import Prelude Bytes Memory E1000Hw AqSpec E1000State E1000Tx Process Message Panel Options Discovery Firmware AdminQ Link.

Section unexpected.
Context {W : Type} `{StreamOS W}.

Lemma t_0_iter_too_long fd st padding len sum tail (p : proc W) :
  length padding = 2%nat → 0 ≤ sum < 4294967296 → AQ_DESC_SIZE < len < 65536 →
  rx (os p) fd = msg_header_encode padding len sum ++ tail →
  wp (t_0_iter fd st) (λ r p', r = (st, true) ∧ rx (os p') fd = rx (os p) fd ∧
    txd (os p') fd = txd (os p) fd) p.
Proof.
  intros Hp Hsum Hlen Hrx. unfold AQ_DESC_SIZE in Hlen. unfold t_0_iter, t_0_receive.
  apply wp_bind, wp_bind.
  eapply wp_mono; [apply (recvdata_too_long_wp fd _ _ padding len sum tail); (done || unfold AQ_DESC_SIZE; lia)|].
  intros [[rc d'] l'] p1 (->&->&->&_&Hx&Ht&_). apply wp_bind, wp_fdbg. intros lg.
  cbn [Z.eqb]. change (-1 =? SOCKET_ERROR) with true. cbv iota.
  apply wp_bind, wp_fdbg. intros lg2. apply wp_ret, wp_ret. cbn.
  split_and!; try done. by destruct st.
Qed.

(** C40: a message longer than a descriptor is never taken out of the stream: the
    firmware's thread goes round its loop for ever without reading or answering
    anything that follows. *)
Theorem firmware_stuck_on_long_message n fd st padding len sum tail (p : proc W) :
  length padding = 2%nat → 0 ≤ sum < 4294967296 → AQ_DESC_SIZE < len < 65536 →
  rx (os p) fd = msg_header_encode padding len sum ++ tail →
  ∃ p', t_0_loop n fd st p = Ret (st, true) p' ∧ rx (os p') fd = rx (os p) fd ∧
    txd (os p') fd = txd (os p) fd.
Proof.
  intros Hp Hsum Hlen. revert p. induction n as [|n IH]; intros p Hrx; [by exists p|].
  destruct (proj1 (wp_Ret _ _ _) (t_0_iter_too_long fd st padding len sum tail p Hp Hsum Hlen Hrx))
    as (r&p1&E&->&Hx&Ht).
  destruct (IH p1) as (p'&E'&Hx'&Ht'); [congruence|]. exists p'.
  cbn [t_0_loop]. unfold mbind, M_bind. rewrite E. split_and!; [exact E'|congruence..].
Qed.

(** The firmware reads the data of a command into its buffer with the length
    the command announces: data of more than the 4096 bytes of the buffer is
    written out of bounds. *)
Theorem firmware_data_overflow n fd st d buf pads rest (p : proc W) :
  fw_state_ok st → aq_desc_ok d → bytes_ok buf → FW_DAT_SIZE < aq_datalen d →
  Z.of_nat (length buf) = aq_datalen d →
  Forall (λ pad, length pad = 2%nat) pads → length pads = length (fw_request d buf) →
  rx (os p) fd = concat (zip_with msg_encode pads (fw_request d buf)) ++ rest →
  t_0_loop (S n) fd st p = UB OutOfBounds.
Proof.
  intros (Hdl&Hdok&Hbl&Hbok) Hd Hbuf Hbig Hlen Hpads Hpl Hrx. unfold FW_DAT_SIZE in *.
  destruct (request_stream d buf pads rest _ Hpads Hpl Hrx) as (pad1&tail&Hp1&Hrx1&_&Ht1).
  destruct (Ht1 ltac:(lia)) as (pad2&Hp2&Htail).
  pose proof (aq_desc_datalen_range d Hd). pose proof (length_aq_desc_encode d) as Hel.
  cbn [t_0_loop]. apply bind_fault. unfold t_0_iter. apply bind_fault. unfold t_0_receive.
  apply bind_outcome. eapply wp_mono; [eapply recvdata_msg_wp with (padding := pad1) (body := aq_desc_encode d);
    try done; auto with vf; rewrite Hel; unfold AQ_DESC_SIZE; lia|].
  intros [[rc desc] ml] p1 (->&->&->&Hx1&_). apply bind_outcome, wp_fdbg. intros lg.
  cbv zeta. change (0 =? SOCKET_ERROR) with false. cbv iota.
  rewrite (drop_ge (fw_desc st)), app_nil_r by lia. rewrite aq_desc_decode_encode by done.
  replace (aq_datalen d =? 0) with false by lia. cbn [negb]. apply bind_fault.
  rewrite Htail in Hx1. unfold msg_encode in Hx1. rewrite <- app_assoc in Hx1.
  apply (recvdata_overflow fd _ _ pad2 buf (xor_words buf) rest); [exact Hp2|by apply xor_words_range|lia|lia| |exact Hx1].
  cbn. lia.
Qed.

(** To a command with data other than an echo, the firmware answers with a
    descriptor that still announces data, and sends none: the device waits for a
    second message that does not come. *)
Theorem firmware_omits_announced_data fd st d buf pads rest (p : proc W) :
  fw_state_ok st → fw_echobuf st = false → fw_command_ok d buf → aq_datalen d ≠ 0 →
  aq_opcode d ≠ e1000_aqc_echo →
  Forall (λ pad, length pad = 2%nat) pads → length pads = length (fw_request d buf) →
  rx (os p) fd = concat (zip_with msg_encode pads (fw_request d buf)) ++ rest →
  ∃ st' p' pad d', t_0_iter fd st p = Ret (st', true) p' ∧ length pad = 2%nat ∧
    txd (os p') fd = txd (os p) fd ++ msg_encode pad (aq_desc_encode d') ∧
    aq_datalen d' ≠ 0.
Proof.
  intros Hst He Hcmd Hn Hop Hpads Hpl Hrx.
  destruct (t_0_iter_spec fd st d buf pads rest p Hst Hcmd Hpads Hpl Hrx)
    as (st'&p'&pads'&more&E&_&_&_&_&Hpads'&Hpl'&Ht).
  unfold fw_response in Hpl', Ht. rewrite He, (proj2 (Z.eqb_neq _ _) Hop) in Hpl', Ht. cbn [orb andb] in Hpl', Ht.
  destruct pads' as [|pad [|]]; try done. apply Forall_cons_iff in Hpads' as [Hpad _].
  cbn [zip_with concat] in Ht. rewrite app_nil_r in Ht.
  by exists st', p', pad, (aq_completed true d).
Qed.
End unexpected.

(** ** The device's side *)

Section device_overflow.
Context {X W : Type} `{PhysMemLaws X} `{StreamOS W} (fuel : nat).
#[local] Instance stream_link : MsgLink (proc W) := proc_link fuel.

(** The device allocates a buffer for the answer's data by the length in the
    command it sent, and receives into it by the length in the answer: an answer
    that announces, and carries, more data than the command had is written behind
    the end of the heap block. *)
Theorem aq_answer_overflow fd d d' buf pad1 pad2 rest (m : machine X (proc W)) :
  aq_desc_ok d → aq_desc_ok d' → bytes_ok buf →
  Z.of_nat (length buf) = aq_datalen d' → aq_datalen d < aq_datalen d' →
  length pad1 = 2%nat → length pad2 = 2%nat →
  rx (os (world m)) fd = msg_encode pad1 (aq_desc_encode d') ++ msg_encode pad2 buf ++ rest →
  aq_receive fd d m = UB OutOfBounds.
Proof.
  intros Hd Hd' Hbuf Hlen Hlt Hp1 Hp2 Hrx.
  pose proof (length_aq_desc_encode d') as Hel. pose proof (aq_desc_datalen_range d Hd).
  pose proof (aq_desc_datalen_range d' Hd').
  unfold aq_receive. apply bind_outcome, wp_zoom.
  eapply wp_mono; [eapply (recvdata_msg_wp fd _ _ pad1 (aq_desc_encode d') (msg_encode pad2 buf ++ rest))|];
    auto with vf; try lia.
  { rewrite Hel. unfold AQ_DESC_SIZE. lia. }
  intros [[rc recv] len] p1 (->&->&->&Hx1&_). change (0 <? 0) with false. cbv iota.
  rewrite drop_ge, app_nil_r, aq_desc_decode_encode by (done || rewrite length_replicate; lia).
  cbv zeta. replace (aq_datalen d' >? 0) with true by lia.
  apply bind_outcome, wp_zoom, wp_sys.
  destruct (os_garbage_stream (os p1) fd (Z.to_nat (aq_datalen d))) as (bs&w'&Eg&Hbs&_&Hxg&_).
  cbn in Eg |- *. rewrite Eg. cbn [fst snd]. apply bind_fault. unfold link, zoom.
  rewrite (recvdata_overflow fd _ _ pad2 buf (xor_words buf) rest); try done; try lia.
  { by apply xor_words_range. }
  cbn. rewrite Hxg, Hx1. unfold msg_encode. by rewrite <- app_assoc.
Qed.
End device_overflow.
