(* ===== verification/DriverSpec.v ===== *)
(** * Correctness of the guest driver's admin queue

    What a device promises the driver is a class with two instances: a device
    whose firmware is connected and a device without a firmware. The theorems
    about the driver are proved against the class: the driver and the device
    stay in step, every command is answered in order, the echo test passes and
    the versions are read. Then the ways in which the driver goes wrong. *)

From S2P Require Import Prelude Bytes Memory E1000Hw AqSpec E1000State E1000Tx Process Message Firmware AdminQ E1000Mmio Driver Link.

(** ** What the device promises *)

Class AtqServer (X P : Type) `{PhysMem X} `{MsgLink P} := {
  (** The state of the connection in which commands are served. *)
  srv_ready : Z → P → Prop;
  (** The commands that are served, and whether the heartbeat is implemented. *)
  srv_accepts : e1000_aq_desc → Prop;
  srv_heartbeat : bool;
  srv_tail val (m : machine X P) :
    srv_ready (fs (dev m)) (world m) → srv_accepts (atq_head m) →
    wp (e1000_set_atq_tail PF_ATQT val) (λ _ m',
      phys_read (mem m') (atq_base (dev m)) 32 =
        aq_desc_encode (aq_completed srv_heartbeat (atq_head m)) ∧
      (∀ a n, range_disjoint a n (atq_base (dev m)) 32 →
         phys_read (mem m') a n = phys_read (mem m) a n) ∧
      dev m' = atqh_advance (set_reg (dev m) PF_ATQT val) ∧
      srv_ready (fs (dev m')) (world m')) m;
  (** Commands without data are served, and echoes of a buffer of the firmware. *)
  srv_direct d : aq_datalen d = 0 → srv_accepts d;
  srv_echo d : aq_opcode d = e1000_aqc_echo → aq_datalen d ≤ FW_DAT_SIZE → srv_accepts d;
}.

(** *** A device whose firmware is connected *)

Section firmware_server.
Context {X : Type} `{PhysMemLaws X} (fuel : nat).
#[local] Instance server_link : MsgLink (proc fwlink) := proc_link fuel.

#[export, refine] Instance firmware_server : AtqServer X (proc fwlink) := {|
  srv_ready := λ fd p, fd ≠ INVALID_SOCKET ∧ link_idle (os p);
  srv_accepts := aq_servable;
  srv_heartbeat := true;
|}.
Proof.
  - intros val m [Hfs Hidle] Hs. eapply wp_mono; [by apply (atq_firmware_wp fuel val m)|].
    intros _ m' (?&?&Hd&_&?). split_and!; try done. rewrite Hd.
    unfold atqh_advance. by destruct (_ >=? _).
  - intros d Hd. split; [rewrite Hd|by right]. by vm_compute.
  - intros d Hd Hl. by split; [|left].
Defined.
End firmware_server.

(** *** A device without a firmware *)

(** A link on which no firmware is ever found. *)
Class DownLink (P : Type) `{MsgLink P} := {
  link_down : P → Prop;
  down_locate w : link_down w →
    ∃ w1 w2, link_locate w = Ret (-1) w1 ∧ link_close (-1) w1 = Ret () w2 ∧ link_down w2;
}.

Section fallback_server.
Context {X P : Type} `{PhysMemLaws X} `{DownLink P}.

#[export, refine] Instance fallback_server : AtqServer X P := {|
  srv_ready := λ fd p, fd = INVALID_SOCKET ∧ link_down p;
  srv_accepts := λ _, True;
  srv_heartbeat := false;
|}.
Proof.
  - intros val m [Hfs Hdown] _. destruct (down_locate _ Hdown) as (w1&w2&Hl&Hc&Hd2).
    eapply wp_mono; [by apply (atq_fallback_wp m val w1 w2)|].
    intros _ m' (?&?&Hd&_&->). split_and!; try done. rewrite Hd.
    unfold atqh_advance. by destruct (_ >=? _).
  - done.
  - done.
Defined.
End fallback_server.

(** ** The driver and the device in step *)

(** A 64-bit address in its two registers. *)
Lemma addr_halves a : 0 ≤ a → ((a >> 32) << 32) + (a .& 0xffffffff) = a.
Proof.
  intros Ha. change 0xffffffff with (Z.ones 32). rewrite Z.land_ones by lia.
  rewrite Z.shiftl_mul_pow2, Z.shiftr_div_pow2 by lia. pose proof (Z.div_mod a (2 ^ 32)). lia.
Qed.

Lemma addr_high_range a : 0 ≤ a < 2 ^ 64 → 0 ≤ a >> 32 < 2 ^ 32.
Proof. intros Ha. rewrite Z.shiftr_div_pow2 by lia. split; [apply Z.div_pos; lia|apply Z.div_lt_upper_bound; lia]. Qed.

Lemma addr_low_range a : 0 ≤ a .& 0xffffffff < 2 ^ 32.
Proof. change 0xffffffff with (Z.ones 32). rewrite Z.land_ones by lia. apply Z.mod_pos_bound. lia. Qed.

Lemma enabled_len n : 0 ≤ n < 65536 →
  u16 (u32 (n .| E1000_PF_ATQLEN_ATQENABLE_MASK) .& .~ E1000_PF_ATQLEN_ATQENABLE_MASK) = n.
Proof.
  intros Hn. change E1000_PF_ATQLEN_ATQENABLE_MASK with (2 ^ 31). unfold u16, u32, wrap.
  apply Z.bits_inj'. intros k Hk. rewrite <- (Z.mod_small n (2 ^ 16)) at 2 by lia.
  destruct (decide (k < 16)).
  - rewrite !Z.mod_pow2_bits_low, Z.land_spec, Z.mod_pow2_bits_low, Z.lor_spec, Z.lnot_spec by lia.
    rewrite Z.pow2_bits_false by lia. cbn. by rewrite orb_false_r, andb_true_r.
  - by rewrite !Z.mod_pow2_bits_high by lia.
Qed.

Section in_step.
Context {X P A : Type} `{PhysMemLaws X} `{MsgLink P} `{!AtqServer X P} `{KernelMem A} (fuel : nat).
Abbreviation DM := (M (guest X P A)).
Implicit Types (g : guest X P A) (m : machine X P).

(** A ring of [n] slots at [base] and a buffer of [size] bytes for each slot,
    outside the ring. *)
Record asq_layout (base n size : Z) (bis : list e1000_aq_bi) : Prop := {
  lay_base : 0 ≤ base ∧ base + 32 * n ≤ 2 ^ 64;
  lay_count : 0 < n < 65536;
  lay_size : 0 < size < 65536;
  lay_bufs i : 0 ≤ i < n → ∃ a, bis !! Z.to_nat i = Some {| bi_dma := Some a; bi_size := size |} ∧
    0 ≤ a ∧ a + size ≤ 2 ^ 64 ∧ (a + size ≤ base ∨ base + 32 * n ≤ a);
}.

(** The registers of the device describe the driver's ring. *)
Record atq_configured (s : E1000State) (base n i : Z) : Prop := {
  cfg_bah : reg s PF_ATQBAH = base >> 32;
  cfg_bal : reg s PF_ATQBAL = base .& 0xffffffff;
  cfg_len : atq_ring_len s = n;
  cfg_head : reg s PF_ATQH = i;
}.

Record asq_sync (base n size : Z) (bis : list e1000_aq_bi) (i : Z) g : Prop := {
  sy_ready : srv_ready (fs (dev (mach g))) (world (mach g));
  sy_lock : asq_spinlock (aq g) = false;
  sy_size : asq_buf_size (aq g) = size;
  sy_base : rq_dma (asq (aq g)) = Some base;
  sy_count : rq_count (asq (aq g)) = n;
  sy_bis : asq_bi (asq (aq g)) = Some bis;
  sy_use : next_to_use (asq (aq g)) = i;
  sy_index : 0 ≤ i < n;
  sy_regs : atq_configured (dev (mach g)) base n i;
}.

Context (base n size : Z) (bis : list e1000_aq_bi) (Hlay : asq_layout base n size bis).
Abbreviation sync := (asq_sync base n size bis).
Abbreviation slot i := (base + 32 * i).

Lemma configured_base s i : 0 ≤ i < n → atq_configured s base n i → atq_base s = slot i.
Proof.
  intros Hi [Hh Hl _ Hd]. pose proof (lay_base _ _ _ _ Hlay). unfold atq_base, AQ_DESC_SIZE.
  rewrite Hh, Hl, Hd. rewrite addr_halves by lia. apply u64_small. lia.
Qed.

(** The write of the tail register. *)
Lemma wp_write_tail val i g (Q : unit → guest X P A → Prop) :
  srv_ready (fs (dev (mach g))) (world (mach g)) → 0 ≤ i < n →
  atq_configured (dev (mach g)) base n i →
  let d := aq_desc_decode (phys_read (mem (mach g)) (slot i) 32) in
  srv_accepts d → 0 ≤ val < 2 ^ 32 →
  (∀ m', phys_read (mem m') (slot i) 32 = aq_desc_encode (aq_completed srv_heartbeat d) →
    (∀ a k, range_disjoint a k (slot i) 32 → phys_read (mem m') a k = phys_read (mem (mach g)) a k) →
    srv_ready (fs (dev m')) (world m') →
    atq_configured (dev m') base n ((i + 1) `mod` n) → Q () (g <| mach := m' |>)) →
  wp (E1000_WRITE_REG fuel E1000_PF_ATQT val) Q g.
Proof.
  intros Hr Hi Hc d Ha Hv HQ. unfold E1000_WRITE_REG. apply wp_zoom.
  change (e1000_mmio_writel fuel E1000_PF_ATQT (u32 val)) with
    (e1000_set_atq_tail (X := X) (P := P) PF_ATQT (u32 val)).
  pose proof (configured_base _ _ Hi Hc) as Hb. pose proof Hc as [Hbh Hbl Hbn Hbd].
  assert (atq_head (mach g) = d) as Ed by (unfold atq_head; by rewrite Hb).
  eapply wp_mono; [apply srv_tail; [done|by rewrite Ed]|].
  intros [] m' (Hslot&Hframe&Hdev&Hready). rewrite Ed, Hb in *. apply HQ; try done.
  destruct (atq_regs_advance (dev (mach g)) (u32 val)) as (Hsl&Hlen&_&Hreg&_); [lia|].
  rewrite <- Hdev in *. split; try congruence; rewrite Hdev; unfold atqh_advance; cbv zeta;
    destruct (_ >=? _); by reg_simpl.
Qed.

(** The buffer of slot [i] and the descriptor the driver posts in it. *)
Definition buf_addr (bis : list e1000_aq_bi) (i : Z) : Z := default 0 (bis !! Z.to_nat i ≫= bi_dma).

Definition posted (i : Z) (d : e1000_aq_desc) (buff : option (list Z)) (bsize : Z) : e1000_aq_desc :=
  let d := d <| aq_flags ::= λ f, f .| E1000_AQ_FLAG_SI |> in
  match buff with
  | None => d
  | Some _ => d <| aq_datalen := bsize |> <| aq_addr_high := buf_addr bis i >> 32 |>
                <| aq_addr_low := buf_addr bis i .& 0xffffffff |>
  end.

Lemma lay_buf i : 0 ≤ i < n →
  bis !! Z.to_nat i = Some {| bi_dma := Some (buf_addr bis i); bi_size := size |} ∧
  0 ≤ buf_addr bis i ∧ buf_addr bis i + size ≤ 2 ^ 64 ∧
  ∀ k, 0 ≤ k ≤ size → range_disjoint (buf_addr bis i) (Z.to_nat k) (slot i) 32 ∧
                      range_disjoint (slot i) 32 (buf_addr bis i) (Z.to_nat k).
Proof.
  intros Hi. destruct (lay_bufs _ _ _ _ Hlay i Hi) as (a&Ha&?&?&Hd).
  pose proof (lay_base _ _ _ _ Hlay). unfold buf_addr. rewrite Ha. cbn. split_and!; try done.
  intros k Hk. assert (range_disjoint a (Z.to_nat k) (slot i) 32) as Hdis; [|split; [done|]].
  - intros x y Hx Hy. rewrite !u64_small by lia. lia.
  - by apply range_disjoint_sym.
Qed.

Lemma desc_ok_flags d f : aq_desc_ok d → 0 ≤ f < 65536 → aq_desc_ok (d <| aq_flags := f |>).
Proof.
  unfold aq_desc_ok, fields_ok, aq_desc_layout, aq_desc_fields. rewrite !Forall2_cons_iff.
  unfold field_ok. cbn. intuition.
Qed.

Lemma desc_ok_data d l h lo : aq_desc_ok d → 0 ≤ l < 65536 → 0 ≤ h < 2 ^ 32 → 0 ≤ lo < 2 ^ 32 →
  aq_desc_ok (d <| aq_datalen := l |> <| aq_addr_high := h |> <| aq_addr_low := lo |>).
Proof.
  unfold aq_desc_ok, fields_ok, aq_desc_layout, aq_desc_fields. rewrite !Forall2_cons_iff.
  unfold field_ok. cbn. intuition.
Qed.

Lemma posted_ok i d buff bsize :
  0 ≤ i < n → aq_desc_ok d → 0 ≤ bsize ≤ size → aq_desc_ok (posted i d buff bsize).
Proof.
  intros Hi Hd Hs. pose proof (lay_size _ _ _ _ Hlay). pose proof (lay_buf i Hi) as (_&?&?&_).
  assert (aq_desc_ok (d <| aq_flags ::= λ f, f .| E1000_AQ_FLAG_SI |>)) as Hf.
  { apply (desc_ok_flags d (aq_flags d .| E1000_AQ_FLAG_SI)); [done|].
    unfold aq_desc_ok, fields_ok, aq_desc_layout, aq_desc_fields in Hd.
    apply Forall2_cons_iff in Hd as [Hf _]. by apply (lor_in_w 16). }
  unfold posted. destruct buff; [|done].
  apply desc_ok_data; [done|lia|apply addr_high_range; lia|apply addr_low_range].
Qed.

Lemma wp_mem_write a bs (Q : unit → guest X P A → Prop) g :
  Q () (g <| mach ::= λ m, m <| mem ::= λ x, phys_write x a bs |> |>) → wp (mem_write a bs) Q g.
Proof. done. Qed.

Lemma wp_read_desc a (Q : e1000_aq_desc → guest X P A → Prop) g :
  Q (aq_desc_decode (phys_read (mem (mach g)) a 32)) g → wp (read_desc a) Q g.
Proof. done. Qed.

Lemma desc_written x a d : aq_desc_ok d →
  aq_desc_decode (phys_read (phys_write x a (aq_desc_encode d)) a 32) = d.
Proof.
  intros Hd. pose proof (length_aq_desc_encode d) as Hl. rewrite <- Hl.
  rewrite phys_read_write_eq by (auto with vf; lia). by apply aq_desc_decode_encode.
Qed.

(** The memory after posting: the descriptor in its slot and the data in its
    buffer. *)
Record asq_posted (i : Z) (p : e1000_aq_desc) (buff : option (list Z)) (bsize : Z) (x x' : X) : Prop := {
  post_slot : aq_desc_decode (phys_read x' (slot i) 32) = p;
  post_buf b : buff = Some b →
    phys_read x' (buf_addr bis i) (Z.to_nat bsize) = take (Z.to_nat bsize) b;
  post_frame a k : range_disjoint a k (slot i) 32 →
    range_disjoint a k (buf_addr bis i) (Z.to_nat bsize) → phys_read x' a k = phys_read x a k;
}.

Definition buff_ok (buff : option (list Z)) (bsize : Z) : Prop :=
  ∀ b, buff = Some b → bytes_ok b ∧ (Z.to_nat bsize ≤ length b)%nat.

Lemma asq_post_wp i d buff bsize g (Q : option Z → guest X P A → Prop) :
  0 ≤ i < n → asq_bi (asq (aq g)) = Some bis → aq_desc_ok d → buff_ok buff bsize → 0 ≤ bsize ≤ size →
  (∀ x', asq_posted i (posted i d buff bsize) buff bsize (mem (mach g)) x' →
    Q (match buff with None => None | Some _ => Some (buf_addr bis i) end)
      (g <| mach ::= λ m, m <| mem := x' |> |>)) →
  wp (asq_post (slot i) i (d <| aq_flags ::= λ f, f .| E1000_AQ_FLAG_SI |>) buff bsize) Q g.
Proof.
  intros Hi Hb Hd Hok Hs HQ. destruct (lay_buf i Hi) as (Hbi&?&?&Hdis). destruct (Hdis bsize Hs) as [D1 D2].
  pose proof (posted_ok i d None bsize Hi Hd Hs) as Hp0.
  pose proof (posted_ok i d buff bsize Hi Hd Hs) as Hp.
  unfold asq_post, write_desc. apply wp_bind, wp_mem_write. destruct buff as [b|]; cycle 1.
  { apply wp_ret. apply (HQ (phys_write (mem (mach g)) (slot i) (aq_desc_encode (posted i d None bsize)))).
    split; [by apply desc_written|done|]. intros a k Ha _. apply phys_read_write_ne.
    by rewrite length_aq_desc_encode. }
  destruct (Hok b eq_refl) as [Hbok Hbl]. unfold asq_buf, get_asq, get_aq.
  apply wp_bind, wp_bind, wp_gets. cbn [aq update]. rewrite Hb.
  apply wp_bind. rewrite Hbi. apply wp_ret. cbn [bi_dma]. apply wp_ret.
  apply wp_bind. rewrite load_in by lia. apply wp_ret. rewrite drop_0.
  set (bs := take (Z.to_nat bsize) b). assert (length bs = Z.to_nat bsize) as Hbs by (unfold bs; rewrite length_take; lia).
  apply wp_bind, wp_mem_write, wp_bind, wp_read_desc. cbn [mach mem update].
  rewrite (phys_read_write_ne _ (buf_addr bis i)) by (by rewrite Hbs).
  fold (posted i d None bsize). rewrite desc_written by done.
  apply wp_bind, wp_mem_write, wp_ret. cbn [mach mem update].
  apply (HQ (phys_write (phys_write (phys_write (mem (mach g)) (slot i)
    (aq_desc_encode (posted i d None bsize))) (buf_addr bis i) bs) (slot i)
    (aq_desc_encode (posted i d (Some b) bsize)))). split.
  - by apply desc_written.
  - intros b' [= <-]. rewrite phys_read_write_ne by (by rewrite length_aq_desc_encode).
    fold bs. rewrite <- Hbs at 1. apply phys_read_write_eq; [by apply bytes_ok_take|lia].
  - intros a k Ha Ha'. rewrite !phys_read_write_ne; rewrite ?length_aq_desc_encode, ?Hbs; done.
Qed.

Lemma wait_done_wp k a (Q : unit → guest X P A → Prop) g :
  has_bits (aq_flags (aq_desc_decode (phys_read (mem (mach g)) a 32))) E1000_AQ_FLAG_DD = true →
  Q () g → wp (wait_done k a) Q g.
Proof.
  intros Hd HQ. destruct k; [done|]. cbn [wait_done]. apply wp_bind, wp_read_desc. by rewrite Hd.
Qed.

Lemma asq_answer_wp i d ans buff bsize g :
  aq_desc_decode (phys_read (mem (mach g)) (slot i) 32) = ans →
  has_bits (aq_flags ans) E1000_AQ_FLAG_DD = true → buff_ok buff bsize →
  (∀ b, buff = Some b →
     phys_read (mem (mach g)) (buf_addr bis i) (Z.to_nat bsize) = take (Z.to_nat bsize) b) →
  wp (asq_answer (slot i) d buff bsize
        (match buff with None => None | Some _ => Some (buf_addr bis i) end))
    (λ r g', r = (aq_retval ans, ans, buff) ∧ g' = g) g.
Proof.
  intros Ha Hd Hok Hb. unfold asq_answer. apply wp_bind, wp_read_desc. rewrite Ha, Hd.
  destruct buff as [b|]; [|by apply wp_ret]. destruct (Hok b eq_refl) as [_ Hl].
  apply wp_bind, wp_gets. rewrite (Hb b eq_refl). apply wp_bind.
  rewrite store_in by (rewrite length_take; lia). apply wp_ret, wp_ret. split; [|done].
  rewrite take_0, length_take, Nat.min_l by lia. cbn. by rewrite take_drop.
Qed.

(** The driver after a command: the machine and the index of the next slot. *)
Definition after g (i : Z) (m : machine X P) : guest X P A :=
  g <| mach := m |> <| aq ::= λ q, q <| asq ::= λ r, r <| next_to_use := i |> |> |>.

Lemma ring_bump r i :
  next_to_use r = i → rq_count r = n → 0 ≤ i < n →
  let r' := r <| next_to_use ::= λ i, u16 (i + 1) |> in
  (if next_to_use r' =? rq_count r' then r' <| next_to_use := 0 |> else r') =
  r <| next_to_use := (i + 1) `mod` n |>.
Proof.
  intros Hi Hc Hin. pose proof (lay_count _ _ _ _ Hlay). cbn. rewrite Hi, Hc, u16_small by lia.
  destruct (Z.eqb_spec (i + 1) n) as [E|E].
  - rewrite E, Z.mod_same by lia. done.
  - rewrite Z.mod_small by lia. unfold update. cbn. by rewrite Hi, u16_small by lia.
Qed.

Lemma asq_send_wp i d buff bsize g :
  sync i g → aq_desc_ok d → buff_ok buff bsize → 0 ≤ bsize ≤ size →
  let p := posted i d buff bsize in
  let i' := (i + 1) `mod` n in
  srv_accepts p →
  wp (e1000_asq_send_command fuel false d buff bsize) (λ r g', ∃ m',
    r = (aq_retval (aq_completed srv_heartbeat p), aq_completed srv_heartbeat p, buff) ∧ g' = after g i' m' ∧ sync i' g' ∧
    ∀ a k, range_disjoint a k (slot i) 32 → range_disjoint a k (buf_addr bis i) (Z.to_nat bsize) →
      phys_read (mem m') a k = phys_read (mem (mach g)) a k) g.
Proof.
  intros [] Hd Hok Hs p i' Hacc. pose proof (lay_count _ _ _ _ Hlay) as Hn.
  pose proof (posted_ok i d buff bsize sy_index0 Hd Hs) as Hp. fold p in Hp.
  assert (0 ≤ i' < n) as Hi' by (apply Z.mod_pos_bound; lia).
  unfold e1000_asq_send_command, get_aq. apply wp_bind, wp_gets. rewrite sy_size0.
  replace (bsize >? size) with false by lia. unfold spin_lock, get_aq, mod_aq.
  apply wp_bind, wp_bind, wp_gets. rewrite sy_lock0. apply wp_modify, wp_bind, wp_ret.
  cbv zeta. unfold get_asq, get_aq. apply wp_bind, wp_gets. cbn [aq asq next_to_use update]. rewrite sy_use0.
  apply wp_bind. unfold E1000_ADMINQ_DESC, get_asq, get_aq. apply wp_bind, wp_gets.
  cbn [aq asq id rq_dma rq_count update]. rewrite sy_base0, sy_count0, (proj2 (Z.ltb_lt _ _)) by lia.
  change AQ_DESC_SIZE with 32. apply wp_ret, wp_bind. apply (asq_post_wp i d buff bsize); [done..|].
  fold p. intros x' [Hslot Hbuf Hframe].
  cbn [mach mem update] in *.
  unfold mod_asq, mod_aq. apply wp_bind, wp_modify, wp_bind, wp_modify, wp_bind, wp_gets.
  lazymatch goal with |- wp _ _ ?s => set (g1 := s) end.
  assert (g1 = after g i' (mach g <| mem := x' |>) <| aq ::= λ q, q <| asq_spinlock := true |> |>) as ->.
  { pose proof (ring_bump (asq (aq g)) i sy_use0 sy_count0 sy_index0) as Hb. fold i' in Hb.
    unfold g1, after. unfold update in *. cbn in *. by rewrite Hb. }
  apply wp_bind. apply (wp_write_tail _ i); cbn [mach mem aq asq next_to_use dev world after update];
    try done; [by rewrite Hslot|lia|].
  rewrite Hslot. intros m' Hans Hmem Hready Hcfg.
  assert (aq_desc_decode (phys_read (mem m') (slot i) 32) = aq_completed srv_heartbeat p) as Hdec.
  { rewrite Hans. apply aq_desc_decode_encode. by apply aq_completed_ok. }
  apply wp_bind, wait_done_wp; [cbn [mach update]; rewrite Hdec; apply aq_completed_done|].
  apply wp_bind. eapply wp_mono.
  { apply (asq_answer_wp i _ (aq_completed srv_heartbeat p)); cbn [mach update]; try done; [apply aq_completed_done|].
    intros b Hb. destruct (lay_buf i sy_index0) as (_&_&_&Hdis).
    rewrite Hmem by (by apply Hdis). by apply Hbuf. }
  cbn beta. intros r g' [-> ->]. apply wp_bind. unfold spin_unlock, get_aq, mod_aq.
  apply wp_bind, wp_gets. cbn [aq asq_spinlock update]. apply wp_modify, wp_ret.
  exists m'. split; [done|].
  lazymatch goal with |- ?s = _ ∧ _ => assert (s = after g i' m') as -> end.
  { unfold after, update. cbn. by rewrite sy_lock0. }
  split; [done|]. split; [|intros a k ? ?; by rewrite Hmem, Hframe].
  by split.
Qed.

(** *** Sequences of commands *)

(** A command: descriptor, buffer and its size. *)
Definition command : Type := e1000_aq_desc * option (list Z) * Z.

Definition command_ok (c : command) : Prop :=
  let '(d, buff, bsize) := c in
  aq_desc_ok d ∧ buff_ok buff bsize ∧ 0 ≤ bsize ≤ size ∧
  ∀ i, 0 ≤ i < n → srv_accepts (posted i d buff bsize).

Fixpoint asq_commands (cs : list command) : DM (list (Z * e1000_aq_desc * option (list Z))) :=
  match cs with
  | [] => mret []
  | (d, buff, bsize) :: cs =>
      r ← e1000_asq_send_command fuel false d buff bsize;
      rs ← asq_commands cs;
      mret (r :: rs)
  end.

(** The results of commands from slot [i] on. *)
Fixpoint answers (i : Z) (cs : list command) : list (Z * e1000_aq_desc * option (list Z)) :=
  match cs with
  | [] => []
  | (d, buff, bsize) :: cs =>
      let a := aq_completed srv_heartbeat (posted i d buff bsize) in
      (aq_retval a, a, buff) :: answers ((i + 1) `mod` n) cs
  end.

(** C2: any number of commands, more than the ring has slots included, is served in
    order: every call of [e1000_asq_send_command] returns with the descriptor
    the device or its firmware completed, the status is its return code, the
    buffer comes back, none times out, and afterwards the driver's next slot is
    the device's head again. *)
Theorem asq_commands_served cs i g :
  sync i g → Forall command_ok cs →
  ∃ g', asq_commands cs g = Ret (answers i cs) g' ∧
    sync ((i + Z.of_nat (length cs)) `mod` n) g'.
Proof.
  revert i g. induction cs as [|[[d buff] bsize] cs IH]; intros i g Hg Hcs.
  { exists g. split; [done|]. cbn. rewrite Z.add_0_r, Z.mod_small; [done|]. apply Hg. }
  apply Forall_cons_iff in Hcs as [(Hd&Hb&Hs&Ha) Hcs].
  pose proof (asq_send_wp i d buff bsize g Hg Hd Hb Hs (Ha i (sy_index _ _ _ _ _ _ Hg))) as Hw.
  cbn [asq_commands answers]. unfold wp in Hw. unfold mbind, M_bind.
  destruct (e1000_asq_send_command fuel false d buff bsize g) as [r g1| |]; try done.
  destruct Hw as (m'&->&_&Hg1&_). destruct (IH _ _ Hg1 Hcs) as (g2&->&Hg2).
  exists g2. split; [done|]. rewrite Zplus_mod_idemp_l in Hg2.
  replace (i + Z.of_nat (length _)) with (i + 1 + Z.of_nat (length cs)) by (cbn; lia). done.
Qed.

(** *** The driver's own commands *)

(** The descriptor of [e1000_fill_default_direct_cmd_desc]. *)
Definition default_desc (c opcode : Z) : e1000_aq_desc :=
  {| aq_flags := (if opcode =? e1000_aqc_driver_heartbeat then E1000_AQ_FLAG_SI else 0)
       .| E1000_AQ_FLAG_EI .| E1000_AQ_FLAG_FE;
     aq_opcode := opcode; aq_datalen := 0; aq_retval := 0; aq_cookie_high := c >> 32;
     aq_cookie_low := c .& 0xffffffff; aq_param0 := 0; aq_param1 := 0; aq_addr_high := 0;
     aq_addr_low := 0 |}.

Lemma default_desc_ok c opcode : 0 ≤ opcode < 65536 → aq_desc_ok (default_desc (u64 c) opcode).
Proof.
  intros Ho. pose proof (u64_range c). unfold aq_desc_ok, fields_ok, aq_desc_layout, aq_desc_fields.
  pose proof (addr_high_range (u64 c) ltac:(lia)). pose proof (addr_low_range (u64 c)).
  rewrite !Forall2_cons_iff. unfold field_ok. cbn [default_desc aq_flags aq_opcode aq_datalen aq_retval
    aq_cookie_high aq_cookie_low aq_param0 aq_param1 aq_addr_high aq_addr_low].
  split_and!; try done; try lia. all: destruct (_ =? _); by vm_compute.
Qed.

Lemma fill_default_wp opcode (Q : e1000_aq_desc → guest X P A → Prop) g :
  Q (default_desc (u64 (cookie g + 1)) opcode) (g <| cookie := u64 (cookie g + 1) |>) →
  wp (e1000_fill_default_direct_cmd_desc opcode) Q g.
Proof. done. Qed.

Lemma get_version_wp i g :
  sync i g →
  wp (e1000_aq_get_firmware_version fuel false) (λ v g', v = Some (0x34, 0x13, 0xfa, 0xaf) ∧
    ∃ m', g' = after (g <| cookie := u64 (cookie g + 1) |>) ((i + 1) `mod` n) m' ∧
      sync ((i + 1) `mod` n) g') g.
Proof.
  intros Hg. pose proof (lay_size _ _ _ _ Hlay). unfold e1000_aq_get_firmware_version. apply wp_bind, fill_default_wp.
  set (d := default_desc _ _). assert (aq_desc_ok d) as Hd by by apply default_desc_ok.
  apply wp_bind. eapply wp_mono.
  { apply (asq_send_wp i d None 0); [by destruct Hg; split|done|done|lia|]. by apply srv_direct. }
  cbn beta. intros r g' (m'&->&->&Hg'&_).
  rewrite aq_completed_known by constructor. apply wp_ret. split; [done|]. eauto.
Qed.

(** Only the log, the command parameter and the cookie differ: the driver is
    still in step. *)
Lemma sync_frame i g g' :
  sync i g → aq g' = aq g → mach g' = mach g → sync i g'.
Proof. intros [] Ea Em. split; rewrite ?Ea, ?Em; done. Qed.

Lemma drv_aq_echo_wp i g stackbuf k :
  sync i g → bytes_ok stackbuf → Z.of_nat (length stackbuf) = ECHO_BUFLEN → ECHO_BUFLEN ≤ size →
  kzalloc ECHO_BUFLEN (kmem g) = (true, k) →
  wp (drv_aq_echo fuel false stackbuf) (λ _ g', klog g' = klog g ++ [K_echo_passed] ∧
    adminq_cmd g' = adminq_cmd g ∧ sync ((i + 1) `mod` n) g') g.
Proof.
  intros Hg Hb Hl Hs Hk. unfold drv_aq_echo. apply wp_bind, fill_default_wp.
  set (d := default_desc _ _). assert (aq_desc_ok d) as Hd by by apply default_desc_ok.
  apply wp_bind. unfold kernel, wp. cbn [kmem update]. rewrite Hk. apply wp_bind, wp_ret, wp_bind.
  pose proof (srv_echo (posted i d (Some stackbuf) ECHO_BUFLEN) eq_refl ltac:(by vm_compute)) as Ha.
  assert (aq_retval (aq_completed srv_heartbeat (posted i d (Some stackbuf) ECHO_BUFLEN)) = 0) as Hr
    by (rewrite aq_completed_known by (do 2 constructor); done).
  eapply wp_mono.
  { apply (asq_send_wp i d (Some stackbuf) ECHO_BUFLEN); [|done|intros ? [= <-]; split; [done|lia]|
      unfold ECHO_BUFLEN in *; lia|done].
    by apply (sync_frame i g). }
  cbn beta. intros r g' (m'&->&->&Hg'&_). rewrite Hr.
  change (aq_retval (posted i d (Some stackbuf) ECHO_BUFLEN) =? E1000_AQ_RC_OK) with true. cbv iota.
  rewrite bool_decide_eq_true_2 by done. apply wp_bind, wp_modify, wp_ret. split_and!; try done.
  by apply (sync_frame _ _ _ Hg').
Qed.

(** C23: requested through the module parameter, the echo test passes: the watchdog
    sends the buffer to the device, the firmware (or the device, when there is
    no firmware) returns it, the driver finds the bytes it sent and clears the
    request. *)
Theorem watchdog_echo_passes i g stackbuf k :
  sync i g → adminq_cmd g = 3 → bytes_ok stackbuf → Z.of_nat (length stackbuf) = ECHO_BUFLEN →
  ECHO_BUFLEN ≤ size → kzalloc ECHO_BUFLEN (kmem g) = (true, k) →
  ∃ g', watchdog_adminq fuel stackbuf g = Ret () g' ∧
    klog g' = klog g ++ [K_command 3; K_echo_passed] ∧ adminq_cmd g' = 0 ∧
    sync ((i + 1) `mod` n) g'.
Proof.
  intros Hg Hc Hb Hl Hs Hk. apply wp_unit. unfold watchdog_adminq, e1000_adminq_cmd.
  apply wp_bind, wp_gets. rewrite Hc. change (3 =? 0) with false. cbv iota.
  apply wp_bind, wp_bind, wp_modify. change (3 =? 1) with false. change (3 =? 3) with true. cbv iota.
  apply wp_bind. eapply wp_mono; [apply (drv_aq_echo_wp i _ stackbuf k); try done; by apply (sync_frame i g)|].
  cbn beta. intros _ g' (Hlog&_&Hg'). apply wp_ret, wp_modify. split_and!; try done.
  - cbn in *. by rewrite Hlog, <- app_assoc.
  - by apply (sync_frame _ g').
Qed.

(** The version command reports major and minor numbers in each other's place:
    the versions 0x34.0x13 and 0xfa.0xaf of the firmware are logged as 0x13.0x34
    and 0xaf.0xfa. *)
Theorem watchdog_version_swapped i g stackbuf :
  sync i g → adminq_cmd g = 1 →
  ∃ g', watchdog_adminq fuel stackbuf g = Ret () g' ∧
    klog g' = klog g ++ [K_command 1; K_versions 0x13 0x34 0xaf 0xfa] ∧ adminq_cmd g' = 0 ∧
    sync ((i + 1) `mod` n) g'.
Proof.
  intros Hg Hc. apply wp_unit. unfold watchdog_adminq, e1000_adminq_cmd.
  apply wp_bind, wp_gets. rewrite Hc. change (1 =? 0) with false. cbv iota.
  apply wp_bind, wp_bind, wp_modify. change (1 =? 1) with true. cbv iota.
  apply wp_bind. eapply wp_mono; [apply (get_version_wp i); by apply (sync_frame i g)|].
  cbn beta. intros v g' (->&m'&->&Hg'). apply wp_modify, wp_modify. split_and!; try done.
  - cbn. by rewrite <- app_assoc.
  - by apply (sync_frame _ _ _ Hg').
Qed.

(** *** Set-up *)

(** The allocations succeed: the ring at [base], the buffers of [bis]. *)
Fixpoint allocates (sizes : list Z) (addrs : list Z) (k k' : A) : Prop :=
  match sizes, addrs with
  | [], [] => k' = k
  | s :: sizes, a :: addrs =>
      ∃ k1, dma_alloc_coherent s k = (Some a, k1) ∧ allocates sizes addrs k1 k'
  | _, _ => False
  end.

Lemma alloc_bufs_wp c addrs k' g :
  allocates (replicate c size) addrs (kmem g) k' →
  alloc_bufs c size g =
    Ret (map (λ a, {| bi_dma := Some a; bi_size := size |}) addrs) (g <| kmem := k' |>).
Proof.
  revert addrs g. induction c as [|c IH]; intros [|a addrs] g Ha; cbn in Ha; try done.
  - subst. by destruct g.
  - destruct Ha as (k1&Hk&Ha). cbn [alloc_bufs map]. unfold mbind, M_bind, kernel. rewrite Hk.
    pose proof (IH addrs (g <| kmem := k1 |>)) as E. rewrite E; [done|]. exact Ha.
Qed.

(** A write to a register without side effects. *)
Lemma wp_write_plain r i val (Q : unit → guest X P A → Prop) g :
  (r, i) ∈ [(E1000_PF_ATQBAH, PF_ATQBAH); (E1000_PF_ATQBAL, PF_ATQBAL);
            (E1000_PF_ATQLEN, PF_ATQLEN); (E1000_PF_ATQH, PF_ATQH)] →
  Q () (g <| mach ::= λ m, m <| dev ::= λ s, set_reg s i (u32 val) |> |>) →
  wp (E1000_WRITE_REG fuel r val) Q g.
Proof.
  intros Hr HQ. unfold E1000_WRITE_REG. apply wp_zoom.
  rewrite !elem_of_cons, elem_of_nil in Hr.
  destruct Hr as [[= -> ->]|[[= -> ->]|[[= -> ->]|[[= -> ->]|[]]]]]; exact HQ.
Qed.

(** The configuration writes the tail register, which makes the device carry out
    what is in the slot of its head. *)
Lemma config_regs_wp h g :
  rq_dma (asq (aq g)) = Some base → num_asq_entries (aq g) = n →
  srv_ready (fs (dev (mach g))) (world (mach g)) → reg (dev (mach g)) PF_ATQH = h → 0 ≤ h < n →
  let d := aq_desc_decode (phys_read (mem (mach g)) (slot h) 32) in
  srv_accepts d →
  wp (e1000_config_adminq_regs fuel) (λ _ g', ∃ m', g' = g <| mach := m' |> ∧
    srv_ready (fs (dev m')) (world m') ∧ atq_configured (dev m') base n 0 ∧
    phys_read (mem m') (slot h) 32 = aq_desc_encode (aq_completed srv_heartbeat d) ∧
    ∀ a k, range_disjoint a k (slot h) 32 → phys_read (mem m') a k = phys_read (mem (mach g)) a k) g.
Proof.
  intros Hb Hn Hr Hh Hhn d Ha. pose proof (lay_base _ _ _ _ Hlay). pose proof (lay_count _ _ _ _ Hlay).
  pose proof (addr_high_range base ltac:(lia)). pose proof (addr_low_range base).
  unfold e1000_config_adminq_regs, get_aq. apply wp_bind, wp_gets. cbn [id]. cbv zeta.
  rewrite Hb, Hn. cbn [default from_option].
  apply wp_bind, (wp_write_plain _ PF_ATQBAH); [set_solver|].
  apply wp_bind, (wp_write_plain _ PF_ATQBAL); [set_solver|].
  apply wp_bind, (wp_write_plain _ PF_ATQLEN); [set_solver|].
  lazymatch goal with |- wp _ _ ?s => assert (∃ s', s = g <| mach ::= λ m, m <| dev := s' |> |> ∧
    fs s' = fs (dev (mach g)) ∧ atq_configured s' base n h) as (s'&->&Hfs&Hcfg) end.
  { eexists. split; [reflexivity|]. split; [done|].
    cbn [mach dev update]. split.
    - reg_simpl. by rewrite u32_small.
    - reg_simpl. by rewrite u32_small.
    - unfold atq_ring_len. reg_simpl. apply enabled_len. lia.
    - by reg_simpl. }
  apply wp_bind. apply (wp_write_tail 0 h); [cbn; congruence|done|done|done|lia|]. fold d.
  intros m' Hslot Hmem Hready [Hbh Hbl Hlen _].
  apply (wp_write_plain _ PF_ATQH); [set_solver|].
  exists (m' <| dev ::= λ s, set_reg s PF_ATQH 0 |>). split_and!; try done.
  split; cbn [dev update]; unfold atq_ring_len in *; by reg_simpl.
Qed.

(** A driver that has been configured for [n] commands with buffers of [size]
    bytes, whose allocations succeed, on a device that serves commands and
    accepts what lies in the slot of its head. *)
Record init_ready (h : Z) g : Prop := {
  ir_entries : num_asq_entries (aq g) = n;
  ir_size : asq_buf_size (aq g) = size;
  ir_base : base ≠ 0;
  ir_alloc : ∃ k1 k2 k3 addrs, dma_alloc_coherent (n * AQ_DESC_SIZE) (kmem g) = (Some base, k1) ∧
    vmalloc (n * 24) k1 = (true, k2) ∧ allocates (replicate (Z.to_nat n) size) addrs k2 k3 ∧
    bis = map (λ a, {| bi_dma := Some a; bi_size := size |}) addrs;
  ir_ready : srv_ready (fs (dev (mach g))) (world (mach g));
  ir_head : reg (dev (mach g)) PF_ATQH = h ∧ 0 ≤ h < n;
  ir_accepts : srv_accepts (aq_desc_decode (phys_read (mem (mach g)) (slot h) 32));
}.

(** The driver when the ring and the buffers are allocated. *)
Definition allocated g (k : A) : guest X P A :=
  g <| kmem := k |>
    <| aq ::= λ q, q <| asq_spinlock := false |>
         <| asq ::= λ r, r <| rq_dma := Some base |> <| rq_tail := E1000_PF_ATQT |>
              <| rq_head := E1000_PF_ATQH |> <| rq_count := n |> <| next_to_use := 0 |>
              <| asq_bi := Some bis |> |> |>.

Definition init_rest (clean : bool) : DM Z :=
  e1000_config_adminq_regs fuel;;
  v ← e1000_aq_get_firmware_version fuel clean;
  (match v with
   | Some (fmaj, fmin, amaj, amin) =>
       mod_aq (λ q, q <| fw_maj_ver := fmaj |> <| fw_min_ver := fmin |>
                      <| api_maj_ver := amaj |> <| api_min_ver := amin |>)
   | None => mret ()
   end);;
  v ← get_aq fw_maj_ver;
  printk (K_fw_maj v);;
  mret E1000_SUCCESS.

Lemma alloc_asq_bufs_ok g k2 k3 addrs :
  num_asq_entries (aq g) = n → asq_buf_size (aq g) = size → vmalloc (n * 24) (kmem g) = (true, k2) →
  allocates (replicate (Z.to_nat n) size) addrs k2 k3 →
  e1000_alloc_adminq_bufs g = Ret E1000_SUCCESS (g <| kmem := k3 |> <| aq ::= λ q, q <| asq ::= λ r,
    r <| asq_bi := Some (map (λ a, {| bi_dma := Some a; bi_size := size |}) addrs) |> |> |>).
Proof.
  intros Hn Hs Hk2 Hk3. unfold e1000_alloc_adminq_bufs, e1000_alloc_asq_bufs, get_aq, kernel, mbind, M_bind, gets.
  rewrite Hn, Hs, Hk2. cbn [orb]. unfold mret, M_ret. 
  pose proof (alloc_bufs_wp (Z.to_nat n) addrs k3 (g <| kmem := k2 |>)) as E.
  rewrite E; [done|]. exact Hk3.
Qed.

Lemma init_alloc_wp clean h g :
  init_ready h g → ∃ k, e1000_init_adminq fuel clean g = init_rest clean (allocated g k).
Proof.
  intros [Hn Hs Hbase (k1&k2&k3&addrs&Hk1&Hk2&Hk3&Eb) _ _ _]. exists k3.
  pose proof (lay_size _ _ _ _ Hlay). pose proof (lay_count _ _ _ _ Hlay).
  unfold e1000_init_adminq. unfold mbind at 1, M_bind at 1, get_aq at 1, gets at 1. cbn [id].
  rewrite Hn, Hs, !(proj2 (Z.eqb_neq _ _)) by lia. cbn [orb].
  unfold mbind at 1, M_bind at 1, mod_aq at 1, modify at 1.
  unfold mbind at 1, M_bind at 1.
  assert (e1000_alloc_adminq_rings (g <| aq ::= λ q, q <| asq_spinlock := false |> |>) =
    Ret E1000_SUCCESS (g <| kmem := k1 |> <| aq ::= λ q, q <| asq_spinlock := false |>
         <| asq ::= λ r, r <| rq_dma := Some base |> <| rq_tail := E1000_PF_ATQT |>
              <| rq_head := E1000_PF_ATQH |> <| rq_count := n |> <| next_to_use := 0 |> |> |>)) as ->.
  { unfold e1000_alloc_adminq_rings, mbind, M_bind, get_aq, gets, kernel. cbn [aq kmem update num_asq_entries].
    rewrite Hn, Hk1. by rewrite (proj2 (Z.eqb_neq _ _) Hbase). }
  cbn [negb Z.eqb E1000_SUCCESS].
  unfold mbind at 1, M_bind at 1.
  lazymatch goal with |- context [e1000_alloc_adminq_bufs ?s] =>
    rewrite (alloc_asq_bufs_ok s k2 k3 addrs Hn Hs Hk2 Hk3) end.
  rewrite <- Eb. reflexivity.
Qed.

(** A ring at bus address 0 counts as a failed allocation. *)
Lemma init_zero_dma clean g k :
  num_asq_entries (aq g) ≠ 0 → asq_buf_size (aq g) ≠ 0 →
  dma_alloc_coherent (num_asq_entries (aq g) * AQ_DESC_SIZE) (kmem g) = (Some 0, k) →
  ∃ g', e1000_init_adminq fuel clean g = Ret (- ENOMEM) g' ∧ mach g' = mach g.
Proof.
  intros Hn Hs Hk. eexists. unfold e1000_init_adminq, e1000_alloc_adminq_rings, get_aq, kernel, mod_aq, mod_asq, mbind, M_bind,
    gets, modify. cbn [id]. rewrite !(proj2 (Z.eqb_neq _ _)) by done. cbn [orb aq kmem update num_asq_entries].
  rewrite Hk. by split.
Qed.

Lemma allocated_facts g k h :
  init_ready h g →
  let g1 := allocated g k in
  rq_dma (asq (aq g1)) = Some base ∧ num_asq_entries (aq g1) = n ∧ mach g1 = mach g ∧
  klog g1 = klog g ∧ fw_maj_ver (aq g1) = fw_maj_ver (aq g).
Proof. by intros []. Qed.

(** C5: when the allocations succeed, with a ring whose bus address is not 0 (0 counts
    as a failure, see [init_zero_dma]), initialisation brings the queue up: it returns
    success, the firmware's version numbers have been read through the queue it has just configured, and
    the driver and the device are in step, one command further. (The
    configuration also makes the device carry out whatever lies in the slot of
    its head, see [init_queue_full].) *)
Theorem init_adminq_works h g :
  init_ready h g →
  ∃ g', e1000_init_adminq fuel false g = Ret E1000_SUCCESS g' ∧ sync (1 `mod` n) g' ∧
    fw_maj_ver (aq g') = 0x34 ∧ fw_min_ver (aq g') = 0x13 ∧
    api_maj_ver (aq g') = 0xfa ∧ api_min_ver (aq g') = 0xaf ∧ klog g' = klog g ++ [K_fw_maj 0x34].
Proof.
  intros Hi. destruct (init_alloc_wp false h g Hi) as (k&->). pose proof (lay_count _ _ _ _ Hlay).
  destruct (allocated_facts g k h Hi) as (Hb&Hn&Hm&Hlog&_). set (g1 := allocated g k) in *.
  assert (wp (init_rest false) (λ r g', r = E1000_SUCCESS ∧ sync (1 `mod` n) g' ∧
    fw_maj_ver (aq g') = 0x34 ∧ fw_min_ver (aq g') = 0x13 ∧ api_maj_ver (aq g') = 0xfa ∧
    api_min_ver (aq g') = 0xaf ∧ klog g' = klog g ++ [K_fw_maj 0x34]) g1) as Hw.
  { unfold init_rest. apply wp_bind. destruct Hi as [? Hsz _ _ Hr [Hh ?] Ha]. eapply wp_mono.
    { apply (config_regs_wp h g1); rewrite ?Hm; done. }
    cbn beta. intros _ g2 (m'&->&Hr'&Hc&_). apply wp_bind. eapply wp_mono.
    { apply (get_version_wp 0). split; try done. lia. }
    cbn beta. intros v g3 (->&m2&->&Hsync). apply wp_bind, wp_modify, wp_bind, wp_gets, wp_bind, wp_modify, wp_ret.
    split_and!; try done. destruct Hsync. by split. }
  unfold wp in Hw. destruct (init_rest false g1) as [r g'| |]; try done. destruct Hw as (->&?). eauto.
Qed.

(** *** What goes wrong *)

Lemma slots_apart i j : 0 ≤ i < n → 0 ≤ j < n → i ≠ j → range_disjoint (slot i) 32 (slot j) 32.
Proof.
  intros ???. pose proof (lay_base _ _ _ _ Hlay). intros x y Hx Hy. rewrite !u64_small by lia. lia.
Qed.

(** Cleaning the one completed slot of a ring that was just configured. *)
Lemma clean_asq_wp g :
  rq_dma (asq (aq g)) = Some base → rq_count (asq (aq g)) = n → 1 < n →
  next_to_clean (asq (aq g)) = 0 → next_to_use (asq (aq g)) = 0 →
  has_bits (aq_flags (aq_desc_decode (phys_read (mem (mach g)) (slot 0) 32))) E1000_AQ_FLAG_DD = true →
  has_bits (aq_flags (aq_desc_decode (phys_read (mem (mach g)) (slot 1) 32))) E1000_AQ_FLAG_DD = false →
  wp e1000_clean_asq (λ r g', r = 0 ∧ ∃ m', g' = g <| mach := m' |>
    <| aq ::= λ q, q <| asq ::= λ r, r <| next_to_clean := 1 |> |> |>) g.
Proof.
  intros Hb Hn Hn1 Hc Hu H0d H1d. pose proof (lay_base _ _ _ _ Hlay). pose proof (lay_count _ _ _ _ Hlay).
  unfold e1000_clean_asq, get_asq, get_aq. apply wp_bind, wp_gets. rewrite Hc.
  apply wp_bind, wp_gets. rewrite Hn. replace (Z.to_nat n) with (S (Z.to_nat (n - 1))) by lia.
  apply wp_bind. cbn [clean_loop]. unfold E1000_ADMINQ_DESC, get_asq, get_aq.
  apply wp_bind, wp_bind, wp_gets. cbn [id]. rewrite Hb, Hn, (proj2 (Z.ltb_lt 0 n)) by lia.
  apply wp_ret, wp_bind, wp_read_desc. change (base + AQ_DESC_SIZE * 0) with (slot 0). rewrite H0d.
  apply wp_bind, wp_mem_write. change (u16 (0 + 1)) with 1. cbn [aq mach update].
  apply wp_bind, wp_bind, wp_gets. cbn [id aq mach update]. rewrite Hb, Hn, (proj2 (Z.ltb_lt 1 n)) by lia.
  apply wp_ret, wp_bind, wp_read_desc. change (base + AQ_DESC_SIZE * 1) with (slot 1). cbn [mach mem update].
  rewrite phys_read_write_ne by (rewrite length_replicate; apply slots_apart; lia). rewrite H1d.
  apply wp_ret, wp_bind, wp_modify, wp_bind, wp_gets, wp_ret. split; [|by eexists].
  unfold E1000_DESC_UNUSED. cbn [aq asq next_to_use next_to_clean update]. by rewrite Hu.
Qed.

(** C31: why the check for a full queue had to be disabled. With it, and with
    allocations that succeed as in [init_adminq_works], the very first command is refused: configuring the queue writes the tail register, which
    makes the device complete the still empty slot 0; the driver then cleans that
    slot, so that [next_to_clean] overtakes [next_to_use] and no descriptor
    counts as unused. The version request of the initialisation fails with
    QUEUE_FULL and the version numbers stay unset. *)
Theorem init_queue_full g :
  init_ready 0 g → 1 < n → next_to_clean (asq (aq g)) = 0 →
  has_bits (aq_flags (aq_desc_decode (phys_read (mem (mach g)) (slot 1) 32))) E1000_AQ_FLAG_DD = false →
  ∃ g', e1000_init_adminq fuel true g = Ret E1000_SUCCESS g' ∧
    klog g' = klog g ++ [K_failure E1000_AQ_ERR_QUEUE_FULL; K_fw_maj (fw_maj_ver (aq g))].
Proof.
  intros Hi Hn1 Hntc H1d. destruct (init_alloc_wp true 0 g Hi) as (k&->). pose proof (lay_size _ _ _ _ Hlay).
  destruct (allocated_facts g k 0 Hi) as (Hb&Hn&Hm&Hlog&Hv). set (g1 := allocated g k) in *.
  assert (wp (init_rest true) (λ r g', r = E1000_SUCCESS ∧
    klog g' = klog g ++ [K_failure E1000_AQ_ERR_QUEUE_FULL; K_fw_maj (fw_maj_ver (aq g))]) g1) as Hw.
  { unfold init_rest. apply wp_bind. destruct Hi as [? Hsz _ _ Hr [Hh ?] Ha]. eapply wp_mono.
    { apply (config_regs_wp 0 g1); rewrite ?Hm; done. }
    cbn beta. rewrite Hm. intros _ g2 (m'&->&_&_&Hs0&Hmem). set (d0 := aq_desc_decode _) in Hs0.
    assert (aq_desc_ok d0) as Hd0 by (apply aq_desc_decode_ok; [apply phys_read_ok|apply phys_read_length]).
    apply wp_bind. unfold e1000_aq_get_firmware_version. apply wp_bind, fill_default_wp, wp_bind.
    unfold e1000_asq_send_command, get_aq. apply wp_bind, wp_gets. cbn [aq update].
    replace (asq_buf_size (aq g1)) with size by done. replace (0 >? size) with false by lia.
    unfold spin_lock, get_aq, mod_aq. apply wp_bind, wp_bind, wp_gets. cbn [aq update].
    change (asq_spinlock (aq g1)) with false. cbv iota. apply wp_modify, wp_bind, wp_bind.
    eapply wp_mono.
    { apply clean_asq_wp; try done; cbn [mach update].
      - rewrite Hs0, aq_desc_decode_encode by (by apply aq_completed_ok). apply aq_completed_done.
      - rewrite Hmem; [done|]. apply slots_apart; lia. }
    cbn beta. intros r g3 (->&m2&->). apply wp_ret. change (0 =? 0) with true. cbv iota.
    apply wp_bind. unfold spin_unlock, get_aq, mod_aq. apply wp_bind, wp_gets. cbn [aq asq_spinlock update].
    apply wp_modify, wp_ret.
    change (E1000_AQ_ERR_QUEUE_FULL =? E1000_AQ_RC_OK) with false. cbv iota.
    apply wp_bind, wp_modify, wp_ret, wp_bind, wp_ret, wp_bind, wp_gets, wp_bind, wp_modify, wp_ret.
    split; [done|]. cbn. by rewrite <- app_assoc. }
  unfold wp in Hw. destruct (init_rest true g1) as [r g'| |]; try done. destruct Hw as (->&?). eauto.
Qed.

(** A buffer that is too large is refused after a jump to the end of the
    routine, which releases the spinlock although it was not taken. *)
Theorem oversized_buffer_unlocks clean d buff bsize g :
  asq_spinlock (aq g) = false → asq_buf_size (aq g) < bsize →
  e1000_asq_send_command fuel clean d buff bsize g = UB BadUnlock.
Proof.
  intros Hl Hs. unfold e1000_asq_send_command. unfold mbind at 1, M_bind at 1, get_aq at 1, gets at 1.
  replace (bsize >? asq_buf_size (aq g)) with true by lia.
  unfold spin_unlock, get_aq, mbind, M_bind, gets. by rewrite Hl.
Qed.

(** Cleaning does not wrap: when every slot from [next_to_clean] on is
    complete, as after a lap of the ring, [e1000_clean_asq] leaves the ring. *)
Theorem clean_asq_leaves_ring g c :
  rq_dma (asq (aq g)) = Some base → rq_count (asq (aq g)) = n → next_to_clean (asq (aq g)) = c →
  0 ≤ c ≤ n →
  (∀ i, c ≤ i < n → has_bits (aq_flags (aq_desc_decode
     (phys_read (mem (mach g)) (slot i) 32))) E1000_AQ_FLAG_DD = true) →
  e1000_clean_asq g = UB OutOfBounds.
Proof.
  intros Hb Hn Hc Hcn Hdd. pose proof (lay_count _ _ _ _ Hlay).
  assert (∀ k i g, (n - i = Z.of_nat k) → c ≤ i → rq_dma (asq (aq g)) = Some base →
    rq_count (asq (aq g)) = n → (∀ j, i ≤ j < n → has_bits (aq_flags (aq_desc_decode
     (phys_read (mem (mach g)) (slot j) 32))) E1000_AQ_FLAG_DD = true) →
    ∀ f, (k < f)%nat → clean_loop f i g = UB OutOfBounds) as Hloop.
  { clear g Hb Hn Hc Hdd. induction k as [|k IH]; intros i g Hk Hi Hb Hn Hdd [|f] Hf; try lia.
    - cbn [clean_loop]. unfold E1000_ADMINQ_DESC, get_asq, get_aq, mbind, M_bind, gets. cbn [id].
      rewrite Hb, Hn. replace (i <? n) with false by lia. done.
    - cbn [clean_loop]. unfold E1000_ADMINQ_DESC, get_asq, get_aq.
      apply bind_outcome, wp_bind, wp_gets. cbn [id]. rewrite Hb, Hn.
      replace (i <? n) with true by lia. change AQ_DESC_SIZE with 32. apply wp_ret.
      apply bind_outcome, wp_read_desc. rewrite (Hdd i) by lia. apply bind_outcome, wp_mem_write.
      rewrite u16_small by lia. apply IH; try done; try lia. intros j Hj. cbn [mach mem update].
      rewrite phys_read_write_ne; [apply Hdd; lia|]. rewrite length_replicate. apply slots_apart; lia. }
  unfold e1000_clean_asq, get_asq, get_aq. unfold mbind at 1 2 3, M_bind at 1 2 3, gets at 1 2.
  rewrite Hn, Hc, (Hloop (Z.to_nat (n - c)) c g); try done; lia.
Qed.

(** The device and the firmware report an unknown command with their code 1 for
    "not implemented"; in the driver's numbering 1 is "operation not permitted"
    and "not implemented" is 17. *)
Theorem unknown_command_misreported i d g :
  sync i g → aq_desc_ok d → aq_datalen d = 0 →
  aq_opcode d ∉ [e1000_aqc_get_version; e1000_aqc_driver_heartbeat; e1000_aqc_echo] →
  ∃ d' g', e1000_asq_send_command fuel false d None 0 g = Ret (DRV_AQ_RC_EPERM, d', None) g' ∧
    DRV_AQ_RC_EPERM ≠ DRV_AQ_RC_ENOSYS.
Proof.
  intros Hg Hd Hl Ho. pose proof (lay_size _ _ _ _ Hlay).
  pose proof (asq_send_wp i d None 0 g Hg Hd ltac:(done) ltac:(lia)
    (srv_direct (posted i d None 0) Hl)) as Hw.
  unfold wp in Hw. destruct (e1000_asq_send_command fuel false d None 0 g) as [r g'| |]; try done.
  destruct Hw as (m'&->&_&_). rewrite aq_completed_unknown; [by eauto|].
  unfold aq_commands. destruct srv_heartbeat; set_solver.
Qed.
End in_step.
