(* ===== verification/Examples.v ===== *)
(** * Concrete runs

    A device with a MAC address on a byte-addressed RAM, a link that finds no
    firmware, and a link to a running firmware; each property is applied to a
    concrete input on which its hypotheses are checked by computation. *)

From S2P Require Import Prelude Bytes Memory NetChecksum E1000Hw AqSpec E1000State E1000Eeprom E1000Tx E1000Rx Process Message Panel Options Discovery Firmware AdminQ E1000Mmio E1000Inv NetQueue Link.
Import Checksum NetQueue.

(** Closed arithmetic, by evaluation. *)
Ltac evaluate := vm_compute; repeat split; first [reflexivity | discriminate].
Ltac evaluate_all := repeat first [apply Forall_nil_2 | apply Forall_cons_2; [evaluate|]].

(** ** Machines *)

(** A link without a firmware. *)
#[export] Instance null_link : MsgLink unit := {|
  link_locate := mret (-1);
  link_senddata := λ _ _ _, mret (-1);
  link_recvdata := λ _ buf n, mret (-1, buf, n);
  link_close := λ _, mret ();
  link_malloc := λ n, mret (replicate n 0);
|}.

Definition demo_mac : list Z := [0x52; 0x54; 0x00; 0x12; 0x34; 0x56].
Definition demo_dev : E1000State := e1000_power_on demo_mac.
Definition demo_machine : machine ram unit := Machine demo_dev ∅ [] ().

Lemma demo_mac_ok : bytes_ok demo_mac.
Proof. by apply bytes_okb_ok. Qed.
Lemma demo_dev_ok : dev_ok demo_dev.
Proof. apply (power_on_inv demo_mac demo_mac_ok). Qed.

(** ** The device *)

Lemma eeprom_microwire_read_witness :
  (mw_read demo_dev 1).1 = 0x1200 ∧ eeprom_data (mw_read demo_dev 1).2 = eeprom_data demo_dev.
Proof.
  apply (eeprom_microwire_read demo_dev 1); [apply demo_dev_ok|reflexivity|lia].
Defined.

Lemma eerd_read_word_witness :
  let s := set_reg demo_dev EERD (eerd_start 1) in (flash_eerd_read s 0).1 >> 16 = 0x1200.
Proof.
  apply (eerd_read_word (set_reg demo_dev EERD (eerd_start 1)) 1); [|lia|apply reg_set_eq|reflexivity].
  apply dev_ok_set_reg; [by vm_compute|apply demo_dev_ok].
Defined.

Lemma mdic_write_read_witness :
  arr (phy_reg (set_mdic (set_mdic demo_dev MDIC (mdic_write_cmd PHY_AUTONEG_ADV 0x1e1))
    MDIC (mdic_read_cmd PHY_AUTONEG_ADV))) PHY_AUTONEG_ADV = 0x1e1.
Proof.
  destruct (mdic_write_read demo_dev PHY_AUTONEG_ADV 0x1e1 demo_dev_ok) as (_&_&_&_&->);
    [by apply list_elem_of_further, list_elem_of_here|lia|reflexivity].
Defined.

(** ** Messages and the firmware *)

Definition demo_desc (opcode datalen : Z) : e1000_aq_desc := {|
  aq_flags := 0; aq_opcode := opcode; aq_datalen := datalen; aq_retval := 0;
  aq_cookie_high := 1; aq_cookie_low := 2; aq_param0 := 0; aq_param1 := 0;
  aq_addr_high := 0; aq_addr_low := 0x2000 |}.

Lemma demo_desc_ok op n : 0 ≤ op < 65536 → 0 ≤ n < 65536 → aq_desc_ok (demo_desc op n).
Proof. intros. repeat constructor; unfold byte_ok, field_ok; cbn; lia. Qed.

Definition wire_proc (bytes : list Z) : proc wire := proc_init {| w_in := bytes; w_out := [] |}.

Lemma message_sequence_roundtrip_witness :
  ∃ p' bytes, send_all 3 [[1; 2; 3]; [4]] (wire_proc []) = Ret true p' ∧ w_out (os p') = bytes ∧
    ∃ q', recv_all 5 (replicate 8 0) 2 (wire_proc (bytes ++ [9])) = Ret [[1; 2; 3]; [4]] q' ∧
      w_in (os q') = [9].
Proof.
  destruct (message_sequence_roundtrip (W := wire) (V := wire) 3 5 (replicate 8 0) [[1; 2; 3]; [4]]
    (wire_proc [])) as (p'&bytes&Hs&Hb&Hr).
  - apply bytes_okb_ok. reflexivity.
  - repeat constructor; try (apply bytes_okb_ok; reflexivity); cbn; lia.
  - exists p', bytes. split; [exact Hs|]. split; [exact Hb|].
    apply (Hr (wire_proc (bytes ++ [9])) [9]). reflexivity.
Defined.

Definition demo_fw_state : fw_state :=
  {| fw_desc := replicate 32 0; fw_buffer := replicate 4096 0; fw_echobuf := false |}.

Lemma demo_fw_state_ok : fw_state_ok demo_fw_state.
Proof. apply fw_state_okb_iff. vm_compute. reflexivity. Qed.

Lemma firmware_serves_commands_witness :
  let cmds := [(demo_desc e1000_aqc_get_version 0, []); (demo_desc e1000_aqc_echo 3, [7; 8; 9])] in
  ∃ st' p', t_0_loop 2 3 demo_fw_state
    (wire_proc (concat (zip_with msg_encode [pad0; pad0; pad0] (fw_requests cmds)))) =
    Ret (st', true) p' ∧ w_in (os p') = [].
Proof.
  intros cmds.
  destruct (firmware_serves_commands (W := wire) 3 demo_fw_state cmds [pad0; pad0; pad0] []
    (wire_proc (concat (zip_with msg_encode [pad0; pad0; pad0] (fw_requests cmds)))))
    as (st'&p'&pads'&more&Hl&_&Hx&Hq&_).
  - apply demo_fw_state_ok.
  - repeat constructor; unfold byte_ok, field_ok; cbn; unfold FW_DAT_SIZE; try lia; try done.
  - repeat constructor.
  - reflexivity.
  - symmetry. apply app_nil_r.
  - exists st', p'. split; [exact Hl|]. cbn in Hx. rewrite Hx. exact (Hq I).
Defined.

(** ** The admin queue *)

(** A two-slot queue at 0x1000 whose head is the last slot. *)
Definition atq_dev (s : E1000State) : E1000State :=
  set_reg (set_reg (set_reg s PF_ATQBAL 0x1000) PF_ATQLEN 2) PF_ATQH 1.
Definition atq_ram : ram :=
  phys_write (phys_write (∅ : ram) 0x1020 (aq_desc_encode (demo_desc e1000_aqc_echo 3)))
    0x1000 (aq_desc_encode (demo_desc e1000_aqc_get_version 0)).

Lemma atq_fallback_completes_witness :
  ∃ m', e1000_set_atq_tail PF_ATQT 2 (Machine (atq_dev demo_dev) atq_ram [] ()) = Ret () m' ∧
    reg (dev m') PF_ATQH = 0.
Proof.
  destruct (atq_fallback_completes (X := ram) (P := unit)
    (Machine (atq_dev demo_dev) atq_ram [] ()) 2 () ()) as (m'&Hr&_&_&Hd&_);
    [reflexivity|vm_compute; split; [discriminate|reflexivity]|reflexivity|reflexivity|].
  exists m'. split; [exact Hr|]. rewrite Hd. reflexivity.
Defined.

Lemma fallback_agrees_with_firmware_witness :
  ∃ d' m', aq_fallback (demo_desc e1000_aqc_echo 4) (Machine (atq_dev demo_dev) atq_ram [] ()) = Ret d' m' ∧
    d' = (fw_execute (demo_desc e1000_aqc_echo 4)).1.
Proof.
  destruct (fallback_agrees_with_firmware (X := ram) (P := unit) (demo_desc e1000_aqc_echo 4)
    (Machine (atq_dev demo_dev) atq_ram [] ())) as (d'&m'&Hr&Hd).
  - apply demo_desc_ok; vm_compute; split; first [discriminate|reflexivity].
  - exists d', m'. split; [exact Hr|]. apply Hd. left. discriminate.
Defined.

Definition demo_fwlink : fwlink :=
  {| fl_proc := wire_proc []; fl_st := demo_fw_state; fl_hist := [] |}.
Definition atq_machine : machine ram (proc fwlink) :=
  Machine (atq_dev (demo_dev <| fs := 4 |>)) atq_ram [] (proc_init demo_fwlink).

Lemma atq_ring_served_witness :
  ∃ m', atq_writes 0 [0; 1] atq_machine = Ret () m' ∧ reg (dev m') PF_ATQH = 1 ∧
    phys_read (mem m') 0x1000 32 =
      aq_desc_encode (aq_completed true (demo_desc e1000_aqc_get_version 0)).
Proof.
  destruct (atq_ring_served (X := ram) 0 [0; 1] atq_machine) as (m'&Hr&Hs&_&Hh&_).
  - discriminate.
  - split; [reflexivity|]. split; [reflexivity|]. apply demo_fw_state_ok.
  - vm_compute. split; [discriminate|reflexivity].
  - vm_compute. discriminate.
  - intros [|[|i]] Hi; [..|cbn in Hi; lia]; vm_compute; (split; [discriminate|]); auto.
  - exists m'. split; [exact Hr|]. split; [exact Hh|]. exact (Hs 1%nat ltac:(cbn; lia)).
Defined.

(** ** Checksums *)

Lemma checksum_insert_verifies_witness :
  ∃ sum buf' sum', net_checksum_add 6 [1; 2; 0; 0; 5; 6] = Some sum ∧
    store [1; 2; 0; 0; 5; 6] 2 (cpu_to_be16wu (net_checksum_finish sum)) = Some buf' ∧
    net_checksum_add (Z.of_nat (length buf')) buf' = Some sum' ∧ net_checksum_finish sum' = 0.
Proof.
  apply (checksum_insert_verifies [1; 2; 0; 0; 5; 6] 2);
    [by apply bytes_okb_ok|cbn; lia|reflexivity|reflexivity].
Defined.

(** An IPv4 packet that carries a UDP datagram with two bytes of data, in an
    Ethernet frame; the second one ends before the data. *)
Definition udp_frame (payload : list Z) : list Z :=
  replicate 12 0 ++ [8; 0] ++
  [0x45; 0; 0; 30; 0; 0; 0; 0; 64; 17; 0; 0; 10; 0; 0; 1; 10; 0; 0; 2] ++
  [0; 7; 0; 9; 0; 10; 0; 0] ++ payload.

Lemma net_checksum_calculate_verifies_witness :
  ∃ data', net_checksum_calculate (udp_frame [0xab; 0xcd]) 44 = Some data' ∧
    net_checksum_tcpudp 10 17 (drop 26 data') (drop 34 data') = Some 0.
Proof.
  destruct (net_checksum_calculate_verifies (udp_frame [0xab; 0xcd]) 44 20 10 17 6) as (d&Hd&_&Hv).
  - by apply bytes_okb_ok.
  - exists 0x45, 0, 30. repeat split; (reflexivity || discriminate).
  - lia.
  - cbn. lia.
  - by exists d.
Defined.

Lemma net_checksum_calculate_overread_witness : net_checksum_calculate (udp_frame []) 42 = None.
Proof.
  apply (net_checksum_calculate_overread (udp_frame []) 42 20 10 17 6).
  - by apply bytes_okb_ok.
  - exists 0x45, 0, 30. repeat split; (reflexivity || discriminate).
  - cbn. lia.
Defined.

(** ** The packet queue *)

(** Clients that answer each packet they take with a packet, and whose sent callbacks
    send packets, as long as they have room. *)
Definition demo_handler (p : NetPacket) (room : nat) : Z * list Z * list NetPacket * nat :=
  match room with
  | O => (0, np_data p, [], O)
  | S n => (np_size p, np_data p, [packet 2 0 [9] None], n)
  end.
Definition demo_callback (cb sender ret : Z) (room : nat) : option NetPacket * nat :=
  match room with O => (None, O) | S n => (Some (packet 3 0 [8] (Some 5)), n) end.

Definition demo_queue : NetQueue nat := Queue [packet 1 0 [1] (Some 4); packet 1 0 [2] None] false 3%nat [].

Lemma net_queue_flush_fifo_witness :
  ∃ q' evs, qemu_net_queue_flush demo_handler demo_callback 6 demo_queue = Ret () q' ∧ events q' = evs ∧
    map id (packets demo_queue ++ entered evs) = map id (left_for_good evs ++ packets q').
Proof.
  destruct (net_queue_flush_fifo demo_handler demo_callback id demo_queue) as [Hfifo Hends].
  - intros p [|c]; by destruct p.
  - destruct (Hends id) as [q' E].
    + intros p [|c]; cbn; lia.
    + intros cb sender r [|c]; cbn; lia.
    + destruct (Hfifo _ q' E) as ((evs&Ev&Hk)&_). exists q', evs. split; [exact E|]. split; [exact Ev|exact Hk].
Defined.

Lemma net_queue_send_order_witness :
  qemu_net_queue_send demo_handler demo_callback 1 1 0 [5] (Some 9) (Queue [] false 0%nat []) =
    Ret 0 (Queue [packet 1 0 [5] (Some 9)] false 0%nat
      [Ev_deliver (packet 1 0 [5] None) 0; Ev_queue (packet 1 0 [5] (Some 9))]).
Proof.
  apply (net_queue_send_order demo_handler demo_callback 1 1 0 [5] (Some 9) [] false 0%nat [] 0 [5] 0%nat); reflexivity.
Defined.
