(* ===== verification/ExamplesDev.v ===== *)
(** * Concrete runs of the device

    Descriptor rings in RAM on which the properties of the transmit and of the
    receive path are applied. *)

From S2P Require Import Prelude Bytes Memory NetChecksum E1000Hw E1000State E1000Eeprom E1000Tx E1000Rx E1000Ring AdminQ E1000Mmio E1000Inv E1000TxRing E1000TxSpec E1000Tso E1000TsoRing E1000RxSpec E1000MmioSpec Examples.

(** Ranges one after the other below the end of the address space. *)
Lemma range_below a n b k :
  0 ≤ a → a + Z.of_nat n ≤ b → b + Z.of_nat k ≤ 2 ^ 64 → range_disjoint a n b k.
Proof. intros ??? i j ??. rewrite !u64_small by lia. lia. Qed.

(** The device with the registers of a list. *)
Definition with_regs (s : E1000State) (l : list (Z * Z)) : E1000State :=
  foldl (λ s iv, set_reg s iv.1 iv.2) s l.

(** Values of 32 bits, in registers that do not drive the interrupt line. *)
Definition quiet_reg (iv : Z * Z) : bool :=
  (0 <=? iv.2) && (iv.2 <? 2 ^ 32) && negb (iv.1 =? IMS) && negb (iv.1 =? ICR) && negb (iv.1 =? ICS).

Lemma with_regs_inv s l : dev_inv s → forallb quiet_reg l = true → dev_inv (with_regs s l).
Proof.
  revert s. induction l as [|[i v] l IH]; intros s [Hs Hi] Hl; [done|]. cbn in Hl.
  apply andb_true_iff in Hl as [Hq Hl]. unfold quiet_reg in Hq. cbn [fst snd] in Hq.
  repeat (apply andb_true_iff in Hq as [Hq ?]).
  repeat match goal with H : negb _ = true |- _ => apply negb_true_iff, Z.eqb_neq in H end.
  apply IH; [split|done]; [apply dev_ok_set_reg; [split|done]|by apply irq_ok_set_reg].
  - by apply Z.leb_le.
  - by apply Z.ltb_lt.
Qed.

Lemma tx_with_regs s l : tx (with_regs s l) = tx s.
Proof. revert s. induction l as [|e l IH]; intros s; [done|]. apply (IH (set_reg s e.1 e.2)). Qed.

Lemma demo_dev_inv : dev_inv demo_dev.
Proof. apply (power_on_inv demo_mac demo_mac_ok). Qed.

(** ** Transmission *)

(** A ring of four slots at 0x1000; two descriptors, in the last and in the first
    slot, make up one frame of three bytes. *)
Definition tx_desc_bytes (addr lower upper : Z) : list Z :=
  le_bytes 8 addr ++ le_bytes 4 lower ++ le_bytes 4 upper.
Definition tx_ram : ram :=
  phys_write (phys_write (phys_write (phys_write (∅ : ram)
    0x1030 (tx_desc_bytes 0x2000 2 0))
    0x1000 (tx_desc_bytes 0x2100 (1 .| E1000_TXD_CMD_EOP .| E1000_TXD_CMD_RS) 0))
    0x2000 [0xaa; 0xbb]) 0x2100 [0xcc].
Definition tx_regs : list (Z * Z) := [(TDBAL, 0x1000); (TDLEN, 64); (TDH, 3); (TDT, 1); (TCTL, E1000_TCTL_EN)].
Definition tx_machine : machine ram unit := Machine (with_regs demo_dev tx_regs) tx_ram [] ().

Lemma tx_machine_inv : dev_inv (dev tx_machine).
Proof. by apply with_regs_inv; [apply demo_dev_inv|]. Qed.

Lemma start_xmit_legacy_witness :
  ∃ m', start_xmit 3 tx_machine = Ret () m' ∧ sent m' = [[0xaa; 0xbb; 0xcc]].
Proof.
  destruct (start_xmit_legacy (X := ram) (P := unit) 3 2 [] tx_machine) as (m'&Hr&Hs&_).
  - lia.
  - split; [split| | |].
    + apply tx_machine_inv.
    + evaluate.
    + reflexivity.
    + reflexivity.
    + intros [|[|i]] [|[|j]] Hi Hj _; try lia; apply range_disjoint_sym, range_below; evaluate.
    + split; reflexivity.
    + intros [|[|i]] Hi; [reflexivity..|lia].
    + evaluate.
  - reflexivity.
  - exists m'. split; [exact Hr|]. exact Hs.
Defined.

(** A device that has gathered all but one byte of its buffer. *)
Definition full_dev : E1000State := demo_dev <| tx ::= λ t, t <| tx_size := 0xffff |> |>.

Lemma full_dev_ok : dev_ok full_dev.
Proof. destruct demo_dev_ok as [? ? ? ? []]. split; try done. split; try done. evaluate_all. Qed.

Lemma process_tx_desc_overflow_witness :
  process_tx_desc 9 (tx_desc_decode (tx_desc_bytes 0x2000 2 0)) (Machine full_dev (∅ : ram) [] ()) =
    UB OutOfBounds.
Proof.
  apply (process_tx_desc_overflow (X := ram) (P := unit)); [apply full_dev_ok|reflexivity|reflexivity].
Defined.

(** A context of segmentation for TCP over IPv4: a header of 54 bytes, segments
    of [mss]. *)
Definition tso_context_bytes (mss : Z) : list Z :=
  [14; 24] ++ le_bytes 2 33 ++ [34; 50] ++ le_bytes 2 0 ++
  le_bytes 4 (6 .| E1000_TXD_CMD_DEXT .| E1000_TXD_CMD_IP .| E1000_TXD_CMD_TCP .| E1000_TXD_CMD_TSE) ++
  [0; 54] ++ le_bytes 2 mss.
Definition tso_context (mss : Z) : e1000_tx_desc := tx_desc_decode (tso_context_bytes mss).
Definition tso_dev (mss : Z) : E1000State :=
  demo_dev <| tx ::= tx_context (context_of_tx_desc (tso_context mss)) |>.
Definition tso_data_bytes (addr len cmd : Z) : list Z :=
  tx_desc_bytes addr (len .| E1000_TXD_CMD_DEXT .| E1000_TXD_DTYP_D .| E1000_TXD_CMD_TSE .| cmd) 0x300.
Definition tso_data (addr len cmd : Z) : e1000_tx_desc := tx_desc_decode (tso_data_bytes addr len cmd).
Definition tso_ram : ram := phys_write (∅ : ram) 0x3000 [1; 2; 3; 4; 5; 6].

Lemma tso_dev_inv mss : dev_inv (tso_dev mss).
Proof.
  apply (keeps_tx_context (X := ram) (P := unit) (tso_context mss) demo_machine demo_dev_inv).
Qed.

Lemma tso_zero_mss_diverges_witness :
  process_tx_desc 1000 (tso_data 0x2000 60 0) (Machine (tso_dev 0) tso_ram [] ()) = OutOfFuel.
Proof.
  apply (tso_zero_mss_diverges (X := ram) (P := unit));
    [apply tso_dev_inv|apply tso_dev_inv|split; reflexivity|discriminate|reflexivity|discriminate|reflexivity].
Defined.

Definition tso_tx : e1000_tx := tx (tso_dev 4) <| tx_sum_needed := 3 |> <| tx_cptse := 1 |>.

Lemma tx_tso_dev mss : tx (tso_dev mss) = tx_context (context_of_tx_desc (tso_context mss)) (tx demo_dev).
Proof. unfold tso_dev. generalize (tx_context (context_of_tx_desc (tso_context mss))). done. Qed.

Lemma tx_ok_options t v :
  tx_ok t → in_w 8 v → tx_ok (t <| tx_sum_needed := v |> <| tx_cptse := 1 |>).
Proof.
  intros [] Hv. split; try done. cbn.
  repeat match goal with H : Forall _ (_ :: _) |- _ => apply Forall_cons_iff in H as [? ?] end.
  by repeat (apply Forall_cons_2; [done|]).
Qed.

Lemma tso_tx_params : tso_params tso_tx.
Proof.
  split; [|discriminate|discriminate|reflexivity..|evaluate_all].
  apply tx_ok_options; [apply tso_dev_inv|evaluate].
Qed.

Lemma tso_packet_segmented_witness :
  ∃ m', process_tx_descs 60 [tso_data 0x2000 54 0; tso_data 0x3000 6 E1000_TXD_CMD_EOP]
      (Machine (tso_dev 4) tso_ram [] ()) = Ret () m' ∧
    length (sent m') = 2%nat ∧ concat (map (drop 54) (sent m')) = [1; 2; 3; 4; 5; 6].
Proof.
  destruct (tso_packet_segmented (X := ram) (P := unit) 60 [tso_data 0x2000 54 0]
    (tso_data 0x3000 6 E1000_TXD_CMD_EOP) (Machine (tso_dev 4) tso_ram [] ()))
    as (m'&fs&Hr&Hs&[Hl _ _ Hp]).
  - apply tso_dev_inv.
  - exact tso_tx_params.
  - reflexivity.
  - reflexivity.
  - repeat constructor.
  - vm_compute. repeat constructor.
  - repeat constructor.
  - reflexivity.
  - vm_compute. repeat constructor.
  - exists m'. split; [exact Hr|]. rewrite Hs. split; [exact Hl|exact Hp].
Defined.

(** The context descriptor in the last slot of a ring of four, the data in the
    first two. *)
Definition tso_ring_ram : ram :=
  phys_write (phys_write (phys_write tso_ram 0x1030 (tso_context_bytes 4))
    0x1000 (tso_data_bytes 0x2000 54 0)) 0x1010 (tso_data_bytes 0x3000 6 E1000_TXD_CMD_EOP).
Definition tso_machine : machine ram unit :=
  Machine (with_regs demo_dev [(TDBAL, 0x1000); (TDLEN, 64); (TDH, 3); (TDT, 2); (TCTL, E1000_TCTL_EN)])
    tso_ring_ram [] ().

Lemma start_xmit_tso_witness :
  ∃ m', start_xmit 70 tso_machine = Ret () m' ∧ reg (dev m') TDH = 2 ∧
    length (sent m') = 2%nat ∧ concat (map (drop 54) (sent m')) = [1; 2; 3; 4; 5; 6].
Proof.
  destruct (start_xmit_tso (X := ram) (P := unit) 70 60 (tso_context 4) [tso_data 0x2000 54 0]
    (tso_data 0x3000 6 E1000_TXD_CMD_EOP) tso_machine) as (m'&fs&Hr&Hs&[Hl _ _ Hp]&Hfin).
  - split; [split|..].
    + by apply with_regs_inv; [apply demo_dev_inv|].
    + evaluate.
    + reflexivity.
    + reflexivity.
    + intros i j Hi Hj Hc. change (i < 3)%nat in Hi. change (j < 3)%nat in Hj.
      destruct i as [|[|[|i]]]; [discriminate Hc|..|lia]; (destruct j as [|[|[|j]]]; [..|lia]);
        apply range_disjoint_sym, range_below; evaluate.
    + vm_compute. reflexivity.
    + reflexivity.
    + reflexivity.
    + rewrite <- tx_context_spec. unfold tso_machine. cbn [dev]. rewrite tx_with_regs.
      change (u8 _) with 3. rewrite <- tx_tso_dev. exact tso_tx_params.
    + repeat constructor.
    + repeat constructor.
    + reflexivity.
    + vm_compute. repeat constructor.
  - vm_compute. repeat constructor.
  - cbn. lia.
  - reflexivity.
  - exists m'. split; [exact Hr|]. split; [exact (fin_head _ _ _ Hfin)|]. rewrite Hs. split; [exact Hl|exact Hp].
Defined.

(** The second segment of a packet waits in the buffer. *)
Definition with_segment (t : e1000_tx) : e1000_tx :=
  t <| tx_size := 56 |> <| tx_tso_frames := 1 |> <| tx_data := replicate (Z.to_nat 0x10000) 7 |>.
Definition seg_machine : machine ram unit := Machine (tso_dev 4 <| tx := with_segment tso_tx |>) tso_ram [] ().

Lemma with_segment_ok t : tx_ok t → tx_ok (with_segment t).
Proof.
  intros []. split; try done.
  - cbn. split; [apply length_replicate|]. apply Forall_replicate. unfold byte_ok. lia.
  - cbn. repeat match goal with H : Forall _ (_ :: _) |- _ => apply Forall_cons_iff in H as [? ?] end.
    repeat (apply Forall_cons_2; [first [done|evaluate]|]). apply Forall_nil_2.
Qed.
Lemma with_segment_params t : tso_params t → tso_params (with_segment t).
Proof. intros []. split; try done. by apply with_segment_ok. Qed.
Lemma set_tx_ok s t : dev_ok s → tx_ok t → dev_ok (s <| tx := t |>).
Proof. intros [] Ht. by split. Qed.
Lemma seg_machine_ok : dev_ok (dev seg_machine).
Proof. exact (set_tx_ok _ _ (proj1 (tso_dev_inv 4)) (with_segment_ok _ (tp_ok _ tso_tx_params))). Qed.

Lemma tso_header_fields_witness :
  ∃ m' f, xmit_seg seg_machine = Ret () m' ∧ sent m' = [f] ∧
    be16_at f 16 = Some 42 ∧ be16_at f 18 = Some (0x0707 + 1) ∧ be32_at f 38 = Some (0x07070707 + 4) ∧
    u8_at f 47 = Some 7.
Proof.
  destruct (tso_header_fields (X := ram) (P := unit) seg_machine (replicate 56 7) 0x0707 0x07070707 7)
    as (m'&f&Hr&Hs&_&_&_&H1&H2&H3&H4&_).
  - exact seg_machine_ok.
  - apply with_segment_params, tso_tx_params.
  - split; by vm_compute.
  - reflexivity.
  - reflexivity.
  - evaluate.
  - reflexivity.
  - reflexivity.
  - reflexivity.
  - exists m', f. split; [exact Hr|]. split; [exact Hs|]. split; [exact H1|]. split; [exact H2|]. split; [exact H3|exact H4].
Defined.

Lemma xmit_seg_in_bounds_witness :
  ∃ m', xmit_seg (Machine (tso_dev 4) tso_ram [] ()) = Ret () m' ∧ dev_ok (dev m').
Proof.
  destruct (xmit_seg_in_bounds (X := ram) (P := unit) (Machine (tso_dev 4) tso_ram [] ())) as (m'&Hr&Hd&_);
    [apply tso_dev_inv|apply tso_dev_inv|]. by exists m'.
Defined.

(** The head lies outside a ring of one slot. *)
Definition stray_tx : machine ram unit :=
  Machine (with_regs demo_dev [(TDLEN, 16); (TDH, 2); (TDT, 3); (TCTL, E1000_TCTL_EN)]) ∅ [] ().

Lemma stray_tx_inv : dev_inv (dev stray_tx).
Proof. by apply with_regs_inv; [apply demo_dev_inv|]. Qed.

Lemma start_xmit_outside_ring_diverges_witness : start_xmit 1000 stray_tx = OutOfFuel.
Proof.
  apply (start_xmit_outside_ring_diverges (X := ram) (P := unit) 1000 stray_tx 1);
    [apply stray_tx_inv|apply stray_tx_inv|reflexivity|lia|reflexivity|discriminate|discriminate|discriminate|].
  intros i Hi. assert (i = 0 ∨ i = 2) as [-> | ->].
  { change (reg (dev stray_tx) TDH) with 2 in Hi. lia. }
  all: reflexivity.
Defined.

(** ** Reception *)

(** A ring of four slots at 0x1000 whose first descriptor has no buffer; the
    second one has one of 2 KiB at 0x4000. *)
Definition rx_ram : ram := phys_write (∅ : ram) 0x1010 (le_bytes 8 0x4000).
Definition rx_regs (tail : Z) : list (Z * Z) :=
  [(RDBAL, 0x1000); (RDLEN, 64); (RDH, 0); (RDT, tail);
   (RCTL, E1000_RCTL_EN .| E1000_RCTL_BAM)].
Definition rx_machine : machine ram unit :=
  Machine (with_regs demo_dev (rx_regs 3) <| rxbuf_size := 2048 |>) rx_ram [] ().
Definition rx_full : machine ram unit :=
  Machine (with_regs demo_dev (rx_regs 0) <| rxbuf_size := 2048 |> <| check_rxov := 1 |>) rx_ram [] ().

Lemma dev_ok_rxbuf s n : 0 ≤ n ≤ 16384 → dev_ok s → dev_ok (s <| rxbuf_size := n |>).
Proof. intros ? [? ? ? [? ?]]. by split. Qed.

Lemma rx_machine_ok : dev_ok (dev rx_machine).
Proof. apply dev_ok_rxbuf; [lia|]. by apply with_regs_inv; [apply demo_dev_inv|]. Qed.

(** A broadcast frame. *)
Definition rx_frame : list Z := replicate 6 255 ++ demo_mac ++ [8; 0] ++ [1; 2; 3].

Lemma rx_frame_ok : bytes_ok rx_frame.
Proof. by apply bytes_okb_ok. Qed.

Lemma rx_frame_accepted : rx_accepts (dev rx_machine) rx_frame.
Proof. split; evaluate. Qed.

Lemma e1000_receive_delivers_witness :
  ∃ r m', e1000_receive 4 rx_frame rx_machine = Ret r m' ∧
    phys_read (mem m') 0x4000 60 = pad_min rx_frame ∧ reg (dev m') RDH = 2.
Proof.
  destruct (e1000_receive_delivers (X := ram) (P := unit) 4 rx_frame 1 rx_machine)
    as (m'&Hr&Hb&_&_&Hd).
  - apply rx_frame_ok.
  - lia.
  - apply rx_frame_accepted.
  - evaluate.
  - split.
    + apply rx_machine_ok.
    + evaluate.
    + evaluate.
    + intros [|[|i]] Hi; [left; discriminate..|lia].
    + intros [|i] Hi; [reflexivity|lia].
    + discriminate.
    + intros [|[|i]] Hi; [..|lia]; apply range_disjoint_sym, range_below; evaluate.
  - eexists _, m'. split; [exact Hr|]. split; [exact Hb|]. rewrite (rc_head _ _ _ _ Hd). reflexivity.
Defined.

Lemma e1000_receive_overrun_witness :
  e1000_receive 1 rx_frame rx_full =
    Ret (-1, rx_frame) (rx_full <| dev := set_ics (dev rx_full) 0 E1000_ICS_RXO |>).
Proof.
  apply (e1000_receive_overrun (X := ram) (P := unit) 0 rx_frame rx_full);
    [split; evaluate|reflexivity|discriminate].
Defined.

Lemma e1000_receive_returns_witness : ∃ r m', e1000_receive 4 rx_frame rx_machine = Ret r m'.
Proof.
  apply (e1000_receive_returns (X := ram) (P := unit) 4 rx_frame rx_machine);
    [apply rx_machine_ok|evaluate|evaluate].
Defined.

(** The head lies outside a ring of one slot. *)
Definition stray_rx : machine ram unit :=
  Machine (with_regs demo_dev [(RDLEN, 16); (RDH, 2); (RDT, 3); (RCTL, E1000_RCTL_EN .| E1000_RCTL_BAM)]
    <| rxbuf_size := 2048 |>) ∅ [] ().

Lemma e1000_receive_outside_ring_diverges_witness : e1000_receive 1000 rx_frame stray_rx = OutOfFuel.
Proof.
  apply (e1000_receive_outside_ring_diverges (X := ram) (P := unit) 1000 rx_frame stray_rx 1);
    [|split; evaluate|lia|reflexivity|discriminate|discriminate|discriminate|].
  - eapply dev_ok_rxbuf, with_regs_inv; [..|apply demo_dev_inv|reflexivity]; lia.
  - intros i Hi. assert (i = 0 ∨ i = 2) as [-> | ->].
    { change (reg (dev stray_rx) RDH) with 2 in Hi. lia. }
    all: reflexivity.
Defined.

(** ** Registers *)


Lemma interrupt_raised_and_acknowledged_witness :
  let m := Machine (set_reg demo_dev IMS E1000_ICS_RXO) (∅ : ram) [] () in
  ∃ m1 m2, e1000_mmio_writel 1 E1000_ICS E1000_ICS_RXO m = Ret () m1 ∧ irq (dev m1) = true ∧
    e1000_mmio_readl E1000_ICR m1 = Ret (E1000_ICS_RXO .| E1000_ICR_INT_ASSERTED) m2 ∧
    irq (dev m2) = false.
Proof.
  intros m. destruct (interrupt_raised_and_acknowledged (X := ram) (P := unit) 1 E1000_ICS_RXO m)
    as (m1&m2&H1&H2&H3&H4&_).
  - apply dev_ok_set_reg; [evaluate|apply demo_dev_ok].
  - evaluate.
  - reflexivity.
  - exists m1, m2. auto.
Defined.

Lemma station_address_accepted_witness :
  ∃ m', mmio_writes 1 [(E1000_RA + 8, le_val (take 4 demo_mac));
                       (E1000_RA + 12, le_val (drop 4 demo_mac) .| E1000_RAH_AV)] demo_machine = Ret () m' ∧
    receive_filter (dev m') (demo_mac ++ [1; 2]) = true.
Proof.
  destruct (station_address_accepted (X := ram) (P := unit) 1 1 demo_mac demo_machine) as (m'&Hr&Hf);
    [lia|apply demo_mac_ok|reflexivity|reflexivity|].
  exists m'. split; [exact Hr|]. by apply Hf.
Defined.

Lemma coalesced_is_complement_witness :
  ¬ Exists (λ r, r.1 ≤ 0xe0000000 + E1000_TDT < r.1 + r.2) (e1000_mmio_map 0xe0000000).
Proof.
  intros Hx. apply (coalesced_is_complement 0xe0000000 E1000_TDT) in Hx; [|evaluate].
  apply Forall_cons_iff in Hx as [_ Hx]. apply Forall_cons_iff in Hx as [_ Hx].
  apply Forall_cons_iff in Hx as [_ Hx]. apply Forall_cons_iff in Hx as [_ Hx].
  apply Forall_cons_iff in Hx as [_ Hx]. apply Forall_cons_iff in Hx as [_ Hx].
  apply Forall_cons_iff in Hx as [Hx _]. apply Hx. evaluate.
Defined.
