(* ===== verification/ExamplesSys.v ===== *)
(** * Concrete runs of the software around the device

    Saved states in memory, messages on a stream, an option file, and a network
    with an announcing firmware. *)

From S2P Require Import Prelude Bytes Memory E1000Hw E1000State E1000Tx Process Message Panel Options OptionsSpec Discovery DiscoverySpec Firmware AdminQ E1000Mmio E1000Inv SaveVm Link LinkErrors Examples.

(** ** Saved states *)

(** A file held in memory. *)
#[export] Instance mem_store : ByteStore (list Z).
Proof.
  refine {| bs_content := λ b, b;
            bs_put := λ bs pos b, (Z.of_nat (length bs), take (Z.to_nat pos) b ++ bs);
            bs_get := λ pos n b, (inr (take (Z.to_nat n) (drop (Z.to_nat pos) b)), b) |}.
  - intros bs b _. eexists. split; [reflexivity|]. by rewrite Nat2Z.id, take_ge.
  - intros pos n b Hp Hn. eexists _, b. split; [reflexivity|].
    assert (0 < length (drop (Z.to_nat pos) b))%nat as Hl by (rewrite length_drop; lia).
    split; [|split; [rewrite length_take; lia|split; [done|]]].
    + intros E. apply (f_equal length) in E. rewrite length_take in E. cbn in E. lia.
    + exists (drop (Z.to_nat n) (drop (Z.to_nat pos) b)). by rewrite take_drop.
Defined.

(** ** Messages that go wrong *)

Lemma corrupted_message_delivered_witness :
  ∃ p', recvdata 3 (replicate 8 0) 8 (wire_proc (msg_header_encode [0; 0] 4 0 ++ [1; 2; 3; 4] ++ [])) =
    Ret (0, [1; 2; 3; 4; 0; 0; 0; 0], 4) p' ∧ w_in (os p') = [].
Proof.
  destruct (corrupted_message_delivered (W := wire) 3 (replicate 8 0) [0; 0] [1; 2; 3; 4] 0 []
    (wire_proc (msg_header_encode [0; 0] 4 0 ++ [1; 2; 3; 4] ++ []))) as (p'&Hr&Hx);
    [by apply bytes_okb_ok|by apply bytes_okb_ok|reflexivity|lia|cbn; lia|cbn; lia|reflexivity|discriminate|].
  exists p'. split; [exact Hr|exact Hx].
Defined.

Lemma firmware_stuck_on_long_message_witness :
  let p := wire_proc (msg_header_encode [0; 0] 33 0 ++ []) in
  ∃ p', t_0_loop 100 3 demo_fw_state p = Ret (demo_fw_state, true) p' ∧ w_in (os p') = w_in (os p).
Proof.
  intros p. destruct (firmware_stuck_on_long_message (W := wire) 100 3 demo_fw_state [0; 0] 33 0 [] p)
    as (p'&Hr&Hx&_); [reflexivity|lia|by vm_compute|reflexivity|].
  exists p'. split; [exact Hr|exact Hx].
Defined.

Definition long_desc : e1000_aq_desc := demo_desc e1000_aqc_echo 4097.
Definition long_stream : list Z :=
  concat (zip_with msg_encode [pad0; pad0] (fw_request long_desc (replicate 4097 0))).

Lemma firmware_data_overflow_witness :
  t_0_loop 1 3 demo_fw_state (wire_proc (long_stream ++ [])) = UB OutOfBounds.
Proof.
  apply (firmware_data_overflow (W := wire) 0 3 demo_fw_state long_desc (replicate 4097 0)
    [pad0; pad0] []).
  - apply demo_fw_state_ok.
  - apply demo_desc_ok; by vm_compute.
  - apply bytes_ok_zeros.
  - reflexivity.
  - by rewrite length_replicate.
  - repeat constructor.
  - reflexivity.
  - reflexivity.
Defined.

Definition answer_stream : list Z :=
  msg_encode pad0 (aq_desc_encode (demo_desc e1000_aqc_echo 4)) ++ msg_encode pad0 [1; 2; 3; 4] ++ [].

#[local] Instance demo_link : MsgLink (proc wire) := proc_link 0.

Lemma aq_answer_overflow_witness :
  aq_receive 3 (demo_desc e1000_aqc_echo 2)
    (Machine demo_dev (∅ : ram) [] (wire_proc answer_stream)) = UB OutOfBounds.
Proof.
  apply (aq_answer_overflow (X := ram) (W := wire) 0 3 (demo_desc e1000_aqc_echo 2)
    (demo_desc e1000_aqc_echo 4) [1; 2; 3; 4] pad0 pad0 []).
  - apply demo_desc_ok; by vm_compute.
  - apply demo_desc_ok; by vm_compute.
  - by apply bytes_okb_ok.
  - reflexivity.
  - reflexivity.
  - reflexivity.
  - reflexivity.
  - reflexivity.
Defined.

(** ** Options and discovery *)

(** A machine with an option file, [n] interfaces, and a firmware that announces
    port 9752 at 10.0.0.2. *)
Definition lab_options : list (string * string) :=
  [("mcastip"%string, "239.0.0.1"%string); ("timeout"%string, "30"%string)].
Definition lab_ifaddr : ifaddr := {|
  ifa_name := "eth0"; ifa_flags := Sys.IFF_UP .| Sys.IFF_MULTICAST;
  ifa_addr := Some (le_bytes 2 Sys.AF_INET ++ [0; 0; 10; 0; 0; 1] ++ replicate 8 0) |}.
Definition lab_from : list Z := le_bytes 2 Sys.AF_INET ++ [0; 99; 10; 0; 0; 9] ++ replicate 8 0.

Definition lab_os (n : nat) : OS unit := {|
  os_malloc := λ _ w, (true, w);
  os_garbage := λ n w, (replicate n 0, w);
  os_fopen := λ _ w, (Some (option_text lab_options), w);
  os_socket := λ _ _ _ w, (inr 3, w);
  os_close := λ _ w, (inr (), w);
  os_setsockopt := λ _ _ _ _ w, (inr (), w);
  os_bind := λ _ _ w, (inr (), w);
  os_listen := λ _ _ w, (inr (), w);
  os_accept := λ _ w, (inl Sys.ECANCELED, w);
  os_connect := λ _ _ w, (inr (), w);
  os_send := λ _ bs w, (inr (Z.of_nat (length bs)), w);
  os_recv := λ _ _ _ w, (inr [], w);
  os_sendto := λ _ bs _ w, (inr (Z.of_nat (length bs)), w);
  os_recvfrom := λ _ _ w, (inr (announce_msg_bytes MAGIC_NUMBER [10; 0; 0; 2] 9752 0, lab_from), w);
  os_select := λ fds t w, (inr (fds, default 0 t), w);
  os_getaddrinfo := λ _ _ _ _ _ w, (None, w);
  os_getifaddrs := λ w, (inr (replicate n lab_ifaddr), w);
  os_getnameinfo := λ _ w, (Some "10.0.0.1"%string, w);
  os_inet_pton := λ _, None;
  os_inet_ntop := λ _ _, None;
|}.

Lemma lab_options_ok : Forall option_ok lab_options.
Proof.
  apply Forall_cons_2; [|apply Forall_cons_2; [|apply Forall_nil_2]];
    (split; [split; [reflexivity|reflexivity|discriminate]|]);
    intros n Hn; vm_compute in Hn; try discriminate Hn. by injection Hn as <-.
Qed.

Lemma ReadOptions_reads_file_witness :
  ∃ p', ReadOptions (H := lab_os 1) None (proc_init ()) = Ret () p' ∧
    mcastip (OPT p') = "239.0.0.1"%string ∧ timeout (OPT p') = 30.
Proof.
  destruct (ReadOptions_reads_file (H := lab_os 1) None None lab_options () (proc_init ())) as [Hr _];
    [reflexivity|discriminate|apply lab_options_ok|reflexivity|].
  eexists. split; [exact Hr|split; reflexivity].
Defined.

(** The multicast and the stream socket of [locate]. *)
Definition lab_panel (fd : Z) : PANEL := {|
  sp_socket := fd; sp_bind := replicate 16 0; sp_dest := replicate 16 0; sp_family := Sys.AF_INET;
  sp_socktype := 0; sp_protocol := 0; sp_flags := 0; sp_zero := 0 |}.
Definition lab_proc : proc unit :=
  proc_init () <| panels := <[1 := lab_panel 3]> (<[2 := lab_panel 4]> ∅) |>.

Lemma locate_connects_to_announced_witness :
  ∃ p', locate_loop (H := lab_os 1) 1 1 2 0 (replicate 12 0) lab_proc = Ret (Some 4) p' ∧
    panels p' !! 2 = Some (lab_panel 4 <| sp_dest := announced_dest lab_from [10; 0; 0; 2] 9752 |>).
Proof.
  destruct (locate_connects_to_announced (H := lab_os 1) 0 1 2 0 (replicate 12 0) lab_proc
    (lab_panel 3) (lab_panel 4) 3 [] 0 [10; 0; 0; 2] 9752 lab_from () () ()) as (p'&Hr&_&Hp);
    try reflexivity; try discriminate; try (by vm_compute).
  exists p'. split; [exact Hr|exact Hp].
Defined.

Lemma populateInterfaceData_counts_witness :
  ∃ acc p', populateInterfaceData (H := lab_os 3) 2 (proc_init ()) = Ret (SOCKET_ERROR, acc, 3) p' ∧
    length acc = 2%nat.
Proof.
  destruct (populateInterfaceData_counts (H := lab_os 3) (λ _ _, ex_intro _ _ eq_refl) 2
    (replicate 3 lab_ifaddr) () (proc_init ())) as (acc&p'&Hr&Hl&_); [lia|reflexivity|].
  exists acc, p'. split; [exact Hr|]. by apply Nat2Z.inj.
Defined.

Lemma announce_too_many_interfaces_witness :
  announce (H := lab_os 33) 9 None (proc_init () <| OPT ::= λ o, o <| set := 1 |> |>) = UB OutOfBounds.
Proof.
  apply (announce_too_many_interfaces (H := lab_os 33) (λ _ _, ex_intro _ _ eq_refl) 9 None
    (replicate 33 lab_ifaddr) ()); [reflexivity|reflexivity|evaluate].
Defined.

Lemma announce_no_interface_witness :
  announce (H := lab_os 0) 9 None (proc_init () <| OPT ::= λ o, o <| set := 1 |> |>) = UB NullDeref.
Proof.
  apply (announce_no_interface (H := lab_os 0) (λ _ _, ex_intro _ _ eq_refl) 8 None [] ());
    [reflexivity|reflexivity|reflexivity|discriminate].
Defined.
