(* ===== verification/ExamplesDrv.v ===== *)
(** * Concrete runs of the guest driver

    The driver on a device whose firmware is connected and on a device without a
    firmware, with a kernel that hands out memory upwards from an address. *)

From S2P Require Import Prelude Bytes Memory E1000Hw E1000State E1000Tx Process Message Firmware AdminQ E1000Mmio Driver Link DriverSpec Examples.

#[export] Instance bump_mem : KernelMem Z := {|
  dma_alloc_coherent := λ size k, (Some k, k + size);
  dma_free_coherent := λ _ _ k, k;
  vmalloc := λ _ k, (true, k);
  kzalloc := λ _ k, (true, k);
|}.

#[export] Instance null_down : DownLink unit.
Proof. refine {| link_down := λ _, True |}. intros [] _. by exists (), (). Defined.

#[export] Instance demo_server_link : MsgLink (proc fwlink) := proc_link 0.
#[export] Instance demo_server : AtqServer ram (proc fwlink) := firmware_server 0.

(** Four slots at 0x10000 and a page behind them for each one. *)
Definition drv_base : Z := 0x10000.
Definition drv_addrs : list Z := [0x10080; 0x10480; 0x10880; 0x10c80].
Definition drv_bis : list e1000_aq_bi := map (λ a, {| bi_dma := Some a; bi_size := 1024 |}) drv_addrs.

Lemma drv_layout : asq_layout drv_base 4 1024 drv_bis.
Proof.
  split; [by vm_compute|lia|lia|]. intros i Hi. assert (i = 0 ∨ i = 1 ∨ i = 2 ∨ i = 3) as Hc by lia.
  destruct Hc as [->|[->|[->| ->]]]; eexists; (split; [reflexivity|]); unfold drv_base; lia.
Qed.

(** A driver before its initialisation. *)
Definition drv_info : e1000_adminq_info := {|
  asq := {| rq_dma := None; rq_count := 0; asq_bi := None; next_to_use := 0; next_to_clean := 0;
            rq_head := 0; rq_tail := 0 |};
  num_asq_entries := 4; num_arq_entries := 0; asq_buf_size := 1024;
  fw_maj_ver := 0; fw_min_ver := 0; api_maj_ver := 0; api_min_ver := 0; asq_spinlock := false |}.

Definition fresh_fw : guest ram (proc fwlink) Z :=
  Guest drv_info 0 0 drv_base [] (Machine (demo_dev <| fs := 4 |>) ∅ [] (proc_init demo_fwlink)).
Definition fresh_alone : guest ram unit Z := Guest drv_info 0 0 drv_base [] demo_machine.

Lemma demo_link_idle : link_idle demo_fwlink.
Proof. split; [reflexivity|]. split; [reflexivity|]. apply demo_fw_state_ok. Qed.

Lemma fresh_fw_ready : init_ready drv_base 4 1024 drv_bis 0 fresh_fw.
Proof.
  split; try reflexivity.
  - discriminate.
  - exists 0x10080, 0x10080, 0x11080, drv_addrs. split_and!; try reflexivity.
    vm_compute. repeat (eexists; split; [reflexivity|]). reflexivity.
  - split; [discriminate|apply demo_link_idle].
  - split; [reflexivity|lia].
  - split; [discriminate|right; reflexivity].
Qed.

Lemma init_adminq_works_witness :
  ∃ g', e1000_init_adminq 0 false fresh_fw = Ret E1000_SUCCESS g' ∧ fw_maj_ver (aq g') = 0x34 ∧
    next_to_use (asq (aq g')) = 1 ∧ reg (dev (mach g')) PF_ATQH = 1.
Proof.
  destruct (init_adminq_works 0 drv_base 4 1024 drv_bis drv_layout 0 fresh_fw fresh_fw_ready)
    as (g'&Hr&Hs&Hv&_).
  exists g'. split; [exact Hr|]. split; [exact Hv|]. destruct Hs as [_ _ _ _ _ _ Hu _ [_ _ _ Hh]].
  split; [exact Hu|exact Hh].
Defined.

Lemma init_queue_full_witness :
  ∃ g', e1000_init_adminq 0 true fresh_alone = Ret E1000_SUCCESS g' ∧
    klog g' = [K_failure E1000_AQ_ERR_QUEUE_FULL; K_fw_maj 0].
Proof.
  destruct (init_queue_full 0 drv_base 4 1024 drv_bis drv_layout fresh_alone) as (g'&Hr&Hl).
  - split; try reflexivity.
    + discriminate.
    + exists 0x10080, 0x10080, 0x11080, drv_addrs. split_and!; try reflexivity.
      vm_compute. repeat (eexists; split; [reflexivity|]). reflexivity.
    + split; reflexivity.
    + split; [reflexivity|lia].
  - lia.
  - reflexivity.
  - reflexivity.
  - exists g'. split; [exact Hr|exact Hl].
Defined.

(** The driver at its last slot, with a command requested. *)
Definition drv_running (cmd : Z) : guest ram (proc fwlink) Z :=
  Guest (drv_info <| asq := {| rq_dma := Some drv_base; rq_count := 4; asq_bi := Some drv_bis;
           next_to_use := 3; next_to_clean := 0; rq_head := E1000_PF_ATQH; rq_tail := E1000_PF_ATQT |} |>)
    0 cmd drv_base []
    (Machine (set_reg (set_reg (set_reg (demo_dev <| fs := 4 |>) PF_ATQBAL drv_base) PF_ATQLEN 4) PF_ATQH 3)
       ∅ [] (proc_init demo_fwlink)).

Lemma drv_running_sync cmd : asq_sync drv_base 4 1024 drv_bis 3 (drv_running cmd).
Proof.
  split; try reflexivity; [|lia|by split; vm_compute].
  split; [discriminate|apply demo_link_idle].
Qed.

Lemma asq_commands_served_witness :
  let cs := [(demo_desc e1000_aqc_get_version 0, None, 0);
             (demo_desc e1000_aqc_echo 0, Some [5; 6], 2); (demo_desc 9 0, None, 0)] in
  ∃ g', asq_commands 0 cs (drv_running 0) = Ret (answers 4 drv_bis 3 cs) g' ∧
    map fst (map fst (answers 4 drv_bis 3 cs)) = [0; 0; 1] ∧ next_to_use (asq (aq g')) = 2.
Proof.
  intros cs. destruct (asq_commands_served 0 drv_base 4 1024 drv_bis drv_layout cs 3 (drv_running 0))
    as (g'&Hr&Hs).
  - apply drv_running_sync.
  - repeat apply Forall_cons_2; [..|apply Forall_nil_2].
    + split; [by apply demo_desc_ok|]. split; [done|]. split; [lia|].
      intros i Hi. split; [discriminate|right; reflexivity].
    + split; [by apply demo_desc_ok|]. split; [|split; [lia|]].
      * intros b [= <-]. split; [by apply bytes_okb_ok|cbn; lia].
      * intros i Hi. split; [discriminate|left; reflexivity].
    + split; [by apply demo_desc_ok|]. split; [done|]. split; [lia|].
      intros i Hi. split; [discriminate|right; reflexivity].
  - exists g'. split; [exact Hr|]. split; [reflexivity|]. exact (sy_use _ _ _ _ _ _ Hs).
Defined.

Lemma watchdog_echo_passes_witness :
  ∃ g', watchdog_adminq 0 (replicate 1024 7) (drv_running 3) = Ret () g' ∧
    klog g' = [K_command 3; K_echo_passed] ∧ adminq_cmd g' = 0.
Proof.
  destruct (watchdog_echo_passes 0 drv_base 4 1024 drv_bis drv_layout 3 (drv_running 3)
    (replicate 1024 7) drv_base) as (g'&Hr&Hl&Hc&_).
  - apply drv_running_sync.
  - reflexivity.
  - apply Forall_replicate. unfold byte_ok. lia.
  - by rewrite length_replicate.
  - discriminate.
  - reflexivity.
  - exists g'. split; [exact Hr|]. split; [exact Hl|exact Hc].
Defined.

Lemma watchdog_version_swapped_witness :
  ∃ g', watchdog_adminq 0 [] (drv_running 1) = Ret () g' ∧
    klog g' = [K_command 1; K_versions 0x13 0x34 0xaf 0xfa].
Proof.
  destruct (watchdog_version_swapped 0 drv_base 4 1024 drv_bis drv_layout 3 (drv_running 1) [])
    as (g'&Hr&Hl&_); [apply drv_running_sync|reflexivity|].
  exists g'. split; [exact Hr|exact Hl].
Defined.

Lemma oversized_buffer_unlocks_witness :
  e1000_asq_send_command 0 false (demo_desc e1000_aqc_echo 0) (Some (replicate 1025 0)) 1025 (drv_running 0) =
    UB BadUnlock.
Proof. apply (oversized_buffer_unlocks 0 false); [reflexivity|reflexivity]. Defined.

(** Every slot from the third one on is complete. *)
Definition drv_lapped : guest ram (proc fwlink) Z :=
  drv_running 0 <| mach ::= λ m, m <| mem := phys_write (phys_write (∅ : ram) 0x10040 [1]) 0x10060 [1] |> |>
    <| aq ::= λ q, q <| asq ::= λ r, r <| next_to_clean := 2 |> |> |>.

Lemma clean_asq_leaves_ring_witness : e1000_clean_asq drv_lapped = UB OutOfBounds.
Proof.
  apply (clean_asq_leaves_ring drv_base 4 1024 drv_bis drv_layout drv_lapped 2);
    [reflexivity|reflexivity|reflexivity|lia|].
  intros i Hi. assert (i = 2 ∨ i = 3) as [-> | ->] by lia; reflexivity.
Defined.

Lemma unknown_command_misreported_witness :
  ∃ d' g', e1000_asq_send_command 0 false (demo_desc 9 0) None 0 (drv_running 0) =
    Ret (DRV_AQ_RC_EPERM, d', None) g'.
Proof.
  destruct (unknown_command_misreported 0 drv_base 4 1024 drv_bis drv_layout 3 (demo_desc 9 0) (drv_running 0))
    as (d'&g'&Hr&_).
  - apply drv_running_sync.
  - by apply demo_desc_ok.
  - reflexivity.
  - rewrite !not_elem_of_cons. split_and!; try discriminate. apply not_elem_of_nil.
  - by exists d', g'.
Defined.
