(* ===== verification/ExamplesPci.v ===== *)
(** * Concrete PCI systems

    A PC's bus with two cards whose first pins share an interrupt line, in the state
    after start-up and with a pin raised, and runs on it. *)

From S2P Require Import Prelude Bytes Memory E1000Hw E1000State E1000Tx AdminQ E1000Mmio Pci PciSpec PciInv PciCfg PciReset PciGuest PciIrq PciAdd E1000Pci SaveVm VmDesc PciVm VmState Examples ExamplesSys.

(** ** A PC *)

Definition pc_root : PCIBus := Bus 0 true pci_slot_get_pirq (replicate 256 None) None 0 [] 4 [0; 0; 0; 0].
Definition pc_empty : PciSys map_fn := Sys ∅ {[0%nat := pc_root]} 1 [].

Lemma pirq_range fn k : 0 ≤ pci_slot_get_pirq fn k < 4.
Proof. unfold pci_slot_get_pirq. change 3 with (Z.ones 2). rewrite Z.land_ones by lia. by apply Z.mod_pos_bound. Qed.

Lemma pc_empty_ok : pci_ok pc_empty ∧ coherent pc_empty ∧ irq_sync pc_empty.
Proof.
  pose proof (first_bus_wp (F := map_fn) pci_slot_get_pirq 0 (λ fn k _ _, pirq_range fn k) eq_refl) as Hw.
  unfold wp in Hw. destruct (pci_register_bus _ _ _ _) as [j s| |]; [|done..]. by destruct Hw as (_&H1&H2&H3&->).
Qed.

(** Slot 3 and slot 7: pin A of both arrives at line 2. *)
Definition pc_one : PciSys map_fn := attach pc_empty 0 (card 0 24 7) pc_root.
Definition pc_bus : PCIBus := plug 1 56 (plug 0 24 pc_root).
Definition pc : PciSys map_fn := attach pc_one 1 (card 0 56 8) (plug 0 24 pc_root).

Lemma card_fresh s n fn idx bus :
  devs s !! n = None → buses s !! 0%nat = Some bus → 0 ≤ fn < 256 → devices bus !! Z.to_nat fn = Some None →
  fresh_dev s n (card 0 fn idx) bus.
Proof.
  intros Hn Hb Hfn Hfree. destruct (card_init 0 fn idx) as (_&Hf&Eb&Ef). destruct Hf.
  split; try assumption. rewrite Ef. by split.
Qed.

Lemma pc_ok : pci_ok pc ∧ coherent pc ∧ irq_sync pc.
Proof.
  destruct pc_empty_ok as (H1&H2&H3).
  assert (fresh_dev pc_empty 0 (card 0 24 7) pc_root) as F1 by (apply card_fresh; done).
  assert (pci_ok pc_one ∧ coherent pc_one ∧ irq_sync pc_one) as (K1&K2&K3).
  { split_and!; [by apply attach_ok|by apply attach_coherent|by apply attach_sync]. }
  assert (fresh_dev pc_one 1 (card 0 56 8) (plug 0 24 pc_root)) as F2.
  { apply card_fresh; [by vm_compute|by vm_compute|done|by vm_compute]. }
  split_and!; [by apply attach_ok|by apply attach_coherent|by apply attach_sync].
Qed.

Definition pc_host : PCIHostState := Build_PCIHostState 0 0.

Lemma pc_dev0 : devs pc !! 0%nat = Some (card 0 24 7).
Proof. done. Qed.

(** The same system after the card in slot 3 raised its pin. *)
Definition card_raised : PCIDevice map_fn := pin_set (card 0 24 7) 0 true.
Definition pc_raised : PciSys map_fn := add_count (set_dev pc 0 card_raised) 0 2 1.

Lemma pc_raised_bus : buses (set_dev pc 0 card_raised) !! 0%nat = Some pc_bus.
Proof. by vm_compute. Qed.

Lemma pc_raised_sync : irq_sync pc_raised.
Proof.
  split; [|by vm_compute]. intros j b k. unfold pc_raised at 1, add_count. rewrite pc_raised_bus. cbn [buses update].
  rewrite lookup_insert_Some. intros [[<- <-]|[Hj Hb]] _ Hk.
  - assert (k = 0 ∨ k = 1 ∨ k = 2 ∨ k = 3) as [->|[->|[->| ->]]] by lia; by vm_compute.
  - revert Hb. cbn. rewrite !lookup_insert_ne by done. by rewrite lookup_singleton_ne by done.
Qed.

Lemma pc_raised_ok : pci_ok pc_raised ∧ irq_sync pc_raised ∧ devs pc_raised !! 0%nat = Some card_raised.
Proof.
  destruct pc_ok as (H1&_&_). split_and!; [|apply pc_raised_sync|].
  - eapply counts_ok; [apply add_count_counts|]. by apply (pin_set_kept pc 0 (card 0 24 7) 0 true).
  - unfold pc_raised. rewrite (ct_devs _ _ (add_count_counts _ _ _ _)). apply lookup_insert_eq.
Qed.

Lemma pc_raised_dev1 : devs pc_raised !! 1%nat = Some (card 0 56 8).
Proof.
  unfold pc_raised. rewrite (ct_devs _ _ (add_count_counts _ _ _ _)). cbn. rewrite lookup_insert_ne by done. apply lookup_insert_eq.
Qed.

(** ** Runs *)

Definition pc_acts : list pci_act := [
  port_config_write 0 (cfg_addr 24 PCI_BASE_ADDRESS_0) 4; port_data_write 0 0xe0000000 4;
  port_config_write 0 (cfg_addr 24 PCI_COMMAND) 4; port_data_write 0 7 2;
  dev_set_irq 0 0 true; dev_set_irq 1 0 true; port_data_read 0 4; dev_reset 1; bus_reset 0].

Lemma pci_run_invariant_witness :
  ∃ t, do_acts pc_acts (pc_host, pc) = Ret () t ∧ pci_ok t.2 ∧ coherent t.2.
Proof.
  destruct pc_ok as (H1&H2&_).
  assert (Forall (act_ok pc) pc_acts) as Ha.
  { repeat apply List.Forall_cons; try apply List.Forall_nil; try exact I; cbn; eauto; split; eauto; lia. }
  pose proof (pci_run_invariant pc_host pc pc_acts H1 H2 (ex_intro _ pc_bus eq_refl) Ha) as Hw.
  apply (proj1 (wp_Ret _ _ _)) in Hw as ([]&t&Et&Ho&Hc&_). exists t. split; [exact Et|]. split; [exact Ho|exact Hc].
Defined.

Lemma config_write_read_witness :
  ∃ v s', (config_write 0 PCI_INTERRUPT_LINE 11 1;; pci_default_read_config 0 PCI_INTERRUPT_LINE 1) pc = Ret v s' ∧
    ∀ k, 0 ≤ k < 8 → Z.testbit v k = Z.testbit 11 k.
Proof.
  destruct pc_ok as (H1&_&_).
  pose proof (config_write_read pc 0 (card 0 24 7) PCI_INTERRUPT_LINE 11 1 H1 eq_refl eq_refl (or_introl eq_refl) ltac:(lia) ltac:(lia)) as Hw.
  apply (proj1 (wp_Ret _ _ _)) in Hw as (v&s'&E&Hv&_).
  exists v, s'. split; [exact E|]. intros k Hk. rewrite Hv by lia.
  assert (k = 0 ∨ k = 1 ∨ k = 2 ∨ k = 3 ∨ k = 4 ∨ k = 5 ∨ k = 6 ∨ k = 7) as Hc by lia.
  by destruct Hc as [->|[->|[->|[->|[->|[->|[->| ->]]]]]]].
Defined.

Lemma pin_change_or_witness :
  ∃ s', pci_set_irq 1 0 1 pc_raised = Ret () s' ∧ irq_sync s' ∧
    ∃ j k v, irq_route pc_raised 1 0 = Some (j, k) ∧ host s' = host pc_raised ++ [bus_set_irq j k (Z.b2z v)].
Proof.
  destruct pc_raised_ok as (H1&H2&_).
  pose proof (pin_change_or pc_raised 1 (card 0 56 8) 0 true H1 H2 pc_raised_dev1 ltac:(lia) eq_refl) as Hw.
  apply (proj1 (wp_Ret _ _ _)) in Hw as ([]&s'&E&Hs&_&Hh). exists s'. split; [exact E|]. split; [exact Hs|].
  destruct Hh as (j&k&v&Hr&Hh&_). exists j, k, v. split; [exact Hr|exact Hh].
Defined.

Lemma config_write_counts_witness :
  ∃ s', config_write 0 PCI_COMMAND PCI_COMMAND_INTX_DISABLE 2 pc_raised = Ret () s' ∧ irq_sync s'.
Proof.
  destruct pc_raised_ok as (H1&H2&H3).
  pose proof (config_write_counts pc_raised 0 card_raised PCI_COMMAND PCI_COMMAND_INTX_DISABLE 2 H1 H2 H3 eq_refl
    ltac:(lia) ltac:(lia) ltac:(lia)) as Hw.
  apply (proj1 (wp_Ret _ _ _)) in Hw as ([]&s'&E&Hs&_). exists s'. split; [exact E|exact Hs].
Defined.

Lemma intx_byte_write_stuck_witness :
  ∃ s' j k b c, (config_write 0 (PCI_COMMAND + 1) 4 1;; pci_set_irq 0 0 0) pc_raised = Ret () s' ∧
    buses s' !! j = Some b ∧ irq_count b !! Z.to_nat k = Some c ∧ line_count s' j k < c.
Proof.
  destruct pc_raised_ok as (H1&H2&H3).
  pose proof (intx_byte_write_stuck pc_raised 0 card_raised 0 4 H1 H2 H3 eq_refl ltac:(lia) eq_refl eq_refl eq_refl) as Hw.
  apply (proj1 (wp_Ret _ _ _)) in Hw as ([]&s'&E&j&k&b&c&_&Hb&Hc&Hl).
  exists s', j, k, b, c. split; [exact E|]. split; [exact Hb|]. split; [exact Hc|exact Hl].
Defined.

Lemma device_reset_stuck_witness :
  ∃ s' j k b c, pci_device_reset 0 pc_raised = Ret () s' ∧
    buses s' !! j = Some b ∧ irq_count b !! Z.to_nat k = Some c ∧ line_count s' j k < c.
Proof.
  destruct pc_raised_ok as (H1&H2&H3).
  pose proof (device_reset_stuck pc_raised 0 card_raised 0 H1 H2 H3 eq_refl ltac:(lia) eq_refl) as Hw.
  apply (proj1 (wp_Ret _ _ _)) in Hw as ([]&s'&E&_&j&k&b&c&_&Hb&Hc&Hl).
  exists s', j, k, b, c. split; [exact E|]. split; [exact Hb|]. split; [exact Hc|exact Hl].
Defined.

(** ** The card *)

Lemma card_added_witness :
  ∃ r s', (put_pdev 0 (new_pci_device 24);; pci_qdev_init 0 0 7 (Some (replicate 3000 0x55)) 0x100000 (replicate 4096 0)) pc_empty =
    Ret r s' ∧ r.1 = 0 ∧ pci_ok s' ∧ coherent s'.
Proof.
  destruct pc_empty_ok as (H1&H2&H3).
  assert (slot_free pc_root 24) as Hf by (apply slot_free_empty; [reflexivity|lia|reflexivity]).
  assert (image_ok (Some (replicate 3000 0x55))) as Hi by (cbn [image_ok]; rewrite length_replicate; lia).
  pose proof (card_added pc_empty 0 0 pc_root 24 7 (Some (replicate 3000 0x55)) 0x100000 (replicate 4096 0) H1 H2 H3
    eq_refl eq_refl eq_refl Hf Hi) as Hw.
  apply (proj1 (wp_Ret _ _ _)) in Hw as (r&s'&E&Hr&Ho&Hc&_).
  exists r, s'. split; [exact E|]. split; [exact Hr|]. split; [exact Ho|exact Hc].
Defined.

Lemma card_started_witness :
  ∃ v t, guest_start 24 0xe0000000 (pc_host, pc) = Ret v t ∧ v = 0xfffe0000 ∧
    host t.2 = cpu_register_physical_memory 0xe0000000 0x20000 7 ::
               map (λ r, qemu_register_coalesced_mmio r.1 r.2) (e1000_mmio_map 0xe0000000).
Proof.
  destruct pc_ok as (H1&H2&_). destruct (card_is_card 0 24 7) as [H3 H4].
  pose proof (card_started pc_host pc 0 (card 0 24 7) pc_bus 7 0xe0000000 H1 H2 eq_refl H3 H4
    eq_refl eq_refl eq_refl eq_refl eq_refl eq_refl eq_refl) as Hw.
  apply (proj1 (wp_Ret _ _ _)) in Hw as (v&t&E&Hv&_&_&Hh).
  exists v, t. split; [exact E|]. split; [exact Hv|exact Hh].
Defined.

(** ** Saved state *)

Lemma raised_loadable : loadable card_raised (card 0 24 7).
Proof.
  split; [by vm_compute|apply (bool_decide_unpack (bytes_ok _)); by vm_compute|by vm_compute|change (2 ≤ 2 ∧ int_ok 2)|change (0 ≤ 1 < 16)]; unfold int_ok; lia.
Qed.

Lemma vmstate_e1000_roundtrip_witness :
  let e := set_reg demo_dev RDBAL 0x1000 in
  ∃ f f' s' e',
    (vmstate_save_state (vmstate_e1000 0 []) (pc_raised, e);; qemu_fflush) (qemu_fopen_ops [] (Some bs_put) None) = Ret () f ∧
    vmstate_load_state (vmstate_e1000 0 []) (pc, demo_dev) 2 (qemu_fopen_ops (opaque f) None (Some bs_get)) =
      Ret (0, (s', e')) f' ∧ migrated e demo_dev e' ∧ loaded 0 card_raised pc s'.
Proof.
  intros e. assert (bs_content (B := list Z) [] = []) as H0 by reflexivity. destruct pc_raised_ok as (_&_&H1). destruct pc_ok as (H2&_&_).
  assert (dev_ok e) as He by (apply dev_ok_set_reg; [by vm_compute|apply demo_dev_ok]).
  destruct (vmstate_e1000_roundtrip (B := list Z) 0 [] [] pc_raised pc card_raised (card 0 24 7) e demo_dev
    H0 He demo_dev_ok H1 eq_refl H2 pc_dev0 eq_refl eq_refl raised_loadable) as (f&f'&s'&e'&E1&E2&_&E3&E4&_).
  exists f, f', s', e'. split; [exact E1|]. split; [exact E2|]. split; [exact E3|exact E4].
Defined.

(** Another vendor's device. *)
Definition other_card : PCIDevice map_fn := card 0 24 7 <| config ::= λ c, pci_set_word c PCI_VENDOR_ID 0x1af4 |>.

Lemma pci_load_rejects_witness :
  ∃ f', vmstate_load_state (vmstate_pci 0 256 []) pc 2 (qemu_fopen_ops (pci_bytes other_card) None (Some bs_get)) =
    Ret (- EINVAL, pc) f'.
Proof.
  destruct (fopen_read_ok (pci_bytes other_card) None) as [Hr Hu].
  pose proof (pci_load_rejects (B := list Z) 0 _ pc other_card (card 0 24 7) [] [] Hr pc_dev0 eq_refl) as Hw.
  assert (wp (vmstate_load_state (vmstate_pci 0 (pci_config_size (card 0 24 7)) []) pc 2) (λ r _, r = (- EINVAL, pc))
    (qemu_fopen_ops (pci_bytes other_card) None (Some bs_get))) as Hw'.
  { apply Hw; [change (2 ≤ 2); lia|change (int_ok 2); unfold int_ok; lia|by rewrite app_nil_r|by vm_compute]. }
  apply (proj1 (wp_Ret _ _ _)) in Hw' as (r&f'&E&->). exists f'. exact E.
Defined.
