(* ===== verification/ExamplesHot.v ===== *)
(** * PCI systems that change

    A bridge with a card behind it, a card taken out, capabilities of a device and
    an option ROM of another card. *)

From S2P Require Import Prelude Bytes Pci PciSpec PciInv PciCfg PciGuest PciIrq PciAdd PciHot PciCap E1000Pci PciMachine ExamplesPci.

(** ** A machine that grows *)

Definition started : Machine := (pc_host, pc_empty).

Lemma started_on : powered_on pci_slot_get_pirq 0 started.
Proof. split; reflexivity. Qed.
Lemma started_ok : machine_ok started.
Proof. apply (power_on_ok pci_slot_get_pirq 0); [intros; apply pirq_range|reflexivity|apply started_on]. Qed.

Definition first_bridge : event := add_bridge 0 0 8 pci_slot_get_pirq.

Lemma first_bridge_enabled : enabled pc_empty first_bridge.
Proof.
  split; [reflexivity|]. split; [intros; apply pirq_range|]. exists pc_root. split; [reflexivity|].
  apply slot_free_empty; [reflexivity|lia|reflexivity].
Qed.

(** After a bridge was added the guest can read its registers, and so on. *)
Lemma machine_never_fails_witness :
  ∃ t t', run_event first_bridge started = Ret 0 t ∧ pci_ok t.2 ∧ coherent t.2 ∧
    run_event (access (port_data_read 0 4)) t = Ret 0 t'.
Proof.
  pose proof (event_wp started first_bridge started_ok first_bridge_enabled) as Hw.
  apply (proj1 (wp_Ret _ _ _)) in Hw as (r&t&Hr&->&_).
  assert (rtc machine_step started t) as Hs by (apply rtc_once; exists first_bridge, 0; split; [apply first_bridge_enabled|exact Hr]).
  destruct (machine_never_fails pci_slot_get_pirq 0 started t (λ fn k _ _, pirq_range fn k) eq_refl started_on Hs) as (H1&H2&H3).
  destruct (H3 (access (port_data_read 0 4)) (or_intror (or_intror eq_refl))) as (t'&Ht'&_).
  exists t, t'. split; [exact Hr|]. split; [exact H1|]. split; [exact H2|exact Ht'].
Defined.

Lemma bridge_added_witness :
  ∃ s', (put_pdev 0 (new_pci_device 8);; pci_qdev_init_bridge 0 0 pci_slot_get_pirq) pc_empty = Ret 0 s' ∧
    pci_ok s' ∧ coherent s' ∧ irq_sync s'.
Proof.
  destruct pc_empty_ok as (H1&H2&H3).
  assert (slot_free pc_root 8) as Hf by (apply slot_free_empty; [reflexivity|lia|reflexivity]).
  pose proof (bridge_added pc_empty 0 0 pc_root 8 pci_slot_get_pirq H1 H2 H3 eq_refl eq_refl eq_refl Hf
    (λ fn k _ _, pirq_range fn k)) as Hw.
  apply (proj1 (wp_Ret _ _ _)) in Hw as (r&s'&E&->&K1&K2&K3&_).
  exists s'. split; [exact E|]. split; [exact K1|]. split; [exact K2|exact K3].
Defined.

Lemma device_removed_witness :
  ∃ s', pci_unregister_device 1 pc = Ret 0 s' ∧ pci_ok s' ∧ coherent s' ∧ irq_sync s' ∧ devs s' = delete 1%nat (devs pc).
Proof.
  destruct pc_ok as (H1&H2&H3).
  assert (devs pc !! 1%nat = Some (card 0 56 8)) as Hd by (apply lookup_insert_eq).
  assert (nothing_behind pc (card 0 56 8)) as Hb by (intros j sec Hj; discriminate Hj).
  pose proof (device_removed pc 1 (card 0 56 8) H1 H2 Hd Hb) as Hw.
  apply (proj1 (wp_Ret _ _ _)) in Hw as (r&s'&E&->&K1&K2&K3&K4&_).
  exists s'. split; [exact E|]. split; [exact K1|]. split; [exact K2|]. split; [exact (K4 eq_refl H3)|exact K3].
Defined.

(** The card in slot 3 is taken out while its pin is raised. *)
Lemma unplug_stuck_witness :
  ∃ r s', pci_unregister_device 0 pc_raised = Ret r s' ∧ devs s' !! 0%nat = None ∧
    ∃ j k b c, buses s' !! j = Some b ∧ irq_count b !! Z.to_nat k = Some c ∧ line_count s' j k < c.
Proof.
  destruct pc_raised_ok as (H1&H2&H3).
  pose proof (unplug_stuck pc_raised 0 card_raised 0 H1 H2 H3 eq_refl ltac:(lia) eq_refl) as Hw.
  apply (proj1 (wp_Ret _ _ _)) in Hw as (r&s'&E&Hn&j&k&b&c&_&Hb&Hc&Hl).
  exists r, s'. split; [exact E|]. split; [exact Hn|]. exists j, k, b, c. split; [exact Hb|]. split; [exact Hc|exact Hl].
Defined.

(** ** Capabilities *)

Definition plain : PCIDevice map_fn := registered 0 24.

Lemma plain_free o : PCI_CONFIG_HEADER_SIZE ≤ o < 256 → pci_get_byte (config_map plain) o = 0.
Proof.
  intros Ho. assert (forallb (λ o, pci_get_byte (config_map plain) o =? 0) (seqZ 64 192) = true) as Hall by (by vm_compute).
  rewrite forallb_forall in Hall. apply Z.eqb_eq, Hall, list_elem_of_In, elem_of_seqZ. lia.
Qed.

Lemma plain_caps : caps_ok plain [].
Proof.
  split; try done.
  - repeat apply List.Forall_cons; try apply List.Forall_nil; by vm_compute.
  - apply (bool_decide_unpack (bytes_ok _)). by vm_compute.
  - by intros x []%not_elem_of_nil.
  - intros o Ho. change (pci_config_size plain) with 256 in Ho. rewrite plain_free by lia. split; [done|].
    by intros (x&[]%not_elem_of_nil&_).
  - intros l1 x l2 y o El. by destruct l1.
Qed.

Lemma capability_added_witness :
  ∃ r d, pci_add_capability PCI_CAP_ID_SSVID 0 PCI_SSVID_SIZEOF plain = Ret r d ∧ r = 0x40 ∧
    pci_find_capability d PCI_CAP_ID_SSVID = Some 0x40.
Proof.
  pose proof (capability_added plain [] PCI_CAP_ID_SSVID 0 PCI_SSVID_SIZEOF plain_caps eq_refl ltac:(lia) ltac:(lia)
    (or_introl eq_refl)) as Hw.
  apply (proj1 (wp_Ret _ _ _)) in Hw as (r&d&E&[(H1&H2&_)|(H1&H2)]).
  - assert (r = 0x40) as Er by (vm_compute in E; injection E as <- _; reflexivity). rewrite Er in *.
    exists 0x40, d. split; [exact E|]. split; [reflexivity|exact H2].
  - exfalso. rewrite decide_True in H2 by reflexivity. destruct H2 as [_ H2]. destruct (H2 0x40) as (x&i&Hx&_); [lia|lia|].
    by apply not_elem_of_nil in Hx.
Defined.

Definition two_caps : PCIDevice map_fn := link_dev 0x05 0x50 10 (link_dev 0x0d 0x40 8 plain).

Lemma two_caps_ok : caps_ok two_caps [Cap 0x50 0x05 10; Cap 0x40 0x0d 8].
Proof.
  assert (caps_ok (link_dev 0x0d 0x40 8 plain) [Cap 0x40 0x0d 8]) as H1.
  { apply linked_ok; [apply plain_caps|lia..|]. intros x Hx. apply plain_free. lia. }
  apply linked_ok; [exact H1|lia..|]. intros x Hx.
  assert (forallb (λ o, pci_get_byte (config_map (link_dev 0x0d 0x40 8 plain)) o =? 0) (seqZ 0x50 10) = true) as Hall by (by vm_compute).
  rewrite forallb_forall in Hall. apply Z.eqb_eq, Hall, list_elem_of_In, elem_of_seqZ. lia.
Qed.

(** The older of the two goes. *)
Lemma capability_removed_witness :
  ∃ d, pci_del_capability 0x0d 8 two_caps = Ret () d ∧ caps_ok d [Cap 0x50 0x05 10].
Proof.
  assert (∀ y, y ∈ [Cap 0x50 0x05 10] → c_id y ≠ c_id (Cap 0x40 0x0d 8)) as Hf
    by (intros y ->%list_elem_of_singleton; done).
  pose proof (capability_removed two_caps [Cap 0x50 0x05 10] (Cap 0x40 0x0d 8) [] two_caps_ok Hf) as Hw.
  apply (proj1 (wp_Ret _ _ _)) in Hw as ([]&d&E&Hd&_). exists d. split; [exact E|exact Hd].
Defined.

(** A PCI Express device whose first 260 bytes are taken: the capability is put
    over the command register. *)
Example capability_truncated :
  let d := plain <| cap_present ::= λ c, c .| QEMU_PCI_CAP_EXPRESS |> in
  let d := pci_config_alloc d in
  let d := d <| config_map ::= λ c, set_bytes c 0 0xff 260 |> in
  pci_find_space d 8 = 0x104 ∧
  ∃ d', pci_add_capability PCI_CAP_ID_SSVID 0 8 d = Ret 0x04 d' ∧ pci_get_byte (config d') PCI_COMMAND = PCI_CAP_ID_SSVID.
Proof. split; [by vm_compute|]. eexists. split; [vm_compute; reflexivity|]. reflexivity. Qed.

(** ** A ROM for another card *)

Definition foreign_rom : list Z :=
  [0x55; 0xaa; 1; 0; 0; 0; 0x7c; 0] ++ replicate 16 0 ++ [0x1c; 0; 0; 0] ++
  [0x50; 0x43; 0x49; 0x52; 0xec; 0x10; 0x39; 0x81] ++ replicate 28 0.

Lemma rom_patched_witness :
  pci_get_word (pci_patch_ids (card 0 24 7) foreign_rom 64) 32 = 0x8086 ∧
  byte_sum (pci_patch_ids (card 0 24 7) foreign_rom 64) `mod` 256 = byte_sum foreign_rom `mod` 256.
Proof.
  assert (bytes_ok foreign_rom) as H1 by (apply (bool_decide_unpack (bytes_ok _)); by vm_compute).
  assert (bytes_ok (config (card 0 24 7))) as H2 by (apply (bool_decide_unpack (bytes_ok _)); by vm_compute).
  assert (256 ≤ length (config (card 0 24 7)))%nat as H3 by (by vm_compute).
  destruct (rom_patched (card 0 24 7) foreign_rom 64 H1 ltac:(by vm_compute) H2 H3 eq_refl ltac:(by vm_compute) ltac:(by vm_compute)
    eq_refl) as (_&Hs&Hv&_). split; [exact Hv|exact Hs].
Defined.
