(* ===== verification/ExamplesIrq.v ===== *)
(** * Two cards on one line

    The two cards of the PC share an interrupt line; the link of one of them
    goes down. A card is plugged into an empty PC, and raises its pin when its link comes up. *)

From S2P Require Import Prelude Bytes Memory E1000Hw AqSpec E1000State E1000Tx E1000Rx AdminQ E1000Mmio E1000Inv Pci PciSpec PciInv PciCfg PciGuest PciIrq PciAdd E1000Pci CardIrq SaveVm VmDesc PciVm VmState E1000Life Examples ExamplesSys ExamplesPci.

(** The first card has interrupts for link changes unmasked. *)
Definition armed : E1000State := set_reg demo_dev IMS E1000_ICR_LSC.
Definition board0 : board ram unit := Board pc {[0%nat := armed; 1%nat := demo_dev]} demo_machine.
Definition link_down : board_act := card_does 0 0 (Op_link true) [false; true; false].

Lemma armed_inv : dev_inv armed.
Proof.
  split; [|by split]. apply dev_ok_set_reg; [by vm_compute|apply demo_dev_ok].
Qed.
Lemma idle_inv : dev_inv demo_dev.
Proof. split; [apply demo_dev_ok|by split]. Qed.

Lemma board0_ok : board_ok board0.
Proof.
  destruct pc_ok as (H1&_&H3). split; [|exact H3]. split; [exact H1| |]; cbn [cards pci board0].
  - intros n c [[<- <-]|[_ [<- <-]%lookup_singleton_Some]]%lookup_insert_Some; split; eauto using armed_inv, idle_inv.
  - intros n d. unfold pc, pc_one, attach, pc_empty. cbn [devs update].
    intros [[<- <-]|[_ [[<- <-]|[_ []%lookup_empty_Some]]%lookup_insert_Some]]%lookup_insert_Some; split; reflexivity.
Qed.

Definition board1 : board ram unit := match run_board_act link_down board0 with Ret _ b => b | _ => board0 end.

Lemma board1_step : board_step board0 board1.
Proof.
  apply (Board_step link_down); [split; [exact I|eauto]|exact I|].
  assert (cards board0 !! 0%nat = Some armed) as Hc by reflexivity.
  pose proof (card_op_wp board0 0 0 (Op_link true) [false; true; false] armed _ (proj1 board0_ok) I Hc eq_refl) as Hw.
  apply (proj1 (wp_Ret _ _ _)) in Hw as ([]&b&E&_). unfold board1, link_down. cbn [run_board_act]. by rewrite E.
Qed.

Lemma shared_line_level_witness :
  ∃ bus v, buses (pci board1) !! 0%nat = Some bus ∧ irq_count bus !! 2%nat = Some v ∧ v ≠ 0.
Proof.
  destruct (shared_line_level board0 board1 board0_ok (rtc_once _ _ board1_step)) as [Hl _].
  assert (set_irq <$> buses (pci board1) !! 0%nat = Some true) as Eb by (vm_compute; reflexivity).
  assert (pci_irq_disabled <$> devs (pci board1) !! 0%nat = Some false) as Ed by (vm_compute; reflexivity).
  assert ((λ c, has_bits (reg c IMS) (reg c ICR)) <$> cards board1 !! 0%nat = Some true) as Ec by (vm_compute; reflexivity).
  assert (irq_route (pci board1) 0 0 = Some (0%nat, 2)) as Er by (vm_compute; reflexivity).
  destruct (buses (pci board1) !! 0%nat) as [bus|] eqn:Hb; [|discriminate Eb].
  destruct (devs (pci board1) !! 0%nat) as [d|] eqn:Hd; [|discriminate Ed].
  destruct (cards board1 !! 0%nat) as [c|] eqn:Hc; [|discriminate Ec].
  apply (inj Some) in Eb, Ed, Ec.
  destruct (Hl 0%nat bus 2 Hb Eb ltac:(lia)) as (v&Hv&Hiff). exists bus, v. split; [reflexivity|]. split; [exact Hv|].
  apply Hiff. exists 0%nat, c, d. split; [exact Hc|]. split; [exact Hd|]. split; [exact Ed|]. split; [exact Er|exact Ec].
Defined.

(** ** A card in an empty PC *)

Definition empty_board : board ram unit := Board pc_empty ∅ demo_machine.

Definition new_dev : E1000State := pci_e1000_init demo_mac e1000_zero.

Lemma plugged : ∃ b, reachable (B := list Z) b ∧ cards b !! 0%nat = Some new_dev ∧ rest b = demo_machine.
Proof.
  set (a := card_arrives 0 0 24 7 None 0 [] demo_mac). destruct pc_empty_ok as (Hok&_).
  assert (slot_free pc_root 24) as Hfree by (by apply slot_free_empty).
  assert (act_possible empty_board a) as Ha.
  { split_and!; [done|done|apply demo_mac_ok|by exists pc_root]. }
  assert (reachable (B := list Z) empty_board) as Hr by (apply reach_start; split_and!; [exact Hok|done..]).
  assert (wp (run_board_act a) (λ _ b, cards b = {[0%nat := new_dev]} ∧ rest b = demo_machine) empty_board) as Hw.
  { cbn [run_board_act a]. unfold card_plug. apply wp_bind, wp_zoom.
    eapply wp_mono; [by apply (card_add_wp _ 0 0 pc_root 24)|]. intros r s' (->&_). by apply wp_modify. }
  apply (proj1 (wp_Ret _ _ _)) in Hw as ([]&b&E&Ec&Er). exists b. split; [by eapply reach_act|]. by rewrite Ec.
Qed.

Lemma worked b fuel op c m :
  reachable (B := list Z) (X := ram) (P := unit) b → cards b !! 0%nat = Some c → op_ok op →
  run_op fuel op (rest b <| dev := c |>) = Ret () m →
  ∃ b', reachable (B := list Z) b' ∧ cards b' !! 0%nat = Some (dev m) ∧ rest b' = m.
Proof.
  intros Hr Hc Hop Hrun. pose proof (card_op_wp b fuel 0 op [true] c m (reachable_ok b Hr) Hop Hc Hrun) as Hw.
  apply (proj1 (wp_Ret _ _ _)) in Hw as ([]&b'&E&_&Er&Ec). exists b'. split_and!; [|by rewrite Ec, lookup_insert_eq|done].
  apply (reach_act b b' (card_does fuel 0 op [true])); [done|split; eauto|exact E].
Qed.

Lemma device_invariant_witness :
  ∃ b c d, reachable (B := list Z) (X := ram) (P := unit) b ∧ cards b !! 0%nat = Some c ∧
    devs (pci b) !! 0%nat = Some d ∧ irq_state d = 1.
Proof.
  destruct plugged as (b0&R0&C0&E0).
  destruct (worked b0 0 (Op_writel (4 * IMS) E1000_ICR_LSC) new_dev (demo_machine <| dev := set_ims new_dev IMS E1000_ICR_LSC |>) R0 C0)
    as (b1&R1&C1&E1); [by vm_compute|by rewrite E0|].
  destruct (worked b1 0 (Op_link false) _ _ R1 C1 I eq_refl) as (b2&R2&C2&E2).
  destruct (device_invariant b2 0 _ R2 C2) as (_&_&_&d&Hd&Hi).
  exists b2. eexists. exists d. split; [exact R2|]. split; [exact C2|]. split; [exact Hd|].
  rewrite Hi. vm_compute. reflexivity.
Defined.
