(* ===== verification/ExamplesSnap.v ===== *)
(** * Snapshots of the PC

    The PC with one raised pin is saved and loaded into a PC that was just started; a
    file with the state of a device that the PC does not have is refused. *)

From S2P Require Import Prelude Bytes Memory E1000Hw E1000State E1000Tx AdminQ E1000Mmio Pci PciSpec PciInv PciCfg PciReset PciGuest PciIrq PciAdd PciPath E1000Pci CardIrq SaveVm VmDesc PciVm VmState Snapshot SnapshotSpec SnapshotCards Examples ExamplesSys ExamplesPci ExamplesIrq.

#[export] Instance idle_processors X P : Processors (board X P) := {|
  cpu_synchronize_all_states := λ b, b; cpu_synchronize_all_post_init := λ b, b
|}.
#[export] Instance idle_processors_laws X P : ProcessorsLaws X P.
Proof. by split. Qed.

Definition board_raised : board ram unit := Board pc_raised (cards board0) (rest board0).

Lemma raised_statics : statics pc = statics pc_raised.
Proof.
  unfold pc_raised. rewrite (ct_statics _ _ (add_count_counts _ _ _ _)). symmetry. apply set_dev_statics with (d := card 0 24 7).
  - exact pc_dev0.
  - by vm_compute.
Qed.

Definition raised_bus : PCIBus := pc_bus <| irq_count := [0; 0; 1; 0] |>.
Lemma raised_root : buses pc_raised !! 0%nat = Some raised_bus.
Proof. unfold pc_raised, add_count. rewrite pc_raised_bus. by vm_compute. Qed.

Lemma idle_loadable : loadable (card 0 56 8) (card 0 56 8).
Proof.
  split; [by vm_compute|apply (bool_decide_unpack (bytes_ok _)); by vm_compute|by vm_compute|change (2 ≤ 2 ∧ int_ok 2)|change (0 ≤ 0 < 16)]; unfold int_ok; lia.
Qed.

Lemma pc_host_bus j x : buses pc_raised !! j = Some x → set_irq x = true → j = 0%nat.
Proof.
  intros Hx _. unfold pc_raised, add_count in Hx. rewrite pc_raised_bus in Hx. cbn [buses update] in Hx.
  apply lookup_insert_Some in Hx as [[<- _]|[Hj Hx]]; [done|]. revert Hx. cbn. rewrite !lookup_insert_ne by done.
  by rewrite lookup_singleton_ne by done.
Qed.

Lemma pc_cards_fit n : n ∈ [0%nat; 1%nat] → card_fits board_raised board0 n.
Proof.
  destruct pc_raised_ok as (_&_&H0). rewrite !elem_of_cons. intros [->|[->|[]%not_elem_of_nil]]; split.
  - exists card_raised, armed. split_and!; [exact H0|reflexivity|apply armed_inv|reflexivity].
  - exists (card 0 24 7), armed. split_and!; [exact pc_dev0|reflexivity|apply armed_inv|reflexivity|reflexivity].
  - cbn [pci board_raised board0]. rewrite H0, pc_dev0. intros d d0 [= <-] [= <-]. exact raised_loadable.
  - exists (card 0 56 8), demo_dev. split_and!; [exact pc_raised_dev1|reflexivity|apply demo_dev_ok|reflexivity].
  - exists (card 0 56 8), demo_dev. split_and!; [reflexivity|reflexivity|apply demo_dev_ok|reflexivity|reflexivity].
  - cbn [pci board_raised board0]. rewrite pc_raised_dev1. intros d d0 Hd Hd0. apply (inj Some) in Hd as <-.
    assert (devs pc !! 1%nat = Some (card 0 56 8)) as E by reflexivity. rewrite E in Hd0. apply (inj Some) in Hd0 as <-.
    exact idle_loadable.
Qed.

Lemma snapshot_restores_cards_witness :
  ∃ r f f' b', register_machine (B := list Z) [] board_raised 0 [0%nat; 1%nat] = Some r ∧
    ('(ret, t) ← qemu_savevm_state 4 (savevm_handlers r) board_raised; qemu_fflush;; mret (ret, t))
      (qemu_fopen_ops [] (Some bs_put) None) = Ret (0, board_raised) f ∧
    qemu_loadvm_state 4 (savevm_handlers r) board0 (qemu_fopen_ops (opaque f) None (Some bs_get)) = Ret (0, b') f' ∧
    restored board_raised board0 0 [0%nat; 1%nat] b'.
Proof.
  destruct pc_raised_ok as (H1&_&_). destruct pc_ok as (H2&_&_).
  assert (bs_content (B := list Z) [] = []) as Hb by reflexivity.
  assert (NoDup [0%nat; 1%nat]) as Hnd by (apply (bool_decide_unpack (NoDup _)); by vm_compute).
  destruct (snapshot_restores_cards (B := list Z) (X := ram) (P := unit) [] 0 [] board_raised board0 [0%nat; 1%nat] 4 raised_bus
    Hb Hnd ltac:(cbn; lia) H1 H2 raised_statics ltac:(vm_compute; lia) raised_root eq_refl eq_refl pc_host_bus pc_cards_fit)
    as (r&f&f'&b'&E1&_&E2&E3&_&E4&_).
  exists r, f, f', b'. split; [exact E1|]. split; [exact E2|]. split; [exact E3|exact E4].
Defined.

(** The state of a device that is not there. *)
Definition stranger : SaveStateEntry (list Z) (board ram unit) :=
  Entry [120] 0 0 1 9 None None (Old_style None None) 0 None false.
Definition pc_bus_entry : SaveStateEntry (list Z) (board ram unit) := bus_entry 0.
Definition strange_file : list Z :=
  be_bytes 4 QEMU_VM_FILE_MAGIC ++ be_bytes 4 QEMU_VM_FILE_VERSION ++
  sections [(pc_bus_entry, bus_bytes raised_bus)] ++ section_start QEMU_VM_SECTION_FULL stranger ++ [1; 2; 3].

Lemma loadvm_rejects_section_witness :
  ∃ b' f', qemu_loadvm_state 2 [pc_bus_entry] board0 (qemu_fopen_ops strange_file None (Some bs_get)) =
    Ret (- EINVAL, b') f' ∧ restored board_raised board0 0 [] b' ∧ unread f' = [1; 2; 3].
Proof.
  destruct pc_raised_ok as (H1&_&_). destruct pc_ok as (H2&_&_).
  destruct (fopen_read_ok (B := list Z) strange_file None) as [Hr Hu].
  assert (buses pc !! 0%nat = Some pc_bus) as Hb by (by vm_compute).
  assert (saves [pc_bus_entry] board_raised (λ t, t = board0) [(pc_bus_entry, bus_bytes raised_bus)]
    (restored (P := unit) board_raised board0 0 [])) as Hs.
  { eapply Saves_cons; [apply bus_entry_ok| |apply Saves_nil].
    apply (bus_saveable 0 board_raised board0 raised_bus pc_bus H1 H2 raised_statics raised_root Hb eq_refl eq_refl). }
  apply (loadvm_rejects_section [pc_bus_entry] board_raised (λ t, t = board0) [(pc_bus_entry, bus_bytes raised_bus)]
    (restored board_raised board0 0 []) 2 board0 (qemu_fopen_ops strange_file None (Some bs_get)) stranger [1; 2; 3]);
    [exact Hr|reflexivity|exact Hs|reflexivity|cbn; lia|by repeat constructor|unfold int_ok; cbn; lia|left; reflexivity|exact Hu].
Defined.
